(* ===== verification/_CoqProject ===== *)
-Q . S2P
Prelude.v
GoTime.v
GoHash.v
GoText.v
GoCodec.v
GoNet.v
GoSeq.v
GoFloat.v
Factors.v
DocStore.v
Service.v
Crud.v
ConfigStores.v
SiteProfiles.v
Revisions.v
Jobs.v
AntiDDoS.v
Sessions.v
Users.v
Audits.v
Approvals.v
Roles.v
Enterprise.v
Suggestions.v
Governance.v
Auth.v
Files.v
Blobs.v
Materials.v
Bundle.v
Inputs.v
Patterns.v
Render.v
Easy.v
EasyRules.v
EasyRender.v
VirtualPatches.v
ManagementHosts.v
L4Guard.v
Mapping.v
Snapshots.v
Requests.v
Compile.v
Candidates.v
Apply.v
Live.v
