(* ===== verification/Prelude.v ===== *)
(** * TARINIO, a web application firewall and its control plane: verification root

    TARINIO is a Go program in three parts.  The control plane (src/control-plane) keeps sites,
    certificates, policies, users and revisions in JSON documents, on files or in Postgres, behind
    HTTP handlers and services.  The compiler (src/compiler) turns a snapshot of that configuration
    into a revision bundle: files for nginx and ModSecurity with a manifest and checksums.  The
    runtime (src/runtime) runs nginx from the active bundle and installs layer-4 filter rules.  An
    administrator changes documents; a revision is compiled from them, saved as pending, approved,
    and applied: its bundle is validated, staged next to the live one, activated by swapping a
    pointer, and nginx is reloaded and probed; on failure the previous pointer is restored.

    ** Files and what they model

    Shared ground:
    - Prelude.v: results, Go's string functions, sorting, look-up by key, sets as sorted lists.
    - GoTime.v (time, RFC 3339), GoHash.v (SHA-256, SHA-1), GoText.v (%q, encoding/json strings,
      net/url), GoCodec.v (base 64, base 32, hexadecimal), GoNet.v (strconv, net addresses),
      GoSeq.v (lists without duplicates, the small regular expressions of the settings),
      GoFloat.v (IEEE 754 doubles as the settings use them: comparison, clamping, decimals).
    - DocStore.v: control-plane/internal/storage/json_state.go, backend.go, migrate.go: a JSON
      document on the file or the Postgres backend, the transaction every store runs, and how
      invariants pass through it.
    - Service.v: the monad of the services over a world of stores, with pre- and postconditions.

    Stores, one document each (control-plane/internal/<package>/store.go):
    - Crud.v and ConfigStores.v: sites, upstreams, tlsconfigs, accesspolicies, ratelimitpolicies,
      wafpolicies, certificates; one theory over the class [Crud], seven instances.
    - SiteProfiles.v: control-plane/internal/easysiteprofiles, an eighth instance: the large record
      of site settings with its normalisation, validation, defaults and presets.
    - VirtualPatches.v and ManagementHosts.v, each with its service; AntiDDoS.v (antiddos) and
      Suggestions.v (antiddossuggestions, services/antiddos_suggestions.go).
    - Revisions.v, Jobs.v, Sessions.v (with step_up.go), Users.v, Audits.v,
      Approvals.v (certificateexportapprovals), Roles.v (with internal/rbac), Enterprise.v.

    Services:
    - Factors.v: password hashes (users/store.go), TOTP and recovery codes (internal/auth).
    - Auth.v: services/auth_*.go over Users.v and Sessions.v.
    - Governance.v: services/enterprise.go over Enterprise.v and Revisions.v.

    From bundle to traffic:
    - Files.v: paths and the file system the compiler and the runtime work on.
    - Blobs.v: the byte side of storage/backend.go and migrate.go: files or rows of two tables, and
      the tree of key files the next two stores share.
    - Materials.v: certificatematerials/store.go and services/certificate_upload.go.
    - Mapping.v: the snapshot and its translation to the compiler's input (services/runtime_apply.go,
      runtime_apply_management_compat.go, management_site.go).
    - Snapshots.v: revisionsnapshots/store.go, the snapshots on disk with their certificate files.
    - Requests.v: services/revision_compile.go over all stores: the request that captures the
      configuration, and the deletion of a revision (services/revision_catalog.go).
    - Inputs.v: the compiler's input records, the checks on text that reaches a configuration file,
      names derived from identifiers, the management site (compiler/internal/compiler).
    - Patterns.v: the regular expressions written for paths, methods and countries.
    - Render.v: site_upstream.go, tls.go, waf.go, access_rate_limit.go with the short templates.
    - Easy.v, EasyRules.v, EasyRender.v: the easy_*.go files: site profiles and their security modes,
      the sign-in gate, time windows, ModSecurity rules with exclusions and virtual patches, and the
      files written for a site.
    - Bundle.v: compiler/internal/compiler/bundle.go and validate.go.
    - Compile.v: compileBundle of services/runtime_apply.go: mapping, all renderers, the files of the
      guard and of the adaptive model, assembly.
    - Candidates.v: staging.go, activation.go, rollback.go.
    - Apply.v: the service of services/runtime_apply.go with reload_health.go; what renders is an
      argument.
    - Live.v: the service of Apply.v over the compiler of Compile.v, down to what nginx decides.
    - L4Guard.v: runtime/config/l4guard/main.go over a class of laws of iptables.

    A store operation is a function [sop]: from an environment (clock, failures of the backend) and
    the document's state to the state afterwards and a result.  A service operation [rop] runs over
    a record of such states.  Operations carry the names of the Go methods, and records of data the
    names of the structs with prefixed fields; [...Tx] is what a method computes between loading and
    saving.  Bytes drawn at random are arguments.

    ** What is proved

    - Stores: every document reachable by any sequence of operations, under any clock and any
      backend failures, is well-formed (unique keys, order, normal form, field agreement); the seven
      configuration stores refine finite maps; normalising settings twice changes nothing more; the
      default settings of a site pass their own validation under every preset but one; the audit chain only grows and any edit of a logged
      event is detected; effects of single operations on every branch.
    - Approval: a revision past the apply gate was approved by enough different people, none of
      them its compiler, over whole histories of the service; exported keys need two people and each
      approval serves once.
    - Sign-in: passwords, one-time and recovery codes verify exactly what they should; challenges
      are redeemed once; step-up locks; what a session in the store is evidence of.
    - Rendering: the access file of a site admits exactly whom its policy admits, a host leads to the
      first site that claims it, an HTTPS site gets its own certificate, included rules stay in their
      directory; compiled expressions match exactly the paths, methods and countries they stand for,
      and never switch off inspection of sign-in requests.
    - Site profiles: the password file of a site admits exactly its enabled users; a site that only
      watches is rendered without anything that blocks; both files of a site name the same gate and
      challenge; rule numbers are distinct within bounds; an exclusion applies to its methods and
      paths only; a stored virtual patch is compiled, and its rule reads back as what was stored.
    - Bytes: an uploaded certificate is read back, and what the upload does to the others (in the
      database it deletes those whose identifier its own begins); a saved snapshot with its
      certificate files stays as it is under everything done to other revisions; a compile request
      enters a revision with a new version whose snapshot holds the current listing of every store.
    - Bundles: the bundle compiled from a snapshot validates; a valid one is consistent with its
      checksums and stays inside its directory; staging never touches the live candidate, activation
      is atomic.
    - Apply: a failed apply leaves or restores the pointer it started from or says that it could
      not, an unapproved revision changes nothing, and job, revision and pointer agree at the end.
    - From documents to decisions: after a succeeded apply the live access file of a site decides for
      every address as the stored policy says, through selection, mapping, rendering, bundle, staging
      and activation; accepted anti-DDoS settings are served back, normalised and within limits.
    - The runtime guard installs exactly the rules of its configuration, twice is once, an IPv6
      failure leaves IPv4 in place, and its clean-up loops end.

    ** Bounds, fuel and assumptions

    Recursion is structural except for decimal printing (20 digits of fuel; 64-bit integers have at
    most 19), hashing (one unit per block), grouping (one per element) and the iptables loops, whose
    termination is a theorem.  Integers are unbounded where the code cannot overflow them in range
    and wrapped to 64 bits where it can (paging).

    Assumed: encoding/json decodes what it encoded, so a document is its content; a save that
    reports an error left the document alone; sort.Slice on records with distinct keys is a stable
    sort; text is ASCII for case folding; one process writes a store at a time (its mutex, or the
    coordinator's lock); bundle roots are plain paths without symbolic links.  Third-party code is
    a class or a parameter with its documented laws: Argon2id, AES-GCM, ed25519, PEM, iptables, nginx
    and its probes, the mail address parser, the QR code library, SQL's LIKE, compiled regular
    expressions ([Regexps]), the printing of floats in JSON ([FloatPrinter]), encoding/json where bytes
    matter ([ManifestCodec], [PointerCodec], [SnapshotCodec]), the long text templates ([Templates],
    [EasyTemplates]).  A concrete instance of each class
    accompanies the theorems that use it.

    ** Not modelled

    The manifest lists every part.  Left out as input and output or glue: HTTP handlers, the HTTP
    server, command line, start-up, dashboards, telemetry and logging, release packaging, Redis and
    Vault clients, ACME.  Error, challenge and sign-in pages and the long nginx templates are text the
    renderers hand data to; they are an interface.  Also left out: the WebAuthn ceremonies and the
    OIDC login (third-party protocols around the sessions modelled here), the scores of the sentinel
    and the request streams of the runtime launcher (log tailing and statistics), the catalogue pages
    over revisions, the thin services that only forward to a modelled store, and the
    syntax check, which runs nginx.  In Apply.v the snapshot store, the reading of key files and the
    syntax check are arguments, so that its theorems hold for every answer they give. *)
From Stdlib Require Import ZArith Lia Ascii String.
From stdpp Require Import base tactics list strings sorting.

#[global] Set Default Goal Selector "!".

Declare Scope go_scope.
Delimit Scope go_scope with go.

(** ** Fallible computations

    A Go function returning [(T, error)] is a [result T].  An [error] is
    represented by its message: [fmt.Errorf] with [%w] concatenates. *)
Inductive result (A : Type) : Type :=
| Ok (a : A)
| Err (msg : string).
Arguments Ok {A} _.
Arguments Err {A} _.

#[export] Instance result_ret : MRet result := fun A a => Ok a.
#[export] Instance result_bind : MBind result := fun A B f m =>
  match m with Ok a => f a | Err e => Err e end.
#[export] Instance result_fmap : FMap result := fun A B f m =>
  match m with Ok a => Ok (f a) | Err e => Err e end.
#[export] Instance result_eq_dec {A} `{EqDecision A} : EqDecision (result A).
Proof.
  intros [a|a] [b|b]; try (right; congruence);
    destruct (decide (a = b)); (left; congruence) || (right; congruence).
Defined.

(** Exposes the matches behind the bind of [result]. *)
Ltac unbind := unfold mbind, result_bind, mret, result_ret in *.

Definition is_ok {A} (r : result A) : bool :=
  match r with Ok _ => true | Err _ => false end.

(** [if cond { return errors.New(msg) }] *)
Definition reject_if (cond : bool) (msg : string) : result unit :=
  if cond then Err msg else Ok tt.

Lemma reject_if_ok cond msg u : reject_if cond msg = Ok u -> cond = false.
Proof. destruct cond; [discriminate | done]. Qed.

Lemma Ok_inj {A} (a b : A) : Ok a = Ok b -> a = b.
Proof. by intros [=]. Qed.

Lemma result_bind_ok {A B} (m : result A) (f : A -> result B) b :
  (m ≫= f) = Ok b <-> exists a, m = Ok a /\ f a = Ok b.
Proof.
  split; [destruct m; simpl; [eauto | discriminate] | by intros (a & -> & ?)].
Qed.

(** ** Strings

    A Go [string] is a sequence of bytes, a [string] here.  [strings.ToLower],
    [strings.ToUpper], [strings.TrimSpace] and [strings.EqualFold] are
    translated on the ASCII range; bytes from 0x80 on are left alone. *)
Definition is_space (c : ascii) : bool :=
  let n := N_of_ascii c in
  ((9 <=? n) && (n <=? 13))%N || (n =? 32)%N.

Definition is_upper (c : ascii) : bool :=
  let n := N_of_ascii c in ((65 <=? n) && (n <=? 90))%N.
Definition is_lower (c : ascii) : bool :=
  let n := N_of_ascii c in ((97 <=? n) && (n <=? 122))%N.
Definition is_digit (c : ascii) : bool :=
  let n := N_of_ascii c in ((48 <=? n) && (n <=? 57))%N.

Definition lower_ascii (c : ascii) : ascii :=
  if is_upper c then ascii_of_N (N_of_ascii c + 32) else c.
Definition upper_ascii (c : ascii) : ascii :=
  if is_lower c then ascii_of_N (N_of_ascii c - 32) else c.

Fixpoint map_string (f : ascii -> ascii) (s : string) : string :=
  match s with
  | EmptyString => EmptyString
  | String c s' => String (f c) (map_string f s')
  end.

Fixpoint all_chars (p : ascii -> bool) (s : string) : bool :=
  match s with
  | EmptyString => true
  | String c s' => p c && all_chars p s'
  end.

Definition to_lower : string -> string := map_string lower_ascii.
Definition to_upper : string -> string := map_string upper_ascii.

Fixpoint trim_left (s : string) : string :=
  match s with
  | EmptyString => EmptyString
  | String c s' => if is_space c then trim_left s' else s
  end.

Fixpoint trim_right (s : string) : string :=
  match s with
  | EmptyString => EmptyString
  | String c s' =>
      match trim_right s' with
      | EmptyString => if is_space c then EmptyString else String c EmptyString
      | t => String c t
      end
  end.

(** [strings.TrimSpace] *)
Definition trim_space (s : string) : string := trim_right (trim_left s).

(** [strings.ToLower(strings.TrimSpace(value))], the normal form every store
    of the control plane gives to identifiers. *)
Definition normalize_id (s : string) : string := to_lower (trim_space s).

Definition is_empty (s : string) : bool :=
  match s with EmptyString => true | _ => false end.

(** [strings.TrimSpace(s) == ""] *)
Definition is_blank (s : string) : bool := is_empty (trim_space s).

(** [strings.EqualFold] *)
Definition equal_fold (a b : string) : bool := String.eqb (to_lower a) (to_lower b).

Fixpoint has_prefix (p s : string) : bool :=
  match p, s with
  | EmptyString, _ => true
  | String a p', String b s' => Ascii.eqb a b && has_prefix p' s'
  | _, _ => false
  end.

Fixpoint drop_chars (n : nat) (s : string) : string :=
  match n, s with
  | S n', String _ s' => drop_chars n' s'
  | _, _ => s
  end.

(** [strings.TrimPrefix(s, p)] *)
Definition trim_prefix (p s : string) : string :=
  if has_prefix p s then drop_chars (String.length p) s else s.

(** [strings.Contains(s, sub)] *)
Fixpoint contains (sub s : string) : bool :=
  has_prefix sub s ||
  match s with EmptyString => false | String _ s' => contains sub s' end.

(** [strings.Split(s, sep)] for a separator of one byte. *)
Fixpoint split_on (sep : ascii) (s : string) : list string :=
  match s with
  | EmptyString => [EmptyString]
  | String c s' =>
      if Ascii.eqb c sep then EmptyString :: split_on sep s'
      else match split_on sep s' with
           | [] => [String c EmptyString]
           | w :: ws => String c w :: ws
           end
  end.

(** [strings.Join(parts, sep)] *)
Fixpoint join (sep : string) (parts : list string) : string :=
  match parts with
  | [] => EmptyString
  | [p] => p
  | p :: ps => (p ++ sep ++ join sep ps)%string
  end.

(** *** Facts about the string functions *)
Lemma ascii_cases (P : ascii -> Prop) :
  (forall n, (n < 256)%nat -> P (ascii_of_nat n)) -> forall c, P c.
Proof. intros H c. rewrite <- (ascii_nat_embedding c). apply H, nat_ascii_bounded. Qed.

Lemma is_space_lower c : is_space (lower_ascii c) = is_space c.
Proof. by destruct c as [[] [] [] [] [] [] [] []]. Qed.
Lemma lower_ascii_idem c : lower_ascii (lower_ascii c) = lower_ascii c.
Proof. by destruct c as [[] [] [] [] [] [] [] []]. Qed.
Lemma upper_ascii_idem c : upper_ascii (upper_ascii c) = upper_ascii c.
Proof. by destruct c as [[] [] [] [] [] [] [] []]. Qed.

Lemma map_string_idem f s :
  (forall c, f (f c) = f c) -> map_string f (map_string f s) = map_string f s.
Proof. intros Hf. induction s as [|c s IH]; simpl; [done|]. by rewrite Hf, IH. Qed.

Lemma to_lower_idem s : to_lower (to_lower s) = to_lower s.
Proof. apply map_string_idem, lower_ascii_idem. Qed.
Lemma to_upper_idem s : to_upper (to_upper s) = to_upper s.
Proof. apply map_string_idem, upper_ascii_idem. Qed.

Lemma trim_left_lower s : trim_left (to_lower s) = to_lower (trim_left s).
Proof.
  induction s as [|c s IH]; simpl; [done|].
  rewrite is_space_lower. destruct (is_space c); [apply IH | done].
Qed.

Lemma trim_right_lower s : trim_right (to_lower s) = to_lower (trim_right s).
Proof.
  induction s as [|c s IH]; simpl; [done|].
  unfold to_lower in *. rewrite IH.
  destruct (trim_right s); simpl; rewrite ?is_space_lower; [|done].
  by destruct (is_space c).
Qed.

Lemma trim_space_lower s : trim_space (to_lower s) = to_lower (trim_space s).
Proof. unfold trim_space. by rewrite trim_left_lower, trim_right_lower. Qed.

Lemma trim_right_idem s : trim_right (trim_right s) = trim_right s.
Proof.
  induction s as [|c s IH]; simpl; [done|].
  destruct (trim_right s) as [|c' t] eqn:E; simpl in *.
  - destruct (is_space c) eqn:Hc; simpl; rewrite ?Hc; done.
  - by rewrite IH.
Qed.

Lemma trim_left_idem s : trim_left (trim_left s) = trim_left s.
Proof.
  induction s as [|c s IH]; simpl; [done|].
  destruct (is_space c) eqn:Hc; simpl; [done | by rewrite Hc].
Qed.

Lemma trim_right_cons c s :
  is_space c = false -> exists t, trim_right (String c s) = String c t.
Proof. intros Hc. simpl. rewrite Hc. destruct (trim_right s); eauto. Qed.

Lemma trim_left_right s :
  trim_left s = s -> trim_left (trim_right s) = trim_right s.
Proof.
  destruct s as [|c s]; [done|]. cbn [trim_left]. intros H.
  destruct (is_space c) eqn:Hc.
  - exfalso. assert (Hlen : forall u, String.length (trim_left u) <= String.length u).
    { induction u as [|d u IHu]; simpl; [done|]. destruct (is_space d); simpl; lia. }
    specialize (Hlen s). rewrite H in Hlen. simpl in Hlen. lia.
  - destruct (trim_right_cons c s Hc) as [t ->]. simpl. by rewrite Hc.
Qed.

Lemma trim_space_idem s : trim_space (trim_space s) = trim_space s.
Proof.
  unfold trim_space. rewrite trim_left_right by apply trim_left_idem.
  apply trim_right_idem.
Qed.

Lemma normalize_id_idem s : normalize_id (normalize_id s) = normalize_id s.
Proof. unfold normalize_id. by rewrite trim_space_lower, trim_space_idem, to_lower_idem. Qed.

Lemma trim_normalize_id s : trim_space (normalize_id s) = normalize_id s.
Proof. unfold normalize_id. by rewrite trim_space_lower, trim_space_idem. Qed.

Lemma is_empty_spec s : is_empty s = true <-> s = ""%string.
Proof. by destruct s. Qed.
Lemma is_empty_false s : is_empty s = false <-> s <> ""%string.
Proof. by destruct s. Qed.

Lemma is_blank_trim s : is_blank (trim_space s) = is_blank s.
Proof. unfold is_blank. by rewrite trim_space_idem. Qed.

Lemma is_blank_cons c s : is_space c = false -> is_blank (String c s) = false.
Proof.
  intros Hc. unfold is_blank, trim_space. cbn [trim_left]. rewrite Hc.
  by destruct (trim_right_cons c s Hc) as [t ->].
Qed.

Lemma equal_fold_refl s : equal_fold s s = true.
Proof. apply String.eqb_refl. Qed.
Lemma equal_fold_sym a b : equal_fold a b = equal_fold b a.
Proof. apply String.eqb_sym. Qed.

Lemma string_app_nil (s : string) : (s ++ "")%string = s.
Proof. induction s as [|c s IH]; [done|]. exact (f_equal (String c) IH). Qed.

Lemma string_length_app a b :
  String.length (a ++ b)%string = String.length a + String.length b.
Proof. induction a as [|c a IH]; simpl; [done|]. rewrite <- IH. done. Qed.

Lemma string_app_assoc (a b c : string) : ((a ++ b) ++ c)%string = (a ++ (b ++ c))%string.
Proof. induction a as [|x a IH]; [done|]. exact (f_equal (String x) IH). Qed.

Lemma has_prefix_app p s : has_prefix p (p ++ s)%string = true.
Proof. induction p as [|c p IH]; [done|]. simpl. rewrite Ascii.eqb_refl. exact IH. Qed.

Lemma trim_prefix_app p s : trim_prefix p (p ++ s)%string = s.
Proof.
  unfold trim_prefix. rewrite has_prefix_app.
  induction p as [|c p IH]; [done|]. exact IH.
Qed.

(** *** Splitting, joining and words *)
Section Words.
Local Open Scope string_scope.

Lemma split_on_ne sep s : split_on sep s <> [].
Proof. destruct s as [|c s]; simpl; [done|]. destruct (Ascii.eqb c sep); [done|]. by destruct (split_on sep s). Qed.

Lemma split_on_clean sep s :
  all_chars (fun a => negb (Ascii.eqb a sep)) s = true -> split_on sep s = [s].
Proof.
  induction s as [|c s IH]; simpl; [done|]. intros [Hc Hs]%andb_true_iff.
  apply negb_true_iff in Hc. by rewrite Hc, (IH Hs).
Qed.

Lemma split_on_app sep a b :
  all_chars (fun c => negb (Ascii.eqb c sep)) a = true ->
  split_on sep (a ++ String sep b) = a :: split_on sep b.
Proof.
  induction a as [|c a IH]; simpl.
  - by rewrite Ascii.eqb_refl.
  - intros [Hc Ha]%andb_true_iff. apply negb_true_iff in Hc. rewrite Hc. by rewrite (IH Ha).
Qed.

Lemma split_on_joined sep parts :
  parts <> [] -> Forall (fun p => all_chars (fun c => negb (Ascii.eqb c sep)) p = true) parts ->
  split_on sep (join (String sep "") parts) = parts.
Proof.
  intros Hne Hp. induction Hp as [|p ps Hp Hps IH]; [done|].
  destruct ps as [|q ps]; [by apply split_on_clean|].
  change (join (String sep "") (p :: q :: ps)) with (p ++ String sep (join (String sep "") (q :: ps))).
  by rewrite split_on_app, IH.
Qed.

Lemma all_chars_impl (p q : ascii -> bool) s :
  (forall c, p c = true -> q c = true) -> all_chars p s = true -> all_chars q s = true.
Proof.
  intros Hpq. induction s as [|c s IH]; simpl; [done|]. intros [Hc Hs]%andb_true_iff.
  apply andb_true_iff. auto.
Qed.

(** A text without blanks is its own [TrimSpace]. *)
Lemma trim_space_no_space s : all_chars (fun c => negb (is_space c)) s = true -> trim_space s = s.
Proof.
  assert (Hr : forall s, all_chars (fun c => negb (is_space c)) s = true -> trim_right s = s).
  { induction s0 as [|c s0 IH]; simpl; [done|]. intros [Hc Hs]%andb_true_iff.
    apply negb_true_iff in Hc. rewrite (IH Hs), Hc. by destruct s0. }
  intros Hs. unfold trim_space. rewrite <- (Hr s Hs) at 2. f_equal.
  destruct s as [|c s]; [done|]. cbn [all_chars trim_left] in *.
  apply andb_true_iff in Hs as [Hc _]. apply negb_true_iff in Hc. by rewrite Hc.
Qed.

Lemma all_chars_app p a b : all_chars p (a ++ b) = all_chars p a && all_chars p b.
Proof.
  induction a as [|c a IH]; [done|].
  change (String c a ++ b) with (String c (a ++ b)). cbn [all_chars]. by rewrite IH, andb_assoc.
Qed.

Lemma all_chars_split p sep s :
  p sep = true -> Forall (fun part => all_chars p part = true) (split_on sep s) -> all_chars p s = true.
Proof.
  intros Hp. induction s as [|c s IH]; simpl; [done|]. destruct (Ascii.eqb_spec c sep) as [->|Hc].
  - intros [_ H]%Forall_cons. by rewrite Hp, IH.
  - destruct (split_on sep s) as [|w ws].
    + intros [[H1 _]%andb_true_iff _]%Forall_cons. rewrite H1. by apply IH.
    + intros [[H1 H2]%andb_true_iff H3]%Forall_cons. rewrite H1. apply IH. by constructor.
Qed.

Lemma trim_right_app a b : b <> "" -> trim_right b = b -> trim_right (a ++ b) = a ++ b.
Proof.
  intros Hb Ht. induction a as [|c a IH]; [done|].
  change (String c a ++ b) with (String c (a ++ b)). cbn [trim_right]. rewrite IH.
  destruct (a ++ b) as [|c' s] eqn:E; [|done]. exfalso. apply Hb.
  apply (f_equal String.length) in E. rewrite string_length_app in E.
  destruct b; [done|]. simpl in E. lia.
Qed.

(** A text without blanks *)
Definition word (s : string) : bool := all_chars (fun c => negb (is_space c)) s.

Lemma word_app a b : word (a ++ b) = word a && word b.
Proof. apply all_chars_app. Qed.

Lemma word_trim s : word s = true -> trim_space s = s.
Proof. apply trim_space_no_space. Qed.
End Words.

(** ** 64-bit integers *)
Definition wrap64 (n : Z) : Z := ((n + 2 ^ 63) mod 2 ^ 64 - 2 ^ 63)%Z.

Lemma wrap64_small n : (- 2 ^ 63 <= n < 2 ^ 63)%Z -> wrap64 n = n.
Proof. intros H. unfold wrap64. rewrite Z.mod_small; lia. Qed.

Create HintDb go.
Create Rewrite HintDb go.
#[export] Hint Rewrite to_lower_idem to_upper_idem trim_space_idem normalize_id_idem
  trim_normalize_id is_blank_trim : go.

(** ** Orders on sort keys

    [sort.Slice] is called with a strict order on a key of the elements; the
    class collects what the sorting lemmas need. *)
Class KeyOrder (K : Type) := {
  klt : K -> K -> bool;
  klt_irrefl k : klt k k = false;
  klt_trans a b c : klt a b = true -> klt b c = true -> klt a c = true;
  klt_total a b : klt a b = false -> klt b a = false -> a = b
}.

Definition string_lt (a b : string) : bool :=
  match String.compare a b with Lt => true | _ => false end.

Lemma ascii_compare_refl c : Ascii.compare c c = Eq.
Proof. apply N.compare_refl. Qed.

Lemma string_compare_refl s : String.compare s s = Eq.
Proof. induction s as [|c s IH]; simpl; [done|]. by rewrite ascii_compare_refl. Qed.

Lemma string_compare_trans a b c :
  String.compare a b = Lt -> String.compare b c = Lt -> String.compare a c = Lt.
Proof.
  revert b c; induction a as [|x a IH]; intros [|y b] [|z c]; simpl; try done.
  unfold Ascii.compare.
  destruct (N.compare_spec (N_of_ascii x) (N_of_ascii y)) as [E1|L1|G1]; try done;
  destruct (N.compare_spec (N_of_ascii y) (N_of_ascii z)) as [E2|L2|G2]; try done;
  intros; destruct (N.compare_spec (N_of_ascii x) (N_of_ascii z)); try done; try lia;
  eauto.
Qed.

#[export, refine] Instance string_order : KeyOrder string := {| klt := string_lt |}.
Proof.
  - intros k. unfold string_lt. by rewrite string_compare_refl.
  - intros a b c. unfold string_lt.
    destruct (String.compare a b) eqn:E1; try done.
    destruct (String.compare b c) eqn:E2; try done.
    by rewrite (string_compare_trans _ _ _ E1 E2).
  - intros a b. unfold string_lt. rewrite (String.compare_antisym b a).
    destruct (String.compare a b) eqn:E; try done.
    intros _ _. by apply String.compare_eq_iff.
Defined.

#[export, refine] Instance Z_order : KeyOrder Z := {| klt := Z.ltb |}.
Proof. all: intros; rewrite ?Z.ltb_lt, ?Z.ltb_ge in *; lia. Defined.

(** [if a1 == b1 { return a2 < b2 }; return a1 < b1] *)
Definition pair_lt {A B} `{EqDecision A} `{KeyOrder A} `{KeyOrder B} (x y : A * B) : bool :=
  if decide (x.1 = y.1) then klt x.2 y.2 else klt x.1 y.1.

#[export, refine] Instance pair_order {A B} `{EqDecision A} `{KeyOrder A} `{KeyOrder B} :
  KeyOrder (A * B) := {| klt := pair_lt |}.
Proof.
  - intros [a b]. unfold pair_lt. simpl. rewrite decide_True by done. apply klt_irrefl.
  - intros [a1 b1] [a2 b2] [a3 b3]. unfold pair_lt; simpl.
    repeat case_decide; subst; try done; eauto using klt_trans; intros H12 H23.
    exfalso. pose proof (klt_trans _ _ _ H12 H23). by rewrite klt_irrefl in *.
  - intros [a1 b1] [a2 b2]. unfold pair_lt; simpl.
    repeat case_decide; subst; try done; intros ? ?.
    + f_equal. by apply klt_total.
    + exfalso. eauto using klt_total.
Defined.

(** ** Sorting

    [sort.Slice(items, less)] with [less] the order of a key.  The model is
    the insertion sort Go runs on short slices; [sort_on_unique] shows that
    any sorted permutation is the same list as soon as keys are distinct, so
    the choice of algorithm does not matter where keys are unique. *)
Section Sort.
Context {A K : Type} `{KeyOrder K}.
Variable key : A -> K.

Definition key_le (x y : A) : Prop := klt (key y) (key x) = false.

Fixpoint sort_insert (x : A) (l : list A) : list A :=
  match l with
  | [] => [x]
  | y :: l' => if klt (key y) (key x) then y :: sort_insert x l' else x :: y :: l'
  end.

Definition sort_on (l : list A) : list A := foldr sort_insert [] l.

Definition sorted_on (l : list A) : Prop := StronglySorted key_le l.

#[export] Instance key_le_trans : Transitive key_le.
Proof.
  intros x y z. unfold key_le. intros Hxy Hyz.
  destruct (klt (key z) (key x)) eqn:Hzx; [|done].
  destruct (klt (key x) (key y)) eqn:Exy.
  - by rewrite (klt_trans _ _ _ Hzx Exy) in Hyz.
  - pose proof (klt_total _ _ Exy Hxy) as E. rewrite E in Hzx. congruence.
Qed.

Lemma key_le_asym x y : klt (key x) (key y) = true -> key_le x y.
Proof.
  unfold key_le. intros Hxy. destruct (klt (key y) (key x)) eqn:Hyx; [|done].
  pose proof (klt_trans _ _ _ Hxy Hyx) as E. by rewrite klt_irrefl in E.
Qed.

Lemma sort_insert_perm x l : sort_insert x l ≡ₚ x :: l.
Proof.
  induction l as [|y l IH]; simpl; [done|].
  destruct (klt (key y) (key x)); [|done]. rewrite IH. constructor.
Qed.

Lemma sort_on_perm l : sort_on l ≡ₚ l.
Proof. induction l as [|x l IH]; simpl; [done|]. by rewrite sort_insert_perm, IH. Qed.

Lemma sort_insert_sorted x l : sorted_on l -> sorted_on (sort_insert x l).
Proof.
  induction 1 as [|y l Hs IH Hall]; simpl; [repeat constructor|].
  destruct (klt (key y) (key x)) eqn:Hyx.
  - constructor; [done|]. rewrite sort_insert_perm. constructor; [|done].
    by apply key_le_asym.
  - constructor; [by constructor|]. constructor; [done|].
    eapply Forall_impl; [exact Hall|]. intros z Hz. by transitivity y.
Qed.

Lemma sort_on_sorted l : sorted_on (sort_on l).
Proof. induction l; simpl; [constructor | by apply sort_insert_sorted]. Qed.

Lemma sort_insert_head x l : Forall (key_le x) l -> sort_insert x l = x :: l.
Proof. intros Hl. destruct Hl as [|y l Hy]; simpl; [done|]. by rewrite Hy. Qed.

Lemma sort_on_id l : sorted_on l -> sort_on l = l.
Proof.
  induction 1 as [|x l Hs IH Hall]; simpl; [done|].
  rewrite IH. by apply sort_insert_head.
Qed.

Lemma sort_on_idem l : sort_on (sort_on l) = sort_on l.
Proof. apply sort_on_id, sort_on_sorted. Qed.

Lemma sort_on_nil : sort_on [] = [].
Proof. done. Qed.

Lemma length_sort_on l : length (sort_on l) = length l.
Proof. by rewrite sort_on_perm. Qed.

Lemma elem_of_sort_on x l : x ∈ sort_on l <-> x ∈ l.
Proof. by rewrite sort_on_perm. Qed.

Lemma Forall_sort_on P l : Forall P (sort_on l) <-> Forall P l.
Proof. by rewrite sort_on_perm. Qed.

Lemma sorted_perm_eq l l' :
  NoDup (key <$> l) -> l ≡ₚ l' -> sorted_on l -> sorted_on l' -> l = l'.
Proof.
  intros Hnd Hp Hl. revert l' Hp Hnd. induction Hl as [|x l Hl IH Hx]; intros l' Hp Hnd Hl'.
  { by apply Permutation_nil_l in Hp. }
  destruct Hl' as [|y l' Hl' Hy]; [by apply Permutation_nil_r in Hp|].
  assert (x = y) as <-.
  { assert (Hxy : x ∈ y :: l') by (rewrite <- Hp; left).
    assert (Hyx : y ∈ x :: l) by (rewrite Hp; left).
    apply elem_of_cons in Hxy as [->|Hxy]; [done|].
    apply elem_of_cons in Hyx as [->|Hyx]; [done|].
    rewrite Forall_forall in Hx, Hy. apply Hx in Hyx as H1. apply Hy in Hxy as H2.
    pose proof (klt_total _ _ H2 H1) as E.
    rewrite fmap_cons, NoDup_cons in Hnd. destruct Hnd as [Hnd _].
    destruct Hnd. rewrite E. by apply list_elem_of_fmap_2. }
  apply Permutation_cons_inv in Hp. rewrite fmap_cons, NoDup_cons in Hnd.
  f_equal. apply IH; [done | apply Hnd | done].
Qed.

Lemma sort_on_unique l l' :
  NoDup (key <$> l) -> l' ≡ₚ l -> sorted_on l' -> l' = sort_on l.
Proof.
  intros Hnd Hp Hs. apply sorted_perm_eq; [by rewrite Hp| |done|apply sort_on_sorted].
  by rewrite Hp, sort_on_perm.
Qed.

(** Sortedness only depends on the keys. *)
Lemma sorted_on_keys l l' : key <$> l = key <$> l' -> sorted_on l -> sorted_on l'.
Proof.
  intros E Hl. revert l' E. induction Hl as [|x l Hl IH Hx]; intros [|y l'] E;
  try discriminate; constructor; rewrite !fmap_cons in E; injection E as E1 E2.
  - by apply IH.
  - apply Forall_forall. intros z Hz.
    assert (Hin : key z ∈ key <$> l) by (rewrite E2; by apply list_elem_of_fmap_2).
    apply list_elem_of_fmap in Hin as (w & Hw & Hin). rewrite Forall_forall in Hx.
    apply Hx in Hin. unfold key_le in *. by rewrite Hw, <- E1.
Qed.

Lemma sorted_on_delete l i : sorted_on l -> sorted_on (delete i l).
Proof.
  intros Hs. revert i. induction Hs as [|x l Hs IH Hx]; intros i; [destruct i; constructor|].
  destruct i as [|i]; [done|]. change (delete (S i) (x :: l)) with (x :: delete i l).
  constructor; [apply IH | by apply Forall_delete].
Qed.

Lemma sorted_on_filter (P : A -> Prop) `{forall x, Decision (P x)} l :
  sorted_on l -> sorted_on (filter P l).
Proof.
  induction 1 as [|x l Hs IH Hx]; [constructor|]. rewrite filter_cons.
  case_decide; [|done]. constructor; [done|]. apply Forall_forall. intros y Hy.
  apply list_elem_of_filter in Hy as [_ Hy]. by eapply Forall_forall in Hx.
Qed.
End Sort.
#[export] Hint Resolve sort_on_perm sort_on_sorted sort_on_idem : go.
#[export] Hint Rewrite @sort_on_idem @length_sort_on : go.

Lemma NoDup_fmap_perm {A B} (f : A -> B) l l' :
  l ≡ₚ l' -> NoDup (f <$> l) <-> NoDup (f <$> l').
Proof. by intros ->. Qed.

Lemma NoDup_fmap_sort_on {A B K} `{KeyOrder K} (key : A -> K) (f : A -> B) l :
  NoDup (f <$> sort_on key l) <-> NoDup (f <$> l).
Proof. apply NoDup_fmap_perm, sort_on_perm. Qed.
#[export] Hint Rewrite @NoDup_fmap_sort_on : go.

(** ** Index loops

    [for i := range items { if items[i].ID != id { continue }; ... }]: the
    first element that satisfies a test, with its index. *)
Section Find.
Context {A : Type}.
Implicit Types (p : A -> bool) (l : list A).

Definition find_where p l : option (nat * A) := list_find (fun x => p x) l.

Lemma find_where_Some p l i x :
  find_where p l = Some (i, x) ->
  l !! i = Some x /\ p x = true /\ forall j y, l !! j = Some y -> j < i -> p y = false.
Proof.
  intros (Hi & Hx & Hj)%list_find_Some. split_and!; [done | by apply Is_true_true |].
  intros j y Hy Hlt. apply Is_true_false. by eapply Hj.
Qed.

Lemma find_where_elem p l i x : find_where p l = Some (i, x) -> x ∈ l /\ p x = true.
Proof. intros (Hi & Hx & _)%find_where_Some. split; [by eapply list_elem_of_lookup_2 | done]. Qed.

Lemma find_where_None p l : find_where p l = None <-> forall x, x ∈ l -> p x = false.
Proof.
  unfold find_where. rewrite list_find_None, Forall_forall.
  split; intros H x Hx; apply H in Hx; by apply Is_true_false.
Qed.

Lemma find_where_cons p x l :
  find_where p (x :: l) =
  if p x then Some (0, x) else prod_map S id <$> find_where p l.
Proof. unfold find_where. simpl. by destruct (p x). Qed.

Lemma find_where_ex p l x : x ∈ l -> p x = true -> exists i y, find_where p l = Some (i, y).
Proof.
  intros Hx Hp. destruct (find_where p l) as [[i y]|] eqn:E; [eauto|].
  rewrite find_where_None in E. rewrite (E _ Hx) in Hp. discriminate.
Qed.
End Find.

Lemma sublist_fmap_mono {A B} (f : A -> B) l k :
  l `sublist_of` k -> (f <$> l) `sublist_of` (f <$> k).
Proof. induction 1; simpl; by constructor. Qed.

(** Items with a string identifier, as every store keeps them. *)
Section Keyed.
Context {A : Type}.
Variable key : A -> string.
Implicit Types (l : list A) (x : A).

Definition has_key (id : string) (x : A) : bool := String.eqb (key x) id.

Definition find_key (id : string) l : option (nat * A) := find_where (has_key id) l.

Lemma has_key_true id x : has_key id x = true <-> key x = id.
Proof. apply String.eqb_eq. Qed.
Lemma has_key_false id x : has_key id x = false <-> key x <> id.
Proof. apply String.eqb_neq. Qed.

Lemma find_key_Some id l i x :
  find_key id l = Some (i, x) -> l !! i = Some x /\ key x = id.
Proof. intros (Hi & Hx & _)%find_where_Some. by rewrite has_key_true in Hx. Qed.

Lemma find_key_None id l : find_key id l = None <-> id ∉ key <$> l.
Proof.
  unfold find_key. rewrite find_where_None, list_elem_of_fmap. split.
  - intros H (x & -> & Hx). apply H in Hx. by rewrite has_key_false in Hx.
  - intros H x Hx. rewrite has_key_false. intros <-. eauto.
Qed.

Lemma find_key_unique l x :
  NoDup (key <$> l) -> x ∈ l -> exists i, find_key (key x) l = Some (i, x).
Proof.
  intros Hnd Hx. destruct (find_where_ex (has_key (key x)) l x) as (i & y & E); [done| |].
  { by apply has_key_true. }
  pose proof E as (Hi & Hk & _)%find_where_Some. rewrite has_key_true in Hk.
  apply list_elem_of_lookup in Hx as [j Hj].
  assert (i = j) as ->.
  { eapply NoDup_lookup; [exact Hnd| |]; rewrite list_lookup_fmap.
    - by rewrite Hi.
    - rewrite Hj. simpl. by rewrite Hk. }
  exists j. unfold find_key. rewrite E. congruence.
Qed.

Lemma find_key_insert id l i x y :
  find_key id l = Some (i, x) -> key y = id -> find_key id (<[i:=y]> l) = Some (i, y).
Proof.
  unfold find_key, find_where. intros (Hi & Hx & Hj)%list_find_Some Hy.
  apply list_find_Some. split_and!.
  - apply list_lookup_insert_eq. by eapply lookup_lt_Some.
  - by apply Is_true_true, has_key_true.
  - intros j z Hz Hlt. rewrite list_lookup_insert_ne in Hz by lia. by eapply Hj.
Qed.

Lemma find_key_snoc id l x :
  find_key id l = None -> key x = id -> find_key id (l ++ [x]) = Some (length l, x).
Proof.
  unfold find_key, find_where. intros Hn Hx. apply list_find_app_Some. right.
  split; [done|]. split; [done|]. rewrite Nat.sub_diag. simpl.
  assert (has_key id x = true) as E by by apply has_key_true. by rewrite E.
Qed.

Lemma fmap_key_insert l i x y :
  l !! i = Some x -> key y = key x -> key <$> <[i:=y]> l = key <$> l.
Proof.
  intros Hi Hk. rewrite list_fmap_insert, Hk. apply list_insert_id.
  by rewrite list_lookup_fmap, Hi.
Qed.

Lemma NoDup_key_delete l i : NoDup (key <$> l) -> NoDup (key <$> delete i l).
Proof.
  intros H. eapply sublist_NoDup; [exact H|].
  apply sublist_fmap_mono, sublist_delete.
Qed.

Lemma NoDup_key_filter (P : A -> Prop) `{forall x, Decision (P x)} l :
  NoDup (key <$> l) -> NoDup (key <$> filter P l).
Proof. intros Hn. eapply sublist_NoDup; [exact Hn|]. apply sublist_fmap_mono, sublist_filter. Qed.

Lemma NoDup_key_snoc l x :
  NoDup (key <$> l) -> key x ∉ key <$> l -> NoDup (key <$> (l ++ [x])).
Proof.
  intros Hnd Hx. rewrite fmap_app, NoDup_app. split_and!; [done| |].
  - intros y Hy Hy'. simpl in Hy'. apply list_elem_of_singleton in Hy' as ->. done.
  - simpl. apply NoDup_singleton.
Qed.

Lemma elem_of_delete_key l i x y :
  NoDup (key <$> l) -> l !! i = Some x ->
  y ∈ delete i l <-> y ∈ l /\ key y <> key x.
Proof.
  intros Hnd Hi. pose proof (delete_Permutation l i x Hi) as Hp.
  rewrite Hp in Hnd. rewrite fmap_cons, NoDup_cons in Hnd. destruct Hnd as [Hx _].
  rewrite Hp at 2. rewrite elem_of_cons. split.
  - intros Hy. split; [by right|]. intros E. apply Hx. rewrite <- E.
    by apply list_elem_of_fmap_2.
  - intros [[->|Hy] Hne]; done.
Qed.
End Keyed.

Lemma insert_as_fmap {A} (key : A -> string) (f : A -> A) l i x :
  NoDup (key <$> l) -> l !! i = Some x ->
  <[i := f x]> l = (fun y => if String.eqb (key y) (key x) then f y else y) <$> l.
Proof.
  intros Hn Hi. apply list_eq. intros j. rewrite list_lookup_fmap.
  destruct (decide (i = j)) as [<-|Hne].
  - rewrite list_lookup_insert_eq by (by eapply lookup_lt_Some).
    rewrite Hi. simpl. by rewrite String.eqb_refl.
  - rewrite list_lookup_insert_ne by done.
    destruct (l !! j) as [y|] eqn:Hj; [|done]. simpl. f_equal.
    destruct (String.eqb (key y) (key x)) eqn:E; [|done]. apply String.eqb_eq in E.
    destruct Hne. apply (NoDup_lookup _ i j (key x) Hn); rewrite list_lookup_fmap, ?Hi, ?Hj;
      simpl; congruence.
Qed.

Lemma elem_of_insert_list {A} (l : list A) i x y z :
  l !! i = Some x -> z ∈ <[i:=y]> l -> z = y \/ z ∈ l.
Proof.
  intros Hi [j Hj]%list_elem_of_lookup. destruct (decide (i = j)) as [<-|Hne].
  - rewrite list_lookup_insert_eq in Hj by (by eapply lookup_lt_Some). left. congruence.
  - rewrite list_lookup_insert_ne in Hj by done. right. by eapply list_elem_of_lookup_2.
Qed.

Lemma Forall_insert_list {A} (P : A -> Prop) l i x :
  Forall P l -> P x -> Forall P (<[i:=x]> l).
Proof. intros Hl Hx. by apply Forall_insert. Qed.

(** ** Checking a range by computation *)
Fixpoint all_below (p : Z -> bool) (n : nat) (z : Z) : bool :=
  match n with
  | O => true
  | S n' => p z && all_below p n' (z + 1)%Z
  end.

Lemma all_below_spec p n z x : all_below p n z = true -> (z <= x < z + Z.of_nat n)%Z -> p x = true.
Proof.
  revert z. induction n as [|n IH]; intros z; [lia|].
  cbn [all_below]. intros [H1 H2]%andb_true_iff Hx.
  destruct (decide (x = z)) as [->|Hne]; [done|]. apply (IH (z + 1)%Z); [done | lia].
Qed.

(** ** Sets of words kept as sorted lists *)

(** The loops that trim (and lower-case) values, drop empty ones and repetitions and sort. *)
Definition sorted_set (f : string -> string) (items : list string) : list string :=
  sort_on id (remove_dups (List.filter (fun v => negb (is_empty v)) (f <$> items))).

(** Sorted lists without repetition are determined by their elements. *)
Lemma sorted_set_eq (l l' : list string) :
  NoDup l -> NoDup l' -> sorted_on id l -> sorted_on id l' -> (forall p, p ∈ l <-> p ∈ l') -> l = l'.
Proof.
  intros Hn Hn' Hs Hs' He. apply (sorted_perm_eq id); [by rewrite list_fmap_id| |done|done].
  by apply NoDup_Permutation.
Qed.

Section SortedSet.
Variable f : string -> string.

Lemma elem_of_sorted_set items v :
  v ∈ sorted_set f items <-> v <> ""%string /\ exists x, x ∈ items /\ v = f x.
Proof.
  unfold sorted_set. rewrite elem_of_sort_on, elem_of_remove_dups, list_elem_of_In, filter_In.
  rewrite <- list_elem_of_In, list_elem_of_fmap, negb_true_iff, is_empty_false. naive_solver.
Qed.

Lemma sorted_set_sorted items : NoDup (sorted_set f items) /\ sorted_on id (sorted_set f items).
Proof.
  unfold sorted_set. split; [|apply sort_on_sorted]. rewrite sort_on_perm. apply NoDup_remove_dups.
Qed.

Lemma sorted_set_idem items :
  (forall x, f (f x) = f x) -> sorted_set f (sorted_set f items) = sorted_set f items.
Proof.
  intros Hf. destruct (sorted_set_sorted items), (sorted_set_sorted (sorted_set f items)).
  apply sorted_set_eq; try done. intros p. rewrite elem_of_sorted_set. split.
  - intros [Hp (x & Hx & ->)]. apply elem_of_sorted_set in Hx as [Hx (y & Hy & ->)].
    apply elem_of_sorted_set. rewrite Hf in *. eauto.
  - intros Hp. pose proof (proj1 (elem_of_sorted_set _ _) Hp) as [Hne (y & Hy & ->)].
    split; [done|]. exists (f y). by rewrite Hf.
Qed.
End SortedSet.

#[export] Hint Resolve NoDup_key_delete NoDup_key_filter NoDup_key_snoc Forall_insert_list : go.

(** Breaks a goal about a chain of guarded steps into its branches. *)
Ltac guards :=
  repeat match goal with
    | H : context [if ?b then _ else _] |- _ =>
        lazymatch b with
        | decide _ => fail
        | _ => destruct b eqn:?; simplify_eq/=
        end
    | H : context [match ?x with Some _ => _ | None => _ end] |- _ =>
        destruct x as [?|] eqn:?; simplify_eq/=
    | H : Ok _ = Ok _ |- _ => injection H as H; subst
    | H : Ok _ = Err _ |- _ => discriminate H
    | H : Err _ = Ok _ |- _ => discriminate H
    end.
