(* ===== verification/GoTime.v ===== *)
(** * Instants and RFC 3339

    What the control plane uses of Go's [time] package: instants as Unix
    nanoseconds in UTC, [Format(time.RFC3339)], [Format(time.RFC3339Nano)] and
    [time.Parse(time.RFC3339, s)].  Durations are nanoseconds too.

    The parser accepts the RFC 3339 grammar (four-digit year, optional
    fraction, [Z] or a numeric offset) and rejects impossible dates, as the
    fast path of [time.Parse] does.  The main fact is [parse_format]: what
    [Format(RFC3339)] writes parses back to the instant truncated to seconds,
    for every year from 0 to 9999. *)
From Stdlib Require Import ZArith Lia Ascii String.
From stdpp Require Import base tactics strings list.
From S2P Require Import Prelude.
Local Open Scope Z_scope.

Definition second : Z := 1000000000.
Definition minute : Z := 60 * second.
Definition hour : Z := 60 * minute.

(** ** Calendar

    Days since 1970-01-01 and proleptic Gregorian dates, computed in eras of
    400 years that start on the first of March. *)
Definition doy_of (m d : Z) : Z :=
  (153 * (if m <=? 2 then m + 9 else m - 3) + 2) / 5 + d - 1.

Definition days_from_civil (y m d : Z) : Z :=
  let y' := if m <=? 2 then y - 1 else y in
  let era := y' / 400 in
  let yoe := y' mod 400 in
  era * 146097 + (yoe * 365 + yoe / 4 - yoe / 100 + doy_of m d) - 719468.

(** Year of the era, month and day for a day of the era. *)
Definition civil_of_doe (doe : Z) : Z * Z * Z :=
  let yoe := (doe - doe / 1460 + doe / 36524 - doe / 146096) / 365 in
  let doy := doe - (365 * yoe + yoe / 4 - yoe / 100) in
  let mp := (5 * doy + 2) / 153 in
  (yoe, (if mp <? 10 then mp + 3 else mp - 9), doy - (153 * mp + 2) / 5 + 1).

Definition civil_from_days (days : Z) : Z * Z * Z :=
  let z := days + 719468 in
  let '(yoe, m, d) := civil_of_doe (z mod 146097) in
  let y := yoe + z / 146097 * 400 in
  ((if m <=? 2 then y + 1 else y), m, d).

Definition leap (y : Z) : bool :=
  (y mod 4 =? 0) && (negb (y mod 100 =? 0) || (y mod 400 =? 0)).

Definition days_in (y m : Z) : Z :=
  if m =? 2 then (if leap y then 29 else 28)
  else if (m =? 4) || (m =? 6) || (m =? 9) || (m =? 11) then 30 else 31.

(** ** Text *)
Definition digit (n : Z) : ascii := ascii_of_N (48 + Z.to_N n).
Definition digit_value (c : ascii) : option Z :=
  if is_digit c then Some (Z.of_N (N_of_ascii c) - 48) else None.

Definition pad2 (n : Z) : string := String (digit (n / 10)) (String (digit (n mod 10)) "").
Definition pad4 (n : Z) : string := (pad2 (n / 100) ++ pad2 (n mod 100))%string.

Definition format_date (y m d : Z) : string :=
  (pad4 y ++ "-" ++ pad2 m ++ "-" ++ pad2 d)%string.
Definition format_clock (sod : Z) : string :=
  (pad2 (sod / 3600) ++ ":" ++ pad2 (sod mod 3600 / 60) ++ ":" ++ pad2 (sod mod 60))%string.

(** [t.UTC().Format(time.RFC3339)]; the year is printed with four digits. *)
Definition format_rfc3339 (t : Z) : string :=
  let s := t / second in
  let '(y, m, d) := civil_from_days (s / 86400) in
  (format_date y m d ++ "T" ++ format_clock (s mod 86400) ++ "Z")%string.

Fixpoint trim_zeros (s : string) : string :=
  match s with
  | EmptyString => EmptyString
  | String c s' =>
      match trim_zeros s' with
      | EmptyString => if Ascii.eqb c "0" then EmptyString else String c EmptyString
      | t => String c t
      end
  end.

(** The nine digits printed for the nanoseconds of a second. *)
Definition nano_digits (ns : Z) : string :=
  (pad4 (ns / 100000) ++ pad4 (ns / 10 mod 10000) ++ String (digit (ns mod 10)) "")%string.

Definition nano_suffix (frac : string) : string :=
  ((if is_empty frac then "" else "." ++ frac) ++ "Z")%string.

(** [t.UTC().Format(time.RFC3339Nano)]: a fraction without trailing zeros. *)
Definition format_rfc3339_nano (t : Z) : string :=
  let s := t / second in
  let ns := t mod second in
  let '(y, m, d) := civil_from_days (s / 86400) in
  let frac := trim_zeros (nano_digits ns) in
  (format_date y m d ++ "T" ++ format_clock (s mod 86400) ++ nano_suffix frac)%string.

Definition take2 (s : string) : option (Z * string) :=
  match s with
  | String a (String b s') =>
      match digit_value a, digit_value b with
      | Some x, Some y => Some (10 * x + y, s')
      | _, _ => None
      end
  | _ => None
  end.

Definition expect (c : ascii) (s : string) : option string :=
  match s with
  | String a s' => if Ascii.eqb a c then Some s' else None
  | EmptyString => None
  end.

(** Digits of a fraction: at most nine count, [scale] is the weight of the next. *)
Fixpoint take_fraction (scale acc : Z) (s : string) : Z * string :=
  match s with
  | String c s' =>
      match digit_value c with
      | Some x => take_fraction (scale / 10) (acc + x * scale) s'
      | None => (acc, s)
      end
  | EmptyString => (acc, s)
  end.

Definition parse_fraction (s : string) : option (Z * string) :=
  match s with
  | String "." (String c s') =>
      match digit_value c with
      | Some _ => Some (take_fraction 100000000 0 (String c s'))
      | None => None
      end
  | String "." EmptyString => None
  | _ => Some (0, s)
  end.

(** Offset in seconds east of UTC. *)
Definition parse_zone (s : string) : option Z :=
  match s with
  | String "Z" EmptyString => Some 0
  | String sign s =>
      sgn ← (if Ascii.eqb sign "+" then Some 1 else if Ascii.eqb sign "-" then Some (-1) else None);
      '(hh, s) ← take2 s;
      s ← expect ":" s;
      '(mm, s) ← take2 s;
      if (hh <=? 23) && (mm <=? 59) && is_empty s then Some (sgn * (hh * 3600 + mm * 60)) else None
  | EmptyString => None
  end.

(** [time.Parse(time.RFC3339, s)] *)
Definition parse_rfc3339 (s : string) : option Z :=
  '(y1, s) ← take2 s;
  '(y2, s) ← take2 s;
  s ← expect "-" s;
  '(mo, s) ← take2 s;
  s ← expect "-" s;
  '(d, s) ← take2 s;
  s ← expect "T" s;
  '(hh, s) ← take2 s;
  s ← expect ":" s;
  '(mm, s) ← take2 s;
  s ← expect ":" s;
  '(ss, s) ← take2 s;
  '(ns, s) ← parse_fraction s;
  off ← parse_zone s;
  let y := 100 * y1 + y2 in
  if (1 <=? mo) && (mo <=? 12) && (1 <=? d) && (d <=? days_in y mo) &&
     (hh <=? 23) && (mm <=? 59) && (ss <=? 59)
  then Some ((days_from_civil y mo d * 86400 + hh * 3600 + mm * 60 + ss - off) * second + ns)
  else None.

Example parse_ex :
  parse_rfc3339 "2026-08-13T10:20:30.5+02:00" = Some (1786609230 * second + 500000000).
Proof. vm_compute. reflexivity. Qed.
Example format_ex : format_rfc3339 (1786609230 * second + 7) = "2026-08-13T08:20:30Z"%string.
Proof. vm_compute. reflexivity. Qed.

(** ** The calendar round trip

    Years of an era and days of a year are checked by enumeration; that the
    year of a day is the one whose range holds it follows by monotonicity. *)
Definition year_start (y : Z) : Z := y * 365 + y / 4 - y / 100.
Definition yoe_of (doe : Z) : Z := (doe - doe / 1460 + doe / 36524 - doe / 146096) / 365.

Lemma yoe_mono a b : 0 <= a <= b -> b < 146097 -> yoe_of a <= yoe_of b.
Proof.
  intros H Hb. unfold yoe_of. apply Z.div_le_mono; [lia|].
  destruct (decide (a = b)) as [->|Hne]; [lia|].
  assert (a / 146096 = 0) by (apply Z.div_small; lia).
  destruct (decide (b = 146096)) as [->|Hb'].
  - assert (a / 36524 <= 3) by (apply Z.lt_succ_r, Z.div_lt_upper_bound; lia).
    assert (0 <= a / 36524) by (apply Z.div_pos; lia).
    assert (0 <= a / 1460) by (apply Z.div_pos; lia).
    change (146096 / 1460) with 100. change (146096 / 36524) with 4.
    change (146096 / 146096) with 1.
    pose proof (Z.div_mod a 1460 ltac:(lia)). pose proof (Z.mod_pos_bound a 1460 ltac:(lia)). lia.
  - assert (b / 146096 = 0) by (apply Z.div_small; lia).
    assert (a / 36524 <= b / 36524) by (apply Z.div_le_mono; lia).
    assert (b / 1460 - a / 1460 <= b - a); [|lia].
    pose proof (Z.div_mod a 1460 ltac:(lia)). pose proof (Z.mod_pos_bound a 1460 ltac:(lia)).
    pose proof (Z.div_mod b 1460 ltac:(lia)). pose proof (Z.mod_pos_bound b 1460 ltac:(lia)). lia.
Qed.

Lemma year_start_bound y : 0 <= y < 400 -> 0 <= year_start y < 146097.
Proof. unfold year_start. intros H. Z.div_mod_to_equations. lia. Qed.

Lemma years_checked :
  all_below (fun y => (yoe_of (year_start y) =? y) &&
      (yoe_of (year_start (y + 1) - (if y =? 399 then 0 else 1)) =? y) &&
      ((year_start (y + 1) - year_start y + (if y =? 399 then 1 else 0)) =?
         365 + (if leap (y + 1) then 1 else 0))) 400 0 = true.
Proof. vm_compute. reflexivity. Qed.

Lemma yoe_range doe :
  0 <= doe < 146097 ->
  0 <= yoe_of doe < 400 /\ 0 <= doe - year_start (yoe_of doe) < 365 + (if leap (yoe_of doe + 1) then 1 else 0).
Proof.
  intros H. remember (yoe_of doe) as y eqn:Ey.
  assert (Hy : 0 <= y < 400).
  { pose proof (yoe_mono 0 doe ltac:(lia) ltac:(lia)) as H0. pose proof (yoe_mono doe 146096 ltac:(lia) ltac:(lia)) as H1.
    change (yoe_of 0) with 0 in H0. change (yoe_of 146096) with 399 in H1. lia. }
  split; [done|].
  pose proof (all_below_spec _ _ _ y years_checked ltac:(lia)) as Hc. cbv beta in Hc.
  rewrite !andb_true_iff, !Z.eqb_eq in Hc. destruct Hc as [[H1 H2] H3].
  assert (year_start y <= doe) as Hlo.
  { destruct (Z_le_gt_dec (year_start y) doe) as [|Hlt]; [done|]. exfalso.
    destruct (decide (y = 0)) as [->|Hne]; [change (year_start 0) with 0 in Hlt; lia|].
    pose proof (all_below_spec _ _ _ (y - 1) years_checked ltac:(lia)) as Hc. cbv beta in Hc.
    rewrite !andb_true_iff, !Z.eqb_eq in Hc. destruct Hc as [[_ Hp] _].
    destruct (Z.eqb_spec (y - 1) 399); [lia|]. replace (y - 1 + 1) with y in Hp by lia.
    assert (Hys : year_start y - 1 < 146097) by (pose proof (year_start_bound y); lia).
    pose proof (yoe_mono doe (year_start y - 1) ltac:(lia) Hys) as Hm.
    lia. }
  destruct (Z.eqb_spec y 399) as [Hy9|Hy9].
  - rewrite Hy9 in *. change (year_start (399 + 1)) with 146096 in *. lia.
  - split; [lia|]. destruct (Z_lt_ge_dec doe (year_start (y + 1))) as [|Hge]; [lia|]. exfalso.
    pose proof (all_below_spec _ _ _ (y + 1) years_checked ltac:(lia)) as Hc. cbv beta in Hc.
    rewrite !andb_true_iff, !Z.eqb_eq in Hc. destruct Hc as [[Hn _] _].
    pose proof (year_start_bound (y + 1) ltac:(lia)).
    pose proof (yoe_mono (year_start (y + 1)) doe ltac:(lia) ltac:(lia)). lia.
Qed.

Definition month_of_doy (doy : Z) : Z :=
  let mp := (5 * doy + 2) / 153 in if mp <? 10 then mp + 3 else mp - 9.
Definition day_of_doy (doy : Z) : Z := doy - (153 * ((5 * doy + 2) / 153) + 2) / 5 + 1.

Lemma days_checked :
  all_below (fun doy =>
    (1 <=? month_of_doy doy) && (month_of_doy doy <=? 12) && (1 <=? day_of_doy doy) &&
    (day_of_doy doy <=? days_in (if doy =? 365 then 4 else 1) (month_of_doy doy)) &&
    (doy_of (month_of_doy doy) (day_of_doy doy) =? doy) &&
    (if doy =? 365 then month_of_doy doy =? 2 else true)) 366 0 = true.
Proof. vm_compute. reflexivity. Qed.

Lemma days_in_leap y m : days_in 1 m <= days_in y m.
Proof. unfold days_in. destruct (m =? 2); [change (leap 1) with false; by destruct (leap y) | lia]. Qed.

Lemma civil_of_doe_eq doe :
  civil_of_doe doe =
    (yoe_of doe, month_of_doy (doe - year_start (yoe_of doe)),
     day_of_doy (doe - year_start (yoe_of doe))).
Proof. unfold year_start. rewrite (Z.mul_comm (yoe_of doe) 365). reflexivity. Qed.

Lemma civil_of_doe_spec doe yoe m d :
  0 <= doe < 146097 -> civil_of_doe doe = (yoe, m, d) ->
  0 <= yoe < 400 /\ 1 <= m <= 12 /\ 1 <= d <= days_in (if m <=? 2 then yoe + 1 else yoe) m /\
  yoe * 365 + yoe / 4 - yoe / 100 + doy_of m d = doe.
Proof.
  intros H. rewrite civil_of_doe_eq. intros E0.
  destruct (yoe_range doe H) as [Hy Hd]. remember (yoe_of doe) as y0 eqn:Ey.
  remember (doe - year_start y0) as doy eqn:Edoy.
  injection E0 as -> Em Ed. clear Ey.
  pose proof (all_below_spec _ _ _ doy days_checked ltac:(destruct (leap _); lia)) as Hc.
  cbv beta in Hc. rewrite Em, Ed, !andb_true_iff, !Z.leb_le, Z.eqb_eq in Hc.
  destruct Hc as (((((H1 & H2) & H3) & H4) & H5) & H6).
  assert (E : year_start yoe + doy_of m d = doe) by lia.
  split; [done|]. split; [done|]. split; [split; [done|] | exact E].
  destruct (Z.eqb_spec doy 365) as [E5|]; [|by etransitivity; [|apply days_in_leap]].
  apply Z.eqb_eq in H6. rewrite H6. simpl. destruct (leap (yoe + 1)) eqn:L; [|lia].
  rewrite H6 in H4. unfold days_in in *. simpl in *. by rewrite L.
Qed.

Lemma leap_era y era : leap (y + era * 400) = leap y.
Proof.
  unfold leap. replace (y + era * 400) with (y + era * 100 * 4) at 1 by lia.
  replace (y + era * 400) with (y + era * 4 * 100) at 1 by lia.
  by rewrite !Z_mod_plus_full.
Qed.

Lemma civil_roundtrip days y m d :
  civil_from_days days = (y, m, d) ->
  days_from_civil y m d = days /\ 1 <= m <= 12 /\ 1 <= d <= days_in y m.
Proof.
  unfold civil_from_days, days_from_civil.
  set (z := days + 719468). pose proof (Z.mod_pos_bound z 146097 ltac:(lia)) as Hb.
  destruct (civil_of_doe (z mod 146097)) as [[yoe m0] d0] eqn:Ec.
  apply civil_of_doe_spec in Ec as (H1 & H2 & H3 & H4); [|done]. intros [= <- <- <-].
  pose proof (Z.div_mod z 146097 ltac:(lia)) as Hz.
  assert (E : (if m0 <=? 2 then (if m0 <=? 2 then yoe + z / 146097 * 400 + 1 else yoe + z / 146097 * 400) - 1
               else if m0 <=? 2 then yoe + z / 146097 * 400 + 1 else yoe + z / 146097 * 400)
              = yoe + z / 146097 * 400) by (destruct (m0 <=? 2); lia).
  rewrite E, Z.div_add, Z_mod_plus_full, (Z.div_small yoe), (Z.mod_small yoe) by lia.
  cbv zeta. rewrite H4. split; [unfold z in *; lia|]. split; [done|].
  split; [apply H3|]. etransitivity; [apply H3|]. unfold z. unfold days_in.
  replace (if m0 <=? 2 then yoe + (days + 719468) / 146097 * 400 + 1
           else yoe + (days + 719468) / 146097 * 400)
    with ((if m0 <=? 2 then yoe + 1 else yoe) + (days + 719468) / 146097 * 400)
    by (destruct (m0 <=? 2); lia).
  by rewrite leap_era.
Qed.

(** ** The text round trip *)
Lemma digits_checked :
  forallb (fun n => bool_decide (digit_value (digit (Z.of_nat n)) = Some (Z.of_nat n))) (seq 0 10) = true.
Proof. vm_compute. reflexivity. Qed.

Lemma digit_value_digit n : 0 <= n < 10 -> digit_value (digit n) = Some n.
Proof.
  intros H. pose proof digits_checked as Hc. rewrite forallb_forall in Hc.
  specialize (Hc (Z.to_nat n) ltac:(apply in_seq; lia)). apply bool_decide_eq_true in Hc.
  by rewrite Z2Nat.id in Hc by lia.
Qed.

Lemma take2_pad2 n s : 0 <= n < 100 -> take2 (pad2 n ++ s) = Some (n, s).
Proof.
  intros H. change (take2 (pad2 n ++ s)) with
    (match digit_value (digit (n / 10)), digit_value (digit (n mod 10)) with
     | Some x, Some y => Some (10 * x + y, s) | _, _ => None end).
  rewrite !digit_value_digit.
  - pose proof (Z.div_mod n 10 ltac:(lia)). do 2 f_equal. lia.
  - apply Z.mod_pos_bound. lia.
  - split; [apply Z.div_pos; lia | apply Z.div_lt_upper_bound; lia].
Qed.

Lemma take2_bind {B} n s (k : Z * string -> option B) :
  0 <= n < 100 -> (take2 (pad2 n ++ s) ≫= k) = k (n, s).
Proof. intros H. by rewrite take2_pad2. Qed.

Lemma expect_bind {B} c s (k : string -> option B) :
  (expect c (String c "" ++ s) ≫= k) = k s.
Proof. change (expect c (String c "" ++ s)) with (if Ascii.eqb c c then Some s else None).
  by rewrite Ascii.eqb_refl. Qed.

Lemma clock_bounds sod :
  0 <= sod < 86400 ->
  0 <= sod / 3600 <= 23 /\ 0 <= sod mod 3600 / 60 <= 59 /\ 0 <= sod mod 60 <= 59 /\
  sod / 3600 * 3600 + sod mod 3600 / 60 * 60 + sod mod 60 = sod.
Proof. intros H. Z.div_mod_to_equations. lia. Qed.

(** Instants the four-digit year of RFC 3339 can express. *)
Definition printable (t : Z) : Prop :=
  0 <= (civil_from_days (t / second / 86400)).1.1 <= 9999.

(** *** Fractions *)
Fixpoint fraction_value (scale : Z) (s : string) : Z :=
  match s with
  | EmptyString => 0
  | String c s' =>
      match digit_value c with Some x => x * scale | None => 0 end + fraction_value (scale / 10) s'
  end.

Definition digits (s : string) : bool := all_chars is_digit s.

Lemma take_fraction_digits scale acc s :
  digits s = true ->
  take_fraction scale acc (s ++ "Z") = (acc + fraction_value scale s, "Z"%string).
Proof.
  revert scale acc. induction s as [|c s IH]; intros scale acc Hs.
  - simpl. f_equal. lia.
  - unfold digits in Hs. cbn [all_chars] in Hs. apply andb_true_iff in Hs as [Hc Hs].
    change (String c s ++ "Z")%string with (String c (s ++ "Z")).
    cbn [take_fraction fraction_value]. unfold digit_value. rewrite Hc, IH by done. f_equal. lia.
Qed.

Lemma fraction_value_trim scale s : fraction_value scale (trim_zeros s) = fraction_value scale s.
Proof.
  revert scale. induction s as [|c s IH]; intros scale; [done|]. cbn [trim_zeros fraction_value].
  rewrite <- IH. destruct (trim_zeros s) as [|c' t]; [|done].
  destruct (Ascii.eqb_spec c "0") as [->|Hc]; [done|]. cbn [fraction_value]. done.
Qed.

Lemma digits_trim s : digits s = true -> digits (trim_zeros s) = true.
Proof.
  unfold digits. induction s as [|c s IH]; [done|]. cbn [trim_zeros all_chars].
  intros [Hc Hs]%andb_true_iff. apply IH in Hs. destruct (trim_zeros s) as [|c' t].
  - destruct (Ascii.eqb c "0"); [done|]. cbn [all_chars]. by rewrite Hc.
  - cbn [all_chars] in *. by rewrite Hc.
Qed.

Lemma is_digit_digit n : 0 <= n < 10 -> is_digit (digit n) = true.
Proof.
  intros H. pose proof (digit_value_digit n H) as E. unfold digit_value in E.
  by destruct (is_digit (digit n)).
Qed.

Lemma nano_digits_spec ns :
  0 <= ns < second ->
  digits (nano_digits ns) = true /\ fraction_value 100000000 (nano_digits ns) = ns.
Proof.
  intros H. unfold second in H.
  set (a := ns / 100000 / 100 / 10). set (b := (ns / 100000 / 100) mod 10).
  set (c := ns / 100000 mod 100 / 10). set (d := (ns / 100000 mod 100) mod 10).
  set (e := ns / 10 mod 10000 / 100 / 10). set (f := (ns / 10 mod 10000 / 100) mod 10).
  set (g := ns / 10 mod 10000 mod 100 / 10). set (h := (ns / 10 mod 10000 mod 100) mod 10).
  set (i := ns mod 10).
  assert (Hb : (0 <= a < 10 /\ 0 <= b < 10 /\ 0 <= c < 10) /\ (0 <= d < 10 /\ 0 <= e < 10 /\
    0 <= f < 10) /\ (0 <= g < 10 /\ 0 <= h < 10 /\ 0 <= i < 10) /\
    ns = a * 100000000 + b * 10000000 + c * 1000000 + d * 100000 + e * 10000 + f * 1000 +
         g * 100 + h * 10 + i).
  { unfold a, b, c, d, e, f, g, h, i. clear a b c d e f g h i. Z.div_mod_to_equations. lia. }
  destruct Hb as ((Ha & Hb & Hc) & (Hd & He & Hf) & (Hg & Hh & Hi) & Hns).
  change (nano_digits ns) with (String (digit a) (String (digit b) (String (digit c)
    (String (digit d) (String (digit e) (String (digit f) (String (digit g) (String (digit h)
    (String (digit i) ""))))))))).
  clearbody a b c d e f g h i. split.
  - unfold digits. cbn [all_chars]. by rewrite !is_digit_digit.
  - cbn [fraction_value]. rewrite !digit_value_digit by done.
    change (100000000 / 10) with 10000000. change (10000000 / 10) with 1000000.
    change (1000000 / 10) with 100000. change (100000 / 10) with 10000.
    change (10000 / 10) with 1000. change (1000 / 10) with 100. change (100 / 10) with 10.
    change (10 / 10) with 1. lia.
Qed.

Lemma parse_nano_suffix ns :
  0 <= ns < second ->
  parse_fraction (nano_suffix (trim_zeros (nano_digits ns))) = Some (ns, "Z"%string).
Proof.
  intros H. destruct (nano_digits_spec ns H) as [Hd Hv].
  apply digits_trim in Hd. rewrite <- fraction_value_trim in Hv.
  destruct (trim_zeros (nano_digits ns)) as [|c s] eqn:E.
  - simpl in Hv. by subst ns.
  - unfold nano_suffix. cbn [is_empty].
    change (("." ++ String c s) ++ "Z")%string with (String "." (String c (s ++ "Z"))).
    unfold digits in Hd. cbn [all_chars] in Hd.
    pose proof Hd as [Hc _]%andb_true_iff.
    change (parse_fraction (String "." (String c (s ++ "Z")))) with
      (match digit_value c with
       | Some _ => Some (take_fraction 100000000 0 (String c s ++ "Z")) | None => None end).
    unfold digit_value at 1. rewrite Hc, take_fraction_digits by done. by rewrite Hv.
Qed.

Lemma parse_civil y m d hh mm ss s ns :
  0 <= y <= 9999 -> 1 <= m <= 12 -> 1 <= d <= days_in y m ->
  0 <= hh <= 23 -> 0 <= mm <= 59 -> 0 <= ss <= 59 ->
  parse_fraction s = Some (ns, "Z"%string) ->
  parse_rfc3339 (format_date y m d ++ "T" ++ (pad2 hh ++ ":" ++ pad2 mm ++ ":" ++ pad2 ss) ++ s) =
  Some ((days_from_civil y m d * 86400 + hh * 3600 + mm * 60 + ss) * second + ns).
Proof.
  intros Hy Hm Hdd Hh Hmi Hs Hf.
  assert (d <= 31) by (unfold days_in in Hdd; repeat case_match; lia).
  unfold format_date, pad4. rewrite !string_app_assoc. unfold parse_rfc3339.
  rewrite take2_bind by (split; [apply Z.div_pos; lia | apply Z.div_lt_upper_bound; lia]).
  cbv beta iota. rewrite take2_bind by (apply Z.mod_pos_bound; lia).
  do 5 (cbv beta iota; rewrite expect_bind, take2_bind by lia).
  cbv beta iota. rewrite Hf. cbn [mbind option_bind parse_zone].
  replace (100 * (y / 100) + y mod 100) with y by (rewrite (Z.div_mod y 100) at 1; lia).
  replace (_ && _) with true by (symmetry; rewrite !andb_true_iff, !Z.leb_le; lia).
  f_equal. lia.
Qed.

Lemma printable_civil t :
  printable t -> exists y m d,
    civil_from_days (t / second / 86400) = (y, m, d) /\ 0 <= y <= 9999 /\ 1 <= m <= 12 /\
    1 <= d <= days_in y m /\ days_from_civil y m d = t / second / 86400.
Proof.
  unfold printable. destruct (civil_from_days _) as [[y m] d] eqn:E. simpl. intros Hy.
  apply civil_roundtrip in E as (Hd & Hm & Hdd). by exists y, m, d.
Qed.

(** What [Format(RFC3339Nano)] writes parses back to the very same instant. *)
Theorem parse_format_nano (t : Z) : printable t -> parse_rfc3339 (format_rfc3339_nano t) = Some t.
Proof.
  intros (y & m & d & E & Hy & Hm & Hdd & Hd)%printable_civil.
  unfold format_rfc3339_nano. rewrite E.
  pose proof (Z.mod_pos_bound (t / second) 86400 ltac:(lia)) as Hb.
  destruct (clock_bounds _ Hb) as (Hh & Hmi & Hs & Hsod).
  pose proof (Z.mod_pos_bound t second ltac:(done)) as Hns.
  change (format_clock (t / second mod 86400)) with
    (pad2 (t / second mod 86400 / 3600) ++ ":" ++ pad2 (t / second mod 86400 mod 3600 / 60) ++
     ":" ++ pad2 (t / second mod 86400 mod 60))%string.
  etransitivity; [apply (parse_civil _ _ _ _ _ _ _ (t mod second)); try done|].
  - by apply parse_nano_suffix.
  - f_equal. rewrite Hd. pose proof (Z.div_mod (t / second) 86400 ltac:(lia)).
    pose proof (Z.div_mod t second ltac:(done)). lia.
Qed.

(** Parsing what [Format(time.RFC3339)] writes gives back the instant truncated to the second,
    for every instant of the years 0 to 9999. *)
Theorem parse_format (t : Z) :
  printable t -> parse_rfc3339 (format_rfc3339 t) = Some (t / second * second).
Proof.
  intros (y & m & d & E & Hy & Hm & Hdd & Hd)%printable_civil.
  unfold format_rfc3339. rewrite E.
  pose proof (Z.mod_pos_bound (t / second) 86400 ltac:(lia)) as Hb.
  destruct (clock_bounds _ Hb) as (Hh & Hmi & Hs & Hsod).
  etransitivity; [apply (parse_civil _ _ _ _ _ _ "Z" 0); done|].
  f_equal. rewrite Hd. pose proof (Z.div_mod (t / second) 86400 ltac:(lia)). lia.
Qed.

(** What parses is not blank. *)
Lemma parse_not_blank s t : parse_rfc3339 s = Some t -> is_blank s = false.
Proof.
  destruct s as [|c s]; [discriminate|]. intros E.
  assert (Hd : is_space c = false).
  { destruct (is_space c) eqn:Hc; [|done]. exfalso. revert E.
    unfold parse_rfc3339. destruct s as [|c' s]; [discriminate|].
    assert (digit_value c = None) as Hn
      by (revert Hc; by destruct c as [[] [] [] [] [] [] [] []]).
    unfold take2. by rewrite Hn. }
  by apply is_blank_cons.
Qed.

Lemma rfc3339_nano_nonempty t : format_rfc3339_nano t <> ""%string.
Proof.
  unfold format_rfc3339_nano. destruct (civil_from_days _) as [[y m] d].
  unfold format_date, pad4, pad2. discriminate.
Qed.
