(* ===== verification/GoHash.v ===== *)
(** * SHA-256, SHA-1 and hexadecimal text (Go's crypto and encoding/hex)

    Bundle manifests carry SHA-256 checksums and the runtime guard names its hashlimit tables by
    SHA-1; this file is FIPS 180-4 on strings of bytes, with 32-bit words as integers cut to their
    low 32 bits. *)
From Stdlib Require Import ZArith Lia Ascii String.
From stdpp Require Import base tactics strings list.
From S2P Require Import Prelude.
Local Open Scope Z_scope.

Definition word_modulus : Z := 2 ^ 32.
Definition mask32 : Z := 4294967295.
Definition low32 (a : Z) : Z := Z.land a mask32.
Definition add32 (a b : Z) : Z := low32 (a + b).
Definition not32 (a : Z) : Z := Z.lxor a mask32.
Definition rotr (n a : Z) : Z := Z.lor (Z.shiftr a n) (low32 (Z.shiftl a (32 - n))).

Lemma low32_mod a : low32 a = a mod word_modulus.
Proof. unfold low32. change mask32 with (Z.ones 32). apply Z.land_ones. lia. Qed.

Definition big_sigma0 (x : Z) : Z := Z.lxor (rotr 2 x) (Z.lxor (rotr 13 x) (rotr 22 x)).
Definition big_sigma1 (x : Z) : Z := Z.lxor (rotr 6 x) (Z.lxor (rotr 11 x) (rotr 25 x)).
Definition small_sigma0 (x : Z) : Z := Z.lxor (rotr 7 x) (Z.lxor (rotr 18 x) (Z.shiftr x 3)).
Definition small_sigma1 (x : Z) : Z := Z.lxor (rotr 17 x) (Z.lxor (rotr 19 x) (Z.shiftr x 10)).
Definition choose (x y z : Z) : Z := Z.lxor (Z.land x y) (Z.land (not32 x) z).
Definition majority (x y z : Z) : Z :=
  Z.lxor (Z.land x y) (Z.lxor (Z.land x z) (Z.land y z)).

(** The constants of FIPS 180-4 are the first 32 bits of the fractional parts of the cube roots of
    the first 64 primes, and of the square roots of the first eight. *)
Fixpoint cube_root_bits (bits : nat) (acc n : Z) : Z :=
  match bits with
  | O => acc
  | S b =>
      let cand := acc + 2 ^ Z.of_nat b in
      cube_root_bits b (if cand * cand * cand <=? n then cand else acc) n
  end.

Fixpoint primes_from (fuel count : nat) (found : list Z) (n : Z) : list Z :=
  match fuel, count with
  | S fuel', S count' =>
      if forallb (fun p => negb (n mod p =? 0)) found
      then primes_from fuel' count' (found ++ [n]) (n + 1)
      else primes_from fuel' count found (n + 1)
  | _, _ => found
  end.

Definition first_primes : list Z := Eval vm_compute in primes_from 400 64 [] 2.

Definition round_constants : list Z := Eval vm_compute in
  (fun p => cube_root_bits 40 0 (p * 2 ^ 96) mod word_modulus) <$> first_primes.

Definition initial_hash : list Z := Eval vm_compute in
  (fun p => Z.sqrt (p * 2 ^ 64) mod word_modulus) <$> take 8 first_primes.

Fixpoint bytes_of (s : string) : list Z :=
  match s with
  | EmptyString => []
  | String c s' => Z.of_N (N_of_ascii c) :: bytes_of s'
  end.

(** The message, a one bit, zeros, and the length in bits on eight bytes. *)
Definition pad_message (bytes : list Z) : list Z :=
  let n := Z.of_nat (length bytes) in
  let zeros := (119 - n mod 64) mod 64 in
  bytes ++ [128] ++ repeat 0 (Z.to_nat zeros) ++
  ((fun i => Z.shiftr (n * 8) (8 * i) mod 256) <$> [7; 6; 5; 4; 3; 2; 1; 0]).

Fixpoint words_of (bytes : list Z) : list Z :=
  match bytes with
  | a :: b :: c :: d :: rest => (a * 2 ^ 24 + b * 2 ^ 16 + c * 2 ^ 8 + d) :: words_of rest
  | _ => []
  end.

(** The message schedule, newest word first: 16 words, then 48 computed ones. *)
Fixpoint extend_schedule (n : nat) (w : list Z) : list Z :=
  match n with
  | O => w
  | S n' =>
      let at_ i := default 0 (w !! i) in
      extend_schedule n'
        (add32 (add32 (small_sigma1 (at_ 1%nat)) (at_ 6%nat))
               (add32 (small_sigma0 (at_ 14%nat)) (at_ 15%nat)) :: w)
  end.

Definition schedule (block : list Z) : list Z := rev (extend_schedule 48 (rev block)).

Definition sha_round (h : list Z) (kw : Z * Z) : list Z :=
  match h with
  | [a; b; c; d; e; f; g; hh] =>
      let t1 := add32 (add32 hh (big_sigma1 e)) (add32 (choose e f g) (add32 kw.1 kw.2)) in
      let t2 := add32 (big_sigma0 a) (majority a b c) in
      [add32 t1 t2; a; b; c; add32 d t1; e; f; g]
  | _ => h
  end.

Definition sha_block (h block : list Z) : list Z :=
  zip_with add32 h (foldl sha_round h (zip round_constants (schedule block))).

Fixpoint sha_blocks (fuel : nat) (h words : list Z) : list Z :=
  match fuel, words with
  | S fuel', _ :: _ => sha_blocks fuel' (sha_block h (take 16 words)) (drop 16 words)
  | _, _ => h
  end.

(** [sha256.Sum256]: the digest as eight words; one block needs one unit of fuel. *)
Definition sha256_words (s : string) : list Z :=
  let words := words_of (pad_message (bytes_of s)) in
  sha_blocks (length words) initial_hash words.

Definition hex_digit (n : Z) : ascii :=
  ascii_of_N (Z.to_N (if n <? 10 then n + 48 else n + 87)).

Fixpoint hex_word (digits : nat) (w : Z) : string :=
  match digits with
  | O => ""%string
  | S d => String (hex_digit (Z.shiftr w (4 * Z.of_nat d) mod 16)) (hex_word d w)
  end.

(** [hex.EncodeToString(sum[:])] *)
Definition sha256_hex (s : string) : string :=
  foldr (fun w r => (hex_word 8 w ++ r)%string) ""%string (sha256_words s).

Example sha256_empty :
  sha256_hex "" = "e3b0c44298fc1c149afbf4c8996fb92427ae41e4649b934ca495991b7852b855"%string.
Proof. vm_compute. reflexivity. Qed.
Example sha256_abc :
  sha256_hex "abc" = "ba7816bf8f01cfea414140de5dae2223b00361a396177a9cb410ff61f20015ad"%string.
Proof. vm_compute. reflexivity. Qed.
Example sha256_two_blocks :
  sha256_hex "abcdbcdecdefdefgefghfghighijhijkijkljklmklmnlmnomnopnopq" =
  "248d6a61d20638b8e5c026930c3e6039a33ce45964ff2167f6ecedd419db06c1"%string.
Proof. vm_compute. reflexivity. Qed.

Lemma sha_round_length h kw : length h = 8%nat -> length (sha_round h kw) = 8%nat.
Proof. intros H. do 8 (destruct h as [|? h]; [discriminate|]). by destruct h. Qed.

Lemma sha_rounds_length l h : length h = 8%nat -> length (foldl sha_round h l) = 8%nat.
Proof. revert h. induction l as [|x l IH]; intros h H; [done|]. by apply IH, sha_round_length. Qed.

Lemma sha_blocks_length fuel h words : length h = 8%nat -> length (sha_blocks fuel h words) = 8%nat.
Proof.
  revert h words. induction fuel as [|fuel IH]; intros h words H; [done|].
  destruct words; [done|]. apply IH. unfold sha_block.
  rewrite length_zip_with, sha_rounds_length, H; done.
Qed.

Lemma hex_digit_not_space n : is_space (hex_digit (n mod 16)) = false.
Proof.
  pose proof (Z.mod_pos_bound n 16 ltac:(lia)) as Hb. revert Hb.
  generalize (n mod 16). intros k Hk.
  assert (Hc : forallb (fun i => negb (is_space (hex_digit (Z.of_nat i)))) (seq 0 16) = true)
    by (vm_compute; reflexivity).
  rewrite forallb_forall in Hc. specialize (Hc (Z.to_nat k) ltac:(apply in_seq; lia)).
  rewrite Z2Nat.id in Hc by lia. by apply negb_true_iff.
Qed.

(** A checksum is never blank, so the presence checks of the manifest never reject one. *)
Lemma sha256_hex_not_blank s : is_blank (sha256_hex s) = false.
Proof.
  unfold sha256_hex. pose proof (sha_blocks_length (length (words_of (pad_message (bytes_of s))))
    initial_hash (words_of (pad_message (bytes_of s))) eq_refl) as Hl.
  unfold sha256_words. destruct (sha_blocks _ _ _) as [|w ws]; [discriminate|]. cbn [foldr].
  apply (is_blank_cons (hex_digit (Z.shiftr w (4 * Z.of_nat 7) mod 16))), hex_digit_not_space.
Qed.

(** ** SHA-1 *)
Definition rotl (n a : Z) : Z := rotr (32 - n) a.

(** The message schedule, newest word first: 16 words, then 64 computed ones. *)
Fixpoint extend_schedule1 (n : nat) (w : list Z) : list Z :=
  match n with
  | O => w
  | S n' =>
      let at_ i := default 0 (w !! i) in
      extend_schedule1 n'
        (rotl 1 (Z.lxor (at_ 2%nat) (Z.lxor (at_ 7%nat) (Z.lxor (at_ 13%nat) (at_ 15%nat)))) :: w)
  end.

Definition parity (x y z : Z) : Z := Z.lxor x (Z.lxor y z).

(** The function and the constant of each group of twenty rounds; the constants are
    [2^30] times the square roots of 2, 3, 5 and 10. *)
Definition sha1_stages : list ((Z -> Z -> Z -> Z) * Z) :=
  [(choose, Z.sqrt (2 * 2 ^ 60)); (parity, Z.sqrt (3 * 2 ^ 60));
   (majority, Z.sqrt (5 * 2 ^ 60)); (parity, Z.sqrt (10 * 2 ^ 60))].

Definition sha1_round (stage : (Z -> Z -> Z -> Z) * Z) (h : list Z) (w : Z) : list Z :=
  match h with
  | [a; b; c; d; e] =>
      [add32 (add32 (rotl 5 a) (stage.1 b c d)) (add32 e (add32 stage.2 w)); a; rotl 30 b; c; d]
  | _ => h
  end.

Fixpoint sha1_run (stages : list ((Z -> Z -> Z -> Z) * Z)) (h w : list Z) : list Z :=
  match stages with
  | [] => h
  | stage :: stages' => sha1_run stages' (foldl (sha1_round stage) h (take 20 w)) (drop 20 w)
  end.

Definition sha1_block (h block : list Z) : list Z :=
  zip_with add32 h (sha1_run sha1_stages h (rev (extend_schedule1 64 (rev block)))).

Fixpoint sha1_blocks (fuel : nat) (h words : list Z) : list Z :=
  match fuel, words with
  | S fuel', _ :: _ => sha1_blocks fuel' (sha1_block h (take 16 words)) (drop 16 words)
  | _, _ => h
  end.

(** The bytes 01 23 45 67 89 ab cd ef fe dc ba 98 76 54 32 10 f0 e1 d2 c3, as little-endian words. *)
Definition sha1_initial : list Z :=
  [1732584193; 4023233417; 2562383102; 271733878; 3285377520].

(** [sha1.Sum]: the digest as five words. *)
Definition sha1_words (s : string) : list Z :=
  let words := words_of (pad_message (bytes_of s)) in
  sha1_blocks (length words) sha1_initial words.

Example sha1_abc :
  foldr (fun w r => (hex_word 8 w ++ r)%string) ""%string (sha1_words "abc") =
  "a9993e364706816aba3e25717850c26c9cd0d89d"%string.
Proof. vm_compute. reflexivity. Qed.
