(* ===== verification/GoText.v ===== *)
(** * Text encodings: quoted text (%q) and the strings of encoding/json *)
From Stdlib Require Import ZArith Lia Ascii String.
From stdpp Require Import base tactics strings list.
From S2P Require Import Prelude GoHash.
Local Open Scope string_scope.
Local Open Scope Z_scope.

Definition dquote : string := String (ascii_of_nat 34) EmptyString.

(** [%q]: strconv.Quote on ASCII text; bytes from 0x80 on are kept. *)
Definition quote_char (c : ascii) : string :=
  let n := Z.of_N (N_of_ascii c) in
  let escaped x := String "\" (String x EmptyString) in
  if n =? 34 then escaped c
  else if n =? 92 then escaped c
  else if n =? 7 then escaped "a"%char
  else if n =? 8 then escaped "b"%char
  else if n =? 9 then escaped "t"%char
  else if n =? 10 then escaped "n"%char
  else if n =? 11 then escaped "v"%char
  else if n =? 12 then escaped "f"%char
  else if n =? 13 then escaped "r"%char
  else if (n <? 32) || (n =? 127) then "\x" ++ hex_word 2 n
  else String c EmptyString.

Fixpoint quote_chars (s : string) : string :=
  match s with EmptyString => "" | String c s' => quote_char c ++ quote_chars s' end.

Definition quoted (s : string) : string :=
  dquote ++ quote_chars s ++ dquote.

(** ** JSON strings

    [json.Marshal] of a string: HTML-sensitive characters are escaped; bytes from 0x80 on are
    kept, which is what Go does with valid UTF-8 other than U+2028 and U+2029. *)
Definition json_char (c : ascii) : string :=
  let n := Z.of_N (N_of_ascii c) in
  let escaped x := String "\" (String x EmptyString) in
  if (n =? 34) || (n =? 92) then escaped c
  else if n =? 8 then escaped "b"%char
  else if n =? 12 then escaped "f"%char
  else if n =? 10 then escaped "n"%char
  else if n =? 13 then escaped "r"%char
  else if n =? 9 then escaped "t"%char
  else if (n <? 32) || (n =? 60) || (n =? 62) || (n =? 38) then "\u00" ++ hex_word 2 n
  else String c EmptyString.

Fixpoint json_chars (s : string) : string :=
  match s with EmptyString => "" | String c s' => json_char c ++ json_chars s' end.

Definition json_string (s : string) : string := dquote ++ json_chars s ++ dquote.

(** An object from its fields, in order; [None] is a field dropped by [omitempty]. *)
Definition json_field (f : string * option string) : option string :=
  value ← f.2; Some (json_string f.1 ++ ":" ++ value).
Definition json_object (fields : list (string * option string)) : string :=
  "{" ++ join "," (omap json_field fields) ++ "}".

Definition omit_empty (s : string) : option string := if is_empty s then None else Some (json_string s).

Lemma json_chars_app a b : json_chars (a ++ b) = json_chars a ++ json_chars b.
Proof.
  induction a as [|c a IH]; [done|].
  change (String c a ++ b) with (String c (a ++ b)). cbn [json_chars]. by rewrite IH, string_app_assoc.
Qed.

(** *** Suffixes *)
Lemma string_app_inv (a b c d : string) :
  a ++ b = c ++ d -> String.length b = String.length d -> a = c /\ b = d.
Proof.
  intros E Hl. assert (Hac : String.length a = String.length c).
  { apply (f_equal String.length) in E. rewrite !string_length_app in E. lia. }
  revert c E Hac. induction a as [|x a IH]; intros [|y c] E Hac; try discriminate; [done|].
  injection E as -> E. injection Hac as Hac. destruct (IH c E Hac) as [-> ->]. done.
Qed.

(** The shorter of two suffixes of a text is a suffix of the longer. *)
Lemma string_suffix (a b c d : string) :
  a ++ b = c ++ d -> (String.length d <= String.length b)%nat -> exists e, b = e ++ d.
Proof.
  revert c. induction a as [|x a IH]; intros c E Hl.
  - by exists c.
  - destruct c as [|y c].
    + exfalso. apply (f_equal String.length) in E. change (String x a ++ b) with (String x (a ++ b)) in E.
      change ("" ++ d) with d in E. simpl in E. rewrite string_length_app in E. lia.
    + injection E as _ E. by apply (IH c).
Qed.

(** ** URL escaping (net/url)

    [component] selects a query component, where a blank becomes [+]; otherwise a path segment. *)
Definition url_keeps (component : bool) (c : ascii) : bool :=
  is_upper c || is_lower c || is_digit c || existsb (Ascii.eqb c) ["-"; "_"; "."; "~"]%char ||
  (negb component && existsb (Ascii.eqb c) ["$"; "&"; "+"; "="; ":"; "@"]%char).

Fixpoint url_escape (component : bool) (s : string) : string :=
  match s with
  | EmptyString => ""
  | String c s' =>
      (if url_keeps component c then String c ""
       else if component && Ascii.eqb c " " then "+"
       else "%" ++ to_upper (hex_word 2 (Z.of_N (N_of_ascii c)))) ++ url_escape component s'
  end.

(** [url.Values.Encode] of one value per key; the keys are given in order. *)
Definition url_values (fields : list (string * string)) : string :=
  join "&" ((fun f => url_escape true f.1 ++ "=" ++ url_escape true f.2) <$> fields).

Example url_escapes :
  url_escape false "A b:c/d@e" = "A%20b:c%2Fd@e" /\ url_values [("issuer", "A b:c"); ("x", "~")] = "issuer=A+b%3Ac&x=~".
Proof. vm_compute. done. Qed.
