(* ===== verification/GoCodec.v ===== *)
(** * Byte encodings (Go's encoding/base64, encoding/base32 and encoding/hex)

    Base 64 and base 32 are one codec: bytes are taken in groups, each group read as a big-endian
    number and written in digits of 5 or 6 bits.  The codec is defined and proved to round-trip
    once, and instantiated for the encodings the control plane uses. *)
From Stdlib Require Import ZArith Lia Ascii String.
From stdpp Require Import base tactics strings list.
From S2P Require Import Prelude GoHash.
Local Open Scope string_scope.
Local Open Scope Z_scope.
Local Notation "a +++ b" := (@app _ a b) (at level 60, right associativity).

(** ** Bytes and strings *)
Definition byte_ascii (n : Z) : ascii := ascii_of_N (Z.to_N n).
Fixpoint string_of_bytes (l : list Z) : string :=
  match l with [] => "" | n :: r => String (byte_ascii n) (string_of_bytes r) end.

Definition is_byte (n : Z) : Prop := 0 <= n < 256.

Lemma byte_ascii_of c : byte_ascii (Z.of_N (N_of_ascii c)) = c.
Proof. unfold byte_ascii. by rewrite N2Z.id, ascii_N_embedding. Qed.

Lemma string_of_bytes_of s : string_of_bytes (bytes_of s) = s.
Proof. induction s as [|c s IH]; [done|]. cbn [bytes_of string_of_bytes]. by rewrite byte_ascii_of, IH. Qed.

Lemma bytes_of_bounds s : Forall is_byte (bytes_of s).
Proof.
  induction s as [|c s IH]; constructor; [|done]. unfold is_byte.
  pose proof (N_ascii_bounded c). lia.
Qed.

Lemma length_bytes_of s : length (bytes_of s) = String.length s.
Proof. induction s as [|c s IH]; [done|]. cbn. by rewrite IH. Qed.

(** ** Digits of a number *)

(** The [n] low digits of [w] in base [base], most significant first. *)
Fixpoint to_digits (base : Z) (n : nat) (w : Z) : list Z :=
  match n with
  | O => []
  | S n' => to_digits base n' (w / base) +++ [w mod base]
  end.

Definition of_digits (base : Z) (l : list Z) : Z := foldl (fun acc d => acc * base + d) 0 l.

Lemma of_digits_snoc base l d : of_digits base (l +++ [d]) = of_digits base l * base + d.
Proof. unfold of_digits. by rewrite foldl_app. Qed.

Lemma length_to_digits base n w : length (to_digits base n w) = n.
Proof. revert w. induction n as [|n IH]; intros w; [done|]. cbn [to_digits]. rewrite length_app, IH. simpl. lia. Qed.

Lemma to_digits_bounds base n w : 0 < base -> Forall (fun d => 0 <= d < base) (to_digits base n w).
Proof.
  intros Hb. revert w. induction n as [|n IH]; intros w; [constructor|]. cbn [to_digits].
  apply Forall_app. split; [done|]. repeat constructor; apply Z.mod_pos_bound; lia.
Qed.

Lemma of_to_digits base n w : 0 < base -> 0 <= w < base ^ Z.of_nat n -> of_digits base (to_digits base n w) = w.
Proof.
  intros Hb. revert w. induction n as [|n IH]; intros w Hw.
  - simpl in Hw. unfold of_digits. simpl. lia.
  - cbn [to_digits]. rewrite of_digits_snoc, IH.
    + pose proof (Z.div_mod w base ltac:(lia)). lia.
    + rewrite Nat2Z.inj_succ, Z.pow_succ_r in Hw by lia.
      split; [apply Z.div_pos; lia | apply Z.div_lt_upper_bound; lia].
Qed.

Lemma of_digits_bounds base l :
  0 < base -> Forall (fun d => 0 <= d < base) l -> 0 <= of_digits base l < base ^ Z.of_nat (length l).
Proof.
  intros Hb. induction l as [|d l IH] using rev_ind; intros Hl; [unfold of_digits; simpl; lia|].
  apply Forall_app in Hl as [Hl Hd]. apply Forall_inv in Hd. specialize (IH Hl).
  rewrite of_digits_snoc, length_app, Nat2Z.inj_add. cbn [length]. rewrite Z.pow_add_r by lia.
  change (Z.of_nat 1) with 1. rewrite Z.pow_1_r. nia.
Qed.

Lemma to_of_digits base l : 0 < base -> Forall (fun d => 0 <= d < base) l ->
  to_digits base (length l) (of_digits base l) = l.
Proof.
  intros Hb. induction l as [|d l IH] using rev_ind; intros Hl; [done|].
  apply Forall_app in Hl as [Hl Hd]. apply Forall_inv in Hd.
  rewrite length_app, Nat.add_1_r. cbn [to_digits]. rewrite of_digits_snoc.
  rewrite Z.div_add_l, Z.div_small, Z.add_0_r by lia. rewrite IH by done.
  rewrite Z.add_comm, Z.mod_add, Z.mod_small by lia. done.
Qed.

(** ** Groups *)
Fixpoint groups {A} (fuel n : nat) (l : list A) : list (list A) :=
  match fuel, l with
  | S fuel', _ :: _ => take n l :: groups fuel' n (drop n l)
  | _, _ => []
  end.
(** The list in pieces of [n]; the last one may be shorter. *)
Definition in_groups {A} (n : nat) (l : list A) : list (list A) := groups (length l) n l.

Lemma groups_fuel {A} n (l : list A) fuel :
  (0 < n)%nat -> (length l <= fuel)%nat -> groups fuel n l = in_groups n l.
Proof.
  intros Hn. unfold in_groups.
  assert (H : forall f1 f2 (l : list A), (length l <= f1)%nat -> (length l <= f2)%nat ->
    groups f1 n l = groups f2 n l).
  { clear l fuel. induction f1 as [|f1 IH]; intros [|f2] [|x l] H1 H2; cbn [groups length] in *; try done; try lia.
    f_equal. apply IH; rewrite length_drop; cbn [length]; lia. }
  intros Hl. apply H; lia.
Qed.

Lemma in_groups_cons {A} n (l : list A) : (0 < n)%nat -> l <> [] ->
  in_groups n l = take n l :: in_groups n (drop n l).
Proof.
  intros Hn Hl. destruct l as [|x l]; [done|]. unfold in_groups at 1. cbn [length groups].
  f_equal. apply groups_fuel; [done|]. rewrite length_drop. cbn [length]. lia.
Qed.

(** A whole group in front. *)
Lemma in_groups_app {A} n (g l : list A) : length g = n -> (0 < n)%nat ->
  in_groups n (g +++ l) = g :: in_groups n l.
Proof.
  intros <- Hn. rewrite in_groups_cons; [|done|by destruct g; cbn in *; [lia|]].
  by rewrite take_app_length, drop_app_length.
Qed.

(** ** The codec *)
Record codec := Codec {
  cd_bits : nat;                       (* bits per character *)
  cd_group : nat;                      (* bytes in a whole group *)
  cd_octets : nat -> option nat        (* bytes in a group of so many characters; [None] is an error *)
}.

Section Codec.
Variable cd : codec.
Let base : Z := 2 ^ Z.of_nat (cd_bits cd).

(** Characters for [k] bytes, and the zero bits that fill the last one. *)
Definition cd_chars (k : nat) : nat := ((8 * k + cd_bits cd - 1) / cd_bits cd)%nat.
Definition cd_fill (chars k : nat) : Z := Z.of_nat (cd_bits cd * chars) - Z.of_nat (8 * k).

Definition encode_group (g : list Z) : list Z :=
  to_digits base (cd_chars (length g)) (of_digits 256 g * 2 ^ cd_fill (cd_chars (length g)) (length g)).
Definition encode (bytes : list Z) : list Z := mjoin (encode_group <$> in_groups (cd_group cd) bytes).

(** The bits that fill the last character are not looked at. *)
Definition decode_group (d : list Z) : option (list Z) :=
  k ← cd_octets cd (length d);
  Some (to_digits 256 k (of_digits base d / 2 ^ cd_fill (length d) k)).
Definition decode (digits : list Z) : option (list Z) :=
  mjoin <$> mapM decode_group (in_groups (cd_chars (cd_group cd)) digits).

(** What the numbers of a codec must satisfy; decided by computation. *)
Definition cd_ok : bool :=
  Nat.ltb 0 (cd_bits cd) && Nat.ltb 0 (cd_group cd) &&
  forallb (fun k => bool_decide (cd_octets cd (cd_chars k) = Some k) && (8 * k <=? cd_bits cd * cd_chars k)%nat)
  (seq 1 (cd_group cd)).

Hypothesis Hok : cd_ok = true.

Lemma cd_spec : (0 < cd_bits cd)%nat /\ (0 < cd_group cd)%nat /\ forall k, (1 <= k <= cd_group cd)%nat ->
  cd_octets cd (cd_chars k) = Some k /\ 0 <= cd_fill (cd_chars k) k.
Proof.
  unfold cd_ok in Hok. rewrite !andb_true_iff, !Nat.ltb_lt, forallb_forall in Hok. destruct Hok as [[H1 H2] H3].
  split_and!; [done..|]. intros k Hk. specialize (H3 k ltac:(apply in_seq; lia)).
  apply andb_true_iff in H3 as [H3 H4]. apply bool_decide_eq_true in H3. apply Nat.leb_le in H4.
  split; [done|]. unfold cd_fill. lia.
Qed.

Lemma base_pos : 1 < base.
Proof. destruct cd_spec as [H _]. unfold base. apply Z.pow_gt_1; lia. Qed.

Lemma encode_group_length g : length (encode_group g) = cd_chars (length g).
Proof. apply length_to_digits. Qed.

Lemma decode_encode_group g : (1 <= length g <= cd_group cd)%nat -> Forall is_byte g ->
  decode_group (encode_group g) = Some g.
Proof.
  intros Hg Hb. destruct cd_spec as (H1 & _ & H2). destruct (H2 _ Hg) as [Ho Hf].
  unfold decode_group. rewrite encode_group_length, Ho. unfold encode_group.
  pose proof base_pos. pose proof (of_digits_bounds 256 g ltac:(lia) Hb) as Hv.
  rewrite of_to_digits; [|lia|].
  - cbn. rewrite Z.div_mul by (apply Z.pow_nonzero; lia). f_equal. by apply to_of_digits.
  - split; [apply Z.mul_nonneg_nonneg; [lia|apply Z.pow_nonneg; lia]|].
    unfold base. rewrite <- Z.pow_mul_r by lia.
    replace (Z.of_nat (cd_bits cd) * Z.of_nat (cd_chars (length g)))
    with (8 * Z.of_nat (length g) + cd_fill (cd_chars (length g)) (length g)) by (unfold cd_fill; lia).
    rewrite Z.pow_add_r, Z.pow_mul_r by lia. change (2 ^ 8) with 256.
    apply Z.mul_lt_mono_pos_r; [apply Z.pow_pos_nonneg; lia | lia].
Qed.

Lemma cd_chars_pos k : (1 <= k)%nat -> (0 < cd_chars k)%nat.
Proof. intros Hk. destruct cd_spec as [H _]. unfold cd_chars. apply Nat.div_str_pos. lia. Qed.

Lemma cd_chars_mono j k : (j <= k)%nat -> (cd_chars j <= cd_chars k)%nat.
Proof. intros H. unfold cd_chars. apply Nat.Div0.div_le_mono. lia. Qed.

Lemma encode_cons bytes : bytes <> [] ->
  encode bytes = encode_group (take (cd_group cd) bytes) +++ encode (drop (cd_group cd) bytes).
Proof. intros H. unfold encode. destruct cd_spec as (_ & Hg & _). by rewrite in_groups_cons. Qed.

(** What is encoded decodes. *)
Lemma codec_roundtrip bytes : Forall is_byte bytes -> decode (encode bytes) = Some bytes.
Proof.
  destruct cd_spec as (_ & Hg & _). remember (length bytes) as n eqn:Hn. revert bytes Hn.
  induction n as [n IH] using lt_wf_ind. intros bytes -> Hb.
  destruct (decide (bytes = [])) as [->|Hne]; [done|]. rewrite encode_cons by done.
  assert (Hlen : (0 < length bytes)%nat) by (destruct bytes; [done|simpl; lia]).
  assert (Htake : Forall is_byte (take (cd_group cd) bytes)) by by apply Forall_take.
  assert (Hgr : decode_group (encode_group (take (cd_group cd) bytes)) = Some (take (cd_group cd) bytes)).
  { apply decode_encode_group; [rewrite length_take; lia|done]. }
  unfold decode. destruct (decide (length bytes <= cd_group cd)%nat) as [Hle|Hgt].
  - rewrite drop_ge by lia. rewrite app_nil_r, in_groups_cons; [|by apply cd_chars_pos; lia|].
    + rewrite (take_ge (encode_group _)), drop_ge.
      * cbn. rewrite Hgr. cbn. by rewrite app_nil_r, take_ge by lia.
      * rewrite encode_group_length, length_take. apply cd_chars_mono. lia.
      * rewrite encode_group_length, length_take. apply cd_chars_mono. lia.
    + intros E. apply (f_equal length) in E. rewrite encode_group_length, length_take in E. cbn in E.
      pose proof (cd_chars_pos (cd_group cd `min` length bytes) ltac:(lia)). lia.
  - rewrite in_groups_app; [|by rewrite encode_group_length, length_take, Nat.min_l by lia|apply cd_chars_pos; lia].
    cbn. rewrite Hgr. cbn.
    specialize (IH (length (drop (cd_group cd) bytes)) ltac:(rewrite length_drop; lia) _ eq_refl
    ltac:(by apply Forall_drop)).
    unfold decode in IH. destruct (mapM _ _) as [l|]; [|done]. injection IH as IH. cbn in *. trans (Some (take (cd_group cd) bytes +++ drop (cd_group cd) bytes)); [by rewrite <- IH | by rewrite take_drop].
Qed.

Lemma encode_bounds bytes : Forall (fun d => 0 <= d < base) (encode bytes).
Proof.
  unfold encode. apply Forall_join, Forall_fmap, Forall_true. intros g. apply to_digits_bounds.
  pose proof base_pos. lia.
Qed.
End Codec.

(** ** Base 64

    [url] selects the URL alphabet, [pad] the trailing ['=']: [base64.StdEncoding] is
    [base64 false true], [base64.RawURLEncoding] is [base64 true false]. *)
Definition base64_codec : codec :=
  Codec 6 3 (fun n => match n with 4 => Some 3 | 3 => Some 2 | 2 => Some 1 | _ => None end)%nat.

Definition base64_char (url : bool) (n : Z) : ascii :=
  let code :=
    if n <? 26 then 65 + n
    else if n <? 52 then 97 + (n - 26)
    else if n <? 62 then 48 + (n - 52)
    else if n =? 62 then (if url then 45 else 43)
    else (if url then 95 else 47) in
  byte_ascii code.

Definition base64_value (url : bool) (c : ascii) : option Z :=
  let n := Z.of_N (N_of_ascii c) in
  if is_upper c then Some (n - 65)
  else if is_lower c then Some (n - 71)
  else if is_digit c then Some (n + 4)
  else if n =? (if url then 45 else 43) then Some 62
  else if n =? (if url then 95 else 47) then Some 63
  else None.

(** [String chars] from and to the numbers of its characters. *)
Definition chars_of (char : Z -> ascii) (digits : list Z) : string :=
  string_of_list_ascii (char <$> digits).
Definition values_of (value : ascii -> option Z) (s : string) : option (list Z) :=
  mapM value (list_ascii_of_string s).

Definition padding (n : nat) : string :=
  match (n mod 3)%nat with 1%nat => "==" | 2%nat => "=" | _ => "" end.

Definition base64 (url pad : bool) (s : string) : string :=
  chars_of (base64_char url) (encode base64_codec (bytes_of s)) ++
  (if pad then padding (String.length s) else "").

(** The decoders skip line breaks. *)
Definition is_newline (c : ascii) : bool := Ascii.eqb c "010" || Ascii.eqb c "013".
Definition strip_newlines (s : string) : string :=
  string_of_list_ascii (List.filter (fun c => negb (is_newline c)) (list_ascii_of_string s)).

(** [base64.RawStdEncoding.DecodeString]: without padding; bits beyond the last byte are ignored. *)
Definition base64_raw_decode (s : string) : option string :=
  digits ← values_of (base64_value false) (strip_newlines s);
  string_of_bytes <$> decode base64_codec digits.

(** ** Base 32: [base32.StdEncoding] without padding

    Groups of 1, 3 or 6 characters hold no whole number of bytes; Go drops them. *)
Definition base32_codec : codec :=
  Codec 5 5 (fun n => match n with 8 => Some 5 | 7 => Some 4 | 5 => Some 3 | 4 => Some 2 | 2 => Some 1
                      | 1 | 3 | 6 => Some 0 | _ => None end)%nat.

Definition base32_char (n : Z) : ascii := byte_ascii (if n <? 26 then 65 + n else 50 + (n - 26)).
Definition base32_value (c : ascii) : option Z :=
  let n := Z.of_N (N_of_ascii c) in
  if is_upper c then Some (n - 65)
  else if (50 <=? n) && (n <=? 55) then Some (n - 24)
  else None.

Definition base32 (s : string) : string := chars_of base32_char (encode base32_codec (bytes_of s)).
Definition base32_decode (s : string) : option string :=
  digits ← values_of base32_value (strip_newlines s);
  string_of_bytes <$> decode base32_codec digits.

Example base64_std : base64 false true "Many hands?" = "TWFueSBoYW5kcz8=".
Proof. vm_compute. reflexivity. Qed.
Example base64_raw_url : base64 true false "??>~" = "Pz8-fg".
Proof. vm_compute. reflexivity. Qed.
Example base32_foobar : base32 "foobar" = "MZXW6YTBOI" /\ base32_decode "MZXW6YTB" = Some "fooba".
Proof. vm_compute. done. Qed.

(** ** Hexadecimal *)

(** [hex.EncodeToString] *)
Fixpoint hex_string (s : string) : string :=
  match s with
  | EmptyString => ""
  | String c s' => hex_word 2 (Z.of_N (N_of_ascii c)) ++ hex_string s'
  end.

Definition hex_digit_value (c : ascii) : option Z :=
  let n := Z.of_N (N_of_ascii c) in
  if is_digit c then Some (n - 48)
  else if (97 <=? n) && (n <=? 102) then Some (n - 87)
  else if (65 <=? n) && (n <=? 70) then Some (n - 55)
  else None.

(** [hex.DecodeString] *)
Fixpoint hex_decode (s : string) : option string :=
  match s with
  | EmptyString => Some ""
  | String a (String b s') =>
      h ← hex_digit_value a; l ← hex_digit_value b; r ← hex_decode s';
      Some (String (byte_ascii (h * 16 + l)) r)
  | _ => None
  end.

(** ** Round trips *)
Lemma codecs_ok : cd_ok base64_codec = true /\ cd_ok base32_codec = true.
Proof. vm_compute. done. Qed.

(** Both alphabets, character by character: the value, and neither blank nor [$]. *)
Definition plain_char (c : ascii) : bool :=
  negb (is_space c) && negb (is_newline c) && negb (Ascii.eqb c "$").

(** The base 32 alphabet is also upper case. *)
Definition code_char (c : ascii) : bool := plain_char c && Ascii.eqb (upper_ascii c) c.

Lemma alphabets_checked :
  all_below (fun n => bool_decide (base64_value false (base64_char false n) = Some n) &&
                      plain_char (base64_char false n)) 64 0 = true /\
  all_below (fun n => bool_decide (base32_value (base32_char n) = Some n) && code_char (base32_char n)) 32 0 = true.
Proof. vm_compute. done. Qed.

Section Alphabet.
Variables (char : Z -> ascii) (value : ascii -> option Z) (good : ascii -> bool) (size : nat).
Hypothesis checked :
  all_below (fun n => bool_decide (value (char n) = Some n) && good (char n)) size 0 = true.

Lemma values_of_chars l : Forall (fun d => 0 <= d < Z.of_nat size) l ->
  values_of value (chars_of char l) = Some l /\ all_chars good (chars_of char l) = true.
Proof.
  unfold values_of, chars_of. rewrite list_ascii_of_string_of_list_ascii.
  induction 1 as [|d l Hd _ [IH1 IH2]]; [done|].
  pose proof (all_below_spec _ _ _ d checked ltac:(lia)) as [Hv Hp]%andb_true_iff.
  apply bool_decide_eq_true in Hv. split.
  - cbn. rewrite Hv. cbn. by rewrite IH1.
  - cbn. by rewrite Hp, IH2.
Qed.
End Alphabet.

Lemma strip_plain s : all_chars plain_char s = true -> strip_newlines s = s.
Proof.
  unfold strip_newlines. induction s as [|c s IH]; [done|]. cbn. unfold plain_char at 1.
  rewrite !andb_true_iff. intros [[[_ ->] _] Hs]. cbn. by rewrite IH.
Qed.

Lemma raw_base64_plain s : all_chars plain_char (base64 false false s) = true.
Proof.
  unfold base64. rewrite string_app_nil. apply (values_of_chars _ _ _ 64 (proj1 alphabets_checked)).
  apply (encode_bounds base64_codec), codecs_ok.
Qed.

Lemma base64_roundtrip s : base64_raw_decode (base64 false false s) = Some s.
Proof.
  unfold base64_raw_decode. rewrite strip_plain by apply raw_base64_plain.
  unfold base64. rewrite string_app_nil.
  rewrite (proj1 (values_of_chars _ _ _ 64 (proj1 alphabets_checked) _ (encode_bounds base64_codec (proj1 codecs_ok) _))).
  cbn. rewrite codec_roundtrip by (apply codecs_ok || apply bytes_of_bounds). cbn. by rewrite string_of_bytes_of.
Qed.

Lemma base32_code s : all_chars code_char (base32 s) = true.
Proof.
  apply (values_of_chars _ _ _ 32 (proj2 alphabets_checked)). apply (encode_bounds base32_codec), codecs_ok.
Qed.

Lemma base32_plain s : all_chars plain_char (base32 s) = true.
Proof. eapply all_chars_impl, base32_code. by intros c [H _]%andb_true_iff. Qed.

Lemma base32_upper s : to_upper (base32 s) = base32 s.
Proof.
  generalize (base32_code s). generalize (base32 s). clear s.
  induction s as [|c s IH]; [done|]. cbn [all_chars]. intros [[_ Hc%Ascii.eqb_eq]%andb_true_iff Hs]%andb_true_iff.
  change (String (upper_ascii c) (to_upper s) = String c s). by rewrite Hc, IH.
Qed.

Lemma base32_roundtrip s : base32_decode (base32 s) = Some s.
Proof.
  unfold base32_decode. rewrite strip_plain by apply base32_plain. unfold base32.
  rewrite (proj1 (values_of_chars _ _ _ 32 (proj2 alphabets_checked) _ (encode_bounds base32_codec (proj2 codecs_ok) _))).
  cbn. rewrite codec_roundtrip by (apply codecs_ok || apply bytes_of_bounds). cbn. by rewrite string_of_bytes_of.
Qed.

#[local] Arguments hex_digit_value : simpl never.
#[local] Arguments hex_digit : simpl never.

Lemma hex_digits_read :
  all_below (fun n => bool_decide (hex_digit_value (hex_digit n) = Some n)) 16 0 = true.
Proof. vm_compute. done. Qed.

Lemma hex_decode_pair a b s : hex_decode (String a (String b "") ++ s) =
  (h ← hex_digit_value a; l ← hex_digit_value b; r ← hex_decode s; Some (String (byte_ascii (h * 16 + l)) r)).
Proof. done. Qed.

Lemma hex_roundtrip s : hex_decode (hex_string s) = Some s.
Proof.
  induction s as [|c s IH]; [done|]. cbn [hex_string]. set (n := Z.of_N (N_of_ascii c)).
  assert (Hn : 0 <= n < 256) by (unfold n; pose proof (N_ascii_bounded c); lia).
  assert (Hd : forall d, 0 <= d < 16 -> hex_digit_value (hex_digit d) = Some d).
  { intros d Hd. pose proof (all_below_spec _ _ _ d hex_digits_read ltac:(lia)) as H. by apply bool_decide_eq_true in H. }
  change (hex_word 2 n) with (String (hex_digit (Z.shiftr n 4 mod 16)) (String (hex_digit (Z.shiftr n 0 mod 16)) "")).
  rewrite Z.shiftr_0_r, (Z.shiftr_div_pow2 n 4) by lia. rewrite hex_decode_pair.
  rewrite !Hd by (apply Z.mod_pos_bound; lia). cbn. rewrite IH. cbn. f_equal.
  change (2 ^ 4) with 16. rewrite (Z.mod_small (n / 16)) by (split; [apply Z.div_pos|apply Z.div_lt_upper_bound]; lia).
  rewrite (Z.mul_comm (n / 16)), <- Z.div_mod by lia. unfold n. by rewrite byte_ascii_of.
Qed.
