(* ===== verification/GoNet.v ===== *)
(** * Decimal integers and IP addresses (Go's strconv and net)

    [strconv.Itoa], [strconv.Atoi] on 64-bit integers, [net.ParseIP] (through
    [netip.ParseAddr]) and [IP.String], as the runtime guard uses them. *)
From Stdlib Require Import ZArith Lia Ascii String.
From stdpp Require Import base tactics strings list.
From S2P Require Import Prelude.
Local Open Scope Z_scope.

(** ** Decimal integers *)
Definition dec_digit (n : Z) : ascii := ascii_of_N (Z.to_N (n + 48)).
Definition dec_value (c : ascii) : option Z :=
  if is_digit c then Some (Z.of_N (N_of_ascii c) - 48) else None.

(** The digits of [n], most significant first, in front of [acc]. *)
Fixpoint itoa_digits (fuel : nat) (n : Z) (acc : string) : string :=
  match fuel with
  | O => acc
  | S fuel' =>
      let acc := String (dec_digit (n mod 10)) acc in
      if n <? 10 then acc else itoa_digits fuel' (n / 10) acc
  end.

(** [strconv.Itoa]; a 64-bit integer has at most 19 digits. *)
Definition itoa (n : Z) : string :=
  if n <? 0 then String "-" (itoa_digits 20 (- n) "") else itoa_digits 20 n "".

Fixpoint atoi_digits (acc : Z) (s : string) : option Z :=
  match s with
  | EmptyString => Some acc
  | String c s' => match dec_value c with Some d => atoi_digits (acc * 10 + d) s' | None => None end
  end.

Definition in_int64 (n : Z) : bool := (- 2 ^ 63 <=? n) && (n <? 2 ^ 63).

(** [strconv.Atoi]: [None] is any error (syntax or range). *)
Definition atoi (s : string) : option Z :=
  let number s := match s with EmptyString => None | _ => atoi_digits 0 s end in
  let value :=
    match s with
    | String "-" s' => Z.opp <$> number s'
    | String "+" s' => number s'
    | _ => number s
    end in
  match value with Some n => if in_int64 n then Some n else None | None => None end.

Lemma dec_digits_checked :
  forallb (fun n => bool_decide (dec_value (dec_digit (Z.of_nat n)) = Some (Z.of_nat n)) &&
                    is_digit (dec_digit (Z.of_nat n))) (seq 0 10) = true.
Proof. vm_compute. reflexivity. Qed.

Lemma dec_digit_spec n :
  0 <= n < 10 -> dec_value (dec_digit n) = Some n /\ is_digit (dec_digit n) = true.
Proof.
  intros H. pose proof dec_digits_checked as Hc. rewrite forallb_forall in Hc.
  specialize (Hc (Z.to_nat n) ltac:(apply in_seq; lia)). apply andb_true_iff in Hc as [H1 H2].
  rewrite Z2Nat.id in * by lia. by apply bool_decide_eq_true in H1.
Qed.

Lemma atoi_itoa_digits fuel n acc s :
  0 <= n < 10 ^ Z.of_nat fuel -> atoi_digits acc (itoa_digits fuel n s) =
  atoi_digits (acc * 10 ^ Z.of_nat (String.length (itoa_digits fuel n "")) + n) s.
Proof.
  revert n acc s. induction fuel as [|fuel IH]; intros n acc s Hn.
  - simpl in *. assert (n = 0) as -> by lia. f_equal. lia.
  - cbn [itoa_digits]. pose proof (Z.mod_pos_bound n 10 ltac:(lia)) as Hm.
    destruct (dec_digit_spec (n mod 10) Hm) as [Hv _].
    destruct (n <? 10) eqn:Hlt; [apply Z.ltb_lt in Hlt | apply Z.ltb_ge in Hlt].
    + cbn [atoi_digits String.length]. rewrite Hv. f_equal.
      rewrite Z.mod_small by lia. change (10 ^ Z.of_nat 1) with 10. lia.
    + assert (Hq : 0 <= n / 10 < 10 ^ Z.of_nat fuel).
      { split; [apply Z.div_pos; lia|]. apply Z.div_lt_upper_bound; [lia|].
        rewrite Nat2Z.inj_succ, Z.pow_succ_r in Hn by lia. lia. }
      rewrite IH by done. cbn [atoi_digits]. rewrite Hv.
      assert (Hlen : forall fuel m t, String.length (itoa_digits fuel m t) =
        (String.length (itoa_digits fuel m "") + String.length t)%nat).
      { clear. induction fuel as [|fuel IH]; intros m t; [done|]. cbn [itoa_digits].
        destruct (m <? 10); [done|]. rewrite IH, (IH _ (String _ "")). simpl. lia. }
      rewrite (Hlen fuel _ (String _ "")). cbn [String.length]. f_equal.
      rewrite Nat2Z.inj_add, Z.pow_add_r by lia. change (10 ^ Z.of_nat 1) with 10.
      generalize (10 ^ Z.of_nat (String.length (itoa_digits fuel (n / 10) ""))). intros p.
      pose proof (Z.div_mod n 10 ltac:(lia)). lia.
Qed.

Lemma itoa_digits_digits fuel n acc :
  all_chars is_digit acc = true -> 0 <= n -> all_chars is_digit (itoa_digits fuel n acc) = true.
Proof.
  revert n acc. induction fuel as [|fuel IH]; intros n acc Ha Hn; [done|]. cbn [itoa_digits].
  pose proof (Z.mod_pos_bound n 10 ltac:(lia)) as Hm.
  assert (Hc : all_chars is_digit (String (dec_digit (n mod 10)) acc) = true)
    by (cbn [all_chars]; rewrite Ha; by rewrite (proj2 (dec_digit_spec _ Hm))).
  destruct (n <? 10); [done|]. apply IH; [done | apply Z.div_pos; lia].
Qed.

Lemma itoa_digits_nonempty fuel n acc : itoa_digits (S fuel) n acc <> ""%string.
Proof.
  cbn [itoa_digits]. destruct (n <? 10); [done|].
  generalize (n / 10). generalize (dec_digit (n mod 10)). revert acc.
  induction fuel as [|fuel IH]; intros acc c m; [done|]. cbn [itoa_digits].
  destruct (m <? 10); [done|]. apply IH.
Qed.

Lemma digit_not_sign c : is_digit c = true -> c <> "-"%char /\ c <> "+"%char.
Proof. intros H. split; intros ->; discriminate. Qed.

Lemma itoa_nonneg n : 0 <= n -> itoa n = itoa_digits 20 n "".
Proof. intros H. unfold itoa. by rewrite (proj2 (Z.ltb_ge _ _) H). Qed.

Lemma itoa_is_digits n : 0 <= n -> all_chars is_digit (itoa n) = true.
Proof. intros H. rewrite itoa_nonneg by done. by apply itoa_digits_digits. Qed.

Lemma itoa_nonempty n : 0 <= n -> itoa n <> ""%string.
Proof. intros H. rewrite itoa_nonneg by done. apply itoa_digits_nonempty. Qed.

Lemma atoi_itoa n : 0 <= n < 2 ^ 63 -> atoi (itoa n) = Some n.
Proof.
  intros Hn. pose proof (itoa_is_digits n ltac:(lia)) as Hd.
  pose proof (itoa_nonempty n ltac:(lia)) as Hne.
  assert (Hv : atoi_digits 0 (itoa n) = Some n).
  { rewrite itoa_nonneg by lia. rewrite atoi_itoa_digits; [simpl; f_equal; lia|].
    split; [lia|]. eapply Z.lt_trans; [apply Hn | reflexivity]. }
  assert (Hr : in_int64 n = true) by (unfold in_int64; apply andb_true_iff; lia).
  unfold atoi. destruct (itoa n) as [|c s] eqn:E; [done|].
  cbn [all_chars] in Hd. apply andb_true_iff in Hd as [Hc _].
  assert (Hsel : forall (A : Type) (x y z : A),
    match c with "-"%char => x | "+"%char => y | _ => z end = z).
  { intros A x y z. destruct (digit_not_sign c Hc) as [H1 H2].
    destruct c as [[] [] [] [] [] [] [] []]; try done. }
  rewrite (Hsel _ (Z.opp <$> match s with ""%string => None | _ => atoi_digits 0 s end)
    (match s with ""%string => None | _ => atoi_digits 0 s end) (atoi_digits 0 (String c s))).
  by rewrite Hv, Hr.
Qed.

(** ** IP addresses *)
Inductive ip :=
| V4 (a b c d : Z)
| V6 (words : list Z).   (* eight 16-bit words; never an IPv4-mapped address *)

(** One octet of [netip.parseIPv4Fields]. *)
Definition parse_octet (s : string) : option Z :=
  match s with
  | EmptyString => None
  | String "0" (String _ _) => None
  | _ => match atoi_digits 0 s with Some n => if n <=? 255 then Some n else None | None => None end
  end.

Definition parse_ipv4 (s : string) : option (Z * Z * Z * Z) :=
  match parse_octet <$> split_on "." s with
  | [Some a; Some b; Some c; Some d] => Some (a, b, c, d)
  | _ => None
  end.

Definition hex_value (c : ascii) : option Z :=
  let n := Z.of_N (N_of_ascii c) in
  if (48 <=? n) && (n <=? 57) then Some (n - 48)
  else if (97 <=? n) && (n <=? 102) then Some (n - 87)
  else if (65 <=? n) && (n <=? 70) then Some (n - 55)
  else None.

(** The hexadecimal digits at the front: how many, their value, the rest. *)
Fixpoint take_hex (count : nat) (acc : Z) (s : string) : nat * Z * string :=
  match s with
  | EmptyString => (count, acc, s)
  | String c s' =>
      match hex_value c with
      | Some d => take_hex (S count) (acc * 16 + d) s'
      | None => (count, acc, s)
      end
  end.

(** The loop of [netip.parseIPv6]: the words so far, the place of "::", the rest. *)
Fixpoint parse_words (fuel : nat) (words : list Z) (ellipsis : option nat) (s : string)
  : option (list Z * option nat) :=
  match fuel with
  | O => None     (* eight words are read and text is left *)
  | S fuel' =>
      let '(count, acc, rest) := take_hex 0 0 s in
      if (count =? 0)%nat || (4 <? count)%nat then None
      else match rest with
      | EmptyString => Some (words ++ [acc], ellipsis)
      | String "." _ =>
          if (bool_decide (ellipsis = None) && negb (length words =? 6)%nat) || (6 <? length words)%nat
          then None
          else match parse_ipv4 s with
               | Some (a, b, c, d) => Some (words ++ [a * 256 + b; c * 256 + d], ellipsis)
               | None => None
               end
      | String ":" EmptyString => None
      | String ":" (String ":" rest') =>
          match ellipsis with
          | Some _ => None
          | None =>
              let words := words ++ [acc] in
              if is_empty rest' then Some (words, Some (length words))
              else parse_words fuel' words (Some (length words)) rest'
          end
      | String ":" rest' => parse_words fuel' (words ++ [acc]) ellipsis rest'
      | _ => None
      end
  end.

Definition finish_words (words : list Z) (ellipsis : option nat) : option (list Z) :=
  match ellipsis with
  | None => if (length words =? 8)%nat then Some words else None
  | Some at_ =>
      if (length words <? 8)%nat
      then Some (take at_ words ++ repeat 0 (8 - length words) ++ drop at_ words)
      else None
  end.

Definition parse_ipv6 (s : string) : option (list Z) :=
  match s with
  | String ":" (String ":" rest) =>
      if is_empty rest then Some (repeat 0 8)
      else match parse_words 8 [] (Some 0%nat) rest with
           | Some (words, ellipsis) => finish_words words ellipsis
           | None => None
           end
  | _ =>
      match parse_words 8 [] None s with
      | Some (words, ellipsis) => finish_words words ellipsis
      | None => None
      end
  end.

(** [IP.To4() != nil] on the 16-byte form *)
Definition unmap (words : list Z) : ip :=
  match words with
  | [0; 0; 0; 0; 0; 65535; x; y] => V4 (x / 256) (x mod 256) (y / 256) (y mod 256)
  | _ => V6 words
  end.

Fixpoint first_of (p : ascii -> bool) (s : string) : option ascii :=
  match s with
  | EmptyString => None
  | String c s' => if p c then Some c else first_of p s'
  end.

(** [net.ParseIP]; an address with a zone is rejected. *)
Definition ParseIP (s : string) : option ip :=
  match first_of (fun c => Ascii.eqb c "." || Ascii.eqb c ":" || Ascii.eqb c "%") s with
  | Some "."%char => '(a, b, c, d) ← parse_ipv4 s; Some (V4 a b c d)
  | Some ":"%char => unmap <$> parse_ipv6 s
  | _ => None
  end.

Definition is_v4 (a : ip) : bool := match a with V4 _ _ _ _ => true | V6 _ => false end.

Definition lower_hex (n : Z) : ascii := ascii_of_N (Z.to_N (if n <? 10 then n + 48 else n + 87)).
Fixpoint hex_digits (fuel : nat) (n : Z) (acc : string) : string :=
  match fuel with
  | O => acc
  | S f => let acc := String (lower_hex (n mod 16)) acc in
           if n <? 16 then acc else hex_digits f (n / 16) acc
  end.

(** The leftmost longest run of two or more zero words: start and length. *)
Fixpoint zero_run (words : list Z) : nat :=
  match words with 0 :: ws => S (zero_run ws) | _ => O end.
Fixpoint best_run (start : nat) (words : list Z) : nat * nat :=
  match words with
  | [] => (0, 0)%nat
  | _ :: ws =>
      let '(s, l) := best_run (S start) ws in
      let here := zero_run words in
      if (l <=? here)%nat && (0 <? here)%nat then (start, here) else (s, l)
  end.

(** [IP.String] *)
Definition ip_string (a : ip) : string :=
  match a with
  | V4 a b c d => join "." [itoa a; itoa b; itoa c; itoa d]
  | V6 words =>
      let text ws := join ":" ((fun w => hex_digits 4 w "") <$> ws) in
      let '(s, l) := best_run 0 words in
      if (l <? 2)%nat then text words
      else (text (take s words) ++ "::" ++ text (drop (s + l) words))%string
  end.

(** [IP.IsLoopback], [IsLinkLocalUnicast], [IsLinkLocalMulticast] *)
Definition is_loopback (a : ip) : bool :=
  match a with
  | V4 a _ _ _ => a =? 127
  | V6 words => bool_decide (words = [0; 0; 0; 0; 0; 0; 0; 1])
  end.

Definition is_link_local_unicast (a : ip) : bool :=
  match a with
  | V4 a b _ _ => (a =? 169) && (b =? 254)
  | V6 words => Z.land (default 0 (head words)) 65472 =? 65152
  end.

Definition is_link_local_multicast (a : ip) : bool :=
  match a with
  | V4 a b c _ => (a =? 224) && (b =? 0) && (c =? 0)
  | V6 words => Z.land (default 0 (head words)) 65295 =? 65282
  end.

Example parse_v4 : ParseIP "10.0.0.1" = Some (V4 10 0 0 1).
Proof. reflexivity. Qed.
Example parse_v4_zero : ParseIP "10.0.0.01" = None.
Proof. reflexivity. Qed.
Example parse_v6 : ParseIP "2001:db8::1" = Some (V6 [8193; 3512; 0; 0; 0; 0; 0; 1]).
Proof. reflexivity. Qed.
Example parse_mapped : ParseIP "::ffff:10.0.0.1" = Some (V4 10 0 0 1).
Proof. reflexivity. Qed.
Example parse_zone : ParseIP "fe80::1%eth0" = None.
Proof. reflexivity. Qed.
Example parse_two_gaps : ParseIP "1::2::3" = None.
Proof. reflexivity. Qed.
Example print_v6 : ip_string (V6 [8193; 3512; 0; 0; 1; 0; 0; 1]) = "2001:db8::1:0:0:1"%string.
Proof. reflexivity. Qed.
Example print_unspecified : ip_string (V6 [0; 0; 0; 0; 0; 0; 0; 0]) = "::"%string.
Proof. reflexivity. Qed.

(** ** net.ParseCIDR *)
Fixpoint cut_at (c : ascii) (s : string) : option (string * string) :=
  match s with
  | EmptyString => None
  | String d s' =>
      if Ascii.eqb d c then Some (EmptyString, s')
      else '(a, b) ← cut_at c s'; Some (String d a, b)
  end.

(** The prefix length: decimal digits only, below the limit of [dtoi]. *)
Definition dtoi (s : string) : option Z :=
  match s with
  | EmptyString => None
  | _ => n ← atoi_digits 0 s; if n <? 16777215 then Some n else None
  end.

(** The address and the prefix length; an IPv6 text has 128 bits, IPv4-mapped ones included. *)
Definition ParseCIDR (s : string) : option (ip * Z) :=
  '(addr, mask) ← cut_at "/" s;
  a ← ParseIP addr;
  n ← dtoi mask;
  let bits := match first_of (fun c => Ascii.eqb c "." || Ascii.eqb c ":") addr with
              | Some "."%char => 32 | _ => 128 end in
  if n <=? bits then Some (a, n) else None.

Example cidr_v4 : ParseCIDR "10.0.0.0/8" = Some (V4 10 0 0 0, 8).
Proof. reflexivity. Qed.
Example cidr_v4_too_long : ParseCIDR "10.0.0.0/33" = None.
Proof. reflexivity. Qed.
Example cidr_v6 : ParseCIDR "2001:db8::/32" = Some (V6 [8193; 3512; 0; 0; 0; 0; 0; 0], 32).
Proof. reflexivity. Qed.
Example cidr_bare : ParseCIDR "10.0.0.1" = None.
Proof. reflexivity. Qed.

(** ** The characters of an address *)
Definition addr_char (c : ascii) : bool := match hex_value c with Some _ => true | None => Ascii.eqb c "." || Ascii.eqb c ":" end.

Lemma addr_char_word c : addr_char c = true -> negb (is_space c) = true.
Proof. by destruct c as [[] [] [] [] [] [] [] []]. Qed.
Lemma dec_value_addr c d : dec_value c = Some d -> addr_char c = true.
Proof. by destruct c as [[] [] [] [] [] [] [] []]. Qed.
Lemma hex_value_addr c d : hex_value c = Some d -> addr_char c = true.
Proof. unfold addr_char. by intros ->. Qed.

Lemma atoi_digits_chars acc s n : atoi_digits acc s = Some n -> all_chars addr_char s = true.
Proof.
  revert acc. induction s as [|c s IH]; intros acc; cbn [atoi_digits all_chars]; [done|].
  destruct (dec_value c) as [d|] eqn:Hd; [|done]. intros H%IH. by rewrite (dec_value_addr _ _ Hd).
Qed.

Lemma parse_octet_chars s n : parse_octet s = Some n -> all_chars addr_char s = true.
Proof.
  intros H. assert (exists m, atoi_digits 0 s = Some m) as [m Hm]; [|by eapply atoi_digits_chars].
  revert H. unfold parse_octet. destruct s as [|c s]; [done|].
  assert (Hgen : match atoi_digits 0 (String c s) with Some n => if n <=? 255 then Some n else None | None => None end = Some n ->
    exists m, atoi_digits 0 (String c s) = Some m) by (destruct (atoi_digits 0 (String c s)); [eauto | done]).
  destruct c as [[] [] [] [] [] [] [] []]; try exact Hgen. destruct s; [exact Hgen | discriminate].
Qed.

Lemma parse_ipv4_chars s a : parse_ipv4 s = Some a -> all_chars addr_char s = true.
Proof.
  unfold parse_ipv4. intros H. apply (all_chars_split _ "."); [done|].
  destruct (split_on "." s) as [|p1 [|p2 [|p3 [|p4 [|]]]]]; simpl in H; try discriminate;
    repeat match type of H with context [parse_octet ?p] =>
      destruct (parse_octet p) eqn:?; simpl in H; try discriminate H end.
  repeat constructor; by eapply parse_octet_chars.
Qed.

Lemma take_hex_chars count acc s n v rest :
  take_hex count acc s = (n, v, rest) -> all_chars addr_char rest = true -> all_chars addr_char s = true.
Proof.
  revert count acc. induction s as [|c s IH]; intros count acc; cbn [take_hex].
  - by intros [= <- <- <-].
  - destruct (hex_value c) as [d|] eqn:Hd; [|by intros [= <- <- <-]].
    intros H Hr. cbn [all_chars]. rewrite (hex_value_addr _ _ Hd). by eapply IH.
Qed.

Lemma parse_words_chars fuel words e s res :
  parse_words fuel words e s = Some res -> all_chars addr_char s = true.
Proof.
  revert words e s. induction fuel as [|fuel IH]; intros words e s; [done|]. cbn [parse_words].
  destruct (take_hex 0 0 s) as [[count acc] rest] eqn:Ht.
  destruct ((count =? 0)%nat || (4 <? count)%nat); [done|].
  intros H. apply (take_hex_chars _ _ _ _ _ _ Ht).
  destruct rest as [|c rest]; [done|]. revert H.
  destruct c as [[] [] [] [] [] [] [] []]; try discriminate.
  - (* "." *) destruct (_ || _); [discriminate|]. destruct (parse_ipv4 s) as [[[[]]]|] eqn:E; [|discriminate].
    intros _. apply parse_ipv4_chars in E. clear -Ht E.
    revert Ht E. generalize 0%nat at 1. generalize 0 at 1.
    induction s as [|c s IHs]; intros a n; cbn [take_hex all_chars]; [done|].
    destruct (hex_value c); [|intros [= <- <- -> ->] H; done].
    intros H [_ E]%andb_true_iff. by eapply IHs.
  - (* ":" *) destruct rest as [|c rest]; [discriminate|].
    assert (Hgen : forall w e', parse_words fuel w e' (String c rest) = Some res ->
              all_chars addr_char (String ":" (String c rest)) = true)
      by (intros w e' H%IH; exact H).
    destruct c as [[] [] [] [] [] [] [] []]; try (apply Hgen).
    destruct e; [discriminate|]. destruct (is_empty rest) eqn:Hr.
    + apply is_empty_spec in Hr as ->. done.
    + intros H%IH. exact H.
Qed.

Lemma ParseIP_chars s a : ParseIP s = Some a -> all_chars addr_char s = true.
Proof.
  unfold ParseIP. destruct (first_of _ s) as [c|]; [|done].
  assert (H4 : forall a, ('(a, b, c, d) ← parse_ipv4 s; Some (V4 a b c d)) = Some a -> all_chars addr_char s = true).
  { intros a'. destruct (parse_ipv4 s) as [q|] eqn:E; [|done]. intros _. by eapply parse_ipv4_chars. }
  assert (H6 : forall a, unmap <$> parse_ipv6 s = Some a -> all_chars addr_char s = true).
  { intros a' (ws & H & _)%fmap_Some. revert H. unfold parse_ipv6.
    assert (Hgen : forall s', match parse_words 8 [] None s' with
        | Some (words, ellipsis) => finish_words words ellipsis | None => None end = Some ws ->
        all_chars addr_char s' = true).
    { intros s'. destruct (parse_words 8 [] None s') as [[w e]|] eqn:E; [|done]. intros _.
      by eapply parse_words_chars. }
    destruct s as [|c1 s1]; [apply Hgen|]. destruct c1 as [[] [] [] [] [] [] [] []]; try apply Hgen.
    destruct s1 as [|c2 s2]; [apply Hgen|]. destruct c2 as [[] [] [] [] [] [] [] []]; try apply Hgen.
    destruct (is_empty s2) eqn:He; [apply is_empty_spec in He as ->; done|].
    destruct (parse_words 8 [] (Some 0%nat) s2) as [[w e]|] eqn:E; [|done]. intros _.
    by apply parse_words_chars in E. }
  destruct c as [[] [] [] [] [] [] [] []]; try discriminate; [apply H4 | apply H6].
Qed.

Lemma ParseIP_word s : is_Some (ParseIP s) -> word s = true.
Proof. intros [a Ha%ParseIP_chars]. eapply all_chars_impl; [apply addr_char_word | exact Ha]. Qed.

Lemma cut_at_some c s a b : cut_at c s = Some (a, b) -> s = (a ++ String c b)%string.
Proof.
  revert a b. induction s as [|d s IH]; intros a b; cbn; [done|]. destruct (Ascii.eqb_spec d c) as [->|].
  - by intros [= <- <-].
  - destruct (cut_at c s) as [[x y]|]; [|done]. intros [= <- <-]. by rewrite (IH x y).
Qed.

(** A network is written with the characters of an address and one slash. *)
Lemma ParseCIDR_chars s r : ParseCIDR s = Some r -> all_chars (fun c => addr_char c || Ascii.eqb c "/") s = true.
Proof.
  unfold ParseCIDR. destruct (cut_at "/" s) as [[addr mask]|] eqn:Ec; [|done]. apply cut_at_some in Ec as ->. cbn.
  destruct (ParseIP addr) as [a|] eqn:Ea; [|done]. cbn. destruct (dtoi mask) as [n|] eqn:Em; [|done]. intros _.
  assert (Hm : all_chars addr_char mask = true).
  { destruct mask as [|c m]; [done|]. unfold dtoi in Em. destruct (atoi_digits 0 (String c m)) as [k|] eqn:Ed; [|done].
    by eapply atoi_digits_chars. }
  rewrite all_chars_app. cbn. apply ParseIP_chars in Ea.
  rewrite orb_true_r. apply andb_true_iff. split; (eapply all_chars_impl; [|eassumption]); by intros c ->.
Qed.
