(* ===== verification/GoSeq.v ===== *)
(** * Slices and text searches of Go's standard library

    What the site profiles and the compiler use beyond the prelude: suffixes and character
    searches (strings), sets of integers (sort.Ints and slices.Compact), the loops that keep the
    first element of every key, and the regular expressions they match, as the automata they are. *)
From Stdlib Require Import ZArith Lia Ascii String.
From stdpp Require Import base tactics strings list.
From S2P Require Import Prelude GoNet.
Local Set Warnings "-clear-no-such-hyp".
Local Open Scope string_scope.
Local Open Scope Z_scope.

(** ** Text *)

(** [strings.HasSuffix(s, p)] *)
Definition has_suffix (p s : string) : bool :=
  (String.length p <=? String.length s)%nat &&
  String.eqb (drop_chars (String.length s - String.length p) s) p.

Lemma has_suffix_app p s : has_suffix p (s ++ p) = true.
Proof.
  unfold has_suffix. rewrite string_length_app.
  replace (String.length s + String.length p - String.length p)%nat with (String.length s) by lia.
  apply andb_true_iff. split; [apply Nat.leb_le; lia|].
  assert (Hd : forall t, drop_chars (String.length t) (t ++ p) = p) by (induction t as [|c t IH]; [done | exact IH]).
  rewrite Hd. apply String.eqb_refl.
Qed.

Fixpoint take_chars (n : nat) (s : string) : string :=
  match n, s with
  | S n', String c s' => String c (take_chars n' s')
  | _, _ => ""
  end.

(** [strings.TrimSuffix(s, p)] *)
Definition trim_suffix (p s : string) : string :=
  if has_suffix p s then take_chars (String.length s - String.length p) s else s.

Lemma concat_cons x l : String.concat "" (x :: l) = x ++ String.concat "" l.
Proof. destruct l as [|y l]; [by rewrite string_app_nil | done]. Qed.

Lemma concat_app l1 l2 : String.concat "" (app l1 l2) = String.concat "" l1 ++ String.concat "" l2.
Proof.
  induction l1 as [|x l1 IH]; [done|]. change (app (x :: l1) l2) with (x :: app l1 l2).
  rewrite !concat_cons, IH. by rewrite string_app_assoc.
Qed.

Lemma drop_chars_app p s : drop_chars (String.length p) (p ++ s) = s.
Proof. by induction p as [|c p IH]. Qed.

Lemma take_drop_chars n s : take_chars n s ++ drop_chars n s = s.
Proof.
  revert s. induction n as [|n IH]; intros [|c s]; [done..|].
  change (String c (take_chars n s ++ drop_chars n s) = String c s). by rewrite IH.
Qed.

Lemma has_suffix_split p s : has_suffix p s = true -> exists a, s = a ++ p.
Proof.
  unfold has_suffix. intros [_ E%String.eqb_eq]%andb_true_iff.
  exists (take_chars (String.length s - String.length p) s). rewrite <- E at 2. by rewrite take_drop_chars.
Qed.

Lemma trim_suffix_app p s : trim_suffix p (s ++ p) = s.
Proof.
  unfold trim_suffix. rewrite has_suffix_app, string_length_app, Nat.add_sub.
  induction s as [|c s IH]; [by destruct p|]. cbn [String.length take_chars]. by rewrite <- IH at 2.
Qed.

(** A character of [s] satisfies [p] ([strings.IndexFunc(s, p) >= 0]). *)
Fixpoint any_char (p : ascii -> bool) (s : string) : bool :=
  match s with EmptyString => false | String c s' => p c || any_char p s' end.

Fixpoint has_char (c : ascii) (s : string) : bool :=
  match s with EmptyString => false | String c' s' => Ascii.eqb c c' || has_char c s' end.

(** [strings.ContainsAny(s, chars)] *)
Definition contains_any (chars s : string) : bool := any_char (fun c => has_char c chars) s.

(** [strings.ReplaceAll(s, old, new)] for an [old] of one byte. *)
Fixpoint replace_char (old : ascii) (new s : string) : string :=
  match s with
  | EmptyString => ""
  | String c s' => if Ascii.eqb c old then new ++ replace_char old new s' else String c (replace_char old new s')
  end.

(** [strings.ReplaceAll] for a non-empty [old]; [skip] characters belong to the last occurrence. *)
Fixpoint replace_from (old new : string) (skip : nat) (s : string) : string :=
  match s with
  | EmptyString => EmptyString
  | String c s' =>
      match skip with
      | S skip' => replace_from old new skip' s'
      | O => if has_prefix old s then new ++ replace_from old new (String.length old - 1) s'
             else String c (replace_from old new 0 s')
      end
  end.
Definition replace_all (old new s : string) : string := replace_from old new 0 s.

(** [strings.Count(s, c)] for a byte. *)
Fixpoint count_char (c : ascii) (s : string) : Z :=
  match s with EmptyString => 0 | String c' s' => (if Ascii.eqb c c' then 1 else 0) + count_char c s' end.

(** [strings.Trim(s, cutset)] for the characters that satisfy [p]. *)
Fixpoint trim_left_of (p : ascii -> bool) (s : string) : string :=
  match s with EmptyString => "" | String c s' => if p c then trim_left_of p s' else s end.
Fixpoint trim_right_of (p : ascii -> bool) (s : string) : string :=
  match s with
  | EmptyString => ""
  | String c s' =>
      match trim_right_of p s' with
      | EmptyString => if p c then "" else String c ""
      | r => String c r
      end
  end.
Definition trim_of (p : ascii -> bool) (s : string) : string := trim_right_of p (trim_left_of p s).

Definition newline : string := String (ascii_of_nat 10) "".
(** Carriage return, line feed. *)
Definition crlf : string := String (ascii_of_nat 13) newline.
Definition tab : string := String (ascii_of_nat 9) "".
Definition nul : string := String (ascii_of_nat 0) "".

Lemma any_char_all p s : any_char p s = negb (all_chars (fun c => negb (p c)) s).
Proof. induction s as [|c s IH]; [done|]. cbn. rewrite IH, negb_andb. by destruct (p c). Qed.

Lemma contains_any_false chars s :
  contains_any chars s = false -> all_chars (fun c => negb (has_char c chars)) s = true.
Proof. unfold contains_any. rewrite any_char_all. by intros H%negb_false_iff. Qed.

#[local] Arguments is_space : simpl never.

(** Mapping the characters of a text without touching its spaces commutes with trimming. *)
Section MapSpaces.
Variable f : ascii -> ascii.
Hypothesis Hf : forall c, is_space (f c) = is_space c.

Lemma trim_left_map s : trim_left (map_string f s) = map_string f (trim_left s).
Proof. induction s as [|c s IH]; [done|]. cbn. rewrite Hf. by destruct (is_space c). Qed.

Lemma trim_right_map s : trim_right (map_string f s) = map_string f (trim_right s).
Proof.
  induction s as [|c s IH]; [done|]. cbn. rewrite IH, Hf. destruct (trim_right s); [by destruct (is_space c) | done].
Qed.

Lemma trim_space_map s : trim_space (map_string f s) = map_string f (trim_space s).
Proof. unfold trim_space. by rewrite trim_left_map, trim_right_map. Qed.
End MapSpaces.

Definition lower_trim (value : string) : string := to_lower (trim_space value).
Definition upper_trim (value : string) : string := to_upper (trim_space value).

Lemma lower_trim_twice s : lower_trim (lower_trim s) = lower_trim s.
Proof. unfold lower_trim. by rewrite trim_space_lower, trim_space_idem, to_lower_idem. Qed.

Lemma trim_lower_trim s : trim_space (lower_trim s) = lower_trim s.
Proof. unfold lower_trim. by rewrite trim_space_lower, trim_space_idem. Qed.

Lemma upper_trim_twice s : upper_trim (upper_trim s) = upper_trim s.
Proof.
  unfold upper_trim, to_upper. rewrite (trim_space_map upper_ascii), trim_space_idem; [apply to_upper_idem|].
  by intros [[] [] [] [] [] [] [] []].
Qed.

(** Dropping the blanks of a trimmed text leaves it trimmed. *)
Lemma drop_blank_cons c s :
  replace_char " " "" (String c s) = if Ascii.eqb c " " then replace_char " " "" s else String c (replace_char " " "" s).
Proof. done. Qed.
#[local] Arguments replace_char : simpl never.

Lemma drop_blanks_lower s : replace_char " " "" (to_lower s) = to_lower (replace_char " " "" s).
Proof.
  induction s as [|c s IH]; [done|]. change (to_lower (String c s)) with (String (lower_ascii c) (to_lower s)).
  rewrite !drop_blank_cons, IH.
  replace (Ascii.eqb (lower_ascii c) " ") with (Ascii.eqb c " "); [by destruct (Ascii.eqb c " ")|].
  by destruct c as [[] [] [] [] [] [] [] []].
Qed.

Lemma drop_blanks_trim_left s : trim_left s = s -> trim_left (replace_char " " "" s) = replace_char " " "" s.
Proof.
  destruct s as [|c s]; [done|]. cbn. destruct (is_space c) eqn:Hc.
  - intros E. exfalso. assert (Hl : forall t, (String.length (trim_left t) <= String.length t)%nat).
    { clear. intros t. induction t as [|d t IH]; [done|]. cbn. destruct (is_space d); [lia|done]. }
    specialize (Hl s). rewrite E in Hl. cbn in Hl. lia.
  - intros _. rewrite drop_blank_cons. destruct (Ascii.eqb_spec c " ") as [->|_]; [done|]. cbn. by rewrite Hc.
Qed.

Lemma drop_blanks_trim_right s : trim_right s = s ->
  trim_right (replace_char " " "" s) = replace_char " " "" s /\ (s <> "" -> replace_char " " "" s <> "").
Proof.
  induction s as [|c s IH]; [done|]. cbn. intros E. rewrite drop_blank_cons. destruct (trim_right s) as [|d r] eqn:Hr.
  - destruct (is_space c) eqn:Hc; [done|]. injection E as <-.
    destruct (Ascii.eqb_spec c " ") as [->|_]; [done|]. cbn. by rewrite Hc.
  - injection E as E. destruct (IH E) as [H1 H2]. specialize (H2 ltac:(by rewrite <- E)).
    destruct (Ascii.eqb c " "); [done|]. cbn. rewrite H1. by destruct (replace_char " " "" s).
Qed.

Lemma drop_blanks_twice s : replace_char " " "" (replace_char " " "" s) = replace_char " " "" s.
Proof.
  induction s as [|c s IH]; [done|]. rewrite drop_blank_cons. destruct (Ascii.eqb c " ") eqn:Hc; [done|].
  by rewrite drop_blank_cons, Hc, IH.
Qed.

Lemma drop_blanks_trimmed s : trim_space s = s -> trim_space (replace_char " " "" s) = replace_char " " "" s.
Proof.
  intros Hs. assert (Hl : trim_left s = s) by (rewrite <- Hs; unfold trim_space; by rewrite trim_left_right by apply trim_left_idem).
  assert (Hr : trim_right s = s) by (rewrite <- Hs; unfold trim_space; apply trim_right_idem).
  unfold trim_space. rewrite (drop_blanks_trim_left s Hl). by apply drop_blanks_trim_right.
Qed.

(** ** Slices *)

(** The loops [if _, ok := seen[key]; ok { continue }; seen[key] = ...]: the first of every key. *)
Fixpoint dedupe_by {A} (key : A -> string) (seen : list string) (l : list A) : list A :=
  match l with
  | [] => []
  | x :: rest =>
      if existsb (String.eqb (key x)) seen then dedupe_by key seen rest
      else x :: dedupe_by key (key x :: seen) rest
  end.

(** [sort.Ints] and [slices.Compact]. *)
Definition sorted_ints (l : list Z) : list Z := sort_on id (remove_dups l).

Definition mem (x : string) (l : list string) : bool := existsb (String.eqb x) l.
Definition mem_int (x : Z) (l : list Z) : bool := existsb (Z.eqb x) l.

Lemma mem_spec x l : mem x l = true <-> x ∈ l.
Proof.
  unfold mem. rewrite existsb_exists. split.
  - intros (y & Hy & ->%String.eqb_eq). by apply list_elem_of_In.
  - intros Hx. exists x. split; [by apply list_elem_of_In | apply String.eqb_refl].
Qed.

Lemma mem_false x l : mem x l = false <-> x ∉ l.
Proof. rewrite <- mem_spec. by destruct (mem x l). Qed.

Section Dedupe.
Context {A : Type} (key : A -> string).

Lemma dedupe_by_sublist seen l : sublist (dedupe_by key seen l) l.
Proof.
  revert seen. induction l as [|x l IH]; intros seen; cbn; [done|].
  destruct (existsb _ seen); [by apply sublist_cons | by apply sublist_skip].
Qed.

Lemma dedupe_by_keys seen l : NoDup (key <$> dedupe_by key seen l) /\ forall x, x ∈ dedupe_by key seen l -> key x ∉ seen.
Proof.
  revert seen. induction l as [|x l IH]; intros seen; cbn.
  { split; [constructor|]. by intros x []%not_elem_of_nil. }
  destruct (existsb (String.eqb (key x)) seen) eqn:Hx; [apply IH|].
  apply mem_false in Hx. destruct (IH (key x :: seen)) as [Hn Hs]. split.
  - cbn. constructor; [|done]. intros (y & Hy & Hin)%list_elem_of_fmap. apply (Hs y Hin). rewrite Hy. by left.
  - intros y [->|Hy]%elem_of_cons; [done|]. intros Hin. apply (Hs y Hy). by right.
Qed.

Lemma dedupe_by_id seen l :
  NoDup (key <$> l) -> (forall x, x ∈ l -> key x ∉ seen) -> dedupe_by key seen l = l.
Proof.
  revert seen. induction l as [|x l IH]; intros seen Hn Hs; [done|]. apply NoDup_cons in Hn as [Hx Hn]. cbn.
  destruct (existsb _ seen) eqn:He; [exfalso; apply mem_spec in He; by apply (Hs x ltac:(left))|].
  f_equal. apply IH; [done|]. intros y Hy [E|Hin]%elem_of_cons.
  - apply Hx. rewrite <- E. by apply list_elem_of_fmap_2.
  - by apply (Hs y); [right|].
Qed.

(** What is kept is the first of its key. *)
Lemma elem_of_dedupe seen l x :
  x ∈ dedupe_by key seen l <-> (key x ∉ seen) /\ (exists before after, l = app before (x :: after) /\ key x ∉ (key <$> before)).
Proof.
  revert seen. induction l as [|y l IH]; intros seen; cbn.
  { split; [by intros []%not_elem_of_nil | by intros (_ & [|] & ? & ? & _)]. }
  destruct (existsb (String.eqb (key y)) seen) eqn:Hy.
  - apply mem_spec in Hy. rewrite IH. split; intros (Hx & before & after & E & Hb); (split; [done|]).
    + exists (y :: before), after. split; [by rewrite E|]. cbn. rewrite not_elem_of_cons. split; [congruence | done].
    + destruct before as [|z before]; injection E as -> E; [done|]. exists before, after. split; [done|].
      cbn in Hb. by apply not_elem_of_cons in Hb as [_ ?].
  - apply mem_false in Hy. rewrite elem_of_cons, IH. split.
    + intros [->|(Hx & before & after & E & Hb)].
      * split; [done|]. exists [], l. split; [done | apply not_elem_of_nil].
      * apply not_elem_of_cons in Hx as [Hne Hx]. split; [done|]. exists (y :: before), after. split; [by rewrite E|].
        cbn. by rewrite not_elem_of_cons.
    + intros (Hx & before & after & E & Hb). destruct before as [|z before]; injection E as -> E; [by left|]. right.
      cbn in Hb. apply not_elem_of_cons in Hb as [Hne Hb]. split; [by rewrite not_elem_of_cons | eauto].
Qed.

Lemma dedupe_covers seen l x : x ∈ l -> key x ∉ seen -> key x ∈ key <$> dedupe_by key seen l.
Proof.
  revert seen. induction l as [|y l IH]; intros seen Hx Hs; [by apply not_elem_of_nil in Hx|]. cbn.
  destruct (existsb (String.eqb (key y)) seen) eqn:Hy.
  - apply mem_spec in Hy. apply elem_of_cons in Hx as [->|Hx]; [done | auto].
  - cbn. rewrite elem_of_cons. destruct (String.eqb_spec (key x) (key y)); [by left|]. right.
    apply elem_of_cons in Hx as [->|Hx]; [done|]. apply IH; [done|]. by apply not_elem_of_cons.
Qed.

Lemma dedupe_by_nodup l : NoDup (key <$> dedupe_by key [] l).
Proof. apply dedupe_by_keys. Qed.

Lemma Forall_dedupe P seen l : Forall P l -> Forall P (dedupe_by key seen l).
Proof.
  intros Hl. apply Forall_forall. intros x Hx. eapply Forall_forall; [exact Hl|].
  eapply sublist_subseteq; [apply dedupe_by_sublist | done].
Qed.

(** Normalise, drop, keep the first of each key, sort: what that makes is a fixed point. *)
Lemma dedupe_sort_idem {K} `{KeyOrder K} (order : A -> K) (norm : A -> A) (keep : A -> bool) l :
  (forall x, x ∈ l -> norm (norm x) = norm x) ->
  let f := fun l => sort_on order (dedupe_by key [] (List.filter keep (norm <$> l))) in
  f (f l) = f l.
Proof.
  intros Hnorm f. set (r := f l).
  assert (Hr : Forall (fun x => norm x = x /\ keep x = true) r).
  { apply Forall_sort_on, Forall_dedupe, Forall_forall. intros x Hx%list_elem_of_In.
    apply filter_In in Hx as [Hx Hk]. apply list_elem_of_In, list_elem_of_fmap in Hx as (y & -> & Hy). split; [by apply Hnorm | done]. }
  assert (Hmap : norm <$> r = r).
  { clear -Hr. induction Hr as [|x r [Hx _] _ IH]; [done|]. cbn. by rewrite Hx, IH. }
  assert (Hfilter : List.filter keep r = r).
  { clear -Hr. induction Hr as [|x r [_ Hx] _ IH]; [done|]. cbn. by rewrite Hx, IH. }
  unfold f at 1. rewrite Hmap, Hfilter, dedupe_by_id.
  - apply sort_on_id, sort_on_sorted.
  - unfold r, f. rewrite sort_on_perm. apply dedupe_by_nodup.
  - intros x _ []%not_elem_of_nil.
Qed.

(** The same without the sort. *)
Lemma dedupe_idem (norm : A -> A) l :
  (forall x, norm (norm x) = norm x) ->
  dedupe_by key [] (norm <$> dedupe_by key [] (norm <$> l)) = dedupe_by key [] (norm <$> l).
Proof.
  intros Hnorm. set (r := dedupe_by key [] (norm <$> l)).
  assert (Hr : Forall (fun x => norm x = x) r).
  { apply Forall_dedupe, Forall_fmap, Forall_true. intros x. apply Hnorm. }
  assert (Hmap : norm <$> r = r) by (clear -Hr; induction Hr as [|x r Hx _ IH]; [done|]; cbn; by rewrite Hx, IH).
  rewrite Hmap. apply dedupe_by_id; [apply dedupe_by_nodup|]. intros x _ []%not_elem_of_nil.
Qed.
End Dedupe.

Lemma sort_dedupe_fixed {A} `{EqDecision A} `{KeyOrder A} (l : list A) :
  NoDup l -> sorted_on id l -> sort_on id (remove_dups l) = l.
Proof.
  intros Hn Hs. symmetry. apply sort_on_unique; [rewrite list_fmap_id; apply NoDup_remove_dups| |done].
  symmetry. apply NoDup_Permutation; [apply NoDup_remove_dups | done|]. intros x. apply elem_of_remove_dups.
Qed.

Lemma sort_dedupe_sorted {A} `{EqDecision A} `{KeyOrder A} (l : list A) :
  NoDup (sort_on id (remove_dups l)) /\ sorted_on id (sort_on id (remove_dups l)).
Proof. split; [rewrite sort_on_perm; apply NoDup_remove_dups | apply sort_on_sorted]. Qed.

Lemma sorted_ints_idem l : sorted_ints (sorted_ints l) = sorted_ints l.
Proof. by apply sort_dedupe_fixed; apply sort_dedupe_sorted. Qed.

(** ** Regular expressions *)

(** [^\d+r/[sm]$] *)
Fixpoint rate_rest (s : string) : bool :=
  match s with
  | String c s' => if is_digit c then rate_rest s' else String.eqb s "r/s" || String.eqb s "r/m"
  | EmptyString => false
  end.
Definition match_rate (s : string) : bool :=
  match s with String c s' => is_digit c && rate_rest s' | EmptyString => false end.

(** [^[0-9]+(\.[0-9]+)?$] *)
Definition all_digits (s : string) : bool := negb (is_empty s) && all_chars is_digit s.
Definition match_crs_version (s : string) : bool :=
  match split_on "." s with
  | [major] => all_digits major
  | [major; minor] => all_digits major && all_digits minor
  | _ => false
  end.

(** One or more characters, none of them a line break or a double quote. *)
Definition header_char (c : ascii) : bool := negb (has_char c crlf) && negb (Ascii.eqb c (ascii_of_nat 34)).
Definition match_header_value (s : string) : bool := negb (is_empty s) && all_chars header_char s.

(** [(:[0-9]{1,5})?$] after a host whose characters hold no colon: the host that remains. *)
Definition port_digits (s : string) : bool := all_digits s && (String.length s <=? 5)%nat.
Definition cut_port (s : string) : option string :=
  match split_on ":" s with
  | [host] => Some host
  | [host; port] => if port_digits port then Some host else None
  | _ => None
  end.
Definition is_alnum (c : ascii) : bool := is_lower c || is_upper c || is_digit c.
Definition host_char (c : ascii) : bool := is_alnum c || Ascii.eqb c "." || Ascii.eqb c "-".

Fixpoint last_char (s : string) : option ascii :=
  match s with EmptyString => None | String c EmptyString => Some c | String _ s' => last_char s' end.

(** [^(?i:[a-z0-9][a-z0-9.-]*[a-z0-9]|[a-z0-9])(:[0-9]{1,5})?$] *)
Definition match_host_header (s : string) : bool :=
  match cut_port s with
  | Some host =>
      all_chars host_char host &&
      match host, last_char host with
      | String first _, Some last => is_alnum first && is_alnum last
      | _, _ => false
      end
  | None => false
  end.

(** [^(?:\*|null|https?://[a-z0-9][a-z0-9.-]*(:[0-9]{1,5})?)$] *)
Definition lower_host_char (c : ascii) : bool := is_lower c || is_digit c || Ascii.eqb c "." || Ascii.eqb c "-".
Definition cors_host (s : string) : bool :=
  match cut_port s with
  | Some (String first rest) => (is_lower first || is_digit first) && all_chars lower_host_char rest
  | _ => false
  end.
Definition match_cors_origin (s : string) : bool :=
  String.eqb s "*" || String.eqb s "null" ||
  (has_prefix "http://" s && cors_host (drop_chars 7 s)) ||
  (has_prefix "https://" s && cors_host (drop_chars 8 s)).

(** ** The process environment *)

(** [os.Getenv]; a variable that is not set reads as the empty string. *)
Class Environment := { Getenv : string -> string }.

(** [regexp.Compile]: the error of a pattern that is not a regular expression. *)
Class Regexps := { regexp_error : string -> option string }.
