(* ===== verification/GoFloat.v ===== *)
(** * Go's float64: IEEE 754 double precision and strconv.ParseFloat

    A float64 is the Standard Library's [spec_float], whose operations with 53 bits of precision and
    exponents below 1024 are those of the machine, rounding to nearest, ties to even. *)
From Stdlib Require Import ZArith Lia Ascii String SpecFloat.
From stdpp Require Import base tactics strings list.
From S2P Require Import Prelude GoNet GoSeq.
Local Open Scope string_scope.
Local Open Scope Z_scope.

Definition float64 : Type := spec_float.

#[export] Instance float64_eq_dec : EqDecision float64.
Proof. intros x y. unfold Decision. decide equality; apply Z.eq_dec || apply Pos.eq_dec || apply Bool.bool_dec. Defined.

Definition fadd (x y : float64) : float64 := SFadd 53 1024 x y.
Definition fsub (x y : float64) : float64 := SFsub 53 1024 x y.
Definition fmul (x y : float64) : float64 := SFmul 53 1024 x y.
Definition fdiv (x y : float64) : float64 := SFdiv 53 1024 x y.

(** Comparisons; all false on a NaN. *)
Definition fle (x y : float64) : bool := SFleb x y.
Definition flt (x y : float64) : bool := SFltb x y.

Definition fzero : float64 := S754_zero false.

(** ** Exact values rounded *)
Definition float_of_Z (n : Z) : float64 := binary_normalize 53 1024 n 0 false.

(** [m * base ^ e], correctly rounded, with the sign [neg]. *)
Definition scaled (neg : bool) (m : positive) (base e : Z) : float64 :=
  let value :=
    if 0 <=? e then binary_normalize 53 1024 (Z.pos m * base ^ e) 0 false
    else SFdiv 53 1024 (S754_finite false m 0) (S754_finite false (Z.to_pos (base ^ (- e))) 0) in
  if neg then SFopp value else value.

Definition float_of_decimal (m e : Z) : float64 :=
  match m with Z.pos p => scaled false p 10 e | Z0 => fzero | Z.neg p => scaled true p 10 e end.

(** ** strconv.ParseFloat *)
Definition hex_value (c : ascii) : option Z :=
  let n := Z.of_N (N_of_ascii (lower_ascii c)) in
  if (48 <=? n) && (n <=? 57) then Some (n - 48)
  else if (97 <=? n) && (n <=? 102) then Some (n - 87) else None.

(** The infinities and NaN, in any case. *)
Definition special (s : string) : option float64 :=
  let '(neg, signed, body) :=
    match s with
    | String "-" s' => (true, true, s')
    | String "+" s' => (false, true, s')
    | _ => (false, false, s)
    end in
  let word := to_lower body in
  if String.eqb word "inf" || String.eqb word "infinity" then Some (S754_infinity neg)
  else if negb signed && String.eqb word "nan" then Some S754_nan else None.

(** [underscoreOK]: underscores separate digits only. *)
Inductive last_seen := Start | Digit | Underscore | Other.

Fixpoint underscores_separate (hex : bool) (seen : last_seen) (s : string) : bool :=
  match s with
  | EmptyString => match seen with Underscore => false | _ => true end
  | String c s' =>
      if is_digit c || (hex && bool_decide (is_Some (hex_value c))) then underscores_separate hex Digit s'
      else if Ascii.eqb c "_" then
        match seen with Digit => underscores_separate hex Underscore s' | _ => false end
      else match seen with Underscore => false | _ => underscores_separate hex Other s' end
  end.

Definition unsigned (s : string) : bool * string :=
  match s with String "-" s' => (true, s') | String "+" s' => (false, s') | _ => (false, s) end.

Definition hex_body (s : string) : option string :=
  match s with
  | String "0" (String c s') => if Ascii.eqb (lower_ascii c) "x" then Some s' else None
  | _ => None
  end.

Definition underscoreOK (s : string) : bool :=
  let body := (unsigned s).2 in
  match hex_body body with
  | Some digits => underscores_separate true Digit digits
  | None =>
      match body with
      | String "0" (String c digits) =>
          if Ascii.eqb (lower_ascii c) "b" || Ascii.eqb (lower_ascii c) "o" then underscores_separate false Digit digits
          else underscores_separate false Start body
      | _ => underscores_separate false Start body
      end
  end.

(** The digits of a mantissa up to the first other character: its value, the number of digits after
    the point, whether a point and a digit were seen, and the rest. *)
Fixpoint mantissa (digit : ascii -> option Z) (base value fraction : Z) (dot seen : bool) (s : string)
    : Z * Z * bool * string :=
  match s with
  | String c s' =>
      if Ascii.eqb c "." then if dot then (value, fraction, seen, s) else mantissa digit base value fraction true seen s'
      else match digit c with
           | Some d => mantissa digit base (value * base + d) (if dot then fraction + 1 else fraction) dot true s'
           | None => (value, fraction, seen, s)
           end
  | EmptyString => (value, fraction, seen, s)
  end.

(** An exponent stops growing at ten thousand; the rest must be digits. *)
Fixpoint exponent_digits (e : Z) (s : string) : option Z :=
  match s with
  | EmptyString => Some e
  | String c s' => d ← dec_value c; exponent_digits (if e <? 10000 then e * 10 + d else e) s'
  end.

Definition exponent (s : string) : option Z :=
  let '(neg, digits) := unsigned s in
  match digits with
  | EmptyString => None
  | _ => e ← exponent_digits 0 digits; Some (if (neg : bool) then - e else e)
  end.

(** The value of a number without underscores: a power of the marker's base scales it. *)
Definition number_parts (s : string) : option (bool * Z * Z * Z) :=
  let '(neg, body) := unsigned s in
  match hex_body body with
  | Some digits =>
      let '(value, fraction, seen, rest) := mantissa hex_value 16 0 0 false false digits in
      match rest with
      | String c rest' =>
          if (seen : bool) && Ascii.eqb (lower_ascii c) "p" then e ← exponent rest'; Some (neg, value, 2, e - 4 * fraction)
          else None
      | EmptyString => None
      end
  | None =>
      let '(value, fraction, seen, rest) := mantissa dec_value 10 0 0 false false body in
      if (seen : bool) then
        match rest with
        | EmptyString => Some (neg, value, 10, - fraction)
        | String c rest' =>
            if Ascii.eqb (lower_ascii c) "e" then e ← exponent rest'; Some (neg, value, 10, e - fraction) else None
        end
      else None
  end.

(** The value, or [None] for an error of syntax or range. *)
Definition ParseFloat (s : string) : option float64 :=
  match special s with
  | Some x => Some x
  | None =>
      if contains "_" s && negb (underscoreOK s) then None
      else '(neg, value, base, e) ← number_parts (replace_char "_" "" s);
           match value with
           | Z.pos m => match scaled neg m base e with S754_infinity _ => None | x => Some x end
           | _ => Some (S754_zero neg)
           end
  end.

Example parsed_numbers :
  ParseFloat "0.5" = Some (fdiv (float_of_Z 1) (float_of_Z 2)) /\ ParseFloat "2.5e1" = Some (float_of_Z 25) /\
  ParseFloat "0x1p-1" = ParseFloat "0.5" /\ ParseFloat "1_000" = Some (float_of_Z 1000) /\ ParseFloat "1__0" = None /\
  ParseFloat "1e400" = None /\ ParseFloat "-Inf" = Some (S754_infinity true) /\ ParseFloat "nan" = Some S754_nan /\
  ParseFloat "." = None /\ ParseFloat "1e" = None /\ ParseFloat "0x1" = None /\ ParseFloat "" = None /\
  ParseFloat "0.08" = Some (float_of_decimal 8 (-2)).
Proof. vm_compute. done. Qed.

(** A value that is not positive is below every positive one. *)
Lemma fle_zero_false_cases x : fle x fzero = false -> x = S754_nan \/ flt fzero x = true.
Proof. destruct x as [[]|[]| |[]]; cbv; auto. Qed.
