(* ===== verification/Factors.v ===== *)
(** * Authentication factors (control-plane/internal/users/store.go passwords, internal/auth)

    Password hashes, time-based one-time codes, recovery codes and the encryption of stored TOTP
    secrets.  SHA-1, SHA-256, HMAC, base 32, base 64 and hexadecimal are computed; Argon2id and
    AES-GCM, which are not part of the repository, are the classes [Argon2] and [Sealing].  Drawn
    bytes (salts, nonces, secrets) are arguments. *)
From Stdlib Require Import ZArith Lia Ascii String.
From stdpp Require Import base tactics strings list.
From S2P Require Import Prelude GoTime GoHash GoText GoCodec GoNet GoSeq.
Local Open Scope string_scope.
Local Open Scope Z_scope.
Local Notation "a +++ b" := (@app _ a b) (at level 60, right associativity).

(** ** Digests as bytes *)
Definition digest_bytes (words : list Z) : list Z := mjoin (to_digits 256 4 <$> words).
Definition sha256_sum (s : string) : string := string_of_bytes (digest_bytes (sha256_words s)).
Definition sha1_sum (s : string) : string := string_of_bytes (digest_bytes (sha1_words s)).

(** [hmac.New(sha1.New, key)] over one message. *)
Definition hmac_sha1 (key message : string) : string :=
  let key := if (64 <? Z.of_nat (String.length key)) then sha1_sum key else key in
  let block := bytes_of key +++ replicate (64 - String.length key) 0 in
  let pad n := string_of_bytes (Z.lxor n <$> block) in
  sha1_sum (pad 92 ++ sha1_sum (pad 54 ++ message)).

(** ** Passwords *)

(** [argon2.IDKey password salt time memory threads keyLen]; [None] is its panic, raised when
    [time] or [threads] is zero. *)
Class Argon2 := {
  IDKey : string -> string -> Z -> Z -> Z -> Z -> option string;
  IDKey_length : forall password salt time memory threads keyLen,
    1 <= time -> 1 <= threads -> 0 <= keyLen ->
    exists key, IDKey password salt time memory threads keyLen = Some key /\ Z.of_nat (String.length key) = keyLen
}.

Definition argonTimeCost : Z := 3.
Definition argonMemoryKiB : Z := 64 * 1024.
Definition argonParallelism : Z := 2.
Definition argonKeyLength : Z := 32.

Section Passwords.
Context `{Argon2}.

Definition deriveArgon2idKey (password salt : string) : option string :=
  IDKey password salt argonTimeCost argonMemoryKiB argonParallelism argonKeyLength.

(** [salt] is the 16 bytes drawn. *)
Definition HashPassword (password salt : string) : result string :=
  if is_blank password then Err "password is required"
  else match deriveArgon2idKey password salt with
  | None => Err "panic"
  | Some sum =>
    Ok ("argon2id$v=19$m=" ++ itoa argonMemoryKiB ++ ",t=" ++ itoa argonTimeCost ++ ",p=" ++ itoa argonParallelism ++
      "$" ++ base64 false false salt ++ "$" ++ base64 false false sum)
  end.

Definition NeedsPasswordRehash (encoded : string) : bool := negb (has_prefix "argon2id$" (trim_space encoded)).

(** [SkipSpace] of fmt.Sscanf: a line break is an error. *)
Fixpoint skip_space (s : string) : option string :=
  match s with
  | EmptyString => Some ""
  | String c s' => if Ascii.eqb c "010" then None else if is_space c then skip_space s' else Some s
  end.

Fixpoint span_digits (s : string) : string * string :=
  match s with
  | EmptyString => ("", "")
  | String c s' => if is_digit c then let (ds, rest) := span_digits s' in (String c ds, rest) else ("", s)
  end.

(** [%d] into an unsigned integer of [width] bits. *)
Definition scan_uint (width : Z) (s : string) : option (Z * string) :=
  s ← skip_space s;
  let (ds, rest) := span_digits s in
  if is_empty ds then None
  else n ← atoi_digits 0 ds; if n <? 2 ^ width then Some (n, rest) else None.

Definition scan_text (p s : string) : option string :=
  if has_prefix p s then Some (drop_chars (String.length p) s) else None.

(** [fmt.Sscanf(s, "m=%d,t=%d,p=%d", ...)]; what follows is not looked at. *)
Definition scan_params (s : string) : option (Z * Z * Z) :=
  s ← scan_text "m=" s; '(memory, s) ← scan_uint 32 s;
  s ← scan_text ",t=" s; '(timeCost, s) ← scan_uint 32 s;
  s ← scan_text ",p=" s; '(parallelism, _) ← scan_uint 8 s;
  Some (memory, timeCost, parallelism).

(** A panic of [IDKey] ends the request, like a rejected password. *)
Definition verifyArgon2idPassword (password encoded : string) : bool :=
  match split_on "$" encoded with
  | [kind; version; params; salt; expected] =>
    if negb (String.eqb kind "argon2id") || negb (String.eqb version "v=19") then false
    else match scan_params params, base64_raw_decode salt, base64_raw_decode expected with
    | Some (memory, timeCost, parallelism), Some salt, Some expected =>
      let keyLength := Z.of_nat (String.length expected) mod 2 ^ 32 in
      if keyLength =? 0 then false
      else bool_decide (IDKey password salt timeCost memory parallelism keyLength = Some expected)
    | _, _, _ => false
    end
  | _ => false
  end.

(** The iterated SHA-256 of hashes written before Argon2id. *)
Definition deriveKey (password salt : string) : string :=
  N.iter 120000 (fun sum => sha256_sum (sum ++ salt)) (sha256_sum (password ++ salt)).

Definition verifyLegacyPassword (password encoded : string) : bool :=
  match split_on "$" encoded with
  | [salt; expected] =>
    match base64_raw_decode salt, base64_raw_decode expected with
    | Some salt, Some expected => String.eqb (deriveKey password salt) expected
    | _, _ => false
    end
  | _ => false
  end.

Definition verifyPasswordDetails (password encoded : string) : bool :=
  let encoded := trim_space encoded in
  if has_prefix "argon2id$" encoded then verifyArgon2idPassword password encoded
  else verifyLegacyPassword password encoded.
Definition VerifyPassword : string -> string -> bool := verifyPasswordDetails.
End Passwords.

(** ** Time-based one-time codes *)
Definition totpDigits : Z := 6.
Definition totpStep : Z := 30 * second.

(** [raw] is the 20 bytes drawn. *)
Definition NewTOTPSecret (raw : string) : string := base32 raw.

(** [fmt.Sprintf("%06d", value)] for a value of at most six digits. *)
Definition pad6 (n : Z) : string := pad2 (n / 10000) ++ pad2 (n / 100 mod 100) ++ pad2 (n mod 100).

Definition time_counter (when : Z) : Z := Z.quot (when / second) 30 mod 2 ^ 64.

(** The dynamic truncation of RFC 4226. *)
Definition truncated (sum : list Z) : Z :=
  let at_ i := default 0 (sum !! i) in
  let offset := Z.to_nat (Z.land (at_ (length sum - 1)%nat) 15) in
  Z.lor (Z.shiftl (Z.land (at_ offset) 127) 24)
    (Z.lor (Z.shiftl (Z.land (at_ (offset + 1)%nat) 255) 16)
      (Z.lor (Z.shiftl (Z.land (at_ (offset + 2)%nat) 255) 8) (Z.land (at_ (offset + 3)%nat) 255))).

Definition generateTOTP (secret : string) (when : Z) : string :=
  match base32_decode (to_upper secret) with
  | None => ""
  | Some key =>
      let sum := bytes_of (hmac_sha1 key (string_of_bytes (to_digits 256 8 (time_counter when)))) in
      pad6 (truncated sum mod 1000000)
  end.

Definition VerifyTOTP (secret code : string) (now : Z) : bool :=
  let secret := trim_space secret in
  let code := trim_space code in
  if is_empty secret || negb (Z.of_nat (String.length code) =? totpDigits) then false
  else existsb (fun delta => String.eqb (generateTOTP secret (now + delta * totpStep)) code) [-1; 0; 1].

Definition ProvisioningURI (issuer username secret : string) : string :=
  let label := url_escape false (trim_space issuer ++ ":" ++ trim_space username) in
  let query := url_values [("algorithm", "SHA1"); ("digits", itoa totpDigits); ("issuer", trim_space issuer);
                           ("period", itoa (totpStep / second)); ("secret", secret)] in
  "otpauth://totp/" ++ label ++ "?" ++ query.

(** The test vectors of RFC 6238 (the last six digits). *)
Example rfc6238_vectors :
  let secret := base32 "12345678901234567890" in
  generateTOTP secret (59 * second) = "287082" /\
  generateTOTP secret (1111111109 * second) = "081804" /\
  VerifyTOTP secret " 287082 " (89 * second) = true /\ VerifyTOTP secret "287082" (90 * second) = false.
Proof. vm_compute. done. Qed.

(** ** Recovery codes *)
Record RecoveryCodeHash := MkRecoveryCodeHash { rch_Hash : string; rch_Salt : string }.

(** [strings.ReplaceAll(s, c, "")] for a single character. *)
Definition without (c : ascii) (s : string) : string :=
  string_of_list_ascii (List.filter (fun x => negb (Ascii.eqb x c)) (list_ascii_of_string s)).

Definition normalizeRecoveryCode (code : string) : string :=
  without " " (without "-" (trim_space (to_upper code))).

(** A code from the 8 bytes drawn: two groups of eight characters. *)
Definition recovery_code (raw : string) : string :=
  let token := to_upper (base32 raw) in
  let token := token ++ string_of_list_ascii (replicate (16 - String.length token) "X"%char) in
  substring 0 8 token ++ "-" ++ substring 8 8 token.

(** [raws] are the bytes drawn for the codes. *)
Definition GenerateRecoveryCodes (count : Z) (raws : nat -> string) : list string :=
  let count := if count <=? 0 then 10 else count in
  (fun i => recovery_code (raws i)) <$> seq 0 (Z.to_nat count).

Definition deriveRecoveryHash (code pepper salt : string) : string :=
  let seed := "waf:recovery:" ++ pepper ++ ":" ++ code in
  N.iter 120000 (fun sum => sha256_sum (sum ++ salt ++ seed)) (sha256_sum (seed ++ salt)).

(** [rawSalt] is the 16 bytes drawn. *)
Definition HashRecoveryCode (code pepper rawSalt : string) : RecoveryCodeHash :=
  let norm := normalizeRecoveryCode code in
  if is_empty norm then MkRecoveryCodeHash "" ""
  else MkRecoveryCodeHash (hex_string (deriveRecoveryHash norm (trim_space pepper) rawSalt))
         (base64 false false rawSalt).

Definition VerifyRecoveryCode (code pepper hash salt : string) : bool :=
  let norm := normalizeRecoveryCode code in
  if is_empty norm || is_blank hash || is_blank salt then false
  else match base64_raw_decode (trim_space salt), hex_decode (trim_space hash) with
       | Some rawSalt, Some expected =>
           String.eqb (deriveRecoveryHash norm (trim_space pepper) rawSalt) expected
       | _, _ => false
       end.

(** ** Stored TOTP secrets *)

(** AES-256-GCM with a 32-byte key and a 12-byte nonce; [open] fails on anything not sealed under
    the same key and nonce, and the tag makes the ciphertext 16 bytes longer than the text. *)
Class Sealing := {
  seal : string -> string -> string -> string;           (* key, nonce, text *)
  open_sealed : string -> string -> string -> option string;
  open_seal : forall key nonce text, open_sealed key nonce (seal key nonce text) = Some text;
  seal_length : forall key nonce text, String.length (seal key nonce text) = (String.length text + 16)%nat
}.

Section TOTPCrypto.
Context `{Sealing}.

Definition ErrTOTPSecretDecryptFailed : string := "totp secret decrypt failed".
Definition nonce_size : nat := 12.

(** The key [totpGCM] sets up the cipher with. *)
Definition totpGCM (pepper : string) : result string :=
  let pepper := trim_space pepper in
  if is_empty pepper then Err "empty pepper" else Ok (sha256_sum ("waf:totp:" ++ pepper)).

Definition EncryptTOTPSecret (secretBase32 pepper nonce : string) : result string :=
  let secret := trim_space secretBase32 in
  if is_empty secret then Ok ""
  else key ← totpGCM pepper; Ok (base64 false false (nonce ++ seal key nonce secret)).

Definition DecryptTOTPSecret (secretEnc pepper : string) : result string :=
  let secretEnc := trim_space secretEnc in
  if is_empty secretEnc then Ok ""
  else match base64_raw_decode secretEnc with
  | None => Err ErrTOTPSecretDecryptFailed
  | Some blob =>
    key ← totpGCM pepper;
    if (String.length blob <=? nonce_size)%nat then Err ErrTOTPSecretDecryptFailed
    else match open_sealed key (substring 0 nonce_size blob) (drop_chars nonce_size blob) with
    | None => Err ErrTOTPSecretDecryptFailed
    | Some plain => Ok (trim_space plain)
    end
  end.
End TOTPCrypto.

(** ** Facts *)
Lemma plain_words s : all_chars plain_char s = true -> trim_space s = s /\
  all_chars (fun c => negb (Ascii.eqb c "$")) s = true.
Proof.
  intros Hs. split; [apply trim_space_no_space|]; (eapply all_chars_impl; [|exact Hs]);
    intros c; unfold plain_char; rewrite !andb_true_iff; tauto.
Qed.

Lemma substring_app a b : substring 0 (String.length a) (a ++ b) = a.
Proof.
  induction a as [|c a IH]; [by destruct b|].
  change (String c (substring 0 (String.length a) (a ++ b)) = String c a). by rewrite IH.
Qed.

Lemma base64_nonempty s : s <> "" -> base64 false false s <> "".
Proof.
  intros Hs E. apply (f_equal base64_raw_decode) in E. rewrite base64_roundtrip in E. by injection E as ->.
Qed.

Section PasswordFacts.
Context `{Argon2}.

(** The text of a fresh hash, field by field. *)
Definition hash_fields (salt sum : string) : list string :=
  ["argon2id"; "v=19"; "m=65536,t=3,p=2"; base64 false false salt; base64 false false sum].

Lemma HashPassword_text password salt encoded : HashPassword password salt = Ok encoded ->
  exists sum, deriveArgon2idKey password salt = Some sum /\ encoded = join "$" (hash_fields salt sum).
Proof.
  unfold HashPassword. destruct (is_blank password); [done|].
  destruct (deriveArgon2idKey password salt) as [sum|]; [|done]. intros [= <-]. exists sum. by split.
Qed.

Lemma hash_fields_clean salt sum :
  Forall (fun p => all_chars (fun c => negb (Ascii.eqb c "$")) p = true) (hash_fields salt sum).
Proof.
  repeat constructor; try (vm_compute; reflexivity); apply (plain_words _ (raw_base64_plain _)).
Qed.

Lemma hash_text_word salt sum : trim_space (join "$" (hash_fields salt sum)) = join "$" (hash_fields salt sum).
Proof.
  apply trim_space_no_space. cbn [join hash_fields]. rewrite !all_chars_app.
  assert (Hp : forall s, all_chars (fun c => negb (is_space c)) (base64 false false s) = true).
  { intros s. eapply all_chars_impl; [|apply raw_base64_plain]. intros c. unfold plain_char. rewrite !andb_true_iff. tauto. }
  by rewrite !Hp.
Qed.

Lemma derived_key password salt : exists sum, deriveArgon2idKey password salt = Some sum /\ String.length sum = 32%nat.
Proof.
  destruct (IDKey_length password salt argonTimeCost argonMemoryKiB argonParallelism argonKeyLength) as (key & Hk & Hl);
  [unfold argonTimeCost; lia|unfold argonParallelism; lia|unfold argonKeyLength; lia|]. exists key. split; [exact Hk|]. unfold argonKeyLength in Hl. lia.
Qed.

Lemma verify_text q salt sum : String.length sum = 32%nat ->
  VerifyPassword q (join "$" (hash_fields salt sum)) = bool_decide (deriveArgon2idKey q salt = Some sum).
Proof.
  intros Hl. unfold VerifyPassword, verifyPasswordDetails. rewrite hash_text_word. cbn zeta.
  change (has_prefix "argon2id$" (join "$" (hash_fields salt sum))) with true. cbv iota.
  unfold verifyArgon2idPassword. change "$" with (String "$" "") at 1.
  rewrite split_on_joined by (done || apply hash_fields_clean). cbn [hash_fields].
  change (scan_params "m=65536,t=3,p=2") with (Some (65536, 3, 2)). rewrite !base64_roundtrip.
  cbn [String.eqb Ascii.eqb negb orb Bool.eqb]. rewrite Hl. done.
Qed.
End PasswordFacts.

(** *** Codes *)
Lemma digit_checked : all_below (fun n => negb (is_space (digit n))) 10 0 = true.
Proof. vm_compute. reflexivity. Qed.

Lemma digit_word n : 0 <= n < 10 -> is_space (digit n) = false.
Proof. intros Hn. pose proof (all_below_spec _ _ _ n digit_checked ltac:(lia)) as H. by apply negb_true_iff. Qed.

Lemma pad2_word n : 0 <= n < 100 -> word (pad2 n) = true.
Proof.
  intros Hn. unfold pad2, word. cbn [all_chars].
  rewrite !digit_word; [done|apply Z.mod_pos_bound; lia|split; [apply Z.div_pos|apply Z.div_lt_upper_bound]; lia].
Qed.

Lemma pad6_word n : 0 <= n < 1000000 -> word (pad6 n) = true /\ String.length (pad6 n) = 6%nat.
Proof.
  intros Hn. split; [|done]. unfold pad6. rewrite !word_app, !pad2_word; [done|..].
  - apply Z.mod_pos_bound; lia.
  - apply Z.mod_pos_bound; lia.
  - split; [apply Z.div_pos; lia | apply Z.div_lt_upper_bound; lia].
Qed.

Lemma generateTOTP_word secret when key : base32_decode (to_upper secret) = Some key ->
  word (generateTOTP secret when) = true /\ String.length (generateTOTP secret when) = 6%nat.
Proof. intros Hk. unfold generateTOTP. rewrite Hk. apply pad6_word, Z.mod_pos_bound. lia. Qed.

(** A code depends on the instant only through its half minute. *)
Lemma generateTOTP_counter secret t t' : time_counter t = time_counter t' ->
  generateTOTP secret t = generateTOTP secret t'.
Proof. intros H. unfold generateTOTP. by rewrite H. Qed.

Lemma time_counter_step t : 0 <= t -> time_counter t = t / totpStep mod 2 ^ 64.
Proof.
  intros Ht. unfold time_counter, totpStep. rewrite Z.quot_div_nonneg, Z.div_div by (try apply Z.div_pos; unfold second; lia). done.
Qed.


Lemma time_counter_shift t delta : 0 <= t + delta * totpStep -> 0 <= t ->
  time_counter (t + delta * totpStep) = (t / totpStep + delta) mod 2 ^ 64.
Proof. intros H H0. rewrite time_counter_step by done. by rewrite Z.div_add. Qed.

(** The code of any instant within one half minute of the present one is accepted. *)
Lemma VerifyTOTP_near secret key when now : trim_space secret = secret -> secret <> "" ->
  base32_decode (to_upper secret) = Some key -> 0 <= when -> totpStep <= now ->
  Z.abs (when / totpStep - now / totpStep) <= 1 ->
  VerifyTOTP secret (generateTOTP secret when) now = true.
Proof.
  intros Ht Hne Hk Hw Hn Hd. destruct (generateTOTP_word _ when _ Hk) as [Hword Hlen].
  unfold VerifyTOTP. rewrite Ht, (word_trim _ Hword), Hlen. apply is_empty_false in Hne. rewrite Hne. cbn zeta.
  change (false || negb (Z.of_nat 6 =? totpDigits)) with false. cbv iota. apply existsb_exists.
  exists (when / totpStep - now / totpStep). split.
  - assert (Hc : when / totpStep - now / totpStep = -1 \/ when / totpStep - now / totpStep = 0 \/
      when / totpStep - now / totpStep = 1) by lia. destruct Hc as [-> | [-> | ->]]; simpl; tauto.
  - apply String.eqb_eq, generateTOTP_counter. rewrite time_counter_shift, time_counter_step by (unfold totpStep, second in *; lia).
    f_equal. lia.
Qed.

(** *** Recovery codes and secrets *)
Lemma sha256_sum_nonempty s : sha256_sum s <> "".
Proof.
  unfold sha256_sum, digest_bytes. pose proof (sha_blocks_length (length (words_of (pad_message (bytes_of s))))
    initial_hash (words_of (pad_message (bytes_of s))) eq_refl) as Hl.
  unfold sha256_words. destruct (sha_blocks _ _ _) as [|w ws]; [discriminate|]. done.
Qed.

Lemma hex_string_word s : word (hex_string s) = true.
Proof.
  induction s as [|c s IH]; [done|]. cbn [hex_string]. rewrite word_app, IH, andb_true_r.
  unfold word. cbn [hex_word all_chars]. by rewrite !hex_digit_not_space.
Qed.

Lemma hex_string_nonempty s : s <> "" -> hex_string s <> "".
Proof. by destruct s. Qed.

Lemma word_not_blank s : word s = true -> s <> "" -> is_blank s = false.
Proof. intros Hw Hs. unfold is_blank. rewrite word_trim by done. by apply is_empty_false. Qed.

Lemma iter_nonempty n (f : string -> string) s : (forall x, f x <> "") -> s <> "" -> N.iter n f s <> "".
Proof. intros Hf Hs. destruct n as [|n] using N.peano_ind; [exact Hs|]. rewrite N.iter_succ. apply Hf. Qed.

Lemma deriveRecoveryHash_nonempty code pepper salt : deriveRecoveryHash code pepper salt <> "".
Proof. apply (iter_nonempty 120000); [intros x|]; apply sha256_sum_nonempty. Qed.

(** ** Properties *)
#[local] Opaque deriveRecoveryHash.

(** C6: A hash written by HashPassword is never due for rehashing and verifies a password exactly
    when Argon2id derives the same key from it: the password it was made from always, another one
    only by a collision.  Every password that is not blank can be hashed. *)
Theorem password_verification `{Argon2} (password salt encoded : string) :
  is_blank password = false ->
  (exists hashed, HashPassword password salt = Ok hashed) /\
  (HashPassword password salt = Ok encoded ->
   VerifyPassword password encoded = true /\ NeedsPasswordRehash encoded = false /\
   forall q, VerifyPassword q encoded = true <-> deriveArgon2idKey q salt = deriveArgon2idKey password salt).
Proof.
  intros Hp. destruct (derived_key password salt) as (sum & Hs & Hl). split.
  { unfold HashPassword. rewrite Hp, Hs. eauto. }
  intros (sum' & Hs' & ->)%HashPassword_text. rewrite Hs in Hs'. injection Hs' as <-.
  assert (Hv : forall q, VerifyPassword q (join "$" (hash_fields salt sum)) = true <->
    deriveArgon2idKey q salt = deriveArgon2idKey password salt).
  { intros q. rewrite verify_text by done. rewrite bool_decide_eq_true. by rewrite Hs. }
  split_and!; [by apply Hv| |exact Hv]. unfold NeedsPasswordRehash. by rewrite hash_text_word.
Qed.

(** C7: Enrolment and verification of one-time codes fit together: a fresh secret survives its
    encryption for storage, and the code an authenticator shows for it is accepted at every instant
    at most one half minute (RFC 6238 step) before or after the one it was computed for. *)
Theorem totp_enrolled `{Sealing} (raw pepper nonce stored : string) (when now : Z) :
  raw <> "" -> String.length nonce = nonce_size ->
  EncryptTOTPSecret (NewTOTPSecret raw) pepper nonce = Ok stored ->
  0 <= when -> totpStep <= now -> Z.abs (when / totpStep - now / totpStep) <= 1 ->
  DecryptTOTPSecret stored pepper = Ok (NewTOTPSecret raw) /\
  VerifyTOTP (NewTOTPSecret raw) (generateTOTP (NewTOTPSecret raw) when) now = true.
Proof.
  intros Hraw Hn He Hw Hnow Hd. unfold NewTOTPSecret in *.
  destruct (plain_words _ (base32_plain raw)) as [Ht _].
  assert (Hne : base32 raw <> "").
  { intros E. apply (f_equal base32_decode) in E. rewrite base32_roundtrip in E. by injection E. }
  split.
  - unfold EncryptTOTPSecret in He. rewrite Ht in He. pose proof (proj2 (is_empty_false _) Hne) as Hne'.
    rewrite Hne' in He. apply result_bind_ok in He as (key & Hk & [= <-]).
    unfold DecryptTOTPSecret. rewrite (proj1 (plain_words _ (raw_base64_plain _))), base64_roundtrip, Hk.
    rewrite (proj2 (is_empty_false _)) by (apply base64_nonempty; by destruct nonce).
    rewrite <- Hn. cbn.
    rewrite string_length_app, seal_length.
    rewrite (proj2 (Nat.leb_gt _ _)) by lia. by rewrite substring_app, drop_chars_app, open_seal, Ht.
  - apply (VerifyTOTP_near _ raw); [done..| |done|done|done]. by rewrite base32_upper, base32_roundtrip.
Qed.

(** A stored recovery code accepts exactly the texts that normalise to a code with the same
    derived hash, the code itself (in any case, with or without the dashes and spaces) among them. *)
Theorem recovery_code_verification (code pepper salt other : string) :
  normalizeRecoveryCode code <> "" -> salt <> "" ->
  let stored := HashRecoveryCode code pepper salt in
  (VerifyRecoveryCode other pepper (rch_Hash stored) (rch_Salt stored) = true <->
   normalizeRecoveryCode other <> "" /\
   deriveRecoveryHash (normalizeRecoveryCode other) (trim_space pepper) salt =
   deriveRecoveryHash (normalizeRecoveryCode code) (trim_space pepper) salt).
Proof.
  intros Hc Hs. unfold HashRecoveryCode. rewrite (proj2 (is_empty_false _) Hc). cbn zeta. cbn [rch_Hash rch_Salt].
  set (sum := deriveRecoveryHash (normalizeRecoveryCode code) (trim_space pepper) salt).
  assert (Hsum : sum <> "") by apply deriveRecoveryHash_nonempty.
  clearbody sum.
  unfold VerifyRecoveryCode. destruct (plain_words _ (raw_base64_plain salt)) as [Ht _].
  rewrite (word_not_blank (hex_string sum)) by (apply hex_string_word || by apply hex_string_nonempty).
  assert (Hb : is_blank (base64 false false salt) = false).
  { unfold is_blank. rewrite Ht. by apply is_empty_false, base64_nonempty. }
  rewrite Hb, !orb_false_r, Ht, base64_roundtrip, (word_trim (hex_string sum)), hex_roundtrip by apply hex_string_word.
  destruct (is_empty (normalizeRecoveryCode other)) eqn:E.
  - apply is_empty_spec in E. split; [done | by intros [[] _]].
  - apply is_empty_false in E. rewrite String.eqb_eq. split; [intros H; exact (conj E H) | intros [_ H]; exact H].
Qed.

(** *** Witnesses *)
Module Samples.
(** A stand-in for Argon2id: the bytes of password and salt, cut to length. *)
Fixpoint fitted (n : nat) (s : string) : string :=
  match n with
  | O => ""
  | S n' => match s with "" => String "0" (fitted n' "") | String c s' => String c (fitted n' s') end
  end.

Lemma fitted_length n s : String.length (fitted n s) = n.
Proof. revert s. induction n as [|n IH]; intros [|c s]; cbn; by rewrite ?IH. Qed.

#[export, refine] Instance toy_argon : Argon2 := {|
  IDKey := fun password salt time memory threads keyLen =>
    if (time <? 1) || (threads <? 1) then None else Some (fitted (Z.to_nat keyLen) (password ++ "/" ++ salt))
|}.
Proof.
  intros password salt time memory threads keyLen Ht Hp Hk. eexists. rewrite (proj2 (Z.ltb_ge _ _) Ht), (proj2 (Z.ltb_ge _ _) Hp).
  split; [done|]. rewrite fitted_length. lia.
Defined.

Definition tag : string := "----------------".
(** A stand-in for AES-GCM: the text and a constant tag. *)
#[export, refine] Instance toy_sealing : Sealing := {|
  seal := fun _ _ text => tag ++ text;
  open_sealed := fun _ _ cipher => if has_prefix tag cipher then Some (drop_chars 16 cipher) else None
|}.
Proof.
  - intros _ _ text. by rewrite has_prefix_app, (drop_chars_app tag).
  - intros _ _ text. rewrite string_length_app. simpl. lia.
Defined.
End Samples.

Lemma password_verification_witness :
  exists encoded, HashPassword (H := Samples.toy_argon) "correct horse" "0123456789abcdef" = Ok encoded /\
    VerifyPassword (H := Samples.toy_argon) "correct horse" encoded = true /\
    VerifyPassword (H := Samples.toy_argon) "wrong" encoded = false.
Proof.
  destruct (password_verification (H := Samples.toy_argon) "correct horse" "0123456789abcdef" "" eq_refl)
    as [(encoded & He) _].
  destruct (password_verification (H := Samples.toy_argon) "correct horse" "0123456789abcdef" encoded eq_refl)
    as [_ Hv].
  exists encoded. split; [exact He|]. destruct (Hv He) as (H1 & _ & H2). split; [exact H1|].
  apply not_true_iff_false. intros E. apply (H2 "wrong") in E. vm_compute in E. discriminate E.
Defined.

Lemma totp_enrolled_witness :
  exists stored, EncryptTOTPSecret (H := Samples.toy_sealing) (NewTOTPSecret "12345678901234567890") "pepper" "nonce-nonce-" = Ok stored /\
    DecryptTOTPSecret (H := Samples.toy_sealing) stored "pepper" = Ok (NewTOTPSecret "12345678901234567890") /\
    VerifyTOTP (NewTOTPSecret "12345678901234567890")
      (generateTOTP (NewTOTPSecret "12345678901234567890") (1000 * second)) (1040 * second) = true.
Proof.
  eexists. split; [vm_compute; reflexivity|].
  eapply (totp_enrolled (H := Samples.toy_sealing) "12345678901234567890" "pepper" "nonce-nonce-");
    [discriminate|reflexivity|vm_compute; reflexivity|vm_compute; discriminate|vm_compute; discriminate|vm_compute; discriminate].
Defined.

Lemma recovery_code_verification_witness :
  normalizeRecoveryCode "ABCDEFGH-IJKLMNOP" <> "" /\
  VerifyRecoveryCode "abcdefgh ijklmnop" "pepper"
    (rch_Hash (HashRecoveryCode "ABCDEFGH-IJKLMNOP" "pepper" "0123456789abcdef"))
    (rch_Salt (HashRecoveryCode "ABCDEFGH-IJKLMNOP" "pepper" "0123456789abcdef")) = true.
Proof.
  split; [discriminate|].
  apply (recovery_code_verification "ABCDEFGH-IJKLMNOP" "pepper" "0123456789abcdef" "abcdefgh ijklmnop");
    [discriminate|discriminate|]. split; [discriminate|reflexivity].
Defined.
