(* ===== verification/DocStore.v ===== *)
(** * JSON document stores

    Every store of the control plane (revisions, jobs, sessions, sites, ...)
    keeps its state as one JSON document behind a [storage.JSONState]
    (control-plane/internal/storage/json_state.go) and every operation is the
    same transaction under the store's mutex: load and sort the document,
    compute, save.  This file models [JSONState] and the state-and-error monad
    those transactions run in, and proves once what all stores rely on: a
    transaction that returns an error leaves the visible document as it was,
    one that succeeds replaces it by the computed one, and an invariant of the
    document kept by the computation is kept by the operation.

    What is abstracted: the bytes of the document.  [encoding/json] is taken to
    decode what it encoded; a document that does not decode is [Garbage].  A
    [Save] that reports an error is taken to have left the document alone. *)
From Stdlib Require Import ZArith String.
From stdpp Require Import base tactics strings list.
From S2P Require Import Prelude.

(** ** The environment of one operation *)

(** The clock and the failures the backend reports during the operation;
    [None] is "no failure". *)
Record env := Env {
  now : Z;                         (* time.Now().UTC(), Unix nanoseconds *)
  read_fault : option string;      (* backend.LoadDocument, other than not found *)
  legacy_fault : option string;    (* os.ReadFile(legacyPath), other than not exist *)
  migrate_fault : option string;   (* backend.SaveDocument inside Load *)
  write_fault : option string      (* backend.SaveDocument inside Save *)
}.

Definition healthy (t : Z) : env := Env t None None None None.
Definition no_faults (e : env) : Prop := e = healthy (now e).

(** ** JSONState *)
Inductive content (D : Type) :=
| Decodes (d : D)
| Garbage (why : string).
Arguments Decodes {D} _.
Arguments Garbage {D} _.

(** [backend] document under [key], the legacy file, and whether the legacy
    path is set and differs from the key. *)
Record json_state (D : Type) := JSONState {
  js_document : option (content D);
  js_legacy : option (content D);
  js_migrates : bool
}.
Arguments JSONState {D} _ _ _.
Arguments js_document {D} _.
Arguments js_legacy {D} _.
Arguments js_migrates {D} _.

(** [storage.NewFileJSONState]: key and legacy path are the same. *)
Definition new_file_state {D} : json_state D := JSONState None None false.
(** [storage.NewBackendJSONState] on an empty backend with a legacy file. *)
Definition new_backend_state {D} (legacy : option (content D)) : json_state D :=
  JSONState None legacy true.

(** ** The store monad *)
Definition sop (D A : Type) : Type := env -> json_state D -> json_state D * result A.

#[export] Instance sop_ret D : MRet (sop D) := fun A a e s => (s, Ok a).
#[export] Instance sop_bind D : MBind (sop D) := fun A B k m e s =>
  match m e s with
  | (s', Ok a) => k a e s'
  | (s', Err msg) => (s', Err msg)
  end.
#[export] Instance sop_fmap D : FMap (sop D) := fun A B f m e s =>
  match m e s with
  | (s', Ok a) => (s', Ok (f a))
  | (s', Err msg) => (s', Err msg)
  end.

Definition throw {D A} (msg : string) : sop D A := fun e s => (s, Err msg).
Definition lift {D A} (r : result A) : sop D A := fun e s => (s, r).
Definition wrap_error {D A} (prefix : string) (m : sop D A) : sop D A := fun e s =>
  match m e s with
  | (s', Err msg) => (s', Err (prefix ++ msg)%string)
  | r => r
  end.

Definition write_document {D} (c : content D) (s : json_state D) : json_state D :=
  JSONState (Some c) (js_legacy s) (js_migrates s).

(** [JSONState.Load]; [None] is [ErrNotFound]. *)
Definition Load {D} : sop D (option (content D)) := fun e s =>
  match read_fault e with
  | Some msg => (s, Err msg)
  | None =>
      match js_document s with
      | Some c => (s, Ok (Some c))
      | None =>
          if negb (js_migrates s) then (s, Ok None)
          else match legacy_fault e with
               | Some msg => (s, Err msg)
               | None =>
                   match js_legacy s with
                   | None => (s, Ok None)
                   | Some c =>
                       match migrate_fault e with
                       | Some msg => (s, Err msg)
                       | None => (write_document c s, Ok (Some c))
                       end
                   end
               end
      end
  end.

(** [JSONState.Save] *)
Definition Save {D} (c : content D) : sop D unit := fun e s =>
  match write_fault e with
  | Some msg => (s, Err msg)
  | None => (write_document c s, Ok tt)
  end.

(** [storage.MigrateLegacyDocument], run for every document when the control plane starts on the
    Postgres backend. *)
Definition MigrateLegacyDocument {D} : sop D unit := fun e s =>
  match read_fault e with
  | Some msg => (s, Err msg)
  | None =>
      match js_document s with
      | Some _ => (s, Ok tt)
      | None =>
          match legacy_fault e with
          | Some msg => (s, Err msg)
          | None =>
              match js_legacy s with
              | None => (s, Ok tt)
              | Some c =>
                  match migrate_fault e with
                  | Some msg => (s, Err msg)
                  | None => (write_document c s, Ok tt)
                  end
              end
          end
      end
  end.

(** ** Transactions *)

(** What differs between stores: the name in error messages, the state of a
    store without a document and the sorting done by [loadLocked]. *)
Record doc_config (D : Type) := DocConfig {
  doc_name : string;
  doc_zero : D;
  doc_sort : D -> D
}.
Arguments DocConfig {D} _ _ _.
Arguments doc_name {D} _.
Arguments doc_zero {D} _.
Arguments doc_sort {D} _ _.

Section Transactions.
Context {D : Type}.
Variable cfg : doc_config D.

(** [loadLocked] *)
Definition load_locked : sop D D :=
  c ← wrap_error ("read " ++ doc_name cfg ++ ": ") Load;
  match c with
  | None => mret (doc_zero cfg)
  | Some (Garbage msg) => throw ("decode " ++ doc_name cfg ++ ": " ++ msg)
  | Some (Decodes d) => mret (doc_sort cfg d)
  end.

(** [saveLocked] *)
Definition save_locked (d : D) : sop D unit :=
  wrap_error ("write " ++ doc_name cfg ++ ": ") (Save (Decodes d)).

(** [current, err := s.loadLocked(); ...; s.saveLocked(current)] *)
Definition transact {A} (f : Z -> D -> result (D * A)) : sop D A := fun e s =>
  (d ← load_locked;
    r ← lift (f (now e) d);
    save_locked r.1;;
    mret r.2) e s.

(** [current, err := s.loadLocked(); ...] without a save *)
Definition query {A} (f : Z -> D -> result A) : sop D A := fun e s =>
  (d ← load_locked; lift (f (now e) d)) e s.

(** [AtomicDocumentBackend.UpdateDocument] of the Postgres backend: one database transaction
that creates the row as an empty JSON object when it is missing, hands its content to [f]
unsorted and rolls back on any error.  The legacy file is not consulted. *)
Definition update_document {A} (f : Z -> D -> result (D * A)) : sop D A := fun e s =>
  match read_fault e with
  | Some msg => (s, Err msg)
  | None =>
    match js_document s with
    | Some (Garbage msg) => (s, Err ("decode " ++ doc_name cfg ++ ": " ++ msg)%string)
    | doc =>
      let d := match doc with Some (Decodes d) => d | _ => doc_zero cfg end in
      match f (now e) d with
      | Err msg => (s, Err msg)
      | Ok (d', a) =>
        match write_fault e with
        | Some msg => (s, Err msg)
        | None => (write_document (Decodes d') s, Ok a)
        end
      end
    end
  end.

(** *** What a reader sees *)
Definition visible (s : json_state D) : option (content D) :=
  match js_document s with
  | Some c => Some c
  | None => if js_migrates s then js_legacy s else None
  end.

(** The document [loadLocked] computes with. *)
Definition current (s : json_state D) : option D :=
  match visible s with
  | None => Some (doc_zero cfg)
  | Some (Decodes d) => Some (doc_sort cfg d)
  | Some (Garbage _) => None
  end.

Lemma visible_write c s : visible (write_document c s) = Some c.
Proof. done. Qed.

Lemma Load_spec e s s' r :
  Load e s = (s', r) ->
  visible s' = visible s /\ match r with Ok c => c = visible s | Err _ => True end.
Proof.
  unfold Load, visible. destruct s as [doc leg mig]; simpl.
  repeat case_match; intros [= <- <-]; simplify_eq/=; auto.
Qed.

Lemma load_locked_spec e s s' r :
  load_locked e s = (s', r) ->
  visible s' = visible s /\ match r with Ok d => current s = Some d | Err _ => True end.
Proof.
  unfold load_locked, wrap_error, mbind, sop_bind, current.
  destruct (Load e s) as [s1 [c|msg]] eqn:E; apply Load_spec in E as [Hv Hc].
  - subst c. destruct (visible s) as [[d|g]|]; intros [= <- <-]; auto.
  - intros [= <- <-]; auto.
Qed.

Lemma load_locked_healthy e s d :
  no_faults e -> current s = Some d ->
  exists s', load_locked e s = (s', Ok d) /\ visible s' = visible s.
Proof.
  intros -> Hc. destruct (load_locked (healthy (now e)) s) as [s' r] eqn:E.
  exists s'. pose proof E as [Hv _]%load_locked_spec. split; [|done]. f_equal.
  revert E Hc. unfold load_locked, wrap_error, mbind, sop_bind, mret, sop_ret, Load, current, visible.
  destruct s as [[[d'|g]|] leg []]; simpl;
  try destruct leg as [[d'|g]|]; simpl; intros; congruence.
Qed.

Lemma transact_ok {A} (f : Z -> D -> result (D * A)) e s s' a :
  transact f e s = (s', Ok a) ->
  exists d d', current s = Some d /\ f (now e) d = Ok (d', a) /\ visible s' = Some (Decodes d').
Proof.
  unfold transact, mbind, sop_bind, lift.
  destruct (load_locked e s) as [s1 [d|msg]] eqn:E; [|discriminate].
  apply load_locked_spec in E as [Hv Hc].
  destruct (f (now e) d) as [[d' a']|msg] eqn:Ef; [|discriminate].
  unfold save_locked, wrap_error, Save. simpl.
  destruct (write_fault e); intros [= <- <-]. eauto.
Qed.

Lemma transact_err {A} (f : Z -> D -> result (D * A)) e s s' msg :
  transact f e s = (s', Err msg) -> visible s' = visible s.
Proof.
  unfold transact, mbind, sop_bind, lift.
  destruct (load_locked e s) as [s1 [d|m]] eqn:E; apply load_locked_spec in E as [Hv _];
  [|by intros [= <- <-]].
  destruct (f (now e) d) as [[d' a']|m] eqn:Ef; [|by intros [= <- <-]].
  unfold save_locked, wrap_error, Save. simpl.
  destruct (write_fault e); [by intros [= <- <-] | discriminate].
Qed.

Lemma transact_healthy {A} (f : Z -> D -> result (D * A)) e s d :
  no_faults e -> current s = Some d ->
  exists s', (transact f e s).1 = s' /\
  match f (now e) d with
  | Ok (d', a) => (transact f e s).2 = Ok a /\ visible s' = Some (Decodes d')
  | Err msg => (transact f e s).2 = Err msg /\ visible s' = visible s
  end.
Proof.
  intros He Hc. eexists. split; [done|].
  destruct (load_locked_healthy e s d He Hc) as (s1 & E & Hv).
  unfold transact, mbind, sop_bind, lift. rewrite E.
  destruct (f (now e) d) as [[d' a']|m] eqn:Ef; [|done].
  unfold save_locked, wrap_error, Save. rewrite He. done.
Qed.

Lemma transact_migrates {A} (f : Z -> D -> result (D * A)) e s :
  js_migrates (transact f e s).1 = js_migrates s.
Proof.
  unfold transact, load_locked, save_locked, wrap_error, Load, Save, mbind, sop_bind, mret, sop_ret,
  throw, lift. destruct s as [doc leg mig]. simpl. by repeat (case_match; simplify_eq/=).
Qed.

(** Exact equations for a stored document and a backend without failures. *)
Lemma transact_run {A} (f : Z -> D -> result (D * A)) t s d :
  js_document s = Some (Decodes d) ->
  transact f (healthy t) s =
  match f t (doc_sort cfg d) with
  | Ok (d', a) => (write_document (Decodes d') s, Ok a)
  | Err msg => (s, Err msg)
  end.
Proof.
  destruct s as [doc leg mig]. simpl. intros ->.
  unfold transact, mbind, sop_bind, lift, load_locked, wrap_error, Load. simpl.
  by destruct (f t (doc_sort cfg d)) as [[d' a]|m].
Qed.

Lemma query_run {A} (f : Z -> D -> result A) t s d :
  js_document s = Some (Decodes d) -> query f (healthy t) s = (s, f t (doc_sort cfg d)).
Proof.
  destruct s as [doc leg mig]. simpl. by intros ->.
Qed.

Lemma update_document_run {A} (f : Z -> D -> result (D * A)) t s d :
  js_document s = Some (Decodes d) ->
  update_document f (healthy t) s =
  match f t d with
  | Ok (d', a) => (write_document (Decodes d') s, Ok a)
  | Err msg => (s, Err msg)
  end.
Proof. intros E. unfold update_document. rewrite E. simpl. by destruct (f t d) as [[d' a]|m]. Qed.

(** The document an atomic update computes with. *)
Definition raw_document (s : json_state D) : option D :=
  match js_document s with
  | None => Some (doc_zero cfg)
  | Some (Decodes d) => Some d
  | Some (Garbage _) => None
  end.

Lemma update_document_ok {A} (f : Z -> D -> result (D * A)) e s s' a :
  update_document f e s = (s', Ok a) ->
  exists d d', raw_document s = Some d /\ f (now e) d = Ok (d', a) /\
  visible s' = Some (Decodes d').
Proof.
  unfold update_document, raw_document. destruct (read_fault e); [discriminate|].
  destruct (js_document s) as [[d|g]|]; [|discriminate|]; simpl;
  destruct (f _ _) as [[d' a']|m] eqn:Ef; try discriminate;
  destruct (write_fault e); try discriminate; intros [= <- <-]; eauto.
Qed.

Lemma update_document_err {A} (f : Z -> D -> result (D * A)) e s s' msg :
  update_document f e s = (s', Err msg) -> s' = s.
Proof.
  unfold update_document. destruct (read_fault e); [by intros [= <- <-]|].
  destruct (js_document s) as [[d|g]|]; simpl; [|by intros [= <- <-]|];
  (destruct (f _ _) as [[d' a']|m]; [|by intros [= <- <-]]);
  (destruct (write_fault e); [by intros [= <- <-] | discriminate]).
Qed.

Lemma update_document_migrates {A} (f : Z -> D -> result (D * A)) e s :
  js_migrates (update_document f e s).1 = js_migrates s.
Proof. unfold update_document. destruct s as [doc leg mig]. simpl. by repeat (case_match; simplify_eq/=). Qed.

Lemma query_visible {A} (f : Z -> D -> result A) e s :
  visible (query f e s).1 = visible s.
Proof.
  unfold query, mbind, sop_bind, lift.
  destruct (load_locked e s) as [s1 [d|m]] eqn:E; by apply load_locked_spec in E as [Hv _].
Qed.

Lemma query_ok {A} (f : Z -> D -> result A) e s s' a :
  query f e s = (s', Ok a) -> exists d, current s = Some d /\ f (now e) d = Ok a.
Proof.
  unfold query, mbind, sop_bind, lift.
  destruct (load_locked e s) as [s1 [d|m]] eqn:E; [|discriminate].
  apply load_locked_spec in E as [Hv Hc]. intros [= <- Hf]. eauto.
Qed.

Lemma query_healthy {A} (f : Z -> D -> result A) e s d :
  no_faults e -> current s = Some d -> (query f e s).2 = f (now e) d.
Proof.
  intros He Hc. destruct (load_locked_healthy e s d He Hc) as (s1 & E & Hv).
  unfold query, mbind, sop_bind, lift. by rewrite E.
Qed.
End Transactions.

(** ** Invariants of a document

    [DocInv cfg I] is the contract between a store and this file: the empty
    document satisfies [I] and sorting keeps it.  Against it, an operation
    built from transactions preserves [I] when its computations do. *)
Class DocInv {D} (cfg : doc_config D) (I : D -> Prop) := {
  inv_zero : I (doc_zero cfg);
  inv_sort d : I d -> I (doc_sort cfg d)
}.

Definition holds {D} (I : D -> Prop) (s : json_state D) : Prop :=
  forall d, visible s = Some (Decodes d) -> I d.

Definition preserves {D A} (I : D -> Prop) (m : sop D A) : Prop :=
  forall e s, holds I s -> holds I (m e s).1.

Section Invariants.
Context {D : Type} (cfg : doc_config D) (I : D -> Prop) `{DocInv D cfg I}.

Lemma holds_current s d : holds I s -> current cfg s = Some d -> I d.
Proof.
  unfold holds, current. intros Hs.
  destruct (visible s) as [[d'|g]|]; intros [= <-]; [by apply inv_sort, Hs | apply inv_zero].
Qed.

Lemma holds_raw s d : holds I s -> raw_document cfg s = Some d -> I d.
Proof.
  unfold raw_document, holds, visible. intros Hs.
  destruct (js_document s) as [[d0|g]|]; intros [= <-]; [by apply Hs | apply inv_zero].
Qed.

Lemma holds_visible s s' : visible s' = visible s -> holds I s -> holds I s'.
Proof. unfold holds. by intros ->. Qed.

Lemma transact_preserves {A} (f : Z -> D -> result (D * A)) :
  (forall t d d' a, I d -> f t d = Ok (d', a) -> I d') -> preserves I (transact cfg f).
Proof.
  intros Hf e s Hs. destruct (transact cfg f e s) as [s' [a|msg]] eqn:E; simpl.
  - apply transact_ok in E as (d & d' & Hd & Hfd & Hv). intros d0 Hd0.
    rewrite Hv in Hd0. injection Hd0 as <-. eapply Hf; [|done]. by eapply holds_current.
  - apply transact_err in E. by eapply holds_visible.
Qed.

Lemma query_preserves {A} (f : Z -> D -> result A) : preserves I (query cfg f).
Proof. intros e s Hs. eapply holds_visible; [apply query_visible | done]. Qed.

Lemma update_document_preserves {A} (f : Z -> D -> result (D * A)) :
  (forall t d d' a, I d -> f t d = Ok (d', a) -> I d') -> preserves I (update_document cfg f).
Proof.
  intros Hf e s Hs. destruct (update_document cfg f e s) as [s' [a|msg]] eqn:E; simpl.
  - apply update_document_ok in E as (d & d' & Hd & Hfd & Hv). intros d0 Hd0.
    rewrite Hv in Hd0. injection Hd0 as <-. eapply Hf; [|done].
    by eapply holds_raw.
  - apply update_document_err in E as ->. done.
Qed.

Lemma lift_preserves {A} (r : result A) : preserves I (lift r).
Proof. by intros e s Hs. Qed.

Lemma bind_preserves {A B} (m : sop D A) (k : A -> sop D B) :
  preserves I m -> (forall a, preserves I (k a)) -> preserves I (m ≫= k).
Proof.
  intros Hm Hk e s Hs. specialize (Hm e s Hs). unfold mbind, sop_bind.
  destruct (m e s) as [s' [a|msg]]; simpl in *; [by apply Hk | done].
Qed.

Lemma fmap_preserves {A B} (g : A -> B) (m : sop D A) : preserves I m -> preserves I (g <$> m).
Proof.
  intros Hm e s Hs. specialize (Hm e s Hs). unfold fmap, sop_fmap.
  by destruct (m e s) as [s' [a|msg]].
Qed.
End Invariants.
#[export] Hint Resolve transact_preserves query_preserves lift_preserves bind_preserves
  fmap_preserves : go.

(** A second invariant proved on top of one already known. *)
Definition both {D} (I J : D -> Prop) (d : D) : Prop := I d /\ J d.

Lemma holds_both {D} (I J : D -> Prop) s : holds (both I J) s <-> holds I s /\ holds J s.
Proof. unfold holds, both. split; [split; intros d Hd; by apply H | intros [? ?] d Hd; eauto]. Qed.

Lemma transact_preserves_both {D A} (cfg : doc_config D) (I J : D -> Prop)
    `{!DocInv cfg I, !DocInv cfg (both I J)} (f : Z -> D -> result (D * A)) :
  preserves I (transact cfg f) ->
  (forall t d d' a, I d -> J d -> f t d = Ok (d', a) -> J d') ->
  preserves (both I J) (transact cfg f).
Proof.
  intros HI HJ e s [Hs1 Hs2]%holds_both. apply holds_both. split; [by apply HI|].
  destruct (transact cfg f e s) as [s' [a|msg]] eqn:E; simpl.
  - apply transact_ok in E as (d & d' & Hd & Hfd & Hv). intros d0 Hd0.
    rewrite Hv in Hd0. injection Hd0 as <-.
    assert (both I J d) as [HId HJd].
    { apply (holds_current cfg (both I J) s); [by apply holds_both | done]. }
    by eapply HJ.
  - apply transact_err in E. by eapply holds_visible.
Qed.

(** ** Histories

    A history of a store: operations one after the other (the mutex serialises
    them), each with its own clock and faults. *)
Section Histories.
Context {D C : Type} (exec : C -> sop D unit).

Definition run_history (h : list (env * C)) (s : json_state D) : json_state D :=
  foldl (fun s ec => (exec ec.2 ec.1 s).1) s h.

Lemma history_preserves (I : D -> Prop) h s :
  (forall c, preserves I (exec c)) -> holds I s -> holds I (run_history h s).
Proof.
  intros Hc. revert s. induction h as [|[e c] h IH]; intros s Hs; simpl; [done|].
  apply IH. by apply Hc.
Qed.

Lemma history_preserves_if (I : D -> Prop) (ok : C -> Prop) h s :
  (forall c, ok c -> preserves I (exec c)) -> Forall (fun ec => ok ec.2) h ->
  holds I s -> holds I (run_history h s).
Proof.
  intros Hc Hh. revert s. induction Hh as [|[e c] h Hok Hh IH]; intros s Hs; simpl; [done|].
  apply IH. by apply Hc.
Qed.
End Histories.

Lemma holds_new_file {D} (I : D -> Prop) : holds I new_file_state.
Proof. by intros d. Qed.

(** ** Start-up migration *)

(** After the start-up migration has succeeded, readers still see the document they saw
    before, and the plain transactions and the atomic updates (which never consult the legacy
    file) work on the same document; running the migration again changes nothing. *)
Theorem MigrateLegacyDocument_effect {D} (cfg : doc_config D) (e : env) (s s' : json_state D) :
  js_migrates s = true -> doc_sort cfg (doc_zero cfg) = doc_zero cfg ->
  MigrateLegacyDocument e s = (s', Ok tt) ->
  visible s' = visible s /\
  current cfg s' = doc_sort cfg <$> raw_document cfg s' /\
  forall e', exists r, MigrateLegacyDocument e' s' = (s', r).
Proof.
  intros Hm Hz. unfold MigrateLegacyDocument. destruct s as [doc leg mig]. simpl in Hm. subst mig.
  simpl. destruct (read_fault e); [discriminate|].
  destruct doc as [c|]; [|destruct (legacy_fault e); [discriminate|]; destruct leg as [c|];
    [destruct (migrate_fault e); [discriminate|]|]]; intros [= <-]; unfold current, visible,
    raw_document; simpl.
  all: split_and!; [done | try destruct c; simpl; congruence | intros e'; repeat case_match; eauto].
Qed.

Lemma MigrateLegacyDocument_effect_witness :
  let cfg := DocConfig "numbers" ([] : list Z) (sort_on (fun x => x)) in
  let s := new_backend_state (Some (Decodes [2; 1]%Z)) in
  current cfg (MigrateLegacyDocument (healthy 0) s).1 = Some [1; 2]%Z /\
  raw_document cfg (MigrateLegacyDocument (healthy 0) s).1 = Some [2; 1]%Z.
Proof.
  intros cfg s.
  destruct (MigrateLegacyDocument_effect cfg (healthy 0) s _ eq_refl eq_refl eq_refl)
    as (Hv & Hc & _).
  split; [|reflexivity]. etransitivity; [exact Hc | reflexivity].
Defined.
