(* ===== verification/Service.v ===== *)
(** * Services

    A service runs over a world of stores and files, in an environment that decides the clock and
    the failures of every call: [rop E W A] takes the environment and the world to the world
    afterwards and a result.  A failure keeps the world reached so far. *)
From stdpp Require Import base tactics.
From S2P Require Import Prelude.

Definition rop (E W A : Type) : Type := E -> W -> W * result A.

Section Operations.
Context {E W : Type}.

#[export] Instance rop_ret : MRet (rop E W) := fun A a e w => (w, Ok a).
#[export] Instance rop_bind : MBind (rop E W) := fun A B k m e w =>
  match m e w with
  | (w', Ok a) => k a e w'
  | (w', Err msg) => (w', Err msg)
  end.

Definition of_result {A} (r : result A) : rop E W A := fun e w => (w, r).
(** The error as a value. *)
Definition try_ {A} (m : rop E W A) : rop E W (result A) := fun e w => let (w', r) := m e w in (w', Ok r).

Lemma rop_bind_run {A B} (m : rop E W A) (k : A -> rop E W B) e w :
  (m ≫= k) e w = match m e w with (w', Ok a) => k a e w' | (w', Err msg) => (w', Err msg) end.
Proof. done. Qed.

Lemma rop_bind_ok {A B} (m : rop E W A) (k : A -> rop E W B) e w w' b :
  (m ≫= k) e w = (w', Ok b) -> exists w1 a, m e w = (w1, Ok a) /\ k a e w1 = (w', Ok b).
Proof. rewrite rop_bind_run. destruct (m e w) as [w1 [a|msg]]; [eauto | discriminate]. Qed.

(** ** Triples

Started where [P] holds in the environment [e], the operation ends in [Q a] when it returns [a]
and in [F] when it fails. *)
Definition triple {A} (e : E) (P : W -> Prop) (m : rop E W A) (Q : A -> W -> Prop) (F : W -> Prop) : Prop := forall w,
  P w -> match m e w with (w', Ok a) => Q a w' | (w', Err _) => F w' end.

Lemma triple_bind {A B e} P (m : rop E W A) (k : A -> rop E W B) Q R F :
  triple e P m Q F -> (forall a, triple e (Q a) (k a) R F) -> triple e P (m ≫= k) R F.
Proof.
  intros Hm Hk w Hw. specialize (Hm w Hw). rewrite rop_bind_run.
  destruct (m e w) as [w' [a|msg]]; [by apply Hk | done].
Qed.

Lemma triple_ret {A e} (a : A) (Q : A -> W -> Prop) F : triple e (Q a) (mret a) Q F.
Proof. by intros w. Qed.

Lemma triple_result {A e} (r : result A) P (Q : A -> W -> Prop) (F : W -> Prop) :
  (forall a w, r = Ok a -> P w -> Q a w) -> (forall w, P w -> F w) -> triple e P (of_result r) Q F.
Proof. intros HQ HF w Hw. unfold of_result. destruct r as [a|msg]; [by apply HQ | by apply HF]. Qed.

Lemma triple_try {A e} (m : rop E W A) P Q F F' :
  triple e P m Q F -> triple e P (try_ m) (fun r => match r with Ok a => Q a | Err _ => F end) F'.
Proof.
  intros Hm w Hw. specialize (Hm w Hw). unfold try_. destruct (m e w) as [w' [a|msg]]; done.
Qed.

Lemma triple_weaken {A e} P P' (m : rop E W A) Q Q' F F' :
  triple e P m Q F -> (forall w, P' w -> P w) -> (forall a w, Q a w -> Q' a w) ->
  (forall w, F w -> F' w) -> triple e P' m Q' F'.
Proof.
  intros Hm HP HQ HF w Hw. specialize (Hm w (HP _ Hw)).
  destruct (m e w) as [w' [a|msg]]; [by apply HQ | by apply HF].
Qed.

Lemma triple_pure {A e} (phi : Prop) P (m : rop E W A) Q F :
  (phi -> triple e P m Q F) -> triple e (fun w => P w /\ phi) m Q F.
Proof. intros Hm w [Hw Hphi]. by apply Hm. Qed.

(** The operation keeps the invariant [I], and what it returns satisfies [phi]. *)
Definition retains {A} (e : E) (I : W -> Prop) (m : rop E W A) (phi : A -> Prop) : Prop :=
  triple e I m (fun a w => I w /\ phi a) I.

Lemma retains_bind {A B e} I (m : rop E W A) (k : A -> rop E W B) phi psi :
  retains e I m phi -> (forall a, phi a -> retains e I (k a) psi) -> retains e I (m ≫= k) psi.
Proof.
  intros Hm Hk. apply (triple_bind _ _ _ (fun a w => I w /\ phi a)); [done|].
  intros a. apply triple_pure, Hk.
Qed.

Lemma retains_result {A e} I (r : result A) (phi : A -> Prop) :
  (forall a, r = Ok a -> phi a) -> retains e I (of_result r) phi.
Proof. intros Hr. apply triple_result; eauto. Qed.

Lemma retains_ret {A e} I (a : A) (phi : A -> Prop) : phi a -> retains e I (mret a) phi.
Proof. by intros Ha w Hw. Qed.

Lemma retains_unit {A e} I (m : rop E W A) phi : retains e I m phi -> retains e I (m;; mret tt) (fun _ => True).
Proof. intros Hm. eapply retains_bind; [exact Hm|]. intros a _. by apply retains_ret. Qed.

Lemma retains_try {A e} I (m : rop E W A) phi :
  retains e I m phi -> retains e I (try_ m) (fun r => match r with Ok a => phi a | Err _ => True end).
Proof.
  intros Hm. eapply triple_weaken; [apply (triple_try m I (fun a w => I w /\ phi a) I I), Hm|done| |done].
  by intros [a|msg] w; [intros []|].
Qed.

Lemma retains_weaken {A e} I (m : rop E W A) (phi psi : A -> Prop) :
  retains e I m phi -> (forall a, phi a -> psi a) -> retains e I m psi.
Proof. intros Hm H. eapply triple_weaken; [exact Hm|done| |done]. intros a w [Hw Ha]. eauto. Qed.
End Operations.
