(* ===== verification/Crud.v ===== *)
(** * Keyed document stores

    Seven stores of the control plane (sites, upstreams, TLS configurations, access, rate-limit
    and WAF policies, certificate metadata) are the same code over different entities: a sorted
    list of items with a string key in one JSON document, and Create, List, Update, Delete with
    normalisation, validation and conflict checks.  [Crud] is what an entity supplies, [CrudLaws]
    what it promises; the operations and their theorems are proved once against them. *)
From Stdlib Require Import ZArith Lia Ascii String.
From stdpp Require Import base tactics gmap strings list.
From S2P Require Import Prelude GoTime DocStore.
Local Set Warnings "-clear-no-such-hyp".
Local Open Scope string_scope.
Local Notation "a +++ b" := (@app _ a b) (at level 60, right associativity).

Class Crud (A : Type) := {
  crud_store : string;                         (* "sites store" *)
  crud_key : A -> string;                      (* the field items are looked up and sorted by *)
  crud_key_required : string;                  (* error of Delete for an empty key *)
  crud_exists : string -> string;              (* error of Create for a key in use *)
  crud_missing : string -> string;             (* error of Update and Delete for an unknown key *)
  crud_normalize : A -> A;
  crud_validate : A -> result unit;
  crud_stamp : string -> string -> A -> A;     (* sets CreatedAt and UpdatedAt *)
  crud_created : A -> string;
  (* errors raised by an existing item: in Create after the key check, in Update before the
     lookup, and in Update once the item was found *)
  crud_create_clash : A -> A -> option string;
  crud_update_clash : A -> A -> option string;
  crud_found_clash : A -> A -> option string
}.

Record items_state (A : Type) := MkItems { Items : list A }.
Arguments MkItems {A} _.
Arguments Items {A} _.

Section Operations.
Context {A : Type} `{Crud A}.

Definition sort_items (items : list A) : list A := sort_on crud_key items.

Definition items_config : doc_config (items_state A) :=
  DocConfig crud_store (MkItems []) (fun s => MkItems (sort_items (Items s))).

(** [for _, existing := range items { if ... { return err } }] *)
Fixpoint first_error (test : A -> option string) (items : list A) : result unit :=
  match items with
  | [] => Ok tt
  | existing :: rest => match test existing with Some err => Err err | None => first_error test rest end
  end.

Definition createTx (item : A) (t : Z) (current : items_state A) : result (items_state A * A) :=
  first_error (fun existing =>
    if String.eqb (crud_key existing) (crud_key item) then Some (crud_exists (crud_key item))
    else crud_create_clash existing item) (Items current);;
  let stamp := format_rfc3339 t in
  let item := crud_stamp stamp stamp item in
  Ok (MkItems (sort_items (Items current +++ [item])), item).

(** Normalisation and validation come before the document is read. *)
Definition Create (item : A) : sop (items_state A) A :=
  let item := crud_normalize item in
  lift (crud_validate item);;
  transact items_config (createTx item).

Definition List : sop (items_state A) (list A) :=
  query items_config (fun _ current => Ok (sort_items (Items current))).

Definition updateTx (item : A) (t : Z) (current : items_state A) : result (items_state A * A) :=
  first_error (fun existing => crud_update_clash existing item) (Items current);;
  match find_key crud_key (crud_key item) (Items current) with
  | None => Err (crud_missing (crud_key item))
  | Some (i, old) =>
    first_error (fun existing => crud_found_clash existing item) (Items current);;
    let item := crud_stamp (crud_created old) (format_rfc3339 t) item in
    Ok (MkItems (sort_items (<[i := item]> (Items current))), item)
  end.

Definition Update (item : A) : sop (items_state A) A :=
  let item := crud_normalize item in
  lift (crud_validate item);;
  transact items_config (updateTx item).

Definition deleteTx (key : string) (_ : Z) (current : items_state A) : result (items_state A * unit) :=
  match find_key crud_key key (Items current) with
  | None => Err (crud_missing key)
  | Some (i, _) => Ok (MkItems (sort_items (delete i (Items current))), tt)
  end.

Definition Delete (key : string) : sop (items_state A) unit :=
  let key := normalize_id key in
  lift (reject_if (is_empty key) crud_key_required);;
  transact items_config (deleteTx key).

(** The mutations as data. *)
Inductive command :=
| CCreate (item : A)
| CUpdate (item : A)
| CDelete (key : string).

Definition exec (c : command) : sop (items_state A) unit :=
  match c with
  | CCreate item => (fun _ => tt) <$> Create item
  | CUpdate item => (fun _ => tt) <$> Update item
  | CDelete key => Delete key
  end.
End Operations.
Arguments command : clear implicits.

(** A fixed point of normalisation. *)
Definition normalized {A} `{Crud A} (x : A) : Prop := crud_normalize x = x.

(** ** What an entity promises

    [crud_normal] is what normalisation establishes and stamping keeps (for most stores, being a
    fixed point of it); [crud_apart x y]: the items may be stored together. *)
Class CrudLaws (A : Type) `{Crud A} := {
  crud_normal : A -> Prop;
  crud_apart : A -> A -> Prop;
  crud_key_normal item : crud_validate (crud_normalize item) = Ok tt ->
    normalize_id (crud_key (crud_normalize item)) = crud_key (crud_normalize item) /\
    crud_key (crud_normalize item) <> "";
  crud_normalize_normal item : crud_normal (crud_normalize item);
  crud_stamp_key c u item : crud_key (crud_stamp c u item) = crud_key item;
  crud_stamp_normal c u item : crud_normal item -> crud_normal (crud_stamp c u item);
  crud_stamp_validate c u item : crud_validate (crud_stamp c u item) = crud_validate item;
  crud_stamp_created c u item : crud_created (crud_stamp c u item) = c;
  crud_stamp_twice c u c' u' item : crud_stamp c u (crud_stamp c' u' item) = crud_stamp c u item;
  crud_apart_sym x y : crud_apart x y -> crud_apart y x;
  crud_apart_stamp c u x y : crud_apart x y -> crud_apart x (crud_stamp c u y);
  crud_create_apart x y : crud_key x <> crud_key y -> crud_create_clash x y = None -> crud_apart x y;
  crud_update_apart x y : crud_key x <> crud_key y -> crud_update_clash x y = None ->
    crud_found_clash x y = None -> crud_apart x y
}.

(** ** The abstract store: a map from keys to items

    [spec_exec c t m] is the map after [c] at time [t], [None] when the command is refused. *)
Section Spec.
Context {A : Type} `{Crud A}.

Definition compatible (clash : A -> A -> option string) (m : gmap string A) (item : A) : bool :=
  forallb (fun existing => negb (bool_decide (is_Some (clash existing item)))) (map_to_list m).*2.

Definition spec_exec (c : command A) (t : Z) (m : gmap string A) : option (gmap string A) :=
  match c with
  | CCreate item =>
    let item := crud_normalize item in
    if is_ok (crud_validate item) && bool_decide (m !! crud_key item = None) &&
    compatible crud_create_clash m item
    then Some (<[crud_key item := crud_stamp (format_rfc3339 t) (format_rfc3339 t) item]> m) else None
  | CUpdate item =>
    let item := crud_normalize item in
    match m !! crud_key item with
    | Some old =>
      if is_ok (crud_validate item) && compatible crud_update_clash m item &&
      compatible crud_found_clash m item
      then Some (<[crud_key item := crud_stamp (crud_created old) (format_rfc3339 t) item]> m) else None
    | None => None
    end
  | CDelete key =>
    let key := normalize_id key in
    if negb (is_empty key) && bool_decide (is_Some (m !! key)) then Some (delete key m) else None
  end.

(** The items of a map in the order of their keys. *)
Definition listing (m : gmap string A) : list A := sort_on crud_key (map_to_list m).*2.

(** The outcomes of a sequence of commands, and the map it ends in. *)
Fixpoint spec_run (h : list (Z * command A)) (m : gmap string A) : list bool * gmap string A :=
  match h with
  | [] => ([], m)
  | (t, c) :: h' =>
    let '(outcomes, m') := spec_run h' (default m (spec_exec c t m)) in
    (bool_decide (is_Some (spec_exec c t m)) :: outcomes, m')
  end.

Fixpoint store_run (h : list (Z * command A)) (s : json_state (items_state A))
  : list bool * json_state (items_state A) :=
  match h with
  | [] => ([], s)
  | (t, c) :: h' =>
    let '(s', r) := exec c (healthy t) s in
    let '(outcomes, s'') := store_run h' s' in
    (is_ok r :: outcomes, s'')
  end.
End Spec.

(** ** Lists and maps of items *)
Section Lists.
Context {A : Type} `{CrudLaws A}.

Definition items_map (l : list A) : gmap string A := list_to_map ((fun x => (crud_key x, x)) <$> l).

Lemma keys_fst (l : list A) : ((fun x => (crud_key x, x)) <$> l).*1 = crud_key <$> l.
Proof. rewrite <- list_fmap_compose. done. Qed.

Lemma keys_snd (l : list A) : ((fun x => (crud_key x, x)) <$> l).*2 = l.
Proof. rewrite <- list_fmap_compose. apply list_fmap_id. Qed.

Lemma items_map_perm l l' : NoDup (crud_key <$> l) -> l ≡ₚ l' -> items_map l = items_map l'.
Proof. intros Hn Hp. apply list_to_map_proper; [by rewrite keys_fst | by apply fmap_Permutation]. Qed.

Lemma items_map_lookup l k x :
  NoDup (crud_key <$> l) -> items_map l !! k = Some x <-> x ∈ l /\ crud_key x = k.
Proof.
  intros Hn. unfold items_map. rewrite <- elem_of_list_to_map by by rewrite keys_fst.
  rewrite list_elem_of_fmap. split; [intros (y & [= -> ->] & Hy); done | intros [Hx <-]; by exists x].
Qed.

Lemma items_map_values l : NoDup (crud_key <$> l) -> (map_to_list (items_map l)).*2 ≡ₚ l.
Proof.
  intros Hn. unfold items_map. rewrite map_to_list_to_map by by rewrite keys_fst. by rewrite keys_snd.
Qed.

Lemma items_map_find l k :
  NoDup (crud_key <$> l) -> items_map l !! k = snd <$> find_key crud_key k l.
Proof.
  intros Hn. destruct (find_key crud_key k l) as [[i x]|] eqn:Hf; cbn.
  - apply find_key_Some in Hf as [Hi Hk]. apply items_map_lookup; [done|].
    split; [by apply (list_elem_of_lookup_2 _ i) | done].
  - apply eq_None_not_Some. intros [x Hx]. apply items_map_lookup in Hx as [Hx Hk]; [|done].
    apply find_key_None in Hf. apply Hf. rewrite <- Hk. by apply list_elem_of_fmap_2.
Qed.

Lemma first_error_none (test : A -> option string) l :
  is_ok (first_error test l) = forallb (fun x => negb (bool_decide (is_Some (test x)))) l.
Proof. induction l as [|x l IH]; [done|]. cbn. destruct (test x); [done | exact IH]. Qed.

Lemma forallb_perm (p : A -> bool) l l' : l ≡ₚ l' -> forallb p l = forallb p l'.
Proof.
  induction 1 as [|x l l' _ IH|x y l|l1 l2 l3 _ IH1 _ IH2]; cbn; [done|by rewrite IH| |by rewrite IH1].
  destruct (p x), (p y); done.
Qed.

Lemma compatible_list clash l item :
  NoDup (crud_key <$> l) ->
  compatible clash (items_map l) item = is_ok (first_error (fun existing => clash existing item) l).
Proof. intros Hn. rewrite first_error_none. apply forallb_perm, items_map_values, Hn. Qed.

Lemma items_map_snoc l x : NoDup (crud_key <$> l) -> crud_key x ∉ crud_key <$> l ->
  items_map (l +++ [x]) = <[crud_key x := x]> (items_map l).
Proof.
  intros Hn Hx. rewrite (items_map_perm _ (x :: l)); [done| |].
  - by apply NoDup_key_snoc.
  - by rewrite Permutation_app_comm.
Qed.

Lemma items_map_insert l i old x :
  NoDup (crud_key <$> l) -> l !! i = Some old -> crud_key x = crud_key old ->
  items_map (<[i := x]> l) = <[crud_key x := x]> (items_map l).
Proof.
  intros Hn Hi Hk. assert (Hn' : NoDup (crud_key <$> <[i := x]> l)) by by rewrite (fmap_key_insert crud_key _ _ old).
  apply map_eq. intros k. apply option_eq. intros y. rewrite items_map_lookup by done.
  destruct (decide (crud_key x = k)) as [<-|Hne].
  - rewrite lookup_insert_eq. split.
    + intros [Hy Hky]. apply list_elem_of_lookup in Hy as [j Hj].
      assert (j = i) as ->; [|rewrite list_lookup_insert_eq in Hj by (by eapply lookup_lt_Some); done].
      apply (NoDup_lookup _ j i (crud_key x) Hn'); rewrite list_lookup_fmap.
      * by rewrite Hj, <- Hky.
      * by rewrite list_lookup_insert_eq by (by eapply lookup_lt_Some).
    + intros [= ->]. split; [|done]. apply (list_elem_of_lookup_2 _ i).
      apply list_lookup_insert_eq. by eapply lookup_lt_Some.
  - rewrite lookup_insert_ne by done. rewrite items_map_lookup by done. split; intros [Hy Hky]; (split; [|done]).
    + apply (elem_of_insert_list _ _ old) in Hy as [->|Hy]; [done..|done].
    + apply list_elem_of_lookup in Hy as [j Hj]. apply (list_elem_of_lookup_2 _ j).
      rewrite list_lookup_insert_ne; [done|]. intros <-. rewrite Hi in Hj. congruence.
Qed.

Lemma items_map_delete l i x :
  NoDup (crud_key <$> l) -> l !! i = Some x -> items_map (delete i l) = delete (crud_key x) (items_map l).
Proof.
  intros Hn Hi. apply map_eq. intros k. apply option_eq. intros y.
  rewrite items_map_lookup by by apply NoDup_key_delete. rewrite lookup_delete_Some, items_map_lookup by done.
  rewrite (elem_of_delete_key crud_key l i x y Hn Hi). naive_solver.
Qed.
End Lists.

(** ** Well-formed documents *)
Section Wf.
Context {A : Type} `{CrudLaws A}.

(** In normal form and valid. *)
Definition good_item (x : A) : Prop := crud_normal x /\ crud_validate x = Ok tt.

Record items_wf (d : items_state A) : Prop := {
    iwf_keys : NoDup (crud_key <$> Items d);
    iwf_good : Forall good_item (Items d);
    iwf_apart : forall x y, x ∈ Items d -> y ∈ Items d -> crud_key x <> crud_key y -> crud_apart x y;
    iwf_sorted : sorted_on crud_key (Items d)
  }.

Lemma items_wf_sort l :
  NoDup (crud_key <$> l) -> Forall good_item l ->
  (forall x y, x ∈ l -> y ∈ l -> crud_key x <> crud_key y -> crud_apart x y) -> items_wf (MkItems (sort_items l)).
Proof.
  intros Hn Hg Ha. unfold sort_items. split; cbn [Items].
  - by rewrite NoDup_fmap_sort_on.
  - by apply Forall_sort_on.
  - intros x y. rewrite !elem_of_sort_on. apply Ha.
  - apply sort_on_sorted.
Qed.

#[export] Instance items_wf_inv : DocInv items_config items_wf.
Proof.
  split; [split; cbn; [constructor|constructor|by intros x y []%not_elem_of_nil|constructor]|].
  intros [l] [Hn Hg Ha _]. by apply items_wf_sort.
Qed.

Lemma good_stamp c u x : good_item x -> good_item (crud_stamp c u x).
Proof. intros [H1 H2]. split; [by apply crud_stamp_normal | by rewrite crud_stamp_validate]. Qed.

Lemma first_error_ok (test : A -> option string) l u x : first_error test l = Ok u -> x ∈ l -> test x = None.
Proof.
  induction l as [|y l IH]; [by intros _ []%not_elem_of_nil|]. cbn. destruct (test y) eqn:Hy; [done|].
  intros Hl [->|Hx]%elem_of_cons; [done | by apply IH].
Qed.

Lemma normalized_good x : crud_validate (crud_normalize x) = Ok tt -> good_item (crud_normalize x).
Proof. intros Hv. split; [apply crud_normalize_normal | done]. Qed.

Lemma createTx_items x t d d' a : good_item x -> items_wf d -> createTx x t d = Ok (d', a) -> items_wf d'.
Proof.
  intros Hx [Hn Hg Ha _] (u & Hno & E)%result_bind_ok. injection E as <- _.
  pose proof (fun y Hy => first_error_ok _ _ u y Hno Hy) as Hnone. cbn beta in Hnone.
  assert (Hkey : forall y, y ∈ Items d -> crud_key y <> crud_key x /\ crud_apart y x).
  { intros y Hy. specialize (Hnone y Hy). destruct (String.eqb_spec (crud_key y) (crud_key x)) as [|Hne]; [done|].
    split; [done | by apply crud_create_apart]. }
  apply items_wf_sort.
  - apply NoDup_key_snoc; [done|]. rewrite crud_stamp_key. intros (y & Hy & Hin)%list_elem_of_fmap.
    by destruct (Hkey y Hin) as [[] _].
  - apply Forall_app. split; [done|]. constructor; [by apply good_stamp | constructor].
  - intros y z. rewrite !elem_of_app, !list_elem_of_singleton. intros [Hy| ->] [Hz| ->]; [by apply Ha|..|done]; intros _.
    + apply crud_apart_stamp. by apply Hkey.
    + apply crud_apart_sym, crud_apart_stamp. by apply Hkey.
Qed.

Lemma updateTx_items x t d d' a : good_item x -> items_wf d -> updateTx x t d = Ok (d', a) -> items_wf d'.
Proof.
  intros Hx [Hn Hg Ha _] (u & Hupd & E)%result_bind_ok.
  destruct (find_key _ _ _) as [[i old]|] eqn:Hf; [|done]. apply find_key_Some in Hf as [Hi Hold].
  apply result_bind_ok in E as (u' & Hfound & E). injection E as <- _.
  set (x' := crud_stamp _ _ x). assert (Hk : crud_key x' = crud_key old) by (unfold x'; by rewrite crud_stamp_key).
  assert (Hapart : forall y, y ∈ Items d -> crud_key y <> crud_key x -> crud_apart y x').
  { intros y Hy Hne. apply crud_apart_stamp, crud_update_apart; [done| |].
    - exact (first_error_ok _ _ _ y Hupd Hy).
    - exact (first_error_ok _ _ _ y Hfound Hy). }
  assert (Hin : forall y, y ∈ <[i := x']> (Items d) -> y = x' \/ y ∈ Items d) by (intros y; by apply (elem_of_insert_list _ _ old)).
  apply items_wf_sort.
  - by rewrite (fmap_key_insert crud_key _ _ old).
  - apply Forall_insert_list; [done | by apply good_stamp].
  - intros y z Hy Hz Hne. rewrite Hold in Hk. destruct (Hin y Hy) as [->|Hy'], (Hin z Hz) as [->|Hz'].
    + done.
    + apply crud_apart_sym, Hapart; [done | congruence].
    + apply Hapart; [done | congruence].
    + by apply Ha.
Qed.

Lemma deleteTx_items k t d d' u : items_wf d -> deleteTx k t d = Ok (d', u) -> items_wf d'.
Proof.
  intros [Hn Hg Ha _]. unfold deleteTx. destruct (find_key _ _ _) as [[i x]|] eqn:Hf; [|done]. intros [= <- _].
  apply find_key_Some in Hf as [Hi _].
  assert (Hsub : forall y, y ∈ delete i (Items d) -> y ∈ Items d)
  by (intros y Hy; by apply (elem_of_delete_key crud_key _ i x y Hn Hi) in Hy as [Hy _]).
  apply items_wf_sort; [by apply NoDup_key_delete | by apply Forall_delete|]. intros y z Hy Hz. auto.
Qed.

Lemma crud_exec_wf (c : command A) : preserves items_wf (exec c).
Proof.
  destruct c as [x|x|k]; cbn [exec].
  - apply fmap_preserves. unfold Create. cbn zeta.
    destruct (crud_validate (crud_normalize x)) as [[]|e] eqn:Hv; [|by intros ? s].
    apply bind_preserves; [apply lift_preserves|]. intros _. apply (transact_preserves items_config items_wf).
    intros t d d' a. by apply createTx_items, normalized_good.
  - apply fmap_preserves. unfold Update. cbn zeta.
    destruct (crud_validate (crud_normalize x)) as [[]|e] eqn:Hv; [|by intros ? s].
    apply bind_preserves; [apply lift_preserves|]. intros _. apply (transact_preserves items_config items_wf).
    intros t d d' a. by apply updateTx_items, normalized_good.
  - unfold Delete. cbn zeta. apply bind_preserves; [apply lift_preserves|]. intros _.
    apply (transact_preserves items_config items_wf). intros t d d' a. apply deleteTx_items.
Qed.
End Wf.

(** ** Refinement *)
#[local] Arguments format_rfc3339 : simpl never.
#[local] Arguments items_map : simpl never.
#[local] Arguments sort_items : simpl never.

Section Refinement.
Context {A : Type} `{CrudLaws A}.

(** Readers of [s] see the items of the map [m]. *)
Definition represents (s : json_state (items_state A)) (m : gmap string A) : Prop :=
  exists d, current items_config s = Some d /\ NoDup (crud_key <$> Items d) /\ items_map (Items d) = m.

(** A transaction's outcome against the outcome [o] of the specification. *)
Definition tx_refines {B} (r : result (items_state A * B)) (m : gmap string A) (o : option (gmap string A)) : Prop :=
  match r with
  | Ok (d', _) => NoDup (crud_key <$> Items d') /\ o = Some (items_map (Items d'))
  | Err _ => o = None
  end.

Lemma first_error_and (p : A -> bool) (msg : A -> string) (clash : A -> option string) l :
  is_ok (first_error (fun x => if p x then Some (msg x) else clash x) l) =
  forallb (fun x => negb (p x)) l && is_ok (first_error clash l).
Proof.
  induction l as [|x l IH]; [done|]. cbn. destruct (p x); cbn; [done|]. destruct (clash x); [by rewrite andb_false_r | exact IH].
Qed.

Lemma key_free l k : forallb (fun x => negb (String.eqb (crud_key x) k)) l = bool_decide (find_key crud_key k l = None).
Proof.
  apply eq_true_iff_eq. rewrite bool_decide_eq_true, find_key_None, forallb_forall, list_elem_of_fmap. split.
  - intros Hall (x & -> & Hx). apply list_elem_of_In in Hx. specialize (Hall x Hx). by rewrite String.eqb_refl in Hall.
  - intros Hno x Hx%list_elem_of_In. apply negb_true_iff, String.eqb_neq. intros <-. eauto.
Qed.

Lemma sorted_map l : NoDup (crud_key <$> l) ->
  NoDup (crud_key <$> sort_items l) /\ items_map (sort_items l) = items_map l.
Proof.
  intros Hn. unfold sort_items. assert (Hs : NoDup (crud_key <$> sort_on crud_key l)) by by rewrite NoDup_fmap_sort_on.
  split; [done|]. apply items_map_perm; [done | apply sort_on_perm].
Qed.

Lemma createTx_refines x t d :
  NoDup (crud_key <$> Items d) ->
  tx_refines (createTx x t d) (items_map (Items d))
  (if bool_decide (items_map (Items d) !! crud_key x = None) && compatible crud_create_clash (items_map (Items d)) x
    then Some (<[crud_key x := crud_stamp (format_rfc3339 t) (format_rfc3339 t) x]> (items_map (Items d))) else None).
Proof.
  intros Hn. rewrite items_map_find, compatible_list by done.
  assert (Hfind : bool_decide (snd <$> find_key crud_key (crud_key x) (Items d) = None) =
  bool_decide (find_key crud_key (crud_key x) (Items d) = None)).
  { apply bool_decide_ext. by destruct (find_key _ _ _). }
  pose proof (first_error_and (fun existing => String.eqb (crud_key existing) (crud_key x))
  (fun _ => crud_exists (crud_key x)) (fun existing => crud_create_clash existing x) (Items d)) as Hand.
  cbn beta in Hand. rewrite key_free, <- Hfind in Hand. rewrite <- Hand. unfold createTx.
  destruct (first_error _ _) as [[]|msg]; cbn; [|done]. symmetry in Hand. apply andb_true_iff in Hand as [Hfree _].
  rewrite Hfind in Hfree. apply bool_decide_eq_true, find_key_None in Hfree.
  assert (Hnew : crud_key (crud_stamp (format_rfc3339 t) (format_rfc3339 t) x) ∉ crud_key <$> Items d) by by rewrite crud_stamp_key.
  destruct (sorted_map (Items d +++ [crud_stamp (format_rfc3339 t) (format_rfc3339 t) x])) as [H1 H2]; [by apply NoDup_key_snoc|].
  split; cbn [Items]; [done|]. rewrite H2, items_map_snoc by done. by rewrite crud_stamp_key.
Qed.

Lemma updateTx_refines x t d :
  NoDup (crud_key <$> Items d) ->
  tx_refines (updateTx x t d) (items_map (Items d))
  (match items_map (Items d) !! crud_key x with
    | Some old => if compatible crud_update_clash (items_map (Items d)) x && compatible crud_found_clash (items_map (Items d)) x
      then Some (<[crud_key x := crud_stamp (crud_created old) (format_rfc3339 t) x]> (items_map (Items d))) else None
    | None => None
    end).
Proof.
  intros Hn. rewrite items_map_find, !compatible_list by done. unfold updateTx.
  destruct (first_error (fun existing => crud_update_clash existing x) (Items d)) as [u|msg]; cbn.
  2: { by destruct (find_key _ _ _). }
  destruct (find_key _ _ _) as [[i old]|] eqn:Hf; cbn; [|done]. apply find_key_Some in Hf as [Hi Hk].
  destruct (first_error _ _) as [u'|msg]; cbn; [|done].
  set (x' := crud_stamp _ _ x). assert (Hkx : crud_key x' = crud_key x) by apply crud_stamp_key.
  destruct (sorted_map (<[i := x']> (Items d))) as [H1 H2].
  { rewrite (fmap_key_insert crud_key _ _ old); [done..|congruence]. }
  split; cbn [Items]; [done|]. rewrite H2, (items_map_insert _ _ old) by congruence. by rewrite Hkx.
Qed.

Lemma deleteTx_refines k t d :
  NoDup (crud_key <$> Items d) ->
  tx_refines (deleteTx k t d) (items_map (Items d))
  (if bool_decide (is_Some (items_map (Items d) !! k)) then Some (delete k (items_map (Items d))) else None).
Proof.
  intros Hn. rewrite items_map_find by done. unfold deleteTx.
  destruct (find_key _ _ _) as [[i x]|] eqn:Hf; cbn; [|done]. apply find_key_Some in Hf as [Hi Hk].
  destruct (sorted_map (delete i (Items d))) as [H1 H2]; [by apply NoDup_key_delete|].
  split; cbn [Items]; [done|]. rewrite H2, (items_map_delete _ _ x) by done. by rewrite Hk.
Qed.

Lemma transact_refines {B} (f : Z -> items_state A -> result (items_state A * B)) t s m d o :
  current items_config s = Some d -> items_map (Items d) = m -> NoDup (crud_key <$> Items d) ->
  tx_refines (f t d) m o ->
  is_ok (transact items_config f (healthy t) s).2 = bool_decide (is_Some o) /\
  represents (transact items_config f (healthy t) s).1 (default m o).
Proof.
  intros Hc Hm Hn Hf. destruct (transact_healthy items_config f (healthy t) s d eq_refl Hc) as (s' & <- & Hr).
  cbn [now healthy] in Hr. destruct (f t d) as [[d' b]|msg].
  - destruct Hr as [-> Hv]. destruct Hf as [Hn' ->]. split; [done|]. destruct (sorted_map _ Hn') as [H1 H2].
    exists (MkItems (sort_items (Items d'))). unfold current. rewrite Hv. done.
  - destruct Hr as [-> Hv]. cbn in Hf. subst o. split; [done|]. exists d. unfold current in *. by rewrite Hv.
Qed.

Lemma exec_refines (c : command A) t s m :
  represents s m ->
  is_ok (exec c (healthy t) s).2 = bool_decide (is_Some (spec_exec c t m)) /\
  represents (exec c (healthy t) s).1 (default m (spec_exec c t m)).
Proof.
  intros (d & Hc & Hn & Hm). assert (Hsame : represents s m) by by exists d.
  destruct c as [x|x|k]; cbn [exec spec_exec]; cbn zeta.
  - pose proof (createTx_refines (crud_normalize x) t d Hn) as Hr. rewrite Hm in Hr.
    unfold fmap, sop_fmap, Create, mbind, sop_bind, lift. cbn zeta.
    destruct (crud_validate (crud_normalize x)) as [u|msg]; cbn [is_ok andb]; [|done].
    destruct (transact_refines _ t s m d _ Hc Hm Hn Hr) as [H1 H2].
    by destruct (transact _ _ _ s) as [s' [a|msg]].
  - pose proof (updateTx_refines (crud_normalize x) t d Hn) as Hr. rewrite Hm in Hr.
    unfold fmap, sop_fmap, Update, mbind, sop_bind, lift. cbn zeta.
    destruct (crud_validate (crud_normalize x)) as [u|msg]; cbn [is_ok andb].
    + destruct (transact_refines _ t s m d _ Hc Hm Hn Hr) as [H1 H2].
      by destruct (transact _ _ _ s) as [s' [a|msg]].
    + by destruct (m !! _).
  - pose proof (deleteTx_refines (normalize_id k) t d Hn) as Hr. rewrite Hm in Hr.
    unfold Delete, mbind, sop_bind, lift, reject_if. cbn zeta.
    destruct (is_empty (normalize_id k)); cbn [negb andb]; [done|].
    exact (transact_refines _ t s m d _ Hc Hm Hn Hr).
Qed.

Lemma store_run_refines h s m :
  represents s m ->
  (store_run h s).1 = (spec_run h m).1 /\ represents (store_run h s).2 (spec_run h m).2.
Proof.
  revert s m. induction h as [|[t c] h IH]; intros s m Hs; [done|]. cbn [store_run spec_run].
  destruct (exec_refines c t s m Hs) as [H1 H2].
  destruct (exec c (healthy t) s) as [s' r]. cbn [fst snd] in *.
  destruct (IH s' _ H2) as [I1 I2].
  destruct (store_run h s') as [os s''], (spec_run h _) as [os' m']. cbn [fst snd] in *. by rewrite H1, I1.
Qed.

Lemma List_listing t s m : represents s m -> (List (healthy t) s).2 = Ok (listing m).
Proof.
  intros (d & Hc & Hn & <-). unfold List. rewrite (query_healthy _ _ _ _ _ eq_refl Hc). f_equal.
  pose proof (items_map_values _ Hn) as Hp. unfold listing, sort_items. apply sort_on_unique.
  - by rewrite (NoDup_fmap_perm crud_key _ _ Hp).
  - by rewrite Hp, sort_on_perm.
  - apply sort_on_sorted.
Qed.
End Refinement.

(** ** The contract of a store *)
Section Contract.
Context {A : Type} `{CrudLaws A}.

(** Over any sequence of commands on a healthy backend the commands that succeed are those the map
accepts, and listing returns the values of the resulting map in the order of their keys. *)
Definition refines_map : Prop := forall (h : list (Z * command A)) (t : Z),
  (store_run h new_file_state).1 = (spec_run h ∅).1 /\
  (List (healthy t) (store_run h new_file_state).2).2 = Ok (listing (spec_run h ∅).2).

Lemma store_refines_map : refines_map.
Proof.
  intros h t. destruct (store_run_refines h new_file_state ∅) as [H1 H2].
  - exists (MkItems []). split_and!; [done | constructor | done].
  - split; [exact H1 | by apply List_listing].
Qed.

(** In every reachable document, under any clock and any backend failures, keys are unique and
sorted, items are [normal] and valid, and any two are related by [apart]. *)
Definition well_formed_store (normal : A -> Prop) (apart : A -> A -> Prop) : Prop :=
  forall (h : list (env * command A)) (d : items_state A),
  visible (run_history exec h new_file_state) = Some (Decodes d) ->
  NoDup (crud_key <$> Items d) /\ sorted_on crud_key (Items d) /\
  Forall (fun x => normal x /\ crud_validate x = Ok tt) (Items d) /\
  forall x y, x ∈ Items d -> y ∈ Items d -> crud_key x <> crud_key y -> apart x y.

Lemma store_well_formed : well_formed_store crud_normal crud_apart.
Proof.
  intros h d Hd.
  destruct (history_preserves exec items_wf h new_file_state crud_exec_wf (holds_new_file _) d Hd)
  as [Hn Hg Ha Hs]. by split_and!.
Qed.
End Contract.
Arguments refines_map A {_}.
