(* ===== verification/ConfigStores.v ===== *)
(** * Configuration stores (control-plane/internal/sites, upstreams, tlsconfigs, accesspolicies,
      ratelimitpolicies, wafpolicies, certificates)

    One Module per store: its entity, normalisation and validation, and the instance of [Crud]
    (Crud.v) that makes the shared operations its own; each entity keeps the promises of
    [CrudLaws]. *)
From Stdlib Require Import ZArith Lia Ascii String.
From stdpp Require Import base tactics gmap strings list.
From S2P Require Import Prelude GoTime GoText GoNet DocStore Crud.
Local Set Warnings "-clear-no-such-hyp".
Local Open Scope string_scope.
Local Open Scope Z_scope.

Definition no_clash {A} (existing item : A) : option string := None.

(** The laws that hold by computation once the entity is taken apart. *)
Ltac stamp_laws := try done; try (intros *; repeat match goal with x : ?T |- _ =>
  match type of T with Set => is_var x; destruct x end end; done).

(** ** Sites *)
Module Sites.
Record Site := MkSite {
  ID : string;
  PrimaryHost : string;
  Enabled : bool;
  CreatedAt : string;
  UpdatedAt : string
}.

Definition normalizeSite (site : Site) : Site :=
  MkSite (normalize_id (ID site)) (trim_space (PrimaryHost site)) (Enabled site) (CreatedAt site)
    (UpdatedAt site).

Definition validateSite (site : Site) : result unit :=
  reject_if (is_empty (ID site)) "site id is required";;
  reject_if (is_blank (PrimaryHost site)) "site primary_host is required".

Definition host_taken (existing site : Site) : option string :=
  if equal_fold (PrimaryHost existing) (PrimaryHost site)
  then Some ("site primary_host " ++ PrimaryHost site ++ " already exists") else None.

#[global] Instance crud : Crud Site := {|
  crud_store := "sites store";
  crud_key := ID;
  crud_key_required := "site id is required";
  crud_exists := fun id => "site " ++ id ++ " already exists";
  crud_missing := fun id => "site " ++ id ++ " not found";
  crud_normalize := normalizeSite;
  crud_validate := validateSite;
  crud_stamp := fun c u x => MkSite (ID x) (PrimaryHost x) (Enabled x) c u;
  crud_created := CreatedAt;
  crud_create_clash := host_taken;
  crud_update_clash := no_clash;
  crud_found_clash := fun existing site =>
    if negb (String.eqb (ID existing) (ID site)) then host_taken existing site else None
|}.

Definition sortSites : list Site -> list Site := sort_items.
Definition Create : Site -> sop (items_state Site) Site := Crud.Create.
Definition List : sop (items_state Site) (list Site) := Crud.List.
Definition Update : Site -> sop (items_state Site) Site := Crud.Update.
Definition Delete : string -> sop (items_state Site) unit := Crud.Delete.

(** Hosts are unique up to case. *)
Definition apart (x y : Site) : Prop := equal_fold (PrimaryHost x) (PrimaryHost y) = false.
End Sites.

(** ** Upstreams *)
Module Upstreams.
Record Upstream := MkUpstream {
  ID : string;
  SiteID : string;
  Host : string;
  Port : Z;
  Scheme : string;
  CreatedAt : string;
  UpdatedAt : string
}.

Definition normalizeUpstream (item : Upstream) : Upstream :=
  MkUpstream (normalize_id (ID item)) (normalize_id (SiteID item)) (trim_space (Host item)) (Port item)
    (to_lower (trim_space (Scheme item))) (CreatedAt item) (UpdatedAt item).

Definition validateUpstream (item : Upstream) : result unit :=
  reject_if (is_empty (ID item)) "upstream id is required";;
  reject_if (is_empty (SiteID item)) "upstream site_id is required";;
  reject_if (is_empty (Host item)) "upstream host is required";;
  reject_if ((Port item <=? 0) || (65535 <? Port item)) "upstream port must be between 1 and 65535";;
  reject_if (negb (String.eqb (Scheme item) "http" || String.eqb (Scheme item) "https"))
    "upstream scheme must be http or https".

#[global] Instance crud : Crud Upstream := {|
  crud_store := "upstreams store";
  crud_key := ID;
  crud_key_required := "upstream id is required";
  crud_exists := fun id => "upstream " ++ id ++ " already exists";
  crud_missing := fun id => "upstream " ++ id ++ " not found";
  crud_normalize := normalizeUpstream;
  crud_validate := validateUpstream;
  crud_stamp := fun c u x => MkUpstream (ID x) (SiteID x) (Host x) (Port x) (Scheme x) c u;
  crud_created := CreatedAt;
  crud_create_clash := no_clash;
  crud_update_clash := no_clash;
  crud_found_clash := no_clash
|}.

Definition sortUpstreams : list Upstream -> list Upstream := sort_items.
Definition Create : Upstream -> sop (items_state Upstream) Upstream := Crud.Create.
Definition List : sop (items_state Upstream) (list Upstream) := Crud.List.
Definition Update : Upstream -> sop (items_state Upstream) Upstream := Crud.Update.
Definition Delete : string -> sop (items_state Upstream) unit := Crud.Delete.
End Upstreams.

(** ** TLS configurations, keyed by their site *)
Module TLSConfigs.
Record TLSConfig := MkTLSConfig {
  SiteID : string;
  CertificateID : string;
  CreatedAt : string;
  UpdatedAt : string
}.

Definition normalizeTLSConfig (item : TLSConfig) : TLSConfig :=
  MkTLSConfig (normalize_id (SiteID item)) (normalize_id (CertificateID item)) (CreatedAt item) (UpdatedAt item).

Definition validateTLSConfig (item : TLSConfig) : result unit :=
  reject_if (is_empty (SiteID item)) "tls config site_id is required";;
  reject_if (is_empty (CertificateID item)) "tls config certificate_id is required".

#[global] Instance crud : Crud TLSConfig := {|
  crud_store := "tls configs store";
  crud_key := SiteID;
  crud_key_required := "tls config site_id is required";
  crud_exists := fun id => "tls config for site " ++ id ++ " already exists";
  crud_missing := fun id => "tls config for site " ++ id ++ " not found";
  crud_normalize := normalizeTLSConfig;
  crud_validate := validateTLSConfig;
  crud_stamp := fun c u x => MkTLSConfig (SiteID x) (CertificateID x) c u;
  crud_created := CreatedAt;
  crud_create_clash := no_clash;
  crud_update_clash := no_clash;
  crud_found_clash := no_clash
|}.

Definition sortTLSConfigs : list TLSConfig -> list TLSConfig := sort_items.
Definition Create : TLSConfig -> sop (items_state TLSConfig) TLSConfig := Crud.Create.
Definition List : sop (items_state TLSConfig) (list TLSConfig) := Crud.List.
Definition Update : TLSConfig -> sop (items_state TLSConfig) TLSConfig := Crud.Update.
Definition Delete : string -> sop (items_state TLSConfig) unit := Crud.Delete.
End TLSConfigs.

(** ** Access policies *)
Module AccessPolicies.
Record AccessPolicy := MkAccessPolicy {
  ID : string;
  SiteID : string;
  Enabled : bool;
  AllowList : list string;
  DenyList : list string;
  TrustedProxyCIDRs : list string;
  CreatedAt : string;
  UpdatedAt : string
}.

Definition normalizeCIDRList (values : list string) : list string := sorted_set trim_space values.

Definition normalizeAccessPolicy (item : AccessPolicy) : AccessPolicy :=
  MkAccessPolicy (normalize_id (ID item)) (normalize_id (SiteID item)) (Enabled item)
    (normalizeCIDRList (AllowList item)) (normalizeCIDRList (DenyList item))
    (normalizeCIDRList (TrustedProxyCIDRs item)) (CreatedAt item) (UpdatedAt item).

Definition validateCIDROrIP (value : string) : bool :=
  bool_decide (is_Some (ParseIP value)) || bool_decide (is_Some (ParseCIDR value)).

(** The loop over one of the lists; [field] is its name in the error. *)
Definition validateList (field : string) (values : list string) : result unit :=
  match List.find (fun value => negb (validateCIDROrIP value)) values with
  | Some value => Err ("access policy " ++ field ++ " contains invalid value " ++ quoted value)
  | None => Ok tt
  end.

Definition validateAccessPolicy (item : AccessPolicy) : result unit :=
  reject_if (is_empty (ID item)) "access policy id is required";;
  reject_if (is_empty (SiteID item)) "access policy site_id is required";;
  validateList "allowlist" (AllowList item);;
  validateList "denylist" (DenyList item);;
  validateList "trusted_proxy_cidrs" (TrustedProxyCIDRs item).

Definition isEasyCompatibilityPair (left right : AccessPolicy) : bool :=
  if negb (String.eqb (SiteID left) (SiteID right)) then false
  else
    let legacyID := "easy-" ++ SiteID left ++ "-access" in
    let primaryID := SiteID left ++ "-access" in
    (String.eqb (ID left) legacyID && String.eqb (ID right) primaryID) ||
    (String.eqb (ID left) primaryID && String.eqb (ID right) legacyID).

Definition site_taken (existing item : AccessPolicy) : option string :=
  if String.eqb (SiteID existing) (SiteID item) && negb (isEasyCompatibilityPair existing item)
  then Some ("access policy for site " ++ SiteID item ++ " already exists") else None.

#[global] Instance crud : Crud AccessPolicy := {|
  crud_store := "access policies store";
  crud_key := ID;
  crud_key_required := "access policy id is required";
  crud_exists := fun id => "access policy " ++ id ++ " already exists";
  crud_missing := fun id => "access policy " ++ id ++ " not found";
  crud_normalize := normalizeAccessPolicy;
  crud_validate := validateAccessPolicy;
  crud_stamp := fun c u x => MkAccessPolicy (ID x) (SiteID x) (Enabled x) (AllowList x) (DenyList x)
                               (TrustedProxyCIDRs x) c u;
  crud_created := CreatedAt;
  crud_create_clash := site_taken;
  crud_update_clash := fun existing item =>
    if String.eqb (ID existing) (ID item) then None else site_taken existing item;
  crud_found_clash := no_clash
|}.

Definition sortPolicies : list AccessPolicy -> list AccessPolicy := sort_items.
Definition Create : AccessPolicy -> sop (items_state AccessPolicy) AccessPolicy := Crud.Create.
Definition List : sop (items_state AccessPolicy) (list AccessPolicy) := Crud.List.
Definition Update : AccessPolicy -> sop (items_state AccessPolicy) AccessPolicy := Crud.Update.
Definition Delete : string -> sop (items_state AccessPolicy) unit := Crud.Delete.

(** One policy per site, or the two the easy profiles keep. *)
Definition apart (x y : AccessPolicy) : Prop := SiteID x <> SiteID y \/ isEasyCompatibilityPair x y = true.
End AccessPolicies.

(** ** Rate-limit policies *)
Module RateLimitPolicies.
Record Limits := MkLimits { RequestsPerSecond : Z; Burst : Z }.

Record RateLimitPolicy := MkRateLimitPolicy {
  ID : string;
  SiteID : string;
  Enabled : bool;
  PolicyLimits : Limits;
  CreatedAt : string;
  UpdatedAt : string
}.

Definition normalizeRateLimitPolicy (item : RateLimitPolicy) : RateLimitPolicy :=
  MkRateLimitPolicy (normalize_id (ID item)) (normalize_id (SiteID item)) (Enabled item) (PolicyLimits item)
    (CreatedAt item) (UpdatedAt item).

Definition validateRateLimitPolicy (item : RateLimitPolicy) : result unit :=
  reject_if (is_empty (ID item)) "rate limit policy id is required";;
  reject_if (is_empty (SiteID item)) "rate limit policy site_id is required";;
  if Enabled item then
    reject_if (RequestsPerSecond (PolicyLimits item) <=? 0)
      "rate limit policy requests_per_second must be greater than zero when enabled";;
    reject_if (Burst (PolicyLimits item) <? 0) "rate limit policy burst must be zero or greater"
  else
    reject_if (RequestsPerSecond (PolicyLimits item) <? 0)
      "rate limit policy requests_per_second must be zero or greater";;
    reject_if (Burst (PolicyLimits item) <? 0) "rate limit policy burst must be zero or greater".

Definition site_taken (existing item : RateLimitPolicy) : option string :=
  if String.eqb (SiteID existing) (SiteID item)
  then Some ("rate limit policy for site " ++ SiteID item ++ " already exists") else None.

#[global] Instance crud : Crud RateLimitPolicy := {|
  crud_store := "rate limit policies store";
  crud_key := ID;
  crud_key_required := "rate limit policy id is required";
  crud_exists := fun id => "rate limit policy " ++ id ++ " already exists";
  crud_missing := fun id => "rate limit policy " ++ id ++ " not found";
  crud_normalize := normalizeRateLimitPolicy;
  crud_validate := validateRateLimitPolicy;
  crud_stamp := fun c u x => MkRateLimitPolicy (ID x) (SiteID x) (Enabled x) (PolicyLimits x) c u;
  crud_created := CreatedAt;
  crud_create_clash := site_taken;
  crud_update_clash := fun existing item =>
    if String.eqb (ID existing) (ID item) then None else site_taken existing item;
  crud_found_clash := no_clash
|}.

Definition sortPolicies : list RateLimitPolicy -> list RateLimitPolicy := sort_items.
Definition Create : RateLimitPolicy -> sop (items_state RateLimitPolicy) RateLimitPolicy := Crud.Create.
Definition List : sop (items_state RateLimitPolicy) (list RateLimitPolicy) := Crud.List.
Definition Update : RateLimitPolicy -> sop (items_state RateLimitPolicy) RateLimitPolicy := Crud.Update.
Definition Delete : string -> sop (items_state RateLimitPolicy) unit := Crud.Delete.

Definition apart (x y : RateLimitPolicy) : Prop := SiteID x <> SiteID y.
End RateLimitPolicies.

(** ** WAF policies *)
Module WAFPolicies.
Definition ModeDetection : string := "detection".
Definition ModePrevention : string := "prevention".

Record RuleOverride := MkRuleOverride { RuleID : string; RuleEnabled : bool }.

Record WAFPolicy := MkWAFPolicy {
  ID : string;
  SiteID : string;
  Enabled : bool;
  Mode : string;
  CRSEnabled : bool;
  CustomRuleIncludes : list string;
  RuleOverrides : list RuleOverride;
  CreatedAt : string;
  UpdatedAt : string
}.

Definition normalizeOverride (override : RuleOverride) : RuleOverride :=
  MkRuleOverride (trim_space (RuleID override)) (RuleEnabled override).

Definition normalizeWAFPolicy (item : WAFPolicy) : WAFPolicy :=
  let includes := sorted_set trim_space (CustomRuleIncludes item) in
  let overrides := sort_on RuleID (normalizeOverride <$> RuleOverrides item) in
  MkWAFPolicy (normalize_id (ID item)) (normalize_id (SiteID item)) (Enabled item)
    (to_lower (trim_space (Mode item))) (CRSEnabled item) includes overrides (CreatedAt item) (UpdatedAt item).

Definition validateWAFPolicy (item : WAFPolicy) : result unit :=
  reject_if (is_empty (ID item)) "waf policy id is required";;
  reject_if (is_empty (SiteID item)) "waf policy site_id is required";;
  reject_if (Enabled item && negb (String.eqb (Mode item) ModeDetection || String.eqb (Mode item) ModePrevention))
    "waf policy mode must be detection or prevention";;
  reject_if (existsb is_blank (CustomRuleIncludes item))
    "waf policy custom_rule_includes must not contain empty values";;
  reject_if (existsb (fun override => is_blank (RuleID override)) (RuleOverrides item))
    "waf policy rule_overrides must define rule_id".

Definition site_taken (existing item : WAFPolicy) : option string :=
  if String.eqb (SiteID existing) (SiteID item)
  then Some ("waf policy for site " ++ SiteID item ++ " already exists") else None.

#[global] Instance crud : Crud WAFPolicy := {|
  crud_store := "waf policies store";
  crud_key := ID;
  crud_key_required := "waf policy id is required";
  crud_exists := fun id => "waf policy " ++ id ++ " already exists";
  crud_missing := fun id => "waf policy " ++ id ++ " not found";
  crud_normalize := normalizeWAFPolicy;
  crud_validate := validateWAFPolicy;
  crud_stamp := fun c u x => MkWAFPolicy (ID x) (SiteID x) (Enabled x) (Mode x) (CRSEnabled x)
                               (CustomRuleIncludes x) (RuleOverrides x) c u;
  crud_created := CreatedAt;
  crud_create_clash := site_taken;
  crud_update_clash := fun existing item =>
    if String.eqb (ID existing) (ID item) then None else site_taken existing item;
  crud_found_clash := no_clash
|}.

Definition sortPolicies : list WAFPolicy -> list WAFPolicy := sort_items.
Definition Create : WAFPolicy -> sop (items_state WAFPolicy) WAFPolicy := Crud.Create.
Definition List : sop (items_state WAFPolicy) (list WAFPolicy) := Crud.List.
Definition Update : WAFPolicy -> sop (items_state WAFPolicy) WAFPolicy := Crud.Update.
Definition Delete : string -> sop (items_state WAFPolicy) unit := Crud.Delete.

Definition apart (x y : WAFPolicy) : Prop := SiteID x <> SiteID y.
End WAFPolicies.

(** ** Certificate metadata *)
Module Certificates.
Record Certificate := MkCertificate {
  ID : string;
  CommonName : string;
  SANList : list string;
  NotBefore : string;
  NotAfter : string;
  Status : string;
  CreatedAt : string;
  UpdatedAt : string
}.

Definition normalizeCertificate (item : Certificate) : Certificate :=
  MkCertificate (normalize_id (ID item)) (trim_space (CommonName item)) (sorted_set trim_space (SANList item))
    (trim_space (NotBefore item)) (trim_space (NotAfter item)) (to_lower (trim_space (Status item)))
    (CreatedAt item) (UpdatedAt item).

Definition validateCertificateID (value : string) : result unit :=
  reject_if (is_empty value) "certificate id is required";;
  reject_if (String.eqb value "." || String.eqb value "..") "certificate id is invalid";;
  reject_if (contains ".." value) "certificate id must not contain '..'";;
  reject_if (contains "/" value || contains "\" value) "certificate id must not contain path separators";;
  reject_if (has_prefix "~" value || has_prefix ":" value) "certificate id is invalid";;
  reject_if (contains (String "000" "") value) "certificate id is invalid".

(** An empty bound is not checked. *)
Definition bad_time (value : string) : bool :=
  negb (is_empty value) && bool_decide (parse_rfc3339 value = None).

Definition validateCertificate (item : Certificate) : result unit :=
  reject_if (is_empty (ID item)) "certificate id is required";;
  validateCertificateID (ID item);;
  reject_if (is_empty (CommonName item)) "certificate common_name is required";;
  reject_if (negb (existsb (String.eqb (Status item)) ["active"; "inactive"; "expired"; "revoked"]))
    "certificate status must be active, inactive, expired, or revoked";;
  reject_if (bad_time (NotBefore item)) "certificate not_before must be RFC3339";;
  reject_if (bad_time (NotAfter item)) "certificate not_after must be RFC3339".

#[global] Instance crud : Crud Certificate := {|
  crud_store := "certificates store";
  crud_key := ID;
  crud_key_required := "certificate id is required";
  crud_exists := fun id => "certificate " ++ id ++ " already exists";
  crud_missing := fun id => "certificate " ++ id ++ " not found";
  crud_normalize := normalizeCertificate;
  crud_validate := validateCertificate;
  crud_stamp := fun c u x => MkCertificate (ID x) (CommonName x) (SANList x) (NotBefore x) (NotAfter x) (Status x) c u;
  crud_created := CreatedAt;
  crud_create_clash := no_clash;
  crud_update_clash := no_clash;
  crud_found_clash := no_clash
|}.

Definition sortCertificates : list Certificate -> list Certificate := sort_items.
Definition Create : Certificate -> sop (items_state Certificate) Certificate := Crud.Create.
Definition List : sop (items_state Certificate) (list Certificate) := Crud.List.
Definition Update : Certificate -> sop (items_state Certificate) Certificate := Crud.Update.
Definition Delete : string -> sop (items_state Certificate) unit := Crud.Delete.
End Certificates.

(** ** The promises kept *)
#[local] Arguments normalize_id : simpl never.
#[local] Arguments trim_space : simpl never.
#[local] Arguments to_lower : simpl never.
#[local] Arguments sorted_set : simpl never.
#[local] Arguments sort_on : simpl never.

Lemma lower_trim_idem s : to_lower (trim_space (to_lower (trim_space s))) = to_lower (trim_space s).
Proof. rewrite trim_space_lower, trim_space_idem. apply to_lower_idem. Qed.

Lemma taken_none (b : bool) msg : (if b then Some msg else None) = @None string -> b = false.
Proof. by destruct b. Qed.

Lemma first_check cond msg (r : result unit) : (reject_if cond msg;; r) = Ok tt -> cond = false /\ r = Ok tt.
Proof. unfold reject_if, mbind, result_bind. by destruct cond. Qed.

(** What differs between the entities: the key and normal form, and the clashes. *)
#[global, refine] Instance sites_laws : CrudLaws Sites.Site := {| crud_normal := normalized; crud_apart := Sites.apart |}.
Proof.
  all: try done.
  - intros [] Hv. apply first_check in Hv as [Hv _]. cbn in *. split; [apply normalize_id_idem | by apply is_empty_false].
  - intros []. unfold normalized. cbn. unfold Sites.normalizeSite. cbn. by rewrite normalize_id_idem, trim_space_idem.
  - intros c u []. unfold normalized. cbn. unfold Sites.normalizeSite. cbn. congruence.
  - intros x y. unfold Sites.apart. by rewrite equal_fold_sym.
  - intros x y _ Hc. by apply taken_none in Hc.
  - intros x y Hne _ Hc. cbn in *. apply String.eqb_neq in Hne. rewrite Hne in Hc. by apply taken_none in Hc.
Defined.

#[global, refine] Instance upstreams_laws : CrudLaws Upstreams.Upstream := {| crud_normal := normalized; crud_apart := fun _ _ => True |}.
Proof.
  all: try done.
  - intros [] Hv. apply first_check in Hv as [Hv _]. cbn in *. split; [apply normalize_id_idem | by apply is_empty_false].
  - intros []. unfold normalized. cbn. unfold Upstreams.normalizeUpstream. cbn.
    by rewrite !normalize_id_idem, trim_space_idem, lower_trim_idem.
  - intros c u []. unfold normalized. cbn. unfold Upstreams.normalizeUpstream. cbn. congruence.
Defined.

#[global, refine] Instance tlsconfigs_laws : CrudLaws TLSConfigs.TLSConfig := {| crud_normal := normalized; crud_apart := fun _ _ => True |}.
Proof.
  all: try done.
  - intros [] Hv. apply first_check in Hv as [Hv _]. cbn in *. split; [apply normalize_id_idem | by apply is_empty_false].
  - intros []. unfold normalized. cbn. unfold TLSConfigs.normalizeTLSConfig. cbn. by rewrite !normalize_id_idem.
  - intros c u []. unfold normalized. cbn. unfold TLSConfigs.normalizeTLSConfig. cbn. congruence.
Defined.

Lemma sorted_trim_idem l : sorted_set trim_space (sorted_set trim_space l) = sorted_set trim_space l.
Proof. apply sorted_set_idem, trim_space_idem. Qed.

Lemma easy_pair_sym x y :
  AccessPolicies.isEasyCompatibilityPair x y = true -> AccessPolicies.isEasyCompatibilityPair y x = true.
Proof.
  unfold AccessPolicies.isEasyCompatibilityPair. cbn zeta.
  destruct (String.eqb_spec (AccessPolicies.SiteID x) (AccessPolicies.SiteID y)) as [E|]; [|done]. cbn [negb].
  rewrite E, String.eqb_refl. cbn [negb]. rewrite !orb_true_iff, !andb_true_iff. tauto.
Qed.

Lemma access_apart x y : AccessPolicies.site_taken x y = None -> AccessPolicies.apart x y.
Proof.
  unfold AccessPolicies.site_taken, AccessPolicies.apart. intros Hc. apply taken_none, andb_false_iff in Hc as [Hc|Hc].
  - left. by apply String.eqb_neq.
  - right. by apply negb_false_iff.
Qed.

#[global, refine] Instance accesspolicies_laws : CrudLaws AccessPolicies.AccessPolicy :=
  {| crud_normal := normalized; crud_apart := AccessPolicies.apart |}.
Proof.
  all: try done.
  - intros [] Hv. apply first_check in Hv as [Hv _]. cbn in *. split; [apply normalize_id_idem | by apply is_empty_false].
  - intros []. unfold normalized. cbn. unfold AccessPolicies.normalizeAccessPolicy, AccessPolicies.normalizeCIDRList. cbn.
    by rewrite !normalize_id_idem, !sorted_trim_idem.
  - intros c u []. unfold normalized. cbn. unfold AccessPolicies.normalizeAccessPolicy. cbn. congruence.
  - intros x y [H|H]; [by left; apply not_eq_sym | by right; apply easy_pair_sym].
  - intros x y _. apply access_apart.
  - intros x y Hne Hc _. cbn in *. apply String.eqb_neq in Hne. rewrite Hne in Hc. by apply access_apart.
Defined.

#[global, refine] Instance ratelimitpolicies_laws : CrudLaws RateLimitPolicies.RateLimitPolicy :=
  {| crud_normal := normalized; crud_apart := RateLimitPolicies.apart |}.
Proof.
  all: try done.
  - intros [] Hv. apply first_check in Hv as [Hv _]. cbn in *. split; [apply normalize_id_idem | by apply is_empty_false].
  - intros []. unfold normalized. cbn. unfold RateLimitPolicies.normalizeRateLimitPolicy. cbn. by rewrite !normalize_id_idem.
  - intros c u []. unfold normalized. cbn. unfold RateLimitPolicies.normalizeRateLimitPolicy. cbn. congruence.
  - intros x y _ Hc. by apply taken_none, String.eqb_neq in Hc.
  - intros x y Hne Hc _. cbn in *. apply String.eqb_neq in Hne. rewrite Hne in Hc.
    by apply taken_none, String.eqb_neq in Hc.
Defined.

Lemma overrides_idem l :
  let normal := fun l => sort_on WAFPolicies.RuleID (WAFPolicies.normalizeOverride <$> l) in
  normal (normal l) = normal l.
Proof.
  cbv zeta beta. set (f := WAFPolicies.normalizeOverride).
  assert (Hf : f <$> sort_on WAFPolicies.RuleID (f <$> l) = sort_on WAFPolicies.RuleID (f <$> l)).
  { assert (Hall : Forall (fun x => f x = x) (sort_on WAFPolicies.RuleID (f <$> l))).
    { apply Forall_sort_on, Forall_fmap, Forall_true. intros []. unfold f, WAFPolicies.normalizeOverride. cbn.
      by rewrite trim_space_idem. }
    induction Hall as [|x r Hx _ IH]; [done|]. rewrite fmap_cons. by rewrite Hx, IH. }
  by rewrite Hf, sort_on_idem.
Qed.

#[global, refine] Instance wafpolicies_laws : CrudLaws WAFPolicies.WAFPolicy := {| crud_normal := normalized; crud_apart := WAFPolicies.apart |}.
Proof.
  all: try done.
  - intros [] Hv. apply first_check in Hv as [Hv _]. cbn in *. split; [apply normalize_id_idem | by apply is_empty_false].
  - intros []. unfold normalized. cbn. unfold WAFPolicies.normalizeWAFPolicy. cbn.
    rewrite !normalize_id_idem, sorted_trim_idem, lower_trim_idem. f_equal. apply overrides_idem.
  - intros c u []. unfold normalized. cbn. unfold WAFPolicies.normalizeWAFPolicy. cbn. congruence.
  - intros x y _ Hc. by apply taken_none, String.eqb_neq in Hc.
  - intros x y Hne Hc _. cbn in *. apply String.eqb_neq in Hne. rewrite Hne in Hc.
    by apply taken_none, String.eqb_neq in Hc.
Defined.

#[global, refine] Instance certificates_laws : CrudLaws Certificates.Certificate := {| crud_normal := normalized; crud_apart := fun _ _ => True |}.
Proof.
  all: try done.
  - intros [] Hv. apply first_check in Hv as [Hv _]. cbn in *. split; [apply normalize_id_idem | by apply is_empty_false].
  - intros []. unfold normalized. cbn. unfold Certificates.normalizeCertificate. cbn.
    by rewrite normalize_id_idem, !trim_space_idem, sorted_trim_idem, lower_trim_idem.
  - intros c u []. unfold normalized. cbn. unfold Certificates.normalizeCertificate. cbn. congruence.
Defined.

(** ** Properties *)

(** C16: Each of the seven configuration stores refines a map from keys to entities: over any
    sequence of creations, updates and deletions on a healthy backend, the calls that succeed are
    exactly those the map accepts (a free key and no clash, a known key, ...), and listing returns
    the values of the resulting map in the order of their keys. *)
Theorem config_stores_refine_maps :
  refines_map Sites.Site /\ refines_map Upstreams.Upstream /\ refines_map TLSConfigs.TLSConfig /\
  refines_map AccessPolicies.AccessPolicy /\ refines_map RateLimitPolicies.RateLimitPolicy /\
  refines_map WAFPolicies.WAFPolicy /\ refines_map Certificates.Certificate.
Proof. split_and!; apply store_refines_map. Qed.

(** Every reachable configuration document, whatever the clock and the backend failures, has
    unique sorted keys and only normalised, valid entities; no two sites share a host (up to
    case), no two rate-limit or WAF policies a site, and access policies share a site only as the
    legacy and primary policy of an easy profile. *)
Theorem config_stores_well_formed :
  well_formed_store normalized Sites.apart /\ well_formed_store (A := Upstreams.Upstream) normalized (fun _ _ => True) /\
  well_formed_store (A := TLSConfigs.TLSConfig) normalized (fun _ _ => True) /\
  well_formed_store normalized AccessPolicies.apart /\ well_formed_store normalized RateLimitPolicies.apart /\
  well_formed_store normalized WAFPolicies.apart /\
  well_formed_store (A := Certificates.Certificate) normalized (fun _ _ => True).
Proof.
  split_and!; [exact (store_well_formed (A := Sites.Site)) | exact (store_well_formed (A := Upstreams.Upstream))
  | exact (store_well_formed (A := TLSConfigs.TLSConfig)) | exact (store_well_formed (A := AccessPolicies.AccessPolicy))
  | exact (store_well_formed (A := RateLimitPolicies.RateLimitPolicy)) | exact (store_well_formed (A := WAFPolicies.WAFPolicy))
  | exact (store_well_formed (A := Certificates.Certificate))].
Qed.

(** ** Examples *)
Definition sample_site (id host : string) : Sites.Site := Sites.MkSite id host true "" "".

Example site_commands :
  (store_run [(1, CCreate (sample_site " Shop " "shop.example.org")); (2, CCreate (sample_site "shop2" "SHOP.example.org"));
              (3, CCreate (sample_site "blog" "blog.example.org")); (4, CUpdate (sample_site "BLOG" "shop.example.org"));
              (5, CDelete "Shop"); (6, CUpdate (sample_site "BLOG" "shop.example.org"))] new_file_state).1
  = [true; false; true; false; true; true].
Proof. vm_compute. reflexivity. Qed.

Definition sample_policy (id site : string) (deny : list string) : AccessPolicies.AccessPolicy :=
  AccessPolicies.MkAccessPolicy id site true [] deny [] "" "".

Example policy_commands :
  (store_run [(1, CCreate (sample_policy "shop-access" "shop" ["10.0.0.1"])); (2, CCreate (sample_policy "other" "shop" []));
              (3, CCreate (sample_policy "easy-shop-access" "shop" ["10.0.0.0/8"]));
              (4, CCreate (sample_policy "blog-access" "blog" ["10.0.0.0/40"]))] new_file_state).1
  = [true; false; true; false].
Proof. vm_compute. reflexivity. Qed.
