(* ===== verification/SiteProfiles.v ===== *)
(** * Site profiles (control-plane/internal/easysiteprofiles)

    The settings record of a site, its normal form and validation, the built-in presets and the
    store.  The file follows types.go, normalize_validate.go, auth_extended_helpers.go, presets.go
    and store.go; field names that several records share carry a prefix.  [regexp.Compile] and the
    environment variables are arguments. *)
From Stdlib Require Import ZArith Lia Ascii String QArith.
From stdpp Require Import base tactics strings list.
From S2P Require Import Prelude GoTime GoText GoNet GoSeq DocStore Crud.
Local Set Warnings "-clear-no-such-hyp".
Local Open Scope string_scope.
Local Open Scope Z_scope.
Local Notation "a +++ b" := (@app _ a b) (at level 60, right associativity).

(** ** Types (types.go) *)
Definition SecurityModeBlock : string := "block".
Definition SecurityModeMonitor : string := "monitor".
Definition SecurityModeTransparent : string := "transparent".

Definition ServiceProfileStrict : string := "strict".
Definition ServiceProfileBalanced : string := "balanced".
Definition ServiceProfileCompat : string := "compat".
Definition ServiceProfileAPI : string := "api".
Definition ServiceProfilePublicEdge : string := "public-edge".

Definition AntibotChallengeNo : string := "no".
Definition AntibotChallengeCookie : string := "cookie".
Definition AntibotChallengeJavascript : string := "javascript".
Definition AntibotChallengeCaptcha : string := "captcha".
Definition AntibotChallengeRecaptcha : string := "recaptcha".
Definition AntibotChallengeHcaptcha : string := "hcaptcha".
Definition AntibotChallengeTurnstile : string := "turnstile".
Definition AntibotChallengeMcaptcha : string := "mcaptcha".
Definition AuthModeBasic : string := "basic".
Definition AuthModeServiceToken : string := "service_token".
Definition AuthModeBasicOrToken : string := "basic_or_token".
Definition AuthOrderAuthFirst : string := "auth_first".
Definition AuthOrderAntibotFirst : string := "antibot_first".

Definition APIPositiveEnforcementMonitor : string := "monitor".
Definition APIPositiveEnforcementBlock : string := "block".
Definition APIPositiveDefaultActionAllow : string := "allow".
Definition APIPositiveDefaultActionDeny : string := "deny".

Record FrontServiceSettings := MkFront {
  ServerName : string;
  SecurityMode : string;
  Profile : string;
  AdaptiveModelEnabled : bool;
  AutoLetsEncrypt : bool;
  UseLetsEncryptStaging : bool;
  UseLetsEncryptWildcard : bool;
  CertificateAuthorityServer : string;
  ACMEAccountEmail : string;
  MTLSEnabled : bool;
  MTLSOptional : bool;
  MTLSVerifyDepth : Z;
  MTLSClientCARef : string;
  MTLSPassHeaders : bool
}.

Record UpstreamRoutingSettings := MkRouting {
  UseReverseProxy : bool;
  ReverseProxyHost : string;
  ReverseProxyURL : string;
  ReverseProxyCustomHost : string;
  ReverseProxySSLSNI : bool;
  ReverseProxySSLSNIName : string;
  ReverseProxyWebsocket : bool;
  ReverseProxyKeepalive : bool;
  DisableHostHeader : bool;
  DisableXForwardedFor : bool;
  HealthCheckEnabled : bool;
  HealthCheckPath : string;
  HealthCheckIntervalSeconds : Z;
  HealthCheckFailThreshold : Z;
  DisableXForwardedProto : bool;
  EnableXRealIP : bool;
  UpstreamMTLSEnabled : bool;
  UpstreamMTLSCertRef : string;
  UpstreamMTLSKeyRef : string;
  UpstreamMTLSCARef : string
}.

Record HTTPBehaviorSettings := MkBehavior {
  AllowedMethods : list string;
  MaxClientSize : string;
  HTTP2 : bool;
  HTTP3 : bool;
  SSLProtocols : list string;
  HttpStrictParsing : bool
}.

Record HTTPHeadersSettings := MkHeaders {
  CookieFlags : string;
  ContentSecurityPolicy : string;
  PermissionsPolicy : list string;
  KeepUpstreamHeaders : list string;
  ReferrerPolicy : string;
  HSTSEnabled : bool;
  HSTSMaxAgeSeconds : Z;
  HSTSIncludeSubdomains : bool;
  HSTSPreload : bool;
  UseCORS : bool;
  CORSAllowedOrigins : list string
}.

Record CustomLimitRule := MkLimitRule { cl_Path : string; cl_Rate : string }.

Record SecurityBehaviorAndLimitsSettings := MkLimits {
  UseBadBehavior : bool;
  BadBehaviorStatusCodes : list Z;
  BadBehaviorBanTimeSeconds : Z;
  BadBehaviorThreshold : Z;
  BadBehaviorCountTimeSeconds : Z;
  BanEscalationEnabled : bool;
  BanEscalationScope : string;
  BanEscalationStagesSeconds : list Z;
  UseBlacklist : bool;
  UseExceptions : bool;
  ExceptionsIP : list string;
  ExceptionsURI : list string;
  UseDNSBL : bool;
  AccessTrustedProxyCIDRs : list string;
  BlacklistIP : list string;
  BlacklistRDNS : list string;
  BlacklistASN : list string;
  BlacklistUserAgent : list string;
  BlacklistURI : list string;
  BlacklistJA3 : list string;
  BlacklistIPURLs : list string;
  BlacklistRDNSURLs : list string;
  BlacklistASNURLs : list string;
  BlacklistUserAgentURLs : list string;
  BlacklistURIURLs : list string;
  BlacklistJA3URLs : list string;
  UseLimitConn : bool;
  LimitConnMaxHTTP1 : Z;
  LimitConnMaxHTTP2 : Z;
  LimitConnMaxHTTP3 : Z;
  UseLimitReq : bool;
  LimitReqURL : string;
  LimitReqRate : string;
  CustomLimitRules : list CustomLimitRule
}.

Record AntibotExclusionRule := MkAntibotExclusion { ae_Path : string; ae_Methods : list string }.
Record AntibotChallengeRule := MkChallengeRule { ac_Path : string; ac_Challenge : string }.

(** The score is the value of the float64: JSON has neither infinities nor NaN. *)
Record SecurityAntibotSettings := MkAntibot {
  AntibotChallenge : string;
  AntibotChallengeTemplate : string;
  ab_SessionInactivityMinutes : Z;
  AntibotURI : string;
  ScannerAutoBanEnabled : bool;
  AntibotRecaptchaScore : Q;
  AntibotRecaptchaSitekey : string;
  AntibotRecaptchaSecret : string;
  AntibotHcaptchaSitekey : string;
  AntibotHcaptchaSecret : string;
  AntibotTurnstileSitekey : string;
  AntibotTurnstileSecret : string;
  ab_ExclusionRules : list AntibotExclusionRule;
  ChallengeEscalationEnabled : bool;
  ChallengeEscalationMode : string;
  ChallengeRules : list AntibotChallengeRule
}.

Record SecurityAuthUser := MkAuthUser {
  su_Username : string;
  su_Password : string;
  su_PasswordLength : Z;
  su_Enabled : bool;
  su_LastLoginAt : string
}.
Record SecurityAuthExclusionRule := MkAuthExclusion { ax_Path : string; ax_Methods : list string }.
Record SecurityAuthServiceToken := MkServiceToken {
  st_ServiceName : string;
  st_Token : string;
  st_Enabled : bool;
  st_LastUsedAt : string
}.

Record SecurityAuthBasicSettings := MkAuthBasic {
  UseAuthBasic : bool;
  AuthMode : string;
  AuthOrder : string;
  AuthBasicUser : string;
  AuthBasicPassword : string;
  AuthBasicTemplate : string;
  au_Users : list SecurityAuthUser;
  au_ExclusionRules : list SecurityAuthExclusionRule;
  ServiceTokens : list SecurityAuthServiceToken;
  au_SessionInactivityMinutes : Z
}.

Record GeoTimeWindow := MkGeoWindow {
  gw_Countries : list string;
  gw_Action : string;
  gw_DaysOfWeek : list Z;
  gw_HoursStart : Z;
  gw_HoursEnd : Z
}.

Record SecurityCountryPolicySettings := MkCountryPolicy {
  BlacklistCountry : list string;
  WhitelistCountry : list string;
  AllowLocalIPs : bool;
  ShowGeoBlockPage : bool;
  GeoTimeWindows : list GeoTimeWindow
}.

Record APIPositiveEndpointPolicy := MkEndpointPolicy {
  ep_Path : string;
  ep_Methods : list string;
  ep_TokenIDs : list string;
  ep_ContentTypes : list string;
  ep_Mode : string
}.

Record SecurityAPIPositiveSettings := MkAPIPositive {
  UseAPIPositiveSecurity : bool;
  OpenAPISchemaRef : string;
  EnforcementMode : string;
  DefaultAction : string;
  EndpointPolicies : list APIPositiveEndpointPolicy
}.

Record ModSecurityCustomConfiguration := MkCustomConfiguration { cc_Path : string; cc_Content : string }.

Record ModSecurityExclusionRule := MkModSecExclusion {
  mx_Path : string;
  mx_PathPattern : string;
  mx_Methods : list string;
  mx_MatchMode : string;
  mx_RuleIDs : list Z;
  mx_Targets : list string;
  mx_Comment : string
}.

Record SecurityWebSocketSettings := MkWebSocket {
  UseWSInspection : bool;
  WSBlockPatterns : list string;
  WSMaxMessageBytes : Z;
  WSRateMsgPerSec : Z
}.

Record SecurityModSecuritySettings := MkModSecurity {
  UseModSecurity : bool;
  UseModSecurityCRSPlugins : bool;
  UseCustomConfiguration : bool;
  ModSecurityCRSVersion : string;
  ModSecurityCRSPlugins : list string;
  ms_ExclusionRules : list ModSecurityExclusionRule;
  CustomConfiguration : ModSecurityCustomConfiguration
}.

Record VirtualPatchSettings := MkPatchSettings {
  vs_ID : string;
  vs_Pattern : string;
  vs_Target : string;
  vs_Action : string
}.

Record EasySiteProfile := MkProfile {
  SiteID : string;
  FrontService : FrontServiceSettings;
  UpstreamRouting : UpstreamRoutingSettings;
  HTTPBehavior : HTTPBehaviorSettings;
  HTTPHeaders : HTTPHeadersSettings;
  SecurityBehaviorAndLimits : SecurityBehaviorAndLimitsSettings;
  SecurityAntibot : SecurityAntibotSettings;
  SecurityAuthBasic : SecurityAuthBasicSettings;
  SecurityCountryPolicy : SecurityCountryPolicySettings;
  SecurityAPIPositive : SecurityAPIPositiveSettings;
  SecurityModSecurity : SecurityModSecuritySettings;
  SecurityWebSocket : SecurityWebSocketSettings;
  VirtualPatches : list VirtualPatchSettings;
  UseCustomErrorPages : bool;
  DisabledErrorPages : list string;
  CreatedAt : string;
  UpdatedAt : string
}.

(** ** Normal form (normalize_validate.go, auth_extended_helpers.go) *)
Definition normalizeTrimmedList (values : list string) : list string := sorted_set trim_space values.
Definition normalizeUpperList (values : list string) : list string := sorted_set upper_trim values.
Definition normalizeCountryList (values : list string) : list string := sorted_set upper_trim values.
Definition normalizePositiveIntList (values : list Z) : list Z := sorted_ints (List.filter (fun v => 0 <? v) values).
Definition normalizeStatusCodes (values : list Z) : list Z := sorted_ints values.
Definition joinInts (values : list Z) : string := join "," (itoa <$> values).

Definition default_to (fallback value : string) : string := if is_empty value then fallback else value.

Definition controlPlaneMethods : list string := ["GET"; "POST"; "HEAD"; "OPTIONS"; "PUT"; "PATCH"; "DELETE"].
Definition ensureControlPlaneAccessMethods (siteID : string) (methods : list string) : list string :=
  if String.eqb (normalize_id siteID) "control-plane-access"
  then sort_on id (remove_dups (methods +++ List.filter (fun m => negb (mem m methods)) controlPlaneMethods))
  else methods.

Definition migrateLegacyDisabledErrorPages (values : list string) : list string :=
  let items := normalizeTrimmedList values in
  if negb (mem "451" items) || mem "geo_block" items then items
  else normalizeTrimmedList (items +++ ["geo_block"]).

Definition normalizeLimitReqRate (value : string) : string :=
  let value := replace_char " " "" (lower_trim value) in
  if is_empty value then value
  else if has_suffix "r/s" value then value
  else match atoi value with
       | Some num => if 0 <? num then itoa num ++ "r/s" else value
       | None => value
       end.

(** Negative stages are dropped; the first permanent stage (0) is the last. *)
Fixpoint normalizeBanEscalationStages (values : list Z) : list Z :=
  match values with
  | [] => []
  | value :: rest =>
      if value <? 0 then normalizeBanEscalationStages rest
      else if value =? 0 then [value]
      else value :: normalizeBanEscalationStages rest
  end.

Definition limit_rule (value : CustomLimitRule) : CustomLimitRule :=
  MkLimitRule (trim_space (cl_Path value)) (normalizeLimitReqRate (cl_Rate value)).
Definition normalizeCustomLimitRules (values : list CustomLimitRule) : list CustomLimitRule :=
  sort_on (fun r => (cl_Path r, cl_Rate r))
    (dedupe_by (fun r => to_lower (cl_Path r) ++ nul ++ cl_Rate r) []
      (List.filter (fun r => negb (is_empty (cl_Path r)) && negb (is_empty (cl_Rate r))) (limit_rule <$> values))).

Definition challenge_rule (value : AntibotChallengeRule) : AntibotChallengeRule :=
  MkChallengeRule (trim_space (ac_Path value)) (lower_trim (ac_Challenge value)).
Definition normalizeAntibotChallengeRules (values : list AntibotChallengeRule) : list AntibotChallengeRule :=
  sort_on (fun r => (ac_Path r, ac_Challenge r))
    (dedupe_by (fun r => to_lower (ac_Path r) ++ nul ++ ac_Challenge r) []
      (List.filter (fun r => negb (is_empty (ac_Path r)) && negb (is_empty (ac_Challenge r))) (challenge_rule <$> values))).

(** No method, or the wildcard among others, is the wildcard. *)
Definition exclusion_methods (values : list string) : list string :=
  let methods := normalizeUpperList values in
  if (Nat.eqb (length methods) 0) || mem "*" methods then ["*"] else methods.

Definition antibot_exclusion (value : AntibotExclusionRule) : AntibotExclusionRule :=
  MkAntibotExclusion (trim_space (ae_Path value)) (exclusion_methods (ae_Methods value)).
Definition normalizeAntibotExclusionRules (values : list AntibotExclusionRule) : list AntibotExclusionRule :=
  sort_on (fun r => (ae_Path r, join "," (ae_Methods r)))
    (dedupe_by (fun r => to_lower (ae_Path r) ++ nul ++ join "," (ae_Methods r)) []
      (List.filter (fun r => negb (is_empty (ae_Path r))) (antibot_exclusion <$> values))).

Definition auth_exclusion (value : SecurityAuthExclusionRule) : SecurityAuthExclusionRule :=
  MkAuthExclusion (trim_space (ax_Path value)) (exclusion_methods (ax_Methods value)).
Definition normalizeAuthExclusionRules (values : list SecurityAuthExclusionRule) : list SecurityAuthExclusionRule :=
  sort_on (fun r => (ax_Path r, join "," (ax_Methods r)))
    (dedupe_by (fun r => to_lower (ax_Path r) ++ nul ++ join "," (ax_Methods r)) []
      (List.filter (fun r => negb (is_empty (ax_Path r))) (auth_exclusion <$> values))).

Definition auth_user (value : SecurityAuthUser) : SecurityAuthUser :=
  MkAuthUser (trim_space (su_Username value)) (trim_space (su_Password value)) 0 (su_Enabled value)
    (trim_space (su_LastLoginAt value)).
Definition normalizeAuthUsers (values : list SecurityAuthUser) : list SecurityAuthUser :=
  sort_on (fun u => to_lower (su_Username u))
    (dedupe_by (fun u => to_lower (su_Username u)) []
      (List.filter (fun u => negb (is_empty (su_Username u))) (auth_user <$> values))).

Definition service_token (value : SecurityAuthServiceToken) : SecurityAuthServiceToken :=
  MkServiceToken (trim_space (st_ServiceName value)) (trim_space (st_Token value)) (st_Enabled value)
    (trim_space (st_LastUsedAt value)).
Definition normalizeAuthServiceTokens (values : list SecurityAuthServiceToken) : list SecurityAuthServiceToken :=
  sort_on (fun t => to_lower (st_ServiceName t))
    (dedupe_by (fun t => to_lower (st_ServiceName t)) []
      (List.filter (fun t => negb (is_empty (st_ServiceName t))) (service_token <$> values))).

Definition hasEnabledUserWithPassword (values : list SecurityAuthUser) : bool :=
  existsb (fun value => su_Enabled value && negb (is_blank (su_Password value))) values.
Definition hasEnabledServiceToken (values : list SecurityAuthServiceToken) : bool :=
  existsb (fun value => st_Enabled value && negb (is_blank (st_Token value))) values.

Definition allowedAuthModes : list string := [AuthModeBasic; AuthModeServiceToken; AuthModeBasicOrToken].
Definition allowedAuthOrders : list string := [AuthOrderAuthFirst; AuthOrderAntibotFirst].
Definition normalizeAuthMode (value : string) : string :=
  let mode := lower_trim value in if mem mode allowedAuthModes then mode else AuthModeBasic.
Definition normalizeAuthOrder (value : string) : string :=
  let order := lower_trim value in if mem order allowedAuthOrders then order else AuthOrderAuthFirst.

(** The content types are lower-cased after they were sorted. *)
Definition endpoint_policy (value : APIPositiveEndpointPolicy) : APIPositiveEndpointPolicy :=
  MkEndpointPolicy (trim_space (ep_Path value)) (normalizeUpperList (ep_Methods value))
    (normalizeTrimmedList (ep_TokenIDs value)) (lower_trim <$> normalizeTrimmedList (ep_ContentTypes value))
    (lower_trim (ep_Mode value)).
Definition endpoint_key (p : APIPositiveEndpointPolicy) : string :=
  to_lower (ep_Path p) ++ nul ++ join "," (ep_Methods p) ++ nul ++ join "," (ep_TokenIDs p) ++ nul ++
  join "," (ep_ContentTypes p) ++ nul ++ ep_Mode p.
Definition normalizeAPIPositiveEndpointPolicies (values : list APIPositiveEndpointPolicy) : list APIPositiveEndpointPolicy :=
  sort_on (fun p => (ep_Path p, join "," (ep_Methods p)))
    (dedupe_by endpoint_key []
      (List.filter (fun p => negb (is_empty (ep_Path p))) (endpoint_policy <$> values))).

Definition modsec_exclusion (item : ModSecurityExclusionRule) : ModSecurityExclusionRule :=
  MkModSecExclusion (trim_space (mx_Path item)) (trim_space (mx_PathPattern item)) (exclusion_methods (mx_Methods item))
    (default_to "exact" (lower_trim (mx_MatchMode item))) (normalizePositiveIntList (mx_RuleIDs item))
    (normalizeTrimmedList (mx_Targets item)) (trim_space (mx_Comment item)).
Definition modsec_key (r : ModSecurityExclusionRule) : string :=
  to_lower (mx_Path r) ++ nul ++ mx_PathPattern r ++ nul ++ mx_MatchMode r ++ nul ++ join "," (mx_Methods r) ++ nul ++
  joinInts (mx_RuleIDs r) ++ nul ++ join "," (mx_Targets r).
Definition normalizeModSecurityExclusionRules (value : list ModSecurityExclusionRule) : list ModSecurityExclusionRule :=
  dedupe_by modsec_key [] (modsec_exclusion <$> value).

(** *** The sections of a profile *)
Definition normal_front (f : FrontServiceSettings) : FrontServiceSettings :=
  MkFront (lower_trim (ServerName f)) (lower_trim (SecurityMode f))
    (default_to ServiceProfileBalanced (lower_trim (Profile f))) (AdaptiveModelEnabled f) (AutoLetsEncrypt f)
    (UseLetsEncryptStaging f) (UseLetsEncryptWildcard f) (lower_trim (CertificateAuthorityServer f))
    (lower_trim (ACMEAccountEmail f)) (MTLSEnabled f) (MTLSOptional f) (MTLSVerifyDepth f) (MTLSClientCARef f)
    (MTLSPassHeaders f).

Definition normal_routing (r : UpstreamRoutingSettings) : UpstreamRoutingSettings :=
  MkRouting (UseReverseProxy r) (trim_space (ReverseProxyHost r)) (trim_space (ReverseProxyURL r))
    (trim_space (ReverseProxyCustomHost r)) (ReverseProxySSLSNI r) (trim_space (ReverseProxySSLSNIName r))
    (ReverseProxyWebsocket r) (ReverseProxyKeepalive r) (DisableHostHeader r) (DisableXForwardedFor r)
    (HealthCheckEnabled r) (HealthCheckPath r) (HealthCheckIntervalSeconds r) (HealthCheckFailThreshold r)
    (DisableXForwardedProto r) (EnableXRealIP r) (UpstreamMTLSEnabled r) (UpstreamMTLSCertRef r)
    (UpstreamMTLSKeyRef r) (UpstreamMTLSCARef r).

Definition normal_behavior (siteID : string) (b : HTTPBehaviorSettings) : HTTPBehaviorSettings :=
  MkBehavior (ensureControlPlaneAccessMethods siteID (normalizeUpperList (AllowedMethods b))) (lower_trim (MaxClientSize b))
    (HTTP2 b) (HTTP3 b) (normalizeTrimmedList (SSLProtocols b)) (HttpStrictParsing b).

Definition normal_max_age (seconds : Z) : Z :=
  let seconds := if seconds =? 0 then 15552000 else seconds in
  if seconds <? 0 then 0 else seconds.
Definition normal_headers (h : HTTPHeadersSettings) : HTTPHeadersSettings :=
  MkHeaders (trim_space (CookieFlags h)) (trim_space (ContentSecurityPolicy h)) (normalizeTrimmedList (PermissionsPolicy h))
    (normalizeTrimmedList (KeepUpstreamHeaders h)) (trim_space (ReferrerPolicy h)) (HSTSEnabled h)
    (normal_max_age (HSTSMaxAgeSeconds h)) (HSTSIncludeSubdomains h) (HSTSPreload h) (UseCORS h)
    (normalizeTrimmedList (CORSAllowedOrigins h)).

Definition normal_stages (stages : list Z) : list Z :=
  match normalizeBanEscalationStages stages with [] => [300; 86400; 0] | stages => stages end.
Definition normal_limits (l : SecurityBehaviorAndLimitsSettings) : SecurityBehaviorAndLimitsSettings :=
  MkLimits (UseBadBehavior l) (normalizeStatusCodes (BadBehaviorStatusCodes l)) (BadBehaviorBanTimeSeconds l)
    (BadBehaviorThreshold l) (BadBehaviorCountTimeSeconds l) (BanEscalationEnabled l)
    (default_to "all_sites" (lower_trim (BanEscalationScope l))) (normal_stages (BanEscalationStagesSeconds l))
    (UseBlacklist l) (UseExceptions l) (normalizeTrimmedList (ExceptionsIP l)) (ExceptionsURI l) (UseDNSBL l)
    (AccessTrustedProxyCIDRs l) (normalizeTrimmedList (BlacklistIP l)) (normalizeTrimmedList (BlacklistRDNS l))
    (normalizeTrimmedList (BlacklistASN l)) (normalizeTrimmedList (BlacklistUserAgent l))
    (normalizeTrimmedList (BlacklistURI l)) (BlacklistJA3 l) (normalizeTrimmedList (BlacklistIPURLs l))
    (normalizeTrimmedList (BlacklistRDNSURLs l)) (normalizeTrimmedList (BlacklistASNURLs l))
    (normalizeTrimmedList (BlacklistUserAgentURLs l)) (normalizeTrimmedList (BlacklistURIURLs l)) (BlacklistJA3URLs l)
    (UseLimitConn l) (LimitConnMaxHTTP1 l) (LimitConnMaxHTTP2 l) (LimitConnMaxHTTP3 l) (UseLimitReq l)
    (trim_space (LimitReqURL l)) (normalizeLimitReqRate (LimitReqRate l)) (normalizeCustomLimitRules (CustomLimitRules l)).

Definition normal_antibot (a : SecurityAntibotSettings) : SecurityAntibotSettings :=
  MkAntibot (default_to AntibotChallengeNo (lower_trim (AntibotChallenge a))) (AntibotChallengeTemplate a)
    (if ab_SessionInactivityMinutes a =? 0 then 10 else ab_SessionInactivityMinutes a) (trim_space (AntibotURI a))
    (ScannerAutoBanEnabled a) (AntibotRecaptchaScore a) (trim_space (AntibotRecaptchaSitekey a))
    (trim_space (AntibotRecaptchaSecret a)) (trim_space (AntibotHcaptchaSitekey a)) (trim_space (AntibotHcaptchaSecret a))
    (trim_space (AntibotTurnstileSitekey a)) (trim_space (AntibotTurnstileSecret a))
    (normalizeAntibotExclusionRules (ab_ExclusionRules a)) (ChallengeEscalationEnabled a)
    (default_to AntibotChallengeJavascript (lower_trim (ChallengeEscalationMode a)))
    (normalizeAntibotChallengeRules (ChallengeRules a)).

(** Without users, the single-user fields make one; without those fields, the first user fills them.
    The second replacement of [Users] in the code never applies: after the first one, an empty list
    means an empty [AuthBasicUser]. *)
Definition normal_auth (a : SecurityAuthBasicSettings) : SecurityAuthBasicSettings :=
  let user := trim_space (AuthBasicUser a) in
  let password := trim_space (AuthBasicPassword a) in
  let single := [MkAuthUser user password 0 true ""] in
  let users := normalizeAuthUsers (au_Users a) in
  let users := match users with [] => if is_empty user then users else single | _ => users end in
  let users :=
    match users with
    | [] => if UseAuthBasic a && negb (is_empty user) && negb (is_empty password) && negb (hasEnabledUserWithPassword users)
            then single else users
    | _ => users
    end in
  let user := match users with first :: _ => default_to (su_Username first) user | [] => user end in
  let password := match users with first :: _ => default_to (su_Password first) password | [] => password end in
  MkAuthBasic (UseAuthBasic a) (normalizeAuthMode (AuthMode a)) (normalizeAuthOrder (AuthOrder a)) user password
    (default_to "v1" (lower_trim (AuthBasicTemplate a))) users (normalizeAuthExclusionRules (au_ExclusionRules a))
    (normalizeAuthServiceTokens (ServiceTokens a))
    (if au_SessionInactivityMinutes a =? 0 then 60 else au_SessionInactivityMinutes a).

Definition normal_country (c : SecurityCountryPolicySettings) : SecurityCountryPolicySettings :=
  MkCountryPolicy (normalizeCountryList (BlacklistCountry c)) (normalizeCountryList (WhitelistCountry c)) (AllowLocalIPs c)
    (ShowGeoBlockPage c) (GeoTimeWindows c).

Definition normal_api (a : SecurityAPIPositiveSettings) : SecurityAPIPositiveSettings :=
  MkAPIPositive (UseAPIPositiveSecurity a) (trim_space (OpenAPISchemaRef a))
    (default_to APIPositiveEnforcementMonitor (lower_trim (EnforcementMode a)))
    (default_to APIPositiveDefaultActionAllow (lower_trim (DefaultAction a)))
    (normalizeAPIPositiveEndpointPolicies (EndpointPolicies a)).

Definition normal_modsec (m : SecurityModSecuritySettings) : SecurityModSecuritySettings :=
  MkModSecurity (UseModSecurity m) (UseModSecurityCRSPlugins m) (UseCustomConfiguration m)
    (trim_space (ModSecurityCRSVersion m)) (normalizeTrimmedList (ModSecurityCRSPlugins m))
    (normalizeModSecurityExclusionRules (ms_ExclusionRules m))
    (MkCustomConfiguration (trim_space (cc_Path (CustomConfiguration m))) (trim_space (cc_Content (CustomConfiguration m)))).

Definition normalizeProfile (p : EasySiteProfile) : EasySiteProfile :=
  let siteID := normalize_id (SiteID p) in
  MkProfile siteID (normal_front (FrontService p)) (normal_routing (UpstreamRouting p))
    (normal_behavior siteID (HTTPBehavior p)) (normal_headers (HTTPHeaders p))
    (normal_limits (SecurityBehaviorAndLimits p)) (normal_antibot (SecurityAntibot p)) (normal_auth (SecurityAuthBasic p))
    (normal_country (SecurityCountryPolicy p)) (normal_api (SecurityAPIPositive p)) (normal_modsec (SecurityModSecurity p))
    (SecurityWebSocket p) (VirtualPatches p) (UseCustomErrorPages p)
    (migrateLegacyDisabledErrorPages (DisabledErrorPages p)) (CreatedAt p) (UpdatedAt p).

(** ** Validation (normalize_validate.go) *)

(** [for _, x := range l { if err := f(x); err != nil { return err } }] *)
Fixpoint check_all {A} (f : A -> result unit) (l : list A) : result unit :=
  match l with [] => Ok tt | x :: rest => f x;; check_all f rest end.
(** The same with the index. *)
Fixpoint check_from {A} (i : Z) (f : Z -> A -> result unit) (l : list A) : result unit :=
  match l with [] => Ok tt | x :: rest => f i x;; check_from (i + 1) f rest end.

Definition allowedCountrySelectors : list string :=
  ["AF"; "AN"; "AS"; "EU"; "NA"; "OC"; "SA"; "APAC"; "EMEA"; "LATAM"; "DACH"; "CIS"; "GCC"; "NORAM"].
Definition isValidCountrySelector (value : string) : bool :=
  let value := upper_trim value in
  if is_empty value then false
  else if mem value allowedCountrySelectors then true
  else match value with String a (String b "") => is_upper a && is_upper b | _ => false end.

Definition isSafeHeaderValue (value : string) : bool :=
  let trimmed := trim_space value in
  if is_empty trimmed then true else match_header_value trimmed.

Definition isAllowedReferrerPolicy (value : string) : bool :=
  mem (lower_trim value) ["no-referrer"; "no-referrer-when-downgrade"; "same-origin"; "origin"; "strict-origin";
    "origin-when-cross-origin"; "strict-origin-when-cross-origin"; "unsafe-url"].

Definition isAllowedHTTPMethodOrWildcard (value : string) : bool :=
  mem (upper_trim value) ["*"; "GET"; "POST"; "HEAD"; "OPTIONS"; "PUT"; "PATCH"; "DELETE"].

Definition isValidModSecurityTarget (value : string) : bool :=
  let trimmed := trim_space value in
  if is_empty trimmed || contains_any (crlf ++ tab ++ dquote ++ "'") trimmed then false
  else
    match cut_at ":" trimmed with
    | None => mem (to_upper trimmed) ["REQUEST_URI"; "REQUEST_BODY"]
    | Some (collection, member) =>
        if is_blank member then false
        else mem (upper_trim collection) ["ARGS"; "ARGS_NAMES"; "REQUEST_HEADERS"; "REQUEST_HEADERS_NAMES";
               "REQUEST_COOKIES"; "REQUEST_COOKIES_NAMES"; "REQUEST_URI"; "REQUEST_BODY"; "XML"; "TX"]
    end.

Definition isValidIPOrCIDR (value : string) : bool :=
  let trimmed := trim_space value in
  if is_empty trimmed then false
  else bool_decide (is_Some (ParseIP trimmed)) || bool_decide (is_Some (ParseCIDR trimmed)).

Definition allowedBadBehaviorStatusCodes : list Z := [
  400; 401; 402; 403; 404; 405; 406; 407; 408; 409; 410; 411; 412; 413; 414; 415;
  416; 417; 418; 421; 422; 423; 424; 425; 426; 428; 429; 431; 444; 451; 494; 495;
  496; 497; 499; 500; 501; 506;
  502; 503; 504; 505; 507; 508; 510; 511; 520; 521; 522; 523; 524; 525; 526].
Definition isAllowedBadBehaviorStatusCode (code : Z) : bool := mem_int code allowedBadBehaviorStatusCodes.

Section Validation.
Context `{Regexps}.

(** Every message starts with the same words. *)
Definition refuse (cond : bool) (msg : string) : result unit := reject_if cond ("easy site profile " ++ msg).
Definition slash_path (value : string) : bool := negb (is_empty value) && has_prefix "/" value.

Definition validate_front (f : FrontServiceSettings) : result unit :=
  refuse (is_empty (ServerName f)) "front_service.server_name is required";;
  refuse (negb (mem (SecurityMode f) [SecurityModeBlock; SecurityModeMonitor; SecurityModeTransparent]))
    "front_service.security_mode must be block, monitor, or transparent";;
  refuse (negb (mem (Profile f) [ServiceProfileStrict; ServiceProfileBalanced; ServiceProfileCompat; ServiceProfileAPI;
    ServiceProfilePublicEdge])) "front_service.profile has unsupported value";;
  refuse (is_empty (CertificateAuthorityServer f)) "front_service.certificate_authority_server is required".

Definition validate_routing (r : UpstreamRoutingSettings) : result unit :=
  refuse (UseReverseProxy r && is_empty (ReverseProxyHost r))
    "upstream_routing.reverse_proxy_host is required when reverse proxy is enabled";;
  refuse (negb (slash_path (ReverseProxyURL r))) "upstream_routing.reverse_proxy_url must start with /".

Definition allowedMethods : list string := ["GET"; "POST"; "HEAD"; "OPTIONS"; "PUT"; "DELETE"; "PATCH"].
Definition validate_behavior (siteID : string) (b : HTTPBehaviorSettings) : result unit :=
  refuse (Nat.eqb (length (AllowedMethods b)) 0) "http_behavior.allowed_methods must not be empty";;
  check_all (fun m => refuse (negb (mem m allowedMethods)) ("http_behavior.allowed_methods contains unsupported method " ++ m))
    (AllowedMethods b);;
  (if String.eqb siteID "control-plane-access"
   then check_all (fun m => refuse (negb (mem m (AllowedMethods b)))
          ("http_behavior.allowed_methods must include " ++ m ++ " for control-plane-access")) controlPlaneMethods
   else Ok tt);;
  refuse (is_empty (MaxClientSize b)) "http_behavior.max_client_size is required".

(** The permanent stage must be the last one. *)
Fixpoint check_stages (stages : list Z) : result unit :=
  match stages with
  | [] => Ok tt
  | seconds :: rest =>
      refuse (seconds <? 0)
        "security_behavior_and_limits.ban_escalation_stages_seconds must contain zero or positive values";;
      if seconds =? 0
      then refuse (negb (Nat.eqb (length rest) 0))
             "security_behavior_and_limits.ban_escalation_stages_seconds permanent stage must be last"
      else check_stages rest
  end.

Definition validate_limits (l : SecurityBehaviorAndLimitsSettings) : result unit :=
  refuse (Nat.eqb (length (BadBehaviorStatusCodes l)) 0)
    "security_behavior_and_limits.bad_behavior_status_codes must not be empty";;
  check_all (fun code => refuse (negb (isAllowedBadBehaviorStatusCode code))
    ("security_behavior_and_limits.bad_behavior_status_codes contains unsupported code " ++ itoa code)) (BadBehaviorStatusCodes l);;
  refuse (BadBehaviorBanTimeSeconds l <? 0)
    "security_behavior_and_limits.bad_behavior_ban_time_seconds must be zero or positive";;
  refuse (BadBehaviorThreshold l <=? 0) "security_behavior_and_limits.bad_behavior_threshold must be positive";;
  refuse (BadBehaviorCountTimeSeconds l <=? 0)
    "security_behavior_and_limits.bad_behavior_count_time_seconds must be positive";;
  refuse (negb (mem (BanEscalationScope l) ["current_site"; "all_sites"]))
    "security_behavior_and_limits.ban_escalation_scope must be current_site or all_sites";;
  (if BanEscalationEnabled l then
     refuse (Nat.eqb (length (BanEscalationStagesSeconds l)) 0)
       "security_behavior_and_limits.ban_escalation_stages_seconds must not be empty when escalation is enabled";;
     refuse (12 <? Z.of_nat (length (BanEscalationStagesSeconds l)))
       "security_behavior_and_limits.ban_escalation_stages_seconds must not exceed 12 stages";;
     check_stages (BanEscalationStagesSeconds l)
   else Ok tt);;
  check_all (fun v => refuse (negb (isValidIPOrCIDR v))
    ("security_behavior_and_limits.exceptions_ip contains invalid value " ++ v)) (ExceptionsIP l);;
  check_all (fun v => refuse (negb (slash_path v))
    ("security_behavior_and_limits.exceptions_uri entry must start with /: " ++ v)) (ExceptionsURI l);;
  refuse ((LimitConnMaxHTTP1 l <=? 0) || (LimitConnMaxHTTP2 l <=? 0) || (LimitConnMaxHTTP3 l <=? 0))
    "security_behavior_and_limits limit_conn values must be positive";;
  refuse (negb (slash_path (LimitReqURL l))) "security_behavior_and_limits.limit_req_url must start with /";;
  refuse (negb (match_rate (LimitReqRate l))) "security_behavior_and_limits.limit_req_rate must match Nr/s or Nr/m";;
  refuse (32 <? Z.of_nat (length (CustomLimitRules l)))
    "security_behavior_and_limits.custom_limit_rules must not exceed 32 entries";;
  check_all (fun rule =>
    refuse (negb (slash_path (cl_Path rule))) "security_behavior_and_limits.custom_limit_rules.path must start with /";;
    refuse (negb (match_rate (cl_Rate rule))) "security_behavior_and_limits.custom_limit_rules.rate must match Nr/s or Nr/m")
    (CustomLimitRules l).

Definition antibotModes : list string := [
  AntibotChallengeNo; AntibotChallengeCookie; AntibotChallengeJavascript; AntibotChallengeCaptcha;
  AntibotChallengeRecaptcha; AntibotChallengeHcaptcha; AntibotChallengeTurnstile; AntibotChallengeMcaptcha].

(** The methods of an exclusion rule; [field] names the list in the message. *)
Definition check_methods (field : string) (methods : list string) : result unit :=
  refuse (Nat.eqb (length methods) 0) (field ++ ".methods must not be empty");;
  check_all (fun m =>
    if String.eqb m "*" then refuse (negb (Nat.eqb (length methods) 1)) (field ++ ".methods wildcard must be used alone")
    else refuse (negb (mem m allowedMethods)) (field ++ ".methods contains unsupported method " ++ m)) methods.

(** The keys a challenge service needs. *)
Definition check_keys (mode sitekey secret : string) (a : SecurityAntibotSettings) : result unit :=
  refuse (String.eqb (AntibotChallenge a) mode && (is_empty sitekey || is_empty secret))
    ("security_antibot " ++ mode ++ " mode requires sitekey and secret").

Definition validate_antibot (a : SecurityAntibotSettings) : result unit :=
  refuse (negb (mem (AntibotChallenge a) antibotModes)) "security_antibot.antibot_challenge has unsupported mode";;
  refuse (negb (String.eqb (AntibotChallenge a) AntibotChallengeNo) && negb (slash_path (AntibotURI a)))
    "security_antibot.antibot_uri must start with / when antibot is enabled";;
  refuse (negb (ab_SessionInactivityMinutes a =? -1) &&
          ((ab_SessionInactivityMinutes a <? 5) || (24 * 60 <? ab_SessionInactivityMinutes a)))
    "security_antibot.session_inactivity_minutes must be -1 or between 5 and 1440";;
  refuse (negb (Qle_bool 0 (AntibotRecaptchaScore a)) || negb (Qle_bool (AntibotRecaptchaScore a) 1))
    "security_antibot.antibot_recaptcha_score must be between 0 and 1";;
  check_keys AntibotChallengeRecaptcha (AntibotRecaptchaSitekey a) (AntibotRecaptchaSecret a) a;;
  check_keys AntibotChallengeHcaptcha (AntibotHcaptchaSitekey a) (AntibotHcaptchaSecret a) a;;
  check_keys AntibotChallengeTurnstile (AntibotTurnstileSitekey a) (AntibotTurnstileSecret a) a;;
  refuse (32 <? Z.of_nat (length (ab_ExclusionRules a))) "security_antibot.exclusion_rules must not exceed 32 entries";;
  check_all (fun rule =>
    refuse (negb (slash_path (ae_Path rule))) "security_antibot.exclusion_rules.path must start with /";;
    check_methods "security_antibot.exclusion_rules" (ae_Methods rule)) (ab_ExclusionRules a);;
  refuse (ChallengeEscalationEnabled a && (String.eqb (ChallengeEscalationMode a) AntibotChallengeNo ||
          negb (mem (ChallengeEscalationMode a) antibotModes)))
    "security_antibot.challenge_escalation_mode has unsupported mode";;
  refuse (32 <? Z.of_nat (length (ChallengeRules a))) "security_antibot.challenge_rules must not exceed 32 entries";;
  check_all (fun rule =>
    refuse (negb (slash_path (ac_Path rule))) "security_antibot.challenge_rules.path must start with /";;
    refuse (negb (mem (ac_Challenge rule) antibotModes)) "security_antibot.challenge_rules.challenge has unsupported mode")
    (ChallengeRules a).

Definition validate_auth (a : SecurityAuthBasicSettings) : result unit :=
  let basic := UseAuthBasic a && negb (String.eqb (AuthMode a) AuthModeServiceToken) in
  refuse (negb (mem (AuthMode a) allowedAuthModes)) "security_auth_basic.auth_mode has unsupported value";;
  refuse (negb (mem (AuthOrder a) allowedAuthOrders)) "security_auth_basic.auth_order has unsupported value";;
  refuse (basic && is_empty (AuthBasicUser a))
    "security_auth_basic.auth_basic_user is required when basic auth mode is enabled";;
  refuse (basic && is_empty (AuthBasicPassword a))
    "security_auth_basic.auth_basic_password is required when basic auth mode is enabled";;
  refuse (negb (mem (AuthBasicTemplate a) ["v1"; "v2"; "v3"; "v4"; "v5"; "v6"; "v7"; "v8"; "v9"]))
    "security_auth_basic.auth_basic_template has unsupported value";;
  refuse ((au_SessionInactivityMinutes a <? -1) || (24 * 60 <? au_SessionInactivityMinutes a))
    "security_auth_basic.session_inactivity_minutes must be between -1 and 1440";;
  refuse (128 <? Z.of_nat (length (au_Users a))) "security_auth_basic.users must not exceed 128 entries";;
  refuse (128 <? Z.of_nat (length (ServiceTokens a))) "security_auth_basic.service_tokens must not exceed 128 entries";;
  (if UseAuthBasic a then
     check_all (fun user => refuse (su_Enabled user && is_blank (su_Password user))
       "security_auth_basic.users.password is required for enabled users") (au_Users a);;
     refuse (basic && negb (existsb su_Enabled (au_Users a)))
       "security_auth_basic.users must include at least one enabled user";;
     refuse (negb (String.eqb (AuthMode a) AuthModeBasic) && negb (hasEnabledServiceToken (ServiceTokens a)))
       "security_auth_basic.service_tokens must include at least one enabled token"
   else Ok tt);;
  refuse (32 <? Z.of_nat (length (au_ExclusionRules a))) "security_auth_basic.exclusion_rules must not exceed 32 entries";;
  check_all (fun rule =>
    refuse (negb (slash_path (ax_Path rule))) "security_auth_basic.exclusion_rules.path must start with /";;
    check_methods "security_auth_basic.exclusion_rules" (ax_Methods rule)) (au_ExclusionRules a);;
  check_all (fun token =>
    if negb (st_Enabled token) then Ok tt
    else
      refuse (is_blank (st_Token token)) "security_auth_basic.service_tokens.token is required for enabled tokens";;
      refuse (contains_any ("|" ++ crlf ++ tab ++ " ") (st_ServiceName token))
        "security_auth_basic.service_tokens.service_name contains unsupported characters";;
      refuse (contains_any ("|" ++ crlf ++ tab) (st_Token token))
        "security_auth_basic.service_tokens.token contains unsupported characters") (ServiceTokens a).

Definition validate_headers (h : HTTPHeadersSettings) : result unit :=
  (if is_empty (ReferrerPolicy h) then Ok tt
   else
     refuse (negb (isAllowedReferrerPolicy (ReferrerPolicy h))) "http_headers.referrer_policy contains unsupported value";;
     refuse (negb (isSafeHeaderValue (ReferrerPolicy h))) "http_headers.referrer_policy contains unsupported characters");;
  refuse (negb (is_empty (ContentSecurityPolicy h)) && negb (isSafeHeaderValue (ContentSecurityPolicy h)))
    "http_headers.content_security_policy contains unsupported characters";;
  check_all (fun item => refuse (negb (match_cors_origin (lower_trim item)))
    ("http_headers.cors_allowed_origins contains invalid origin " ++ item)) (CORSAllowedOrigins h);;
  check_all (fun item => refuse (negb (isSafeHeaderValue item))
    "http_headers.permissions_policy contains unsupported characters") (PermissionsPolicy h);;
  refuse (HSTSMaxAgeSeconds h <? 0) "http_headers.hsts_max_age_seconds must be zero or positive";;
  refuse (HSTSIncludeSubdomains h && negb (HSTSEnabled h)) "http_headers.hsts_include_subdomains requires hsts_enabled";;
  refuse (HSTSPreload h && negb (HSTSEnabled h)) "http_headers.hsts_preload requires hsts_enabled";;
  refuse (HSTSPreload h && negb (HSTSIncludeSubdomains h)) "http_headers.hsts_preload requires hsts_include_subdomains";;
  refuse (HSTSEnabled h && (HSTSMaxAgeSeconds h <=? 0))
    "http_headers.hsts_max_age_seconds must be positive when hsts_enabled is true";;
  refuse (HSTSPreload h && (HSTSMaxAgeSeconds h <? 31536000))
    "http_headers.hsts_max_age_seconds must be at least 31536000 when hsts_preload is true".

Definition validate_proxy_hosts (r : UpstreamRoutingSettings) : result unit :=
  refuse (negb (is_empty (ReverseProxyCustomHost r)) && negb (match_host_header (trim_space (ReverseProxyCustomHost r))))
    "upstream_routing.reverse_proxy_custom_host must be host or host:port";;
  refuse (negb (is_empty (ReverseProxySSLSNIName r)) && negb (match_host_header (trim_space (ReverseProxySSLSNIName r))))
    "upstream_routing.reverse_proxy_ssl_sni_name must be host or host:port".

Definition validate_country (c : SecurityCountryPolicySettings) : result unit :=
  check_all (fun v => refuse (negb (isValidCountrySelector v))
    ("security_country_policy.blacklist_country contains unsupported value " ++ v)) (BlacklistCountry c);;
  check_all (fun v => refuse (negb (isValidCountrySelector v))
    ("security_country_policy.whitelist_country contains unsupported value " ++ v)) (WhitelistCountry c);;
  check_all (fun v => refuse (mem v (BlacklistCountry c))
    ("security_country_policy contains conflicting value " ++ v ++ " in blacklist and whitelist")) (WhitelistCountry c).

Definition api_modes : list string := [APIPositiveEnforcementMonitor; APIPositiveEnforcementBlock].
Definition validate_api (a : SecurityAPIPositiveSettings) : result unit :=
  refuse (negb (mem (EnforcementMode a) api_modes)) "security_api_positive.enforcement_mode must be monitor or block";;
  refuse (negb (mem (DefaultAction a) [APIPositiveDefaultActionAllow; APIPositiveDefaultActionDeny]))
    "security_api_positive.default_action must be allow or deny";;
  if UseAPIPositiveSecurity a then
    refuse (is_empty (OpenAPISchemaRef a) && Nat.eqb (length (EndpointPolicies a)) 0)
      "security_api_positive requires openapi_schema_ref or endpoint_policies when enabled";;
    check_all (fun policy =>
      refuse (negb (slash_path (ep_Path policy))) "security_api_positive.endpoint_policies.path must start with /";;
      refuse (negb (is_empty (ep_Mode policy)) && negb (mem (ep_Mode policy) api_modes))
        "security_api_positive.endpoint_policies.mode must be monitor or block") (EndpointPolicies a)
  else Ok tt.

(** The rule at index [idx] of the exclusion rules. *)
Definition check_modsec_rule (idx : Z) (rule : ModSecurityExclusionRule) : result unit :=
  let at_rule msg := "security_modsecurity.exclusion_rules[" ++ itoa idx ++ "]" ++ msg in
  refuse (is_empty (mx_Path rule) && is_empty (mx_PathPattern rule)) (at_rule " requires path or path_pattern");;
  refuse (negb (is_empty (mx_Path rule)) && negb (has_prefix "/" (mx_Path rule))) (at_rule ".path must start with /");;
  (if is_empty (mx_PathPattern rule) then Ok tt
   else match regexp_error (mx_PathPattern rule) with
        | Some err => refuse true (at_rule (".path_pattern must be valid regexp: " ++ err))
        | None => Ok tt
        end);;
  refuse (negb (mem (mx_MatchMode rule) ["exact"; "prefix"; "regex"])) (at_rule ".mode must be exact, prefix, or regex");;
  refuse (Nat.eqb (length (mx_Methods rule)) 0) (at_rule ".methods must not be empty");;
  check_all (fun m => refuse (negb (isAllowedHTTPMethodOrWildcard m)) (at_rule (".methods contains unsupported method " ++ m)))
    (mx_Methods rule);;
  refuse (Nat.eqb (length (mx_RuleIDs rule)) 0) (at_rule ".rule_ids must not be empty");;
  check_all (fun id => refuse ((id <? 1) || (999999999 <? id)) (at_rule (".rule_ids contains invalid id " ++ itoa id)))
    (mx_RuleIDs rule);;
  check_all (fun t => refuse (negb (isValidModSecurityTarget t)) (at_rule (".targets contains invalid target " ++ t)))
    (mx_Targets rule).

(** A relative path below modsec/. *)
Definition under_modsec (path : string) : bool :=
  negb (contains ".." path || has_char "\" path || negb (has_prefix "modsec/" path)).

Definition validate_modsec (m : SecurityModSecuritySettings) : result unit :=
  refuse (is_empty (ModSecurityCRSVersion m)) "security_modsecurity.modsecurity_crs_version is required";;
  (if UseCustomConfiguration m then
     refuse (is_empty (cc_Path (CustomConfiguration m)))
       "security_modsecurity.custom_configuration.path is required when custom configuration is enabled";;
     refuse (negb (under_modsec (cc_Path (CustomConfiguration m))))
       "security_modsecurity.custom_configuration.path must stay under modsec/"
   else Ok tt);;
  refuse (negb (match_crs_version (ModSecurityCRSVersion m))) "security_modsecurity.modsecurity_crs_version must be numeric";;
  refuse (64 <? Z.of_nat (length (ms_ExclusionRules m))) "security_modsecurity.exclusion_rules supports at most 64 rules";;
  check_from 0 check_modsec_rule (ms_ExclusionRules m).

Definition validateProfile (p : EasySiteProfile) : result unit :=
  refuse (is_empty (SiteID p)) "site_id is required";;
  validate_front (FrontService p);;
  validate_routing (UpstreamRouting p);;
  validate_behavior (SiteID p) (HTTPBehavior p);;
  validate_limits (SecurityBehaviorAndLimits p);;
  validate_antibot (SecurityAntibot p);;
  validate_auth (SecurityAuthBasic p);;
  validate_headers (HTTPHeaders p);;
  validate_proxy_hosts (UpstreamRouting p);;
  validate_country (SecurityCountryPolicy p);;
  validate_api (SecurityAPIPositive p);;
  validate_modsec (SecurityModSecurity p).
End Validation.

(** ** The default profile (types.go) *)
Section Defaults.
Context `{Environment}.

Definition envIntOrDefault (key : string) (fallback : Z) : Z :=
  let raw := trim_space (Getenv key) in
  if is_empty raw then fallback
  else match atoi raw with Some value => if value <=? 0 then fallback else value | None => fallback end.

Definition envStringOrDefault (key fallback : string) : string :=
  let raw := trim_space (Getenv key) in if is_empty raw then fallback else raw.

Definition parseRatePerSecond (value : string) : Z :=
  let value := trim_suffix "r/s" (replace_char " " "" (lower_trim value)) in
  match atoi value with Some parsed => if parsed <=? 0 then 0 else parsed | None => 0 end.

Definition is_management_site (siteID : string) : bool :=
  let managementSiteID := normalize_id (trim_space (Getenv "CONTROL_PLANE_DEV_FAST_START_MANAGEMENT_SITE_ID")) in
  let id := normalize_id siteID in
  mem id ["control-plane-access"; "control-plane"; "ui"] ||
  (negb (is_empty managementSiteID) && String.eqb id managementSiteID).

Definition default_status_codes : list Z := [400; 401; 405; 444].
Definition management_limit_rules : list CustomLimitRule := [
  MkLimitRule "/login" "30r/s"; MkLimitRule "/static/" "1200r/s"; MkLimitRule "/api/auth/" "120r/s";
  MkLimitRule "/api/setup/" "80r/s"; MkLimitRule "/api/events" "80r/s"; MkLimitRule "/api/requests" "80r/s";
  MkLimitRule "/api/reports/" "100r/s"; MkLimitRule "/api/" "180r/s"].

Definition DefaultProfile (siteID : string) : EasySiteProfile :=
  let management := is_management_site siteID in
  let at_least (floor value : Z) := if management && (value <? floor) then floor else value in
  let banSeconds := envIntOrDefault "WAF_DEFAULT_BAD_BEHAVIOR_BAN_TIME_SECONDS" 300 in
  let threshold := at_least 100 (envIntOrDefault "WAF_DEFAULT_BAD_BEHAVIOR_THRESHOLD" 120) in
  let periodSeconds := at_least 60 (envIntOrDefault "WAF_DEFAULT_BAD_BEHAVIOR_COUNT_TIME_SECONDS" 120) in
  let http1 := at_least 300 (envIntOrDefault "WAF_DEFAULT_LIMIT_CONN_MAX_HTTP1" 200) in
  let http2 := at_least 500 (envIntOrDefault "WAF_DEFAULT_LIMIT_CONN_MAX_HTTP2" 400) in
  let http3 := at_least 500 (envIntOrDefault "WAF_DEFAULT_LIMIT_CONN_MAX_HTTP3" 400) in
  let limitReqRate := envStringOrDefault "WAF_DEFAULT_LIMIT_REQ_RATE" "120r/s" in
  let limitReqRate :=
    if management then
      let rate := normalizeLimitReqRate limitReqRate in
      if parseRatePerSecond rate <? 600 then "600r/s" else rate
    else limitReqRate in
  {| SiteID := siteID;
     FrontService := MkFront siteID (if management then SecurityModeTransparent else SecurityModeBlock)
       ServiceProfileBalanced management true false false "letsencrypt" "" false false 2 "" false;
     UpstreamRouting := MkRouting true "http://upstream-server:8080" "/" "" false "" true true false false false "" 0 0
       false false false "" "" "";
     HTTPBehavior := MkBehavior ["GET"; "POST"; "HEAD"; "OPTIONS"; "PUT"; "PATCH"; "DELETE"] "100m" true false ["TLSv1.2"; "TLSv1.3"] false;
     HTTPHeaders := MkHeaders "* SameSite=Lax" "" [] ["*"] "no-referrer-when-downgrade" true 15552000 false false false ["*"];
     SecurityBehaviorAndLimits := MkLimits true default_status_codes banSeconds threshold periodSeconds false "all_sites"
       [300; 86400; 0] false false [] [] false [] [] [] [] [] [] [] [] [] [] [] [] [] true http1 http2 http3 true
       (if management then "/api/" else "/") limitReqRate (if management then management_limit_rules else []);
     SecurityAntibot := MkAntibot AntibotChallengeNo "" 10 "/challenge" false (7 # 10) "" "" "" "" "" "" [] false
       AntibotChallengeJavascript [];
     SecurityAuthBasic := MkAuthBasic false AuthModeBasic AuthOrderAuthFirst "changeme" "" "v1"
       [MkAuthUser "changeme" "" 0 true ""] [] [] 60;
     SecurityCountryPolicy := MkCountryPolicy [] [] false false [];
     SecurityAPIPositive := MkAPIPositive false "" APIPositiveEnforcementMonitor APIPositiveDefaultActionAllow [];
     SecurityModSecurity := MkModSecurity (negb management) (negb management) false "4" [] []
       (MkCustomConfiguration "modsec/anomaly_score.conf" "");
     SecurityWebSocket := MkWebSocket false [] 0 0;
     VirtualPatches := [];
     UseCustomErrorPages := true;
     DisabledErrorPages := [];
     CreatedAt := "";
     UpdatedAt := "" |}.
End Defaults.

(** ** Presets (presets.go) *)

(** What a preset changes among the limits. *)
Definition with_bad_behavior (codes : list Z) (threshold period ban : Z) (l : SecurityBehaviorAndLimitsSettings) :=
  MkLimits true codes ban threshold period (BanEscalationEnabled l) (BanEscalationScope l) (BanEscalationStagesSeconds l)
    (UseBlacklist l) (UseExceptions l) (ExceptionsIP l) (ExceptionsURI l) (UseDNSBL l) (AccessTrustedProxyCIDRs l)
    (BlacklistIP l) (BlacklistRDNS l) (BlacklistASN l) (BlacklistUserAgent l) (BlacklistURI l) (BlacklistJA3 l)
    (BlacklistIPURLs l) (BlacklistRDNSURLs l) (BlacklistASNURLs l) (BlacklistUserAgentURLs l) (BlacklistURIURLs l)
    (BlacklistJA3URLs l) (UseLimitConn l) (LimitConnMaxHTTP1 l) (LimitConnMaxHTTP2 l) (LimitConnMaxHTTP3 l)
    (UseLimitReq l) (LimitReqURL l) (LimitReqRate l) (CustomLimitRules l).
Definition with_flags (bad_behavior blacklist dnsbl limit_conn limit_req : bool) (l : SecurityBehaviorAndLimitsSettings) :=
  MkLimits bad_behavior (BadBehaviorStatusCodes l) (BadBehaviorBanTimeSeconds l) (BadBehaviorThreshold l)
    (BadBehaviorCountTimeSeconds l) (BanEscalationEnabled l) (BanEscalationScope l) (BanEscalationStagesSeconds l)
    blacklist (UseExceptions l) (ExceptionsIP l) (ExceptionsURI l) dnsbl (AccessTrustedProxyCIDRs l)
    (BlacklistIP l) (BlacklistRDNS l) (BlacklistASN l) (BlacklistUserAgent l) (BlacklistURI l) (BlacklistJA3 l)
    (BlacklistIPURLs l) (BlacklistRDNSURLs l) (BlacklistASNURLs l) (BlacklistUserAgentURLs l) (BlacklistURIURLs l)
    (BlacklistJA3URLs l) limit_conn (LimitConnMaxHTTP1 l) (LimitConnMaxHTTP2 l) (LimitConnMaxHTTP3 l)
    limit_req (LimitReqURL l) (LimitReqRate l) (CustomLimitRules l).
Definition with_rate (url rate : string) (l : SecurityBehaviorAndLimitsSettings) :=
  MkLimits (UseBadBehavior l) (BadBehaviorStatusCodes l) (BadBehaviorBanTimeSeconds l) (BadBehaviorThreshold l)
    (BadBehaviorCountTimeSeconds l) (BanEscalationEnabled l) (BanEscalationScope l) (BanEscalationStagesSeconds l)
    (UseBlacklist l) (UseExceptions l) (ExceptionsIP l) (ExceptionsURI l) (UseDNSBL l) (AccessTrustedProxyCIDRs l)
    (BlacklistIP l) (BlacklistRDNS l) (BlacklistASN l) (BlacklistUserAgent l) (BlacklistURI l) (BlacklistJA3 l)
    (BlacklistIPURLs l) (BlacklistRDNSURLs l) (BlacklistASNURLs l) (BlacklistUserAgentURLs l) (BlacklistURIURLs l)
    (BlacklistJA3URLs l) (UseLimitConn l) (LimitConnMaxHTTP1 l) (LimitConnMaxHTTP2 l) (LimitConnMaxHTTP3 l)
    true url rate (CustomLimitRules l).
Definition with_conn (http1 http2 http3 : Z) (l : SecurityBehaviorAndLimitsSettings) :=
  MkLimits (UseBadBehavior l) (BadBehaviorStatusCodes l) (BadBehaviorBanTimeSeconds l) (BadBehaviorThreshold l)
    (BadBehaviorCountTimeSeconds l) (BanEscalationEnabled l) (BanEscalationScope l) (BanEscalationStagesSeconds l)
    (UseBlacklist l) (UseExceptions l) (ExceptionsIP l) (ExceptionsURI l) (UseDNSBL l) (AccessTrustedProxyCIDRs l)
    (BlacklistIP l) (BlacklistRDNS l) (BlacklistASN l) (BlacklistUserAgent l) (BlacklistURI l) (BlacklistJA3 l)
    (BlacklistIPURLs l) (BlacklistRDNSURLs l) (BlacklistASNURLs l) (BlacklistUserAgentURLs l) (BlacklistURIURLs l)
    (BlacklistJA3URLs l) true http1 http2 http3 (UseLimitReq l) (LimitReqURL l) (LimitReqRate l) (CustomLimitRules l).

Definition with_front (mode profile : string) (f : FrontServiceSettings) : FrontServiceSettings :=
  MkFront (ServerName f) mode profile (AdaptiveModelEnabled f) (AutoLetsEncrypt f) (UseLetsEncryptStaging f)
    (UseLetsEncryptWildcard f) (CertificateAuthorityServer f) (ACMEAccountEmail f) (MTLSEnabled f) (MTLSOptional f)
    (MTLSVerifyDepth f) (MTLSClientCARef f) (MTLSPassHeaders f).
Definition with_challenge (mode : string) (a : SecurityAntibotSettings) : SecurityAntibotSettings :=
  MkAntibot mode (AntibotChallengeTemplate a) (ab_SessionInactivityMinutes a) (AntibotURI a) (ScannerAutoBanEnabled a)
    (AntibotRecaptchaScore a) (AntibotRecaptchaSitekey a) (AntibotRecaptchaSecret a) (AntibotHcaptchaSitekey a)
    (AntibotHcaptchaSecret a) (AntibotTurnstileSitekey a) (AntibotTurnstileSecret a) (ab_ExclusionRules a)
    (ChallengeEscalationEnabled a) (ChallengeEscalationMode a) (ChallengeRules a).
Definition with_modsec (m : SecurityModSecuritySettings) : SecurityModSecuritySettings :=
  MkModSecurity true true (UseCustomConfiguration m) (ModSecurityCRSVersion m) (ModSecurityCRSPlugins m)
    (ms_ExclusionRules m) (CustomConfiguration m).

(** The parts a preset rewrites. *)
Definition rewritten (p : EasySiteProfile) front behavior headers limits antibot api modsec : EasySiteProfile :=
  MkProfile (SiteID p) front (UpstreamRouting p) behavior headers limits antibot (SecurityAuthBasic p)
    (SecurityCountryPolicy p) api modsec (SecurityWebSocket p) (VirtualPatches p) (UseCustomErrorPages p)
    (DisabledErrorPages p) (CreatedAt p) (UpdatedAt p).

Definition abuse_codes : list Z := [400; 401; 403; 404; 405; 429; 444].

Definition ApplyServiceProfilePreset (p : EasySiteProfile) (preset : string) : EasySiteProfile :=
  let preset := default_to ServiceProfileBalanced (lower_trim preset) in
  let front := FrontService p in
  let limits := SecurityBehaviorAndLimits p in
  let antibot := SecurityAntibot p in
  let modsec := SecurityModSecurity p in
  if String.eqb preset ServiceProfileStrict then
    rewritten p (with_front SecurityModeBlock preset front) (HTTPBehavior p) (HTTPHeaders p)
      (with_conn 120 220 220 (with_rate "/" "80r/s" (with_bad_behavior abuse_codes 60 60 900 limits)))
      (with_challenge AntibotChallengeJavascript antibot) (SecurityAPIPositive p) (with_modsec modsec)
  else if String.eqb preset ServiceProfileCompat then
    rewritten p (with_front SecurityModeMonitor preset front) (HTTPBehavior p) (HTTPHeaders p)
      (with_conn 300 500 500 (with_flags false (UseBlacklist limits) (UseDNSBL limits) true false limits))
      (with_challenge AntibotChallengeNo antibot) (SecurityAPIPositive p) (with_modsec modsec)
  else if String.eqb preset ServiceProfileAPI then
    let b := HTTPBehavior p in
    let h := HTTPHeaders p in
    let a := SecurityAPIPositive p in
    rewritten p (with_front SecurityModeBlock preset front)
      (MkBehavior ["GET"; "POST"; "PUT"; "PATCH"; "DELETE"; "OPTIONS"; "HEAD"] (MaxClientSize b) (HTTP2 b) (HTTP3 b)
        (SSLProtocols b) (HttpStrictParsing b))
      (MkHeaders (CookieFlags h) (ContentSecurityPolicy h) (PermissionsPolicy h) (KeepUpstreamHeaders h) (ReferrerPolicy h)
        (HSTSEnabled h) (HSTSMaxAgeSeconds h) (HSTSIncludeSubdomains h) (HSTSPreload h) true ["*"])
      (with_rate "/api/" "200r/s" limits) (with_challenge AntibotChallengeNo antibot)
      (MkAPIPositive true (OpenAPISchemaRef a) APIPositiveEnforcementMonitor APIPositiveDefaultActionAllow (EndpointPolicies a))
      modsec
  else if String.eqb preset ServiceProfilePublicEdge then
    let limits := with_bad_behavior abuse_codes 80 60 600 limits in
    rewritten p (with_front SecurityModeBlock preset front) (HTTPBehavior p) (HTTPHeaders p)
      (with_rate "/" "100r/s" (with_flags true true true (UseLimitConn limits) true limits))
      (with_challenge AntibotChallengeJavascript antibot) (SecurityAPIPositive p) (with_modsec modsec)
  else
    rewritten p (with_front SecurityModeBlock ServiceProfileBalanced front) (HTTPBehavior p) (HTTPHeaders p) limits antibot
      (SecurityAPIPositive p) modsec.

(** ** The store (store.go)

    Create, Update and Delete are those of every keyed document ([Crud]); List and Get normalise what
    they read once more. *)
Section Store.
Context `{Regexps}.

Definition set_stamps (c u : string) (p : EasySiteProfile) : EasySiteProfile :=
  MkProfile (SiteID p) (FrontService p) (UpstreamRouting p) (HTTPBehavior p) (HTTPHeaders p) (SecurityBehaviorAndLimits p)
    (SecurityAntibot p) (SecurityAuthBasic p) (SecurityCountryPolicy p) (SecurityAPIPositive p) (SecurityModSecurity p)
    (SecurityWebSocket p) (VirtualPatches p) (UseCustomErrorPages p) (DisabledErrorPages p) c u.

#[export] Instance profiles_crud : Crud EasySiteProfile := {|
  crud_store := "easy site profiles store";
  crud_key := SiteID;
  crud_key_required := "easy site profile site_id is required";
  crud_exists := fun id => "easy site profile for site " ++ id ++ " already exists";
  crud_missing := fun id => "easy site profile for site " ++ id ++ " not found";
  crud_normalize := normalizeProfile;
  crud_validate := validateProfile;
  crud_stamp := set_stamps;
  crud_created := CreatedAt;
  crud_create_clash := fun _ _ => None;
  crud_update_clash := fun _ _ => None;
  crud_found_clash := fun _ _ => None
|}.

Definition sortProfiles : list EasySiteProfile -> list EasySiteProfile := sort_items.
Definition Create : EasySiteProfile -> sop (items_state EasySiteProfile) EasySiteProfile := Crud.Create.
Definition Update : EasySiteProfile -> sop (items_state EasySiteProfile) EasySiteProfile := Crud.Update.
Definition Delete : string -> sop (items_state EasySiteProfile) unit := Crud.Delete.
Definition List : sop (items_state EasySiteProfile) (list EasySiteProfile) :=
  query items_config (fun _ current => Ok (sortProfiles (normalizeProfile <$> Items current))).
Definition Get (siteID : string) : sop (items_state EasySiteProfile) (option EasySiteProfile) :=
  let siteID := normalize_id siteID in
  lift (reject_if (is_empty siteID) "easy site profile site_id is required");;
  query items_config (fun _ current => Ok ((fun found => normalizeProfile found.2) <$> find_key SiteID siteID (Items current))).
End Store.

(** ** Normal forms are stable *)
#[local] Arguments trim_space : simpl never.
#[local] Arguments to_lower : simpl never.
#[local] Arguments to_upper : simpl never.
#[local] Arguments lower_trim : simpl never.
#[local] Arguments upper_trim : simpl never.
#[local] Arguments sorted_set : simpl never.
#[local] Arguments sorted_ints : simpl never.
#[local] Arguments sort_on : simpl never.
#[local] Arguments dedupe_by : simpl never.
#[local] Arguments normalize_id : simpl never.

Lemma trimmed_list_twice l : normalizeTrimmedList (normalizeTrimmedList l) = normalizeTrimmedList l.
Proof. apply sorted_set_idem, trim_space_idem. Qed.
Lemma upper_list_twice l : normalizeUpperList (normalizeUpperList l) = normalizeUpperList l.
Proof. apply sorted_set_idem, upper_trim_twice. Qed.
Lemma positive_list_twice l : normalizePositiveIntList (normalizePositiveIntList l) = normalizePositiveIntList l.
Proof.
  unfold normalizePositiveIntList. set (r := sorted_ints (List.filter (fun v => 0 <? v) l)).
  replace (List.filter (fun v => 0 <? v) r) with r; [apply sorted_ints_idem|].
  assert (Hr : Forall (fun v => (0 <? v) = true) r).
  { unfold r, sorted_ints. rewrite Forall_sort_on. apply Forall_forall. intros x Hx. apply (proj1 (elem_of_remove_dups _ _)) in Hx.
    by apply list_elem_of_In, filter_In in Hx as [_ Hx]. }
  clear -Hr. induction Hr as [|x r Hx _ IH]; [done|]. cbn. rewrite Hx. by f_equal.
Qed.

Lemma default_twice (fallback v : string) (norm : string -> string) :
  norm fallback = fallback -> norm (norm v) = norm v ->
  default_to fallback (norm (default_to fallback (norm v))) = default_to fallback (norm v).
Proof.
  intros Hf Hv. unfold default_to. destruct (is_empty (norm v)) eqn:E.
  - rewrite Hf. by destruct (is_empty fallback).
  - by rewrite Hv, E.
Qed.

Lemma default_trim_twice fallback v : trim_space fallback = fallback -> lower_trim fallback = fallback ->
  default_to fallback (lower_trim (default_to fallback (lower_trim v))) = default_to fallback (lower_trim v).
Proof. intros _ Hf. apply default_twice; [done | apply lower_trim_twice]. Qed.

Lemma exclusion_methods_twice l : exclusion_methods (exclusion_methods l) = exclusion_methods l.
Proof.
  unfold exclusion_methods. set (m := normalizeUpperList l).
  destruct (Nat.eqb (length m) 0 || mem "*" m) eqn:E; [by vm_compute|].
  replace (normalizeUpperList m) with m by (symmetry; apply upper_list_twice). by rewrite E.
Qed.

(** Digits and the letters of a rate are neither blanks nor capitals. *)
Lemma rate_text_stable s : all_chars (fun c => is_digit c || has_char c "-r/s") s = true ->
  lower_trim s = s /\ replace_char " " "" s = s.
Proof.
  intros Hs. split.
  - unfold lower_trim. rewrite trim_space_no_space.
    + induction s as [|c s IH]; [done|]. cbn in Hs. apply andb_true_iff in Hs as [Hc Hs].
      change (to_lower (String c s)) with (String (lower_ascii c) (to_lower s)). rewrite (IH Hs). f_equal.
      revert Hc. by destruct c as [[] [] [] [] [] [] [] []].
    + revert Hs. apply all_chars_impl. by intros [[] [] [] [] [] [] [] []].
  - induction s as [|c s IH]; [done|]. cbn in Hs. apply andb_true_iff in Hs as [Hc Hs].
    rewrite drop_blank_cons, (IH Hs). destruct (Ascii.eqb_spec c " ") as [->|_]; [discriminate Hc | done].
Qed.

Lemma itoa_chars n : all_chars (fun c => is_digit c || has_char c "-r/s") (itoa n) = true.
Proof.
  assert (Hd : forall fuel n acc, 0 <= n -> all_chars (fun c => is_digit c || has_char c "-r/s") acc = true ->
    all_chars (fun c => is_digit c || has_char c "-r/s") (itoa_digits fuel n acc) = true).
  { induction fuel as [|fuel IH]; intros m acc Hm Hacc; [done|]. cbn [itoa_digits].
    assert (Hc : all_chars (fun c => is_digit c || has_char c "-r/s") (String (dec_digit (m mod 10)) acc) = true).
    { cbn [all_chars]. rewrite Hacc. destruct (dec_digit_spec (m mod 10)) as [_ ->]; [|done].
      apply Z.mod_pos_bound. lia. }
    destruct (m <? 10); [exact Hc|]. apply IH; [apply Z.div_pos; lia | exact Hc]. }
  unfold itoa. destruct (Z.ltb_spec n 0); [cbn [all_chars]; rewrite Hd by lia || done; done | by apply Hd].
Qed.

Lemma rate_twice v : normalizeLimitReqRate (normalizeLimitReqRate v) = normalizeLimitReqRate v.
Proof.
  unfold normalizeLimitReqRate at 2 3. set (value := replace_char " " "" (lower_trim v)).
  assert (Hv : replace_char " " "" (lower_trim value) = value).
  { unfold lower_trim at 1. unfold value at 1. rewrite drop_blanks_trimmed by apply trim_lower_trim.
    rewrite <- drop_blanks_lower, drop_blanks_twice. unfold lower_trim. by rewrite to_lower_idem. }
  assert (Hsame : normalizeLimitReqRate value =
    if is_empty value then value else if has_suffix "r/s" value then value
    else match atoi value with Some num => if 0 <? num then itoa num ++ "r/s" else value | None => value end).
  { unfold normalizeLimitReqRate. by rewrite Hv. }
  cbv zeta. destruct (is_empty value) eqn:He; [exact Hsame|]. destruct (has_suffix "r/s" value) eqn:Hs; [exact Hsame|].
  destruct (atoi value) as [num|]; [|exact Hsame]. destruct (0 <? num); [|exact Hsame].
  destruct (rate_text_stable (itoa num ++ "r/s")) as [H1 H2].
  { by rewrite all_chars_app, itoa_chars. }
  unfold normalizeLimitReqRate. rewrite H1, H2. cbv zeta.
  destruct (is_empty (itoa num ++ "r/s")); [done|]. by rewrite has_suffix_app.
Qed.

Lemma limit_rules_twice l : normalizeCustomLimitRules (normalizeCustomLimitRules l) = normalizeCustomLimitRules l.
Proof.
  apply dedupe_sort_idem. intros [path rate] _. unfold limit_rule. cbn. by rewrite trim_space_idem, rate_twice.
Qed.
Lemma challenge_rules_twice l : normalizeAntibotChallengeRules (normalizeAntibotChallengeRules l) = normalizeAntibotChallengeRules l.
Proof.
  apply dedupe_sort_idem. intros [path mode] _. unfold challenge_rule. cbn. by rewrite trim_space_idem, lower_trim_twice.
Qed.
Lemma antibot_exclusions_twice l : normalizeAntibotExclusionRules (normalizeAntibotExclusionRules l) = normalizeAntibotExclusionRules l.
Proof.
  apply dedupe_sort_idem. intros [path methods] _. unfold antibot_exclusion. cbn.
  by rewrite trim_space_idem, exclusion_methods_twice.
Qed.
Lemma auth_exclusions_twice l : normalizeAuthExclusionRules (normalizeAuthExclusionRules l) = normalizeAuthExclusionRules l.
Proof.
  apply dedupe_sort_idem. intros [path methods] _. unfold auth_exclusion. cbn.
  by rewrite trim_space_idem, exclusion_methods_twice.
Qed.
Lemma auth_users_twice l : normalizeAuthUsers (normalizeAuthUsers l) = normalizeAuthUsers l.
Proof. apply dedupe_sort_idem. intros [] _. unfold auth_user. cbn. by rewrite !trim_space_idem. Qed.
Lemma service_tokens_twice l : normalizeAuthServiceTokens (normalizeAuthServiceTokens l) = normalizeAuthServiceTokens l.
Proof. apply dedupe_sort_idem. intros [] _. unfold service_token. cbn. by rewrite !trim_space_idem. Qed.
Lemma modsec_exclusions_twice l : normalizeModSecurityExclusionRules (normalizeModSecurityExclusionRules l) = normalizeModSecurityExclusionRules l.
Proof.
  apply dedupe_idem. intros []. unfold modsec_exclusion. cbn.
  rewrite !trim_space_idem, exclusion_methods_twice, positive_list_twice, trimmed_list_twice.
  by rewrite (default_trim_twice "exact") by reflexivity.
Qed.

(** Content types that are lower case already. *)
Definition lower_types (p : APIPositiveEndpointPolicy) : Prop := Forall (fun v => to_lower v = v) (ep_ContentTypes p).

Lemma lower_types_stable l : Forall (fun v => to_lower v = v) l ->
  lower_trim <$> normalizeTrimmedList l = normalizeTrimmedList l.
Proof.
  intros Hl. assert (Hr : Forall (fun v => lower_trim v = v) (normalizeTrimmedList l)).
  { apply Forall_forall. intros v Hv. apply elem_of_sorted_set in Hv as [_ (x & Hx & ->)].
    pose proof (proj1 (Forall_forall _ _) Hl x Hx) as Hlow. cbn in Hlow.
    unfold lower_trim. by rewrite trim_space_idem, <- trim_space_lower, Hlow. }
  induction Hr as [|v r Hv _ IH]; [done|]. cbn. by rewrite Hv, IH.
Qed.

Lemma endpoint_policies_twice l : Forall lower_types l ->
  normalizeAPIPositiveEndpointPolicies (normalizeAPIPositiveEndpointPolicies l) = normalizeAPIPositiveEndpointPolicies l.
Proof.
  intros Hl. apply dedupe_sort_idem. intros [path methods tokens types mode] Hx.
  pose proof (proj1 (Forall_forall _ _) Hl _ Hx) as Ht. unfold lower_types in Ht. cbn in Ht.
  unfold endpoint_policy. cbn. rewrite trim_space_idem, upper_list_twice, trimmed_list_twice, lower_trim_twice.
  rewrite (lower_types_stable types) by done. rewrite trimmed_list_twice. by rewrite (lower_types_stable types).
Qed.

Lemma methods_twice siteID l :
  let f := fun l => ensureControlPlaneAccessMethods siteID (normalizeUpperList l) in f (f l) = f l.
Proof.
  cbv zeta beta. unfold ensureControlPlaneAccessMethods. destruct (String.eqb _ _); [|apply upper_list_twice].
  set (u := normalizeUpperList l). set (all := u +++ List.filter (fun m => negb (mem m u)) controlPlaneMethods).
  set (m := sort_on id (remove_dups all)).
  assert (Hin : forall v, v ∈ m <-> v ∈ u \/ v ∈ controlPlaneMethods).
  { intros v. unfold m, all. rewrite elem_of_sort_on, elem_of_remove_dups, elem_of_app.
    assert (Hf : v ∈ List.filter (fun m => negb (mem m u)) controlPlaneMethods <-> v ∈ controlPlaneMethods /\ v ∉ u).
    { rewrite list_elem_of_In, filter_In, <- list_elem_of_In, negb_true_iff, mem_false. done. }
    rewrite Hf. destruct (decide (v ∈ u)); tauto. }
  assert (Hu : normalizeUpperList m = m).
  { destruct (sorted_set_sorted upper_trim m) as [Hn Hs], (sort_dedupe_sorted all) as [Hn' Hs'].
    apply sorted_set_eq; try done. intros v. unfold normalizeUpperList. rewrite elem_of_sorted_set.
    assert (Hfix : forall v, v ∈ m -> v <> "" /\ upper_trim v = v).
    { intros w [Hw|Hw]%Hin.
      - apply elem_of_sorted_set in Hw as [Hne (x & _ & ->)]. by rewrite upper_trim_twice.
      - by repeat (apply elem_of_cons in Hw as [->|Hw]; [done|]); apply not_elem_of_nil in Hw. }
    split.
    - intros [_ (x & Hx & ->)]. by destruct (Hfix x Hx) as [_ ->].
    - intros Hv. destruct (Hfix v Hv). by split; [|exists v]. }
  rewrite Hu. replace (List.filter (fun v => negb (mem v m)) controlPlaneMethods) with (@nil string).
  - rewrite app_nil_r. by apply sort_dedupe_fixed; apply sort_dedupe_sorted.
  - symmetry. assert (Hall : Forall (fun v => mem v m = true) controlPlaneMethods).
    { apply Forall_forall. intros v Hv. apply mem_spec, Hin. by right. }
    clearbody m. clear -Hall. induction Hall as [|v r Hv _ IH]; [done|]. cbn [List.filter]. by rewrite Hv.
Qed.

Lemma error_pages_twice l : migrateLegacyDisabledErrorPages (migrateLegacyDisabledErrorPages l) = migrateLegacyDisabledErrorPages l.
Proof.
  unfold migrateLegacyDisabledErrorPages. set (items := normalizeTrimmedList l).
  destruct (negb (mem "451" items) || mem "geo_block" items) eqn:E.
  - replace (normalizeTrimmedList items) with items by (symmetry; apply trimmed_list_twice). by rewrite E.
  - rewrite trimmed_list_twice.
    assert (Hin : "geo_block" ∈ normalizeTrimmedList (items +++ ["geo_block"])).
    { apply elem_of_sorted_set. split; [done|]. exists "geo_block". split; [apply elem_of_app; right; left | done]. }
    apply mem_spec in Hin. by rewrite Hin, orb_true_r.
Qed.

Lemma stages_twice l : normal_stages (normal_stages l) = normal_stages l.
Proof.
  assert (H : forall l, normalizeBanEscalationStages (normalizeBanEscalationStages l) = normalizeBanEscalationStages l).
  { clear. induction l as [|v l IH]; [done|]. cbn. destruct (Z.ltb_spec v 0); [done|].
    destruct (Z.eqb_spec v 0) as [->|]; [done|]. cbn.
    destruct (Z.ltb_spec v 0); [lia|]. destruct (Z.eqb_spec v 0); [lia|]. by rewrite IH. }
  unfold normal_stages. destruct (normalizeBanEscalationStages l) as [|v r] eqn:E; [done|].
  pose proof (H l) as Hl. rewrite E in Hl. by rewrite Hl.
Qed.

Lemma default_id_twice fallback v (norm : string -> string) : norm fallback = fallback ->
  norm (norm v) = norm v -> norm (default_to fallback (norm v)) = default_to fallback (norm v).
Proof. intros Hf Hv. unfold default_to. by destruct (is_empty (norm v)). Qed.

Lemma auth_users_normal l : Forall (fun u => auth_user u = u /\ su_Username u <> "") (normalizeAuthUsers l).
Proof.
  unfold normalizeAuthUsers. apply Forall_sort_on, Forall_dedupe, Forall_forall. intros u Hu.
  apply list_elem_of_In, filter_In in Hu as [Hu Hne%negb_true_iff%is_empty_false].
  apply list_elem_of_In, list_elem_of_fmap in Hu as (v & -> & _). split; [|done].
  unfold auth_user. cbn. by rewrite !trim_space_idem.
Qed.

Lemma single_user_twice user password : user <> "" -> trim_space user = user -> trim_space password = password ->
  normalizeAuthUsers [MkAuthUser user password 0 true ""] = [MkAuthUser user password 0 true ""].
Proof.
  intros Hne Hu Hp. unfold normalizeAuthUsers. cbn. unfold auth_user. cbn. rewrite Hu, Hp.
  apply is_empty_false in Hne. by rewrite Hne.
Qed.

Lemma default_stable fallback v : default_to fallback (default_to fallback v) = default_to fallback v.
Proof. unfold default_to. destruct (is_empty v) eqn:E; [by destruct (is_empty fallback) | by rewrite E]. Qed.

(** The users a normal form has, and what they say of the single-user fields. *)
Lemma normal_auth_users a :
  let user := trim_space (AuthBasicUser a) in
  let r := normal_auth a in
  normalizeAuthUsers (au_Users r) = au_Users r /\
  match au_Users r with
  | first :: _ => auth_user first = first /\ AuthBasicUser r = default_to (su_Username first) user /\
      su_Username first <> "" /\ AuthBasicPassword r = default_to (su_Password first) (trim_space (AuthBasicPassword a))
  | [] => AuthBasicUser r = "" /\ AuthBasicPassword r = trim_space (AuthBasicPassword a)
  end.
Proof.
  cbv zeta. unfold normal_auth. cbn -[normalizeAuthUsers].
  pose proof (auth_users_normal (au_Users a)) as Hall. pose proof (auth_users_twice (au_Users a)) as Htw.
  destruct (normalizeAuthUsers (au_Users a)) as [|first rest] eqn:El.
  - destruct (is_empty (trim_space (AuthBasicUser a))) eqn:Eu.
    + cbn [negb]. rewrite andb_false_r. cbn. split; [done|]. split; [|done]. by apply is_empty_spec in Eu.
    + apply is_empty_false in Eu. split; [apply single_user_twice; [done|apply trim_space_idem..]|].
      cbn. unfold auth_user. cbn. by rewrite !trim_space_idem.
  - apply Forall_cons in Hall as [[H1 H2] _]. split; [exact Htw|]. by split_and!.
Qed.

Lemma auth_mode_twice m : normalizeAuthMode (normalizeAuthMode m) = normalizeAuthMode m.
Proof.
  unfold normalizeAuthMode at 2 3. cbv zeta. destruct (mem (lower_trim m) allowedAuthModes) eqn:E; [|by vm_compute].
  unfold normalizeAuthMode. by rewrite lower_trim_twice, E.
Qed.
Lemma auth_order_twice m : normalizeAuthOrder (normalizeAuthOrder m) = normalizeAuthOrder m.
Proof.
  unfold normalizeAuthOrder at 2 3. cbv zeta. destruct (mem (lower_trim m) allowedAuthOrders) eqn:E; [|by vm_compute].
  unfold normalizeAuthOrder. by rewrite lower_trim_twice, E.
Qed.
Lemma zero_default_twice (d v : Z) : d <> 0 ->
  (if (if v =? 0 then d else v) =? 0 then d else if v =? 0 then d else v) = if v =? 0 then d else v.
Proof. intros Hd. destruct (Z.eqb_spec v 0) as [|Hv]; [by destruct (d =? 0) | by rewrite (proj2 (Z.eqb_neq v 0) Hv)]. Qed.

Lemma auth_twice a : normal_auth (normal_auth a) = normal_auth a.
Proof.
  destruct (normal_auth_users a) as [Hu Hf]. set (r := normal_auth a) in *.
  assert (Hr : r = MkAuthBasic (UseAuthBasic a) (normalizeAuthMode (AuthMode a)) (normalizeAuthOrder (AuthOrder a))
    (AuthBasicUser r) (AuthBasicPassword r) (default_to "v1" (lower_trim (AuthBasicTemplate a))) (au_Users r)
    (normalizeAuthExclusionRules (au_ExclusionRules a)) (normalizeAuthServiceTokens (ServiceTokens a))
    (if au_SessionInactivityMinutes a =? 0 then 60 else au_SessionInactivityMinutes a)) by reflexivity.
  clearbody r. rewrite Hr. unfold normal_auth. cbn -[normalizeAuthUsers]. rewrite Hu.
  rewrite auth_mode_twice, auth_order_twice, auth_exclusions_twice, service_tokens_twice.
  rewrite (default_trim_twice "v1"), zero_default_twice by done.
  destruct (au_Users r) as [|first rest].
  - destruct Hf as [-> ->]. rewrite trim_space_idem. cbn. by rewrite andb_false_r.
  - destruct Hf as (Hfirst & -> & Hne & ->).
    assert (Hn : trim_space (su_Username first) = su_Username first) by (by rewrite <- Hfirst at 2).
    assert (Hp : trim_space (su_Password first) = su_Password first) by (by rewrite <- Hfirst at 2).
    rewrite !(default_id_twice _ _ trim_space) by (done || apply trim_space_idem). by rewrite !default_stable.
Qed.

(** ** Properties *)

(** C17: Normalisation is stable: the profile that Create and Update store is the one that List and Get
    return, which normalise what they read again, unless its HSTS age was negative or a content type of
    an endpoint policy had a capital letter. *)
Theorem normalizeProfile_stable p :
  0 <= HSTSMaxAgeSeconds (HTTPHeaders p) -> Forall lower_types (EndpointPolicies (SecurityAPIPositive p)) ->
  normalizeProfile (normalizeProfile p) = normalizeProfile p.
Proof.
  intros Hage Htypes. unfold normalizeProfile at 1. cbn. rewrite normalize_id_idem.
  destruct p as [site front routing behavior headers limits antibot auth country api modsec ws patches ep pages c u].
  cbn in *. unfold normalizeProfile. cbn. f_equal.
  - destruct front. unfold normal_front. cbn. by rewrite !lower_trim_twice, default_trim_twice.
  - destruct routing. unfold normal_routing. cbn. by rewrite !trim_space_idem.
  - destruct behavior. unfold normal_behavior. cbn. by rewrite methods_twice, lower_trim_twice, trimmed_list_twice.
  - destruct headers as [? ? ? ? ? ? age]. unfold normal_headers. cbn in *. rewrite !trim_space_idem, !trimmed_list_twice.
    f_equal. unfold normal_max_age. repeat case_match; lia.
  - destruct limits. unfold normal_limits. cbn.
    rewrite sorted_ints_idem, default_trim_twice, stages_twice by done.
    by rewrite !trimmed_list_twice, trim_space_idem, rate_twice, limit_rules_twice.
  - destruct antibot. unfold normal_antibot. cbn. rewrite !default_trim_twice, zero_default_twice by done.
    by rewrite !trim_space_idem, antibot_exclusions_twice, challenge_rules_twice.
  - apply auth_twice.
  - destruct country. unfold normal_country. cbn. unfold normalizeCountryList. by rewrite !(sorted_set_idem upper_trim) by apply upper_trim_twice.
  - destruct api. unfold normal_api. cbn in *. rewrite trim_space_idem, !default_trim_twice, endpoint_policies_twice; done.
  - destruct modsec as [? ? ? ? ? ? []]. unfold normal_modsec. cbn.
    by rewrite !trim_space_idem, trimmed_list_twice, modsec_exclusions_twice.
  - apply error_pages_twice.
Qed.

Section Stored.
Context `{Regexps}.

(** In normal form, with the instants of its creation and last change. *)
Definition stored_form (p : EasySiteProfile) : Prop := exists q c u, p = set_stamps c u (normalizeProfile q).

#[export, refine] Instance profiles_laws : CrudLaws EasySiteProfile :=
  {| crud_normal := stored_form; crud_apart := fun _ _ => True |}.
Proof.
  all: try done.
  - intros p Hv. cbn in *. split; [apply normalize_id_idem|]. apply is_empty_false. revert Hv. unfold validateProfile, refuse, reject_if.
    destruct (is_empty (SiteID (normalizeProfile p))) eqn:E; [discriminate | intros _; exact E].
  - intros p. exists p, (CreatedAt p), (UpdatedAt p). reflexivity.
  - intros c u p (q & c' & u' & ->). by exists q, c, u.
Defined.

(** The profile store: over any sequence of commands on a healthy backend it is a map from site
    identifiers to profiles; and in every reachable document, whatever the clock and the backend
    failures, site identifiers are unique and sorted and every profile is the normal form of one that
    passed validation. *)
Theorem profile_store_sound :
  refines_map EasySiteProfile /\ well_formed_store (A := EasySiteProfile) stored_form (fun _ _ => True).
Proof. split; [apply store_refines_map | exact (store_well_formed (A := EasySiteProfile))]. Qed.
End Stored.

Section Presets.
Context `{Regexps} `{Environment}.

Lemma envInt_positive key fallback : 0 < fallback -> 0 < envIntOrDefault key fallback.
Proof.
  intros Hf. unfold envIntOrDefault. cbv zeta. destruct (is_empty _); [done|]. destruct (atoi _) as [v|]; [|done].
  by destruct (Z.leb_spec v 0).
Qed.

Lemma positive_checks v : 0 < v -> (v <=? 0) = false /\ (v <? 0) = false.
Proof. intros Hv. split; [apply Z.leb_gt | apply Z.ltb_ge]; lia. Qed.

(** Limits with abuse codes, rules and a rate that are fine, whatever the switches. *)
Lemma limits_valid (bad bl dnsbl conn req : bool) codes ban threshold period http1 http2 http3 url rate rules :
  codes = default_status_codes \/ codes = abuse_codes -> rules = [] \/ rules = management_limit_rules -> url = "/" \/ url = "/api/" ->
  0 < ban -> 0 < threshold -> 0 < period -> 0 < http1 -> 0 < http2 -> 0 < http3 ->
  match_rate (normalizeLimitReqRate rate) = true ->
  validate_limits (normal_limits (MkLimits bad codes ban threshold period false "all_sites" [300; 86400; 0] bl false [] []
    dnsbl [] [] [] [] [] [] [] [] [] [] [] [] [] conn http1 http2 http3 req url rate rules)) = Ok tt.
Proof.
  intros Hcodes Hrules Hurl Hban Hthr Hper H1 H2 H3 Hrate.
  assert (Hc : normalizeStatusCodes codes = codes) by (by destruct Hcodes as [->| ->]).
  unfold validate_limits, normal_limits. cbn -[normalizeStatusCodes normalizeCustomLimitRules match_rate normalizeLimitReqRate slash_path check_all].
  rewrite Hc, Hrate.
  destruct (positive_checks _ Hban) as [_ ->], (positive_checks _ Hthr) as [-> _], (positive_checks _ Hper) as [-> _].
  destruct (positive_checks _ H1) as [-> _], (positive_checks _ H2) as [-> _], (positive_checks _ H3) as [-> _].
  destruct Hcodes as [->| ->], Hrules as [->| ->], Hurl as [->| ->]; vm_compute; reflexivity.
Qed.

(** The name of the site, in whatever case. *)
Lemma front_valid siteID mode profile management : is_blank siteID = false ->
  mem mode [SecurityModeBlock; SecurityModeMonitor; SecurityModeTransparent] = true ->
  mem profile [ServiceProfileStrict; ServiceProfileBalanced; ServiceProfileCompat; ServiceProfileAPI; ServiceProfilePublicEdge] = true ->
  lower_trim mode = mode -> default_to ServiceProfileBalanced (lower_trim profile) = profile ->
  validate_front (normal_front (MkFront siteID mode profile management true false false "letsencrypt" "" false false 2 "" false)) = Ok tt.
Proof.
  intros Hid Hm Hp Em Ep. unfold validate_front, normal_front. cbn -[mem]. rewrite Em, Ep.
  assert (Hn : is_empty (lower_trim siteID) = false).
  { revert Hid. unfold is_blank, lower_trim. by destruct (trim_space siteID). }
  rewrite Hn. unfold refuse. by rewrite Hm, Hp.
Qed.

Lemma behavior_valid siteID l : normalizeUpperList l = normalizeUpperList controlPlaneMethods ->
  validate_behavior siteID (normal_behavior siteID (MkBehavior l "100m" true false ["TLSv1.2"; "TLSv1.3"] false)) = Ok tt.
Proof.
  intros Hl. unfold validate_behavior, normal_behavior. cbn -[normalizeUpperList ensureControlPlaneAccessMethods check_all].
  rewrite Hl. unfold ensureControlPlaneAccessMethods.
  destruct (String.eqb (normalize_id siteID) _), (String.eqb siteID _); vm_compute; reflexivity.
Qed.

(** The sections a preset leaves as they are by default. *)
Lemma default_sections_valid : forall management : bool,
  validate_auth (normal_auth (SecurityAuthBasic (DefaultProfile ""))) = Ok tt /\
  validate_country (normal_country (MkCountryPolicy [] [] false false [])) = Ok tt /\
  validate_modsec (normal_modsec (MkModSecurity management management false "4" [] []
    (MkCustomConfiguration "modsec/anomaly_score.conf" ""))) = Ok tt.
Proof. intros []; vm_compute; done. Qed.

Lemma validate_sections p r : is_empty (SiteID p) = false ->
  validate_front (FrontService p) = Ok tt -> validate_routing (UpstreamRouting p) = Ok tt ->
  validate_behavior (SiteID p) (HTTPBehavior p) = Ok tt -> validate_limits (SecurityBehaviorAndLimits p) = Ok tt ->
  validate_antibot (SecurityAntibot p) = Ok tt -> validate_auth (SecurityAuthBasic p) = Ok tt ->
  validate_headers (HTTPHeaders p) = Ok tt -> validate_proxy_hosts (UpstreamRouting p) = Ok tt ->
  validate_country (SecurityCountryPolicy p) = Ok tt -> validate_modsec (SecurityModSecurity p) = Ok tt ->
  validate_api (SecurityAPIPositive p) = r -> validateProfile p = r.
Proof.
  intros Hs H1 H2 H3 H4 H5 H6 H7 H8 H9 H10 <-. unfold validateProfile. rewrite Hs. unfold refuse.
  rewrite H1, H2, H3, H4, H5, H6, H7, H8, H9. cbn. rewrite H10. by destruct (validate_api _) as [[]|].
Qed.

(** The default limits, whoever the site belongs to. *)
Lemma default_limits_positive floor key fallback management : 0 < floor -> 0 < fallback ->
  0 < (if management && (envIntOrDefault key fallback <? floor) then floor else envIntOrDefault key fallback).
Proof. intros Hf Hb. pose proof (envInt_positive key fallback Hb). by destruct (management && _). Qed.

Definition default_rate : string := envStringOrDefault "WAF_DEFAULT_LIMIT_REQ_RATE" "120r/s".
Definition site_rate (siteID : string) : string := LimitReqRate (SecurityBehaviorAndLimits (DefaultProfile siteID)).

Lemma site_rate_valid siteID : match_rate (normalizeLimitReqRate default_rate) = true ->
  match_rate (normalizeLimitReqRate (site_rate siteID)) = true.
Proof.
  intros Hr. unfold site_rate. cbn -[normalizeLimitReqRate]. fold default_rate. destruct (is_management_site siteID); [|done].
  destruct (parseRatePerSecond _ <? 600); [by vm_compute | by rewrite rate_twice].
Qed.

(** The default profile of every site, with every preset, is accepted by the profile store as it is
    (provided the request rate of the environment is one), with one exception: the preset for APIs
    switches positive security on and is refused until a schema or endpoint policies are added. *)
Theorem presets_accepted siteID preset :
  is_blank siteID = false -> match_rate (normalizeLimitReqRate default_rate) = true ->
  validateProfile (normalizeProfile (ApplyServiceProfilePreset (DefaultProfile siteID) preset)) =
    if String.eqb (lower_trim preset) ServiceProfileAPI
    then Err "easy site profile security_api_positive requires openapi_schema_ref or endpoint_policies when enabled"
    else Ok tt.
Proof.
  intros Hid Hrate. apply (site_rate_valid siteID) in Hrate. revert Hrate. unfold site_rate.
  assert (Hsite : is_empty (normalize_id siteID) = false).
  { revert Hid. unfold is_blank, normalize_id. by destruct (trim_space siteID). }
  unfold DefaultProfile. cbv zeta. cbn [LimitReqRate SecurityBehaviorAndLimits].
  set (management := is_management_site siteID). intros Hrate.
  unfold ApplyServiceProfilePreset. cbv zeta.
  set (name := default_to ServiceProfileBalanced (lower_trim preset)).
  assert (Hname : String.eqb (lower_trim preset) ServiceProfileAPI = String.eqb name ServiceProfileAPI).
  { unfold name, default_to. by destruct (lower_trim preset). }
  rewrite Hname. clearbody name. clear Hname preset.
  pose proof (default_limits_positive 100 "WAF_DEFAULT_BAD_BEHAVIOR_THRESHOLD" 120 management ltac:(lia) ltac:(lia)).
  pose proof (default_limits_positive 60 "WAF_DEFAULT_BAD_BEHAVIOR_COUNT_TIME_SECONDS" 120 management ltac:(lia) ltac:(lia)).
  pose proof (default_limits_positive 300 "WAF_DEFAULT_LIMIT_CONN_MAX_HTTP1" 200 management ltac:(lia) ltac:(lia)).
  pose proof (default_limits_positive 500 "WAF_DEFAULT_LIMIT_CONN_MAX_HTTP2" 400 management ltac:(lia) ltac:(lia)).
  pose proof (default_limits_positive 500 "WAF_DEFAULT_LIMIT_CONN_MAX_HTTP3" 400 management ltac:(lia) ltac:(lia)).
  pose proof (envInt_positive "WAF_DEFAULT_BAD_BEHAVIOR_BAN_TIME_SECONDS" 300 ltac:(lia)).
  assert (Hrules : (if management then management_limit_rules else []) = [] \/
    (if management then management_limit_rules else []) = management_limit_rules) by (destruct management; auto).
  assert (Hurl : (if management then "/api/" else "/") = "/" \/ (if management then "/api/" else "/") = "/api/")
    by (destruct management; auto).
  destruct (String.eqb_spec name ServiceProfileStrict) as [->|_];
    [|destruct (String.eqb_spec name ServiceProfileCompat) as [->|_];
      [|destruct (String.eqb_spec name ServiceProfileAPI) as [->|_];
        [|destruct (String.eqb_spec name ServiceProfilePublicEdge) as [->|_]]]].
  all: apply validate_sections; [exact Hsite | apply front_valid; done | reflexivity | by apply behavior_valid
    | apply limits_valid; first [assumption | by left | by right | lia | by vm_compute] | reflexivity | apply (default_sections_valid management) | reflexivity | reflexivity
    | apply (default_sections_valid management) | try apply (default_sections_valid true); apply default_sections_valid | reflexivity].
Qed.
End Presets.

(** ** Examples *)
Definition plain_environment : Environment := {| Getenv := fun _ => "" |}.
Definition any_regexp : Regexps := {| regexp_error := fun _ => None |}.
Definition shop_profile : EasySiteProfile := @DefaultProfile plain_environment " Shop ".

Lemma normalizeProfile_stable_witness :
  normalizeProfile (normalizeProfile shop_profile) = normalizeProfile shop_profile /\ SiteID (normalizeProfile shop_profile) = "shop".
Proof. split; [apply (normalizeProfile_stable shop_profile); [vm_compute; discriminate | constructor] | reflexivity]. Defined.

Lemma presets_accepted_witness :
  validateProfile (H := any_regexp)
    (normalizeProfile (ApplyServiceProfilePreset shop_profile "Strict")) = Ok tt /\
  is_ok (validateProfile (H := any_regexp) (normalizeProfile (ApplyServiceProfilePreset shop_profile "api"))) = false.
Proof.
  split.
  - exact (presets_accepted (H := any_regexp) (H0 := plain_environment) " Shop " "Strict" eq_refl ltac:(vm_compute; reflexivity)).
  - assert (E := presets_accepted (H := any_regexp) (H0 := plain_environment) " Shop " "api" eq_refl ltac:(vm_compute; reflexivity)).
    unfold shop_profile. rewrite E. reflexivity.
Defined.

(** Where normal forms are not stable: content types are sorted before they are lower-cased, and a
    negative HSTS age becomes 0, which the next normalisation takes for unset. *)
Example content_types_reordered :
  let l := [MkEndpointPolicy "/api" [] [] ["text/html"; "Text/plain"; "application/JSON"] ""] in
  let types l := ep_ContentTypes <$> normalizeAPIPositiveEndpointPolicies l in
  types l = [["text/plain"; "application/json"; "text/html"]] /\
  types (normalizeAPIPositiveEndpointPolicies l) = [["application/json"; "text/html"; "text/plain"]].
Proof. vm_compute. done. Qed.

Example negative_age : normal_max_age (-1) = 0 /\ normal_max_age (normal_max_age (-1)) = 15552000.
Proof. done. Qed.

(** The migration of the old 451 toggle has no end: a profile that disables the page for 451 disables
    the page for blocked countries whenever it is normalised. *)
Lemma disabled_451_disables_geo_block values :
  "451" ∈ normalizeTrimmedList values -> "geo_block" ∈ migrateLegacyDisabledErrorPages values.
Proof.
  intros H451%mem_spec. unfold migrateLegacyDisabledErrorPages. rewrite H451. cbn [negb orb].
  destruct (mem "geo_block" (normalizeTrimmedList values)) eqn:Hg; [by apply mem_spec|].
  apply elem_of_sorted_set. split; [done|]. exists "geo_block". split; [apply elem_of_app; right; left | done].
Qed.
