(* ===== verification/Revisions.v ===== *)
(** * Revision store (control-plane/internal/revisions/store.go)

    The metadata and lifecycle of compiled configuration revisions: pending,
    waiting for approval, active, inactive, failed.  Every method of [Store]
    is a [sop] on the document {current_active_revision_id, revisions}. *)
From Stdlib Require Import ZArith Lia String.
From stdpp Require Import base tactics strings list.
From S2P Require Import Prelude DocStore.
Local Open Scope Z_scope.

Definition StatusPending := "pending"%string.
Definition StatusPendingApproval := "pending_approval"%string.
Definition StatusInactive := "inactive"%string.
Definition StatusActive := "active"%string.
Definition StatusFailed := "failed"%string.

Definition ApprovalNotRequired := "not_required"%string.
Definition ApprovalPending := "pending"%string.
Definition ApprovalApproved := "approved"%string.

Record ApprovalRecord := MkApproval {
  apr_UserID : string;
  apr_Username : string;
  apr_Comment : string;
  apr_ApprovedAt : string
}.


Record Revision := MkRevision {
  rev_ID : string;
  rev_Version : Z;
  rev_CreatedAt : string;
  rev_Checksum : string;
  rev_BundlePath : string;
  rev_Status : string;
  rev_CompiledByUserID : string;
  rev_CompiledByName : string;
  rev_ApprovalStatus : string;
  rev_RequiredApprovals : Z;
  rev_Approvals : list ApprovalRecord;
  rev_ApprovedAt : string;
  rev_Signature : string;
  rev_SignatureKeyID : string;
  rev_LastApplyJobID : string;
  rev_LastApplyStatus : string;
  rev_LastApplyResult : string;
  rev_LastApplyAt : string;
  rev_TargetSiteIDs : list string
}.

Definition set_rev_Status (v : string) (x : Revision) : Revision :=
  MkRevision (rev_ID x) (rev_Version x) (rev_CreatedAt x) (rev_Checksum x) (rev_BundlePath x) v
    (rev_CompiledByUserID x) (rev_CompiledByName x) (rev_ApprovalStatus x)
    (rev_RequiredApprovals x) (rev_Approvals x) (rev_ApprovedAt x) (rev_Signature x)
    (rev_SignatureKeyID x) (rev_LastApplyJobID x) (rev_LastApplyStatus x) (rev_LastApplyResult
    x) (rev_LastApplyAt x) (rev_TargetSiteIDs x).
Definition set_rev_ApprovalStatus (v : string) (x : Revision) : Revision :=
  MkRevision (rev_ID x) (rev_Version x) (rev_CreatedAt x) (rev_Checksum x) (rev_BundlePath x)
    (rev_Status x) (rev_CompiledByUserID x) (rev_CompiledByName x) v (rev_RequiredApprovals x)
    (rev_Approvals x) (rev_ApprovedAt x) (rev_Signature x) (rev_SignatureKeyID x)
    (rev_LastApplyJobID x) (rev_LastApplyStatus x) (rev_LastApplyResult x) (rev_LastApplyAt x)
    (rev_TargetSiteIDs x).
Definition set_rev_RequiredApprovals (v : Z) (x : Revision) : Revision :=
  MkRevision (rev_ID x) (rev_Version x) (rev_CreatedAt x) (rev_Checksum x) (rev_BundlePath x)
    (rev_Status x) (rev_CompiledByUserID x) (rev_CompiledByName x) (rev_ApprovalStatus x) v
    (rev_Approvals x) (rev_ApprovedAt x) (rev_Signature x) (rev_SignatureKeyID x)
    (rev_LastApplyJobID x) (rev_LastApplyStatus x) (rev_LastApplyResult x) (rev_LastApplyAt x)
    (rev_TargetSiteIDs x).
Definition set_rev_Approvals (v : list ApprovalRecord) (x : Revision) : Revision :=
  MkRevision (rev_ID x) (rev_Version x) (rev_CreatedAt x) (rev_Checksum x) (rev_BundlePath x)
    (rev_Status x) (rev_CompiledByUserID x) (rev_CompiledByName x) (rev_ApprovalStatus x)
    (rev_RequiredApprovals x) v (rev_ApprovedAt x) (rev_Signature x) (rev_SignatureKeyID x)
    (rev_LastApplyJobID x) (rev_LastApplyStatus x) (rev_LastApplyResult x) (rev_LastApplyAt x)
    (rev_TargetSiteIDs x).
Definition set_rev_ApprovedAt (v : string) (x : Revision) : Revision :=
  MkRevision (rev_ID x) (rev_Version x) (rev_CreatedAt x) (rev_Checksum x) (rev_BundlePath x)
    (rev_Status x) (rev_CompiledByUserID x) (rev_CompiledByName x) (rev_ApprovalStatus x)
    (rev_RequiredApprovals x) (rev_Approvals x) v (rev_Signature x) (rev_SignatureKeyID x)
    (rev_LastApplyJobID x) (rev_LastApplyStatus x) (rev_LastApplyResult x) (rev_LastApplyAt x)
    (rev_TargetSiteIDs x).
Definition set_rev_LastApplyJobID (v : string) (x : Revision) : Revision :=
  MkRevision (rev_ID x) (rev_Version x) (rev_CreatedAt x) (rev_Checksum x) (rev_BundlePath x)
    (rev_Status x) (rev_CompiledByUserID x) (rev_CompiledByName x) (rev_ApprovalStatus x)
    (rev_RequiredApprovals x) (rev_Approvals x) (rev_ApprovedAt x) (rev_Signature x)
    (rev_SignatureKeyID x) v (rev_LastApplyStatus x) (rev_LastApplyResult x) (rev_LastApplyAt x)
    (rev_TargetSiteIDs x).
Definition set_rev_LastApplyStatus (v : string) (x : Revision) : Revision :=
  MkRevision (rev_ID x) (rev_Version x) (rev_CreatedAt x) (rev_Checksum x) (rev_BundlePath x)
    (rev_Status x) (rev_CompiledByUserID x) (rev_CompiledByName x) (rev_ApprovalStatus x)
    (rev_RequiredApprovals x) (rev_Approvals x) (rev_ApprovedAt x) (rev_Signature x)
    (rev_SignatureKeyID x) (rev_LastApplyJobID x) v (rev_LastApplyResult x) (rev_LastApplyAt x)
    (rev_TargetSiteIDs x).
Definition set_rev_LastApplyResult (v : string) (x : Revision) : Revision :=
  MkRevision (rev_ID x) (rev_Version x) (rev_CreatedAt x) (rev_Checksum x) (rev_BundlePath x)
    (rev_Status x) (rev_CompiledByUserID x) (rev_CompiledByName x) (rev_ApprovalStatus x)
    (rev_RequiredApprovals x) (rev_Approvals x) (rev_ApprovedAt x) (rev_Signature x)
    (rev_SignatureKeyID x) (rev_LastApplyJobID x) (rev_LastApplyStatus x) v (rev_LastApplyAt x)
    (rev_TargetSiteIDs x).
Definition set_rev_LastApplyAt (v : string) (x : Revision) : Revision :=
  MkRevision (rev_ID x) (rev_Version x) (rev_CreatedAt x) (rev_Checksum x) (rev_BundlePath x)
    (rev_Status x) (rev_CompiledByUserID x) (rev_CompiledByName x) (rev_ApprovalStatus x)
    (rev_RequiredApprovals x) (rev_Approvals x) (rev_ApprovedAt x) (rev_Signature x)
    (rev_SignatureKeyID x) (rev_LastApplyJobID x) (rev_LastApplyStatus x) (rev_LastApplyResult
    x) v (rev_TargetSiteIDs x).
Definition set_rev_CompiledByUserID (v : string) (x : Revision) : Revision :=
  MkRevision (rev_ID x) (rev_Version x) (rev_CreatedAt x) (rev_Checksum x) (rev_BundlePath x)
    (rev_Status x) v (rev_CompiledByName x) (rev_ApprovalStatus x) (rev_RequiredApprovals x)
    (rev_Approvals x) (rev_ApprovedAt x) (rev_Signature x) (rev_SignatureKeyID x)
    (rev_LastApplyJobID x) (rev_LastApplyStatus x) (rev_LastApplyResult x) (rev_LastApplyAt x)
    (rev_TargetSiteIDs x).
Definition set_rev_CompiledByName (v : string) (x : Revision) : Revision :=
  MkRevision (rev_ID x) (rev_Version x) (rev_CreatedAt x) (rev_Checksum x) (rev_BundlePath x)
    (rev_Status x) (rev_CompiledByUserID x) v (rev_ApprovalStatus x) (rev_RequiredApprovals x)
    (rev_Approvals x) (rev_ApprovedAt x) (rev_Signature x) (rev_SignatureKeyID x)
    (rev_LastApplyJobID x) (rev_LastApplyStatus x) (rev_LastApplyResult x) (rev_LastApplyAt x)
    (rev_TargetSiteIDs x).
Definition set_rev_Signature (v : string) (x : Revision) : Revision :=
  MkRevision (rev_ID x) (rev_Version x) (rev_CreatedAt x) (rev_Checksum x) (rev_BundlePath x)
    (rev_Status x) (rev_CompiledByUserID x) (rev_CompiledByName x) (rev_ApprovalStatus x)
    (rev_RequiredApprovals x) (rev_Approvals x) (rev_ApprovedAt x) v (rev_SignatureKeyID x)
    (rev_LastApplyJobID x) (rev_LastApplyStatus x) (rev_LastApplyResult x) (rev_LastApplyAt x)
    (rev_TargetSiteIDs x).
Definition set_rev_SignatureKeyID (v : string) (x : Revision) : Revision :=
  MkRevision (rev_ID x) (rev_Version x) (rev_CreatedAt x) (rev_Checksum x) (rev_BundlePath x)
    (rev_Status x) (rev_CompiledByUserID x) (rev_CompiledByName x) (rev_ApprovalStatus x)
    (rev_RequiredApprovals x) (rev_Approvals x) (rev_ApprovedAt x) (rev_Signature x) v
    (rev_LastApplyJobID x) (rev_LastApplyStatus x) (rev_LastApplyResult x) (rev_LastApplyAt x)
    (rev_TargetSiteIDs x).

Record state := MkState {
  CurrentActiveRevisionID : string;
  RevisionList : list Revision
}.

(** ** Helpers *)
Definition validateRevision (r : Revision) : result unit :=
  reject_if (is_blank (rev_ID r)) "revision id is required";;
  reject_if (rev_Version r <=? 0) "revision version must be positive";;
  reject_if (is_blank (rev_CreatedAt r)) "revision created_at is required";;
  reject_if (is_blank (rev_Checksum r)) "revision checksum is required";;
  reject_if (is_blank (rev_BundlePath r)) "revision bundle path is required";;
  reject_if (is_empty (rev_Status r)) "revision status is required".

(** The comparison of [sortRevisions]: by version, then by ID. *)
Definition rev_key (r : Revision) : Z * string := (rev_Version r, rev_ID r).

Definition sortRevisions (l : list Revision) : list Revision := sort_on rev_key l.

Definition indexByID (l : list Revision) (id : string) : option (nat * Revision) :=
  find_key rev_ID id l.

Definition normalizeApproval (a : ApprovalRecord) : ApprovalRecord :=
  MkApproval (trim_space (apr_UserID a)) (trim_space (apr_Username a))
    (trim_space (apr_Comment a)) (trim_space (apr_ApprovedAt a)).

Definition revision_not_found (id : string) : string := ("revision " ++ id ++ " not found")%string.

Definition revisions_config : doc_config state :=
  DocConfig "store" (MkState "" [])
    (fun s => MkState (CurrentActiveRevisionID s) (sortRevisions (RevisionList s))).

(** ** Operations *)
Definition defaultRevision (r : Revision) : Revision :=
  let r := if is_empty (rev_Status r) then set_rev_Status StatusPending r else r in
  if is_empty (rev_ApprovalStatus r) then set_rev_ApprovalStatus ApprovalNotRequired r else r.

Definition savePendingTx (revision : Revision) (current : state) : result (state * unit) :=
  match indexByID (RevisionList current) (rev_ID revision) with
  | Some _ => Err ("revision " ++ rev_ID revision ++ " already exists")
  | None =>
      Ok (MkState (CurrentActiveRevisionID current)
            (sortRevisions (RevisionList current ++ [revision])), tt)
  end.
Definition SavePending (revision : Revision) : sop state unit :=
  let revision := defaultRevision revision in
  lift (validateRevision revision);;
  transact revisions_config (fun _ => savePendingTx revision).

Definition deactivate (r : Revision) : Revision :=
  if String.eqb (rev_Status r) StatusActive then set_rev_Status StatusInactive r else r.

Definition markActiveTx (revisionID : string) (current : state)
  : result (state * unit) :=
  match indexByID (RevisionList current) revisionID with
  | None => Err (revision_not_found revisionID)
  | Some (index, item) =>
      let revs := deactivate <$> RevisionList current in
      let revs := <[index := set_rev_Status StatusActive (deactivate item)]> revs in
      Ok (MkState revisionID (sortRevisions revs), tt)
  end.
Definition MarkActive (revisionID : string) : sop state unit :=
  transact revisions_config (fun _ => markActiveTx revisionID).

Definition markFailedTx (revisionID : string) (current : state)
  : result (state * unit) :=
  match indexByID (RevisionList current) revisionID with
  | None => Err (revision_not_found revisionID)
  | Some (index, item) =>
      let revs := <[index := set_rev_Status StatusFailed item]> (RevisionList current) in
      let active := if String.eqb (CurrentActiveRevisionID current) revisionID
                    then ""%string else CurrentActiveRevisionID current in
      Ok (MkState active (sortRevisions revs), tt)
  end.
Definition MarkFailed (revisionID : string) : sop state unit :=
  transact revisions_config (fun _ => markFailedTx revisionID).

(** The body of [Approve] after the lookup and the duplicate check. *)
Definition approveItem (approval : ApprovalRecord) (requiredApprovals : Z) (item : Revision)
  : Revision :=
  let item := set_rev_Approvals (rev_Approvals item ++ [normalizeApproval approval]) item in
  let item := set_rev_RequiredApprovals requiredApprovals item in
  if (requiredApprovals <=? 0) || (requiredApprovals <=? Z.of_nat (length (rev_Approvals item)))
  then
    let item := set_rev_ApprovalStatus ApprovalApproved item in
    let item := set_rev_ApprovedAt (apr_ApprovedAt approval) item in
    if String.eqb (rev_Status item) StatusPendingApproval
    then set_rev_Status StatusPending item else item
  else
    set_rev_Status StatusPendingApproval (set_rev_ApprovalStatus ApprovalPending item).

Definition alreadyApproved (approval : ApprovalRecord) (item : Revision) : bool :=
  existsb (fun a => String.eqb (apr_UserID a) (trim_space (apr_UserID approval)))
    (rev_Approvals item).

Definition approveTx (revisionID : string) (approval : ApprovalRecord) (requiredApprovals : Z) (current : state)
  : result (state * Revision) :=
  match indexByID (RevisionList current) revisionID with
  | None => Err (revision_not_found revisionID)
  | Some (index, item) =>
      if alreadyApproved approval item
      then Err ("revision " ++ revisionID ++ " already approved by " ++ apr_UserID approval)
      else
        let item := approveItem approval requiredApprovals item in
        Ok (MkState (CurrentActiveRevisionID current)
              (sortRevisions (<[index := item]> (RevisionList current))), item)
  end.
Definition Approve (revisionID : string) (approval : ApprovalRecord) (requiredApprovals : Z) : sop state Revision :=
  transact revisions_config (fun _ => approveTx revisionID approval requiredApprovals).

Definition updateRevisionTx (revision : Revision) (current : state)
  : result (state * unit) :=
  match indexByID (RevisionList current) (rev_ID revision) with
  | None => Err (revision_not_found (rev_ID revision))
  | Some (index, _) =>
      validateRevision revision;;
      Ok (MkState (CurrentActiveRevisionID current)
            (sortRevisions (<[index := revision]> (RevisionList current))), tt)
  end.
Definition UpdateRevision (revision : Revision) : sop state unit :=
  transact revisions_config (fun _ => updateRevisionTx revision).

(** [(revision, true, nil)] is [Some revision], [(_, false, nil)] is [None]. *)
Definition Get (revisionID : string) : sop state (option Revision) :=
  query revisions_config (fun _ current => Ok (snd <$> indexByID (RevisionList current) revisionID)).

Definition resetStatusesTx (current : state)
  : result (state * unit) :=
  let revs := (fun r => if String.eqb (rev_Status r) StatusActive then r
                        else set_rev_Status StatusInactive r) <$> RevisionList current in
  Ok (MkState (CurrentActiveRevisionID current) (sortRevisions revs), tt).
Definition ResetStatuses : sop state unit :=
  transact revisions_config (fun _ => resetStatusesTx).

Definition setApplyResult (jobID status0 result0 appliedAt : string) (r : Revision) : Revision :=
  set_rev_LastApplyAt (trim_space appliedAt)
    (set_rev_LastApplyResult (trim_space result0)
       (set_rev_LastApplyStatus (trim_space status0)
          (set_rev_LastApplyJobID (trim_space jobID) r))).

Definition recordApplyResultTx (revisionID jobID status0 result0 appliedAt : string) (current : state)
  : result (state * unit) :=
  match indexByID (RevisionList current) revisionID with
  | None => Err (revision_not_found revisionID)
  | Some (index, item) =>
      let revs := <[index := setApplyResult jobID status0 result0 appliedAt item]>
                    (RevisionList current) in
      Ok (MkState (CurrentActiveRevisionID current) (sortRevisions revs), tt)
  end.
Definition RecordApplyResult (revisionID jobID status0 result0 appliedAt : string) : sop state unit :=
  transact revisions_config (fun _ => recordApplyResultTx revisionID jobID status0 result0 appliedAt).

Definition List : sop state (list Revision) :=
  query revisions_config (fun _ current => Ok (sortRevisions (RevisionList current))).

Definition CurrentActive : sop state (option Revision) :=
  query revisions_config (fun _ current =>
    if is_empty (CurrentActiveRevisionID current) then Ok None
    else Ok (snd <$> indexByID (RevisionList current) (CurrentActiveRevisionID current))).

Definition deleteTx (revisionID : string) (current : state) : result (state * unit) :=
  if String.eqb (CurrentActiveRevisionID current) revisionID
  then Err ("revision " ++ revisionID ++ " is active and cannot be deleted")
  else
    match indexByID (RevisionList current) revisionID with
    | None => Err (revision_not_found revisionID)
    | Some (i, _) =>
        Ok (MkState (CurrentActiveRevisionID current)
              (sortRevisions (delete i (RevisionList current))), tt)
    end.
Definition Delete (revisionID : string) : sop state unit :=
  let revisionID := normalize_id revisionID in
  lift (reject_if (is_empty revisionID) "revision id is required");;
  transact revisions_config (fun _ => deleteTx revisionID).

(** The mutating operations as data, for histories. *)
Inductive command :=
| CSavePending (r : Revision)
| CMarkActive (id : string)
| CMarkFailed (id : string)
| CApprove (id : string) (a : ApprovalRecord) (required : Z)
| CUpdateRevision (r : Revision)
| CResetStatuses
| CRecordApplyResult (id job status0 result0 at_ : string)
| CDelete (id : string).

Definition exec (c : command) : sop state unit :=
  match c with
  | CSavePending r => SavePending r
  | CMarkActive id => MarkActive id
  | CMarkFailed id => MarkFailed id
  | CApprove id a n => (fun _ => tt) <$> Approve id a n
  | CUpdateRevision r => UpdateRevision r
  | CResetStatuses => ResetStatuses
  | CRecordApplyResult id j s r t => RecordApplyResult id j s r t
  | CDelete id => Delete id
  end.

(** ** Well-formed documents *)
Definition valid (r : Revision) : Prop := validateRevision r = Ok tt.

Record wf (s : state) : Prop := {
  wf_ids : NoDup (rev_ID <$> RevisionList s);
  wf_valid : Forall valid (RevisionList s);
  wf_sorted : sorted_on rev_key (RevisionList s)
}.

(** Two revisions that agree on what identifies and orders them. *)
Definition same_core (x y : Revision) : Prop :=
  rev_ID y = rev_ID x /\ rev_Version y = rev_Version x /\ rev_CreatedAt y = rev_CreatedAt x /\
  rev_Checksum y = rev_Checksum x /\ rev_BundlePath y = rev_BundlePath x.

Lemma valid_same_core x y :
  same_core x y -> rev_Status y <> ""%string -> valid x -> valid y.
Proof.
  intros (E1 & E2 & E3 & E4 & E5) Hs. unfold valid, validateRevision.
  rewrite E1, E2, E3, E4, E5. apply is_empty_false in Hs. rewrite Hs.
  unbind. do 5 (destruct (reject_if _ _) as [[]|]; [|discriminate]). done.
Qed.

Lemma valid_status r : valid r -> rev_Status r <> ""%string.
Proof.
  unfold valid, validateRevision. intros Hv Hs. rewrite Hs in Hv.
  unbind. by do 5 (destruct (reject_if _ _) as [[]|]; [|discriminate]).
Qed.

Lemma wf_sort a l : NoDup (rev_ID <$> l) -> Forall valid l -> wf (MkState a (sortRevisions l)).
Proof.
  intros Hn Hv. split; simpl; unfold sortRevisions;
    [by apply NoDup_fmap_sort_on | by apply Forall_sort_on | apply sort_on_sorted].
Qed.

#[export] Instance wf_inv : DocInv revisions_config wf.
Proof.
  split; [split; constructor|]. intros [a l] [Hn Hv _]. by apply wf_sort.
Qed.

(** Replacing the item found by an identifier with one of the same core. *)
Lemma wf_replace a l i x y :
  NoDup (rev_ID <$> l) -> Forall valid l -> l !! i = Some x -> same_core x y ->
  rev_Status y <> ""%string -> wf (MkState a (sortRevisions (<[i:=y]> l))).
Proof.
  intros Hn Hv Hi Hc Hs. apply wf_sort.
  - rewrite (fmap_key_insert rev_ID l i x y Hi); [done | apply Hc].
  - apply Forall_insert_list; [done|]. apply (valid_same_core x); [done..|].
    by eapply Forall_lookup_1.
Qed.

Lemma same_core_refl x : same_core x x.
Proof. done. Qed.

Lemma deactivate_core x : same_core x (deactivate x).
Proof. unfold deactivate. by destruct (String.eqb _ _). Qed.

Lemma deactivate_status x : rev_Status x <> ""%string -> rev_Status (deactivate x) <> ""%string.
Proof. unfold deactivate. by destruct (String.eqb _ _). Qed.

Lemma deactivate_not_active x : rev_Status (deactivate x) <> StatusActive.
Proof.
  unfold deactivate. destruct (String.eqb (rev_Status x) StatusActive) eqn:E; [done|].
  by apply String.eqb_neq in E.
Qed.

Lemma approveItem_core a n x : same_core x (approveItem a n x).
Proof. unfold approveItem. cbv zeta. repeat case_match; done. Qed.

Lemma approveItem_status a n x :
  rev_Status x <> ""%string -> rev_Status (approveItem a n x) <> ""%string.
Proof. unfold approveItem. cbv zeta. repeat case_match; done. Qed.

Lemma wf_map (f : Revision -> Revision) l :
  (forall x, same_core x (f x)) -> (forall x, rev_Status x <> ""%string -> rev_Status (f x) <> ""%string) ->
  NoDup (rev_ID <$> l) -> Forall valid l ->
  NoDup (rev_ID <$> (f <$> l)) /\ Forall valid (f <$> l).
Proof.
  intros Hf Hs Hn Hv. split.
  - rewrite <- list_fmap_compose.
    rewrite (list_fmap_ext (rev_ID ∘ f) rev_ID); [done|]. intros i x _. apply Hf.
  - apply Forall_fmap, Forall_forall. intros x Hx. rewrite Forall_forall in Hv.
    apply Hv in Hx. simpl. apply (valid_same_core x); [apply Hf | by apply Hs, valid_status | done].
Qed.

#[local] Hint Resolve deactivate_core approveItem_core same_core_refl approveItem_status
  deactivate_status valid_status : go.


(** *** Each computation keeps documents well formed *)
Lemma defaultRevision_core r : same_core r (defaultRevision r).
Proof. unfold defaultRevision. by repeat case_match. Qed.

Lemma defaultRevision_status r :
  rev_Status r <> StatusActive -> rev_Status (defaultRevision r) <> StatusActive.
Proof. unfold defaultRevision. by repeat case_match. Qed.

Lemma setApplyResult_core j st r t x : same_core x (setApplyResult j st r t x).
Proof. done. Qed.

(** Opens a computation that starts by looking an identifier up. *)
Ltac open_find :=
  match goal with
  | |- context [indexByID ?l ?id] =>
      destruct (indexByID l id) as [[i x]|] eqn:Hi; [|discriminate];
      apply find_key_Some in Hi as [Hi Hid]
  end.

Lemma savePendingTx_wf r d d' u :
  valid r -> wf d -> savePendingTx r d = Ok (d', u) -> wf d'.
Proof.
  intros Hval [Hn Hv Hs]. unfold savePendingTx.
  destruct (indexByID _ _) as [[i x]|] eqn:Hi; [discriminate|]. intros [= <- _].
  apply find_key_None in Hi. apply wf_sort; [by apply NoDup_key_snoc|].
  apply Forall_app; split; [done | by constructor].
Qed.

Lemma markActiveTx_wf id d d' u : wf d -> markActiveTx id d = Ok (d', u) -> wf d'.
Proof.
  intros [Hn Hv Hs]. unfold markActiveTx. open_find. intros [= <- _].
  destruct (wf_map deactivate (RevisionList d)) as [Hn' Hv']; [auto with go..|].
  apply (wf_replace _ _ i (deactivate x)); try done. by rewrite list_lookup_fmap, Hi.
Qed.

Lemma markFailedTx_wf id d d' u : wf d -> markFailedTx id d = Ok (d', u) -> wf d'.
Proof.
  intros [Hn Hv Hs]. unfold markFailedTx. open_find. intros [= <- _].
  by apply (wf_replace _ _ i x).
Qed.

Lemma approveTx_wf id a n d d' u : wf d -> approveTx id a n d = Ok (d', u) -> wf d'.
Proof.
  intros [Hn Hv Hs]. unfold approveTx. open_find.
  destruct (alreadyApproved a x); [discriminate|]. intros [= <- _].
  assert (valid x) by (by eapply Forall_lookup_1).
  apply (wf_replace _ _ i x); auto with go.
Qed.

Lemma updateRevisionTx_wf r d d' u : wf d -> updateRevisionTx r d = Ok (d', u) -> wf d'.
Proof.
  intros [Hn Hv Hs]. unfold updateRevisionTx. open_find.
  destruct (validateRevision r) as [[]|e] eqn:Hval; [|discriminate]. intros [= <- _].
  apply wf_sort; [by rewrite (fmap_key_insert rev_ID _ i x r) | by apply Forall_insert_list].
Qed.

Lemma resetStatusesTx_wf d d' u : wf d -> resetStatusesTx d = Ok (d', u) -> wf d'.
Proof.
  intros [Hn Hv Hs] [= <- _].
  apply wf_sort; apply wf_map; try done; intros x; by case_match.
Qed.

Lemma recordApplyResultTx_wf id j st r t d d' u :
  wf d -> recordApplyResultTx id j st r t d = Ok (d', u) -> wf d'.
Proof.
  intros [Hn Hv Hs]. unfold recordApplyResultTx. open_find. intros [= <- _].
  assert (valid x) by (by eapply Forall_lookup_1).
  apply (wf_replace _ _ i x); auto with go. by apply valid_status in H.
Qed.

Lemma deleteTx_wf id d d' u : wf d -> deleteTx id d = Ok (d', u) -> wf d'.
Proof.
  intros [Hn Hv Hs]. unfold deleteTx. destruct (String.eqb _ _); [discriminate|].
  open_find. intros [= <- _].
  apply wf_sort; [by apply NoDup_key_delete | by apply Forall_delete].
Qed.

(** *** The commands the program issues

    Compilation saves revisions that are neither active nor approved;
    [UpdateRevision] has no caller. *)
Definition issued (c : command) : Prop :=
  match c with
  | CSavePending r =>
      rev_Status r <> StatusActive /\ rev_Approvals r = [] /\ rev_ApprovalStatus r <> ApprovalApproved
  | CUpdateRevision _ => False
  | _ => True
  end.

(** An invariant that every computation keeps is kept by every command. *)
Section ExecPreserves.
Variables (J : state -> Prop) (ok : command -> Prop).
Context `{!DocInv revisions_config J}.
Hypothesis save_ok : forall r d d' u, ok (CSavePending r) -> valid (defaultRevision r) ->
  J d -> savePendingTx (defaultRevision r) d = Ok (d', u) -> J d'.
Hypothesis active_ok : forall id d d' u, J d -> markActiveTx id d = Ok (d', u) -> J d'.
Hypothesis failed_ok : forall id d d' u, J d -> markFailedTx id d = Ok (d', u) -> J d'.
Hypothesis approve_ok : forall id a n d d' u, ok (CApprove id a n) ->
  J d -> approveTx id a n d = Ok (d', u) -> J d'.
Hypothesis update_ok : forall r d d' u, ok (CUpdateRevision r) ->
  J d -> updateRevisionTx r d = Ok (d', u) -> J d'.
Hypothesis reset_ok : forall d d' u, J d -> resetStatusesTx d = Ok (d', u) -> J d'.
Hypothesis record_ok : forall id j st r t d d' u,
  J d -> recordApplyResultTx id j st r t d = Ok (d', u) -> J d'.
Hypothesis delete_ok : forall id d d' u, J d -> deleteTx id d = Ok (d', u) -> J d'.

Lemma exec_preserves c : ok c -> preserves J (exec c).
Proof using All.
destruct c as [r|id|id|id a n|r| |id j st r t|id]; simpl; intros Hok.
- unfold SavePending. destruct (validateRevision _) as [[]|e] eqn:Hval; [|by intros ? s].
apply bind_preserves; [apply lift_preserves|]. intros _.
apply transact_preserves; [done|]. intros t0 d d' u Hd E. eapply save_ok; [exact Hok|exact Hval|exact Hd|exact E].
- apply transact_preserves; [done|]. intros t0 d d' u Hd E. eapply active_ok; [exact Hd|exact E].
- apply transact_preserves; [done|]. intros t0 d d' u Hd E. eapply failed_ok; [exact Hd|exact E].
- apply fmap_preserves, transact_preserves; [done|]. intros t0 d d' u Hd E. eapply approve_ok; [exact Hok|exact Hd|exact E].
- apply transact_preserves; [done|]. intros t0 d d' u Hd E. eapply update_ok; [exact Hok|exact Hd|exact E].
- apply transact_preserves; [done|]. intros t0 d d' u Hd E. eapply reset_ok; [exact Hd|exact E].
- apply transact_preserves; [done|]. intros t0 d d' u Hd E. eapply record_ok; [exact Hd|exact E].
- unfold Delete. apply bind_preserves; [apply lift_preserves|]. intros _.
apply transact_preserves; [done|]. intros t0 d d' u Hd E. eapply delete_ok; [exact Hd|exact E].
Qed.
End ExecPreserves.

Lemma exec_wf c : preserves wf (exec c).
Proof.
  apply (exec_preserves wf (fun _ => True)); [..|done].
  - intros r d d' u _. apply savePendingTx_wf.
  - apply markActiveTx_wf.
  - apply markFailedTx_wf.
  - intros id a n d d' u _. apply approveTx_wf.
  - intros r d d' u _. apply updateRevisionTx_wf.
  - apply resetStatusesTx_wf.
  - apply recordApplyResultTx_wf.
  - apply deleteTx_wf.
Qed.

(** ** The active revision *)
Record linked (s : state) : Prop := {
  linked_active r :
    r ∈ RevisionList s -> rev_Status r = StatusActive -> rev_ID r = CurrentActiveRevisionID s;
  linked_pointer :
    CurrentActiveRevisionID s <> ""%string ->
    CurrentActiveRevisionID s ∈ rev_ID <$> RevisionList s
}.

Definition lifecycle (s : state) : Prop := wf s /\ linked s.

Lemma linked_sort a l : linked (MkState a l) -> linked (MkState a (sortRevisions l)).
Proof.
  intros [H1 H2]. split; simpl in *; unfold sortRevisions.
  - intros r Hr. apply H1. by apply elem_of_sort_on in Hr.
  - intros Ha. rewrite sort_on_perm. auto.
Qed.

#[export] Instance lifecycle_inv : DocInv revisions_config lifecycle.
Proof.
  split.
  - split; [apply (inv_zero (I := wf))|]. split; simpl; [by intros r ?%not_elem_of_nil | done].
  - intros [a l] [Hw Hl]. split; [by apply (inv_sort (I := wf)) in Hw | by apply linked_sort].
Qed.

(** Replacing an item by one that is not newly active keeps the link. *)
Lemma linked_replace a l i x y :
  linked (MkState a l) -> l !! i = Some x -> rev_ID y = rev_ID x ->
  (rev_Status y = StatusActive -> rev_Status x = StatusActive) ->
  linked (MkState a (<[i:=y]> l)).
Proof.
  intros [H1 H2] Hi Hid Hst. split; simpl in *.
  - intros r Hr Ha. destruct (elem_of_insert_list l i x y r Hi Hr) as [->|Hr']; [|by apply H1].
    rewrite Hid. apply H1; [by eapply list_elem_of_lookup_2 | by apply Hst].
  - intros Ha. rewrite (fmap_key_insert rev_ID l i x y Hi Hid). auto.
Qed.

Lemma approveItem_active a n x :
  rev_Status (approveItem a n x) = StatusActive -> rev_Status x = StatusActive.
Proof.
  unfold approveItem. cbv zeta. destruct (_ || _); simpl; [|discriminate].
  destruct (String.eqb _ _); [discriminate | done].
Qed.

(** A lookup in a list of distinct identifiers picks the item by identity. *)
Lemma lookup_same_id l i x y :
  NoDup (rev_ID <$> l) -> l !! i = Some x -> y ∈ l -> rev_ID y = rev_ID x -> y = x.
Proof.
  intros Hn Hi [j Hj]%list_elem_of_lookup Hid.
  assert (i = j) as <-; [|congruence].
  eapply NoDup_lookup; [exact Hn|..]; rewrite list_lookup_fmap, ?Hi, ?Hj; simpl; by rewrite ?Hid.
Qed.

Lemma markActiveTx_linked id d d' u :
  lifecycle d -> markActiveTx id d = Ok (d', u) -> linked d'.
Proof.
  intros [[Hn Hv Hs] [H1 H2]]. unfold markActiveTx. open_find. intros [= <- _].
  assert (Hi' : (deactivate <$> RevisionList d) !! i = Some (deactivate x))
    by (by rewrite list_lookup_fmap, Hi).
  apply linked_sort. split; simpl.
  - intros r Hr Ha. destruct (elem_of_insert_list _ _ _ _ _ Hi' Hr) as [->|Hr'].
    + simpl. rewrite <- Hid. apply deactivate_core.
    + apply list_elem_of_fmap in Hr' as (r0 & -> & _). by apply deactivate_not_active in Ha.
  - intros _. rewrite list_fmap_insert. apply list_elem_of_lookup. exists i.
    rewrite list_lookup_insert_eq.
    + simpl. f_equal. rewrite <- Hid. apply deactivate_core.
    + rewrite !length_fmap. by eapply lookup_lt_Some.
Qed.

Lemma markFailedTx_linked id d d' u :
  lifecycle d -> markFailedTx id d = Ok (d', u) -> linked d'.
Proof.
  intros [[Hn Hv Hs] Hl]. unfold markFailedTx. open_find. intros [= <- _]. apply linked_sort.
  destruct d as [cur l]; simpl in *.
  destruct (String.eqb cur id) eqn:Hc; [|by apply (linked_replace _ _ i x)].
  apply String.eqb_eq in Hc as ->. split; simpl; [|done]. intros r Hr Ha. exfalso.
  destruct (elem_of_insert_list l i x _ r Hi Hr) as [->|Hr']; [discriminate|].
  destruct Hl as [H1 _]. simpl in H1.
  assert (r = x) as -> by (eapply lookup_same_id; [done..|]; rewrite Hid; by apply H1).
  apply list_elem_of_lookup in Hr as [j Hj].
  destruct (decide (i = j)) as [<-|Hne].
  - rewrite list_lookup_insert_eq in Hj by (by eapply lookup_lt_Some). injection Hj as Hj.
    rewrite <- Hj in Ha. discriminate.
  - rewrite list_lookup_insert_ne in Hj by done. apply Hne.
    eapply NoDup_lookup; [exact Hn|..]; rewrite list_lookup_fmap, ?Hi, ?Hj; done.
Qed.

Lemma approveTx_linked id a n d d' u :
  lifecycle d -> approveTx id a n d = Ok (d', u) -> linked d'.
Proof.
  intros [_ Hl]. unfold approveTx. open_find.
  destruct (alreadyApproved a x); [discriminate|]. intros [= <- _].
  destruct d as [cur l]. apply linked_sort, (linked_replace _ _ i x); try done.
  - apply approveItem_core.
  - apply approveItem_active.
Qed.

Lemma savePendingTx_linked r d d' u :
  rev_Status r <> StatusActive -> lifecycle d -> savePendingTx r d = Ok (d', u) -> linked d'.
Proof.
  intros Hr [_ [H1 H2]]. unfold savePendingTx.
  destruct (indexByID _ _) as [[i x]|]; [discriminate|]. intros [= <- _].
  apply linked_sort. split; simpl.
  - intros r0 [Hr0|Hr0]%elem_of_app; [by apply H1|]. by apply list_elem_of_singleton in Hr0 as ->.
  - intros Hc. rewrite fmap_app. apply elem_of_app; auto.
Qed.

Lemma resetStatusesTx_linked d d' u :
  lifecycle d -> resetStatusesTx d = Ok (d', u) -> linked d'.
Proof.
  intros [_ [H1 H2]] [= <- _]. apply linked_sort. split; simpl.
  - intros r (r0 & -> & Hr0)%list_elem_of_fmap. destruct (String.eqb _ _) eqn:E; [|discriminate].
    by apply H1.
  - intros Hc. rewrite <- list_fmap_compose.
    rewrite (list_fmap_ext _ rev_ID); [by apply H2|]. intros ? r _. simpl. by case_match.
Qed.

Lemma recordApplyResultTx_linked id j st r t d d' u :
  lifecycle d -> recordApplyResultTx id j st r t d = Ok (d', u) -> linked d'.
Proof.
  intros [_ Hl]. unfold recordApplyResultTx. open_find. intros [= <- _].
  destruct d as [cur l]. by apply linked_sort, (linked_replace _ _ i x).
Qed.

Lemma deleteTx_linked id d d' u : lifecycle d -> deleteTx id d = Ok (d', u) -> linked d'.
Proof.
  intros [[Hn _ _] [H1 H2]]. unfold deleteTx.
  destruct (String.eqb _ id) eqn:Hc; [discriminate|]. apply String.eqb_neq in Hc.
  open_find. intros [= <- _]. apply linked_sort. split; simpl.
  - intros r Hr. apply H1. by eapply (elem_of_delete_key rev_ID) in Hr as [Hr _].
  - intros Ha. apply H2 in Ha as (r & Hr & Hin)%list_elem_of_fmap. rewrite Hr.
    apply list_elem_of_fmap_2. apply (elem_of_delete_key rev_ID _ i x); [done..|].
    split; [done|]. congruence.
Qed.

Lemma exec_lifecycle c : issued c -> preserves lifecycle (exec c).
Proof.
  apply (exec_preserves lifecycle issued).
  - intros r d d' u [Hr _] Hval Hd E. split.
    + by eapply savePendingTx_wf; [|apply Hd|].
    + eapply savePendingTx_linked; [by apply defaultRevision_status in Hr | done..].
  - intros id d d' u Hd E. split; [by eapply markActiveTx_wf; [apply Hd|] | by eapply markActiveTx_linked].
  - intros id d d' u Hd E. split; [by eapply markFailedTx_wf; [apply Hd|] | by eapply markFailedTx_linked].
  - intros id a n d d' u _ Hd E. split; [by eapply approveTx_wf; [apply Hd|] | by eapply approveTx_linked].
  - intros r d d' u [].
  - intros d d' u Hd E. split; [by eapply resetStatusesTx_wf; [apply Hd|] | by eapply resetStatusesTx_linked].
  - intros id j st r t d d' u Hd E.
    split; [by eapply recordApplyResultTx_wf; [apply Hd|] | by eapply recordApplyResultTx_linked].
  - intros id d d' u Hd E. split; [by eapply deleteTx_wf; [apply Hd|] | by eapply deleteTx_linked].
Qed.

(** ** Properties of single revisions that only concern their review *)
Definition same_review (x y : Revision) : Prop :=
  rev_Approvals y = rev_Approvals x /\ rev_ApprovalStatus y = rev_ApprovalStatus x /\
  rev_CompiledByUserID y = rev_CompiledByUserID x /\ rev_ID y = rev_ID x.

Lemma defaultRevision_review r : rev_ApprovalStatus r <> ""%string -> same_review r (defaultRevision r).
Proof.
  intros Hs%is_empty_false. unfold defaultRevision. destruct (is_empty (rev_Status r)); simpl; by rewrite Hs.
Qed.

Lemma deactivate_review x : same_review x (deactivate x).
Proof. unfold deactivate. by case_match. Qed.

Section ForallRevisions.
Variables (P : Revision -> Prop) (ok : command -> Prop).
Definition all_revisions (s : state) : Prop := Forall P (RevisionList s).

#[export] Instance all_revisions_inv : DocInv revisions_config all_revisions.
Proof. split; [constructor|]. intros [a l] H. by apply Forall_sort_on. Qed.

Lemma approveTx_forall id a n d d' r :
  all_revisions d -> approveTx id a n d = Ok (d', r) ->
  (forall i x, indexByID (RevisionList d) id = Some (i, x) -> alreadyApproved a x = false -> P x ->
    P (approveItem a n x)) -> all_revisions d'.
Proof.
  destruct d as [cur l]. intros Hd. unfold approveTx. cbn [RevisionList].
  destruct (indexByID l id) as [[i x]|] eqn:Hi; [|discriminate].
  destruct (alreadyApproved a x) eqn:Hal; [discriminate|]. intros [= <- _] Happ.
  apply Forall_sort_on, Forall_insert_list; [done|]. apply (Happ i x); [done..|].
  apply find_key_Some in Hi as [Hi _]. by apply (Forall_lookup_1 _ _ _ _ Hd Hi).
Qed.

Hypothesis P_review : forall x y, same_review x y -> P x -> P y.
Hypothesis save_ok : forall r, ok (CSavePending r) -> P (defaultRevision r).
Hypothesis approve_ok : forall id a n x, ok (CApprove id a n) -> alreadyApproved a x = false -> P x ->
  P (approveItem a n x).
Hypothesis update_ok : forall r, ~ ok (CUpdateRevision r).

Lemma replace_review l i x y :
  Forall P l -> l !! i = Some x -> same_review x y -> Forall P (<[i := y]> l).
Proof using P_review.
intros Hl Hi Hxy. apply Forall_insert_list; [done|]. apply (P_review x); [done|].
by apply (Forall_lookup_1 _ _ _ _ Hl Hi).
Qed.

Lemma map_review (f : Revision -> Revision) l :
  (forall x, same_review x (f x)) -> Forall P l -> Forall P (f <$> l).
Proof using P_review.
intros Hf Hl. apply Forall_fmap. eapply Forall_impl; [exact Hl|]. intros x. by apply P_review.
Qed.

Lemma exec_forall c : ok c -> preserves all_revisions (exec c).
Proof using All.
unfold all_revisions. apply (exec_preserves all_revisions ok); unfold all_revisions.
- intros r [cur l] d' u Hok _ Hd. unfold savePendingTx.
destruct (indexByID _ _) as [[i x]|]; [discriminate|]. intros [= <- _].
apply Forall_sort_on, Forall_app; split; [done|]. constructor; [by apply save_ok | done].
- intros id [cur l] d' u Hd. unfold markActiveTx. open_find. intros [= <- _]. cbn [RevisionList] in *.
apply Forall_sort_on, (replace_review _ _ (deactivate x)); [|by rewrite list_lookup_fmap, Hi|done].
apply map_review; [apply deactivate_review | done].
- intros id [cur l] d' u Hd. unfold markFailedTx. open_find. intros [= <- _]. cbn [RevisionList] in *.
by apply Forall_sort_on, (replace_review _ _ x).
- intros id a n d d' r Hok Hd E. apply (approveTx_forall id a n d d' r Hd E).
intros i x _. by apply (approve_ok id).
- intros r d d' u []%update_ok.
- intros [cur l] d' u Hd [= <- _]. apply Forall_sort_on, map_review; [|done]. intros x. by case_match.
- intros id j st r t [cur l] d' u Hd. unfold recordApplyResultTx. open_find. intros [= <- _].
cbn [RevisionList] in *. by apply Forall_sort_on, (replace_review _ _ x).
- intros id [cur l] d' u Hd. unfold deleteTx. case_match; [discriminate|].
open_find. intros [= <- _]. apply Forall_sort_on. by apply Forall_delete.
Qed.
End ForallRevisions.

(** ** Approval quorum *)

(** Under a policy of [N] approvals: compilation saves revisions as waiting
    for approval and every approval is recorded against at least [N]. *)
Definition governed (N : Z) (c : command) : Prop :=
  match c with
  | CSavePending r => rev_Approvals r = [] /\ rev_ApprovalStatus r = ApprovalPending
  | CApprove _ _ n => N <= n
  | CUpdateRevision _ => False
  | _ => True
  end.

Record quorate (N : Z) (r : Revision) : Prop := {
  quorate_distinct : NoDup (apr_UserID <$> rev_Approvals r);
  quorate_status : rev_ApprovalStatus r = ApprovalPending \/
    rev_ApprovalStatus r = ApprovalApproved /\ N <= Z.of_nat (length (rev_Approvals r))
}.

Definition all_quorate (N : Z) : state -> Prop := all_revisions (quorate N).

Lemma alreadyApproved_false a x :
  alreadyApproved a x = false <-> trim_space (apr_UserID a) ∉ apr_UserID <$> rev_Approvals x.
Proof.
  unfold alreadyApproved. rewrite <- not_true_iff_false, existsb_exists, list_elem_of_fmap.
  split; intros H; contradict H.
  - destruct H as (b & -> & Hb). exists b. rewrite <- list_elem_of_In. split; [done|].
    apply String.eqb_refl.
  - destruct H as (b & Hb & E). apply String.eqb_eq in E. exists b.
    split; [done|]. by apply list_elem_of_In.
Qed.

Lemma approveItem_quorate N a n x :
  N <= n -> alreadyApproved a x = false -> quorate N x -> quorate N (approveItem a n x).
Proof.
  intros Hn Ha%alreadyApproved_false [H1 H2].
  assert (E : rev_Approvals (approveItem a n x) = rev_Approvals x ++ [normalizeApproval a]).
  { unfold approveItem. cbv zeta. by repeat case_match. }
  split; rewrite ?E; [by apply NoDup_key_snoc|].
  unfold approveItem. cbv zeta. cbn [rev_Approvals set_rev_RequiredApprovals set_rev_Approvals].
  destruct ((n <=? 0) || _) eqn:Hq; [right | by left].
  split; [by case_match|]. rewrite length_app in *. simpl in *.
  apply orb_true_iff in Hq as [Hq|Hq]; apply Z.leb_le in Hq; lia.
Qed.

Lemma exec_quorate N c : governed N c -> preserves (all_quorate N) (exec c).
Proof.
  apply (exec_forall (quorate N) (governed N)); cbn [governed].
  - intros x y (E1 & E2 & _) [H1 H2]. split; by rewrite ?E1, ?E2.
  - intros r [Ha Hs]. destruct (defaultRevision_review r) as (E1 & E2 & _); [by rewrite Hs|].
    split; rewrite ?E1, ?E2; [rewrite Ha; apply NoDup_nil_2 | by left].
  - intros id a n x Hn. by apply approveItem_quorate.
  - intros r [].
Qed.

(** ** Properties *)

(** C1: After any sequence of the commands the program issues, on a fresh store and under any
    clock readings and backend failures, the stored document has unique revision IDs sorted by
    version, at most one revision has status active, it is the one named by
    current_active_revision_id, and that field always names a stored revision. *)
Theorem active_revision_unique (h : list (env * command)) (d : state) :
  Forall (fun ec => issued ec.2) h ->
  visible (run_history exec h new_file_state) = Some (Decodes d) ->
  NoDup (rev_ID <$> RevisionList d) /\ sorted_on rev_key (RevisionList d) /\
  (forall r1 r2, r1 ∈ RevisionList d -> r2 ∈ RevisionList d ->
     rev_Status r1 = StatusActive -> rev_Status r2 = StatusActive -> r1 = r2) /\
  (forall r, r ∈ RevisionList d -> rev_Status r = StatusActive ->
     rev_ID r = CurrentActiveRevisionID d) /\
  (CurrentActiveRevisionID d <> ""%string ->
     exists r, r ∈ RevisionList d /\ rev_ID r = CurrentActiveRevisionID d).
Proof.
  intros Hh Hd. pose proof (history_preserves_if exec lifecycle issued h new_file_state
    exec_lifecycle Hh (holds_new_file _) d Hd) as [[Hn Hv Hs] [H1 H2]].
  split_and!; [done..| |done|].
  - intros r1 r2 Hr1 Hr2 Ha1 Ha2. pose proof Hr2 as [j Hj]%list_elem_of_lookup.
    eapply lookup_same_id; [done..|]. by rewrite (H1 _ Hr1 Ha1), (H1 _ Hr2 Ha2).
  - intros Hc. apply H2 in Hc as (r & -> & Hr)%list_elem_of_fmap. eauto.
Qed.

Definition sample_revision : Revision :=
  MkRevision "rev-1" 1 "2026-01-01T00:00:00Z" "sum" "path" "" "alice" "alice" "pending" 2
    [] "" "" "" "" "" "" "" [].
Definition sample_revision2 : Revision :=
  MkRevision "rev-2" 2 "2026-01-01T00:00:00Z" "sum" "path" "pending" "alice" "alice" "pending" 2
    [] "" "" "" "" "" "" "" [].

Definition sample_history : list (env * command) :=
  [(healthy 0, CSavePending sample_revision2); (healthy 1, CSavePending sample_revision);
   (healthy 2, CMarkActive "rev-1"); (healthy 3, CMarkActive "rev-2")].

Lemma active_revision_unique_witness :
  exists d, visible (run_history exec sample_history new_file_state) = Some (Decodes d) /\
    rev_ID <$> RevisionList d = ["rev-1"; "rev-2"]%string /\
    rev_Status <$> RevisionList d = ["inactive"; "active"]%string /\
    NoDup (rev_ID <$> RevisionList d).
Proof.
  eexists. split; [vm_compute; reflexivity|]. split; [reflexivity|]. split; [reflexivity|].
  apply (active_revision_unique sample_history); [|vm_compute; reflexivity].
  repeat constructor; discriminate.
Defined.

(** C2: Four-eyes rule. If every revision is saved as waiting for approval and every approval
    is recorded against a quorum of at least N, then in every reachable document a revision whose
    approval status is anything but pending is approved, and carries at least N approvals by
    pairwise distinct users. *)
Theorem approval_quorum (N : Z) (h : list (env * command)) (d : state) (r : Revision) :
  Forall (fun ec => governed N ec.2) h ->
  visible (run_history exec h new_file_state) = Some (Decodes d) ->
  r ∈ RevisionList d -> rev_ApprovalStatus r <> ApprovalPending ->
  rev_ApprovalStatus r = ApprovalApproved /\
  NoDup (apr_UserID <$> rev_Approvals r) /\ N <= Z.of_nat (length (rev_Approvals r)).
Proof.
  intros Hh Hd Hr Hp. pose proof (history_preserves_if exec (all_quorate N) (governed N) h
    new_file_state (exec_quorate N) Hh (holds_new_file _) d Hd) as Hall.
  unfold all_quorate, all_revisions in Hall. rewrite Forall_forall in Hall.
  destruct (Hall r Hr) as [Hn [Hs|[Hs Hlen]]]; [by destruct Hp | done].
Qed.

Definition approval_history : list (env * command) :=
  [(healthy 0, CSavePending sample_revision);
   (healthy 1, CApprove "rev-1" (MkApproval "bob" "bob" "" "t1") 2);
   (healthy 2, CApprove "rev-1" (MkApproval " bob " "bob" "" "t2") 2);
   (healthy 3, CApprove "rev-1" (MkApproval "carol" "carol" "" "t3") 2)].

Lemma approval_quorum_witness :
  exists d r, visible (run_history exec approval_history new_file_state) = Some (Decodes d) /\
    r ∈ RevisionList d /\ rev_ApprovalStatus r = ApprovalApproved /\
    2 <= Z.of_nat (length (rev_Approvals r)).
Proof.
  eexists _, _. split; [vm_compute; reflexivity|]. split; [left|].
  destruct (approval_quorum 2 approval_history _ _
    ltac:(repeat constructor; (discriminate || reflexivity))
    ltac:(vm_compute; reflexivity) ltac:(left) ltac:(discriminate)) as (H1 & _ & H3).
  exact (conj H1 H3).
Defined.

(** The activated document, up to the order of the list. *)
Definition activated (id : string) (r : Revision) : Revision :=
  if String.eqb (rev_ID r) id then set_rev_Status StatusActive r else deactivate r.

Lemma activated_list id l i x :
  NoDup (rev_ID <$> l) -> l !! i = Some x -> rev_ID x = id ->
  <[i := set_rev_Status StatusActive (deactivate x)]> (deactivate <$> l) = activated id <$> l.
Proof.
  intros Hn Hi Hid. apply list_eq. intros j. rewrite list_lookup_fmap.
  destruct (decide (i = j)) as [<-|Hne].
  - rewrite list_lookup_insert_eq by (rewrite length_fmap; by eapply lookup_lt_Some).
    rewrite Hi. simpl. unfold activated. rewrite Hid, String.eqb_refl.
    unfold deactivate. by case_match.
  - rewrite list_lookup_insert_ne, list_lookup_fmap by done.
    destruct (l !! j) as [y|] eqn:Hj; [|done]. simpl. f_equal. unfold activated.
    destruct (String.eqb (rev_ID y) id) eqn:E; [|done]. apply String.eqb_eq in E.
    destruct Hne. apply (NoDup_lookup _ i j id Hn); rewrite list_lookup_fmap, ?Hi, ?Hj;
      simpl; congruence.
Qed.

(** MarkActive on a known revision makes it the active one, turns every other active
    revision inactive and changes nothing else; on an unknown ID it reports "not found" and
    leaves the document untouched. *)
Theorem MarkActive_effect (e : env) (s : json_state state) (id : string) (d : state) :
  no_faults e -> holds wf s -> current revisions_config s = Some d ->
  if decide (id ∈ rev_ID <$> RevisionList d) then
    exists s' l', MarkActive id e s = (s', Ok tt) /\
      visible s' = Some (Decodes (MkState id l')) /\ l' ≡ₚ (activated id <$> RevisionList d)
  else exists s', MarkActive id e s = (s', Err (revision_not_found id)) /\ visible s' = visible s.
Proof.
  intros He Hs Hc. pose proof (holds_current _ wf s d Hs Hc) as [Hn Hv Hso].
  destruct (transact_healthy revisions_config (fun _ => markActiveTx id) e s d He Hc)
    as (s' & Hs' & Hr).
  unfold MarkActive. destruct (transact _ _ e s) as [s1 r] eqn:E; simpl in *; subst s1.
  unfold markActiveTx in Hr. case_decide as Hin.
  - destruct (indexByID (RevisionList d) id) as [[i x]|] eqn:Hi;
      [|by apply find_key_None in Hi].
    apply find_key_Some in Hi as [Hi Hid]. destruct Hr as [-> Hvis].
    eexists s', _. split_and!; [done | exact Hvis |].
    rewrite (activated_list id _ i x) by done. apply sort_on_perm.
  - destruct (indexByID (RevisionList d) id) as [[i x]|] eqn:Hi.
    + apply find_key_Some in Hi as [Hi <-]. destruct Hin.
      apply list_elem_of_fmap_2. by eapply list_elem_of_lookup_2.
    + destruct Hr as [-> Hvis]. eauto.
Qed.

Definition sample_state : json_state state :=
  run_history exec sample_history new_file_state.

Lemma MarkActive_effect_witness :
  exists s' l', MarkActive "rev-1" (healthy 9) sample_state = (s', Ok tt) /\
    visible s' = Some (Decodes (MkState "rev-1" l')) /\
    l' ≡ₚ (activated "rev-1" <$>
      [set_rev_Status "inactive" sample_revision; set_rev_Status "active" sample_revision2]).
Proof.
  pose proof (MarkActive_effect (healthy 9) sample_state "rev-1"
    (MkState "rev-2" [set_rev_Status "inactive" sample_revision;
                      set_rev_Status "active" sample_revision2])
    eq_refl) as H.
  rewrite decide_True in H by (left). apply H.
  - apply (history_preserves exec wf); [apply exec_wf | apply holds_new_file].
  - vm_compute. reflexivity.
Defined.

(** A second approval by the same user (up to surrounding white space) is refused and
    changes nothing; any other approval of a known revision is recorded once, and the revision
    becomes approved exactly when the recorded approvals reach the quorum (a quorum of zero or
    less counts as reached), in which case a revision waiting for approval becomes pending. *)
Theorem Approve_decision (e : env) (s : json_state state) (id : string) (a : ApprovalRecord)
    (n : Z) (d : state) (r : Revision) :
  no_faults e -> holds wf s -> current revisions_config s = Some d ->
  r ∈ RevisionList d -> rev_ID r = id ->
  match (Approve id a n e s).2 with
  | Err msg =>
      (trim_space (apr_UserID a) ∈ apr_UserID <$> rev_Approvals r) /\
      visible (Approve id a n e s).1 = visible s
  | Ok r' =>
      (trim_space (apr_UserID a) ∉ apr_UserID <$> rev_Approvals r) /\
      rev_Approvals r' = (rev_Approvals r ++ [normalizeApproval a]) /\
      (rev_ApprovalStatus r' = ApprovalApproved <->
         n <= Z.of_nat (length (rev_Approvals r')) \/ n <= 0) /\
      rev_Status r' =
        (if String.eqb (rev_ApprovalStatus r') ApprovalApproved
         then if String.eqb (rev_Status r) StatusPendingApproval then StatusPending
              else rev_Status r
         else StatusPendingApproval) /\
      exists l', visible (Approve id a n e s).1 =
                   Some (Decodes (MkState (CurrentActiveRevisionID d) l')) /\ r' ∈ l'
  end.
Proof.
  intros He Hs Hc Hr Hid. pose proof (holds_current _ wf s d Hs Hc) as [Hn Hv Hso].
  destruct (transact_healthy revisions_config (fun _ => approveTx id a n) e s d He Hc)
    as (s' & Hs' & Hres).
  change (transact revisions_config (fun _ => approveTx id a n)) with (Approve id a n) in *.
  rewrite Hs'. revert Hres. unfold approveTx, indexByID. rewrite <- Hid.
  destruct (find_key_unique rev_ID (RevisionList d) r Hn Hr) as [i Hi]. rewrite Hi.
  apply find_key_Some in Hi as [Hi _].
  destruct (alreadyApproved a r) eqn:Ha.
  - intros [-> Hvis]. split; [|done]. apply not_false_iff_true in Ha.
    destruct (decide (trim_space (apr_UserID a) ∈ apr_UserID <$> rev_Approvals r)); [done|].
    by apply alreadyApproved_false in n0.
  - intros [-> Hvis]. apply alreadyApproved_false in Ha.
    split; [done|]. split; [unfold approveItem; cbv zeta; by repeat case_match|].
    assert (Hin : approveItem a n r ∈ sortRevisions (<[i:=approveItem a n r]> (RevisionList d))).
    { apply elem_of_sort_on, list_elem_of_lookup. exists i. apply list_lookup_insert_eq.
      by eapply lookup_lt_Some. }
    split; [|split; [|eauto]].
    + unfold approveItem. cbv zeta. cbn [rev_Approvals set_rev_RequiredApprovals set_rev_Approvals].
      destruct ((n <=? 0) || _) eqn:Hq.
      * apply orb_true_iff in Hq. rewrite !Z.leb_le in Hq.
        by case_match; simpl; split; intros; lia || done.
      * apply orb_false_iff in Hq. rewrite !Z.leb_gt in Hq.
        simpl. split; [discriminate | lia].
    + unfold approveItem. cbv zeta. destruct (_ || _); simpl; [|done].
      destruct (String.eqb (rev_Status r) StatusPendingApproval) eqn:E; simpl; done.
Qed.

Lemma Approve_decision_witness :
  (Approve "rev-1" (MkApproval " bob" "b" "" "t") 2 (healthy 9) sample_state).2 <>
    (Approve "rev-1" (MkApproval " bob" "b" "" "t") 0 (healthy 9) sample_state).2 /\
  exists r', (Approve "rev-1" (MkApproval " bob" "b" "" "t") 2 (healthy 9) sample_state).2 = Ok r' /\
    rev_Status r' = StatusPendingApproval.
Proof.
  split; [vm_compute; discriminate|].
  pose proof (Approve_decision (healthy 9) sample_state "rev-1" (MkApproval " bob" "b" "" "t") 2
    (MkState "rev-2" [set_rev_Status "inactive" sample_revision;
                      set_rev_Status "active" sample_revision2])
    (set_rev_Status "inactive" sample_revision) eq_refl
    (history_preserves exec wf _ _ exec_wf (holds_new_file _)) ltac:(vm_compute; reflexivity)
    ltac:(left) eq_refl) as H.
  destruct (Approve _ _ _ _ _).2 as [r'|m] eqn:E; [|vm_compute in E; discriminate].
  exists r'. split; [done|]. destruct H as (_ & _ & _ & -> & _). vm_compute in E.
  injection E as <-. reflexivity.
Defined.

(** Deleting removes exactly the revision named by the trimmed, lower-cased ID and keeps
    the active pointer; it never removes the revision the pointer names. *)
Theorem Delete_effect (e : env) (s s' : json_state state) (id : string) (d : state) :
  holds wf s -> current revisions_config s = Some d -> Delete id e s = (s', Ok tt) ->
  normalize_id id <> CurrentActiveRevisionID d /\
  exists l', visible s' = Some (Decodes (MkState (CurrentActiveRevisionID d) l')) /\
    forall r, r ∈ l' <-> r ∈ RevisionList d /\ rev_ID r <> normalize_id id.
Proof.
  intros Hs Hc HD. pose proof (holds_current _ wf s d Hs Hc) as [Hn Hv Hso].
  unfold Delete, mbind, sop_bind, lift in HD.
  destruct (reject_if _ _) as [[]|]; [|discriminate].
  apply transact_ok in HD as (d0 & d' & Hc' & Hf & Hvis).
  rewrite Hc in Hc'. injection Hc' as <-. unfold deleteTx in Hf.
  destruct (String.eqb _ _) eqn:Ha; [discriminate|]. apply String.eqb_neq in Ha.
  destruct (indexByID _ _) as [[i x]|] eqn:Hi; [|discriminate].
  apply find_key_Some in Hi as [Hi Hid]. injection Hf as <-.
  split; [done|]. eexists. split; [exact Hvis|]. intros r. unfold sortRevisions.
  rewrite elem_of_sort_on. rewrite <- Hid. by apply elem_of_delete_key.
Qed.

Lemma Delete_effect_witness :
  exists s', Delete " REV-1 " (healthy 9) sample_state = (s', Ok tt) /\
    "rev-1"%string <> "rev-2"%string.
Proof.
  destruct (Delete " REV-1 " (healthy 9) sample_state) as [s' [[]|m]] eqn:E;
    [|vm_compute in E; discriminate].
  exists s'. split; [done|].
  exact (proj1 (Delete_effect (healthy 9) sample_state s' " REV-1 "
    (MkState "rev-2" [set_rev_Status "inactive" sample_revision;
                      set_rev_Status "active" sample_revision2])
    (history_preserves exec wf _ _ exec_wf (holds_new_file _)) ltac:(vm_compute; reflexivity) E)).
Defined.

(** A revision that SavePending accepted is read back by Get under its ID, with the missing
    status and approval status filled in, and every revision stored before is still there. *)
Theorem SavePending_Get (e e' : env) (s s' : json_state state) (r : Revision) :
  holds wf s -> no_faults e' -> SavePending r e s = (s', Ok tt) ->
  (Get (rev_ID r) e' s').2 = Ok (Some (defaultRevision r)) /\
  forall d x, current revisions_config s = Some d -> x ∈ RevisionList d ->
    (Get (rev_ID x) e' s').2 = Ok (Some x).
Proof.
  intros Hs He HS. assert (Hs' : holds wf s').
  { replace s' with (exec (CSavePending r) e s).1 by (simpl; by rewrite HS). by apply exec_wf. }
  unfold SavePending, mbind, sop_bind, lift in HS.
  destruct (validateRevision _) as [[]|] eqn:Hv; [|discriminate].
  apply transact_ok in HS as (d & d' & Hc & Hf & Hvis). unfold savePendingTx in Hf.
  destruct (indexByID _ _) as [[i x]|] eqn:Hi; [discriminate|]. injection Hf as <-.
  pose proof (holds_current _ wf s d Hs Hc) as [Hn _ _].
  assert (Hc' : current revisions_config s' =
    Some (MkState (CurrentActiveRevisionID d) (sortRevisions (RevisionList d ++ [defaultRevision r])))).
  { unfold current. rewrite Hvis. simpl. unfold sortRevisions. by rewrite sort_on_idem. }
  pose proof (holds_current _ wf s' _ Hs' Hc') as [Hn' _ _]. simpl in Hn'.
  assert (HG : forall x, x ∈ RevisionList d ++ [defaultRevision r] ->
    (Get (rev_ID x) e' s').2 = Ok (Some x)).
  { intros x Hx. unfold Get. rewrite (query_healthy _ _ _ _ _ He Hc'). simpl.
    destruct (find_key_unique rev_ID (sortRevisions (RevisionList d ++ [defaultRevision r])) x)
      as [i Hxi]; [done | by apply elem_of_sort_on |].
    unfold indexByID. by rewrite Hxi. }
  split.
  - rewrite <- (HG (defaultRevision r)); [|apply elem_of_app; right; left].
    f_equal. f_equal. symmetry. apply defaultRevision_core.
  - intros d0 x Hd0 Hx. rewrite Hc in Hd0. injection Hd0 as <-. apply HG, elem_of_app. by left.
Qed.

Lemma SavePending_Get_witness :
  exists s', SavePending (set_rev_Status "" sample_revision) (healthy 0) new_file_state = (s', Ok tt) /\
    (Get "rev-1" (healthy 1) s').2 = Ok (Some (set_rev_Status "pending" sample_revision)).
Proof.
  destruct (SavePending (set_rev_Status "" sample_revision) (healthy 0) new_file_state)
    as [s' [[]|m]] eqn:E; [|vm_compute in E; discriminate].
  exists s'. split; [done|].
  exact (proj1 (SavePending_Get (healthy 0) (healthy 1) new_file_state s'
    (set_rev_Status "" sample_revision) (holds_new_file _) eq_refl E)).
Defined.

(** [Approve] does not look at the status it replaces: approving the live revision under a quorum
    of two takes it back to pending_approval while current_active_revision_id still names it. *)
Example approving_demotes_active :
  approveTx "rev-1" (MkApproval "bob" "bob" "" "t") 2
    (MkState "rev-1" [MkRevision "rev-1" 1 "t0" "sum" "path" StatusActive "" "" ApprovalNotRequired 0 []
                        "" "" "" "" "" "" "" []])
  = Ok (MkState "rev-1" [MkRevision "rev-1" 1 "t0" "sum" "path" StatusPendingApproval "" "" ApprovalPending 2
                           [MkApproval "bob" "bob" "" "t"] "" "" "" "" "" "" "" []],
        MkRevision "rev-1" 1 "t0" "sum" "path" StatusPendingApproval "" "" ApprovalPending 2
          [MkApproval "bob" "bob" "" "t"] "" "" "" "" "" "" "" []).
Proof. vm_compute. reflexivity. Qed.
