(* ===== verification/Jobs.v ===== *)
(** * Job store (control-plane/internal/jobs/store.go)

    The log of asynchronous work: compile, apply and certificate jobs, each
    pending, running, succeeded or failed.  Jobs are kept sorted by creation
    time, compared as text, then by ID. *)
From Stdlib Require Import ZArith Lia String.
From stdpp Require Import base tactics strings list.
From S2P Require Import Prelude GoTime DocStore.
Local Open Scope Z_scope.

Definition StatusPending := "pending"%string.
Definition StatusRunning := "running"%string.
Definition StatusSucceeded := "succeeded"%string.
Definition StatusFailed := "failed"%string.

Definition TypeCertificateIssue := "certificate_issue"%string.
Definition TypeCertificateRenew := "certificate_renew"%string.
Definition TypeCompile := "compile"%string.
Definition TypeApply := "apply"%string.

Record Job := MkJob {
  job_ID : string;
  job_Type : string;
  job_TargetCertificateID : string;
  job_TargetRevisionID : string;
  job_Status : string;
  job_Result : string;
  job_CreatedAt : string;
  job_StartedAt : string;
  job_FinishedAt : string
}.

Definition set_job_ID (v : string) (x : Job) : Job :=
  MkJob v (job_Type x) (job_TargetCertificateID x) (job_TargetRevisionID x) (job_Status x)
    (job_Result x) (job_CreatedAt x) (job_StartedAt x) (job_FinishedAt x).
Definition set_job_TargetCertificateID (v : string) (x : Job) : Job :=
  MkJob (job_ID x) (job_Type x) v (job_TargetRevisionID x) (job_Status x) (job_Result x)
    (job_CreatedAt x) (job_StartedAt x) (job_FinishedAt x).
Definition set_job_TargetRevisionID (v : string) (x : Job) : Job :=
  MkJob (job_ID x) (job_Type x) (job_TargetCertificateID x) v (job_Status x) (job_Result x)
    (job_CreatedAt x) (job_StartedAt x) (job_FinishedAt x).
Definition set_job_Status (v : string) (x : Job) : Job :=
  MkJob (job_ID x) (job_Type x) (job_TargetCertificateID x) (job_TargetRevisionID x) v
    (job_Result x) (job_CreatedAt x) (job_StartedAt x) (job_FinishedAt x).
Definition set_job_Result (v : string) (x : Job) : Job :=
  MkJob (job_ID x) (job_Type x) (job_TargetCertificateID x) (job_TargetRevisionID x) (job_Status
    x) v (job_CreatedAt x) (job_StartedAt x) (job_FinishedAt x).
Definition set_job_CreatedAt (v : string) (x : Job) : Job :=
  MkJob (job_ID x) (job_Type x) (job_TargetCertificateID x) (job_TargetRevisionID x) (job_Status
    x) (job_Result x) v (job_StartedAt x) (job_FinishedAt x).
Definition set_job_StartedAt (v : string) (x : Job) : Job :=
  MkJob (job_ID x) (job_Type x) (job_TargetCertificateID x) (job_TargetRevisionID x) (job_Status
    x) (job_Result x) (job_CreatedAt x) v (job_FinishedAt x).
Definition set_job_FinishedAt (v : string) (x : Job) : Job :=
  MkJob (job_ID x) (job_Type x) (job_TargetCertificateID x) (job_TargetRevisionID x) (job_Status
    x) (job_Result x) (job_CreatedAt x) (job_StartedAt x) v.

Record state := MkState { JobList : list Job }.

Definition validateJob (job : Job) : result unit :=
  reject_if (is_empty (job_ID job)) "job id is required";;
  if String.eqb (job_Type job) TypeCertificateIssue || String.eqb (job_Type job) TypeCertificateRenew
  then reject_if (is_empty (job_TargetCertificateID job)) "job target_certificate_id is required"
  else if String.eqb (job_Type job) TypeCompile || String.eqb (job_Type job) TypeApply
  then reject_if (is_empty (job_TargetRevisionID job)) "job target_revision_id is required"
  else Err "job type must be certificate_issue, certificate_renew, compile, or apply".

Definition normalizeID : string -> string := normalize_id.

(** The comparison of [sortJobs]: by creation time, as text, then by ID. *)
Definition job_key (j : Job) : string * string := (job_CreatedAt j, job_ID j).

Definition sortJobs (l : list Job) : list Job := sort_on job_key l.

Definition jobs_config : doc_config state :=
  DocConfig "jobs store" (MkState []) (fun s => MkState (sortJobs (JobList s))).

Definition find_job (id : string) (l : list Job) : option (nat * Job) := find_key job_ID id l.

Definition job_not_found (id : string) : string := ("job " ++ id ++ " not found")%string.

(** ** Operations *)
Definition createTx (job : Job) (now0 : Z) (current : state) : result (state * Job) :=
  let job := set_job_FinishedAt "" (set_job_StartedAt ""
    (set_job_CreatedAt (format_rfc3339_nano now0)
      (set_job_Result "" (set_job_Status StatusPending job)))) in
  match find_job (job_ID job) (JobList current) with
  | Some _ => Err ("job " ++ job_ID job ++ " already exists")
  | None => Ok (MkState (sortJobs (JobList current ++ [job])), job)
  end.

Definition normalizeJob (job : Job) : Job :=
  set_job_TargetRevisionID (normalizeID (job_TargetRevisionID job))
    (set_job_TargetCertificateID (normalizeID (job_TargetCertificateID job))
      (set_job_ID (normalizeID (job_ID job)) job)).

Definition Create (job : Job) : sop state Job :=
  let job := normalizeJob job in
  lift (validateJob job);;
  transact jobs_config (createTx job).

(** The job returned is read back from index [i] after sorting, as the code
    does; [update_returns_mutated] shows it is the mutated job. *)
Definition updateTx (mutate : Z -> Job -> Job) (jobID : string) (now0 : Z) (current : state)
  : result (state * Job) :=
  match find_job jobID (JobList current) with
  | None => Err (job_not_found jobID)
  | Some (i, job) =>
      let items := sortJobs (<[i := mutate now0 job]> (JobList current)) in
      match items !! i with
      | Some job' => Ok (MkState items, job')
      | None => Err "index out of range"
      end
  end.

Definition update (jobID : string) (mutate : Z -> Job -> Job) : sop state Job :=
  transact jobs_config (updateTx mutate (normalizeID jobID)).

Definition setRunning (now0 : Z) (job : Job) : Job :=
  set_job_Result "" (set_job_StartedAt (format_rfc3339_nano now0) (set_job_Status StatusRunning job)).

Definition setFinished (status0 result0 : string) (now0 : Z) (job : Job) : Job :=
  set_job_Result (trim_space result0)
    (set_job_FinishedAt (format_rfc3339_nano now0) (set_job_Status status0 job)).

Definition MarkRunning (jobID : string) : sop state Job := update jobID setRunning.
Definition MarkSucceeded (jobID result0 : string) : sop state Job :=
  update jobID (setFinished StatusSucceeded result0).
Definition MarkFailed (jobID result0 : string) : sop state Job :=
  update jobID (setFinished StatusFailed result0).

Definition Get (jobID : string) : sop state (option Job) :=
  query jobs_config (fun _ current => Ok (snd <$> find_job (normalizeID jobID) (JobList current))).

Definition List : sop state (list Job) :=
  query jobs_config (fun _ current => Ok (sortJobs (JobList current))).

(** The loop of both bulk deletions: the jobs kept and the number dropped. *)
Definition deleteWhereTx (drop : Job -> bool) (current : state) : result (state * Z) :=
  let filtered := filter (fun j => drop j <> true) (JobList current) in
  let deleted := filter (fun j => drop j = true) (JobList current) in
  Ok (MkState (sortJobs filtered), Z.of_nat (length deleted)).

Definition DeleteByRevision (revisionID : string) : sop state Z :=
  let revisionID := normalizeID revisionID in
  lift (reject_if (is_empty revisionID) "revision id is required");;
  transact jobs_config (fun _ =>
    deleteWhereTx (fun j => String.eqb (job_TargetRevisionID j) revisionID)).

Definition DeleteByTypes (types : list string) : sop state Z :=
  if decide (types = []) then mret 0
  else transact jobs_config (fun _ => deleteWhereTx (fun j => bool_decide (job_Type j ∈ types))).

(** ** Well-formed documents *)
Record job_ok (j : Job) : Prop := {
  job_ok_id : normalizeID (job_ID j) = job_ID j /\ job_ID j <> ""%string;
  job_ok_created : job_CreatedAt j <> ""%string;
  job_ok_phase :
    (job_Status j = StatusPending /\ job_StartedAt j = ""%string /\
       job_FinishedAt j = ""%string /\ job_Result j = ""%string) \/
    (job_Status j = StatusRunning /\ job_StartedAt j <> ""%string /\ job_Result j = ""%string) \/
    ((job_Status j = StatusSucceeded \/ job_Status j = StatusFailed) /\
       job_FinishedAt j <> ""%string)
}.

Record wf (s : state) : Prop := {
  wf_ids : NoDup (job_ID <$> JobList s);
  wf_jobs : Forall job_ok (JobList s);
  wf_sorted : sorted_on job_key (JobList s)
}.

Lemma job_wf_sort l : NoDup (job_ID <$> l) -> Forall job_ok l -> wf (MkState (sortJobs l)).
Proof.
  intros Hn Hv. split; simpl; unfold sortJobs;
    [by apply NoDup_fmap_sort_on | by apply Forall_sort_on | apply sort_on_sorted].
Qed.

#[export] Instance wf_inv : DocInv jobs_config wf.
Proof. split; [split; constructor|]. intros [l] [Hn Hv _]. by apply job_wf_sort. Qed.

(** A mutation that [update] may be given: it keeps what identifies and orders a job. *)
Record keeps_key (mutate : Z -> Job -> Job) : Prop := {
  keeps_ID t j : job_ID (mutate t j) = job_ID j;
  keeps_CreatedAt t j : job_CreatedAt (mutate t j) = job_CreatedAt j
}.

Lemma setRunning_keeps : keeps_key setRunning.
Proof. done. Qed.
Lemma setFinished_keeps st r : keeps_key (setFinished st r).
Proof. done. Qed.

Lemma setRunning_ok t j : job_ok j -> job_ok (setRunning t j).
Proof. intros [Hi Hc _]. split; [done..|]. right; left. split_and!; [done| |done]. apply rfc3339_nano_nonempty. Qed.

Lemma setFinished_ok st r t j :
  st = StatusSucceeded \/ st = StatusFailed -> job_ok j -> job_ok (setFinished st r t j).
Proof. intros Hst [Hi Hc _]. split; [done..|]. right; right. split; [done|]. apply rfc3339_nano_nonempty. Qed.

Lemma createTx_wf job t d d' j :
  normalizeID (job_ID job) = job_ID job -> job_ID job <> ""%string ->
  wf d -> createTx job t d = Ok (d', j) -> wf d'.
Proof.
  intros Hid Hne [Hn Hv Hs]. unfold createTx. cbv zeta.
  destruct (find_job _ _) as [[i x]|] eqn:Hi; [discriminate|]. intros [= <- _].
  apply find_key_None in Hi. apply job_wf_sort; [by apply NoDup_key_snoc|].
  apply Forall_app; split; [done|]. constructor; [|constructor].
  split; [done | apply rfc3339_nano_nonempty | by left].
Qed.

(** Sorting after a mutation leaves the list in place, so the index still points at the job. *)
Lemma updateTx_found mutate t id d i x :
  keeps_key mutate -> wf d -> find_job id (JobList d) = Some (i, x) ->
  updateTx mutate id t d = Ok (MkState (<[i := mutate t x]> (JobList d)), mutate t x).
Proof.
  intros [Hk1 Hk2] [Hn Hv Hs] Hf. unfold updateTx. rewrite Hf.
  apply find_key_Some in Hf as [Hi _].
  assert (E : sortJobs (<[i := mutate t x]> (JobList d)) = <[i := mutate t x]> (JobList d)).
  { apply sort_on_id, (sorted_on_keys _ (JobList d)); [|done].
    rewrite list_fmap_insert, list_insert_id; [done|].
    rewrite list_lookup_fmap, Hi. simpl. unfold job_key. by rewrite Hk1, Hk2. }
  cbv zeta. rewrite E, list_lookup_insert_eq by (by eapply lookup_lt_Some). done.
Qed.

Lemma update_ok id mutate e s s' j :
  keeps_key mutate -> holds wf s -> update id mutate e s = (s', Ok j) ->
  exists x d', j = mutate (now e) x /\ job_ID x = normalizeID id /\
    visible s' = Some (Decodes d') /\ j ∈ JobList d'.
Proof.
  intros Hk Hs E. apply transact_ok in E as (d & d' & Hd & Hf & Hv).
  assert (Hw : wf d).
  { unfold current in Hd. unfold holds in Hs. destruct (visible s) as [[d0|g]|];
      [|discriminate|]; injection Hd as <-; [|split; by repeat constructor].
    destruct (Hs d0 eq_refl) as [Hn Ho _]. by apply job_wf_sort. }
  destruct (find_job (normalizeID id) (JobList d)) as [[i x]|] eqn:Hx;
    [|unfold updateTx in Hf; rewrite Hx in Hf; discriminate].
  rewrite (updateTx_found _ _ _ _ i x) in Hf by done. injection Hf as <- <-.
  apply find_key_Some in Hx as [Hi Hid]. exists x. eexists. split_and!; [done|done|exact Hv|].
  eapply list_elem_of_lookup_2. simpl. by rewrite list_lookup_insert_eq by (by eapply lookup_lt_Some).
Qed.

Lemma updateTx_wf mutate id t d d' j :
  keeps_key mutate -> (forall t j, job_ok j -> job_ok (mutate t j)) ->
  wf d -> updateTx mutate id t d = Ok (d', j) -> wf d'.
Proof.
  intros Hk Hok Hw E. destruct (find_job id (JobList d)) as [[i x]|] eqn:Hf.
  - rewrite (updateTx_found _ _ _ _ i x) in E by done. injection E as <- _.
    apply find_key_Some in Hf as [Hi _]. pose proof Hk as [Hk1 Hk2]. destruct Hw as [Hn Hv Hs].
    split; simpl.
    + by rewrite (fmap_key_insert _ _ _ x).
    + apply Forall_insert_list; [done|]. by apply Hok, (Forall_lookup_1 _ _ i x Hv).
    + apply (sorted_on_keys _ (JobList d)); [|done].
      rewrite list_fmap_insert, list_insert_id; [done|].
      rewrite list_lookup_fmap, Hi. simpl. unfold job_key. by rewrite Hk1, Hk2.
  - unfold updateTx in E. rewrite Hf in E. discriminate.
Qed.

Lemma deleteWhereTx_wf drop d d' n : wf d -> deleteWhereTx drop d = Ok (d', n) -> wf d'.
Proof.
  intros [Hn Hv Hs] [= <- _]. apply job_wf_sort; [by apply NoDup_key_filter|].
  apply Forall_forall. intros j [_ Hj]%list_elem_of_filter. rewrite Forall_forall in Hv. by apply Hv.
Qed.

(** The mutating operations as data. *)
Inductive command :=
| CCreate (job : Job)
| CMarkRunning (id : string)
| CMarkSucceeded (id result0 : string)
| CMarkFailed (id result0 : string)
| CDeleteByRevision (id : string)
| CDeleteByTypes (types : list string).

Definition exec (c : command) : sop state unit :=
  match c with
  | CCreate j => (fun _ => tt) <$> Create j
  | CMarkRunning id => (fun _ => tt) <$> MarkRunning id
  | CMarkSucceeded id r => (fun _ => tt) <$> MarkSucceeded id r
  | CMarkFailed id r => (fun _ => tt) <$> MarkFailed id r
  | CDeleteByRevision id => (fun _ => tt) <$> DeleteByRevision id
  | CDeleteByTypes ts => (fun _ => tt) <$> DeleteByTypes ts
  end.

Lemma validateJob_id j : validateJob j = Ok tt -> job_ID j <> ""%string.
Proof. unfold validateJob. unbind. intros H Hid. rewrite Hid in H. discriminate. Qed.

Lemma job_exec_wf c : preserves wf (exec c).
Proof.
  destruct c as [j|id|id r|id r|id|ts]; simpl; apply fmap_preserves.
  - unfold Create. destruct (validateJob _) as [[]|m] eqn:Hval; [|by intros ? s].
    apply bind_preserves; [apply lift_preserves|]. intros _. apply (transact_preserves jobs_config wf).
    intros t d d' u. apply createTx_wf; [apply normalize_id_idem | by apply validateJob_id in Hval].
  - apply (transact_preserves jobs_config wf). intros t d d' u.
    apply updateTx_wf; [done | apply setRunning_ok].
  - apply (transact_preserves jobs_config wf). intros t d d' u.
    apply updateTx_wf; [done|]. intros. apply setFinished_ok; auto.
  - apply (transact_preserves jobs_config wf). intros t d d' u.
    apply updateTx_wf; [done|]. intros. apply setFinished_ok; auto.
  - unfold DeleteByRevision. apply bind_preserves; [apply lift_preserves|]. intros _.
    apply (transact_preserves jobs_config wf). intros t d d' u. apply deleteWhereTx_wf.
  - unfold DeleteByTypes. case_decide; [by intros ? s|].
    apply (transact_preserves jobs_config wf). intros t d d' u. apply deleteWhereTx_wf.
Qed.

(** ** Properties *)

(** C3: In every reachable job document IDs are unique and normalised, jobs are sorted, and the
    fields of a job agree with its status: pending jobs have neither start, end nor result,
    running jobs have a start time and no result, succeeded and failed jobs have an end time. *)
Theorem job_phases (h : list (env * command)) (d : state) :
  visible (run_history exec h new_file_state) = Some (Decodes d) ->
  NoDup (job_ID <$> JobList d) /\ sorted_on job_key (JobList d) /\ Forall job_ok (JobList d).
Proof.
  intros Hd. pose proof (history_preserves exec wf h new_file_state job_exec_wf
    (holds_new_file _) d Hd) as [Hn Hv Hs]. done.
Qed.

Definition sample_job : Job := MkJob " Apply-1" "apply" "" "REV-1" "x" "y" "" "z" "".

Lemma job_phases_witness :
  exists d, visible (run_history exec
      [(healthy 5, CCreate sample_job); (healthy 6, CMarkRunning "APPLY-1")] new_file_state)
    = Some (Decodes d) /\ (job_Status <$> JobList d) = ["running"%string] /\
    Forall job_ok (JobList d).
Proof.
  eexists. split; [vm_compute; reflexivity|]. split; [reflexivity|].
  apply (job_phases [(healthy 5, CCreate sample_job); (healthy 6, CMarkRunning "APPLY-1")]).
  vm_compute. reflexivity.
Defined.

(** Marking a job running, succeeded or failed returns the mutated job and stores exactly
    that change (the index used after re-sorting still points at it); an unknown job is reported
    and nothing is stored. *)
Theorem update_returns_mutated (e : env) (s : json_state state) (id : string)
    (mutate : Z -> Job -> Job) (d : state) :
  keeps_key mutate -> no_faults e -> holds wf s -> current jobs_config s = Some d ->
  match find_job (normalizeID id) (JobList d) with
  | Some (_, j) =>
      (update id mutate e s).2 = Ok (mutate (now e) j) /\
      visible (update id mutate e s).1 = Some (Decodes (MkState
        ((fun j' => if String.eqb (job_ID j') (normalizeID id) then mutate (now e) j' else j')
           <$> JobList d)))
  | None =>
      (update id mutate e s).2 = Err (job_not_found (normalizeID id)) /\
      visible (update id mutate e s).1 = visible s
  end.
Proof.
  intros Hk He Hs Hc. pose proof (holds_current _ wf s d Hs Hc) as Hw.
  destruct (transact_healthy jobs_config (updateTx mutate (normalizeID id)) e s d He Hc)
    as (s' & Hs' & Hr).
  unfold update. rewrite Hs'.
  destruct (find_job _ _) as [[i x]|] eqn:Hf.
  - rewrite (updateTx_found _ _ _ _ i x) in Hr by done. destruct Hr as [-> ->].
    apply find_key_Some in Hf as [Hi <-]. split; [done|].
    by rewrite (insert_as_fmap job_ID (mutate (now e)) _ i x) by (done || apply Hw).
  - unfold updateTx in Hr. rewrite Hf in Hr. done.
Qed.

Definition sample_store : json_state state :=
  run_history exec [(healthy 5, CCreate sample_job)] new_file_state.

Lemma update_returns_mutated_witness :
  (MarkRunning "apply-1" (healthy 6) sample_store).2 =
    Ok (setRunning 6 (MkJob "apply-1" "apply" "" "rev-1" "pending" "" "1970-01-01T00:00:00.000000005Z" "" "")).
Proof.
  apply (update_returns_mutated (healthy 6) sample_store "apply-1" setRunning
    (MkState [MkJob "apply-1" "apply" "" "rev-1" "pending" "" "1970-01-01T00:00:00.000000005Z" "" ""])
    setRunning_keeps eq_refl (history_preserves exec wf _ _ job_exec_wf (holds_new_file _))).
  vm_compute. reflexivity.
Defined.

(** DeleteByRevision removes exactly the jobs that target the revision, keeps the others in
    order and returns how many it removed. *)
Theorem DeleteByRevision_effect (e : env) (s s' : json_state state) (id : string) (n : Z)
    (d : state) :
  holds wf s -> current jobs_config s = Some d -> DeleteByRevision id e s = (s', Ok n) ->
  exists l', visible s' = Some (Decodes (MkState l')) /\
    l' = filter (fun j => job_TargetRevisionID j <> normalizeID id) (JobList d) /\
    n = Z.of_nat (length (JobList d)) - Z.of_nat (length l').
Proof.
  intros Hs Hc HD. pose proof (holds_current _ wf s d Hs Hc) as [Hn Hv Hso].
  unfold DeleteByRevision, mbind, sop_bind, lift in HD.
  destruct (reject_if _ _) as [[]|]; [|discriminate].
  apply transact_ok in HD as (d0 & d' & Hc' & Hf & Hvis).
  rewrite Hc in Hc'. injection Hc' as <-. injection Hf as <- <-.
  eexists. split; [exact Hvis|]. unfold sortJobs.
  rewrite sort_on_id by (by apply sorted_on_filter).
  pose proof (Permutation_length (filter_app_complement
    (fun j => String.eqb (job_TargetRevisionID j) (normalizeID id) = true) (JobList d))) as Hlen.
  rewrite length_app in Hlen. split; [|unfold sortJobs in *; lia].
  apply list_filter_iff. intros j. by rewrite String.eqb_eq.
Qed.

Lemma DeleteByRevision_effect_witness :
  exists s' l', DeleteByRevision " REV-1" (healthy 9) sample_store = (s', Ok 1) /\
    visible s' = Some (Decodes (MkState l')) /\ l' = [].
Proof.
  destruct (DeleteByRevision " REV-1" (healthy 9) sample_store) as [s' [n|m]] eqn:E;
    [|vm_compute in E; discriminate].
  destruct (DeleteByRevision_effect (healthy 9) sample_store s' " REV-1" n
    (MkState [MkJob "apply-1" "apply" "" "rev-1" "pending" "" "1970-01-01T00:00:00.000000005Z" "" ""])
    (history_preserves exec wf _ _ job_exec_wf (holds_new_file _)) ltac:(vm_compute; reflexivity) E)
    as (l' & Hv & Hl & Hn).
  exists s', l'. assert (l' = []) as El by (rewrite Hl; vm_compute; reflexivity).
  split_and!; [|done|done]. rewrite Hn, El. reflexivity.
Defined.

(** Job order is textual, not chronological: RFC3339Nano drops trailing zeros, so a job
    created 500 ms after another can be listed before it. *)
Theorem jobs_not_chronological :
  exists j1 j2 t1 t2,
    t1 < t2 /\
    (List (healthy (t2 + 1))
       (run_history exec [(healthy t1, CCreate j1); (healthy t2, CCreate j2)] new_file_state)).2 =
    Ok [set_job_CreatedAt (format_rfc3339_nano t2) j2; set_job_CreatedAt (format_rfc3339_nano t1) j1].
Proof.
  exists (MkJob "a" "compile" "" "r" "pending" "" "" "" ""),
    (MkJob "b" "compile" "" "r" "pending" "" "" "" ""), second, (second + 500000000).
  split; [done|]. vm_compute. reflexivity.
Qed.
