(* ===== verification/AntiDDoS.v ===== *)
(** * Anti-DDoS settings (control-plane/internal/antiddos, services/antiddos.go)

    One settings document: the layer-4 guard of the runtime, the global rate limit and the adaptive
    model.  The service saves it, compiles a revision and applies it. *)
From Stdlib Require Import ZArith Lia Ascii String SpecFloat.
From stdpp Require Import base tactics strings list.
From S2P Require Import Prelude GoTime GoText GoNet GoSeq GoFloat DocStore Jobs.
Local Set Warnings "-clear-no-such-hyp".
Local Open Scope string_scope.
Local Open Scope Z_scope.

Definition ChainModeAuto : string := "auto".
Definition ChainModeDockerUser : string := "docker-user".
Definition ChainModeInput : string := "input".
Definition TargetDrop : string := "DROP".
Definition TargetReject : string := "REJECT".

Record Settings := MkSettings {
  UseL4Guard : bool;
  ChainMode : string;
  ConnLimit : Z;
  RatePerSecond : Z;
  RateBurst : Z;
  Ports : list Z;
  Target : string;
  DestinationIP : string;
  EnforceL7Rate : bool;
  L7RequestsPS : Z;
  L7Burst : Z;
  L7StatusCode : Z;
  ModelEnabled : bool;
  ModelPollIntervalSeconds : Z;
  ModelDecayLambda : float64;
  ModelThrottleThreshold : float64;
  ModelDropThreshold : float64;
  ModelHoldSeconds : Z;
  ModelThrottleRatePerSecond : Z;
  ModelThrottleBurst : Z;
  ModelThrottleTarget : string;
  ModelWeight429 : float64;
  ModelWeight403 : float64;
  ModelWeight444 : float64;
  ModelEmergencyRPS : Z;
  ModelEmergencyUniqueIPs : Z;
  ModelEmergencyPerIPRPS : Z;
  ModelWeightEmergencyBotnet : float64;
  ModelWeightEmergencySingle : float64;
  CreatedAt : string;
  UpdatedAt : string
}.

(** ** Defaults (types.go) *)
Definition port_ok (n : Z) : bool := (0 <? n) && (n <=? 65535).

Definition normalizePorts (items : list Z) : list Z := sorted_ints (List.filter port_ok items).

Definition ParsePortsCSV (value : string) : list Z :=
  normalizePorts (omap (fun part => let part := trim_space part in if is_empty part then None else atoi part)
                    (split_on "," value)).

Definition one_half : float64 := float_of_decimal 5 (-1).

Section Defaults.
Context `{Environment}.

Definition envIntOrDefault (key : string) (fallback : Z) : Z :=
  let raw := trim_space (GoSeq.Getenv key) in
  if is_empty raw then fallback
  else match atoi raw with Some value => if value <=? 0 then fallback else value | None => fallback end.

Definition envStringOrDefault (key fallback : string) : string :=
  let raw := trim_space (GoSeq.Getenv key) in if is_empty raw then fallback else raw.

Definition envBoolOrDefault (key : string) (fallback : bool) : bool :=
  let raw := trim_space (GoSeq.Getenv key) in
  if is_empty raw then fallback
  else if mem (to_lower raw) ["1"; "true"; "yes"; "on"] then true
  else if mem (to_lower raw) ["0"; "false"; "no"; "off"] then false
  else fallback.

Definition envFloatOrDefault (key : string) (fallback : float64) : float64 :=
  let raw := trim_space (GoSeq.Getenv key) in
  if is_empty raw then fallback
  else match ParseFloat raw with Some value => if fle value fzero then fallback else value | None => fallback end.

Definition default_ports (ports : list Z) : list Z := match ports with [] => [80; 443] | _ => ports end.

Definition DefaultSettings : Settings := {|
  UseL4Guard := true;
  ChainMode := ChainModeAuto;
  ConnLimit := envIntOrDefault "WAF_DEFAULT_ANTIDDOS_CONN_LIMIT" 200;
  RatePerSecond := envIntOrDefault "WAF_DEFAULT_ANTIDDOS_RATE_PER_SECOND" 100;
  RateBurst := envIntOrDefault "WAF_DEFAULT_ANTIDDOS_RATE_BURST" 200;
  Ports := default_ports (ParsePortsCSV (envStringOrDefault "WAF_DEFAULT_ANTIDDOS_PORTS" "80,443"));
  Target := TargetDrop;
  DestinationIP := trim_space (GoSeq.Getenv "WAF_DEFAULT_ANTIDDOS_DESTINATION_IP");
  EnforceL7Rate := envBoolOrDefault "WAF_DEFAULT_ANTIDDOS_ENFORCE_L7_RATE_LIMIT" true;
  L7RequestsPS := envIntOrDefault "WAF_DEFAULT_ANTIDDOS_L7_REQUESTS_PER_SECOND" 100;
  L7Burst := envIntOrDefault "WAF_DEFAULT_ANTIDDOS_L7_BURST" 200;
  L7StatusCode := envIntOrDefault "WAF_DEFAULT_ANTIDDOS_L7_STATUS_CODE" 429;
  ModelEnabled := envBoolOrDefault "WAF_DEFAULT_ANTIDDOS_MODEL_ENABLED" true;
  ModelPollIntervalSeconds := envIntOrDefault "WAF_DEFAULT_ANTIDDOS_MODEL_POLL_INTERVAL_SECONDS" 2;
  ModelDecayLambda := envFloatOrDefault "WAF_DEFAULT_ANTIDDOS_MODEL_DECAY_LAMBDA" (float_of_decimal 8 (-2));
  ModelThrottleThreshold := envFloatOrDefault "WAF_DEFAULT_ANTIDDOS_MODEL_THROTTLE_THRESHOLD" (float_of_decimal 25 (-1));
  ModelDropThreshold := envFloatOrDefault "WAF_DEFAULT_ANTIDDOS_MODEL_DROP_THRESHOLD" (float_of_Z 6);
  ModelHoldSeconds := envIntOrDefault "WAF_DEFAULT_ANTIDDOS_MODEL_HOLD_SECONDS" 60;
  ModelThrottleRatePerSecond := envIntOrDefault "WAF_DEFAULT_ANTIDDOS_MODEL_THROTTLE_RATE_PER_SECOND" 3;
  ModelThrottleBurst := envIntOrDefault "WAF_DEFAULT_ANTIDDOS_MODEL_THROTTLE_BURST" 6;
  ModelThrottleTarget := to_upper (envStringOrDefault "WAF_DEFAULT_ANTIDDOS_MODEL_THROTTLE_TARGET" "REJECT");
  ModelWeight429 := envFloatOrDefault "WAF_DEFAULT_ANTIDDOS_MODEL_WEIGHT_429" (float_of_Z 1);
  ModelWeight403 := envFloatOrDefault "WAF_DEFAULT_ANTIDDOS_MODEL_WEIGHT_403" (float_of_decimal 18 (-1));
  ModelWeight444 := envFloatOrDefault "WAF_DEFAULT_ANTIDDOS_MODEL_WEIGHT_444" (float_of_decimal 22 (-1));
  ModelEmergencyRPS := envIntOrDefault "WAF_DEFAULT_ANTIDDOS_MODEL_EMERGENCY_RPS" 180;
  ModelEmergencyUniqueIPs := envIntOrDefault "WAF_DEFAULT_ANTIDDOS_MODEL_EMERGENCY_UNIQUE_IPS" 40;
  ModelEmergencyPerIPRPS := envIntOrDefault "WAF_DEFAULT_ANTIDDOS_MODEL_EMERGENCY_PER_IP_RPS" 60;
  ModelWeightEmergencyBotnet := envFloatOrDefault "WAF_DEFAULT_ANTIDDOS_MODEL_WEIGHT_EMERGENCY_BOTNET" (float_of_Z 6);
  ModelWeightEmergencySingle := envFloatOrDefault "WAF_DEFAULT_ANTIDDOS_MODEL_WEIGHT_EMERGENCY_SINGLE" (float_of_Z 4);
  CreatedAt := "";
  UpdatedAt := ""
|}.
End Defaults.

(** ** Normal form *)
Definition text_default (fallback value : string) : string := if is_empty value then fallback else value.
Definition positive_default (fallback n : Z) : Z := if n <=? 0 then fallback else n.
Definition positive_float (fallback x : float64) : float64 := if fle x fzero then fallback else x.

Definition drop_threshold (throttle drop : float64) : float64 :=
  if fle drop throttle then fadd throttle one_half else drop.

Definition throttle_target (value : string) : string :=
  let value := upper_trim value in
  if negb (String.eqb value TargetDrop) && negb (String.eqb value TargetReject) then TargetReject else value.

Definition NormalizeSettings (item : Settings) : Settings :=
  let rate := positive_default 100 (RatePerSecond item) in
  let requests := positive_default 100 (L7RequestsPS item) in
  let throttle := positive_float (float_of_decimal 25 (-1)) (ModelThrottleThreshold item) in
  let throttleRate := positive_default 3 (ModelThrottleRatePerSecond item) in {|
  UseL4Guard := UseL4Guard item;
  ChainMode := text_default ChainModeAuto (lower_trim (ChainMode item));
  ConnLimit := positive_default 200 (ConnLimit item);
  RatePerSecond := rate;
  RateBurst := positive_default (wrap64 (rate * 2)) (RateBurst item);
  Ports := default_ports (normalizePorts (Ports item));
  Target := text_default TargetDrop (upper_trim (Target item));
  DestinationIP := trim_space (DestinationIP item);
  EnforceL7Rate := EnforceL7Rate item;
  L7RequestsPS := requests;
  L7Burst := if L7Burst item <? 0 then wrap64 (requests * 2) else L7Burst item;
  L7StatusCode := positive_default 429 (L7StatusCode item);
  ModelEnabled := ModelEnabled item;
  ModelPollIntervalSeconds := positive_default 2 (ModelPollIntervalSeconds item);
  ModelDecayLambda := positive_float (float_of_decimal 8 (-2)) (ModelDecayLambda item);
  ModelThrottleThreshold := throttle;
  ModelDropThreshold := drop_threshold throttle (ModelDropThreshold item);
  ModelHoldSeconds := positive_default 60 (ModelHoldSeconds item);
  ModelThrottleRatePerSecond := throttleRate;
  ModelThrottleBurst := positive_default (wrap64 (throttleRate * 2)) (ModelThrottleBurst item);
  ModelThrottleTarget := throttle_target (ModelThrottleTarget item);
  ModelWeight429 := positive_float (float_of_Z 1) (ModelWeight429 item);
  ModelWeight403 := positive_float (float_of_decimal 18 (-1)) (ModelWeight403 item);
  ModelWeight444 := positive_float (float_of_decimal 22 (-1)) (ModelWeight444 item);
  ModelEmergencyRPS := positive_default 180 (ModelEmergencyRPS item);
  ModelEmergencyUniqueIPs := positive_default 40 (ModelEmergencyUniqueIPs item);
  ModelEmergencyPerIPRPS := positive_default 60 (ModelEmergencyPerIPRPS item);
  ModelWeightEmergencyBotnet := positive_float (float_of_Z 6) (ModelWeightEmergencyBotnet item);
  ModelWeightEmergencySingle := positive_float (float_of_Z 4) (ModelWeightEmergencySingle item);
  CreatedAt := CreatedAt item;
  UpdatedAt := UpdatedAt item
|}.

Definition validate_l7 (item : Settings) : result unit :=
  reject_if (L7RequestsPS item <=? 0) "anti-ddos l7_requests_per_second must be positive when l7 rate limit is enabled";;
  reject_if (L7Burst item <? 0) "anti-ddos l7_burst must be zero or positive";;
  reject_if ((L7StatusCode item <? 100) || (599 <? L7StatusCode item)) "anti-ddos l7_status_code must be between 100 and 599".

Definition validate_model (item : Settings) : result unit :=
  reject_if (ModelPollIntervalSeconds item <=? 0) "anti-ddos model_poll_interval_seconds must be positive";;
  reject_if (fle (ModelDecayLambda item) fzero) "anti-ddos model_decay_lambda must be positive";;
  reject_if (fle (ModelThrottleThreshold item) fzero) "anti-ddos model_throttle_threshold must be positive";;
  reject_if (fle (ModelDropThreshold item) (ModelThrottleThreshold item))
    "anti-ddos model_drop_threshold must be greater than model_throttle_threshold";;
  reject_if (ModelHoldSeconds item <=? 0) "anti-ddos model_hold_seconds must be positive";;
  reject_if (ModelThrottleRatePerSecond item <=? 0) "anti-ddos model_throttle_rate_per_second must be positive";;
  reject_if (ModelThrottleBurst item <=? 0) "anti-ddos model_throttle_burst must be positive";;
  reject_if (negb (mem (ModelThrottleTarget item) [TargetDrop; TargetReject]))
    "anti-ddos model_throttle_target must be DROP or REJECT".

Definition ValidateSettings (item : Settings) : result unit :=
  reject_if (negb (mem (ChainMode item) [ChainModeAuto; ChainModeDockerUser; ChainModeInput]))
    "anti-ddos chain_mode must be auto, docker-user, or input";;
  reject_if (negb (mem (Target item) [TargetDrop; TargetReject])) "anti-ddos target must be DROP or REJECT";;
  reject_if (ConnLimit item <=? 0) "anti-ddos conn_limit must be positive";;
  reject_if (RatePerSecond item <=? 0) "anti-ddos rate_per_second must be positive";;
  reject_if (RateBurst item <? RatePerSecond item)
    "anti-ddos rate_burst must be greater than or equal to rate_per_second";;
  match find_where (fun port => negb (port_ok port)) (Ports item) with
  | Some (_, port) => Err ("anti-ddos ports contains invalid value " ++ itoa port)
  | None => Ok tt
  end;;
  reject_if (UseL4Guard item && Nat.eqb (length (Ports item)) 0)
    "anti-ddos ports must contain at least one valid port when l4 guard is enabled";;
  reject_if (negb (is_empty (DestinationIP item)) && bool_decide (ParseIP (DestinationIP item) = None))
    "anti-ddos destination_ip must be a valid ip address";;
  (if EnforceL7Rate item then validate_l7 item else Ok tt);;
  (if ModelEnabled item then validate_model item else Ok tt).

(** ** The store (store.go) *)
Record state := MkState { settings : Settings }.

Definition stamped (createdAt updatedAt : string) (s : Settings) : Settings :=
  MkSettings (UseL4Guard s) (ChainMode s) (ConnLimit s) (RatePerSecond s) (RateBurst s) (Ports s) (Target s)
    (DestinationIP s) (EnforceL7Rate s) (L7RequestsPS s) (L7Burst s) (L7StatusCode s) (ModelEnabled s)
    (ModelPollIntervalSeconds s) (ModelDecayLambda s) (ModelThrottleThreshold s) (ModelDropThreshold s)
    (ModelHoldSeconds s) (ModelThrottleRatePerSecond s) (ModelThrottleBurst s) (ModelThrottleTarget s)
    (ModelWeight429 s) (ModelWeight403 s) (ModelWeight444 s) (ModelEmergencyRPS s) (ModelEmergencyUniqueIPs s)
    (ModelEmergencyPerIPRPS s) (ModelWeightEmergencyBotnet s) (ModelWeightEmergencySingle s) createdAt updatedAt.

Section Store.
Context `{Environment}.

Definition settings_config : doc_config state :=
  DocConfig "anti-ddos store" (MkState DefaultSettings) (fun s => MkState (NormalizeSettings (settings s))).

Definition getTx (_ : Z) (current : state) : result Settings :=
  let item := NormalizeSettings (settings current) in
  ValidateSettings item;; Ok item.

Definition Get : sop state Settings := query settings_config getTx.

Definition upsertTx (item : Settings) (t : Z) (current : state) : result (state * Settings) :=
  let item := stamped (text_default (format_rfc3339 t) (trim_space (CreatedAt (settings current)))) (format_rfc3339 t) item in
  Ok (MkState item, item).

Definition Upsert (item : Settings) : sop state Settings :=
  let item := NormalizeSettings item in
  lift (ValidateSettings item);;
  transact settings_config (upsertTx item).
End Store.

(** ** The service (services/antiddos.go) *)

(** One attempt to apply the compiled revision: [None] is success. *)
Definition apply_failure (r : result Jobs.Job) : option string :=
  match r with
  | Err e => Some ("revision apply failed: " ++ e)
  | Ok job =>
      if String.eqb (Jobs.job_Status job) Jobs.StatusSucceeded then None
      else Some ("revision apply " ++ Jobs.job_ID job ++ " finished with " ++ Jobs.job_Status job ++ ": " ++ trim_space (Jobs.job_Result job))
  end.

(** The loop over the attempts: the number of calls made, and what it returns. *)
Fixpoint apply_attempts (apply : nat -> result Jobs.Job) (lastErr : string) (attempt budget : nat) : nat * result unit :=
  match budget with
  | O => (attempt, Err lastErr)
  | S budget =>
      match apply_failure (apply attempt) with
      | None => (S attempt, Ok tt)
      | Some e => apply_attempts apply e (S attempt) budget
      end
  end.

(** [disabled] is [isAutoApplyDisabled(ctx)] or a service without the other two. *)
Definition compileAndApply (disabled : bool) (compile : result string) (apply : string -> nat -> result Jobs.Job)
    : nat * result unit :=
  if disabled then (0%nat, Ok tt)
  else match compile with
       | Err e => (0%nat, Err ("revision compile failed: " ++ e))
       | Ok revisionID =>
           apply_attempts (apply revisionID) ("revision apply " ++ revisionID ++ " failed without details") 0 3
       end.

Definition service_Upsert `{Environment} (item : Settings) (disabled : bool) (compile : result string)
    (apply : string -> nat -> result Jobs.Job) : sop state Settings :=
  updated ← Upsert item;
  lift (compileAndApply disabled compile apply).2;;
  mret updated.

(** ** Normal form *)
Lemma positive_default_idem fallback n : positive_default fallback (positive_default fallback n) = positive_default fallback n.
Proof. unfold positive_default. destruct (n <=? 0) eqn:E; [by destruct (fallback <=? 0) | by rewrite E]. Qed.
Lemma positive_float_idem fallback x : positive_float fallback (positive_float fallback x) = positive_float fallback x.
Proof. unfold positive_float. destruct (fle x fzero) eqn:E; [by destruct (fle fallback fzero) | by rewrite E]. Qed.
Lemma drop_threshold_idem t x : drop_threshold t (drop_threshold t x) = drop_threshold t x.
Proof. unfold drop_threshold. destruct (fle x t) eqn:E; [by destruct (fle (fadd t one_half) t) | by rewrite E]. Qed.
Lemma positive_default_pos fallback n : 0 < fallback -> 0 < positive_default fallback n.
Proof. unfold positive_default. destruct (Z.leb_spec n 0); lia. Qed.

Lemma elem_of_sorted_ints x l : x ∈ sorted_ints l <-> x ∈ l.
Proof. unfold sorted_ints. by rewrite elem_of_sort_on, elem_of_remove_dups. Qed.

Lemma filter_all {A} (f : A -> bool) (l : list A) : Forall (fun x => f x = true) l -> List.filter f l = l.
Proof. induction 1 as [|x l Hx _ IH]; cbn; [done|]. by rewrite Hx, IH. Qed.

Lemma normalizePorts_ok l : Forall (fun n => port_ok n = true) (normalizePorts l).
Proof.
  apply Forall_forall. intros n Hn. apply elem_of_sorted_ints, list_elem_of_In, filter_In in Hn. tauto.
Qed.

Lemma normalizePorts_idem l : normalizePorts (normalizePorts l) = normalizePorts l.
Proof.
  unfold normalizePorts at 1. rewrite (filter_all port_ok) by apply normalizePorts_ok. apply sorted_ints_idem.
Qed.

Lemma default_ports_normal l : default_ports (normalizePorts (default_ports (normalizePorts l))) = default_ports (normalizePorts l).
Proof. destruct (normalizePorts l) as [|p ps] eqn:E; [done|]. cbn [default_ports]. by rewrite <- E, normalizePorts_idem, E. Qed.

Lemma throttle_target_idem v : throttle_target (throttle_target v) = throttle_target v.
Proof.
  unfold throttle_target. destruct (negb (String.eqb (upper_trim v) TargetDrop) && _) eqn:E; [done|].
  apply andb_false_iff in E as [E%negb_false_iff%String.eqb_eq|E%negb_false_iff%String.eqb_eq]; by rewrite E.
Qed.

Lemma lower_default_idem s : text_default ChainModeAuto (lower_trim (text_default ChainModeAuto (lower_trim s))) =
  text_default ChainModeAuto (lower_trim s).
Proof. unfold text_default at 2 3. destruct (is_empty (lower_trim s)) eqn:E; [done|]. rewrite lower_trim_twice. unfold text_default. by rewrite E. Qed.

Lemma upper_default_idem s : text_default TargetDrop (upper_trim (text_default TargetDrop (upper_trim s))) =
  text_default TargetDrop (upper_trim s).
Proof. unfold text_default at 2 3. destruct (is_empty (upper_trim s)) eqn:E; [done|]. rewrite upper_trim_twice. unfold text_default. by rewrite E. Qed.

Lemma NormalizeSettings_idem item : NormalizeSettings (NormalizeSettings item) = NormalizeSettings item.
Proof.
  unfold NormalizeSettings at 1. cbn [UseL4Guard ChainMode ConnLimit RatePerSecond RateBurst Ports Target DestinationIP EnforceL7Rate
    L7RequestsPS L7Burst L7StatusCode ModelEnabled ModelPollIntervalSeconds ModelDecayLambda ModelThrottleThreshold
    ModelDropThreshold ModelHoldSeconds ModelThrottleRatePerSecond ModelThrottleBurst ModelThrottleTarget ModelWeight429
    ModelWeight403 ModelWeight444 ModelEmergencyRPS ModelEmergencyUniqueIPs ModelEmergencyPerIPRPS ModelWeightEmergencyBotnet
    ModelWeightEmergencySingle CreatedAt UpdatedAt NormalizeSettings].
  rewrite !positive_default_idem, !positive_float_idem, drop_threshold_idem, throttle_target_idem, lower_default_idem,
    upper_default_idem, default_ports_normal, trim_space_idem.
  unfold NormalizeSettings. f_equal. destruct (L7Burst item <? 0) eqn:E; [by destruct (wrap64 _ <? 0) | by rewrite E].
Qed.

(** ** What a settings document guarantees *)
Lemma ValidateSettings_limits s : ValidateSettings s = Ok tt ->
  (ChainMode s = "auto" \/ ChainMode s = "docker-user" \/ ChainMode s = "input") /\
  (Target s = "DROP" \/ Target s = "REJECT") /\
  0 < ConnLimit s /\ 0 < RatePerSecond s <= RateBurst s /\ Forall (fun n => port_ok n = true) (Ports s) /\
  (DestinationIP s = "" \/ is_Some (ParseIP (DestinationIP s))).
Proof.
  unfold ValidateSettings. intros (? & Hm%reject_if_ok & H)%result_bind_ok.
  apply result_bind_ok in H as (? & Ht%reject_if_ok & H).
  apply result_bind_ok in H as (? & Hc%reject_if_ok & H). apply result_bind_ok in H as (? & Hr%reject_if_ok & H).
  apply result_bind_ok in H as (? & Hb%reject_if_ok & H). apply result_bind_ok in H as (? & Hp & H).
  apply result_bind_ok in H as (? & _ & H). apply result_bind_ok in H as (? & Hd%reject_if_ok & _).
  apply negb_false_iff, mem_spec in Hm, Ht.
  apply Z.leb_gt in Hc, Hr. apply Z.ltb_ge in Hb.
  apply list_elem_of_In in Hm, Ht. cbn in Hm, Ht.
  split; [destruct Hm as [<-|[<-|[<-|[]]]]; auto|].
  split; [destruct Ht as [<-|[<-|[]]]; auto|]. split; [done|]. split; [lia|]. split.
  - destruct (find_where _ _) as [[i p]|] eqn:Ef; [discriminate|]. rewrite find_where_None in Ef.
    apply Forall_forall. intros n Hn. specialize (Ef n Hn). cbv beta in Ef. by apply negb_false_iff.
  - apply andb_false_iff in Hd as [Hd|Hd%bool_decide_eq_false].
    + left. by destruct (DestinationIP s).
    + right. by destruct (ParseIP _); [eexists | done].
Qed.

Lemma stamped_validate c u s : ValidateSettings (stamped c u s) = ValidateSettings s.
Proof. reflexivity. Qed.
Lemma stamped_normal c u s : NormalizeSettings (stamped c u s) = stamped c u (NormalizeSettings s).
Proof. reflexivity. Qed.

Section Served.
Context `{Environment}.

(** C29: The settings an operator saves are the settings everyone reads.  When Upsert accepts a
    request, the document holds its normal form, which is valid and stays as it is when normalised
    again, and from then on Get returns exactly that, on either backend; an Upsert that is refused
    or fails leaves the document alone. *)
Theorem saved_settings_served (item : Settings) (e : env) (s s' : json_state state) (r : result Settings) :
  Upsert item e s = (s', r) ->
  match r with
  | Ok a =>
      a = stamped (CreatedAt a) (format_rfc3339 (now e)) (NormalizeSettings item) /\
      ValidateSettings a = Ok tt /\ NormalizeSettings a = a /\ visible s' = Some (Decodes (MkState a)) /\
      forall e', no_faults e' -> (Get e' s').2 = Ok a
  | Err _ => visible s' = visible s
  end.
Proof.
  unfold Upsert. set (n := NormalizeSettings item). intros E. unfold mbind, sop_bind, lift in E.
  destruct (ValidateSettings n) as [[]|msg] eqn:Ev; [|by injection E as <- <-].
  destruct r as [a|msg]; [|by eapply transact_err in E].
  apply transact_ok in E as (d & d' & _ & Hf & Hv). injection Hf as <- <-.
  set (a := stamped _ _ n) in *.
  assert (Hn : NormalizeSettings a = a) by (unfold a, n; by rewrite stamped_normal, NormalizeSettings_idem).
  split; [done|]. split; [done|]. split; [done|]. split; [done|]. intros e' He.
  assert (Hc : current settings_config s' = Some (MkState a)).
  { unfold current. rewrite Hv. cbn [doc_sort settings_config settings]. by rewrite Hn. }
  unfold Get. rewrite (query_healthy _ _ _ _ _ He Hc). unfold getTx. cbn [settings]. rewrite Hn.
  change (ValidateSettings a) with (ValidateSettings n). by rewrite Ev.
Qed.
End Served.

(** The service makes at most three attempts and stops at the first that succeeds. *)
Lemma apply_attempts_spec apply lastErr attempt budget n r :
  apply_attempts apply lastErr attempt budget = (n, r) ->
  (attempt <= n <= attempt + budget)%nat /\
  match r with
  | Ok _ => exists k, n = S k /\ apply_failure (apply k) = None /\ forall j, (attempt <= j < k)%nat -> apply_failure (apply j) <> None
  | Err _ => n = (attempt + budget)%nat /\ forall j, (attempt <= j < n)%nat -> apply_failure (apply j) <> None
  end.
Proof.
  revert lastErr attempt. induction budget as [|budget IH]; intros lastErr attempt; cbn [apply_attempts].
  { intros [= <- <-]. split; [lia|]. split; [lia|]. intros j. lia. }
  destruct (apply_failure (apply attempt)) as [msg|] eqn:Ea.
  - intros E. apply IH in E as [Hb Hr]. split; [lia|].
    assert (Hj : forall j, (attempt <= j)%nat -> (j < S attempt)%nat -> apply_failure (apply j) <> None)
      by (intros j ??; replace j with attempt by lia; by rewrite Ea).
    destruct r as [[]|].
    + destruct Hr as (k & -> & Hk & Hlt). exists k. split; [done|]. split; [done|]. intros j Hin.
      destruct (decide (j < S attempt)%nat); [apply Hj; lia | apply Hlt; lia].
    + destruct Hr as [Hn Hlt]. split; [lia|]. intros j Hin.
      destruct (decide (j < S attempt)%nat); [apply Hj; lia | apply Hlt; lia].
  - intros [= <- <-]. split; [lia|]. exists attempt. split; [done|]. split; [done|]. intros j. lia.
Qed.

(** ** Examples *)
Module Samples.
Definition plain : Environment := Build_Environment (fun _ => "").
Definition faster : Environment :=
  Build_Environment (fun name => if String.eqb name "WAF_DEFAULT_ANTIDDOS_RATE_PER_SECOND" then "500" else "").
Definition request : Settings :=
  let d := @DefaultSettings plain in
  MkSettings true " Input " 0 40 0 [443; 0; 80; 443; 70000] "reject" " 192.0.2.7 " (EnforceL7Rate d) 0 (-1) 0 true 0
    fzero fzero (float_of_Z 1) 0 0 0 "allow" fzero fzero fzero 0 0 0 fzero fzero "" "".
Definition saved : json_state state := (@Upsert plain request (healthy 7) new_file_state).1.
End Samples.

Lemma saved_settings_served_witness :
  exists a, (@Upsert Samples.plain Samples.request (healthy 7) new_file_state).2 = Ok a /\
    ChainMode a = "input" /\ Ports a = [80; 443] /\ RateBurst a = 80 /\
    ModelDropThreshold a = float_of_decimal 3 0 /\
    (@Get Samples.plain (healthy 9) Samples.saved).2 = Ok a.
Proof.
  eexists. split; [vm_compute; reflexivity|]. split; [reflexivity|]. split; [reflexivity|]. split; [reflexivity|].
  split; [vm_compute; reflexivity|].
  refine (proj2 (proj2 (proj2 (proj2 (@saved_settings_served Samples.plain Samples.request (healthy 7) new_file_state
    Samples.saved (Ok _) _)))) (healthy 9) eq_refl). vm_compute. reflexivity.
Defined.

(** The burst of the default settings does not follow the rate: a higher rate in the environment alone
    makes them invalid, and an installation without saved settings can read none. *)
Example default_burst_too_small :
  (@Get Samples.faster (healthy 5) new_file_state).2 =
    Err "anti-ddos rate_burst must be greater than or equal to rate_per_second".
Proof. vm_compute. reflexivity. Qed.

(** A threshold so large that adding a half changes nothing can not be repaired. *)
Example huge_threshold :
  let t := float_of_Z (2 ^ 60) in fle (drop_threshold t fzero) t = true.
Proof. vm_compute. reflexivity. Qed.
