(* ===== verification/Sessions.v ===== *)
(** * Session store (control-plane/internal/sessions/store.go and step_up.go)

    Browser sessions, the one-time challenges of the login flows (second
    factor, TOTP set-up, OIDC) and the step-up verification state, all in one
    document.  Random tokens ([newToken]) are arguments.  A store runs either
    on plain load/save or, when the backend supports it, on atomic document
    updates for the consume-once and step-up operations; [atomic] says which. *)
From Stdlib Require Import ZArith Lia String.
From stdpp Require Import base tactics strings list.
From S2P Require Import Prelude GoTime DocStore.
Local Open Scope Z_scope.
Local Set Warnings "-clear-no-such-hyp".

Record Session := MkSession {
  ses_ID : string;
  ses_UserID : string;
  ses_Username : string;
  ses_RoleIDs : list string;
  ses_CreatedAt : string;
  ses_ExpiresAt : string
}.

Definition set_ses_ExpiresAt (v : string) (x : Session) : Session :=
  MkSession (ses_ID x) (ses_UserID x) (ses_Username x) (ses_RoleIDs x) (ses_CreatedAt x) v.
Record LoginChallenge := MkLoginChallenge {
  lch_ID : string;
  lch_UserID : string;
  lch_CreatedAt : string;
  lch_ExpiresAt : string
}.

Record TOTPSetupChallenge := MkTOTPSetupChallenge {
  tch_ID : string;
  tch_UserID : string;
  tch_Secret : string;
  tch_CreatedAt : string;
  tch_ExpiresAt : string
}.

Record OIDCLoginChallenge := MkOIDCLoginChallenge {
  och_ID : string;
  och_State : string;
  och_Nonce : string;
  och_NextPath : string;
  och_CreatedAt : string;
  och_ExpiresAt : string
}.

Record StepUpFailure := MkStepUpFailure {
  suf_UserID : string;
  suf_FailureCount : Z;
  suf_LastFailedAt : string;
  suf_LockedUntil : string
}.

Definition set_suf_FailureCount (v : Z) (x : StepUpFailure) : StepUpFailure :=
  MkStepUpFailure (suf_UserID x) v (suf_LastFailedAt x) (suf_LockedUntil x).
Definition set_suf_LastFailedAt (v : string) (x : StepUpFailure) : StepUpFailure :=
  MkStepUpFailure (suf_UserID x) (suf_FailureCount x) v (suf_LockedUntil x).
Definition set_suf_LockedUntil (v : string) (x : StepUpFailure) : StepUpFailure :=
  MkStepUpFailure (suf_UserID x) (suf_FailureCount x) (suf_LastFailedAt x) v.
Record StepUpAssertion := MkStepUpAssertion {
  sua_SessionID : string;
  sua_UserID : string;
  sua_ExpiresAt : string
}.

Record StepUpStatus_t := MkStepUpStatus {
  sus_Verified : bool;
  sus_Locked : bool;
  sus_RetryAfterSeconds : Z
}.

Record state := MkState {
  Sessions : list Session;
  LoginChallenges : list LoginChallenge;
  TOTPSetupChallenges : list TOTPSetupChallenge;
  OIDCLoginChallenges : list OIDCLoginChallenge;
  StepUpFailures : list StepUpFailure;
  StepUpAssertions : list StepUpAssertion
}.

Definition set_Sessions (v : list Session) (x : state) : state :=
  MkState v (LoginChallenges x) (TOTPSetupChallenges x) (OIDCLoginChallenges x) (StepUpFailures
    x) (StepUpAssertions x).
Definition set_LoginChallenges (v : list LoginChallenge) (x : state) : state :=
  MkState (Sessions x) v (TOTPSetupChallenges x) (OIDCLoginChallenges x) (StepUpFailures x)
    (StepUpAssertions x).
Definition set_TOTPSetupChallenges (v : list TOTPSetupChallenge) (x : state) : state :=
  MkState (Sessions x) (LoginChallenges x) v (OIDCLoginChallenges x) (StepUpFailures x)
    (StepUpAssertions x).
Definition set_OIDCLoginChallenges (v : list OIDCLoginChallenge) (x : state) : state :=
  MkState (Sessions x) (LoginChallenges x) (TOTPSetupChallenges x) v (StepUpFailures x)
    (StepUpAssertions x).
Definition set_StepUpFailures (v : list StepUpFailure) (x : state) : state :=
  MkState (Sessions x) (LoginChallenges x) (TOTPSetupChallenges x) (OIDCLoginChallenges x) v
    (StepUpAssertions x).
Definition set_StepUpAssertions (v : list StepUpAssertion) (x : state) : state :=
  MkState (Sessions x) (LoginChallenges x) (TOTPSetupChallenges x) (OIDCLoginChallenges x)
    (StepUpFailures x) v.

Definition normalize : string -> string := normalize_id.
Definition normalizeValues (items : list string) : list string :=
  sort_on (fun v => v) (normalize <$> items).

Definition sortSessions (items : list Session) : list Session := sort_on ses_ID items.

(** [expiresAt, err := time.Parse(...); err == nil && expiresAt.After(now)] *)
Definition unexpired (now0 : Z) (expiresAt : string) : bool :=
  match parse_rfc3339 expiresAt with Some t => now0 <? t | None => false end.

Definition pruneSessions (now0 : Z) (items : list Session) : list Session :=
  sortSessions (filter (fun i => unexpired now0 (ses_ExpiresAt i)) items).
Definition pruneLoginChallenges (now0 : Z) (items : list LoginChallenge) : list LoginChallenge :=
  filter (fun i => unexpired now0 (lch_ExpiresAt i)) items.
Definition pruneSetupChallenges (now0 : Z) (items : list TOTPSetupChallenge)
  : list TOTPSetupChallenge :=
  filter (fun i => unexpired now0 (tch_ExpiresAt i)) items.
Definition pruneOIDCChallenges (now0 : Z) (items : list OIDCLoginChallenge)
  : list OIDCLoginChallenge :=
  filter (fun i => unexpired now0 (och_ExpiresAt i)) items.

Definition pruneExpired (now0 : Z) (s : state) : state :=
  MkState (pruneSessions now0 (Sessions s)) (pruneLoginChallenges now0 (LoginChallenges s))
    (pruneSetupChallenges now0 (TOTPSetupChallenges s))
    (pruneOIDCChallenges now0 (OIDCLoginChallenges s)) (StepUpFailures s) (StepUpAssertions s).

Definition sessions_config : doc_config state :=
  DocConfig "sessions store" (MkState [] [] [] [] [] [])
    (fun s => set_Sessions (sortSessions (Sessions s)) s).

(** ** Sessions *)
Definition createSessionTx (token userID username : string) (roleIDs : list string) (ttl : Z)
    (now0 : Z) (current : state) : result (state * Session) :=
  let session := MkSession token (normalize userID) (normalize username)
    (normalizeValues roleIDs) (format_rfc3339 now0) (format_rfc3339 (now0 + ttl)) in
  Ok (pruneExpired now0 (set_Sessions (Sessions current ++ [session]) current), session).
Definition CreateSession (token userID username : string) (roleIDs : list string) (ttl : Z)
  : sop state Session :=
  transact sessions_config (createSessionTx token userID username roleIDs ttl).

Definition getSessionTx (id : string) (now0 : Z) (current : state)
  : result (state * option Session) :=
  let current := pruneExpired now0 current in
  Ok (current, snd <$> find_key ses_ID (trim_space id) (Sessions current)).
Definition GetSession (id : string) : sop state (option Session) :=
  transact sessions_config (getSessionTx id).

Definition Count : sop state Z :=
  transact sessions_config (fun now0 current =>
    let current := pruneExpired now0 current in
    Ok (current, Z.of_nat (length (Sessions current)))).

Definition touchSessionTx (id : string) (ttl : Z) (now0 : Z) (current : state)
  : result (state * option Session) :=
  let current := pruneExpired now0 current in
  match find_key ses_ID (trim_space id) (Sessions current) with
  | Some (i, item) =>
      let session := set_ses_ExpiresAt (format_rfc3339 (now0 + ttl)) item in
      Ok (set_Sessions (<[i := session]> (Sessions current)) current, Some session)
  | None => Ok (current, None)
  end.
Definition TouchSession (id : string) (ttl : Z) : sop state (option Session) :=
  transact sessions_config (touchSessionTx id ttl).

Definition deleteSessionTx (id : string) (current : state) : result (state * unit) :=
  Ok (set_Sessions (filter (fun i => ses_ID i <> trim_space id) (Sessions current)) current, tt).
Definition DeleteSession (id : string) : sop state unit :=
  transact sessions_config (fun _ => deleteSessionTx id).

Definition deleteSessionsByUserTx (userID exceptSessionID : string) (current : state)
  : result (state * unit) :=
  let drop i := String.eqb (ses_UserID i) (normalize userID) &&
                negb (String.eqb (ses_ID i) (trim_space exceptSessionID)) in
  Ok (set_Sessions (filter (fun i => drop i = false) (Sessions current)) current, tt).
Definition deleteSessionsByUser (userID exceptSessionID : string) : sop state unit :=
  transact sessions_config (fun _ => deleteSessionsByUserTx userID exceptSessionID).
Definition DeleteSessionsByUser (userID : string) : sop state unit :=
  deleteSessionsByUser userID "".
Definition DeleteSessionsByUserExcept (userID exceptSessionID : string) : sop state unit :=
  deleteSessionsByUser userID exceptSessionID.

(** ** One-time challenges *)
Definition createLoginChallengeTx (token userID : string) (ttl : Z) (now0 : Z) (current : state)
  : result (state * LoginChallenge) :=
  let challenge := MkLoginChallenge token (normalize userID) (format_rfc3339 now0)
                     (format_rfc3339 (now0 + ttl)) in
  Ok (pruneExpired now0 (set_LoginChallenges (LoginChallenges current ++ [challenge]) current),
      challenge).
Definition CreateLoginChallenge (token userID : string) (ttl : Z) : sop state LoginChallenge :=
  transact sessions_config (createLoginChallengeTx token userID ttl).

Definition getLoginChallengeTx (id : string) (now0 : Z) (current : state)
  : result (state * option LoginChallenge) :=
  let current := pruneExpired now0 current in
  Ok (current, snd <$> find_key lch_ID (trim_space id) (LoginChallenges current)).
Definition GetLoginChallenge (id : string) : sop state (option LoginChallenge) :=
  transact sessions_config (getLoginChallengeTx id).

Definition createTOTPSetupChallengeTx (token userID secret : string) (ttl : Z) (now0 : Z)
    (current : state) : result (state * TOTPSetupChallenge) :=
  let filtered := filter (fun i => tch_UserID i <> normalize userID)
                    (TOTPSetupChallenges current) in
  let challenge := MkTOTPSetupChallenge token (normalize userID) (trim_space secret)
                     (format_rfc3339 now0) (format_rfc3339 (now0 + ttl)) in
  Ok (pruneExpired now0 (set_TOTPSetupChallenges (filtered ++ [challenge]) current), challenge).
Definition CreateTOTPSetupChallenge (token userID secret : string) (ttl : Z)
  : sop state TOTPSetupChallenge :=
  transact sessions_config (createTOTPSetupChallengeTx token userID secret ttl).

Definition createOIDCLoginChallengeTx (id stateToken nonce nextPath : string) (ttl : Z)
    (now0 : Z) (current : state) : result (state * OIDCLoginChallenge) :=
  let challenge := MkOIDCLoginChallenge id stateToken nonce (trim_space nextPath)
                     (format_rfc3339 now0) (format_rfc3339 (now0 + ttl)) in
  Ok (pruneExpired now0
        (set_OIDCLoginChallenges (OIDCLoginChallenges current ++ [challenge]) current),
      challenge).
Definition CreateOIDCLoginChallenge (id stateToken nonce nextPath : string) (ttl : Z)
  : sop state OIDCLoginChallenge :=
  transact sessions_config (createOIDCLoginChallengeTx id stateToken nonce nextPath ttl).

(** The consume loop: prune, take the first match out, save whether found or not. *)
Definition consumeLoginTx (id : string) (now0 : Z) (current : state)
  : result (state * option LoginChallenge) :=
  let current := pruneExpired now0 current in
  match find_key lch_ID (trim_space id) (LoginChallenges current) with
  | Some (i, item) =>
      Ok (set_LoginChallenges (delete i (LoginChallenges current)) current, Some item)
  | None => Ok (current, None)
  end.
Definition consumeLoginChallengeAtomic (id : string) : sop state (option LoginChallenge) :=
  update_document sessions_config (consumeLoginTx id).
Definition ConsumeLoginChallenge (atomic : bool) (id : string) : sop state (option LoginChallenge) :=
  if atomic then consumeLoginChallengeAtomic id else transact sessions_config (consumeLoginTx id).

Definition consumeOIDCTx (stateValue : string) (now0 : Z) (current : state)
  : result (state * option OIDCLoginChallenge) :=
  let current := pruneExpired now0 current in
  match find_key och_State (trim_space stateValue) (OIDCLoginChallenges current) with
  | Some (i, item) =>
      Ok (set_OIDCLoginChallenges (delete i (OIDCLoginChallenges current)) current, Some item)
  | None => Ok (current, None)
  end.
Definition consumeOIDCLoginChallengeAtomic (stateValue : string)
  : sop state (option OIDCLoginChallenge) :=
  update_document sessions_config (consumeOIDCTx stateValue).
Definition ConsumeOIDCLoginChallenge (atomic : bool) (stateValue : string)
  : sop state (option OIDCLoginChallenge) :=
  if atomic then consumeOIDCLoginChallengeAtomic stateValue
  else transact sessions_config (consumeOIDCTx stateValue).

Definition consumeTOTPTx (id : string) (now0 : Z) (current : state)
  : result (state * option TOTPSetupChallenge) :=
  let current := pruneExpired now0 current in
  match find_key tch_ID (trim_space id) (TOTPSetupChallenges current) with
  | Some (i, item) =>
      Ok (set_TOTPSetupChallenges (delete i (TOTPSetupChallenges current)) current, Some item)
  | None => Ok (current, None)
  end.
Definition consumeTOTPSetupChallengeAtomic (id : string) : sop state (option TOTPSetupChallenge) :=
  update_document sessions_config (consumeTOTPTx id).
Definition ConsumeTOTPSetupChallenge (atomic : bool) (id : string)
  : sop state (option TOTPSetupChallenge) :=
  if atomic then consumeTOTPSetupChallengeAtomic id
  else transact sessions_config (consumeTOTPTx id).

(** ** Step-up verification *)
Definition stepUpFirstLockFailures : Z := 5.
Definition stepUpSecondLockFails : Z := 10.
Definition ErrStepUpLocked := "step-up verification is temporarily locked"%string.

Definition pruneStepUp (now0 : Z) (current : state) : state :=
  set_StepUpAssertions
    (filter (fun i => unexpired now0 (sua_ExpiresAt i)) (StepUpAssertions current)) current.

(** [Some seconds] while locked: [(true, seconds)]. *)
Definition stepUpLocked (failure : option StepUpFailure) (now0 : Z) : option Z :=
  match failure with
  | None => None
  | Some f =>
      if is_blank (suf_LockedUntil f) then None
      else match parse_rfc3339 (suf_LockedUntil f) with
           | None => None
           | Some until =>
               if until <=? now0 then None
               else Some (Z.max 1 ((until - now0) / second))
           end
  end.

Definition findStepUpFailure (current : state) (userID : string) : option (nat * StepUpFailure) :=
  find_key suf_UserID userID (StepUpFailures current).

Definition removeStepUpFailure (userID : string) (items : list StepUpFailure) :=
  filter (fun i => suf_UserID i <> userID) items.
Definition removeStepUpAssertion (sessionID : string) (items : list StepUpAssertion) :=
  filter (fun i => sua_SessionID i <> sessionID) items.

Definition locked_status (retry : Z) : StepUpStatus_t := MkStepUpStatus false true retry.

Definition stepUpStatus (current : state) (sessionID userID : string) (now0 : Z) : StepUpStatus_t :=
  match stepUpLocked (snd <$> findStepUpFailure current (normalize userID)) now0 with
  | Some retry => locked_status retry
  | None =>
      if existsb (fun a => String.eqb (sua_SessionID a) (trim_space sessionID) &&
                           String.eqb (sua_UserID a) (normalize userID)) (StepUpAssertions current)
      then MkStepUpStatus true false 0
      else MkStepUpStatus false false 0
  end.

(** The counter update of [RecordStepUpFailure]. *)
Definition bumpFailure (now0 : Z) (failure : StepUpFailure) : StepUpFailure :=
  let failure :=
    match parse_rfc3339 (suf_LastFailedAt failure) with
    | Some last => if hour <? now0 - last then set_suf_FailureCount 0 failure else failure
    | None => set_suf_FailureCount 0 failure
    end in
  let failure := set_suf_FailureCount (suf_FailureCount failure + 1) failure in
  let failure := set_suf_LastFailedAt (format_rfc3339_nano now0) failure in
  if stepUpSecondLockFails <=? suf_FailureCount failure
  then set_suf_LockedUntil (format_rfc3339_nano (now0 + hour)) failure
  else if stepUpFirstLockFailures <=? suf_FailureCount failure
  then set_suf_LockedUntil (format_rfc3339_nano (now0 + 15 * minute)) failure
  else failure.

Definition status_of_failure (failure : StepUpFailure) (now0 : Z) : StepUpStatus_t :=
  match stepUpLocked (Some failure) now0 with
  | Some retry => locked_status retry
  | None => MkStepUpStatus false false 0
  end.

Definition recordFailureTx (userID : string) (now0 : Z) (current : state)
  : result (state * StepUpStatus_t) :=
  let found := findStepUpFailure current userID in
  match stepUpLocked (snd <$> found) now0 with
  | Some retry => Ok (current, locked_status retry)
  | None =>
      let '(i, items, failure) :=
        match found with
        | Some (i, f) => (i, StepUpFailures current, f)
        | None =>
            let f := MkStepUpFailure userID 0 "" "" in
            (length (StepUpFailures current), StepUpFailures current ++ [f], f)
        end in
      let failure := bumpFailure now0 failure in
      Ok (set_StepUpFailures (<[i := failure]> items) current, status_of_failure failure now0)
  end.

Definition grantTx (sessionID userID : string) (ttl : Z) (now0 : Z) (current : state)
  : result (state * StepUpStatus_t) :=
  match stepUpLocked (snd <$> findStepUpFailure current userID) now0 with
  | Some retry => Err ErrStepUpLocked
  | None =>
      let current := set_StepUpFailures
        (removeStepUpFailure userID (StepUpFailures current)) current in
      let assertions := removeStepUpAssertion sessionID (StepUpAssertions current) ++
        [MkStepUpAssertion sessionID userID (format_rfc3339_nano (now0 + ttl))] in
      Ok (set_StepUpAssertions assertions current, MkStepUpStatus true false 0)
  end.

(** [updateStepUpState]: atomic updates always write back; otherwise only when [persist]. *)
Definition updateStepUpState {A} (atomic persist : bool)
    (update : Z -> state -> result (state * A)) : sop state A :=
  let tx now0 current := update now0 (pruneStepUp now0 current) in
  if atomic then update_document sessions_config tx
  else if persist then transact sessions_config tx
  else query sessions_config (fun now0 current => snd <$> tx now0 current).

Definition StepUpStatus (atomic : bool) (sessionID userID : string) : sop state StepUpStatus_t :=
  updateStepUpState atomic false (fun now0 current =>
    Ok (current, stepUpStatus current sessionID userID now0)).

Definition RecordStepUpFailure (atomic : bool) (userID : string) : sop state StepUpStatus_t :=
  let userID := normalize userID in
  lift (reject_if (is_empty userID) "step-up user id is required");;
  updateStepUpState atomic true (recordFailureTx userID).

Definition grantStepUp (atomic : bool) (sessionID userID : string) (ttl : Z)
  : sop state StepUpStatus_t :=
  lift (reject_if (is_empty sessionID || is_empty userID || (ttl <=? 0))
          "step-up session, user, and ttl are required");;
  updateStepUpState atomic true (grantTx sessionID userID ttl).

(** The status the closure of [GrantStepUp] has set when it returns [ErrStepUpLocked]. *)
Definition lockedStatus (atomic : bool) (userID : string) (e : env) (s : json_state state)
  : StepUpStatus_t :=
  match (if atomic then raw_document sessions_config s else current sessions_config s) with
  | Some d => match stepUpLocked (snd <$> findStepUpFailure d userID) (now e) with
              | Some retry => locked_status retry
              | None => MkStepUpStatus false false 0
              end
  | None => MkStepUpStatus false false 0
  end.

(** Unlike the other operations it returns a status together with the error. *)
Definition GrantStepUp (atomic : bool) (sessionID userID : string) (ttl : Z) (e : env)
    (s : json_state state) : json_state state * (StepUpStatus_t * option string) :=
  let sessionID := trim_space sessionID in
  let userID := normalize userID in
  match grantStepUp atomic sessionID userID ttl e s with
  | (s', Ok status) => (s', (status, None))
  | (s', Err msg) =>
      (s', (if String.eqb msg ErrStepUpLocked then lockedStatus atomic userID e s
            else MkStepUpStatus false false 0, Some msg))
  end.

(** ** Commands *)
Inductive command :=
| CCreateSession (token userID username : string) (roleIDs : list string) (ttl : Z)
| CGetSession (id : string)
| CCount
| CTouchSession (id : string) (ttl : Z)
| CDeleteSession (id : string)
| CDeleteSessionsByUser (userID exceptSessionID : string)
| CCreateLoginChallenge (token userID : string) (ttl : Z)
| CConsumeLoginChallenge (id : string)
| CGetLoginChallenge (id : string)
| CCreateTOTPSetupChallenge (token userID secret : string) (ttl : Z)
| CConsumeTOTPSetupChallenge (id : string)
| CCreateOIDCLoginChallenge (id stateToken nonce nextPath : string) (ttl : Z)
| CConsumeOIDCLoginChallenge (stateValue : string)
| CStepUpStatus (sessionID userID : string)
| CRecordStepUpFailure (userID : string)
| CGrantStepUp (sessionID userID : string) (ttl : Z).

Definition unit_of {A} (m : sop state A) : sop state unit := (fun _ => tt) <$> m.

Definition exec (atomic : bool) (c : command) : sop state unit :=
  match c with
  | CCreateSession t u n r ttl => unit_of (CreateSession t u n r ttl)
  | CGetSession id => unit_of (GetSession id)
  | CCount => unit_of Count
  | CTouchSession id ttl => unit_of (TouchSession id ttl)
  | CDeleteSession id => DeleteSession id
  | CDeleteSessionsByUser u x => DeleteSessionsByUserExcept u x
  | CCreateLoginChallenge t u ttl => unit_of (CreateLoginChallenge t u ttl)
  | CConsumeLoginChallenge id => unit_of (ConsumeLoginChallenge atomic id)
  | CGetLoginChallenge id => unit_of (GetLoginChallenge id)
  | CCreateTOTPSetupChallenge t u sec ttl => unit_of (CreateTOTPSetupChallenge t u sec ttl)
  | CConsumeTOTPSetupChallenge id => unit_of (ConsumeTOTPSetupChallenge atomic id)
  | CCreateOIDCLoginChallenge i st n p ttl => unit_of (CreateOIDCLoginChallenge i st n p ttl)
  | CConsumeOIDCLoginChallenge st => unit_of (ConsumeOIDCLoginChallenge atomic st)
  | CStepUpStatus sid u => unit_of (StepUpStatus atomic sid u)
  | CRecordStepUpFailure u => unit_of (RecordStepUpFailure atomic u)
  | CGrantStepUp sid u ttl => fun e s => ((GrantStepUp atomic sid u ttl e s).1, Ok tt)
  end.

(** ** Challenges are consumed at most once *)

(** Properties of the login challenges that survive dropping some of them. *)
Definition no_challenge (id : string) (d : state) : Prop := id ∉ lch_ID <$> LoginChallenges d.
Definition unique_challenges (d : state) : Prop := NoDup (lch_ID <$> LoginChallenges d).

#[export] Instance no_challenge_inv id : DocInv sessions_config (no_challenge id).
Proof. split; [apply not_elem_of_nil | done]. Qed.
#[export] Instance unique_challenges_inv : DocInv sessions_config unique_challenges.
Proof. split; [apply NoDup_nil_2 | done]. Qed.

(** A computation that only drops login challenges. *)
Definition drops_only (f : Z -> state -> result (state * unit)) : Prop :=
  forall t d d' u, f t d = Ok (d', u) -> LoginChallenges d' `sublist_of` LoginChallenges d.

Lemma no_challenge_sublist id d d' :
  LoginChallenges d' `sublist_of` LoginChallenges d -> no_challenge id d -> no_challenge id d'.
Proof.
  unfold no_challenge. intros Hs Hn Hin. apply Hn.
  eapply elem_of_sublist; [exact Hin|]. by apply sublist_fmap_mono.
Qed.

Lemma prune_sublist t d : LoginChallenges (pruneExpired t d) `sublist_of` LoginChallenges d.
Proof. apply sublist_filter. Qed.

Section DropsOnly.
Variable J : state -> Prop.
Context `{!DocInv sessions_config J}.
Hypothesis J_drop : forall d d',
  LoginChallenges d' `sublist_of` LoginChallenges d -> J d -> J d'.

(** Transactions whose computation only drops login challenges keep [J]. *)
Lemma tx_drop {A} (f : Z -> state -> result (state * A)) :
  (forall t d d' a, f t d = Ok (d', a) -> LoginChallenges d' `sublist_of` LoginChallenges d) ->
  preserves J (transact sessions_config f) /\ preserves J (update_document sessions_config f).
Proof using All.
intros Hf. split; [apply transact_preserves | apply update_document_preserves]; try done;
intros t d d' a Hd E; apply Hf in E; by eapply J_drop.
Qed.

Lemma step_up_drop {A} (atomic persist : bool) (u : Z -> state -> result (state * A)) :
  (forall t d d' a, u t d = Ok (d', a) -> LoginChallenges d' = LoginChallenges d) ->
  preserves J (updateStepUpState atomic persist u).
Proof using All.
intros Hu. unfold updateStepUpState.
assert (Hf : forall t d d' a, u t (pruneStepUp t d) = Ok (d', a) ->
LoginChallenges d' `sublist_of` LoginChallenges d)
by (intros t d d' a E; by rewrite (Hu _ _ _ _ E)).
destruct (tx_drop (fun now0 current => u now0 (pruneStepUp now0 current)) Hf).
destruct atomic; [done|]. destruct persist; [done|]. by apply query_preserves.
Qed.

Lemma consume_drop {A} (atomic : bool) (f : Z -> state -> result (state * A)) :
  (forall t d d' a, f t d = Ok (d', a) -> LoginChallenges d' `sublist_of` LoginChallenges d) ->
  preserves J (if atomic then update_document sessions_config f else transact sessions_config f).
Proof using All. intros Hf. destruct (tx_drop f Hf). by destruct atomic. Qed.

Lemma recordFailureTx_challenges u t d d' a :
  recordFailureTx u t d = Ok (d', a) -> LoginChallenges d' = LoginChallenges d.
Proof using.
unfold recordFailureTx. destruct (stepUpLocked _ _); [by intros [= <- _]|].
destruct (findStepUpFailure d u) as [[i f]|]; by intros [= <- _].
Qed.

Lemma grantTx_challenges sid u ttl t d d' a :
  grantTx sid u ttl t d = Ok (d', a) -> LoginChallenges d' = LoginChallenges d.
Proof using. unfold grantTx. destruct (stepUpLocked _ _); [discriminate | by intros [= <- _]]. Qed.

Lemma GrantStepUp_preserves atomic sid u ttl e s :
  holds J s -> holds J (GrantStepUp atomic sid u ttl e s).1.
Proof using All.
intros Hs. unfold GrantStepUp. cbv zeta.
assert (Hp : preserves J (grantStepUp atomic (trim_space sid) (normalize u) ttl)).
{ unfold grantStepUp. apply bind_preserves; [apply lift_preserves|]. intros _.
apply step_up_drop. intros t d d' a. apply grantTx_challenges. }
specialize (Hp e s Hs). destruct (grantStepUp _ _ _ _ e s) as [s' [a|m]]; done.
Qed.

(** Every command but the creation of a login challenge keeps [J]. *)
Lemma exec_drop atomic c :
  match c with CCreateLoginChallenge _ _ _ => False | _ => True end -> preserves J (exec atomic c).
Proof using All.
pose proof prune_sublist as Hp.
intros Hc. destruct c; try done; simpl; try (apply fmap_preserves).
- apply tx_drop. intros t d d' a [= <- _]. etransitivity; [apply Hp | done].
- apply tx_drop. intros t d d' a [= <- _]. apply Hp.
- apply tx_drop. intros t d d' a [= <- _]. apply Hp.
- apply tx_drop. intros t d d' a. unfold touchSessionTx.
destruct (find_key _ _ _) as [[i x]|]; intros [= <- _]; apply Hp.
- apply tx_drop. by intros t d d' a [= <- _].
- apply tx_drop. by intros t d d' a [= <- _].
- apply consume_drop. intros t d d' a. unfold consumeLoginTx.
destruct (find_key _ _ _) as [[i x]|]; intros [= <- _]; [|apply Hp].
etransitivity; [apply sublist_delete | apply Hp].
- apply tx_drop. intros t d d' a [= <- _]. apply Hp.
- apply tx_drop. intros t d d' a [= <- _]. etransitivity; [apply Hp | done].
- apply consume_drop. intros t d d' a. unfold consumeTOTPTx.
destruct (find_key _ _ _) as [[i x]|]; intros [= <- _]; apply Hp.
- apply tx_drop. intros t d d' a [= <- _]. etransitivity; [apply Hp | done].
- apply consume_drop. intros t d d' a. unfold consumeOIDCTx.
destruct (find_key _ _ _) as [[i x]|]; intros [= <- _]; apply Hp.
- apply step_up_drop. by intros t d d' a [= <- _].
- apply bind_preserves; [apply lift_preserves|]. intros _. apply step_up_drop.
intros t d d' a. apply recordFailureTx_challenges.
- intros e s Hs. by apply GrantStepUp_preserves.
Qed.
End DropsOnly.

(** Commands that never hand out the challenge ID again. *)
Definition no_reissue (id : string) (c : command) : Prop :=
  match c with CCreateLoginChallenge token _ _ => token <> id | _ => True end.

Lemma createLogin_no_challenge id token u ttl :
  token <> id -> preserves (no_challenge id) (unit_of (CreateLoginChallenge token u ttl)).
Proof.
  intros Hne. apply fmap_preserves, transact_preserves; [apply no_challenge_inv|].
  intros t d d' a Hd [= <- _].
  apply (no_challenge_sublist id (set_LoginChallenges (LoginChallenges d ++
    [MkLoginChallenge token (normalize u) (format_rfc3339 t) (format_rfc3339 (t + ttl))]) d));
    [apply prune_sublist|].
  unfold no_challenge. simpl. rewrite fmap_app. intros [Hin|Hin]%elem_of_app; [by apply Hd|].
  simpl in Hin. by apply list_elem_of_singleton in Hin.
Qed.

Lemma exec_no_challenge atomic id c :
  no_reissue id c -> preserves (no_challenge id) (exec atomic c).
Proof.
  intros Hc. destruct (match c with CCreateLoginChallenge _ _ _ => true | _ => false end) eqn:E.
  - destruct c; try discriminate. by apply createLogin_no_challenge.
  - apply exec_drop; [apply no_challenge_inv | apply no_challenge_sublist | by destruct c].
Qed.

Lemma consumeLoginTx_spec id t d d' c :
  consumeLoginTx id t d = Ok (d', Some c) ->
  lch_ID c = trim_space id /\ unexpired t (lch_ExpiresAt c) = true /\ c ∈ LoginChallenges d /\
  (unique_challenges d -> no_challenge (lch_ID c) d').
Proof.
  unfold consumeLoginTx. destruct (find_key _ _ _) as [[i x]|] eqn:Hf; [|discriminate].
  intros [= <- <-]. apply find_key_Some in Hf as [Hi Hid].
  pose proof (list_elem_of_lookup_2 _ _ _ Hi) as Hin. simpl in Hin.
  apply list_elem_of_filter in Hin as [Hexp Hin].
  split; [done|]. split; [by apply Is_true_true|]. split; [done|].
  intros Hu. unfold no_challenge. simpl in *.
  intros (y & Hy & Hyin)%list_elem_of_fmap.
  apply (elem_of_delete_key lch_ID _ i x) in Hyin; [by destruct Hyin as [_ []]| |done].
  by apply NoDup_key_filter.
Qed.

Lemma consume_result atomic id e s s' c :
  ConsumeLoginChallenge atomic id e s = (s', Ok (Some c)) ->
  exists d d', (if atomic then raw_document sessions_config s else current sessions_config s) = Some d /\
    consumeLoginTx id (now e) d = Ok (d', Some c) /\ visible s' = Some (Decodes d').
Proof.
  unfold ConsumeLoginChallenge. destruct atomic; intros E;
    [apply update_document_ok in E | apply transact_ok in E]; naive_solver.
Qed.

Lemma holds_either (I : state -> Prop) `{!DocInv sessions_config I} (atomic : bool) s d :
  holds I s ->
  (if atomic then raw_document sessions_config s else current sessions_config s) = Some d -> I d.
Proof. destruct atomic; [by apply holds_raw | by apply holds_current]. Qed.

(** ** Properties *)

(** C4: A login challenge can be redeemed once: after ConsumeLoginChallenge has returned it, no
    later history (of any operations, clocks and backend failures) that does not issue the same
    token again makes ConsumeLoginChallenge return it a second time, with or without the atomic
    backend; and what is redeemed had not expired. *)
Theorem challenge_consumed_once (atomic atomic' : bool) (id id' : string) (e e' : env)
    (s s' : json_state state) (c c' : LoginChallenge) (h : list (env * command)) :
  holds unique_challenges s ->
  ConsumeLoginChallenge atomic id e s = (s', Ok (Some c)) ->
  Forall (fun ec => no_reissue (lch_ID c) ec.2) h ->
  (ConsumeLoginChallenge atomic' id' e' (run_history (exec atomic') h s')).2 = Ok (Some c') ->
  lch_ID c' <> lch_ID c /\ unexpired (now e) (lch_ExpiresAt c) = true.
Proof.
  intros Hs E Hh E'. apply consume_result in E as (d & d' & Hd & Htx & Hv).
  pose proof (holds_either unique_challenges atomic s d Hs Hd) as Hu.
  apply consumeLoginTx_spec in Htx as (_ & Hexp & _ & Hno). specialize (Hno Hu).
  split; [|done].
  assert (Hs' : holds (no_challenge (lch_ID c)) s').
  { intros d0 Hd0. rewrite Hv in Hd0. by injection Hd0 as <-. }
  pose proof (history_preserves_if (exec atomic') (no_challenge (lch_ID c)) (no_reissue (lch_ID c))
    h s' (exec_no_challenge atomic' (lch_ID c)) Hh Hs') as Hh'.
  destruct (ConsumeLoginChallenge atomic' id' e' _) as [s2 r] eqn:E2. simpl in E'. subst r.
  apply consume_result in E2 as (d2 & d2' & Hd2 & Htx2 & _).
  pose proof (holds_either _ _ _ _ Hh' Hd2) as Hno2.
  apply consumeLoginTx_spec in Htx2 as (_ & _ & Hin & _).
  intros Eq. apply Hno2. rewrite <- Eq. by apply list_elem_of_fmap_2.
Qed.

(** ** Step-up lockout *)

(** The failure record a [RecordStepUpFailure] for [u] starts from. *)
Definition failure_record (u : string) (d : state) : StepUpFailure :=
  match findStepUpFailure d u with Some (_, f) => f | None => MkStepUpFailure u 0 "" "" end.

Lemma bumpFailure_user t f : suf_UserID (bumpFailure t f) = suf_UserID f.
Proof.
  unfold bumpFailure. destruct (parse_rfc3339 _); simpl; repeat case_match; done.
Qed.

Lemma failure_record_user u d : suf_UserID (failure_record u d) = u.
Proof.
  unfold failure_record. destruct (findStepUpFailure d u) as [[i f]|] eqn:E; [|done].
  by apply find_key_Some in E as [_ ?].
Qed.

Lemma failure_record_locked u d t :
  stepUpLocked (snd <$> findStepUpFailure d u) t = stepUpLocked (Some (failure_record u d)) t.
Proof. unfold failure_record. by destruct (findStepUpFailure d u) as [[i f]|]. Qed.

Lemma recordFailureTx_unlocked u t d :
  stepUpLocked (Some (failure_record u d)) t = None ->
  exists d', recordFailureTx u t d =
      Ok (d', status_of_failure (bumpFailure t (failure_record u d)) t) /\
    findStepUpFailure d' u <> None /\ failure_record u d' = bumpFailure t (failure_record u d).
Proof.
  intros Hl. unfold recordFailureTx. rewrite failure_record_locked, Hl.
  pose proof (failure_record_user u d) as Hu. pose proof (bumpFailure_user t (failure_record u d)).
  unfold failure_record in *. destruct (findStepUpFailure d u) as [[i f]|] eqn:E;
    (eexists; split; [done|]); unfold findStepUpFailure in *; simpl.
  - erewrite find_key_insert by (done || congruence). done.
  - rewrite insert_app_r_alt by lia. rewrite Nat.sub_diag. simpl.
    rewrite find_key_snoc by (done || congruence). done.
Qed.

(** One step-up transaction on a stored document, whatever the backend. *)
Lemma updateStepUpState_run {A} (atomic : bool) (u : Z -> state -> result (state * A)) t s d :
  js_document s = Some (Decodes d) ->
  exists d0, StepUpFailures d0 = StepUpFailures d /\
    updateStepUpState atomic true u (healthy t) s =
    match u t d0 with
    | Ok (d', a) => (write_document (Decodes d') s, Ok a)
    | Err msg => (s, Err msg)
    end.
Proof.
  intros E. unfold updateStepUpState. destruct atomic.
  - rewrite (update_document_run _ _ _ _ d E). by exists (pruneStepUp t d).
  - rewrite (transact_run _ _ _ _ d E).
    by exists (pruneStepUp t (doc_sort sessions_config d)).
Qed.

Lemma failure_record_ext u d d' :
  StepUpFailures d = StepUpFailures d' -> failure_record u d = failure_record u d'.
Proof. unfold failure_record, findStepUpFailure. by intros ->. Qed.

(** [k] failures counted, the last at [last], and no lock yet below five. *)
Definition counted (u : string) (k : nat) (last : Z) (s : json_state state) : Prop :=
  exists d, js_document s = Some (Decodes d) /\
    suf_FailureCount (failure_record u d) = Z.of_nat k /\
    parse_rfc3339 (suf_LastFailedAt (failure_record u d)) = Some last /\
    suf_LockedUntil (failure_record u d) =
      (if (k <? 5)%nat then ""%string else format_rfc3339_nano (last + 15 * minute)).

Lemma stepUpLocked_until f t until :
  printable until -> suf_LockedUntil f = format_rfc3339_nano until -> t < until ->
  stepUpLocked (Some f) t = Some (Z.max 1 ((until - t) / second)).
Proof.
  intros Hp E Ht. unfold stepUpLocked. pose proof (parse_format_nano until Hp) as Hparse.
  rewrite E. destruct (is_blank _) eqn:Hb.
  - by rewrite (parse_not_blank _ _ Hparse) in Hb.
  - rewrite Hparse. destruct (until <=? t) eqn:El; [|done]. apply Z.leb_le in El. lia.
Qed.

Lemma stepUpLocked_none f t : suf_LockedUntil f = ""%string -> stepUpLocked (Some f) t = None.
Proof. intros E. unfold stepUpLocked. by rewrite E. Qed.

Lemma bumpFailure_within t f last :
  parse_rfc3339 (suf_LastFailedAt f) = Some last -> t - last <= hour ->
  suf_FailureCount (bumpFailure t f) = suf_FailureCount f + 1 /\
  suf_LastFailedAt (bumpFailure t f) = format_rfc3339_nano t /\
  suf_LockedUntil (bumpFailure t f) =
    (if 10 <=? suf_FailureCount f + 1 then format_rfc3339_nano (t + hour)
     else if 5 <=? suf_FailureCount f + 1 then format_rfc3339_nano (t + 15 * minute)
     else suf_LockedUntil f).
Proof.
  intros E Ht. unfold bumpFailure. rewrite E. apply Z.ltb_ge in Ht. rewrite Ht.
  unfold stepUpSecondLockFails, stepUpFirstLockFailures. simpl. by repeat case_match.
Qed.

Lemma RecordStepUpFailure_run atomic u t s d :
  normalize u <> ""%string -> js_document s = Some (Decodes d) ->
  stepUpLocked (Some (failure_record (normalize u) d)) t = None ->
  exists d', RecordStepUpFailure atomic u (healthy t) s =
      (write_document (Decodes d') s,
       Ok (status_of_failure (bumpFailure t (failure_record (normalize u) d)) t)) /\
    failure_record (normalize u) d' = bumpFailure t (failure_record (normalize u) d).
Proof.
  intros Hu Hd Hl. unfold RecordStepUpFailure, mbind, sop_bind, lift.
  apply is_empty_false in Hu. rewrite Hu. simpl.
  destruct (updateStepUpState_run atomic (recordFailureTx (normalize u)) t s d Hd)
    as (d0 & Hf & ->).
  rewrite (failure_record_ext _ d d0) in * by done.
  destruct (recordFailureTx_unlocked (normalize u) t d0 Hl) as (d' & -> & _ & Hr).
  exists d'. by rewrite Hr.
Qed.

Lemma first_failure atomic u t s d :
  normalize u <> ""%string -> js_document s = Some (Decodes d) -> printable t ->
  findStepUpFailure d (normalize u) = None ->
  counted (normalize u) 1 t (RecordStepUpFailure atomic u (healthy t) s).1.
Proof.
  intros Hu Hd Hp Hn.
  assert (Hf : failure_record (normalize u) d = MkStepUpFailure (normalize u) 0 "" "")
    by (unfold failure_record; by rewrite Hn).
  destruct (RecordStepUpFailure_run atomic u t s d Hu Hd) as (d' & -> & Hr);
    [rewrite Hf; by apply stepUpLocked_none|].
  exists d'. split; [done|]. rewrite Hr, Hf. split_and!; try done. by apply parse_format_nano.
Qed.

Lemma next_failure atomic u k last t s :
  normalize u <> ""%string -> printable t -> t - last <= hour -> (k < 5)%nat ->
  counted (normalize u) k last s ->
  counted (normalize u) (S k) t (RecordStepUpFailure atomic u (healthy t) s).1.
Proof.
  intros Hu Hp Ht Hk (d & Hd & Hc & Hlast & Hlu).
  apply Nat.ltb_lt in Hk as Hk'. rewrite Hk' in Hlu.
  destruct (RecordStepUpFailure_run atomic u t s d Hu Hd) as (d' & -> & Hr);
    [by apply stepUpLocked_none|].
  destruct (bumpFailure_within t _ last Hlast Ht) as (Hc' & Hl' & Hu').
  exists d'. split; [done|]. rewrite Hr, Hc', Hl', Hu', Hc, Hlu. split; [lia|].
  split; [by apply parse_format_nano|].
  rewrite (proj2 (Z.leb_gt 10 _)) by lia.
  destruct (S k <? 5)%nat eqn:E; [apply Nat.ltb_lt in E | apply Nat.ltb_ge in E].
  - by rewrite (proj2 (Z.leb_gt 5 _)) by lia.
  - by rewrite (proj2 (Z.leb_le 5 _)) by lia.
Qed.

(** Consecutive instants at most an hour apart. *)
Fixpoint spaced (prev : Z) (ts : list Z) : Prop :=
  match ts with
  | [] => True
  | t :: ts => t - prev <= hour /\ spaced t ts
  end.

Fixpoint last_time (prev : Z) (ts : list Z) : Z :=
  match ts with
  | [] => prev
  | t :: ts => last_time t ts
  end.

Definition fail_all (atomic : bool) (u : string) (ts : list Z) (s : json_state state) :=
  foldl (fun s t => (RecordStepUpFailure atomic u (healthy t) s).1) s ts.

Lemma failures_counted atomic u k prev ts s :
  normalize u <> ""%string -> counted (normalize u) k prev s -> spaced prev ts ->
  Forall printable ts -> (k + length ts <= 5)%nat ->
  counted (normalize u) (k + length ts) (last_time prev ts) (fail_all atomic u ts s).
Proof.
  intros Hu. revert k prev s. induction ts as [|t ts IH]; intros k prev s Hc Hs Hp Hl; simpl in *.
  - by rewrite Nat.add_0_r.
  - destruct Hs as [Ht Hs]. apply Forall_cons_1 in Hp as [Hpt Hp].
    replace (k + S (length ts))%nat with (S k + length ts)%nat by lia.
    apply IH; [|done|done|lia]. eapply next_failure; [done|done|exact Ht|lia|exact Hc].
Qed.

Lemma GrantStepUp_run atomic sid u ttl t s d :
  is_blank sid = false -> normalize u <> ""%string -> 0 < ttl -> js_document s = Some (Decodes d) ->
  match stepUpLocked (Some (failure_record (normalize u) d)) t with
  | Some retry =>
      GrantStepUp atomic sid u ttl (healthy t) s = (s, (locked_status retry, Some ErrStepUpLocked))
  | None => (GrantStepUp atomic sid u ttl (healthy t) s).2 = (MkStepUpStatus true false 0, None)
  end.
Proof.
  intros Hs Hu Httl Hd. destruct (stepUpLocked _ t) as [retry|] eqn:E;
    unfold GrantStepUp, grantStepUp, mbind, sop_bind, lift; cbv zeta;
    apply is_empty_false in Hu as Hu'; unfold is_blank in Hs; rewrite Hs, Hu',
      (proj2 (Z.leb_gt ttl 0)) by done; cbn [orb reject_if];
    destruct (updateStepUpState_run atomic (grantTx (trim_space sid) (normalize u) ttl) t s d Hd)
      as (d0 & Hf & ->);
    unfold grantTx; rewrite failure_record_locked, (failure_record_ext _ d0 d), E by done; [|done].
  cbn [fst snd]. rewrite String.eqb_refl.
  unfold lockedStatus. f_equal. f_equal.
  assert (Hr : forall d1, StepUpFailures d1 = StepUpFailures d ->
    stepUpLocked (snd <$> findStepUpFailure d1 (normalize u)) t = Some retry).
  { intros d1 H1. by rewrite failure_record_locked, (failure_record_ext _ d1 d). }
  destruct atomic; unfold raw_document, current, visible; rewrite Hd; by rewrite Hr.
Qed.

(** C5: Step-up lockout, on either backend.  A user without recorded failures who fails one to
    five times, no two consecutive failures more than an hour apart, is granted step-up afterwards
    exactly when there were fewer than five; after the fifth failure every grant in the following
    fifteen minutes is refused with ErrStepUpLocked and the remaining time, and stores nothing. *)
Theorem step_up_lockout (atomic : bool) (sid u : string) (ttl t0 t : Z) (ts : list Z)
    (s : json_state state) (d : state) :
  is_blank sid = false -> normalize u <> ""%string -> 0 < ttl ->
  js_document s = Some (Decodes d) -> findStepUpFailure d (normalize u) = None ->
  Forall printable (t0 :: ts) -> spaced t0 ts -> (length ts < 5)%nat ->
  let until := last_time t0 ts + 15 * minute in
  printable until -> t < until ->
  let s' := fail_all atomic u (t0 :: ts) s in
  if (length (t0 :: ts) =? 5)%nat
  then GrantStepUp atomic sid u ttl (healthy t) s' =
         (s', (locked_status (Z.max 1 ((until - t) / second)), Some ErrStepUpLocked))
  else (GrantStepUp atomic sid u ttl (healthy t) s').2 = (MkStepUpStatus true false 0, None).
Proof.
  intros Hsid Hu Httl Hd Hnone [Hp0 Hp]%Forall_cons_1 Hsp Hlen until Hpu Ht s'.
  pose proof (first_failure atomic u t0 s d Hu Hd Hp0 Hnone) as H1.
  pose proof (failures_counted atomic u 1 t0 ts _ Hu H1 Hsp Hp ltac:(lia)) as (d' & Hd' & _ & _ & Hl).
  change (fail_all atomic u ts _) with s' in Hd'. fold until in Hl.
  pose proof (GrantStepUp_run atomic sid u ttl t s' d' Hsid Hu Httl Hd') as Hg.
  change (1 + length ts)%nat with (length (t0 :: ts)) in Hl.
  destruct (length (t0 :: ts) =? 5)%nat eqn:E5.
  - apply Nat.eqb_eq in E5. rewrite E5 in Hl.
    by rewrite (stepUpLocked_until _ t until Hpu Hl Ht) in Hg.
  - apply Nat.eqb_neq in E5. rewrite (proj2 (Nat.ltb_lt _ _)) in Hl by (simpl in *; lia).
    by rewrite (stepUpLocked_none _ t Hl) in Hg.
Qed.

Definition fresh_store : json_state state :=
  JSONState (Some (Decodes (MkState [] [] [] [] [] []))) None false.

Lemma step_up_lockout_witness :
  GrantStepUp true "s1" " Bob " 60 (healthy (3 * minute))
    (fail_all true " Bob " [second; second + 1; 2 * second; 5 * second; 6 * second] fresh_store) =
  (fail_all true " Bob " [second; second + 1; 2 * second; 5 * second; 6 * second] fresh_store,
   (locked_status 726, Some ErrStepUpLocked)).
Proof.
  exact (step_up_lockout true "s1" " Bob " 60 second (3 * minute)
    [second + 1; 2 * second; 5 * second; 6 * second] fresh_store (MkState [] [] [] [] [] [])
    eq_refl ltac:(done) ltac:(done) eq_refl eq_refl
    ltac:(repeat (apply Forall_cons; split; [vm_compute; split; discriminate|]); apply Forall_nil; exact I)
    ltac:(vm_compute; repeat (split; [discriminate|]); exact I) ltac:(simpl; lia)
    ltac:(vm_compute; split; discriminate) ltac:(done)).
Defined.

Lemma challenge_consumed_once_witness :
  let s := (CreateLoginChallenge "c1" "bob" (600 * second) (healthy second) new_file_state).1 in
  exists s' c, ConsumeLoginChallenge false " c1" (healthy (2 * second)) s = (s', Ok (Some c)) /\
    unexpired (2 * second) (lch_ExpiresAt c) = true /\
    let h := [(healthy (3 * second), CCreateLoginChallenge "c2" "bob" (600 * second))] in
    exists c', (ConsumeLoginChallenge false "c2" (healthy (4 * second))
                 (run_history (exec false) h s')).2 = Ok (Some c') /\ lch_ID c' <> lch_ID c.
Proof.
  intros s. destruct (ConsumeLoginChallenge false " c1" (healthy (2 * second)) s)
    as [s' [[c|]|m]] eqn:E; try (vm_compute in E; discriminate).
  exists s', c. split; [done|].
  pose (h := [(healthy (3 * second), CCreateLoginChallenge "c2" "bob" (600 * second))]).
  assert (Hh : Forall (fun ec => no_reissue (lch_ID c) ec.2) h)
    by (vm_compute in E; injection E as <- <-; repeat constructor; discriminate).
  assert (Hs : holds unique_challenges s)
    by (intros d Hd; vm_compute in Hd; injection Hd as <-; apply NoDup_singleton).
  destruct (ConsumeLoginChallenge false "c2" (healthy (4 * second)) (run_history (exec false) h s')).2
    as [[c'|]|m] eqn:E'; try (vm_compute in E; injection E as <- <-; vm_compute in E'; discriminate).
  destruct (challenge_consumed_once false false " c1" "c2" (healthy (2 * second))
    (healthy (4 * second)) s s' c c' h Hs E Hh E') as [Hne Hexp].
  split; [exact Hexp|]. exists c'. split; [exact E' | exact Hne].
Defined.

(** ** Session lifetime *)
Lemma find_key_pruned now0 id l x :
  NoDup (ses_ID <$> l) -> x ∈ l -> ses_ID x = id ->
  snd <$> find_key ses_ID id (pruneSessions now0 l) =
  if unexpired now0 (ses_ExpiresAt x) then Some x else None.
Proof.
  intros Hn Hx <-.
  assert (Hn' : NoDup (ses_ID <$> pruneSessions now0 l)).
  { unfold pruneSessions, sortSessions. rewrite NoDup_fmap_sort_on. by apply NoDup_key_filter. }
  assert (Hin : x ∈ pruneSessions now0 l <-> unexpired now0 (ses_ExpiresAt x) = true).
  { unfold pruneSessions, sortSessions. rewrite elem_of_sort_on, list_elem_of_filter.
    rewrite Is_true_true. split; [by intros [? _] | by intros ?]. }
  destruct (unexpired now0 (ses_ExpiresAt x)) eqn:E.
  - destruct (find_key_unique ses_ID _ x Hn' (proj2 Hin eq_refl)) as [i ->]. done.
  - assert (find_key ses_ID (ses_ID x) (pruneSessions now0 l) = None) as ->; [|done].
    apply find_key_None. intros (y & Hy & Hyin)%list_elem_of_fmap.
    assert (y ∈ l) as Hyl.
    { unfold pruneSessions, sortSessions in Hyin.
      by apply elem_of_sort_on, list_elem_of_filter in Hyin as [_ ?]. }
    assert (x = y) as <-; [|by apply Hin in Hyin].
    apply list_elem_of_lookup in Hx as [i Hi]. apply list_elem_of_lookup in Hyl as [j Hj].
    assert (i = j) as ->; [|congruence].
    apply (NoDup_lookup _ i j (ses_ID x) Hn); rewrite list_lookup_fmap, ?Hi, ?Hj; simpl; congruence.
Qed.

Lemma find_key_pruned_none now0 id l :
  id ∉ ses_ID <$> l -> find_key ses_ID id (pruneSessions now0 l) = None.
Proof.
  intros Hn. apply find_key_None. intros (y & -> & Hy)%list_elem_of_fmap. apply Hn.
  unfold pruneSessions, sortSessions in Hy.
  apply elem_of_sort_on, list_elem_of_filter in Hy as [_ Hy]. by apply list_elem_of_fmap_2.
Qed.

Definition unique_sessions (d : state) : Prop := NoDup (ses_ID <$> Sessions d).

Lemma pruneSessions_unique now0 l :
  NoDup (ses_ID <$> l) -> NoDup (ses_ID <$> pruneSessions now0 l).
Proof.
  intros Hn. unfold pruneSessions, sortSessions. rewrite NoDup_fmap_sort_on.
  by apply NoDup_key_filter.
Qed.

(** A session lives exactly as long as its time to live, counted to the second: whatever the
    store held before, GetSession with the fresh token of CreateSession returns the session made
    (normalised user, name and sorted roles) until the printed expiry and nothing from then on. *)
Theorem session_lifetime (token u name : string) (roles : list string) (ttl t1 t2 : Z)
    (e1 e2 : env) (s s1 : json_state state) (d : state) (x : Session) :
  CreateSession token u name roles ttl e1 s = (s1, Ok x) -> now e1 = t1 ->
  current sessions_config s = Some d -> unique_sessions d ->
  trim_space token = token -> token ∉ (ses_ID <$> Sessions d) ->
  printable (t1 + ttl) -> no_faults e2 -> now e2 = t2 -> t1 <= t2 ->
  x = MkSession token (normalize u) (normalize name) (normalizeValues roles)
        (format_rfc3339 t1) (format_rfc3339 (t1 + ttl)) /\
  (GetSession token e2 s1).2 =
    Ok (if t2 <? (t1 + ttl) / second * second then Some x else None).
Proof.
  intros HC Ht1 Hd Hn Htok Hfresh Hp He2 Ht2 Hle.
  apply transact_ok in HC as (d0 & d1 & Hd0 & Htx & Hv). rewrite Hd in Hd0. injection Hd0 as <-.
  unfold createSessionTx in Htx. injection Htx as Hd1 Hx. rewrite Ht1 in *. split; [done|].
  assert (Hc1 : current sessions_config s1 = Some (set_Sessions (sortSessions (Sessions d1)) d1))
    by (unfold current; by rewrite Hv).
  destruct (transact_healthy sessions_config (getSessionTx token) e2 s1 _ He2 Hc1) as (s2 & _ & Hr).
  unfold GetSession. unfold getSessionTx in Hr at 1. destruct Hr as [-> _]. f_equal.
  rewrite Htok, Ht2, <- Hd1. unfold pruneExpired. simpl. unfold sortSessions at 1.
  assert (Hexp : forall t, unexpired t (ses_ExpiresAt x) = (t <? (t1 + ttl) / second * second))
    by (intros t; subst x; unfold unexpired; simpl; by rewrite parse_format).
  assert (Hn1 : NoDup (ses_ID <$> (Sessions d ++ [x]))).
  { apply NoDup_key_snoc; [done|]. by subst x. }
  rewrite Hx.
  assert (Hxin : x ∈ Sessions d ++ [x]) by (apply elem_of_app; right; by left).
  assert (Hxid : ses_ID x = token) by by subst x.
  destruct (unexpired t1 (ses_ExpiresAt x)) eqn:E1.
  - rewrite (find_key_pruned t2 token _ x); [by rewrite Hexp| | |done].
    + rewrite NoDup_fmap_sort_on. by apply pruneSessions_unique.
    + rewrite elem_of_sort_on. unfold pruneSessions, sortSessions.
      rewrite elem_of_sort_on, list_elem_of_filter. by rewrite E1.
  - rewrite find_key_pruned_none.
    + rewrite Hexp in E1. apply Z.ltb_ge in E1.
      by rewrite (proj2 (Z.ltb_ge t2 _)) by lia.
    + intros (y & Hy & Hyin)%list_elem_of_fmap. rewrite elem_of_sort_on in Hyin.
      pose proof (find_key_pruned t1 token _ x Hn1 Hxin Hxid) as Hf. rewrite E1 in Hf.
      destruct (find_key ses_ID token (pruneSessions t1 _)) eqn:E2; [discriminate|].
      apply find_key_None in E2. apply E2. rewrite Hy. by apply list_elem_of_fmap_2.
Qed.

Lemma session_lifetime_witness :
  let s := (CreateSession "tok" " Bob" "Bob" ["B"; "a "] (90 * second) (healthy (5 * second + 1))
              new_file_state) in
  (GetSession "tok" (healthy (94 * second)) s.1).2 =
    Ok (Some (MkSession "tok" "bob" "bob" ["a"; "b"]%string "1970-01-01T00:00:05Z" "1970-01-01T00:01:35Z")) /\
  (GetSession "tok" (healthy (95 * second)) s.1).2 = Ok None.
Proof.
  intros s. destruct s as [s1 [x|m]] eqn:E; [|vm_compute in E; discriminate].
  pose proof (fun t2 H => session_lifetime "tok" " Bob" "Bob" ["B"; "a "]%string (90 * second)
    (5 * second + 1) t2 (healthy (5 * second + 1)) (healthy t2) new_file_state s1
    (doc_zero sessions_config) x E eq_refl eq_refl ltac:(apply NoDup_nil_2) eq_refl
    ltac:(apply not_elem_of_nil) ltac:(vm_compute; split; discriminate) eq_refl eq_refl H) as Hl.
  split.
  - destruct (Hl (94 * second) ltac:(vm_compute; discriminate)) as [Hx Hg].
    etransitivity; [exact Hg | rewrite Hx; vm_compute; reflexivity].
  - destruct (Hl (95 * second) ltac:(vm_compute; discriminate)) as [Hx Hg].
    etransitivity; [exact Hg | vm_compute; reflexivity].
Defined.

(** Signing a user out everywhere else removes exactly that user's other sessions: afterwards
    GetSession returns none of them, whatever the clock, and every other session is still stored. *)
Theorem DeleteSessionsByUserExcept_effect (u keep : string) (e : env) (s s' : json_state state)
    (d : state) (r : unit) :
  DeleteSessionsByUserExcept u keep e s = (s', Ok r) -> current sessions_config s = Some d ->
  (forall id e' s2 y, GetSession id e' s' = (s2, Ok (Some y)) -> ses_UserID y = normalize u ->
     ses_ID y = trim_space keep) /\
  exists d', visible s' = Some (Decodes d') /\
    (forall y, y ∈ Sessions d' <->
       y ∈ Sessions d /\ (ses_UserID y = normalize u -> ses_ID y = trim_space keep)) /\
    d' = set_Sessions (Sessions d') d.
Proof.
  intros HD Hd. apply transact_ok in HD as (d0 & d' & Hd0 & Htx & Hv).
  rewrite Hd in Hd0. injection Hd0 as <-. injection Htx as Hd' _.
  assert (Hin : forall y, y ∈ Sessions d' <->
    y ∈ Sessions d /\ (ses_UserID y = normalize u -> ses_ID y = trim_space keep)).
  { intros y. rewrite <- Hd'. simpl. rewrite list_elem_of_filter.
    rewrite andb_false_iff, negb_false_iff, String.eqb_eq, String.eqb_neq.
    destruct (decide (ses_UserID y = normalize u)); naive_solver. }
  split; [|exists d'; split_and!; [done | done | by rewrite <- Hd']].
  intros id e' s2 y HG Hu. apply transact_ok in HG as (d1 & d2 & Hd1 & Hg & _).
  unfold current in Hd1. rewrite Hv in Hd1. injection Hd1 as <-.
  unfold getSessionTx in Hg. injection Hg as _ Hg.
  destruct (find_key _ _ _) as [[i z]|] eqn:Hf; [|discriminate]. simpl in Hg. injection Hg as ->.
  apply find_key_Some in Hf as [Hi _]. apply list_elem_of_lookup_2 in Hi.
  unfold pruneExpired in Hi. simpl in Hi. unfold pruneSessions, sortSessions in Hi.
  apply elem_of_sort_on, list_elem_of_filter in Hi as [_ Hi]. apply elem_of_sort_on in Hi.
  by apply Hin in Hi as [_ Hi]; apply Hi.
Qed.

Lemma DeleteSessionsByUserExcept_effect_witness :
  let s0 := (CreateSession "a" "bob" "bob" [] (90 * second) (healthy 0) new_file_state).1 in
  let s := (CreateSession "b" "bob" "bob" [] (90 * second) (healthy 0) s0).1 in
  exists s' d', DeleteSessionsByUserExcept " BOB" "b" (healthy 1) s = (s', Ok tt) /\
    visible s' = Some (Decodes d') /\ (ses_ID <$> Sessions d') = ["b"%string] /\
    forall y, y ∈ Sessions d' -> ses_UserID y = "bob"%string -> ses_ID y = "b"%string.
Proof.
  intros s0 s. destruct (DeleteSessionsByUserExcept " BOB" "b" (healthy 1) s) as [s' [[]|m]] eqn:E;
    [|vm_compute in E; discriminate].
  destruct (current sessions_config s) as [d|] eqn:Hd; [|vm_compute in Hd; discriminate].
  destruct (DeleteSessionsByUserExcept_effect " BOB" "b" (healthy 1) s s' d tt E Hd)
    as (_ & d' & Hv & Hin & Hd').
  exists s', d'. split_and!; [done|done| |].
  - vm_compute in E. injection E as <-. injection Hv as <-. reflexivity.
  - intros y Hy Hu. apply Hin in Hy as [_ Hy]. by apply Hy.
Defined.

(** Why the start-up migration ([DocStore.MigrateLegacyDocument]) has to run before the sessions
    store is used: without it the atomic operations create the document from scratch, a challenge
    of the legacy file cannot be redeemed, and the legacy sessions are shadowed. *)
Theorem atomic_update_skips_migration :
  exists (legacy : state) (id sid : string) (t : Z),
    let s := new_backend_state (Some (Decodes legacy)) in
    (exists c, (ConsumeLoginChallenge false id (healthy t) s).2 = Ok (Some c)) /\
    (exists x, (GetSession sid (healthy t) s).2 = Ok (Some x)) /\
    (ConsumeLoginChallenge true id (healthy t) s).2 = Ok None /\
    (GetSession sid (healthy t) (ConsumeLoginChallenge true id (healthy t) s).1).2 = Ok None.
Proof.
  exists (MkState
    [MkSession "s" "bob" "bob" [] "1970-01-01T00:00:00Z" "1970-01-01T00:10:00Z"]
    [MkLoginChallenge "c" "bob" "1970-01-01T00:00:00Z" "1970-01-01T00:10:00Z"] [] [] [] []), "c"%string, "s"%string, 0.
  split_and!; [eexists; vm_compute; reflexivity | eexists; vm_compute; reflexivity | |];
    vm_compute; reflexivity.
Qed.
