(* ===== verification/Users.v ===== *)
(** * User store (control-plane/internal/users/store.go)

    Accounts in one document sorted by identifier: look-ups, creation, update, deletion, login
    marks and the seeding of a bootstrap account, on the file and on the atomic backend.  Password
    hashing is in Factors.v. *)
From Stdlib Require Import ZArith Lia Ascii String.
From stdpp Require Import base tactics strings list.
From S2P Require Import Prelude GoTime DocStore Factors.
Local Set Warnings "-clear-no-such-hyp".
Local Open Scope string_scope.
Local Open Scope Z_scope.
Local Notation "a +++ b" := (@app _ a b) (at level 60, right associativity).

(** ** Data *)
Record TOTPRecoveryHash := MkRecoveryHash { rec_Hash : string; rec_Salt : string; rec_UsedAt : string }.

Record User := MkUser {
  usr_ID : string;
  usr_Username : string;
  usr_Email : string;
  usr_FullName : string;
  usr_Department : string;
  usr_Position : string;
  usr_Language : string;
  usr_AuthSource : string;
  usr_ExternalID : string;
  usr_ExternalGroups : list string;
  usr_LastSyncedAt : string;
  usr_PasswordHash : string;
  usr_IsActive : bool;
  usr_RoleIDs : list string;
  usr_TOTPEnabled : bool;
  usr_TOTPSecret : string;
  usr_TOTPSecretEnc : string;
  usr_TOTPRecoveryHashes : list TOTPRecoveryHash;
  usr_LastLoginAt : string;
  usr_CreatedAt : string;
  usr_UpdatedAt : string
}.

Record BootstrapUser := MkBootstrap {
  boot_Enabled : bool;
  boot_ID : string;
  boot_Username : string;
  boot_Email : string;
  boot_Password : string;
  boot_RoleIDs : list string
}.

Record state := MkState { Users : list User }.

(** The fields the operations below and the services set. *)
Definition set_times (createdAt updatedAt : string) (u : User) : User :=
  MkUser (usr_ID u) (usr_Username u) (usr_Email u) (usr_FullName u) (usr_Department u) (usr_Position u)
    (usr_Language u) (usr_AuthSource u) (usr_ExternalID u) (usr_ExternalGroups u) (usr_LastSyncedAt u)
    (usr_PasswordHash u) (usr_IsActive u) (usr_RoleIDs u) (usr_TOTPEnabled u) (usr_TOTPSecret u)
    (usr_TOTPSecretEnc u) (usr_TOTPRecoveryHashes u) (usr_LastLoginAt u) createdAt updatedAt.
Definition set_login (lastLoginAt updatedAt : string) (u : User) : User :=
  MkUser (usr_ID u) (usr_Username u) (usr_Email u) (usr_FullName u) (usr_Department u) (usr_Position u)
    (usr_Language u) (usr_AuthSource u) (usr_ExternalID u) (usr_ExternalGroups u) (usr_LastSyncedAt u)
    (usr_PasswordHash u) (usr_IsActive u) (usr_RoleIDs u) (usr_TOTPEnabled u) (usr_TOTPSecret u)
    (usr_TOTPSecretEnc u) (usr_TOTPRecoveryHashes u) lastLoginAt (usr_CreatedAt u) updatedAt.
Definition set_PasswordHash (hash : string) (u : User) : User :=
  MkUser (usr_ID u) (usr_Username u) (usr_Email u) (usr_FullName u) (usr_Department u) (usr_Position u)
    (usr_Language u) (usr_AuthSource u) (usr_ExternalID u) (usr_ExternalGroups u) (usr_LastSyncedAt u)
    hash (usr_IsActive u) (usr_RoleIDs u) (usr_TOTPEnabled u) (usr_TOTPSecret u)
    (usr_TOTPSecretEnc u) (usr_TOTPRecoveryHashes u) (usr_LastLoginAt u) (usr_CreatedAt u) (usr_UpdatedAt u).
Definition set_Language (language : string) (u : User) : User :=
  MkUser (usr_ID u) (usr_Username u) (usr_Email u) (usr_FullName u) (usr_Department u) (usr_Position u)
    language (usr_AuthSource u) (usr_ExternalID u) (usr_ExternalGroups u) (usr_LastSyncedAt u)
    (usr_PasswordHash u) (usr_IsActive u) (usr_RoleIDs u) (usr_TOTPEnabled u) (usr_TOTPSecret u)
    (usr_TOTPSecretEnc u) (usr_TOTPRecoveryHashes u) (usr_LastLoginAt u) (usr_CreatedAt u) (usr_UpdatedAt u).
Definition set_TOTP (enabled : bool) (secret secretEnc : string) (hashes : list TOTPRecoveryHash) (u : User) : User :=
  MkUser (usr_ID u) (usr_Username u) (usr_Email u) (usr_FullName u) (usr_Department u) (usr_Position u)
    (usr_Language u) (usr_AuthSource u) (usr_ExternalID u) (usr_ExternalGroups u) (usr_LastSyncedAt u)
    (usr_PasswordHash u) (usr_IsActive u) (usr_RoleIDs u) enabled secret
    secretEnc hashes (usr_LastLoginAt u) (usr_CreatedAt u) (usr_UpdatedAt u).

(** ** Normal form *)
Definition normalizeID : string -> string := normalize_id.
Definition normalizeUsername : string -> string := normalize_id.
Definition normalizeValues : list string -> list string := sorted_set normalizeID.
Definition normalizeExternalGroups : list string -> list string := sorted_set trim_space.

Definition normalizeAuthSource (value : string) : string :=
  let value := to_lower (trim_space value) in
  if existsb (String.eqb value) [""; "local"; "oidc"; "scim"] then value else "".

Definition normalizeUserLanguage (value : string) : string :=
  let value := to_lower (trim_space value) in
  if existsb (String.eqb value) ["ru"; "en"; "de"; "sr"; "zh"] then value else "".

Definition normalizeRecoveryHash (h : TOTPRecoveryHash) : TOTPRecoveryHash :=
  MkRecoveryHash (trim_space (rec_Hash h)) (trim_space (rec_Salt h)) (trim_space (rec_UsedAt h)).

Definition normalizeUser (user : User) : User :=
  MkUser (normalizeID (usr_ID user)) (normalizeUsername (usr_Username user)) (to_lower (trim_space (usr_Email user)))
    (trim_space (usr_FullName user)) (trim_space (usr_Department user)) (trim_space (usr_Position user))
    (normalizeUserLanguage (usr_Language user)) (normalizeAuthSource (usr_AuthSource user))
    (trim_space (usr_ExternalID user)) (normalizeExternalGroups (usr_ExternalGroups user))
    (trim_space (usr_LastSyncedAt user)) (usr_PasswordHash user) (usr_IsActive user)
    (normalizeValues (usr_RoleIDs user)) (usr_TOTPEnabled user) (trim_space (usr_TOTPSecret user))
    (trim_space (usr_TOTPSecretEnc user)) (normalizeRecoveryHash <$> usr_TOTPRecoveryHashes user)
    (usr_LastLoginAt user) (usr_CreatedAt user) (usr_UpdatedAt user).

Definition sortUsers (items : list User) : list User := sort_on usr_ID items.

Definition users_config : doc_config state :=
  DocConfig "users store" (MkState []) (fun s => MkState (sortUsers (Users s))).

(** ** Operations *)
Definition find_user (p : User -> bool) : sop state (option User) :=
  query users_config (fun _ current => Ok (snd <$> find_where p (Users current))).

Definition Get (id : string) : sop state (option User) :=
  find_user (fun item => String.eqb (usr_ID item) (normalizeID id)).
Definition FindByUsername (username : string) : sop state (option User) :=
  find_user (fun item => String.eqb (usr_Username item) (normalizeUsername username)).
Definition FindByEmail (email : string) : sop state (option User) :=
  let email := to_lower (trim_space email) in
  find_user (fun item => String.eqb (usr_Email item) email && negb (is_empty email)).
Definition FindByExternalIdentity (authSource externalID : string) : sop state (option User) :=
  let authSource := normalizeAuthSource authSource in
  let externalID := trim_space externalID in
  find_user (fun item => String.eqb (usr_AuthSource item) authSource && String.eqb (usr_ExternalID item) externalID &&
    negb (is_empty authSource) && negb (is_empty externalID)).

Definition List : sop state (list User) := query users_config (fun _ current => Ok (sortUsers (Users current))).
Definition Count : sop state Z := query users_config (fun _ current => Ok (Z.of_nat (length (Users current)))).

Definition updateTx (user : User) (t : Z) (current : state) : result (state * User) :=
  let user := normalizeUser user in
  match find_key usr_ID (usr_ID user) (Users current) with
  | None => Err ("user " ++ usr_ID user ++ " not found")
  | Some (i, old) =>
      let user := set_times (usr_CreatedAt old) (format_rfc3339 t) user in
      Ok (MkState (sortUsers (<[i := user]> (Users current))), user)
  end.
Definition Update (user : User) : sop state User := transact users_config (updateTx user).

(** The check an existing account raises. *)
Definition taken (user item : User) : option string :=
  if String.eqb (usr_ID item) (usr_ID user) then Some ("user " ++ usr_ID user ++ " already exists")
  else if String.eqb (usr_Username item) (usr_Username user)
  then Some ("username " ++ usr_Username user ++ " already exists") else None.

Fixpoint first_taken (user : User) (items : list User) : result unit :=
  match items with
  | [] => Ok tt
  | item :: rest => match taken user item with Some err => Err err | None => first_taken user rest end
  end.

Definition createTx (user : User) (t : Z) (current : state) : result (state * User) :=
  let user := normalizeUser user in
  reject_if (is_empty (usr_ID user)) "user id is required";;
  reject_if (is_empty (usr_Username user)) "username is required";;
  first_taken user (Users current);;
  let user := set_times (format_rfc3339 t) (format_rfc3339 t) user in
  Ok (MkState (sortUsers (Users current +++ [user])), user).
Definition Create (user : User) : sop state User := transact users_config (createTx user).

Definition deleteTx (id : string) (_ : Z) (current : state) : result (state * unit) :=
  let id := normalizeID id in
  match find_key usr_ID id (Users current) with
  | None => Err ("user " ++ id ++ " not found")
  | Some (i, _) => Ok (MkState (delete i (Users current)), tt)
  end.
Definition Delete (id : string) : sop state unit := transact users_config (deleteTx id).

Definition markLoginTx (userID : string) (when : Z) (_ : Z) (current : state) : result (state * unit) :=
  match find_key usr_ID (normalizeID userID) (Users current) with
  | None => Err ("user " ++ userID ++ " not found")
  | Some (i, item) =>
      Ok (MkState (<[i := set_login (format_rfc3339 when) (format_rfc3339 when) item]> (Users current)), tt)
  end.
Definition MarkLogin (userID : string) (when : Z) : sop state unit := transact users_config (markLoginTx userID when).

(** ** Seeding *)
Definition zero_user : User :=
  MkUser "" "" "" "" "" "" "" "" "" [] "" "" false [] false "" "" [] "" "" "".

Definition bootstrap_user (b : BootstrapUser) (passwordHash : string) (t : Z) : User :=
  normalizeUser (MkUser (boot_ID b) (boot_Username b) (boot_Email b) "" "" "" "" "" "" [] "" passwordHash true
    (boot_RoleIDs b) false "" "" [] "" (format_rfc3339 t) (format_rfc3339 t)).

Section Seeding.
Context `{Argon2}.

(** On the file backend a document that has users is left alone. *)
Definition seedBootstrapFile (b : BootstrapUser) (salt : string) : sop state unit :=
  if negb (boot_Enabled b) then mret tt
  else fun e s =>
  match load_locked users_config e s with
  | (s', Err msg) => (s', Err msg)
  | (s', Ok current) =>
    match Users current with
    | _ :: _ => (s', Ok tt)
    | [] =>
      match HashPassword (boot_Password b) salt with
      | Err msg => (s', Err msg)
      | Ok passwordHash =>
        save_locked users_config (MkState (Users current +++ [bootstrap_user b passwordHash (now e)])) e s'
      end
    end
  end.

Definition seedTx (b : BootstrapUser) (passwordHash : string) (t : Z) (current : state) : result (state * unit) :=
  Ok (match Users current with
    | [] => MkState [bootstrap_user b passwordHash t]
    | _ => current
    end, tt).

Definition seedBootstrapAtomic (b : BootstrapUser) (salt : string) : sop state unit :=
  if negb (boot_Enabled b) then mret tt
  else
    passwordHash ← lift (HashPassword (boot_Password b) salt);
    update_document users_config (seedTx b passwordHash).

Definition seedBootstrap (atomic : bool) (b : BootstrapUser) (salt : string) : sop state unit :=
  if atomic then seedBootstrapAtomic b salt else seedBootstrapFile b salt.
End Seeding.

(** ** Commands *)
Inductive command :=
| CCreate (user : User)
| CUpdate (user : User)
| CDelete (id : string)
| CMarkLogin (userID : string) (when : Z)
| CSeed (b : BootstrapUser) (salt : string).

Definition exec `{Argon2} (atomic : bool) (c : command) : sop state unit :=
  match c with
  | CCreate user => (fun _ => tt) <$> Create user
  | CUpdate user => (fun _ => tt) <$> Update user
  | CDelete id => Delete id
  | CMarkLogin userID when => MarkLogin userID when
  | CSeed b salt => seedBootstrap atomic b salt
  end.

#[local] Arguments trim_space : simpl never.
#[local] Arguments normalize_id : simpl never.
#[local] Arguments to_lower : simpl never.
#[local] Arguments sorted_set : simpl never.
#[local] Arguments normalizeAuthSource : simpl never.
#[local] Arguments normalizeUserLanguage : simpl never.
#[local] Arguments normalizeUser : simpl never.
#[local] Arguments format_rfc3339 : simpl never.

(** ** Normal form *)
Lemma lower_trim_lower_trim s : to_lower (trim_space (to_lower (trim_space s))) = to_lower (trim_space s).
Proof. rewrite trim_space_lower, trim_space_idem. apply to_lower_idem. Qed.

Lemma allowed_idem (values : list string) (v : string) :
  let pick value := let value := to_lower (trim_space value) in
    if existsb (String.eqb value) values then value else "" in
  pick (pick v) = pick v.
Proof.
  cbv zeta beta. destruct (existsb (String.eqb (to_lower (trim_space v))) values) eqn:E.
  - cbv iota. by rewrite lower_trim_lower_trim, E.
  - cbv iota. change (to_lower (trim_space "")) with "". by destruct (existsb (String.eqb "") values).
Qed.

Lemma normalizeAuthSource_idem v : normalizeAuthSource (normalizeAuthSource v) = normalizeAuthSource v.
Proof. exact (allowed_idem [""; "local"; "oidc"; "scim"] v). Qed.
Lemma normalizeUserLanguage_idem v : normalizeUserLanguage (normalizeUserLanguage v) = normalizeUserLanguage v.
Proof. exact (allowed_idem ["ru"; "en"; "de"; "sr"; "zh"] v). Qed.

Lemma normalizeRecoveryHash_idem h : normalizeRecoveryHash (normalizeRecoveryHash h) = normalizeRecoveryHash h.
Proof. destruct h. unfold normalizeRecoveryHash. cbn. by rewrite !trim_space_idem. Qed.

Lemma normalizeUser_idem u : normalizeUser (normalizeUser u) = normalizeUser u.
Proof.
  destruct u. unfold normalizeUser, normalizeValues, normalizeExternalGroups, normalizeID, normalizeUsername. cbn.
  rewrite !normalize_id_idem, lower_trim_lower_trim, !trim_space_idem, normalizeUserLanguage_idem,
    normalizeAuthSource_idem, !sorted_set_idem by (apply normalize_id_idem || apply trim_space_idem).
  f_equal. rewrite <- list_fmap_compose. apply list_fmap_ext. intros i h _. apply normalizeRecoveryHash_idem.
Qed.

Definition user_ok (u : User) : Prop := normalizeUser u = u.

Lemma user_ok_times c t u : user_ok u -> user_ok (set_times c t u).
Proof. unfold user_ok. intros Hu. change (set_times c t (normalizeUser u) = set_times c t u). by rewrite Hu. Qed.
Lemma user_ok_login l t u : user_ok u -> user_ok (set_login l t u).
Proof. unfold user_ok. intros Hu. change (set_login l t (normalizeUser u) = set_login l t u). by rewrite Hu. Qed.

(** ** Well-formed documents *)
Record users_wf (d : state) : Prop := {
  uwf_unique : NoDup (usr_ID <$> Users d);
  uwf_sorted : sorted_on usr_ID (Users d);
  uwf_ok : Forall user_ok (Users d)
}.

Lemma users_wf_sort l : NoDup (usr_ID <$> l) -> Forall user_ok l -> users_wf (MkState (sortUsers l)).
Proof.
  intros Hn Hl. split; cbn [Users]; [|apply sort_on_sorted|by apply Forall_sort_on].
  by apply NoDup_fmap_sort_on.
Qed.

Lemma users_wf_insert d i old u : users_wf d -> Users d !! i = Some old -> usr_ID u = usr_ID old -> user_ok u ->
  NoDup (usr_ID <$> <[i := u]> (Users d)) /\ Forall user_ok (<[i := u]> (Users d)) /\
  usr_ID <$> <[i := u]> (Users d) = usr_ID <$> Users d.
Proof.
  intros [Hn Hs Ho] Hi Hid Hu. assert (Hk : usr_ID <$> <[i := u]> (Users d) = usr_ID <$> Users d)
    by by apply (fmap_key_insert usr_ID _ _ old).
  split_and!; [by rewrite Hk | by apply Forall_insert_list | done].
Qed.

#[global, refine] Instance users_inv : DocInv users_config users_wf := {}.
Proof.
  - split; constructor.
  - intros d [Hn Hs Ho]. by apply users_wf_sort.
Defined.

Lemma first_taken_ok user l u item : first_taken user l = Ok u -> item ∈ l ->
  usr_ID item <> usr_ID user /\ usr_Username item <> usr_Username user.
Proof.
  induction l as [|x l IH]; intros Hf Hin; [by apply elem_of_nil in Hin|]. cbn [first_taken] in Hf.
  destruct (taken user x) eqn:Ht; [done|]. apply elem_of_cons in Hin as [->|Hin]; [|by apply IH].
  unfold taken in Ht. destruct (String.eqb_spec (usr_ID x) (usr_ID user)); [done|].
  by destruct (String.eqb_spec (usr_Username x) (usr_Username user)).
Qed.

Lemma createTx_ok u t d d' v : createTx u t d = Ok (d', v) ->
  v = set_times (format_rfc3339 t) (format_rfc3339 t) (normalizeUser u) /\
  d' = MkState (sortUsers (Users d +++ [v])) /\
  forall item, item ∈ Users d -> usr_ID item <> usr_ID v /\ usr_Username item <> usr_Username v.
Proof.
  unfold createTx. cbv zeta. intros (? & _ & H)%result_bind_ok. apply result_bind_ok in H as (? & _ & H).
  apply result_bind_ok in H as (? & Hf & H). injection H as <- <-.
  split_and!; [done..|]. intros item Hin. by apply (first_taken_ok _ _ _ item Hf).
Qed.

Lemma createTx_users_wf u t d d' v : users_wf d -> createTx u t d = Ok (d', v) -> users_wf d'.
Proof.
  intros [Hn Hs Ho] (-> & -> & Hnew)%createTx_ok. apply users_wf_sort.
  - apply NoDup_key_snoc; [done|]. intros (item & Hid & Hin)%list_elem_of_fmap.
    destruct (Hnew item Hin) as [Hne _]. by apply Hne.
  - apply Forall_app. split; [done|]. repeat constructor. apply user_ok_times, normalizeUser_idem.
Qed.

Lemma updateTx_ok u t d d' v : updateTx u t d = Ok (d', v) -> exists i old,
  find_key usr_ID (usr_ID (normalizeUser u)) (Users d) = Some (i, old) /\
  v = set_times (usr_CreatedAt old) (format_rfc3339 t) (normalizeUser u) /\
  d' = MkState (sortUsers (<[i := v]> (Users d))).
Proof.
  unfold updateTx. cbn zeta. destruct (find_key _ _ _) as [[i old]|]; [|done]. intros [= <- <-]. by exists i, old.
Qed.

Lemma updateTx_users_wf u t d d' v : users_wf d -> updateTx u t d = Ok (d', v) -> users_wf d'.
Proof.
  intros Hd (i & old & Hf & -> & ->)%updateTx_ok. apply find_key_Some in Hf as [Hi Hid].
  edestruct (users_wf_insert d i old) as (H1 & H2 & _); [exact Hd|exact Hi|..|by apply users_wf_sort].
  - by rewrite Hid.
  - apply user_ok_times, normalizeUser_idem.
Qed.

Lemma deleteTx_users_wf id t d d' v : users_wf d -> deleteTx id t d = Ok (d', v) -> users_wf d'.
Proof.
  intros [Hn Hs Ho]. unfold deleteTx. cbn zeta. destruct (find_key _ _ _) as [[i x]|]; [|done]. intros [= <- _].
  split; cbn [Users].
  - by apply NoDup_key_delete.
  - by apply sorted_on_delete.
  - by apply Forall_delete.
Qed.

Lemma markLoginTx_users_wf id when t d d' v : users_wf d -> markLoginTx id when t d = Ok (d', v) -> users_wf d'.
Proof.
  intros Hd. unfold markLoginTx. destruct (find_key _ _ _) as [[i x]|] eqn:E; [|done]. intros [= <- _].
  apply find_key_Some in E as [Hi _]. pose proof (uwf_ok _ Hd) as Ho. rewrite Forall_forall in Ho.
  destruct (users_wf_insert d i x (set_login (format_rfc3339 when) (format_rfc3339 when) x)) as (H1 & H2 & H3);
    [done..|by apply user_ok_login, Ho, list_elem_of_lookup_2 with i|].
  split; cbn [Users]; [done| |done]. apply (sorted_on_keys usr_ID (Users d)); [done | apply Hd].
Qed.

Lemma bootstrap_user_wf b hash t : users_wf (MkState [bootstrap_user b hash t]).
Proof.
  split; cbn [Users]; [apply NoDup_singleton|repeat constructor|]. repeat constructor. apply normalizeUser_idem.
Qed.

Section Preservation.
Context `{Argon2}.

Lemma seed_file_preserves b salt : preserves users_wf (seedBootstrapFile b salt).
Proof.
  unfold seedBootstrapFile. destruct (negb _); [by intros e s|]. intros e s Hs.
  destruct (load_locked users_config e s) as [s1 [d|m]] eqn:E; apply load_locked_spec in E as [Hv _];
  pose proof (holds_visible users_wf s s1 Hv Hs) as Hs1; [|done].
  destruct (Users d) as [|u l]; [|done]. destruct (HashPassword _ _) as [hash|m]; [|done].
  unfold save_locked, wrap_error, Save. destruct (write_fault e); [done|]. cbn.
  intros d' Hd'. rewrite visible_write in Hd'. injection Hd' as <-. apply bootstrap_user_wf.
Qed.

Lemma users_exec_wf atomic c : preserves users_wf (exec atomic c).
Proof.
  destruct c as [u|u|id|id when|b salt]; cbn [exec]; try apply fmap_preserves.
  - apply (transact_preserves users_config users_wf). intros t d d' v. apply createTx_users_wf.
  - apply (transact_preserves users_config users_wf). intros t d d' v. apply updateTx_users_wf.
  - apply (transact_preserves users_config users_wf). intros t d d' v. apply deleteTx_users_wf.
  - apply (transact_preserves users_config users_wf). intros t d d' v. apply markLoginTx_users_wf.
  - destruct atomic; [|apply seed_file_preserves]. unfold seedBootstrap, seedBootstrapAtomic.
    destruct (negb _); [by intros e s|]. apply bind_preserves; [apply lift_preserves|]. intros hash.
    apply (update_document_preserves users_config users_wf). intros t d d' v Hd [= <- _].
    destruct (Users d) eqn:E; [apply bootstrap_user_wf | exact Hd].
Qed.
End Preservation.

(** ** Properties *)

(** C8: Every reachable user document, on the file or the atomic backend and whatever the clock and
    the backend failures, has unique identifiers, is sorted by them, and holds only normalised
    accounts. *)
Theorem users_well_formed `{Argon2} (atomic : bool) (h : list (env * command)) (d : state) :
  visible (run_history (exec atomic) h new_file_state) = Some (Decodes d) ->
  NoDup (usr_ID <$> Users d) /\ sorted_on usr_ID (Users d) /\ Forall (fun u => normalizeUser u = u) (Users d).
Proof.
  intros Hd. by destruct (history_preserves (exec atomic) users_wf h new_file_state (users_exec_wf atomic)
    (holds_new_file _) d Hd).
Qed.

Definition named (id username : string) : User :=
  MkUser id username "" "" "" "" "" "" "" [] "" "" true ["Admin"; "viewer "] false "" "" [] "" "" "".

Definition sample_history : list (env * command) :=
  [(healthy 1, CSeed (MkBootstrap true "Admin" "admin" "" "secret" ["admin"]) "salt");
   (healthy 2, CCreate (named " Bob" "BOB")); (healthy 3, CCreate (named "bob2" "bob"));
   (healthy 4, CMarkLogin "ADMIN" (5 * second)); (healthy 5, CDelete "nobody")].

Lemma users_well_formed_witness :
  exists d, visible (run_history (exec (H := Samples.toy_argon) true) sample_history new_file_state) = Some (Decodes d) /\
    (usr_ID <$> Users d) = ["admin"; "bob"] /\ Forall (fun u => normalizeUser u = u) (Users d).
Proof.
  eexists. split; [vm_compute; reflexivity|]. split; [reflexivity|].
  apply (users_well_formed (H := Samples.toy_argon) true sample_history). vm_compute. reflexivity.
Defined.

(** Create refuses a username in use, Update does not: afterwards one of the two accounts cannot be
    found by its username any more. *)
Example update_duplicates_username :
  let s := run_history (exec (H := Samples.toy_argon) true)
    [(healthy 1, CCreate (named "zoe" "zoe")); (healthy 2, CCreate (named "bob" "bob"));
     (healthy 3, CUpdate (named "bob" "zoe"))] new_file_state in
  (usr_ID <$> (default (MkState []) (current users_config s)).(Users)) = ["bob"; "zoe"] /\
  exists u, (FindByUsername "zoe" (healthy 4) s).2 = Ok (Some u) /\ usr_ID u = "bob".
Proof. split; [vm_compute; reflexivity|]. eexists. split; vm_compute; reflexivity. Qed.
