(* ===== verification/Audits.v ===== *)
(** * Audit log (control-plane/internal/audits/store.go)

    Events are kept newest first; each carries the SHA-256 of its JSON payload, which includes the
    hash of the event before it.  [SummarizeChain] recomputes the chain for the exported evidence.
    The details of an event are held as their JSON text, or as the reason they have none; that text
    is taken to be stable under decoding and encoding. *)
From Stdlib Require Import ZArith Lia Ascii String.
From stdpp Require Import base tactics strings list.
From S2P Require Import Prelude GoTime GoHash GoText DocStore.
Local Open Scope string_scope.
Local Open Scope Z_scope.
Local Notation "a +++ b" := (@app _ a b) (at level 60, right associativity).

Definition StatusSucceeded : string := "succeeded".
Definition StatusFailed : string := "failed".

(** [map[string]any]: nil or empty, encodable, or not encodable. *)
Inductive details := NoDetails | Encoded (text : string) | Unencodable (why : string).

Record AuditEvent := MkEvent {
  ev_ID : string;
  ev_ActorUserID : string;
  ev_ActorIP : string;
  ev_Action : string;
  ev_ResourceType : string;
  ev_ResourceID : string;
  ev_SiteID : string;
  ev_RelatedRevisionID : string;
  ev_RelatedJobID : string;
  ev_Status : string;
  ev_OccurredAt : string;
  ev_Summary : string;
  ev_Details : details;
  ev_PrevHash : string;
  ev_Hash : string
}.

Definition set_PrevHash (v : string) (e : AuditEvent) : AuditEvent :=
  MkEvent (ev_ID e) (ev_ActorUserID e) (ev_ActorIP e) (ev_Action e) (ev_ResourceType e)
    (ev_ResourceID e) (ev_SiteID e) (ev_RelatedRevisionID e) (ev_RelatedJobID e) (ev_Status e)
    (ev_OccurredAt e) (ev_Summary e) (ev_Details e) v (ev_Hash e).
Definition set_Hash (v : string) (e : AuditEvent) : AuditEvent :=
  MkEvent (ev_ID e) (ev_ActorUserID e) (ev_ActorIP e) (ev_Action e) (ev_ResourceType e)
    (ev_ResourceID e) (ev_SiteID e) (ev_RelatedRevisionID e) (ev_RelatedJobID e) (ev_Status e)
    (ev_OccurredAt e) (ev_Summary e) (ev_Details e) (ev_PrevHash e) v.

Record Query := MkQuery {
  q_Action : string;
  q_Category : string;
  q_ActorUserID : string;
  q_ActorIP : string;
  q_ResourceType : string;
  q_ResourceID : string;
  q_SiteID : string;
  q_Status : string;
  q_From : string;
  q_To : string;
  q_Limit : Z;
  q_Offset : Z
}.

Record ListResult := MkListResult {
  lr_Items : list AuditEvent;
  lr_Total : Z;
  lr_Limit : Z;
  lr_Offset : Z
}.

Record ChainSummary := MkSummary {
  EventCount : Z;
  HeadHash : string;
  TailHash : string;
  Valid : bool;
  Error : string
}.

Record state := MkState { Events : list AuditEvent }.

Definition audit_config : doc_config state := DocConfig "audit store" (MkState []) id.

(** ** Events *)
Definition normalizeEvent (e : AuditEvent) : AuditEvent :=
  MkEvent (trim_space (ev_ID e)) (trim_space (ev_ActorUserID e)) (trim_space (ev_ActorIP e))
    (trim_space (ev_Action e)) (trim_space (ev_ResourceType e)) (trim_space (ev_ResourceID e))
    (trim_space (ev_SiteID e)) (trim_space (ev_RelatedRevisionID e)) (trim_space (ev_RelatedJobID e))
    (ev_Status e) (ev_OccurredAt e) (trim_space (ev_Summary e)) (ev_Details e)
    (trim_space (ev_PrevHash e)) (trim_space (ev_Hash e)).

Definition validateEvent (e : AuditEvent) : result unit :=
  reject_if (is_empty (ev_ID e)) "audit event id is required";;
  reject_if (is_empty (ev_Action e)) "audit event action is required";;
  reject_if (is_empty (ev_ResourceType e)) "audit event resource_type is required";;
  reject_if (is_empty (ev_ResourceID e)) "audit event resource_id is required";;
  reject_if (negb (String.eqb (ev_Status e) StatusSucceeded) && negb (String.eqb (ev_Status e) StatusFailed))
    "audit event status is invalid";;
  reject_if (is_empty (ev_OccurredAt e)) "audit event occurred_at is required";;
  reject_if (is_empty (ev_Summary e)) "audit event summary is required".

(** [json.Marshal] of the payload struct of [ComputeEventHash]. *)
Definition payload (e : AuditEvent) : result string :=
  details ← match ev_Details e with
            | NoDetails => Ok None
            | Encoded text => Ok (Some text)
            | Unencodable why => Err why
            end;
  Ok (json_object [
    ("id", Some (json_string (ev_ID e)));
    ("actor_user_id", omit_empty (ev_ActorUserID e));
    ("actor_ip", omit_empty (ev_ActorIP e));
    ("action", Some (json_string (ev_Action e)));
    ("resource_type", Some (json_string (ev_ResourceType e)));
    ("resource_id", Some (json_string (ev_ResourceID e)));
    ("site_id", omit_empty (ev_SiteID e));
    ("related_revision_id", omit_empty (ev_RelatedRevisionID e));
    ("related_job_id", omit_empty (ev_RelatedJobID e));
    ("status", Some (json_string (ev_Status e)));
    ("occurred_at", Some (json_string (ev_OccurredAt e)));
    ("summary", Some (json_string (ev_Summary e)));
    ("details_json", details);
    ("prev_hash", omit_empty (ev_PrevHash e))]).

Definition ComputeEventHash (e : AuditEvent) : result string :=
  match payload e with
  | Ok content => Ok (sha256_hex content)
  | Err why => Err ("encode audit hash payload: " ++ why)
  end.

(** ** Append *)
Definition appendTx (event : AuditEvent) (_ : Z) (current : state) : result (state * unit) :=
  let event := match Events current with
               | [] => event
               | newest :: _ => set_PrevHash (trim_space (ev_Hash newest)) event
               end in
  hash ← ComputeEventHash event;
  Ok (MkState (set_Hash hash event :: Events current), tt).

Definition appendAtomic (event : AuditEvent) : sop state unit :=
  let event := normalizeEvent event in
  lift (validateEvent event);;
  update_document audit_config (appendTx event).

Definition Append (atomic : bool) (event : AuditEvent) : sop state unit :=
  if atomic then appendAtomic event
  else
    let event := normalizeEvent event in
    lift (validateEvent event);;
    transact audit_config (appendTx event).

(** ** Listing *)
Definition auditCategory (action : string) : string :=
  let action := normalize_id action in
  if has_prefix "auth." action then "auth"
  else if has_prefix "revision." action then "rollout"
  else "config".

(** [time.Time{}], which is also what a text that does not parse gives *)
Definition zero_time : Z := -62135596800 * second.
Definition parseTime (value : string) : Z :=
  let value := trim_space value in
  if is_empty value then zero_time else default zero_time (parse_rfc3339 value).

Definition wants (filter_ field : string) : bool :=
  is_empty filter_ || String.eqb field (trim_space filter_).

Definition selected (q : Query) (item : AuditEvent) : bool :=
  let from := parseTime (q_From q) in
  let to := parseTime (q_To q) in
  wants (q_Category q) (auditCategory (ev_Action item)) &&
  wants (q_Action q) (ev_Action item) &&
  wants (q_ActorUserID q) (ev_ActorUserID item) &&
  wants (q_ActorIP q) (ev_ActorIP item) &&
  wants (q_ResourceType q) (ev_ResourceType item) &&
  wants (q_ResourceID q) (ev_ResourceID item) &&
  wants (q_SiteID q) (ev_SiteID item) &&
  wants (q_Status q) (ev_Status item) &&
  match parse_rfc3339 (ev_OccurredAt item) with
  | None => false
  | Some occurredAt =>
      negb (negb (from =? zero_time) && (occurredAt <? from)) &&
      negb (negb (to =? zero_time) && (to <? occurredAt))
  end.

(** [items[lo:hi]]: a run-time panic outside the bounds. *)
Definition slice {A} (lo hi : Z) (items : list A) : result (list A) :=
  if (0 <=? lo) && (lo <=? hi) && (hi <=? Z.of_nat (length items))
  then Ok (take (Z.to_nat (hi - lo)) (drop (Z.to_nat lo) items))
  else Err "slice bounds out of range".

(** The paging at the end of [List], on 64-bit integers. *)
Definition page (q : Query) (filtered : list AuditEvent) : result ListResult :=
  let total := Z.of_nat (length filtered) in
  let limit := if q_Limit q <=? 0 then 100 else q_Limit q in
  let offset := if q_Offset q <? 0 then 0 else q_Offset q in
  let offset := if total <? offset then total else offset in
  let end_ := wrap64 (offset + limit) in
  let end_ := if total <? end_ then total else end_ in
  items ← slice offset end_ filtered;
  Ok (MkListResult items total limit offset).

Definition List (q : Query) : sop state ListResult :=
  query audit_config (fun _ current => page q (List.filter (selected q) (Events current))).

(** ** The exported summary *)

(** The loop of [SummarizeChain]: the first error found. *)
Fixpoint chainError (items : list AuditEvent) : option string :=
  match items with
  | [] => None
  | item :: rest =>
      match ComputeEventHash item with
      | Err why => Some why
      | Ok expectedHash =>
          if negb (String.eqb expectedHash (trim_space (ev_Hash item)))
          then Some ("hash mismatch at audit event " ++ ev_ID item)
          else match rest with
               | [] => None
               | next :: _ =>
                   if negb (String.eqb (trim_space (ev_PrevHash item)) (trim_space (ev_Hash next)))
                   then Some ("chain mismatch between audit events " ++ ev_ID item ++ " and " ++ ev_ID next)
                   else chainError rest
               end
      end
  end.

Definition SummarizeChain (items : list AuditEvent) : ChainSummary :=
  let head_hash := match items with [] => "" | item :: _ => trim_space (ev_Hash item) end in
  let tail_hash := match last items with None => "" | Some item => trim_space (ev_Hash item) end in
  match chainError items with
  | None => MkSummary (Z.of_nat (length items)) head_hash tail_hash true ""
  | Some why => MkSummary (Z.of_nat (length items)) head_hash tail_hash false why
  end.

(** ** The chain *)
Lemma sha256_hex_word s : word (sha256_hex s) = true.
Proof.
  unfold sha256_hex. induction (sha256_words s) as [|w ws IH]; [done|]. cbn [foldr].
  rewrite word_app, IH, andb_true_r. unfold word. generalize 8%nat. intros n.
  induction n as [|n IHn]; [done|]. cbn [hex_word all_chars]. by rewrite hex_digit_not_space, IHn.
Qed.

Lemma compute_trim e h : ComputeEventHash e = Ok h -> trim_space h = h.
Proof. unfold ComputeEventHash. destruct (payload e); intros [= <-]. apply word_trim, sha256_hex_word. Qed.

Lemma compute_set_Hash e h : ComputeEventHash (set_Hash h e) = ComputeEventHash e.
Proof. by destruct e. Qed.

(** Every event carries the hash of its own payload and of the event before it. *)
Definition chained (d : state) : Prop := chainError (Events d) = None.

Lemma appendTx_chained event t d d' u :
  chained d -> appendTx event t d = Ok (d', u) ->
  chained d' /\ exists e, Events d' = e :: Events d.
Proof.
  unfold chained, appendTx. intros Hd. destruct d as [items].
  intros (h & Hh & [= <- _])%result_bind_ok. cbn [Events] in *. split; [|eauto].
  cbn [chainError]. rewrite compute_set_Hash, Hh.
  assert (Hself : forall e, trim_space (ev_Hash (set_Hash h e)) = h) by (intros e; by eapply compute_trim).
  rewrite Hself, String.eqb_refl. cbn [negb]. destruct items as [|next rest]; [done|].
  cbn [ev_PrevHash set_Hash set_PrevHash]. by rewrite trim_space_idem, String.eqb_refl.
Qed.

(** What holds of the log once it has grown from [older]. *)
Definition grown (older : list AuditEvent) (s : json_state state) : Prop :=
  js_migrates s = false /\
  exists d, visible s = Some (Decodes d) /\ chained d /\ exists newer, Events d = newer +++ older.

Definition untouched (s : json_state state) : Prop := js_migrates s = false /\ visible s = None.

Lemma visible_document (s : json_state state) : js_migrates s = false -> js_document s = visible s.
Proof. unfold visible. intros ->. by destruct (js_document s). Qed.

Lemma Append_cases atomic event e s :
  js_migrates s = false ->
  js_migrates (Append atomic event e s).1 = false /\
  (visible (Append atomic event e s).1 = visible s \/
   exists d d' t, default (Decodes (MkState [])) (visible s) = Decodes d /\
     appendTx (normalizeEvent event) t d = Ok (d', tt) /\
     visible (Append atomic event e s).1 = Some (Decodes d')).
Proof.
  intros Hm. unfold Append, appendAtomic, mbind, sop_bind, lift. destruct atomic.
  - destruct (validateEvent _) as [[]|]; [|by auto].
    split; [by rewrite update_document_migrates|].
    destruct (update_document _ _ e s) as [s' [[]|]] eqn:E.
    + right. apply update_document_ok in E as (d & d' & Hd & Hf & Hv). exists d, d', (now e).
      split_and!; [|done|done]. revert Hd. unfold raw_document. rewrite visible_document by done.
      by destruct (visible s) as [[d0|]|]; intros [= <-].
    + left. by apply update_document_err in E as ->.
  - destruct (validateEvent _) as [[]|]; [|by auto].
    split; [by rewrite transact_migrates|].
    destruct (transact _ _ e s) as [s' [[]|]] eqn:E.
    + right. apply transact_ok in E as (d & d' & Hd & Hf & Hv). exists d, d', (now e).
      split_and!; [|done|done]. revert Hd. unfold current.
      by destruct (visible s) as [[d0|]|]; intros [= <-].
    + left. by apply transact_err in E.
Qed.

Lemma Append_grown atomic event e s older :
  grown older s -> grown older (Append atomic event e s).1.
Proof.
  intros (Hm & d & Hv & Hc & newer & Hn).
  destruct (Append_cases atomic event e s Hm) as [Hm' [Hv'|(d0 & d' & t & Hd & Hf & Hv')]].
  - split; [done|]. exists d. rewrite Hv'. eauto.
  - rewrite Hv in Hd. injection Hd as <-. apply appendTx_chained in Hf as [Hc' [ev He]]; [|done].
    split; [done|]. exists d'. split_and!; [done|done|]. exists (ev :: newer). by rewrite He, Hn.
Qed.

Lemma Append_first atomic event e s :
  untouched s -> untouched (Append atomic event e s).1 \/ grown [] (Append atomic event e s).1.
Proof.
  intros [Hm Hv]. destruct (Append_cases atomic event e s Hm) as [Hm' [Hv'|(d0 & d' & t & Hd & Hf & Hv')]].
  - left. split; congruence.
  - right. rewrite Hv in Hd. injection Hd as <-. apply appendTx_chained in Hf as [Hc' [ev He]]; [|done].
    split; [done|]. exists d'. split_and!; [done|done|]. exists [ev]. by rewrite He.
Qed.

Definition run_appends (atomic : bool) (h : list (env * AuditEvent)) (s : json_state state) : json_state state :=
  run_history (Append atomic) h s.

Lemma run_grown atomic h s older : grown older s -> grown older (run_appends atomic h s).
Proof.
  unfold run_appends, run_history. revert s. induction h as [|[e ev] h IH]; intros s Hs; [done|].
  cbn [foldl]. by apply IH, Append_grown.
Qed.

Lemma run_untouched atomic h s :
  untouched s -> untouched (run_appends atomic h s) \/ grown [] (run_appends atomic h s).
Proof.
  unfold run_appends, run_history. revert s. induction h as [|[e ev] h IH]; intros s Hs; [by left|].
  cbn [foldl]. destruct (Append_first atomic ev e s Hs) as [H|H]; [by apply IH|].
  right. by apply (run_grown atomic h).
Qed.

Lemma run_appends_app atomic h1 h2 s :
  run_appends atomic (h1 +++ h2) s = run_appends atomic h2 (run_appends atomic h1 s).
Proof. apply foldl_app. Qed.

(** C11: Whatever is appended, with or without the atomic backend and whatever fails on the way, the
    log only grows at its newest end, and the summary of every log it goes through reports a
    valid chain. *)
Theorem audit_append_only atomic h1 h2 d1 d2 :
  visible (run_appends atomic h1 new_file_state) = Some (Decodes d1) ->
  visible (run_appends atomic (h1 +++ h2) new_file_state) = Some (Decodes d2) ->
  Valid (SummarizeChain (Events d1)) = true /\ Valid (SummarizeChain (Events d2)) = true /\
  exists newer, Events d2 = newer +++ Events d1.
Proof.
  rewrite run_appends_app. set (s1 := run_appends atomic h1 new_file_state). intros H1 H2.
  assert (G1 : grown [] s1).
  { destruct (run_untouched atomic h1 new_file_state) as [[_ Hv]|?]; [done| |done].
    fold s1 in Hv. congruence. }
  destruct G1 as (Hm & d & Hv & Hc & _). assert (d = d1) as -> by congruence.
  destruct (run_grown atomic h2 s1 (Events d1)) as (_ & d & Hv2 & Hc2 & newer & Hn).
  { split; [done|]. exists d1. split_and!; [done|done|]. by exists []. }
  assert (d = d2) as -> by congruence. unfold SummarizeChain, chained in *. rewrite Hc, Hc2. eauto.
Qed.

Definition event1 : AuditEvent :=
  MkEvent "evt-1" "alice" "" "site.create" "site" "shop" "shop" "" "" "succeeded"
    "2024-05-01T10:00:00Z" "site created" NoDetails "" "".
Definition event2 : AuditEvent :=
  MkEvent "evt-2 " "bob" "" "revision.approve" "revision" "rev-1" "" "rev-1" "" "succeeded"
    "2024-05-01T11:00:00Z" "revision approved" (Encoded "{}") "" "".

Definition sample_log1 : state := Eval vm_compute in
  match visible (run_appends true [(healthy 1, event1)] new_file_state) with Some (Decodes d) => d | _ => MkState [] end.
Definition sample_log2 : state := Eval vm_compute in
  match visible (run_appends true [(healthy 1, event1); (healthy 2, event2)] new_file_state) with
  | Some (Decodes d) => d | _ => MkState [] end.

Lemma sample_log1_reached :
  visible (run_appends true [(healthy 1, event1)] new_file_state) = Some (Decodes sample_log1).
Proof. vm_compute. reflexivity. Qed.
Lemma sample_log2_reached :
  visible (run_appends true [(healthy 1, event1); (healthy 2, event2)] new_file_state) = Some (Decodes sample_log2).
Proof. vm_compute. reflexivity. Qed.

Lemma audit_append_only_witness :
  length (Events sample_log2) = 2%nat /\ Valid (SummarizeChain (Events sample_log2)) = true.
Proof.
  split; [reflexivity|].
  exact (proj1 (proj2 (audit_append_only true [(healthy 1, event1)] [(healthy 2, event2)] sample_log1 sample_log2
    sample_log1_reached sample_log2_reached))).
Defined.

(** *** The head hash commits to the whole log *)

(** The characters of a hash, and the two that can start the escape of a blank. *)
Definition hash_char (c : ascii) : bool :=
  is_digit c || (let n := N_of_ascii c in (97 <=? n) && (n <=? 102))%N.
Definition marker (c : ascii) : bool := Ascii.eqb c " " || Ascii.eqb c "\".

Lemma hash_char_plain c : hash_char c = true -> json_char c = String c "".
Proof. by destruct c as [[] [] [] [] [] [] [] []]. Qed.
Lemma hash_char_no_marker c : hash_char c = true -> negb (marker c) = true.
Proof. by destruct c as [[] [] [] [] [] [] [] []]. Qed.

Lemma hex_digits_checked : forallb (fun n => hash_char (hex_digit (Z.of_nat n))) (seq 0 16) = true.
Proof. vm_compute. reflexivity. Qed.

Lemma hex_digit_hash n : hash_char (hex_digit (n mod 16)) = true.
Proof.
  pose proof (Z.mod_pos_bound n 16 ltac:(lia)) as Hb. revert Hb. generalize (n mod 16). intros k Hk.
  pose proof hex_digits_checked as Hc. rewrite forallb_forall in Hc.
  specialize (Hc (Z.to_nat k) ltac:(apply in_seq; lia)). by rewrite Z2Nat.id in Hc by lia.
Qed.

Lemma hex_word_hash n w : all_chars hash_char (hex_word n w) = true /\ String.length (hex_word n w) = n.
Proof.
  induction n as [|n [IH1 IH2]]; [done|]. cbn [hex_word all_chars String.length].
  by rewrite hex_digit_hash, IH1, IH2.
Qed.

Lemma sha256_hex_shape s :
  all_chars hash_char (sha256_hex s) = true /\ String.length (sha256_hex s) = 64%nat.
Proof.
  unfold sha256_hex.
  assert (Hl : length (sha256_words s) = 8%nat) by (apply sha_blocks_length; done).
  replace 64%nat with (length (sha256_words s) * 8)%nat by lia. clear Hl.
  induction (sha256_words s) as [|w ws [IH1 IH2]]; [done|]. cbn [foldr length].
  destruct (hex_word_hash 8 w) as [H1 H2]. rewrite all_chars_app, string_length_app, H1, H2, IH1, IH2.
  split; [done|lia].
Qed.

Lemma json_chars_hash h : all_chars hash_char h = true -> json_chars h = h.
Proof.
  induction h as [|c h IH]; [done|]. cbn [all_chars json_chars]. intros [Hc Hh]%andb_true_iff.
  rewrite (hash_char_plain c Hc), (IH Hh). done.
Qed.

(** [TrimSpace] removes blanks around. *)
Lemma trim_right_decompose s : exists b, s = trim_right s ++ b /\ all_chars is_space b = true.
Proof.
  induction s as [|c s (b & Hs & Hb)]; [by exists ""|]. cbn [trim_right].
  destruct (trim_right s) as [|c' t] eqn:E.
  - destruct (is_space c) eqn:Hc.
    + exists (String c s). split; [done|]. cbn [all_chars]. rewrite Hc. change ("" ++ b) with b in Hs. by rewrite Hs.
    + exists s. split; [done|]. change ("" ++ b) with b in Hs. by rewrite Hs.
  - exists b. split; [|done]. rewrite Hs. done.
Qed.

Lemma trim_left_decompose s : exists a, s = a ++ trim_left s.
Proof.
  induction s as [|c s (a & Hs)]; [by exists ""|]. cbn [trim_left].
  destruct (is_space c); [|by exists ""]. exists (String c a). exact (f_equal (String c) Hs).
Qed.

Lemma trim_decompose s : exists a b, s = a ++ trim_space s ++ b /\ all_chars is_space b = true.
Proof.
  destruct (trim_left_decompose s) as [a Ha]. destruct (trim_right_decompose (trim_left s)) as (b & Hb & Hs).
  exists a, b. split; [|done]. rewrite Ha at 1. by rewrite Hb at 1.
Qed.

(** In the escape of blanks a marker is never more than five characters away. *)
Fixpoint run_ok (k : nat) (s : string) : bool :=
  match s with
  | "" => true
  | String c s' => if marker c then run_ok 0 s' else (k <? 5)%nat && run_ok (S k) s'
  end.

Lemma run_ok_blanks b k : all_chars is_space b = true -> (k <= 5)%nat -> run_ok k (json_chars b) = true.
Proof.
  revert k. induction b as [|c b IH]; intros k; [done|]. cbn [all_chars json_chars].
  intros [Hc Hb]%andb_true_iff Hk.
  assert (Hn : forall n, (n <= 5)%nat -> run_ok n (json_chars b) = true) by auto.
  destruct c as [[] [] [] [] [] [] [] []]; try discriminate Hc; cbn; apply Hn; lia.
Qed.

Lemma blanks_start b : all_chars is_space b = true ->
  match json_chars b with "" => True | String c _ => marker c = true end.
Proof.
  destruct b as [|c b]; [done|]. cbn [all_chars json_chars]. intros [Hc _]%andb_true_iff.
  by destruct c as [[] [] [] [] [] [] [] []].
Qed.

Lemma run_ok_app k a s : run_ok k (a ++ s) = true -> exists k', run_ok k' s = true.
Proof.
  revert k. induction a as [|c a IH]; intros k; [by exists k|].
  change (String c a ++ s) with (String c (a ++ s)). cbn [run_ok].
  destruct (marker c); [apply IH|]. intros [_ H]%andb_true_iff. by apply IH in H.
Qed.

Lemma run_ok_long k h s :
  all_chars hash_char h = true -> run_ok k (h ++ s) = true -> (String.length h <= 5)%nat.
Proof.
  intros Hh Hr. enough (String.length h = 0%nat \/ (k + String.length h <= 5)%nat) by lia.
  revert k Hr. induction h as [|c h IH]; intros k; [by left|].
  cbn [all_chars] in Hh. apply andb_true_iff in Hh as [Hc Hh].
  change (String c h ++ s) with (String c (h ++ s)). cbn [run_ok String.length].
  apply hash_char_no_marker, negb_true_iff in Hc. rewrite Hc. intros [Hk H]%andb_true_iff.
  apply Nat.ltb_lt in Hk. apply (IH Hh) in H. right. lia.
Qed.

Lemma join_snoc sep ps q : exists y, join sep (ps +++ [q]) = y ++ q.
Proof.
  induction ps as [|p ps (y & IH)]; [by exists ""|].
  exists (p ++ sep ++ y). destruct (ps +++ [q]) as [|r rs] eqn:E; [by destruct ps|].
  change ((p :: ps) +++ [q]) with (p :: (ps +++ [q])). rewrite E.
  change (join sep (p :: r :: rs)) with (p ++ sep ++ join sep (r :: rs)).
  rewrite IH. by rewrite !string_app_assoc.
Qed.

(** The payload ends with the text of the previous hash. *)
Lemma payload_tail e p :
  payload e = Ok p -> ev_PrevHash e <> "" ->
  exists x, p = x ++ json_chars (ev_PrevHash e) ++ dquote ++ "}".
Proof.
  unfold payload. intros (d & _ & H)%result_bind_ok Hne. injection H as <-.
  unfold json_object. unfold omit_empty at 6. rewrite (proj2 (is_empty_false _) Hne).
  match goal with |- context [omap json_field ?l] =>
    change l with (removelast l +++ [("prev_hash", Some (json_string (ev_PrevHash e)))]) end.
  rewrite omap_app. cbn [omap list_omap json_field snd fst mbind option_bind].
  match goal with |- context [join "," (?ps +++ [?q])] => destruct (join_snoc "," ps q) as [y Hy]; rewrite Hy end.
  unfold json_string at 2.
  exists ("{" ++ y ++ json_string "prev_hash" ++ ":" ++ dquote). by rewrite !string_app_assoc.
Qed.

(** Equal payloads name the same previous hash. *)
Lemma payload_prev p e1 e2 h1 h2 :
  payload e1 = Ok p -> payload e2 = Ok p ->
  trim_space (ev_PrevHash e1) = sha256_hex h1 -> trim_space (ev_PrevHash e2) = sha256_hex h2 ->
  sha256_hex h1 = sha256_hex h2.
Proof.
  intros P1 P2 T1 T2.
  destruct (sha256_hex_shape h1) as [S1 L1]. destruct (sha256_hex_shape h2) as [S2 L2].
  assert (Hne : forall e h, trim_space (ev_PrevHash e) = sha256_hex h -> ev_PrevHash e <> "").
  { intros e h T E. rewrite E in T. destruct (sha256_hex_shape h) as [_ L]. by rewrite <- T in L. }
  destruct (payload_tail _ _ P1 (Hne _ _ T1)) as [x1 E1].
  destruct (payload_tail _ _ P2 (Hne _ _ T2)) as [x2 E2].
  destruct (trim_decompose (ev_PrevHash e1)) as (a1 & b1 & D1 & B1). rewrite T1 in D1.
  destruct (trim_decompose (ev_PrevHash e2)) as (a2 & b2 & D2 & B2). rewrite T2 in D2.
  rewrite D1, !json_chars_app, (json_chars_hash _ S1) in E1.
  rewrite D2, !json_chars_app, (json_chars_hash _ S2) in E2.
  rewrite E1 in E2. rewrite <- !string_app_assoc in E2.
  apply string_app_inv in E2 as [E2 _]; [|done]. apply string_app_inv in E2 as [E2 _]; [|done].
  clear P1 P2 D1 D2 T1 T2 E1 Hne.
  generalize dependent (sha256_hex h1). generalize dependent (sha256_hex h2). intros k2 S2 L2 k1 S1 L1.
  generalize (x1 ++ json_chars a1) as y1. generalize (x2 ++ json_chars a2) as y2. intros y2 y1 E.
  revert y1 y2 k1 k2 b1 b2 S1 L1 S2 L2 B1 B2 E.
  (* by symmetry the second tail of blanks is the longer *)
  assert (Hwlog : forall y1 y2 k1 k2 b1 b2,
    all_chars hash_char k1 = true -> String.length k1 = 64%nat ->
    all_chars hash_char k2 = true -> String.length k2 = 64%nat ->
    all_chars is_space b1 = true -> all_chars is_space b2 = true ->
    (y1 ++ k1) ++ json_chars b1 = (y2 ++ k2) ++ json_chars b2 ->
    (String.length (json_chars b1) <= String.length (json_chars b2))%nat -> k1 = k2).
  { intros y1 y2 k1 k2 b1 b2 S1 L1 S2 L2 B1 B2 E Hl. symmetry in E.
    destruct (string_suffix _ _ _ _ E Hl) as [e He]. rewrite He in E.
    rewrite <- string_app_assoc in E. apply string_app_inv in E as [E _]; [|done].
    destruct e as [|c e].
    - rewrite string_app_nil in E. apply string_app_inv in E as [_ ->]; [done|congruence].
    - exfalso. pose proof (blanks_start b2 B2) as Hm. rewrite He in Hm. cbn in Hm.
      destruct (Nat.le_gt_cases (String.length (String c e)) (String.length k1)) as [Hc|Hc].
      + symmetry in E. destruct (string_suffix _ _ _ _ E Hc) as [z Hz].
        rewrite Hz, all_chars_app in S1. apply andb_true_iff in S1 as [_ S1]. cbn [all_chars] in S1.
        apply andb_true_iff in S1 as [S1 _]. apply hash_char_no_marker in S1. by rewrite Hm in S1.
      + destruct (string_suffix _ _ _ _ E (Nat.lt_le_incl _ _ Hc)) as [z Hz].
        pose proof (run_ok_blanks b2 0 B2 ltac:(lia)) as Hr.
        rewrite He, Hz, string_app_assoc in Hr. apply run_ok_app in Hr as [k' Hr].
        apply run_ok_long in Hr; [lia|done]. }
  intros y1 y2 k1 k2 b1 b2 S1 L1 S2 L2 B1 B2 E.
  destruct (Nat.le_gt_cases (String.length (json_chars b1)) (String.length (json_chars b2))).
  - apply (Hwlog y1 y2 k1 k2 b1 b2); try assumption.
  - symmetry. eapply (Hwlog y2 y1 k2 k1 b2 b1); try done. lia.
Qed.

(** Two events of the two logs, at the same place, whose payloads collide under SHA-256. *)
Definition collision (l1 l2 : list AuditEvent) : Prop :=
  exists (i : nat) e1 e2 p1 p2, l1 !! i = Some e1 /\ l2 !! i = Some e2 /\
    payload e1 = Ok p1 /\ payload e2 = Ok p2 /\ p1 <> p2 /\ sha256_hex p1 = sha256_hex p2.

Lemma chainError_cons e l :
  chainError (e :: l) = None ->
  exists p, payload e = Ok p /\ trim_space (ev_Hash e) = sha256_hex p /\ chainError l = None /\
    match l with [] => True | next :: _ => trim_space (ev_PrevHash e) = trim_space (ev_Hash next) end.
Proof.
  cbn [chainError]. unfold ComputeEventHash. destruct (payload e) as [p|] eqn:Hp; [|done].
  destruct (String.eqb_spec (sha256_hex p) (trim_space (ev_Hash e))) as [Hh|]; [|done]. cbn [negb].
  intros H. exists p. split_and!; [done|done| |]; destruct l as [|next l]; try done;
    destruct (String.eqb_spec (trim_space (ev_PrevHash e)) (trim_space (ev_Hash next))); done.
Qed.

Lemma chain_commits l1 l2 :
  chainError l1 = None -> chainError l2 = None -> length l1 = length l2 ->
  HeadHash (SummarizeChain l1) = HeadHash (SummarizeChain l2) ->
  (payload <$> l1) = (payload <$> l2) \/ collision l1 l2.
Proof.
  assert (Hhead : forall e l, HeadHash (SummarizeChain (e :: l)) = trim_space (ev_Hash e)).
  { intros e l. unfold SummarizeChain. by destruct (chainError (e :: l)). }
  revert l2. induction l1 as [|e1 l1 IH]; intros [|e2 l2] C1 C2 Hl Hh; try discriminate; [by left|].
  rewrite !Hhead in Hh. apply chainError_cons in C1 as (p1 & P1 & H1 & C1 & N1).
  apply chainError_cons in C2 as (p2 & P2 & H2 & C2 & N2).
  assert (Hs : sha256_hex p1 = sha256_hex p2) by congruence.
  destruct (String.eqb_spec p1 p2) as [<-|Hne].
  2: { right. by exists 0%nat, e1, e2, p1, p2. }
  assert (Hrest : (payload <$> l1) = (payload <$> l2) \/ collision l1 l2).
  { destruct l1 as [|n1 l1], l2 as [|n2 l2]; try discriminate; [by left|].
    apply IH; [done|done|simpl in *; lia|]. rewrite !Hhead.
    apply chainError_cons in C1 as (q1 & _ & Q1 & _). apply chainError_cons in C2 as (q2 & _ & Q2 & _).
    rewrite Q1, Q2. rewrite Q1 in N1. rewrite Q2 in N2. exact (payload_prev p1 e1 e2 q1 q2 P1 P2 N1 N2). }
  destruct Hrest as [Hr|(i & f1 & f2 & r)].
  - left. rewrite !fmap_cons. by rewrite P1, P2, Hr.
  - right. by exists (S i), f1, f2.
Qed.

(** C10: The head hash commits to the whole log: two logs of the same length whose summaries are valid
    and report the same head hash record the same payloads in the same order, or the payloads of
    two events at the same position collide under SHA-256.  Changing, reordering or replacing
    entries therefore cannot go unnoticed by whoever knows the head hash. *)
Theorem chain_tamper_evident (l1 l2 : list AuditEvent) :
  Valid (SummarizeChain l1) = true -> Valid (SummarizeChain l2) = true ->
  EventCount (SummarizeChain l1) = EventCount (SummarizeChain l2) ->
  HeadHash (SummarizeChain l1) = HeadHash (SummarizeChain l2) ->
  (payload <$> l1) = (payload <$> l2) \/ collision l1 l2.
Proof.
  intros V1 V2 Hc Hh. apply chain_commits; [| | |done];
    revert V1 V2 Hc; unfold SummarizeChain;
    destruct (chainError l1), (chainError l2); try done; cbn; intros; lia.
Qed.

(** Without its count a summary says less: dropping the oldest events leaves the chain valid and
    the head hash as it was. *)
Lemma chain_prefix_valid l1 l2 : chainError (l1 +++ l2) = None -> chainError l1 = None.
Proof.
  induction l1 as [|e l1 IH]; [done|]. change ((e :: l1) +++ l2) with (e :: (l1 +++ l2)).
  cbn [chainError]. destruct (ComputeEventHash e) as [h|]; [|done].
  destruct (negb _); [done|]. destruct l1 as [|n l1]; [by destruct l2|].
  revert IH. cbn [app]. intros IH. destruct (negb _); [done|]. exact IH.
Qed.

Lemma sample_summary :
  SummarizeChain (Events sample_log2) =
  MkSummary 2 (default "" (ev_Hash <$> head (Events sample_log2)))
    (default "" (ev_Hash <$> last (Events sample_log2))) true "".
Proof. vm_compute. reflexivity. Qed.

Definition padded_log : list AuditEvent := (fun e => set_Hash (" " ++ ev_Hash e) e) <$> Events sample_log2.

Lemma padded_summary : SummarizeChain padded_log = SummarizeChain (Events sample_log2).
Proof. vm_compute. reflexivity. Qed.

Lemma chain_tamper_evident_witness :
  padded_log <> Events sample_log2 /\
  ((payload <$> Events sample_log2) = (payload <$> padded_log) \/ collision (Events sample_log2) padded_log).
Proof.
  split; [discriminate|].
  apply (chain_tamper_evident (Events sample_log2) padded_log).
  - exact (f_equal Valid sample_summary).
  - rewrite padded_summary. exact (f_equal Valid sample_summary).
  - rewrite padded_summary. reflexivity.
  - rewrite padded_summary. reflexivity.
Defined.

(** ** Paging *)

(** A page of the log holds the matching events from the offset on, newest first, at most the
    limit of them; limits that are not positive become 100 and offsets are clamped to the total.
    This holds as long as total and limit together fit a 64-bit integer, which the handler's cap of
    500 ensures; [page_overflow] shows what happens beyond. *)
Theorem List_page (q : Query) (e : env) (s : json_state state) (d : state) :
  no_faults e -> current audit_config s = Some d ->
  Z.of_nat (length (Events d)) + q_Limit q < 2 ^ 63 -> Z.of_nat (length (Events d)) + 100 < 2 ^ 63 ->
  let matching := List.filter (selected q) (Events d) in
  exists r, (List q e s).2 = Ok r /\
    lr_Total r = Z.of_nat (length matching) /\ 0 < lr_Limit r /\ 0 <= lr_Offset r <= lr_Total r /\
    (0 < q_Limit q -> lr_Limit r = q_Limit q) /\
    (0 <= q_Offset q <= lr_Total r -> lr_Offset r = q_Offset q) /\
    lr_Items r = take (Z.to_nat (lr_Limit r)) (drop (Z.to_nat (lr_Offset r)) matching).
Proof.
  intros He Hc Hlen Hlen100 matching. unfold List. rewrite (query_healthy _ _ _ _ d He Hc).
  fold matching. assert (Hm : (length matching <= length (Events d))%nat) by apply filter_length_le.
  clearbody matching. unfold page. cbn zeta.
  set (total := Z.of_nat (length matching)).
  set (limit := if q_Limit q <=? 0 then 100 else q_Limit q).
  set (off0 := if q_Offset q <? 0 then 0 else q_Offset q).
  set (offset := if total <? off0 then total else off0).
  assert (Hlim : 0 < limit /\ total + limit < 2 ^ 63 /\ (0 < q_Limit q -> limit = q_Limit q)).
  { unfold limit, total. destruct (Z.leb_spec (q_Limit q) 0); lia. }
  assert (Hoff : 0 <= offset <= total /\ (0 <= q_Offset q <= total -> offset = q_Offset q)).
  { unfold offset, off0, total. destruct (Z.ltb_spec (q_Offset q) 0);
      destruct (Z.ltb_spec (Z.of_nat (length matching)) (if q_Offset q <? 0 then 0 else q_Offset q));
      repeat case_match; lia. }
  clearbody limit offset. rewrite wrap64_small by lia.
  set (end_ := if total <? offset + limit then total else offset + limit).
  assert (Hend : offset <= end_ <= total) by (unfold end_; destruct (Z.ltb_spec total (offset + limit)); lia).
  assert (Htake : take (Z.to_nat (end_ - offset)) (drop (Z.to_nat offset) matching) =
                  take (Z.to_nat limit) (drop (Z.to_nat offset) matching)).
  { unfold end_. destruct (Z.ltb_spec total (offset + limit)).
    - rewrite !take_ge; [done| |]; rewrite length_drop; unfold total in *; lia.
    - do 2 f_equal. lia. }
  clearbody end_. unfold slice. fold total.
  rewrite !(proj2 (Z.leb_le _ _)) by lia. cbn [andb mbind result_bind].
  eexists. split; [done|]. cbn [lr_Total lr_Limit lr_Offset lr_Items]. rewrite <- Htake.
  destruct Hlim as (? & ? & ?), Hoff as (? & ?). split_and!; try done; lia.
Qed.

Lemma List_page_witness :
  exists r, (List (MkQuery "" "config" "" "" "" "" "" "" "" "" 1 0) (healthy 9)
      (run_appends true [(healthy 1, event1); (healthy 2, event2)] new_file_state)).2 = Ok r /\
    lr_Total r = 1.
Proof.
  destruct (List_page (MkQuery "" "config" "" "" "" "" "" "" "" "" 1 0) (healthy 9)
    (run_appends true [(healthy 1, event1); (healthy 2, event2)] new_file_state) sample_log2 eq_refl)
    as (r & Hr & Ht & _).
  - unfold current. rewrite sample_log2_reached. reflexivity.
  - reflexivity.
  - reflexivity.
  - exists r. split; [exact Hr | exact Ht].
Defined.

(** With an offset past the first event and the largest limit the end of the page wraps around and
    the slice expression panics. *)
Example page_overflow :
  page (MkQuery "" "" "" "" "" "" "" "" "" "" (2 ^ 63 - 1) 1) [event1; event2] = Err "slice bounds out of range".
Proof. reflexivity. Qed.
