(* ===== verification/Approvals.v ===== *)
(** * Certificate export approvals (control-plane/internal/certificateexportapprovals)

    Exporting private key material takes two people: one requests, another approves, and the
    requester consumes the approval once, for the certificates it names, before it expires.  The
    store does not sort when it loads; it sorts when it saves. *)
From Stdlib Require Import ZArith Lia Ascii String.
From stdpp Require Import base tactics strings list.
From S2P Require Import Prelude GoTime DocStore.
Local Open Scope string_scope.
Local Open Scope Z_scope.
Local Notation "a +++ b" := (@app _ a b) (at level 60, right associativity).

Definition ErrNotFound : string := "certificate export approval not found".
Definition ErrAlreadyApproved : string := "certificate export approval is already approved".
Definition ErrSelfApproval : string := "certificate export approval requires a distinct approver".
Definition ErrAlreadyConsumed : string := "certificate export approval is already consumed".
Definition ErrExpired : string := "certificate export approval has expired".
Definition ErrExportMismatch : string := "certificate export approval does not match requested material".
Definition ErrUnauthorisedActor : string := "certificate export approval actor does not match requester".

Record Approval := MkApproval {
  ID : string;
  CertificateIDs : list string;
  RequesterID : string;
  ApprovedByID : string;
  CreatedAt : string;
  ExpiresAt : string;
  ApprovedAt : string;
  ConsumedAt : string
}.

Definition set_Approved (by_ at_ : string) (a : Approval) : Approval :=
  MkApproval (ID a) (CertificateIDs a) (RequesterID a) by_ (CreatedAt a) (ExpiresAt a) at_ (ConsumedAt a).
Definition set_ConsumedAt (v : string) (a : Approval) : Approval :=
  MkApproval (ID a) (CertificateIDs a) (RequesterID a) (ApprovedByID a) (CreatedAt a) (ExpiresAt a)
    (ApprovedAt a) v.

Record state := MkState { Approvals : list Approval }.

(** The identifiers as a set, sorted. *)
Definition normalizeIDs (ids : list string) : list string :=
  sort_on id (remove_dups (List.filter (fun i => negb (is_empty i)) (normalize_id <$> ids))).

Definition sameIDs (left right : list string) : bool := bool_decide (left = right).

Definition expired (t : Z) (item : Approval) : bool :=
  match parse_rfc3339 (ExpiresAt item) with Some expires => negb (t <? expires) | None => true end.

Definition encode (current : state) : state := MkState (sort_on ID (Approvals current)).

Definition find (current : state) (id : string) : option (nat * Approval) :=
  find_key ID (trim_space id) (Approvals current).

(** ** The transaction *)
Definition load_plain : sop state state :=
  c ← Load;
  match c with
  | None => mret (MkState [])
  | Some (Garbage msg) => throw msg
  | Some (Decodes d) => mret d
  end.

(** The document [AtomicDocumentBackend.UpdateDocument] hands to its callback. *)
Definition load_atomic : sop state state := fun e s =>
  match read_fault e with
  | Some msg => (s, Err msg)
  | None => match js_document s with
            | Some (Garbage msg) => (s, Err msg)
            | Some (Decodes d) => (s, Ok d)
            | None => (s, Ok (MkState []))
            end
  end.

Definition update {A} (atomic : bool) (fn : Z -> state -> result (state * A)) : sop state A := fun e s =>
  (d ← (if atomic then load_atomic else load_plain);
   r ← lift (fn (now e) d);
   Save (Decodes (encode r.1));;
   mret r.2) e s.

(** ** Operations *)
Definition new_approval (id requesterID : string) (certificateIDs : list string) (ttl t : Z) : Approval :=
  MkApproval (trim_space id) (normalizeIDs certificateIDs) (trim_space requesterID) ""
    (format_rfc3339_nano t) (format_rfc3339_nano (t + ttl)) "" "".

Definition default_ttl (ttl : Z) : Z := if ttl <=? 0 then 10 * minute else ttl.

Definition requestTx (id requesterID : string) (certificateIDs : list string) (ttl t : Z) (current : state)
  : result (state * Approval) :=
  let approval := new_approval id requesterID certificateIDs ttl t in
  match find_key ID (ID approval) (Approvals current) with
  | Some _ => Err ("certificate export approval " ++ ID approval ++ " already exists")
  | None => Ok (MkState (Approvals current +++ [approval]), approval)
  end.

Definition Request (atomic : bool) (id requesterID : string) (certificateIDs : list string) (ttl : Z)
  : sop state Approval :=
  let ttl := default_ttl ttl in
  if is_blank id || is_blank requesterID || bool_decide (normalizeIDs certificateIDs = [])
  then throw "approval id, requester, and certificate ids are required"
  else update atomic (requestTx id requesterID certificateIDs ttl).

Definition approveTx (id actorID : string) (t : Z) (current : state) : result (state * Approval) :=
  match find current id with
  | None => Err ErrNotFound
  | Some (i, item) =>
      if String.eqb (RequesterID item) (trim_space actorID) then Err ErrSelfApproval
      else if negb (is_empty (ApprovedByID item)) then Err ErrAlreadyApproved
      else if expired t item then Err ErrExpired
      else if is_blank actorID then Err "approver id is required"
      else
        let item := set_Approved (trim_space actorID) (format_rfc3339_nano t) item in
        Ok (MkState (<[i := item]> (Approvals current)), item)
  end.

Definition Approve (atomic : bool) (id actorID : string) : sop state Approval :=
  update atomic (approveTx id actorID).

Definition consumeTx (id requesterID : string) (certificateIDs : list string) (t : Z) (current : state)
  : result (state * unit) :=
  match find current id with
  | None => Err ErrNotFound
  | Some (i, item) =>
      if negb (String.eqb (RequesterID item) (trim_space requesterID)) then Err ErrUnauthorisedActor
      else if negb (sameIDs (CertificateIDs item) (normalizeIDs certificateIDs)) then Err ErrExportMismatch
      else if expired t item then Err ErrExpired
      else if negb (is_empty (ConsumedAt item)) then Err ErrAlreadyConsumed
      else if is_empty (ApprovedByID item) || String.eqb (ApprovedByID item) (RequesterID item)
      then Err ErrSelfApproval
      else Ok (MkState (<[i := set_ConsumedAt (format_rfc3339_nano t) item]> (Approvals current)), tt)
  end.

Definition Consume (atomic : bool) (id requesterID : string) (certificateIDs : list string) : sop state unit :=
  update atomic (consumeTx id requesterID certificateIDs).

(** The operations as data. *)
Inductive command :=
| CRequest (id requesterID : string) (certificateIDs : list string) (ttl : Z)
| CApprove (id actorID : string)
| CConsume (id requesterID : string) (certificateIDs : list string).

Definition exec (atomic : bool) (c : command) : sop state unit :=
  match c with
  | CRequest i r cs ttl => (fun _ => tt) <$> Request atomic i r cs ttl
  | CApprove i a => (fun _ => tt) <$> Approve atomic i a
  | CConsume i r cs => Consume atomic i r cs
  end.

Definition run (atomic : bool) (h : list (env * command)) : json_state state :=
  run_history (exec atomic) h new_file_state.

(** ** Proofs *)
Lemma load_visible (atomic : bool) e s s' r :
  (if atomic then load_atomic else load_plain) e s = (s', r) -> visible s' = visible s.
Proof.
  destruct atomic.
  - unfold load_atomic. destruct (read_fault e); [by intros [= <- _]|].
    destruct (js_document s) as [[d|g]|]; by intros [= <- _].
  - unfold load_plain, mbind, sop_bind. destruct (Load e s) as [s1 [c|m]] eqn:E; apply Load_spec in E as [Hv _].
    + destruct c as [[d|g]|]; intros [= <- _]; done.
    + by intros [= <- _].
Qed.

(** What an update computes with, when there is no legacy file to consult. *)
Definition seen (s : json_state state) (d : state) : Prop :=
  js_migrates s = false -> visible s = Some (Decodes d) \/ (visible s = None /\ d = MkState []).

Lemma load_seen (atomic : bool) e s s' d :
  (if atomic then load_atomic else load_plain) e s = (s', Ok d) -> seen s d.
Proof.
  unfold seen. destruct atomic.
  - unfold load_atomic, visible. destruct (read_fault e); [done|].
    destruct (js_document s) as [[d'|g]|]; [intros [= _ <-]; auto|done|]. intros [= _ <-] ->. auto.
  - unfold load_plain, mbind, sop_bind. destruct (Load e s) as [s1 [c|m]] eqn:E; [|done].
    apply Load_spec in E as [_ ->]. destruct (visible s) as [[d'|g]|]; [|done|]; intros [= _ <-]; auto.
Qed.

Lemma approvals_update_ok {A} atomic (fn : Z -> state -> result (state * A)) e s s' a :
  update atomic fn e s = (s', Ok a) ->
  exists d d', seen s d /\ fn (now e) d = Ok (d', a) /\ visible s' = Some (Decodes (encode d')).
Proof.
  unfold update, mbind, sop_bind, lift. destruct (_ e s) as [s1 [d|m]] eqn:E; [|done].
  apply load_seen in E. destruct (fn (now e) d) as [[d' a']|m] eqn:Hf; [|done].
  unfold Save. destruct (write_fault e); [done|]. intros [= <- <-]. by exists d, d'.
Qed.

Lemma approvals_update_err {A} atomic (fn : Z -> state -> result (state * A)) e s s' m :
  update atomic fn e s = (s', Err m) -> visible s' = visible s.
Proof.
  unfold update, mbind, sop_bind, lift. destruct (_ e s) as [s1 [d|m']] eqn:E; apply load_visible in E;
    [|by intros [= <- _]]. destruct (fn (now e) d) as [[d' a']|m'] eqn:Hf; [|by intros [= <- _]].
  unfold Save. destruct (write_fault e); [by intros [= <- _]|done].
Qed.

Lemma update_migrates {A} atomic (fn : Z -> state -> result (state * A)) e s :
  js_migrates (update atomic fn e s).1 = js_migrates s.
Proof.
  unfold update, load_atomic, load_plain, Load, Save, mbind, sop_bind, mret, sop_ret, throw, lift.
  destruct s as [doc leg mig], atomic; simpl; by repeat (case_match; simplify_eq/=).
Qed.

(** *** Where an approval comes from *)
Definition history : Type := list (env * command).

Definition requested (h : history) (a : Approval) : Prop :=
  exists e id r cs ttl, (e, CRequest id r cs ttl) ∈ h /\
    ID a = trim_space id /\ RequesterID a = trim_space r /\ CertificateIDs a = normalizeIDs cs /\
    ExpiresAt a = format_rfc3339_nano (now e + default_ttl ttl).

Definition approved_by_other (h : history) (a : Approval) : Prop :=
  ApprovedByID a <> "" ->
  exists e id actor, (e, CApprove id actor) ∈ h /\
    ID a = trim_space id /\ ApprovedByID a = trim_space actor /\ ApprovedByID a <> RequesterID a /\
    expired (now e) a = false.

Record inv (h : history) (d : state) : Prop := {
  inv_ids : NoDup (ID <$> Approvals d);
  inv_requested : Forall (requested h) (Approvals d);
  inv_approved : Forall (approved_by_other h) (Approvals d)
}.

Lemma requested_mono h h' a : requested h a -> requested (h +++ h') a.
Proof. intros (e & id & r & cs & ttl & Hin & Hr). exists e, id, r, cs, ttl. rewrite elem_of_app. auto. Qed.
Lemma approved_mono h h' a : approved_by_other h a -> approved_by_other (h +++ h') a.
Proof. intros Ha Hne. destruct (Ha Hne) as (e & id & x & Hin & Hr). exists e, id, x. rewrite elem_of_app. auto. Qed.

Lemma inv_mono h h' d : inv h d -> inv (h +++ h') d.
Proof.
  intros [H1 H2 H3]. split; [done| |].
  - eapply Forall_impl; [exact H2|]. apply requested_mono.
  - eapply Forall_impl; [exact H3|]. apply approved_mono.
Qed.

Lemma inv_nil h : inv h (MkState []).
Proof. repeat constructor. Qed.

Lemma inv_encode h d : inv h d -> inv h (encode d).
Proof. intros [H1 H2 H3]. split; simpl; [by rewrite NoDup_fmap_sort_on | by rewrite Forall_sort_on..]. Qed.

(** The checks behind each operation that succeeds. *)
Lemma find_spec d id i item : find d id = Some (i, item) -> Approvals d !! i = Some item /\ ID item = trim_space id.
Proof. apply find_key_Some. Qed.

Lemma approveTx_ok id actor t d d' a :
  approveTx id actor t d = Ok (d', a) ->
  exists i item, find d id = Some (i, item) /\ RequesterID item <> trim_space actor /\ trim_space actor <> "" /\
    ApprovedByID item = "" /\ expired t item = false /\ a = set_Approved (trim_space actor) (format_rfc3339_nano t) item /\
    d' = MkState (<[i := a]> (Approvals d)).
Proof.
  unfold approveTx. destruct (find d id) as [[i item]|]; [|done].
  destruct (String.eqb_spec (RequesterID item) (trim_space actor)); [done|].
  destruct (is_empty (ApprovedByID item)) eqn:Ha; [|done]. destruct (expired t item) eqn:He; [done|]. cbn [negb].
  destruct (is_blank actor) eqn:Hb; [done|]. intros [= <- <-]. exists i, item.
  split_and!; try done; [by apply is_empty_false | by apply is_empty_spec].
Qed.

Lemma consumeTx_ok id requester cs t d d' u :
  consumeTx id requester cs t d = Ok (d', u) ->
  exists i item, find d id = Some (i, item) /\ RequesterID item = trim_space requester /\
    CertificateIDs item = normalizeIDs cs /\ expired t item = false /\ ConsumedAt item = "" /\
    ApprovedByID item <> "" /\ d' = MkState (<[i := set_ConsumedAt (format_rfc3339_nano t) item]> (Approvals d)).
Proof.
  unfold consumeTx. destruct (find d id) as [[i item]|]; [|done].
  destruct (String.eqb_spec (RequesterID item) (trim_space requester)); [|done].
  destruct (sameIDs _ _) eqn:Hs; [|done]. destruct (expired t item) eqn:He; [done|].
  destruct (is_empty (ConsumedAt item)) eqn:Hc; [|done]. cbn [negb].
  destruct (is_empty (ApprovedByID item)) eqn:Ha; [done|].
  destruct (String.eqb _ _); [done|]. intros [= <- _]. exists i, item.
  split_and!; try done; [by apply bool_decide_eq_true in Hs | by apply is_empty_spec | by apply is_empty_false].
Qed.

Lemma inv_insert h d i item item' :
  inv h d -> Approvals d !! i = Some item -> ID item' = ID item ->
  requested h item' -> approved_by_other h item' -> inv h (MkState (<[i := item']> (Approvals d))).
Proof.
  intros [H1 H2 H3] Hi Hid Hr Ha. split; simpl.
  - by rewrite (fmap_key_insert ID _ _ item).
  - by apply Forall_insert_list.
  - by apply Forall_insert_list.
Qed.

Lemma requestTx_inv h e id r cs ttl d d' a :
  inv h d -> requestTx id r cs (default_ttl ttl) (now e) d = Ok (d', a) ->
  inv (h +++ [(e, CRequest id r cs ttl)]) d'.
Proof.
  intros Hd. unfold requestTx. cbn zeta. destruct (find_key _ _ _) as [[i x]|] eqn:Hf; [done|]. intros [= <- _].
  apply find_key_None in Hf. apply (inv_mono _ [(e, CRequest id r cs ttl)]) in Hd as [H1 H2 H3].
  split; simpl; [by apply NoDup_key_snoc| |]; apply Forall_app; (split; [done|]); (constructor; [|constructor]).
  - exists e, id, r, cs, ttl. split; [rewrite elem_of_app; right; by left|]. by split_and!.
  - by intros [].
Qed.

Lemma approveTx_inv h e id actor d d' a :
  inv h d -> approveTx id actor (now e) d = Ok (d', a) -> inv (h +++ [(e, CApprove id actor)]) d'.
Proof.
  intros Hd (i & item & Hf & Hne & Hx & Hap & Hexp & -> & ->)%approveTx_ok.
  apply find_spec in Hf as [Hi Hid].
  apply (inv_mono _ [(e, CApprove id actor)]) in Hd. pose proof Hd as [_ H2 _].
  eapply inv_insert; [done|exact Hi|done| |].
  - destruct item. exact (Forall_lookup_1 _ _ _ _ H2 Hi).
  - intros _. exists e, id, actor. split; [rewrite elem_of_app; right; by left|]. simpl. split_and!; try done.
Qed.

Lemma consumeTx_inv h e id r cs d d' u :
  inv h d -> consumeTx id r cs (now e) d = Ok (d', u) -> inv (h +++ [(e, CConsume id r cs)]) d'.
Proof.
  intros Hd (i & item & Hf & _ & _ & _ & _ & _ & ->)%consumeTx_ok. apply find_spec in Hf as [Hi Hid].
  apply (inv_mono _ [(e, CConsume id r cs)]) in Hd. pose proof Hd as [_ H2 H3].
  eapply inv_insert; [done|exact Hi|done| |].
  - destruct item. exact (Forall_lookup_1 _ _ _ _ H2 Hi).
  - destruct item. exact (Forall_lookup_1 _ _ _ _ H3 Hi).
Qed.

(** The documents a history can reach. *)
Definition reaches (h : history) (s : json_state state) : Prop :=
  js_migrates s = false /\ forall d, visible s = Some (Decodes d) -> inv h d.

Lemma reaches_seen h s d : reaches h s -> seen s d -> inv h d.
Proof. intros [Hm Hs] Hd. destruct (Hd Hm) as [?|[_ ->]]; [by apply Hs | apply inv_nil]. Qed.

Lemma update_reaches {A} atomic (fn : Z -> state -> result (state * A)) h c e s :
  reaches h s -> (forall d d' a, inv h d -> fn (now e) d = Ok (d', a) -> inv (h +++ [(e, c)]) d') ->
  reaches (h +++ [(e, c)]) (update atomic fn e s).1.
Proof.
  intros Hs Hf. split; [rewrite update_migrates; apply Hs|].
  destruct (update atomic fn e s) as [s' [a|m]] eqn:E; cbn [fst]; intros d Hd.
  - apply approvals_update_ok in E as (d0 & d' & Hd0 & Hfd & Hv). rewrite Hv in Hd. injection Hd as <-.
    apply inv_encode. eapply Hf; [|exact Hfd]. by eapply reaches_seen.
  - apply approvals_update_err in E. rewrite E in Hd. by apply inv_mono, Hs.
Qed.

Lemma exec_reaches atomic h e c s : reaches h s -> reaches (h +++ [(e, c)]) (exec atomic c e s).1.
Proof.
  intros Hs.
  assert (Hfmap : forall A (m : sop state A), reaches (h +++ [(e, c)]) (m e s).1 ->
    reaches (h +++ [(e, c)]) ((fmap (fun _ => tt) m : sop state unit) e s).1).
  { intros A m. unfold fmap, sop_fmap. by destruct (m e s) as [s' [a|]]. }
  destruct c as [i r cs ttl|i x|i r cs]; cbn [exec]; [apply Hfmap|apply Hfmap|].
  - unfold Request. destruct (_ || _).
    + split; [apply Hs|]. intros d Hd. apply inv_mono. by apply Hs.
    + apply update_reaches; [done|]. intros d d' a. apply requestTx_inv.
  - apply update_reaches; [done|]. intros d d' a. apply approveTx_inv.
  - apply update_reaches; [done|]. intros d d' a. apply consumeTx_inv.
Qed.

Lemma run_snoc atomic h e c : run atomic (h +++ [(e, c)]) = (exec atomic c e (run atomic h)).1.
Proof. unfold run, run_history. by rewrite foldl_app. Qed.

Lemma run_reaches atomic h : reaches h (run atomic h).
Proof.
  induction h as [|[e c] h IH] using rev_ind; [split; [done|by intros d]|].
  rewrite run_snoc. by apply exec_reaches.
Qed.

(** C12: An export that goes through was requested by its consumer for exactly these certificates and
    approved by somebody else, under the same identifier, before the expiry, which has not been
    reached at the export either; with either backend and whatever failed in between. *)
Theorem export_needs_two_people atomic h id requester cs e s' :
  Consume atomic id requester cs e (run atomic h) = (s', Ok tt) ->
  exists a e1 id1 r1 cs1 ttl e2 id2 actor,
    (e1, CRequest id1 r1 cs1 ttl) ∈ h /\ trim_space id1 = trim_space id /\
    trim_space r1 = trim_space requester /\ normalizeIDs cs1 = normalizeIDs cs /\
    (e2, CApprove id2 actor) ∈ h /\ trim_space id2 = trim_space id /\
    trim_space actor <> trim_space requester /\ trim_space actor <> "" /\
    ExpiresAt a = format_rfc3339_nano (now e1 + default_ttl ttl) /\
    expired (now e2) a = false /\ expired (now e) a = false.
Proof.
  intros (d & d' & Hd & Hc & _)%approvals_update_ok.
  apply (reaches_seen h) in Hd as [_ H2 H3]; [|apply run_reaches].
  apply consumeTx_ok in Hc as (i & a & Hf & Hr & Hcs & Hexp & _ & Hap & _).
  apply find_spec in Hf as [Hi Hid].
  destruct (Forall_lookup_1 _ _ _ _ H2 Hi) as (e1 & id1 & r1 & cs1 & ttl & Hin1 & I1 & R1 & C1 & E1).
  destruct (Forall_lookup_1 _ _ _ _ H3 Hi Hap) as (e2 & id2 & actor & Hin2 & I2 & A2 & N2 & X2).
  exists a, e1, id1, r1, cs1, ttl, e2, id2, actor. split_and!; try done; congruence.
Qed.

(** *** An approval is consumed once *)
Definition consumed_in (id : string) (l : list Approval) : Prop :=
  exists a, a ∈ l /\ ID a = id /\ ConsumedAt a <> "".

Definition consumed (id : string) (s : json_state state) : Prop :=
  js_migrates s = false /\
  exists d, visible s = Some (Decodes d) /\ NoDup (ID <$> Approvals d) /\ consumed_in id (Approvals d).

Lemma consumed_insert id l i item item' :
  l !! i = Some item -> ID item' = ID item -> (ConsumedAt item <> "" -> ConsumedAt item' <> "") ->
  consumed_in id l -> consumed_in id (<[i := item']> l).
Proof.
  intros Hi Hid Hc (a & [j Hj]%list_elem_of_lookup & Ha & Hne). destruct (decide (i = j)) as [<-|Hij].
  - exists item'. assert (a = item) as -> by congruence. split_and!; [|congruence|auto].
    eapply list_elem_of_lookup_2, list_lookup_insert_eq. by eapply lookup_lt_Some.
  - exists a. split; [|done]. eapply list_elem_of_lookup_2. by rewrite list_lookup_insert_ne.
Qed.

Definition keeps_consumed {A} (fn : Z -> state -> result (state * A)) : Prop :=
  forall id t d d' a, fn t d = Ok (d', a) -> NoDup (ID <$> Approvals d) -> consumed_in id (Approvals d) ->
  NoDup (ID <$> Approvals d') /\ consumed_in id (Approvals d').

Lemma request_keeps i r cs ttl : keeps_consumed (requestTx i r cs ttl).
Proof.
  intros id t d d' a. unfold requestTx. cbn zeta.
  destruct (find_key _ _ _) as [[j x]|] eqn:Hf; [done|]. intros [= <- _] Hn (b & Hb & Hr).
  apply find_key_None in Hf. split; [by apply NoDup_key_snoc|]. exists b. split; [|done].
  simpl. rewrite elem_of_app. by left.
Qed.

Lemma approve_keeps i x : keeps_consumed (approveTx i x).
Proof.
  intros id t d d' a (j & item & [Hj _]%find_spec & _ & _ & _ & _ & -> & ->)%approveTx_ok Hn Hc. simpl.
  split; [by rewrite (fmap_key_insert ID _ _ item)|]. by eapply consumed_insert.
Qed.

Lemma consume_keeps i r cs : keeps_consumed (consumeTx i r cs).
Proof.
  intros id t d d' u (j & item & [Hj _]%find_spec & _ & _ & _ & _ & _ & ->)%consumeTx_ok Hn Hc. simpl.
  split; [by rewrite (fmap_key_insert ID _ _ item)|]. eapply consumed_insert; [done|done| |done].
  intros _. apply rfc3339_nano_nonempty.
Qed.

Lemma consumed_encode id d : NoDup (ID <$> Approvals d) -> consumed_in id (Approvals d) ->
  NoDup (ID <$> Approvals (encode d)) /\ consumed_in id (Approvals (encode d)).
Proof.
  intros Hn (a & Ha & Hr). split; [simpl; by rewrite NoDup_fmap_sort_on|]. exists a.
  split; [|done]. simpl. by rewrite elem_of_sort_on.
Qed.

Lemma update_consumed {A} atomic (fn : Z -> state -> result (state * A)) id e s :
  keeps_consumed fn -> consumed id s -> consumed id (update atomic fn e s).1.
Proof.
  intros Hf [Hm (d & Hv & Hn & Hc)]. split; [by rewrite update_migrates|].
  destruct (update atomic fn e s) as [s' [a|m]] eqn:E; cbn [fst].
  - apply approvals_update_ok in E as (d0 & d' & Hd0 & Hfd & Hv').
    assert (d0 = d) as -> by (destruct (Hd0 Hm) as [?|[? _]]; congruence).
    exists (encode d'). split; [done|]. apply consumed_encode; by eapply Hf.
  - apply approvals_update_err in E. exists d. by rewrite E.
Qed.

Lemma exec_consumed atomic id c e s : consumed id s -> consumed id (exec atomic c e s).1.
Proof.
  intros Hs.
  assert (Hfmap : forall A (m : sop state A), consumed id (m e s).1 ->
    consumed id ((fmap (fun _ => tt) m : sop state unit) e s).1).
  { intros A m. unfold fmap, sop_fmap. by destruct (m e s) as [s' [a|]]. }
  destruct c as [i r cs ttl|i x|i r cs]; cbn [exec]; [apply Hfmap|apply Hfmap|].
  - unfold Request. destruct (_ || _); [done|]. apply update_consumed; [apply request_keeps|done].
  - apply update_consumed; [apply approve_keeps|done].
  - apply update_consumed; [apply consume_keeps|done].
Qed.

Lemma run_consumed atomic id h s : consumed id s -> consumed id (run_history (exec atomic) h s).
Proof.
  unfold run_history. revert s. induction h as [|[e c] h IH]; intros s Hs; [done|]. by apply IH, exec_consumed.
Qed.

(** C13: After an approval has been consumed, no later history lets anybody consume it again, for
    whatever certificates and with whatever backend failures. *)
Theorem export_consumed_once atomic h id requester cs e s' h2 e2 requester2 cs2 :
  Consume atomic id requester cs e (run atomic h) = (s', Ok tt) ->
  (Consume atomic id requester2 cs2 e2 (run_history (exec atomic) h2 s')).2 <> Ok tt.
Proof.
  intros Hc. assert (Hcons : consumed (trim_space id) s').
  { pose proof (update_migrates atomic (consumeTx id requester cs) e (run atomic h)) as Hm.
    unfold Consume in Hc. rewrite Hc in Hm. cbn [fst] in Hm.
    destruct (run_reaches atomic h) as [Hm0 _]. split; [congruence|].
    apply approvals_update_ok in Hc as (d & d' & Hd & Hf & Hv).
    apply (reaches_seen h) in Hd as [Hn _ _]; [|apply run_reaches].
    exists (encode d'). split; [done|]. apply consumeTx_ok in Hf as (i & a & Hfind & _ & _ & _ & _ & _ & ->).
    apply find_spec in Hfind as [Hi Hid]. apply consumed_encode; simpl.
    - by rewrite (fmap_key_insert ID _ _ a).
    - exists (set_ConsumedAt (format_rfc3339_nano (now e)) a). split_and!; [|done|apply rfc3339_nano_nonempty].
      eapply list_elem_of_lookup_2, list_lookup_insert_eq. by eapply lookup_lt_Some. }
  apply (run_consumed atomic _ h2) in Hcons as [Hm (d & Hv & Hn & a & Ha & Hid & Hne)].
  destruct (Consume atomic id requester2 cs2 e2 (run_history (exec atomic) h2 s')) as [s2 [[]|m]] eqn:E; [|done].
  exfalso. apply approvals_update_ok in E as (d0 & d' & Hd0 & Hf & _).
  assert (d0 = d) as -> by (destruct (Hd0 Hm) as [?|[? _]]; congruence).
  apply consumeTx_ok in Hf as (i & b & Hfind & _ & _ & _ & Hb & _).
  destruct (find_key_unique ID _ a Hn Ha) as [j Hj]. unfold find in Hfind. rewrite Hid in Hj. congruence.
Qed.

Definition two_steps : history :=
  [(healthy 0, CRequest "exp-1 " "alice" ["Shop-Cert"; "shop-cert"] 0);
   (healthy (1 * minute), CApprove "exp-1" " bob")].

Lemma sample_consumed :
  exists s', Consume true "exp-1" "alice" ["shop-cert"] (healthy (2 * minute)) (run true two_steps) = (s', Ok tt).
Proof. eexists. vm_compute. reflexivity. Qed.

Lemma export_needs_two_people_witness :
  exists e id actor, (e, CApprove id actor) ∈ two_steps /\ trim_space id = "exp-1" /\ trim_space actor <> "alice".
Proof.
  destruct sample_consumed as [s' E].
  destruct (export_needs_two_people true two_steps "exp-1" "alice" ["shop-cert"] (healthy (2 * minute)) s' E)
    as (a & e1 & id1 & r1 & cs1 & ttl & e2 & id2 & actor & _ & _ & _ & _ & Hin & Hid & Hne & _).
  exists e2, id2, actor. split; [exact Hin|]. split; [exact Hid | exact Hne].
Defined.

Lemma export_consumed_once_witness :
  exists s', Consume true "exp-1" "alice" ["shop-cert"] (healthy (2 * minute)) (run true two_steps) = (s', Ok tt) /\
    (Consume true "exp-1" "alice" ["shop-cert"] (healthy (3 * minute))
       (run_history (exec true) two_steps s')).2 <> Ok tt.
Proof.
  destruct sample_consumed as [s' E]. exists s'. split; [exact E|].
  exact (export_consumed_once true two_steps "exp-1" "alice" ["shop-cert"] (healthy (2 * minute)) s'
    two_steps (healthy (3 * minute)) "alice" ["shop-cert"] E).
Defined.
