(* ===== verification/Roles.v ===== *)
(** * Roles and permissions (control-plane/internal/rbac, internal/roles)

    Roles are named sets of permissions in a JSON document; the default roles are seeded when the
    store opens, and [Policy] answers authorisation questions from the role identifiers of a
    session. *)
From Stdlib Require Import ZArith Lia Ascii String.
From stdpp Require Import base tactics gmap strings list.
From S2P Require Import Prelude GoTime DocStore.
Local Set Warnings "-clear-no-such-hyp".
Local Open Scope string_scope.
Local Notation "a +++ b" := (@app _ a b) (at level 60, right associativity).

(** ** Permissions *)
Definition PermissionAuthSelf : string := "auth.self".
Definition PermissionHealthcheckRead : string := "healthcheck.read".
Definition PermissionProfileRead : string := "profile.read".
Definition PermissionDashboardRead : string := "dashboard.read".
Definition PermissionSitesRead : string := "sites.read".
Definition PermissionSitesWrite : string := "sites.write".
Definition PermissionUpstreamsRead : string := "upstreams.read".
Definition PermissionUpstreamsWrite : string := "upstreams.write".
Definition PermissionAntiDDoSRead : string := "antiddos.read".
Definition PermissionAntiDDoSWrite : string := "antiddos.write".
Definition PermissionOWASPCRSRead : string := "owaspcrs.read".
Definition PermissionOWASPCRSWrite : string := "owaspcrs.write".
Definition PermissionCertificatesRead : string := "certificates.read".
Definition PermissionCertificatesWrite : string := "certificates.write".
Definition PermissionCertificatesExport : string := "certificates.export".
Definition PermissionTLSRead : string := "tls.read".
Definition PermissionTLSWrite : string := "tls.write".
Definition PermissionPoliciesRead : string := "policies.read".
Definition PermissionPoliciesWrite : string := "policies.write".
Definition PermissionAccessRead : string := "access.read".
Definition PermissionAccessWrite : string := "access.write".
Definition PermissionRateLimitsRead : string := "ratelimits.read".
Definition PermissionRateLimitsWrite : string := "ratelimits.write".
Definition PermissionRequestsRead : string := "requests.read".
Definition PermissionReportsRead : string := "reports.read".
Definition PermissionEventsRead : string := "events.read".
Definition PermissionBansRead : string := "bans.read".
Definition PermissionRevisionsRead : string := "revisions.read".
Definition PermissionRevisionsWrite : string := "revisions.write".
Definition PermissionRevisionsApprove : string := "revisions.approve".
Definition PermissionAdministrationRead : string := "administration.read".
Definition PermissionAdministrationWrite : string := "administration.write".
Definition PermissionAdministrationUsersRead : string := "administration.users.read".
Definition PermissionAdministrationUsersWrite : string := "administration.users.write".
Definition PermissionAdministrationRolesRead : string := "administration.roles.read".
Definition PermissionAdministrationRolesWrite : string := "administration.roles.write".
Definition PermissionActivityRead : string := "activity.read".
Definition PermissionSettingsGeneralRead : string := "settings.general.read".
Definition PermissionSettingsGeneralWrite : string := "settings.general.write".
Definition PermissionSettingsStorageRead : string := "settings.storage.read".
Definition PermissionSettingsStorageWrite : string := "settings.storage.write".
Definition PermissionSettingsAboutRead : string := "settings.about.read".

Definition AllPermissions : list string :=
  [PermissionAuthSelf; PermissionHealthcheckRead; PermissionProfileRead; PermissionDashboardRead;
  PermissionSitesRead; PermissionSitesWrite; PermissionUpstreamsRead; PermissionUpstreamsWrite;
  PermissionAntiDDoSRead; PermissionAntiDDoSWrite; PermissionOWASPCRSRead;
  PermissionOWASPCRSWrite; PermissionCertificatesRead; PermissionCertificatesWrite;
  PermissionCertificatesExport; PermissionTLSRead; PermissionTLSWrite; PermissionPoliciesRead;
  PermissionPoliciesWrite; PermissionAccessRead; PermissionAccessWrite; PermissionRateLimitsRead;
  PermissionRateLimitsWrite; PermissionRequestsRead; PermissionReportsRead; PermissionEventsRead;
  PermissionBansRead; PermissionRevisionsRead; PermissionRevisionsWrite;
  PermissionRevisionsApprove; PermissionAdministrationRead; PermissionAdministrationWrite;
  PermissionAdministrationUsersRead; PermissionAdministrationUsersWrite;
  PermissionAdministrationRolesRead; PermissionAdministrationRolesWrite; PermissionActivityRead;
  PermissionSettingsGeneralRead; PermissionSettingsGeneralWrite; PermissionSettingsStorageRead;
  PermissionSettingsStorageWrite; PermissionSettingsAboutRead].

Definition IsKnownPermission (permission : string) : bool :=
  existsb (fun item => String.eqb item permission) AllPermissions.

(** The items without empty ones and repetitions, sorted. *)
Definition add_new (out : list string) (item : string) : list string :=
  if decide (item ∈ out) then out else out +++ [item].

Definition SortedPermissions (items : list string) : list string :=
  sort_on id (foldl (fun out item => if is_empty item then out else add_new out item) [] items).

Record RoleDefinition := MkRoleDefinition { def_ID : string; def_Name : string; def_Permissions : list string }.

Definition commonSelf : list string :=
  [PermissionAuthSelf; PermissionHealthcheckRead; PermissionProfileRead;
  PermissionSettingsAboutRead].
Definition readOnlyOps : list string :=
  [PermissionDashboardRead; PermissionSitesRead; PermissionUpstreamsRead; PermissionAntiDDoSRead;
  PermissionOWASPCRSRead; PermissionCertificatesRead; PermissionTLSRead; PermissionPoliciesRead;
  PermissionAccessRead; PermissionRateLimitsRead; PermissionRequestsRead; PermissionReportsRead;
  PermissionEventsRead; PermissionBansRead; PermissionRevisionsRead; PermissionRevisionsApprove;
  PermissionActivityRead].
Definition adminPermissions : list string := commonSelf +++ AllPermissions.
Definition managerPermissions : list string := commonSelf +++
  [PermissionDashboardRead; PermissionSitesRead; PermissionSitesWrite; PermissionUpstreamsRead;
  PermissionUpstreamsWrite; PermissionCertificatesRead; PermissionCertificatesWrite;
  PermissionTLSRead; PermissionTLSWrite; PermissionRevisionsRead; PermissionRevisionsWrite;
  PermissionRevisionsApprove; PermissionActivityRead; PermissionAdministrationRead;
  PermissionAdministrationUsersRead; PermissionAdministrationUsersWrite;
  PermissionAdministrationRolesRead].
Definition auditorPermissions : list string := commonSelf +++ readOnlyOps.
Definition socPermissions : list string := commonSelf +++
  [PermissionDashboardRead; PermissionSitesRead; PermissionAntiDDoSRead; PermissionAntiDDoSWrite;
  PermissionOWASPCRSRead; PermissionOWASPCRSWrite; PermissionPoliciesRead;
  PermissionPoliciesWrite; PermissionRequestsRead; PermissionReportsRead; PermissionEventsRead;
  PermissionBansRead; PermissionRevisionsRead; PermissionRevisionsApprove; PermissionActivityRead].
Definition operatorPermissions : list string := commonSelf +++
  [PermissionDashboardRead; PermissionSitesRead; PermissionSitesWrite; PermissionUpstreamsRead;
  PermissionUpstreamsWrite; PermissionCertificatesRead; PermissionCertificatesWrite;
  PermissionTLSRead; PermissionTLSWrite; PermissionAntiDDoSRead; PermissionAntiDDoSWrite;
  PermissionOWASPCRSRead; PermissionOWASPCRSWrite; PermissionPoliciesRead;
  PermissionPoliciesWrite; PermissionAccessRead; PermissionAccessWrite; PermissionRateLimitsRead;
  PermissionRateLimitsWrite; PermissionRevisionsRead; PermissionRevisionsWrite;
  PermissionRequestsRead; PermissionReportsRead; PermissionEventsRead; PermissionBansRead;
  PermissionActivityRead; PermissionAdministrationRead].
Definition viewerPermissions : list string := commonSelf +++ readOnlyOps.

Definition DefaultRoleDefinitions : list RoleDefinition :=
  [MkRoleDefinition "admin" "Administrator" (SortedPermissions adminPermissions);
   MkRoleDefinition "auditor" "Auditor" (SortedPermissions auditorPermissions);
   MkRoleDefinition "manager" "Manager" (SortedPermissions managerPermissions);
   MkRoleDefinition "soc" "SOC" (SortedPermissions socPermissions);
   MkRoleDefinition "operator" "Operator" (SortedPermissions operatorPermissions);
   MkRoleDefinition "viewer" "Viewer" (SortedPermissions viewerPermissions)].

Definition NormalizeRoleID (value : string) : string := normalize_id value.

(** ** Roles *)
Record Role := MkRole {
  role_ID : string;
  role_Name : string;
  role_Permissions : list string;
  role_CreatedAt : string;
  role_UpdatedAt : string
}.

Record state := MkState { RoleList : list Role }.

Definition sortRoles (items : list Role) : list Role := sort_on role_ID items.

Definition roles_config : doc_config state :=
  DocConfig "roles store" (MkState []) (fun s => MkState (sortRoles (RoleList s))).

Definition normalizeRole (role : Role) : result Role :=
  let id := NormalizeRoleID (role_ID role) in
  let name := trim_space (role_Name role) in
  if is_empty id then Err "role id is required"
  else
    let name := if is_empty name then id else name in
    let permissions := SortedPermissions (role_Permissions role) in
    match List.find (fun p => negb (IsKnownPermission p)) permissions with
    | Some permission => Err ("unknown permission " ++ permission)
    | None =>
        let permissions := if String.eqb id "admin" then SortedPermissions AllPermissions else permissions in
        Ok (MkRole id name permissions (role_CreatedAt role) (role_UpdatedAt role))
    end.

Definition mergePermissions (current required : list string) : list string :=
  let merged := foldl (fun out p => if IsKnownPermission p then add_new out p else out) [] current in
  let merged := foldl add_new merged required in
  SortedPermissions merged.

Definition equalPermissions (left right : list string) : bool := bool_decide (left = right).

Definition find_role (id : string) (l : list Role) : option (nat * Role) := find_key role_ID id l.

Definition Get (id : string) : sop state (option Role) :=
  query roles_config (fun _ current => Ok (snd <$> find_role (NormalizeRoleID id) (RoleList current))).

Definition List : sop state (list Role) :=
  query roles_config (fun _ current => Ok (sortRoles (RoleList current))).

Definition createTx (role : Role) (now0 : Z) (current : state) : result (state * Role) :=
  role ← normalizeRole role;
  match find_role (role_ID role) (RoleList current) with
  | Some _ => Err ("role " ++ role_ID role ++ " already exists")
  | None =>
      let stamp := format_rfc3339 now0 in
      let role := MkRole (role_ID role) (role_Name role) (role_Permissions role) stamp stamp in
      Ok (MkState (sortRoles (RoleList current +++ [role])), role)
  end.

Definition Create (role : Role) : sop state Role := transact roles_config (createTx role).

Definition updateTx (role : Role) (now0 : Z) (current : state) : result (state * Role) :=
  role ← normalizeRole role;
  match find_role (role_ID role) (RoleList current) with
  | None => Err ("role " ++ role_ID role ++ " not found")
  | Some (i, old) =>
      let role := MkRole (role_ID role) (role_Name role) (role_Permissions role) (role_CreatedAt old)
                    (format_rfc3339 now0) in
      Ok (MkState (sortRoles (<[i := role]> (RoleList current))), role)
  end.

Definition Update (role : Role) : sop state Role := transact roles_config (updateTx role).

Definition deleteTx (id : string) (_ : Z) (current : state) : result (state * unit) :=
  let normalizedID := NormalizeRoleID id in
  match find_role normalizedID (RoleList current) with
  | None => Err ("role " ++ normalizedID ++ " not found")
  | Some (i, _) => Ok (MkState (delete i (RoleList current)), tt)
  end.

Definition Delete (id : string) : sop state unit := transact roles_config (deleteTx id).

(** *** Seeding *)

(** One turn of the loop of [seedDefaults]; the state is the roles and [updated]. *)
Definition seedRole (stamp : string) (st : list Role * bool) (definition : RoleDefinition) : list Role * bool :=
  match find_role (def_ID definition) st.1 with
  | Some (i, role) =>
      let merged := mergePermissions (role_Permissions role) (def_Permissions definition) in
      if negb (String.eqb (role_Name role) (def_Name definition)) ||
         negb (equalPermissions (role_Permissions role) merged)
      then (<[i := MkRole (role_ID role) (def_Name definition) merged (role_CreatedAt role) stamp]> st.1, true)
      else st
  | None =>
      (st.1 +++ [MkRole (def_ID definition) (def_Name definition)
                   (SortedPermissions (def_Permissions definition)) stamp stamp], true)
  end.

Definition seedRoles (stamp : string) (roles : list Role) : list Role * bool :=
  foldl (seedRole stamp) (roles, false) DefaultRoleDefinitions.

Definition seedDefaults : sop state unit := fun e s =>
  (current ← load_locked roles_config;
   let seeded := seedRoles (format_rfc3339 (now e)) (RoleList current) in
   if negb seeded.2 then mret tt
   else save_locked roles_config (MkState (sortRoles seeded.1))) e s.

(** *** Permissions of a session *)

(** The map of [PermissionsForRoleIDs]; a later role replaces an earlier one of the same ID. *)
Definition byID (roles : list Role) : gmap string Role :=
  foldl (fun m role => <[role_ID role := role]> m) ∅ roles.

Definition rolePermissions (roles : gmap string Role) (set : gset string) (roleID : string) : gset string :=
  let normalizedID := NormalizeRoleID roleID in
  match roles !! normalizedID with
  | None => if String.eqb normalizedID "admin" then list_to_set AllPermissions ∪ set else set
  | Some role =>
      let set := list_to_set (role_Permissions role) ∪ set in
      if String.eqb normalizedID "admin" then list_to_set AllPermissions ∪ set else set
  end.

Definition permissionSet (roles : list Role) (roleIDs : list string) : gset string :=
  foldl (rolePermissions (byID roles)) ∅ roleIDs.

(** A store that cannot be read grants nothing. *)
Definition PermissionsForRoleIDs (roleIDs : list string) : sop state (list string) := fun e s =>
  match List e s with
  | (s', Ok current) => (s', Ok (sort_on id (elements (permissionSet current roleIDs))))
  | (s', Err _) => (s', Ok [])
  end.

(** ** The policy (rbac/policy.go); [None] is a nil policy or a nil reader. *)
Definition Allowed (reader : option (list string -> sop state (list string))) (roleIDs : list string)
    (permission : string) : sop state bool :=
  match reader with
  | None => mret false
  | Some PermissionsForRoleIDs =>
      items ← PermissionsForRoleIDs roleIDs;
      mret (existsb (fun item => String.eqb item permission) items)
  end.

Definition Permissions (reader : option (list string -> sop state (list string))) (roleIDs : list string)
  : sop state (list string) :=
  match reader with
  | None => mret []
  | Some PermissionsForRoleIDs => items ← PermissionsForRoleIDs roleIDs; mret (sort_on id items)
  end.

(** Mutations as data. *)
Inductive command :=
| CSeed
| CCreate (role : Role)
| CUpdate (role : Role)
| CDelete (id : string).

Definition exec (c : command) : sop state unit :=
  match c with
  | CSeed => seedDefaults
  | CCreate r => (fun _ => tt) <$> Create r
  | CUpdate r => (fun _ => tt) <$> Update r
  | CDelete id => Delete id
  end.

(** ** Sets of permissions: proofs *)
#[local] Opaque AllPermissions.

Lemma elem_of_add_new out x p : p ∈ add_new out x <-> p ∈ out \/ p = x.
Proof.
  unfold add_new. case_decide; [naive_solver|]. rewrite elem_of_app, list_elem_of_singleton. done.
Qed.

Lemma NoDup_add_new out x : NoDup out -> NoDup (add_new out x).
Proof.
  intros Hn. unfold add_new. case_decide as Hx; [done|]. apply NoDup_app.
  split_and!; [done| |apply NoDup_singleton]. intros y Hy Hy'%list_elem_of_singleton. congruence.
Qed.

(** A loop that adds the items passing a test. *)
Lemma fold_add_new (test : string -> bool) (step : list string -> string -> list string) items out :
  (forall o x, step o x = if test x then add_new o x else o) ->
  (forall p, p ∈ foldl step out items <-> p ∈ out \/ (p ∈ items /\ test p = true)) /\
  (NoDup out -> NoDup (foldl step out items)).
Proof.
  intros Hstep. revert out. induction items as [|x items IH]; intros out; cbn [foldl].
  - split; [|done]. intros p. split; [by left|]. by intros [?|[[]%not_elem_of_nil _]].
  - destruct (IH (step out x)) as [H1 H2]. rewrite Hstep in *. split.
    + intros p. rewrite H1, elem_of_cons. destruct (test x) eqn:Ht; [rewrite elem_of_add_new|].
      * split; [intros [[?| ->]|[? ?]]; auto | intros [?|[[-> |?] ?]]; auto].
      * split; [intros [?|[? ?]]; auto | intros [?|[[-> |?] ?]]; auto; congruence].
    + intros Hn. apply H2. destruct (test x); [by apply NoDup_add_new | done].
Qed.

Lemma SortedPermissions_spec items :
  (forall p, p ∈ SortedPermissions items <-> p ∈ items /\ p <> "") /\
  NoDup (SortedPermissions items) /\ sorted_on id (SortedPermissions items).
Proof.
  unfold SortedPermissions.
  destruct (fold_add_new (fun p => negb (is_empty p)) (fun out item => if is_empty item then out else add_new out item)
    items []) as [H1 H2]; [intros o x; by destruct (is_empty x)|].
  split_and!.
  - intros p. rewrite elem_of_sort_on, H1, negb_true_iff, is_empty_false. split; [|auto].
    by intros [[]%not_elem_of_nil|].
  - rewrite sort_on_perm. apply H2. constructor.
  - apply sort_on_sorted.
Qed.

Lemma mergePermissions_spec current required :
  (forall p, p ∈ mergePermissions current required <->
     ((p ∈ current /\ IsKnownPermission p = true) \/ p ∈ required) /\ p <> "") /\
  NoDup (mergePermissions current required) /\ sorted_on id (mergePermissions current required).
Proof.
  unfold mergePermissions. cbn zeta.
  destruct (fold_add_new IsKnownPermission (fun out p => if IsKnownPermission p then add_new out p else out)
    current []) as [H1 _]; [done|].
  destruct (fold_add_new (fun _ => true) add_new required (foldl (fun out p => if IsKnownPermission p then add_new out p else out) [] current))
    as [H2 _]; [done|].
  destruct (SortedPermissions_spec (foldl add_new (foldl (fun out p => if IsKnownPermission p then add_new out p else out) [] current) required))
    as (H3 & H4 & H5).
  split_and!; [|done|done]. intros p. rewrite H3, H2, H1. split.
  - intros [[[[]%not_elem_of_nil|?]|[? _]] ?]; auto.
  - intros [[?|?] ?]; auto.
Qed.

Lemma IsKnownPermission_spec p : IsKnownPermission p = true <-> p ∈ AllPermissions.
Proof.
  unfold IsKnownPermission. rewrite existsb_exists. setoid_rewrite <- list_elem_of_In. split.
  - by intros (x & Hx & ->%String.eqb_eq).
  - intros Hp. exists p. by rewrite String.eqb_refl.
Qed.

Lemma known_not_empty p : IsKnownPermission p = true -> p <> "".
Proof. by intros H ->. Qed.

(** ** Well-formed documents *)
Record role_ok (r : Role) : Prop := {
  role_ok_id : NormalizeRoleID (role_ID r) = role_ID r /\ role_ID r <> "";
  role_ok_known : Forall (fun p => IsKnownPermission p = true) (role_Permissions r);
  role_ok_set : NoDup (role_Permissions r) /\ sorted_on id (role_Permissions r);
  role_ok_admin : role_ID r = "admin" -> AllPermissions ⊆ role_Permissions r
}.

Record wf (d : state) : Prop := {
  wf_ids : NoDup (role_ID <$> RoleList d);
  wf_roles : Forall role_ok (RoleList d);
  wf_sorted : sorted_on role_ID (RoleList d)
}.

Lemma role_wf_sort l : NoDup (role_ID <$> l) -> Forall role_ok l -> wf (MkState (sortRoles l)).
Proof.
  intros Hn Hv. split; simpl; unfold sortRoles;
    [by rewrite NoDup_fmap_sort_on | by rewrite Forall_sort_on | apply sort_on_sorted].
Qed.

#[export] Instance roles_wf_inv : DocInv roles_config wf.
Proof. split; [split; constructor|]. intros [l] [Hn Hv _]. by apply role_wf_sort. Qed.

Lemma normalizeRole_ok role r :
  normalizeRole role = Ok r -> role_ok r.
Proof.
  unfold normalizeRole. cbn zeta. destruct (is_empty (NormalizeRoleID (role_ID role))) eqn:He; [done|].
  destruct (List.find _ _) eqn:Hf; [done|]. intros [= <-].
  pose proof (List.find_none _ _ Hf) as Hk.
  destruct (SortedPermissions_spec (role_Permissions role)) as (_ & Hn & Hs).
  destruct (SortedPermissions_spec AllPermissions) as (Ha & Hna & Hsa).
  split; cbn [role_ID role_Permissions].
  - split; [apply normalize_id_idem | by apply is_empty_false].
  - apply Forall_forall. intros p. destruct (String.eqb _ "admin").
    + intros [Hp _]%Ha. by apply IsKnownPermission_spec.
    + intros Hp%list_elem_of_In. apply Hk in Hp. by apply negb_false_iff.
  - by destruct (String.eqb _ "admin").
  - intros Hadmin. rewrite Hadmin, String.eqb_refl. intros p Hp. apply Ha. split; [done|].
    apply known_not_empty. by apply IsKnownPermission_spec.
Qed.

Lemma role_ok_stamped r c u : role_ok r -> role_ok (MkRole (role_ID r) (role_Name r) (role_Permissions r) c u).
Proof. by intros []. Qed.

Lemma createTx_role_wf role t d d' r : wf d -> createTx role t d = Ok (d', r) -> wf d'.
Proof.
  intros [Hn Hv Hs] (x & Hx & H)%result_bind_ok. destruct (find_role _ _) as [[i y]|] eqn:Hf; [done|].
  injection H as <- _. apply find_key_None in Hf. apply role_wf_sort; [by apply NoDup_key_snoc|].
  apply Forall_app. split; [done|]. constructor; [|constructor].
  by apply role_ok_stamped, (normalizeRole_ok role).
Qed.

Lemma insert_role_wf l i old r :
  NoDup (role_ID <$> l) -> Forall role_ok l -> l !! i = Some old -> role_ID r = role_ID old -> role_ok r ->
  NoDup (role_ID <$> <[i := r]> l) /\ Forall role_ok (<[i := r]> l).
Proof.
  intros Hn Hv Hi Hid Hr. split; [by rewrite (fmap_key_insert role_ID _ _ old) | by apply Forall_insert_list].
Qed.

Lemma updateTx_role_wf role t d d' r : wf d -> updateTx role t d = Ok (d', r) -> wf d'.
Proof.
  intros [Hn Hv Hs] (x & Hx & H)%result_bind_ok. destruct (find_role _ _) as [[i old]|] eqn:Hf; [|done].
  injection H as <- _. apply find_key_Some in Hf as [Hi Hid].
  destruct (insert_role_wf (RoleList d) i old (MkRole (role_ID x) (role_Name x) (role_Permissions x)
    (role_CreatedAt old) (format_rfc3339 t))) as [H1 H2]; [done|done|done|done| |by apply role_wf_sort].
  by apply role_ok_stamped, (normalizeRole_ok role).
Qed.

Lemma deleteTx_role_wf i t d d' u : wf d -> deleteTx i t d = Ok (d', u) -> wf d'.
Proof.
  intros [Hn Hv Hs]. unfold deleteTx. cbn zeta. destruct (find_role _ _) as [[j x]|]; [|done]. intros [= <- _].
  split; simpl; [by apply NoDup_key_delete | by apply Forall_delete |].
  by apply sorted_on_delete.
Qed.

(** ** Seeding: proofs *)
Record def_ok (def : RoleDefinition) : Prop := {
  def_ok_id : NormalizeRoleID (def_ID def) = def_ID def /\ def_ID def <> "";
  def_ok_known : Forall (fun p => IsKnownPermission p = true) (def_Permissions def);
  def_ok_admin : def_ID def = "admin" -> AllPermissions ⊆ def_Permissions def
}.

Definition def_check (def : RoleDefinition) : bool :=
  String.eqb (NormalizeRoleID (def_ID def)) (def_ID def) && negb (is_empty (def_ID def)) &&
  forallb IsKnownPermission (def_Permissions def) &&
  (negb (String.eqb (def_ID def) "admin") ||
   forallb (fun p => bool_decide (p ∈ def_Permissions def)) AllPermissions).

Lemma defaults_checked :
  forallb def_check DefaultRoleDefinitions = true /\
  bool_decide (NoDup (def_ID <$> DefaultRoleDefinitions)) = true.
Proof. split; vm_compute; reflexivity. Qed.

Lemma forallb_all {A} (p : A -> bool) l : forallb p l = true <-> forall x, x ∈ l -> p x = true.
Proof. rewrite forallb_forall. by setoid_rewrite <- list_elem_of_In. Qed.

Lemma def_check_ok def : def_check def = true -> def_ok def.
Proof.
  unfold def_check. intros [[[H1 H2]%andb_true_iff H3]%andb_true_iff H4]%andb_true_iff. split.
  - split; [by apply String.eqb_eq|]. by apply is_empty_false, negb_true_iff.
  - apply Forall_forall. by apply forallb_all.
  - intros Ha. rewrite Ha in H4. cbn [negb orb] in H4. rewrite String.eqb_refl in H4. cbn [negb orb] in H4.
    rewrite forallb_all in H4. intros p Hp. apply (bool_decide_eq_true_1 _ (H4 p Hp)).
Qed.

Lemma defaults_ok : Forall def_ok DefaultRoleDefinitions /\ NoDup (def_ID <$> DefaultRoleDefinitions).
Proof.
  destruct defaults_checked as [H1 H2]. split; [|by apply bool_decide_eq_true in H2].
  apply Forall_forall. intros def Hdef. apply def_check_ok. rewrite forallb_all in H1. by apply H1.
Qed.

Definition roles_ok (l : list Role) : Prop := NoDup (role_ID <$> l) /\ Forall role_ok l.

(** The role of a definition is there, under its name, with at least its permissions. *)
Definition has_default (def : RoleDefinition) (l : list Role) : Prop :=
  exists r, r ∈ l /\ role_ID r = def_ID def /\ role_Name r = def_Name def /\
    (forall p, p ∈ def_Permissions def -> p ∈ role_Permissions r).

Lemma merge_fixed r required :
  role_ok r -> (forall p, p ∈ required -> p ∈ role_Permissions r) ->
  mergePermissions (role_Permissions r) required = role_Permissions r.
Proof.
  intros [_ Hk [Hn Hs] _] Hreq. destruct (mergePermissions_spec (role_Permissions r) required) as (H1 & H2 & H3).
  apply sorted_set_eq; try done. rewrite Forall_forall in Hk. intros p. rewrite H1. split.
  - intros [[[? _]|?] _]; auto.
  - intros Hp. split; [left; auto|]. apply known_not_empty. auto.
Qed.

Lemma merge_role_ok r def name u :
  role_ok r -> def_ok def -> role_ID r = def_ID def ->
  role_ok (MkRole (role_ID r) name (mergePermissions (role_Permissions r) (def_Permissions def)) (role_CreatedAt r) u) /\
  (forall p, p ∈ def_Permissions def -> p ∈ mergePermissions (role_Permissions r) (def_Permissions def)).
Proof.
  intros [H1 H2 H3 H4] [D1 D2 D3] Hid.
  destruct (mergePermissions_spec (role_Permissions r) (def_Permissions def)) as (M1 & M2 & M3).
  rewrite Forall_forall in H2. rewrite Forall_forall in D2.
  assert (Hsub : forall p, p ∈ def_Permissions def -> p ∈ mergePermissions (role_Permissions r) (def_Permissions def)).
  { intros p Hp. apply M1. split; [by right|]. apply known_not_empty. auto. }
  split; [|done]. split; cbn [role_ID role_Permissions]; try done.
  - apply Forall_forall. intros p [[[_ ?]|?] _]%M1; auto.
  - intros Ha p Hp. apply Hsub, D3; [congruence|done].
Qed.

Lemma fresh_role_ok def stamp :
  def_ok def -> role_ok (MkRole (def_ID def) (def_Name def) (SortedPermissions (def_Permissions def)) stamp stamp) /\
  (forall p, p ∈ def_Permissions def -> p ∈ SortedPermissions (def_Permissions def)).
Proof.
  intros [D1 D2 D3]. destruct (SortedPermissions_spec (def_Permissions def)) as (S1 & S2 & S3).
  rewrite Forall_forall in D2.
  assert (Hsub : forall p, p ∈ def_Permissions def -> p ∈ SortedPermissions (def_Permissions def)).
  { intros p Hp. apply S1. split; [done|]. apply known_not_empty. auto. }
  split; [|done]. split; cbn [role_ID role_Permissions]; try done.
  - apply Forall_forall. intros p [? _]%S1. auto.
  - intros Ha p Hp. by apply Hsub, D3.
Qed.

Lemma elem_of_insert_other (l : list Role) i (old r x : Role) :
  l !! i = Some old -> role_ID r = role_ID old -> role_ID x <> role_ID old -> x ∈ <[i := r]> l <-> x ∈ l.
Proof.
  intros Hi Hid Hx. split.
  - intros Hin. destruct (elem_of_insert_list l i old r x Hi Hin) as [->|?]; [congruence|done].
  - intros [j Hj]%list_elem_of_lookup. apply list_elem_of_lookup. exists j.
    rewrite list_lookup_insert_ne; [done|]. intros <-. congruence.
Qed.

Lemma seedRole_spec stamp (l : list Role) b def :
  roles_ok l -> def_ok def ->
  roles_ok (seedRole stamp (l, b) def).1 /\ has_default def (seedRole stamp (l, b) def).1 /\
  (forall r, role_ID r <> def_ID def -> r ∈ (seedRole stamp (l, b) def).1 <-> r ∈ l).
Proof.
  intros [Hn Hv] Hd. unfold seedRole. cbn [fst].
  destruct (find_role (def_ID def) l) as [[i old]|] eqn:Hf.
  - apply find_key_Some in Hf as [Hi Hid]. pose proof (Forall_lookup_1 _ _ _ _ Hv Hi) as Ho.
    destruct (negb _ || negb _) eqn:Hch.
    + destruct (merge_role_ok old def (def_Name def) stamp Ho Hd Hid) as [Hr Hsub].
      cbn [fst]. split; [by apply (insert_role_wf l i old)|]. split.
      * eexists. split; [eapply list_elem_of_lookup_2, list_lookup_insert_eq; by eapply lookup_lt_Some|]. done.
      * intros r Hne. apply (elem_of_insert_other l i old); [done|done|congruence].
    + apply orb_false_iff in Hch as [H1 H2]. apply negb_false_iff in H1, H2.
      apply String.eqb_eq in H1. apply bool_decide_eq_true in H2. cbn [fst]. split_and!; [by split| |intros r _; reflexivity].
      exists old. split; [by eapply list_elem_of_lookup_2|]. split_and!; [done|done|].
      rewrite H2. by apply (merge_role_ok old def "" "").
  - apply find_key_None in Hf. destruct (fresh_role_ok def stamp Hd) as [Hr Hsub]. cbn [fst].
    assert (Hs : Forall role_ok [MkRole (def_ID def) (def_Name def) (SortedPermissions (def_Permissions def)) stamp stamp])
      by (constructor; [exact Hr | constructor]).
    split; [split; [by apply NoDup_key_snoc | by apply Forall_app]|]. split.
    + eexists. split; [rewrite elem_of_app; right; by left|]. done.
    + intros r Hne. rewrite elem_of_app, list_elem_of_singleton. split; [intros [?| ->]|auto]; done.
Qed.

Lemma seedRole_fixed stamp l b def :
  roles_ok l -> has_default def l -> seedRole stamp (l, b) def = (l, b).
Proof.
  intros [Hn Hv] (r & Hr & Hid & Hname & Hsub). unfold seedRole. cbn [fst].
  destruct (find_key_unique role_ID l r Hn Hr) as [i Hi]. unfold find_role. rewrite <- Hid, Hi.
  rewrite Forall_forall in Hv. rewrite (merge_fixed r) by auto.
  rewrite Hname, String.eqb_refl. unfold equalPermissions. by rewrite bool_decide_true.
Qed.

Lemma seedRole_flag stamp st def : (seedRole stamp st def).2 = false -> seedRole stamp st def = st.
Proof.
  unfold seedRole. destruct (find_role _ _) as [[i r]|]; [|done]. by destruct (negb _ || negb _).
Qed.

Lemma seed_fold_spec stamp defs l b :
  roles_ok l -> Forall def_ok defs -> NoDup (def_ID <$> defs) ->
  roles_ok (foldl (seedRole stamp) (l, b) defs).1 /\
  Forall (fun def => has_default def (foldl (seedRole stamp) (l, b) defs).1) defs /\
  (forall r, role_ID r ∉ def_ID <$> defs -> r ∈ (foldl (seedRole stamp) (l, b) defs).1 <-> r ∈ l).
Proof.
  intros Hl Hd. revert l b Hl. induction Hd as [|def defs Hdef Hd IH]; intros l b Hl Hn; [done|].
  cbn [foldl]. rewrite fmap_cons in Hn. apply NoDup_cons in Hn as [Hnin Hn].
  destruct (seedRole_spec stamp l b def Hl Hdef) as (H1 & H2 & H3).
  destruct (seedRole stamp (l, b) def) as [l' b']. cbn [fst] in *.
  destruct (IH l' b' H1 Hn) as (I1 & I2 & I3). split_and!; [done| |].
  - constructor; [|done]. destruct H2 as (r & Hr & Hid & Hrest). exists r. split; [|done].
    apply I3; [by rewrite Hid | done].
  - intros r Hr. apply not_elem_of_cons in Hr as [Hne Hr]. rewrite I3, H3; done.
Qed.

Lemma seed_fold_fixed stamp defs l b :
  roles_ok l -> Forall (fun def => has_default def l) defs -> foldl (seedRole stamp) (l, b) defs = (l, b).
Proof.
  intros Hl Hd. induction Hd as [|def defs Hdef Hd IH]; [done|]. cbn [foldl]. by rewrite seedRole_fixed.
Qed.

Lemma seed_fold_flag stamp defs st :
  (foldl (seedRole stamp) st defs).2 = false -> foldl (seedRole stamp) st defs = st.
Proof.
  induction defs as [|def defs IH] using rev_ind; [done|]. rewrite foldl_app. cbn [foldl]. intros Hf.
  pose proof (seedRole_flag _ _ _ Hf) as E. rewrite E in *. by apply IH.
Qed.

#[local] Opaque seedRoles.

Lemma seedDefaults_cases e s s' r :
  seedDefaults e s = (s', r) ->
  (visible s' = visible s /\ (r = Ok tt -> exists d, current roles_config s = Some d /\
      (seedRoles (format_rfc3339 (now e)) (RoleList d)).2 = false)) \/
  (r = Ok tt /\ exists d, current roles_config s = Some d /\
     visible s' = Some (Decodes (MkState (sortRoles (seedRoles (format_rfc3339 (now e)) (RoleList d)).1)))).
Proof.
  unfold seedDefaults, mbind, sop_bind.
  destruct (load_locked roles_config e s) as [s1 [d|m]] eqn:E; apply load_locked_spec in E as [Hv Hc].
  2: { intros [= <- <-]. left. by split. }
  cbn zeta. destruct (seedRoles _ _).2 eqn:Hu; cbn [negb].
  - unfold save_locked, wrap_error, Save. destruct (write_fault e); intros [= <- <-].
    + left. by split.
    + right. split; [done|]. exists d. by split.
  - intros [= <- <-]. left. split; [done|]. intros _. by exists d.
Qed.

#[local] Transparent seedRoles.

Lemma seedRoles_ok stamp l :
  roles_ok l -> roles_ok (seedRoles stamp l).1 /\
  Forall (fun def => has_default def (seedRoles stamp l).1) DefaultRoleDefinitions /\
  (forall r, role_ID r ∉ def_ID <$> DefaultRoleDefinitions -> r ∈ (seedRoles stamp l).1 <-> r ∈ l).
Proof. destruct defaults_ok as [H1 H2]. intros Hl. by apply seed_fold_spec. Qed.

Lemma roles_exec_wf c : preserves wf (exec c).
Proof.
  destruct c as [|r|r|i]; cbn [exec].
  - intros e s Hs. destruct (seedDefaults e s) as [s' r] eqn:E. cbn [fst].
    apply seedDefaults_cases in E as [[Hv _]|(_ & d & Hc & Hv)]; [by eapply holds_visible|].
    intros d' Hd'. rewrite Hv in Hd'. assert (d' = MkState (sortRoles (seedRoles (format_rfc3339 (now e)) (RoleList d)).1)) as -> by congruence.
    destruct (holds_current roles_config wf s d Hs Hc) as [Hn Ho _].
    destruct (seedRoles_ok (format_rfc3339 (now e)) (RoleList d)) as ([? ?] & _); [by split|].
    by apply role_wf_sort.
  - apply fmap_preserves, (transact_preserves roles_config wf). intros t d d' x. apply createTx_role_wf.
  - apply fmap_preserves, (transact_preserves roles_config wf). intros t d d' x. apply updateTx_role_wf.
  - apply (transact_preserves roles_config wf). intros t d d' x. apply deleteTx_role_wf.
Qed.

Lemma has_default_perm def l l' : l ≡ₚ l' -> has_default def l -> has_default def l'.
Proof. intros Hp (r & Hr & Hrest). exists r. by rewrite <- Hp. Qed.

(** ** Properties *)

(** In every reachable roles document identifiers are unique and normalised, every role holds a
    sorted set of known permissions, and the admin role holds all of them: no creation, update,
    deletion or re-seeding can strip it. *)
Theorem roles_well_formed (h : list (env * command)) (d : state) :
  visible (run_history exec h new_file_state) = Some (Decodes d) ->
  NoDup (role_ID <$> RoleList d) /\ sorted_on role_ID (RoleList d) /\ Forall role_ok (RoleList d).
Proof.
  intros Hd. destruct (history_preserves exec wf h new_file_state roles_exec_wf (holds_new_file _) d Hd)
    as [Hn Hv Hs]. by split_and!.
Qed.

(** Opening the store leaves every default role in place, under its name and with at least its
    permissions, without touching other roles; opening it again writes nothing. *)
Theorem seedDefaults_effect (e e2 : env) (s s' : json_state state) (d : state) :
  holds wf s -> current roles_config s = Some d -> seedDefaults e s = (s', Ok tt) -> no_faults e2 ->
  exists d', current roles_config s' = Some d' /\
    Forall (fun def => has_default def (RoleList d')) DefaultRoleDefinitions /\
    (forall r, role_ID r ∉ def_ID <$> DefaultRoleDefinitions -> r ∈ RoleList d' <-> r ∈ RoleList d) /\
    (seedDefaults e2 s').2 = Ok tt /\ visible (seedDefaults e2 s').1 = visible s'.
Proof.
  intros Hs Hc E He2. pose proof (holds_current roles_config wf s d Hs Hc) as [Hn Ho _].
  set (stamp := format_rfc3339 (now e)) in *.
  destruct (seedRoles_ok stamp (RoleList d)) as (Hok & Hdef & Hother); [by split|].
  assert (Hd' : exists d', current roles_config s' = Some d' /\ RoleList d' ≡ₚ (seedRoles stamp (RoleList d)).1).
  { apply seedDefaults_cases in E as [[Hv Hf]|(_ & d0 & Hc0 & Hv)].
    - destruct (Hf eq_refl) as (d0 & Hc0 & Hflag). assert (d0 = d) as -> by congruence.
      exists d. split; [unfold current in *; by rewrite Hv|].
      fold stamp in Hflag. unfold seedRoles in *. by rewrite (seed_fold_flag _ _ _ Hflag).
    - assert (d0 = d) as -> by congruence. unfold current. rewrite Hv. eexists. split; [done|].
      cbn [doc_sort roles_config RoleList]. unfold sortRoles. by rewrite !sort_on_perm. }
  destruct Hd' as (d' & Hc' & Hp).
  assert (Hdef' : Forall (fun def => has_default def (RoleList d')) DefaultRoleDefinitions).
  { eapply Forall_impl; [exact Hdef|]. intros def. by apply has_default_perm. }
  exists d'. split_and!; [done|done|intros r Hr; by rewrite Hp, Hother| |].
  all: destruct (load_locked_healthy roles_config e2 s' d' He2 Hc') as (s2 & E2 & Hv2);
    unfold seedDefaults, mbind, sop_bind; rewrite E2; cbn zeta;
    unfold seedRoles; rewrite seed_fold_fixed; [done| |done].
  all: destruct Hok as [H1 H2]; split; [by rewrite Hp | by rewrite Hp].
Qed.

(** *** Decisions *)
Lemma byID_snoc l r : byID (l +++ [r]) = <[role_ID r := r]> (byID l).
Proof. unfold byID. by rewrite foldl_app. Qed.

Lemma byID_sound l id r : byID l !! id = Some r -> r ∈ l /\ role_ID r = id.
Proof.
  induction l as [|x l IH] using rev_ind; [done|]. rewrite byID_snoc, elem_of_app, list_elem_of_singleton.
  destruct (decide (role_ID x = id)) as [<-|Hne].
  - rewrite lookup_insert_eq. intros [= ->]. auto.
  - rewrite lookup_insert_ne by done. intros [? ?]%IH. auto.
Qed.

Lemma byID_complete l r : NoDup (role_ID <$> l) -> r ∈ l -> byID l !! role_ID r = Some r.
Proof.
  induction l as [|x l IH] using rev_ind; intros Hn Hr; [by apply not_elem_of_nil in Hr|].
  rewrite fmap_app in Hn. apply NoDup_app in Hn as (Hn & Hx & _).
  rewrite byID_snoc. apply elem_of_app in Hr as [Hr|Hr%list_elem_of_singleton].
  - rewrite lookup_insert_ne; [by apply IH|]. intros E. apply (Hx (role_ID r)).
    + by apply list_elem_of_fmap_2.
    + rewrite <- E. by left.
  - subst. by rewrite lookup_insert_eq.
Qed.

(** What a role identifier grants. *)
Definition grants (l : list Role) (id permission : string) : Prop :=
  (id = "admin" /\ permission ∈ AllPermissions) \/
  exists r, r ∈ l /\ role_ID r = id /\ permission ∈ role_Permissions r.

Lemma rolePermissions_spec l set id p :
  (p ∈ rolePermissions (byID l) set id -> p ∈ set \/ grants l (NormalizeRoleID id) p) /\
  (NoDup (role_ID <$> l) -> p ∈ set \/ grants l (NormalizeRoleID id) p -> p ∈ rolePermissions (byID l) set id).
Proof.
  unfold rolePermissions, grants. cbn zeta. split.
  - destruct (byID l !! NormalizeRoleID id) as [r|] eqn:Hr;
      destruct (String.eqb_spec (NormalizeRoleID id) "admin") as [Ha|Ha];
      rewrite ?elem_of_union, ?elem_of_list_to_set; try apply byID_sound in Hr as [Hr Hid]; naive_solver.
  - intros Hn [Hp|[[Ha Hp]|(r & Hr & Hid & Hp)]].
    + destruct (byID l !! _); destruct (String.eqb _ _); set_solver.
    + rewrite Ha. cbn [String.eqb]. destruct (byID l !! _); rewrite ?String.eqb_refl; set_solver.
    + apply (byID_complete l r Hn) in Hr. rewrite Hid in Hr. rewrite Hr.
      destruct (String.eqb _ _); set_solver.
Qed.

Lemma permissionSet_spec l ids p :
  (p ∈ permissionSet l ids -> exists id, id ∈ ids /\ grants l (NormalizeRoleID id) p) /\
  (NoDup (role_ID <$> l) -> (exists id, id ∈ ids /\ grants l (NormalizeRoleID id) p) -> p ∈ permissionSet l ids).
Proof.
  unfold permissionSet. induction ids as [|id ids [IH1 IH2]] using rev_ind; cbn [foldl].
  - split; [set_solver|]. intros _ (i & []%not_elem_of_nil & _).
  - rewrite foldl_app. cbn [foldl].
    destruct (rolePermissions_spec l (foldl (rolePermissions (byID l)) ∅ ids) id p) as [H1 H2].
    setoid_rewrite elem_of_app. setoid_rewrite list_elem_of_singleton. split.
    + intros [Hp|Hp]%H1; [destruct (IH1 Hp) as (i & ? & ?)|]; eauto.
    + intros Hn (i & [Hi| ->] & Hg); apply H2; [done| |done|by right]. left. apply IH2; eauto.
Qed.

Lemma List_result e s :
  exists s' r, List e s = (s', r) /\
    match r with Ok l => exists d, current roles_config s = Some d /\ l = sortRoles (RoleList d) | Err _ => True end /\
    (no_faults e -> forall d, current roles_config s = Some d -> r = Ok (sortRoles (RoleList d))).
Proof.
  destruct (List e s) as [s' r] eqn:E. exists s', r. split; [done|]. split.
  - destruct r as [l|]; [|done]. apply query_ok in E as (d & Hc & [= <-]). eauto.
  - intros He d Hc. pose proof (query_healthy roles_config (fun _ current => Ok (sortRoles (RoleList current))) e s d He Hc) as Hq.
    unfold List in E. rewrite E in Hq. exact Hq.
Qed.


Definition seeded_store : json_state state := run_history exec [(healthy 5, CSeed)] new_file_state.
Definition sample_role : Role := MkRole " Support" "" ["sites.read"; "events.read"; "sites.read"] "" "".

Lemma sample_roles_reached :
  exists d, visible (run_history exec
      [(healthy 5, CSeed); (healthy 6, CCreate sample_role); (healthy 7, CDelete "viewer")] new_file_state)
    = Some (Decodes d) /\
    (role_ID <$> RoleList d) = ["admin"; "auditor"; "manager"; "operator"; "soc"; "support"].
Proof. eexists. split; vm_compute; reflexivity. Qed.

Lemma roles_well_formed_witness :
  exists d, (role_ID <$> RoleList d) = ["admin"; "auditor"; "manager"; "operator"; "soc"; "support"] /\
    Forall role_ok (RoleList d).
Proof.
  destruct sample_roles_reached as (d & Hv & Hids). exists d. split; [exact Hids|].
  exact (proj2 (proj2 (roles_well_formed _ d Hv))).
Defined.

Lemma seeded_reached : exists d, current roles_config seeded_store = Some d.
Proof. eexists. vm_compute. reflexivity. Qed.

Lemma seeded_wf : holds wf seeded_store.
Proof. exact (history_preserves exec wf _ _ roles_exec_wf (holds_new_file _)). Qed.

Lemma seeded_again : exists s', seedDefaults (healthy 9) seeded_store = (s', Ok tt).
Proof. eexists. vm_compute. reflexivity. Qed.

Lemma seedDefaults_effect_witness :
  exists s', seedDefaults (healthy 9) seeded_store = (s', Ok tt) /\
    (seedDefaults (healthy 10) s').2 = Ok tt.
Proof.
  destruct seeded_reached as [d Hc]. destruct seeded_again as [s' E]. exists s'. split; [exact E|].
  destruct (seedDefaults_effect (healthy 9) (healthy 10) seeded_store s' d seeded_wf Hc E eq_refl)
    as (d' & _ & _ & _ & H & _).
  exact H.
Defined.

