(* ===== verification/Enterprise.v ===== *)
(** * Enterprise settings (control-plane/internal/enterprise)

    One JSON document holds the OIDC and SCIM settings, the approval policy and the evidence
    signing keys.  A missing document reads as freshly generated defaults, so every operation
    takes the keys [ed25519.GenerateKey] would draw as the argument [fresh]; tokens and their
    identifiers are arguments as well.  Parsing a PEM block and the ed25519 signature are the
    class [EvidenceCrypto]. *)
From Stdlib Require Import ZArith Lia Ascii String.
From stdpp Require Import base tactics strings list.
From S2P Require Import Prelude GoTime GoHash GoText GoCodec DocStore.
Local Set Warnings "-clear-no-such-hyp".
Local Open Scope string_scope.
Local Open Scope Z_scope.
Local Notation "a +++ b" := (@app _ a b) (at level 60, right associativity).

Record RoleMapping := MkRoleMapping { map_ExternalGroup : string; map_RoleIDs : list string }.

Record OIDCSettings := MkOIDC {
  oidc_Enabled : bool;
  oidc_DisplayName : string;
  oidc_IssuerURL : string;
  oidc_ClientID : string;
  oidc_ClientSecret : string;
  oidc_RedirectURL : string;
  oidc_Scopes : list string;
  oidc_UsernameClaim : string;
  oidc_EmailClaim : string;
  oidc_FullNameClaim : string;
  oidc_GroupsClaim : string;
  oidc_AllowedEmailDomains : list string;
  oidc_DefaultRoleIDs : list string;
  oidc_GroupRoleMappings : list RoleMapping;
  oidc_AutoProvision : bool;
  oidc_RequireVerifiedEmail : bool
}.

Record ApprovalPolicy := MkApprovalPolicy {
  pol_Enabled : bool;
  pol_RequiredApprovals : Z;
  pol_AllowSelfApproval : bool;
  pol_ReviewerRoleIDs : list string
}.

Record SCIMToken := MkSCIMToken {
  tok_ID : string;
  tok_DisplayName : string;
  tok_Prefix : string;
  tok_SecretHash : string;
  tok_CreatedAt : string;
  tok_LastUsedAt : string;
  tok_Disabled : bool
}.

Record SCIMSettings := MkSCIM {
  scim_Enabled : bool;
  scim_DefaultRoleIDs : list string;
  scim_GroupRoleMappings : list RoleMapping;
  scim_Tokens : list SCIMToken
}.

Record EvidenceSettings := MkEvidence {
  ev_KeyID : string;
  ev_PublicKeyPEM : string;
  ev_PrivateKeyPEM : string
}.

Record Settings := MkSettings {
  OIDC : OIDCSettings;
  Approvals : ApprovalPolicy;
  SCIM : SCIMSettings;
  Evidence : EvidenceSettings
}.

Record state := MkState { st_Settings : Settings }.

(** The views sent to clients: no client secret, no token hash, no private key. *)
Record OIDCView := MkOIDCView {
  ov_Enabled : bool;
  ov_DisplayName : string;
  ov_IssuerURL : string;
  ov_ClientID : string;
  ov_RedirectURL : string;
  ov_Scopes : list string;
  ov_UsernameClaim : string;
  ov_EmailClaim : string;
  ov_FullNameClaim : string;
  ov_GroupsClaim : string;
  ov_AllowedEmailDomains : list string;
  ov_DefaultRoleIDs : list string;
  ov_GroupRoleMappings : list RoleMapping;
  ov_AutoProvision : bool;
  ov_RequireVerifiedEmail : bool;
  ov_HasClientSecret : bool
}.

Record SCIMTokenView := MkSCIMTokenView {
  tv_ID : string;
  tv_DisplayName : string;
  tv_Prefix : string;
  tv_CreatedAt : string;
  tv_LastUsedAt : string;
  tv_Disabled : bool
}.

Record SettingsView := MkSettingsView {
  sv_OIDC : OIDCView;
  sv_Approvals : ApprovalPolicy;
  sv_SCIM_Enabled : bool;
  sv_SCIM_DefaultRoleIDs : list string;
  sv_SCIM_GroupRoleMappings : list RoleMapping;
  sv_SCIM_Tokens : list SCIMTokenView;
  sv_Evidence_KeyID : string;
  sv_Evidence_PublicKeyPEM : string
}.

Record CreateSCIMTokenResult := MkTokenResult {
  tr_ID : string;
  tr_DisplayName : string;
  tr_Token : string;
  tr_Prefix : string;
  tr_CreatedAt : string
}.

(** ** Normalisation *)
Definition normalizeDisplayName (value : string) : string := trim_space value.

Fixpoint firstNonEmpty (values : list string) : string :=
  match values with
  | [] => ""
  | value :: rest =>
      let trimmed := trim_space value in
      if negb (is_empty trimmed) then trimmed else firstNonEmpty rest
  end.

Definition max (left right : Z) : Z := if right <? left then left else right.

Definition normalizeStringList (items : list string) : list string := sorted_set trim_space items.

Definition normalizeRoleIDs (items : list string) : list string := sorted_set normalize_id items.

Definition normalizeScopes (items defaults : list string) : list string :=
  let values := normalizeStringList items in
  if Nat.eqb (length values) 0 then defaults else values.

Definition normalizeRoleMapping (item : RoleMapping) : option RoleMapping :=
  let externalGroup := trim_space (map_ExternalGroup item) in
  let roleIDs := normalizeRoleIDs (map_RoleIDs item) in
  if is_empty externalGroup || Nat.eqb (length roleIDs) 0 then None
  else Some (MkRoleMapping externalGroup roleIDs).

Definition normalizeRoleMappings (items : list RoleMapping) : list RoleMapping :=
  sort_on map_ExternalGroup (omap normalizeRoleMapping items).

Definition defaultOIDC : OIDCSettings :=
  MkOIDC false "Enterprise SSO" "" "" "" "" ["openid"; "profile"; "email"; "groups"]
    "preferred_username" "email" "name" "groups" [] [] [] true true.

Definition defaultApprovals : ApprovalPolicy := MkApprovalPolicy false 1 false ["admin"; "manager"].

(** [fresh] holds the generated key pair in PEM and the random key identifier. *)
Definition defaultSettings (fresh : EvidenceSettings) : Settings :=
  MkSettings defaultOIDC defaultApprovals (MkSCIM false [] [] []) fresh.

Definition normalizeOIDC (settings defaults : OIDCSettings) : OIDCSettings :=
  MkOIDC (oidc_Enabled settings)
    (firstNonEmpty [oidc_DisplayName settings; oidc_DisplayName defaults])
    (trim_space (oidc_IssuerURL settings))
    (trim_space (oidc_ClientID settings))
    (firstNonEmpty [trim_space (oidc_ClientSecret settings); oidc_ClientSecret defaults])
    (trim_space (oidc_RedirectURL settings))
    (normalizeScopes (oidc_Scopes settings) (oidc_Scopes defaults))
    (firstNonEmpty [oidc_UsernameClaim settings; oidc_UsernameClaim defaults])
    (firstNonEmpty [oidc_EmailClaim settings; oidc_EmailClaim defaults])
    (firstNonEmpty [oidc_FullNameClaim settings; oidc_FullNameClaim defaults])
    (firstNonEmpty [oidc_GroupsClaim settings; oidc_GroupsClaim defaults])
    (normalizeStringList (oidc_AllowedEmailDomains settings))
    (normalizeRoleIDs (oidc_DefaultRoleIDs settings))
    (normalizeRoleMappings (oidc_GroupRoleMappings settings))
    (oidc_AutoProvision settings)
    (oidc_RequireVerifiedEmail settings).

Definition normalizeApprovals (settings defaults : ApprovalPolicy) : ApprovalPolicy :=
  let reviewers := normalizeRoleIDs (pol_ReviewerRoleIDs settings) in
  MkApprovalPolicy (pol_Enabled settings) (max 1 (pol_RequiredApprovals settings))
    (pol_AllowSelfApproval settings)
    (if Nat.eqb (length reviewers) 0 then pol_ReviewerRoleIDs defaults else reviewers).

Definition normalizeToken (token : SCIMToken) : SCIMToken :=
  MkSCIMToken (trim_space (tok_ID token)) (normalizeDisplayName (tok_DisplayName token))
    (trim_space (tok_Prefix token)) (trim_space (tok_SecretHash token))
    (trim_space (tok_CreatedAt token)) (trim_space (tok_LastUsedAt token)) (tok_Disabled token).

Definition normalizeSCIM (settings : SCIMSettings) : SCIMSettings :=
  MkSCIM (scim_Enabled settings) (normalizeRoleIDs (scim_DefaultRoleIDs settings))
    (normalizeRoleMappings (scim_GroupRoleMappings settings)) (normalizeToken <$> scim_Tokens settings).

Definition normalizeEvidence (settings defaults : EvidenceSettings) : EvidenceSettings :=
  MkEvidence (firstNonEmpty [ev_KeyID settings; ev_KeyID defaults])
    (firstNonEmpty [ev_PublicKeyPEM settings; ev_PublicKeyPEM defaults])
    (firstNonEmpty [ev_PrivateKeyPEM settings; ev_PrivateKeyPEM defaults]).

Definition normalizeSettings (settings defaults : Settings) : Settings :=
  MkSettings (normalizeOIDC (OIDC settings) (OIDC defaults))
    (normalizeApprovals (Approvals settings) (Approvals defaults))
    (normalizeSCIM (SCIM settings))
    (normalizeEvidence (Evidence settings) (Evidence defaults)).

(** ** Keys and tokens *)

(** [pem.Decode] up to the bytes of the first block, and [ed25519.Sign]. *)
Class EvidenceCrypto := {
  pem_block : string -> option string;
  ed25519_sign : string -> string -> string
}.

Definition ed25519_PrivateKeySize : Z := 64.

Definition decodePrivateKey `{EvidenceCrypto} (value : string) : result string :=
  match pem_block (trim_space value) with
  | None => Err "invalid evidence private key"
  | Some bytes =>
      if negb (Z.of_nat (String.length bytes) =? ed25519_PrivateKeySize)
      then Err "unsupported evidence private key" else Ok bytes
  end.

Definition validateSettings `{EvidenceCrypto} (settings : Settings) : result unit :=
  let oidc := OIDC settings in
  let evidence := Evidence settings in
  (if oidc_Enabled oidc then
     reject_if (is_empty (oidc_IssuerURL oidc)) "oidc issuer_url is required when oidc is enabled";;
     reject_if (is_empty (oidc_ClientID oidc)) "oidc client_id is required when oidc is enabled";;
     reject_if (is_empty (oidc_ClientSecret oidc)) "oidc client_secret is required when oidc is enabled";;
     reject_if (is_empty (oidc_RedirectURL oidc)) "oidc redirect_url is required when oidc is enabled"
   else Ok tt);;
  reject_if (is_empty (ev_KeyID evidence) || is_empty (ev_PublicKeyPEM evidence) ||
             is_empty (ev_PrivateKeyPEM evidence)) "evidence signing keys are required";;
  _ ← decodePrivateKey (ev_PrivateKeyPEM evidence);
  Ok tt.

Definition hashToken (value : string) : string := sha256_hex (trim_space value).

(** The token for 32 random bytes, its prefix and its hash. *)
Definition newSCIMToken (random : string) : result (string * string * string) :=
  let value := "scim_" ++ to_lower (base64 true false random) in
  if is_blank value then Err "failed to create scim token"
  else
    let prefix := if (12 <? Z.of_nat (String.length value)) then String.substring 0 12 value else value in
    Ok (value, prefix, hashToken value).

Definition settingsToView (settings : Settings) : SettingsView :=
  let oidc := OIDC settings in
  let scim := SCIM settings in
  MkSettingsView
    (MkOIDCView (oidc_Enabled oidc) (oidc_DisplayName oidc) (oidc_IssuerURL oidc) (oidc_ClientID oidc)
       (oidc_RedirectURL oidc) (oidc_Scopes oidc) (oidc_UsernameClaim oidc) (oidc_EmailClaim oidc)
       (oidc_FullNameClaim oidc) (oidc_GroupsClaim oidc) (oidc_AllowedEmailDomains oidc)
       (oidc_DefaultRoleIDs oidc) (oidc_GroupRoleMappings oidc) (oidc_AutoProvision oidc)
       (oidc_RequireVerifiedEmail oidc) (negb (is_blank (oidc_ClientSecret oidc))))
    (Approvals settings)
    (scim_Enabled scim) (scim_DefaultRoleIDs scim) (scim_GroupRoleMappings scim)
    ((fun token => MkSCIMTokenView (tok_ID token) (tok_DisplayName token) (tok_Prefix token)
        (tok_CreatedAt token) (tok_LastUsedAt token) (tok_Disabled token)) <$> scim_Tokens scim)
    (ev_KeyID (Evidence settings)) (ev_PublicKeyPEM (Evidence settings)).

(** ** The store *)
Definition enterprise_config (fresh : EvidenceSettings) : doc_config state :=
  DocConfig "enterprise store" (MkState (defaultSettings fresh))
    (fun s => MkState (normalizeSettings (st_Settings s) (defaultSettings fresh))).

Definition set_Tokens (tokens : list SCIMToken) (current : state) : state :=
  let settings := st_Settings current in
  let scim := SCIM settings in
  MkState (MkSettings (OIDC settings) (Approvals settings)
    (MkSCIM (scim_Enabled scim) (scim_DefaultRoleIDs scim) (scim_GroupRoleMappings scim) tokens)
    (Evidence settings)).
Definition tokens (current : state) : list SCIMToken := scim_Tokens (SCIM (st_Settings current)).

Definition set_tok_LastUsedAt (v : string) (x : SCIMToken) : SCIMToken :=
  MkSCIMToken (tok_ID x) (tok_DisplayName x) (tok_Prefix x) (tok_SecretHash x) (tok_CreatedAt x) v
    (tok_Disabled x).

(** The descending order of [sort.Slice] on [CreatedAt]. *)
Record descending := Descending { ascending : string }.
#[export] Instance descending_eq : EqDecision descending.
Proof. solve_decision. Defined.
#[export, refine] Instance descending_order : KeyOrder descending :=
  {| klt := fun a b => klt (ascending b) (ascending a) |}.
Proof.
  - intros []. apply klt_irrefl.
  - intros [] [] [] ? ?. eapply klt_trans; eassumption.
  - intros [] [] ? ?. f_equal. by apply klt_total.
Defined.

Definition sortTokens (l : list SCIMToken) : list SCIMToken :=
  sort_on (fun t => Descending (tok_CreatedAt t)) l.

Definition updateTx `{EvidenceCrypto} (settings : Settings) (_ : Z) (current : state)
  : result (state * Settings) :=
  let settings := normalizeSettings settings (st_Settings current) in
  validateSettings settings;;
  Ok (MkState settings, settings).

Definition createTokenTx (random idBytes displayName : string) (t : Z) (current : state)
  : result (state * CreateSCIMTokenResult) :=
  '(tokenValue, prefix, tokenHash) ← newSCIMToken random;
  let name := normalizeDisplayName displayName in
  let item := MkSCIMToken ("scim-" ++ to_lower (hex_string idBytes))
                (if is_empty name then "SCIM Token" else name) prefix tokenHash (format_rfc3339_nano t) ""
                false in
  Ok (set_Tokens (sortTokens (tokens current +++ [item])) current,
      MkTokenResult (tok_ID item) (tok_DisplayName item) tokenValue (tok_Prefix item) (tok_CreatedAt item)).

Definition deleteTokenTx (id : string) (_ : Z) (current : state) : result (state * unit) :=
  let needle := trim_space id in
  let filtered := filter (fun item => tok_ID item <> needle) (tokens current) in
  if existsb (fun item => String.eqb (tok_ID item) needle) (tokens current)
  then Ok (set_Tokens filtered current, tt)
  else Err ("scim token " ++ needle ++ " not found").

(** The first enabled token with the hash. *)
Definition findToken (hash : string) (l : list SCIMToken) : option (nat * SCIMToken) :=
  find_where (fun item => negb (tok_Disabled item || negb (String.eqb (tok_SecretHash item) hash))) l.

Section Store.
Context `{EvidenceCrypto}.
Variable fresh : EvidenceSettings.

Definition Get : sop state Settings :=
  query (enterprise_config fresh) (fun _ current => Ok (st_Settings current)).

Definition View : sop state SettingsView := settingsToView <$> Get.

Definition Update (settings : Settings) : sop state Settings :=
  transact (enterprise_config fresh) (updateTx settings).

Definition CreateSCIMToken (random idBytes displayName : string) : sop state CreateSCIMTokenResult :=
  transact (enterprise_config fresh) (createTokenTx random idBytes displayName).

Definition DeleteSCIMToken (id : string) : sop state unit :=
  transact (enterprise_config fresh) (deleteTokenTx id).

Definition AuthenticateSCIMToken (raw : string) : sop state (option SCIMToken) := fun e s =>
  (current ← load_locked (enterprise_config fresh);
    match findToken (hashToken raw) (tokens current) with
    | None => mret None
    | Some (i, item) =>
      let item := set_tok_LastUsedAt (format_rfc3339_nano (now e)) item in
      save_locked (enterprise_config fresh) (set_Tokens (<[i := item]> (tokens current)) current);;
      mret (Some item)
    end) e s.

(** [content] is the JSON text of the value. *)
Definition SignJSON (content : string) : sop state (string * string) :=
  settings ← Get;
  privateKey ← lift (decodePrivateKey (ev_PrivateKeyPEM (Evidence settings)));
  mret (ev_KeyID (Evidence settings), base64 false true (ed25519_sign privateKey content)).

(** The defaults are drawn a second time. *)
Definition ensureInitialized (fresh2 : EvidenceSettings) : sop state unit :=
  transact (enterprise_config fresh) (fun _ current =>
    Ok (MkState (normalizeSettings (st_Settings current) (defaultSettings fresh2)), tt)).
End Store.

(** The mutations after the start, as data. *)
Inductive command :=
| CUpdate (settings : Settings)
| CCreateToken (random idBytes displayName : string)
| CDeleteToken (id : string)
| CAuthenticate (raw : string).

Definition exec `{EvidenceCrypto} (fresh : EvidenceSettings) (c : command) : sop state unit :=
  match c with
  | CUpdate settings => (fun _ => tt) <$> Update fresh settings
  | CCreateToken random idBytes name => (fun _ => tt) <$> CreateSCIMToken fresh random idBytes name
  | CDeleteToken id => DeleteSCIMToken fresh id
  | CAuthenticate raw => (fun _ => tt) <$> AuthenticateSCIMToken fresh raw
  end.

(** ** Normal forms *)
#[local] Arguments trim_space : simpl never.
#[local] Arguments firstNonEmpty : simpl never.
#[local] Arguments normalizeStringList : simpl never.
#[local] Arguments normalizeRoleIDs : simpl never.
#[local] Arguments normalizeRoleMappings : simpl never.
#[local] Arguments normalizeScopes : simpl never.

(** Trimmed and not empty. *)
Definition settled_word (v : string) : Prop := v <> "" /\ trim_space v = v.

Lemma firstNonEmpty_pair a b :
  firstNonEmpty [a; b] = if is_blank a then trim_space b else trim_space a.
Proof.
  unfold is_blank, firstNonEmpty. cbn zeta. destruct (is_empty (trim_space a)); [|done]. cbn [negb].
  destruct (is_empty (trim_space b)) eqn:Hb; [|done]. by apply is_empty_spec in Hb.
Qed.

Lemma settled_not_blank v : settled_word v -> is_blank v = false.
Proof. intros [Hne Ht]. unfold is_blank. rewrite Ht. by apply is_empty_false. Qed.

Lemma firstNonEmpty_settled a b : settled_word b -> settled_word (firstNonEmpty [a; b]).
Proof.
  intros [Hne Ht]. rewrite firstNonEmpty_pair. destruct (is_blank a) eqn:Ha; [by rewrite Ht|].
  split; [by apply is_empty_false | apply trim_space_idem].
Qed.

Lemma firstNonEmpty_keep a b : settled_word a -> firstNonEmpty [a; b] = a.
Proof. intros Ha. rewrite firstNonEmpty_pair, settled_not_blank by done. apply Ha. Qed.

Lemma firstNonEmpty_trimmed a b : trim_space b = b -> trim_space (firstNonEmpty [a; b]) = firstNonEmpty [a; b].
Proof. intros Hb. rewrite firstNonEmpty_pair. destruct (is_blank a); [by rewrite Hb | apply trim_space_idem]. Qed.

Lemma normalizeStringList_idem l : normalizeStringList (normalizeStringList l) = normalizeStringList l.
Proof. apply sorted_set_idem, trim_space_idem. Qed.

Lemma normalizeRoleIDs_idem l : normalizeRoleIDs (normalizeRoleIDs l) = normalizeRoleIDs l.
Proof. apply sorted_set_idem, normalize_id_idem. Qed.

Lemma omap_fixed {A} (f : A -> option A) l : Forall (fun x => f x = Some x) l -> omap f l = l.
Proof. induction 1 as [|x l Hx _ IH]; cbn [omap list_omap]; [done|]. rewrite Hx. by f_equal. Qed.

Lemma normalizeRoleMappings_idem l :
  normalizeRoleMappings (normalizeRoleMappings l) = normalizeRoleMappings l.
Proof.
  unfold normalizeRoleMappings at 1. rewrite omap_fixed; [apply sort_on_idem|].
  apply Forall_sort_on, Forall_forall. intros y (x & _ & Hx)%list_elem_of_omap.
  unfold normalizeRoleMapping in *. cbn zeta in *.
  destruct (is_empty (trim_space _) || _) eqn:E; [done|]. injection Hx as <-.
  cbn [map_ExternalGroup map_RoleIDs]. by rewrite trim_space_idem, normalizeRoleIDs_idem, E.
Qed.

Lemma normalizeToken_idem t : normalizeToken (normalizeToken t) = normalizeToken t.
Proof. unfold normalizeToken, normalizeDisplayName. cbn. by rewrite !trim_space_idem. Qed.

Record oidc_complete (o : OIDCSettings) : Prop := {
  oc_words : Forall settled_word [oidc_DisplayName o; oidc_UsernameClaim o; oidc_EmailClaim o;
                                  oidc_FullNameClaim o; oidc_GroupsClaim o];
  oc_trimmed : Forall (fun v => trim_space v = v)
    [oidc_IssuerURL o; oidc_ClientID o; oidc_ClientSecret o; oidc_RedirectURL o];
  oc_scopes : normalizeStringList (oidc_Scopes o) = oidc_Scopes o /\ oidc_Scopes o <> [];
  oc_domains : normalizeStringList (oidc_AllowedEmailDomains o) = oidc_AllowedEmailDomains o;
  oc_roles : normalizeRoleIDs (oidc_DefaultRoleIDs o) = oidc_DefaultRoleIDs o;
  oc_mappings : normalizeRoleMappings (oidc_GroupRoleMappings o) = oidc_GroupRoleMappings o
}.

Record approvals_complete (p : ApprovalPolicy) : Prop := {
  ac_required : 1 <= pol_RequiredApprovals p;
  ac_reviewers : normalizeRoleIDs (pol_ReviewerRoleIDs p) = pol_ReviewerRoleIDs p /\ pol_ReviewerRoleIDs p <> []
}.

Definition evidence_complete (e : EvidenceSettings) : Prop :=
  Forall settled_word [ev_KeyID e; ev_PublicKeyPEM e; ev_PrivateKeyPEM e].

Definition scim_complete (c : SCIMSettings) : Prop :=
  normalizeRoleIDs (scim_DefaultRoleIDs c) = scim_DefaultRoleIDs c /\
  normalizeRoleMappings (scim_GroupRoleMappings c) = scim_GroupRoleMappings c.

(** Settings that normalisation leaves alone, but for blanks around the fields of tokens. *)
Record complete (s : Settings) : Prop := {
  c_oidc : oidc_complete (OIDC s);
  c_approvals : approvals_complete (Approvals s);
  c_scim : scim_complete (SCIM s);
  c_evidence : evidence_complete (Evidence s)
}.

Lemma length_eqb_nil {A} (l : list A) : Nat.eqb (length l) 0 = true <-> l = [].
Proof. destruct l; by cbn. Qed.

Lemma normalizeScopes_complete s d :
  normalizeStringList d = d -> d <> [] ->
  normalizeStringList (normalizeScopes s d) = normalizeScopes s d /\ normalizeScopes s d <> [].
Proof.
  intros H1 H2. unfold normalizeScopes. cbn zeta. destruct (Nat.eqb _ _) eqn:E; [done|].
  split; [apply normalizeStringList_idem|]. rewrite <- length_eqb_nil. by rewrite E.
Qed.

Lemma normalizeScopes_keep s d : normalizeStringList s = s -> s <> [] -> normalizeScopes s d = s.
Proof.
  intros H1 H2. unfold normalizeScopes. cbn zeta. rewrite H1. destruct (Nat.eqb _ _) eqn:E; [|done].
  by apply length_eqb_nil in E.
Qed.

Ltac keep_words :=
  repeat match goal with
    | Hv : settled_word ?v |- context [firstNonEmpty [?v; ?d]] => rewrite (firstNonEmpty_keep v d Hv)
    end.
Ltac each := repeat (apply Forall_cons; split); [..|apply Forall_nil; done].

Lemma normalizeOIDC_complete s d :
  Forall settled_word [oidc_DisplayName d; oidc_UsernameClaim d; oidc_EmailClaim d; oidc_FullNameClaim d;
                       oidc_GroupsClaim d] ->
  trim_space (oidc_ClientSecret d) = oidc_ClientSecret d ->
  normalizeStringList (normalizeScopes (oidc_Scopes s) (oidc_Scopes d)) =
    normalizeScopes (oidc_Scopes s) (oidc_Scopes d) ->
  normalizeScopes (oidc_Scopes s) (oidc_Scopes d) <> [] ->
  oidc_complete (normalizeOIDC s d).
Proof.
  intros Hw Hs H1 H2. rewrite !Forall_cons in Hw. destruct Hw as (?&?&?&?&?&_).
  split; cbn.
  - each; by apply firstNonEmpty_settled.
  - each; first [apply trim_space_idem | by apply firstNonEmpty_trimmed].
  - done.
  - apply normalizeStringList_idem.
  - apply normalizeRoleIDs_idem.
  - apply normalizeRoleMappings_idem.
Qed.

Lemma normalizeApprovals_complete s d :
  normalizeRoleIDs (pol_ReviewerRoleIDs d) = pol_ReviewerRoleIDs d -> pol_ReviewerRoleIDs d <> [] ->
  approvals_complete (normalizeApprovals s d).
Proof.
  intros H1 H2. split; cbn.
  - unfold max. case_match eqn:E; [lia|]. apply Z.ltb_ge in E. done.
  - destruct (Nat.eqb _ _) eqn:E; [done|]. split; [apply normalizeRoleIDs_idem|].
    rewrite <- length_eqb_nil. by rewrite E.
Qed.

Lemma normalizeSCIM_complete c : scim_complete (normalizeSCIM c).
Proof. split; cbn; [apply normalizeRoleIDs_idem | apply normalizeRoleMappings_idem]. Qed.

Lemma normalizeEvidence_complete s d : evidence_complete d -> evidence_complete (normalizeEvidence s d).
Proof.
  unfold evidence_complete. intros He. rewrite !Forall_cons in He. destruct He as (?&?&?&_). cbn.
  each; by apply firstNonEmpty_settled.
Qed.

Lemma normalizeSettings_complete s d : complete d -> complete (normalizeSettings s d).
Proof.
  intros [[Hw Ht [Hs1 Hs2] _ _ _] [_ [Hr1 Hr2]] _ He]. split; cbn.
  - rewrite !Forall_cons in Ht. destruct Ht as (_&_&Hsec&_&_).
    destruct (normalizeScopes_complete (oidc_Scopes (OIDC s)) _ Hs1 Hs2).
    by apply normalizeOIDC_complete.
  - by apply normalizeApprovals_complete.
  - apply normalizeSCIM_complete.
  - by apply normalizeEvidence_complete.
Qed.

Lemma normalizeEvidence_keep e d : evidence_complete e -> normalizeEvidence e d = e.
Proof.
  unfold evidence_complete. intros He. rewrite !Forall_cons in He. destruct He as (?&?&?&_). destruct e. cbn in *.
  unfold normalizeEvidence. cbn. by keep_words.
Qed.

Definition read_tokens (d : state) : state := set_Tokens (normalizeToken <$> tokens d) d.

(** A complete document is read back as it is, whatever the defaults. *)
Lemma normalizeSettings_keep s fresh :
  complete s -> MkState (normalizeSettings s (defaultSettings fresh)) = read_tokens (MkState s).
Proof.
  intros [[Hw Ht [Hs1 Hs2] Hd Hr Hm] [Hreq [Hr1 Hr2]] [Hc1 Hc2] He]. destruct s as [o p c e]. cbn in *.
  unfold normalizeSettings, read_tokens, set_Tokens, tokens. cbn. f_equal. f_equal.
  - rewrite !Forall_cons in Hw; rewrite !Forall_cons in Ht. destruct Hw as (?&?&?&?&?&_), Ht as (T1&T2&T3&T4&_). destruct o. cbn in *.
    unfold normalizeOIDC. cbn.
    keep_words. rewrite T1, T2, T4, Hd, Hr, Hm, normalizeScopes_keep by done.
    rewrite firstNonEmpty_pair, is_blank_trim, trim_space_idem, T3. f_equal.
    destruct (is_blank _) eqn:E; [|done]. unfold is_blank in E. rewrite T3 in E. by apply is_empty_spec in E.
  - destruct p. cbn in *. unfold normalizeApprovals. cbn. rewrite Hr1. f_equal.
    + unfold max. case_match eqn:E; [|done]. apply Z.ltb_lt in E. lia.
    + destruct (Nat.eqb _ _) eqn:E; [|done]. by apply length_eqb_nil in E.
  - unfold normalizeSCIM. by rewrite Hc1, Hc2.
  - by apply normalizeEvidence_keep.
Qed.

(** ** The stored document

    [settled d s]: readers see [d], and [d] is in normal form up to the fields of its tokens, so
    that every read returns [read_tokens d] whatever defaults are drawn. *)
Record settled (d : state) (s : json_state state) : Prop := {
  settled_visible : visible s = Some (Decodes d);
  settled_complete : complete (st_Settings d)
}.

Lemma settled_current fresh d s : settled d s -> current (enterprise_config fresh) s = Some (read_tokens d).
Proof.
  intros [Hv Hc]. unfold current. rewrite Hv. cbn [doc_sort enterprise_config].
  rewrite normalizeSettings_keep by done. by destruct d.
Qed.

Lemma set_tokens_complete l d : complete (st_Settings d) -> complete (st_Settings (set_Tokens l d)).
Proof. by intros []. Qed.

Lemma settled_same d s s' : visible s' = visible s -> settled d s -> settled d s'.
Proof. intros Hv [H1 H2]. split; [by rewrite Hv | done]. Qed.

Lemma settled_transact {A} fresh (f : Z -> state -> result (state * A)) e s s' r d :
  settled d s -> transact (enterprise_config fresh) f e s = (s', r) ->
  (visible s' = visible s /\ is_ok r = false) \/
  exists d' a, r = Ok a /\ f (now e) (read_tokens d) = Ok (d', a) /\ visible s' = Some (Decodes d').
Proof.
  intros Hs. destruct r as [a|m].
  - intros (d0 & d' & Hc & Hf & Hv)%transact_ok. right.
    rewrite (settled_current _ _ _ Hs) in Hc. injection Hc as <-. eauto.
  - intros Hv%transact_err. by left.
Qed.

Lemma settled_query {A} fresh (f : Z -> state -> result A) e s s' r d :
  settled d s -> query (enterprise_config fresh) f e s = (s', r) ->
  visible s' = visible s /\ forall a, r = Ok a -> f (now e) (read_tokens d) = Ok a.
Proof.
  intros Hs E. pose proof (query_visible (enterprise_config fresh) f e s) as Hv. rewrite E in Hv.
  split; [done|]. intros a ->. apply query_ok in E as (d0 & Hc & Hf).
  rewrite (settled_current _ _ _ Hs) in Hc. by injection Hc as <-.
Qed.

(** What a mutation does to the settings it read. *)
Definition changed (c : command) (d d' : state) : Prop :=
  match c with
  | CUpdate settings => st_Settings d' = normalizeSettings settings (st_Settings d)
  | CCreateToken random idBytes name => exists item value, tok_ID item = "scim-" ++ to_lower (hex_string idBytes) /\
      tok_SecretHash item = hashToken value /\ d' = set_Tokens (sortTokens (tokens d +++ [item])) d
  | CDeleteToken id => d' = set_Tokens (filter (fun item => tok_ID item <> trim_space id) (tokens d)) d
  | CAuthenticate raw => exists i item t, findToken (hashToken raw) (tokens d) = Some (i, item) /\
      d' = set_Tokens (<[i := set_tok_LastUsedAt t item]> (tokens d)) d
  end.

Lemma newSCIMToken_hash random value prefix hash :
  newSCIMToken random = Ok (value, prefix, hash) -> hash = hashToken value.
Proof. unfold newSCIMToken. cbn zeta. destruct (is_blank _); [done|]. by intros [= <- _ <-]. Qed.

Lemma update_complete `{EvidenceCrypto} settings t d d' v :
  complete (st_Settings d) -> updateTx settings t d = Ok (d', v) ->
  complete (st_Settings d') /\ st_Settings d' = normalizeSettings settings (st_Settings d) /\ v = st_Settings d'.
Proof.
  intros Hc (u & _ & E)%result_bind_ok. injection E as <- <-. split_and!; [|done..].
  by apply normalizeSettings_complete.
Qed.

Lemma authenticate_cases fresh raw e s s' r d :
  settled d s -> AuthenticateSCIMToken fresh raw e s = (s', r) ->
  (visible s' = visible s /\ (r = Ok None -> findToken (hashToken raw) (tokens (read_tokens d)) = None) /\
     (forall x, r <> Ok (Some x))) \/
  exists i item, findToken (hashToken raw) (tokens (read_tokens d)) = Some (i, item) /\
    r = Ok (Some (set_tok_LastUsedAt (format_rfc3339_nano (now e)) item)) /\
    visible s' = Some (Decodes (set_Tokens
      (<[i := set_tok_LastUsedAt (format_rfc3339_nano (now e)) item]> (tokens (read_tokens d))) (read_tokens d))).
Proof.
  intros Hs. unfold AuthenticateSCIMToken, mbind, sop_bind.
  destruct (load_locked (enterprise_config fresh) e s) as [s1 [d0|m]] eqn:E;
    apply load_locked_spec in E as [Hv Hc]; [|intros [= <- <-]; by left].
  rewrite (settled_current _ _ _ Hs) in Hc. injection Hc as <-.
  destruct (findToken _ _) as [[i item]|] eqn:Hf; [|intros [= <- <-]; by left].
  unfold save_locked, wrap_error, Save. cbn zeta. destruct (write_fault e); intros [= <- <-].
  - by left.
  - right. eauto.
Qed.

Lemma unit_of_cases {A} (m : sop state A) e s s' r :
  ((fun _ => tt) <$> m) e s = (s', r) -> exists r0, m e s = (s', r0) /\ is_ok r = is_ok r0.
Proof. unfold fmap, sop_fmap. destruct (m e s) as [s1 [a|msg]]; intros [= <- <-]; eauto. Qed.

Lemma exec_settled `{EvidenceCrypto} fresh c e s s' r d :
  settled d s -> exec fresh c e s = (s', r) ->
  exists d', settled d' s' /\ (d' = d \/ changed c (read_tokens d) d').
Proof.
  intros Hs E. pose proof (set_tokens_complete (normalizeToken <$> tokens d) d (settled_complete _ _ Hs)) as Hread.
  assert (Hkeep : visible s' = visible s -> exists d', settled d' s' /\ (d' = d \/ changed c (read_tokens d) d')).
  { intros Hv. exists d. split; [by eapply settled_same | by left]. }
  destruct c as [st|random idb name|id|raw]; cbn [exec] in E.
  - apply unit_of_cases in E as (r0 & E & _).
    apply (settled_transact fresh _ _ _ _ _ d Hs) in E as [[? _]|(d' & v & _ & Hf & Hv)]; [by apply Hkeep|].
    apply update_complete in Hf as (Hc & Hst & _); [|done]. exists d'. split; [by split | by right].
  - apply unit_of_cases in E as (r0 & E & _).
    apply (settled_transact fresh _ _ _ _ _ d Hs) in E as [[? _]|(d' & v & _ & Hf & Hv)]; [by apply Hkeep|].
    apply result_bind_ok in Hf as ([[value prefix] hash] & Hn & Hf). injection Hf as <- _.
    exists (set_Tokens (sortTokens (tokens (read_tokens d) +++
      [MkSCIMToken ("scim-" ++ to_lower (hex_string idb))
         (if is_empty (normalizeDisplayName name) then "SCIM Token" else normalizeDisplayName name)
         prefix hash (format_rfc3339_nano (now e)) "" false])) (read_tokens d)).
    split; [by split; [|apply set_tokens_complete]|]. right. eexists _, value. split; [|split; [|done]]; [done|].
    by apply (newSCIMToken_hash random _ prefix).
  - apply (settled_transact fresh _ _ _ _ _ d Hs) in E as [[? _]|(d' & v & _ & Hf & Hv)]; [by apply Hkeep|].
    unfold deleteTokenTx in Hf. cbn zeta in Hf. destruct (existsb _ _); [|done]. injection Hf as <-.
    eexists. split; [split; [done | by apply set_tokens_complete] | by right].
  - apply unit_of_cases in E as (r0 & E & _).
    apply (authenticate_cases fresh raw _ _ _ _ d Hs) in E as [[? _]|(i & item & Hf & _ & Hv)]; [by apply Hkeep|].
    eexists. split; [split; [done | by apply set_tokens_complete]|]. right. eexists i, item, _. split; done.
Qed.

(** *** Start-up *)
Lemma default_scopes_normal : normalizeStringList (oidc_Scopes defaultOIDC) = ["email"; "groups"; "openid"; "profile"].
Proof. vm_compute. reflexivity. Qed.

Lemma normalizeScopes_settle s d :
  normalizeStringList s <> [] ->
  normalizeStringList (normalizeScopes s d) = normalizeScopes s d /\ normalizeScopes s d <> [].
Proof.
  intros Hs. unfold normalizeScopes. cbn zeta. destruct (Nat.eqb _ _) eqn:E.
  - by apply length_eqb_nil in E.
  - split; [apply normalizeStringList_idem | done].
Qed.

Lemma normalize_default_complete s fresh :
  normalizeStringList (oidc_Scopes (OIDC s)) <> [] -> evidence_complete fresh ->
  complete (normalizeSettings s (defaultSettings fresh)).
Proof.
  intros Hs He. destruct (normalizeScopes_settle _ (oidc_Scopes defaultOIDC) Hs). split; cbn.
  - apply normalizeOIDC_complete; [each; by split|done..].
  - by apply normalizeApprovals_complete.
  - apply normalizeSCIM_complete.
  - by apply normalizeEvidence_complete.
Qed.

(** Opening the store leaves a document in normal form, whatever was stored before. *)
Lemma ensureInitialized_settled fresh fresh2 e s s' :
  evidence_complete fresh2 -> ensureInitialized fresh fresh2 e s = (s', Ok tt) -> exists d, settled d s'.
Proof.
  intros He (d0 & d' & Hc & Hf & Hv)%transact_ok. injection Hf as <-. eexists. split; [done|]. cbn [st_Settings].
  apply normalize_default_complete; [|done]. unfold current in Hc.
  destruct (visible s) as [[d1|g]|]; [|done|]; injection Hc as <-; cbn [st_Settings enterprise_config doc_sort doc_zero].
  - cbn. unfold normalizeScopes. cbn zeta. destruct (Nat.eqb _ _) eqn:E.
    + change (normalizeStringList (oidc_Scopes defaultOIDC) <> []). by rewrite default_scopes_normal.
    + rewrite normalizeStringList_idem. intros Hn. by rewrite Hn in E.
  - change (normalizeStringList (oidc_Scopes defaultOIDC) <> []). by rewrite default_scopes_normal.
Qed.
