(* ===== verification/Suggestions.v ===== *)
(** * Suggested anti-DDoS rules (control-plane/internal/antiddossuggestions,
    services/antiddos_suggestions.go)

    Paths the adaptive model proposes to block, with their status, one JSON document. *)
From Stdlib Require Import ZArith Lia Ascii String.
From stdpp Require Import base tactics strings list.
From S2P Require Import Prelude GoTime GoSeq DocStore Enterprise.
Local Set Warnings "-clear-no-such-hyp".
Local Open Scope string_scope.
Local Open Scope Z_scope.
Local Notation "a +++ b" := (@app _ a b) (at level 60, right associativity).

Definition StatusSuggested : string := "suggested".
Definition StatusShadow : string := "shadow".
Definition StatusTemporary : string := "temporary".
Definition StatusPermanent : string := "permanent".
Definition statuses : list string := [StatusSuggested; StatusShadow; StatusTemporary; StatusPermanent].

Record Suggestion := MkSuggestion {
  sg_ID : string;
  sg_PathPrefix : string;
  sg_Status : string;
  sg_Hits : Z;
  sg_UniqueIPs : Z;
  sg_WouldBlock : Z;
  sg_ShadowHits : Z;
  sg_ShadowFP : Z;
  sg_ShadowRate : string;
  sg_TemporaryUntil : string;
  sg_PromotionReason : string;
  sg_Source : string;
  sg_Reason : string;
  sg_FirstSeen : string;
  sg_LastSeen : string;
  sg_CreatedAt : string;
  sg_UpdatedAt : string
}.

Record state := MkState { Items : list Suggestion }.

(** ** A suggestion (types.go) *)
Definition slash_to_dash (c : ascii) : ascii := if Ascii.eqb c "/" then "-"%char else c.
(** [strings.TrimLeft(s, "-")] *)
Fixpoint trim_dashes (s : string) : string :=
  match s with String c s' => if Ascii.eqb c "-" then trim_dashes s' else s | EmptyString => "" end.
Definition derived_id (path : string) : string := "path-" ++ trim_dashes (map_string slash_to_dash path).
Definition not_negative (n : Z) : Z := if n <? 0 then 0 else n.

Definition NormalizeSuggestion (s : Suggestion) : Suggestion :=
  let id := lower_trim (sg_ID s) in
  let path := lower_trim (sg_PathPrefix s) in
  let status := lower_trim (sg_Status s) in
  MkSuggestion (if is_empty id && negb (is_empty path) then derived_id path else id) path
    (if is_empty status then StatusSuggested else status)
    (not_negative (sg_Hits s)) (not_negative (sg_UniqueIPs s)) (not_negative (sg_WouldBlock s))
    (not_negative (sg_ShadowHits s)) (not_negative (sg_ShadowFP s)) (trim_space (sg_ShadowRate s))
    (trim_space (sg_TemporaryUntil s)) (trim_space (sg_PromotionReason s)) (trim_space (sg_Source s))
    (trim_space (sg_Reason s)) (trim_space (sg_FirstSeen s)) (trim_space (sg_LastSeen s))
    (sg_CreatedAt s) (sg_UpdatedAt s).

Definition bad_status : string := "anti-ddos rule suggestion status must be suggested, shadow, temporary, or permanent".

Definition ValidateSuggestion (s : Suggestion) : result unit :=
  reject_if (is_blank (sg_ID s)) "anti-ddos rule suggestion id is required";;
  reject_if (is_blank (sg_PathPrefix s)) "anti-ddos rule suggestion path_prefix is required";;
  reject_if (negb (has_prefix "/" (sg_PathPrefix s))) "anti-ddos rule suggestion path_prefix must start with /";;
  reject_if (negb (mem (sg_Status s) statuses)) bad_status.

(** ** The store (store.go) *)
Definition suggestion_order (s : Suggestion) : descending * string := (Descending (sg_UpdatedAt s), sg_ID s).
Definition sortSuggestions (items : list Suggestion) : list Suggestion := sort_on suggestion_order items.

Definition suggestions_config : doc_config state :=
  DocConfig "anti-ddos rule suggestions store" (MkState [])
    (fun s => MkState (sortSuggestions (NormalizeSuggestion <$> Items s))).

Definition stamped (createdAt updatedAt : string) (s : Suggestion) : Suggestion :=
  MkSuggestion (sg_ID s) (sg_PathPrefix s) (sg_Status s) (sg_Hits s) (sg_UniqueIPs s) (sg_WouldBlock s) (sg_ShadowHits s)
    (sg_ShadowFP s) (sg_ShadowRate s) (sg_TemporaryUntil s) (sg_PromotionReason s) (sg_Source s) (sg_Reason s)
    (sg_FirstSeen s) (sg_LastSeen s) createdAt updatedAt.

Definition with_status (status updatedAt : string) (s : Suggestion) : Suggestion :=
  MkSuggestion (sg_ID s) (sg_PathPrefix s) status (sg_Hits s) (sg_UniqueIPs s) (sg_WouldBlock s) (sg_ShadowHits s)
    (sg_ShadowFP s) (sg_ShadowRate s) (sg_TemporaryUntil s) (sg_PromotionReason s) (sg_Source s) (sg_Reason s)
    (sg_FirstSeen s) (sg_LastSeen s) (sg_CreatedAt s) updatedAt.

Definition List : sop state (list Suggestion) :=
  query suggestions_config (fun _ current => Ok (sortSuggestions (Items current))).

Definition upsertTx (item : Suggestion) (t : Z) (current : state) : result (state * Suggestion) :=
  let now := format_rfc3339 t in
  match find_key sg_ID (sg_ID item) (Items current) with
  | Some (i, old) =>
      let item := stamped (if is_empty (sg_CreatedAt old) then now else sg_CreatedAt old) now item in
      Ok (MkState (sortSuggestions (<[i := item]> (Items current))), item)
  | None =>
      let item := stamped now now item in
      Ok (MkState (sortSuggestions (Items current +++ [item])), item)
  end.

Definition Upsert (item : Suggestion) : sop state Suggestion :=
  let item := NormalizeSuggestion item in
  lift (ValidateSuggestion item);;
  transact suggestions_config (upsertTx item).

(** The result is read at the old index from the list that has been sorted since. *)
Definition setStatusTx (id status : string) (t : Z) (current : state) : result (state * Suggestion) :=
  match find_key sg_ID id (Items current) with
  | Some (i, old) =>
      let sorted := sortSuggestions (<[i := with_status status (format_rfc3339 t) old]> (Items current)) in
      Ok (MkState sorted, default old (sorted !! i))
  | None => Err ("anti-ddos rule suggestion " ++ id ++ " not found")
  end.

Definition SetStatus (id status : string) : sop state Suggestion :=
  let id := lower_trim id in
  let status := lower_trim status in
  lift (reject_if (is_empty id) "anti-ddos rule suggestion id is required");;
  lift (reject_if (negb (mem status statuses)) bad_status);;
  transact suggestions_config (setStatusTx id status).

(** ** Normal form *)
Lemma not_negative_idem n : not_negative (not_negative n) = not_negative n.
Proof. unfold not_negative. destruct (n <? 0) eqn:E; [done | by rewrite E]. Qed.

Lemma trim_dashes_suffix s : exists p, s = p ++ trim_dashes s.
Proof.
  induction s as [|c s (p & IH)]; [by exists ""|]. cbn [trim_dashes]. destruct (Ascii.eqb c "-"); [|by exists ""].
  exists (String c p). change (String c s = String c (p ++ trim_dashes s)). by rewrite <- IH.
Qed.

Lemma trim_right_suffix p s : trim_right (p ++ s) = p ++ s -> trim_right s = s.
Proof.
  induction p as [|c p IH]; [done|]. change (String c p ++ s) with (String c (p ++ s)). cbn [trim_right].
  intros E. apply IH. destruct (trim_right (p ++ s)) as [|d t] eqn:Et.
  - destruct (is_space c); [discriminate|]. by injection E as <-.
  - by injection E.
Qed.

Lemma lower_dash s : to_lower (map_string slash_to_dash s) = map_string slash_to_dash (to_lower s).
Proof.
  induction s as [|c s IH]; [done|].
  change (String (lower_ascii (slash_to_dash c)) (to_lower (map_string slash_to_dash s)) =
          String (slash_to_dash (lower_ascii c)) (map_string slash_to_dash (to_lower s))).
  rewrite IH. f_equal. by destruct c as [[] [] [] [] [] [] [] []].
Qed.

Lemma lower_trim_dashes s : to_lower (trim_dashes s) = trim_dashes (to_lower s).
Proof.
  induction s as [|c s IH]; [done|]. change (to_lower (String c s)) with (String (lower_ascii c) (to_lower s)). cbn [trim_dashes].
  replace (Ascii.eqb (lower_ascii c) "-") with (Ascii.eqb c "-") by (by destruct c as [[] [] [] [] [] [] [] []]).
  destruct (Ascii.eqb c "-"); [exact IH | done].
Qed.

Lemma derived_id_normal path : lower_trim path = path -> lower_trim (derived_id path) = derived_id path.
Proof.
  intros Hp. assert (Hl : to_lower path = path) by (rewrite <- Hp; unfold lower_trim; apply to_lower_idem).
  assert (Ht : trim_space path = path) by (rewrite <- Hp; apply trim_lower_trim).
  assert (Hr : trim_right path = path) by (rewrite <- Ht; apply trim_right_idem).
  assert (Hx : trim_right (trim_dashes (map_string slash_to_dash path)) = trim_dashes (map_string slash_to_dash path)).
  { destruct (trim_dashes_suffix (map_string slash_to_dash path)) as (p & E). apply (trim_right_suffix p). rewrite <- E.
    rewrite trim_right_map; [by rewrite Hr|]. by intros [[] [] [] [] [] [] [] []]. }
  unfold lower_trim, derived_id. set (x := trim_dashes _) in *.
  assert (Hlx : to_lower x = x) by (unfold x; by rewrite lower_trim_dashes, lower_dash, Hl).
  replace (trim_space ("path-" ++ x)) with ("path-" ++ x).
  - change (to_lower ("path-" ++ x)) with ("path-" ++ to_lower x). by rewrite Hlx.
  - change (trim_space ("path-" ++ x)) with (trim_right ("path-" ++ x)).
    destruct (decide (x = "")) as [->|Hne]; [done|]. by rewrite trim_right_app.
Qed.

Lemma NormalizeSuggestion_idem s : NormalizeSuggestion (NormalizeSuggestion s) = NormalizeSuggestion s.
Proof.
  unfold NormalizeSuggestion at 1. cbn [NormalizeSuggestion sg_ID sg_PathPrefix sg_Status sg_Hits sg_UniqueIPs sg_WouldBlock
    sg_ShadowHits sg_ShadowFP sg_ShadowRate sg_TemporaryUntil sg_PromotionReason sg_Source sg_Reason sg_FirstSeen sg_LastSeen
    sg_CreatedAt sg_UpdatedAt].
  rewrite !not_negative_idem, !trim_space_idem, lower_trim_twice. unfold NormalizeSuggestion. f_equal.
  - set (path := lower_trim (sg_PathPrefix s)).
    destruct (is_empty (lower_trim (sg_ID s)) && negb (is_empty path)) eqn:E.
    + rewrite (derived_id_normal path) by apply lower_trim_twice. done.
    + by rewrite lower_trim_twice, E.
  - destruct (is_empty (lower_trim (sg_Status s))) eqn:E; [done|]. by rewrite lower_trim_twice, E.
Qed.

(** ** Histories *)
Definition suggestion_ok (s : Suggestion) : Prop := NormalizeSuggestion s = s /\ ValidateSuggestion s = Ok tt.

Record suggestions_ok (s : state) : Prop := MkOk {
  so_distinct : NoDup (sg_ID <$> Items s);
  so_sorted : sorted_on suggestion_order (Items s);
  so_items : Forall suggestion_ok (Items s)
}.

Lemma normal_items l : Forall suggestion_ok l -> NormalizeSuggestion <$> l = l.
Proof. induction 1 as [|s l [Hs _] _ IH]; [done|]. cbn. by rewrite Hs, IH. Qed.

Lemma sorted_items_ok l : NoDup (sg_ID <$> l) -> Forall suggestion_ok l -> suggestions_ok (MkState (sortSuggestions l)).
Proof.
  intros Hn Hall. split; cbn; unfold sortSuggestions.
  - by rewrite (NoDup_fmap_perm sg_ID _ l) by apply sort_on_perm.
  - apply sort_on_sorted.
  - by apply Forall_sort_on.
Qed.

#[export] Instance suggestions_inv : DocInv suggestions_config suggestions_ok.
Proof.
  split; [repeat constructor|]. intros [l] [Hn Hs Hall]. cbn in *. rewrite normal_items by done. by apply sorted_items_ok.
Qed.

Inductive command := CUpsert (item : Suggestion) | CSetStatus (id status : string) | CList.

Definition exec (c : command) : sop state unit :=
  match c with
  | CUpsert item => Upsert item;; mret tt
  | CSetStatus id status => SetStatus id status;; mret tt
  | CList => List;; mret tt
  end.

Lemma stamped_ok c u s : suggestion_ok s -> suggestion_ok (stamped c u s).
Proof. intros [Hn Hv]. split; [|exact Hv]. change (stamped c u (NormalizeSuggestion s) = stamped c u s). by rewrite Hn. Qed.

Lemma with_status_ok status t s : lower_trim status = status -> mem status statuses = true ->
  suggestion_ok s -> suggestion_ok (with_status status t s).
Proof.
  intros Hl Hm [Hn Hv]. split.
  - transitivity (with_status (if is_empty (lower_trim status) then StatusSuggested else lower_trim status) t (NormalizeSuggestion s)); [done|].
    rewrite Hn, Hl. by destruct status.
  - revert Hv. unfold ValidateSuggestion. cbn [with_status sg_ID sg_PathPrefix sg_Status]. rewrite Hm. cbn [negb reject_if].
    intros (? & -> & H)%result_bind_ok. apply result_bind_ok in H as (? & -> & H). apply result_bind_ok in H as (? & -> & _). done.
Qed.

Lemma suggestion_status_known s : suggestion_ok s -> mem (sg_Status s) statuses = true.
Proof.
  intros [_ H]. unfold ValidateSuggestion in H. apply result_bind_ok in H as (? & _ & H).
  apply result_bind_ok in H as (? & _ & H). apply result_bind_ok in H as (? & _ & Hm%reject_if_ok). by apply negb_false_iff.
Qed.

Lemma upsertTx_ok item t d d' a : suggestion_ok item -> suggestions_ok d -> upsertTx item t d = Ok (d', a) ->
  suggestions_ok d' /\ a ∈ Items d' /\ sg_ID a = sg_ID item.
Proof.
  intros Hi [Hn Hs Hall]. unfold upsertTx. destruct (find_key sg_ID (sg_ID item) (Items d)) as [[i old]|] eqn:Ef; intros [= <- <-].
  - apply find_key_Some in Ef as [Hl Hk]. split; [|split; [|done]].
    + apply sorted_items_ok; [by erewrite fmap_key_insert | by apply Forall_insert_list, stamped_ok].
    + apply elem_of_sort_on, list_elem_of_lookup. exists i. apply list_lookup_insert_eq. by eapply lookup_lt_Some.
  - apply find_key_None in Ef. split; [|split; [|done]].
    + apply sorted_items_ok; [by apply NoDup_key_snoc | apply Forall_app; split; [done | by repeat constructor; apply stamped_ok]].
    + apply elem_of_sort_on, elem_of_app. right. by apply list_elem_of_singleton.
Qed.

Lemma setStatusTx_ok id status t d d' a : lower_trim status = status -> mem status statuses = true -> suggestions_ok d ->
  setStatusTx id status t d = Ok (d', a) -> suggestions_ok d'.
Proof.
  intros Hl Hm [Hn Hs Hall]. unfold setStatusTx. destruct (find_key sg_ID id (Items d)) as [[i old]|] eqn:Ef; [|discriminate].
  intros [= <- <-]. apply find_key_Some in Ef as [Hi Hk]. apply sorted_items_ok; [by erewrite fmap_key_insert|].
  apply Forall_insert_list; [done|]. apply with_status_ok; [done..|]. rewrite Forall_forall in Hall. apply Hall, list_elem_of_lookup. eauto.
Qed.

Lemma suggestion_exec_preserves c : preserves suggestions_ok (exec c).
Proof.
  destruct c as [item|id status|]; cbn.
  - apply bind_preserves; [|by intros a e s]. unfold Upsert.
    destruct (ValidateSuggestion (NormalizeSuggestion item)) as [[]|msg] eqn:Ev; [|by intros e s Hs].
    apply bind_preserves; [apply lift_preserves|]. intros _. apply (transact_preserves _ _). intros t d d' a Hd E.
    eapply upsertTx_ok; [|exact Hd|exact E]. split; [apply NormalizeSuggestion_idem | done].
  - apply bind_preserves; [|by intros a e s]. unfold SetStatus. apply bind_preserves; [apply lift_preserves|]. intros _.
    destruct (mem (lower_trim status) statuses) eqn:Em; [|by intros e s Hs].
    apply bind_preserves; [apply lift_preserves|]. intros _. apply (transact_preserves _ _). intros t d d' a Hd E.
    eapply setStatusTx_ok; [apply lower_trim_twice | done..].
  - apply bind_preserves; [apply query_preserves | by intros a e s].
Qed.

(** Over every sequence of calls, with any failures of the backend, the suggestions keep distinct
    identifiers, known statuses and their order, newest first, and reading normalises nothing away. *)
Theorem suggestions_well_formed (h : list (env * command)) (d : state) :
  current suggestions_config (run_history exec h new_file_state) = Some d ->
  suggestions_ok d /\ forall s, s ∈ Items d -> mem (sg_Status s) statuses = true /\ has_prefix "/" (sg_PathPrefix s) = true.
Proof.
  intros Hc. assert (Hd : suggestions_ok d).
  { refine (holds_current suggestions_config suggestions_ok (run_history exec h new_file_state) d _ Hc).
    apply history_preserves; [exact suggestion_exec_preserves | apply holds_new_file]. }
  split; [done|]. intros s Hs. destruct Hd as [_ _ Hall]. rewrite Forall_forall in Hall. specialize (Hall s Hs).
  split; [by apply suggestion_status_known|]. destruct Hall as [_ H]. unfold ValidateSuggestion in H. apply result_bind_ok in H as (? & _ & H).
  apply result_bind_ok in H as (? & _ & H). apply result_bind_ok in H as (? & Hp%reject_if_ok & _). by apply negb_false_iff.
Qed.

(** ** Examples *)
Module Samples.
Definition blank (path : string) : Suggestion := MkSuggestion "" path "" 3 (-1) 0 0 0 "" "" "" "" "" "" "" "" "".
Definition calls : list (env * command) :=
  [(healthy 1000000000, CUpsert (blank " /Admin/x ")); (healthy 3000000000, CUpsert (blank "/login"))].
Definition two : json_state state := run_history exec calls new_file_state.
End Samples.

Lemma suggestions_well_formed_witness :
  exists d, current suggestions_config Samples.two = Some d /\ sg_ID <$> Items d = ["path-login"; "path-admin-x"] /\ suggestions_ok d.
Proof.
  eexists. split; [reflexivity|]. split; [reflexivity|].
  exact (proj1 (suggestions_well_formed Samples.calls _ eq_refl)).
Defined.

(** The caller that promotes one suggestion is told about another: the list is sorted again before the
    result is read from it. *)
Example status_of_another :
  exists a d, SetStatus "path-admin-x" "permanent" (healthy 5000000000) Samples.two = (d, Ok a) /\
    sg_ID a = "path-login" /\ sg_Status a = "suggested".
Proof. eexists _, _. split; [vm_compute; reflexivity|]. split; reflexivity. Qed.
