(* ===== verification/Governance.v ===== *)
(** * Governance of revisions and settings (control-plane/internal/services/enterprise.go)

    The service in front of the settings document (Enterprise.v) and the revision store
    (Revisions.v): settings updates, SCIM tokens, the approval policy stamped on compiled
    revisions, the approval itself and the gate the apply service calls.  The world is the two
    stores and the audit records written; every store call has its own clock, faults and drawn
    keys, numbered by the calls made so far.  The service is taken with its stores present. *)
From Stdlib Require Import ZArith Lia Ascii String.
From stdpp Require Import base tactics strings list.
From S2P Require Import Prelude GoTime GoHash GoText GoCodec GoNet DocStore Service Enterprise.
From S2P Require Revisions.
Local Set Warnings "-clear-no-such-hyp".
Local Open Scope string_scope.
Local Open Scope Z_scope.
Local Notation "a +++ b" := (@app _ a b) (at level 60, right associativity).

(** ** The world *)
Record SessionView := MkSessionView {
  sess_SessionID : string;
  sess_UserID : string;
  sess_Username : string;
  sess_RoleIDs : list string;
  sess_Permissions : list string
}.

Record audit_note := MkNote { note_Action : string; note_ResourceID : string; note_succeeded : bool }.

Record world := World {
  w_settings : json_state Enterprise.state;
  w_revisions : json_state Revisions.state;
  w_audits : list audit_note;
  w_calls : nat
}.

Record gov_env := GovEnv {
  ge_store : nat -> env;                  (* clock and faults of a store operation *)
  ge_fresh : nat -> EvidenceSettings      (* the keys drawn for default settings *)
}.

Abbreviation gop := (rop gov_env world).

Definition on_settings {A} (m : EvidenceSettings -> sop Enterprise.state A) : gop A := fun e w =>
  let (s', r) := m (ge_fresh e (w_calls w)) (ge_store e (w_calls w)) (w_settings w) in
  (World s' (w_revisions w) (w_audits w) (S (w_calls w)), r).
Definition on_revisions {A} (m : sop Revisions.state A) : gop A := fun e w =>
  let (s', r) := m (ge_store e (w_calls w)) (w_revisions w) in
  (World (w_settings w) s' (w_audits w) (S (w_calls w)), r).
(** [recordAudit]; a failing audit store is ignored. *)
Definition record (action resource : string) (succeeded : bool) : gop unit := fun e w =>
  (World (w_settings w) (w_revisions w) (w_audits w +++ [MkNote action resource succeeded]) (w_calls w), Ok tt).
Definition time_now : gop Z := fun e w => (w, Ok (now (ge_store e (w_calls w)))).

(** ** Settings *)
Record EnterpriseSettingsInput := MkInput {
  in_OIDC : OIDCSettings;
  in_Approvals : ApprovalPolicy;
  in_SCIM : SCIMSettings
}.

Record OIDCProviderStatus := MkProviderStatus { ps_Enabled : bool; ps_DisplayName : string }.
Record SCIMGroupRecord := MkGroup { grp_ID : string; grp_DisplayName : string; grp_RoleIDs : list string }.

Section Service.
Context `{EvidenceCrypto}.

Definition GetSettingsView : gop SettingsView := on_settings View.

(** The stored settings with the input's OIDC, approval and SCIM parts; tokens and keys stay. *)
Definition merge_input (current : Settings) (input : EnterpriseSettingsInput) : Settings :=
  MkSettings (in_OIDC input) (in_Approvals input)
  (MkSCIM (scim_Enabled (in_SCIM input)) (scim_DefaultRoleIDs (in_SCIM input))
    (scim_GroupRoleMappings (in_SCIM input)) (scim_Tokens (SCIM current)))
  (Evidence current).

(** A new issuer needs its own client secret. *)
Definition issuer_without_secret (current : Settings) (input : EnterpriseSettingsInput) : bool :=
  negb (String.eqb (trim_space (oidc_IssuerURL (OIDC current))) (trim_space (oidc_IssuerURL (in_OIDC input)))) &&
  negb (is_blank (oidc_ClientSecret (OIDC current))) && is_blank (oidc_ClientSecret (in_OIDC input)).

Definition UpdateSettings (input : EnterpriseSettingsInput) : gop SettingsView :=
  current ← on_settings Get;
  of_result (reject_if (issuer_without_secret current input)
    "OIDC client secret must be supplied when changing issuer");;
  on_settings (fun fresh => Update fresh (merge_input current input));;
  record "enterprise.settings_update" "default" true;;
  on_settings View.

Definition CreateSCIMToken (random idBytes displayName : string) : gop CreateSCIMTokenResult :=
  created ← try_ (on_settings (fun fresh => Enterprise.CreateSCIMToken fresh random idBytes displayName));
  record "enterprise.scim_token_create" (match created with Ok c => tr_ID c | Err _ => "" end) (is_ok created);;
  of_result created.

Definition DeleteSCIMToken (id : string) : gop unit :=
  deleted ← try_ (on_settings (fun fresh => Enterprise.DeleteSCIMToken fresh id));
  record "enterprise.scim_token_delete" (trim_space id) (is_ok deleted);;
  of_result deleted.

Definition ProviderStatus : gop OIDCProviderStatus :=
  settings ← on_settings Get;
  mret (MkProviderStatus (oidc_Enabled (OIDC settings)) (oidc_DisplayName (OIDC settings))).

(** The authenticated token is dropped by the code; it is kept here for the theorems. *)
Definition authenticateBearer (raw : string) : gop SCIMToken :=
  settings ← on_settings Get;
  if negb (scim_Enabled (SCIM settings)) then of_result (Err "scim is disabled")
  else
    found ← on_settings (fun fresh => AuthenticateSCIMToken fresh raw);
    match found with
    | None => of_result (Err "invalid scim token")
    | Some token => mret token
    end.
Definition AuthenticateSCIMBearer (raw : string) : gop unit := authenticateBearer raw;; mret tt.

Definition ListSCIMGroups : gop (list SCIMGroupRecord) :=
  settings ← on_settings Get;
  mret ((fun item => MkGroup (map_ExternalGroup item) (map_ExternalGroup item) (map_RoleIDs item)) <$>
    scim_GroupRoleMappings (SCIM settings)).

(** ** Compiled revisions *)
Definition zero_session : SessionView := MkSessionView "" "" "" [] [].

(** The JSON text signed for a revision; map keys are sorted. *)
Definition signed_fields (r : Revisions.Revision) : string :=
  json_object
  [("approval_status", Some (json_string (Revisions.rev_ApprovalStatus r)));
    ("checksum", Some (json_string (Revisions.rev_Checksum r)));
    ("compiled_by_user_id", Some (json_string (Revisions.rev_CompiledByUserID r)));
    ("created_at", Some (json_string (Revisions.rev_CreatedAt r)));
    ("id", Some (json_string (Revisions.rev_ID r)));
    ("required_approvals", Some (itoa (Revisions.rev_RequiredApprovals r)));
    ("version", Some (itoa (Revisions.rev_Version r)))].

(** The compiler and the approval policy written into a revision. *)
Definition stamp_policy (session : SessionView) (policy : ApprovalPolicy) (revision : Revisions.Revision)
  : Revisions.Revision :=
  let revision := Revisions.set_rev_CompiledByUserID (sess_UserID session) revision in
  let revision := Revisions.set_rev_CompiledByName (sess_Username session) revision in
  if pol_Enabled policy then
    Revisions.set_rev_Status Revisions.StatusPendingApproval
    (Revisions.set_rev_RequiredApprovals (pol_RequiredApprovals policy)
      (Revisions.set_rev_ApprovalStatus Revisions.ApprovalPending revision))
  else
    Revisions.set_rev_Status Revisions.StatusPending
    (Revisions.set_rev_RequiredApprovals 0
      (Revisions.set_rev_ApprovalStatus Revisions.ApprovalNotRequired revision)).

(** [session] is the session of the request, if any. *)
Definition PrepareCompiledRevision (session : option SessionView) (revision : Revisions.Revision)
  : gop Revisions.Revision :=
  settings ← on_settings Get;
  let revision := stamp_policy (default zero_session session) (Approvals settings) revision in
  '(keyID, signature) ← on_settings (fun fresh => SignJSON fresh (signed_fields revision));
  mret (Revisions.set_rev_Signature signature (Revisions.set_rev_SignatureKeyID keyID revision)).

(** The end of a compilation (revision_compile.go): the policy is stamped and the revision saved. *)
Definition saveCompiled (session : option SessionView) (revision : Revisions.Revision) : gop unit :=
  revision ← PrepareCompiledRevision session revision;
  on_revisions (Revisions.SavePending revision).

Definition EnsureRevisionCanApply (revision : Revisions.Revision) : result unit :=
  reject_if (String.eqb (Revisions.rev_ApprovalStatus revision) Revisions.ApprovalPending)
  ("revision " ++ Revisions.rev_ID revision ++ " is waiting for approval").

(** ** Approval *)
Definition has_role (session : SessionView) (roleID : string) : bool :=
  existsb (String.eqb roleID) (sess_RoleIDs session).
Definition may_approve (policy : ApprovalPolicy) (session : SessionView) : bool :=
  existsb (has_role session) (pol_ReviewerRoleIDs policy) || has_role session "admin".
Definition self_approval (policy : ApprovalPolicy) (session : SessionView) (revision : Revisions.Revision) : bool :=
  pol_Enabled policy && negb (pol_AllowSelfApproval policy) &&
  negb (is_empty (Revisions.rev_CompiledByUserID revision)) &&
  String.eqb (Revisions.rev_CompiledByUserID revision) (sess_UserID session).

Definition ApproveRevision (session : option SessionView) (revisionID comment : string) : gop Revisions.Revision :=
  settings ← on_settings Get;
  match session with
  | None => of_result (Err "approval requires authenticated session")
  | Some session =>
    if negb (may_approve (Approvals settings) session)
    then of_result (Err "user is not allowed to approve revisions")
    else
      found ← on_revisions (Revisions.Get revisionID);
      match found with
      | None => of_result (Err ("revision " ++ revisionID ++ " not found"))
      | Some revision =>
        if self_approval (Approvals settings) session revision
        then of_result (Err "self approval is disabled")
        else
          t ← time_now;
          updated ← try_ (on_revisions (Revisions.Approve revisionID
              (Revisions.MkApproval (sess_UserID session) (sess_Username session) (trim_space comment)
                (format_rfc3339_nano t))
              (pol_RequiredApprovals (Approvals settings))));
          record "revision.approve" revisionID (is_ok updated);;
          of_result updated
      end
  end.

(** ** External identities *)
Fixpoint has_suffix (suffix s : string) : bool :=
  String.eqb suffix s || match s with EmptyString => false | String _ s' => has_suffix suffix s' end.

(** The domain check of [resolveOIDCUser]. *)
Definition email_domain_allowed (settings : OIDCSettings) (email : string) : bool :=
  if negb (Nat.eqb (length (oidc_AllowedEmailDomains settings)) 0) && negb (is_empty email)
  then existsb (fun item => has_suffix ("@" ++ to_lower item) (to_lower email)) (oidc_AllowedEmailDomains settings)
  else true.

Definition resolveMappedRoles (groups defaultRoles : list string) (mappings : list RoleMapping) : list string :=
  let matched group := List.filter (fun mapping => equal_fold (trim_space group) (trim_space (map_ExternalGroup mapping)))
  mappings in
  sorted_set normalize_id (defaultRoles +++ flat_map (fun group => flat_map map_RoleIDs (matched group)) groups).

(** ** Histories *)

(** The calls other parts of the program make; [GRevisions] stands for those that do not pass
through this service. *)
Inductive command :=
| GCompile (session : option SessionView) (revision : Revisions.Revision)
| GApprove (session : option SessionView) (revisionID comment : string)
| GSettings (input : EnterpriseSettingsInput)
| GCreateToken (random idBytes displayName : string)
| GDeleteToken (id : string)
| GBearer (raw : string)
| GRevisions (c : Revisions.command).

Definition exec (c : command) : gop unit :=
  match c with
  | GCompile session revision => saveCompiled session revision
  | GApprove session revisionID comment => ApproveRevision session revisionID comment;; mret tt
  | GSettings input => UpdateSettings input;; mret tt
  | GCreateToken random idBytes name => CreateSCIMToken random idBytes name;; mret tt
  | GDeleteToken id => DeleteSCIMToken id
  | GBearer raw => AuthenticateSCIMBearer raw
  | GRevisions c => on_revisions (Revisions.exec c)
  end.

Fixpoint run (h : list (gov_env * command)) (w : world) : world :=
  match h with
  | [] => w
  | (e, c) :: h' => run h' (exec c e w).1
  end.
End Service.

#[local] Arguments firstNonEmpty : simpl never.
#[local] Arguments trim_space : simpl never.

(** ** A logic for the service

    The triples of Service.v, over assertions that speak of the two stores: audits and call numbers
    do not matter to them. *)
Definition at_ (P : json_state Enterprise.state -> json_state Revisions.state -> Prop) (w : world) : Prop :=
  P (w_settings w) (w_revisions w).

Lemma triple_record e action resource ok P E : triple e (at_ P) (record action resource ok) (fun _ => at_ P) E.
Proof. by intros w. Qed.

Lemma retains_record e P action resource ok : retains e (at_ P) (record action resource ok) (fun _ => True).
Proof. by intros w. Qed.

Lemma triple_time e (P E : world -> Prop) : triple e P time_now (fun _ => P) E.
Proof. by intros w. Qed.

Lemma triple_settings {A e} (m : EvidenceSettings -> sop Enterprise.state A) P E (Q : A -> _) :
  (forall fresh e0 s rv s' r, P s rv -> m fresh e0 s = (s', r) ->
     match r with Ok a => Q a s' rv | Err _ => E s' rv end) ->
  triple e (at_ P) (on_settings m) (fun a => at_ (Q a)) (at_ E).
Proof.
  intros Hm w Hw. unfold on_settings. destruct (m _ _ _) as [s' r] eqn:Er.
  specialize (Hm _ _ _ _ _ _ Hw Er). by destruct r.
Qed.

Lemma triple_revisions {A e} (m : sop Revisions.state A) P E (Q : A -> _) :
  (forall e0 s rv rv' r, P s rv -> m e0 rv = (rv', r) ->
     match r with Ok a => Q a s rv' | Err _ => E s rv' end) ->
  triple e (at_ P) (on_revisions m) (fun a => at_ (Q a)) (at_ E).
Proof.
  intros Hm w Hw. unfold on_revisions. destruct (m _ _) as [s' r] eqn:Er.
  specialize (Hm _ _ _ _ _ Hw Er). by destruct r.
Qed.

Lemma retains_settings {A e} (J : json_state Enterprise.state -> Prop) (K : json_state Revisions.state -> Prop)
    (m : EvidenceSettings -> sop Enterprise.state A) (phi : A -> Prop) :
  (forall fresh e0 s s' r, J s -> m fresh e0 s = (s', r) -> J s' /\ (forall a, r = Ok a -> phi a)) ->
  retains e (at_ (fun s rv => J s /\ K rv)) (on_settings m) phi.
Proof.
  intros Hm. apply (triple_settings m (fun s rv => J s /\ K rv) (fun s rv => J s /\ K rv)
    (fun a s rv => (J s /\ K rv) /\ phi a)). intros fresh e0 s rv s' r [Hs Hr] E.
  destruct (Hm _ _ _ _ _ Hs E) as [Hs' Hphi]. destruct r; [|done]. split; [done|]. by apply Hphi.
Qed.

Lemma retains_revisions {A e} (J : json_state Enterprise.state -> Prop) (K : json_state Revisions.state -> Prop)
    (m : sop Revisions.state A) :
  (forall e0 rv, K rv -> K (m e0 rv).1) -> retains e (at_ (fun s rv => J s /\ K rv)) (on_revisions m) (fun _ => True).
Proof.
  intros Hm. apply (triple_revisions m (fun s rv => J s /\ K rv) (fun s rv => J s /\ K rv)
    (fun _ s rv => (J s /\ K rv) /\ True)). intros e0 s rv rv' r [Hs Hr] E. specialize (Hm e0 rv Hr).
  rewrite E in Hm. by destruct r.
Qed.

Lemma run_invariant `{EvidenceCrypto} (I : world -> Prop) (ok : command -> Prop) h w :
  (forall e c, ok c -> retains e I (exec c) (fun _ => True)) -> Forall (fun ec => ok ec.2) h -> I w ->
  I (run h w).
Proof.
  intros Hc Hh. revert w. induction Hh as [|[e c] h Hec _ IH]; intros w Hw; [done|].
  cbn [run]. apply IH. specialize (Hc e c Hec w Hw). destruct (exec c e w) as [w' [a|msg]]; [apply Hc | done].
Qed.

(** ** A four-eyes policy *)

(** At least [N] approvals, none of one's own revisions, reviewers with a role of [R]. *)
Record policy (N : Z) (R : list string) (p : ApprovalPolicy) : Prop := {
  policy_enabled : pol_Enabled p = true;
  policy_self : pol_AllowSelfApproval p = false;
  policy_required : N <= pol_RequiredApprovals p;
  policy_reviewers : normalizeRoleIDs (pol_ReviewerRoleIDs p) <> [] /\
    normalizeRoleIDs (pol_ReviewerRoleIDs p) ⊆ R
}.

Lemma normalizeApprovals_policy N R p d : policy N R p -> policy N R (normalizeApprovals p d).
Proof.
  intros [H1 H2 H3 [H4 H5]]. unfold normalizeApprovals. cbn zeta.
  destruct (Nat.eqb _ _) eqn:E; [by apply length_eqb_nil in E|].
  split; cbn [pol_Enabled pol_RequiredApprovals pol_AllowSelfApproval pol_ReviewerRoleIDs]; try done.
  - unfold max. case_match eqn:Hm; [lia|]. apply Z.ltb_ge in Hm. lia.
  - by rewrite normalizeRoleIDs_idem.
Qed.

(** The stored settings are in normal form and readers see settings with the property [P]. *)
Definition stored (P : Settings -> Prop) (s : json_state Enterprise.state) : Prop :=
  exists d, settled d s /\ P (st_Settings (read_tokens d)).

Definition governs (N : Z) (R : list string) : json_state Enterprise.state -> Prop :=
  stored (fun st => policy N R (Approvals st)).

Section Settings.
Context `{EvidenceCrypto}.
Variables (ge : gov_env) (P : Settings -> Prop) (K : json_state Revisions.state -> Prop).
Let I : world -> Prop := at_ (fun s rv => stored P s /\ K rv).

Lemma stored_query {A} fresh (f : Z -> Enterprise.state -> result A) e s s' r :
  stored P s -> query (enterprise_config fresh) f e s = (s', r) ->
  stored P s' /\ forall a, r = Ok a -> exists d, settled d s /\ P (st_Settings (read_tokens d)) /\
  f (now e) (read_tokens d) = Ok a.
Proof.
  intros (d & Hd & Hp) E. apply (settled_query fresh f _ _ _ _ d Hd) in E as [Hv Hf]. split; [|eauto].
  exists d. split; [by apply (settled_same _ s) | done].
Qed.

Lemma retains_Get : retains ge I (on_settings Get) (fun st => P st /\ complete st).
Proof.
  apply retains_settings. intros fresh e s s' r Hs E. apply stored_query in E as [H1 H2]; [|done].
  split; [done|]. intros a Ha. destruct (H2 a Ha) as (d & [_ Hc] & Hp & [= <-]). split; [exact Hp|].
  by apply (set_tokens_complete (normalizeToken <$> tokens d) d).
Qed.

Lemma retains_View : retains ge I (on_settings View) (fun _ => True).
Proof.
  apply retains_settings. intros fresh e s s' r Hs E. split; [|done]. unfold View, fmap, sop_fmap in E.
  destruct (Get fresh e s) as [s1 r1] eqn:E1. apply stored_query in E1 as [H1 _]; [|done].
  destruct r1; by injection E as <- _.
Qed.

Lemma retains_Sign content : retains ge I (on_settings (fun fresh => SignJSON fresh content)) (fun _ => True).
Proof.
  apply retains_settings. intros fresh e s s' r Hs E. split; [|done]. unfold SignJSON, mbind, sop_bind in E.
  destruct (Get fresh e s) as [s1 r1] eqn:E1. apply stored_query in E1 as [H1 _]; [|done].
  destruct r1; [|by injection E as <- _]. unfold lift in E.
  destruct (decodePrivateKey _); by injection E as <- _.
Qed.

(** The store commands that keep [P]. *)
Definition store_ok (c : Enterprise.command) : Prop :=
  forall d d', P (st_Settings d) -> changed c d d' -> P (st_Settings (read_tokens d')).

Lemma retains_store (c : Enterprise.command) {A} (m : EvidenceSettings -> sop Enterprise.state A) phi :
  (forall fresh e s s' r, m fresh e s = (s', r) -> exists r', Enterprise.exec fresh c e s = (s', r')) ->
  (forall a, phi a) -> store_ok c -> retains ge I (on_settings m) phi.
Proof.
  intros Hm Hphi Hc. apply retains_settings. intros fresh e s s' r (d & Hd & Hp) E. split; [|done].
  apply Hm in E as [r' E]. apply (exec_settled fresh c _ _ _ _ d Hd) in E as (d' & Hd' & [->|Hch]).
  - by exists d.
  - exists d'. split; [done|]. by apply (Hc (read_tokens d)).
Qed.

Lemma unit_of_run {A} (m : sop Enterprise.state A) e s s' r :
  m e s = (s', r) -> exists r', ((fun _ => tt) <$> m) e s = (s', r').
Proof. intros E. unfold fmap, sop_fmap. rewrite E. destruct r; eauto. Qed.

Lemma retains_UpdateSettings input :
  (forall st, P st -> store_ok (CUpdate (merge_input st input))) ->
  retains ge I (UpdateSettings input) (fun _ => True).
Proof.
  intros Hp. eapply retains_bind; [apply retains_Get|]. intros st [Hst _].
  eapply retains_bind; [by apply (retains_result _ _ (fun _ => True))|]. intros _ _.
  eapply retains_bind; [apply (retains_store (CUpdate (merge_input st input)) _ (fun _ => True));
  [intros *; apply unit_of_run|done|by apply Hp]|].
  intros _ _. eapply retains_bind; [apply retains_record|]. intros _ _. apply retains_View.
Qed.

Lemma retains_CreateToken random idb name :
  store_ok (CCreateToken random idb name) -> retains ge I (CreateSCIMToken random idb name) (fun _ => True).
Proof.
  intros Hp. eapply retains_bind; [apply retains_try, (retains_store (CCreateToken random idb name) _ (fun _ => True));
  [intros *; apply unit_of_run|done..]|].
  intros r _. eapply retains_bind; [apply retains_record|]. intros _ _. by apply retains_result.
Qed.

Lemma retains_DeleteToken id : store_ok (CDeleteToken id) -> retains ge I (DeleteSCIMToken id) (fun _ => True).
Proof.
  intros Hp. eapply retains_bind; [apply retains_try, (retains_store (CDeleteToken id) _ (fun _ => True));
  [by eauto|done..]|].
  intros r _. eapply retains_bind; [apply retains_record|]. intros _ _. by apply retains_result.
Qed.

Lemma retains_Bearer raw : store_ok (CAuthenticate raw) -> retains ge I (AuthenticateSCIMBearer raw) (fun _ => True).
Proof.
  intros Hp. apply (retains_unit _ _ (fun _ => True)). eapply retains_bind; [apply retains_Get|]. intros st _.
  destruct (negb _); [by apply retains_result|].
  eapply retains_bind; [apply (retains_store (CAuthenticate raw) _ (fun _ => True)); [intros *; apply unit_of_run|done..]|].
  intros [token|] _; [by apply retains_ret | by apply retains_result].
Qed.

(** Preparing and approving only read the settings. *)
Lemma retains_Prepare session r (phi : Revisions.Revision -> Prop) :
  (forall st, P st -> phi (stamp_policy (default zero_session session) (Approvals st) r)) ->
  (forall x signature keyID, phi x ->
    phi (Revisions.set_rev_Signature signature (Revisions.set_rev_SignatureKeyID keyID x))) ->
  retains ge I (PrepareCompiledRevision session r) phi.
Proof.
  intros Hst Hsig. eapply retains_bind; [apply retains_Get|]. intros st [Hp _].
  eapply retains_bind; [apply retains_Sign|]. intros [keyID signature] _. apply retains_ret. auto.
Qed.
End Settings.

Lemma policy_store_ok N R c :
  match c with CUpdate st => policy N R (Approvals st) | _ => True end ->
  store_ok (fun st => policy N R (Approvals st)) c.
Proof.
  intros Hc d d' Hp Hch. destruct c as [st|random idb name|id|raw]; cbn [changed] in Hch.
  - change (policy N R (Approvals (st_Settings d'))). rewrite Hch. by apply normalizeApprovals_policy.
  - destruct Hch as (item & value & _ & _ & ->). done.
  - by subst d'.
  - destruct Hch as (i & item & t & _ & ->). done.
Qed.

(** ** Reviewed revisions *)

#[local] Existing Instance Revisions.all_revisions_inv.

(** Every approval comes from a user [V] names for the revision, other than its compiler. *)
Definition vetted (V : string -> string -> Prop) (r : Revisions.Revision) : Prop :=
  Forall (fun a => V (Revisions.apr_UserID a) (Revisions.rev_ID r) /\
    (Revisions.rev_CompiledByUserID r = "" \/ Revisions.apr_UserID a <> Revisions.rev_CompiledByUserID r))
    (Revisions.rev_Approvals r).

Definition reviewed_store (N : Z) (V : string -> string -> Prop) (rv : json_state Revisions.state) : Prop :=
  holds (Revisions.all_quorate N) rv /\ holds (Revisions.all_revisions (vetted V)) rv.

(** The calls that neither save nor approve a revision. *)
Definition bookkeeping (c : Revisions.command) : Prop :=
  match c with
  | Revisions.CSavePending _ | Revisions.CApprove _ _ _ | Revisions.CUpdateRevision _ => False
  | _ => True
  end.

Definition saves_unreviewed (c : Revisions.command) : Prop :=
  match c with
  | Revisions.CSavePending r =>
      Revisions.rev_Approvals r = [] /\ Revisions.rev_ApprovalStatus r = Revisions.ApprovalPending
  | _ => bookkeeping c
  end.

Lemma vetted_review V x y : Revisions.same_review x y -> vetted V x -> vetted V y.
Proof. intros (E1 & _ & E3 & E4). unfold vetted. by rewrite E1, E3, E4. Qed.

Lemma exec_vetted V c :
  saves_unreviewed c -> preserves (Revisions.all_revisions (vetted V)) (Revisions.exec c).
Proof.
  apply (Revisions.exec_forall (vetted V) saves_unreviewed).
  - intros x y. apply vetted_review.
  - intros r [Ha Hs]. apply (vetted_review V r); [apply Revisions.defaultRevision_review; by rewrite Hs|].
    unfold vetted. rewrite Ha. constructor.
  - intros id a n x [].
  - intros r [].
Qed.

Lemma exec_reviewed N V c rv e :
  saves_unreviewed c -> reviewed_store N V rv -> reviewed_store N V (Revisions.exec c e rv).1.
Proof.
  intros Hc [H1 H2]. split; [|by apply exec_vetted].
  apply Revisions.exec_quorate; [|done]. by destruct c.
Qed.

Lemma approveItem_approvals a n x :
  Revisions.rev_Approvals (Revisions.approveItem a n x) =
    (Revisions.rev_Approvals x +++ [Revisions.normalizeApproval a]) /\
  Revisions.rev_CompiledByUserID (Revisions.approveItem a n x) = Revisions.rev_CompiledByUserID x /\
  Revisions.rev_ID (Revisions.approveItem a n x) = Revisions.rev_ID x.
Proof. unfold Revisions.approveItem. cbv zeta. by repeat case_match. Qed.

(** Recording an approval by somebody allowed to give it. *)
Lemma Approve_reviewed N V id a n e rv d x i :
  reviewed_store N V rv -> current Revisions.revisions_config rv = Some d ->
  Revisions.indexByID (Revisions.RevisionList d) id = Some (i, x) ->
  N <= n -> V (trim_space (Revisions.apr_UserID a)) id ->
  (Revisions.rev_CompiledByUserID x = "" \/
   trim_space (Revisions.apr_UserID a) <> Revisions.rev_CompiledByUserID x) ->
  reviewed_store N V (Revisions.Approve id a n e rv).1.
Proof.
  intros [H1 H2] Hd Hi Hn HV Hself.
  pose proof (Revisions.exec_quorate N (Revisions.CApprove id a n) Hn e rv H1) as Hq.
  cbn [Revisions.exec] in Hq. unfold fmap, sop_fmap in Hq.
  destruct (Revisions.Approve id a n e rv) as [rv' r] eqn:E. cbn [fst].
  destruct r as [upd|msg]; cbn [fst] in Hq; split; try exact Hq.
  - apply transact_ok in E as (d0 & d' & Hc & Hf & Hv). rewrite Hd in Hc. injection Hc as <-.
    intros d1 Hd1. rewrite Hv in Hd1. injection Hd1 as <-.
    apply (Revisions.approveTx_forall _ id a n d d' upd); [|exact Hf|].
    + by apply (holds_current Revisions.revisions_config _ rv).
    + intros i0 x0 Hi0 _ Hx. rewrite Hi in Hi0. injection Hi0 as <- <-. unfold vetted.
      destruct (approveItem_approvals a n x) as (-> & -> & ->).
      apply find_key_Some in Hi as [_ Hid]. apply Forall_app. split; [exact Hx|].
      constructor; [|constructor]. by rewrite Hid.
  - apply transact_err in E. by apply (holds_visible _ rv).
Qed.

(** ** The service keeps the policy *)
Definition reviewer (R : list string) (session : SessionView) : Prop :=
  exists role, role ∈ sess_RoleIDs session /\ (role ∈ R \/ role = "admin").

Lemma may_approve_reviewer R p session :
  pol_ReviewerRoleIDs p ⊆ R -> may_approve p session = true -> reviewer R session.
Proof.
  intros Hp. unfold may_approve, has_role. rewrite orb_true_iff, existsb_exists.
  setoid_rewrite existsb_exists. intros [(role & Hin & x & Hx & <-%String.eqb_eq)|(x & Hx & <-%String.eqb_eq)];
    apply list_elem_of_In in Hx; eexists; (split; [exact Hx|]); [left | by right].
  apply Hp. by apply list_elem_of_In.
Qed.

(** The calls of a history under the policy: settings updates carry it, compilations start
    without approvals, and user identifiers are trimmed (as the session store keeps them). *)
Definition respects (N : Z) (R : list string) (c : command) : Prop :=
  match c with
  | GCompile _ r => Revisions.rev_Approvals r = []
  | GApprove (Some session) _ _ => trim_space (sess_UserID session) = sess_UserID session
  | GSettings input => policy N R (in_Approvals input)
  | GRevisions c => bookkeeping c
  | _ => True
  end.

Section Governed.
Context `{EvidenceCrypto}.
Variables (ge : gov_env) (N : Z) (R : list string) (V : string -> string -> Prop).
Let J (s : json_state Enterprise.state) (rv : json_state Revisions.state) : Prop :=
  governs N R s /\ reviewed_store N V rv.
Let I : world -> Prop := at_ J.

Lemma retains_saveCompiled session r :
  Revisions.rev_Approvals r = [] -> retains ge I (saveCompiled session r) (fun _ => True).
Proof.
  intros Hr. eapply (retains_bind I _ _ (fun r => Revisions.rev_Approvals r = [] /\
  Revisions.rev_ApprovalStatus r = Revisions.ApprovalPending)).
  - apply retains_Prepare; [|done]. intros st Hst.
    unfold stamp_policy. cbn zeta. rewrite (policy_enabled _ _ _ Hst). done.
  - intros r' Hr'. apply retains_revisions. intros e rv Hrv.
    by apply (exec_reviewed N V (Revisions.CSavePending r')).
Qed.

Lemma self_approval_other p session x :
  policy N R p -> self_approval p session x = false -> trim_space (sess_UserID session) = sess_UserID session ->
  Revisions.rev_CompiledByUserID x = "" \/ trim_space (sess_UserID session) <> Revisions.rev_CompiledByUserID x.
Proof.
  intros [H1 H2 _ _] Hs ->. unfold self_approval in Hs. rewrite H1, H2 in Hs. cbn in Hs.
  apply andb_false_iff in Hs as [Hs|Hs].
  - left. apply negb_false_iff in Hs. by apply is_empty_spec.
  - right. apply String.eqb_neq in Hs. congruence.
Qed.

Lemma retains_Approve session id comment :
  match session with
  | Some session => trim_space (sess_UserID session) = sess_UserID session /\
    (reviewer R session -> V (sess_UserID session) id)
  | None => True
  end -> retains ge I (ApproveRevision session id comment) (fun _ => True).
Proof.
  intros Hs. eapply retains_bind; [apply retains_Get|]. intros st [Hp Hcomplete].
  assert (Hrev : pol_ReviewerRoleIDs (Approvals st) ⊆ R).
  { destruct (policy_reviewers _ _ _ Hp) as [_ Hin]. destruct (ac_reviewers _ (c_approvals _ Hcomplete)) as [Hn _].
    by rewrite Hn in Hin. }
  destruct session as [session|]; [|by apply retains_result]. destruct Hs as [Ht HV].
  destruct (may_approve _ _) eqn:Hmay; cbn [negb]; [|by apply retains_result].
  apply (may_approve_reviewer R) in Hmay; [|exact Hrev]. specialize (HV Hmay).
  eapply (triple_bind _ _ _ (fun found => at_ (fun s rv => J s rv /\ exists d,
  current Revisions.revisions_config rv = Some d /\ snd <$> Revisions.indexByID (Revisions.RevisionList d) id = found))).
  { apply (triple_revisions _ J J (fun _ s rv => J s rv /\ _)). intros e s rv rv' r [Hs Hrv] E.
    pose proof (query_visible Revisions.revisions_config (fun _ current =>
    Ok (snd <$> Revisions.indexByID (Revisions.RevisionList current) id)) e rv) as Hv.
    unfold Revisions.Get in E. rewrite E in Hv. cbn [fst] in Hv.
    assert (Hrv' : reviewed_store N V rv') by (split; eapply holds_visible; [exact Hv|apply Hrv|exact Hv|apply Hrv]).
    destruct r as [found|msg]; [|done]. apply query_ok in E as (d & Hc & [= Hf]).
    split; [done|]. exists d. split; [|done]. unfold current in *. by rewrite Hv. }
  intros [x|]; [|by apply triple_result; [|intros w []]].
  destruct (self_approval _ _ _) eqn:Hself; [by apply triple_result; [|intros w []]|].
  pose proof (self_approval_other _ _ _ Hp Hself Ht) as Hother.
  eapply triple_bind; [apply triple_time|]. intros t.
  eapply triple_bind.
  { apply triple_try, (triple_revisions _ _ J (fun _ => J)).
    intros e s rv rv' r [[Hst Hrv] (d & Hd & Hi)] E.
    destruct (Revisions.indexByID _ id) as [[i y]|] eqn:Hix; [|done]. injection Hi as ->.
    assert (Happ : reviewed_store N V rv').
    { change rv' with (rv', r).1. rewrite <- E. eapply Approve_reviewed; [exact Hrv|exact Hd|exact Hix|apply Hp|..];
      cbn [Revisions.apr_UserID]; [by rewrite Ht | exact Hother]. }
    by destruct r. }
  intros r. eapply (triple_bind _ _ _ (fun _ => I)); [by destruct r; apply triple_record|].
  intros _. apply triple_result; [|done]. done.
Qed.

Lemma retains_exec c :
  respects N R c -> (forall session id comment, c = GApprove (Some session) id comment -> reviewer R session ->
    V (sess_UserID session) id) -> retains ge I (exec c) (fun _ => True).
Proof.
  destruct c as [session r|session id cm|input|random idb name|id|raw|c]; intros Hc HV; cbn [exec].
  - by apply retains_saveCompiled.
  - apply (retains_unit _ _ (fun _ => True)), retains_Approve. destruct session as [session|]; [|done].
    split; [exact Hc|]. by eapply HV.
  - apply (retains_unit _ _ (fun _ => True)), retains_UpdateSettings. intros st _. by apply policy_store_ok.
  - by apply (retains_unit _ _ (fun _ => True)), retains_CreateToken, policy_store_ok.
  - by apply retains_DeleteToken, policy_store_ok.
  - by apply retains_Bearer, policy_store_ok.
  - apply retains_revisions. intros e rv. apply exec_reviewed. cbn [respects] in Hc. by destruct c.
Qed.
End Governed.

(** ** Properties *)

(** C15: Four eyes across the whole service.  While the settings carry a policy of at least [N]
    approvals without self-approval, and whatever sequence of compilations, approvals, settings
    updates, token operations and revision bookkeeping runs, under any clock and store failures:
    a revision the apply gate admits is approved, by at least [N] different users, each of whom
    asked for it in a session holding a reviewer role (or admin) and none of whom compiled it. *)
Theorem governed_revisions_reviewed `{EvidenceCrypto} (N : Z) (R : list string)
    (h : list (gov_env * command)) (w : world) (d : Revisions.state) (r : Revisions.Revision) :
  governs N R (w_settings w) -> w_revisions w = new_file_state ->
  Forall (fun ec => respects N R ec.2) h ->
  visible (w_revisions (run h w)) = Some (Decodes d) -> r ∈ Revisions.RevisionList d ->
  EnsureRevisionCanApply r = Ok tt ->
  Revisions.rev_ApprovalStatus r = Revisions.ApprovalApproved /\
  NoDup (Revisions.apr_UserID <$> Revisions.rev_Approvals r) /\
  N <= Z.of_nat (length (Revisions.rev_Approvals r)) /\
  Forall (fun a =>
    (Revisions.rev_CompiledByUserID r = "" \/ Revisions.apr_UserID a <> Revisions.rev_CompiledByUserID r) /\
    exists e session comment, (e, GApprove (Some session) (Revisions.rev_ID r) comment) ∈ h /\
      reviewer R session /\ sess_UserID session = Revisions.apr_UserID a) (Revisions.rev_Approvals r).
Proof.
  intros Hs Hrv Hh Hd Hr Hgate.
  set (V := fun user id => exists e session comment, (e, GApprove (Some session) id comment) ∈ h /\
    reviewer R session /\ sess_UserID session = user).
  destruct (run_invariant (at_ (fun s rv => governs N R s /\ reviewed_store N V rv))
    (fun c => respects N R c /\ exists e, (e, c) ∈ h) h w) as [_ [Hq Hv]].
  - intros ge c [Hc [e He]]. apply retains_exec; [done|]. intros session id comment -> Hrole. unfold V. eauto 10.
  - apply Forall_forall. intros [e c] Hec. rewrite Forall_forall in Hh. split; [by apply (Hh (e, c)) | by exists e].
  - split; [done|]. cbn. rewrite Hrv. split; apply holds_new_file.
  - specialize (Hq d Hd). specialize (Hv d Hd).
    unfold Revisions.all_quorate, Revisions.all_revisions in *. rewrite Forall_forall in Hq, Hv.
    destruct (Hq r Hr) as [Hn Hst]. specialize (Hv r Hr).
    apply reject_if_ok, String.eqb_neq in Hgate. destruct Hst as [|[Hst Hlen]]; [done|].
    split_and!; [done..|]. eapply Forall_impl; [exact Hv|]. intros a [Ha Hother]. by split.
Qed.

(** What is left in place by an update of the settings: [d] and [d'] are the documents before and
    after. *)
Record update_frame (input : EnterpriseSettingsInput) (d d' : Enterprise.state) : Prop := {
  uf_tokens : tokens d' = normalizeToken <$> tokens (read_tokens d);
  uf_evidence : Evidence (st_Settings d') = Evidence (st_Settings d);
  uf_approvals : Approvals (st_Settings d') = normalizeApprovals (in_Approvals input) (Approvals (st_Settings d));
  uf_secret :
    oidc_ClientSecret (OIDC (st_Settings d')) = trim_space (oidc_ClientSecret (in_OIDC input)) \/
    (oidc_ClientSecret (OIDC (st_Settings d')) = oidc_ClientSecret (OIDC (st_Settings d)) /\
     oidc_IssuerURL (OIDC (st_Settings d')) = oidc_IssuerURL (OIDC (st_Settings d)))
}.

Lemma merged_frame st input d :
  complete (st_Settings d) -> st = st_Settings (read_tokens d) -> issuer_without_secret st input = false ->
  update_frame input d (MkState (normalizeSettings (merge_input st input) st)).
Proof.
  intros [Ho _ _ He] -> Hg. split; cbn [st_Settings normalizeSettings OIDC Approvals Evidence]; [done| |done|].
  - by apply normalizeEvidence_keep.
  - pose proof (oc_trimmed _ Ho) as Ht. rewrite !Forall_cons in Ht. destruct Ht as (Ti & _ & Ts & _).
    cbn [normalizeOIDC oidc_ClientSecret oidc_IssuerURL merge_input OIDC].
    rewrite firstNonEmpty_pair, is_blank_trim, trim_space_idem.
    destruct (is_blank (oidc_ClientSecret (in_OIDC input))) eqn:Hb; [|by left].
    change (OIDC (st_Settings (read_tokens d))) with (OIDC (st_Settings d)) in *. rewrite Ts.
    unfold issuer_without_secret in Hg. rewrite Hb, andb_true_r in Hg.
    apply andb_false_iff in Hg as [Hg|Hg]; apply negb_false_iff in Hg.
    + apply String.eqb_eq in Hg. right. split; [done|]. rewrite <- Hg. exact Ti.
    + left. unfold is_blank in *. apply is_empty_spec in Hb, Hg. rewrite Hb. rewrite <- Ts. exact Hg.
Qed.

(** A settings update that succeeds stores the input but leaves the SCIM tokens and the
    signing keys in place; the stored client secret is replaced by the one supplied, and is kept
    only when the issuer stays the same, so it is never sent to an issuer it was not meant for.
    The revisions are untouched. *)
Theorem UpdateSettings_effect `{EvidenceCrypto} (input : EnterpriseSettingsInput) (e : gov_env)
    (w w' : world) (view : SettingsView) (d : Enterprise.state) :
  settled d (w_settings w) -> UpdateSettings input e w = (w', Ok view) ->
  exists d', settled d' (w_settings w') /\ update_frame input d d' /\
    view = settingsToView (st_Settings (read_tokens d')) /\ w_revisions w' = w_revisions w.
Proof.
  intros Hd. unfold UpdateSettings, mbind, rop_bind, on_settings at 1.
  destruct (Get _ _ (w_settings w)) as [s1 [st|m]] eqn:E1; [|done].
  apply (settled_query _ _ _ _ _ _ d Hd) in E1 as [Hv1 Hst]. pose proof (Hst st eq_refl) as [= Hcur]. clear Hst.
  unfold of_result at 1. destruct (reject_if _ _) as [u|] eqn:Hg; [|done]. apply reject_if_ok in Hg.
  unfold on_settings at 1. cbn [w_settings w_calls w_revisions w_audits].
  destruct (Update _ _ _ s1) as [s2 [v|m]] eqn:E2; [|done].
  apply (settled_transact _ _ _ _ _ _ d (settled_same _ _ _ Hv1 Hd)) in E2
    as [[_ [=]]|(d2 & v2 & _ & Hf & Hv2)].
  apply update_complete in Hf as (Hc2 & Hst2 & _); [|by apply set_tokens_complete, (settled_complete d (w_settings w))].
  unfold record, on_settings. cbn [w_settings w_calls w_revisions w_audits].
  destruct (View _ _ s2) as [s3 r3] eqn:E3. intros [= <- ->]. cbn [w_settings w_revisions].
  assert (Hs2 : settled d2 s2) by by split.
  unfold View, fmap, sop_fmap in E3. destruct (Get _ _ s2) as [s4 [st4|m]] eqn:E4; [|done].
  apply (settled_query _ _ _ _ _ _ d2 Hs2) in E4 as [Hv4 Hst4]. pose proof (Hst4 st4 eq_refl) as [= Hcur4].
  injection E3 as <- <-. exists d2. split_and!; [by apply (settled_same _ s2)| | |done].
  - replace d2 with (MkState (normalizeSettings (merge_input st input) st)); [apply merged_frame; [apply Hd|done|done]|].
    destruct d2 as [st2]. cbn [st_Settings] in Hst2. subst st2 st. done.
  - by rewrite <- Hcur4.
Qed.

(** ** Revoked tokens *)

(** No stored token has the identifier. *)
Definition no_token (id : string) (st : Settings) : Prop :=
  Forall (fun t => trim_space (tok_ID t) <> id) (scim_Tokens (SCIM st)).

Definition never_creates (id : string) (c : command) : Prop :=
  match c with
  | GCreateToken _ idBytes _ => trim_space ("scim-" ++ to_lower (hex_string idBytes)) <> id
  | _ => True
  end.

Lemma no_token_read id d : no_token id (st_Settings d) -> no_token id (st_Settings (read_tokens d)).
Proof.
  unfold no_token. cbn [read_tokens set_Tokens st_Settings SCIM scim_Tokens]. intros Hn.
  apply Forall_fmap. eapply Forall_impl; [exact Hn|]. intros t. cbn. by rewrite trim_space_idem.
Qed.

Lemma no_token_set id d l : Forall (fun t => trim_space (tok_ID t) <> id) l -> no_token id (st_Settings (set_Tokens l d)).
Proof. done. Qed.

(** An update takes its tokens from the settings read before. *)
Lemma no_token_update id st input :
  no_token id st -> store_ok (no_token id) (CUpdate (merge_input st input)).
Proof.
  intros Hst d d' _ Hch. apply no_token_read. cbn [changed] in Hch. rewrite Hch.
  exact (no_token_read id (MkState st) Hst).
Qed.

Lemma no_token_store_ok id c :
  match c with
  | CUpdate _ => False
  | CCreateToken _ idBytes _ => trim_space ("scim-" ++ to_lower (hex_string idBytes)) <> id
  | _ => True
  end -> store_ok (no_token id) c.
Proof.
  intros Hc d d' Hd Hch. apply no_token_read. destruct c as [st|random idb name|i|raw]; cbn [changed] in Hch.
  - done.
  - destruct Hch as (item & value & Hid & _ & ->). apply no_token_set, Forall_sort_on, Forall_app.
    split; [exact Hd|]. constructor; [|constructor]. by rewrite Hid.
  - subst d'. apply no_token_set. apply Forall_forall. intros t [_ Ht]%list_elem_of_filter.
    unfold no_token in Hd. rewrite Forall_forall in Hd. by apply Hd.
  - destruct Hch as (i & item & t & Hf & ->). apply no_token_set, Forall_insert_list; [exact Hd|].
    apply find_where_Some in Hf as (Hi & _). by apply (Forall_lookup_1 _ _ _ _ Hd Hi).
Qed.

Section Revoked.
Context `{EvidenceCrypto}.
Variables (ge : gov_env) (id : string).
Let I : world -> Prop := at_ (fun s rv => stored (no_token id) s /\ True).

Lemma retains_revoked c : never_creates id c -> retains ge I (exec c) (fun _ => True).
Proof.
  destruct c as [session r|session rid cm|input|random idb name|i|raw|c]; intros Hc; cbn [exec].
  - eapply retains_bind; [by apply (retains_Prepare _ _ _ _ _ (fun _ => True))|]. intros r' _. by apply retains_revisions.
  - apply (retains_unit _ _ (fun _ => True)). eapply retains_bind; [apply retains_Get|]. intros st _.
    destruct session as [session|]; [|by apply retains_result]. destruct (negb _); [by apply retains_result|].
    eapply retains_bind; [by apply retains_revisions|]. intros [x|] _; [|by apply retains_result].
    destruct (self_approval _ _ _); [by apply retains_result|].
    eapply (retains_bind _ _ _ (fun _ => True)); [by intros w|]. intros t _.
    eapply retains_bind; [by apply retains_try, retains_revisions|]. intros u _.
    eapply retains_bind; [apply retains_record|]. intros _ _. by apply retains_result.
  - apply (retains_unit _ _ (fun _ => True)), retains_UpdateSettings. intros st. apply no_token_update.
  - by apply (retains_unit _ _ (fun _ => True)), retains_CreateToken, no_token_store_ok.
  - by apply retains_DeleteToken, no_token_store_ok.
  - by apply retains_Bearer, no_token_store_ok.
  - by apply retains_revisions.
Qed.

(** A bearer is authenticated by a stored, enabled token with the hash of what it presents. *)
Lemma authenticateBearer_found raw e w w' token :
  stored (no_token id) (w_settings w) -> authenticateBearer raw e w = (w', Ok token) ->
  trim_space (tok_ID token) <> id /\ tok_SecretHash token = hashToken raw /\ tok_Disabled token = false.
Proof.
  intros Hw. unfold authenticateBearer, mbind, rop_bind, on_settings at 1.
  destruct (Get _ _ (w_settings w)) as [s1 [st|m]] eqn:E1; [|done].
  unfold Get in E1. destruct (stored_query (no_token id) _ _ _ _ _ _ Hw E1) as [(d & Hd & Hp) _].
  destruct (negb _); [done|]. unfold on_settings. cbn [w_settings w_calls w_revisions w_audits].
  destruct (AuthenticateSCIMToken _ _ _ s1) as [s2 r2] eqn:E2.
  apply (authenticate_cases _ _ _ _ _ _ d Hd) in E2 as [(_ & _ & Hno)|(i & item & Hf & -> & _)].
  - destruct r2 as [[t|]|m]; [by destruct (Hno t)|done..].
  - intros [= _ <-]. apply find_where_Some in Hf as (Hi & Hgood & _). cbn.
    apply negb_true_iff, orb_false_iff in Hgood as [Hdis Hh]. apply negb_false_iff, String.eqb_eq in Hh.
    split_and!; [|done..]. by apply (Forall_lookup_1 _ _ _ _ Hp Hi).
Qed.
End Revoked.

(** A deleted SCIM token stays dead: whatever runs afterwards (settings updates, other tokens,
    approvals, under any clock and store failures), as long as its identifier is not drawn again no
    bearer is ever authenticated by it, and a bearer that is authenticated presents the secret of
    an enabled stored token. *)
Theorem revoked_token_refused `{EvidenceCrypto} (id raw : string) (h : list (gov_env * command))
    (e e2 : gov_env) (w w1 w2 : world) (token : SCIMToken) (d : Enterprise.state) :
  settled d (w_settings w) -> DeleteSCIMToken id e w = (w1, Ok tt) ->
  Forall (fun ec => never_creates (trim_space id) ec.2) h ->
  authenticateBearer raw e2 (run h w1) = (w2, Ok token) ->
  trim_space (tok_ID token) <> trim_space id /\ tok_SecretHash token = hashToken raw /\
  tok_Disabled token = false.
Proof.
  intros Hd E Hh Ha. apply (authenticateBearer_found (trim_space id) raw e2 (run h w1) w2); [|exact Ha].
  apply (run_invariant (at_ (fun s _ => stored (no_token (trim_space id)) s /\ True))
    (never_creates (trim_space id)) h w1); [intros ge c; apply retains_revoked|done|]. split; [|done].
  revert E. unfold DeleteSCIMToken, mbind, rop_bind, try_, on_settings.
  destruct (Enterprise.DeleteSCIMToken _ id _ (w_settings w)) as [s' r] eqn:E.
  destruct (settled_transact _ _ _ _ _ _ d Hd E) as [[_ Hr]|(d' & [] & -> & Hf & Hv)].
  - destruct r; [done|]. by intros [= <-].
  - intros [= <-]. cbn. unfold deleteTokenTx in Hf. cbn zeta in Hf. destruct (existsb _ _); [|done].
    injection Hf as <-. eexists. split; [split; [exact Hv | apply set_tokens_complete, set_tokens_complete, Hd]|].
    apply no_token_read, no_token_set, Forall_forall. intros t [Hne Ht]%list_elem_of_filter.
    unfold read_tokens, tokens in Ht. cbn in Ht. apply list_elem_of_fmap in Ht as (t0 & -> & _).
    cbn in *. by rewrite trim_space_idem.
Qed.

(** ** Examples *)
#[export] Instance sample_crypto : EvidenceCrypto := {|
  pem_block := fun v => if is_empty v then None else Some "0123456789abcdef0123456789abcdef0123456789abcdef0123456789abcdef";
  ed25519_sign := fun key content => sha256_hex (key ++ content)
|}.

Definition sample_evidence : EvidenceSettings := MkEvidence "evidence-1" "public" "private".
Definition sample_settings : Settings := Eval vm_compute in
  normalizeSettings (MkSettings defaultOIDC (MkApprovalPolicy true 2 false ["Reviewer "]) (MkSCIM true [] [] [])
    sample_evidence) (defaultSettings sample_evidence).
Definition sample_world : world :=
  World (JSONState (Some (Decodes (MkState sample_settings))) None false) new_file_state [] 0.
Definition sample_env (t : Z) : gov_env := GovEnv (fun n => healthy (t + Z.of_nat n)) (fun _ => sample_evidence).
Definition sample_user (name : string) : SessionView := MkSessionView name name name ["reviewer"] [].
Definition sample_revision : Revisions.Revision :=
  Revisions.MkRevision "rev-1" 1 "2026-01-01T00:00:00Z" "sum" "path" "pending" "" "" "" 0 [] "" "" "" "" "" "" "" [].

Lemma sample_complete : complete sample_settings.
Proof.
  change sample_settings with (normalizeSettings (MkSettings defaultOIDC (MkApprovalPolicy true 2 false ["Reviewer "])
    (MkSCIM true [] [] []) sample_evidence) (defaultSettings sample_evidence)).
  apply normalize_default_complete; [by vm_compute|]. by repeat constructor.
Qed.

Lemma sample_settled : settled (MkState sample_settings) (w_settings sample_world).
Proof. split; [done | exact sample_complete]. Qed.

Lemma sample_policy : governs 2 ["reviewer"] (w_settings sample_world).
Proof.
  exists (MkState sample_settings). split; [exact sample_settled|]. split; [done..|].
  split; [by vm_compute|]. vm_compute. intros x Hx. exact Hx.
Qed.

(** Alice compiles, cannot approve her own revision, and Bob and Carol approve it. *)
Definition sample_history : list (gov_env * command) :=
  [(sample_env 10, GCompile (Some (sample_user "alice")) sample_revision);
   (sample_env 20, GApprove (Some (sample_user "alice")) "rev-1" "");
   (sample_env 30, GApprove (Some (sample_user "bob")) "rev-1" "ok");
   (sample_env 40, GRevisions Revisions.CResetStatuses);
   (sample_env 50, GApprove (Some (sample_user "carol")) "rev-1" "ok")].

Lemma sample_reviewed : exists d r, visible (w_revisions (run sample_history sample_world)) = Some (Decodes d) /\
  Revisions.RevisionList d = [r] /\ EnsureRevisionCanApply r = Ok tt.
Proof.
  eexists _, _. split; [vm_compute; reflexivity|]. split; [vm_compute; reflexivity|]. vm_compute; reflexivity.
Qed.

Lemma governed_revisions_reviewed_witness :
  exists r, EnsureRevisionCanApply r = Ok tt /\ 2 <= Z.of_nat (length (Revisions.rev_Approvals r)).
Proof.
  destruct sample_reviewed as (d & r & Hv & Hl & Hgate). exists r. split; [exact Hgate|].
  assert (Hr : r ∈ Revisions.RevisionList d) by (rewrite Hl; left).
  assert (Hh : Forall (fun ec => respects 2 ["reviewer"] ec.2) sample_history) by (repeat constructor).
  exact (proj1 (proj2 (proj2 (governed_revisions_reviewed 2 ["reviewer"] sample_history sample_world d r
    sample_policy eq_refl Hh Hv Hr Hgate)))).
Defined.

Definition sample_input : EnterpriseSettingsInput :=
  MkInput defaultOIDC (MkApprovalPolicy true 3 false ["reviewer"]) (MkSCIM true [] [] []).

Lemma sample_updated : exists w' view, UpdateSettings sample_input (sample_env 10) sample_world = (w', Ok view).
Proof. eexists _, _. vm_compute. reflexivity. Qed.

Lemma UpdateSettings_effect_witness :
  exists w' view d', UpdateSettings sample_input (sample_env 10) sample_world = (w', Ok view) /\
    update_frame sample_input (MkState sample_settings) d'.
Proof.
  destruct sample_updated as (w' & view & E). exists w', view.
  destruct (UpdateSettings_effect sample_input (sample_env 10) sample_world w' view (MkState sample_settings)
    sample_settled E) as (d' & _ & Hf & _).
  exists d'. split; [exact E | exact Hf].
Defined.

(** Two tokens; the first is revoked, the second still authenticates its bearer. *)
Definition tokens_world : world :=
  run [(sample_env 10, GCreateToken "secret-1" "a" "First"); (sample_env 20, GCreateToken "secret-2" "b" "Second")]
    sample_world.
Definition second_bearer : string := "scim_" ++ to_lower (base64 true false "secret-2").

Lemma tokens_settled : exists d, settled d (w_settings tokens_world).
Proof.
  destruct (run_invariant (at_ (fun s _ => stored (fun _ => True) s /\ True)) (fun c => match c with GCreateToken _ _ _ => True | _ => False end)
    [(sample_env 10, GCreateToken "secret-1" "a" "First"); (sample_env 20, GCreateToken "secret-2" "b" "Second")]
    sample_world) as [(d & Hd & _) _].
  - intros ge []; try done. intros _. by apply (retains_unit _ _ (fun _ => True)), retains_CreateToken.
  - by repeat constructor.
  - split; [|done]. exists (MkState sample_settings). split; [exact sample_settled | done].
  - by exists d.
Qed.

Lemma sample_revoked : exists w1 w2 token, DeleteSCIMToken "scim-61 " (sample_env 30) tokens_world = (w1, Ok tt) /\
  authenticateBearer second_bearer (sample_env 50) (run [(sample_env 40, GSettings sample_input)] w1) = (w2, Ok token) /\
  tok_ID token = "scim-62".
Proof.
  eexists _, _, _. split; [vm_compute; reflexivity|]. split; [vm_compute; reflexivity|]. vm_compute; reflexivity.
Qed.

Lemma revoked_token_refused_witness :
  exists token, tok_ID token = "scim-62" /\ tok_SecretHash token = hashToken second_bearer.
Proof.
  destruct tokens_settled as [d Hd]. destruct sample_revoked as (w1 & w2 & token & E & Ha & Hid).
  exists token. split; [exact Hid|].
  exact (proj1 (proj2 (revoked_token_refused "scim-61 " second_bearer [(sample_env 40, GSettings sample_input)]
    (sample_env 30) (sample_env 50) tokens_world w1 w2 token d Hd E ltac:(repeat constructor) Ha))).
Defined.

(** [UpdateSettings] reads the settings and writes them back in two store calls with no lock in
    between: a token deleted in that window is written back and authenticates again. *)
Definition raced_update (input : EnterpriseSettingsInput) (between : gop unit) : gop unit :=
  current ← on_settings Get;
  between;;
  on_settings (fun fresh => Update fresh (merge_input current input));;
  mret tt.

Example update_race_revives_token :
  exists w' token, (raced_update sample_input (DeleteSCIMToken "scim-62") (sample_env 30) tokens_world).1 = w' /\
    (authenticateBearer second_bearer (sample_env 60) w').2 = Ok token /\ tok_ID token = "scim-62".
Proof.
  eexists _, _. split; [vm_compute; reflexivity|]. split; [vm_compute; reflexivity|]. vm_compute; reflexivity.
Qed.

(** A token without an e-mail address passes any domain restriction. *)
Example no_email_passes :
  let settings := normalizeOIDC (MkOIDC true "" "i" "c" "s" "r" [] "" "" "" "" ["example.org"] [] [] true true) defaultOIDC in
  email_domain_allowed settings "mallory@example.com" = false /\ email_domain_allowed settings "" = true.
Proof. split; vm_compute; reflexivity. Qed.

Lemma resolveMappedRoles_spec groups defaults mappings role :
  role ∈ resolveMappedRoles groups defaults mappings <->
  role <> "" /\ exists x, role = normalize_id x /\ (x ∈ defaults \/ exists group mapping, group ∈ groups /\
    mapping ∈ mappings /\ equal_fold (trim_space group) (trim_space (map_ExternalGroup mapping)) = true /\
    x ∈ map_RoleIDs mapping).
Proof.
  unfold resolveMappedRoles. cbn zeta. rewrite elem_of_sorted_set. setoid_rewrite elem_of_app.
  assert (Hf : forall x, x ∈ flat_map (fun group => flat_map map_RoleIDs (List.filter (fun mapping =>
    equal_fold (trim_space group) (trim_space (map_ExternalGroup mapping))) mappings)) groups <->
    exists group mapping, group ∈ groups /\ mapping ∈ mappings /\
      equal_fold (trim_space group) (trim_space (map_ExternalGroup mapping)) = true /\ x ∈ map_RoleIDs mapping).
  { intros x. rewrite list_elem_of_In, in_flat_map. setoid_rewrite in_flat_map. setoid_rewrite filter_In.
    setoid_rewrite <- list_elem_of_In. naive_solver. }
  setoid_rewrite Hf. naive_solver.
Qed.
