(* ===== verification/Auth.v ===== *)
(** * Sign-in (control-plane/internal/services/auth_*.go)

    The authentication service over the user store (Users.v) and the session store (Sessions.v):
    password login, the second factor, TOTP enrolment, step-up verification and password changes.
    Bytes the service draws (session tokens, salts, nonces, secrets, recovery codes) are an
    argument, [Drawn], of each operation.  Passkeys are not modelled. *)
From Stdlib Require Import ZArith Lia Ascii String.
From stdpp Require Import base tactics strings list.
From S2P Require Import Prelude GoTime GoText GoCodec GoNet DocStore Service Factors.
From S2P Require Users Sessions Governance.
Local Set Warnings "-clear-no-such-hyp".
Local Open Scope string_scope.
Local Open Scope Z_scope.
Local Notation "a +++ b" := (@app _ a b) (at level 60, right associativity).

(** ** The world *)
Record audit_note := MkNote { note_Actor : string; note_Action : string; note_ResourceID : string; note_ok : bool }.

Record world := World {
  w_users : json_state Users.state;
  w_sessions : json_state Sessions.state;
  w_audits : list audit_note;
  w_calls : nat
}.

Record auth_env := AuthEnv {
  au_store : nat -> env;                                   (* clock and faults of a store operation *)
  au_permissions : nat -> list string -> list string       (* rbac.Policy.Permissions over the role store *)
}.

Record Drawn := MkDrawn {
  dr_token : string;          (* session or challenge token *)
  dr_salt : string;           (* salt of a password that is rehashed *)
  dr_new_salt : string;       (* salt of a new password *)
  dr_secret : string;         (* TOTP secret *)
  dr_nonce : string;
  dr_codes : nat -> string;   (* recovery codes *)
  dr_code_salts : nat -> string
}.

Abbreviation aop := (rop auth_env world).

Definition on_users {A} (m : sop Users.state A) : aop A := fun e w =>
  let (s', r) := m (au_store e (w_calls w)) (w_users w) in
  (World s' (w_sessions w) (w_audits w) (S (w_calls w)), r).
Definition on_sessions {A} (m : sop Sessions.state A) : aop A := fun e w =>
  let (s', r) := m (au_store e (w_calls w)) (w_sessions w) in
  (World (w_users w) s' (w_audits w) (S (w_calls w)), r).
(** A store operation given an instant read earlier. *)
Definition at_instant {D A} (t : Z) (m : sop D A) : sop D A := fun e =>
  m (Env t (read_fault e) (legacy_fault e) (migrate_fault e) (write_fault e)).
Definition time_now : aop Z := fun e w => (w, Ok (now (au_store e (w_calls w)))).
Definition permissions_of (roleIDs : list string) : aop (list string) := fun e w =>
  (w, Ok (au_permissions e (w_calls w) roleIDs)).

(** [recordAudit] in a deferred call: the outcome is noted, then returned. *)
Definition note (n : audit_note) : aop unit := fun e w =>
  (World (w_users w) (w_sessions w) (w_audits w +++ [n]) (w_calls w), Ok tt).
Definition audited {A} (actor : A -> string) (action resource : string) (m : aop A) : aop A :=
  r ← try_ m;
  note (MkNote (match r with Ok a => actor a | Err _ => "" end) action resource (is_ok r));;
  of_result r.

(** ** Results *)
Record AuthUser := MkAuthUser {
  me_ID : string;
  me_Username : string;
  me_Email : string;
  me_FullName : string;
  me_Department : string;
  me_Position : string;
  me_Language : string;
  me_RoleIDs : list string;
  me_Permissions : list string;
  me_TOTPEnabled : bool;
  me_RecoveryCodesRemaining : Z
}.
Record SessionResult := MkSessionResult { sr_ID : string; sr_User : AuthUser }.
Inductive LoginResult :=
| RequiresTwoFactor (challengeID : string) (methods : list string)
| LoggedIn (session : SessionResult).
Record TOTPSetupResult := MkSetupResult {
  ts_ChallengeID : string; ts_Secret : string; ts_ProvisioningURI : string; ts_QRPNGBase64 : string
}.
Record TOTPEnableResult := MkEnableResult { te_User : AuthUser; te_RecoveryCodes : list string }.
Record StepUpTOTPResult := MkStepUpResult { su_OK : bool; su_RetryAfterSeconds : Z }.

(** ** Helpers *)

(** A code marks the first unused hash it verifies against. *)
Fixpoint consume_in (recoveryCode pepper : string) (now0 : Z) (hashes : list Users.TOTPRecoveryHash)
    : option (list Users.TOTPRecoveryHash) :=
  match hashes with
  | [] => None
  | item :: rest =>
      if is_blank (Users.rec_UsedAt item) &&
         VerifyRecoveryCode recoveryCode pepper (Users.rec_Hash item) (Users.rec_Salt item)
      then Some (Users.MkRecoveryHash (Users.rec_Hash item) (Users.rec_Salt item) (format_rfc3339_nano now0) :: rest)
      else cons item <$> consume_in recoveryCode pepper now0 rest
  end.
Definition set_recovery (hashes : list Users.TOTPRecoveryHash) (u : Users.User) : Users.User :=
  Users.set_TOTP (Users.usr_TOTPEnabled u) (Users.usr_TOTPSecret u) (Users.usr_TOTPSecretEnc u) hashes u.
Definition consumeRecoveryCode (user : Users.User) (recoveryCode pepper : string) (now0 : Z) : option Users.User :=
  (fun hashes => set_recovery hashes user) <$>
  consume_in recoveryCode pepper now0 (Users.usr_TOTPRecoveryHashes user).

Definition countUnusedRecoveryCodes (user : Users.User) : Z :=
  Z.of_nat (length (List.filter (fun h => is_blank (Users.rec_UsedAt h)) (Users.usr_TOTPRecoveryHashes user))).

Definition normalizeAuditResource (value : string) : string :=
  let value := trim_space (to_lower value) in if is_empty value then "unknown" else value.

Definition stepUpAssertionTTL : Z := 10 * minute.
Definition stepUpLockedError (status : Sessions.StepUpStatus_t) : string :=
  Sessions.ErrStepUpLocked ++ ": retry after " ++ itoa (Sessions.sus_RetryAfterSeconds status) ++ " seconds".

(** What the service is constructed with; [ParseAddress] is the verdict of [mail.ParseAddress] and
    [qr_png] the image of the QR code library. *)
Class AuthService := {
  Pepper : string;
  sessionTTL : Z;
  challengeTTL : Z;
  issuer : string;
  atomic : bool;        (* the session backend updates documents atomically *)
  stepUps : bool;       (* the session store keeps step-up state *)
  ParseAddress : string -> bool;
  qr_png : string -> result string
}.

Section Service.
Context `{Argon2} `{Sealing} `{AuthService}.

Definition resolveUserTOTPSecret (user : Users.User) (nonce : string) : result (Users.User * string * bool) :=
  if negb (is_blank (Users.usr_TOTPSecretEnc user)) then
    secret ← DecryptTOTPSecret (Users.usr_TOTPSecretEnc user) Pepper;
    Ok (user, secret, false)
  else
    let secret := trim_space (Users.usr_TOTPSecret user) in
    if is_empty secret then Ok (user, "", false)
    else
      secretEnc ← EncryptTOTPSecret secret Pepper nonce;
      Ok (Users.set_TOTP (Users.usr_TOTPEnabled user) "" secretEnc (Users.usr_TOTPRecoveryHashes user) user, secret, true).

Definition verifyAndUpgradePassword (user : Users.User) (password salt : string) : aop (Users.User * bool) :=
  if negb (VerifyPassword password (Users.usr_PasswordHash user)) then mret (user, false)
  else if negb (NeedsPasswordRehash (Users.usr_PasswordHash user)) then mret (user, true)
  else
    passwordHash ← of_result (HashPassword password salt);
    updated ← on_users (Users.Update (Users.set_PasswordHash passwordHash user));
    mret (updated, true).

Definition userByID (userID : string) : aop AuthUser :=
  found ← on_users (Users.Get userID);
  match found with
  | None => of_result (Err ("user " ++ userID ++ " not found"))
  | Some user =>
    permissions ← permissions_of (Users.usr_RoleIDs user);
    mret (MkAuthUser (Users.usr_ID user) (Users.usr_Username user) (Users.usr_Email user) (Users.usr_FullName user)
      (Users.usr_Department user) (Users.usr_Position user) (Users.normalizeUserLanguage (Users.usr_Language user))
      (Users.usr_RoleIDs user) permissions (Users.usr_TOTPEnabled user) (countUnusedRecoveryCodes user))
  end.

Definition createSession (token : string) (user : Users.User) : aop SessionResult :=
  session ← on_sessions (Sessions.CreateSession token (Users.usr_ID user) (Users.usr_Username user) (Users.usr_RoleIDs user) sessionTTL);
  when ← time_now;
  try_ (on_users (Users.MarkLogin (Users.usr_ID user) when));;
  me ← userByID (Users.usr_ID user);
  mret (MkSessionResult (Sessions.ses_ID session) me).

(** ** Sessions *)
Definition Authenticate (sessionID : string) : aop Governance.SessionView :=
  touched ← on_sessions (Sessions.TouchSession sessionID sessionTTL);
  match touched with
  | None => of_result (Err "session not found")
  | Some session =>
    found ← on_users (Users.Get (Sessions.ses_UserID session));
    match found with
    | Some user =>
      if Users.usr_IsActive user then
        permissions ← permissions_of (Users.usr_RoleIDs user);
        mret (Governance.MkSessionView (Sessions.ses_ID session) (Users.usr_ID user) (Users.usr_Username user)
          (Users.usr_RoleIDs user) permissions)
      else
        try_ (on_sessions (Sessions.DeleteSession (Sessions.ses_ID session)));;
        of_result (Err "session not found")
    | None =>
      try_ (on_sessions (Sessions.DeleteSession (Sessions.ses_ID session)));;
      of_result (Err "session not found")
    end
  end.

Definition Logout (sessionID : string) : aop unit :=
  audited (fun _ => "") "auth.logout" sessionID (on_sessions (Sessions.DeleteSession sessionID)).

(** ** Login *)
Definition login (drawn : Drawn) (username password : string) : aop LoginResult :=
  found ← on_users (Users.FindByUsername username);
  match found with
  | None => of_result (Err "invalid credentials")
  | Some user =>
    of_result (reject_if (negb (Users.usr_IsActive user)) "invalid credentials");;
    '(user, verified) ← verifyAndUpgradePassword user password (dr_salt drawn);
    of_result (reject_if (negb verified) "invalid credentials");;
    if Users.usr_TOTPEnabled user then
      challenge ← on_sessions (Sessions.CreateLoginChallenge (dr_token drawn) (Users.usr_ID user) challengeTTL);
      mret (RequiresTwoFactor (Sessions.lch_ID challenge) ["totp"; "recovery"; "passkey"])
    else
      session ← createSession (dr_token drawn) user;
      mret (LoggedIn session)
  end.
Definition Login (drawn : Drawn) (username password : string) : aop LoginResult :=
  audited (fun r => match r with LoggedIn s => me_ID (sr_User s) | RequiresTwoFactor _ _ => "" end)
  "auth.login" (normalizeAuditResource username) (login drawn username password).

Definition bootstrap (drawn : Drawn) (username email password : string) : aop SessionResult :=
  let username := trim_space username in
  let email := trim_space (to_lower email) in
  let password := trim_space password in
  of_result (reject_if (is_empty username) "username is required");;
  of_result (reject_if (negb (is_empty email) && negb (ParseAddress email)) "email is invalid");;
  of_result (reject_if (is_empty password) "password is required");;
  count ← on_users Users.Count;
  of_result (reject_if (0 <? count) "bootstrap is no longer available");;
  passwordHash ← of_result (HashPassword password (dr_salt drawn));
  user ← on_users (Users.Create (Users.MkUser username username email "" "" "" "" "" "" [] "" passwordHash true ["admin"]
      false "" "" [] "" "" ""));
  createSession (dr_token drawn) user.
Definition Bootstrap (drawn : Drawn) (username email password : string) : aop SessionResult :=
  audited (fun r => me_ID (sr_User r)) "auth.bootstrap" (normalizeAuditResource username)
  (bootstrap drawn username email password).

Definition login2FA (drawn : Drawn) (challengeID code recoveryCode : string) : aop SessionResult :=
  consumed ← on_sessions (Sessions.ConsumeLoginChallenge atomic challengeID);
  match consumed with
  | None => of_result (Err "2fa challenge not found")
  | Some challenge =>
    found ← on_users (Users.Get (Sessions.lch_UserID challenge));
    match found with
    | None => of_result (Err "2fa challenge is invalid")
    | Some user =>
      of_result (reject_if (negb (Users.usr_IsActive user) || negb (Users.usr_TOTPEnabled user)) "2fa challenge is invalid");;
      now0 ← time_now;
      if negb (is_blank recoveryCode) then
        match consumeRecoveryCode user recoveryCode Pepper now0 with
        | None => of_result (Err "invalid recovery code")
        | Some user =>
          on_users (Users.Update user);;
          createSession (dr_token drawn) user
        end
      else
        match resolveUserTOTPSecret user (dr_nonce drawn) with
        | Err _ => of_result (Err "invalid 2fa code")
        | Ok (updatedUser, secret, migrated) =>
          (if migrated then on_users (Users.Update updatedUser);; mret tt else mret tt);;
          of_result (reject_if (negb (VerifyTOTP secret code now0)) "invalid 2fa code");;
          createSession (dr_token drawn) user
        end
    end
  end.
Definition Login2FA (drawn : Drawn) (challengeID code recoveryCode : string) : aop SessionResult :=
  audited (fun r => me_ID (sr_User r)) "auth.2fa" challengeID (login2FA drawn challengeID code recoveryCode).

(** ** TOTP enrolment *)
Definition get_user (userID : string) : aop Users.User :=
  found ← on_users (Users.Get userID);
  match found with None => of_result (Err "user not found") | Some user => mret user end.

Definition setupTOTP (drawn : Drawn) (session : Governance.SessionView) : aop TOTPSetupResult :=
  user ← get_user (Governance.sess_UserID session);
  let secret := NewTOTPSecret (dr_secret drawn) in
  secretEnc ← of_result (EncryptTOTPSecret secret Pepper (dr_nonce drawn));
  challenge ← on_sessions (Sessions.CreateTOTPSetupChallenge (dr_token drawn) (Users.usr_ID user) secretEnc (10 * minute));
  let uri := ProvisioningURI issuer (Users.usr_Username user) secret in
  png ← of_result (qr_png uri);
  mret (MkSetupResult (Sessions.tch_ID challenge) secret uri ("data:image/png;base64," ++ base64 false true png)).
Definition SetupTOTP (drawn : Drawn) (sessionID : string) : aop TOTPSetupResult :=
  session ← Authenticate sessionID;
  audited (fun _ => Governance.sess_UserID session) "auth.2fa_setup" (Governance.sess_UserID session) (setupTOTP drawn session).

(** The stored hashes of fresh recovery codes. *)
Definition recovery_hashes (codes : list string) (salts : nat -> string) : list Users.TOTPRecoveryHash :=
  imap (fun i code => let hashed := HashRecoveryCode code Pepper (salts i) in
    Users.MkRecoveryHash (rch_Hash hashed) (rch_Salt hashed) "") codes.

Definition enableTOTP (drawn : Drawn) (session : Governance.SessionView) (challengeID code : string)
  : aop TOTPEnableResult :=
  consumed ← on_sessions (Sessions.ConsumeTOTPSetupChallenge atomic challengeID);
  match consumed with
  | None => of_result (Err "totp setup challenge not found")
  | Some challenge =>
    of_result (reject_if (negb (String.eqb (Sessions.tch_UserID challenge) (Governance.sess_UserID session)))
      "totp setup challenge not found");;
    match DecryptTOTPSecret (Sessions.tch_Secret challenge) Pepper with
    | Err _ => of_result (Err "invalid 2fa code")
    | Ok secret =>
      of_result (reject_if (is_blank secret) "invalid 2fa code");;
      now0 ← time_now;
      of_result (reject_if (negb (VerifyTOTP secret code now0)) "invalid 2fa code");;
      user ← get_user (Governance.sess_UserID session);
      let codes := GenerateRecoveryCodes 10 (dr_codes drawn) in
      let user := Users.set_TOTP true "" (Sessions.tch_Secret challenge) (recovery_hashes codes (dr_code_salts drawn)) user in
      on_users (Users.Update user);;
      me ← userByID (Users.usr_ID user);
      mret (MkEnableResult me codes)
    end
  end.
Definition EnableTOTP (drawn : Drawn) (sessionID challengeID code : string) : aop TOTPEnableResult :=
  session ← Authenticate sessionID;
  audited (fun _ => Governance.sess_UserID session) "auth.2fa_enable" (Governance.sess_UserID session)
  (enableTOTP drawn session challengeID code).

Definition disableTOTP (drawn : Drawn) (session : Governance.SessionView) (password recoveryCode : string) : aop AuthUser :=
  user ← get_user (Governance.sess_UserID session);
  if negb (Users.usr_TOTPEnabled user) then userByID (Users.usr_ID user)
  else
    '(user, verified) ← verifyAndUpgradePassword user password (dr_salt drawn);
    of_result (reject_if (negb verified) "invalid current password");;
    now0 ← time_now;
    match consumeRecoveryCode user recoveryCode Pepper now0 with
    | None => of_result (Err "invalid recovery code")
    | Some user =>
      on_users (Users.Update (Users.set_TOTP false "" "" [] user));;
      userByID (Users.usr_ID user)
    end.
Definition DisableTOTP (drawn : Drawn) (sessionID password recoveryCode : string) : aop AuthUser :=
  session ← Authenticate sessionID;
  audited (fun _ => Governance.sess_UserID session) "auth.2fa_disable" (Governance.sess_UserID session)
  (disableTOTP drawn session password recoveryCode).

(** ** Step-up verification *)

(** A locked user is an error that carries a status: the second component. *)
Definition stepUpTOTP (drawn : Drawn) (session : Governance.SessionView) (code : string)
  : aop (StepUpTOTPResult * option string) :=
  let sessionID := Governance.sess_SessionID session in
  let userID := Governance.sess_UserID session in
  let locked status := (MkStepUpResult false (Sessions.sus_RetryAfterSeconds status), Some (stepUpLockedError status)) in
  of_result (reject_if (negb stepUps) "step-up verification is unavailable");;
  now0 ← time_now;
  status ← on_sessions (at_instant now0 (Sessions.StepUpStatus atomic sessionID userID));
  if Sessions.sus_Locked status then mret (locked status)
  else
    found ← on_users (Users.Get userID);
    match found with
    | None => of_result (Err "TOTP must be enabled for step-up verification")
    | Some user =>
      of_result (reject_if (negb (Users.usr_IsActive user) || negb (Users.usr_TOTPEnabled user))
        "TOTP must be enabled for step-up verification");;
      match (match resolveUserTOTPSecret user (dr_nonce drawn) with
          | Ok (updatedUser, secret, migrated) =>
            if is_blank secret || negb (VerifyTOTP secret code now0) then None else Some (updatedUser, migrated)
          | Err _ => None
          end) with
      | None =>
        failed ← on_sessions (at_instant now0 (Sessions.RecordStepUpFailure atomic userID));
        if Sessions.sus_Locked failed then mret (locked failed) else of_result (Err "invalid TOTP code")
      | Some (updatedUser, migrated) =>
        (if migrated : bool then on_users (Users.Update updatedUser);; mret tt else mret tt);;
        granted ← on_sessions (at_instant now0 (fun e s =>
            let (s', r) := Sessions.GrantStepUp atomic sessionID userID stepUpAssertionTTL e s in (s', Ok r)));
        match granted with
        | (_, None) => mret (MkStepUpResult true 0, None)
        | (status, Some err) =>
          if String.eqb err Sessions.ErrStepUpLocked then mret (locked status) else of_result (Err err)
        end
      end
    end.
Definition StepUpTOTP (drawn : Drawn) (sessionID code : string) : aop (StepUpTOTPResult * option string) :=
  session ← Authenticate sessionID;
  r ← try_ (stepUpTOTP drawn session code);
  note (MkNote (Governance.sess_UserID session) "auth.step_up_totp" (Governance.sess_UserID session)
    (match r with Ok (_, None) => true | _ => false end));;
  of_result r.

Definition RequireStepUp (sessionID : string) : aop unit :=
  session ← Authenticate sessionID;
  found ← on_users (Users.Get (Governance.sess_UserID session));
  match found with
  | None => of_result (Err "user not found")
  | Some user =>
    of_result (reject_if (negb (Users.usr_IsActive user)) "user not found");;
    if negb (Users.usr_TOTPEnabled user) then mret tt
    else
      of_result (reject_if (negb stepUps) "step-up verification is unavailable");;
      now0 ← time_now;
      status ← on_sessions (at_instant now0
        (Sessions.StepUpStatus atomic (Governance.sess_SessionID session) (Governance.sess_UserID session)));
      of_result (reject_if (Sessions.sus_Locked status) (stepUpLockedError status));;
      of_result (reject_if (negb (Sessions.sus_Verified status)) "fresh TOTP step-up verification is required")
  end.

(** ** Account *)
Definition changePassword (drawn : Drawn) (sessionID : string) (session : Governance.SessionView)
  (currentPassword password : string) : aop unit :=
  user ← get_user (Governance.sess_UserID session);
  '(user, verified) ← verifyAndUpgradePassword user currentPassword (dr_salt drawn);
  of_result (reject_if (negb verified) "current password is invalid");;
  let password := trim_space password in
  of_result (reject_if (is_empty password) "password is required");;
  passwordHash ← of_result (HashPassword password (dr_new_salt drawn));
  on_users (Users.Update (Users.set_PasswordHash passwordHash user));;
  on_sessions (Sessions.DeleteSessionsByUserExcept (Users.usr_ID user) sessionID).
Definition ChangePassword (drawn : Drawn) (sessionID currentPassword password : string) : aop unit :=
  session ← Authenticate sessionID;
  audited (fun _ => Governance.sess_UserID session) "auth.change_password" (Governance.sess_UserID session)
  (changePassword drawn sessionID session currentPassword password).

Definition updatePreferences (session : Governance.SessionView) (language : string) : aop AuthUser :=
  user ← get_user (Governance.sess_UserID session);
  on_users (Users.Update (Users.set_Language (Users.normalizeUserLanguage language) user));;
  userByID (Users.usr_ID user).
Definition UpdatePreferences (sessionID language : string) : aop AuthUser :=
  session ← Authenticate sessionID;
  audited (fun _ => Governance.sess_UserID session) "auth.preferences_update" (Governance.sess_UserID session)
  (updatePreferences session language).

(** ** Histories *)
Inductive command :=
| CLogin (drawn : Drawn) (username password : string)
| CLogin2FA (drawn : Drawn) (challengeID code recoveryCode : string)
| CBootstrap (drawn : Drawn) (username email password : string)
| CAuthenticate (sessionID : string)
| CLogout (sessionID : string)
| CSetupTOTP (drawn : Drawn) (sessionID : string)
| CEnableTOTP (drawn : Drawn) (sessionID challengeID code : string)
| CDisableTOTP (drawn : Drawn) (sessionID password recoveryCode : string)
| CStepUpTOTP (drawn : Drawn) (sessionID code : string)
| CRequireStepUp (sessionID : string)
| CChangePassword (drawn : Drawn) (sessionID currentPassword password : string)
| CUpdatePreferences (sessionID language : string)
| CUsers (c : Users.command).     (* administration of accounts by other services *)

Definition exec (c : command) : aop unit :=
  match c with
  | CLogin drawn username password => Login drawn username password;; mret tt
  | CLogin2FA drawn challengeID code recoveryCode => Login2FA drawn challengeID code recoveryCode;; mret tt
  | CBootstrap drawn username email password => Bootstrap drawn username email password;; mret tt
  | CAuthenticate sessionID => Authenticate sessionID;; mret tt
  | CLogout sessionID => Logout sessionID
  | CSetupTOTP drawn sessionID => SetupTOTP drawn sessionID;; mret tt
  | CEnableTOTP drawn sessionID challengeID code => EnableTOTP drawn sessionID challengeID code;; mret tt
  | CDisableTOTP drawn sessionID password recoveryCode => DisableTOTP drawn sessionID password recoveryCode;; mret tt
  | CStepUpTOTP drawn sessionID code => StepUpTOTP drawn sessionID code;; mret tt
  | CRequireStepUp sessionID => RequireStepUp sessionID
  | CChangePassword drawn sessionID currentPassword password => ChangePassword drawn sessionID currentPassword password
  | CUpdatePreferences sessionID language => UpdatePreferences sessionID language;; mret tt
  | CUsers c => on_users (Users.exec atomic c)
  end.

Definition run (h : list (auth_env * command)) (w : world) : world :=
  foldl (fun w ec => (exec ec.2 ec.1 w).1) w h.
End Service.

(** ** Who a session document speaks of *)
Definition session_key (s : Sessions.Session) : string * string := (Sessions.ses_ID s, Sessions.ses_UserID s).
Definition challenge_key (c : Sessions.LoginChallenge) : string * string := (Sessions.lch_ID c, Sessions.lch_UserID c).
Definition session_keys (d : Sessions.state) : list (string * string) :=
  session_key <$> Sessions.Sessions d.
Definition challenge_keys (d : Sessions.state) : list (string * string) :=
  challenge_key <$> Sessions.LoginChallenges d.

(** No session and no login challenge of [d'] is new. *)
Definition narrower (d d' : Sessions.state) : Prop :=
  session_keys d' ⊆ session_keys d /\ challenge_keys d' ⊆ challenge_keys d.

#[export] Instance narrower_preorder : PreOrder narrower.
Proof.
  split; [intros d; by split|]. intros d1 d2 d3 [H1 H2] [H3 H4]. split; by etransitivity.
Qed.

Lemma keys_subset {A} (key : A -> string * string) (l' l : list A) : l' ⊆ l -> key <$> l' ⊆ key <$> l.
Proof. intros Hl k (x & -> & Hx)%list_elem_of_fmap. by apply list_elem_of_fmap_2, Hl. Qed.

Lemma filter_subset {A} (P : A -> Prop) `{forall x, Decision (P x)} (l : list A) : filter P l ⊆ l.
Proof. intros x Hx. by apply list_elem_of_filter in Hx as [_ Hx]. Qed.

Lemma narrower_prune t d : narrower d (Sessions.pruneExpired t d).
Proof.
  split; apply keys_subset; [intros s Hs%elem_of_sort_on | intros c Hc].
  - by apply list_elem_of_filter in Hs as [_ Hs].
  - by apply list_elem_of_filter in Hc as [_ Hc].
Qed.

Lemma narrower_challenges d l : challenge_key <$> l ⊆ challenge_keys d ->
  narrower d (Sessions.set_LoginChallenges l d).
Proof. by split. Qed.

Lemma narrower_sessions d l : session_key <$> l ⊆ session_keys d ->
  narrower d (Sessions.set_Sessions l d).
Proof. by split. Qed.

Lemma touch_narrower id ttl t d d' r : Sessions.touchSessionTx id ttl t d = Ok (d', r) ->
  narrower d d' /\ forall s, r = Some s -> (Sessions.ses_ID s, Sessions.ses_UserID s) ∈ session_keys d.
Proof.
  unfold Sessions.touchSessionTx. pose proof (narrower_prune t d) as Hp. revert Hp. cbv zeta.
  generalize (Sessions.pruneExpired t d). intros d0 Hp.
  destruct (find_key _ _ _) as [[i x]|] eqn:E; [|by intros [= <- <-]]. intros [= <- <-].
  apply find_key_Some in E as [Hi _]. split.
  - etransitivity; [exact Hp|]. apply narrower_sessions. rewrite list_fmap_insert.
    intros k Hk. rewrite list_insert_id in Hk; [done|]. by rewrite list_lookup_fmap, Hi.
  - intros s [= <-]. apply Hp. change (session_key x ∈ session_keys (Sessions.MkState (Sessions.Sessions d0) [] [] [] [] [])). by apply list_elem_of_fmap_2, list_elem_of_lookup_2 with i.
Qed.

Lemma consume_narrower id t d d' r : Sessions.consumeLoginTx id t d = Ok (d', r) -> narrower d d'.
Proof.
  unfold Sessions.consumeLoginTx. cbv zeta. destruct (find_key _ _ _) as [[i x]|]; intros [= <- _];
    (etransitivity; [apply narrower_prune|]); [|done]. apply narrower_challenges, keys_subset.
  intros c Hc. eapply elem_of_sublist; [exact Hc | apply sublist_delete].
Qed.

Lemma consume_setup_narrower id t d d' r : Sessions.consumeTOTPTx id t d = Ok (d', r) -> narrower d d'.
Proof.
  unfold Sessions.consumeTOTPTx. cbv zeta. destruct (find_key _ _ _) as [[i x]|]; intros [= <- _]; apply narrower_prune.
Qed.

Lemma record_narrower u t d d' r : Sessions.recordFailureTx u t d = Ok (d', r) -> narrower d d'.
Proof.
  unfold Sessions.recordFailureTx. destruct (Sessions.stepUpLocked _ _); [by intros [= <- _]|].
  destruct (Sessions.findStepUpFailure d u) as [[i f]|]; by intros [= <- _].
Qed.

Lemma grant_narrower sid u ttl t d d' r : Sessions.grantTx sid u ttl t d = Ok (d', r) -> narrower d d'.
Proof. unfold Sessions.grantTx. destruct (Sessions.stepUpLocked _ _); [discriminate | by intros [= <- _]]. Qed.

(** ** Every session and challenge has a reason *)
Section Issued.
Variables (P Q : string -> string -> Prop).

Definition issued (d : Sessions.state) : Prop :=
  (forall id user, (id, user) ∈ session_keys d -> P id user) /\
  (forall id user, (id, user) ∈ challenge_keys d -> Q id user).

#[export] Instance issued_inv : DocInv Sessions.sessions_config issued.
Proof.
  split; [split; intros id user H; by apply elem_of_nil in H|]. intros d [HP HQ]. split; [|done].
  intros id user H. apply HP. revert H. unfold session_keys. rewrite !list_elem_of_fmap.
  intros (s & -> & Hs). exists s. split; [done|]. by apply elem_of_sort_on in Hs.
Qed.

Lemma issued_narrower d d' : narrower d d' -> issued d -> issued d'.
Proof. intros [H1 H2] [HP HQ]. split; intros id user H; [by apply HP, H1 | by apply HQ, H2]. Qed.

Lemma narrow_tx {A} (f : Z -> Sessions.state -> result (Sessions.state * A)) :
  (forall t d d' a, f t d = Ok (d', a) -> narrower d d') ->
  preserves issued (transact Sessions.sessions_config f) /\ preserves issued (update_document Sessions.sessions_config f).
Proof.
  intros Hf. split; [apply transact_preserves | apply update_document_preserves]; try exact issued_inv;
  intros t d d' a Hd E; by eapply issued_narrower; [apply (Hf _ _ _ _ E)|].
Qed.

Lemma narrow_step_up {A} persist atomic (u : Z -> Sessions.state -> result (Sessions.state * A)) :
  (forall t d d' a, u t d = Ok (d', a) -> narrower d d') ->
  preserves issued (Sessions.updateStepUpState atomic persist u).
Proof.
  intros Hu. destruct (narrow_tx (fun t d => u t (Sessions.pruneStepUp t d))) as [H1 H2].
  { intros t d d' a E. exact (Hu t (Sessions.pruneStepUp t d) d' a E). }
  unfold Sessions.updateStepUpState. destruct atomic; [done|]. destruct persist; [done|]. by apply query_preserves.
Qed.

Lemma touch_issued id ttl : preserves issued (Sessions.TouchSession id ttl).
Proof. apply narrow_tx. intros t d d' a E. by apply touch_narrower in E as [H _]. Qed.
Lemma delete_issued id : preserves issued (Sessions.DeleteSession id).
Proof. apply narrow_tx. intros t d d' a [= <- _]. apply narrower_sessions, keys_subset, filter_subset. Qed.
Lemma delete_by_user_issued u x : preserves issued (Sessions.DeleteSessionsByUserExcept u x).
Proof. apply narrow_tx. intros t d d' a [= <- _]. apply narrower_sessions, keys_subset, filter_subset. Qed.
Lemma setup_issued token u sec ttl : preserves issued (Sessions.CreateTOTPSetupChallenge token u sec ttl).
Proof. apply narrow_tx. intros t d d' a [= <- _]. by etransitivity; [|apply narrower_prune]. Qed.
Lemma consume_issued atomic id : preserves issued (Sessions.ConsumeLoginChallenge atomic id).
Proof. unfold Sessions.ConsumeLoginChallenge. destruct atomic; apply narrow_tx, consume_narrower. Qed.
Lemma consume_setup_issued atomic id : preserves issued (Sessions.ConsumeTOTPSetupChallenge atomic id).
Proof. unfold Sessions.ConsumeTOTPSetupChallenge. destruct atomic; apply narrow_tx, consume_setup_narrower. Qed.
Lemma status_issued atomic sid u : preserves issued (Sessions.StepUpStatus atomic sid u).
Proof. apply narrow_step_up. by intros t d d' a [= <- _]. Qed.
Lemma record_issued atomic u : preserves issued (Sessions.RecordStepUpFailure atomic u).
Proof. apply bind_preserves; [apply lift_preserves|]. intros _. apply narrow_step_up, record_narrower. Qed.
Lemma grant_issued atomic sid u ttl :
  preserves issued (fun e s => let (s', r) := Sessions.GrantStepUp atomic sid u ttl e s in (s', Ok r)).
Proof.
  intros e s Hs. unfold Sessions.GrantStepUp. cbv zeta.
  assert (Hp : preserves issued (Sessions.grantStepUp atomic (trim_space sid) (Sessions.normalize u) ttl)).
  { apply bind_preserves; [apply lift_preserves|]. intros _. apply narrow_step_up, grant_narrower. }
  specialize (Hp e s Hs). by destruct (Sessions.grantStepUp _ _ _ _ e s) as [s' [a|m]].
Qed.

(** The two operations that issue something. *)
Lemma create_issued token u name roles ttl : P token (Sessions.normalize u) ->
  preserves issued (Sessions.CreateSession token u name roles ttl).
Proof.
  intros Hnew. apply transact_preserves; [exact issued_inv|]. intros t d d' a [HP HQ] [= <- _].
  eapply issued_narrower; [apply narrower_prune|]. split; [|done]. intros id user.
  unfold session_keys. cbn. rewrite fmap_app, elem_of_app. intros [H|H]; [by apply HP|].
  apply list_elem_of_singleton in H. by injection H as -> ->.
Qed.
Lemma challenge_issued token u ttl : Q token (Sessions.normalize u) ->
  preserves issued (Sessions.CreateLoginChallenge token u ttl).
Proof.
  intros Hnew. apply transact_preserves; [exact issued_inv|]. intros t d d' a [HP HQ] [= <- _].
  eapply issued_narrower; [apply narrower_prune|]. split; [done|]. intros id user.
  unfold challenge_keys. cbn. rewrite fmap_app, elem_of_app. intros [H|H]; [by apply HQ|].
  apply list_elem_of_singleton in H. by injection H as -> ->.
Qed.

(** A challenge that is redeemed had been issued. *)
Lemma redeemed_issued atomic id e s s' c : holds issued s ->
  Sessions.ConsumeLoginChallenge atomic id e s = (s', Ok (Some c)) ->
  Sessions.lch_ID c = trim_space id /\ Q (Sessions.lch_ID c) (Sessions.lch_UserID c).
Proof.
  intros Hs (d & d' & Hd & Htx & _)%Sessions.consume_result.
  apply Sessions.consumeLoginTx_spec in Htx as (Hid & _ & Hin & _). split; [done|].
  destruct (Sessions.holds_either issued atomic s d Hs Hd) as [_ HQ]. apply HQ.
  change (challenge_key c ∈ challenge_keys d). by apply list_elem_of_fmap_2.
Qed.
End Issued.

(** ** Rules for the service *)

(** Assertions that speak of the two stores. *)
Definition at_ (R : json_state Users.state -> json_state Sessions.state -> Prop) (w : world) : Prop :=
  R (w_users w) (w_sessions w).

Section Rules.
Variable e : auth_env.

Lemma triple_audited {A} R Q F (actor : A -> string) action resource (m : aop A) :
  triple e (at_ R) m (fun a => at_ (Q a)) (at_ F) ->
  triple e (at_ R) (audited actor action resource m) (fun a => at_ (Q a)) (at_ F).
Proof.
  intros Hm w Hw. specialize (Hm w Hw). unfold audited. rewrite rop_bind_run. unfold try_.
  destruct (m e w) as [w' [a|msg]]; exact Hm.
Qed.

Lemma triple_noted {A} R Q F n (m : aop A) :
  triple e (at_ R) m (fun a => at_ (Q a)) F -> triple e (at_ R) (note n;; m) (fun a => at_ (Q a)) F.
Proof. intros Hm w Hw. apply Hm. exact Hw. Qed.

Lemma retains_users {A} R (m : sop Users.state A) (phi : A -> Prop) :
  (forall e us ss us' r, R us ss -> m e us = (us', r) -> R us' ss /\ forall a, r = Ok a -> phi a) ->
  retains e (at_ R) (on_users m) phi.
Proof.
  intros Hm w Hw. unfold on_users. destruct (m _ _) as [us' r] eqn:E. destruct (Hm _ _ _ _ _ Hw E) as [H1 H2].
  destruct r as [a|msg]; [|exact H1]. split; [exact H1 | by apply H2].
Qed.

Lemma retains_sessions {A} R (m : sop Sessions.state A) (phi : A -> Prop) :
  (forall e us ss ss' r, R us ss -> m e ss = (ss', r) -> R us ss' /\ forall a, r = Ok a -> phi a) ->
  retains e (at_ R) (on_sessions m) phi.
Proof.
  intros Hm w Hw. unfold on_sessions. destruct (m _ _) as [ss' r] eqn:E. destruct (Hm _ _ _ _ _ Hw E) as [H1 H2].
  destruct r as [a|msg]; [|exact H1]. split; [exact H1 | by apply H2].
Qed.

Lemma retains_read {A} R (f : auth_env -> world -> A) :
  retains e R ((fun e w => (w, Ok (f e w))) : aop A) (fun _ => True).
Proof. by intros w Hw. Qed.
End Rules.

(** The account a look-up returns is in the document, and the document stays what it was. *)
Lemma find_user_found p e us us' r : Users.find_user p e us = (us', r) ->
  visible us' = visible us /\ forall u, r = Ok (Some u) -> exists d, current Users.users_config us = Some d /\
    u ∈ Users.Users d /\ p u = true.
Proof.
  intros E. pose proof (query_visible Users.users_config (fun _ current => Ok (snd <$> find_where p (Users.Users current))) e us) as Hv.
  unfold Users.find_user in E. rewrite E in Hv. split; [exact Hv|]. intros u ->.
  apply query_ok in E as (d & Hd & Hf). exists d. split; [exact Hd|].
  destruct (find_where p (Users.Users d)) as [[i x]|] eqn:Hx; [|done]. injection Hf as <-.
  by apply find_where_elem in Hx.
Qed.

Lemma Update_result u e us us' v : Users.Update u e us = (us', Ok v) ->
  exists c t, v = Users.set_times c t (Users.normalizeUser u).
Proof.
  intros (d & d' & _ & E & _)%transact_ok. apply Users.updateTx_ok in E as (i & old & _ & -> & _). eauto.
Qed.

(** ** What a session is evidence of *)
Section Evidence.
Context `{Argon2} `{Sealing} `{AuthService}.

Definition accounts (w : world) : list Users.User :=
  match current Users.users_config (w_users w) with Some d => Users.Users d | None => [] end.

(** The password is that of an active account with the username. *)
Definition password_login (w : world) (username password : string) (u : Users.User) : Prop :=
  u ∈ accounts w /\ Users.usr_Username u = Users.normalizeUsername username /\ Users.usr_IsActive u = true /\
  VerifyPassword password (Users.usr_PasswordHash u) = true.

(** The code is one of the account's unused recovery codes, or, without one, the one-time code of
the account's secret at an instant [t]. *)
Definition second_factor (u : Users.User) (nonce code recoveryCode : string) (t : Z) : Prop :=
  if is_blank recoveryCode
  then exists u' secret migrated, resolveUserTOTPSecret u nonce = Ok (u', secret, migrated) /\ VerifyTOTP secret code t = true
  else exists h, h ∈ Users.usr_TOTPRecoveryHashes u /\ is_blank (Users.rec_UsedAt h) = true /\
  VerifyRecoveryCode recoveryCode Pepper (Users.rec_Hash h) (Users.rec_Salt h) = true.

(** [h] is a history that started in [w0]. *)
Definition challenge_evidence (w0 : world) (h : list (auth_env * command)) (id user : string) : Prop :=
  exists h1 e drawn username password h2 u, h = h1 +++ (e, CLogin drawn username password) :: h2 /\
  password_login (run h1 w0) username password u /\ Users.usr_TOTPEnabled u = true /\
  id = dr_token drawn /\ user = normalize_id (Users.usr_ID u).

Inductive session_evidence (w0 : world) (h : list (auth_env * command)) (id user : string) : Prop :=
| by_password h1 e drawn username password h2 u :
  h = h1 +++ (e, CLogin drawn username password) :: h2 ->
  password_login (run h1 w0) username password u -> Users.usr_TOTPEnabled u = false ->
  id = dr_token drawn -> user = normalize_id (Users.usr_ID u) ->
  session_evidence w0 h id user
| by_second_factor h1 e drawn challengeID code recoveryCode h2 u n :
  h = h1 +++ (e, CLogin2FA drawn challengeID code recoveryCode) :: h2 ->
  challenge_evidence w0 h1 (trim_space challengeID) user ->
  u ∈ accounts (run h1 w0) -> Users.usr_ID u = user -> Users.usr_IsActive u = true -> Users.usr_TOTPEnabled u = true ->
  second_factor u (dr_nonce drawn) code recoveryCode (now (au_store e n)) ->
  id = dr_token drawn ->
  session_evidence w0 h id user
| by_bootstrap h1 e drawn username email password h2 :
  h = h1 +++ (e, CBootstrap drawn username email password) :: h2 ->
  accounts (run h1 w0) = [] -> id = dr_token drawn -> user = normalize_id username ->
  session_evidence w0 h id user.

Lemma challenge_evidence_app w0 h h' id user : challenge_evidence w0 h id user -> challenge_evidence w0 (h +++ h') id user.
Proof.
  intros (h1 & e & drawn & username & password & h2 & u & -> & Hr).
  exists h1, e, drawn, username, password, (h2 +++ h'), u. split; [|exact Hr]. by rewrite <- app_assoc.
Qed.

Lemma session_evidence_app w0 h h' id user : session_evidence w0 h id user -> session_evidence w0 (h +++ h') id user.
Proof.
  intros []; subst h; [eapply by_password|eapply by_second_factor|eapply by_bootstrap]; try done; by rewrite <- app_assoc.
Qed.

(** ** One operation *)
Section Step.
Variables (e : auth_env) (w0 : world) (P Q : string -> string -> Prop).

(** The sessions and challenges have their reasons; [start] also says that no account was touched. *)
Definition reasons (us : json_state Users.state) (ss : json_state Sessions.state) : Prop := holds (issued P Q) ss.
Definition start (us : json_state Users.state) (ss : json_state Sessions.state) : Prop :=
  reasons us ss /\ visible us = visible (w_users w0).

Lemma any_users {A} (m : sop Users.state A) : retains e (at_ reasons) (on_users m) (fun _ => True).
Proof. by apply retains_users. Qed.

Lemma any_sessions {A} (m : sop Sessions.state A) :
  preserves (issued P Q) m -> retains e (at_ reasons) (on_sessions m) (fun _ => True).
Proof.
  intros Hm. apply retains_sessions. intros e' us ss ss' r Hs E. split; [|done].
  specialize (Hm e' ss Hs). by rewrite E in Hm.
Qed.

Lemma start_sessions {A} (m : sop Sessions.state A) (phi : A -> Prop) :
  preserves (issued P Q) m ->
  (forall e ss ss' a, holds (issued P Q) ss -> m e ss = (ss', Ok a) -> phi a) ->
  retains e (at_ start) (on_sessions m) phi.
Proof.
  intros Hm Hphi. apply retains_sessions. intros e' us ss ss' r [Hs Hv] E. split.
  - split; [|exact Hv]. specialize (Hm e' ss Hs). by rewrite E in Hm.
  - intros a ->. by eapply Hphi.
Qed.

Lemma start_find p : retains e (at_ start) (on_users (Users.find_user p))
  (fun found => forall u, found = Some u -> u ∈ accounts w0 /\ p u = true).
Proof.
  apply retains_users. intros e' us ss us' r [Hs Hv] E. apply find_user_found in E as [Hv' Hf]. split.
  - split; [exact Hs | by rewrite Hv'].
  - intros a -> u ->. destruct (Hf u eq_refl) as (d & Hd & Hu & Hp). split; [|exact Hp].
    unfold accounts. replace (current _ (w_users w0)) with (Some d); [exact Hu|].
    rewrite <- Hd. unfold current. by rewrite Hv.
Qed.

Lemma start_reasons {A} (m : aop A) phi : retains e (at_ reasons) m phi -> triple e (at_ start) m (fun _ => at_ reasons) (at_ reasons).
Proof. intros Hm. eapply triple_weaken; [exact Hm|by intros w [Hw _]|by intros a w [Hw _]|done]. Qed.

(** From the start on, a step that keeps it: what is left need not know about accounts. *)
Lemma start_then {A B} (m : aop A) (k : A -> aop B) phi :
  retains e (at_ start) m phi ->
  (forall a, phi a -> triple e (at_ start) (k a) (fun _ => at_ reasons) (at_ reasons)) ->
  triple e (at_ start) (m ≫= k) (fun _ => at_ reasons) (at_ reasons).
Proof.
  intros Hm Hk. eapply (triple_bind _ _ _ (fun a w => at_ start w /\ phi a)).
  - eapply triple_weaken; [exact Hm|done|done|]. by intros w [Hw _].
  - intros a. apply triple_pure, Hk.
Qed.

Lemma start_check cond msg {B} (k : aop B) :
  (cond = false -> triple e (at_ start) k (fun _ => at_ reasons) (at_ reasons)) ->
  triple e (at_ start) (of_result (reject_if cond msg);; k) (fun _ => at_ reasons) (at_ reasons).
Proof.
  intros Hk. eapply start_then; [apply (retains_result _ _ (fun _ => cond = false)); intros u; apply reject_if_ok|]. auto.
Qed.

(** *** Operations that issue nothing *)
Definition harmless {A} (m : aop A) : Prop := retains e (at_ reasons) m (fun _ => True).

Lemma harmless_bind {A B} (m : aop A) (k : A -> aop B) : harmless m -> (forall a, harmless (k a)) -> harmless (m ≫= k).
Proof. intros Hm Hk. eapply retains_bind; [exact Hm|]. intros a _. apply Hk. Qed.
Lemma harmless_try {A} (m : aop A) : harmless m -> harmless (try_ m).
Proof. intros Hm. eapply retains_weaken; [by apply retains_try|done]. Qed.
Lemma harmless_result {A} (r : result A) : harmless (of_result r).
Proof. by apply retains_result. Qed.
Lemma harmless_ret {A} (a : A) : harmless (mret a).
Proof. by apply retains_ret. Qed.
Lemma harmless_note n : harmless (note n).
Proof. by intros w Hw. Qed.
Lemma harmless_audited {A} actor action resource (m : aop A) : harmless m -> harmless (audited actor action resource m).
Proof.
  intros Hm. apply harmless_bind; [by apply harmless_try|]. intros r. apply harmless_bind; [apply harmless_note|].
  intros _. apply harmless_result.
Qed.
Lemma harmless_instant {A} t (m : sop Sessions.state A) : preserves (issued P Q) m -> harmless (on_sessions (at_instant t m)).
Proof. intros Hm. apply any_sessions. intros e' s Hs. by apply Hm. Qed.

Ltac harmless_steps := repeat first
  [ apply harmless_ret | apply harmless_result | apply any_users | apply harmless_note | apply (retains_read e) | apply harmless_try
| apply harmless_instant | apply any_sessions
| apply touch_issued | apply delete_issued | apply delete_by_user_issued | apply setup_issued
| apply consume_setup_issued | apply status_issued | apply record_issued | apply grant_issued
| apply harmless_audited
| apply harmless_bind; [|intros ?]
| match goal with
    | |- harmless (match ?x with _ => _ end) => destruct x
    | |- harmless (let _ := _ in _) => cbv zeta
    end ].

Lemma harmless_userByID id : harmless (userByID id).
Proof. unfold userByID, permissions_of. harmless_steps. Qed.

Lemma harmless_Authenticate sid : harmless (Authenticate sid).
Proof. unfold Authenticate, permissions_of. harmless_steps. Qed.

Lemma harmless_verify u password salt : harmless (verifyAndUpgradePassword u password salt).
Proof. unfold verifyAndUpgradePassword. harmless_steps. Qed.

Lemma harmless_get_user id : harmless (get_user id).
Proof. unfold get_user. harmless_steps. Qed.

(** Everything but a login, a second factor and the bootstrap. *)
Lemma harmless_exec c :
  match c with CLogin _ _ _ | CLogin2FA _ _ _ _ | CBootstrap _ _ _ _ => False | _ => True end -> harmless (exec c).
Proof.
  intros Hc. destruct c; try done; cbn [exec]; unfold Logout, SetupTOTP, setupTOTP, EnableTOTP, enableTOTP, DisableTOTP,
  disableTOTP, StepUpTOTP, stepUpTOTP, RequireStepUp, ChangePassword, changePassword, UpdatePreferences,
  updatePreferences, time_now; repeat (harmless_steps; try first
  [apply harmless_userByID | apply harmless_Authenticate | apply harmless_verify | apply harmless_get_user]).
Qed.

(** *** Operations that issue something *)
Lemma createSession_keeps token u : P token (normalize_id (Users.usr_ID u)) -> harmless (createSession token u).
Proof.
  intros HP. unfold createSession, time_now. apply harmless_bind; [by apply any_sessions, create_issued|]. intros s.
  harmless_steps.
Qed.

(** A verified account is the one looked up, up to its hash and normal form. *)
Lemma verify_result u password salt : retains e (at_ reasons) (verifyAndUpgradePassword u password salt)
  (fun r => r.2 = true -> VerifyPassword password (Users.usr_PasswordHash u) = true /\
    normalize_id (Users.usr_ID r.1) = normalize_id (Users.usr_ID u) /\ Users.usr_TOTPEnabled r.1 = Users.usr_TOTPEnabled u).
Proof.
  unfold verifyAndUpgradePassword. destruct (VerifyPassword password _) eqn:Hv; cbn [negb]; [|by apply retains_ret].
  destruct (NeedsPasswordRehash _); cbn [negb]; [|by apply retains_ret].
  eapply retains_bind; [by apply (retains_result _ _ (fun _ => True))|]. intros hash _.
  eapply (retains_bind _ _ _ (fun v => exists c t, v = Users.set_times c t (Users.normalizeUser (Users.set_PasswordHash hash u)))).
  - apply retains_users. intros e' us ss us' r Hs E. split; [done|]. intros v ->. by eapply Update_result.
  - intros v (c & t & ->). apply retains_ret. intros _. split; [done|]. split; [apply normalize_id_idem | done].
Qed.

Lemma login_reasons drawn username password :
  (forall u, password_login w0 username password u ->
    if Users.usr_TOTPEnabled u then Q (dr_token drawn) (normalize_id (Users.usr_ID u))
    else P (dr_token drawn) (normalize_id (Users.usr_ID u))) ->
  triple e (at_ start) (login drawn username password) (fun _ => at_ reasons) (at_ reasons).
Proof.
  intros Hnew. unfold login, Users.FindByUsername. eapply start_then; [apply start_find|]. intros [u|] Hu;
  [|by apply (start_reasons _ (fun _ => True)), harmless_result].
  destruct (Hu u eq_refl) as [Hin Hname%String.eqb_eq]. apply start_check. intros Hactive%negb_false_iff.
  apply (start_reasons _ (fun _ => True)). eapply retains_bind; [apply verify_result|]. intros [v verified] Hv. cbn [fst snd] in *.
  eapply (retains_bind _ _ _ (fun _ => verified = true)).
  { apply retains_result. intros x Hx. apply reject_if_ok in Hx. by apply negb_false_iff in Hx. }
  intros _ ->. destruct (Hv eq_refl) as (Hpw & Hid & Htotp). specialize (Hnew u (conj Hin (conj Hname (conj Hactive Hpw)))).
  rewrite <- Hid in Hnew. rewrite <- Htotp in Hnew. destruct (Users.usr_TOTPEnabled v).
  - apply harmless_bind; [by apply any_sessions, challenge_issued|]. intros c. apply harmless_ret.
  - apply harmless_bind; [by apply createSession_keeps|]. intros s. apply harmless_ret.
Qed.

Lemma consume_found code pepper t hashes hashes' : consume_in code pepper t hashes = Some hashes' ->
  exists h, h ∈ hashes /\ is_blank (Users.rec_UsedAt h) = true /\
  VerifyRecoveryCode code pepper (Users.rec_Hash h) (Users.rec_Salt h) = true.
Proof.
  revert hashes'. induction hashes as [|h hashes IH]; intros hashes'; [done|]. cbn [consume_in].
  destruct (is_blank _ && VerifyRecoveryCode _ _ _ _) eqn:Hh.
  - intros _. apply andb_true_iff in Hh as [Hu Hv]. exists h. split; [by left | by split].
  - destruct (consume_in _ _ _ hashes) as [l|]; [|done]. intros _. destruct (IH l eq_refl) as (x & Hx & Hr).
    exists x. split; [by right | exact Hr].
Qed.

Lemma time_of_command : retains e (at_ start) time_now (fun t => exists n, t = now (au_store e n)).
Proof. intros w Hw. split; [exact Hw|]. by exists (w_calls w). Qed.

Lemma login2FA_reasons drawn challengeID code recoveryCode :
  (forall u n user, Q (trim_space challengeID) user -> u ∈ accounts w0 -> Users.usr_ID u = normalize_id user ->
    Users.usr_IsActive u = true -> Users.usr_TOTPEnabled u = true ->
    second_factor u (dr_nonce drawn) code recoveryCode (now (au_store e n)) ->
    P (dr_token drawn) (normalize_id (Users.usr_ID u))) ->
  triple e (at_ start) (login2FA drawn challengeID code recoveryCode) (fun _ => at_ reasons) (at_ reasons).
Proof.
  intros Hnew. unfold login2FA, Users.Get.
  eapply start_then; [apply (start_sessions _ (fun found => forall c, found = Some c ->
  Q (trim_space challengeID) (Sessions.lch_UserID c))); [apply consume_issued|]|].
  { intros e' ss ss' found Hs E c ->. destruct (redeemed_issued P Q _ _ _ _ _ _ Hs E) as [Hid HQ]. by rewrite <- Hid. }
  intros [c|] HQ; [|by apply (start_reasons _ (fun _ => True)), harmless_result]. specialize (HQ c eq_refl).
  eapply start_then; [apply start_find|]. intros [u|] Hu; [|by apply (start_reasons _ (fun _ => True)), harmless_result].
  destruct (Hu u eq_refl) as [Hin Hid%String.eqb_eq]. apply start_check. intros [Ha%negb_false_iff Ht%negb_false_iff]%orb_false_iff.
  eapply start_then; [apply time_of_command|]. intros t [n ->]. apply (start_reasons _ (fun _ => True)).
  specialize (Hnew u n _ HQ Hin Hid Ha Ht). unfold second_factor in Hnew. destruct (is_blank recoveryCode); cbn [negb].
  - destruct (resolveUserTOTPSecret u _) as [[[u' secret] migrated]|m] eqn:Hr; [|apply harmless_result].
    apply harmless_bind; [destruct migrated; harmless_steps|]. intros _.
    eapply (retains_bind _ _ _ (fun _ => VerifyTOTP secret code (now (au_store e n)) = true)).
    { apply retains_result. intros x Hx. apply reject_if_ok in Hx. by apply negb_false_iff in Hx. }
    intros _ Hv. apply createSession_keeps, Hnew. by exists u', secret, migrated.
  - unfold consumeRecoveryCode. destruct (consume_in _ _ _ _) as [l|] eqn:Hc; [|apply harmless_result].
    apply consume_found in Hc. cbn. apply harmless_bind; [apply any_users|]. intros x.
    apply createSession_keeps. exact (Hnew Hc).
Qed.

Lemma start_count : retains e (at_ start) (on_users Users.Count) (fun n => n = Z.of_nat (length (accounts w0))).
Proof.
  apply retains_users. intros e' us ss us' r [Hs Hv] E.
  pose proof (query_visible Users.users_config (fun _ current => Ok (Z.of_nat (length (Users.Users current)))) e' us) as Hq.
  unfold Users.Count in E. rewrite E in Hq. split; [split; [exact Hs | by etransitivity]|]. intros n ->.
  apply query_ok in E as (d & Hd & [= <-]). unfold accounts. replace (current _ (w_users w0)) with (Some d); [done|].
  rewrite <- Hd. unfold current. by rewrite Hv.
Qed.

Lemma Create_result u e' us us' v : Users.Create u e' us = (us', Ok v) -> Users.usr_ID v = normalize_id (Users.usr_ID u).
Proof. intros (d & d' & _ & E & _)%transact_ok. apply Users.createTx_ok in E as (-> & _). done. Qed.

Lemma bootstrap_reasons drawn username email password :
  (accounts w0 = [] -> P (dr_token drawn) (normalize_id username)) ->
  triple e (at_ start) (bootstrap drawn username email password) (fun _ => at_ reasons) (at_ reasons).
Proof.
  intros Hnew. unfold bootstrap. cbv zeta. do 3 (apply start_check; intros _).
  eapply start_then; [apply start_count|]. intros n ->. apply start_check. intros Hn%Z.ltb_ge.
  apply (start_reasons _ (fun _ => True)). apply harmless_bind; [apply harmless_result|]. intros hash.
  eapply (retains_bind _ _ _ (fun v => Users.usr_ID v = normalize_id (trim_space username))).
  - apply retains_users. intros e' us ss us' r Hs E. split; [done|]. intros v ->. by apply Create_result in E.
  - intros v Hv. apply createSession_keeps. rewrite Hv, normalize_id_idem. unfold normalize_id.
    rewrite trim_space_idem. apply Hnew. destruct (accounts w0); [done | simpl in Hn; lia].
Qed.

(** What a command may issue, and to whom. *)
Definition may_issue (c : command) : Prop :=
  match c with
  | CLogin drawn username password => forall u, password_login w0 username password u ->
    if Users.usr_TOTPEnabled u then Q (dr_token drawn) (normalize_id (Users.usr_ID u))
    else P (dr_token drawn) (normalize_id (Users.usr_ID u))
  | CLogin2FA drawn challengeID code recoveryCode => forall u n user,
    Q (trim_space challengeID) user -> u ∈ accounts w0 -> Users.usr_ID u = normalize_id user ->
    Users.usr_IsActive u = true -> Users.usr_TOTPEnabled u = true ->
    second_factor u (dr_nonce drawn) code recoveryCode (now (au_store e n)) ->
    P (dr_token drawn) (normalize_id (Users.usr_ID u))
  | CBootstrap drawn username _ _ => accounts w0 = [] -> P (dr_token drawn) (normalize_id username)
  | _ => True
  end.

Lemma triple_unit {A} (m : aop A) :
  triple e (at_ start) m (fun _ => at_ reasons) (at_ reasons) ->
  triple e (at_ start) (m;; mret tt) (fun _ => at_ reasons) (at_ reasons).
Proof. intros Hm. eapply triple_bind; [exact Hm|]. by intros a w Hw. Qed.

Lemma exec_reasons c : may_issue c -> triple e (at_ start) (exec c) (fun _ => at_ reasons) (at_ reasons).
Proof.
  intros Hc. destruct c; try (by apply (start_reasons _ (fun _ => True)), harmless_exec); cbn [exec].
  - by apply triple_unit, triple_audited, login_reasons.
  - by apply triple_unit, triple_audited, login2FA_reasons.
  - by apply triple_unit, triple_audited, bootstrap_reasons.
Qed.
End Step.

Lemma exec_issued e w P Q c : holds (issued P Q) (w_sessions w) -> may_issue e w P Q c ->
  holds (issued P Q) (w_sessions (exec c e w).1).
Proof.
  intros Hw Hc. pose proof (exec_reasons e w P Q c Hc w (conj Hw eq_refl)) as Hr.
  by destruct (exec c e w) as [w' [[]|msg]].
Qed.

Lemma issued_weaken (P Q P' Q' : string -> string -> Prop) s :
  (forall id user, P id user -> P' id user) -> (forall id user, Q id user -> Q' id user) ->
  holds (issued P Q) s -> holds (issued P' Q') s.
Proof. intros HP HQ Hs d [Hp Hq]%Hs. split; eauto. Qed.

Lemma history_snoc h e c w : run (h +++ [(e, c)]) w = (exec c e (run h w)).1.
Proof. unfold run. by rewrite foldl_app. Qed.

Lemma challenge_evidence_snoc w0 h e c id user :
  match c with CLogin _ _ _ => False | _ => True end ->
  challenge_evidence w0 (h +++ [(e, c)]) id user -> challenge_evidence w0 h id user.
Proof.
  intros Hc (h1 & e1 & drawn & username & password & h2 & u & Hh & Hr).
  destruct h2 as [|x h2 _] using rev_ind.
  - apply app_inj_tail in Hh as [_ [= _ ->]]. done.
  - rewrite app_comm_cons, app_assoc in Hh. apply app_inj_tail in Hh as [-> _].
    by exists h1, e1, drawn, username, password, h2, u.
Qed.

Lemma challenge_user w0 h id user : challenge_evidence w0 h id user -> normalize_id user = user.
Proof. intros (h1 & e1 & drawn & username & password & h2 & u & Hh & Hp & Ht & Hid & ->). apply normalize_id_idem. Qed.

(** What a command may issue after [h] is what the longer history has evidence of. *)
Lemma evidence_may_issue w0 h e c :
  may_issue e (run h w0) (session_evidence w0 (h +++ [(e, c)])) (challenge_evidence w0 (h +++ [(e, c)])) c.
Proof.
  destruct c; cbn [may_issue]; try done.
  - intros u Hu. destruct (Users.usr_TOTPEnabled u) eqn:Ht; [|by eapply by_password].
    by eexists h, e, drawn, username, password, [], u.
  - intros u n user HQ Hin Hid Ha Ht Hf.
    pose proof (challenge_user _ _ _ _ HQ) as Hn. rewrite Hid, Hn, Hn. apply challenge_evidence_snoc in HQ; [|done].
    eapply by_second_factor; try done. by rewrite Hid.
  - intros Hw. by eapply by_bootstrap.
Qed.

Lemma run_issued w0 h : w_sessions w0 = new_file_state ->
  holds (issued (session_evidence w0 h) (challenge_evidence w0 h)) (w_sessions (run h w0)).
Proof.
  intros Hw0. induction h as [|[e c] h IH] using rev_ind; [cbn; rewrite Hw0; apply holds_new_file|].
  rewrite history_snoc. apply exec_issued.
  - eapply issued_weaken; [..|exact IH]; intros id user; [apply session_evidence_app | apply challenge_evidence_app].
  - apply evidence_may_issue.
Qed.

End Evidence.

(** ** A sample service *)
Module Samples.
#[export] Instance service : AuthService := {|
  Pepper := "pepper"; sessionTTL := 8 * hour; challengeTTL := 5 * minute; issuer := "WAF";
  atomic := true; stepUps := true; ParseAddress := fun _ => true; qr_png := fun text => Ok text
|}.
#[export] Existing Instance Factors.Samples.toy_argon.
#[export] Existing Instance Factors.Samples.toy_sealing.

Definition at_time (t : Z) : auth_env := AuthEnv (fun n => Env t None None None None) (fun _ roles => roles).
Definition drawn (token : string) : Drawn :=
  MkDrawn token "0123456789abcdef" "fedcba9876543210" "12345678901234567890" "nonce-nonce-" (fun _ => "") (fun _ => "").
Definition t0 : Z := 1700000000 * second.
Definition secret : string := NewTOTPSecret "12345678901234567890".
Definition account (id : string) (totp : bool) : Users.User :=
  Users.MkUser id id "" "" "" "" "" "" "" [] ""
    (match HashPassword "correct horse" "0123456789abcdef" with Ok h => h | Err _ => "" end)
    true ["admin"] totp (if totp then secret else "") "" [] "" "" "".
Definition empty_world : world := World new_file_state new_file_state [] 0.
Definition history : list (auth_env * command) := [
  (at_time t0, CUsers (Users.CCreate (account "ann" false)));
  (at_time t0, CUsers (Users.CCreate (account "bob" true)));
  (at_time (t0 + minute), CLogin (drawn "s1") "ann" "wrong");
  (at_time (t0 + minute), CLogin (drawn "s2") "ann" "correct horse");
  (at_time (t0 + minute), CLogin (drawn "c1") "bob" "correct horse");
  (at_time (t0 + 2 * minute), CLogin2FA (drawn "s3") "c1" "000000" "");
  (at_time (t0 + 2 * minute), CLogin (drawn "c2") "bob" "correct horse");
  (at_time (t0 + 2 * minute), CLogin2FA (drawn "s4") "c2" (generateTOTP secret (t0 + 2 * minute)) "")].
End Samples.
Import Samples.
Definition sample_sessions : Sessions.state := Eval vm_compute in
  match visible (w_sessions (run Samples.history Samples.empty_world)) with
  | Some (Decodes d) => d | _ => Sessions.MkState [] [] [] [] [] [] end.
Lemma sample_sessions_visible :
  visible (w_sessions (run Samples.history Samples.empty_world)) = Some (Decodes sample_sessions).
Proof. vm_compute. reflexivity. Qed.

