(* ===== verification/Files.v ===== *)
(** * Paths and files (Go's path/filepath and os, as the compiler uses them)

    Absolute paths are lists of components.  [join_path] is [filepath.Join] on an absolute path:
    lexical cleaning of ["."], [".."] and empty components.  The file system maps paths to files
    and directories; every operation can be made to fail by the environment, and a failing write
    or removal may have happened in part.  Symbolic links, permissions and relative roots are not
    modelled. *)
From Stdlib Require Import ZArith Lia Ascii String.
From stdpp Require Import base tactics gmap strings list.
From S2P Require Import Prelude.
Local Open Scope nat_scope.

(** ** filepath.Clean, Join, Rel, IsAbs *)
Abbreviation fpath := (list string).

(** One component of [filepath.Clean], on the reversed output. *)
Definition clean_step (rooted : bool) (acc : list string) (c : string) : list string :=
  if String.eqb c "" || String.eqb c "." then acc
  else if String.eqb c ".." then
    match acc with
    | [] => if rooted then [] else [".."%string]
    | d :: acc' => if String.eqb d ".." then ".."%string :: acc else acc'
    end
  else c :: acc.

Definition clean_from (rooted : bool) (start : list string) (s : string) : list string :=
  rev (foldl (clean_step rooted) (rev start) (split_on "/" s)).

Definition is_abs (s : string) : bool := has_prefix "/" s.

(** [filepath.Clean] *)
Definition clean (s : string) : string :=
  let rooted := is_abs s in
  match rooted, clean_from rooted [] s with
  | true, parts => ("/" ++ join "/" parts)%string
  | false, [] => "."%string
  | false, parts => join "/" parts
  end.

(** [filepath.Join(p, s)] for an absolute [p] *)
Definition join_path (p : fpath) (s : string) : fpath := clean_from true p s.

Definition dir_path (p : fpath) : fpath := rev (tail (rev p)).
Definition path_string (p : fpath) : string := ("/" ++ join "/" p)%string.

(** [filepath.Rel(base, target)] on absolute paths *)
Fixpoint rel_path (base target : fpath) : list string :=
  match base, target with
  | b :: base', t :: target' =>
      if String.eqb b t then rel_path base' target'
      else repeat ".."%string (length base) ++ target
  | _, _ => repeat ".."%string (length base) ++ target
  end.

(** The components an absolute clean path can have. *)
Definition plain (c : string) : Prop := c <> ""%string /\ c <> "."%string /\ c <> ".."%string.

Lemma clean_step_push b acc c : plain c -> clean_step b acc c = c :: acc.
Proof.
  intros (H1 & H2 & H3). unfold clean_step. apply String.eqb_neq in H1, H2, H3.
  by rewrite H1, H2, H3.
Qed.

Lemma clean_step_plain acc c :
  Forall plain acc -> Forall plain (clean_step true acc c).
Proof.
  intros H. unfold clean_step.
  destruct (String.eqb_spec c ""); [done|]. destruct (String.eqb_spec c "."); [done|]. simpl.
  destruct (String.eqb_spec c ".."); [|by constructor].
  destruct H as [|d acc' Hd Hacc]; [constructor|].
  destruct (String.eqb_spec d ".."); [by destruct Hd as (_ & _ & []) | done].
Qed.

Lemma foldl_clean_plain l acc :
  Forall plain acc -> Forall plain (foldl (clean_step true) acc l).
Proof. revert acc. induction l as [|c l IH]; intros acc H; simpl; [done|]. by apply IH, clean_step_plain. Qed.

Lemma join_path_plain p s : Forall plain p -> Forall plain (join_path p s).
Proof.
  intros H. unfold join_path, clean_from. apply Forall_rev, foldl_clean_plain. by apply Forall_rev.
Qed.

(** A single plain component is appended. *)
Lemma split_on_no_sep sep s :
  all_chars (fun c => negb (Ascii.eqb c sep)) s = true -> split_on sep s = [s].
Proof.
  induction s as [|c s IH]; [done|]. cbn [all_chars split_on]. intros [Hc Hs]%andb_true_iff.
  apply negb_true_iff in Hc. rewrite Hc. by rewrite IH.
Qed.

Lemma join_path_component p c :
  plain c -> all_chars (fun a => negb (Ascii.eqb a "/")) c = true ->
  join_path p c = p ++ [c].
Proof.
  intros Hp Hc. unfold join_path, clean_from. rewrite split_on_no_sep by done.
  cbn [foldl]. rewrite clean_step_push by done. simpl. by rewrite rev_involutive.
Qed.

Lemma rel_path_inside base target :
  Forall plain target ->
  (forall c r, rel_path base target = c :: r -> c <> ".."%string) <-> base `prefix_of` target.
Proof.
  revert target. induction base as [|b base IH]; intros target Ht.
  - split; [intros _; apply prefix_nil|]. intros _ c r E. simpl in E.
    subst target. by apply Forall_cons_1 in Ht as [(_ & _ & ?) _].
  - destruct Ht as [|t target Hp Ht]; simpl.
    + split; [intros H; by destruct (H ".."%string _ eq_refl) | intros H; by apply prefix_nil_not in H].
    + destruct (String.eqb_spec b t) as [->|Hne].
      * rewrite IH by done. split; [apply prefix_cons | apply prefix_cons_inv_2].
      * split; [intros H; by destruct (H ".."%string _ eq_refl)|].
        intros H%prefix_cons_inv_1. done.
Qed.

(** ** The file system *)
Inductive node := File (content : string) | Dir.
#[export] Instance node_eq_dec : EqDecision node.
Proof. solve_decision. Defined.

Abbreviation fs := (gmap fpath node).

(** Which operations fail, how much of a failing write reached the file, and what a failing
    removal left behind. *)
Record io_env := IOEnv {
  io_fault : string -> fpath -> option string;
  io_written : fpath -> nat;
  io_kept : fpath -> bool
}.
Definition io_ok : io_env := IOEnv (fun _ _ => None) (fun _ => 0) (fun _ => false).

Definition fsop (A : Type) : Type := io_env -> fs -> fs * result A.
#[export] Instance fsop_ret : MRet fsop := fun A a e f => (f, Ok a).
#[export] Instance fsop_bind : MBind fsop := fun A B k m e f =>
  match m e f with
  | (f', Ok a) => k a e f'
  | (f', Err msg) => (f', Err msg)
  end.
Definition fs_lift {A} (r : result A) : fsop A := fun e f => (f, r).
Definition fs_wrap {A} (prefix : string) (m : fsop A) : fsop A := fun e f =>
  match m e f with
  | (f', Err msg) => (f', Err (prefix ++ msg)%string)
  | r => r
  end.

Definition node_at (f : fs) (p : fpath) : option node :=
  match p with [] => Some Dir | _ => f !! p end.
Definition file_at (f : fs) (p : fpath) : option string :=
  match node_at f p with Some (File c) => Some c | _ => None end.

(** [os.Stat]; [None] is [os.ErrNotExist]. *)
Definition stat (p : fpath) : fsop (option node) := fun e f =>
  match io_fault e "stat" p with
  | Some msg => (f, Err msg)
  | None => (f, Ok (node_at f p))
  end.

(** [os.ReadFile]; [None] is [os.ErrNotExist]. *)
Definition read_file (p : fpath) : fsop (option string) := fun e f =>
  match io_fault e "read" p with
  | Some msg => (f, Err msg)
  | None =>
      match node_at f p with
      | Some (File c) => (f, Ok (Some c))
      | Some Dir => (f, Err "is a directory")
      | None => (f, Ok None)
      end
  end.

(** A path and the paths above it, outermost first. *)
Definition parents (p : fpath) : list fpath := (fun n => take n p) <$> seq 1 (length p).

Definition add_dir (f : fs) (p : fpath) : fs :=
  match f !! p with Some _ => f | None => <[p := Dir]> f end.

(** [os.MkdirAll] *)
Definition mkdir_all (p : fpath) : fsop unit := fun e f =>
  match io_fault e "mkdir" p with
  | Some msg => (f, Err msg)
  | None =>
      if existsb (fun q => if file_at f q is Some _ then true else false) (parents p)
      then (f, Err "not a directory")
      else (foldl add_dir f (parents p), Ok tt)
  end.

Fixpoint take_chars (n : nat) (s : string) : string :=
  match n, s with
  | S n', String c s' => String c (take_chars n' s')
  | _, _ => ""%string
  end.

(** [os.WriteFile] *)
Definition write_file (p : fpath) (content : string) : fsop unit := fun e f =>
  match node_at f (dir_path p), node_at f p with
  | Some Dir, Some Dir => (f, Err "is a directory")
  | Some Dir, _ =>
      match io_fault e "write" p with
      | Some msg => (<[p := File (take_chars (io_written e p) content)]> f, Err msg)
      | None => (<[p := File content]> f, Ok tt)
      end
  | _, _ => (f, Err "no such file or directory")
  end.

(** [os.Rename] of a file *)
Definition rename (src dst : fpath) : fsop unit := fun e f =>
  match io_fault e "rename" dst with
  | Some msg => (f, Err msg)
  | None =>
      match f !! src, node_at f dst with
      | None, _ => (f, Err "no such file or directory")
      | Some n, Some Dir => (f, Err "file exists")
      | Some n, _ => (<[dst := n]> (delete src f), Ok tt)
      end
  end.

Definition remove_under (p : fpath) (keep : fpath -> bool) (f : fs) : fs :=
  filter (fun kv => ~ (p `prefix_of` kv.1) \/ keep kv.1 = true) f.

(** [os.RemoveAll] *)
Definition remove_all (p : fpath) : fsop unit := fun e f =>
  match io_fault e "remove" p with
  | Some msg => (remove_under p (io_kept e) f, Err msg)
  | None => (remove_under p (fun _ => false) f, Ok tt)
  end.

(** [os.Remove] with its error dropped *)
Definition remove_quietly (p : fpath) : fsop unit := fun e f =>
  match io_fault e "remove" p with
  | Some _ => (f, Ok tt)
  | None => (delete p f, Ok tt)
  end.

Definition is_file (n : node) : bool := match n with File _ => true | Dir => false end.

(** The regular files [filepath.Walk] finds below [p]. *)
Definition files_under (p : fpath) (f : fs) : list (fpath * node) :=
  filter (fun kv => p `prefix_of` kv.1 /\ is_file kv.2 = true) (map_to_list f).

Definition walk_count (p : fpath) : fsop nat := fun e f =>
  match io_fault e "walk" p with
  | Some msg => (f, Err msg)
  | None => (f, Ok (length (files_under p f)))
  end.

(** *** Frames *)

(** [m] leaves every file outside [region] alone, whatever fails. *)
Definition touches_only {A} (region : fpath -> Prop) (m : fsop A) : Prop :=
  forall e f q, ~ region q -> file_at (m e f).1 q = file_at f q.

Definition read_only {A} (m : fsop A) : Prop := forall e f, (m e f).1 = f.

Lemma read_only_touches {A} region (m : fsop A) : read_only m -> touches_only region m.
Proof. intros H e f q _. by rewrite H. Qed.

Lemma touches_bind {A B} region (m : fsop A) (k : A -> fsop B) :
  touches_only region m -> (forall a, touches_only region (k a)) -> touches_only region (m ≫= k).
Proof.
  intros Hm Hk e f q Hq. specialize (Hm e f q Hq). unfold mbind, fsop_bind.
  destruct (m e f) as [f' [a|msg]]; simpl in *; [|done]. by rewrite Hk.
Qed.

Lemma touches_wrap {A} region s (m : fsop A) : touches_only region m -> touches_only region (fs_wrap s m).
Proof.
  intros Hm e f q Hq. specialize (Hm e f q Hq). unfold fs_wrap. by destruct (m e f) as [f' [a|msg]].
Qed.

Lemma touches_mono {A} (r r' : fpath -> Prop) (m : fsop A) :
  (forall q, r q -> r' q) -> touches_only r m -> touches_only r' m.
Proof. intros Hr Hm e f q Hq. apply Hm. intros Hq'. by apply Hq, Hr. Qed.

Lemma lift_read_only {A} (r : result A) : read_only (fs_lift r).
Proof. done. Qed.
Lemma ret_read_only {A} (a : A) : read_only (mret a : fsop A).
Proof. done. Qed.
Lemma stat_read_only p : read_only (stat p).
Proof. intros e f. unfold stat. by destruct (io_fault _ _ _). Qed.
Lemma read_file_read_only p : read_only (read_file p).
Proof. intros e f. unfold read_file. by repeat case_match. Qed.
Lemma walk_count_read_only p : read_only (walk_count p).
Proof. intros e f. unfold walk_count. by destruct (io_fault _ _ _). Qed.
Lemma wrap_read_only {A} s (m : fsop A) : read_only m -> read_only (fs_wrap s m).
Proof. intros Hm e f. specialize (Hm e f). unfold fs_wrap. by destruct (m e f) as [f' [a|msg]]. Qed.
Lemma bind_read_only {A B} (m : fsop A) (k : A -> fsop B) :
  read_only m -> (forall a, read_only (k a)) -> read_only (m ≫= k).
Proof.
  intros Hm Hk e f. specialize (Hm e f). unfold mbind, fsop_bind.
  destruct (m e f) as [f' [a|msg]]; simpl in *; subst; [apply Hk | done].
Qed.
#[export] Hint Resolve lift_read_only ret_read_only stat_read_only read_file_read_only
  walk_count_read_only wrap_read_only bind_read_only : go.

Lemma node_at_insert f p n q :
  p <> [] -> node_at (<[p := n]> f) q = if decide (p = q) then Some n else node_at f q.
Proof.
  intros Hp. destruct q as [|c q]; simpl; [by rewrite decide_False|].
  rewrite lookup_insert. by destruct (decide (p = c :: q)).
Qed.

Lemma file_at_add_dir f p q : p <> [] -> file_at (add_dir f p) q = file_at f q.
Proof.
  intros Hp. unfold add_dir. destruct (f !! p) as [n|] eqn:E; [done|].
  unfold file_at. rewrite node_at_insert by done. case_decide; [|done]. subst q.
  destruct p; [done|]. simpl. by rewrite E.
Qed.

Lemma parents_nonempty p q : q ∈ parents p -> q <> [].
Proof.
  unfold parents. intros (n & -> & Hn)%list_elem_of_fmap.
  apply list_elem_of_In, in_seq in Hn. intros E%(f_equal length).
  rewrite length_take in E. simpl in E. lia.
Qed.

Lemma file_at_add_dirs l f q :
  Forall (fun p => p <> []) l -> file_at (foldl add_dir f l) q = file_at f q.
Proof.
  intros Hl. revert f. induction Hl as [|p l Hp Hl IH]; intros f; simpl; [done|].
  by rewrite IH, file_at_add_dir.
Qed.

Lemma file_at_mkdir p e f q : file_at (mkdir_all p e f).1 q = file_at f q.
Proof.
  unfold mkdir_all. destruct (io_fault _ _ _); [done|]. destruct (existsb _ _); [done|]. simpl.
  apply file_at_add_dirs, Forall_forall, parents_nonempty.
Qed.

Lemma mkdir_touches region p : touches_only region (mkdir_all p).
Proof. intros e f q _. apply file_at_mkdir. Qed.

Lemma file_at_insert f p n q :
  p <> [] ->
  file_at (<[p := n]> f) q =
  if decide (p = q) then match n with File c => Some c | Dir => None end else file_at f q.
Proof. intros Hp. unfold file_at. rewrite node_at_insert by done. by destruct (decide (p = q)). Qed.

Lemma file_at_delete f p q :
  p <> [] -> file_at (delete p f) q = if decide (p = q) then None else file_at f q.
Proof.
  intros Hp. unfold file_at. destruct q as [|c q]; simpl; [by rewrite decide_False|].
  rewrite lookup_delete. by destruct (decide (p = c :: q)).
Qed.

Lemma write_file_cases p content e f :
  (exists n, write_file p content e f = (<[p := n]> f, Ok tt) /\ n = File content /\ p <> []) \/
  (exists msg f', write_file p content e f = (f', Err msg) /\
     forall q, q <> p -> file_at f' q = file_at f q).
Proof.
  unfold write_file. destruct p as [|c p].
  - right. destruct (node_at f (dir_path [])) as [[]|]; simpl; eauto.
  - destruct (node_at f (dir_path (c :: p))) as [[]|]; [right; eauto | | right; eauto].
    destruct (node_at f (c :: p)) as [[]|]; [|right; eauto|];
      (destruct (io_fault _ _ _); [right; do 2 eexists; split; [done|];
         intros q Hq; rewrite file_at_insert by done; by rewrite decide_False | left; eauto]).
Qed.

Lemma write_file_touches p content : touches_only (eq p) (write_file p content).
Proof.
  intros e f q Hq. destruct (write_file_cases p content e f) as
    [(n & -> & -> & Hp)|(msg & f' & -> & Hf)]; simpl.
  - rewrite file_at_insert by done. by rewrite decide_False.
  - apply Hf. congruence.
Qed.

Lemma file_at_remove_under p keep f q :
  ~ (p `prefix_of` q) -> file_at (remove_under p keep f) q = file_at f q.
Proof.
  intros Hq. unfold file_at, node_at. destruct q as [|c q]; [done|]. unfold remove_under.
  rewrite map_lookup_filter. destruct (f !! (c :: q)) as [n|]; simpl; [|done].
  rewrite option_guard_True; [done | by left].
Qed.

Lemma remove_all_touches p : touches_only (prefix p) (remove_all p).
Proof.
  intros e f q Hq. unfold remove_all. destruct (io_fault _ _ _); simpl; by apply file_at_remove_under.
Qed.

Lemma file_at_removed p f q :
  p <> [] -> p `prefix_of` q -> file_at (remove_under p (fun _ => false) f) q = None.
Proof.
  intros Hp Hq. unfold file_at, node_at. destruct q as [|c q]; [by apply prefix_nil_inv in Hq|].
  unfold remove_under. rewrite map_lookup_filter. destruct (f !! (c :: q)) as [n|]; simpl; [|done].
  rewrite option_guard_False; [done|]. intros [H|H]; done.
Qed.

(** *** Paths made of components print and parse back *)
Definition no_slash (c : string) : bool := all_chars (fun a => negb (Ascii.eqb a "/")) c.
Definition component (c : string) : Prop := plain c /\ no_slash c = true.

Lemma split_on_no_slash s : Forall (fun c => no_slash c = true) (split_on "/" s).
Proof.
  induction s as [|c s IH]; simpl; [by constructor|].
  destruct (Ascii.eqb c "/") eqn:Hc; [by constructor|].
  destruct IH as [|w ws Hw Hws]; constructor; try done; unfold no_slash; simpl; by rewrite Hc.
Qed.

Lemma clean_step_component acc c :
  Forall component acc -> no_slash c = true -> Forall component (clean_step true acc c).
Proof.
  intros H Hc. unfold clean_step.
  destruct (String.eqb_spec c ""); [done|]. destruct (String.eqb_spec c "."); [done|]. simpl.
  destruct (String.eqb_spec c "..") as [|Hn]; [|by constructor].
  destruct H as [|d acc' Hd Hacc]; [constructor|].
  destruct (String.eqb_spec d ".."); [by destruct Hd as ((_ & _ & []) & _) | done].
Qed.

Lemma join_path_components p s : Forall component p -> Forall component (join_path p s).
Proof.
  intros H. unfold join_path, clean_from. apply Forall_rev.
  pose proof (split_on_no_slash s) as Hs. apply Forall_rev in H. revert H. generalize (rev p).
  induction Hs as [|c l Hc Hl IH]; intros acc H; simpl; [done|]. by apply IH, clean_step_component.
Qed.

Lemma component_plain p : Forall component p -> Forall plain p.
Proof. intros H. eapply Forall_impl; [exact H|]. by intros c [? _]. Qed.

Lemma split_on_slash_app c s :
  no_slash c = true -> split_on "/" (c ++ String "/" s) = c :: split_on "/" s.
Proof.
  induction c as [|a c IH]; [done|]. unfold no_slash. cbn [all_chars]. intros [Ha Hc]%andb_true_iff.
  apply negb_true_iff in Ha. change (String a c ++ String "/" s)%string with
    (String a (c ++ String "/" s)). cbn [split_on]. by rewrite Ha, IH.
Qed.

Lemma split_on_join l :
  l <> [] -> Forall (fun c => no_slash c = true) l -> split_on "/" (join "/" l) = l.
Proof.
  induction l as [|c l IH]; intros Hl H; [done|]. apply Forall_cons_1 in H as [Hc H].
  destruct l as [|d l]; [by apply split_on_no_sep|].
  change (join "/" (c :: d :: l)) with (c ++ String "/" (join "/" (d :: l)))%string.
  rewrite split_on_slash_app by done. by rewrite IH.
Qed.

Lemma clean_components acc l :
  Forall component l -> foldl (clean_step true) acc l = rev l ++ acc.
Proof.
  intros H. revert acc. induction H as [|c l [Hc _] Hl IH]; intros acc; simpl; [done|].
  rewrite clean_step_push by done. by rewrite IH, <- app_assoc.
Qed.

Lemma clean_path_string p : Forall component p -> clean_from true [] (path_string p) = p.
Proof.
  intros H. unfold clean_from, path_string. destruct p as [|c p]; [done|].
  change (split_on "/" ("/" ++ join "/" (c :: p))) with (""%string :: split_on "/" (join "/" (c :: p))).
  rewrite split_on_join; [|done|].
  - change (foldl (clean_step true) (rev []) (""%string :: c :: p)) with
      (foldl (clean_step true) [] (c :: p)).
    rewrite clean_components by done. by rewrite app_nil_r, rev_involutive.
  - eapply Forall_impl; [exact H|]. by intros d [_ ?].
Qed.

Lemma path_string_not_blank p : is_blank (path_string p) = false.
Proof. by apply is_blank_cons. Qed.
