(* ===== verification/Blobs.v ===== *)
(** * Documents and blobs (control-plane/internal/storage: backend.go, migrate.go)

    Key files, certificates and revision snapshots are kept as bytes: as files below a directory, or
    as rows of two Postgres tables.  The world [disk] holds both, so that a store of either kind runs
    over it; every call to the file system or the database is numbered and can fail.  A failed
    statement left its table alone.  The LIKE of SQL is the class [SqlLike]. *)
From Stdlib Require Import ZArith Lia Ascii String.
From stdpp Require Import base tactics gmap strings list.
From S2P Require Import Prelude GoNet GoSeq Service Files.
Local Set Warnings "-clear-no-such-hyp".
Local Open Scope string_scope.
Local Notation "a +++ b" := (@app _ a b) (at level 60, right associativity).

(** ** The world *)
Inductive table := Documents | BlobTable.
#[export] Instance table_eq_dec : EqDecision table.
Proof. solve_decision. Defined.

Abbreviation rows := (gmap string string).

Record disk := Disk {
  d_files : fs;
  d_rows : table -> rows;
  d_calls : nat
}.

Record disk_env := DiskEnv {
  k_io : nat -> io_env;             (* faults of a file operation *)
  k_db : nat -> option string;      (* the failure of a statement *)
  k_now : nat -> Z                  (* time.Now(), Unix nanoseconds *)
}.
Definition calm : disk_env := DiskEnv (fun _ => io_ok) (fun _ => None) (fun _ => 0%Z).

Abbreviation dop := (rop disk_env disk).

Definition on_files {A} (m : fsop A) : dop A := fun e w =>
  let (f, r) := m (k_io e (d_calls w)) (d_files w) in (Disk f (d_rows w) (S (d_calls w)), r).
Definition statement {A} (f : (table -> rows) -> (table -> rows) * A) : dop A := fun e w =>
  match k_db e (d_calls w) with
  | Some msg => (Disk (d_files w) (d_rows w) (S (d_calls w)), Err msg)
  | None => let (r, a) := f (d_rows w) in (Disk (d_files w) r (S (d_calls w)), Ok a)
  end.
Definition clock : dop Z := fun e w => (w, Ok (k_now e (d_calls w))).

(** [fmt.Errorf("...: %w", err)] *)
Definition wrapped {A} (prefix : string) (m : dop A) : dop A := fun e w =>
  match m e w with (w', Err msg) => (w', Err (prefix ++ msg)) | r => r end.

(** ** The Postgres backend *)
Class SqlLike := {
  sql_like : string -> string -> bool;
  (** a pattern without wildcards and escapes, and a percent sign: the keys that begin with it *)
  sql_like_begins p k : all_chars (fun c => negb (has_char c "%_\")) p = true -> sql_like (p ++ "%") k = has_prefix p k
}.

Definition set_rows (t : table) (r : rows) (rs : table -> rows) : table -> rows :=
  fun t' => if decide (t = t') then r else rs t'.

(** [PostgresBackend.load]; [None] is [ErrNotFound] *)
Definition load (t : table) (key : string) : dop (option string) := statement (fun rs => (rs, rs t !! trim_space key)).
Definition save (t : table) (key content : string) : dop unit :=
  statement (fun rs => (set_rows t (<[trim_space key := content]> (rs t)) rs, tt)).
Definition del (t : table) (key : string) : dop unit :=
  statement (fun rs => (set_rows t (delete (trim_space key) (rs t)) rs, tt)).

Section Backend.
Context `{SqlLike}.

Definition DeleteBlobsByPrefix (prefix : string) : dop unit :=
  statement (fun rs =>
    (set_rows BlobTable (filter (fun kv => sql_like (trim_space prefix ++ "%") kv.1 = false) (rs BlobTable)) rs, tt)).
Definition ListBlobKeys (prefix : string) : dop (list string) :=
  statement (fun rs => (rs, sort_on id (List.filter (sql_like (trim_space prefix ++ "%")) (map_to_list (rs BlobTable)).*1))).
End Backend.

(** [HasDocument], [HasBlob] *)
Definition has_row (t : table) (key : string) : dop bool :=
  found ← load t key; mret (if (found : option string) is Some _ then true else false).

(** [MigrateLegacyDocument], [MigrateLegacyBlob] *)
Definition MigrateLegacy (t : table) (key : string) (legacyPath : fpath) : dop unit :=
  present ← has_row t key;
  if (present : bool) then mret tt
  else
    content ← on_files (read_file legacyPath);
    match content with
    | None => mret tt
    | Some content => save t key content
    end.

Definition ErrNotFound : string := "storage object not found".

(** A row that is missing, brought over from its legacy file. *)
Definition migrated (t : table) (key : string) (legacyPath : fpath) : dop string :=
  MigrateLegacy t key legacyPath;;
  content ← load t key;
  of_result (match content with Some content => Ok content | None => Err ErrNotFound end).

(** [LoadBlob] with that fallback, as both stores read their blobs *)
Definition load_or_migrate (t : table) (key : string) (legacyPath : fpath) : dop string :=
  content ← load t key;
  match content with
  | Some content => mret content
  | None => migrated t key legacyPath
  end.

(** ** Files *)
(** The path with text appended to its last component, as [path + ".tmp"] *)
Definition path_plus (p : fpath) (s : string) : fpath :=
  match rev p with
  | [] => [s]
  | d :: up => rev up ++ [(d ++ s)%string]
  end.

(** [os.ReadFile] where a missing file is an error like any other *)
Definition must_read (p : fpath) : dop string :=
  content ← on_files (read_file p);
  of_result (match content with Some content => Ok content | None => Err "no such file or directory" end).

(** [os.Remove] of a file, a missing one passed over *)
Definition remove_file (p : fpath) : dop unit := on_files (fun e f =>
  match io_fault e "remove" p with
  | Some msg => (f, Err msg)
  | None =>
      match node_at f p with
      | Some Dir =>
          if existsb (fun q => bool_decide (p `prefix_of` q /\ p <> q)) (map_to_list f).*1
          then (f, Err "directory not empty")
          else (delete p f, Ok tt)
      | _ => (delete p f, Ok tt)
      end
  end).

(** [os.Chmod]: modes are not part of the file system, the call can fail *)
Definition chmod (p : fpath) : dop unit := on_files (fun e f =>
  match io_fault e "chmod" p with Some msg => (f, Err msg) | None => (f, Ok tt) end).

(** [os.WriteFile(tempPath, ...)] and [os.Rename(tempPath, fullPath)] *)
Definition write_renamed (temp full : fpath) (content writing renaming : string) : dop unit :=
  wrapped writing (on_files (write_file temp content));;
  renamed ← try_ (on_files (rename temp full));
  match renamed with
  | Ok _ => mret tt
  | Err msg => on_files (remove_quietly temp);; of_result (Err (renaming ++ msg))
  end.

Definition writeFileAtomically (dir : fpath) (name content : string) : dop unit :=
  t ← clock;
  write_renamed (join_path dir (name ++ ".tmp." ++ itoa t)) (join_path dir name) content "" "";;
  chmod (join_path dir name).

(** [filepath.Join] of relative elements, with slashes *)
Definition join_ref (elements : list string) : string :=
  match List.filter (fun e => negb (is_empty e)) elements with
  | [] => ""
  | parts => clean (join "/" parts)
  end.

(** ** A tree of blobs

    Both stores of key files keep one blob per list of directory names and file name: below [dir], or
    in the table under [refs]. *)
Section Area.
Context `{SqlLike}.
Variables (useDB : bool) (dir : fpath) (refs : list string).

Definition blob_key (sub : list string) (name : string) : string := join_ref (refs +++ sub +++ [name]).
Definition blob_dir (sub : list string) : fpath := foldl join_path dir sub.

Definition write_blob (sub : list string) (name content : string) : dop unit :=
  if useDB then save BlobTable (blob_key sub name) content
  else on_files (mkdir_all (blob_dir sub));; writeFileAtomically (blob_dir sub) name content.

Definition read_blob (sub : list string) (name : string) : dop string :=
  if useDB then load_or_migrate BlobTable (blob_key sub name) (join_path (blob_dir sub) name)
  else must_read (join_path (blob_dir sub) name).

Definition reset_blobs (sub : list string) : dop unit :=
  if useDB then DeleteBlobsByPrefix (join_ref (refs +++ sub))
  else on_files (remove_all (blob_dir sub));; on_files (mkdir_all (blob_dir sub)).

(** What is kept, and what a missing row would be brought over from. *)
Definition file_blob (w : disk) (sub : list string) (name : string) : option string :=
  file_at (d_files w) (dir +++ sub +++ [name]).
Definition blob_at (w : disk) (sub : list string) (name : string) : option string :=
  if useDB then d_rows w BlobTable !! trim_space (blob_key sub name) else file_blob w sub name.
End Area.

(** ** Keys *)
Lemma trim_left_fixed s : trim_left s = s -> is_blank s = false -> exists c t, s = String c t /\ is_space c = false.
Proof.
  destruct s as [|c s]; [done|]. intros E Hb. exists c, s. split; [done|]. destruct (is_space c) eqn:Hc; [|done].
  unfold is_blank, trim_space in Hb. exfalso. clear Hb. cbn [trim_left] in E. rewrite Hc in E.
  pose proof (f_equal String.length E) as Hl. assert (Hle : forall u, (String.length (trim_left u) <= String.length u)%nat).
  { induction u as [|d u IH]; [done|]. cbn [trim_left]. destruct (is_space d); cbn; lia. }
  specialize (Hle s). rewrite Hl in Hle. cbn in Hle. lia.
Qed.

(** Text that neither begins nor ends with white space. *)
Definition tight (s : string) : Prop := trim_space s = s /\ s <> "".

Lemma tight_right s : tight s -> trim_right s = s.
Proof.
  intros [H Hn]. unfold trim_space in H. rewrite <- H at 1. by rewrite trim_right_idem.
Qed.
Lemma tight_left s : tight s -> trim_left s = s.
Proof.
  intros [H Hn]. rewrite <- H. unfold trim_space. rewrite trim_left_right; [done | apply trim_left_idem].
Qed.

Lemma tight_app a m b : tight a -> tight b -> tight (a ++ m ++ b).
Proof.
  intros Ha Hb. split.
  - unfold trim_space. destruct (trim_left_fixed a) as (c & t & -> & Hc); [by apply tight_left | |].
    { unfold is_blank. destruct Ha as [-> Hn]. by apply is_empty_false. }
    change (String c t ++ m ++ b) with (String c (t ++ m ++ b)). cbn [trim_left]. rewrite Hc.
    change (String c (t ++ m ++ b)) with (String c t ++ m ++ b).
    rewrite <- string_app_assoc. apply trim_right_app; [apply Hb | by apply tight_right].
  - destruct Ha as [_ Hn]. by destruct a.
Qed.


(** The components of a key, joined: no cleaning takes place. *)
Lemma clean_relative acc l : Forall component l -> foldl (clean_step false) acc l = rev l +++ acc.
Proof.
  intros H. revert acc. induction H as [|c l [Hc _] Hl IH]; intros acc; [done|]. cbn [foldl rev].
  rewrite clean_step_push by done. by rewrite IH, <- app_assoc.
Qed.

Lemma join_cons_ne c l : c <> "" -> join "/" (c :: l) <> "".
Proof. intros Hc. destruct l as [|d l]; [done|]. change (join "/" (c :: d :: l)) with (c ++ "/" ++ join "/" (d :: l)). by destruct c. Qed.

Lemma join_relative c l : component c -> is_abs (join "/" (c :: l)) = false.
Proof.
  intros [(Hne & _) Hs]. destruct c as [|x c]; [done|]. unfold no_slash in Hs. cbn [all_chars] in Hs.
  apply andb_true_iff in Hs as [Hx _]. apply negb_true_iff in Hx.
  assert (E : exists t, join "/" (String x c :: l) = String x t) by (destruct l as [|d l]; eexists; reflexivity).
  destruct E as [t ->]. unfold is_abs. cbn [has_prefix]. by rewrite Ascii.eqb_sym, Hx.
Qed.

Lemma join_ref_components l : Forall component l -> l <> [] -> join_ref l = join "/" l.
Proof.
  intros Hl Hn. unfold join_ref.
  assert (E : List.filter (fun e => negb (is_empty e)) l = l).
  { clear Hn. induction Hl as [|c l [(Hc & _) _] Hl IH]; [done|]. cbn [List.filter]. apply is_empty_false in Hc. rewrite Hc. cbn [negb]. by rewrite IH. }
  rewrite E. destruct l as [|c l]; [done|]. unfold clean. rewrite join_relative by (by inversion Hl).
  unfold clean_from. rewrite split_on_join; [|done|by eapply Forall_impl; [exact Hl|]; intros d [_ ?]].
  cbn [rev]. change (rev (@nil string)) with (@nil string). rewrite clean_relative by done. rewrite app_nil_r, rev_involutive. done.
Qed.

Lemma join_inj l k : Forall component l -> Forall component k -> l <> [] -> k <> [] -> join "/" l = join "/" k -> l = k.
Proof.
  intros Hl Hk Hnl Hnk E. rewrite <- (split_on_join l), <- (split_on_join k), E; try done;
    (eapply Forall_impl; [eassumption|]; by intros d [_ ?]).
Qed.

Lemma join_app l k : l <> [] -> k <> [] -> join "/" (l +++ k) = join "/" l ++ "/" ++ join "/" k.
Proof.
  intros Hl Hk. induction l as [|c l IH]; [done|]. destruct l as [|d l].
  - destruct k as [|e k]; [done|]. reflexivity.
  - change ((c :: d :: l) +++ k) with (c :: d :: (l +++ k)).
    change (join "/" (c :: d :: (l +++ k))) with (c ++ "/" ++ join "/" ((d :: l) +++ k)).
    change (join "/" (c :: d :: l)) with (c ++ "/" ++ join "/" (d :: l)).
    rewrite IH by done. by rewrite !string_app_assoc.
Qed.

(** One key begins another up to the last component. *)
Lemma has_prefix_common p a b : has_prefix (p ++ a) (p ++ b) = has_prefix a b.
Proof. induction p as [|c p IH]; [done|]. change (has_prefix (String c p ++ a) (String c p ++ b)) with (Ascii.eqb c c && has_prefix (p ++ a) (p ++ b)). by rewrite Ascii.eqb_refl. Qed.

Lemma has_prefix_component a b rest : no_slash a = true -> has_prefix a (b ++ String "/" rest) = has_prefix a b.
Proof.
  revert b. induction a as [|x a IH]; intros b Ha; [by destruct b|]. unfold no_slash in Ha. cbn [all_chars] in Ha.
  apply andb_true_iff in Ha as [Hx Ha]. apply negb_true_iff in Hx. destruct b as [|y b].
  - cbn [String.append has_prefix]. change ("" ++ String "/" rest) with (String "/" rest). cbn [has_prefix]. by rewrite Hx.
  - change (String y b ++ String "/" rest) with (String y (b ++ String "/" rest)). cbn [has_prefix]. by rewrite IH.
Qed.

(** ** What the operations do to a tree *)
Lemma on_files_run {A} (m : fsop A) e w : on_files m e w =
  (Disk (m (k_io e (d_calls w)) (d_files w)).1 (d_rows w) (S (d_calls w)), (m (k_io e (d_calls w)) (d_files w)).2).
Proof. unfold on_files. by destruct (m _ _). Qed.

(** [m] leaves the tables alone and, of the files, those outside [region]. *)
Definition on_region {A} (region : fpath -> Prop) (m : dop A) : Prop := forall e w,
  d_rows (m e w).1 = d_rows w /\ forall q, ~ region q -> file_at (d_files (m e w).1) q = file_at (d_files w) q.

Lemma on_region_files {A} region (m : fsop A) : touches_only region m -> on_region region (on_files m).
Proof. intros Hm e w. rewrite on_files_run. cbn. split; [done|]. intros q Hq. by apply Hm. Qed.
Lemma on_region_ret {A} region (a : A) : on_region region (mret a : dop A).
Proof. done. Qed.
Lemma on_region_result {A} region (r : result A) : on_region region (of_result r : dop A).
Proof. done. Qed.
Lemma on_region_bind {A B} region (m : dop A) (k : A -> dop B) :
  on_region region m -> (forall a, on_region region (k a)) -> on_region region (m ≫= k).
Proof.
  intros Hm Hk e w. rewrite rop_bind_run. specialize (Hm e w). destruct (m e w) as [w1 [a|msg]]; [|done]. cbn in Hm.
  destruct (Hk a e w1) as [Hr Hf]. destruct Hm as [Hr1 Hf1]. split; [congruence|]. intros q Hq. by rewrite Hf, Hf1.
Qed.
Lemma on_region_try {A} region (m : dop A) : on_region region m -> on_region region (try_ m).
Proof. intros Hm e w. specialize (Hm e w). unfold try_. by destruct (m e w) as [w1 r]. Qed.
Lemma on_region_wrapped {A} region s (m : dop A) : on_region region m -> on_region region (wrapped s m).
Proof. intros Hm e w. specialize (Hm e w). unfold wrapped. by destruct (m e w) as [w1 [a|msg]]. Qed.
Lemma on_region_clock region : on_region region clock.
Proof. done. Qed.

Lemma rename_touches src dst : touches_only (fun q => q = src \/ q = dst) (rename src dst).
Proof.
  intros e f q Hq. unfold rename. destruct (io_fault _ _ _); [done|]. destruct (f !! src) as [n|] eqn:Es; [|done].
  destruct (node_at f dst) as [[c|]|]; try done; cbn [fst];
    (destruct q as [|c0 q]; [done|]; unfold file_at, node_at; rewrite lookup_insert_ne by naive_solver;
     by rewrite lookup_delete_ne by naive_solver).
Qed.

Lemma remove_quietly_only p : p <> [] -> touches_only (eq p) (remove_quietly p).
Proof.
  intros Hp e f q Hq. unfold remove_quietly. destruct (io_fault _ _ _); [done|]. cbn [fst]. rewrite file_at_delete by done.
  by rewrite decide_False.
Qed.


Lemma write_renamed_region temp full content s1 s2 : temp <> [] ->
  on_region (fun q => q = temp \/ q = full) (write_renamed temp full content s1 s2).
Proof.
  intros Ht. unfold write_renamed. apply on_region_bind; [|intros _; apply on_region_bind].
  - apply on_region_wrapped, on_region_files. eapply touches_mono; [|apply write_file_touches]. naive_solver.
  - apply on_region_try, on_region_files, rename_touches.
  - intros [u|msg]; [done|]. apply on_region_bind; [|done]. apply on_region_files.
    eapply touches_mono; [|by apply remove_quietly_only]. naive_solver.
Qed.

Lemma chmod_region region p : on_region region (chmod p).
Proof. apply on_region_files. intros e f q _. by destruct (io_fault e "chmod" p). Qed.

Lemma write_renamed_ok temp full content s1 s2 e w w' u : temp <> full ->
  write_renamed temp full content s1 s2 e w = (w', Ok u) -> file_at (d_files w') full = Some content.
Proof.
  intros Hne E. unfold write_renamed in E. apply rop_bind_ok in E as (w1 & ? & Hw & E).
  apply rop_bind_ok in E as (w2 & r & Hr & E). destruct r as [v|msg]; [|apply rop_bind_ok in E as (? & ? & _ & E); discriminate].
  injection E as <- _. unfold wrapped in Hw. rewrite on_files_run in Hw.
  destruct (write_file_cases temp content (k_io e (d_calls w)) (d_files w)) as [(n & E1 & -> & Ht)|(msg & f' & E1 & _)];
    rewrite E1 in Hw; [|discriminate]. injection Hw as <- <-.
  unfold try_ in Hr. rewrite on_files_run in Hr. cbn [d_files d_calls] in Hr.
  unfold rename in Hr. destruct (io_fault _ _ _); [by injection Hr|]. rewrite lookup_insert_eq in Hr.
  destruct (node_at _ full) as [[c|]|] eqn:Ef; cbn in Hr; injection Hr as <- ?; try done; cbn [d_files];
    (destruct full as [|c0 q]; [done|]; unfold file_at, node_at; by rewrite lookup_insert_eq).
Qed.

Section AreaFacts.
Context `{SqlLike}.
Variables (useDB : bool) (dir : fpath) (refs : list string).
Hypothesis dir_ok : Forall component dir.
Hypothesis refs_ok : Forall component refs /\ refs <> [] /\ tight (join "/" refs).

Abbreviation at_ := (blob_at useDB dir refs).

Lemma blob_dir_parts sub : Forall component sub -> blob_dir dir sub = dir +++ sub.
Proof.
  unfold blob_dir. intros Hs. clear dir_ok. revert dir. induction Hs as [|c sub [Hp Hn] Hs IH]; intros d; [by rewrite app_nil_r|].
  cbn [foldl]. rewrite IH, join_path_component by done. by rewrite <- app_assoc.
Qed.

Lemma blob_path_parts sub name : Forall component sub -> component name -> join_path (blob_dir dir sub) name = dir +++ sub +++ [name].
Proof. intros Hs [Hp Hn]. rewrite blob_dir_parts, join_path_component by done. by rewrite <- app_assoc. Qed.

Lemma key_parts sub name : Forall component sub -> component name -> tight name ->
  trim_space (blob_key refs sub name) = join "/" (refs +++ sub +++ [name]) /\ blob_key refs sub name = join "/" (refs +++ sub +++ [name]).
Proof.
  destruct refs_ok as (Hr & Hn & Ht). intros Hs Hc Htn.
  assert (E : blob_key refs sub name = join "/" (refs +++ sub +++ [name])).
  { apply join_ref_components; [|by destruct refs]. by rewrite !Forall_app, Forall_singleton. }
  split; [|done]. rewrite E. rewrite join_app by (done || by destruct sub). destruct sub as [|c sub].
  - apply (tight_app _ "/" name); done.
  - rewrite (join_app (c :: sub) [name]) by done. change (join "/" [name]) with name.
    rewrite <- (string_app_assoc "/"), <- (string_app_assoc ("/" ++ _)). by apply tight_app.
Qed.

Lemma key_injective sub name sub' name' : Forall component sub -> component name -> tight name ->
  Forall component sub' -> component name' -> tight name' ->
  trim_space (blob_key refs sub name) = trim_space (blob_key refs sub' name') -> sub = sub' /\ name = name'.
Proof.
  intros Hs Hc Ht Hs' Hc' Ht'. rewrite (proj1 (key_parts sub name Hs Hc Ht)), (proj1 (key_parts sub' name' Hs' Hc' Ht')). destruct refs_ok as (Hr & Hn & _).
  intros E. apply join_inj in E; [|by rewrite !Forall_app, Forall_singleton | by rewrite !Forall_app, Forall_singleton | by destruct refs | by destruct refs].
  apply app_inv_head in E. by apply app_inj_2 in E as [-> [= ->]].
Qed.

(** The temporary name beside a file. *)
Definition temp_of (name : string) (t : Z) : string := name ++ ".tmp." ++ itoa t.

Lemma itoa_component t : no_slash (itoa t) = true.
Proof.
  assert (Hd : forall n, (0 <= n)%Z -> no_slash (itoa_digits 20 n "") = true).
  { intros n Hn. eapply all_chars_impl; [|by apply itoa_digits_digits]. by intros [[] [] [] [] [] [] [] []]. }
  unfold itoa. destruct (t <? 0)%Z eqn:E; [|apply Hd; lia]. unfold no_slash. cbn [all_chars]. apply Hd. lia.
Qed.

Lemma temp_component name t : component name -> component (temp_of name t).
Proof.
  intros [(H1 & H2 & H3) Hs]. unfold temp_of. split.
  - destruct name as [|c name]; [done|]. repeat split; try discriminate;
      intros E%(f_equal String.length); rewrite !string_length_app in E; cbn in E; lia.
  - unfold no_slash in *. rewrite !all_chars_app, Hs. cbn [all_chars]. apply itoa_component.
Qed.

Lemma write_file_region sub name content : Forall component sub -> component name ->
  forall e w, let o := write_blob false dir refs sub name content e w in
    d_rows o.1 = d_rows w /\
    (forall q, q <> dir +++ sub +++ [name] -> (forall t, q <> dir +++ sub +++ [temp_of name t]) ->
       file_at (d_files o.1) q = file_at (d_files w) q) /\
    (forall w' u, o = (w', Ok u) -> file_at (d_files w') (dir +++ sub +++ [name]) = Some content).
Proof.
  intros Hs Hc e w o. subst o. unfold write_blob.
  assert (Hregion : on_region (fun q => q = dir +++ sub +++ [name] \/ exists t, q = dir +++ sub +++ [temp_of name t])
    (on_files (mkdir_all (blob_dir dir sub));; writeFileAtomically (blob_dir dir sub) name content)).
  { apply on_region_bind; [apply on_region_files, mkdir_touches|]. intros _. unfold writeFileAtomically.
    apply on_region_bind; [done|]. intros t. rewrite (blob_path_parts sub name) by done.
    change (name ++ ".tmp." ++ itoa t) with (temp_of name t). rewrite blob_path_parts by (done || by apply temp_component).
    apply on_region_bind; [|intros _; apply chmod_region]. intros e1 w1.
    destruct (write_renamed_region (dir +++ sub +++ [temp_of name t]) (dir +++ sub +++ [name]) content "" "") with (e := e1) (w := w1) as [Hr Hf].
    { by destruct dir, sub. }
    split; [done|]. intros q Hq. apply Hf. naive_solver. }
  destruct (Hregion e w) as [Hr Hf]. split; [done|]. split.
  - intros q Hq Ht. apply Hf. intros [?|[t ?]]; [done|]. by eapply Ht.
  - intros w' u E. apply rop_bind_ok in E as (w1 & ? & _ & E). unfold writeFileAtomically in E.
    apply rop_bind_ok in E as (w2 & t & _ & E). apply rop_bind_ok in E as (w3 & ? & Hw & E).
    rewrite (blob_path_parts sub name) in Hw, E by done.
    change (name ++ ".tmp." ++ itoa t) with (temp_of name t) in Hw. rewrite blob_path_parts in Hw by (done || by apply temp_component).
    apply write_renamed_ok in Hw.
    + pose proof (chmod_region (fun _ => False) (dir +++ sub +++ [name]) e w3) as [_ Hk]. rewrite E in Hk. cbn [fst] in Hk.
      rewrite (Hk (dir +++ sub +++ [name]) (fun x => x)). exact Hw.
    + intros Ep%app_inv_head%app_inv_head. injection Ep as Ep. apply (f_equal String.length) in Ep.
      unfold temp_of in Ep. rewrite !string_length_app in Ep. cbn in Ep. lia.
Qed.

Lemma write_blob_ok sub name content e w w' u : Forall component sub -> component name ->
  write_blob useDB dir refs sub name content e w = (w', Ok u) -> at_ w' sub name = Some content.
Proof.
  intros Hs Hc E. unfold blob_at. destruct useDB.
  - unfold write_blob, save, statement in E. destruct (k_db e (d_calls w)); [discriminate|]. injection E as <- _. cbn [d_rows].
    unfold set_rows. rewrite decide_True by done. apply lookup_insert_eq.
  - eapply (write_file_region sub name content Hs Hc e w). exact E.
Qed.

Lemma write_blob_frame sub name content sub' name' e w : Forall component sub -> component name -> tight name ->
  Forall component sub' -> component name' -> tight name' -> (sub', name') <> (sub, name) -> (forall t, name' <> temp_of name t) ->
  let w' := (write_blob useDB dir refs sub name content e w).1 in
  at_ w' sub' name' = at_ w sub' name' /\ file_blob dir w' sub' name' = file_blob dir w sub' name'.
Proof.
  intros Hs Hc Ht Hs' Hc' Ht' Hne Htemp w'. subst w'. unfold blob_at. destruct useDB.
  - unfold write_blob, save, statement. destruct (k_db e (d_calls w)); [done|]. cbn [fst d_rows]. split; [|done].
    unfold set_rows. rewrite decide_True by done. apply lookup_insert_ne. intros E. apply Hne.
    apply key_injective in E as [-> ->]; done.
  - assert (Hf : file_blob dir (write_blob false dir refs sub name content e w).1 sub' name' = file_blob dir w sub' name'); [|done].
    apply (write_file_region sub name content Hs Hc e w).
    + intros E%app_inv_head. apply app_inj_2 in E as [-> [= ->]]; done.
    + intros t E%app_inv_head. apply app_inj_2 in E as [_ E]; [|done]. injection E as E. by apply (Htemp t).
Qed.

(** *** Reading in quiet weather *)
Definition later (w : disk) : disk := Disk (d_files w) (d_rows w) (S (d_calls w)).

Lemma read_blob_found sub name content w : Forall component sub -> component name ->
  at_ w sub name = Some content -> read_blob useDB dir refs sub name calm w = (later w, Ok content).
Proof.
  intros Hs Hc. unfold blob_at, read_blob, file_blob. destruct useDB; intros E.
  - unfold load_or_migrate. rewrite rop_bind_run. unfold load, statement. cbn. by rewrite E.
  - unfold must_read. rewrite rop_bind_run, on_files_run, blob_path_parts by done. unfold read_file. cbn [k_io calm io_fault io_ok].
    unfold file_at in E. destruct (node_at _ _) as [[c|]|]; try done. cbn. by injection E as ->.
Qed.

Lemma read_blob_missing sub name w : Forall component sub -> component name ->
  at_ w sub name = None -> file_blob dir w sub name = None ->
  exists msg, (read_blob useDB dir refs sub name calm w).2 = Err msg.
Proof.
  intros Hs Hc. unfold blob_at, read_blob, file_blob. destruct useDB; intros E Ef.
  - unfold load_or_migrate. rewrite rop_bind_run. unfold load at 1, statement. cbn [k_db calm]. rewrite E.
    unfold migrated, MigrateLegacy, has_row. rewrite !rop_bind_run. unfold load at 1, statement. cbn [k_db calm d_rows]. rewrite E.
    cbn [mret rop_ret]. rewrite rop_bind_run, on_files_run, blob_path_parts by done. cbn [d_files].
    unfold read_file. cbn [k_io calm io_fault io_ok]. unfold file_at in Ef.
    destruct (node_at _ _) as [[c|]|]; [done|by eexists|]. cbn [fst snd mret rop_ret].
    rewrite rop_bind_run. unfold load, statement. cbn [k_db calm d_rows]. rewrite E. by eexists.
  - unfold must_read. rewrite rop_bind_run, on_files_run, blob_path_parts by done. unfold read_file. cbn [k_io calm io_fault io_ok].
    unfold file_at in E. destruct (node_at _ _) as [[c|]|]; [done | by eexists | by eexists].
Qed.

(** *** Emptying the tree of one name *)
Definition literal_key (s : string) : Prop := all_chars (fun c => negb (has_char c "%_\")) s = true.

Lemma reset_prefix a : component a -> tight a -> trim_space (join_ref (refs +++ [a])) = join "/" (refs +++ [a]).
Proof.
  destruct refs_ok as (Hr & Hn & Ht). intros Ha Hta. rewrite join_ref_components by (by rewrite ?Forall_app, ?Forall_singleton || by destruct refs).
  rewrite join_app by done. apply (tight_app _ "/" a); done.
Qed.

Lemma begins_key a b rest name : component a -> component b ->
  has_prefix (join "/" (refs +++ [a])) (join "/" (refs +++ (b :: rest) +++ [name])) = has_prefix a b.
Proof.
  destruct refs_ok as (Hr & Hn & _). intros [_ Ha] Hb. rewrite (join_app refs [a]), (join_app refs ((b :: rest) +++ [name])) by done.
  change (join "/" [a]) with a. rewrite !has_prefix_common.
  change (join "/" ((b :: rest) +++ [name])) with (join "/" (b :: rest +++ [name])).
  destruct (rest +++ [name]) as [|d l] eqn:El; [by destruct rest|].
  change (join "/" (b :: d :: l)) with (b ++ String "/" (join "/" (d :: l))). by apply has_prefix_component.
Qed.

(** On files the tree of exactly that name is emptied, in the table the keys that begin with it. *)
Lemma reset_frame a b rest name e w : component a -> tight a -> component b -> Forall component rest -> component name -> tight name ->
  b <> a -> (useDB = true -> literal_key (join "/" (refs +++ [a]))) ->
  let o := reset_blobs useDB dir refs [a] e w in
  file_blob dir o.1 (b :: rest) name = file_blob dir w (b :: rest) name /\
  (useDB = true -> has_prefix a b = true -> forall w' u, o = (w', Ok u) -> at_ w' (b :: rest) name = None) /\
  (useDB = false \/ has_prefix a b = false -> at_ o.1 (b :: rest) name = at_ w (b :: rest) name).
Proof.
  intros Ha Hta Hb Hr Hn Htn Hne Hlit o. subst o. unfold blob_at, reset_blobs. destruct useDB.
  - unfold DeleteBlobsByPrefix, statement. rewrite reset_prefix by done.
    assert (Hk : forall x, x = trim_space (blob_key refs (b :: rest) name) -> sql_like (join "/" (refs +++ [a]) ++ "%") x = has_prefix a b).
    { intros x ->. rewrite sql_like_begins by (by apply Hlit). rewrite (proj1 (key_parts (b :: rest) name ltac:(by constructor) Hn Htn)). by apply begins_key. }
    destruct (k_db e (d_calls w)); [by split_and!|]. split; [done|].
    unfold set_rows. cbn [fst d_rows]. split.
    + intros _ Hp w' u [= <-]. cbn [d_rows]. rewrite decide_True by done. apply map_lookup_filter_None. right. intros v _. cbn [fst]. by rewrite Hk, Hp.
    + intros [?|Hp]; [done|]. rewrite decide_True by done. rewrite map_lookup_filter.
      destruct (d_rows w BlobTable !! _) as [v|]; [|done]. cbn. by rewrite option_guard_True by (by rewrite Hk, Hp).
  - rewrite blob_dir_parts by (by constructor).
    assert (Hf : file_blob dir ((on_files (remove_all (dir +++ [a]));; on_files (mkdir_all (dir +++ [a]))) e w).1 (b :: rest) name = file_blob dir w (b :: rest) name).
    { eapply (on_region_bind (prefix (dir +++ [a]))).
      - apply on_region_files, remove_all_touches.
      - intros _. apply on_region_files, mkdir_touches.
      - intros [k E]. rewrite <- !app_assoc in E. apply app_inv_head in E. injection E as E _. by apply Hne. }
    split; [done|]. split; [done|]. intros _. done.
Qed.
End AreaFacts.

(** ** A concrete LIKE, for examples *)
(** A LIKE that knows no wildcard but the last percent sign. *)
#[export, refine] Instance plain_like : SqlLike | 100 := {|
  sql_like p k := if has_suffix "%" p then has_prefix (trim_suffix "%" p) k else String.eqb p k
|}.
Proof. intros p k _. by rewrite has_suffix_app, trim_suffix_app. Defined.
