(* ===== verification/Materials.v ===== *)
(** * Certificate materials (control-plane/internal/certificatematerials/store.go,
    services/certificate_upload.go)

    The certificate and private key files of the sites: an index document with one record per
    certificate, and the bytes in the tree of Blobs.v, as files or as rows. *)
From Stdlib Require Import ZArith Lia Ascii String.
From stdpp Require Import base tactics gmap strings list.
From S2P Require Import Prelude GoTime GoSeq DocStore Service Files Blobs ConfigStores.
Local Set Warnings "-clear-no-such-hyp".
Local Open Scope string_scope.
Local Notation "a +++ b" := (@app _ a b) (at level 60, right associativity).

Definition certificateFileName := "certificate.pem".
Definition privateKeyFileName := "private.key".

Record MaterialRecord := MkRecord {
  CertificateID : string;
  CertificateRef : string;
  PrivateKeyRef : string;
  CreatedAt : string;
  UpdatedAt : string
}.

Record state := MkState { Materials : list MaterialRecord }.

Definition sortMaterials : list MaterialRecord -> list MaterialRecord := sort_on CertificateID.
Definition materials_config : doc_config state :=
  DocConfig "certificate materials store" (MkState []) (fun s => MkState (sortMaterials (Materials s))).

Definition validateMaterialID (value : string) : result unit :=
  reject_if (is_empty value) "certificate material certificate_id is required";;
  reject_if (String.eqb value "." || String.eqb value "..") "certificate material certificate_id is invalid";;
  reject_if (contains ".." value) "certificate material certificate_id must not contain '..'";;
  reject_if (contains_any "/\" value) "certificate material certificate_id must not contain path separators";;
  reject_if (has_prefix "~" value || has_prefix ":" value) "certificate material certificate_id is invalid";;
  reject_if (has_char "000" value) "certificate material certificate_id is invalid".

(** ** The world: the index document and the files *)
Record world := World {
  w_index : json_state state;
  w_disk : disk;
  w_calls : nat
}.
Record mat_env := MatEnv {
  me_store : nat -> env;
  me_disk : nat -> disk_env
}.
Definition quiet : mat_env := MatEnv (fun _ => healthy 0) (fun _ => calm).

Abbreviation mop := (rop mat_env world).

Definition on_index {A} (m : sop state A) : mop A := fun e w =>
  let (s, r) := m (me_store e (w_calls w)) (w_index w) in (World s (w_disk w) (S (w_calls w)), r).
Definition on_disk {A} (m : dop A) : mop A := fun e w =>
  let (d, r) := m (me_disk e (w_calls w)) (w_disk w) in (World (w_index w) d (S (w_calls w)), r).
Definition time_now : mop Z := fun e w => (w, Ok (now (me_store e (w_calls w)))).
Definition prefixed {A} (prefix : string) (m : mop A) : mop A := fun e w =>
  match m e w with (w', Err msg) => (w', Err (prefix ++ msg)) | r => r end.

Section Store.
Context `{SqlLike}.
(** [s.useDB] and [s.root] *)
Variables (useDB : bool) (root : fpath).

(** [s.refBase] *)
Definition refBase : string := if useDB then "certificate-materials" else default "/" (last root).
Definition files : fpath := root +++ ["files"].

Definition resetMaterialFiles (certificateID : string) : mop unit :=
  on_disk (reset_blobs useDB files [refBase; "files"] [certificateID]).
Definition writeMaterialBlob (certificateID name content : string) : mop unit :=
  on_disk (write_blob useDB files [refBase; "files"] [certificateID] name content).
Definition readMaterialBlob (certificateID name : string) : mop string :=
  on_disk (read_blob useDB files [refBase; "files"] [certificateID] name).

Definition loadLocked : mop state := on_index (load_locked materials_config).
Definition saveLocked (current : state) : mop unit := on_index (save_locked materials_config current).

Definition record_of (certificateID created t : string) : MaterialRecord :=
  MkRecord certificateID (join_ref [refBase; "files"; certificateID; certificateFileName])
    (join_ref [refBase; "files"; certificateID; privateKeyFileName]) created t.

Definition find_record (certificateID : string) (current : state) : option (nat * MaterialRecord) :=
  find_key CertificateID certificateID (Materials current).

(** The record replaced or appended. *)
Definition upserted (record : MaterialRecord) (current : state) : state :=
  MkState (sortMaterials
    match find_record (CertificateID record) current with
    | Some (i, _) => <[i := record]> (Materials current)
    | None => Materials current +++ [record]
    end).

Definition Put (certificateID certificatePEM privateKeyPEM : string) : mop MaterialRecord :=
  let certificateID := normalize_id certificateID in
  of_result (validateMaterialID certificateID);;
  of_result (reject_if (is_empty certificatePEM) "certificate file is required");;
  of_result (reject_if (is_empty privateKeyPEM) "private key file is required");;
  current ← loadLocked;
  t ← time_now;
  let t := format_rfc3339_nano t in
  let created := match find_record certificateID current with Some (_, existing) => CreatedAt existing | None => t end in
  let record := record_of certificateID created t in
  prefixed "reset certificate materials dir: " (resetMaterialFiles certificateID);;
  prefixed "write certificate file: " (writeMaterialBlob certificateID certificateFileName certificatePEM);;
  prefixed "write private key file: " (writeMaterialBlob certificateID privateKeyFileName privateKeyPEM);;
  saveLocked (upserted record current);;
  mret record.

Definition not_found (certificateID : string) : string := "certificate material " ++ certificateID ++ " not found".

Definition Get (certificateID : string) : mop MaterialRecord :=
  let certificateID := normalize_id certificateID in
  of_result (validateMaterialID certificateID);;
  current ← loadLocked;
  of_result match find_record certificateID current with
    | Some (_, item) => Ok item
    | None => Err (not_found certificateID)
    end.

Definition Delete (certificateID : string) : mop unit :=
  let certificateID := normalize_id certificateID in
  of_result (validateMaterialID certificateID);;
  current ← loadLocked;
  match find_record certificateID current with
  | None => of_result (Err (not_found certificateID))
  | Some (i, _) =>
      resetMaterialFiles certificateID;;
      saveLocked (MkState (sortMaterials (delete i (Materials current))))
  end.

Definition Read (certificateID : string) : mop (MaterialRecord * string * string) :=
  let certificateID := normalize_id certificateID in
  of_result (validateMaterialID certificateID);;
  current ← loadLocked;
  match find_record certificateID current with
  | None => of_result (Err (not_found certificateID))
  | Some (_, item) =>
      certificatePEM ← prefixed "read certificate material file: " (readMaterialBlob certificateID certificateFileName);
      privateKeyPEM ← prefixed "read private key material file: " (readMaterialBlob certificateID privateKeyFileName);
      mret (item, certificatePEM, privateKeyPEM)
  end.
End Store.

(** ** Uploading (services/certificate_upload.go) *)
Record CertificateUploadRequest := MkUpload {
  req_CertificateID : string;
  req_CommonName : string;
  req_SANList : list string;
  req_NotBefore : string;
  req_NotAfter : string;
  req_Status : string
}.
Record CertificateUploadResult := MkUploaded {
  up_Certificate : Certificates.Certificate;
  up_Material : MaterialRecord
}.

Record upload_world := UploadWorld {
  u_certificates : json_state (Crud.items_state Certificates.Certificate);
  u_materials : world;
  u_audits : list (string * bool);
  u_calls : nat
}.
Record upload_env := UploadEnv { ue_store : nat -> env; ue_materials : nat -> mat_env }.
Abbreviation uop := (rop upload_env upload_world).

Definition on_certificates {A} (m : sop (Crud.items_state Certificates.Certificate) A) : uop A := fun e w =>
  let (s, r) := m (ue_store e (u_calls w)) (u_certificates w) in
  (UploadWorld s (u_materials w) (u_audits w) (S (u_calls w)), r).
Definition on_materials {A} (m : mop A) : uop A := fun e w =>
  let (s, r) := m (ue_materials e (u_calls w)) (u_materials w) in
  (UploadWorld (u_certificates w) s (u_audits w) (S (u_calls w)), r).

Section Upload.
Context `{SqlLike}.
Variables (useDB : bool) (root : fpath).

Definition normal_upload (req : CertificateUploadRequest) : CertificateUploadRequest :=
  MkUpload (normalize_id (req_CertificateID req)) (trim_space (req_CommonName req)) (req_SANList req)
    (trim_space (req_NotBefore req)) (trim_space (req_NotAfter req)) (normalize_id (req_Status req)).

Definition ensureCertificate (req : CertificateUploadRequest) : uop Certificates.Certificate :=
  items ← on_certificates Certificates.List;
  match find_key Certificates.ID (req_CertificateID req) items with
  | Some (_, item) => mret item
  | None =>
      of_result (reject_if (is_empty (req_CommonName req)) ("certificate " ++ req_CertificateID req ++ " not found"));;
      let status := if is_empty (req_Status req) then "active" else req_Status req in
      on_certificates (Certificates.Create (Certificates.MkCertificate (req_CertificateID req) (req_CommonName req)
        (req_SANList req) (req_NotBefore req) (req_NotAfter req) status "" ""))
  end.

Definition Upload (req : CertificateUploadRequest) (certificatePEM privateKeyPEM : string) : uop CertificateUploadResult := fun e w =>
  let req := normal_upload req in
  let (w, r) := (of_result (reject_if (is_empty (req_CertificateID req)) "certificate id is required");;
                 certificate ← ensureCertificate req;
                 material ← on_materials (Put useDB root (req_CertificateID req) certificatePEM privateKeyPEM);
                 mret (MkUploaded certificate material)) e w in
  (UploadWorld (u_certificates w) (u_materials w) (u_audits w +++ [(req_CertificateID req, is_ok r)]) (u_calls w), r).
End Upload.

(** ** Facts *)
Definition material_refs : list string := ["certificate-materials"; "files"].

Section Facts.
Context `{SqlLike}.
Variables (useDB : bool) (root : fpath).
Hypothesis root_ok : Forall component root.

Abbreviation dir := (files root).
Abbreviation at_ := (fun w id name => blob_at useDB dir material_refs (w_disk w) [id] name).
Abbreviation legacy_ := (fun w id name => file_blob dir (w_disk w) [id] name).

Lemma dir_components : Forall component dir.
Proof. apply Forall_app. split; [done|]. apply Forall_singleton. by vm_compute. Qed.
Lemma refs_components : Forall component material_refs /\ material_refs <> [] /\ tight (join "/" material_refs).
Proof. split_and!; [|done|by vm_compute]. repeat constructor; done. Qed.

(** Names the store takes. *)
Definition material_id (id : string) : Prop := normalize_id id = id /\ validateMaterialID id = Ok tt.

Lemma material_id_component id : material_id id -> component id /\ tight id.
Proof.
  intros [Hn Hv]. unfold validateMaterialID in Hv.
  apply result_bind_ok in Hv as ([] & H1%reject_if_ok & Hv). apply result_bind_ok in Hv as ([] & H2%reject_if_ok & Hv).
  apply result_bind_ok in Hv as ([] & _ & Hv). apply result_bind_ok in Hv as ([] & H4%reject_if_ok & _).
  apply is_empty_false in H1. apply orb_false_iff in H2 as [Hd Hdd]. apply String.eqb_neq in Hd, Hdd.
  split; [split; [done|] | split; [by rewrite <- Hn at 1; rewrite trim_normalize_id | done]].
  apply contains_any_false in H4. eapply all_chars_impl; [|exact H4]. by intros [[] [] [] [] [] [] [] []].
Qed.

Lemma reset_refs id : resetMaterialFiles useDB root id = on_disk (reset_blobs useDB dir material_refs [id]).
Proof. by destruct useDB. Qed.
Lemma write_refs id name content : writeMaterialBlob useDB root id name content = on_disk (write_blob useDB dir material_refs [id] name content).
Proof. by destruct useDB. Qed.
Lemma read_refs id name : readMaterialBlob useDB root id name = on_disk (read_blob useDB dir material_refs [id] name).
Proof. by destruct useDB. Qed.

Lemma on_disk_run {A} (m : dop A) e w : on_disk m e w =
  (World (w_index w) (m (me_disk e (w_calls w)) (w_disk w)).1 (S (w_calls w)), (m (me_disk e (w_calls w)) (w_disk w)).2).
Proof. unfold on_disk. by destruct (m _ _). Qed.

(** The files of [id], and what its row would be brought over from. *)
Definition kept (id c k : string) (w : world) : Prop := at_ w id certificateFileName = Some c /\ at_ w id privateKeyFileName = Some k.
Definition gone (id : string) (w : world) : Prop :=
  at_ w id certificateFileName = None /\ legacy_ w id certificateFileName = None.
Definition indexed (id : string) (item : MaterialRecord) (w : world) : Prop :=
  exists d, current materials_config (w_index w) = Some d /\ NoDup (CertificateID <$> Materials d) /\ item ∈ Materials d /\ CertificateID item = id.

Lemma file_names : component certificateFileName /\ tight certificateFileName /\ component privateKeyFileName /\ tight privateKeyFileName.
Proof. by vm_compute. Qed.
Lemma names_not_temp t : certificateFileName <> temp_of privateKeyFileName t /\ privateKeyFileName <> temp_of certificateFileName t /\
  certificateFileName <> temp_of certificateFileName t /\ privateKeyFileName <> temp_of privateKeyFileName t.
Proof. split_and!; intros E; [discriminate E | discriminate E | |]; apply (f_equal String.length) in E; unfold temp_of in E; rewrite !string_length_app in E; cbn in E; lia. Qed.

Lemma material_id_parts id : material_id id -> Forall component [id].
Proof. intros [? _]%material_id_component. by apply Forall_singleton. Qed.

(** Writing one file keeps the others. *)
Lemma write_other id name content id' name' e w : material_id id -> material_id id' ->
  name ∈ [certificateFileName; privateKeyFileName] -> name' ∈ [certificateFileName; privateKeyFileName] -> (id', name') <> (id, name) ->
  let w' := (writeMaterialBlob useDB root id name content e w).1 in
  at_ w' id' name' = at_ w id' name' /\ legacy_ w' id' name' = legacy_ w id' name' /\ w_index w' = w_index w.
Proof.
  intros Hid Hid' Hn Hn' Hne w'. subst w'. rewrite write_refs, on_disk_run. cbn [fst w_disk w_index].
  pose proof file_names as (Hc & Htc & Hk & Htk).
  destruct (write_blob_frame useDB dir material_refs dir_components refs_components [id] name content [id'] name' (me_disk e (w_calls w)) (w_disk w)) as [Ha Hl].
  - by apply material_id_parts.
  - set_unfold in Hn. by destruct Hn as [-> | [-> | []]].
  - set_unfold in Hn. by destruct Hn as [-> | [-> | []]].
  - by apply material_id_parts.
  - set_unfold in Hn'. by destruct Hn' as [-> | [-> | []]].
  - set_unfold in Hn'. by destruct Hn' as [-> | [-> | []]].
  - intros [= E1 E2]. by subst.
  - intros t. destruct (names_not_temp t) as (? & ? & ? & ?). set_unfold in Hn. set_unfold in Hn'.
    destruct Hn as [-> | [-> | []]], Hn' as [-> | [-> | []]]; done.
  - done.
Qed.

Lemma write_own id name content e w w' u : material_id id -> name ∈ [certificateFileName; privateKeyFileName] ->
  writeMaterialBlob useDB root id name content e w = (w', Ok u) -> at_ w' id name = Some content.
Proof.
  intros Hid Hn. rewrite write_refs, on_disk_run. intros [= <- E]. cbn [w_disk].
  eapply (write_blob_ok useDB dir material_refs dir_components refs_components).
  - by apply material_id_parts.
  - pose proof file_names as (? & _ & ? & _). set_unfold in Hn. by destruct Hn as [-> | [-> | []]].
  - rewrite <- E. apply surjective_pairing.
Qed.

(** Emptying the tree of one certificate. *)
Lemma reset_other id id' name e w : material_id id -> material_id id' -> id' <> id -> name ∈ [certificateFileName; privateKeyFileName] ->
  (useDB = true -> literal_key id) ->
  let o := resetMaterialFiles useDB root id e w in
  w_index o.1 = w_index w /\ legacy_ o.1 id' name = legacy_ w id' name /\
  (useDB = true -> has_prefix id id' = true -> forall w' u, o = (w', Ok u) -> at_ w' id' name = None) /\
  (useDB = false \/ has_prefix id id' = false -> at_ o.1 id' name = at_ w id' name).
Proof.
  intros Hid Hid' Hne Hn Hlit o. subst o. rewrite reset_refs, on_disk_run. cbn [fst w_disk w_index]. split; [done|].
  pose proof (material_id_component id Hid) as [Hc Ht]. pose proof (material_id_component id' Hid') as [Hc' _].
  pose proof file_names as (Hfc & Htc & Hfk & Htk).
  destruct (reset_frame useDB dir material_refs refs_components id id' [] name (me_disk e (w_calls w)) (w_disk w)) as (Hl & Hgone & Hkept); try done.
  - set_unfold in Hn. by destruct Hn as [-> | [-> | []]].
  - set_unfold in Hn. by destruct Hn as [-> | [-> | []]].
  - split; [done|]. split; [|done]. intros Hdb Hp w' u [= <- E]. cbn [w_disk]. eapply (Hgone Hdb Hp _ u). rewrite <- E. apply surjective_pairing.
Qed.
End Facts.

(** ** What a certificate's upload does to the others *)
Lemma save_locked_spec {D} (cfg : doc_config D) d e s : match save_locked cfg d e s with
  | (s', Ok _) => js_document s' = Some (Decodes d)
  | (s', Err _) => s' = s
  end.
Proof. unfold save_locked, wrap_error, DocStore.Save. by destruct (write_fault e). Qed.

Section Facts.
Context `{SqlLike}.
Variables (useDB : bool) (root : fpath).
Hypothesis root_ok : Forall component root.

Lemma load_kept e w w' d : loadLocked e w = (w', Ok d) ->
  current materials_config (w_index w) = Some d /\ visible (w_index w') = visible (w_index w) /\ w_disk w' = w_disk w.
Proof.
  unfold loadLocked, on_index. destruct (load_locked _ _ _) as [s r] eqn:E. intros [= <- ->].
  by apply load_locked_spec in E as [Hv Hc].
Qed.

Lemma load_failed e w w' msg : loadLocked e w = (w', Err msg) -> visible (w_index w') = visible (w_index w) /\ w_disk w' = w_disk w.
Proof. unfold loadLocked, on_index. destruct (load_locked _ _ _) as [s r] eqn:E. intros [= <- ->]. by apply load_locked_spec in E as [Hv _]. Qed.

Lemma current_visible s s' : visible s = visible s' -> current materials_config s = current materials_config s'.
Proof. unfold current. by intros ->. Qed.

Lemma current_saved s d : js_document s = Some (Decodes d) -> current materials_config s = Some (MkState (sortMaterials (Materials d))).
Proof. unfold current, visible. by intros ->. Qed.

Lemma find_record_unique id d item : NoDup (CertificateID <$> Materials d) -> item ∈ Materials d -> CertificateID item = id ->
  exists i, find_record id d = Some (i, item).
Proof. intros Hd Hin <-. by apply find_key_unique. Qed.

(** Replacing or appending one record keeps the identifiers distinct and the other records. *)
Lemma upserted_ok record d : NoDup (CertificateID <$> Materials d) ->
  NoDup (CertificateID <$> Materials (upserted record d)) /\ record ∈ Materials (upserted record d) /\
  forall item, item ∈ Materials d -> CertificateID item <> CertificateID record -> item ∈ Materials (upserted record d).
Proof.
  intros Hd. unfold upserted, sortMaterials. cbn [Materials]. destruct (find_record _ d) as [[i old]|] eqn:E.
  - apply find_key_Some in E as [Hi Hk]. split; [|split].
    + rewrite sort_on_perm, (fmap_key_insert CertificateID _ _ old) by done. done.
    + apply elem_of_sort_on, list_elem_of_lookup. exists i. apply list_lookup_insert_eq. by eapply lookup_lt_Some.
    + intros item Hin Hne. apply elem_of_sort_on. apply list_elem_of_lookup in Hin as [j Hj]. apply list_elem_of_lookup. exists j.
      rewrite list_lookup_insert_ne; [done|]. intros ->. congruence.
  - apply find_key_None in E. split; [|split].
    + rewrite sort_on_perm, fmap_app. apply NoDup_app. split_and!; [done | | apply NoDup_singleton].
      intros x Hx ->%list_elem_of_singleton. done.
    + apply elem_of_sort_on, elem_of_app. right. by apply list_elem_of_singleton.
    + intros item Hin _. apply elem_of_sort_on, elem_of_app. by left.
Qed.

Lemma indexed_upsert id item record w d s e n disk0 : indexed id item w -> current materials_config (w_index w) = Some d ->
  visible s = visible (w_index w) -> CertificateID record <> id ->
  indexed id item (World (save_locked materials_config (upserted record d) e s).1 disk0 n).
Proof.
  intros (d' & Hd' & Hnd & Hin & Hid) Hd Hv Hne. rewrite Hd in Hd'. injection Hd' as <-.
  pose proof (save_locked_spec materials_config (upserted record d) e s) as Hs.
  destruct (save_locked _ _ _ _) as [s' [u|msg]]; unfold indexed; cbn [fst w_index].
  - exists (upserted record d). rewrite (current_saved _ _ Hs). split.
    + f_equal. unfold upserted. cbn [Materials]. f_equal. apply sort_on_idem.
    + destruct (upserted_ok record d Hnd) as (? & _ & Hk). split_and!; [done | | done]. apply Hk; [done|]. congruence.
  - subst s'. exists d. split_and!; [|done|done|done]. by rewrite (current_visible _ _ Hv).
Qed.

(** *** The other certificates stay *)
Section Keep.
Variables (a b c k : string) (item : MaterialRecord) (e : mat_env).
Hypothesis a_ok : material_id a.
Hypothesis b_ok : material_id b.
Hypothesis other : b <> a.
Hypothesis a_literal : useDB = true -> literal_key a.
Hypothesis apart : useDB = false \/ has_prefix a b = false.

Definition safe (w : world) : Prop := indexed b item w /\ kept useDB root b c k w.
Definition safe_at (d : state) (w : world) : Prop := safe w /\ current materials_config (w_index w) = Some d.

Lemma indexed_index w w' : w_index w' = w_index w -> indexed b item w -> indexed b item w'.
Proof. unfold indexed. by intros ->. Qed.

Lemma safe_write d name content : name ∈ [certificateFileName; privateKeyFileName] ->
  retains e (safe_at d) (writeMaterialBlob useDB root a name content) (fun _ => True).
Proof.
  intros Hn w [[Hi [Hc Hk]] Hd].
  destruct (write_other useDB root root_ok a name content b certificateFileName e w) as (E1 & _ & Hw); try done; [set_solver | by intros [=]|].
  destruct (write_other useDB root root_ok a name content b privateKeyFileName e w) as (E2 & _ & _); try done; [set_solver | by intros [=]|].
  assert (Hs : safe_at d (writeMaterialBlob useDB root a name content e w).1).
  { split; [split|].
    - by eapply indexed_index.
    - split; congruence.
    - by rewrite Hw. }
  by destruct (writeMaterialBlob useDB root a name content e w) as [w' [u|msg]].
Qed.

Lemma safe_reset d : retains e (safe_at d) (resetMaterialFiles useDB root a) (fun _ => True).
Proof.
  intros w [[Hi [Hc Hk]] Hd].
  destruct (reset_other useDB root a b certificateFileName e w) as (Hw & _ & _ & E1); try done; [set_solver|].
  destruct (reset_other useDB root a b privateKeyFileName e w) as (_ & _ & _ & E2); try done; [set_solver|].
  assert (Hs : safe_at d (resetMaterialFiles useDB root a e w).1).
  { split; [split|].
    - by eapply indexed_index.
    - split; [by rewrite E1 | by rewrite E2].
    - by rewrite Hw. }
  by destruct (resetMaterialFiles useDB root a e w) as [w' [u|msg]].
Qed.

Lemma retains_prefixed {A} I s (m : mop A) phi : retains e I m phi -> retains e I (prefixed s m) phi.
Proof. intros Hm w Hw. specialize (Hm w Hw). unfold prefixed. by destruct (m e w) as [w' [x|msg]]. Qed.

Lemma safe_put certificatePEM privateKeyPEM : retains e safe (Put useDB root a certificatePEM privateKeyPEM) (fun _ => True).
Proof.
  unfold Put. destruct a_ok as [-> _].
  do 3 (eapply retains_bind; [by apply (retains_result _ _ (fun _ => True)) | intros _ _]).
  unfold retains. apply (triple_bind _ _ _ safe_at).
  { intros w [Hi Hk]. destruct (loadLocked e w) as [w' [d|msg]] eqn:E.
    - apply load_kept in E as (Hd & Hv & Hdisk). split; [split|].
      + destruct Hi as (d' & Hd' & Hrest). exists d'. split; [|done]. by rewrite (current_visible _ _ Hv).
      + unfold kept in *. by rewrite Hdisk.
      + by rewrite (current_visible _ _ Hv).
    - apply load_failed in E as [Hv Hdisk]. split; [|unfold kept in *; by rewrite Hdisk].
      destruct Hi as (d' & Hd' & Hrest). exists d'. split; [|done]. by rewrite (current_visible _ _ Hv). }
  intros d. apply (triple_bind _ _ _ (fun _ => safe_at d)); [by intros w Hw|]. intros t.
  assert (Hweak : forall (m : mop unit) (rest : unit -> mop MaterialRecord), retains e (safe_at d) m (fun _ => True) ->
     triple e (safe_at d) (rest tt) (fun _ w => safe w /\ True) safe -> triple e (safe_at d) (m ≫= rest) (fun _ w => safe w /\ True) safe).
  { intros m rest Hm Hrest. apply (triple_bind _ _ _ (fun _ => safe_at d)).
    - eapply triple_weaken; [exact Hm | done | by intros u w [Hw _] | by intros w [Hw _]].
    - by intros []. }
  apply Hweak; [apply retains_prefixed, safe_reset|].
  apply Hweak; [apply retains_prefixed, safe_write; set_solver|].
  apply Hweak; [apply retains_prefixed, safe_write; set_solver|].
  apply (triple_bind _ _ _ (fun _ => safe)); [|by intros [] w Hw].
  intros w [[Hi Hk] Hd]. unfold saveLocked, on_index.
  match goal with |- context [save_locked ?cfg (upserted ?r d) ?e0 ?s] =>
    pose proof (fun n disk0 => indexed_upsert b item r w d s e0 n disk0 Hi Hd eq_refl (fun E => other (eq_sym E))) as Hs;
    destruct (save_locked cfg (upserted r d) e0 s) as [s' [u|msg]] end; split; (apply Hs || exact Hk).
Qed.
End Keep.

(** *** Reading back *)
Lemma Read_found b item c k w : material_id b -> indexed b item w -> kept useDB root b c k w ->
  (Read useDB root b quiet w).2 = Ok (item, c, k).
Proof.
  intros Hb (d & Hd & Hnd & Hin & Hid) [Hc Hk]. unfold Read. pose proof Hb as [Hn Hv]. rewrite Hn, rop_bind_run. unfold of_result at 1. rewrite Hv.
  rewrite rop_bind_run. unfold loadLocked, on_index. destruct (load_locked_healthy materials_config (healthy 0) (w_index w) d eq_refl Hd) as (s & Hl & _).
  cbn [me_store quiet]. rewrite Hl. destruct (find_record_unique b d item Hnd Hin Hid) as [i ->].
  rewrite !read_refs. rewrite rop_bind_run. unfold prefixed. rewrite on_disk_run. cbn [w_disk me_disk quiet].
  rewrite (read_blob_found useDB _ _ _ _ c); [|by apply material_id_parts | by apply file_names | done]. cbn [fst snd].
  rewrite rop_bind_run, on_disk_run. cbn [w_disk me_disk quiet].
  rewrite (read_blob_found useDB _ _ _ _ k); [done|by apply material_id_parts | by apply file_names | done].
Qed.

Lemma Read_gone b w : material_id b -> gone useDB root b w -> exists msg, (Read useDB root b quiet w).2 = Err msg.
Proof.
  intros Hb [Ha Hl]. pose proof Hb as [Hn Hv]. unfold Read. rewrite Hn, rop_bind_run. unfold of_result at 1. rewrite Hv.
  rewrite rop_bind_run. destruct (loadLocked quiet w) as [w1 [d|msg]] eqn:E; [|by eexists].
  apply load_kept in E as (_ & _ & Hdisk). destruct (find_record b d) as [[i item]|]; [|by eexists].
  rewrite !read_refs, rop_bind_run. unfold prefixed. rewrite on_disk_run, Hdisk. cbn [me_disk quiet].
  destruct (read_blob_missing useDB (files root) material_refs [b] certificateFileName (w_disk w)) as [msg E];
    [by apply material_id_parts | by apply file_names | done | done|]. rewrite E. by eexists.
Qed.

Lemma prefixed_ok {A} s (m : mop A) e w w' x : prefixed s m e w = (w', Ok x) -> m e w = (w', Ok x).
Proof. unfold prefixed. by destruct (m e w) as [? [?|?]]; intros [=]; subst. Qed.

Lemma kept_disk id c k w w' : w_disk w' = w_disk w -> kept useDB root id c k w -> kept useDB root id c k w'.
Proof. unfold kept. by intros ->. Qed.

(** A successful upload: what it leaves under its own name, and under a name the other begins. *)
Lemma Put_ok a cert key e w w' r : Put useDB root a cert key e w = (w', Ok r) ->
  (forall d, current materials_config (w_index w) = Some d -> NoDup (CertificateID <$> Materials d)) ->
  material_id (normalize_id a) /\ kept useDB root (normalize_id a) cert key w' /\ indexed (normalize_id a) r w' /\
  forall b, material_id b -> b <> normalize_id a -> useDB = true -> literal_key (normalize_id a) -> has_prefix (normalize_id a) b = true ->
    file_blob (files root) (w_disk w) [b] certificateFileName = None -> gone useDB root b w'.
Proof.
  intros E Hnd. unfold Put in E. apply rop_bind_ok in E as (w1 & [] & E1 & E). injection E1 as <- Hv.
  apply rop_bind_ok in E as (w1 & ? & E1 & E). injection E1 as <- _. apply rop_bind_ok in E as (w1 & ? & E1 & E). injection E1 as <- _.
  apply rop_bind_ok in E as (w1 & d & Hload & E). apply load_kept in Hload as (Hd & Hv1 & Hdisk1).
  apply rop_bind_ok in E as (w2 & t & Ht & E). injection Ht as <- <-. set (record := record_of _ _ _ _ _) in E.
  apply rop_bind_ok in E as (w2 & ? & Hreset%prefixed_ok & E). apply rop_bind_ok in E as (w3 & ? & Hcert%prefixed_ok & E).
  apply rop_bind_ok in E as (w4 & ? & Hkey%prefixed_ok & E). apply rop_bind_ok in E as (w5 & ? & Hsave & E). injection E as <- <-.
  assert (Ha : material_id (normalize_id a)) by (split; [apply normalize_id_idem | done]).
  assert (Hidx : CertificateID record = normalize_id a) by done.
  unfold saveLocked, on_index in Hsave. pose proof (save_locked_spec materials_config (upserted record d) (me_store e (w_calls w4)) (w_index w4)) as Hs.
  destruct (save_locked _ _ _ _) as [s' [v|msg]] in Hsave, Hs; [|discriminate]. injection Hsave as <- _.
  split; [done|]. split; [|split].
  - apply (kept_disk _ _ _ w4); [done|]. split; [|by eapply write_own; [done | done | set_solver | exact Hkey]].
    destruct (write_other useDB root root_ok (normalize_id a) privateKeyFileName key (normalize_id a) certificateFileName e w3) as (Ek & _); try done; [set_solver | set_solver|].
    rewrite Hkey in Ek. cbn [fst] in Ek. rewrite Ek. eapply write_own; [done | done | set_solver | exact Hcert].
  - exists (upserted record d). cbn [w_index]. rewrite (current_saved _ _ Hs). destruct (upserted_ok record d) as (Hn & Hin & _); [by apply Hnd|].
    split_and!; [|done|done|done]. f_equal. unfold upserted. cbn [Materials]. f_equal. apply sort_on_idem.
  - intros b Hb Hne Hdb Hlit Hp Hleg.
    destruct (reset_other useDB root (normalize_id a) b certificateFileName e w1 Ha Hb Hne ltac:(set_solver) ltac:(done)) as (_ & El & Hgone & _).
    rewrite Hreset in El, Hgone. cbn [fst] in El. specialize (Hgone Hdb Hp _ _ eq_refl). rewrite Hdisk1 in El.
    destruct (write_other useDB root root_ok (normalize_id a) certificateFileName cert b certificateFileName e w2) as (E3 & L3 & _); [done | done | set_solver | set_solver | by intros [=] |].
    destruct (write_other useDB root root_ok (normalize_id a) privateKeyFileName key b certificateFileName e w3) as (E4 & L4 & _); [done | done | set_solver | set_solver | by intros [=] |].
    rewrite Hcert in E3, L3. rewrite Hkey in E4, L4. cbn [fst] in E3, L3, E4, L4. unfold gone. cbn [w_disk]. split; congruence.
Qed.

End Facts.

(** *** Identifiers stay distinct over every history *)
Section Distinct.
Context `{SqlLike}.
Variables (useDB : bool) (root : fpath).

Definition distinct (w : world) : Prop := forall d, current materials_config (w_index w) = Some d -> NoDup (CertificateID <$> Materials d).

Inductive command :=
| CPut (certificateID certificatePEM privateKeyPEM : string)
| CDelete (certificateID : string).
Definition exec (c : command) : mop unit :=
  match c with
  | CPut id cert key => Put useDB root id cert key;; mret tt
  | CDelete id => Delete useDB root id
  end.

Lemma distinct_disk {A} (m : dop A) e : retains e distinct (on_disk m) (fun _ => True).
Proof. intros w Hw. rewrite on_disk_run. by destruct (m _ _) as [d [x|msg]]. Qed.

Lemma distinct_prefixed {A} s (m : mop A) e : retains e distinct m (fun _ => True) -> retains e distinct (prefixed s m) (fun _ => True).
Proof. intros Hm w Hw. specialize (Hm w Hw). unfold prefixed. by destruct (m e w) as [w' [x|msg]]. Qed.

Lemma distinct_load e : retains e distinct loadLocked (fun d => NoDup (CertificateID <$> Materials d)).
Proof.
  intros w Hw. destruct (loadLocked e w) as [w' [d|msg]] eqn:E.
  - apply load_kept in E as (Hd & Hv & _). split; [|by apply Hw]. intros d'. rewrite (current_visible _ _ Hv). apply Hw.
  - apply load_failed in E as [Hv _]. intros d'. rewrite (current_visible _ _ Hv). apply Hw.
Qed.

Lemma distinct_save d e : NoDup (CertificateID <$> Materials d) -> retains e distinct (saveLocked d) (fun _ => True).
Proof.
  intros Hd w Hw. unfold saveLocked, on_index. pose proof (save_locked_spec materials_config d (me_store e (w_calls w)) (w_index w)) as Hs.
  destruct (save_locked _ _ _ _) as [s [u|msg]].
  - split; [|done]. intros d'. cbn [w_index]. rewrite (current_saved _ _ Hs). intros [= <-]. cbn [Materials]. unfold sortMaterials. by rewrite sort_on_perm.
  - subst s. exact Hw.
Qed.

Lemma distinct_exec c e : retains e distinct (exec c) (fun _ => True).
Proof.
  destruct c as [id cert key | id]; cbn [exec].
  - apply retains_unit with (phi := fun _ => True). unfold Put.
    do 3 (eapply retains_bind; [by apply (retains_result _ _ (fun _ => True)) | intros _ _]).
    eapply retains_bind; [apply distinct_load|]. intros d Hd. eapply (retains_bind _ _ _ (fun _ => True)); [intros w Hw; split; [exact Hw | done]|].
    intros t _. do 3 (eapply retains_bind; [apply distinct_prefixed, distinct_disk | intros _ _]).
    eapply retains_bind; [apply distinct_save; by apply upserted_ok|]. intros _ _. by apply retains_ret.
  - unfold Delete. eapply retains_bind; [by apply (retains_result _ _ (fun _ => True))|]. intros _ _.
    eapply retains_bind; [apply distinct_load|]. intros d Hd. destruct (find_record _ d) as [[i x]|]; [|by apply retains_result].
    eapply retains_bind; [apply distinct_disk|]. intros _ _. apply distinct_save. cbn [Materials]. unfold sortMaterials. rewrite sort_on_perm.
    by apply NoDup_key_delete.
Qed.
End Distinct.

(** ** Example *)
Definition no_disk : disk := Disk empty (fun _ => empty) 0.
Definition start : world := World new_file_state no_disk 0.
Definition certs_root : fpath := ["data"; "certificate-materials"].
Definition with_root : world :=
  World new_file_state (Disk {[ ["data"] := Dir; certs_root := Dir; certs_root +++ ["files"] := Dir ]} (fun _ => empty) 0) 0.

