(* ===== verification/Bundle.v ===== *)
(** * Revision bundles (compiler/internal/compiler/bundle.go and validate.go)

    A compiled revision is a bundle: the rendered artifacts plus a manifest.json that lists them
    with checksums.  [AssembleRevisionBundle] builds it, [ValidateRevisionBundle] is run before a
    bundle is syntax-checked and staged.  The manifest text is encoding/json's; the interface
    [ManifestCodec] says what is relied on: it decodes what it encoded. *)
From Stdlib Require Import ZArith Lia Ascii String.
From stdpp Require Import base tactics gmap strings list.
From S2P Require Import Prelude GoHash Files.
Local Open Scope Z_scope.
Local Set Warnings "-clear-no-such-hyp".

Record ArtifactOutput := MkArtifact {
  art_Path : string;
  art_Kind : string;
  art_Content : string;
  art_Checksum : string
}.

Record RevisionInput := MkRevisionInput {
  ri_ID : string;
  ri_Version : Z;
  ri_CreatedAt : string
}.

Record ManifestContent := MkManifestContent {
  mc_Path : string;
  mc_Kind : string;
  mc_Checksum : string
}.

Record RevisionManifest := MkRevisionManifest {
  rm_SchemaVersion : string;
  rm_RevisionID : string;
  rm_RevisionVersion : Z;
  rm_CreatedAt : string;
  rm_BundleChecksum : string;
  rm_Contents : list ManifestContent
}.

Record BundleFile := MkBundleFile {
  bf_Path : string;
  bf_Content : string
}.

Record RevisionBundle := MkRevisionBundle {
  rb_Revision : RevisionInput;
  rb_Files : list BundleFile;
  rb_Manifest : RevisionManifest
}.

Definition manifestSchemaVersion : string := "v1".
Definition manifest_path : string := "manifest.json".

(** The bytes [json.MarshalIndent] and the final newline give, and [json.Unmarshal]. *)
Class ManifestCodec := {
  marshal_manifest : RevisionManifest -> string;
  unmarshal_manifest : string -> result RevisionManifest;
  unmarshal_marshal m : unmarshal_manifest (marshal_manifest m) = Ok m
}.

Definition nul : string := String "000" "".
Definition checksumContents (contents : list ManifestContent) : string :=
  sha256_hex (foldr (fun entry rest =>
    (mc_Path entry ++ nul ++ mc_Checksum entry ++ nul ++ mc_Kind entry ++ nul ++ rest)%string)
    ""%string contents).
Definition checksumBytes (content : string) : string := sha256_hex content.

(** ** Assembly *)
Definition content_of (a : ArtifactOutput) : ManifestContent :=
  MkManifestContent (art_Path a) (art_Kind a) (art_Checksum a).
Definition file_of (a : ArtifactOutput) : BundleFile := MkBundleFile (art_Path a) (art_Content a).

(** The loop over the sorted artifacts, with [seenPaths]. *)
Fixpoint collectArtifacts (seenPaths : gset string) (flat : list ArtifactOutput)
  : result (list ManifestContent * list BundleFile) :=
  match flat with
  | [] => Ok ([], [])
  | a :: flat' =>
      reject_if (is_blank (art_Path a)) "artifact path is required";;
      reject_if (bool_decide (art_Path a ∈ seenPaths)) ("duplicate artifact path " ++ art_Path a);;
      reject_if (is_blank (art_Checksum a))
        ("artifact " ++ art_Path a ++ " checksum is required");;
      '(contents, files) ← collectArtifacts ({[art_Path a]} ∪ seenPaths) flat';
      mret (content_of a :: contents, file_of a :: files)
  end.

Section Codec.
Context `{ManifestCodec}.

Definition AssembleRevisionBundle (revision : RevisionInput) (artifacts : list (list ArtifactOutput))
  : result RevisionBundle :=
  reject_if (is_blank (ri_ID revision)) "revision id is required";;
  reject_if (ri_Version revision <=? 0) "revision version must be positive";;
  reject_if (is_blank (ri_CreatedAt revision)) "revision created_at is required";;
  let flat := sort_on art_Path (concat artifacts) in
  reject_if (length (concat artifacts) =? 0)%nat "at least one artifact is required";;
  '(contents, files) ← collectArtifacts ∅ flat;
  let manifest := MkRevisionManifest manifestSchemaVersion (ri_ID revision) (ri_Version revision)
  (ri_CreatedAt revision) (checksumContents contents) contents in
  mret (MkRevisionBundle revision
    (files ++ [MkBundleFile manifest_path (marshal_manifest manifest)]) manifest).

(** ** Validation *)
Definition identifier_char (c : ascii) : bool :=
  is_lower c || is_upper c || is_digit c ||
  Ascii.eqb c "." || Ascii.eqb c "_" || Ascii.eqb c "-".

Definition isSafeBundleIdentifier (value : string) : bool :=
  let value := trim_space value in
  if is_empty value || String.eqb value "." || String.eqb value ".." then false
  else all_chars identifier_char value.

Definition isSafeBundlePath (value : string) : bool :=
  let value := trim_space value in
  if is_empty value || is_abs value || contains "\" value then false
  else negb (String.eqb (clean value) ".") && negb (String.eqb (clean value) "..") &&
  negb (has_prefix "../" (clean value)).

(** The loop that fills [fileByPath]. *)
Fixpoint indexFiles (fileByPath : gmap string string) (files : list BundleFile)
  : result (gmap string string) :=
  match files with
  | [] => Ok fileByPath
  | file :: files' =>
    reject_if (is_blank (bf_Path file)) "bundle file path is required";;
    reject_if (negb (isSafeBundlePath (bf_Path file)))
    ("bundle file path " ++ bf_Path file ++ " escapes the staging root");;
    reject_if (bool_decide (is_Some (fileByPath !! bf_Path file)))
    ("duplicate bundle file path " ++ bf_Path file);;
    indexFiles (<[bf_Path file := bf_Content file]> fileByPath) files'
  end.

Fixpoint checkContents (fileByPath : gmap string string) (seen : gset string)
  (contents : list ManifestContent) : result (gset string) :=
  match contents with
  | [] => Ok seen
  | entry :: contents' =>
    reject_if (is_blank (mc_Path entry)) "manifest content path is required";;
    reject_if (negb (isSafeBundlePath (mc_Path entry)))
    ("manifest content path " ++ mc_Path entry ++ " escapes the staging root");;
    reject_if (bool_decide (mc_Path entry ∈ seen))
    ("duplicate manifest content path " ++ mc_Path entry);;
    reject_if (is_blank (mc_Checksum entry))
    ("manifest content checksum is required for " ++ mc_Path entry);;
    match fileByPath !! mc_Path entry with
    | None => Err ("manifest content " ++ mc_Path entry ++ " is missing from bundle")%string
    | Some content =>
      reject_if (negb (String.eqb (checksumBytes content) (mc_Checksum entry)))
      ("checksum mismatch for " ++ mc_Path entry);;
      checkContents fileByPath ({[mc_Path entry]} ∪ seen) contents'
    end
  end.

(** [for path := range fileByPath]; Go visits the map in an unspecified order, which only matters
for which of several undeclared files the error names. *)
Definition undeclared (seen : gset string) (files : list BundleFile) : option (nat * BundleFile) :=
  find_where (fun f => negb (String.eqb (bf_Path f) manifest_path) &&
    negb (bool_decide (bf_Path f ∈ seen))) files.

Definition ValidateRevisionBundle (bundle : RevisionBundle) : result unit :=
  reject_if (length (rb_Files bundle) =? 0)%nat "bundle files are required";;
  fileByPath ← indexFiles ∅ (rb_Files bundle);
  match fileByPath !! manifest_path with
  | None => Err "manifest.json is required"
  | Some manifestFile =>
    reject_if (negb (isSafeBundleIdentifier (ri_ID (rb_Revision bundle))))
    "bundle revision id must be a safe identifier";;
    match unmarshal_manifest manifestFile with
    | Err msg => Err ("decode manifest: " ++ msg)%string
    | Ok manifest =>
      reject_if (negb (String.eqb (rm_SchemaVersion manifest) manifestSchemaVersion))
      ("unsupported manifest schema version " ++ rm_SchemaVersion manifest);;
      reject_if (is_blank (rm_RevisionID manifest)) "manifest revision_id is required";;
      reject_if (rm_RevisionVersion manifest <=? 0)
      "manifest revision_version must be positive";;
      reject_if (is_blank (rm_CreatedAt manifest)) "manifest created_at is required";;
      reject_if (is_blank (rm_BundleChecksum manifest)) "manifest bundle_checksum is required";;
      reject_if (length (rm_Contents manifest) =? 0)%nat "manifest contents are required";;
      let contents := sort_on mc_Path (rm_Contents manifest) in
      seen ← checkContents fileByPath ∅ contents;
      match undeclared seen (rb_Files bundle) with
      | Some (_, f) => Err ("bundle file " ++ bf_Path f ++ " is not declared in manifest")%string
      | None =>
        reject_if (negb (String.eqb (checksumContents contents) (rm_BundleChecksum manifest)))
        "bundle checksum mismatch"
      end
    end
  end.
End Codec.

(** ** Assembly and validation, loop by loop *)
Lemma collectArtifacts_ok seen l cs fs :
  collectArtifacts seen l = Ok (cs, fs) ->
  cs = content_of <$> l /\ fs = file_of <$> l /\ NoDup (art_Path <$> l) /\
  (forall p, p ∈ art_Path <$> l -> p ∉ seen) /\
  Forall (fun a => is_blank (art_Path a) = false /\ is_blank (art_Checksum a) = false) l.
Proof.
  revert seen cs fs. induction l as [|a l IH]; intros seen cs fs; simpl.
  - intros [= <- <-]. split_and!; try done; [apply NoDup_nil_2 | intros p Hp; by apply not_elem_of_nil in Hp].
  - unbind. destruct (is_blank (art_Path a)) eqn:Hp; [discriminate|]. simpl.
    case_bool_decide as Hin; [discriminate|]. simpl.
    destruct (is_blank (art_Checksum a)) eqn:Hc; [discriminate|]. simpl.
    destruct (collectArtifacts _ l) as [[cs' fs']|] eqn:E; [|discriminate].
    apply IH in E as (-> & -> & Hn & Hs & Hf). intros [= <- <-]. split_and!; try done.
    + apply NoDup_cons. split; [|done]. intros Hi. apply Hs in Hi. set_solver.
    + intros p [->|Hi]%elem_of_cons; [done|]. apply Hs in Hi. set_solver.
    + by constructor.
Qed.

Lemma indexFiles_ok m files m' :
  indexFiles m files = Ok m' ->
  NoDup (bf_Path <$> files) /\
  Forall (fun f => isSafeBundlePath (bf_Path f) = true) files /\
  (forall f, f ∈ files -> m !! bf_Path f = None /\ m' !! bf_Path f = Some (bf_Content f)) /\
  (forall p c, m' !! p = Some c -> m !! p = Some c \/ exists f, f ∈ files /\ f = MkBundleFile p c) /\
  (forall p c, m !! p = Some c -> m' !! p = Some c).
Proof.
  revert m. induction files as [|f files IH]; intros m; simpl.
  - intros [= <-]. split_and!; [apply NoDup_nil_2 | done | | eauto | done].
    intros f Hf. by apply not_elem_of_nil in Hf.
  - unbind. destruct (is_blank _); [discriminate|]. simpl.
    destruct (isSafeBundlePath (bf_Path f)) eqn:Hs; [|discriminate]. simpl.
    case_bool_decide as Hn; [discriminate|]. simpl. apply eq_None_not_Some in Hn.
    intros (Hnd & Hsafe & Hin & Hback & Hkeep)%IH. split_and!.
    + apply NoDup_cons. split; [|done].
      intros (g & E & Hg)%list_elem_of_fmap. apply Hin in Hg as [Hg _].
      rewrite E, lookup_insert_eq in Hg. discriminate.
    + by constructor.
    + intros g [->|Hg]%elem_of_cons.
      * split; [done|]. apply Hkeep, lookup_insert_eq.
      * apply Hin in Hg as [Hg ?]. split; [|done].
        destruct (decide (bf_Path f = bf_Path g)) as [E|E];
          [by rewrite E, lookup_insert_eq in Hg | by rewrite lookup_insert_ne in Hg].
    + intros p c Hp. destruct (Hback p c Hp) as [Hm|(g & Hg & ->)].
      * rewrite lookup_insert in Hm. case_decide as E; [|by left].
        right. exists f. split; [by left|]. subst p. injection Hm as <-. by destruct f.
      * right. exists (MkBundleFile p c). split; [by right | done].
    + intros p c Hp. apply Hkeep. rewrite lookup_insert_ne; [done|]. congruence.
Qed.

Lemma indexFiles_complete m files :
  NoDup (bf_Path <$> files) -> Forall (fun f => isSafeBundlePath (bf_Path f) = true) files ->
  Forall (fun f => is_blank (bf_Path f) = false /\ m !! bf_Path f = None) files ->
  is_ok (indexFiles m files) = true.
Proof.
  revert m. induction files as [|f files IH]; intros m Hn Hs Hb; simpl; [done|].
  rewrite fmap_cons, NoDup_cons in Hn. destruct Hn as [Hf Hn].
  apply Forall_cons_1 in Hs as [Hsf Hs]. apply Forall_cons_1 in Hb as [[Hbf Hmf] Hb].
  unbind. rewrite Hbf, Hsf. simpl.
  rewrite bool_decide_eq_false_2 by (by rewrite Hmf; apply is_Some_None). simpl.
  apply IH; [done|done|]. apply Forall_forall. intros g Hg. rewrite Forall_forall in Hb.
  destruct (Hb _ Hg) as [? ?]. split; [done|]. rewrite lookup_insert_ne; [done|].
  intros E. apply Hf. rewrite E. by apply list_elem_of_fmap_2.
Qed.

(** An entry whose file is present with the checksum it declares. *)
Definition entry_backed (m : gmap string string) (entry : ManifestContent) : Prop :=
  exists content, m !! mc_Path entry = Some content /\ sha256_hex content = mc_Checksum entry.

Lemma checkContents_ok m seen contents seen' :
  checkContents m seen contents = Ok seen' ->
  Forall (entry_backed m) contents /\ NoDup (mc_Path <$> contents) /\
  (forall p, p ∈ seen' <-> p ∈ seen \/ p ∈ mc_Path <$> contents) /\
  (forall p, p ∈ mc_Path <$> contents -> p ∉ seen).
Proof.
  revert seen. induction contents as [|entry contents IH]; intros seen; simpl.
  - intros [= <-]. split_and!; [done | apply NoDup_nil_2 | set_solver | set_solver].
  - unbind. destruct (is_blank _); [discriminate|]. simpl.
    destruct (isSafeBundlePath _); [|discriminate]. simpl.
    case_bool_decide as Hin; [discriminate|]. simpl.
    destruct (is_blank _); [discriminate|]. simpl.
    destruct (m !! mc_Path entry) as [content|] eqn:Hm; [|discriminate].
    destruct (String.eqb_spec (checksumBytes content) (mc_Checksum entry)) as [Hc|]; [|discriminate].
    simpl. intros (Hf & Hn & Hp & Hs)%IH. split_and!.
    + constructor; [by exists content | done].
    + apply NoDup_cons. split; [|done]. intros Hi%Hs. set_solver.
    + intros p. rewrite Hp. simpl. set_solver.
    + intros p. intros [->|Hi]%elem_of_cons; [done|]. apply Hs in Hi. set_solver.
Qed.

Lemma checkContents_complete m seen contents :
  Forall (entry_backed m) contents -> NoDup (mc_Path <$> contents) ->
  Forall (fun e => isSafeBundlePath (mc_Path e) = true /\ is_blank (mc_Path e) = false /\
                   mc_Path e ∉ seen) contents ->
  is_ok (checkContents m seen contents) = true.
Proof.
  revert seen. induction contents as [|e contents IH]; intros seen Hb Hn Hs; simpl; [done|].
  apply Forall_cons_1 in Hb as [(content & Hm & Hc) Hb].
  rewrite fmap_cons, NoDup_cons in Hn. destruct Hn as [He Hn].
  apply Forall_cons_1 in Hs as [(Hsafe & Hbl & Hns) Hs].
  unbind. rewrite Hbl, Hsafe. simpl. rewrite bool_decide_eq_false_2 by done. simpl.
  rewrite <- Hc, sha256_hex_not_blank, Hm. unfold checksumBytes. rewrite String.eqb_refl. simpl.
  apply IH; [done|done|]. rewrite Forall_forall in Hs |- *. intros e' He'.
  destruct (Hs _ He') as (? & ? & ?). split_and!; [done|done|].
  intros [E%elem_of_singleton|?]%elem_of_union; [|done].
  apply He. rewrite <- E. by apply list_elem_of_fmap_2.
Qed.

(** ** Paths that pass validation stay below the root *)
Definition has_space (s : string) : Prop := all_chars (fun c => negb (is_space c)) s = false.

Lemma has_space_plain s : has_space s -> plain s.
Proof. unfold has_space, plain. intros H. split_and!; intros ->; discriminate. Qed.

Lemma has_space_cons c s : has_space s -> has_space (String c s).
Proof. unfold has_space. simpl. intros ->. by rewrite andb_false_r. Qed.

(** Components of a path before and after trimming: trimming only changes ones with a space. *)
Definition trimmed_part (raw trimmed : string) : Prop := raw = trimmed \/ has_space raw.

Lemma trimmed_parts_refl l : Forall2 trimmed_part l l.
Proof. induction l; constructor; [by left | done]. Qed.

Lemma split_on_cons c s :
  exists w ws, split_on "/" s = w :: ws /\
    split_on "/" (String c s) = if Ascii.eqb c "/" then "" :: w :: ws else String c w :: ws.
Proof.
  assert (exists w ws, split_on "/" s = w :: ws) as (w & ws & E).
  { destruct s as [|d s]; simpl; [eauto|]. destruct (Ascii.eqb d "/"); [eauto|].
    destruct (split_on "/" s); eauto. }
  exists w, ws. split; [done|]. simpl. rewrite E. by destruct (Ascii.eqb c "/").
Qed.

Lemma space_not_slash c : is_space c = true -> Ascii.eqb c "/" = false.
Proof. by destruct c as [[] [] [] [] [] [] [] []]. Qed.

Lemma is_abs_cons c s : is_abs (String c s) = Ascii.eqb c "/".
Proof.
  unfold is_abs. change (has_prefix "/" (String c s)) with (Ascii.eqb "/" c && true).
  by rewrite andb_true_r, Ascii.eqb_sym.
Qed.

Lemma split_trim_left s :
  is_abs (trim_left s) = false ->
  Forall2 trimmed_part (split_on "/" s) (split_on "/" (trim_left s)).
Proof.
  induction s as [|c s IH]; intros Ha; [apply trimmed_parts_refl|]. cbn [trim_left] in *.
  destruct (is_space c) eqn:Hc; [|apply trimmed_parts_refl]. specialize (IH Ha).
  destruct (split_on_cons c s) as (w & ws & E & Ec). rewrite Ec, (space_not_slash c Hc).
  rewrite E in IH. destruct (split_on "/" (trim_left s)) as [|w' ws'];
    [by apply Forall2_nil_inv_r in IH|]. apply Forall2_cons_1 in IH as [Hw Hws].
  constructor; [|done]. right. unfold has_space. simpl. by rewrite Hc.
Qed.

Lemma trim_right_blank s :
  trim_right s = ""%string -> split_on "/" s = [s] /\ (s = ""%string \/ has_space s).
Proof.
  induction s as [|c s IH]; intros H; [by split; [|left]|]. simpl in H.
  destruct (trim_right s) eqn:E; [|discriminate]. destruct (is_space c) eqn:Hc; [|discriminate].
  destruct (IH eq_refl) as [Hs _]. split.
  - simpl. by rewrite (space_not_slash c Hc), Hs.
  - right. unfold has_space. simpl. by rewrite Hc.
Qed.

Lemma split_trim_right s :
  Forall2 trimmed_part (split_on "/" s) (split_on "/" (trim_right s)).
Proof.
  induction s as [|c s IH]; [apply trimmed_parts_refl|].
  destruct (trim_right s) as [|d t] eqn:E.
  - destruct (trim_right_blank s E) as [Hs Hsp]. cbn [trim_right]. rewrite E.
    assert (Hone : trimmed_part s "") by (destruct Hsp as [->|]; [by left | by right]).
    destruct (is_space c) eqn:Hc.
    + simpl. rewrite (space_not_slash c Hc), Hs. constructor; [|constructor]. right.
      unfold has_space. simpl. by rewrite Hc.
    + simpl. rewrite Hs. destruct (Ascii.eqb c "/").
      * constructor; [by left|]. by constructor.
      * constructor; [|constructor]. destruct Hone as [->|H]; [by left | right; by apply has_space_cons].
  - cbn [trim_right]. rewrite E. destruct (split_on_cons c s) as (w & ws & Es & ->).
    destruct (split_on_cons c (String d t)) as (w' & ws' & Et & ->). rewrite Es, Et in IH.
    apply Forall2_cons_1 in IH as [Hw Hws]. destruct (Ascii.eqb c "/").
    + constructor; [by left|]. by constructor.
    + constructor; [|done]. destruct Hw as [->|H]; [by left | right; by apply has_space_cons].
Qed.

#[export] Instance trimmed_part_trans : Transitive trimmed_part.
Proof. intros x y z [->|Hx] H; [done | by right]. Qed.

Lemma split_trim s :
  is_abs (trim_space s) = false ->
  Forall2 trimmed_part (split_on "/" s) (split_on "/" (trim_space s)).
Proof.
  intros Ha. unfold trim_space in *.
  transitivity (split_on "/" (trim_left s)); [|apply split_trim_right].
  apply split_trim_left. destruct (trim_left s) as [|c t]; [done|]. revert Ha.
  rewrite is_abs_cons. destruct (is_space c) eqn:Hc; [intros _; by apply space_not_slash|].
  destruct (trim_right_cons c t Hc) as [u ->]. by rewrite is_abs_cons.
Qed.

Definition no_dotdot (acc : list string) : Prop := Forall (fun c => c <> ".."%string) acc.

(** Once cleaning has gone above its start, the output keeps a leading [".."]. *)
Lemma clean_escaped l acc :
  (exists acc', acc = acc' ++ [".."%string]) ->
  exists acc', foldl (clean_step false) acc l = acc' ++ [".."%string].
Proof.
  revert acc. induction l as [|c l IH]; intros acc [acc' ->]; simpl; [by exists acc'|]. apply IH.
  unfold clean_step. destruct (String.eqb c "" || String.eqb c "."); [by exists acc'|].
  destruct (String.eqb c "..") eqn:Hc; [|by exists (c :: acc')].
  destruct acc' as [|d acc']; simpl; [by exists [".."%string]|].
  destruct (String.eqb d ".."); [by exists (".."%string :: d :: acc') | by exists acc'].
Qed.

(** The raw components walk at least as deep as the trimmed ones, on top of any base. *)
Lemma clean_depth base l' l acc top r :
  Forall2 trimmed_part l' l -> no_dotdot acc -> Forall (fun c => c <> ".."%string) top ->
  (length acc <= length top)%nat ->
  foldl (clean_step false) acc l = r -> no_dotdot r ->
  exists top', foldl (clean_step true) (top ++ base) l' = top' ++ base /\ (length r <= length top')%nat.
Proof.
  intros Hl. revert acc top. induction Hl as [|c' c l' l Hc Hl IH]; intros acc top Hacc Htop Hlen Hr Hnr.
  { simpl in *. subst r. by exists top. }
  simpl in *.
  destruct (decide (c = ""%string \/ c = "."%string)) as [Hskip|Hskip];
    [|destruct (decide (c = ".."%string)) as [->|Hup]].
  - assert (clean_step false acc c = acc) as E by by destruct Hskip as [-> | ->].
    rewrite E in Hr. destruct Hc as [->|Hsp%has_space_plain].
    + assert (clean_step true (top ++ base) c = top ++ base) as -> by (by destruct Hskip as [-> | ->]).
      by apply (IH acc top).
    + rewrite clean_step_push by done. destruct Hsp as (_ & _ & ?).
      eapply (IH acc (c' :: top)); [done | by constructor | simpl; lia | done | done].
  - destruct acc as [|d acc].
    { exfalso. destruct (clean_escaped l [".."%string]) as [acc' E]; [by exists []|].
      change (clean_step false [] "..") with [".."%string] in Hr. rewrite E in Hr. subst r.
      unfold no_dotdot in Hnr. apply Forall_app in Hnr as [_ Hnr]. by apply Forall_cons_1 in Hnr as [[] _]. }
    apply Forall_cons_1 in Hacc as [Hd Hacc]. simpl in Hlen.
    assert (clean_step false (d :: acc) ".." = acc) as E.
    { unfold clean_step. simpl. apply String.eqb_neq in Hd. by rewrite Hd. }
    rewrite E in Hr. destruct top as [|t top]; [simpl in Hlen; lia|].
    apply Forall_cons_1 in Htop as [Ht Htop]. simpl in Hlen.
    destruct Hc as [->|Hsp%has_space_plain].
    + assert (clean_step true ((t :: top) ++ base) ".." = top ++ base) as ->.
      { unfold clean_step. simpl. apply String.eqb_neq in Ht. by rewrite Ht. }
      eapply (IH acc top); [done|done|lia|done|done].
    + rewrite clean_step_push by done. destruct Hsp as (_ & _ & ?).
      eapply (IH acc (c' :: t :: top)); [done|by repeat constructor|simpl; lia|done|done].
  - assert (Hplain : plain c) by (unfold plain; tauto). rewrite clean_step_push in Hr by done.
    destruct Hc as [->|Hsp%has_space_plain].
    + rewrite clean_step_push by done. eapply (IH (c :: acc) (c :: top)); [by constructor|by constructor|simpl; lia|done|done].
    + rewrite clean_step_push by done. destruct Hsp as (_ & _ & ?).
      eapply (IH (c :: acc) (c' :: top)); [by constructor|by constructor|simpl; lia|done|done].
Qed.

(** Cleaning a relative path leaves [".."] only at the front. *)
Lemma clean_dotdot_front l acc :
  (exists k tl, acc = tl ++ repeat ".."%string k /\ no_dotdot tl) ->
  exists k tl, foldl (clean_step false) acc l = tl ++ repeat ".."%string k /\ no_dotdot tl.
Proof.
  revert acc. induction l as [|c l IH]; intros acc Hacc; simpl; [done|]. apply IH.
  destruct Hacc as (k & tl & -> & Htl). unfold clean_step.
  destruct (String.eqb c "" || String.eqb c "."); [by exists k, tl|].
  destruct (String.eqb_spec c "..") as [->|Hc].
  - destruct tl as [|d tl]; simpl.
    + destruct k as [|k]; simpl; [by exists 1%nat, []|]. by exists (S (S k)), [].
    + apply Forall_cons_1 in Htl as [Hd Htl]. apply String.eqb_neq in Hd. rewrite Hd. by exists k, tl.
  - exists k, (c :: tl). split; [done|]. by constructor.
Qed.

Lemma join_dotdot l : exists r, join "/" (".."%string :: l) = (".." ++ r)%string /\
  (r = ""%string \/ exists r', r = ("/" ++ r')%string).
Proof. destruct l as [|c l]; simpl; [exists ""%string; eauto | eexists; split; [done|]; right; eauto]. Qed.

Lemma isSafeBundlePath_parts s :
  isSafeBundlePath s = true ->
  is_abs (trim_space s) = false /\
  exists parts, foldl (clean_step false) [] (split_on "/" (trim_space s)) = parts /\
    no_dotdot parts /\ parts <> [].
Proof.
  unfold isSafeBundlePath. destruct (is_empty _); [done|]. destruct (is_abs (trim_space s)) eqn:Ha; [done|].
  simpl. destruct (contains _ _); [done|]. intros [[H1 H2]%andb_true_iff H3]%andb_true_iff.
  split; [done|]. eexists. split; [done|].
  destruct (clean_dotdot_front (split_on "/" (trim_space s)) []) as (k & tl & E & Htl).
  { exists 0%nat, []. split; [done | constructor]. }
  assert (Hclean : clean (trim_space s) = match rev (tl ++ repeat ".."%string k) with
    [] => "."%string | parts => join "/" parts end)
    by (unfold clean, clean_from; rewrite Ha; cbn [rev]; rewrite E; by destruct (rev _)).
  rewrite Hclean in *. rewrite E. destruct k as [|k].
  - simpl in *. rewrite app_nil_r in *. split; [done|]. by intros ->.
  - exfalso. rewrite rev_app_distr, rev_repeat in H2, H3. cbn [repeat app] in H2, H3.
    destruct (join_dotdot (repeat ".."%string k ++ rev tl)) as (r & Hj & Hr). rewrite Hj in H2, H3.
    by destruct Hr as [-> | [r' ->]].
Qed.

Lemma safe_path_inside (base : fpath) (p : string) :
  isSafeBundlePath p = true ->
  exists tl, join_path base p = base ++ tl /\ tl <> [].
Proof.
  intros (Ha & parts & E & Hn & Hne)%isSafeBundlePath_parts.
  destruct (clean_depth (rev base) (split_on "/" p) (split_on "/" (trim_space p)) [] [] parts)
    as (top & Ht & Hlen); [by apply split_trim|constructor|constructor|done|done|done|].
  simpl in Ht. unfold join_path, clean_from. rewrite Ht, rev_app_distr, rev_involutive.
  exists (rev top). split; [done|]. intros Hr%(f_equal length). rewrite length_rev in Hr.
  destruct parts; [done|]. simpl in *. lia.
Qed.

(** ** A concrete codec, for examples: any injective text does *)
Fixpoint positive_text (p : positive) : string :=
  match p with
  | xH => ""%string
  | xO q => String "0" (positive_text q)
  | xI q => String "1" (positive_text q)
  end.
Fixpoint text_positive (s : string) : positive :=
  match s with
  | EmptyString => xH
  | String c s' => if Ascii.eqb c "0" then xO (text_positive s') else xI (text_positive s')
  end.
Lemma text_positive_text p : text_positive (positive_text p) = p.
Proof. induction p as [p IH|p IH|]; simpl; by rewrite ?IH. Qed.

#[export] Instance ManifestContent_eq_dec : EqDecision ManifestContent.
Proof. solve_decision. Defined.
#[export] Instance RevisionManifest_eq_dec : EqDecision RevisionManifest.
Proof. solve_decision. Defined.
#[export] Instance ManifestContent_countable : Countable ManifestContent.
Proof.
  apply (inj_countable' (fun m => (mc_Path m, mc_Kind m, mc_Checksum m))
    (fun '(p, k, c) => MkManifestContent p k c)). by intros [].
Defined.
#[export] Instance RevisionManifest_countable : Countable RevisionManifest.
Proof.
  apply (inj_countable'
    (fun m => (rm_SchemaVersion m, rm_RevisionID m, rm_RevisionVersion m, rm_CreatedAt m,
               rm_BundleChecksum m, rm_Contents m))
    (fun '(s, i, v, c, b, l) => MkRevisionManifest s i v c b l)). by intros [].
Defined.

#[export, refine] Instance text_codec : ManifestCodec | 100 := {|
  marshal_manifest m := positive_text (encode m);
  unmarshal_manifest s :=
    match decode (text_positive s) with Some m => Ok m | None => Err "invalid manifest" end
|}.
Proof. intros m. by rewrite text_positive_text, decode_encode. Defined.

(** ** Properties *)
Section Properties.
Context `{ManifestCodec}.

Lemma undeclared_none seen files :
  undeclared seen files = None <->
  forall f, f ∈ files -> bf_Path f = manifest_path \/ bf_Path f ∈ seen.
Proof.
  unfold undeclared. rewrite find_where_None. split; intros Hf f Hin; specialize (Hf f Hin).
  - apply andb_false_iff in Hf as [Hf|Hf]; apply negb_false_iff in Hf;
    [left; by apply String.eqb_eq | right; by apply bool_decide_eq_true in Hf].
  - apply andb_false_iff. destruct Hf as [Hf|Hf]; [left | right]; apply negb_false_iff;
    [by apply String.eqb_eq | by apply bool_decide_eq_true].
Qed.

(** Everything a successful [ValidateRevisionBundle] has established. *)
Lemma ValidateRevisionBundle_ok b :
  ValidateRevisionBundle b = Ok tt ->
  exists m manifestFile manifest seen,
  indexFiles ∅ (rb_Files b) = Ok m /\ m !! manifest_path = Some manifestFile /\
  isSafeBundleIdentifier (ri_ID (rb_Revision b)) = true /\
  unmarshal_manifest manifestFile = Ok manifest /\
  checkContents m ∅ (sort_on mc_Path (rm_Contents manifest)) = Ok seen /\
  undeclared seen (rb_Files b) = None /\
  checksumContents (sort_on mc_Path (rm_Contents manifest)) = rm_BundleChecksum manifest.
Proof.
  unfold ValidateRevisionBundle. unbind. destruct (length (rb_Files b) =? 0)%nat; [discriminate|].
  simpl. destruct (indexFiles ∅ (rb_Files b)) as [m|] eqn:E1; [|discriminate].
  destruct (m !! manifest_path) as [mf|] eqn:E2; [|discriminate].
  destruct (isSafeBundleIdentifier _) eqn:E3; [|discriminate]. simpl.
  destruct (unmarshal_manifest mf) as [manifest|] eqn:E4; [|discriminate].
  unfold reject_if.
  destruct (negb (String.eqb (rm_SchemaVersion manifest) _)); [discriminate|].
  destruct (is_blank (rm_RevisionID _)); [discriminate|].
  destruct (rm_RevisionVersion _ <=? 0); [discriminate|].
  destruct (is_blank (rm_CreatedAt _)); [discriminate|].
  destruct (is_blank (rm_BundleChecksum _)); [discriminate|].
  destruct (length (rm_Contents _) =? 0)%nat; [discriminate|].
  destruct (checkContents _ _ _) as [seen|] eqn:E5; [|discriminate].
  destruct (undeclared seen _) as [[i f]|] eqn:E6; [discriminate|].
  destruct (String.eqb_spec (checksumContents (sort_on mc_Path (rm_Contents manifest)))
  (rm_BundleChecksum manifest)) as [E7|]; [|discriminate].
  intros _. by exists m, mf, manifest, seen.
Qed.

(** C18: A bundle that validates is consistent: its paths are distinct and every file, wherever
the bundle is materialised, lands strictly below that directory; the manifest decodes, each
file but the manifest is listed in it with the SHA-256 of its content, each entry has its
file, and the bundle checksum is that of the entries. *)
Theorem validated_bundle_consistent (b : RevisionBundle) :
  ValidateRevisionBundle b = Ok tt ->
  NoDup (bf_Path <$> rb_Files b) /\
  (forall f base, f ∈ rb_Files b ->
    exists below, join_path base (bf_Path f) = base ++ below /\ below <> []) /\
  exists mf manifest,
  MkBundleFile manifest_path mf ∈ rb_Files b /\ unmarshal_manifest mf = Ok manifest /\
  (forall f, f ∈ rb_Files b -> bf_Path f <> manifest_path ->
    exists entry, entry ∈ rm_Contents manifest /\ mc_Path entry = bf_Path f /\
    mc_Checksum entry = sha256_hex (bf_Content f)) /\
  (forall entry, entry ∈ rm_Contents manifest ->
    exists f, f ∈ rb_Files b /\ bf_Path f = mc_Path entry /\
    sha256_hex (bf_Content f) = mc_Checksum entry) /\
  rm_BundleChecksum manifest = checksumContents (sort_on mc_Path (rm_Contents manifest)).
Proof.
  intros (m & mf & manifest & seen & E1 & E2 & _ & E4 & E5 & E6 & E7)%ValidateRevisionBundle_ok.
  apply indexFiles_ok in E1 as (Hn & Hsafe & Hin & Hback & _).
  apply checkContents_ok in E5 as (Hb & Hnc & Hseen & _). rewrite Forall_forall in Hb. rewrite Forall_forall in Hsafe.
  assert (Hfile : forall p c, m !! p = Some c -> MkBundleFile p c ∈ rb_Files b).
  { intros p c Hp. by destruct (Hback p c Hp) as [Hm|(f & Hf & ->)]; [rewrite lookup_empty in Hm|]. }
  split; [done|]. split; [intros f base Hf; by apply safe_path_inside, Hsafe|].
  exists mf, manifest. split_and!; [by apply Hfile | done | | | done].
  - intros f Hf Hne. rewrite undeclared_none in E6. destruct (E6 f Hf) as [|Hs]; [done|].
    apply Hseen in Hs as [Hs|Hs]; [by apply elem_of_empty in Hs|].
    apply list_elem_of_fmap in Hs as (entry & Hp & He). exists entry.
    pose proof (Hb _ He) as (content & Hm & Hc). apply elem_of_sort_on in He.
    destruct (Hin f Hf) as [_ Hf']. rewrite <- Hp, Hf' in Hm. by injection Hm as ->.
  - intros entry He. rewrite <- (elem_of_sort_on mc_Path) in He. destruct (Hb _ He) as (content & Hm & Hc).
    exists (MkBundleFile (mc_Path entry) content). by split; [apply Hfile|].
Qed.

(** An artifact as the renderers make them. *)
Definition sound_artifact (a : ArtifactOutput) : Prop :=
  isSafeBundlePath (art_Path a) = true /\ art_Path a <> manifest_path /\
  art_Checksum a = sha256_hex (art_Content a).

Lemma assembled_parts rev arts b :
  AssembleRevisionBundle rev arts = Ok b ->
  let flat := sort_on art_Path (concat arts) in
  let contents := content_of <$> flat in
  let manifest := MkRevisionManifest manifestSchemaVersion (ri_ID rev) (ri_Version rev)
  (ri_CreatedAt rev) (checksumContents contents) contents in
  is_blank (ri_ID rev) = false /\ 0 < ri_Version rev /\ is_blank (ri_CreatedAt rev) = false /\
  flat <> [] /\ NoDup (art_Path <$> flat) /\
  Forall (fun a => is_blank (art_Path a) = false) flat /\
  b = MkRevisionBundle rev ((file_of <$> flat) ++ [MkBundleFile manifest_path (marshal_manifest manifest)])
  manifest.
Proof.
  unfold AssembleRevisionBundle. unbind. unfold reject_if.
  destruct (is_blank (ri_ID rev)); [discriminate|].
  destruct (ri_Version rev <=? 0) eqn:Ev; [discriminate|]. apply Z.leb_gt in Ev.
  destruct (is_blank (ri_CreatedAt rev)); [discriminate|].
  destruct (length (concat arts) =? 0)%nat eqn:El; [discriminate|]. apply Nat.eqb_neq in El.
  destruct (collectArtifacts _ _) as [[cs fs]|] eqn:E; [|discriminate].
  apply collectArtifacts_ok in E as (-> & -> & Hn & _ & Hf). intros [= <-]. split_and!; try done.
  - intros E%(f_equal length). by rewrite length_sort_on in E.
  - eapply Forall_impl; [exact Hf|]. by intros a [? _].
Qed.

(** What AssembleRevisionBundle builds passes ValidateRevisionBundle: for artifacts with safe
paths and correct checksums and a revision ID fit for a directory name, an assembled bundle is
accepted, whatever the number and order of the artifact groups. *)
Theorem assembled_bundle_validates (rev : RevisionInput) (arts : list (list ArtifactOutput))
  (b : RevisionBundle) :
  AssembleRevisionBundle rev arts = Ok b ->
  isSafeBundleIdentifier (ri_ID rev) = true ->
  (forall group a, group ∈ arts -> a ∈ group -> sound_artifact a) ->
  ValidateRevisionBundle b = Ok tt.
Proof.
  intros (Hid & Hv & Hcr & Hne & Hn & Hbl & ->)%assembled_parts Hsafe Harts.
  set (flat := sort_on art_Path (concat arts)) in *.
  assert (Hsound : Forall sound_artifact flat).
  { apply Forall_forall. intros a Ha%elem_of_sort_on. apply list_elem_of_In, in_concat in Ha as
    (g & Hg & Ha). apply (Harts g); by apply list_elem_of_In. }
  rewrite Forall_forall in Hsound. rewrite Forall_forall in Hbl.
  set (contents := content_of <$> flat). set (manifest := MkRevisionManifest _ _ _ _ _ _).
  set (files := (file_of <$> flat) ++ [_]).
  assert (Hpaths : bf_Path <$> files = (art_Path <$> flat) ++ [manifest_path]).
  { unfold files. rewrite fmap_app. f_equal. by rewrite <- list_fmap_compose. }
  assert (Hnd : NoDup (bf_Path <$> files)).
  { rewrite Hpaths. apply NoDup_app. split_and!; [done | | apply NoDup_singleton].
    intros p (a & -> & Ha)%list_elem_of_fmap Hp%list_elem_of_singleton.
    by destruct (Hsound _ Ha) as (_ & ? & _). }
  assert (Hfiles : Forall (fun f => isSafeBundlePath (bf_Path f) = true /\
  is_blank (bf_Path f) = false) files).
  { apply Forall_app. split; [|by repeat constructor]. apply Forall_forall.
    intros f (a & -> & Ha)%list_elem_of_fmap. by split; [apply Hsound | apply Hbl]. }
  rewrite Forall_forall in Hfiles.
  destruct (indexFiles ∅ files) as [m|] eqn:E1.
  2:{ assert (is_ok (indexFiles ∅ files) = true) as C; [|by rewrite E1 in C].
  apply indexFiles_complete; [done | |]; apply Forall_forall; intros f Hf;
  (split; [by apply Hfiles | apply lookup_empty]) || by apply Hfiles. }
  pose proof (indexFiles_ok _ _ _ E1) as (_ & _ & Hin & _ & _).
  assert (Hm : m !! manifest_path = Some (marshal_manifest manifest)).
  { destruct (Hin (MkBundleFile manifest_path (marshal_manifest manifest))) as [_ ?]; [|done].
    apply elem_of_app. right. by left. }
  assert (Hsorted : sort_on mc_Path contents = contents).
  { apply sort_on_id. unfold contents.
    assert (Hfs : sorted_on art_Path flat) by apply sort_on_sorted.
    clearbody flat. clear -Hfs. induction Hfs as [|a l Hs IH Ha]; [constructor|].
    simpl. constructor; [done|]. apply Forall_forall. intros e (x & -> & Hx)%list_elem_of_fmap.
    rewrite Forall_forall in Ha. by apply Ha in Hx. }
  destruct (checkContents m ∅ contents) as [seen|] eqn:E5.
  2:{ assert (is_ok (checkContents m ∅ contents) = true) as C; [|by rewrite E5 in C].
  apply checkContents_complete; [| by unfold contents; rewrite <- list_fmap_compose |];
  apply Forall_forall; intros e (a & -> & Ha)%list_elem_of_fmap.
  - exists (art_Content a). destruct (Hsound _ Ha) as (_ & _ & Hck). split; [|by symmetry].
    destruct (Hin (file_of a)) as [_ ?]; [|done]. apply elem_of_app. left.
    by apply list_elem_of_fmap_2.
  - split_and!; [by apply Hsound | by apply Hbl | apply not_elem_of_empty]. }
    pose proof (checkContents_ok _ _ _ _ E5) as (_ & _ & Hseen & _).
    assert (E6 : undeclared seen files = None).
    { apply undeclared_none. intros f [Hf|Hf]%elem_of_app.
      - right. apply Hseen. right. apply list_elem_of_fmap in Hf as (a & -> & Ha).
        apply list_elem_of_fmap. exists (content_of a). split; [done|]. by apply list_elem_of_fmap_2.
      - left. by apply list_elem_of_singleton in Hf as ->. }
    unfold ValidateRevisionBundle. unbind. cbn [rb_Files rb_Revision].
    rewrite E1, Hm, Hsafe, unmarshal_marshal. unfold reject_if.
    cbn [rm_SchemaVersion rm_RevisionID rm_RevisionVersion rm_CreatedAt rm_BundleChecksum rm_Contents manifest].
    rewrite Hsorted, E5, E6, Hid, Hcr. unfold checksumContents at 1 2. rewrite sha256_hex_not_blank.
    rewrite String.eqb_refl, (proj2 (Z.leb_gt _ _) Hv). simpl.
    unfold files. rewrite length_app. unfold contents. rewrite length_fmap.
    destruct flat; [done|]. simpl. by rewrite String.eqb_refl.
Qed.
End Properties.

Definition sample_artifacts : list (list ArtifactOutput) :=
  [[MkArtifact "nginx/nginx.conf" "nginx_config" "events {}" (sha256_hex "events {}")];
   [MkArtifact "nginx/conf.d/base.conf" "nginx_config" "" (sha256_hex "")]].
Definition sample_revision : RevisionInput := MkRevisionInput "rev-1" 1 "2026-01-01T00:00:00Z".

Definition sample_bundle : RevisionBundle := Eval vm_compute in
  match AssembleRevisionBundle sample_revision sample_artifacts with
  | Ok b => b
  | Err _ => MkRevisionBundle sample_revision [] (MkRevisionManifest "" "" 0 "" "" [])
  end.

Lemma sample_assembled : AssembleRevisionBundle sample_revision sample_artifacts = Ok sample_bundle.
Proof. vm_compute. reflexivity. Qed.

Lemma sample_artifacts_sound group a :
  group ∈ sample_artifacts -> a ∈ group -> sound_artifact a.
Proof.
  unfold sample_artifacts. intros [->|Hg]%elem_of_cons Ha; [|apply list_elem_of_singleton in Hg as ->];
    apply list_elem_of_singleton in Ha as ->;
    (split; [reflexivity | split; [discriminate | vm_compute; reflexivity]]).
Qed.

Lemma assembled_bundle_validates_witness :
  fmap bf_Path (rb_Files sample_bundle) =
    ["nginx/conf.d/base.conf"; "nginx/nginx.conf"; "manifest.json"]%string /\
  ValidateRevisionBundle sample_bundle = Ok tt.
Proof.
  split; [reflexivity|].
  apply (assembled_bundle_validates sample_revision sample_artifacts sample_bundle);
    [exact sample_assembled | vm_compute; reflexivity | exact sample_artifacts_sound].
Defined.

Lemma sample_valid : ValidateRevisionBundle sample_bundle = Ok tt.
Proof. vm_compute. reflexivity. Qed.

Lemma validated_bundle_consistent_witness :
  exists below, join_path ["srv"; "waf"] "nginx/nginx.conf" = ["srv"; "waf"] ++ below /\ below <> [].
Proof.
  destruct (validated_bundle_consistent sample_bundle sample_valid) as (_ & Hp & _).
  apply (Hp (MkBundleFile "nginx/nginx.conf" "events {}") ["srv"; "waf"]%string).
  right. left.
Defined.
