(* ===== verification/Inputs.v ===== *)
(** * What the compiler compiles (compiler/internal/compiler: types.go, nginx_input_validation.go,
    easy_directive_validation.go, easy_mtls.go, easy_admin_paths.go)

    The records the control plane hands to the compiler, the checks that keep their text from
    changing the structure of a configuration file, and the tests that recognise the site of the
    administration itself. *)
From Stdlib Require Import ZArith Lia Ascii String.
From stdpp Require Import base tactics strings list.
From S2P Require Import Prelude GoHash GoText GoNet GoSeq Files Bundle.
Local Open Scope string_scope.
Local Open Scope Z_scope.

(** ** Data (types.go) *)
Record MTLSInput := MkMTLS {
  MTLSEnabled : bool;
  MTLSOptional : bool;
  MTLSVerifyDepth : Z;
  MTLSClientCARef : string;
  MTLSPassHeaders : bool
}.

Record UpstreamMTLSInput := MkUpstreamMTLS {
  UpstreamMTLSEnabled : bool;
  UpstreamMTLSCertRef : string;
  UpstreamMTLSKeyRef : string;
  UpstreamMTLSCARef : string
}.

Record SiteInput := MkSite {
  s_ID : string;
  s_Name : string;
  s_Enabled : bool;
  s_PrimaryHost : string;
  s_Aliases : list string;
  s_ListenHTTP : bool;
  s_ListenHTTPS : bool;
  s_DefaultUpstreamID : string;
  s_UseEasyConfig : bool;
  s_UseCustomErrorPages : bool;
  s_MTLS : MTLSInput;
  s_Management : bool;
  s_ManagementConfigured : bool
}.

Record UpstreamInput := MkUpstream {
  u_ID : string;
  u_SiteID : string;
  u_Name : string;
  u_Scheme : string;
  u_Host : string;
  u_Port : Z;
  u_BasePath : string;
  u_PassHostHeader : bool
}.

Definition ArtifactKindNginxConfig : string := "nginx_config".
Definition ArtifactKindModSecurity : string := "modsecurity_config".
Definition ArtifactKindCRSConfig : string := "crs_config".
Definition ArtifactKindTLSRef : string := "tls_ref".

Record TLSConfigInput := MkTLSConfig {
  t_ID : string;
  t_SiteID : string;
  t_CertificateID : string;
  t_RedirectHTTPToHTTPS : bool
}.

Record CertificateInput := MkCertificate {
  c_ID : string;
  c_SiteID : string;
  c_StorageRef : string;
  c_PrivateKeyRef : string
}.

Definition WAFModeDetection : string := "detection".
Definition WAFModePrevention : string := "prevention".

Record WAFPolicyInput := MkWAFPolicy {
  w_ID : string;
  w_SiteID : string;
  w_Enabled : bool;
  w_Mode : string;
  w_CRSEnabled : bool;
  w_CustomRuleIncludes : list string
}.

Record AccessPolicyInput := MkAccessPolicy {
  a_ID : string;
  a_SiteID : string;
  a_DefaultAction : string;
  a_AllowCIDRs : list string;
  a_DenyCIDRs : list string;
  a_TrustedProxyCIDRs : list string;
  a_SecurityMode : string
}.

Record RateLimitPolicyInput := MkRateLimitPolicy {
  r_ID : string;
  r_SiteID : string;
  r_Enabled : bool;
  r_Requests : Z;
  r_WindowSeconds : Z;
  r_Burst : Z;
  r_StatusCode : Z;
  r_LimitReqURL : string
}.

Record CustomRateLimitRuleInput := MkCustomLimit { cr_Path : string; cr_Rate : string }.

Record APIPositiveEndpointPolicyInput := MkEndpoint {
  ap_Path : string;
  ap_Methods : list string;
  ap_TokenIDs : list string;
  ap_ContentTypes : list string;
  ap_Mode : string
}.

Record ServiceAuthUserInput := MkServiceUser {
  au_Username : string;
  au_Password : string;
  au_Enabled : bool;
  au_LastLoginAt : string
}.

Record ServiceAuthTokenInput := MkAuthToken {
  at_ServiceName : string;
  at_Token : string;
  at_Enabled : bool;
  at_LastUsedAt : string
}.

Record AntibotChallengeRuleInput := MkAntibotRule { ab_Path : string; ab_Challenge : string }.
Record AntibotExclusionRuleInput := MkAntibotExempt { ax_Path : string; ax_Methods : list string }.
Record AuthExclusionRuleInput := MkAuthExempt { xr_Path : string; xr_Methods : list string }.

Record ModSecurityExclusionRuleInput := MkModSecExempt {
  me_Path : string;
  me_PathPattern : string;
  me_Methods : list string;
  me_Mode : string;
  me_RuleIDs : list Z;
  me_Targets : list string;
  me_Comment : string
}.

Record GeoTimeWindowInput := MkWindow {
  gw_Countries : list string;
  gw_Action : string;
  gw_DaysOfWeek : list Z;
  gw_HoursStart : Z;
  gw_HoursEnd : Z
}.

Record WSInspectionInput := MkWSInspection {
  UseWSInspection : bool;
  WSBlockPatterns : list string;
  WSMaxMessageBytes : Z;
  WSRateMsgPerSec : Z
}.

Record VirtualPatchInput := MkVirtualPatch {
  vp_ID : string;
  vp_Pattern : string;
  vp_Target : string;
  vp_Action : string
}.

(** [newArtifact] *)
Definition newArtifact (path kind content : string) : ArtifactOutput :=
  MkArtifact path kind content (checksumBytes content).

(** ** Text that is safe to print (nginx_input_validation.go) *)
Definition validateNginxIdentifier (value field : string) : result unit :=
  let value := trim_space value in
  reject_if (is_empty value) (field ++ " is required");;
  reject_if (negb (all_chars identifier_char value)) (field ++ " contains unsafe characters").

Definition quote_marks : string := "'" ++ dquote.
Definition blanks : string := crlf ++ tab ++ " ".
Definition host_text (c : ascii) : bool := is_alnum c || is_upper c || has_char c ".-:[]".

Definition validateNginxHost (value field : string) : result unit :=
  let value := trim_space value in
  reject_if (is_empty value || contains_any (blanks ++ ";" ++ quote_marks ++ "{}\/") value)
    (field ++ " contains unsafe characters");;
  let value := trim_prefix "*." value in
  reject_if (is_empty value || has_prefix "." value || has_suffix "." value || contains ".." value)
    (field ++ " is not a valid host");;
  reject_if (negb (all_chars host_text value)) (field ++ " is not a valid host").

Definition validateNginxCertificatePath (value field : string) : result unit :=
  let value := trim_space value in
  reject_if (is_empty value || contains_any (blanks ++ ";" ++ quote_marks ++ "{}\") value ||
             negb (has_prefix "/" value))
    (field ++ " must be a safe absolute certificate path");;
  reject_if (negb (String.eqb (clean value) value) ||
             negb (has_prefix "/etc/ssl/" (clean value) || has_prefix "/etc/waf/tls/materials/" (clean value)))
    (field ++ " must be under an approved certificate root").

Definition validateNginxCIDROrIP (value field : string) : result unit :=
  let value := trim_space value in
  reject_if (negb (bool_decide (is_Some (ParseIP value)) || bool_decide (is_Some (ParseCIDR value))))
    (field ++ " must be a valid IP address or CIDR").

(** easy_directive_validation.go *)
Definition validateNginxPathPattern (value field : string) (requireLeadingSlash : bool) : result unit :=
  let value := trim_space value in
  if is_empty value then Ok tt
  else
    reject_if ((requireLeadingSlash && negb (has_prefix "/" value)) ||
               contains_any (blanks ++ quote_marks ++ ";{}#") value)
      (field ++ " contains unsafe nginx directive characters").

(** ** Client certificates (easy_mtls.go) *)
Definition ValidateMTLS (input : MTLSInput) : result unit :=
  if negb (MTLSEnabled input) then Ok tt
  else
    reject_if (is_blank (MTLSClientCARef input)) "mtls_client_ca_ref must be set when mtls_enabled=true";;
    validateNginxCertificatePath (MTLSClientCARef input) "mtls_client_ca_ref";;
    reject_if (MTLSVerifyDepth input <? 0)
      ("mtls_verify_depth must be >= 0, got " ++ itoa (MTLSVerifyDepth input)).

(** The code ranges over a map of three references: which of two errors is reported is not fixed. *)
Definition check_reference (field value : string) : result unit :=
  if is_blank value then Ok tt else validateNginxCertificatePath value field.

Definition ValidateUpstreamMTLS (input : UpstreamMTLSInput) : result unit :=
  if negb (UpstreamMTLSEnabled input) then Ok tt
  else
    reject_if (is_blank (UpstreamMTLSCertRef input))
      "upstream_mtls_cert_ref must be set when upstream_mtls_enabled=true";;
    reject_if (is_blank (UpstreamMTLSKeyRef input))
      "upstream_mtls_key_ref must be set when upstream_mtls_enabled=true";;
    check_reference "upstream_mtls_cert_ref" (UpstreamMTLSCertRef input);;
    check_reference "upstream_mtls_key_ref" (UpstreamMTLSKeyRef input);;
    check_reference "upstream_mtls_ca_ref" (UpstreamMTLSCARef input).

Definition line (text : string) : string := text ++ newline.

Definition buildMTLSServerSnippet (input : MTLSInput) : string :=
  if negb (MTLSEnabled input) then ""
  else
    let depth := if MTLSVerifyDepth input <=? 0 then 2 else MTLSVerifyDepth input in
    line ("    ssl_verify_client " ++ (if MTLSOptional input then "optional" else "on") ++ ";") ++
    line ("    ssl_client_certificate " ++ trim_space (MTLSClientCARef input) ++ ";") ++
    line ("    ssl_verify_depth " ++ itoa depth ++ ";") ++
    (if MTLSPassHeaders input
     then line "    proxy_set_header X-Client-Verify $ssl_client_verify;" ++
          line "    proxy_set_header X-Client-DN $ssl_client_s_dn;"
     else "").

Definition buildUpstreamMTLSSnippet (input : UpstreamMTLSInput) : string :=
  if negb (UpstreamMTLSEnabled input) then ""
  else
    let caRef := trim_space (UpstreamMTLSCARef input) in
    line ("    proxy_ssl_certificate " ++ trim_space (UpstreamMTLSCertRef input) ++ ";") ++
    line ("    proxy_ssl_certificate_key " ++ trim_space (UpstreamMTLSKeyRef input) ++ ";") ++
    (if is_empty caRef then ""
     else line ("    proxy_ssl_trusted_certificate " ++ caRef ++ ";") ++
          line "    proxy_ssl_verify on;" ++ line "    proxy_ssl_verify_depth 2;").

(** ** Names (site_upstream.go, access_rate_limit.go) *)
Definition sortedUnique (values : list string) : list string := sorted_set trim_space values.

Definition slug_char (c : ascii) : ascii := if is_lower c || is_digit c then c else "_"%char.
Definition slugSiteID (siteID : string) : string :=
  let value := trim_of (fun c => Ascii.eqb c "_") (map_string slug_char (lower_trim siteID)) in
  if is_empty value then "site" else value.

Definition upstreamBlockName (siteID upstreamID : string) : string :=
  "site_" ++ siteID ++ "_upstream_" ++ upstreamID.
Definition buildUpstreamAddress (upstream : UpstreamInput) : string :=
  u_Host upstream ++ ":" ++ itoa (u_Port upstream).
Definition upstreamProxyPassTarget (siteID : string) (upstream : UpstreamInput) : string :=
  let scheme := if String.eqb (lower_trim (u_Scheme upstream)) "https" then "https" else "http" in
  scheme ++ "://" ++ upstreamBlockName siteID (u_ID upstream).
Definition rateLimitCookieName (siteID : string) : string := "waf_rate_limited_" ++ slugSiteID siteID.
Definition rateLimitEscalationCookieName (siteID : string) : string :=
  "waf_rate_limited_escalated_" ++ slugSiteID siteID.
Definition reqZoneName (siteID : string) : string := "site_" ++ siteID ++ "_req".
Definition connZoneName (siteID : string) : string := "site_" ++ siteID ++ "_conn".
Definition siteExceptionVar (siteID : string) : string := "waf_allow_bypass_" ++ slugSiteID siteID.
Definition siteRateLimitKeyVar (siteID : string) : string := "waf_rate_limit_key_" ++ slugSiteID siteID.
Definition siteRateLimitReqKeyVar (siteID : string) : string := "waf_rate_limit_req_key_" ++ slugSiteID siteID.

Definition collectServerNames (site : SiteInput) : list string :=
  sortedUnique (s_PrimaryHost site :: s_Aliases site).

Definition sitePrimaryHostLooksLikeIPAddress (host : string) : bool :=
  let host := trim_space host in
  if is_empty host then false
  else (count_char "." host =? 3) && all_chars (fun c => is_digit c || Ascii.eqb c ".") host.

Definition siteTLSSelectionClass (site : SiteInput) : Z :=
  if negb (s_ListenHTTPS site) then 2
  else if sitePrimaryHostLooksLikeIPAddress (s_PrimaryHost site) then 1
  else 0.

(** ** The administration's own site (easy_admin_paths.go) *)
Section Management.
Context `{Environment}.

Definition managementAPIProxyTarget : string :=
  let host := trim_space (Getenv "WAF_MANAGEMENT_API_UPSTREAM_HOST") in
  "http://" ++ (if is_empty host then "control-plane" else host) ++ ":8080".

Definition uiProxyTarget : string :=
  let v := trim_space (Getenv "WAF_BOOTSTRAP_UI_UPSTREAM") in
  if is_empty v then "http://ui:80" else v.

Definition isManagementSiteID (siteID : string) : bool :=
  let normalized := lower_trim siteID in
  if mem normalized ["control-plane-access"; "control-plane"; "ui"] then true
  else
    let configuredID := lower_trim (Getenv "CONTROL_PLANE_DEV_FAST_START_MANAGEMENT_SITE_ID") in
    if String.eqb normalized "localhost" then String.eqb configuredID "localhost"
    else negb (is_empty configuredID) && String.eqb normalized configuredID.

Definition managementUIHost : string :=
  let target := trim_space (trim_prefix "http://" uiProxyTarget) in
  let target := trim_space (trim_prefix "https://" target) in
  let target := match cut_at ":" target with Some (host, _) => host | None => target end in
  lower_trim target.

Definition isManagementSite (site : SiteInput) : bool :=
  if s_ManagementConfigured site then s_Management site
  else if s_Management site then true
  else if isManagementSiteID (s_ID site) then true
  else
    let primaryHost := lower_trim (s_PrimaryHost site) in
    if is_empty primaryHost then false
    else if String.eqb primaryHost "localhost" then true
    else if String.eqb primaryHost managementUIHost then true
    else existsb (fun alias => String.eqb (lower_trim alias) managementUIHost) (s_Aliases site).
End Management.

Definition easyAdminSegmentPrefixes : list string := [
  "/dashboard"; "/sites"; "/services"; "/anti-ddos"; "/tls"; "/requests"; "/revisions"; "/events"; "/bans";
  "/jobs"; "/administration"; "/activity"; "/settings"; "/about"; "/profile"; "/healthcheck"; "/onboarding"].

Definition easyAdminExactPaths : list string := [
  "/"; "/auth"; "/auth/verify"; "/api/app"; "/api/auth"; "/api/dashboard"; "/api/reports"; "/api/sites";
  "/api/upstreams"; "/api/certificates"; "/api/tls-configs"; "/api/easy-site-profiles"; "/api/access-policies";
  "/api/requests"; "/api/revisions"; "/api/events"; "/api/bans"; "/api/jobs"; "/api/settings";
  "/api/administration"; "/api/management-hosts"].

Definition easyAdminPrefixPaths : list string := [
  "/api/"; "/static/"; "/api/app/"; "/api/auth/"; "/api/dashboard/"; "/api/reports/"; "/api/sites/";
  "/api/upstreams/"; "/api/certificates/"; "/api/tls-configs/"; "/api/easy-site-profiles/";
  "/api/access-policies/"; "/api/requests/"; "/api/revisions/"; "/api/events/"; "/api/bans/"; "/api/jobs/";
  "/api/settings/"; "/api/administration/"; "/api/management-hosts/"].

Definition easyManagementProtectedPaths : list string :=
  app easyAdminExactPaths (app easyAdminPrefixPaths (app easyAdminSegmentPrefixes ["/login"; "/login/2fa"])).

Definition isReservedAdminAppPath (path : string) : bool :=
  let canonical := trim_space path in
  if is_empty canonical then false
  else mem canonical easyAdminExactPaths ||
       existsb (fun p => has_prefix p canonical) easyAdminPrefixPaths ||
       existsb (fun p => String.eqb canonical p || has_prefix (p ++ "/") canonical) easyAdminSegmentPrefixes.

Definition easyReservedLimitExactPaths : list string :=
  ["/"; "/login"; "/login/2fa"; "/api/"; "/auth"; "/auth/verify"].
Definition easyReservedLimitPrefixPaths : list string := ["/static/"].
Definition easyReservedLimitSegmentPrefixes : list string := [
  "/dashboard"; "/sites"; "/services"; "/anti-ddos"; "/tls"; "/requests"; "/revisions"; "/events"; "/bans";
  "/jobs"; "/administration"; "/activity"; "/settings"; "/about"; "/profile"; "/healthcheck"; "/onboarding"].

Definition isReservedEasyLimitPath (path : string) : bool :=
  let canonical := trim_space path in
  if is_empty canonical then false
  else mem canonical easyReservedLimitExactPaths ||
       existsb (fun p => has_prefix p canonical) easyReservedLimitPrefixPaths ||
       existsb (fun p => String.eqb canonical p || has_prefix (p ++ "/") canonical) easyReservedLimitSegmentPrefixes.

Definition easyAdminMethodExclusionRulesForSite `{Environment} (site : SiteInput) (methods : list string)
  : list AntibotExclusionRuleInput :=
  if negb (isManagementSite site) then []
  else (fun path => MkAntibotExempt path methods) <$>
       app easyAdminExactPaths (app easyAdminPrefixPaths easyAdminSegmentPrefixes).

Definition easyAdminAntibotExclusionRulesForSite (site : SiteInput) : list AntibotExclusionRuleInput := [].

Definition easyAdminAuthExclusionRulesForSite `{Environment} (site : SiteInput) : list AuthExclusionRuleInput :=
  (fun rule => MkAuthExempt (ax_Path rule) (ax_Methods rule)) <$>
  easyAdminMethodExclusionRulesForSite site ["GET"; "HEAD"; "POST"; "PUT"; "PATCH"; "DELETE"].

Definition filterAdminPaths (paths excluded : list string) : list string :=
  List.filter (fun path => negb (mem path excluded)) paths.
