(* ===== verification/Patterns.v ===== *)
(** * Regular expressions the compiler writes (compiler/internal/compiler: easy_runtime_antibot_rules.go,
    easy_runtime_helpers_auth_limits.go, easy_runtime_auth_extended.go, easy_rate_limits.go,
    easy_admin_paths.go)

    Paths, methods and countries of the settings end up inside regular expressions that nginx and
    ModSecurity evaluate.  The functions here build their text as the code does.  Beside them stands
    the fragment of the expression language they use, with its concrete syntax ([print]) and what it
    matches ([search], as PCRE reads it); the theorems say which requests the built text matches. *)
From Stdlib Require Import ZArith Lia Ascii String.
From stdpp Require Import base tactics strings list.
From S2P Require Import Prelude GoHash GoText GoNet GoSeq Inputs.
Local Open Scope string_scope.
Local Open Scope Z_scope.

(** ** The expression language *)
Inductive chars := Exactly (c : ascii) | AnyChar | Capital.

#[warnings="-register-all"]
Inductive item :=
| Once (k : chars)
| Repeat (k : chars)
| RepeatPlus (k : chars)
| Start
| Finish
| Group (capture optional : bool) (alternatives : list (list item)).

Abbreviation rx := (list item).

(** [regexp.QuoteMeta] *)
Definition special (c : ascii) : bool := has_char c "\.+*?()|[]{}^$".
Definition quote_meta_char (c : ascii) : string :=
  if special c then String "\" (String c "") else String c "".
Fixpoint QuoteMeta (s : string) : string :=
  match s with EmptyString => "" | String c s' => quote_meta_char c ++ QuoteMeta s' end.

Definition print_chars (k : chars) : string :=
  match k with Exactly c => quote_meta_char c | AnyChar => "." | Capital => "[A-Z]" end.

Fixpoint print_item (i : item) : string :=
  match i with
  | Once k => print_chars k
  | Repeat k => print_chars k ++ "*"
  | RepeatPlus k => print_chars k ++ "+"
  | Start => "^"
  | Finish => "$"
  | Group capture optional alternatives =>
      (if capture then "(" else "(?:") ++
      join "|" (List.map (fun r => String.concat "" (List.map print_item r)) alternatives) ++
      (if optional then ")?" else ")")
  end.

Definition print (r : rx) : string := String.concat "" (List.map print_item r).

Fixpoint literal (s : string) : rx :=
  match s with EmptyString => [] | String c s' => Once (Exactly c) :: literal s' end.

Section Matching.
(** Whether case is ignored, as by nginx's [~*]. *)
Variable fold : bool.

Definition same (a b : ascii) : bool :=
  if fold then Ascii.eqb (lower_ascii a) (lower_ascii b) else Ascii.eqb a b.

(** A dot does not match a line feed. *)
Definition holds (k : chars) (c : ascii) : bool :=
  match k with
  | Exactly d => same d c
  | AnyChar => negb (Ascii.eqb c (ascii_of_nat 10))
  | Capital => is_upper c || (fold && is_lower c)
  end.

(** A matcher that goes on with [k]: it is told whether the subject's start was left behind. *)
Abbreviation go_on := (bool -> string -> bool).

Fixpoint run_repeat (c : chars) (k : go_on) (start : bool) (s : string) : bool :=
  k start s ||
  match s with
  | String a s' => holds c a && run_repeat c k false s'
  | EmptyString => false
  end.

Definition run_once (c : chars) (k : go_on) (s : string) : bool :=
  match s with String a s' => holds c a && k false s' | EmptyString => false end.

(** The end of the subject, or before its final line feed. *)
Definition at_end (s : string) : bool := is_empty s || String.eqb s newline.

Fixpoint run_item (i : item) (k : go_on) (start : bool) (s : string) : bool :=
  match i with
  | Once c => run_once c k s
  | Repeat c => run_repeat c k start s
  | RepeatPlus c => run_once c (run_repeat c k) s
  | Start => start && k start s
  | Finish => at_end s && k start s
  | Group _ optional alternatives =>
      List.existsb (fun r => List.fold_right run_item k r start s) alternatives || (optional && k start s)
  end.

Definition run (r : rx) (k : go_on) : go_on := List.fold_right run_item k r.

Fixpoint search_from (r : rx) (start : bool) (s : string) : bool :=
  run r (fun _ _ => true) start s ||
  match s with EmptyString => false | String _ s' => search_from r false s' end.

(** An unanchored search, what [~], [~*] and [@rx] do. *)
Definition search (r : rx) (s : string) : bool := search_from r true s.
End Matching.

(** ** Paths with wildcards (easy_rate_limits.go) *)
Definition hasComplexWildcard (path : string) : bool :=
  let path := trim_space path in
  if is_empty path then false
  else
    let star := count_char "*" path in
    if 0 <? count_char "?" path then true
    else if star =? 0 then false
    else negb ((star =? 1) && has_suffix "*" path).

Definition wildcardPathToRegex (path : string) : string :=
  let quoted := QuoteMeta (trim_space path) in
  let quoted := replace_all "\*" ".*" quoted in
  let quoted := replace_all "\?" "." quoted in
  "^" ++ quoted.

Definition customLimitPriority (path : string) : Z :=
  let trimmed := trim_space path in
  if hasComplexWildcard trimmed then 1
  else if has_suffix "*" trimmed || has_suffix "/" trimmed then 2
  else 3.

Definition customLimitLocationModifier (path : string) : string :=
  let trimmed := trim_space path in
  if hasComplexWildcard trimmed then "~*"
  else if has_suffix "*" trimmed || has_suffix "/" trimmed then "^~"
  else "=".

Definition customLimitLocationPath (path : string) : string :=
  let trimmed := trim_space path in
  if hasComplexWildcard trimmed then wildcardPathToRegex trimmed
  else if has_suffix "*" trimmed then
    let trimmed := trim_suffix "*" trimmed in
    if is_empty trimmed then "/" else trimmed
  else trimmed.

Definition customLimitCanonicalPath (path : string) : string :=
  let trimmed := trim_space path in
  if has_suffix "*" trimmed && negb (hasComplexWildcard trimmed) then
    let trimmed := trim_suffix "*" trimmed in
    if is_empty trimmed then "/" else trimmed
  else trimmed.

Definition isReservedBaseLocationPath (path : string) : bool :=
  isReservedEasyLimitPath (customLimitCanonicalPath path).

(** The expression [^/api/\d+/envelope/?$] of [sentryEnvelopePathRE]. *)
Definition match_sentry_path (path : string) : bool :=
  has_prefix "/api/" path &&
  match cut_at "/" (drop_chars 5 path) with
  | Some (id, tail) => all_digits id && mem tail ["envelope"; "envelope/"]
  | None => false
  end.

Definition expandCustomLimitRuleAliases (path rate : string) : list CustomRateLimitRuleInput :=
  let base := MkCustomLimit path rate in
  if negb (match_sentry_path (trim_space path)) then [base]
  else [MkCustomLimit "/api/*/envelope/" rate; base].

(** More specific paths first: by priority, then by length, then by text. *)
Definition path_order (path detail : string) : Z * Z * (string * string) :=
  (- customLimitPriority path, - Z.of_nat (String.length path), (path, detail)).

Definition normalizeCompilerCustomLimitRules (values : list CustomRateLimitRuleInput)
  : list CustomRateLimitRuleInput :=
  let trimmed := (fun v => MkCustomLimit (trim_space (cr_Path v)) (lower_trim (cr_Rate v))) <$> values in
  let given := List.filter (fun v => negb (is_empty (cr_Path v)) && negb (is_empty (cr_Rate v))) trimmed in
  let expanded := mjoin ((fun v => expandCustomLimitRuleAliases (cr_Path v) (cr_Rate v)) <$> given) in
  sort_on (fun r => path_order (cr_Path r) (cr_Rate r))
    (dedupe_by (fun r => to_lower (cr_Path r) ++ nul ++ cr_Rate r) []
      (List.filter (fun r => negb (isReservedBaseLocationPath (cr_Path r))) expanded)).

Definition parseRatePerSecond (value : string) : Z :=
  let value := trim_suffix "r/s" (replace_char " " "" (lower_trim value)) in
  match atoi value with Some v => if v <=? 0 then 0 else v | None => 0 end.

Definition customLimitBurst (rate : string) : Z :=
  let parsed := parseRatePerSecond rate in if 0 <? parsed then parsed else 1.

(** ** Challenge rules and exclusions (easy_runtime_antibot_rules.go) *)
Definition normalizeCompilerAntibotRules (values : list AntibotChallengeRuleInput)
  : list AntibotChallengeRuleInput :=
  let trimmed := (fun v => MkAntibotRule (trim_space (ab_Path v)) (lower_trim (ab_Challenge v))) <$> values in
  sort_on (fun r => path_order (ab_Path r) (ab_Challenge r))
    (dedupe_by (fun r => to_lower (ab_Path r) ++ nul ++ ab_Challenge r) []
      (List.filter (fun v => negb (is_empty (ab_Path v)) && negb (is_empty (ab_Challenge v))) trimmed)).

Definition sortedUniqueUpper (values : list string) : list string := sorted_set upper_trim values.

Definition hasWildcardMethod (methods : list string) : bool :=
  existsb (fun method => String.eqb (trim_space method) "*") methods.

Definition exempt_methods (methods : list string) : list string :=
  let methods := sortedUniqueUpper methods in
  if Nat.eqb (length methods) 0 || hasWildcardMethod methods then ["*"] else methods.

Definition normalizeCompilerAntibotExclusionRules (values : list AntibotExclusionRuleInput)
  : list AntibotExclusionRuleInput :=
  let trimmed := (fun v => MkAntibotExempt (trim_space (ax_Path v)) (exempt_methods (ax_Methods v))) <$> values in
  sort_on (fun r => path_order (ax_Path r) (join "," (ax_Methods r)))
    (dedupe_by (fun r => to_lower (ax_Path r) ++ nul ++ join "," (ax_Methods r)) []
      (List.filter (fun v => negb (is_empty (ax_Path v))) trimmed)).

Definition appendAntibotExclusionRules (base extra : list AntibotExclusionRuleInput)
  : list AntibotExclusionRuleInput :=
  match extra with [] => base | _ => normalizeCompilerAntibotExclusionRules (app base extra) end.

Definition antibotRuleGuardPattern (path : string) : string :=
  let trimmed := trim_space path in
  if is_empty trimmed then ""
  else if hasComplexWildcard trimmed then wildcardPathToRegex trimmed
  else if has_suffix "*" trimmed then
    let base := trim_suffix "*" trimmed in
    if is_empty base then "^/" else "^" ++ QuoteMeta base
  else if has_suffix "/" trimmed then "^" ++ QuoteMeta trimmed
  else "^" ++ QuoteMeta trimmed ++ "$".

Definition antibotExclusionMethodPattern (methods : list string) : string :=
  if Nat.eqb (length methods) 0 || hasWildcardMethod methods then "[A-Z]+"
  else
    let escaped := QuoteMeta <$> List.filter (fun m => negb (is_empty m)) (upper_trim <$> methods) in
    match escaped with [] => "" | _ => "(?:" ++ join "|" escaped ++ ")" end.

Definition antibotExclusionMatchPattern (path : string) (methods : list string) : string :=
  let pathPattern := antibotRuleGuardPattern path in
  if is_empty pathPattern then ""
  else
    let methodPattern := antibotExclusionMethodPattern methods in
    if is_empty methodPattern then ""
    else "^" ++ methodPattern ++ ":" ++ trim_prefix "^" pathPattern.

Record easyAntibotRuleData := MkAntibotRuleData {
  GuardPattern : string;
  Challenge : string;
  RedirectURI : string
}.

Definition antibotUsesInterstitial (mode : string) : bool :=
  mem (lower_trim mode) ["javascript"; "captcha"; "recaptcha"; "hcaptcha"; "turnstile"; "mcaptcha"].

Definition trim_slashes : string -> string := trim_right_of (fun c => Ascii.eqb c "/").
Definition antibotVerifyURI (challengeURI : string) : string :=
  let trimmed := trim_space challengeURI in
  if is_empty trimmed || String.eqb trimmed "/" then "/challenge/verify"
  else trim_slashes trimmed ++ "/verify".
Definition antibotStage1URI (challengeURI : string) : string :=
  let trimmed := trim_space challengeURI in
  if is_empty trimmed || String.eqb trimmed "/" then "/challenge/stage1"
  else trim_slashes trimmed ++ "/stage1".
Definition antibotStage1VerifyURI (challengeURI : string) : string :=
  antibotVerifyURI (antibotStage1URI challengeURI).
Definition antibotRedirectURI (mode challengeURI : string) : string :=
  if antibotUsesInterstitial mode then trim_space challengeURI else antibotVerifyURI challengeURI.
Definition antibotRuleRedirectURI (mode challengeURI : string) : string :=
  if equal_fold (trim_space mode) "no" then "" else antibotRedirectURI mode challengeURI.

Definition buildEasyAntibotRuleData (rules : list AntibotChallengeRuleInput) (challengeURI : string)
  : list easyAntibotRuleData :=
  omap (fun rule =>
    let pattern := antibotRuleGuardPattern (ab_Path rule) in
    if is_empty pattern then None
    else Some (MkAntibotRuleData pattern (ab_Challenge rule)
                 (antibotRuleRedirectURI (ab_Challenge rule) challengeURI))) rules.

Definition buildEasyAntibotExclusionRuleData (rules : list AntibotExclusionRuleInput) : list string :=
  List.filter (fun pattern => negb (is_empty pattern))
    ((fun rule => antibotExclusionMatchPattern (ax_Path rule) (ax_Methods rule)) <$> rules).

Definition antibotScannerPattern : string :=
  join "|" ["/(?:\.env|\.git|phpmyadmin|wp-admin|vendor/phpunit|cgi-bin|boaform)"; "acunetix"; "dirbuster";
    "dirsearch"; "feroxbuster"; "ffuf"; "gobuster"; "gospider"; "hakrawler"; "masscan"; "nessus"; "nikto"; "nmap";
    "sqlmap"; "wfuzz"; "wpscan"; "zgrab"; "securityscanner"].

Section Blacklists.
Context `{Regexps}.

Definition toSafeBlacklistURIRegex (pattern : string) : string :=
  match regexp_error pattern with
  | None => pattern
  | Some _ => replace_all "\?" "." (replace_all "\*" ".*" (QuoteMeta pattern))
  end.

Definition normalizeBlacklistURIPatterns (values : list string) : list string :=
  sort_on id (remove_dups (List.filter (fun p => negb (is_empty p))
    (toSafeBlacklistURIRegex <$> List.filter (fun p => negb (is_empty p)) (trim_space <$> values)))).
End Blacklists.

(** ** Exclusions from sign-in (easy_runtime_auth_extended.go) *)
Definition auth_exclusion_methods (methods : list string) : string :=
  let methods := match methods with [] => ["*"] | _ => methods end in
  let normalized := sortedUniqueUpper methods in
  match normalized with
  | [] => ".*"
  | [m] => if String.eqb m "*" then ".*" else "(?:" ++ m ++ ")"
  | _ => "(?:" ++ join "|" normalized ++ ")"
  end.

Definition auth_exclusion_pattern (value : AuthExclusionRuleInput) : string :=
  "^" ++ auth_exclusion_methods (xr_Methods value) ++ ":" ++ wildcardPathToRegex (trim_space (xr_Path value)) ++ "$".

Definition buildEasyAuthExclusionRuleData (values : list AuthExclusionRuleInput) : list string :=
  auth_exclusion_pattern <$> values.

Definition appendAuthExclusionRules (base extra : list AuthExclusionRuleInput) : list AuthExclusionRuleInput :=
  match extra with
  | [] => base
  | _ =>
      let trimmed := (fun v => MkAuthExempt (trim_space (xr_Path v)) (sortedUniqueUpper (xr_Methods v))) <$> app base extra in
      dedupe_by (fun r => xr_Path r ++ nul ++ join "," (xr_Methods r)) []
        (List.filter (fun r => negb (is_empty (xr_Path r))) trimmed)
  end.

(** ** Methods and countries (easy_runtime_helpers_auth_limits.go) *)
Definition methodPattern (methods : list string) : string :=
  "^(" ++ join "|" (upper_trim <$> methods) ++ ")$".

Definition blacklistCountrySelectorPattern (values : list string) : string :=
  let parts := QuoteMeta <$> List.filter (fun v => negb (is_empty v)) (upper_trim <$> values) in
  match parts with [] => "" | _ => "^(?:" ++ join "|" parts ++ ")$" end.

Definition country_core (basePattern : string) : option string :=
  if has_prefix "^(?:" basePattern && has_suffix ")$" basePattern
  then Some (trim_suffix ")$" (trim_prefix "^(?:" basePattern)) else None.

Definition whitelistCountryGuardPattern (values : list string) : string :=
  let basePattern := blacklistCountrySelectorPattern values in
  if is_empty basePattern then ""
  else match country_core basePattern with Some core => "^(?:1:.*|0:(?:" ++ core ++ "))$" | None => "" end.

Definition blacklistCountryGuardPattern (values : list string) : string :=
  let basePattern := blacklistCountrySelectorPattern values in
  if is_empty basePattern then ""
  else match country_core basePattern with Some core => "^(?:0:(?:" ++ core ++ "))$" | None => "" end.

(** ** Administration paths (easy_admin_paths.go) *)
Definition admin_path_part (path : string) : string :=
  if String.eqb path "/" then ""
  else if has_suffix "/" path then QuoteMeta (trim_suffix "/" (trim_prefix "/" path)) ++ "/.*"
  else QuoteMeta (trim_prefix "/" path) ++ "(?:/.*)?".

Definition adminPathPattern (paths : list string) : string :=
  "^/(?:" ++ join "|" (admin_path_part <$> paths) ++ ")$".

(** [easyAdminBypassPathPattern] repeats the loop of [adminPathPattern]. *)
Definition easyAdminBypassPathPattern : string := adminPathPattern easyManagementProtectedPaths.

Definition modsecurity_bypass_paths : list string :=
  app (filterAdminPaths easyAdminExactPaths ["/api/auth"])
    (app (filterAdminPaths easyAdminPrefixPaths ["/api/"; "/api/auth/"])
      (app easyAdminSegmentPrefixes ["/login"; "/login/2fa"])).

Definition easyAdminBypassPathPatternForSite `{Environment} (site : SiteInput) : string :=
  if negb (isManagementSite site) then "^$" else easyAdminBypassPathPattern.

Definition easyModSecurityBypassPathPatternForSite `{Environment} (site : SiteInput) : string :=
  if negb (isManagementSite site) then "" else adminPathPattern modsecurity_bypass_paths.

(** ** What the expressions match *)
Section Laws.
Variable fold : bool.

Fixpoint prefix_match (p s : string) : bool :=
  match p, s with
  | EmptyString, _ => true
  | String a p', String b s' => same fold a b && prefix_match p' s'
  | _, _ => false
  end.

Definition same_word (a b : string) : bool := if fold then equal_fold a b else String.eqb a b.
Definition one_line (s : string) : bool := all_chars (fun c => negb (Ascii.eqb c (ascii_of_nat 10))) s.

Lemma run_app r1 r2 k : run fold (app r1 r2) k = run fold r1 (run fold r2 k).
Proof. unfold run. apply fold_right_app. Qed.

Lemma run_literal p k start s :
  run fold (literal p) k start s = prefix_match p s && k (start && is_empty p) (drop_chars (String.length p) s).
Proof.
  revert start s. induction p as [|c p IH]; intros start s.
  - cbn. by rewrite andb_true_r.
  - destruct s as [|d s]; [done|]. change (run fold (literal (String c p)) k start (String d s)) with
      (same fold c d && run fold (literal p) k false s).
    rewrite IH. cbn. by rewrite andb_false_r, andb_assoc.
Qed.

Lemma run_words capture words k start s :
  run fold [Group capture false (literal <$> words)] k start s =
  existsb (fun w => prefix_match w s && k (start && is_empty w) (drop_chars (String.length w) s)) words.
Proof.
  cbn. rewrite orb_false_r. induction words as [|w words IH]; [done|]. cbn. rewrite IH. f_equal.
  apply (run_literal w k start s).
Qed.

Lemma search_later r s : search_from fold (Start :: r) false s = false.
Proof. induction s as [|c s IH]; cbn; [done | by rewrite IH]. Qed.

(** An expression anchored at its beginning is tried there only. *)
Lemma search_start r s : search fold (Start :: r) s = run fold r (fun _ _ => true) true s.
Proof.
  unfold search. destruct s as [|c s]; cbn [search_from]; [by rewrite orb_false_r|].
  by rewrite search_later, orb_false_r.
Qed.

Lemma same_word_cons a b c d : same_word (String a c) (String b d) = same fold a b && same_word c d.
Proof.
  unfold same_word, same, equal_fold, to_lower. destruct fold; cbn [map_string String.eqb];
    by destruct (Ascii.eqb _ _).
Qed.

(** A literal that is followed by the end of a text without line feeds is that text. *)
Lemma literal_to_end p s : one_line s = true ->
  prefix_match p s && at_end (drop_chars (String.length p) s) = same_word p s.
Proof.
  revert s. induction p as [|c p IH]; intros s Hs.
  - cbn. destruct s as [|d s]; [unfold same_word, equal_fold; by destruct fold|].
    apply andb_true_iff in Hs as [Hd Hs]. transitivity false; [|unfold same_word, equal_fold; by destruct fold].
    apply String.eqb_neq. intros [=-> ->]. discriminate.
  - destruct s as [|d s]; [unfold same_word, equal_fold; by destruct fold|]. apply andb_true_iff in Hs as [_ Hs].
    cbn. rewrite same_word_cons, <- (IH s Hs). by rewrite andb_assoc.
Qed.


(** A word with its length counted off is a prefix, as in [same_word]. *)
Lemma words_to_end words s : one_line s = true ->
  existsb (fun w => prefix_match w s && at_end (drop_chars (String.length w) s)) words =
  existsb (fun w => same_word w s) words.
Proof. intros Hs. induction words as [|w words IH]; [done|]. cbn [existsb]. by rewrite IH, literal_to_end. Qed.
End Laws.

Arguments prefix_match !fold !p !s /.

Lemma print_cons i r : print (i :: r) = print_item i ++ print r.
Proof. apply concat_cons. Qed.
Lemma print_app r1 r2 : print (app r1 r2) = print r1 ++ print r2.
Proof. unfold print. rewrite map_app. apply concat_app. Qed.
Lemma print_literal s : print (literal s) = QuoteMeta s.
Proof. induction s as [|c s IH]; [done|]. cbn [literal QuoteMeta]. by rewrite print_cons, IH. Qed.
Lemma print_group capture optional alternatives :
  print_item (Group capture optional alternatives) =
  (if capture then "(" else "(?:") ++ join "|" (print <$> alternatives) ++ (if optional then ")?" else ")").
Proof. done. Qed.
Lemma print_words capture words :
  print [Group capture false (literal <$> words)] =
  (if capture then "(" else "(?:") ++ join "|" (QuoteMeta <$> words) ++ ")".
Proof.
  rewrite print_cons, print_group. cbn [print List.map String.concat]. rewrite string_app_nil. do 2 f_equal.
  rewrite <- list_fmap_compose. f_equal. apply list_fmap_ext. intros ? w _. apply print_literal.
Qed.

(** Text that needs no escapes. *)
Definition no_special (s : string) : bool := all_chars (fun c => negb (special c)) s.
Lemma QuoteMeta_plain s : no_special s = true -> QuoteMeta s = s.
Proof.
  induction s as [|c s IH]; [done|]. intros [Hc Hs]%andb_true_iff. cbn [QuoteMeta]. unfold quote_meta_char.
  apply negb_true_iff in Hc. rewrite Hc, IH by done. done.
Qed.

(** ** Countries *)
Definition country_codes (values : list string) : list string :=
  List.filter (fun v => negb (is_empty v)) (upper_trim <$> values).

(** What the two country guards are meant to say about [bypass:country]. *)
Definition blacklist_rx (codes : list string) : rx :=
  [Start; Group false false [literal "0:" ++ [Group false false (literal <$> codes)]]; Finish]%list.
Definition whitelist_rx (codes : list string) : rx :=
  [Start; Group false false [literal "1:" ++ [Repeat AnyChar]; literal "0:" ++ [Group false false (literal <$> codes)]];
   Finish]%list.

Lemma selector_text values : country_codes values <> [] ->
  blacklistCountrySelectorPattern values = "^(?:" ++ join "|" (QuoteMeta <$> country_codes values) ++ ")$".
Proof.
  unfold blacklistCountrySelectorPattern. fold (country_codes values). by destruct (country_codes values).
Qed.

Lemma selector_core values : country_codes values <> [] ->
  country_core (blacklistCountrySelectorPattern values) = Some (join "|" (QuoteMeta <$> country_codes values)).
Proof.
  intros Hne. rewrite selector_text by done. set (core := join _ _). unfold country_core.
  rewrite has_prefix_app, <- string_app_assoc, has_suffix_app. cbn [andb]. f_equal.
  rewrite string_app_assoc, trim_prefix_app. unfold trim_suffix. rewrite has_suffix_app.
  rewrite string_length_app. cbn [String.length]. rewrite Nat.add_sub. clearbody core.
  induction core as [|c core IH]; [done|]. cbn [String.length take_chars]. by rewrite <- IH at 2.
Qed.

Lemma blacklist_text values : country_codes values <> [] ->
  blacklistCountryGuardPattern values = print (blacklist_rx (country_codes values)).
Proof.
  intros Hne. unfold blacklistCountryGuardPattern. rewrite selector_core by done.
  rewrite (selector_text values Hne) at 1. cbn [is_empty String.append].
  unfold blacklist_rx. rewrite !print_cons, print_group. cbn [fmap list_fmap join]. rewrite print_app, print_words.
  rewrite print_literal. cbn [print_item print List.map String.concat]. change (QuoteMeta "0:") with "0:".
  by rewrite ?string_app_assoc.
Qed.

Lemma whitelist_text values : country_codes values <> [] ->
  whitelistCountryGuardPattern values = print (whitelist_rx (country_codes values)).
Proof.
  intros Hne. unfold whitelistCountryGuardPattern. rewrite selector_core by done.
  rewrite (selector_text values Hne) at 1. cbn [is_empty String.append].
  unfold whitelist_rx. rewrite !print_cons, print_group. cbn [fmap list_fmap join]. rewrite !print_app, print_words.
  rewrite !print_literal. cbn [print_item print List.map String.concat print_chars].
  change (QuoteMeta "0:") with "0:". change (QuoteMeta "1:") with "1:".
  by rewrite ?string_app_assoc.
Qed.

Definition guard_text (bypass : bool) (country : string) : string :=
  (if bypass then "1:" else "0:") ++ country.

Lemma run_dots_to_end start s : one_line s = true ->
  run_repeat false AnyChar (fun start s => at_end s && true) start s = true.
Proof.
  revert start. induction s as [|c s IH]; intros start Hs; [done|]. apply andb_true_iff in Hs as [Hc Hs].
  cbn [run_repeat holds]. by rewrite Hc, IH, orb_true_r.
Qed.

Lemma words_then_end fold words start s : one_line s = true ->
  run fold [Group false false (literal <$> words)] (fun start s => at_end s && true) start s =
  existsb (fun w => same_word fold w s) words.
Proof.
  intros Hs. rewrite run_words, <- (words_to_end fold words s Hs).
  induction words as [|w words IH]; [done|]. cbn [existsb]. by rewrite IH, andb_true_r.
Qed.

Lemma run_group fold capture optional alternatives k start s :
  run fold [Group capture optional alternatives] k start s =
  existsb (fun r => run fold r k start s) alternatives || (optional && k start s).
Proof. done. Qed.
Lemma run_cons fold i r k : run fold (i :: r) k = run fold [i] (run fold r k).
Proof. done. Qed.

Lemma blacklist_matches codes bypass country : one_line country = true ->
  search false (blacklist_rx codes) (guard_text bypass country) = negb bypass && mem country codes.
Proof.
  intros Hc. unfold blacklist_rx. rewrite search_start, run_cons, run_group. cbn [existsb andb].
  rewrite !orb_false_r, run_app, run_literal. unfold guard_text.
  destruct bypass; [done|]. cbn -[run mem]. etransitivity; [apply (words_then_end false); done|].
  unfold mem, same_word. induction codes as [|w codes IH]; [done|]. cbn [existsb]. rewrite IH. f_equal. apply String.eqb_sym.
Qed.

Lemma whitelist_matches codes bypass country : one_line country = true ->
  search false (whitelist_rx codes) (guard_text bypass country) = bypass || mem country codes.
Proof.
  intros Hc. unfold whitelist_rx. rewrite search_start, run_cons, run_group. cbn [existsb andb].
  rewrite !orb_false_r, !run_app, !run_literal. unfold guard_text.
  destruct bypass; cbn -[run mem].
  - rewrite orb_false_r. by apply run_dots_to_end.
  - etransitivity; [apply (words_then_end false); done|].
    unfold mem, same_word. induction codes as [|w codes IH]; [done|]. cbn [existsb]. rewrite IH. f_equal. apply String.eqb_sym.
Qed.

(** The country guards decide as configured.  The text compiled for a list of blocked countries
    is an expression that matches exactly the requests without an exception whose country is listed;
    the text for a list of admitted countries matches exactly the requests with an exception and
    those whose country is listed; with no country listed there is no guard. *)
Theorem country_guards_decide (values : list string) :
  (country_codes values = [] -> blacklistCountryGuardPattern values = "" /\ whitelistCountryGuardPattern values = "") /\
  (country_codes values <> [] -> exists black white,
    blacklistCountryGuardPattern values = print black /\ whitelistCountryGuardPattern values = print white /\
    forall bypass country, one_line country = true ->
      search false black (guard_text bypass country) = negb bypass && mem country (country_codes values) /\
      search false white (guard_text bypass country) = bypass || mem country (country_codes values)).
Proof.
  split.
  - intros Hn. unfold blacklistCountryGuardPattern, whitelistCountryGuardPattern, blacklistCountrySelectorPattern.
    fold (country_codes values). by rewrite Hn.
  - intros Hne. exists (blacklist_rx (country_codes values)), (whitelist_rx (country_codes values)).
    split; [by apply blacklist_text | split; [by apply whitelist_text|]].
    intros bypass country Hc. split; [by apply blacklist_matches | by apply whitelist_matches].
Qed.

(** ** Methods *)
Definition method_rx (methods : list string) : rx :=
  [Start; Group true false (literal <$> (upper_trim <$> methods)); Finish].

Lemma method_text methods : Forall (fun m => no_special (upper_trim m) = true) methods ->
  methodPattern methods = print (method_rx methods).
Proof.
  intros Hm. unfold methodPattern, method_rx. rewrite !print_cons.
  assert (E : QuoteMeta <$> (upper_trim <$> methods) = upper_trim <$> methods).
  { induction Hm as [|m l Hm _ IH]; [done|]. cbn. by rewrite IH, QuoteMeta_plain. }
  pose proof (print_words true (upper_trim <$> methods)) as P. rewrite print_cons in P.
  cbn [print List.map String.concat] in P. rewrite string_app_nil in P. rewrite P, E.
  cbn. by rewrite ?string_app_assoc.
Qed.

(** The allowed methods of a site: nothing else passes. *)
Lemma method_matches methods m : one_line m = true ->
  search false (method_rx methods) m = mem m (upper_trim <$> methods).
Proof.
  intros Hm. unfold method_rx. rewrite search_start, run_cons.
  etransitivity; [apply (run_words false true (upper_trim <$> methods))|].
  unfold mem. induction (upper_trim <$> methods) as [|w words IH]; [done|]. cbn [existsb]. rewrite IH. f_equal.
  transitivity (prefix_match false w m && at_end (drop_chars (String.length w) m)).
  - cbn. by rewrite andb_true_r.
  - rewrite literal_to_end by done. apply String.eqb_sym.
Qed.

(** One of several words and nothing else. *)
Definition words_rx (words : list string) : rx := [Start; Group false false (literal <$> words); Finish].

Lemma words_rx_text words : print (words_rx words) = "^(?:" ++ join "|" (QuoteMeta <$> words) ++ ")$".
Proof.
  unfold words_rx. rewrite print_cons. change (Group false false (literal <$> words) :: [Finish]) with
    (app [Group false false (literal <$> words)] [Finish]). rewrite print_app, print_words.
  cbn. by rewrite !string_app_assoc.
Qed.

Lemma words_rx_matches words s : one_line s = true -> search false (words_rx words) s = mem s words.
Proof.
  intros Hs. unfold words_rx. rewrite search_start, run_cons.
  etransitivity; [apply (words_then_end false words true s Hs)|].
  unfold mem, same_word. induction words as [|w words IH]; [done|]. cbn [existsb]. rewrite IH. f_equal. apply String.eqb_sym.
Qed.

(** ** Wildcards *)
Definition wildcard_item (c : ascii) : item :=
  if Ascii.eqb c "*" then Repeat AnyChar else if Ascii.eqb c "?" then Once AnyChar else Once (Exactly c).
Fixpoint wildcard_items (p : string) : rx :=
  match p with EmptyString => [] | String c p' => wildcard_item c :: wildcard_items p' end.

(** One step of replacing an escaped character. *)
Section Replacing.
Variables (x : ascii) (new : string).
Let pair : string := String "\" (String x "").
Abbreviation subst := (replace_from pair new 0).

Lemma subst_pair rest : subst (String "\" (String x rest)) = new ++ subst rest.
Proof. cbn. by rewrite Ascii.eqb_refl. Qed.

Lemma subst_plain c rest : c <> "\"%char -> subst (String c rest) = String c (subst rest).
Proof. intros Hc. unfold pair. cbn [replace_from has_prefix]. destruct (Ascii.eqb_spec "\" c); [congruence | done]. Qed.

Lemma subst_escape c rest : c <> x -> has_prefix (String x "") rest = false ->
  subst (String "\" (String c rest)) = String "\" (String c (subst rest)).
Proof.
  intros Hc Hrest. unfold pair. cbn [replace_from].
  assert (E1 : has_prefix (String "\" (String x "")) (String "\" (String c rest)) = false).
  { cbn. by destruct (Ascii.eqb_spec x c). }
  assert (E2 : has_prefix (String "\" (String x "")) (String c rest) = false).
  { cbn [has_prefix]. rewrite andb_false_iff. by right. }
  by rewrite E1, E2.
Qed.
End Replacing.

Lemma quote_meta_cases c :
  (special c = true /\ quote_meta_char c = String "\" (String c "")) \/
  (special c = false /\ quote_meta_char c = String c "").
Proof. unfold quote_meta_char. destruct (special c); auto. Qed.

Definition once_replaced (c : ascii) : string := if Ascii.eqb c "*" then ".*" else quote_meta_char c.
Fixpoint map_chars (f : ascii -> string) (s : string) : string :=
  match s with EmptyString => "" | String c s' => f c ++ map_chars f s' end.

Lemma QuoteMeta_map s : QuoteMeta s = map_chars quote_meta_char s.
Proof. induction s as [|c s IH]; cbn; congruence. Qed.

Lemma map_chars_head f x s : (forall c rest, has_prefix (String x "") (f c ++ rest) = false) ->
  has_prefix (String x "") (map_chars f s) = false.
Proof. intros Hf. destruct s as [|c s]; [done | apply Hf]. Qed.

Lemma quote_head x c rest : special x = true -> x <> "\"%char ->
  has_prefix (String x "") (quote_meta_char c ++ rest) = false.
Proof.
  intros Hx Hne. unfold quote_meta_char. destruct (special c) eqn:Hc.
  - change (Ascii.eqb x "\" && true = false). destruct (Ascii.eqb_spec x "\"); [congruence | done].
  - change (Ascii.eqb x c && true = false). destruct (Ascii.eqb_spec x c); [congruence | done].
Qed.

Lemma stars_replaced s : replace_all "\*" ".*" (QuoteMeta s) = map_chars once_replaced s.
Proof.
  rewrite QuoteMeta_map. unfold replace_all. induction s as [|c s IH]; [done|]. cbn [map_chars]. unfold once_replaced at 1.
  destruct (Ascii.eqb_spec c "*") as [->|Hc].
  - change (quote_meta_char "*" ++ ?r) with (String "\" (String "*" r)). rewrite subst_pair. by rewrite IH.
  - destruct (quote_meta_cases c) as [[Hs ->]|[Hs ->]].
    + change (String "\" (String c "") ++ ?r) with (String "\" (String c r)). rewrite subst_escape, IH; [done|done|].
      apply map_chars_head. intros. by apply quote_head.
    + change (String c "" ++ ?r) with (String c r). rewrite subst_plain, IH; [done|]. by intros ->.
Qed.

Lemma marks_replaced s :
  replace_all "\?" "." (map_chars once_replaced s) = map_chars (fun c => print_item (wildcard_item c)) s.
Proof.
  unfold replace_all. induction s as [|c s IH]; [done|]. cbn [map_chars]. unfold once_replaced at 1, wildcard_item at 1.
  destruct (Ascii.eqb_spec c "*") as [->|Hstar].
  - change (".*" ++ ?r) with (String "." (String "*" r)). by rewrite !subst_plain, IH.
  - destruct (Ascii.eqb_spec c "?") as [->|Hmark].
    + change (quote_meta_char "?" ++ ?r) with (String "\" (String "?" r)). by rewrite subst_pair, IH.
    + cbn [print_item print_chars]. destruct (quote_meta_cases c) as [[Hs ->]|[Hs ->]].
      * change (String "\" (String c "") ++ ?r) with (String "\" (String c r)). rewrite subst_escape, IH; [done|done|].
        apply map_chars_head. intros d rest. unfold once_replaced. destruct (Ascii.eqb d "*"); [done|]. by apply quote_head.
      * change (String c "" ++ ?r) with (String c r). rewrite subst_plain, IH; [done|]. by intros ->.
Qed.

Lemma wildcard_text path : wildcardPathToRegex path = print (Start :: wildcard_items (trim_space path)).
Proof.
  unfold wildcardPathToRegex. rewrite stars_replaced, marks_replaced, print_cons. f_equal.
  induction (trim_space path) as [|c p IH]; [done|]. cbn [map_chars wildcard_items]. by rewrite print_cons, IH.
Qed.

(** ** Paths of rules and exclusions *)

(** What a path of the settings stands for: [*] is any text of one line, [?] one character, case is
    ignored; a pattern with inner wildcards matches the beginning of a path. *)
Inductive glob : string -> string -> Prop :=
| glob_done s : glob "" s
| glob_star_stop p s : glob p s -> glob (String "*" p) s
| glob_star_more p c s : c <> ascii_of_nat 10 -> glob (String "*" p) s -> glob (String "*" p) (String c s)
| glob_mark p c s : c <> ascii_of_nat 10 -> glob p s -> glob (String "?" p) (String c s)
| glob_char p c d s : c <> "*"%char -> c <> "?"%char -> same true c d = true -> glob p s ->
    glob (String c p) (String d s).

Definition begins (p s : string) : Prop := exists rest, to_lower s = to_lower p ++ rest.

(** A lone [*] is every path. *)
Definition base_path (base : string) : string := if is_empty base then "/" else base.

Definition covered (path uri : string) : Prop :=
  if hasComplexWildcard path then glob path uri
  else if has_suffix "*" path then begins (base_path (trim_suffix "*" path)) uri
  else if has_suffix "/" path then begins path uri
  else equal_fold path uri = true.

Definition path_rx (path : string) : rx :=
  if hasComplexWildcard path then wildcard_items path
  else if has_suffix "*" path then literal (base_path (trim_suffix "*" path))
  else if has_suffix "/" path then literal path
  else (literal path ++ [Finish])%list.

Lemma guard_text_rx path : is_blank path = false ->
  antibotRuleGuardPattern path = print (Start :: path_rx (trim_space path)).
Proof.
  intros Hp. unfold antibotRuleGuardPattern, path_rx, base_path. unfold is_blank in Hp. rewrite Hp. cbv zeta.
  destruct (hasComplexWildcard (trim_space path)); [by rewrite wildcard_text, trim_space_idem|].
  rewrite print_cons. destruct (has_suffix "*" (trim_space path)).
  { rewrite print_literal. destruct (is_empty (trim_suffix "*" (trim_space path))); reflexivity. }
  destruct (has_suffix "/" (trim_space path)); [by rewrite print_literal|]. by rewrite print_app, print_literal.
Qed.

Lemma wildcard_matches p start s : run true (wildcard_items p) (fun _ _ => true) start s = true <-> glob p s.
Proof.
  revert start s. induction p as [|c p IH]; intros start s; [by split; [constructor|]|].
  cbn [wildcard_items]. rewrite run_cons. set (k := run true (wildcard_items p) (fun _ _ => true)) in *.
  unfold wildcard_item.
  destruct (Ascii.eqb_spec c "*") as [->|Hstar]; [|destruct (Ascii.eqb_spec c "?") as [->|Hmark]].
  - change (run_repeat true AnyChar k start s = true <-> glob (String "*" p) s).
    revert start. induction s as [|d s IHs]; intros start; cbn [run_repeat].
    + rewrite orb_false_r, IH. split; [by constructor | by inversion 1].
    + rewrite orb_true_iff, andb_true_iff, IH, IHs. cbn [holds]. rewrite negb_true_iff, Ascii.eqb_neq.
      split; [intros [?|[? ?]]; by constructor | by inversion 1; auto].
  - change (run_once true AnyChar k s = true <-> glob (String "?" p) s). destruct s as [|d s]; cbn [run_once holds].
    + split; [done | by inversion 1].
    + rewrite andb_true_iff, negb_true_iff, Ascii.eqb_neq, IH. split; [intros [? ?]; by constructor | by inversion 1].
  - change (run_once true (Exactly c) k s = true <-> glob (String c p) s). destruct s as [|d s]; cbn [run_once holds].
    + split; [done | by inversion 1].
    + rewrite andb_true_iff, IH. split; [intros [? ?]; by constructor | by inversion 1].
Qed.

Lemma prefix_begins p s : prefix_match true p s = true <-> begins p s.
Proof.
  unfold begins. revert s. induction p as [|c p IH]; intros s.
  - split; [intros _; by exists (to_lower s) | done].
  - destruct s as [|d s]; cbn [prefix_match].
    + split; [done | intros (r & Hr); discriminate].
    + rewrite andb_true_iff, IH. unfold same. rewrite Ascii.eqb_eq. split.
      * intros [E (r & Hr)]. exists r. unfold to_lower in *. cbn [map_string]. rewrite E, Hr. done.
      * intros (r & Hr). unfold to_lower in *. cbn [map_string] in Hr. injection Hr as -> Hr. eauto.
Qed.

Lemma path_matches path start uri : one_line uri = true ->
  run true (path_rx path) (fun _ _ => true) start uri = true <-> covered path uri.
Proof.
  intros Hu. unfold path_rx, covered. destruct (hasComplexWildcard path); [apply wildcard_matches|].
  destruct (has_suffix "*" path); [|destruct (has_suffix "/" path)].
  - by rewrite run_literal, andb_true_r, prefix_begins.
  - by rewrite run_literal, andb_true_r, prefix_begins.
  - rewrite run_app, run_literal. cbn [run List.fold_right run_item]. rewrite andb_true_r, (literal_to_end true) by done. done.
Qed.

(** Methods are words of letters. *)
Definition letter (c : ascii) : bool := is_upper c || is_lower c.
Definition letters (s : string) : bool := negb (is_empty s) && all_chars letter s.

Definition exempt_words (methods : list string) : list string :=
  List.filter (fun m => negb (is_empty m)) (upper_trim <$> methods).
Definition any_method (methods : list string) : bool := Nat.eqb (length methods) 0 || hasWildcardMethod methods.
Definition methods_rx (methods : list string) : rx :=
  if any_method methods then [RepeatPlus Capital] else [Group false false (literal <$> exempt_words methods)].
Definition exclusion_rx (path : string) (methods : list string) : rx :=
  (Start :: methods_rx methods ++ literal ":" ++ path_rx (trim_space path))%list.

Lemma exclusion_text path methods : is_blank path = false ->
  any_method methods = true \/ exempt_words methods <> [] ->
  antibotExclusionMatchPattern path methods = print (exclusion_rx path methods).
Proof.
  intros Hp Hm. unfold antibotExclusionMatchPattern. rewrite (guard_text_rx path Hp), print_cons.
  change (is_empty (print_item Start ++ ?r)) with false. cbn [is_empty]. cbv zeta iota.
  change (print_item Start) with "^". rewrite trim_prefix_app.
  unfold exclusion_rx. rewrite print_cons, !print_app, print_literal. change (QuoteMeta ":") with ":".
  unfold antibotExclusionMethodPattern, methods_rx. fold (any_method methods) (exempt_words methods).
  destruct (any_method methods); [done|]. rewrite print_words. destruct Hm as [|Hm]; [done|].
  by destruct (exempt_words methods).
Qed.

Lemma letter_facts c : letter c = true -> Ascii.eqb c ":" = false /\ holds true Capital c = true.
Proof.
  intros Hc. split.
  - apply Ascii.eqb_neq. by intros ->.
  - unfold letter in Hc. by cbn.
Qed.

(** Letters up to a colon, in both notations. *)
Lemma run_letters r k start m u : all_chars letter m = true ->
  run_repeat true Capital (run true (Once (Exactly ":") :: r) k) start (m ++ String ":" u) =
  run true r k false u.
Proof.
  revert start. induction m as [|c m IH]; intros start Hm.
  - change ((run true r k false u) || false = run true r k false u). apply orb_false_r.
  - apply andb_true_iff in Hm as [Hc Hm]. destruct (letter_facts c Hc) as [Hcolon Hcap].
    change (String c m ++ ?t) with (String c (m ++ t)). cbn [run_repeat]. rewrite Hcap, (IH false Hm). cbn [andb].
    change (run true (Once (Exactly ":") :: r) k start (String c (m ++ String ":" u))) with
      (same true ":" c && run true r k false (m ++ String ":" u)).
    replace (same true ":" c) with false; [done|]. unfold same.
    destruct c as [[] [] [] [] [] [] [] []]; done.
Qed.

Lemma colon_not_letter c : letter c = true -> same true ":" c = false /\ same true c ":" = false.
Proof. by destruct c as [[] [] [] [] [] [] [] []]. Qed.

Lemma word_before_colon w m r k start u : all_chars letter w = true -> all_chars letter m = true ->
  prefix_match true w (m ++ String ":" u) &&
    run true (Once (Exactly ":") :: r) k start (drop_chars (String.length w) (m ++ String ":" u)) =
  equal_fold w m && run true r k false u.
Proof.
  revert m. induction w as [|c w IH]; intros m Hw Hm.
  - destruct m as [|d m]; [done|]. apply andb_true_iff in Hm as [Hd _].
    change (same true ":" d && run true r k false (m ++ String ":" u) = false). by destruct (colon_not_letter d Hd) as [-> _].
  - apply andb_true_iff in Hw as [Hc Hw]. destruct m as [|d m].
    + change ("" ++ ?t) with t. cbn [prefix_match]. by destruct (colon_not_letter c Hc) as [_ ->].
    + apply andb_true_iff in Hm as [_ Hm]. change (String d m ++ ?t) with (String d (m ++ t)).
      cbn [prefix_match String.length drop_chars]. rewrite <- andb_assoc, (IH m Hw Hm), andb_assoc. done.
Qed.

Lemma methods_match methods m r u : letters m = true ->
  any_method methods = true \/ Forall (fun w => all_chars letter w = true) (exempt_words methods) ->
  run true (methods_rx methods ++ literal ":" ++ r)%list (fun _ _ => true) true (m ++ String ":" u) = true <->
  (any_method methods = true \/ exists w, w ∈ exempt_words methods /\ equal_fold w m = true) /\
  run true r (fun _ _ => true) false u = true.
Proof.
  intros [Hne Hm]%andb_true_iff Hw. rewrite run_app. change (literal ":" ++ r)%list with (Once (Exactly ":") :: r).
  unfold methods_rx. destruct (any_method methods).
  - destruct m as [|c m]; [done|]. apply andb_true_iff in Hm as [Hc Hm].
    change (run true [RepeatPlus Capital] ?k true (String c m ++ ?t)) with
      (holds true Capital c && run_repeat true Capital k false (m ++ t)).
    rewrite run_letters by done. destruct (letter_facts c Hc) as [_ ->]. cbn [andb]. split; [auto | by intros [_ ?]].
  - destruct Hw as [|Hw]; [done|]. rewrite Forall_forall in Hw. rewrite run_words, existsb_exists. split.
    + intros (w & Hin%list_elem_of_In & E). rewrite word_before_colon in E by auto.
      apply andb_true_iff in E as [? ?]. eauto.
    + intros [[|(w & Hin & E)] Hr]; [done|]. exists w. split; [by apply list_elem_of_In|].
      rewrite word_before_colon by auto. by rewrite E, Hr.
Qed.

(** Exclusions from the bot challenge cover what they name.  The expression compiled for a path
    and a list of methods matches [METHOD:path] exactly when the method is listed (or none, or [*],
    is) and the path is covered: equal, below a prefix, or matched by the wildcards, case ignored. *)
Theorem antibot_exclusions_exact (path : string) (methods : list string) :
  is_blank path = false ->
  any_method methods = true \/
    (exempt_words methods <> [] /\ Forall (fun w => all_chars letter w = true) (exempt_words methods)) ->
  antibotExclusionMatchPattern path methods = print (exclusion_rx path methods) /\
  forall m uri, letters m = true -> one_line uri = true ->
    search true (exclusion_rx path methods) (m ++ String ":" uri) = true <->
    (any_method methods = true \/ exists w, w ∈ exempt_words methods /\ equal_fold w m = true) /\
    covered (trim_space path) uri.
Proof.
  intros Hp Hm. split; [apply exclusion_text; [done | by destruct Hm as [|[]]; auto]|].
  intros m uri Hletters Hu. unfold exclusion_rx. rewrite search_start, methods_match by (try done; destruct Hm as [|[]]; auto).
  by rewrite path_matches.
Qed.

(** ** Exclusions from sign-in

    [buildEasyAuthExclusionRuleData] puts the anchored expression of a path behind the method. *)
Definition auth_methods_rx (methods : list string) : rx :=
  let methods := match methods with [] => ["*"] | _ => methods end in
  match sortedUniqueUpper methods with
  | [] => [Repeat AnyChar]
  | [m] => if String.eqb m "*" then [Repeat AnyChar] else [Group false false [literal m]]
  | l => [Group false false (literal <$> l)]
  end.

Definition auth_exclusion_rx (value : AuthExclusionRuleInput) : rx :=
  (Start :: auth_methods_rx (xr_Methods value) ++ literal ":" ++ Start :: wildcard_items (trim_space (xr_Path value)) ++
   [Finish])%list.

Definition plain_methods (methods : list string) : Prop :=
  Forall (fun m => no_special (upper_trim m) = true) methods \/ methods = ["*"].

Lemma quoted_words words : Forall (fun w => no_special w = true) words -> QuoteMeta <$> words = words.
Proof. induction 1 as [|w l Hw _ IH]; [done|]. cbn. by rewrite IH, QuoteMeta_plain. Qed.

Lemma plain_set methods : Forall (fun m => no_special (upper_trim m) = true) methods ->
  Forall (fun w => no_special w = true) (sortedUniqueUpper methods).
Proof.
  rewrite !Forall_forall. intros Hm w (_ & x & Hx & ->)%elem_of_sorted_set. by apply Hm.
Qed.

Lemma auth_methods_text methods : plain_methods methods ->
  auth_exclusion_methods methods = print (auth_methods_rx methods).
Proof.
  intros Hm. unfold auth_exclusion_methods, auth_methods_rx. destruct methods as [|m0 ms]; [done|].
  destruct Hm as [Hm| ->]; [|done]. apply plain_set, quoted_words in Hm.
  destruct (sortedUniqueUpper (m0 :: ms)) as [|w [|w' l]] eqn:E; [done| |].
  - destruct (String.eqb w "*"); [done|]. change [literal w] with (literal <$> [w]).
    rewrite print_words, Hm. done.
  - rewrite print_words, Hm. done.
Qed.

Lemma auth_exclusion_text value : plain_methods (xr_Methods value) ->
  auth_exclusion_pattern value = print (auth_exclusion_rx value).
Proof.
  intros Hm. unfold auth_exclusion_pattern, auth_exclusion_rx. rewrite wildcard_text, trim_space_idem, auth_methods_text by done.
  rewrite !print_cons, !print_app, !print_cons, print_app, print_literal.
  change (print [Finish]) with "$". change (print_item Start) with "^". change (QuoteMeta ":") with ":".
  by rewrite !string_app_assoc.
Qed.

(** Once a colon was read, an expression anchored at the start fails. *)
Lemma colon_then_start fold r k start s : run fold (literal ":" ++ Start :: r)%list k start s = false.
Proof. destruct s as [|c s]; [done|]. apply andb_false_r. Qed.

Lemma run_repeat_nothing fold c k start s : (forall start s, k start s = false) -> run_repeat fold c k start s = false.
Proof.
  intros Hk. revert start. induction s as [|d s IH]; intros start; cbn [run_repeat]; rewrite Hk; [done|].
  by rewrite IH, andb_false_r.
Qed.

Lemma run_words_nothing fold words k start s : (forall start s, k start s = false) ->
  run fold [Group false false (literal <$> words)] k start s = false.
Proof.
  intros Hk. rewrite run_words. induction words as [|w words IH]; [done|]. cbn [existsb]. by rewrite Hk, IH, andb_false_r.
Qed.

Lemma auth_exclusion_nothing value fold s : search fold (auth_exclusion_rx value) s = false.
Proof.
  unfold auth_exclusion_rx. rewrite search_start, run_app. unfold auth_methods_rx.
  set (k := run fold (literal ":" ++ _)%list _). assert (Hk : forall start s, k start s = false) by (intros; apply colon_then_start).
  set (methods := match xr_Methods value with [] => _ | _ => _ end). destruct (sortedUniqueUpper methods) as [|w [|w' l]].
  - by apply (run_repeat_nothing fold AnyChar).
  - destruct (String.eqb w "*"); [by apply (run_repeat_nothing fold AnyChar) | by apply (run_words_nothing fold [w])].
  - by apply run_words_nothing.
Qed.

(** ** ModSecurity on the administration's paths *)
Definition admin_rx_part (path : string) : rx :=
  if String.eqb path "/" then []
  else if has_suffix "/" path then (literal (trim_suffix "/" (trim_prefix "/" path)) ++ [Once (Exactly "/"); Repeat AnyChar])%list
  else (literal (trim_prefix "/" path) ++ [Group false true [[Once (Exactly "/"); Repeat AnyChar]]])%list.

Definition admin_rx (paths : list string) : rx :=
  [Start; Once (Exactly "/"); Group false false (admin_rx_part <$> paths); Finish].

Lemma admin_text paths : adminPathPattern paths = print (admin_rx paths).
Proof.
  unfold adminPathPattern, admin_rx. rewrite !print_cons, print_group. cbn [print List.map String.concat].
  assert (E : print <$> (admin_rx_part <$> paths) = admin_path_part <$> paths).
  { rewrite <- list_fmap_compose. apply list_fmap_ext. intros ? p _. cbn [compose]. unfold admin_rx_part, admin_path_part.
    destruct (String.eqb p "/"); [done|]. destruct (has_suffix "/" p); by rewrite print_app, print_literal. }
  rewrite E. cbn [print_item print_chars]. by rewrite ?string_app_assoc.
Qed.

Lemma same_refl fold c : same fold c c = true.
Proof. unfold same. destruct fold; apply Ascii.eqb_refl. Qed.
Lemma prefix_match_app fold p s : prefix_match fold p (p ++ s) = true.
Proof.
  induction p as [|c p IH]; [done|]. change (same fold c c && prefix_match fold p (p ++ s) = true). by rewrite same_refl, IH.
Qed.
Lemma run_dots fold start s : one_line s = true ->
  run_repeat fold AnyChar (fun start s => at_end s && true) start s = true.
Proof.
  revert start. induction s as [|c s IH]; intros start Hs; [done|]. apply andb_true_iff in Hs as [Hc Hs].
  cbn [run_repeat holds]. by rewrite Hc, IH, orb_true_r.
Qed.

(** A page of the list and everything below it is matched. *)
Lemma admin_covers fold paths q tail : String "/" q ∈ paths -> has_suffix "/" (String "/" q) = false ->
  one_line tail = true -> tail = "" \/ has_prefix "/" tail = true ->
  search fold (admin_rx paths) (String "/" q ++ tail) = true.
Proof.
  intros Hq Hs Hone Htail. unfold admin_rx. rewrite search_start, run_cons. change (String "/" q ++ tail) with (String "/" (q ++ tail)).
  change (same fold "/" "/" && run fold [Group false false (admin_rx_part <$> paths); Finish] (fun _ _ => true) false (q ++ tail) = true).
  rewrite same_refl, run_cons, run_group. cbn [andb]. rewrite orb_false_r, existsb_exists.
  exists (admin_rx_part (String "/" q)). split; [apply list_elem_of_In, list_elem_of_fmap; eauto|].
  unfold admin_rx_part. rewrite Hs. destruct (String.eqb_spec (String "/" q) "/") as [E|_].
  { rewrite E in Hs. done. }
  change (trim_prefix "/" (String "/" q)) with q.
  rewrite run_app, run_literal, prefix_match_app, drop_chars_app. cbn [andb].
  rewrite run_group. cbn [existsb andb]. rewrite orb_false_r.
  destruct Htail as [->|Ht]; [apply orb_true_iff; by right|].
  destruct tail as [|c tail]; [done|]. apply andb_true_iff in Ht as [Hc%Ascii.eqb_eq _]. subst c.
  apply orb_true_iff. left. apply andb_true_iff in Hone as [_ Hone].
  change (same fold "/" "/" && run_repeat fold AnyChar (fun start s => at_end s && true) false tail = true).
  by rewrite same_refl, run_dots.
Qed.

Definition admin_page (page : string) : bool :=
  has_prefix "/" page && mem page modsecurity_bypass_paths && negb (has_suffix "/" page).

Lemma admin_page_spec page : admin_page page = true ->
  exists q, page = String "/" q /\ String "/" q ∈ modsecurity_bypass_paths /\ has_suffix "/" (String "/" q) = false.
Proof.
  unfold admin_page. intros [[Hp Hm%mem_spec]%andb_true_iff Hs%negb_true_iff]%andb_true_iff.
  destruct page as [|c q]; [done|]. apply andb_true_iff in Hp as [Hc%Ascii.eqb_eq _]. subst c. eauto.
Qed.


(** ** Examples *)
Ltac step_glob := apply glob_char; [discriminate | discriminate | reflexivity|].

Lemma antibot_exclusions_exact_witness :
  antibotExclusionMatchPattern "/api/*/envelope/" ["post"; " get "] = "^(?:POST|GET):/api/.*/envelope/" /\
  search true (exclusion_rx "/api/*/envelope/" ["post"; " get "]) "POST:/api/12/envelope/" = true /\
  search true (exclusion_rx "/metrics" []) "GET:/metrics2" = false.
Proof.
  assert (Hm : any_method ["post"; " get "] = true \/
    (exempt_words ["post"; " get "] <> [] /\ Forall (fun w => all_chars letter w = true) (exempt_words ["post"; " get "]))).
  { right. split; [discriminate|]. vm_compute. repeat constructor. }
  split; [reflexivity|]. split.
  - refine (proj2 (proj2 (antibot_exclusions_exact "/api/*/envelope/" ["post"; " get "] eq_refl Hm)
      "POST" "/api/12/envelope/" eq_refl eq_refl) _).
    split; [right; exists "POST"; split; [left | reflexivity]|].
    change (glob "/api/*/envelope/" "/api/12/envelope/"). do 5 step_glob. do 2 (apply glob_star_more; [discriminate|]).
    apply glob_star_stop. do 10 step_glob. apply glob_done.
  - apply not_true_iff_false.
    intros E. refine (_ (proj2 (proj1 (proj2 (antibot_exclusions_exact "/metrics" [] eq_refl (or_introl eq_refl))
      "GET" "/metrics2" eq_refl eq_refl) E))). vm_compute. discriminate.
Defined.

Lemma country_guards_decide_witness :
  exists black, "^(?:0:(?:RU|KP))$" = print black /\ search false black (guard_text false "RU") = true /\
    search false black (guard_text true "RU") = false.
Proof.
  destruct (proj2 (country_guards_decide [" ru "; "KP"]) ltac:(discriminate)) as (black & white & Hb & _ & Hm).
  exists black. split; [exact Hb|].
  split; [exact (proj1 (Hm false "RU" eq_refl)) | exact (proj1 (Hm true "RU" eq_refl))].
Defined.


(** What the tests of the repository expect in a configuration is the text that never matches. *)
Example auth_exclusion_text_example :
  auth_exclusion_pattern (MkAuthExempt "/api/public/" ["GET"; "OPTIONS"]) = "^(?:GET|OPTIONS):^/api/public/$".
Proof. reflexivity. Qed.
