(* ===== verification/Render.v ===== *)
(** * Rendering a configuration (compiler/internal/compiler: site_upstream.go, tls.go, waf.go,
    access_rate_limit.go and the small templates under compiler/templates)

    From the records of Inputs.v to the files of a bundle.  The short templates are written out as
    functions to text; the long pages and server blocks are an interface, [Templates], from the data
    the code hands them to a text or an error. *)
From Stdlib Require Import ZArith Lia Ascii String.
From stdpp Require Import base tactics gmap strings list.
From S2P Require Import Prelude GoHash GoText GoNet GoSeq Files Bundle Inputs.
Local Open Scope string_scope.
Local Open Scope Z_scope.
Local Set Warnings "-clear-no-such-hyp".
Local Notation "a +++ b" := (@app _ a b) (at level 60, right associativity).

Record DefaultServerOptions := MkOptions { BlockDirectIPAccess : bool; RuntimeRevisionID : string }.

Record nginxMainData := MkMainData {
  nm_SitesIncludeGlob : string;
  nm_DefaultTLSRef : string;
  nm_ErrorStatusCodes : list Z;
  nm_BlockDirectIPAccess : bool
}.

Record nginxHostMapEntry := MkHostEntry { he_Host : string; he_SiteID : string }.

#[export] Instance host_entry_eq : EqDecision nginxHostMapEntry.
Proof. solve_decision. Defined.

Record nginxBaseData := MkBaseData {
  nb_ErrorStatusCodes : list Z;
  nb_HostMapEntries : list nginxHostMapEntry;
  nb_ManagementSiteID : string;
  nb_ManagementAPIProxyTarget : string;
  nb_TrustedProxyCIDRs : list string;
  nb_UIProxyTarget : string;
  nb_BlockDirectIPAccess : bool;
  nb_RuntimeRevisionID : string
}.

Record nginxSiteData := MkSiteData {
  ns_SiteID : string;
  ns_SiteIDSlug : string;
  ns_ServerNames : list string;
  ns_ListenHTTP : bool;
  ns_ListenHTTPS : bool;
  ns_IsManagementSite : bool;
  ns_ManagementAPIProxyTarget : string;
  ns_UIProxyTarget : string;
  ns_UpstreamName : string;
  ns_UpstreamAddress : string;
  ns_ProxyPassTarget : string;
  ns_PassHostHeader : bool;
  ns_RateLimitCookie : string;
  ns_RateLimitEscalationCookie : string;
  ns_HealthCheckEnabled : bool;
  ns_UseEasyConfig : bool;
  ns_UseCustomErrorPages : bool;
  ns_ErrorStatusCodes : list Z;
  ns_MTLSSnippet : string;
  ns_RuntimeRevisionID : string
}.

(** The templates whose text is not written out here, and the embedded error pages: the page of an
    extended status code that is generated, the preview file of another, and the relabelling. *)
Class Templates := {
  render_main : nginxMainData -> result string;
  render_base : nginxBaseData -> result string;
  render_site : nginxSiteData -> result string;
  render_geo_block : result string;
  GeneratedErrorPage : string -> option string;
  read_template : string -> result string;
  NormalizeErrorPageRouteLabels : string -> string
}.

(** ** Sites and their upstreams (site_upstream.go) *)
Definition supportedErrorStatusCodes : list Z := [
  400; 401; 402; 403; 404; 405; 406; 407; 408; 409; 410; 411; 412; 413; 414; 415;
  416; 417; 418; 421; 422; 423; 424; 425; 426; 428; 429; 431; 444; 451; 494; 495;
  496; 497; 499; 500; 501;
  506;
  502; 503; 504; 505; 507; 508; 510; 511; 520; 521; 522; 523; 524; 525; 526].

Definition globalErrorSiteID : string := "_global".

Definition responseErrorStatusCodes : list Z := List.filter (fun code => negb (code =? 499)) supportedErrorStatusCodes.

Definition errorPagePreviewPath (code : Z) : string :=
  if code =? 451 then "templates/errors/451.preview.html"
  else if mem_int code [494; 495; 496; 497; 499] then "templates/errors/400.preview.html"
  else if code =? 506 then "templates/errors/500.preview.html"
  else if mem_int code [520; 521; 522; 523; 524; 525; 526] then "templates/errors/500.preview.html"
  else "templates/errors/" ++ itoa code ++ ".preview.html".

(** [compareSiteCompileOrder]: by class of the listener, then by identifier. *)
Definition compile_order (site : SiteInput) : Z * string := (siteTLSSelectionClass site, s_ID site).

Definition upstream_checks (upstream : UpstreamInput) : result unit :=
  validateNginxIdentifier (u_ID upstream) "upstream id";;
  validateNginxIdentifier (u_SiteID upstream) ("upstream " ++ u_ID upstream ++ " site id");;
  reject_if (is_empty (u_Scheme upstream) || is_empty (u_Host upstream) || (u_Port upstream <=? 0))
    ("upstream " ++ u_ID upstream ++ " must define scheme, host, and port");;
  validateNginxHost (u_Host upstream) ("upstream " ++ u_ID upstream ++ " host").

Fixpoint index_upstreams (byID : gmap string UpstreamInput) (upstreams : list UpstreamInput)
  : result (gmap string UpstreamInput) :=
  match upstreams with
  | [] => Ok byID
  | upstream :: rest => upstream_checks upstream;; index_upstreams (<[u_ID upstream := upstream]> byID) rest
  end.

Fixpoint check_each {A} (f : A -> result unit) (l : list A) : result unit :=
  match l with [] => Ok tt | x :: rest => f x;; check_each f rest end.

Definition wrap_error {A} (prefix : string) (r : result A) : result A :=
  match r with Ok a => Ok a | Err e => Err (prefix ++ e) end.

Definition with_aliases (aliases : list string) (s : SiteInput) : SiteInput :=
  MkSite (s_ID s) (s_Name s) (s_Enabled s) (s_PrimaryHost s) aliases (s_ListenHTTP s) (s_ListenHTTPS s)
    (s_DefaultUpstreamID s) (s_UseEasyConfig s) (s_UseCustomErrorPages s) (s_MTLS s) (s_Management s)
    (s_ManagementConfigured s).

Definition check_site (byID : gmap string UpstreamInput) (site : SiteInput) : result SiteInput :=
  let name := "site " ++ s_ID site in
  validateNginxIdentifier (s_ID site) "site id";;
  if negb (s_Enabled site) then Ok site
  else
    reject_if (is_empty (s_PrimaryHost site)) (name ++ " primary host is required");;
    validateNginxHost (s_PrimaryHost site) (name ++ " primary host");;
    wrap_error (name ++ " mTLS: ") (ValidateMTLS (s_MTLS site));;
    reject_if (negb (s_ListenHTTP site) && negb (s_ListenHTTPS site)) (name ++ " must enable at least one listener");;
    reject_if (is_empty (s_DefaultUpstreamID site)) (name ++ " default upstream is required");;
    match byID !! s_DefaultUpstreamID site with
    | None => Err (name ++ " default upstream " ++ s_DefaultUpstreamID site ++ " not found")
    | Some upstream =>
        reject_if (negb (String.eqb (u_SiteID upstream) (s_ID site)))
          (name ++ " default upstream " ++ u_ID upstream ++ " belongs to site " ++ u_SiteID upstream);;
        check_each (fun alias => validateNginxHost alias (name ++ " alias")) (sortedUnique (s_Aliases site));;
        Ok (with_aliases (sortedUnique (s_Aliases site)) site)
    end.

Fixpoint map_results {A B} (f : A -> result B) (l : list A) : result (list B) :=
  match l with [] => Ok [] | x :: rest => y ← f x; ys ← map_results f rest; Ok (y :: ys) end.

Definition normalizeInputs (sites : list SiteInput) (upstreams : list UpstreamInput)
  : result (list SiteInput * gmap string UpstreamInput) :=
  byID ← index_upstreams ∅ upstreams;
  sorted ← map_results (check_site byID) (sort_on compile_order sites);
  Ok (sorted, byID).

Definition defaultTLSRefPath (sites : list SiteInput) : string :=
  match find_where (fun s => s_Enabled s && s_ListenHTTPS s) sites with
  | Some (_, site) => "/etc/waf/tls/" ++ s_ID site ++ ".conf"
  | None => ""
  end.

(** The loops over sites and names, with [seenHosts]. *)
Definition host_candidates (sites : list SiteInput) : list nginxHostMapEntry :=
  mjoin ((fun site =>
    (fun host => MkHostEntry (lower_trim host) (s_ID site)) <$> collectServerNames site) <$> List.filter s_Enabled sites).

Definition buildHostMapEntries (sites : list SiteInput) : list nginxHostMapEntry :=
  dedupe_by he_Host [] (List.filter (fun e => negb (is_empty (he_Host e))) (host_candidates sites)).

Section Sites.
Context `{Environment} `{Templates}.

Definition managementSiteID (sites : list SiteInput) : string :=
  match find_where (fun s => s_Enabled s && isManagementSite s) sites with
  | Some (_, site) => s_ID site
  | None => ""
  end.

Definition error_artifact (siteID : string) (code : Z) : result ArtifactOutput :=
  content ← match GeneratedErrorPage (itoa code) with
            | Some content => Ok content
            | None => wrap_error ("read canonical error page " ++ itoa code ++ ": ") (read_template (errorPagePreviewPath code))
            end;
  Ok (newArtifact ("errors/" ++ siteID ++ "/" ++ itoa code ++ ".html") ArtifactKindNginxConfig
        (NormalizeErrorPageRouteLabels content)).

Definition renderSiteErrorArtifacts (siteID : string) : result (list ArtifactOutput) :=
  map_results (error_artifact siteID) supportedErrorStatusCodes.

Definition site_data (options : DefaultServerOptions) (site : SiteInput) (upstream : UpstreamInput) : nginxSiteData :=
  MkSiteData (s_ID site) (slugSiteID (s_ID site)) (collectServerNames site) (s_ListenHTTP site) (s_ListenHTTPS site)
    (isManagementSite site) managementAPIProxyTarget uiProxyTarget
    (upstreamBlockName (s_ID site) (u_ID upstream)) (buildUpstreamAddress upstream)
    (upstreamProxyPassTarget (s_ID site) upstream) (u_PassHostHeader upstream)
    (rateLimitCookieName (s_ID site)) (rateLimitEscalationCookieName (s_ID site)) false
    (s_UseEasyConfig site) (s_UseCustomErrorPages site) responseErrorStatusCodes
    (if s_ListenHTTPS site then buildMTLSServerSnippet (s_MTLS site) else "") (RuntimeRevisionID options).

(** A map read with a missing key gives the zero value. *)
Definition no_upstream : UpstreamInput := MkUpstream "" "" "" "" "" 0 "" false.

Definition site_artifacts (options : DefaultServerOptions) (byID : gmap string UpstreamInput) (site : SiteInput)
  : result (list ArtifactOutput) :=
  let upstream := default no_upstream (byID !! s_DefaultUpstreamID site) in
  content ← wrap_error ("render site template for " ++ s_ID site ++ ": ") (render_site (site_data options site upstream));
  pages ← wrap_error ("render error pages for " ++ s_ID site ++ ": ") (renderSiteErrorArtifacts (s_ID site));
  Ok (newArtifact ("nginx/sites/" ++ s_ID site ++ ".conf") ArtifactKindNginxConfig content :: pages).

Definition RenderSiteUpstreamArtifactsWithOptions (sites : list SiteInput) (upstreams : list UpstreamInput)
    (options : DefaultServerOptions) : result (list ArtifactOutput) :=
  '(sorted, byID) ← normalizeInputs sites upstreams;
  main ← wrap_error "render nginx main template: " (render_main
    (MkMainData "sites/*.conf" (defaultTLSRefPath sorted) responseErrorStatusCodes (BlockDirectIPAccess options)));
  base ← wrap_error "render nginx base template: " (render_base
    (MkBaseData responseErrorStatusCodes (buildHostMapEntries sorted) (managementSiteID sorted)
       managementAPIProxyTarget [] uiProxyTarget (BlockDirectIPAccess options) (RuntimeRevisionID options)));
  pages ← wrap_error "render global error pages: " (renderSiteErrorArtifacts globalErrorSiteID);
  geo ← wrap_error "render geo block page: " render_geo_block;
  sites ← map_results (site_artifacts options byID) (List.filter s_Enabled sorted);
  Ok ([newArtifact "nginx/nginx.conf" ArtifactKindNginxConfig main;
       newArtifact "nginx/conf.d/base.conf" ArtifactKindNginxConfig base] +++ pages +++
      [newArtifact "errors/_global/geo_block.html" ArtifactKindNginxConfig geo] +++ mjoin sites).

Definition RenderSiteUpstreamArtifacts (sites : list SiteInput) (upstreams : list UpstreamInput)
  : result (list ArtifactOutput) :=
  RenderSiteUpstreamArtifactsWithOptions sites upstreams (MkOptions false "").
End Sites.

(** ** Text of the short templates *)
Definition directive (text : string) : string := newline ++ text.

(** templates/tls/refs.conf.tmpl *)
Definition tls_refs_text (certificatePath privateKeyPath : string) : string :=
  "ssl_certificate " ++ certificatePath ++ ";" ++ directive ("ssl_certificate_key " ++ privateKeyPath ++ ";") ++ newline.

(** templates/modsecurity: modsecurity.conf, crs-setup.conf, sites/site.conf, crs-overrides *)
Definition modsecurity_base_text : string :=
  "SecRuleEngine Off" ++ directive "SecRequestBodyAccess On" ++ directive "SecResponseBodyAccess Off" ++
  directive "SecAuditEngine RelevantOnly" ++ directive "SecAuditLogParts ABIJDEFHZ" ++
  directive "Include /etc/waf/modsecurity/crs-setup.conf" ++ newline.

Definition crs_setup_text : string :=
  "# CRS setup — generated by Tarinio compiler." ++
  directive "# Sets the required crs_setup_version variable so CRS rule 901001" ++
  directive "# does not block all traffic with HTTP 500." ++ directive "" ++
  directive "SecAction \" ++ directive ("    " ++ dquote ++ "id:900990,\") ++ directive "    phase:1,\" ++
  directive "    pass,\" ++ directive "    t:none,\" ++ directive "    nolog,\" ++
  directive "    tag:'OWASP_CRS',\" ++ directive "    ver:'OWASP_CRS/4.27.0',\" ++
  directive ("    setvar:tx.crs_setup_version=4270" ++ dquote) ++ newline.

Definition modsecurity_site_text (engineMode : string) (includeCRS : bool) (overridesRef : string) : string :=
  "SecRuleEngine " ++ engineMode ++
  (if includeCRS
   then directive "Include /etc/waf/modsecurity/crs-setup.conf" ++
        directive "Include /etc/waf/modsecurity/coreruleset/rules/*.conf" ++
        directive ("Include " ++ overridesRef)
   else "") ++ newline.

Definition crs_overrides_text (includes : list string) : string :=
  "# Per-site CRS overrides." ++ String.concat "" ((fun i => directive ("Include " ++ i)) <$> includes) ++ newline.

(** ** Certificates (tls.go) *)
Definition tls_config_checks (c : TLSConfigInput) : result unit :=
  reject_if (is_empty (t_ID c)) "tls config id is required";;
  reject_if (is_empty (t_SiteID c)) ("tls config " ++ t_ID c ++ " site id is required");;
  reject_if (is_empty (t_CertificateID c)) ("tls config " ++ t_ID c ++ " certificate id is required").

Definition certificate_checks (c : CertificateInput) : result unit :=
  reject_if (is_empty (c_ID c)) "certificate id is required";;
  reject_if (is_empty (c_SiteID c)) ("certificate " ++ c_ID c ++ " site id is required");;
  reject_if (is_blank (c_StorageRef c) || is_blank (c_PrivateKeyRef c))
    ("certificate " ++ c_ID c ++ " must define certificate and private key refs").

(** The loops that fill a map: a later entry replaces an earlier one with its key. *)
Fixpoint index_by {A} (check : A -> result A) (key : A -> string) (byKey : gmap string A) (l : list A)
  : result (gmap string A) :=
  match l with
  | [] => Ok byKey
  | x :: rest => y ← check x; index_by check key (<[key y := y]> byKey) rest
  end.

Definition checked {A} (check : A -> result unit) (x : A) : result A := check x;; Ok x.

Definition tls_artifact (tlsBySite : gmap string TLSConfigInput) (certByID : gmap string CertificateInput)
    (site : SiteInput) : result ArtifactOutput :=
  match tlsBySite !! s_ID site with
  | None => Err ("site " ++ s_ID site ++ " requires tls config for HTTPS listener")
  | Some tlsConfig =>
      match certByID !! t_CertificateID tlsConfig with
      | None => Err ("site " ++ s_ID site ++ " certificate " ++ t_CertificateID tlsConfig ++ " not found")
      | Some cert =>
          reject_if (negb (String.eqb (c_SiteID cert) (s_ID site)))
            ("site " ++ s_ID site ++ " certificate " ++ c_ID cert ++ " belongs to site " ++ c_SiteID cert);;
          Ok (newArtifact ("tls/" ++ s_ID site ++ ".conf") ArtifactKindTLSRef
                (tls_refs_text (c_StorageRef cert) (c_PrivateKeyRef cert)))
      end
  end.

Definition RenderTLSArtifacts (sites : list SiteInput) (tlsConfigs : list TLSConfigInput)
    (certificates : list CertificateInput) : result (list ArtifactOutput) :=
  tlsBySite ← index_by (checked tls_config_checks) t_SiteID ∅ tlsConfigs;
  certByID ← index_by (checked certificate_checks) c_ID ∅ certificates;
  map_results (tls_artifact tlsBySite certByID)
    (List.filter (fun s => s_Enabled s && s_ListenHTTPS s) (sort_on s_ID sites)).

(** ** ModSecurity policies (waf.go) *)
Definition trusted_include (raw : string) : result (option string) :=
  let value := trim_space (replace_char "\" "/" raw) in
  if is_empty value then Ok None
  else
    let value := if has_prefix "/rules/" value then trim_prefix "/" value else value in
    reject_if (negb (has_prefix "rules/" value) || contains_any (crlf ++ quote_marks ++ ";{}") value)
      "must be a relative rules/*.conf path";;
    let clean := Files.clean value in
    reject_if (String.eqb clean "." || String.eqb clean "rules" || has_prefix "../" clean ||
               negb (has_suffix ".conf" clean)) "must be a relative rules/*.conf path";;
    Ok (Some ("/etc/waf/modsecurity/" ++ clean)).

Definition normalizeTrustedModSecurityIncludes (values : list string) : result (list string) :=
  trusted ← map_results trusted_include values; Ok (sortedUnique (omap id trusted)).

Definition engineMode (mode : string) : string :=
  if String.eqb mode WAFModePrevention then "On"
  else if is_empty mode then "Off"
  else "DetectionOnly".

Definition waf_policy_checks (p : WAFPolicyInput) : result WAFPolicyInput :=
  reject_if (is_empty (w_ID p)) "waf policy id is required";;
  reject_if (is_empty (w_SiteID p)) ("waf policy " ++ w_ID p ++ " site id is required");;
  reject_if (w_Enabled p && negb (mem (w_Mode p) [WAFModeDetection; WAFModePrevention]))
    ("waf policy " ++ w_ID p ++ " mode must be detection or prevention");;
  includes ← wrap_error ("waf policy " ++ w_ID p ++ " custom_rule_includes: ")
    (normalizeTrustedModSecurityIncludes (w_CustomRuleIncludes p));
  Ok (MkWAFPolicy (w_ID p) (w_SiteID p) (w_Enabled p) (w_Mode p) (w_CRSEnabled p) includes).

Definition waf_artifacts (policyBySite : gmap string WAFPolicyInput) (site : SiteInput) : list ArtifactOutput :=
  let policy := default (MkWAFPolicy "" (s_ID site) false "" false []) (policyBySite !! s_ID site) in
  let mode := if w_Enabled policy then w_Mode policy else "" in
  [newArtifact ("modsecurity/sites/" ++ s_ID site ++ ".conf") ArtifactKindModSecurity
     (modsecurity_site_text (engineMode mode) (w_Enabled policy && w_CRSEnabled policy)
        ("/etc/waf/modsecurity/crs-overrides/" ++ s_ID site ++ ".conf"));
   newArtifact ("modsecurity/crs-overrides/" ++ s_ID site ++ ".conf") ArtifactKindCRSConfig
     (crs_overrides_text (w_CustomRuleIncludes policy))].

Definition RenderWAFArtifacts (sites : list SiteInput) (policies : list WAFPolicyInput)
  : result (list ArtifactOutput) :=
  policyBySite ← index_by waf_policy_checks w_SiteID ∅ policies;
  Ok ([newArtifact "modsecurity/modsecurity.conf" ArtifactKindModSecurity modsecurity_base_text;
       newArtifact "modsecurity/crs-setup.conf" ArtifactKindCRSConfig crs_setup_text] +++
      mjoin (waf_artifacts policyBySite <$> List.filter s_Enabled (sort_on s_ID sites))).

(** ** Access lists and rate limits (access_rate_limit.go) *)
Record rateLimitExceptionEntry := MkException { re_ExceptionVar : string; re_KeyVar : string; re_AllowCIDRs : list string }.
Record rateLimitHTTPEntry := MkHTTPEntry {
  rh_ZoneName : string;
  rh_ConnZoneName : string;
  rh_LimitReqKeyVar : string;
  rh_ConnKeyVar : string;
  rh_BaseKeyVar : string;
  rh_Rate : string;
  rh_LimitReqURLVar : string;
  rh_LimitReqPattern : string
}.
Record rateLimitHTTPData := MkHTTPData { Exceptions : list rateLimitExceptionEntry; Entries : list rateLimitHTTPEntry }.
Record rateLimitSiteData := MkRateSite {
  rs_Enabled : bool;
  rs_ZoneName : string;
  rs_ConnZoneName : string;
  rs_LimitReqURLVar : string;
  rs_Burst : Z;
  rs_StatusCode : Z;
  rs_ConnectionLimit : Z
}.
Record accessSiteData := MkAccessSite {
  as_TrustedProxyCIDRs : list string;
  as_AllowCIDRs : list string;
  as_DenyCIDRs : list string;
  as_DefaultAction : string
}.

(** templates/nginx/ratelimits/http.conf.tmpl *)
Definition exception_text (e : rateLimitExceptionEntry) : string :=
  directive ("geo $" ++ re_ExceptionVar e ++ " {") ++ directive "    default 0;" ++
  String.concat "" ((fun cidr => directive ("    " ++ cidr ++ " 1;")) <$> re_AllowCIDRs e) ++
  directive "}" ++ directive ("map $" ++ re_ExceptionVar e ++ " $" ++ re_KeyVar e ++ " {") ++
  directive "    default $binary_remote_addr;" ++
  directive ("    1 " ++ dquote ++ "${binary_remote_addr}:allow" ++ dquote ++ ";") ++ directive "}".

Definition http_entry_text (e : rateLimitHTTPEntry) : string :=
  (if is_empty (rh_LimitReqURLVar e) then ""
   else directive ("map $uri $" ++ rh_LimitReqURLVar e ++ " {") ++
        directive ("    default " ++ dquote ++ dquote ++ ";") ++
        directive ("    ~*^" ++ rh_LimitReqPattern e ++ " $" ++ rh_BaseKeyVar e ++ ";") ++ directive "}") ++
  directive ("limit_req_zone $" ++ rh_LimitReqKeyVar e ++ " zone=" ++ rh_ZoneName e ++ ":10m rate=" ++ rh_Rate e ++ ";") ++
  directive ("limit_conn_zone $" ++ rh_ConnKeyVar e ++ " zone=" ++ rh_ConnZoneName e ++ ":10m;").

Definition ratelimit_http_text (d : rateLimitHTTPData) : string :=
  String.concat "" (exception_text <$> Exceptions d) ++ String.concat "" (http_entry_text <$> Entries d) ++ newline.

(** templates/nginx/ratelimits/site.conf.tmpl, access/site.conf.tmpl, conf.d/real_ip.conf.tmpl *)
Definition ratelimit_site_text (d : rateLimitSiteData) : string :=
  (if rs_Enabled d
   then directive ("limit_req zone=" ++ rs_ZoneName d ++ " burst=" ++ itoa (rs_Burst d) ++ " nodelay;") ++
        directive ("limit_req_status " ++ itoa (rs_StatusCode d) ++ ";") ++
        directive ("limit_conn " ++ rs_ConnZoneName d ++ " " ++ itoa (rs_ConnectionLimit d) ++ ";") ++
        directive ("limit_conn_status " ++ itoa (rs_StatusCode d) ++ ";")
   else "") ++ newline.

Definition access_text (d : accessSiteData) : string :=
  String.concat "" ((fun cidr => directive ("allow " ++ cidr ++ ";")) <$> as_AllowCIDRs d) ++
  String.concat "" ((fun cidr => directive ("deny " ++ cidr ++ ";")) <$> as_DenyCIDRs d) ++
  (if String.eqb (as_DefaultAction d) "deny" then directive "deny all;" else "") ++ newline.

Definition real_ip_text (cidrs : list string) : string :=
  (match cidrs with
   | [] => ""
   | _ => directive "real_ip_header X-Forwarded-For;" ++ directive "real_ip_recursive on;" ++
          String.concat "" ((fun cidr => directive ("set_real_ip_from " ++ cidr ++ ";")) <$> cidrs)
   end) ++ newline.

Definition normalizeDefaultAction (value : string) : string :=
  if String.eqb (lower_trim value) "deny" then "deny" else "allow".

Definition formatRate (requests windowSeconds : Z) : string :=
  if windowSeconds =? 1 then itoa requests ++ "r/s"
  else if Z.rem windowSeconds 60 =? 0 then itoa (Z.quot requests (Z.quot windowSeconds 60)) ++ "r/m"
  else itoa requests ++ "r/" ++ itoa windowSeconds ++ "s".

Definition effectiveStatusCode (value : Z) : Z := if value =? 0 then 429 else value.
Definition connectionLimit (policy : RateLimitPolicyInput) : Z :=
  if 0 <? r_Burst policy then r_Burst policy else if 0 <? r_Requests policy then r_Requests policy else 1.

Definition access_policy_checks (p : AccessPolicyInput) : result AccessPolicyInput :=
  reject_if (is_empty (a_ID p)) "access policy id is required";;
  reject_if (is_empty (a_SiteID p)) ("access policy " ++ a_ID p ++ " site id is required");;
  let trusted := sortedUnique (a_TrustedProxyCIDRs p) in
  check_each (fun cidr => validateNginxCIDROrIP cidr ("access policy " ++ a_ID p ++ " trusted proxy CIDR")) trusted;;
  Ok (MkAccessPolicy (a_ID p) (a_SiteID p) (normalizeDefaultAction (a_DefaultAction p))
        (sortedUnique (a_AllowCIDRs p)) (sortedUnique (a_DenyCIDRs p)) trusted (a_SecurityMode p)).

Definition with_status (code : Z) (p : RateLimitPolicyInput) : RateLimitPolicyInput :=
  MkRateLimitPolicy (r_ID p) (r_SiteID p) (r_Enabled p) (r_Requests p) (r_WindowSeconds p) (r_Burst p) code (r_LimitReqURL p).

Definition rate_policy_checks (p : RateLimitPolicyInput) : result RateLimitPolicyInput :=
  let name := "rate limit policy " ++ r_ID p in
  reject_if (is_empty (r_ID p)) "rate limit policy id is required";;
  reject_if (is_empty (r_SiteID p)) (name ++ " site id is required");;
  if negb (r_Enabled p) then Ok p
  else
    reject_if (r_Requests p <=? 0) (name ++ " requests must be positive");;
    reject_if (r_WindowSeconds p <=? 0) (name ++ " window_seconds must be positive");;
    reject_if (r_Burst p <? 0) (name ++ " burst must be zero or positive");;
    Ok (with_status (effectiveStatusCode (r_StatusCode p)) p).

Section Access.
Context `{Environment}.

Definition open_policy (site : SiteInput) : AccessPolicyInput := MkAccessPolicy "" (s_ID site) "allow" [] [] [] "".

(** The access policy a site is rendered with: the administration's own site has none. *)
Definition site_access (accessBySite : gmap string AccessPolicyInput) (site : SiteInput) : AccessPolicyInput :=
  if isManagementSite site then open_policy site else default (open_policy site) (accessBySite !! s_ID site).

Definition shouldDefaultDenySite (siteID : string) (policy : AccessPolicyInput) : bool :=
  if negb (isManagementSiteID siteID) then false
  else if String.eqb (normalizeDefaultAction (a_DefaultAction policy)) "deny" then true
  else negb (Nat.eqb (length (a_AllowCIDRs policy)) 0).

Definition rate_exception (accessBySite : gmap string AccessPolicyInput) (site : SiteInput) : rateLimitExceptionEntry :=
  MkException (siteExceptionVar (s_ID site)) (siteRateLimitKeyVar (s_ID site)) (a_AllowCIDRs (site_access accessBySite site)).

Definition rate_entry (rateBySite : gmap string RateLimitPolicyInput) (site : SiteInput) : option rateLimitHTTPEntry :=
  match rateBySite !! s_ID site with
  | Some policy =>
      if r_Enabled policy then
        let base := siteRateLimitKeyVar (s_ID site) in
        let pattern := trim_space (r_LimitReqURL policy) in
        let urlVar := if is_empty pattern then "" else siteRateLimitReqKeyVar (s_ID site) in
        Some (MkHTTPEntry (reqZoneName (s_ID site)) (connZoneName (s_ID site))
                (if is_empty pattern then base else urlVar) base base
                (formatRate (r_Requests policy) (r_WindowSeconds policy)) urlVar pattern)
      else None
  | None => None
  end.

Definition access_data (accessBySite : gmap string AccessPolicyInput) (site : SiteInput) : accessSiteData :=
  let policy := site_access accessBySite site in
  let mode := lower_trim (a_SecurityMode policy) in
  if mem mode ["transparent"; "monitor"]
  then MkAccessSite (a_TrustedProxyCIDRs policy) [] [] "allow"
  else MkAccessSite (a_TrustedProxyCIDRs policy) (a_AllowCIDRs policy) (a_DenyCIDRs policy)
         (if shouldDefaultDenySite (s_ID site) policy then "deny" else a_DefaultAction policy).

Definition rate_site_data (rateBySite : gmap string RateLimitPolicyInput) (site : SiteInput) : rateLimitSiteData :=
  let none := MkRateLimitPolicy "" (s_ID site) false 0 0 0 0 "" in
  let policy := match rateBySite !! s_ID site with
                | Some p => if r_Enabled p then p else none
                | None => none
                end in
  MkRateSite (r_Enabled policy) (reqZoneName (s_ID site)) (connZoneName (s_ID site)) "" (r_Burst policy)
    (effectiveStatusCode (r_StatusCode policy)) (connectionLimit policy).

Definition access_artifacts (accessBySite : gmap string AccessPolicyInput)
    (rateBySite : gmap string RateLimitPolicyInput) (site : SiteInput) : list ArtifactOutput :=
  [newArtifact ("nginx/access/" ++ s_ID site ++ ".conf") ArtifactKindNginxConfig (access_text (access_data accessBySite site));
   newArtifact ("nginx/ratelimits/" ++ s_ID site ++ ".conf") ArtifactKindNginxConfig
     (ratelimit_site_text (rate_site_data rateBySite site))].

(** Proxies are trusted for the whole server, from the policies of enabled sites as they were given. *)
Definition trusted_proxies (sites : list SiteInput) (policies : list AccessPolicyInput) : list string :=
  let active := s_ID <$> List.filter s_Enabled sites in
  sortedUnique (mjoin (a_TrustedProxyCIDRs <$> List.filter (fun p => mem (a_SiteID p) active) policies)).

Definition RenderAccessRateLimitArtifacts (sites : list SiteInput) (accessPolicies : list AccessPolicyInput)
    (rateLimitPolicies : list RateLimitPolicyInput) : result (list ArtifactOutput) :=
  let sortedSites := sort_on s_ID sites in
  let enabled := List.filter s_Enabled sortedSites in
  accessBySite ← index_by access_policy_checks a_SiteID ∅ accessPolicies;
  rateBySite ← index_by rate_policy_checks r_SiteID ∅ rateLimitPolicies;
  let httpData := MkHTTPData (rate_exception accessBySite <$> enabled) (omap (rate_entry rateBySite) enabled) in
  Ok ([newArtifact "nginx/conf.d/ratelimits.conf" ArtifactKindNginxConfig (ratelimit_http_text httpData);
       newArtifact "nginx/conf.d/real_ip.conf" ArtifactKindNginxConfig (real_ip_text (trusted_proxies sortedSites accessPolicies))] +++
      mjoin (access_artifacts accessBySite rateBySite <$> enabled)).
End Access.

(** ** Which site a host belongs to *)
Definition names_of (site : SiteInput) : list string := lower_trim <$> collectServerNames site.

Lemma host_candidates_cons site sites :
  host_candidates (site :: sites) =
  (if s_Enabled site then (fun h => MkHostEntry h (s_ID site)) <$> names_of site else []) +++ host_candidates sites.
Proof.
  unfold host_candidates. cbn [List.filter]. destruct (s_Enabled site); [|done]. cbn. f_equal.
  unfold names_of. by rewrite <- list_fmap_compose.
Qed.

Lemma candidate_hosts h sites :
  (exists id, MkHostEntry h id ∈ host_candidates sites) <-> exists s, s ∈ sites /\ s_Enabled s = true /\ h ∈ names_of s.
Proof.
  induction sites as [|site sites IH].
  - split; [by intros (id & []%not_elem_of_nil) | by intros (s & []%not_elem_of_nil & _)].
  - setoid_rewrite host_candidates_cons. setoid_rewrite elem_of_app. split.
    + intros (id & [Hin|Hin]).
      * destruct (s_Enabled site) eqn:He; [|by apply not_elem_of_nil in Hin].
        apply list_elem_of_fmap in Hin as (h' & [= -> ->] & Hh). exists site. by repeat split; [left|..].
      * destruct (proj1 IH) as (s & Hs & ?); [by exists id|]. exists s. split; [by right | done].
    + intros (s & [->|Hs]%elem_of_cons & He & Hh).
      * exists (s_ID site). left. rewrite He. apply list_elem_of_fmap. eauto.
      * destruct (proj2 IH) as (id & ?); [by exists s|]. exists id. by right.
Qed.

Lemma candidate_split sites before e after :
  host_candidates sites = before +++ e :: after -> he_Host e ∉ he_Host <$> before ->
  exists sb site sa, sites = sb +++ site :: sa /\ s_Enabled site = true /\ s_ID site = he_SiteID e /\
    he_Host e ∈ names_of site /\ forall s, s ∈ sb -> s_Enabled s = true -> he_Host e ∉ names_of s.
Proof.
  revert before. induction sites as [|site sites IH]; intros before E Hb; [by destruct before|].
  rewrite host_candidates_cons in E. set (own := if s_Enabled site then _ else _) in *.
  destruct (decide (e ∈ own)) as [Hown|Hown].
  - exists [], site, sites. split; [done|]. unfold own in Hown. destruct (s_Enabled site) eqn:He; [|by apply not_elem_of_nil in Hown].
    apply list_elem_of_fmap in Hown as (h & -> & Hh). repeat split; [done|]. by intros s []%not_elem_of_nil.
  - assert (Hsplit : exists rest, before = own +++ rest /\ host_candidates sites = rest +++ e :: after).
    { clearbody own. revert before E Hb. induction own as [|o own IHo]; intros before E Hb; [by exists before|].
      rewrite not_elem_of_cons in Hown. destruct Hown as [Hne Hown]. destruct before as [|b before].
      { injection E as -> _. done. }
      injection E as -> E. cbn in Hb. apply not_elem_of_cons in Hb as [_ Hb].
      destruct (IHo Hown before E Hb) as (rest & -> & Hrest). by exists rest. }
    destruct Hsplit as (rest & -> & Hrest). rewrite fmap_app, not_elem_of_app in Hb. destruct Hb as [Hbo Hbr].
    destruct (IH rest Hrest Hbr) as (sb & s & sa & -> & He & Hid & Hin & Hfirst).
    exists (site :: sb), s, sa. repeat split; [done..|].
    intros s' [->|Hs']%elem_of_cons He' Hin'; [|by apply (Hfirst s' Hs' He')].
    apply Hbo. unfold own. rewrite He', <- list_fmap_compose. apply list_elem_of_fmap. by exists (he_Host e).
Qed.

(** Every host leads to one site, the first that claims it.  The host map that is rendered has
    one entry per host, and maps a host to a site exactly when that site is enabled, names the host
    (case and blanks aside) and no enabled site before it in compilation order does; every host named
    by an enabled site has its entry. *)
Theorem host_map_first_site (sites : list SiteInput) :
  let entries := buildHostMapEntries sites in
  NoDup (he_Host <$> entries) /\
  (forall h id, MkHostEntry h id ∈ entries ->
    h <> "" /\ exists sb site sa, sites = sb +++ site :: sa /\ s_Enabled site = true /\ s_ID site = id /\
      h ∈ names_of site /\ forall s, s ∈ sb -> s_Enabled s = true -> h ∉ names_of s) /\
  (forall site h, site ∈ sites -> s_Enabled site = true -> h ∈ names_of site -> h <> "" -> h ∈ (he_Host <$> entries)).
Proof.
  intros entries. unfold entries, buildHostMapEntries. split; [apply dedupe_by_nodup|].
  set (keep := fun e => negb (is_empty (he_Host e))). split.
  - intros h id (_ & before & after & E & Hb)%elem_of_dedupe. cbn in Hb.
    assert (Hsplit : exists b' a', host_candidates sites = b' +++ MkHostEntry h id :: a' /\ (h ∉ he_Host <$> b') /\ h <> "").
    { revert before E Hb. induction (host_candidates sites) as [|c l IH]; intros before E Hb; [by destruct before|].
      cbn in E. destruct (keep c) eqn:Hk.
      - destruct before as [|b before]; injection E as -> E.
        + exists [], l. split; [done|]. split; [apply not_elem_of_nil|]. unfold keep in Hk. by apply negb_true_iff, is_empty_false in Hk.
        + cbn in Hb. apply not_elem_of_cons in Hb as [Hne Hb]. destruct (IH before E Hb) as (b' & a' & -> & Hb' & ?).
          exists (b :: b'), a'. split; [done|]. split; [|done]. cbn. by rewrite not_elem_of_cons.
      - destruct (IH before E Hb) as (b' & a' & -> & Hb' & Hne). exists (c :: b'), a'. split; [done|]. split; [|done].
        cbn. rewrite not_elem_of_cons. split; [|done]. intros ->. unfold keep in Hk. by apply negb_false_iff, is_empty_spec in Hk. }
    destruct Hsplit as (b' & a' & E' & Hb' & Hne). split; [done|].
    exact (candidate_split sites b' (MkHostEntry h id) a' E' Hb').
  - intros site h Hs He Hh Hne. destruct (proj2 (candidate_hosts h sites)) as (id & Hid); [by exists site|].
    apply (dedupe_covers he_Host [] _ (MkHostEntry h id)); [|apply not_elem_of_nil].
    apply list_elem_of_In, filter_In. split; [by apply list_elem_of_In|]. unfold keep. by apply negb_true_iff, is_empty_false.
Qed.

(** ** Where included rules come from *)
Section CleanParts.
Variable ok : ascii -> bool.
Hypothesis dot_ok : ok "." = true.

(** What cleaning a path leaves: no empty component, no single dot, no other character. *)
Definition clean_part (c : string) : Prop := c <> "" /\ c <> "." /\ all_chars ok c = true.

Lemma clean_step_parts rooted acc c : Forall clean_part acc -> all_chars ok c = true ->
  Forall clean_part (clean_step rooted acc c).
Proof.
  intros Ha Hc. unfold clean_step. destruct (String.eqb_spec c ""); [done|]. destruct (String.eqb_spec c "."); [done|]. cbn [orb].
  assert (Hdd : clean_part ".."). { repeat split; [done|done|]. cbn. by rewrite dot_ok. }
  destruct (String.eqb_spec c ".."); [|by constructor; [repeat split|]].
  destruct Ha as [|d acc Hd Ha]; [destruct rooted; [constructor | by constructor; [|constructor]]|]. destruct (String.eqb d ".."); [constructor; [done | by constructor] | done].
Qed.

Lemma clean_parts rooted l acc : Forall clean_part acc -> Forall (fun c => all_chars ok c = true) l ->
  Forall clean_part (foldl (clean_step rooted) acc l).
Proof.
  intros Ha Hl. revert acc Ha. induction Hl as [|c l Hc _ IH]; intros acc Ha; [done|]. cbn. apply IH. by apply clean_step_parts.
Qed.
End CleanParts.

Lemma all_chars_parts p sep s : all_chars p s = true -> Forall (fun part => all_chars p part = true) (split_on sep s).
Proof.
  induction s as [|c s IH]; intros Hs; [by repeat constructor|]. apply andb_true_iff in Hs as [Hc Hs]. cbn [split_on].
  destruct (Ascii.eqb c sep); [by constructor; [|apply IH]|]. specialize (IH Hs).
  destruct (split_on sep s) as [|w ws]; [by repeat constructor; cbn; rewrite Hc|].
  apply Forall_cons in IH as [Hw Hws]. constructor; [|done]. cbn. by rewrite Hc.
Qed.

Definition include_char (c : ascii) : bool := negb (has_char c (crlf ++ quote_marks ++ ";{}")).

Lemma split_value value : trim_space value = value -> value <> "" -> has_prefix "rules/" value = true ->
  String.eqb (Files.clean value) "." = false -> has_prefix "../" (Files.clean value) = false ->
  has_suffix ".conf" (Files.clean value) = true -> all_chars include_char value = true ->
  exists parts, Files.clean value = join "/" parts /\ parts <> [] /\ Forall plain parts /\
    Forall (fun c => all_chars include_char c = true) parts.
Proof.
  intros Ht Hne Hp Hdot Hup Hconf Hchars.
  assert (Habs : is_abs value = false). { destruct value as [|c v]; [done|]. apply andb_true_iff in Hp as [Hc%Ascii.eqb_eq _]. by subst c. }
  destruct (clean_dotdot_front (split_on "/" value) []) as (k & tl & E & Htl).
  { exists 0%nat, []. split; [done | constructor]. }
  assert (Hparts : Forall (clean_part include_char) (tl +++ repeat ".." k)).
  { rewrite <- E. apply clean_parts; [done | constructor | by apply all_chars_parts]. }
  assert (Hclean : Files.clean value = match rev (tl +++ repeat ".." k) with [] => "." | parts => join "/" parts end)
    by (unfold Files.clean, clean_from; rewrite Habs; cbn [rev]; rewrite E; by destruct (rev _)).
  destruct k as [|k].
  - cbn in *. rewrite app_nil_r in *. exists (rev tl). rewrite Hclean. destruct (rev tl) as [|p ps] eqn:Er; [by rewrite Hclean in Hdot|].
    split; [done|]. split; [done|]. rewrite <- Er. split; apply Forall_rev.
    + apply Forall_forall. intros c Hc. rewrite Forall_forall in Hparts. unfold no_dotdot in Htl. rewrite Forall_forall in Htl.
      destruct (Hparts c Hc) as (? & ? & _). by repeat split; [..|apply Htl].
    + eapply Forall_impl; [exact Hparts|]. by intros c (_ & _ & ?).
  - exfalso. rewrite rev_app_distr, rev_repeat in Hclean. cbn [repeat app] in Hclean.
    destruct (join_dotdot (repeat ".." k +++ rev tl)) as (r & Hj & Hr). rewrite Hclean, Hj in Hup, Hconf.
    by destruct Hr as [-> | [r' ->]].
Qed.

Lemma trim_tail c v : is_space c = false -> v <> "" -> trim_space (String c v) = String c v -> trim_right v = v.
Proof.
  intros Hc Hv. unfold trim_space. cbn [trim_left]. rewrite Hc. cbn [trim_right]. rewrite Hc.
  destruct (trim_right v) as [|d t] eqn:E; [intros [=<-]; done | by intros [=]].
Qed.

Lemma trim_path x : has_prefix "/" x = true -> has_suffix ".conf" x = true -> trim_space x = x.
Proof.
  intros Hp (a & ->)%has_suffix_split. unfold trim_space.
  replace (trim_left (a ++ ".conf")) with (a ++ ".conf").
  - by apply trim_right_app.
  - destruct a as [|c a]; [done|]. apply andb_true_iff in Hp as [Hc%Ascii.eqb_eq _]. by subst c.
Qed.

Lemma trusted_include_path raw x : trusted_include raw = Ok (Some x) -> exists parts,
  x = path_string (["etc"; "waf"; "modsecurity"] +++ parts) /\ parts <> [] /\
  Forall plain parts /\ Forall (fun c => all_chars include_char c = true) parts /\ has_suffix ".conf" x = true.
Proof.
  unfold trusted_include. set (v0 := trim_space (replace_char "\" "/" raw)).
  destruct (is_empty v0) eqn:He; [done|]. set (value := if has_prefix "/rules/" v0 then _ else _).
  destruct (negb (has_prefix "rules/" value) || _) eqn:H1; [done|]. cbn [reject_if mbind result_bind].
  destruct (_ || negb (has_suffix ".conf" (Files.clean value))) eqn:H2; [done|]. cbn [reject_if mbind result_bind]. intros [= <-].
  apply orb_false_iff in H1 as [Hp%negb_false_iff Hc%contains_any_false].
  apply orb_false_iff in H2 as [[[Hdot Hr]%orb_false_iff Hup]%orb_false_iff Hconf%negb_false_iff].
  assert (Ht : trim_space value = value).
  { unfold value. destruct (has_prefix "/rules/" v0) eqn:Hs; [|apply trim_space_idem].
    assert (E : v0 = String "/" (trim_prefix "/" v0)).
    { destruct v0 as [|c v]; [done|]. apply andb_true_iff in Hs as [Hch%Ascii.eqb_eq _]. by subst c. }
    assert (Hr' : trim_right (trim_prefix "/" v0) = trim_prefix "/" v0).
    { apply (trim_tail "/"); [done | by intros E'; rewrite E, E' in Hs | rewrite <- E; apply trim_space_idem]. }
    assert (Hl : trim_left (trim_prefix "/" v0) = trim_prefix "/" v0).
    { rewrite E in Hs. destruct (trim_prefix "/" v0) as [|c v]; [done|].
      change (has_prefix "rules/" (String c v) = true) in Hs. apply andb_true_iff in Hs as [Hch%Ascii.eqb_eq _]. by subst c. }
    unfold trim_space. by rewrite Hl. }
  destruct (split_value value) as (parts & E & Hne & Hpl & Hch); try done.
  { intros E. by rewrite E in Hp. }
  exists parts. repeat split; [|done..|].
  - rewrite E. by destruct parts as [|p ps].
  - apply has_suffix_split in Hconf as (a & ->). rewrite <- string_app_assoc. apply has_suffix_app.
Qed.

(** An included rule file stays in the ModSecurity directory.  Every path that a policy's custom
    includes are rendered to is the directory /etc/waf/modsecurity followed by proper components: no
    empty one, no dots that lead out of it, none of the characters that end a directive; the last
    ends in .conf. *)
Theorem includes_confined (values includes : list string) :
  normalizeTrustedModSecurityIncludes values = Ok includes ->
  forall inc, inc ∈ includes -> exists parts,
    inc = path_string (["etc"; "waf"; "modsecurity"] +++ parts) /\ parts <> [] /\
    Forall plain parts /\ Forall (fun c => all_chars include_char c = true) parts /\ has_suffix ".conf" inc = true.
Proof.
  unfold normalizeTrustedModSecurityIncludes. destruct (map_results trusted_include values) as [trusted|] eqn:Et; [|done].
  intros [= <-] inc (_ & x & Hx & Hinc')%elem_of_sorted_set. rewrite Hinc'. clear Hinc'. apply list_elem_of_omap in Hx as (o & Ho & E). cbn in E. subst o.
  assert (Hinc : exists raw, trusted_include raw = Ok (Some x)).
  { clear -Et Ho. revert trusted Et Ho. induction values as [|v l IH]; intros trusted Et Ho; cbn in Et.
    - injection Et as <-. by apply not_elem_of_nil in Ho.
    - destruct (trusted_include v) as [y|] eqn:Ey; [|done]. cbn in Et. destruct (map_results _ l) as [ys|]; [|done].
      injection Et as Et. rewrite <- Et in Ho. apply elem_of_cons in Ho as [Ho|Ho]; [exists v; by rewrite Ey, Ho | eauto]. }
  destruct Hinc as (raw & Hinc). apply trusted_include_path in Hinc as (parts & Hpath & Hparts).
  rewrite (trim_path x); [by exists parts | by rewrite Hpath | by apply Hparts].
Qed.

(** The check is on the text as given: the rules directory itself can be left. *)
Example rules_left : normalizeTrustedModSecurityIncludes ["rules/../crs-setup.conf"] = Ok ["/etc/waf/modsecurity/crs-setup.conf"].
Proof. reflexivity. Qed.

Lemma includes_confined_witness :
  exists parts, "/etc/waf/modsecurity/rules/shop.conf" = path_string (["etc"; "waf"; "modsecurity"] +++ parts) /\ parts <> [].
Proof.
  destruct (includes_confined [" /rules//shop.conf"; "rules\a.conf"]
    ["/etc/waf/modsecurity/rules/a.conf"; "/etc/waf/modsecurity/rules/shop.conf"] ltac:(reflexivity)
    "/etc/waf/modsecurity/rules/shop.conf" ltac:(right; left)) as (parts & E & Hne & _).
  by exists parts.
Defined.

(** ** Maps filled in a loop *)
Section IndexBy.
Context {A : Type} (check : A -> result A) (key : A -> string).
Hypothesis check_key : forall x y, check x = Ok y -> key y = key x.

(** The last entry of a key, if there is one. *)
Definition last_of (k : string) (l : list A) : option A := last (List.filter (has_key key k) l).

Lemma index_by_lookup byKey l m k : index_by check key byKey l = Ok m ->
  m !! k = match last_of k l with
           | Some x => match check x with Ok y => Some y | Err _ => None end
           | None => byKey !! k
           end.
Proof.
  revert byKey. induction l as [|x l IH]; intros byKey; cbn; [intros E; injection E as ->; reflexivity|].
  destruct (check x) as [y|] eqn:Ex; [|done]. cbn. intros ->%IH. unfold last_of. cbn [List.filter].
  apply check_key in Ex as Hk. destruct (has_key key k x) eqn:Hx.
  - apply has_key_true in Hx. rewrite last_cons. destruct (last (List.filter (has_key key k) l)); [done|].
    rewrite Ex. rewrite <- Hx, <- Hk. by rewrite lookup_insert_eq.
  - apply has_key_false in Hx. destruct (last _); [done|]. apply lookup_insert_ne. congruence.
Qed.

Lemma index_by_checked byKey l m x : index_by check key byKey l = Ok m -> x ∈ l -> exists y, check x = Ok y.
Proof.
  revert byKey. induction l as [|z l IH]; intros byKey; cbn; [by intros _ ?%not_elem_of_nil|].
  destruct (check z) as [y|] eqn:Ez; [|done]. cbn. intros Hm [->|Hx]%elem_of_cons; eauto.
Qed.
End IndexBy.

Lemma access_policy_key p q : access_policy_checks p = Ok q -> a_SiteID q = a_SiteID p.
Proof.
  unfold access_policy_checks. destruct (is_empty (a_ID p)); [done|]. destruct (is_empty (a_SiteID p)); [done|]. cbn.
  destruct (check_each _ _); [|done]. by intros [= <-].
Qed.

(** ** Who may reach a site *)

(** What nginx's access module reads: the first rule whose network contains the address decides, and
    an address no rule speaks of is admitted. *)
Inductive access_rule := Allow (network : string) | Deny (network : string).

(** [net.IPNet.Contains], on addresses as numbers of their width. *)
Definition ip_number (a : ip) : Z * Z :=
  match a with
  | V4 x y z w => (32, ((x * 256 + y) * 256 + z) * 256 + w)
  | V6 words => (128, foldl (fun acc w => acc * 65536 + w) 0 words)
  end.
Definition in_network (net : ip) (bits : Z) (a : ip) : bool :=
  let '(wn, n) := ip_number net in
  let '(wa, v) := ip_number a in
  (wn =? wa) && (Z.shiftr n (wn - bits) =? Z.shiftr v (wn - bits)).

Definition network_contains (network : string) (a : ip) : bool :=
  match ParseCIDR network with
  | Some (net, bits) => in_network net bits a
  | None => match ParseIP network with Some net => in_network net (ip_number net).1 a | None => false end
  end.

Definition rule_decides (a : ip) (r : access_rule) : option bool :=
  match r with
  | Allow n => if network_contains n a then Some true else None
  | Deny n => if String.eqb n "all" || network_contains n a then Some false else None
  end.
Fixpoint admits (rules : list access_rule) (a : ip) : bool :=
  match rules with
  | [] => true
  | r :: rest => match rule_decides a r with Some verdict => verdict | None => admits rest a end
  end.

(** Reading the rendered text: one directive a line. *)
Definition plain_argument (v : string) : bool := negb (is_empty v) && negb (contains_any (blanks ++ ";") v).
Definition argument (keyword text : string) : option string :=
  if has_prefix (keyword ++ " ") text && has_suffix ";" text then
    let v := trim_suffix ";" (drop_chars (S (String.length keyword)) text) in
    if plain_argument v then Some v else None
  else None.
Definition read_rule (text : string) : option access_rule :=
  match argument "allow" text with
  | Some network => Some (Allow network)
  | None => Deny <$> argument "deny" text
  end.
Definition read_access (text : string) : option (list access_rule) :=
  mapM read_rule (List.filter (fun l => negb (is_empty l)) (split_on (ascii_of_nat 10) text)).

Definition access_rules (d : accessSiteData) : list access_rule :=
  (Allow <$> as_AllowCIDRs d) +++ (Deny <$> as_DenyCIDRs d) +++
  (if String.eqb (as_DefaultAction d) "deny" then [Deny "all"] else []).

Definition rule_line (r : access_rule) : string :=
  match r with Allow n => "allow " ++ n ++ ";" | Deny n => "deny " ++ n ++ ";" end.
Definition rule_network (r : access_rule) : string := match r with Allow n => n | Deny n => n end.

Lemma access_text_lines d : access_text d = String.concat "" ((fun r => directive (rule_line r)) <$> access_rules d) ++ newline.
Proof.
  unfold access_text, access_rules. rewrite !fmap_app, !concat_app, !string_app_assoc. f_equal; [|f_equal].
  - by rewrite <- list_fmap_compose.
  - by rewrite <- list_fmap_compose.
  - f_equal. by destruct (String.eqb _ _).
Qed.

Definition no_newline (s : string) : bool := all_chars (fun c => negb (Ascii.eqb c (ascii_of_nat 10))) s.

Lemma split_lines lines : Forall (fun l => no_newline l = true) lines ->
  split_on (ascii_of_nat 10) (String.concat "" (directive <$> lines) ++ newline) = "" :: lines +++ [""].
Proof.
  intros Hl. assert (Hs : forall l, exists rest, String.concat "" (directive <$> l) ++ newline = String (ascii_of_nat 10) rest).
  { intros [|x l]; [by exists ""|]. cbn [fmap list_fmap]. rewrite concat_cons, string_app_assoc. by eexists. }
  induction Hl as [|l lines Hl _ IH]; [done|]. cbn [fmap list_fmap]. rewrite concat_cons, string_app_assoc.
  change (directive l ++ ?r) with (String (ascii_of_nat 10) (l ++ r)). cbn [split_on Ascii.eqb]. f_equal.
  destruct (Hs lines) as (rest & E). rewrite E in *. cbn [split_on Ascii.eqb] in IH. injection IH as IH.
  by rewrite split_on_app, IH.
Qed.

Lemma plain_argument_parts v : plain_argument v = true -> v <> "" /\ no_newline v = true.
Proof.
  unfold plain_argument. intros [Hne%negb_true_iff Hc%negb_true_iff]%andb_true_iff. split; [by apply is_empty_false|].
  apply contains_any_false in Hc. eapply all_chars_impl; [|exact Hc]. intros c Hb.
  apply negb_true_iff in Hb. apply negb_true_iff. destruct (Ascii.eqb_spec c (ascii_of_nat 10)); [by subst c | done].
Qed.

Lemma argument_of keyword v : plain_argument v = true -> argument keyword (keyword ++ " " ++ v ++ ";") = Some v.
Proof.
  intros Hv. unfold argument.
  replace (keyword ++ " " ++ v ++ ";") with ((keyword ++ " ") ++ (v ++ ";")) by (by rewrite string_app_assoc).
  rewrite has_prefix_app, <- (string_app_assoc (keyword ++ " ") v), has_suffix_app. cbn [andb].
  rewrite string_app_assoc.
  replace (S (String.length keyword)) with (String.length (keyword ++ " ")) by (rewrite string_length_app; cbn; lia).
  rewrite drop_chars_app, trim_suffix_app. by rewrite Hv.
Qed.

Lemma read_rule_line r : plain_argument (rule_network r) = true -> read_rule (rule_line r) = Some r.
Proof.
  destruct r as [n|n]; cbn [rule_network]; intros Hn; unfold read_rule, rule_line.
  - change ("allow " ++ n ++ ";") with ("allow" ++ " " ++ n ++ ";"). by rewrite (argument_of "allow" n Hn).
  - change (argument "allow" ("deny " ++ n ++ ";")) with (@None string).
    change ("deny " ++ n ++ ";") with ("deny" ++ " " ++ n ++ ";"). by rewrite (argument_of "deny" n Hn).
Qed.

Lemma read_access_text d : Forall (fun v => plain_argument v = true) (as_AllowCIDRs d +++ as_DenyCIDRs d) ->
  read_access (access_text d) = Some (access_rules d).
Proof.
  intros Hd. assert (Hr : Forall (fun r => plain_argument (rule_network r) = true) (access_rules d)).
  { apply Forall_app in Hd as [Ha Hb]. unfold access_rules. rewrite !Forall_app, !Forall_fmap. split; [done|]. split; [done|].
    destruct (String.eqb _ _); by repeat constructor. }
  rewrite access_text_lines. unfold read_access.
  rewrite (list_fmap_compose rule_line directive), split_lines.
  - clear Hd. induction Hr as [|r rules Hr _ IH]; [done|]. cbn [List.filter is_empty negb fmap list_fmap] in *.
    change ((rule_line r :: ?l) +++ [""]) with (rule_line r :: (l +++ [""])). cbn [List.filter].
    replace (is_empty (rule_line r)) with false by (by destruct r). cbn [negb mapM]. rewrite read_rule_line by done. cbn.
    by rewrite IH.
  - clear Hd. apply Forall_fmap. eapply Forall_impl; [exact Hr|]. intros r Hp%plain_argument_parts. cbn.
    destruct Hp as [_ Hp]. unfold no_newline in *. destruct r; cbn [rule_line rule_network] in *; by rewrite !all_chars_app, Hp.
Qed.

Lemma admits_allow networks rules a :
  admits ((Allow <$> networks) +++ rules) a = existsb (fun n => network_contains n a) networks || admits rules a.
Proof.
  induction networks as [|n l IH]; [done|]. cbn. destruct (network_contains n a); [done|]. by rewrite IH.
Qed.

Definition deny_covers (n : string) (a : ip) : bool := String.eqb n "all" || network_contains n a.
Lemma admits_deny networks rules a :
  admits ((Deny <$> networks) +++ rules) a = negb (existsb (fun n => deny_covers n a) networks) && admits rules a.
Proof.
  induction networks as [|n l IH]; [done|]. cbn. fold (deny_covers n a). destruct (deny_covers n a); [done|]. by rewrite IH.
Qed.

Section Decision.
Context `{Environment}.

(** What the policies of the control plane say about an address, independently of any file. *)
Definition policy_admits (policy : AccessPolicyInput) (siteID : string) (a : ip) : bool :=
  let allow := sortedUnique (a_AllowCIDRs policy) in
  let closed := String.eqb (lower_trim (a_DefaultAction policy)) "deny" ||
                (isManagementSiteID siteID && negb (Nat.eqb (length allow) 0)) in
  mem (lower_trim (a_SecurityMode policy)) ["transparent"; "monitor"] ||
  existsb (fun n => network_contains n a) allow ||
  (negb (existsb (fun n => deny_covers n a) (sortedUnique (a_DenyCIDRs policy))) && negb closed).

Definition site_admits (policies : list AccessPolicyInput) (site : SiteInput) (a : ip) : bool :=
  isManagementSite site ||
  match last_of a_SiteID (s_ID site) policies with
  | Some policy => policy_admits policy (s_ID site) a
  | None => true
  end.

Definition plain_policy (policy : AccessPolicyInput) : Prop :=
  Forall (fun v => plain_argument v = true) (sortedUnique (a_AllowCIDRs policy) +++ sortedUnique (a_DenyCIDRs policy)).

Lemma access_policy_checked p q : access_policy_checks p = Ok q ->
  a_AllowCIDRs q = sortedUnique (a_AllowCIDRs p) /\ a_DenyCIDRs q = sortedUnique (a_DenyCIDRs p) /\
  a_DefaultAction q = normalizeDefaultAction (a_DefaultAction p) /\ a_SecurityMode q = a_SecurityMode p.
Proof.
  unfold access_policy_checks. destruct (is_empty (a_ID p)); [done|]. destruct (is_empty (a_SiteID p)); [done|]. cbn.
  destruct (check_each _ _); [|done]. by intros [= <-].
Qed.

Lemma default_action_denies v : String.eqb (normalizeDefaultAction v) "deny" = String.eqb (lower_trim v) "deny".
Proof. unfold normalizeDefaultAction. by destruct (String.eqb (lower_trim v) "deny"). Qed.

Lemma open_data bySite site : site_access bySite site = open_policy site ->
  access_data bySite site = MkAccessSite [] [] [] "allow".
Proof.
  intros E. unfold access_data. rewrite E. cbn. unfold shouldDefaultDenySite. by destruct (isManagementSiteID (s_ID site)).
Qed.

Lemma access_data_admits bySite policies site a :
  index_by access_policy_checks a_SiteID ∅ policies = Ok bySite ->
  (forall p, last_of a_SiteID (s_ID site) policies = Some p -> plain_policy p) ->
  read_access (access_text (access_data bySite site)) = Some (access_rules (access_data bySite site)) /\
  admits (access_rules (access_data bySite site)) a = site_admits policies site a.
Proof.
  intros Hm Hplain. apply (index_by_lookup _ _ access_policy_key) with (k := s_ID site) in Hm as Hl.
  unfold site_admits. destruct (isManagementSite site) eqn:Emg.
  { rewrite open_data; [done|]. unfold site_access. by rewrite Emg. }
  destruct (last_of a_SiteID (s_ID site) policies) as [p|] eqn:Ep; rewrite ?lookup_empty in Hl.
  2:{ rewrite open_data; [done|]. unfold site_access. by rewrite Emg, Hl. }
  unfold access_data, site_access. rewrite Emg, Hl.
  destruct (access_policy_checks p) as [q|] eqn:Eq.
  2:{ exfalso. destruct (index_by_checked _ _ _ _ _ p Hm) as [? E]; [|congruence].
      apply last_Some_elem_of, list_elem_of_In, filter_In in Ep as [Ep _]. by apply list_elem_of_In. }
  apply access_policy_checked in Eq as (Ea & Ed & Edef & Emode). change (default (open_policy site) (Some q)) with q. rewrite Emode.
  unfold policy_admits. destruct (mem _ _); [done|].
  specialize (Hplain p eq_refl). unfold plain_policy in Hplain. split; [apply read_access_text; cbn; by rewrite Ea, Ed|].
  unfold access_rules. cbn [as_AllowCIDRs as_DenyCIDRs as_DefaultAction].
  rewrite admits_allow, admits_deny, Ea, Ed. cbn [orb]. f_equal. f_equal.
  unfold shouldDefaultDenySite. rewrite Edef, Ea.
  assert (Hidem : normalizeDefaultAction (normalizeDefaultAction (a_DefaultAction p)) = normalizeDefaultAction (a_DefaultAction p)).
  { unfold normalizeDefaultAction. by destruct (String.eqb (lower_trim (a_DefaultAction p)) "deny"). }
  rewrite Hidem, default_action_denies.
  destruct (isManagementSiteID (s_ID site)), (String.eqb (lower_trim (a_DefaultAction p)) "deny") eqn:Edeny; cbn [negb andb orb];
    rewrite ?default_action_denies, ?Edeny; try done.
  destruct (negb _) eqn:En; rewrite ?default_action_denies, ?Edeny; done.
Qed.

(** The access file of a site admits exactly whom its policy admits.  For every enabled site the
    renderer writes a file that nginx's access module can read and that gives, for every address, the
    verdict of the site's policy: listed as allowed, or not listed as denied on a site that is open
    by default; everybody where the mode only monitors, where there is no policy, and always on the
    site of the administration. *)
Theorem access_file_decides (sites : list SiteInput) (policies : list AccessPolicyInput)
    (rates : list RateLimitPolicyInput) (arts : list ArtifactOutput) (site : SiteInput) :
  RenderAccessRateLimitArtifacts sites policies rates = Ok arts ->
  site ∈ sites -> s_Enabled site = true ->
  (forall p, last_of a_SiteID (s_ID site) policies = Some p -> plain_policy p) ->
  exists file rules, file ∈ arts /\ art_Path file = "nginx/access/" ++ s_ID site ++ ".conf" /\
    read_access (art_Content file) = Some rules /\ forall a, admits rules a = site_admits policies site a.
Proof.
  unfold RenderAccessRateLimitArtifacts. intros Hr Hs He Hp.
  destruct (index_by access_policy_checks a_SiteID ∅ policies) as [bySite|] eqn:Ea; [|done].
  destruct (index_by rate_policy_checks r_SiteID ∅ rates) as [rateBySite|]; [|done]. cbn in Hr. injection Hr as <-.
  exists (newArtifact ("nginx/access/" ++ s_ID site ++ ".conf") ArtifactKindNginxConfig (access_text (access_data bySite site))),
    (access_rules (access_data bySite site)).
  split; [|split; [done | split]].
  - right. right. apply list_elem_of_join. exists (access_artifacts bySite rateBySite site). split; [left|].
    apply list_elem_of_fmap. exists site. split; [done|]. apply list_elem_of_In, filter_In. split; [|done].
    apply list_elem_of_In. by apply elem_of_sort_on.
  - by apply (access_data_admits bySite policies site (V4 0 0 0 0)).
  - intros a. by apply access_data_admits.
Qed.
End Decision.

(** ** Limits use the zones that are declared *)
Lemma app_last_char a b c d : a ++ String c "" = b ++ String d "" -> c = d.
Proof.
  revert b. induction a as [|x a IH]; intros [|y b] E.
  - by injection E.
  - injection E as _ E. by destruct b.
  - injection E as _ E. by destruct a.
  - injection E as _ E. by apply IH in E.
Qed.

Lemma zone_names_inj a b suffix : "site_" ++ a ++ suffix = "site_" ++ b ++ suffix -> a = b.
Proof.
  intros E%(f_equal (trim_prefix "site_")). rewrite !trim_prefix_app in E.
  apply (f_equal (trim_suffix suffix)) in E. by rewrite !trim_suffix_app in E.
Qed.

Lemma zones_differ a b : reqZoneName a <> connZoneName b.
Proof.
  unfold reqZoneName, connZoneName. intros E.
  assert (E' : ("site_" ++ a ++ "_re") ++ "q" = ("site_" ++ b ++ "_con") ++ "n") by (by rewrite !string_app_assoc).
  by apply app_last_char in E'.
Qed.

Lemma rate_entry_names rateBySite s e : rate_entry rateBySite s = Some e ->
  rh_ZoneName e = reqZoneName (s_ID s) /\ rh_ConnZoneName e = connZoneName (s_ID s).
Proof.
  unfold rate_entry. destruct (rateBySite !! s_ID s) as [p|]; [|done]. destruct (r_Enabled p); [|done]. by intros [= <-].
Qed.

Lemma NoDup_named {A B} (f : A -> option B) (id : A -> string) (name : B -> string) (nm : string -> string) l :
  (forall a b, nm a = nm b -> a = b) -> (forall x y, f x = Some y -> name y = nm (id x)) ->
  NoDup (id <$> l) -> NoDup (name <$> omap f l).
Proof.
  intros Hinj Hname. induction l as [|x l IH]; [constructor|]. intros [Hx Hl]%NoDup_cons. cbn.
  destruct (f x) as [y|] eqn:Ey; [|by apply IH]. cbn. constructor; [|by apply IH].
  intros (z & E & (w & Hw & Ez)%list_elem_of_omap)%list_elem_of_fmap. apply Hx, list_elem_of_fmap.
  exists w. split; [|done]. apply Hinj. by rewrite <- (Hname x y Ey), <- (Hname w z Ez).
Qed.

(** Rate limits name zones that exist.  Whenever a site's file limits requests or connections,
    the server-wide file declares the two zones it names, from the same policy; and as long as site
    identifiers differ no zone is declared twice, so that one site never counts against another. *)
Theorem rate_zones_declared (rateBySite : gmap string RateLimitPolicyInput) (enabled : list SiteInput) :
  let entries := omap (rate_entry rateBySite) enabled in
  (forall site, site ∈ enabled -> rs_Enabled (rate_site_data rateBySite site) = true ->
    exists e policy, e ∈ entries /\ rateBySite !! s_ID site = Some policy /\
      rh_ZoneName e = rs_ZoneName (rate_site_data rateBySite site) /\
      rh_ConnZoneName e = rs_ConnZoneName (rate_site_data rateBySite site) /\
      rh_Rate e = formatRate (r_Requests policy) (r_WindowSeconds policy)) /\
  (NoDup (s_ID <$> enabled) -> NoDup ((rh_ZoneName <$> entries) +++ (rh_ConnZoneName <$> entries))).
Proof.
  intros entries. split.
  - intros site Hs He. unfold rate_site_data in *. destruct (rateBySite !! s_ID site) as [p|] eqn:Ep; [|done].
    destruct (r_Enabled p) eqn:Een; [|done].
    destruct (rate_entry rateBySite site) as [e|] eqn:Ee; unfold rate_entry in Ee; rewrite Ep, Een in Ee; [|done].
    exists e, p. split.
    + apply list_elem_of_omap. exists site. split; [done|]. unfold rate_entry. by rewrite Ep, Een.
    + injection Ee as <-. done.
  - intros Hn. assert (Hz : forall e, e ∈ entries -> exists s, s ∈ enabled /\ rh_ZoneName e = reqZoneName (s_ID s) /\ rh_ConnZoneName e = connZoneName (s_ID s)).
    { intros e (s & Hs & E%rate_entry_names)%list_elem_of_omap. by exists s. }
    apply NoDup_app. split; [|split].
    + apply (NoDup_named _ s_ID _ reqZoneName); [intros ? ? E; exact (zone_names_inj _ _ "_req" E) | intros ? ? E; exact (proj1 (rate_entry_names _ _ _ E)) | done].
    + intros z (e & -> & He)%list_elem_of_fmap (e' & E & He')%list_elem_of_fmap.
      destruct (Hz e He) as (s & _ & Hz1 & _), (Hz e' He') as (s' & _ & _ & Hz2). rewrite Hz1, Hz2 in E. by apply zones_differ in E.
    + apply (NoDup_named _ s_ID _ connZoneName); [intros ? ? E; exact (zone_names_inj _ _ "_conn" E) | intros ? ? E; exact (proj2 (rate_entry_names _ _ _ E)) | done].
Qed.

(** ** Certificates of HTTPS sites *)

Lemma map_results_elem {A B} (f : A -> result B) l ys x : map_results f l = Ok ys -> x ∈ l ->
  exists y, f x = Ok y /\ y ∈ ys.
Proof.
  revert ys. induction l as [|z l IH]; intros ys E Hx; [by apply not_elem_of_nil in Hx|]. cbn in E.
  destruct (f z) as [y|] eqn:Ez; [|done]. cbn in E. destruct (map_results f l) as [zs|]; [|done]. injection E as <-.
  apply elem_of_cons in Hx as [->|Hx]; [exists y; by split; [|left]|].
  destruct (IH zs eq_refl Hx) as (y' & ? & ?). exists y'. by split; [|right].
Qed.

Lemma checked_ok {A} (check : A -> result unit) x y : checked check x = Ok y -> y = x /\ check x = Ok tt.
Proof. unfold checked. destruct (check x) as [[]|]; [|done]. cbn. by intros [= <-]. Qed.
Lemma checked_key {A} (check : A -> result unit) (key : A -> string) x y : checked check x = Ok y -> key y = key x.
Proof. by intros [-> _]%checked_ok. Qed.

Lemma certificate_checks_ok c : certificate_checks c = Ok tt ->
  is_blank (c_StorageRef c) = false /\ is_blank (c_PrivateKeyRef c) = false.
Proof.
  unfold certificate_checks. destruct (is_empty (c_ID c)); [done|]. destruct (is_empty (c_SiteID c)); [done|]. cbn.
  destruct (is_blank (c_StorageRef c)), (is_blank (c_PrivateKeyRef c)); by cbn.
Qed.

(** C21: An HTTPS site is served with its own certificate.  When the certificate references render,
    every enabled site that listens on HTTPS has a file naming the two paths of a certificate that
    was configured for that site and belongs to it; no other site's certificate can be named. *)
Theorem tls_files_own_certificate (sites : list SiteInput) (configs : list TLSConfigInput)
    (certificates : list CertificateInput) (arts : list ArtifactOutput) (site : SiteInput) :
  RenderTLSArtifacts sites configs certificates = Ok arts ->
  site ∈ sites -> s_Enabled site = true -> s_ListenHTTPS site = true ->
  exists config cert, last_of t_SiteID (s_ID site) configs = Some config /\
    last_of c_ID (t_CertificateID config) certificates = Some cert /\ c_SiteID cert = s_ID site /\
    is_blank (c_StorageRef cert) = false /\ is_blank (c_PrivateKeyRef cert) = false /\
    (newArtifact ("tls/" ++ s_ID site ++ ".conf") ArtifactKindTLSRef
      (tls_refs_text (c_StorageRef cert) (c_PrivateKeyRef cert)) ∈ arts).
Proof.
  unfold RenderTLSArtifacts. intros Hr Hs He Hl.
  destruct (index_by (checked tls_config_checks) t_SiteID ∅ configs) as [tlsBySite|] eqn:Et; [|done].
  destruct (index_by (checked certificate_checks) c_ID ∅ certificates) as [certByID|] eqn:Ec; [|done]. cbn in Hr.
  assert (Hin : site ∈ List.filter (fun s => s_Enabled s && s_ListenHTTPS s) (sort_on s_ID sites)).
  { apply list_elem_of_In, filter_In. rewrite He, Hl. split; [|done]. apply list_elem_of_In. by apply elem_of_sort_on. }
  destruct (map_results_elem _ _ _ site Hr Hin) as (art & Ha & Hart). unfold tls_artifact in Ha.
  rewrite (index_by_lookup _ _ (checked_key tls_config_checks t_SiteID) _ _ _ _ Et) in Ha.
  destruct (last_of t_SiteID (s_ID site) configs) as [config|] eqn:Econf; [|by rewrite lookup_empty in Ha].
  destruct (checked tls_config_checks config) as [config'|] eqn:Hc; [|done]. apply checked_ok in Hc as [-> _].
  rewrite (index_by_lookup _ _ (checked_key certificate_checks c_ID) _ _ _ _ Ec) in Ha.
  destruct (last_of c_ID (t_CertificateID config) certificates) as [cert|] eqn:Ecert; [|by rewrite lookup_empty in Ha].
  destruct (checked certificate_checks cert) as [cert'|] eqn:Hcc; [|done]. apply checked_ok in Hcc as [-> Hcc].
  destruct (String.eqb_spec (c_SiteID cert) (s_ID site)) as [Hown|]; [|done]. cbn in Ha. injection Ha as <-.
  apply certificate_checks_ok in Hcc as [H1 H2]. exists config, cert. done.
Qed.

(** ** Examples *)
Module Samples.
Definition no_env : Environment := Build_Environment (fun _ => "").
Definition no_mtls : MTLSInput := MkMTLS false false 0 "" false.
Definition shop : SiteInput :=
  MkSite "shop" "Shop" true "shop.example" ["www.shop.example"] true true "up" true false no_mtls false false.
Definition blog : SiteInput :=
  MkSite "blog" "Blog" true "blog.example" ["WWW.shop.example"] true false "up2" true false no_mtls false false.
Definition shop_access : AccessPolicyInput := MkAccessPolicy "a1" "shop" "deny" ["10.0.0.0/8"] [] [] "block".

(** Two sites claim www.shop.example; the HTTPS one comes first. *)
Example shared_host :
  (fun e => (he_Host e, he_SiteID e)) <$> buildHostMapEntries (sort_on compile_order [blog; shop]) =
  [("shop.example", "shop"); ("www.shop.example", "shop"); ("blog.example", "blog")].
Proof. reflexivity. Qed.

(** The variables of two sites whose identifiers differ in punctuation coincide. *)
Example slug_collision : siteRateLimitKeyVar "a-b" = siteRateLimitKeyVar "a_b".
Proof. reflexivity. Qed.

(** Windows other than a second or whole minutes give a rate nginx does not read; long ones give zero. *)
Example rate_of_window : formatRate 5 10 = "5r/10s" /\ formatRate 30 3600 = "0r/m".
Proof. split; reflexivity. Qed.
End Samples.

Lemma host_map_first_site_witness :
  "www.shop.example" ∈ (he_Host <$> buildHostMapEntries [Samples.shop; Samples.blog]) /\
  (MkHostEntry "www.shop.example" "blog" ∉ buildHostMapEntries [Samples.shop; Samples.blog]).
Proof.
  destruct (host_map_first_site [Samples.shop; Samples.blog]) as (_ & Hfirst & Hall). split.
  - apply (Hall Samples.blog); [right; left | reflexivity | apply mem_spec; reflexivity | discriminate].
  - intros Hin. apply Hfirst in Hin as (_ & sb & site & sa & E & _ & Hid & _ & Hno).
    destruct sb as [|s sb]; injection E as E1 E2; [rewrite <- E1 in Hid; discriminate|].
    apply (Hno s ltac:(left)); rewrite <- E1; [reflexivity|]. apply mem_spec. reflexivity.
Defined.

Lemma access_file_decides_witness :
  exists file rules, art_Path file = "nginx/access/shop.conf" /\ read_access (art_Content file) = Some rules /\
    admits rules (V4 10 1 2 3) = true /\ admits rules (V4 192 168 0 1) = false.
Proof.
  destruct (RenderAccessRateLimitArtifacts (H := Samples.no_env) [Samples.shop] [Samples.shop_access] []) as [arts|] eqn:E;
    [|discriminate].
  destruct (access_file_decides (H := Samples.no_env) [Samples.shop] [Samples.shop_access] [] arts Samples.shop E
    ltac:(left) eq_refl) as (file & rules & _ & Hp & Hr & Hv).
  - intros p Hp. injection Hp as <-. repeat constructor.
  - exists file, rules. split; [exact Hp|]. split; [exact Hr|]. rewrite !Hv. split; reflexivity.
Defined.

Definition shop_rate : RateLimitPolicyInput := MkRateLimitPolicy "r1" "shop" true 20 1 40 0 "/".
Lemma rate_zones_declared_witness :
  exists e policy, rh_ZoneName e = "site_shop_req" /\ rh_Rate e = formatRate (r_Requests policy) (r_WindowSeconds policy).
Proof.
  destruct (proj1 (rate_zones_declared {["shop" := shop_rate]} [Samples.shop]) Samples.shop ltac:(left) eq_refl)
    as (e & policy & _ & _ & Hz & _ & Hr). by exists e, policy.
Defined.

Definition shop_config : TLSConfigInput := MkTLSConfig "t1" "shop" "c1" true.
Definition shop_certificate : CertificateInput := MkCertificate "c1" "shop" "/etc/waf/tls/materials/c1.crt" "/etc/waf/tls/materials/c1.key".
Lemma tls_files_own_certificate_witness :
  exists arts cert, RenderTLSArtifacts [Samples.shop] [shop_config] [shop_certificate] = Ok arts /\ c_SiteID cert = "shop" /\
    (newArtifact "tls/shop.conf" ArtifactKindTLSRef (tls_refs_text (c_StorageRef cert) (c_PrivateKeyRef cert)) ∈ arts).
Proof.
  destruct (RenderTLSArtifacts [Samples.shop] [shop_config] [shop_certificate]) as [arts|] eqn:E; [|discriminate].
  destruct (tls_files_own_certificate [Samples.shop] [shop_config] [shop_certificate] arts Samples.shop E ltac:(left) eq_refl eq_refl)
    as (config & cert & _ & _ & Hc & _ & _ & Hin). by exists arts, cert.
Defined.

(** One certificate for two HTTPS sites is refused: a certificate belongs to one site. *)
Example shared_certificate :
  RenderTLSArtifacts [Samples.shop; with_aliases [] (MkSite "api" "" true "api.example" [] false true "u" true false Samples.no_mtls false false)]
    [shop_config; MkTLSConfig "t2" "api" "c1" true] [shop_certificate] = Err "site api certificate c1 belongs to site shop".
Proof. reflexivity. Qed.
