(* ===== verification/Easy.v ===== *)
(** * The settings of a site as the compiler sees them (compiler/internal/compiler: easy.go,
    easy_runtime_profiles.go, easy_runtime_auth_extended.go, easy_runtime_helpers_auth_limits.go,
    easy_geo_timewindow.go, easy_ws_inspection.go)

    The profile of a site with its normalisation and its security mode, who may sign in at the gate
    in front of a site, and the snippets for time windows and WebSocket inspection. *)
From Stdlib Require Import ZArith QArith Lia Ascii String.
From stdpp Require Import base tactics gmap strings list.
From S2P Require Import Prelude GoTime GoText GoCodec GoNet GoSeq Factors Bundle Inputs Patterns Render.
Local Set Warnings "-clear-no-such-hyp".
Local Open Scope string_scope.
Local Open Scope Z_scope.
Local Notation "a +++ b" := (@app _ a b) (at level 60, right associativity).

(** ** The profile (types.go) *)
Record EasyProfileInput := MkEasyProfile {
  e_SiteID : string;
  e_SecurityMode : string;
  e_AllowedMethods : list string;
  e_MaxClientSize : string;
  e_ReferrerPolicy : string;
  e_ContentSecurityPolicy : string;
  e_PermissionsPolicy : list string;
  e_HSTSEnabled : bool;
  e_HSTSMaxAgeSeconds : Z;
  e_HSTSIncludeSubdomains : bool;
  e_HSTSPreload : bool;
  e_UseCORS : bool;
  e_CORSAllowedOrigins : list string;
  e_ReverseProxyCustomHost : string;
  e_ReverseProxySSLSNI : bool;
  e_ReverseProxySSLSNIName : string;
  e_ReverseProxyWebsocket : bool;
  e_ReverseProxyKeepalive : bool;
  e_PassHostHeader : bool;
  e_SendXForwardedFor : bool;
  e_SendXForwardedProto : bool;
  e_SendXRealIP : bool;
  e_UseAuthBasic : bool;
  e_AuthMode : string;
  e_AuthOrder : string;
  e_AuthBasicUser : string;
  e_AuthBasicPassword : string;
  e_AuthBasicText : string;
  e_AuthBasicTemplate : string;
  e_AuthUsers : list ServiceAuthUserInput;
  e_AuthServiceTokens : list ServiceAuthTokenInput;
  e_AuthExclusionRules : list AuthExclusionRuleInput;
  e_AuthSessionTTLMin : Z;
  e_AntibotChallenge : string;
  e_AntibotChallengeTemplate : string;
  e_AntibotURI : string;
  e_AntibotSessionTTLMin : Z;
  e_AntibotScannerAutoBan : bool;
  e_AntibotRecaptchaScore : Q;
  e_AntibotRecaptchaKey : string;
  e_AntibotHcaptchaKey : string;
  e_AntibotTurnstileKey : string;
  e_AntibotCookieName : string;
  e_AntibotCookieValue : string;
  e_AntibotExclusionRules : list AntibotExclusionRuleInput;
  e_ChallengeEscalationEnabled : bool;
  e_ChallengeEscalationMode : string;
  e_AntibotChallengeRules : list AntibotChallengeRuleInput;
  e_UseLimitConn : bool;
  e_LimitConnMaxHTTP1 : Z;
  e_LimitConnMaxHTTP2 : Z;
  e_LimitConnMaxHTTP3 : Z;
  e_UseLimitReq : bool;
  e_LimitReqURL : string;
  e_LimitReqRate : string;
  e_CustomLimitRules : list CustomRateLimitRuleInput;
  e_UseBadBehavior : bool;
  e_BadBehaviorStatusCodes : list Z;
  e_BadBehaviorBanTimeSeconds : Z;
  e_BlacklistIP : list string;
  e_BlacklistUserAgent : list string;
  e_BlacklistURI : list string;
  e_BlacklistJA3 : list string;
  e_BlacklistJA3URLs : list string;
  e_ExceptionsURI : list string;
  e_BlacklistCountry : list string;
  e_WhitelistCountry : list string;
  e_AllowLocalCountryIPs : bool;
  e_ShowGeoBlockPage : bool;
  e_GeoTimeWindows : list GeoTimeWindowInput;
  e_UseModSecurity : bool;
  e_UseModSecurityCRSPlugins : bool;
  e_UseModSecurityCustomConfiguration : bool;
  e_ModSecurityCRSVersion : string;
  e_ModSecurityCRSPlugins : list string;
  e_ModSecurityExclusionRules : list ModSecurityExclusionRuleInput;
  e_ModSecurityCustomPath : string;
  e_ModSecurityCustomContent : string;
  e_CookieFlags : string;
  e_KeepUpstreamHeaders : list string;
  e_UseAPIPositiveSecurity : bool;
  e_OpenAPISchemaRef : string;
  e_APIEnforcementMode : string;
  e_APIDefaultAction : string;
  e_APIEndpointPolicies : list APIPositiveEndpointPolicyInput;
  e_HttpStrictParsing : bool;
  e_HealthCheckEnabled : bool;
  e_HealthCheckPath : string;
  e_HealthCheckIntervalSeconds : Z;
  e_HealthCheckFailThreshold : Z;
  e_WSInspection : WSInspectionInput;
  e_MTLS : MTLSInput;
  e_UpstreamMTLS : UpstreamMTLSInput;
  e_VirtualPatches : list VirtualPatchInput;
  e_UseCustomErrorPages : bool;
  e_DisabledErrorPages : list string
}.

(** ** Checks on text (easy_directive_validation.go) *)
Definition validateEasyDirectiveInputs (p : EasyProfileInput) : result unit :=
  validateNginxPathPattern (e_LimitReqURL p) "limit_req_url" true;;
  check_each (fun v => validateNginxPathPattern v "blacklist URI pattern" false) (e_BlacklistURI p);;
  check_each (fun v => validateNginxPathPattern v "exception URI pattern" true) (e_ExceptionsURI p);;
  check_each (fun r => validateNginxPathPattern (xr_Path r) "auth exclusion path" true) (e_AuthExclusionRules p).

(** ** Normal form (easy_runtime_profiles.go) *)
Definition default_methods : list string := ["GET"; "POST"; "HEAD"; "OPTIONS"; "PUT"; "PATCH"; "DELETE"].
Definition methods_or_default (methods : list string) : list string :=
  match methods with [] => default_methods | _ => methods end.
Definition text_or (fallback s : string) : string := if is_empty s then fallback else s.
Definition rooted_uri (uri : string) : string := if has_prefix "/" uri then uri else "/" ++ uri.

Definition session_minutes (minutes : Z) : Z :=
  let minutes := if minutes <? -1 then -1 else minutes in
  let minutes := if minutes =? 0 then 60 else minutes in
  if 1440 <? minutes then 1440 else minutes.

Definition security_mode (mode : string) : string :=
  if mem (lower_trim mode) ["block"; "monitor"; "transparent"] then lower_trim mode else "block".

Definition normalizeAuthUsers (values : list ServiceAuthUserInput) : list ServiceAuthUserInput :=
  dedupe_by (fun u => to_lower (au_Username u)) []
    (List.filter (fun u => negb (is_empty (au_Username u)))
      ((fun u => MkServiceUser (trim_space (au_Username u)) (trim_space (au_Password u)) (au_Enabled u)
                   (trim_space (au_LastLoginAt u))) <$> values)).

(** The single user of older settings stands for a list of one. *)
Definition gate_users (users : list ServiceAuthUserInput) (user password : string) : list ServiceAuthUserInput :=
  match normalizeAuthUsers users with
  | [] => if is_empty user then [] else [MkServiceUser user password true ""]
  | users => users
  end.

Definition joinCompilerInts (values : list Z) : string := join "," (itoa <$> values).
Definition normalizeCompilerPositiveInts (values : list Z) : list Z :=
  sorted_ints (List.filter (fun v => 0 <? v) values).

Definition normal_exclusion (item : ModSecurityExclusionRuleInput) : ModSecurityExclusionRuleInput :=
  let methods := sortedUniqueUpper (me_Methods item) in
  MkModSecExempt (trim_space (me_Path item)) (trim_space (me_PathPattern item))
    (if Nat.eqb (length methods) 0 || mem "*" methods then ["*"] else methods)
    (text_or "exact" (lower_trim (me_Mode item))) (normalizeCompilerPositiveInts (me_RuleIDs item))
    (sortedUnique (me_Targets item)) (trim_space (me_Comment item)).

Definition exclusion_key (r : ModSecurityExclusionRuleInput) : string :=
  to_lower (me_Path r) ++ nul ++ me_PathPattern r ++ nul ++ me_Mode r ++ nul ++ join "," (me_Methods r) ++ nul ++
  joinCompilerInts (me_RuleIDs r) ++ nul ++ join "," (me_Targets r).

Definition normalizeCompilerModSecurityExclusionRules (value : list ModSecurityExclusionRuleInput)
  : list ModSecurityExclusionRuleInput := dedupe_by exclusion_key [] (normal_exclusion <$> value).

Definition normal_endpoint (policy : APIPositiveEndpointPolicyInput) : APIPositiveEndpointPolicyInput :=
  MkEndpoint (trim_space (ap_Path policy)) (sortedUniqueUpper (ap_Methods policy)) (sortedUnique (ap_TokenIDs policy))
    (lower_trim <$> sortedUnique (ap_ContentTypes policy)) (lower_trim (ap_Mode policy)).

Section Profiles.
Context `{Regexps}.

(** The assignments of the loop of [buildEasyProfileBySite], without the last one. *)
Definition normal_profile (p : EasyProfileInput) : EasyProfileInput :=
  let user := trim_space (e_AuthBasicUser p) in
  let password := trim_space (e_AuthBasicPassword p) in
  let users := gate_users (e_AuthUsers p) user password in
  {| e_SiteID := e_SiteID p;
     e_SecurityMode := security_mode (e_SecurityMode p);
     e_AllowedMethods := methods_or_default (sortedUnique (e_AllowedMethods p));
     e_MaxClientSize := text_or "100m" (trim_space (e_MaxClientSize p));
     e_ReferrerPolicy := trim_space (e_ReferrerPolicy p);
     e_ContentSecurityPolicy := trim_space (e_ContentSecurityPolicy p);
     e_PermissionsPolicy := sortedUnique (e_PermissionsPolicy p);
     e_HSTSEnabled := e_HSTSEnabled p;
     e_HSTSMaxAgeSeconds := if e_HSTSMaxAgeSeconds p <=? 0 then 15552000 else e_HSTSMaxAgeSeconds p;
     e_HSTSIncludeSubdomains := e_HSTSIncludeSubdomains p; e_HSTSPreload := e_HSTSPreload p;
     e_UseCORS := e_UseCORS p;
     e_CORSAllowedOrigins := sortedUnique (e_CORSAllowedOrigins p);
     e_ReverseProxyCustomHost := trim_space (e_ReverseProxyCustomHost p);
     e_ReverseProxySSLSNI := e_ReverseProxySSLSNI p;
     e_ReverseProxySSLSNIName := trim_space (e_ReverseProxySSLSNIName p);
     e_ReverseProxyWebsocket := e_ReverseProxyWebsocket p; e_ReverseProxyKeepalive := e_ReverseProxyKeepalive p;
     e_PassHostHeader := e_PassHostHeader p; e_SendXForwardedFor := e_SendXForwardedFor p;
     e_SendXForwardedProto := e_SendXForwardedProto p; e_SendXRealIP := e_SendXRealIP p;
     e_UseAuthBasic := e_UseAuthBasic p; e_AuthMode := e_AuthMode p; e_AuthOrder := e_AuthOrder p;
     e_AuthBasicUser := match users, user with u :: _, "" => au_Username u | _, _ => user end;
     e_AuthBasicPassword := match users, user with u :: _, "" => au_Password u | _, _ => password end;
     e_AuthBasicText := text_or "Restricted area" (trim_space (e_AuthBasicText p));
     e_AuthBasicTemplate := e_AuthBasicTemplate p;
     e_AuthUsers := users;
     e_AuthServiceTokens := e_AuthServiceTokens p; e_AuthExclusionRules := e_AuthExclusionRules p;
     e_AuthSessionTTLMin := session_minutes (e_AuthSessionTTLMin p);
     e_AntibotChallenge := text_or "no" (lower_trim (e_AntibotChallenge p));
     e_AntibotChallengeTemplate := e_AntibotChallengeTemplate p;
     e_AntibotURI := rooted_uri (text_or "/challenge" (trim_space (e_AntibotURI p)));
     e_AntibotSessionTTLMin := e_AntibotSessionTTLMin p; e_AntibotScannerAutoBan := e_AntibotScannerAutoBan p;
     e_AntibotRecaptchaScore := e_AntibotRecaptchaScore p; e_AntibotRecaptchaKey := e_AntibotRecaptchaKey p;
     e_AntibotHcaptchaKey := e_AntibotHcaptchaKey p; e_AntibotTurnstileKey := e_AntibotTurnstileKey p;
     e_AntibotCookieName := e_AntibotCookieName p; e_AntibotCookieValue := e_AntibotCookieValue p;
     e_AntibotExclusionRules := normalizeCompilerAntibotExclusionRules (e_AntibotExclusionRules p);
     e_ChallengeEscalationEnabled := e_ChallengeEscalationEnabled p;
     e_ChallengeEscalationMode := text_or "javascript" (lower_trim (e_ChallengeEscalationMode p));
     e_AntibotChallengeRules := normalizeCompilerAntibotRules (e_AntibotChallengeRules p);
     e_UseLimitConn := e_UseLimitConn p; e_LimitConnMaxHTTP1 := e_LimitConnMaxHTTP1 p;
     e_LimitConnMaxHTTP2 := e_LimitConnMaxHTTP2 p; e_LimitConnMaxHTTP3 := e_LimitConnMaxHTTP3 p;
     e_UseLimitReq := e_UseLimitReq p; e_LimitReqURL := e_LimitReqURL p; e_LimitReqRate := e_LimitReqRate p;
     e_CustomLimitRules := e_CustomLimitRules p; e_UseBadBehavior := e_UseBadBehavior p;
     e_BadBehaviorStatusCodes := e_BadBehaviorStatusCodes p;
     e_BadBehaviorBanTimeSeconds := if e_BadBehaviorBanTimeSeconds p <? 0 then 0 else e_BadBehaviorBanTimeSeconds p;
     e_BlacklistIP := sortedUnique (e_BlacklistIP p);
     e_BlacklistUserAgent := sortedUnique (e_BlacklistUserAgent p);
     e_BlacklistURI := normalizeBlacklistURIPatterns (sortedUnique (e_BlacklistURI p));
     e_BlacklistJA3 := sortedUnique (e_BlacklistJA3 p);
     e_BlacklistJA3URLs := e_BlacklistJA3URLs p; e_ExceptionsURI := e_ExceptionsURI p;
     e_BlacklistCountry := sortedUniqueUpper (e_BlacklistCountry p);
     e_WhitelistCountry := sortedUniqueUpper (e_WhitelistCountry p);
     e_AllowLocalCountryIPs := e_AllowLocalCountryIPs p; e_ShowGeoBlockPage := e_ShowGeoBlockPage p;
     e_GeoTimeWindows := e_GeoTimeWindows p; e_UseModSecurity := e_UseModSecurity p;
     e_UseModSecurityCRSPlugins := e_UseModSecurityCRSPlugins p;
     e_UseModSecurityCustomConfiguration := e_UseModSecurityCustomConfiguration p;
     e_ModSecurityCRSVersion := text_or "4" (trim_space (e_ModSecurityCRSVersion p));
     e_ModSecurityCRSPlugins := sortedUnique (e_ModSecurityCRSPlugins p);
     e_ModSecurityExclusionRules := normalizeCompilerModSecurityExclusionRules (e_ModSecurityExclusionRules p);
     e_ModSecurityCustomPath := text_or "modsec/anomaly_score.conf" (trim_space (e_ModSecurityCustomPath p));
     e_ModSecurityCustomContent := trim_space (e_ModSecurityCustomContent p);
     e_CookieFlags := e_CookieFlags p; e_KeepUpstreamHeaders := e_KeepUpstreamHeaders p;
     e_UseAPIPositiveSecurity := e_UseAPIPositiveSecurity p;
     e_OpenAPISchemaRef := trim_space (e_OpenAPISchemaRef p);
     e_APIEnforcementMode := text_or "monitor" (lower_trim (e_APIEnforcementMode p));
     e_APIDefaultAction := text_or "allow" (lower_trim (e_APIDefaultAction p));
     e_APIEndpointPolicies := normal_endpoint <$> e_APIEndpointPolicies p;
     e_HttpStrictParsing := e_HttpStrictParsing p; e_HealthCheckEnabled := e_HealthCheckEnabled p;
     e_HealthCheckPath := e_HealthCheckPath p; e_HealthCheckIntervalSeconds := e_HealthCheckIntervalSeconds p;
     e_HealthCheckFailThreshold := e_HealthCheckFailThreshold p; e_WSInspection := e_WSInspection p;
     e_MTLS := e_MTLS p; e_UpstreamMTLS := e_UpstreamMTLS p; e_VirtualPatches := e_VirtualPatches p;
     e_UseCustomErrorPages := e_UseCustomErrorPages p; e_DisabledErrorPages := e_DisabledErrorPages p |}.
End Profiles.

(** "monitor" switches enforcement off, "transparent" switches ModSecurity off too. *)
Definition applySecurityModePolicy (p : EasyProfileInput) : EasyProfileInput :=
  let off := String.eqb (lower_trim (e_SecurityMode p)) "transparent" in
  let quiet := off || String.eqb (lower_trim (e_SecurityMode p)) "monitor" in
  {| e_SiteID := e_SiteID p; e_SecurityMode := e_SecurityMode p; e_AllowedMethods := e_AllowedMethods p;
     e_MaxClientSize := e_MaxClientSize p; e_ReferrerPolicy := e_ReferrerPolicy p;
     e_ContentSecurityPolicy := e_ContentSecurityPolicy p; e_PermissionsPolicy := e_PermissionsPolicy p;
     e_HSTSEnabled := e_HSTSEnabled p; e_HSTSMaxAgeSeconds := e_HSTSMaxAgeSeconds p;
     e_HSTSIncludeSubdomains := e_HSTSIncludeSubdomains p; e_HSTSPreload := e_HSTSPreload p;
     e_UseCORS := e_UseCORS p; e_CORSAllowedOrigins := e_CORSAllowedOrigins p;
     e_ReverseProxyCustomHost := e_ReverseProxyCustomHost p; e_ReverseProxySSLSNI := e_ReverseProxySSLSNI p;
     e_ReverseProxySSLSNIName := e_ReverseProxySSLSNIName p;
     e_ReverseProxyWebsocket := e_ReverseProxyWebsocket p; e_ReverseProxyKeepalive := e_ReverseProxyKeepalive p;
     e_PassHostHeader := e_PassHostHeader p; e_SendXForwardedFor := e_SendXForwardedFor p;
     e_SendXForwardedProto := e_SendXForwardedProto p; e_SendXRealIP := e_SendXRealIP p;
     e_UseAuthBasic := if quiet then false else e_UseAuthBasic p;
     e_AuthMode := e_AuthMode p; e_AuthOrder := e_AuthOrder p; e_AuthBasicUser := e_AuthBasicUser p;
     e_AuthBasicPassword := e_AuthBasicPassword p; e_AuthBasicText := e_AuthBasicText p;
     e_AuthBasicTemplate := e_AuthBasicTemplate p; e_AuthUsers := e_AuthUsers p;
     e_AuthServiceTokens := e_AuthServiceTokens p; e_AuthExclusionRules := e_AuthExclusionRules p;
     e_AuthSessionTTLMin := e_AuthSessionTTLMin p;
     e_AntibotChallenge := if quiet then "no" else e_AntibotChallenge p;
     e_AntibotChallengeTemplate := e_AntibotChallengeTemplate p; e_AntibotURI := e_AntibotURI p;
     e_AntibotSessionTTLMin := e_AntibotSessionTTLMin p;
     e_AntibotScannerAutoBan := if quiet then false else e_AntibotScannerAutoBan p;
     e_AntibotRecaptchaScore := e_AntibotRecaptchaScore p; e_AntibotRecaptchaKey := e_AntibotRecaptchaKey p;
     e_AntibotHcaptchaKey := e_AntibotHcaptchaKey p; e_AntibotTurnstileKey := e_AntibotTurnstileKey p;
     e_AntibotCookieName := e_AntibotCookieName p; e_AntibotCookieValue := e_AntibotCookieValue p;
     e_AntibotExclusionRules := if quiet then [] else e_AntibotExclusionRules p;
     e_ChallengeEscalationEnabled := if quiet then false else e_ChallengeEscalationEnabled p;
     e_ChallengeEscalationMode := if quiet then "no" else e_ChallengeEscalationMode p;
     e_AntibotChallengeRules := if quiet then [] else e_AntibotChallengeRules p;
     e_UseLimitConn := if quiet then false else e_UseLimitConn p;
     e_LimitConnMaxHTTP1 := e_LimitConnMaxHTTP1 p; e_LimitConnMaxHTTP2 := e_LimitConnMaxHTTP2 p;
     e_LimitConnMaxHTTP3 := e_LimitConnMaxHTTP3 p;
     e_UseLimitReq := if quiet then false else e_UseLimitReq p;
     e_LimitReqURL := e_LimitReqURL p; e_LimitReqRate := e_LimitReqRate p;
     e_CustomLimitRules := if quiet then [] else e_CustomLimitRules p;
     e_UseBadBehavior := if quiet then false else e_UseBadBehavior p;
     e_BadBehaviorStatusCodes := if quiet then [] else e_BadBehaviorStatusCodes p;
     e_BadBehaviorBanTimeSeconds := if quiet then 0 else e_BadBehaviorBanTimeSeconds p;
     e_BlacklistIP := if quiet then [] else e_BlacklistIP p;
     e_BlacklistUserAgent := if quiet then [] else e_BlacklistUserAgent p;
     e_BlacklistURI := if quiet then [] else e_BlacklistURI p;
     e_BlacklistJA3 := if quiet then [] else e_BlacklistJA3 p;
     e_BlacklistJA3URLs := e_BlacklistJA3URLs p; e_ExceptionsURI := e_ExceptionsURI p;
     e_BlacklistCountry := if quiet then [] else e_BlacklistCountry p;
     e_WhitelistCountry := if quiet then [] else e_WhitelistCountry p;
     e_AllowLocalCountryIPs := e_AllowLocalCountryIPs p; e_ShowGeoBlockPage := e_ShowGeoBlockPage p;
     e_GeoTimeWindows := e_GeoTimeWindows p;
     e_UseModSecurity := if off then false else e_UseModSecurity p;
     e_UseModSecurityCRSPlugins := if off then false else e_UseModSecurityCRSPlugins p;
     e_UseModSecurityCustomConfiguration := if off then false else e_UseModSecurityCustomConfiguration p;
     e_ModSecurityCRSVersion := e_ModSecurityCRSVersion p; e_ModSecurityCRSPlugins := e_ModSecurityCRSPlugins p;
     e_ModSecurityExclusionRules := if off then [] else e_ModSecurityExclusionRules p;
     e_ModSecurityCustomPath := e_ModSecurityCustomPath p;
     e_ModSecurityCustomContent := e_ModSecurityCustomContent p; e_CookieFlags := e_CookieFlags p;
     e_KeepUpstreamHeaders := e_KeepUpstreamHeaders p;
     e_UseAPIPositiveSecurity := if off then false else e_UseAPIPositiveSecurity p;
     e_OpenAPISchemaRef := e_OpenAPISchemaRef p; e_APIEnforcementMode := e_APIEnforcementMode p;
     e_APIDefaultAction := e_APIDefaultAction p; e_APIEndpointPolicies := e_APIEndpointPolicies p;
     e_HttpStrictParsing := e_HttpStrictParsing p; e_HealthCheckEnabled := e_HealthCheckEnabled p;
     e_HealthCheckPath := e_HealthCheckPath p; e_HealthCheckIntervalSeconds := e_HealthCheckIntervalSeconds p;
     e_HealthCheckFailThreshold := e_HealthCheckFailThreshold p; e_WSInspection := e_WSInspection p;
     e_MTLS := e_MTLS p; e_UpstreamMTLS := e_UpstreamMTLS p; e_VirtualPatches := e_VirtualPatches p;
     e_UseCustomErrorPages := e_UseCustomErrorPages p; e_DisabledErrorPages := e_DisabledErrorPages p |}.

(** The zero value of the struct, and the profile of a site that has none (easy_runtime_site_artifacts.go). *)
Definition zero_profile : EasyProfileInput :=
  MkEasyProfile "" "" [] "" "" "" [] false 0 false false false [] "" false "" false false false false false
    false false "" "" "" "" "" "" [] [] [] 0 "" "" "" 0 false 0%Q "" "" "" "" "" [] false "" [] false 0 0 0
    false "" "" [] false [] 0 [] [] [] [] [] [] [] [] false false [] false false false "" [] [] "" "" "" []
    false "" "" "" [] false false "" 0 0 (MkWSInspection false [] 0 0) (MkMTLS false false 0 "" false)
    (MkUpstreamMTLS false "" "" "") [] false [].

Definition authModeBasic : string := "basic".
Definition authModeServiceToken : string := "service_token".
Definition authModeBasicOrToken : string := "basic_or_token".
Definition authOrderAuthFirst : string := "auth_first".

Definition defaultEasyProfileForSite (siteID : string) : EasyProfileInput :=
  {| e_SiteID := siteID;
     e_SecurityMode := "block";
     e_AllowedMethods := default_methods;
     e_MaxClientSize := "100m";
     e_ReferrerPolicy := e_ReferrerPolicy zero_profile;
     e_ContentSecurityPolicy := e_ContentSecurityPolicy zero_profile;
     e_PermissionsPolicy := e_PermissionsPolicy zero_profile; e_HSTSEnabled := e_HSTSEnabled zero_profile;
     e_HSTSMaxAgeSeconds := e_HSTSMaxAgeSeconds zero_profile;
     e_HSTSIncludeSubdomains := e_HSTSIncludeSubdomains zero_profile;
     e_HSTSPreload := e_HSTSPreload zero_profile; e_UseCORS := e_UseCORS zero_profile;
     e_CORSAllowedOrigins := e_CORSAllowedOrigins zero_profile;
     e_ReverseProxyCustomHost := e_ReverseProxyCustomHost zero_profile;
     e_ReverseProxySSLSNI := e_ReverseProxySSLSNI zero_profile;
     e_ReverseProxySSLSNIName := e_ReverseProxySSLSNIName zero_profile;
     e_ReverseProxyWebsocket := e_ReverseProxyWebsocket zero_profile;
     e_ReverseProxyKeepalive := e_ReverseProxyKeepalive zero_profile;
     e_PassHostHeader := true;
     e_SendXForwardedFor := true;
     e_SendXForwardedProto := true;
     e_SendXRealIP := false;
     e_UseAuthBasic := e_UseAuthBasic zero_profile;
     e_AuthMode := authModeBasic;
     e_AuthOrder := authOrderAuthFirst;
     e_AuthBasicUser := e_AuthBasicUser zero_profile; e_AuthBasicPassword := e_AuthBasicPassword zero_profile;
     e_AuthBasicText := e_AuthBasicText zero_profile; e_AuthBasicTemplate := e_AuthBasicTemplate zero_profile;
     e_AuthUsers := e_AuthUsers zero_profile; e_AuthServiceTokens := e_AuthServiceTokens zero_profile;
     e_AuthExclusionRules := e_AuthExclusionRules zero_profile;
     e_AuthSessionTTLMin := e_AuthSessionTTLMin zero_profile;
     e_AntibotChallenge := e_AntibotChallenge zero_profile;
     e_AntibotChallengeTemplate := e_AntibotChallengeTemplate zero_profile;
     e_AntibotURI := e_AntibotURI zero_profile; e_AntibotSessionTTLMin := e_AntibotSessionTTLMin zero_profile;
     e_AntibotScannerAutoBan := true;
     e_AntibotRecaptchaScore := e_AntibotRecaptchaScore zero_profile;
     e_AntibotRecaptchaKey := e_AntibotRecaptchaKey zero_profile;
     e_AntibotHcaptchaKey := e_AntibotHcaptchaKey zero_profile;
     e_AntibotTurnstileKey := e_AntibotTurnstileKey zero_profile;
     e_AntibotCookieName := e_AntibotCookieName zero_profile;
     e_AntibotCookieValue := e_AntibotCookieValue zero_profile;
     e_AntibotExclusionRules := e_AntibotExclusionRules zero_profile;
     e_ChallengeEscalationEnabled := e_ChallengeEscalationEnabled zero_profile;
     e_ChallengeEscalationMode := e_ChallengeEscalationMode zero_profile;
     e_AntibotChallengeRules := e_AntibotChallengeRules zero_profile;
     e_UseLimitConn := true;
     e_LimitConnMaxHTTP1 := 200;
     e_LimitConnMaxHTTP2 := e_LimitConnMaxHTTP2 zero_profile;
     e_LimitConnMaxHTTP3 := e_LimitConnMaxHTTP3 zero_profile;
     e_UseLimitReq := true;
     e_LimitReqURL := e_LimitReqURL zero_profile;
     e_LimitReqRate := "100r/s";
     e_CustomLimitRules := e_CustomLimitRules zero_profile;
     e_UseBadBehavior := true;
     e_BadBehaviorStatusCodes := [400; 401; 403; 404; 405; 429; 444];
     e_BadBehaviorBanTimeSeconds := 30;
     e_BlacklistIP := e_BlacklistIP zero_profile; e_BlacklistUserAgent := e_BlacklistUserAgent zero_profile;
     e_BlacklistURI := e_BlacklistURI zero_profile; e_BlacklistJA3 := e_BlacklistJA3 zero_profile;
     e_BlacklistJA3URLs := e_BlacklistJA3URLs zero_profile; e_ExceptionsURI := e_ExceptionsURI zero_profile;
     e_BlacklistCountry := e_BlacklistCountry zero_profile;
     e_WhitelistCountry := e_WhitelistCountry zero_profile;
     e_AllowLocalCountryIPs := e_AllowLocalCountryIPs zero_profile;
     e_ShowGeoBlockPage := e_ShowGeoBlockPage zero_profile; e_GeoTimeWindows := e_GeoTimeWindows zero_profile;
     e_UseModSecurity := true;
     e_UseModSecurityCRSPlugins := true;
     e_UseModSecurityCustomConfiguration := e_UseModSecurityCustomConfiguration zero_profile;
     e_ModSecurityCRSVersion := e_ModSecurityCRSVersion zero_profile;
     e_ModSecurityCRSPlugins := e_ModSecurityCRSPlugins zero_profile;
     e_ModSecurityExclusionRules := e_ModSecurityExclusionRules zero_profile;
     e_ModSecurityCustomPath := e_ModSecurityCustomPath zero_profile;
     e_ModSecurityCustomContent := e_ModSecurityCustomContent zero_profile;
     e_CookieFlags := e_CookieFlags zero_profile; e_KeepUpstreamHeaders := e_KeepUpstreamHeaders zero_profile;
     e_UseAPIPositiveSecurity := e_UseAPIPositiveSecurity zero_profile;
     e_OpenAPISchemaRef := e_OpenAPISchemaRef zero_profile;
     e_APIEnforcementMode := e_APIEnforcementMode zero_profile;
     e_APIDefaultAction := e_APIDefaultAction zero_profile;
     e_APIEndpointPolicies := e_APIEndpointPolicies zero_profile;
     e_HttpStrictParsing := e_HttpStrictParsing zero_profile;
     e_HealthCheckEnabled := e_HealthCheckEnabled zero_profile;
     e_HealthCheckPath := e_HealthCheckPath zero_profile;
     e_HealthCheckIntervalSeconds := e_HealthCheckIntervalSeconds zero_profile;
     e_HealthCheckFailThreshold := e_HealthCheckFailThreshold zero_profile;
     e_WSInspection := e_WSInspection zero_profile; e_MTLS := e_MTLS zero_profile;
     e_UpstreamMTLS := e_UpstreamMTLS zero_profile; e_VirtualPatches := e_VirtualPatches zero_profile;
     e_UseCustomErrorPages := e_UseCustomErrorPages zero_profile;
     e_DisabledErrorPages := e_DisabledErrorPages zero_profile |}.

Section Index.
Context `{Regexps}.

Definition easy_profile_checks (p : EasyProfileInput) : result EasyProfileInput :=
  let siteID := trim_space (e_SiteID p) in
  reject_if (is_empty siteID) "easy profile site id is required";;
  wrap_error ("easy profile " ++ siteID ++ " mTLS: ") (ValidateMTLS (e_MTLS p));;
  wrap_error ("easy profile " ++ siteID ++ " upstream mTLS: ") (ValidateUpstreamMTLS (e_UpstreamMTLS p));;
  wrap_error ("easy profile " ++ siteID ++ ": ") (validateEasyDirectiveInputs p);;
  Ok (applySecurityModePolicy (normal_profile p)).

Definition buildEasyProfileBySite (profiles : list EasyProfileInput) : result (gmap string EasyProfileInput) :=
  index_by easy_profile_checks (fun p => trim_space (e_SiteID p)) ∅ profiles.
End Index.

(** ** Who may sign in (easy_runtime_auth_extended.go, easy_runtime_helpers_auth_limits.go,
    easy_auth_template.go) *)
Definition normalizeCompilerAuthMode (value : string) : string :=
  if mem (lower_trim value) [authModeServiceToken; authModeBasicOrToken] then lower_trim value else authModeBasic.
Definition normalizeCompilerAuthOrder (value : string) : string :=
  if String.eqb (lower_trim value) "antibot_first" then "antibot_first" else authOrderAuthFirst.
Definition normalizeAuthBasicTemplate (value : string) : string :=
  if mem (lower_trim value) ["v2"; "v3"; "v4"; "v5"; "v6"; "v7"; "v8"; "v9"] then lower_trim value else "v1".

Definition enabledAuthUsers (values : list ServiceAuthUserInput) : list ServiceAuthUserInput :=
  List.filter (fun u => au_Enabled u && negb (is_blank (au_Password u))) (normalizeAuthUsers values).

Definition enabledAuthServiceTokens (values : list ServiceAuthTokenInput) : list ServiceAuthTokenInput :=
  sort_on (fun t => to_lower (at_ServiceName t))
    (dedupe_by (fun t => to_lower (at_ServiceName t)) []
      (List.filter (fun t => negb (is_empty (at_ServiceName t)) && negb (is_empty (at_Token t)) && at_Enabled t)
        ((fun t => MkAuthToken (trim_space (at_ServiceName t)) (trim_space (at_Token t)) (at_Enabled t)
                     (trim_space (at_LastUsedAt t))) <$> values))).

Record easyAuthTokenRuleData := MkTokenRule { ServiceGuard : string; BearerGuard : string }.

Definition trim_quotes : string -> string := trim_of (fun c => Ascii.eqb c (ascii_of_nat 34)).
Definition token_rule (value : ServiceAuthTokenInput) : easyAuthTokenRuleData :=
  let serviceName := trim_quotes (quoted (trim_space (at_ServiceName value))) in
  let token := trim_quotes (quoted (trim_space (at_Token value))) in
  MkTokenRule (serviceName ++ "|" ++ token) (serviceName ++ "|Bearer " ++ token).
Definition buildEasyAuthTokenRuleData (values : list ServiceAuthTokenInput) : list easyAuthTokenRuleData :=
  token_rule <$> values.

Definition shortStableHash (value : string) : string := hex_string (take_chars 6 (sha1_sum (trim_space value))).

Definition buildSHA1HTPasswdLine (user password : string) : string :=
  user ++ ":{SHA}" ++ base64 false true (sha1_sum password) ++ newline.

Definition authGateLoginURI : string := "/auth".
Definition authGateVerifyBasicURI : string := "/auth/verify/basic".
Definition authGateVerifyTokenURI : string := "/auth/verify/token".
Definition authGateCookieName (siteID : string) : string := "waf_auth_" ++ shortStableHash siteID.

Definition authGateCookieValue (siteID : string) (p : EasyProfileInput) : string :=
  shortStableHash (join "|"
    ([siteID; e_AuthMode p; e_AuthOrder p; e_AuthBasicText p; itoa (e_AuthSessionTTLMin p)] +++
     ((fun u => trim_space (au_Username u) ++ ":" ++ trim_space (au_Password u)) <$> enabledAuthUsers (e_AuthUsers p)) +++
     ((fun t => trim_space (at_ServiceName t) ++ ":" ++ trim_space (at_Token t)) <$>
      enabledAuthServiceTokens (e_AuthServiceTokens p)))).

Definition authGateCookieTTLSeconds (p : EasyProfileInput) : Z :=
  let minutes := e_AuthSessionTTLMin p in
  if minutes <? 0 then -1 else if minutes =? 0 then 3600 else minutes * 60.

(** "Permanent" lifetimes are the largest 32-bit number of seconds. *)
Definition rateLimitBanSeconds (p : EasyProfileInput) : Z :=
  if negb (e_UseBadBehavior p) || negb (mem_int 429 (e_BadBehaviorStatusCodes p)) then 0
  else if e_BadBehaviorBanTimeSeconds p =? 0 then 2147483647
  else if e_BadBehaviorBanTimeSeconds p <? 0 then 0
  else e_BadBehaviorBanTimeSeconds p.

Definition antibotCookieName (siteID : string) : string := "waf_antibot_" ++ shortStableHash siteID.
Definition antibotStage1CookieName (siteID : string) : string := "waf_antibot_s1_" ++ shortStableHash siteID.
Definition antibotCookieTTLSeconds (p : EasyProfileInput) : Z :=
  let minutes := e_AntibotSessionTTLMin p in
  if minutes <? 0 then 2147483647 else if minutes =? 0 then 600 else wrap64 (minutes * 60).
Definition antibotCookieValue (siteID : string) (p : EasyProfileInput) : string :=
  shortStableHash (join "|" [siteID; e_AntibotChallenge p; e_AntibotURI p; e_AntibotRecaptchaKey p;
                             e_AntibotHcaptchaKey p; e_AntibotTurnstileKey p]).
Definition antibotStage1CookieValue (siteID : string) (p : EasyProfileInput) : string :=
  shortStableHash (join "|" [siteID; e_AntibotChallenge p; e_AntibotURI p; e_ChallengeEscalationMode p]).

Definition toQuotedList (values : list string) : string := join " " (quoted <$> values).

Definition buildHSTSHeaderValue (p : EasyProfileInput) : string :=
  if negb (e_HSTSEnabled p) then ""
  else
    let maxAge := if e_HSTSMaxAgeSeconds p <=? 0 then 15552000 else e_HSTSMaxAgeSeconds p in
    join "; " (["max-age=" ++ itoa maxAge] +++ (if e_HSTSIncludeSubdomains p then ["includeSubDomains"] else []) +++
               (if e_HSTSPreload p then ["preload"] else [])).

(** ** Time windows for countries (easy_geo_timewindow.go) *)
Definition in_quotes (s : string) : string := dquote ++ s ++ dquote.

Definition two_capitals (s : string) : bool := Nat.eqb (String.length s) 2 && all_chars is_upper s.

Definition ValidateGeoTimeWindow (w : GeoTimeWindowInput) : result unit :=
  reject_if (negb (String.eqb (gw_Action w) "block") && negb (String.eqb (gw_Action w) "allow"))
    ("geo_time_window: action must be " ++ in_quotes "block" ++ " or " ++ in_quotes "allow" ++ ", got " ++ quoted (gw_Action w));;
  reject_if ((gw_HoursStart w <? 0) || (23 <? gw_HoursStart w))
    ("geo_time_window: hours_start must be 0-23, got " ++ itoa (gw_HoursStart w));;
  reject_if ((gw_HoursEnd w <? 0) || (23 <? gw_HoursEnd w))
    ("geo_time_window: hours_end must be 0-23, got " ++ itoa (gw_HoursEnd w));;
  reject_if (gw_HoursEnd w <=? gw_HoursStart w)
    ("geo_time_window: hours_start (" ++ itoa (gw_HoursStart w) ++ ") must be less than hours_end (" ++
     itoa (gw_HoursEnd w) ++ ")");;
  check_each (fun d => reject_if ((d <? 0) || (6 <? d)) ("geo_time_window: days_of_week value must be 0-6, got " ++ itoa d))
    (gw_DaysOfWeek w);;
  check_each (fun c => reject_if (negb (two_capitals (upper_trim c))) ("geo_time_window: invalid country code " ++ quoted c))
    (gw_Countries w).

Definition normal_window (w : GeoTimeWindowInput) : option GeoTimeWindowInput :=
  if negb (is_ok (ValidateGeoTimeWindow w)) then None
  else
    let countries := sorted_set upper_trim (gw_Countries w) in
    match countries with
    | [] => None
    | _ => Some (MkWindow countries (gw_Action w) (sort_on id (gw_DaysOfWeek w)) (gw_HoursStart w) (gw_HoursEnd w))
    end.

Definition normalizeGeoTimeWindows (windows : list GeoTimeWindowInput) : list GeoTimeWindowInput :=
  omap normal_window windows.

Definition hour_var (siteID : string) : string := "$waf_geo_" ++ slugSiteID siteID ++ "_hour".
Definition window_var (siteID : string) (i : nat) (suffix : string) : string :=
  "$waf_geo_tw_" ++ slugSiteID siteID ++ "_" ++ itoa (Z.of_nat i) ++ "_" ++ suffix.

Definition country_map_text (siteID : string) (i : nat) (w : GeoTimeWindowInput) : string :=
  line ("map $waf_country_code " ++ window_var siteID i "country" ++ " {") ++ line "    default 0;" ++
  String.concat "" ((fun c => line ("    " ++ in_quotes c ++ " 1;")) <$> gw_Countries w) ++ line "}" ++ newline.

Definition hours (first : Z) (count : nat) : list Z := (fun k => first + Z.of_nat k) <$> seq 0 count.

Definition buildGeoTimeWindowHttpConf (siteID : string) (windows : list GeoTimeWindowInput) : string :=
  let windows := normalizeGeoTimeWindows windows in
  match windows with
  | [] => ""
  | _ =>
      line ("map $time_iso8601 " ++ hour_var siteID ++ " {") ++ line ("    default " ++ in_quotes "-" ++ ";") ++
      String.concat "" ((fun h => line ("    ~^\d{4}-\d{2}-\d{2}T" ++ pad2 h ++ " " ++ in_quotes (pad2 h) ++ ";")) <$>
                        hours 0 24) ++ line "}" ++ newline ++
      String.concat "" (imap (country_map_text siteID) windows)
  end.

Definition hour_pattern (w : GeoTimeWindowInput) : string :=
  "^(?:" ++ join "|" (pad2 <$> hours (gw_HoursStart w) (Z.to_nat (gw_HoursEnd w - gw_HoursStart w))) ++ ")$".

Definition window_guard_text (siteID exceptionVar : string) (i : nat) (w : GeoTimeWindowInput) : string :=
  let countryVar := window_var siteID i "country" in
  let activeVar := window_var siteID i "active" in
  let guardVar := window_var siteID i "guard" in
  line ("set " ++ activeVar ++ " 0;") ++ line ("if (" ++ countryVar ++ " = 1) {") ++
  line ("    if (" ++ hour_var siteID ++ " ~ " ++ in_quotes (hour_pattern w) ++ ") {") ++
  line ("        set " ++ activeVar ++ " 1;") ++ line "    }" ++ line "}" ++
  (if String.eqb (gw_Action w) "block"
   then line ("set " ++ guardVar ++ " " ++
              in_quotes ("${" ++ trim_prefix "$" exceptionVar ++ "}:${" ++ trim_prefix "$" activeVar ++ "}") ++ ";") ++
        line ("if (" ++ guardVar ++ " = " ++ in_quotes "0:1" ++ ") { return 403; }")
   else "") ++ newline.

Definition buildGeoTimeWindowServerSnippet (siteID : string) (windows : list GeoTimeWindowInput) (exceptionVar : string)
  : string :=
  let windows := normalizeGeoTimeWindows windows in
  match windows with
  | [] => ""
  | _ => line "# geo time-window enforcement" ++ String.concat "" (imap (window_guard_text siteID exceptionVar) windows)
  end.

(** ** WebSocket inspection (easy_ws_inspection.go) *)
Definition normalizeWSBlockPatterns (patterns : list string) : list string :=
  dedupe_by id [] (List.filter (fun p => negb (is_empty p)) (trim_space <$> patterns)).

Definition ValidateWSInspection `{Regexps} (input : WSInspectionInput) : result unit :=
  match list_find (fun p => is_Some (regexp_error p)) (WSBlockPatterns input) with
  | Some (i, p) => Err ("ws_block_patterns[" ++ itoa (Z.of_nat i) ++ "] " ++ quoted p ++ ": " ++ default "" (regexp_error p))
  | None => Ok tt
  end.

(** The switch, the patterns and the two limits, when there is anything to inspect. *)
Definition ws_settings (input : WSInspectionInput) : option (list string * Z * Z) :=
  let patterns := normalizeWSBlockPatterns (WSBlockPatterns input) in
  if negb (UseWSInspection input) then None
  else if Nat.eqb (length patterns) 0 && negb (0 <? WSMaxMessageBytes input) && negb (0 <? WSRateMsgPerSec input) then None
  else Some (patterns, Z.max 0 (WSMaxMessageBytes input), Z.max 0 (WSRateMsgPerSec input)).

Definition lua_table (indent close : string) (patterns : list string) : string :=
  match patterns with
  | [] => "{}"
  | _ => "{" ++ newline ++ join ("," ++ newline) ((fun p => indent ++ quoted p) <$> patterns) ++ newline ++ close ++ "}"
  end.

Definition buildWSInspectionServerSnippet (siteID : string) (input : WSInspectionInput) : string :=
  match ws_settings input with
  | None => ""
  | Some (patterns, maxBytes, rateLimit) =>
      newline ++ line ("  # WebSocket inspection for site " ++ siteID) ++ line "  access_by_lua_block {" ++
      line ("    local wsi = require(" ++ in_quotes "waf.ws_inspection" ++ ")") ++ line "    wsi.check({" ++
      line ("      block_patterns = " ++ lua_table "    " "  " patterns ++ ",") ++
      line ("      max_message_bytes = " ++ itoa maxBytes ++ ",") ++
      line ("      rate_msg_per_sec = " ++ itoa rateLimit ++ ",") ++ line "    })" ++ line "  }"
  end.

Definition buildWSInspectionLocationSnippet (siteID : string) (input : WSInspectionInput) : string :=
  match ws_settings input with
  | None => ""
  | Some (patterns, maxBytes, rateLimit) =>
      newline ++ line ("    # WebSocket frame inspection for site " ++ siteID) ++ line "    header_filter_by_lua_block {" ++
      line ("      local wsi = require(" ++ in_quotes "waf.ws_inspection" ++ ")") ++ line "      wsi.on_upgrade({" ++
      line ("        block_patterns = " ++ lua_table "      " "    " patterns ++ ",") ++
      line ("        max_message_bytes = " ++ itoa maxBytes ++ ",") ++
      line ("        rate_msg_per_sec = " ++ itoa rateLimit ++ ",") ++ line "      })" ++ line "    }"
  end.

(** ** The users of the gate *)

(** The file of a site: one line per user, and a blank line between them. *)
Definition htpasswd_text (users : list ServiceAuthUserInput) : string :=
  join newline ((fun u => buildSHA1HTPasswdLine (au_Username u) (au_Password u)) <$> users).

(** How nginx reads it: names up to a colon, the first line of a name counts. *)
Definition htpasswd_entries (text : string) : list (string * string) :=
  omap (cut_at ":") (split_on (ascii_of_nat 10) text).
Definition htpasswd_admits (text user password : string) : bool :=
  match find_where (fun e => String.eqb e.1 user) (htpasswd_entries text) with
  | Some (_, (_, hash)) => String.eqb hash ("{SHA}" ++ base64 false true (sha1_sum password))
  | None => false
  end.

Definition name_char (c : ascii) : bool := negb (Ascii.eqb c ":") && negb (Ascii.eqb c (ascii_of_nat 10)).

Lemma padding_not_digit :
  all_below (fun n => bool_decide (base64_value false (base64_char false n) = Some n) &&
    (negb (Ascii.eqb (base64_char false n) "=") && name_char (base64_char false n))) 64 0 = true.
Proof. vm_compute. done. Qed.

Definition digit_text (s : string) : bool := all_chars (fun c => negb (Ascii.eqb c "=") && name_char c) s.

Lemma base64_digits s : digit_text (base64 false false s) = true.
Proof.
  unfold base64. rewrite string_app_nil. apply (values_of_chars _ _ _ 64 padding_not_digit).
  apply (encode_bounds base64_codec), codecs_ok.
Qed.

Lemma trim_padding s n : digit_text s = true -> trim_right_of (fun c => Ascii.eqb c "=") (s ++ padding n) = s.
Proof.
  intros Hs. induction s as [|c s IH].
  - unfold padding. by repeat case_match.
  - apply andb_true_iff in Hs as [[Hc%negb_true_iff _]%andb_true_iff Hs].
    change (trim_right_of ?p (String c s ++ ?t)) with
      (match trim_right_of p (s ++ t) with EmptyString => if p c then "" else String c "" | r => String c r end).
    rewrite IH by done. destruct s; [by rewrite Hc | done].
Qed.

(** The standard encoding determines the text. *)
Lemma base64_std_inj a b : base64 false true a = base64 false true b -> a = b.
Proof.
  intros E. assert (Hpad : forall s, base64 false true s = base64 false false s ++ padding (String.length s))
    by (intros s; unfold base64; by rewrite string_app_nil).
  rewrite !Hpad in E. apply (f_equal (trim_right_of (fun c => Ascii.eqb c "="))) in E.
  rewrite !trim_padding in E by apply base64_digits.
  apply (f_equal base64_raw_decode) in E. rewrite !base64_roundtrip in E. congruence.
Qed.

Lemma hash_one_line s : all_chars name_char ("{SHA}" ++ base64 false true s) = true.
Proof.
  rewrite all_chars_app. unfold base64. rewrite all_chars_app. cbn [all_chars]. rewrite !andb_true_iff. repeat split; try done.
  - pose proof (base64_digits s) as Hd. unfold base64 in Hd. rewrite string_app_nil in Hd.
    revert Hd. apply all_chars_impl. by intros c [_ ?]%andb_true_iff.
  - unfold padding. by repeat case_match.
Qed.

Lemma cut_name user rest : all_chars name_char user = true -> cut_at ":" (user ++ String ":" rest) = Some (user, rest).
Proof.
  induction user as [|c user IH]; [done|]. intros [[Hc%negb_true_iff _]%andb_true_iff Hu]%andb_true_iff.
  change (cut_at ":" (String c (user ++ String ":" rest)) = Some (String c user, rest)). cbn [cut_at]. by rewrite Hc, IH.
Qed.

Definition entry_of (u : ServiceAuthUserInput) : string * string :=
  (au_Username u, "{SHA}" ++ base64 false true (sha1_sum (au_Password u))).

Definition plain_names (users : list ServiceAuthUserInput) : Prop :=
  Forall (fun u => all_chars name_char (au_Username u) = true) users.

Lemma htpasswd_read users : plain_names users -> htpasswd_entries (htpasswd_text users) = entry_of <$> users.
Proof.
  assert (Hline : forall u rest, all_chars name_char (au_Username u) = true ->
    omap (cut_at ":") (split_on (ascii_of_nat 10) (buildSHA1HTPasswdLine (au_Username u) (au_Password u) ++ rest)) =
    entry_of u :: omap (cut_at ":") (split_on (ascii_of_nat 10) rest)).
  { intros u rest Hu. unfold buildSHA1HTPasswdLine.
    set (hash := "{SHA}" ++ base64 false true (sha1_sum (au_Password u))).
    replace ((au_Username u ++ ":{SHA}" ++ base64 false true (sha1_sum (au_Password u)) ++ newline) ++ rest) with
      ((au_Username u ++ String ":" hash) ++ String (ascii_of_nat 10) rest)
      by (subst hash; rewrite !string_app_assoc; reflexivity).
    rewrite split_on_app.
    2:{ pose proof (hash_one_line (sha1_sum (au_Password u))) as Hh. fold hash in Hh.
        rewrite all_chars_app. cbn [all_chars]. apply andb_true_iff; split.
        - revert Hu. apply all_chars_impl. by intros c [_ ?]%andb_true_iff.
        - apply andb_true_iff; split; [done|]. revert Hh. apply all_chars_impl. by intros c [_ ?]%andb_true_iff. }
    cbn [omap list_omap]. by rewrite cut_name. }
  unfold htpasswd_entries, htpasswd_text. induction 1 as [|u users Hu Hus IH]; [done|].
  destruct users as [|v users].
  - cbn [fmap list_fmap join]. rewrite <- (string_app_nil (buildSHA1HTPasswdLine _ _)). by rewrite Hline.
  - cbn [fmap list_fmap join] in *. rewrite Hline by done.
    change (newline ++ ?s) with (String (ascii_of_nat 10) s). change (split_on (ascii_of_nat 10) (String (ascii_of_nat 10) ?s))
      with ("" :: split_on (ascii_of_nat 10) s). cbn [omap list_omap cut_at]. by rewrite IH.
Qed.

Lemma enabled_users_distinct users : NoDup (au_Username <$> enabledAuthUsers users).
Proof.
  unfold enabledAuthUsers, normalizeAuthUsers.
  match goal with |- context [dedupe_by ?k [] ?l] => pose proof (dedupe_by_nodup k l) as Hn; revert Hn; generalize (dedupe_by k [] l) end.
  intros l Hn. apply (NoDup_fmap_1 to_lower). rewrite <- list_fmap_compose.
  induction l as [|u l IH]; [done|]. cbn in Hn. apply NoDup_cons in Hn as [Hu Hl]. cbn [List.filter].
  destruct (_ && _); [|by apply IH]. cbn. apply NoDup_cons. split; [|by apply IH].
  intros (v & E & Hv)%list_elem_of_fmap. apply Hu. rewrite E. apply list_elem_of_fmap. exists v. split; [done|].
  apply list_elem_of_In in Hv. apply list_elem_of_In. by apply filter_In in Hv as [Hv _].
Qed.

Lemma same_name_same_user l u v : NoDup (au_Username <$> l) -> u ∈ l -> v ∈ l -> au_Username u = au_Username v -> u = v.
Proof.
  intros Hn Hu Hv E. destruct (find_key_unique au_Username l u Hn Hu) as [i Hi].
  destruct (find_key_unique au_Username l v Hn Hv) as [j Hj]. rewrite E in Hi. congruence.
Qed.

(** The password file of the sign-in gate admits exactly the configured users.  Read back, the
    file written for the users of a profile lets a name in with a password just when an enabled user
    has that name (spelled alike) and a password with the same SHA-1 digest; disabled users and users
    without a password are not in it. *)
Theorem gate_admits_enabled_users (users : list ServiceAuthUserInput) (user password : string) :
  plain_names (enabledAuthUsers users) ->
  htpasswd_admits (htpasswd_text (enabledAuthUsers users)) user password = true <->
  exists u, u ∈ enabledAuthUsers users /\ au_Username u = user /\ sha1_sum (au_Password u) = sha1_sum password.
Proof.
  intros Hp. unfold htpasswd_admits. rewrite htpasswd_read by done.
  pose proof (enabled_users_distinct users) as Hn. revert Hn. clear Hp. generalize (enabledAuthUsers users). intros l Hn.
  destruct (find_where _ (entry_of <$> l)) as [[i [name hash]]|] eqn:Ef.
  - apply find_where_elem in Ef as [(u & [= -> ->] & Hu)%list_elem_of_fmap Eu%String.eqb_eq]. cbn [fst] in Eu.
    rewrite String.eqb_eq. split.
    + intros E. exists u. split; [done|]. split; [done|]. apply base64_std_inj. injection E as E. exact E.
    + intros (v & Hv & Hname & Hsum). replace v with u in Hsum by (apply (same_name_same_user l); [done..|]; congruence). by rewrite Hsum.
  - split; [discriminate|]. intros (u & Hu & Hname & _).
    pose proof (proj1 (find_where_None _ _) Ef (entry_of u) (list_elem_of_fmap_2 _ _ _ Hu)) as E.
    assert (Et : String.eqb (entry_of u).1 user = true) by (apply String.eqb_eq; exact Hname). cbv beta in E. congruence.
Qed.

(** ** What the time windows refuse *)
Definition window_hours (w : GeoTimeWindowInput) : list Z := hours (gw_HoursStart w) (Z.to_nat (gw_HoursEnd w - gw_HoursStart w)).
Definition hours_rx (w : GeoTimeWindowInput) : rx := words_rx (pad2 <$> window_hours w).

(** The variables of a window in a request: the country map, the hour match, and the guard "0:1". *)
Definition window_active (w : GeoTimeWindowInput) (country : string) (hour : Z) : bool :=
  mem country (gw_Countries w) && search false (hours_rx w) (pad2 hour).
Definition window_refuses (w : GeoTimeWindowInput) (exempt : bool) (country : string) (hour : Z) : bool :=
  String.eqb (gw_Action w) "block" && negb exempt && window_active w country hour.

Lemma elem_of_hours first count h : h ∈ hours first count <-> first <= h < first + Z.of_nat count.
Proof.
  unfold hours. rewrite list_elem_of_fmap. setoid_rewrite list_elem_of_In. setoid_rewrite in_seq. split.
  - intros (i & -> & Hi). lia.
  - intros Hh. exists (Z.to_nat (h - first)). lia.
Qed.

Lemma pad2_checked :
  all_below (fun n => no_special (pad2 n) && one_line (pad2 n) &&
    bool_decide (take2 (pad2 n) = Some (n, ""))) 24 0 = true.
Proof. vm_compute. done. Qed.

Lemma pad2_inj a b : 0 <= a < 24 -> 0 <= b < 24 -> pad2 a = pad2 b -> a = b.
Proof.
  intros Ha Hb E.
  pose proof (all_below_spec _ _ _ a pad2_checked ltac:(lia)) as [_ Ea%bool_decide_eq_true]%andb_true_iff.
  pose proof (all_below_spec _ _ _ b pad2_checked ltac:(lia)) as [_ Eb%bool_decide_eq_true]%andb_true_iff.
  rewrite E in Ea. congruence.
Qed.

Lemma valid_window w : is_ok (ValidateGeoTimeWindow w) = true ->
  0 <= gw_HoursStart w /\ gw_HoursStart w < gw_HoursEnd w <= 23.
Proof.
  unfold ValidateGeoTimeWindow. unbind. unfold reject_if.
  destruct (negb _ && negb _); [discriminate|].
  destruct (_ || _) eqn:E1; [discriminate|]. destruct ((gw_HoursEnd w <? 0) || _) eqn:E2; [discriminate|].
  destruct (_ <=? _) eqn:E3; [discriminate|]. intros _. lia.
Qed.

Lemma hour_pattern_text w : is_ok (ValidateGeoTimeWindow w) = true -> hour_pattern w = print (hours_rx w).
Proof.
  intros [H0 H23]%valid_window. unfold hour_pattern, hours_rx. rewrite words_rx_text, quoted_words; [done|].
  apply Forall_fmap, Forall_forall. intros h Hh%elem_of_hours. unfold compose.
  pose proof (all_below_spec _ _ _ h pad2_checked ltac:(lia)) as [[E _]%andb_true_iff _]%andb_true_iff. exact E.
Qed.

Lemma hours_match w hour : is_ok (ValidateGeoTimeWindow w) = true -> 0 <= hour < 24 ->
  search false (hours_rx w) (pad2 hour) = true <-> gw_HoursStart w <= hour < gw_HoursEnd w.
Proof.
  intros Hw Hh. pose proof (valid_window _ Hw) as Hv. unfold hours_rx.
  pose proof (all_below_spec _ _ _ hour pad2_checked ltac:(lia)) as [[_ E]%andb_true_iff _]%andb_true_iff.
  rewrite words_rx_matches, mem_spec, list_elem_of_fmap by exact E. unfold window_hours. split.
  - intros (h & Ep & Hin%elem_of_hours). apply pad2_inj in Ep; lia.
  - intros Hr. exists hour. split; [done|]. apply elem_of_hours. lia.
Qed.

Definition window_covers (w : GeoTimeWindowInput) (country : string) (hour : Z) : Prop :=
  gw_Action w = "block" /\ country ∈ upper_trim <$> gw_Countries w /\ gw_HoursStart w <= hour < gw_HoursEnd w.

Lemma normal_window_spec w n : normal_window w = Some n ->
  is_ok (ValidateGeoTimeWindow w) = true /\ gw_Action n = gw_Action w /\ gw_HoursStart n = gw_HoursStart w /\
  gw_HoursEnd n = gw_HoursEnd w /\ gw_Countries n = sorted_set upper_trim (gw_Countries w).
Proof.
  unfold normal_window. destruct (is_ok _); [|discriminate]. cbn [negb].
  destruct (sorted_set _ _); [discriminate|]. by intros [= <-].
Qed.

Lemma normal_window_none w country : is_ok (ValidateGeoTimeWindow w) = true -> normal_window w = None ->
  country <> "" -> country ∉ upper_trim <$> gw_Countries w.
Proof.
  intros Hw. unfold normal_window. rewrite Hw. cbn [negb]. destruct (sorted_set _ _) eqn:E; [|discriminate].
  intros _ Hne (c & -> & Hc)%list_elem_of_fmap. assert (Hin : upper_trim c ∈ sorted_set upper_trim (gw_Countries w))
    by (apply elem_of_sorted_set; split; [done | by exists c]). rewrite E in Hin. by apply elem_of_nil in Hin.
Qed.

(** Time windows refuse what they say.  With the guards written for the windows of a site, a
    request is refused just when it has no exception and some valid blocking window lists its country
    (however it was spelled) and covers the hour of its time; the hour expression in the file is the
    one that decides.  In consequence no window reaches the last hour of a day. *)
Theorem geo_windows_refuse (windows : list GeoTimeWindowInput) (exempt : bool) (country : string) (hour : Z) :
  0 <= hour < 24 -> country <> "" ->
  (existsb (fun w => window_refuses w exempt country hour) (normalizeGeoTimeWindows windows) = true <->
   exempt = false /\ exists w, w ∈ windows /\ is_ok (ValidateGeoTimeWindow w) = true /\ window_covers w country hour) /\
  (forall w, w ∈ normalizeGeoTimeWindows windows -> hour_pattern w = print (hours_rx w)) /\
  (hour = 23 -> existsb (fun w => window_refuses w exempt country hour) (normalizeGeoTimeWindows windows) = false).
Proof.
  intros Hh Hc.
  assert (Hsame : forall w n, normal_window w = Some n -> hours_rx n = hours_rx w /\ hour_pattern n = hour_pattern w).
  { intros w n (_ & _ & Hs & He & _)%normal_window_spec. unfold hours_rx, window_hours, hour_pattern. by rewrite Hs, He. }
  assert (Hiff : existsb (fun w => window_refuses w exempt country hour) (normalizeGeoTimeWindows windows) = true <->
    exempt = false /\ exists w, w ∈ windows /\ is_ok (ValidateGeoTimeWindow w) = true /\ window_covers w country hour).
  { rewrite existsb_exists. split.
    - intros (n & Hn & Hr). apply list_elem_of_In, list_elem_of_omap in Hn as (w & Hw & En).
      destruct (Hsame _ _ En) as [Hrx _]. apply normal_window_spec in En as (Hok & Ha & Hs & He & Hco).
      unfold window_refuses, window_active in Hr. rewrite Hrx, Ha, Hco in Hr.
      apply andb_true_iff in Hr as [[Hb%String.eqb_eq Hx%negb_true_iff]%andb_true_iff [Hm%mem_spec Hsr]%andb_true_iff].
      split; [done|]. exists w. split; [done|]. split; [done|]. split; [done|]. split; [|by apply hours_match].
      apply elem_of_sorted_set in Hm as (_ & c & Hin & ->). by apply list_elem_of_fmap_2.
    - intros (-> & w & Hw & Hok & Ha & Hin & Hr). destruct (normal_window w) as [n|] eqn:En;
        [|by destruct (normal_window_none w country Hok En Hc)].
      exists n. split; [by apply list_elem_of_In, list_elem_of_omap; exists w|]. destruct (Hsame _ _ En) as [Hrx _].
      apply normal_window_spec in En as (_ & Ha' & _ & _ & Hco). unfold window_refuses, window_active.
      rewrite Hrx, Ha', Hco, Ha. apply andb_true_iff. split; [done|].
      apply andb_true_iff. split; [|by apply hours_match].
      apply mem_spec, elem_of_sorted_set. split; [done|]. by apply list_elem_of_fmap in Hin as (c & -> & Hcin); exists c. }
  split; [exact Hiff|]. split.
  - intros n Hn. apply list_elem_of_omap in Hn as (w & _ & En). destruct (Hsame _ _ En) as [-> ->].
    exact (hour_pattern_text _ (proj1 (normal_window_spec _ _ En))).
  - intros ->. apply not_true_iff_false. rewrite Hiff. intros (_ & w & _ & Hok & _ & _ & Hr).
    apply valid_window in Hok. lia.
Qed.

(** ** Examples *)
Module Samples.
Definition alice : ServiceAuthUserInput := MkServiceUser " alice " "s3cret" true "".
Definition bob : ServiceAuthUserInput := MkServiceUser "bob" "pw" false "".
Definition carol : ServiceAuthUserInput := MkServiceUser "carol" "tulip" true "".
Definition night : GeoTimeWindowInput := MkWindow ["ru "; "KP"] "block" [1; 2] 20 23.
Definition odd : GeoTimeWindowInput := MkWindow ["Russia"] "block" [] 0 23.
End Samples.

Lemma gate_admits_enabled_users_witness :
  enabledAuthUsers [Samples.alice; Samples.bob; Samples.carol] =
    [MkServiceUser "alice" "s3cret" true ""; MkServiceUser "carol" "tulip" true ""] /\
  htpasswd_admits (htpasswd_text (enabledAuthUsers [Samples.alice; Samples.bob; Samples.carol])) "carol" "tulip" = true /\
  htpasswd_admits (htpasswd_text (enabledAuthUsers [Samples.alice; Samples.bob; Samples.carol])) "bob" "pw" = false.
Proof.
  assert (Hp : plain_names (enabledAuthUsers [Samples.alice; Samples.bob; Samples.carol])) by (vm_compute; repeat constructor).
  split; [reflexivity|]. split.
  - apply (gate_admits_enabled_users [Samples.alice; Samples.bob; Samples.carol] "carol" "tulip" Hp).
    exists (MkServiceUser "carol" "tulip" true ""). split; [right; left | split; reflexivity].
  - apply not_true_iff_false. intros E.
    apply (gate_admits_enabled_users [Samples.alice; Samples.bob; Samples.carol] "bob" "pw" Hp) in E as (u & Hu & Hn & _).
    change (u ∈ [MkServiceUser "alice" "s3cret" true ""; MkServiceUser "carol" "tulip" true ""]) in Hu.
    repeat (apply elem_of_cons in Hu as [->|Hu]; [discriminate Hn|]). exact (proj1 (elem_of_nil u) Hu).
Defined.

Lemma geo_windows_refuse_witness :
  existsb (fun w => window_refuses w false "RU" 21) (normalizeGeoTimeWindows [Samples.odd; Samples.night]) = true /\
  existsb (fun w => window_refuses w false "RU" 23) (normalizeGeoTimeWindows [Samples.odd; Samples.night]) = false.
Proof.
  split.
  - refine (proj2 (proj1 (geo_windows_refuse [Samples.odd; Samples.night] false "RU" 21 _ _)) _); [lia | discriminate|].
    split; [reflexivity|]. exists Samples.night. split; [right; left|]. split; [reflexivity|].
    split; [reflexivity|]. split; [left | cbn; lia].
  - refine (proj2 (proj2 (geo_windows_refuse [Samples.odd; Samples.night] false "RU" 23 _ _)) _); [lia | discriminate | reflexivity].
Defined.

Example htpasswd_line : buildSHA1HTPasswdLine "bob" "password" = "bob:{SHA}W6ph5Mm5Pz8GgiULbPgzG37mj9g=" ++ newline.
Proof. vm_compute. reflexivity. Qed.

Example window_hours_text : hour_pattern Samples.night = "^(?:20|21|22)$".
Proof. reflexivity. Qed.
