(* ===== verification/EasyRules.v ===== *)
(** * ModSecurity rules of a site (compiler/internal/compiler: easy_runtime_modsecurity.go,
    easy_virtual_patches.go)

    The rules file written from a profile: engine mode, core rule set, exclusions, the positive
    model of an API, virtual patches.  Each builder gives the numbered lines it writes, so that the
    numbers ModSecurity requires to be unique can be spoken about. *)
From Stdlib Require Import ZArith Lia Ascii String.
From stdpp Require Import base tactics strings list.
From S2P Require Import Prelude GoText GoNet GoSeq Bundle Inputs Patterns Render Easy.
Local Set Warnings "-clear-no-such-hyp".
Local Open Scope string_scope.
Local Open Scope Z_scope.
Local Notation "a +++ b" := (@app _ a b) (at level 60, right associativity).

(** ** Lines with the rule number they declare *)
Record rule_line := MkLine { rule_id : option Z; rule_text : string }.
Definition plain_line (text : string) : rule_line := MkLine None text.
Definition texts (lines : list rule_line) : list string := rule_text <$> lines.
Definition rule_ids (lines : list rule_line) : list Z := omap rule_id lines.

Definition SecRule (variables operator actions : string) : string :=
  "SecRule " ++ variables ++ " " ++ in_quotes operator ++ " " ++ in_quotes actions.

(** ** Exclusions (easy_runtime_modsecurity.go) *)
Definition buildExclusionPathMatcher (rule : ModSecurityExclusionRuleInput) : string * string :=
  let mode := lower_trim (me_Mode rule) in
  if String.eqb mode "regex" then
    if is_blank (me_PathPattern rule) then ("", "") else (trim_space (me_PathPattern rule), "@rx")
  else
    let path := trim_space (me_Path rule) in
    if is_empty path then ("", "")
    else ("^" ++ QuoteMeta path ++ (if String.eqb mode "prefix" then "(?:$|/)" else "$"), "@rx").

Definition remove_rule (id : Z) : string := "ctl:ruleRemoveById=" ++ itoa id.

(** Removing the target REQUEST_URI alone does not suppress a path rule: the rule goes. *)
Definition exclusion_actions (rule : ModSecurityExclusionRuleInput) : list string :=
  "t:none" ::
  match me_Targets rule with
  | [] => remove_rule <$> me_RuleIDs rule
  | targets =>
      mjoin ((fun target =>
        (fun id => if equal_fold (trim_space target) "REQUEST_URI" then remove_rule id
                   else "ctl:ruleRemoveTargetById=" ++ itoa id ++ ";" ++ target) <$> me_RuleIDs rule) <$> targets)
  end.

Definition exclusion_lines (ruleID : Z) (rule : ModSecurityExclusionRuleInput) (matcher operator : string) : list rule_line :=
  [plain_line ("# exclusion_comment: " ++ trim_space (me_Comment rule));
   MkLine (Some ruleID) (SecRule "REQUEST_METHOD" ("@rx ^(?:" ++ join "|" (me_Methods rule) ++ ")$")
     ("id:" ++ itoa ruleID ++ ",phase:1,t:none,chain,pass,nolog"));
   plain_line (SecRule "REQUEST_URI" (operator ++ " " ++ matcher) (join "," (exclusion_actions rule)))].

Fixpoint exclusions_from (ruleID : Z) (rules : list ModSecurityExclusionRuleInput) : list rule_line :=
  match rules with
  | [] => []
  | rule :: rest =>
      let '(matcher, operator) := buildExclusionPathMatcher rule in
      if is_empty matcher then exclusions_from ruleID rest
      else exclusion_lines ruleID rule matcher operator +++ exclusions_from (ruleID + 1) rest
  end.

Definition modsecurity_exclusions (rules : list ModSecurityExclusionRuleInput) : list rule_line :=
  plain_line "# structured_exclusion_rules" :: exclusions_from 191000 rules.
Definition buildModSecurityExclusionRules (rules : list ModSecurityExclusionRuleInput) : list string :=
  texts (modsecurity_exclusions rules).

(** ** The positive model of an API *)
Definition quoteMetaList (values : list string) : list string :=
  QuoteMeta <$> List.filter (fun v => negb (is_empty v)) (trim_space <$> values).

Definition block_action (blocking : bool) : string := if blocking then "deny,status:403,log" else "pass,log".

Definition endpoint_blocking (blocking : bool) (mode : string) : bool :=
  if String.eqb (lower_trim mode) "block" then true
  else if String.eqb (lower_trim mode) "monitor" then false else blocking.

(** The second rules of the chains of a policy, one per list it gives. *)
Definition endpoint_checks (blocking : bool) (policy : APIPositiveEndpointPolicyInput) : list string :=
  let path := trim_space (ap_Path policy) in
  let tail what := "t:none," ++ block_action (endpoint_blocking blocking (ap_Mode policy)) ++
                   ",msg:'API positive security: " ++ what ++ " mismatch for " ++ path ++ "'" in
  let anyOf values := "(?:" ++ join "|" (quoteMetaList values) ++ ")" in
  (match ap_Methods policy with
   | [] => [] | methods => [SecRule "REQUEST_METHOD" ("!@within " ++ join " " methods) (tail "method")] end) +++
  (match ap_TokenIDs policy with
   | [] => []
   | ids => [SecRule "REQUEST_HEADERS:X-WAF-API-TOKEN-ID" ("!@rx ^" ++ anyOf ids ++ "$") (tail "token")] end) +++
  (match ap_ContentTypes policy with
   | [] => []
   | types => [SecRule "REQUEST_HEADERS:Content-Type" ("!@rx ^" ++ anyOf types ++ "(?:;|$)") (tail "content-type")] end).

Definition endpoint_scope (ruleID : Z) (path : string) : rule_line :=
  MkLine (Some ruleID) (SecRule "REQUEST_URI" ("@rx ^" ++ QuoteMeta path ++ "(?:$|/)")
    ("id:" ++ itoa ruleID ++ ",phase:1,t:none,chain,pass,nolog")).

Fixpoint endpoint_lines (ruleID : Z) (path : string) (checks : list string) : list rule_line :=
  match checks with
  | [] => []
  | check :: rest => endpoint_scope ruleID path :: plain_line check :: endpoint_lines (ruleID + 2) path rest
  end.

(** The loop over the policies: the lines so far and the next number. *)
Fixpoint endpoints_from (blocking : bool) (ruleID : Z) (policies : list APIPositiveEndpointPolicyInput)
  : list rule_line * Z :=
  match policies with
  | [] => ([], ruleID)
  | policy :: rest =>
      let path := trim_space (ap_Path policy) in
      if is_empty path then endpoints_from blocking ruleID rest
      else
        let checks := endpoint_checks blocking policy in
        let '(lines, next) := endpoints_from blocking (ruleID + 2 * Z.of_nat (length checks)) rest in
        (endpoint_lines ruleID path checks +++ lines, next)
  end.

Definition known_paths (policies : list APIPositiveEndpointPolicyInput) : list string :=
  QuoteMeta <$> List.filter (fun path => negb (is_empty path)) ((fun p => trim_space (ap_Path p)) <$> policies).

Definition api_positive (siteID schemaRef enforcementMode defaultAction : string)
    (policies : list APIPositiveEndpointPolicyInput) : list rule_line :=
  let blocking := String.eqb (lower_trim enforcementMode) "block" in
  let defaultDeny := String.eqb (lower_trim defaultAction) "deny" in
  let '(lines, ruleID) := endpoints_from blocking 190000 policies in
  [plain_line "# API Positive Security directives";
   plain_line ("# api_positive_site: " ++ siteID);
   plain_line ("# api_positive_schema_ref: " ++ trim_space schemaRef);
   plain_line ("# api_positive_enforcement_mode: " ++ trim_space enforcementMode);
   plain_line ("# api_positive_default_action: " ++ trim_space defaultAction)] +++ lines +++
  (if defaultDeny && negb (Nat.eqb (length (known_paths policies)) 0)
   then [MkLine (Some ruleID) (SecRule "REQUEST_URI" ("!@rx ^(?:" ++ join "|" (known_paths policies) ++ ")(?:$|/)")
           ("id:" ++ itoa ruleID ++ ",phase:1,t:none," ++ block_action blocking ++
            ",msg:'API positive security: unknown endpoint'"))]
   else []).

Definition buildAPIPositiveModSecurityRules (siteID schemaRef enforcementMode defaultAction : string)
    (policies : list APIPositiveEndpointPolicyInput) : list string :=
  texts (api_positive siteID schemaRef enforcementMode defaultAction policies).

(** ** Virtual patches (easy_virtual_patches.go) *)
Definition escapeModSecurityQuoted (value : string) : string :=
  replace_char (ascii_of_nat 34) ("\" ++ dquote) (replace_char "\" "\\" value).

Definition targetVariable (target : string) : string :=
  let target := lower_trim target in
  if String.eqb target "body" then "REQUEST_BODY"
  else if String.eqb target "header" then "REQUEST_HEADERS"
  else "REQUEST_URI".

Definition secRuleAction (action : string) (ruleID : Z) (patchID : string) : string :=
  "id:" ++ itoa ruleID ++ ",phase:2,t:none,log,msg:'Virtual patch " ++ replace_char "'" "\'" patchID ++ "'" ++
  (if String.eqb (lower_trim action) "block" then ",deny,status:403" else ",pass").

(** A byte below 0x20, or 0x7f. *)
Definition control_char (c : ascii) : bool := let n := N_of_ascii c in (n <? 32)%N || (n =? 127)%N.

Section Rules.
Context `{Regexps}.

Definition usable_patch (p : VirtualPatchInput) : bool :=
  let pattern := trim_space (vp_Pattern p) in
  negb (is_empty pattern) && negb (bool_decide (is_Some (regexp_error pattern))) && negb (any_char control_char pattern).

Definition patch_line (ruleID : Z) (p : VirtualPatchInput) : rule_line :=
  MkLine (Some ruleID) (SecRule (targetVariable (vp_Target p)) ("@rx " ++ escapeModSecurityQuoted (trim_space (vp_Pattern p)))
    (secRuleAction (vp_Action p) ruleID (vp_ID p))).

Fixpoint patches_from (ruleID : Z) (patches : list VirtualPatchInput) : list rule_line :=
  match patches with
  | [] => []
  | p :: rest => if usable_patch p then patch_line ruleID p :: patches_from (ruleID + 1) rest
                 else patches_from ruleID rest
  end.

Definition virtual_patches (patches : list VirtualPatchInput) : list rule_line :=
  match patches with [] => [] | _ => plain_line "# Virtual Patch rules" :: patches_from 200000 patches end.
Definition buildVirtualPatchModSecurityRules (patches : list VirtualPatchInput) : list string :=
  texts (virtual_patches patches).

(** ** The whole file *)
Definition engineDirective (securityMode : string) : string :=
  let mode := lower_trim securityMode in
  if String.eqb mode "monitor" then "SecRuleEngine DetectionOnly"
  else if String.eqb mode "transparent" then "SecRuleEngine Off"
  else "SecRuleEngine On".

Definition easy_rules (siteID securityMode : string) (useCRSPlugins : bool) (crsVersion : string) (plugins : list string)
    (exclusionRules : list ModSecurityExclusionRuleInput) (useCustomConfiguration : bool)
    (customPath customContent : string) (useAPIPositiveSecurity : bool)
    (openAPISchemaRef apiEnforcementMode apiDefaultAction : string)
    (apiEndpointPolicies : list APIPositiveEndpointPolicyInput) (virtualPatches : list VirtualPatchInput)
  : list rule_line :=
  (plain_line <$> ["# Easy ModSecurity directives"; "# site: " ++ siteID; "# security_mode: " ++ trim_space securityMode;
                   "# crs_version: " ++ trim_space crsVersion; engineDirective securityMode]) +++
  (if String.eqb (engineDirective securityMode) "SecRuleEngine Off" then []
   else plain_line <$> ["Include /etc/waf/modsecurity/crs-setup.conf";
                        "Include /etc/waf/modsecurity/coreruleset/rules/*.conf"]) +++
  (if useCRSPlugins && negb (Nat.eqb (length plugins) 0)
   then plain_line <$> ("# crs_plugins: " ++ join " " plugins) ::
          ((fun plugin => "Include /etc/waf/modsecurity/crs-overrides/" ++ trim_space plugin ++ ".conf") <$> plugins)
   else []) +++
  (match exclusionRules with [] => [] | _ => modsecurity_exclusions exclusionRules end) +++
  (if useCustomConfiguration && negb (is_blank customPath)
   then [plain_line ("# custom_path: " ++ trim_space customPath)] else []) +++
  (if useCustomConfiguration && negb (is_blank customContent) then [plain_line customContent] else []) +++
  (if useAPIPositiveSecurity
   then api_positive siteID openAPISchemaRef apiEnforcementMode apiDefaultAction apiEndpointPolicies else []) +++
  virtual_patches virtualPatches.

Definition buildEasyModSecurityRules (siteID securityMode : string) (useCRSPlugins : bool) (crsVersion : string)
    (plugins : list string) (exclusionRules : list ModSecurityExclusionRuleInput) (useCustomConfiguration : bool)
    (customPath customContent : string) (useAPIPositiveSecurity : bool)
    (openAPISchemaRef apiEnforcementMode apiDefaultAction : string)
    (apiEndpointPolicies : list APIPositiveEndpointPolicyInput) (virtualPatches : list VirtualPatchInput) : string :=
  join newline (texts (easy_rules siteID securityMode useCRSPlugins crsVersion plugins exclusionRules
    useCustomConfiguration customPath customContent useAPIPositiveSecurity openAPISchemaRef apiEnforcementMode
    apiDefaultAction apiEndpointPolicies virtualPatches)) ++ newline.
End Rules.

(** ** Rule numbers *)
Definition numbers (step first : Z) (count : nat) : list Z := (fun i => first + step * Z.of_nat i) <$> seq 0 count.

Lemma elem_of_numbers step first count z :
  z ∈ numbers step first count <-> exists i, (i < count)%nat /\ z = first + step * Z.of_nat i.
Proof.
  unfold numbers. rewrite list_elem_of_fmap. setoid_rewrite list_elem_of_In. setoid_rewrite in_seq.
  split; intros (i & Hi); exists i; lia.
Qed.

Lemma numbers_nodup step first count : 0 < step -> NoDup (numbers step first count).
Proof. intros Hs. apply NoDup_fmap_2_strong; [|apply NoDup_ListNoDup, seq_NoDup]. intros i j _ _. nia. Qed.

Lemma numbers_app step first a b :
  numbers step first (a + b) = numbers step first a +++ numbers step (first + step * Z.of_nat a) b.
Proof.
  unfold numbers. rewrite seq_app, fmap_app. replace (0 + a)%nat with (a + 0)%nat by lia.
  rewrite <- (fmap_add_seq a 0 b), <- list_fmap_compose.
  f_equal. apply list_fmap_ext. intros ? i _. unfold compose. lia.
Qed.

Lemma numbers_cons step first count : numbers step first (S count) = first :: numbers step (first + step) count.
Proof.
  change (S count) with (1 + count)%nat. rewrite numbers_app. cbn. f_equal; [lia|]. f_equal. lia.
Qed.

Lemma numbers_range step first count z : 0 < step -> z ∈ numbers step first count ->
  first <= z < first + step * Z.of_nat count.
Proof. intros Hs (i & Hi & ->)%elem_of_numbers. nia. Qed.

Lemma rule_ids_app a b : rule_ids (a +++ b) = rule_ids a +++ rule_ids b.
Proof. unfold rule_ids. apply omap_app. Qed.
Lemma rule_ids_plain l : rule_ids (plain_line <$> l) = [].
Proof. by induction l as [|x l IH]. Qed.

Lemma exclusions_numbers ruleID rules :
  exists count, (count <= length rules)%nat /\ rule_ids (exclusions_from ruleID rules) = numbers 1 ruleID count.
Proof.
  revert ruleID. induction rules as [|rule rules IH]; intros ruleID; [by exists 0%nat|].
  cbn [exclusions_from]. destruct (buildExclusionPathMatcher rule) as [matcher operator].
  destruct (is_empty matcher).
  - destruct (IH ruleID) as (count & Hc & ->). exists count. cbn; split; [lia | done].
  - destruct (IH (ruleID + 1)) as (count & Hc & E). exists (S count). split; [cbn; lia|].
    rewrite rule_ids_app, E, numbers_cons. done.
Qed.

Lemma endpoint_numbers ruleID path checks :
  rule_ids (endpoint_lines ruleID path checks) = numbers 2 ruleID (length checks).
Proof.
  revert ruleID. induction checks as [|check rest IH]; intros ruleID; [done|].
  cbn [length]. rewrite numbers_cons, <- IH. done.
Qed.

Lemma endpoint_checks_bound blocking policy : (length (endpoint_checks blocking policy) <= 3)%nat.
Proof.
  unfold endpoint_checks. destruct (ap_Methods policy), (ap_TokenIDs policy), (ap_ContentTypes policy); cbn; lia.
Qed.

Lemma endpoints_numbers blocking ruleID policies :
  exists count, (count <= 3 * length policies)%nat /\
    rule_ids (endpoints_from blocking ruleID policies).1 = numbers 2 ruleID count /\
    (endpoints_from blocking ruleID policies).2 = ruleID + 2 * Z.of_nat count.
Proof.
  revert ruleID. induction policies as [|p policies IH]; intros ruleID; [exists 0%nat; cbn; repeat split; lia|].
  cbn [endpoints_from]. destruct (is_empty _).
  - destruct (IH ruleID) as (count & Hc & E). exists count. split; [cbn; lia | exact E].
  - pose proof (endpoint_checks_bound blocking p). set (checks := endpoint_checks blocking p) in *.
    destruct (IH (ruleID + 2 * Z.of_nat (length checks))) as (count & Hc & E & En).
    destruct (endpoints_from _ _ policies) as [lines next]. cbn [fst snd] in *.
    exists (length checks + count)%nat. split; [cbn; lia|].
    rewrite rule_ids_app, endpoint_numbers, numbers_app, E. split; [done | lia].
Qed.

Lemma api_positive_numbers siteID schemaRef mode action policies :
  exists count, (count <= 3 * length policies + 1)%nat /\
    rule_ids (api_positive siteID schemaRef mode action policies) = numbers 2 190000 count.
Proof.
  unfold api_positive.
  destruct (endpoints_numbers (String.eqb (lower_trim mode) "block") 190000 policies) as (count & Hc & E & En).
  destruct (endpoints_from _ _ policies) as [lines next]. cbn [fst snd] in *. subst next.
  rewrite !rule_ids_app, E. change (rule_ids (_ :: _)) with (@nil Z). cbn [app]. destruct (_ && _).
  - exists (count + 1)%nat. split; [lia|]. rewrite numbers_app. cbn. do 2 f_equal. lia.
  - exists count. split; [lia|]. apply app_nil_r.
Qed.

Lemma patches_numbers `{Regexps} patches :
  exists count, (count <= length patches)%nat /\ rule_ids (virtual_patches patches) = numbers 1 200000 count.
Proof.
  assert (Hfrom : forall ruleID, exists count, (count <= length patches)%nat /\
    rule_ids (patches_from ruleID patches) = numbers 1 ruleID count).
  { induction patches as [|p patches IH]; intros ruleID; [by exists 0%nat|]. cbn [patches_from].
    destruct (usable_patch p).
    - destruct (IH (ruleID + 1)) as (count & Hc & E). exists (S count). split; [cbn; lia|].
      rewrite numbers_cons, <- E. done.
    - destruct (IH ruleID) as (count & Hc & E). exists count. cbn. split; [lia | done]. }
  destruct (Hfrom 200000) as (count & Hc & E). exists count. split; [done|]. by destruct patches.
Qed.


(** ** Reading a rule back *)

(** The rest of a quoted argument: a backslash keeps the next character as it is. *)
Fixpoint read_quoted (s : string) : option (string * string) :=
  match s with
  | EmptyString => None
  | String c rest =>
      if Ascii.eqb c (ascii_of_nat 34) then Some ("", rest)
      else if Ascii.eqb c "\" then
        match rest with
        | String d rest' => '(word, tail) ← read_quoted rest'; Some (String d word, tail)
        | EmptyString => None
        end
      else '(word, tail) ← read_quoted rest; Some (String c word, tail)
  end.

(** A line [SecRule variables "operator" "actions"]. *)
Definition read_rule (text : string) : option (string * string * string) :=
  if negb (has_prefix "SecRule " text) then None
  else
    '(variables, rest) ← cut_at " " (trim_prefix "SecRule " text);
    '(operator, rest) ← read_quoted (trim_prefix dquote rest);
    '(actions, rest) ← read_quoted (trim_prefix (" " ++ dquote) rest);
    if is_empty rest then Some (variables, operator, actions) else None.

Definition plain_text (s : string) : bool :=
  all_chars (fun c => negb (Ascii.eqb c (ascii_of_nat 34)) && negb (Ascii.eqb c "\")) s.

Lemma escape_cons c v : escapeModSecurityQuoted (String c v) =
  (if Ascii.eqb c "\" then "\\" else if Ascii.eqb c (ascii_of_nat 34) then "\" ++ dquote else String c "") ++
  escapeModSecurityQuoted v.
Proof.
  unfold escapeModSecurityQuoted. cbn [replace_char]. destruct (Ascii.eqb c "\") eqn:E; [reflexivity|].
  cbn [replace_char]. destruct (Ascii.eqb c (ascii_of_nat 34)); reflexivity.
Qed.

Lemma read_escaped v rest : read_quoted (escapeModSecurityQuoted v ++ dquote ++ rest) = Some (v, rest).
Proof.
  induction v as [|c v IH]; [done|]. rewrite escape_cons, string_app_assoc.
  destruct (Ascii.eqb_spec c "\"); [subst|destruct (Ascii.eqb_spec c (ascii_of_nat 34)); [subst|]].
  - match goal with |- read_quoted (_ ++ ?s) = _ =>
      change (('(w, t) ← read_quoted s; Some (String "\" w, t)) = Some (String "\" v, rest)) end.
    by rewrite IH.
  - match goal with |- read_quoted (_ ++ ?s) = _ =>
      change (('(w, t) ← read_quoted s; Some (String (ascii_of_nat 34) w, t)) = Some (String (ascii_of_nat 34) v, rest)) end.
    by rewrite IH.
  - match goal with |- read_quoted (_ ++ ?s) = _ => change (read_quoted (String c s) = Some (String c v, rest)) end.
    cbn [read_quoted]. rewrite (proj2 (Ascii.eqb_neq _ _)), (proj2 (Ascii.eqb_neq _ _)) by done. by rewrite IH.
Qed.

Lemma read_plain v rest : plain_text v = true -> read_quoted (v ++ dquote ++ rest) = Some (v, rest).
Proof.
  induction v as [|c v IH]; [done|]. intros [[Hq%negb_true_iff Hb%negb_true_iff]%andb_true_iff Hv]%andb_true_iff.
  change (read_quoted (String c (v ++ dquote ++ rest)) = Some (String c v, rest)). cbn [read_quoted].
  rewrite Hq, Hb. change (all_chars _ v = true) with (plain_text v = true) in Hv. by rewrite IH.
Qed.

Lemma plain_text_app a b : plain_text (a ++ b) = plain_text a && plain_text b.
Proof. apply all_chars_app. Qed.

Lemma digits_plain n : 0 <= n -> plain_text (itoa n) = true.
Proof.
  intros Hn. apply (all_chars_impl is_digit); [|by apply itoa_is_digits].
  intros [[] [] [] [] [] [] [] []]; cbn; try discriminate; reflexivity.
Qed.

Lemma identifier_plain s : all_chars identifier_char s = true ->
  plain_text s = true /\ replace_char "'" "\'" s = s.
Proof.
  intros Hs. split.
  - revert Hs. apply all_chars_impl. intros [[] [] [] [] [] [] [] []]; cbn; try discriminate; reflexivity.
  - induction s as [|c s IH]; [done|]. apply andb_true_iff in Hs as [Hc Hs]. cbn [replace_char]. rewrite IH by done.
    destruct (Ascii.eqb_spec c "'"); [subst; discriminate | done].
Qed.

(** The reading of a rule with two quoted arguments. *)
Lemma read_SecRule variables operator actions quoted_operator :
  all_chars (fun c => negb (Ascii.eqb c " ")) variables = true ->
  (forall rest, read_quoted (quoted_operator ++ dquote ++ rest) = Some (operator, rest)) ->
  plain_text actions = true ->
  read_rule (SecRule variables quoted_operator actions) = Some (variables, operator, actions).
Proof.
  intros Hv Ho Ha. unfold read_rule, SecRule. rewrite has_prefix_app. cbn [negb].
  rewrite trim_prefix_app. assert (Ec : forall rest, cut_at " " (variables ++ " " ++ rest) = Some (variables, rest)).
  { clear -Hv. induction variables as [|c v IH]; intros rest; [done|]. apply andb_true_iff in Hv as [Hc%negb_true_iff Hv].
    change (cut_at " " (String c (v ++ " " ++ rest)) = Some (String c v, rest)). cbn [cut_at]. by rewrite Hc, IH. }
  rewrite Ec. cbn [mbind option_bind]. unfold in_quotes. rewrite !string_app_assoc.
  rewrite trim_prefix_app, Ho. cbn [mbind option_bind]. rewrite <- (string_app_assoc " " dquote), trim_prefix_app.
  rewrite <- (string_app_nil dquote) at 1. rewrite read_plain by done. done.
Qed.

(** ** Virtual patches *)
Section Patches.
Context `{Regexps}.

Definition usable_patches (patches : list VirtualPatchInput) : list VirtualPatchInput := List.filter usable_patch patches.

(** What ModSecurity is to read for a patch with its number. *)
Definition patch_reading (ruleID : Z) (p : VirtualPatchInput) : string * string * string :=
  (targetVariable (vp_Target p), "@rx " ++ trim_space (vp_Pattern p),
   "id:" ++ itoa ruleID ++ ",phase:2,t:none,log,msg:'Virtual patch " ++ vp_ID p ++ "'" ++
   (if String.eqb (lower_trim (vp_Action p)) "block" then ",deny,status:403" else ",pass")).

Lemma patch_line_reads ruleID p : 0 <= ruleID -> all_chars identifier_char (vp_ID p) = true ->
  read_rule (rule_text (patch_line ruleID p)) = Some (patch_reading ruleID p).
Proof.
  intros Hid Hp. destruct (identifier_plain _ Hp) as [Hplain Hsame].
  unfold patch_line, patch_reading. cbn [rule_text]. unfold secRuleAction. rewrite Hsame. apply read_SecRule.
  - unfold targetVariable. by repeat case_match.
  - intros rest. rewrite string_app_assoc.
    match goal with |- read_quoted (_ ++ ?s) = _ => set (t := s) end.
    assert (E : read_quoted t = Some (trim_space (vp_Pattern p), rest)) by apply read_escaped.
    change (('(w, u) ← '(w, u) ← '(w, u) ← '(w, u) ← read_quoted t; Some (String " " w, u); Some (String "x" w, u);
             Some (String "r" w, u); Some (String "@" w, u)) =
            Some ("@rx " ++ trim_space (vp_Pattern p), rest)).
    by rewrite E.
  - rewrite !plain_text_app, digits_plain, Hplain by done. by case_match.
Qed.

End Patches.

(** ** What an exclusion covers *)
Definition exclusion_rx (rule : ModSecurityExclusionRuleInput) : rx :=
  (Start :: literal (trim_space (me_Path rule))) +++
  (if String.eqb (lower_trim (me_Mode rule)) "prefix" then [Group false false [[Finish]; literal "/"]] else [Finish]).

(** A request URI is covered: the path itself and, for a prefix, everything below it. *)
Definition exclusion_covers (rule : ModSecurityExclusionRuleInput) (uri : string) : Prop :=
  uri = trim_space (me_Path rule) \/
  (lower_trim (me_Mode rule) = "prefix" /\ exists rest, uri = trim_space (me_Path rule) ++ "/" ++ rest).

Lemma prefix_match_split p s : prefix_match false p s = true -> s = p ++ drop_chars (String.length p) s.
Proof.
  revert s. induction p as [|c p IH]; intros s; [done|]. destruct s as [|d s]; [done|].
  intros [E%Ascii.eqb_eq Hp]%andb_true_iff. subst d. change (String c s = String c (p ++ drop_chars (String.length p) s)).
  by rewrite <- (IH s Hp).
Qed.

Lemma exclusion_rx_matches rule uri : one_line uri = true ->
  search false (exclusion_rx rule) uri = true <-> exclusion_covers rule uri.
Proof.
  intros Hone. unfold exclusion_rx, exclusion_covers. set (path := trim_space (me_Path rule)).
  cbn [app]. rewrite search_start, run_app, run_literal.
  pose proof (literal_to_end false path uri Hone) as Hend. unfold same_word in Hend.
  destruct (String.eqb_spec (lower_trim (me_Mode rule)) "prefix") as [Hm|Hm].
  - rewrite run_group. cbn [existsb]. rewrite !orb_false_r, andb_orb_distrib_r, orb_true_iff.
    change (run false [Finish] ?k ?b ?s) with (at_end s && k b s). rewrite andb_true_r, Hend, String.eqb_eq, run_literal.
    split; intros [E|E].
    + by left.
    + apply andb_true_iff in E as [Hp [Hq _]%andb_true_iff]. apply prefix_match_split in Hp, Hq. rewrite Hq in Hp.
      right. split; [done|]. eauto.
    + by left.
    + destruct E as (_ & rest & ->). right. by rewrite prefix_match_app, drop_chars_app.
  - change (run false [Finish] ?k ?b ?s) with (at_end s && k b s). rewrite andb_true_r, Hend, String.eqb_eq.
    split; [by left|]. intros [E|[E _]]; [done | contradiction].
Qed.

Definition word_methods (rule : ModSecurityExclusionRuleInput) : Prop :=
  sortedUniqueUpper (me_Methods rule) <> [] /\
  Forall (fun m => no_special m = true) (sortedUniqueUpper (me_Methods rule)).

Lemma no_star words : Forall (fun m => no_special m = true) words -> mem "*" words = false.
Proof.
  intros Hw. apply mem_false. intros Hin. by apply (proj1 (Forall_forall _ _) Hw) in Hin.
Qed.

Lemma trim_lower_fixed s : lower_trim (lower_trim s) = lower_trim s.
Proof. apply normalize_id_idem. Qed.

(** An exclusion applies where its author meant it to.  The two chained conditions written for
    an exclusion by path, once it is in normal form, are expressions that both match exactly when the
    request's method is one of the listed ones and its URI is the path, or for a prefix lies at or
    below it; the exclusion of any other mode than "prefix" and "regex" is exact. *)
Theorem exclusion_scope_exact (ruleID : Z) (rule : ModSecurityExclusionRuleInput) :
  let r := normal_exclusion rule in
  is_blank (me_Path rule) = false -> me_Mode r <> "regex" -> word_methods rule ->
  exists methods path, methods = words_rx (sortedUniqueUpper (me_Methods rule)) /\
    texts (exclusions_from ruleID [r]) =
      ["# exclusion_comment: " ++ me_Comment r;
       SecRule "REQUEST_METHOD" ("@rx " ++ print methods) ("id:" ++ itoa ruleID ++ ",phase:1,t:none,chain,pass,nolog");
       SecRule "REQUEST_URI" ("@rx " ++ print path) (join "," (exclusion_actions r))] /\
    forall m uri, one_line m = true -> one_line uri = true ->
      search false methods m && search false path uri = true <->
      m ∈ sortedUniqueUpper (me_Methods rule) /\ exclusion_covers r uri.
Proof.
  intros r Hpath Hmode [Hne Hwords]. set (words := sortedUniqueUpper (me_Methods rule)) in *.
  exists (words_rx words), (exclusion_rx r).
  assert (Hm : me_Methods r = words).
  { cbn. fold words. rewrite no_star, orb_false_r by done. by destruct words. }
  assert (Hmode' : lower_trim (me_Mode r) = me_Mode r).
  { cbn. unfold text_or. destruct (is_empty _); [done | apply trim_lower_fixed]. }
  assert (Hp : trim_space (me_Path r) = me_Path r) by apply trim_space_idem.
  assert (Hb : is_empty (me_Path r) = false) by exact Hpath.
  assert (Ht : print (exclusion_rx r) = "^" ++ QuoteMeta (me_Path r) ++ (if String.eqb (me_Mode r) "prefix" then "(?:$|/)" else "$")).
  { unfold exclusion_rx. rewrite Hmode', Hp, print_app, print_cons, print_literal. by destruct (String.eqb (me_Mode r) "prefix"). }
  split; [done | split].
  - unfold exclusions_from, buildExclusionPathMatcher. rewrite Hmode', Hp, Hb, (proj2 (String.eqb_neq _ _) Hmode).
    cbn -[exclusion_actions normal_exclusion join QuoteMeta print exclusion_rx r]. rewrite Hm, words_rx_text, quoted_words by done.
    assert (trim_space (me_Comment r) = me_Comment r) as -> by apply trim_space_idem.
    rewrite Ht. reflexivity.
  - intros m uri Hm1 Hu. rewrite andb_true_iff, words_rx_matches, mem_spec, exclusion_rx_matches by done. done.
Qed.

(** ** Examples *)
Module Samples.
Definition always_valid : Regexps := Build_Regexps (fun _ => None).
Definition orders : APIPositiveEndpointPolicyInput := MkEndpoint "/orders" ["GET"; "POST"] ["t1"] ["application/json"] "block".
Definition uploads : ModSecurityExclusionRuleInput :=
  MkModSecExempt " /uploads" "" ["post"; "PUT"] "Prefix" [942100; 941100] ["ARGS:body"] "uploads".
Definition quotes : VirtualPatchInput := MkVirtualPatch "vp-1" ("\." ++ dquote ++ "x") "body" "Block".
Definition controls : VirtualPatchInput := MkVirtualPatch "vp-2" ("a" ++ newline ++ "b") "uri" "block".
Definition watched : VirtualPatchInput := MkVirtualPatch "vp-3" "/admin" "uri" "monitor".
End Samples.


(** With more policies the numbers of the endpoints reach those of the exclusions. *)
Example numbers_collide :
  let ids := rule_ids (easy_rules (H := Samples.always_valid) "shop" "block" true "4" [] [normal_exclusion Samples.uploads]
    false "" "" true "" "block" "allow" (repeat Samples.orders 167) []) in
  count_occ Z.eq_dec ids 191000 = 2%nat.
Proof. vm_compute. reflexivity. Qed.


Lemma exclusion_scope_exact_witness :
  exists methods path,
    texts (exclusions_from 191000 [normal_exclusion Samples.uploads]) =
      ["# exclusion_comment: uploads";
       SecRule "REQUEST_METHOD" ("@rx " ++ print methods) "id:191000,phase:1,t:none,chain,pass,nolog";
       SecRule "REQUEST_URI" ("@rx " ++ print path)
         "t:none,ctl:ruleRemoveTargetById=941100;ARGS:body,ctl:ruleRemoveTargetById=942100;ARGS:body"] /\
    search false methods "PUT" && search false path "/uploads/2024" = true /\
    (search false methods "PUT" && search false path "/uploads2" = true -> False).
Proof.
  assert (Hw : word_methods Samples.uploads) by (split; [discriminate | vm_compute; repeat constructor]).
  destruct (exclusion_scope_exact 191000 Samples.uploads eq_refl ltac:(discriminate) Hw) as (methods & path & _ & Ht & Hm).
  exists methods, path. split; [exact Ht|]. split.
  - apply (proj2 (Hm "PUT" "/uploads/2024" eq_refl eq_refl)). split; [apply mem_spec; reflexivity|].
    right. split; [reflexivity | by exists "2024"].
  - intros E. destruct (proj2 (proj1 (Hm "PUT" "/uploads2" eq_refl eq_refl) E)) as [E'|(_ & rest & E')]; vm_compute in E'; discriminate.
Defined.

(** An exclusion for every method is written with an expression that is none: a bare star. *)
Example any_method_exclusion :
  me_Methods (normal_exclusion (MkModSecExempt "/x" "" [] "" [1] [] "")) = ["*"] /\
  nth 2 (buildModSecurityExclusionRules [normal_exclusion (MkModSecExempt "/x" "" [] "" [1] [] "")]) "" =
  SecRule "REQUEST_METHOD" "@rx ^(?:*)$" "id:191000,phase:1,t:none,chain,pass,nolog".
Proof. split; reflexivity. Qed.
