(* ===== verification/EasyRender.v ===== *)
(** * Rendering the settings of a site (compiler/internal/compiler: easy.go,
    easy_runtime_site_artifacts.go, easy_rate_limits.go)

    From sites and their profiles to the files of the bundle: the server snippet of a site, the
    password file and pages of its gate, its ModSecurity rules, its locations with their rate limits,
    and the configuration of the layer-4 guard. *)
From Stdlib Require Import ZArith Lia Ascii String.
From stdpp Require Import base tactics gmap strings list.
From S2P Require Import Prelude GoText GoNet GoSeq Files Bundle Inputs Patterns Render Easy EasyRules.
Local Set Warnings "-clear-no-such-hyp".
Local Open Scope string_scope.
Local Open Scope Z_scope.
Local Notation "a +++ b" := (@app _ a b) (at level 60, right associativity).

(** ** Data for the templates *)
Record easySiteData := MkEasySite {
  d_SiteID : string;
  d_RateLimitCookieVar : string;
  d_RateLimitEscalationCookieVar : string;
  d_ExceptionVar : string;
  d_AllowedMethodsPattern : string;
  d_MaxClientSize : string;
  d_ReferrerPolicy : string;
  d_ContentSecurityPolicy : string;
  d_PermissionsPolicy : string;
  d_HSTSHeader : string;
  d_UseCORS : bool;
  d_CORSAllowedOrigins : string;
  d_ReverseProxyCustomHost : string;
  d_ReverseProxySSLSNI : bool;
  d_ReverseProxySSLSNIName : string;
  d_ReverseProxyWebsocket : bool;
  d_ReverseProxyKeepalive : bool;
  d_PassHostHeader : bool;
  d_SendXForwardedFor : bool;
  d_SendXForwardedProto : bool;
  d_SendXRealIP : bool;
  d_RateLimitBanSeconds : Z;
  d_AdminBypassPathPattern : string;
  d_ModSecurityBypassPathPattern : string;
  d_AuthEnabled : bool;
  d_AuthBasicEnabled : bool;
  d_AuthTokenEnabled : bool;
  d_AuthMode : string;
  d_AuthOrder : string;
  d_AuthRunsBeforeAntibot : bool;
  d_AuthBasicRealm : string;
  d_AuthBasicUserFile : string;
  d_AuthGateLoginURI : string;
  d_AuthGateVerifyBasicURI : string;
  d_AuthGateVerifyTokenURI : string;
  d_AuthGateCookieKey : string;
  d_AuthGateCookieVal : string;
  d_AuthGateCookieTTL : Z;
  d_AuthBasicTemplate : string;
  d_AuthExclusionRules : list string;
  d_AuthTokenRules : list easyAuthTokenRuleData;
  d_AntibotEnabled : bool;
  d_ManagementSite : bool;
  d_AntibotTwoLayerEnabled : bool;
  d_AntibotUsesInterstitial : bool;
  d_AntibotChallenge : string;
  d_AntibotChallengeTemplate : string;
  d_AntibotEscalationMode : string;
  d_AntibotURI : string;
  d_AntibotVerifyURI : string;
  d_AntibotStage1URI : string;
  d_AntibotStage1VerifyURI : string;
  d_AntibotRedirectURI : string;
  d_AntibotStage1RedirectURI : string;
  d_AntibotStage1CookieName : string;
  d_AntibotStage1CookieValue : string;
  d_AntibotCookieName : string;
  d_AntibotCookieValue : string;
  d_AntibotCookieTTL : Z;
  d_AntibotRecaptchaHint : string;
  d_AntibotHcaptchaHint : string;
  d_AntibotTurnstileHint : string;
  d_AntibotExclusionRules : list string;
  d_AntibotRuleOverrides : list easyAntibotRuleData;
  d_AntibotScannerAutoBan : bool;
  d_AntibotScannerPattern : string;
  d_BlacklistIP : list string;
  d_BlacklistUserAgent : list string;
  d_BlacklistURI : list string;
  d_BlacklistJA3 : list string;
  d_ExceptionsURI : list string;
  d_BlacklistCountryGuardPattern : string;
  d_WhitelistCountryGuardPattern : string;
  d_AllowLocalCountryIPs : bool;
  d_ShowGeoBlockPage : bool;
  d_GeoTimeWindowSnippet : string;
  d_WSInspectionSnippet : string;
  d_MTLSSnippet : string;
  d_UpstreamMTLSSnippet : string;
  d_UseModSecurity : bool;
  d_UseModSecurityEasyFile : bool;
  d_ModSecurityEasyRules : string;
  d_ModSecurityEasyRulesOn : bool;
  d_HttpStrictParsing : bool;
  d_CookieFlags : string;
  d_KeepUpstreamHeaders : list string;
  d_HealthCheckEnabled : bool;
  d_HealthCheckPath : string;
  d_HealthCheckIntervalSeconds : Z;
  d_HealthCheckFailThreshold : Z;
  d_UseCustomErrorPages : bool;
  d_DisabledErrorPages : list string
}.

Record l4GuardConfigData := MkL4Config {
  l4_Enabled : bool;
  l4_ChainMode : string;
  l4_ConnLimit : Z;
  l4_RatePerSec : Z;
  l4_RateBurst : Z;
  l4_Ports : list Z;
  l4_Target : string;
  l4_DestinationIP : string
}.

Record authGatePageData := MkAuthPage {
  pg_BasicVerifyURI : string;
  pg_TokenVerifyURI : string;
  pg_UseBasic : bool;
  pg_UseServiceToken : bool;
  pg_TemplateName : string
}.

Record easyRateLimitHTTPEntry := MkEasyZone { ez_ZoneName : string; ez_KeyVar : string; ez_Rate : string }.

Record easyLocationRuleData := MkLocationRule {
  lr_LocationModifier : string;
  lr_LocationPath : string;
  lr_IsAdminAPIPath : bool;
  lr_DisableProxyInterceptErrors : bool;
  lr_ZoneName : string;
  lr_Burst : Z;
  lr_StatusCode : Z;
  lr_PassHostHeader : bool;
  lr_ProxyPassTarget : string
}.

Record easyLocationData := MkLocations {
  l_SiteID : string;
  l_AntibotEnabled : bool;
  l_AntibotTwoLayerEnabled : bool;
  l_AntibotUsesInterstitial : bool;
  l_AntibotURI : string;
  l_AntibotVerifyURI : string;
  l_AntibotStage1URI : string;
  l_AntibotStage1VerifyURI : string;
  l_AntibotStage1CookieName : string;
  l_AntibotStage1CookieValue : string;
  l_AntibotCookieName : string;
  l_AntibotCookieValue : string;
  l_AntibotCookieTTL : Z;
  l_AuthEnabled : bool;
  l_AuthBasicEnabled : bool;
  l_AuthTokenEnabled : bool;
  l_AuthBasicRealm : string;
  l_AuthBasicUserFile : string;
  l_AuthGateLoginURI : string;
  l_AuthGateVerifyBasicURI : string;
  l_AuthGateVerifyTokenURI : string;
  l_AuthGateCookieKey : string;
  l_AuthGateCookieVal : string;
  l_AuthGateCookieTTL : Z;
  l_AuthTokenRules : list easyAuthTokenRuleData;
  l_Rules : list easyLocationRuleData
}.

(** The templates whose text is not written out: the snippets of a site and of its locations, the
    sign-in page (plain or themed), and the challenge pages by file name. *)
Class EasyTemplates := {
  render_easy_site : easySiteData -> result string;
  render_easy_locations : easyLocationData -> result string;
  render_auth_page : string -> authGatePageData -> result string;
  challenge_template_exists : string -> bool;
  render_challenge_page : string -> string -> result string
}.

(** ** The gate and the challenge of a profile *)
Definition antibot_on (p : EasyProfileInput) : bool :=
  negb (is_empty (e_AntibotChallenge p)) && negb (String.eqb (e_AntibotChallenge p) "no").
Definition antibot_two_layer (p : EasyProfileInput) : bool := e_ChallengeEscalationEnabled p && antibot_on p.
Definition default_challenge (p : EasyProfileInput) : string :=
  let mode := e_ChallengeEscalationMode p in
  if antibot_two_layer p && negb (is_empty mode) && negb (String.eqb mode "no") then mode else e_AntibotChallenge p.

(** The users of the gate; the single user of older settings counts when there are no others. *)
Definition site_auth_users (p : EasyProfileInput) : list ServiceAuthUserInput :=
  let user := trim_space (e_AuthBasicUser p) in
  let password := trim_space (e_AuthBasicPassword p) in
  if Nat.eqb (length (e_AuthUsers p)) 0 && negb (is_empty user) && negb (is_empty password)
  then [MkServiceUser user password true ""] else enabledAuthUsers (e_AuthUsers p).

Definition gate_open (p : EasyProfileInput) (users : list ServiceAuthUserInput) : bool :=
  e_UseAuthBasic p && (negb (Nat.eqb (length users) 0) ||
                       negb (Nat.eqb (length (enabledAuthServiceTokens (e_AuthServiceTokens p))) 0)).
Definition gate_by_password (p : EasyProfileInput) (users : list ServiceAuthUserInput) : bool :=
  gate_open p users && negb (String.eqb (normalizeCompilerAuthMode (e_AuthMode p)) authModeServiceToken) &&
  negb (Nat.eqb (length users) 0).
Definition gate_by_token (p : EasyProfileInput) (users : list ServiceAuthUserInput) : bool :=
  gate_open p users && negb (String.eqb (normalizeCompilerAuthMode (e_AuthMode p)) authModeBasic) &&
  negb (Nat.eqb (length (enabledAuthServiceTokens (e_AuthServiceTokens p))) 0).

Definition gate_enabled (p : EasyProfileInput) : bool := gate_open p (site_auth_users p).
Definition gate_basic (p : EasyProfileInput) : bool := gate_by_password p (site_auth_users p).
Definition gate_token (p : EasyProfileInput) : bool := gate_by_token p (site_auth_users p).
Definition gate_user_file (siteID : string) : string := "/etc/waf/nginx/auth-basic/" ++ siteID ++ ".htpasswd".

Section Sites.
Context `{Environment} `{Regexps}.

Definition profile_rules (siteID : string) (p : EasyProfileInput) : string :=
  buildEasyModSecurityRules siteID (e_SecurityMode p) (e_UseModSecurityCRSPlugins p) (e_ModSecurityCRSVersion p)
    (e_ModSecurityCRSPlugins p) (e_ModSecurityExclusionRules p) (e_UseModSecurityCustomConfiguration p)
    (e_ModSecurityCustomPath p) (e_ModSecurityCustomContent p) (e_UseAPIPositiveSecurity p) (e_OpenAPISchemaRef p)
    (e_APIEnforcementMode p) (e_APIDefaultAction p) (e_APIEndpointPolicies p) (e_VirtualPatches p).

Definition easy_site_data (site : SiteInput) (p : EasyProfileInput) : easySiteData :=
  {| d_SiteID := s_ID site;
     d_RateLimitCookieVar := rateLimitCookieName (s_ID site);
     d_RateLimitEscalationCookieVar := rateLimitEscalationCookieName (s_ID site);
     d_ExceptionVar := siteExceptionVar (s_ID site);
     d_AllowedMethodsPattern := methodPattern (e_AllowedMethods p);
     d_MaxClientSize := e_MaxClientSize p;
     d_ReferrerPolicy := e_ReferrerPolicy p;
     d_ContentSecurityPolicy := e_ContentSecurityPolicy p;
     d_PermissionsPolicy := join ", " (e_PermissionsPolicy p);
     d_HSTSHeader := buildHSTSHeaderValue p;
     d_UseCORS := e_UseCORS p;
     d_CORSAllowedOrigins := text_or "*" (join " " (e_CORSAllowedOrigins p));
     d_ReverseProxyCustomHost := e_ReverseProxyCustomHost p; d_ReverseProxySSLSNI := e_ReverseProxySSLSNI p;
     d_ReverseProxySSLSNIName := e_ReverseProxySSLSNIName p;
     d_ReverseProxyWebsocket := e_ReverseProxyWebsocket p; d_ReverseProxyKeepalive := e_ReverseProxyKeepalive p;
     d_PassHostHeader := e_PassHostHeader p; d_SendXForwardedFor := e_SendXForwardedFor p;
     d_SendXForwardedProto := e_SendXForwardedProto p; d_SendXRealIP := e_SendXRealIP p;
     d_RateLimitBanSeconds := rateLimitBanSeconds p;
     d_AdminBypassPathPattern := easyAdminBypassPathPatternForSite site;
     d_ModSecurityBypassPathPattern := easyModSecurityBypassPathPatternForSite site;
     d_AuthEnabled := gate_enabled p;
     d_AuthBasicEnabled := gate_basic p;
     d_AuthTokenEnabled := gate_token p;
     d_AuthMode := normalizeCompilerAuthMode (e_AuthMode p);
     d_AuthOrder := normalizeCompilerAuthOrder (e_AuthOrder p);
     d_AuthRunsBeforeAntibot := String.eqb (normalizeCompilerAuthOrder (e_AuthOrder p)) authOrderAuthFirst;
     d_AuthBasicRealm := e_AuthBasicText p;
     d_AuthBasicUserFile := gate_user_file (s_ID site);
     d_AuthGateLoginURI := authGateLoginURI;
     d_AuthGateVerifyBasicURI := authGateVerifyBasicURI;
     d_AuthGateVerifyTokenURI := authGateVerifyTokenURI;
     d_AuthGateCookieKey := authGateCookieName (s_ID site);
     d_AuthGateCookieVal := authGateCookieValue (s_ID site) p;
     d_AuthGateCookieTTL := authGateCookieTTLSeconds p;
     d_AuthBasicTemplate := normalizeAuthBasicTemplate (e_AuthBasicTemplate p);
     d_AuthExclusionRules := buildEasyAuthExclusionRuleData
       (appendAuthExclusionRules (e_AuthExclusionRules p) (easyAdminAuthExclusionRulesForSite site));
     d_AuthTokenRules := buildEasyAuthTokenRuleData (enabledAuthServiceTokens (e_AuthServiceTokens p));
     d_AntibotEnabled := antibot_on p;
     d_ManagementSite := isManagementSite site;
     d_AntibotTwoLayerEnabled := antibot_two_layer p;
     d_AntibotUsesInterstitial := antibotUsesInterstitial (default_challenge p);
     d_AntibotChallenge := default_challenge p;
     d_AntibotChallengeTemplate := e_AntibotChallengeTemplate p;
     d_AntibotEscalationMode := e_ChallengeEscalationMode p;
     d_AntibotURI := e_AntibotURI p;
     d_AntibotVerifyURI := antibotVerifyURI (e_AntibotURI p);
     d_AntibotStage1URI := antibotStage1URI (e_AntibotURI p);
     d_AntibotStage1VerifyURI := antibotStage1VerifyURI (e_AntibotURI p);
     d_AntibotRedirectURI := antibotRedirectURI (default_challenge p) (e_AntibotURI p);
     d_AntibotStage1RedirectURI := antibotVerifyURI (antibotStage1URI (e_AntibotURI p));
     d_AntibotStage1CookieName := antibotStage1CookieName (s_ID site);
     d_AntibotStage1CookieValue := antibotStage1CookieValue (s_ID site) p;
     d_AntibotCookieName := antibotCookieName (s_ID site);
     d_AntibotCookieValue := antibotCookieValue (s_ID site) p;
     d_AntibotCookieTTL := antibotCookieTTLSeconds p;
     d_AntibotRecaptchaHint := trim_space (e_AntibotRecaptchaKey p);
     d_AntibotHcaptchaHint := trim_space (e_AntibotHcaptchaKey p);
     d_AntibotTurnstileHint := trim_space (e_AntibotTurnstileKey p);
     d_AntibotExclusionRules := buildEasyAntibotExclusionRuleData
       (appendAntibotExclusionRules (e_AntibotExclusionRules p) (easyAdminAntibotExclusionRulesForSite site));
     d_AntibotRuleOverrides := buildEasyAntibotRuleData (e_AntibotChallengeRules p) (e_AntibotURI p);
     d_AntibotScannerAutoBan := e_AntibotScannerAutoBan p;
     d_AntibotScannerPattern := antibotScannerPattern;
     d_BlacklistIP := e_BlacklistIP p; d_BlacklistUserAgent := e_BlacklistUserAgent p;
     d_BlacklistURI := e_BlacklistURI p; d_BlacklistJA3 := e_BlacklistJA3 p;
     d_ExceptionsURI := e_ExceptionsURI p;
     d_BlacklistCountryGuardPattern := blacklistCountryGuardPattern (e_BlacklistCountry p);
     d_WhitelistCountryGuardPattern := whitelistCountryGuardPattern (e_WhitelistCountry p);
     d_AllowLocalCountryIPs := e_AllowLocalCountryIPs p; d_ShowGeoBlockPage := e_ShowGeoBlockPage p;
     d_GeoTimeWindowSnippet := buildGeoTimeWindowServerSnippet (s_ID site) (e_GeoTimeWindows p)
       ("$" ++ siteExceptionVar (s_ID site));
     d_WSInspectionSnippet := buildWSInspectionServerSnippet (s_ID site) (e_WSInspection p);
     d_MTLSSnippet := buildMTLSServerSnippet (e_MTLS p);
     d_UpstreamMTLSSnippet := buildUpstreamMTLSSnippet (e_UpstreamMTLS p);
     d_UseModSecurity := e_UseModSecurity p;
     d_UseModSecurityEasyFile := e_UseModSecurity p && negb (isManagementSite site);
     d_ModSecurityEasyRules := profile_rules (s_ID site) p;
     d_ModSecurityEasyRulesOn := e_UseModSecurity p;
     d_HttpStrictParsing := e_HttpStrictParsing p; d_CookieFlags := e_CookieFlags p;
     d_KeepUpstreamHeaders := e_KeepUpstreamHeaders p; d_HealthCheckEnabled := e_HealthCheckEnabled p;
     d_HealthCheckPath := e_HealthCheckPath p; d_HealthCheckIntervalSeconds := e_HealthCheckIntervalSeconds p;
     d_HealthCheckFailThreshold := e_HealthCheckFailThreshold p;
     d_UseCustomErrorPages := e_UseCustomErrorPages p; d_DisabledErrorPages := e_DisabledErrorPages p |}.

(** ** The files of a site (easy_runtime_site_artifacts.go) *)
Context `{EasyTemplates}.

Definition nginx_artifact (path content : string) : ArtifactOutput := newArtifact path ArtifactKindNginxConfig content.

Definition gate_files (site : SiteInput) (p : EasyProfileInput) : result (list ArtifactOutput) :=
  let data := easy_site_data site p in
  let users := if d_AuthBasicEnabled data
               then [nginx_artifact ("nginx/auth-basic/" ++ s_ID site ++ ".htpasswd") (htpasswd_text (site_auth_users p))]
               else [] in
  if negb (d_AuthEnabled data) then Ok users
  else
    page ← wrap_error ("render auth gate page for " ++ s_ID site ++ ": ")
      (render_auth_page (if d_AuthBasicEnabled data && negb (d_AuthTokenEnabled data)
                         then "templates/errors/auth-themed.html.tmpl" else "templates/errors/auth.html.tmpl")
        (MkAuthPage (d_AuthGateVerifyBasicURI data) (d_AuthGateVerifyTokenURI data) (d_AuthBasicEnabled data)
           (d_AuthTokenEnabled data) (d_AuthBasicTemplate data)));
    Ok (users +++ [nginx_artifact ("errors/" ++ s_ID site ++ "/auth.html") page]).

Definition rule_files (site : SiteInput) (p : EasyProfileInput) : list ArtifactOutput :=
  if e_UseModSecurity p
  then [newArtifact ("modsecurity/easy/" ++ s_ID site ++ ".conf") ArtifactKindModSecurity (profile_rules (s_ID site) p)]
  else [].

Definition window_files (site : SiteInput) (p : EasyProfileInput) : list ArtifactOutput :=
  let geoConf := buildGeoTimeWindowHttpConf (s_ID site) (e_GeoTimeWindows p) in
  if is_empty geoConf then [] else [nginx_artifact ("nginx/geo-timewindow/" ++ s_ID site ++ ".conf") geoConf].

Definition challenge_template (template : string) : string :=
  let t := trim_space template in
  let candidate := "antibot-" ++ t ++ ".html.tmpl" in
  if negb (is_empty t) && challenge_template_exists (Files.clean ("templates/errors/" ++ candidate))
  then candidate else "antibot.html.tmpl".

Definition challenge_files (site : SiteInput) (p : EasyProfileInput) : result (list ArtifactOutput) :=
  let data := easy_site_data site p in
  if negb (d_AntibotUsesInterstitial data) then Ok []
  else
    page ← wrap_error ("render antibot challenge page for " ++ s_ID site ++ ": ")
      (render_challenge_page (Files.clean ("templates/errors/" ++ challenge_template (d_AntibotChallengeTemplate data)))
         (d_AntibotVerifyURI data));
    Ok [nginx_artifact ("errors/" ++ s_ID site ++ "/antibot.html") page].

(** What a site asks of the layer-4 guard: connections and requests a second. *)
Definition l4_request (p : EasyProfileInput) : bool * Z * Z :=
  (e_UseLimitConn p || e_UseLimitReq p, if e_UseLimitConn p then e_LimitConnMaxHTTP1 p else 0,
   if e_UseLimitReq p then parseRatePerSecond (e_LimitReqRate p) else 0).

Definition renderEasySiteArtifacts (site : SiteInput) (p : EasyProfileInput) : result (list ArtifactOutput) :=
  content ← wrap_error ("render easy site template for " ++ s_ID site ++ ": ") (render_easy_site (easy_site_data site p));
  gate ← gate_files site p;
  challenge ← challenge_files site p;
  Ok ([nginx_artifact ("nginx/easy/" ++ s_ID site ++ ".conf") content] +++ gate +++ rule_files site p +++
      window_files site p +++ challenge).

(** ** All sites (easy.go) *)
Definition site_profile (bySite : gmap string EasyProfileInput) (site : SiteInput) : EasyProfileInput :=
  default (defaultEasyProfileForSite (s_ID site)) (bySite !! s_ID site).

(** The largest requests win over the floor of 200 connections and 100 requests a second. *)
Definition l4_merge (acc : bool * Z * Z) (p : EasyProfileInput) : bool * Z * Z :=
  let '(enabled, conn, rate) := acc in
  let '(siteEnabled, siteConn, siteRate) := l4_request p in
  if siteEnabled then (true, Z.max conn siteConn, Z.max rate siteRate) else acc.

Definition l4_config (profiles : list EasyProfileInput) : option l4GuardConfigData :=
  let '(enabled, conn, rate) := foldl l4_merge (false, 200, 100) profiles in
  if enabled then Some (MkL4Config true "auto" conn rate (wrap64 (rate * 2)) [80; 443] "DROP" "") else None.

(** [json.MarshalIndent(l4, "", "  ")] and a line feed. *)
Definition json_member (name value : string) : string := "  " ++ json_string name ++ ": " ++ value.
Definition l4_json_text (d : l4GuardConfigData) : string :=
  "{" ++ newline ++
  join ("," ++ newline)
    [json_member "enabled" (if l4_Enabled d then "true" else "false"); json_member "chain_mode" (json_string (l4_ChainMode d));
     json_member "conn_limit" (itoa (l4_ConnLimit d)); json_member "rate_per_second" (itoa (l4_RatePerSec d));
     json_member "rate_burst" (itoa (l4_RateBurst d));
     json_member "ports" ("[" ++ newline ++ join ("," ++ newline) ((fun port => "    " ++ itoa port) <$> l4_Ports d) ++
                          newline ++ "  ]");
     json_member "target" (json_string (l4_Target d)); json_member "destination_ip" (json_string (l4_DestinationIP d))] ++
  newline ++ "}" ++ newline.

Definition RenderEasyArtifacts (sites : list SiteInput) (profiles : list EasyProfileInput) : result (list ArtifactOutput) :=
  profileBySite ← buildEasyProfileBySite profiles;
  let enabled := List.filter s_Enabled (sort_on s_ID sites) in
  artifacts ← map_results (fun site => renderEasySiteArtifacts site (site_profile profileBySite site)) enabled;
  Ok (mjoin artifacts +++
      match l4_config (site_profile profileBySite <$> enabled) with
      | Some config => [nginx_artifact "l4guard/config.json" (l4_json_text config)]
      | None => []
      end).

(** ** Locations and their rate limits (easy_rate_limits.go) *)
Definition rate_profile (p : EasyProfileInput) : EasyProfileInput :=
  let user := trim_space (e_AuthBasicUser p) in
  let password := trim_space (e_AuthBasicPassword p) in
  {| e_SiteID := e_SiteID p;
     e_SecurityMode := security_mode (e_SecurityMode p);
     e_AllowedMethods := e_AllowedMethods p; e_MaxClientSize := e_MaxClientSize p;
     e_ReferrerPolicy := e_ReferrerPolicy p; e_ContentSecurityPolicy := e_ContentSecurityPolicy p;
     e_PermissionsPolicy := e_PermissionsPolicy p; e_HSTSEnabled := e_HSTSEnabled p;
     e_HSTSMaxAgeSeconds := e_HSTSMaxAgeSeconds p; e_HSTSIncludeSubdomains := e_HSTSIncludeSubdomains p;
     e_HSTSPreload := e_HSTSPreload p; e_UseCORS := e_UseCORS p; e_CORSAllowedOrigins := e_CORSAllowedOrigins p;
     e_ReverseProxyCustomHost := e_ReverseProxyCustomHost p; e_ReverseProxySSLSNI := e_ReverseProxySSLSNI p;
     e_ReverseProxySSLSNIName := e_ReverseProxySSLSNIName p;
     e_ReverseProxyWebsocket := e_ReverseProxyWebsocket p; e_ReverseProxyKeepalive := e_ReverseProxyKeepalive p;
     e_PassHostHeader := e_PassHostHeader p; e_SendXForwardedFor := e_SendXForwardedFor p;
     e_SendXForwardedProto := e_SendXForwardedProto p; e_SendXRealIP := e_SendXRealIP p;
     e_UseAuthBasic := e_UseAuthBasic p; e_AuthMode := e_AuthMode p; e_AuthOrder := e_AuthOrder p;
     e_AuthBasicUser := user;
     e_AuthBasicPassword := password;
     e_AuthBasicText := text_or "Restricted area" (trim_space (e_AuthBasicText p));
     e_AuthBasicTemplate := e_AuthBasicTemplate p;
     e_AuthUsers := gate_users (e_AuthUsers p) user password;
     e_AuthServiceTokens := e_AuthServiceTokens p; e_AuthExclusionRules := e_AuthExclusionRules p;
     e_AuthSessionTTLMin := session_minutes (e_AuthSessionTTLMin p);
     e_AntibotChallenge := e_AntibotChallenge p; e_AntibotChallengeTemplate := e_AntibotChallengeTemplate p;
     e_AntibotURI := e_AntibotURI p; e_AntibotSessionTTLMin := e_AntibotSessionTTLMin p;
     e_AntibotScannerAutoBan := e_AntibotScannerAutoBan p; e_AntibotRecaptchaScore := e_AntibotRecaptchaScore p;
     e_AntibotRecaptchaKey := e_AntibotRecaptchaKey p; e_AntibotHcaptchaKey := e_AntibotHcaptchaKey p;
     e_AntibotTurnstileKey := e_AntibotTurnstileKey p; e_AntibotCookieName := e_AntibotCookieName p;
     e_AntibotCookieValue := e_AntibotCookieValue p; e_AntibotExclusionRules := e_AntibotExclusionRules p;
     e_ChallengeEscalationEnabled := e_ChallengeEscalationEnabled p;
     e_ChallengeEscalationMode := e_ChallengeEscalationMode p;
     e_AntibotChallengeRules := e_AntibotChallengeRules p; e_UseLimitConn := e_UseLimitConn p;
     e_LimitConnMaxHTTP1 := e_LimitConnMaxHTTP1 p; e_LimitConnMaxHTTP2 := e_LimitConnMaxHTTP2 p;
     e_LimitConnMaxHTTP3 := e_LimitConnMaxHTTP3 p; e_UseLimitReq := e_UseLimitReq p;
     e_LimitReqURL := e_LimitReqURL p; e_LimitReqRate := e_LimitReqRate p;
     e_CustomLimitRules := e_CustomLimitRules p; e_UseBadBehavior := e_UseBadBehavior p;
     e_BadBehaviorStatusCodes := e_BadBehaviorStatusCodes p;
     e_BadBehaviorBanTimeSeconds := e_BadBehaviorBanTimeSeconds p; e_BlacklistIP := e_BlacklistIP p;
     e_BlacklistUserAgent := e_BlacklistUserAgent p; e_BlacklistURI := e_BlacklistURI p;
     e_BlacklistJA3 := e_BlacklistJA3 p; e_BlacklistJA3URLs := e_BlacklistJA3URLs p;
     e_ExceptionsURI := e_ExceptionsURI p; e_BlacklistCountry := e_BlacklistCountry p;
     e_WhitelistCountry := e_WhitelistCountry p; e_AllowLocalCountryIPs := e_AllowLocalCountryIPs p;
     e_ShowGeoBlockPage := e_ShowGeoBlockPage p; e_GeoTimeWindows := e_GeoTimeWindows p;
     e_UseModSecurity := e_UseModSecurity p; e_UseModSecurityCRSPlugins := e_UseModSecurityCRSPlugins p;
     e_UseModSecurityCustomConfiguration := e_UseModSecurityCustomConfiguration p;
     e_ModSecurityCRSVersion := e_ModSecurityCRSVersion p; e_ModSecurityCRSPlugins := e_ModSecurityCRSPlugins p;
     e_ModSecurityExclusionRules := e_ModSecurityExclusionRules p;
     e_ModSecurityCustomPath := e_ModSecurityCustomPath p;
     e_ModSecurityCustomContent := e_ModSecurityCustomContent p; e_CookieFlags := e_CookieFlags p;
     e_KeepUpstreamHeaders := e_KeepUpstreamHeaders p; e_UseAPIPositiveSecurity := e_UseAPIPositiveSecurity p;
     e_OpenAPISchemaRef := e_OpenAPISchemaRef p; e_APIEnforcementMode := e_APIEnforcementMode p;
     e_APIDefaultAction := e_APIDefaultAction p; e_APIEndpointPolicies := e_APIEndpointPolicies p;
     e_HttpStrictParsing := e_HttpStrictParsing p; e_HealthCheckEnabled := e_HealthCheckEnabled p;
     e_HealthCheckPath := e_HealthCheckPath p; e_HealthCheckIntervalSeconds := e_HealthCheckIntervalSeconds p;
     e_HealthCheckFailThreshold := e_HealthCheckFailThreshold p; e_WSInspection := e_WSInspection p;
     e_MTLS := e_MTLS p; e_UpstreamMTLS := e_UpstreamMTLS p; e_VirtualPatches := e_VirtualPatches p;
     e_UseCustomErrorPages := e_UseCustomErrorPages p; e_DisabledErrorPages := e_DisabledErrorPages p |}.

Definition location_challenge (p : EasyProfileInput) : string :=
  let mode := lower_trim (e_ChallengeEscalationMode p) in
  if antibot_two_layer p && negb (is_empty mode) && negb (String.eqb mode "no") then mode else e_AntibotChallenge p.

Definition easyCustomReqZoneName (siteID : string) (index : nat) : string :=
  "easy_" ++ slugSiteID siteID ++ "_req_v2_" ++ itoa (Z.of_nat index).
Definition easyCustomLimitStatusCode (values : list Z) : Z := 429.

Definition location_rule (site : SiteInput) (upstream : UpstreamInput) (p : EasyProfileInput) (index : nat)
    (rule : CustomRateLimitRuleInput) : easyLocationRuleData :=
  let api := has_prefix "/api/" (customLimitCanonicalPath (cr_Path rule)) in
  let isAdminAPIPath := isManagementSite site && api in
  {| lr_LocationModifier := customLimitLocationModifier (cr_Path rule);
     lr_LocationPath := customLimitLocationPath (cr_Path rule);
     lr_IsAdminAPIPath := isAdminAPIPath;
     lr_DisableProxyInterceptErrors := api && negb (e_UseCustomErrorPages p);
     lr_ZoneName := easyCustomReqZoneName (s_ID site) index;
     lr_Burst := customLimitBurst (cr_Rate rule);
     lr_StatusCode := easyCustomLimitStatusCode (e_BadBehaviorStatusCodes p);
     lr_PassHostHeader := u_PassHostHeader upstream;
     lr_ProxyPassTarget := if isAdminAPIPath then managementAPIProxyTarget
                           else "http://" ++ upstreamBlockName (s_ID site) (u_ID upstream) |}.

Definition easy_zone (siteID : string) (index : nat) (rule : CustomRateLimitRuleInput) : easyRateLimitHTTPEntry :=
  MkEasyZone (easyCustomReqZoneName siteID index) (siteRateLimitKeyVar siteID) (cr_Rate rule).

Definition location_data (site : SiteInput) (upstream : UpstreamInput) (p : EasyProfileInput) : easyLocationData :=
  let users := enabledAuthUsers (e_AuthUsers p) in
  {| l_SiteID := s_ID site;
     l_AntibotEnabled := antibot_on p;
     l_AntibotTwoLayerEnabled := antibot_two_layer p;
     l_AntibotUsesInterstitial := antibotUsesInterstitial (location_challenge p);
     l_AntibotURI := e_AntibotURI p;
     l_AntibotVerifyURI := antibotVerifyURI (e_AntibotURI p);
     l_AntibotStage1URI := antibotStage1URI (e_AntibotURI p);
     l_AntibotStage1VerifyURI := antibotStage1VerifyURI (e_AntibotURI p);
     l_AntibotStage1CookieName := antibotStage1CookieName (s_ID site);
     l_AntibotStage1CookieValue := antibotStage1CookieValue (s_ID site) p;
     l_AntibotCookieName := antibotCookieName (s_ID site);
     l_AntibotCookieValue := antibotCookieValue (s_ID site) p;
     l_AntibotCookieTTL := antibotCookieTTLSeconds p;
     l_AuthEnabled := gate_open p users;
     l_AuthBasicEnabled := gate_by_password p users;
     l_AuthTokenEnabled := gate_by_token p users;
     l_AuthBasicRealm := e_AuthBasicText p;
     l_AuthBasicUserFile := gate_user_file (s_ID site);
     l_AuthGateLoginURI := authGateLoginURI;
     l_AuthGateVerifyBasicURI := authGateVerifyBasicURI;
     l_AuthGateVerifyTokenURI := authGateVerifyTokenURI;
     l_AuthGateCookieKey := authGateCookieName (s_ID site);
     l_AuthGateCookieVal := authGateCookieValue (s_ID site) p;
     l_AuthGateCookieTTL := authGateCookieTTLSeconds p;
     l_AuthTokenRules := buildEasyAuthTokenRuleData (enabledAuthServiceTokens (e_AuthServiceTokens p));
     l_Rules := imap (location_rule site upstream p)
       (normalizeCompilerCustomLimitRules (e_CustomLimitRules p)) |}.

(** templates/nginx/conf.d/easy-ratelimits.conf.tmpl *)
Definition easy_zones_text (entries : list easyRateLimitHTTPEntry) : string :=
  String.concat "" ((fun e => directive ("limit_req_zone $" ++ ez_KeyVar e ++ " zone=" ++ ez_ZoneName e ++ ":10m rate=" ++
                                         ez_Rate e ++ ";")) <$> entries) ++ newline.

Definition with_site_id (siteID : string) (p : EasyProfileInput) : EasyProfileInput :=
  {| e_SiteID := siteID;
     e_SecurityMode := e_SecurityMode p; e_AllowedMethods := e_AllowedMethods p;
     e_MaxClientSize := e_MaxClientSize p; e_ReferrerPolicy := e_ReferrerPolicy p;
     e_ContentSecurityPolicy := e_ContentSecurityPolicy p; e_PermissionsPolicy := e_PermissionsPolicy p;
     e_HSTSEnabled := e_HSTSEnabled p; e_HSTSMaxAgeSeconds := e_HSTSMaxAgeSeconds p;
     e_HSTSIncludeSubdomains := e_HSTSIncludeSubdomains p; e_HSTSPreload := e_HSTSPreload p;
     e_UseCORS := e_UseCORS p; e_CORSAllowedOrigins := e_CORSAllowedOrigins p;
     e_ReverseProxyCustomHost := e_ReverseProxyCustomHost p; e_ReverseProxySSLSNI := e_ReverseProxySSLSNI p;
     e_ReverseProxySSLSNIName := e_ReverseProxySSLSNIName p;
     e_ReverseProxyWebsocket := e_ReverseProxyWebsocket p; e_ReverseProxyKeepalive := e_ReverseProxyKeepalive p;
     e_PassHostHeader := e_PassHostHeader p; e_SendXForwardedFor := e_SendXForwardedFor p;
     e_SendXForwardedProto := e_SendXForwardedProto p; e_SendXRealIP := e_SendXRealIP p;
     e_UseAuthBasic := e_UseAuthBasic p; e_AuthMode := e_AuthMode p; e_AuthOrder := e_AuthOrder p;
     e_AuthBasicUser := e_AuthBasicUser p; e_AuthBasicPassword := e_AuthBasicPassword p;
     e_AuthBasicText := e_AuthBasicText p; e_AuthBasicTemplate := e_AuthBasicTemplate p;
     e_AuthUsers := e_AuthUsers p; e_AuthServiceTokens := e_AuthServiceTokens p;
     e_AuthExclusionRules := e_AuthExclusionRules p; e_AuthSessionTTLMin := e_AuthSessionTTLMin p;
     e_AntibotChallenge := e_AntibotChallenge p; e_AntibotChallengeTemplate := e_AntibotChallengeTemplate p;
     e_AntibotURI := e_AntibotURI p; e_AntibotSessionTTLMin := e_AntibotSessionTTLMin p;
     e_AntibotScannerAutoBan := e_AntibotScannerAutoBan p; e_AntibotRecaptchaScore := e_AntibotRecaptchaScore p;
     e_AntibotRecaptchaKey := e_AntibotRecaptchaKey p; e_AntibotHcaptchaKey := e_AntibotHcaptchaKey p;
     e_AntibotTurnstileKey := e_AntibotTurnstileKey p; e_AntibotCookieName := e_AntibotCookieName p;
     e_AntibotCookieValue := e_AntibotCookieValue p; e_AntibotExclusionRules := e_AntibotExclusionRules p;
     e_ChallengeEscalationEnabled := e_ChallengeEscalationEnabled p;
     e_ChallengeEscalationMode := e_ChallengeEscalationMode p;
     e_AntibotChallengeRules := e_AntibotChallengeRules p; e_UseLimitConn := e_UseLimitConn p;
     e_LimitConnMaxHTTP1 := e_LimitConnMaxHTTP1 p; e_LimitConnMaxHTTP2 := e_LimitConnMaxHTTP2 p;
     e_LimitConnMaxHTTP3 := e_LimitConnMaxHTTP3 p; e_UseLimitReq := e_UseLimitReq p;
     e_LimitReqURL := e_LimitReqURL p; e_LimitReqRate := e_LimitReqRate p;
     e_CustomLimitRules := e_CustomLimitRules p; e_UseBadBehavior := e_UseBadBehavior p;
     e_BadBehaviorStatusCodes := e_BadBehaviorStatusCodes p;
     e_BadBehaviorBanTimeSeconds := e_BadBehaviorBanTimeSeconds p; e_BlacklistIP := e_BlacklistIP p;
     e_BlacklistUserAgent := e_BlacklistUserAgent p; e_BlacklistURI := e_BlacklistURI p;
     e_BlacklistJA3 := e_BlacklistJA3 p; e_BlacklistJA3URLs := e_BlacklistJA3URLs p;
     e_ExceptionsURI := e_ExceptionsURI p; e_BlacklistCountry := e_BlacklistCountry p;
     e_WhitelistCountry := e_WhitelistCountry p; e_AllowLocalCountryIPs := e_AllowLocalCountryIPs p;
     e_ShowGeoBlockPage := e_ShowGeoBlockPage p; e_GeoTimeWindows := e_GeoTimeWindows p;
     e_UseModSecurity := e_UseModSecurity p; e_UseModSecurityCRSPlugins := e_UseModSecurityCRSPlugins p;
     e_UseModSecurityCustomConfiguration := e_UseModSecurityCustomConfiguration p;
     e_ModSecurityCRSVersion := e_ModSecurityCRSVersion p; e_ModSecurityCRSPlugins := e_ModSecurityCRSPlugins p;
     e_ModSecurityExclusionRules := e_ModSecurityExclusionRules p;
     e_ModSecurityCustomPath := e_ModSecurityCustomPath p;
     e_ModSecurityCustomContent := e_ModSecurityCustomContent p; e_CookieFlags := e_CookieFlags p;
     e_KeepUpstreamHeaders := e_KeepUpstreamHeaders p; e_UseAPIPositiveSecurity := e_UseAPIPositiveSecurity p;
     e_OpenAPISchemaRef := e_OpenAPISchemaRef p; e_APIEnforcementMode := e_APIEnforcementMode p;
     e_APIDefaultAction := e_APIDefaultAction p; e_APIEndpointPolicies := e_APIEndpointPolicies p;
     e_HttpStrictParsing := e_HttpStrictParsing p; e_HealthCheckEnabled := e_HealthCheckEnabled p;
     e_HealthCheckPath := e_HealthCheckPath p; e_HealthCheckIntervalSeconds := e_HealthCheckIntervalSeconds p;
     e_HealthCheckFailThreshold := e_HealthCheckFailThreshold p; e_WSInspection := e_WSInspection p;
     e_MTLS := e_MTLS p; e_UpstreamMTLS := e_UpstreamMTLS p; e_VirtualPatches := e_VirtualPatches p;
     e_UseCustomErrorPages := e_UseCustomErrorPages p; e_DisabledErrorPages := e_DisabledErrorPages p |}.

(** The profile of a site here: the last one given for it, or the zero value. *)
Definition location_profile (bySite : gmap string EasyProfileInput) (site : SiteInput) : EasyProfileInput :=
  applySecurityModePolicy (rate_profile (default (with_site_id (s_ID site) zero_profile) (bySite !! s_ID site))).

Definition RenderEasyRateLimitArtifacts (sites : list SiteInput) (upstreams : list UpstreamInput)
    (profiles : list EasyProfileInput) : result (list ArtifactOutput) :=
  '(sorted, upstreamByID) ← normalizeInputs sites upstreams;
  profileBySite ← index_by Ok (fun p => trim_space (e_SiteID p)) ∅ profiles;
  let enabled := List.filter s_Enabled sorted in
  let zones site := imap (easy_zone (s_ID site))
    (normalizeCompilerCustomLimitRules (e_CustomLimitRules (location_profile profileBySite site))) in
  artifacts ← map_results (fun site =>
      let upstream := default no_upstream (upstreamByID !! s_DefaultUpstreamID site) in
      content ← wrap_error ("render easy locations template for " ++ s_ID site ++ ": ")
        (render_easy_locations (location_data site upstream (location_profile profileBySite site)));
      Ok (nginx_artifact ("nginx/easy-locations/" ++ s_ID site ++ ".conf") content)) enabled;
  Ok (nginx_artifact "nginx/conf.d/easy-ratelimits.conf" (easy_zones_text (mjoin (zones <$> enabled))) :: artifacts).
End Sites.

(** ** Watching without blocking *)
Section Quiet.
Context `{Environment} `{Regexps} `{EasyTemplates}.

Definition quiet_mode (mode : string) : bool := mem (lower_trim mode) ["monitor"; "transparent"].

Lemma security_mode_fixed mode : lower_trim (security_mode mode) = security_mode mode.
Proof. unfold security_mode. destruct (mem _ _); [apply lower_trim_twice | reflexivity]. Qed.

Lemma security_mode_quiet mode : quiet_mode mode = true -> security_mode mode = lower_trim mode.
Proof.
  unfold quiet_mode, security_mode. rewrite mem_spec. intros Hm. rewrite (proj2 (mem_spec _ _)); [done|].
  apply elem_of_cons in Hm as [->|Hm]; [right; left|]. apply list_elem_of_singleton in Hm as ->. right; right; left.
Qed.

Lemma checked_profile raw p : easy_profile_checks raw = Ok p -> p = applySecurityModePolicy (normal_profile raw).
Proof.
  unfold easy_profile_checks. unbind. intros E. repeat (case_match; try discriminate). by simplify_eq.
Qed.

(** The fields the policy of a quiet mode leaves. *)
Record quiet_profile (p : EasyProfileInput) : Prop := MkQuiet {
  q_limits : e_UseLimitConn p = false /\ e_UseLimitReq p = false /\ e_CustomLimitRules p = [] /\ e_UseBadBehavior p = false;
  q_lists : e_BlacklistIP p = [] /\ e_BlacklistUserAgent p = [] /\ e_BlacklistURI p = [] /\ e_BlacklistJA3 p = [] /\
            e_BlacklistCountry p = [] /\ e_WhitelistCountry p = [];
  q_challenge : e_AntibotChallenge p = "no" /\ e_AntibotScannerAutoBan p = false /\ e_AntibotChallengeRules p = [] /\
                e_ChallengeEscalationEnabled p = false;
  q_gate : e_UseAuthBasic p = false;
  q_rules : lower_trim (e_SecurityMode p) = "transparent" -> e_UseModSecurity p = false
}.

Lemma policy_quiet p : quiet_mode (e_SecurityMode p) = true ->
  quiet_profile (applySecurityModePolicy p) /\ e_SecurityMode (applySecurityModePolicy p) = e_SecurityMode p.
Proof.
  unfold quiet_mode. intros Hm%mem_spec. split; [|done].
  assert (Hq : String.eqb (lower_trim (e_SecurityMode p)) "transparent" || String.eqb (lower_trim (e_SecurityMode p)) "monitor" = true).
  { apply elem_of_cons in Hm as [->|Hm]; [done|]. by apply list_elem_of_singleton in Hm as ->. }
  split; cbn -[lower_trim String.eqb]; rewrite ?Hq; [done..|]. by intros ->.
Qed.

Lemma quiet_site_data site p : quiet_profile p ->
  let d := easy_site_data site p in
  d_AuthEnabled d = false /\ d_AuthBasicEnabled d = false /\ d_AntibotEnabled d = false /\
  d_AntibotUsesInterstitial d = false /\ d_AntibotRuleOverrides d = [] /\ d_AntibotScannerAutoBan d = false /\
  d_BlacklistIP d = [] /\ d_BlacklistUserAgent d = [] /\ d_BlacklistURI d = [] /\ d_BlacklistJA3 d = [] /\
  d_BlacklistCountryGuardPattern d = "" /\ d_WhitelistCountryGuardPattern d = "" /\ d_RateLimitBanSeconds d = 0.
Proof.
  intros [(B1 & B2 & B3 & B4) (L1 & L2 & L3 & L4 & L5 & L6) (C1 & C2 & C3 & C4) G _].
  cbn [easy_site_data d_AuthEnabled d_AuthBasicEnabled d_AntibotEnabled d_AntibotUsesInterstitial d_AntibotRuleOverrides
    d_AntibotScannerAutoBan d_BlacklistIP d_BlacklistUserAgent d_BlacklistURI d_BlacklistJA3
    d_BlacklistCountryGuardPattern d_WhitelistCountryGuardPattern d_RateLimitBanSeconds].
  unfold gate_enabled, gate_basic, gate_by_password, gate_open, antibot_on, default_challenge, antibot_two_layer, rateLimitBanSeconds.
  rewrite G, C1, C2, C3, C4, L1, L2, L3, L4, L5, L6, B4. done.
Qed.

Lemma quiet_files site p : quiet_profile p -> gate_files site p = Ok [] /\ challenge_files site p = Ok [].
Proof.
  intros Hq. destruct (quiet_site_data site p Hq) as (Ha & Hb & _ & Hi & _).
  unfold gate_files, challenge_files. by rewrite Ha, Hb, Hi.
Qed.

End Quiet.

(** ** One challenge, two files *)
Section Agreement.
Context `{Environment} `{Regexps}.

(** The challenge settings are in the form the control plane stores them in. *)
Definition challenge_normal (p : EasyProfileInput) : Prop :=
  text_or "no" (lower_trim (e_AntibotChallenge p)) = e_AntibotChallenge p /\
  rooted_uri (text_or "/challenge" (trim_space (e_AntibotURI p))) = e_AntibotURI p /\
  text_or "javascript" (lower_trim (e_ChallengeEscalationMode p)) = e_ChallengeEscalationMode p.

(** The fields the challenge and the gate of a site depend on. *)
Definition gate_fields (p : EasyProfileInput) :=
  (e_UseAuthBasic p, e_AuthMode p, e_AuthOrder p, e_AuthBasicText p, e_AuthSessionTTLMin p,
   enabledAuthUsers (e_AuthUsers p), e_AuthServiceTokens p).
Definition challenge_fields (p : EasyProfileInput) :=
  (e_AntibotChallenge p, e_AntibotURI p, e_ChallengeEscalationEnabled p, e_ChallengeEscalationMode p,
   e_AntibotSessionTTLMin p, (e_AntibotRecaptchaKey p, e_AntibotHcaptchaKey p, e_AntibotTurnstileKey p)).

Lemma same_gate_fields raw :
  gate_fields (applySecurityModePolicy (normal_profile raw)) = gate_fields (applySecurityModePolicy (rate_profile raw)).
Proof. reflexivity. Qed.

Lemma same_challenge_fields raw : challenge_normal raw ->
  challenge_fields (applySecurityModePolicy (normal_profile raw)) =
  challenge_fields (applySecurityModePolicy (rate_profile raw)).
Proof.
  intros (Hc & Hu & Hm). unfold challenge_fields, applySecurityModePolicy.
  cbn [e_AntibotChallenge e_AntibotURI e_ChallengeEscalationEnabled e_ChallengeEscalationMode e_AntibotSessionTTLMin
       e_AntibotRecaptchaKey e_AntibotHcaptchaKey e_AntibotTurnstileKey normal_profile rate_profile e_SecurityMode].
  by rewrite Hc, Hu, Hm.
Qed.

(** The single older user is already in the list of a normal profile. *)
Lemma gate_users_complete raw :
  site_auth_users (applySecurityModePolicy (normal_profile raw)) =
  enabledAuthUsers (e_AuthUsers (applySecurityModePolicy (normal_profile raw))).
Proof.
  unfold site_auth_users. cbn [applySecurityModePolicy normal_profile e_AuthBasicUser e_AuthBasicPassword e_AuthUsers].
  unfold gate_users. destruct (normalizeAuthUsers (e_AuthUsers raw)) as [|u users]; [|done].
  destruct (is_empty (trim_space (e_AuthBasicUser raw))) eqn:E; [|done].
  cbn [length Nat.eqb andb]. by rewrite trim_space_idem, E.
Qed.

Lemma normal_escalation raw : challenge_normal raw ->
  lower_trim (e_ChallengeEscalationMode raw) = e_ChallengeEscalationMode raw.
Proof.
  intros (_ & _ & Hm). rewrite <- Hm. unfold text_or. destruct (is_empty _) eqn:E; [done | apply lower_trim_twice].
Qed.

(** What the locations of a site say about its challenge and its gate. *)
Definition location_gate (l : easyLocationData) :=
  (l_AntibotEnabled l, l_AntibotTwoLayerEnabled l, l_AntibotUsesInterstitial l,
   (l_AntibotURI l, l_AntibotVerifyURI l, l_AntibotStage1URI l, l_AntibotStage1VerifyURI l),
   (l_AntibotStage1CookieName l, l_AntibotStage1CookieValue l, l_AntibotCookieName l, l_AntibotCookieValue l, l_AntibotCookieTTL l),
   (l_AuthEnabled l, l_AuthBasicEnabled l, l_AuthTokenEnabled l, l_AuthBasicRealm l, l_AuthBasicUserFile l),
   (l_AuthGateCookieKey l, l_AuthGateCookieVal l, l_AuthGateCookieTTL l, l_AuthTokenRules l)).
Definition site_gate (d : easySiteData) :=
  (d_AntibotEnabled d, d_AntibotTwoLayerEnabled d, d_AntibotUsesInterstitial d,
   (d_AntibotURI d, d_AntibotVerifyURI d, d_AntibotStage1URI d, d_AntibotStage1VerifyURI d),
   (d_AntibotStage1CookieName d, d_AntibotStage1CookieValue d, d_AntibotCookieName d, d_AntibotCookieValue d, d_AntibotCookieTTL d),
   (d_AuthEnabled d, d_AuthBasicEnabled d, d_AuthTokenEnabled d, d_AuthBasicRealm d, d_AuthBasicUserFile d),
   (d_AuthGateCookieKey d, d_AuthGateCookieVal d, d_AuthGateCookieTTL d, d_AuthTokenRules d)).

(** Both renderers compute what they say from these fields. *)
Lemma gates_from_fields site upstream p q : gate_fields p = gate_fields q -> challenge_fields p = challenge_fields q ->
  site_auth_users p = enabledAuthUsers (e_AuthUsers p) -> default_challenge p = location_challenge q ->
  site_gate (easy_site_data site p) = location_gate (location_data site upstream q).
Proof.
  intros [= G1 G2 G3 G4 G5 G6 G7] [= C1 C2 C3 C4 C5 C6 C7 C8] Hu Hd.
  unfold site_gate, location_gate.
  cbn [easy_site_data location_data d_AntibotEnabled d_AntibotTwoLayerEnabled d_AntibotUsesInterstitial d_AntibotURI
    d_AntibotVerifyURI d_AntibotStage1URI d_AntibotStage1VerifyURI d_AntibotStage1CookieName d_AntibotStage1CookieValue
    d_AntibotCookieName d_AntibotCookieValue d_AntibotCookieTTL d_AuthEnabled d_AuthBasicEnabled d_AuthTokenEnabled
    d_AuthBasicRealm d_AuthBasicUserFile d_AuthGateCookieKey d_AuthGateCookieVal d_AuthGateCookieTTL d_AuthTokenRules
    l_AntibotEnabled l_AntibotTwoLayerEnabled l_AntibotUsesInterstitial l_AntibotURI
    l_AntibotVerifyURI l_AntibotStage1URI l_AntibotStage1VerifyURI l_AntibotStage1CookieName l_AntibotStage1CookieValue
    l_AntibotCookieName l_AntibotCookieValue l_AntibotCookieTTL l_AuthEnabled l_AuthBasicEnabled l_AuthTokenEnabled
    l_AuthBasicRealm l_AuthBasicUserFile l_AuthGateCookieKey l_AuthGateCookieVal l_AuthGateCookieTTL l_AuthTokenRules].
  unfold gate_enabled, gate_basic, gate_token, gate_by_password, gate_by_token, gate_open, antibot_two_layer, antibot_on,
    antibotStage1CookieValue, antibotCookieValue, antibotCookieTTLSeconds, authGateCookieValue, authGateCookieTTLSeconds.
  by rewrite Hu, Hd, G1, G2, G3, G4, G5, G6, G7, C1, C2, C3, C4, C5, C6, C7, C8.
Qed.

End Agreement.

(** ** Examples *)
Module Samples.
Definition plain_environment : Environment := Build_Environment (fun _ => "").
Definition plain_regexps : Regexps := Build_Regexps (fun _ => None).
(** Pages without text, no themed challenge pages. *)
Definition blank_templates : EasyTemplates :=
  {| render_easy_site := fun _ => Ok ""; render_easy_locations := fun _ => Ok ""; render_auth_page := fun _ _ => Ok "";
     challenge_template_exists := fun _ => false; render_challenge_page := fun _ _ => Ok "" |}.

(** A profile with a gate, a challenge in two stages, a rate limit and blocked countries. *)
Definition guarded (mode : string) : EasyProfileInput :=
  MkEasyProfile "shop" mode [] "" "" "" [] false 0 false false false [] "" false "" false false false false false
    false true "basic" "" "" "" "" "" [MkServiceUser "alice" "s3cret" true ""] [] [] 0 "captcha" "" "/check" 0 true (e_AntibotRecaptchaScore zero_profile) "" "" ""
    "" "" [] true "javascript" [] true 100 0 0 true "" "50r/s" [MkCustomLimit "/login" "5r/s"] true [429] 30
    ["192.0.2.1"] ["bot"] ["/wp-admin"] [] [] [] ["xx"] [] false false [] true false false "" [] [] "" "" "" []
    false "" "" "" [] false false "" 0 0 (MkWSInspection false [] 0 0) (MkMTLS false false 0 "" false)
    (MkUpstreamMTLS false "" "" "") [] false [].
Definition shop : SiteInput :=
  MkSite "shop" "shop" true "shop.example" [] true false "app" true false (MkMTLS false false 0 "" false) false false.
Definition app : UpstreamInput := MkUpstream "app" "shop" "app" "http" "10.0.0.5" 8080 "" true.
End Samples.

(** What the checks make of a raw profile, when they accept it. *)
Definition checked (r : result EasyProfileInput) : EasyProfileInput := match r with Ok p => p | Err _ => zero_profile end.


