(* ===== verification/VirtualPatches.v ===== *)
(** * Virtual patches (control-plane/internal/virtualpatches, services/virtualpatches.go)

    Rules an operator adds to a site, one JSON document.  The regular expression compiler is the
    class [Regexps]. *)
From Stdlib Require Import ZArith Lia Ascii String.
From stdpp Require Import base tactics strings list.
From S2P Require Import Prelude GoTime GoNet GoSeq DocStore Bundle EasyRules.
Local Set Warnings "-clear-no-such-hyp".
Local Open Scope string_scope.
Local Open Scope Z_scope.
Local Notation "a +++ b" := (@app _ a b) (at level 60, right associativity).

Definition TargetURI : string := "uri".
Definition TargetBody : string := "body".
Definition TargetHeader : string := "header".
Definition ActionBlock : string := "block".
Definition ActionMonitor : string := "monitor".

Record VirtualPatch := MkPatch {
  ID : string;
  SiteID : string;
  Pattern : string;
  Target : string;
  Action : string;
  ExpiresAt : string;
  Description : string;
  CreatedAt : string;
  CreatedBy : string
}.

Record state := MkState { Patches : list VirtualPatch }.

(** ** A patch (types.go) *)
Definition IsExpired (now : Z) (p : VirtualPatch) : bool :=
  if is_blank (ExpiresAt p) then false
  else match parse_rfc3339 (ExpiresAt p) with Some t => t <? now | None => false end.

Definition Normalize (p : VirtualPatch) : VirtualPatch :=
  MkPatch (ID p) (trim_space (SiteID p)) (trim_space (Pattern p)) (lower_trim (Target p)) (lower_trim (Action p))
    (trim_space (ExpiresAt p)) (trim_space (Description p)) (CreatedAt p) (trim_space (CreatedBy p)).

Definition safePatchIdentifier (value : string) : bool :=
  let value := trim_space value in negb (is_empty value) && all_chars identifier_char value.

Definition containsControlCharacter (value : string) : bool := any_char control_char value.

Section Patches.
Context `{Regexps}.

Definition Validate (p : VirtualPatch) : result unit :=
  reject_if (negb (safePatchIdentifier (ID p))) "virtual patch id must be a safe identifier";;
  reject_if (is_blank (SiteID p)) "virtual patch site_id is required";;
  reject_if (is_blank (Pattern p)) "virtual patch pattern is required";;
  reject_if (containsControlCharacter (Pattern p)) "virtual patch pattern must not contain control characters";;
  match regexp_error (Pattern p) with
  | Some e => Err ("virtual patch pattern is not a valid regex: " ++ e)
  | None => Ok tt
  end;;
  reject_if (negb (mem (Target p) [TargetURI; TargetBody; TargetHeader])) "virtual patch target must be uri, body, or header";;
  reject_if (negb (mem (Action p) [ActionBlock; ActionMonitor])) "virtual patch action must be block or monitor";;
  reject_if (negb (is_empty (ExpiresAt p)) && bool_decide (parse_rfc3339 (ExpiresAt p) = None))
    "virtual patch expires_at must be RFC3339 format".

(** ** The store (store.go) *)
Definition sortPatches (items : list VirtualPatch) : list VirtualPatch := sort_on ID items.
Definition patches_config : doc_config state :=
  DocConfig "virtual patches store" (MkState []) (fun s => MkState (sortPatches (Patches s))).

Definition set_CreatedAt (t : string) (p : VirtualPatch) : VirtualPatch :=
  MkPatch (ID p) (SiteID p) (Pattern p) (Target p) (Action p) (ExpiresAt p) (Description p) t (CreatedBy p).

Definition createTx (patch : VirtualPatch) (t : Z) (current : state) : result (state * VirtualPatch) :=
  match find_key ID (ID patch) (Patches current) with
  | Some _ => Err ("virtual patch " ++ ID patch ++ " already exists")
  | None =>
      let patch := set_CreatedAt (format_rfc3339 t) patch in
      Ok (MkState (sortPatches (Patches current +++ [patch])), patch)
  end.

Definition Create (patch : VirtualPatch) : sop state VirtualPatch :=
  let patch := Normalize patch in
  lift (Validate patch);;
  lift (reject_if (is_blank (ID patch)) "virtual patch id is required");;
  transact patches_config (createTx patch).

Definition listed (siteID : string) (patches : list VirtualPatch) : list VirtualPatch :=
  sortPatches (List.filter (fun p => is_empty siteID || String.eqb (SiteID p) siteID) patches).

Definition List (siteID : string) : sop state (list VirtualPatch) :=
  query patches_config (fun _ current => Ok (listed siteID (Patches current))).

Definition ListActive (siteID : string) : sop state (list VirtualPatch) := fun e s =>
  (all ← List siteID; mret (List.filter (fun p => negb (IsExpired (now e) p)) all)) e s.

Definition deleteTx (id : string) (_ : Z) (current : state) : result (state * unit) :=
  match find_key ID id (Patches current) with
  | Some (i, _) => Ok (MkState (sortPatches (delete i (Patches current))), tt)
  | None => Err ("virtual patch " ++ id ++ " not found")
  end.

Definition Delete (id : string) : sop state unit :=
  let id := trim_space id in
  lift (reject_if (is_empty id) "virtual patch id is required");;
  transact patches_config (deleteTx id).

(** ** The service (services/virtualpatches.go): the checks before the store, the identifier drawn
    from the clock *)
Definition generateVirtualPatchID (t : Z) : string := "vp-" ++ itoa t.

Definition service_Create (patch : VirtualPatch) : sop state VirtualPatch := fun e s =>
  let patch := Normalize patch in
  let patch := if is_blank (ID patch)
               then MkPatch (generateVirtualPatchID (now e)) (SiteID patch) (Pattern patch) (Target patch) (Action patch)
                      (ExpiresAt patch) (Description patch) (CreatedAt patch) (CreatedBy patch)
               else patch in
  (lift (Validate patch);; Create patch) e s.
End Patches.

Definition service_List (siteID : string) : sop state (list VirtualPatch) :=
  let siteID := trim_space siteID in
  lift (reject_if (is_empty siteID) "site id is required");; List siteID.
Definition service_ListActive (siteID : string) : sop state (list VirtualPatch) :=
  let siteID := trim_space siteID in
  lift (reject_if (is_empty siteID) "site id is required");; ListActive siteID.

(** ** Histories *)
Section Histories.
Context `{Regexps}.

Inductive command := CCreate (patch : VirtualPatch) | CServiceCreate (patch : VirtualPatch) | CDelete (id : string).

Definition exec (c : command) : sop state unit :=
  match c with
  | CCreate patch => Create patch;; mret tt
  | CServiceCreate patch => service_Create patch;; mret tt
  | CDelete id => Delete id
  end.

Definition patch_ok (p : VirtualPatch) : Prop := Validate p = Ok tt /\ Normalize p = p.

Record patches_ok (s : state) : Prop := MkOk {
  po_distinct : NoDup (ID <$> Patches s);
  po_sorted : sorted_on ID (Patches s);
  po_valid : Forall patch_ok (Patches s)
}.

#[export] Instance patches_inv : DocInv patches_config patches_ok.
Proof.
  split; [repeat constructor|]. intros [l] [Hn Hs Hv]. split; cbn.
  - by rewrite (NoDup_fmap_perm ID _ l) by apply sort_on_perm.
  - apply sort_on_sorted.
  - by apply Forall_sort_on.
Qed.

Lemma Normalize_idem p : Normalize (Normalize p) = Normalize p.
Proof. destruct p. unfold Normalize. f_equal; apply trim_space_idem || apply normalize_id_idem. Qed.

Lemma createPatch_ok patch t s s' p : patch_ok patch -> patches_ok s -> createTx patch t s = Ok (s', p) ->
  patches_ok s' /\ p = set_CreatedAt (format_rfc3339 t) patch /\ Patches s' ≡ₚ p :: Patches s.
Proof.
  intros [Hv Hnorm] [Hn Hs Hall]. unfold createTx. destruct (find_key ID (ID patch) (Patches s)) as [[i x]|] eqn:Ef; [discriminate|].
  intros [= <- <-]. set (q := set_CreatedAt (format_rfc3339 t) patch).
  assert (Hq : ID q ∉ ID <$> Patches s).
  { intros (x & E & Hx)%list_elem_of_fmap. unfold find_key in Ef. rewrite find_where_None in Ef.
    apply Ef in Hx. unfold has_key in Hx. change (ID q) with (ID patch) in E. by rewrite E, String.eqb_refl in Hx. }
  assert (Hok : patch_ok q) by (split; [exact Hv|]; change (Normalize q) with (set_CreatedAt (format_rfc3339 t) (Normalize patch)); by rewrite Hnorm).
  unfold sortPatches. split; [split; cbn|].
  - rewrite (NoDup_fmap_perm ID _ (Patches s +++ [q])) by apply sort_on_perm. by apply NoDup_key_snoc.
  - apply sort_on_sorted.
  - apply Forall_sort_on, Forall_app. split; [done | by constructor].
  - split; [done|]. cbn. rewrite sort_on_perm. by rewrite (Permutation_app_comm _ [q]).
Qed.

Lemma deleteTx_ok id t s s' u : patches_ok s -> deleteTx id t s = Ok (s', u) -> patches_ok s'.
Proof.
  intros [Hn Hs Hall]. unfold deleteTx. destruct (find_key ID id (Patches s)) as [[i x]|]; [|discriminate].
  intros [= <- <-]. split; cbn; unfold sortPatches.
  - rewrite (NoDup_fmap_perm ID _ (delete i (Patches s))) by apply sort_on_perm. by apply NoDup_key_delete.
  - apply sort_on_sorted.
  - by apply Forall_sort_on, Forall_delete.
Qed.

Lemma Create_preserves patch : preserves patches_ok (Create patch).
Proof.
  unfold Create. destruct (Validate (Normalize patch)) as [[]|msg] eqn:Ev; [|by intros e s Hs].
  apply bind_preserves; [apply lift_preserves|]. intros _. apply bind_preserves; [apply lift_preserves|]. intros _.
  apply (transact_preserves _ _). intros t d d' a Hd E.
  by eapply (createPatch_ok (Normalize patch)) in E as (? & _); [|split; [done | apply Normalize_idem]|].
Qed.

Lemma patch_exec_preserves c : preserves patches_ok (exec c).
Proof.
  destruct c as [patch|patch|id]; cbn.
  - apply bind_preserves; [apply Create_preserves | by intros a e s].
  - apply bind_preserves; [|by intros a e s]. intros e s Hs. unfold service_Create.
    match goal with |- holds _ (((lift ?r);; ?m) e s).1 => apply (bind_preserves patches_ok (lift r) (fun _ => m)) end;
      [apply lift_preserves | intros _; apply Create_preserves | done].
  - unfold Delete. apply bind_preserves; [apply lift_preserves|]. intros _. apply (transact_preserves _ _).
    intros t d d' a. apply deleteTx_ok.
Qed.

(** The patch as the compiler gets it (mapVirtualPatches of services/runtime_apply.go). *)
Definition compiled (p : VirtualPatch) : Inputs.VirtualPatchInput :=
  Inputs.MkVirtualPatch (ID p) (Pattern p) (Target p) (Action p).

Lemma valid_patch_usable p : patch_ok p -> usable_patch (compiled p) = true.
Proof.
  intros [Hv Hn]. assert (Ht : trim_space (Pattern p) = Pattern p) by (rewrite <- Hn; apply trim_space_idem).
  unfold Validate in Hv. unbind. unfold usable_patch. cbn [compiled Inputs.vp_Pattern]. rewrite Ht.
  destruct (reject_if (negb (safePatchIdentifier (ID p))) _); [|discriminate].
  destruct (reject_if (is_blank (SiteID p)) _); [|discriminate].
  destruct (reject_if (is_blank (Pattern p)) _) eqn:Eb; [|discriminate]. apply reject_if_ok in Eb.
  destruct (reject_if (containsControlCharacter (Pattern p)) _) eqn:Ec; [|discriminate]. apply reject_if_ok in Ec.
  destruct (regexp_error (Pattern p)) eqn:Er; [discriminate|].
  unfold is_blank in Eb. rewrite Ht in Eb. unfold containsControlCharacter in Ec. rewrite Eb, Ec. cbn [negb andb].
  rewrite bool_decide_eq_false_2; [done|]. by intros [? ?].
Qed.

End Histories.

(** ** Examples *)
Module Samples.
Definition always_valid : Regexps := Build_Regexps (fun _ => None).
Definition patch (id : string) : VirtualPatch := MkPatch id " shop " "/admin" "URI" "block" "" "" "" "".
Definition created : list (env * command) :=
  [(healthy 5, CCreate (patch "b")); (healthy 6, CServiceCreate (patch "")); (healthy 7, CCreate (patch "b")); (healthy 8, CDelete "x")].
End Samples.


(** Identifiers are checked trimmed but kept as given: one with blanks around it cannot be deleted. *)
Example blank_identifier_stays :
  let R := Samples.always_valid in
  let s := (Create (Samples.patch " b ") (healthy 5) new_file_state).1 in
  (Delete " b " (healthy 6) s).2 = Err "virtual patch b not found".
Proof. reflexivity. Qed.
