(* ===== verification/ManagementHosts.v ===== *)
(** * Management hosts (control-plane/internal/managementhosts, services/management_hosts.go)

    Which hosts lead to the administration, one settings document with a version for optimistic
    concurrency. *)
From Stdlib Require Import ZArith Lia Ascii String.
From stdpp Require Import base tactics strings list sets.
From S2P Require Import Prelude GoTime GoText GoNet GoSeq DocStore ConfigStores.
Local Set Warnings "-clear-no-such-hyp".
Local Open Scope string_scope.
Local Open Scope Z_scope.

Record Settings := MkSettings {
  Hosts : list string;
  BlockDirectIPAccess : bool;
  Version : Z;
  Migrated : bool;
  SetupRequired : bool;
  UpdatedAt : string
}.

Definition ErrVersionConflict : string := "management hosts version conflict".

(** ** Hosts *)
Definition canonical_host (raw : string) : string := to_lower (trim_suffix "." (trim_space raw)).

Definition host_ok (host : string) : bool :=
  bool_decide (is_Some (ParseIP host)) || String.eqb host "localhost" ||
  negb ((253 <? Z.of_nat (String.length host)) || contains_any "/:@" host || negb (contains "." host)).

(** The loop over the hosts: the set seen is the output so far. *)
Fixpoint normal_hosts (seen : list string) (hosts : list string) : result (list string) :=
  match hosts with
  | [] => Ok []
  | raw :: rest =>
      let host := canonical_host raw in
      if is_empty host then normal_hosts seen rest
      else if negb (host_ok host) then Err ("invalid management host " ++ quoted raw)
      else if mem host seen then normal_hosts seen rest
      else out ← normal_hosts (host :: seen) rest; Ok (host :: out)
  end.

Definition NormalizeHosts (hosts : list string) : result (list string) := sort_on id <$> normal_hosts [] hosts.

(** ** The store (store.go) *)
Definition normal_settings (out : Settings) : result Settings :=
  hosts ← NormalizeHosts (Hosts out);
  Ok (MkSettings hosts (BlockDirectIPAccess out) (Version out) (Migrated out)
        (negb (Migrated out) || Nat.eqb (length hosts) 0) (UpdatedAt out)).

Definition no_settings : Settings := MkSettings [] false 0 false true "".

Definition loadLocked : sop Settings Settings :=
  c ← Load;
  match c with
  | None => mret no_settings
  | Some (Garbage msg) => throw msg
  | Some (Decodes out) => lift (normal_settings out)
  end.

Definition saveLocked (item : Settings) : sop Settings unit := Save (Decodes item).

Definition Get : sop Settings Settings := loadLocked.

Definition next_settings (t : Z) (hosts : list string) (version : Z) (current : Settings) : Settings :=
  MkSettings hosts (BlockDirectIPAccess current) version true false (format_rfc3339_nano t).

Definition Update (hosts : list string) (version : Z) : sop Settings Settings := fun e s =>
  (current ← loadLocked;
   lift (reject_if (negb (version =? Version current)) ErrVersionConflict);;
   canonical ← lift (NormalizeHosts hosts);
   lift (reject_if (Nat.eqb (length canonical) 0) "at least one management host is required");;
   let item := next_settings (now e) canonical (wrap64 (Version current + 1)) current in
   saveLocked item;;
   mret item) e s.

Definition UpdateDirectIPAccess (block : bool) : sop Settings Settings := fun e s =>
  (current ← loadLocked;
   if Bool.eqb (BlockDirectIPAccess current) block then mret current
   else
     let item := MkSettings (Hosts current) block (wrap64 (Version current + 1)) (Migrated current)
                   (SetupRequired current) (format_rfc3339_nano (now e)) in
     saveLocked item;;
     mret item) e s.

(** The second result says whether the settings were written. *)
Definition Bootstrap (host : string) : sop Settings (Settings * bool) := fun e s =>
  (current ← loadLocked;
   if Migrated current || negb (Nat.eqb (length (Hosts current)) 0) then mret (current, false)
   else match NormalizeHosts [host] with
        | Err _ => mret (current, false)
        | Ok [] => mret (current, false)
        | Ok hosts =>
            let item := next_settings (now e) hosts 1 current in
            saveLocked item;;
            mret (item, true)
        end) e s.

(** ** The service *)
Definition enabled_hosts (items : list Sites.Site) : list string :=
  (fun site => canonical_host (Sites.PrimaryHost site)) <$> List.filter Sites.Enabled items.

Definition ensureEnabledManagementSites (sites : result (list Sites.Site)) (hosts : list string) : result unit :=
  reject_if (Nat.eqb (length hosts) 0) "at least one management host is required";;
  items ← match sites with Ok items => Ok items | Err e => Err ("list sites for management-host validation: " ++ e) end;
  match find_where (fun host => negb (mem host (enabled_hosts items))) hosts with
  | Some (_, host) => Err ("management host " ++ quoted host ++
      " must match an enabled site's primary_host before it can be saved")
  | None => Ok tt
  end.

(** [sites] is what the site store lists during the call. *)
Definition service_Update (sites : result (list Sites.Site)) (hosts : list string) (version : Z) : sop Settings Settings :=
  canonical ← lift (NormalizeHosts hosts);
  current ← Get;
  lift (reject_if (negb (version =? Version current)) ErrVersionConflict);;
  lift (ensureEnabledManagementSites sites canonical);;
  Update canonical version.

(** ** Canonical lists *)
Lemma normal_hosts_spec seen hosts out : normal_hosts seen hosts = Ok out ->
  NoDup out /\ (forall h, h ∈ out <-> h <> "" /\ h ∈ canonical_host <$> hosts /\ h ∉ seen) /\
  Forall (fun h => host_ok h = true) out.
Proof.
  revert seen out. induction hosts as [|raw hosts IH]; intros seen out; cbn [normal_hosts].
  { intros [= <-]. split; [constructor|]. split; [|constructor]. intros h. rewrite elem_of_nil. cbn. set_solver. }
  set (host := canonical_host raw). destruct (is_empty host) eqn:Ee; [|destruct (negb (host_ok host)) eqn:Eh; [discriminate|]].
  - intros E. destruct (IH _ _ E) as (Hn & Hin & Hok). split; [done|]. split; [|done]. intros h. rewrite Hin. cbn [fmap list_fmap].
    fold host. rewrite elem_of_cons. assert (host = "") by (by destruct host). set_solver.
  - destruct (mem host seen) eqn:Em.
    + apply mem_spec in Em. intros E. destruct (IH _ _ E) as (Hn & Hin & Hok). split; [done|]. split; [|done].
      intros h. rewrite Hin. cbn [fmap list_fmap]. fold host. rewrite elem_of_cons. set_solver.
    + apply mem_false in Em. unbind. destruct (normal_hosts (host :: seen) hosts) as [rest|] eqn:E; [|discriminate].
      intros [= <-]. destruct (IH _ _ E) as (Hn & Hin & Hok). split; [|split].
      * apply NoDup_cons. split; [|done]. rewrite Hin. set_solver.
      * intros h. rewrite elem_of_cons, Hin. cbn [fmap list_fmap]. fold host. rewrite !elem_of_cons.
        assert (host <> "") by (by destruct host). destruct (decide (h = host)); set_solver.
      * constructor; [by apply negb_false_iff | done].
Qed.

Lemma NormalizeHosts_spec hosts out : NormalizeHosts hosts = Ok out ->
  NoDup out /\ sorted_on id out /\ (forall h, h ∈ out <-> h <> "" /\ h ∈ canonical_host <$> hosts) /\
  Forall (fun h => host_ok h = true) out.
Proof.
  unfold NormalizeHosts. destruct (normal_hosts [] hosts) as [l|] eqn:E; [|discriminate]. intros [= <-].
  destruct (normal_hosts_spec _ _ _ E) as (Hn & Hin & Hok). split; [|split; [|split]].
  - by rewrite (sort_on_perm id l).
  - apply sort_on_sorted.
  - intros h. rewrite elem_of_sort_on, Hin. set_solver.
  - by apply Forall_sort_on.
Qed.

(** ** Optimistic concurrency *)
Lemma loadLocked_spec e s s' r : loadLocked e s = (s', r) ->
  visible s' = visible s /\
  match r with
  | Ok current => match visible s with
                  | None => current = no_settings
                  | Some (Decodes d) => normal_settings d = Ok current
                  | Some (Garbage _) => False
                  end
  | Err _ => True
  end.
Proof.
  unfold loadLocked, mbind, sop_bind. destruct (Load e s) as [s1 [c|msg]] eqn:E; apply Load_spec in E as [Hv Hc].
  - subst c. destruct (visible s) as [[d|g]|]; intros [= <- <-]; try done. split; [done|]. by destruct (normal_settings d).
  - by intros [= <- <-].
Qed.

Lemma normal_settings_version d current : normal_settings d = Ok current ->
  Version current = Version d /\ NormalizeHosts (Hosts d) = Ok (Hosts current).
Proof. unfold normal_settings. unbind. destruct (NormalizeHosts (Hosts d)); [|discriminate]. by intros [= <-]. Qed.

(** The version a reader of the document sees. *)
Definition version_of (s : json_state Settings) : option Z :=
  match visible s with
  | None => Some 0
  | Some (Decodes d) => Some (Version d)
  | Some (Garbage _) => None
  end.

Lemma loadLocked_version e s s' current : loadLocked e s = (s', Ok current) ->
  version_of s' = Some (Version current) /\ version_of s = Some (Version current).
Proof.
  intros E. apply loadLocked_spec in E as [Hv Hc]. unfold version_of. rewrite Hv.
  destruct (visible s) as [[d|g]|]; [|done|by subst]. by apply normal_settings_version in Hc as [-> _].
Qed.

Lemma saved_version e s s' item : saveLocked item e s = (s', Ok tt) -> version_of s' = Some (Version item).
Proof. unfold saveLocked, Save. destruct (write_fault e); [discriminate|]. by intros [= <-]. Qed.

Lemma save_failed e s s' item msg : saveLocked item e s = (s', Err msg) -> s' = s.
Proof. unfold saveLocked, Save. destruct (write_fault e); [by intros [= <- _] | discriminate]. Qed.

Inductive command :=
| CUpdate (hosts : list string) (version : Z)
| CServiceUpdate (sites : result (list Sites.Site)) (hosts : list string) (version : Z)
| CDirectIP (block : bool).

Definition exec (c : command) : sop Settings unit :=
  match c with
  | CUpdate hosts version => Update hosts version;; mret tt
  | CServiceUpdate sites hosts version => service_Update sites hosts version;; mret tt
  | CDirectIP block => UpdateDirectIPAccess block;; mret tt
  end.

(** Between [lo] and [hi], far from the largest version. *)
Definition version_in (lo hi : Z) (s : json_state Settings) : Prop := exists v, version_of s = Some v /\ lo <= v <= hi.

Lemma version_in_same lo hi s s' : version_of s' = version_of s -> version_in lo hi s -> version_in lo (hi + 1) s'.
Proof. intros E (v & Hv & Hb). exists v. rewrite E. split; [done | lia]. Qed.

Lemma load_keeps_version e s s' r : loadLocked e s = (s', r) -> version_of s' = version_of s.
Proof. intros [Hv _]%loadLocked_spec. unfold version_of. by rewrite Hv. Qed.

(** What a call that loads, decides and saves one more than the version it saw leaves behind. *)
Lemma step_version lo hi current e s s1 s2 r item :
  - 2 ^ 63 <= lo -> hi + 1 < 2 ^ 63 -> version_in lo hi s -> loadLocked e s = (s1, Ok current) ->
  Version item = wrap64 (Version current + 1) -> saveLocked item e s1 = (s2, r) -> version_in lo (hi + 1) s2.
Proof.
  intros Hlo Hhi (v & Hv & Hb) Hl Hi Hs. apply loadLocked_version in Hl as [H1 H0]. rewrite H0 in Hv. injection Hv as <-.
  destruct r as [[]|msg].
  - apply saved_version in Hs. exists (Version item). split; [done|]. rewrite Hi. unfold wrap64.
    rewrite Z.mod_small by lia. lia.
  - apply save_failed in Hs as ->. exists (Version current). split; [done | lia].
Qed.

Lemma Update_version hosts version lo hi e s : - 2 ^ 63 <= lo -> hi + 1 < 2 ^ 63 ->
  version_in lo hi s -> version_in lo (hi + 1) (Update hosts version e s).1.
Proof.
  intros Hlo Hhi Hs. unfold Update, mbind, sop_bind, lift, mret, sop_ret.
  destruct (loadLocked e s) as [s1 [current|msg]] eqn:El; cbn; [|eapply version_in_same; [by eapply load_keeps_version | done]].
  assert (Hkeep : version_in lo (hi + 1) s1) by (eapply version_in_same; [by eapply load_keeps_version | done]).
  destruct (reject_if _ _); cbn; [|done]. destruct (NormalizeHosts hosts) as [canonical|]; cbn; [|done].
  destruct (reject_if _ _); cbn; [|done].
  destruct (saveLocked _ e s1) as [s2 r] eqn:Es. assert (version_in lo (hi + 1) s2) by (eapply step_version; [..|exact Es]; done).
  by destruct r.
Qed.

Lemma exec_version c lo hi e s : - 2 ^ 63 <= lo -> hi + 2 < 2 ^ 63 ->
  version_in lo hi s -> version_in lo (hi + 2) (exec c e s).1.
Proof.
  intros Hlo Hhi Hs.
  assert (Hweak : forall t, version_in lo (hi + 1) t -> version_in lo (hi + 2) t) by (intros t (v & ? & ?); exists v; split; [done | lia]).
  destruct c as [hosts version|sites hosts version|block]; unfold exec, mbind at 1, sop_bind at 1.
  - pose proof (Update_version hosts version lo hi e s Hlo ltac:(lia) Hs) as H. destruct (Update _ _ e s) as [s' [a|m]]; by apply Hweak.
  - enough (version_in lo (hi + 2) (service_Update sites hosts version e s).1) by (by destruct (service_Update _ _ _ e s) as [s' [a|m]]).
    unfold service_Update, mbind, sop_bind, lift. destruct (NormalizeHosts hosts) as [canonical|];
      [|by apply Hweak, version_in_same with (s := s)].
    unfold Get. destruct (loadLocked e s) as [s1 [current|m]] eqn:El; cbn.
    all: assert (Hkeep : version_in lo (hi + 1) s1) by (eapply version_in_same; [by eapply load_keeps_version | done]).
    2: by apply Hweak.
    destruct (reject_if _ _); cbn; [|by apply Hweak]. destruct (ensureEnabledManagementSites _ _); cbn; [|by apply Hweak].
    replace (hi + 2) with (hi + 1 + 1) by lia. apply Update_version; [done | lia | done].
  - enough (version_in lo (hi + 1) (UpdateDirectIPAccess block e s).1) by (destruct (UpdateDirectIPAccess _ e s) as [s' [a|m]]; by apply Hweak).
    unfold UpdateDirectIPAccess, mbind, sop_bind, mret, sop_ret.
    destruct (loadLocked e s) as [s1 [current|msg]] eqn:El; cbn; [|eapply version_in_same; [by eapply load_keeps_version | done]].
    destruct (Bool.eqb _ _); [eapply version_in_same; [by eapply load_keeps_version | done]|].
    destruct (saveLocked _ e s1) as [s2 r] eqn:Es.
    assert (version_in lo (hi + 1) s2) by (eapply step_version; [done|lia|done|done| |exact Es]; done). by destruct r.
Qed.

Lemma history_version h lo hi s : - 2 ^ 63 <= lo -> hi + 2 * Z.of_nat (length h) < 2 ^ 63 ->
  version_in lo hi s -> version_in lo (hi + 2 * Z.of_nat (length h)) (run_history exec h s).
Proof.
  intros Hlo. revert hi s. induction h as [|[e c] h IH]; intros hi s Hhi Hs; [by rewrite Z.add_0_r|].
  cbn [length] in *. replace (hi + 2 * Z.of_nat (S (length h))) with (hi + 2 + 2 * Z.of_nat (length h)) by lia.
  unfold run_history. cbn [foldl]. apply IH; [lia|]. cbn. apply exec_version; [done | lia | done].
Qed.

(** What a successful update has stored. *)
Lemma Update_stored hosts version e s s' a : Update hosts version e s = (s', Ok a) ->
  visible s' = Some (Decodes a) /\ NormalizeHosts hosts = Ok (Hosts a) /\ Hosts a <> [] /\ Version a = wrap64 (version + 1).
Proof.
  unfold Update, mbind, sop_bind, lift, mret, sop_ret.
  destruct (loadLocked e s) as [s0 [current|]]; [|discriminate].
  destruct (reject_if (negb _) _) eqn:Er; [|discriminate]. apply reject_if_ok, negb_false_iff, Z.eqb_eq in Er.
  destruct (NormalizeHosts hosts) as [canonical|] eqn:En; [|discriminate].
  destruct (reject_if (Nat.eqb _ _) _) eqn:Ec; [|discriminate]. apply reject_if_ok in Ec.
  unfold saveLocked, Save. destruct (write_fault e); [discriminate|]. intros [= <- <-]. cbn.
  split; [done|]. split; [done|]. split; [by destruct canonical|]. by rewrite Er.
Qed.

(** C28: No update of the management hosts is lost.  When an update based on some version succeeds,
    no later update based on the same version does, whatever updates and changes of the direct access
    policy came between, on the store or through the service, under any clock and failures of the
    backend (short of the largest 64-bit version); and what was stored is the canonical form of the
    hosts given. *)
Theorem management_updates_not_lost (hosts1 hosts2 : list string) (version : Z) (h : list (env * command))
    (e1 e2 : env) (s s1 : json_state Settings) (a1 : Settings) :
  0 <= version -> version + 1 + 2 * Z.of_nat (length h) < 2 ^ 63 ->
  Update hosts1 version e1 s = (s1, Ok a1) ->
  (visible s1 = Some (Decodes a1) /\ NormalizeHosts hosts1 = Ok (Hosts a1) /\ Hosts a1 <> [] /\ Version a1 = version + 1) /\
  forall s2 a2, Update hosts2 version e2 (run_history exec h s1) <> (s2, Ok a2).
Proof.
  intros Hv Hh E. assert (Hfirst : visible s1 = Some (Decodes a1) /\ NormalizeHosts hosts1 = Ok (Hosts a1) /\ Hosts a1 <> [] /\
    Version a1 = version + 1).
  { apply Update_stored in E as (Hd & Hn & Hne & Hw). rewrite Hw. unfold wrap64. rewrite Z.mod_small by lia. repeat split; [done..|lia]. }
  split; [exact Hfirst|]. destruct Hfirst as (Hvis & _ & _ & Hver).
  assert (Hin : version_in (version + 1) (version + 1 + 2 * Z.of_nat (length h)) (run_history exec h s1)).
  { apply history_version; [lia | lia|]. exists (version + 1). unfold version_of. rewrite Hvis, Hver. split; [done | lia]. }
  intros s2 a2. unfold Update, mbind, sop_bind, lift.
  destruct (loadLocked e2 _) as [s3 [current|]] eqn:El; [|discriminate].
  apply loadLocked_version in El as [_ Hc]. destruct Hin as (v & Hv' & Hb). rewrite Hc in Hv'. injection Hv' as <-.
  destruct (reject_if (negb _) _) eqn:Er; [|discriminate]. apply reject_if_ok, negb_false_iff, Z.eqb_eq in Er. lia.
Qed.


(** Through the service every stored host leads to an enabled site. *)
Lemma service_hosts_enabled (items : list Sites.Site) (hosts : list string) (version : Z)
    (e : env) (s s' : json_state Settings) (a : Settings) :
  service_Update (Ok items) hosts version e s = (s', Ok a) ->
  exists canonical, NormalizeHosts hosts = Ok canonical /\ NormalizeHosts canonical = Ok (Hosts a) /\
    forall host, host ∈ canonical -> exists site, site ∈ items /\ Sites.Enabled site = true /\
      canonical_host (Sites.PrimaryHost site) = host.
Proof.
  unfold service_Update, mbind, sop_bind, lift. destruct (NormalizeHosts hosts) as [canonical|] eqn:En; [|discriminate].
  destruct (Get e s) as [s0 [current|]]; [|discriminate].
  destruct (reject_if (negb _) _) eqn:Er; [|discriminate].
  destruct (ensureEnabledManagementSites (Ok items) canonical) as [[]|] eqn:Ee; [|discriminate].
  intros Hu. exists canonical. split; [done|]. split.
  - by apply Update_stored in Hu as (_ & Hn & _).
  - intros host Hh. unfold ensureEnabledManagementSites in Ee. unbind.
    destruct (reject_if (Nat.eqb _ _) _); [|discriminate].
    destruct (find_where _ canonical) as [[i x]|] eqn:Ef; [discriminate|].
    pose proof (proj1 (find_where_None _ _) Ef host Hh) as Hm. cbv beta in Hm. apply negb_false_iff, mem_spec in Hm.
    unfold enabled_hosts in Hm. apply list_elem_of_fmap in Hm as (site & -> & Hs).
    apply list_elem_of_In, filter_In in Hs as [Hs Henabled]. apply list_elem_of_In in Hs. eauto.
Qed.

(** ** Examples *)
Module Samples.
Definition panel : Sites.Site := Sites.MkSite "panel" "Panel.example." true "" "".
Definition first : json_state Settings := (Update [" Panel.Example."; "panel.example"] 0 (healthy 5) new_file_state).1.
Definition between : list (env * command) :=
  [(healthy 6, CDirectIP true); (healthy 7, CServiceUpdate (Ok [panel]) ["panel.example"] 2); (healthy 8, CUpdate ["x"] 3)].
End Samples.

Lemma management_updates_not_lost_witness :
  (exists a, visible Samples.first = Some (Decodes a) /\ Hosts a = ["panel.example"] /\ Version a = 1) /\
  (exists a, visible (run_history exec Samples.between Samples.first) = Some (Decodes a) /\ Version a = 3) /\
  forall s2 a2, Update ["other.example"] 0 (healthy 9) (run_history exec Samples.between Samples.first) <> (s2, Ok a2).
Proof.
  split; [eexists; split; [reflexivity | split; reflexivity]|]. split; [eexists; split; reflexivity|].
  refine (proj2 (management_updates_not_lost [" Panel.Example."; "panel.example"] ["other.example"] 0 Samples.between
    (healthy 5) (healthy 9) new_file_state Samples.first _ _ _ eq_refl)); [lia | cbn; lia].
Defined.

(** The migration at start-up sets the version to 1 whatever it was: an update based on an older
    version 1 goes through although the settings have changed twice since. *)
Example bootstrap_resets_version :
  let s1 := (UpdateDirectIPAccess true (healthy 1) new_file_state).1 in
  let s2 := (UpdateDirectIPAccess false (healthy 2) s1).1 in
  let s3 := (Bootstrap "panel.example" (healthy 3) s2).1 in
  version_of s1 = Some 1 /\ version_of s2 = Some 2 /\ version_of s3 = Some 1 /\
  is_ok (Update ["other.example"] 1 (healthy 4) s3).2 = true.
Proof. vm_compute. done. Qed.
