(* ===== verification/L4Guard.v ===== *)
(** * The L4 guard of the runtime container (runtime/config/l4guard/main.go)

    Reads its configuration from the environment and two JSON files, then installs iptables rules
    for both IP families.  The environment, the decoded files, the clock and the network interfaces
    are arguments; the [executor] interface is the class [Executor], and [Iptables] states what the
    guard relies on about the iptables commands it runs: a model of the chains they act on, the
    effect of each command that succeeds, and that a command that fails changes nothing.  The
    instance [simulated_iptables] shows the laws can hold. *)
From Stdlib Require Import ZArith Lia Ascii String.
From stdpp Require Import base tactics gmap strings list.
From S2P Require Import Prelude GoTime GoHash GoText GoNet.
Local Set Warnings "-clear-no-such-hyp".
Local Open Scope string_scope.
Local Open Scope Z_scope.
Local Notation "a +++ b" := (@app _ a b) (at level 60, right associativity).

(** ** Data *)
Record adaptiveEntry := AdaptiveEntry { IP : string; Action : string; ExpiresAt : string }.

Record adaptiveConfig := AdaptiveConfig {
  Entries : list adaptiveEntry;
  ThrottleRatePerSecond : Z;
  ThrottleBurst : Z;
  ThrottleTarget : string
}.

Record config := Config {
  Enabled : bool;
  ChainMode : string;
  ConnLimit : Z;
  RatePerSec : Z;
  RateBurst : Z;
  Ports : list Z;
  Target : string;
  DestinationIP : string;
  Adaptive : adaptiveConfig
}.

(** The two JSON files; [*bool] is an option. *)
Record fileConfig := FileConfig {
  file_Enabled : option bool;
  file_ChainMode : string;
  file_ConnLimit : Z;
  file_RatePerSec : Z;
  file_RateBurst : Z;
  file_Ports : list Z;
  file_Target : string;
  file_DestinationIP : string
}.

Record adaptiveFileConfig := AdaptiveFileConfig {
  file_Entries : list adaptiveEntry;
  file_ThrottleRatePerSecond : Z;
  file_ThrottleBurst : Z;
  file_ThrottleTarget : string
}.

#[export] Instance adaptiveEntry_eq_dec : EqDecision adaptiveEntry.
Proof. solve_decision. Defined.
#[export] Instance adaptiveConfig_eq_dec : EqDecision adaptiveConfig.
Proof. solve_decision. Defined.
#[export] Instance config_eq_dec : EqDecision config.
Proof. solve_decision. Defined.

Definition defaultConnLimit : Z := 50.
Definition defaultRatePerSec : Z := 30.
Definition defaultRateBurst : Z := 60.
Definition defaultPorts : string := "80,443".
Definition customChainName : string := "WAF-RUNTIME-L4".
Definition defaultChainMode : string := "auto".
Definition defaultTarget : string := "DROP".
Definition defaultEnabled : bool := true.
Definition defaultConfigPath : string := "/etc/waf/l4guard/config.json".
Definition defaultAdaptivePath : string := "/etc/waf/l4guard-adaptive/adaptive.json".
Definition iptablesIPv4 : string := "iptables".
Definition iptablesIPv6 : string := "ip6tables".

(** ** Ports *)

(** One turn of the loop of [parsePorts]; the state is the set [seen] and the ports so far. *)
Definition parsePort (st : gset Z * list Z) (part : string) : result (gset Z * list Z) :=
  let value := trim_space part in
  if is_empty value then Ok st
  else match atoi value with
       | Some port =>
           if (port <=? 0) || (65535 <? port) then Err ("invalid L4 guard port " ++ quoted value)
           else if decide (port ∈ st.1) then Ok st
           else Ok ({[port]} ∪ st.1, st.2 +++ [port])
       | None => Err ("invalid L4 guard port " ++ quoted value)
       end.

Fixpoint parsePortParts (st : gset Z * list Z) (parts : list string) : result (gset Z * list Z) :=
  match parts with
  | [] => Ok st
  | part :: parts' => st' ← parsePort st part; parsePortParts st' parts'
  end.

Definition parsePorts (raw : string) : result (list Z) :=
  st ← parsePortParts (∅, []) (split_on "," raw);
  let ports := sort_on id st.2 in
  match ports with
  | [] => Err "at least one L4 guard port is required"
  | _ => Ok ports
  end.

Definition joinPorts (ports : list Z) : string := join "," (itoa <$> ports).

Example ports_example : parsePorts "443, 80,443" = Ok [80; 443].
Proof. reflexivity. Qed.

(** ** Configuration *)

(** What [os.ReadFile] returns. *)
Inductive read_result := NotExist | Unreadable (msg : string) | Content (text : string).

(** What [loadConfig] reads: the environment, the files with their decoders, the clock. *)
Record inputs := Inputs {
  Getenv : string -> string;
  ReadFile : string -> read_result;
  decode_config : string -> result fileConfig;
  decode_adaptive : string -> result adaptiveFileConfig;
  now : Z
}.

Definition default_config : config :=
  Config defaultEnabled defaultChainMode defaultConnLimit defaultRatePerSec defaultRateBurst []
    defaultTarget "" (AdaptiveConfig [] 5 10 "REJECT").

Definition path_or (inp : inputs) (name fallback : string) : string :=
  let path := trim_space (Getenv inp name) in if is_empty path then fallback else path.

(** [if strings.TrimSpace(s) != "" { field = f(strings.TrimSpace(s)) }] *)
Definition text_or (f : string -> string) (s old : string) : string :=
  if is_blank s then old else f (trim_space s).

(** [if n > 0 { field = n }] *)
Definition positive_or (n old : Z) : Z := if 0 <? n then n else old.

Definition apply_item (item : fileConfig) (cfg : config) : config :=
  Config (default (Enabled cfg) (file_Enabled item))
    (text_or to_lower (file_ChainMode item) (ChainMode cfg))
    (positive_or (file_ConnLimit item) (ConnLimit cfg))
    (positive_or (file_RatePerSec item) (RatePerSec cfg))
    (positive_or (file_RateBurst item) (RateBurst cfg))
    (match file_Ports item with [] => Ports cfg | ports => sort_on id ports end)
    (text_or to_upper (file_Target item) (Target cfg))
    (text_or id (file_DestinationIP item) (DestinationIP cfg))
    (Adaptive cfg).

Definition applyFileConfig (inp : inputs) (cfg : config) : result config :=
  match ReadFile inp (path_or inp "WAF_L4_GUARD_CONFIG_PATH" defaultConfigPath) with
  | NotExist => Ok cfg
  | Unreadable e => Err ("read l4 guard config file: " ++ e)
  | Content text =>
      match decode_config inp text with
      | Err e => Err ("decode l4 guard config file: " ++ e)
      | Ok item => Ok (apply_item item cfg)
      end
  end.

(** [parsed.Before(now)] for an expiry that parses *)
Definition expired (t : Z) (expiresAt : string) : bool :=
  match parse_rfc3339 expiresAt with Some parsed => parsed <? t | None => false end.

Definition entry_key (ip action : string) : string := ip ++ "|" ++ action.

(** One turn of the loop over the entries; the state is [seen] and [filtered]. *)
Definition filterEntry (t : Z) (st : gset string * list adaptiveEntry) (entry : adaptiveEntry)
  : gset string * list adaptiveEntry :=
  let ip := trim_space (IP entry) in
  let action := normalize_id (Action entry) in
  let expiresAt := trim_space (ExpiresAt entry) in
  let key := entry_key ip action in
  match ParseIP ip with
  | None => st
  | Some _ =>
      if negb (String.eqb action "throttle") && negb (String.eqb action "drop") then st
      else if negb (is_empty expiresAt) && expired t expiresAt then st
      else if decide (key ∈ st.1) then st
      else ({[key]} ∪ st.1, st.2 +++ [AdaptiveEntry ip action expiresAt])
  end.

(** The order of the installed rules: by action, then by address. *)
Definition entry_order (e : adaptiveEntry) : string * string := (Action e, IP e).

Definition filterEntries (t : Z) (entries : list adaptiveEntry) : list adaptiveEntry :=
  sort_on entry_order (foldl (filterEntry t) (∅, []) entries).2.

Definition applyAdaptiveFileConfig (inp : inputs) (cfg : config) : result config :=
  match ReadFile inp (path_or inp "WAF_L4_GUARD_ADAPTIVE_PATH" defaultAdaptivePath) with
  | NotExist => Ok cfg
  | Unreadable e => Err ("read adaptive l4 guard config file: " ++ e)
  | Content text =>
      match decode_adaptive inp text with
      | Err e => Err ("decode adaptive l4 guard config file: " ++ e)
      | Ok item =>
          let a := Adaptive cfg in
          Ok (Config (Enabled cfg) (ChainMode cfg) (ConnLimit cfg) (RatePerSec cfg) (RateBurst cfg)
                (Ports cfg) (Target cfg) (DestinationIP cfg)
                (AdaptiveConfig
                   (filterEntries (now inp) (file_Entries item))
                   (positive_or (file_ThrottleRatePerSecond item) (ThrottleRatePerSecond a))
                   (positive_or (file_ThrottleBurst item) (ThrottleBurst a))
                   (text_or to_upper (file_ThrottleTarget item) (ThrottleTarget a))))
      end
  end.

(** A positive integer from the environment, or the value so far. *)
Definition env_positive (inp : inputs) (name : string) (old : Z) : result Z :=
  let value := trim_space (Getenv inp name) in
  if is_empty value then Ok old
  else match atoi value with
       | Some number => if number <=? 0 then Err (name ++ " must be a positive integer") else Ok number
       | None => Err (name ++ " must be a positive integer")
       end.

Definition env_text (inp : inputs) (f : string -> string) (name old : string) : string :=
  text_or f (Getenv inp name) old.

Definition env_enabled (inp : inputs) (old : bool) : bool :=
  let value := trim_space (Getenv inp "WAF_L4_GUARD_ENABLED") in
  if is_empty value then old else negb (equal_fold value "false") && negb (String.eqb value "0").

Definition env_destination (inp : inputs) (old : string) : result string :=
  let value := trim_space (Getenv inp "WAF_L4_GUARD_DESTINATION_IP") in
  if is_empty value then Ok old
  else match ParseIP value with
       | Some ip => Ok (ip_string ip)
       | None => Err "WAF_L4_GUARD_DESTINATION_IP must be a valid IP address"
       end.

Definition env_ports (inp : inputs) (old : list Z) : result (list Z) :=
  let value := trim_space (Getenv inp "WAF_L4_GUARD_PORTS") in
  if negb (is_empty value) then parsePorts value
  else match old with [] => parsePorts defaultPorts | _ => Ok old end.

(** The last lines of [loadConfig], on the adaptive part. *)
Definition fix_adaptive (a : adaptiveConfig) : adaptiveConfig :=
  let rate := if ThrottleRatePerSecond a <=? 0 then 5 else ThrottleRatePerSecond a in
  let burst := if ThrottleBurst a <=? 0 then wrap64 (rate * 2) else ThrottleBurst a in
  let target := if negb (String.eqb (ThrottleTarget a) "DROP") && negb (String.eqb (ThrottleTarget a) "REJECT")
                then "REJECT" else ThrottleTarget a in
  AdaptiveConfig (Entries a) rate burst target.

Definition loadConfig (inp : inputs) : result config :=
  cfg ← applyFileConfig inp default_config;
  cfg ← applyAdaptiveFileConfig inp cfg;
  let enabled := env_enabled inp (Enabled cfg) in
  let chainMode := env_text inp to_lower "WAF_L4_GUARD_CHAIN_MODE" (ChainMode cfg) in
  connLimit ← env_positive inp "WAF_L4_GUARD_CONN_LIMIT" (ConnLimit cfg);
  ratePerSec ← env_positive inp "WAF_L4_GUARD_RATE_PER_SECOND" (RatePerSec cfg);
  rateBurst ← env_positive inp "WAF_L4_GUARD_RATE_BURST" (RateBurst cfg);
  let target := env_text inp to_upper "WAF_L4_GUARD_TARGET" (Target cfg) in
  destination ← env_destination inp (DestinationIP cfg);
  ports ← env_ports inp (Ports cfg);
  _ ← reject_if (negb (String.eqb chainMode "auto") && negb (String.eqb chainMode "docker-user") &&
                 negb (String.eqb chainMode "input"))
        "WAF_L4_GUARD_CHAIN_MODE must be auto, docker-user, or input";
  _ ← reject_if (negb (String.eqb target "DROP") && negb (String.eqb target "REJECT"))
        "WAF_L4_GUARD_TARGET must be DROP or REJECT";
  Ok (Config enabled chainMode connLimit ratePerSec rateBurst ports target destination
        (fix_adaptive (Adaptive cfg))).

(** ** iptables *)
Section Guard.
Context {W : Type}.

(** What a command does to the world [W]: an error or a value, and the new world. *)
Definition guardop (A : Type) : Type := W -> result A * W.

#[export] Instance guardop_ret : MRet guardop := fun A a w => (Ok a, w).
#[export] Instance guardop_bind : MBind guardop := fun A B k m w =>
  match m w with (Ok a, w') => k a w' | (Err e, w') => (Err e, w') end.

(** [x, err := f()] with the error at hand, and [fmt.Errorf("...: %w", err)]. *)
Definition attempt {A} (m : guardop A) : guardop (result A) := fun w => let '(r, w') := m w in (Ok r, w').
Definition wrap_err {A} (prefix : string) (m : guardop A) : guardop A := fun w =>
  match m w with (Err e, w') => (Err (prefix ++ e), w') | res => res end.
Definition lift {A} (r : result A) : guardop A := fun w => (r, w).
End Guard.
Arguments guardop W A : clear implicits.

Class Executor (W : Type) := {
  Run : string -> list string -> guardop W unit;
  Output : string -> list string -> guardop W string
}.

(** A network interface, as [net.Interfaces] and [Addrs] report it: the addresses are [None]
    when [Addrs] fails, and an address is [None] when it is not an [IPNet] with an address. *)
Record net_interface := NetInterface {
  FlagUp : bool;
  FlagLoopback : bool;
  Addrs : option (list (option ip))
}.

(** The first address of an interface that is up and not a loopback which [accept] prints. *)
Definition primary_address (accept : ip -> option string) (interfaces : list net_interface)
  : option string :=
  let try_interface iface :=
    if negb (FlagUp iface) || FlagLoopback iface then None
    else match Addrs iface with
         | None => None
         | Some addresses =>
             head (omap (fun address => ip ← address; if is_loopback ip then None else accept ip)
                     addresses)
         end in
  head (omap try_interface interfaces).

Definition primaryIPv4 (interfaces : result (list net_interface)) : result string :=
  interfaces ← interfaces;
  match primary_address (fun ip => if is_v4 ip then Some (ip_string ip) else None) interfaces with
  | Some text => Ok text
  | None => Err "no non-loopback ipv4 address found"
  end.

Definition primaryIPv6 (interfaces : result (list net_interface)) : result string :=
  interfaces ← interfaces;
  match primary_address (fun ip =>
          if is_v4 ip || is_link_local_unicast ip || is_link_local_multicast ip then None
          else Some (ip_string ip)) interfaces with
  | Some text => Ok text
  | None => Err "no non-loopback ipv6 address found"
  end.

Definition errFamilyNotConfigured : string := "ip family not configured".
(** [errors.Is(err, errFamilyNotConfigured)] *)
Definition is_not_configured (err : string) : bool := String.eqb err errFamilyNotConfigured.

Definition resolveDestinationIP (interfaces : result (list net_interface))
  (override : string) (ipv6 : bool) : result string :=
  let value := trim_space override in
  if negb (is_empty value) then
    match ParseIP value with
    | None => Err "invalid destination ip"
    | Some ip => if Bool.eqb ipv6 (is_v4 ip) then Err errFamilyNotConfigured else Ok (ip_string ip)
    end
  else if ipv6 then
    match primaryIPv6 interfaces with Ok ip => Ok ip | Err _ => Err errFamilyNotConfigured end
  else primaryIPv4 interfaces.

(** ** Rules *)
Definition guardRules (target : string) (connLimit ratePerSec rateBurst : Z) (ipv6 : bool)
  : list (list string) :=
  let connlimitMask := if ipv6 then "128" else "32" in
  [["-p"; "tcp";
    "-m"; "connlimit";
    "--connlimit-mask"; connlimitMask;
    "--connlimit-above"; itoa connLimit;
    "-j"; target];
   ["-p"; "tcp";
    "-m"; "conntrack";
    "--ctstate"; "NEW";
    "-m"; "hashlimit";
    "--hashlimit-name"; "waf-runtime-l4-rate";
    "--hashlimit-mode"; "srcip";
    "--hashlimit-above"; itoa ratePerSec ++ "/second";
    "--hashlimit-burst"; itoa rateBurst;
    "--hashlimit-htable-expire"; "600000";
    "-j"; target];
   ["-j"; "RETURN"]].

Definition adaptiveHashlimitName (ip : string) : string :=
  "waf-l4-ad-" ++ match sha1_words ip with w :: _ => hex_word 8 w | [] => "" end.

(** The rule of one entry, when the entry is of this family. *)
Definition adaptiveRule (cfg : config) (ipv6 : bool) (entry : adaptiveEntry) : option (list string) :=
  match ParseIP (IP entry) with
  | None => None
  | Some parsedIP =>
      if negb (Bool.eqb ipv6 (negb (is_v4 parsedIP))) then None
      else if String.eqb (Action entry) "drop" then
        Some ["-p"; "tcp"; "-s"; IP entry; "-j"; Target cfg]
      else if String.eqb (Action entry) "throttle" then
        Some ["-p"; "tcp";
              "-s"; IP entry;
              "-m"; "conntrack";
              "--ctstate"; "NEW";
              "-m"; "hashlimit";
              "--hashlimit-name"; adaptiveHashlimitName (IP entry);
              "--hashlimit-mode"; "srcip";
              "--hashlimit-above"; itoa (ThrottleRatePerSecond (Adaptive cfg)) ++ "/second";
              "--hashlimit-burst"; itoa (ThrottleBurst (Adaptive cfg));
              "--hashlimit-htable-expire"; "600000";
              "-j"; ThrottleTarget (Adaptive cfg)]
      else None
  end.

Definition adaptiveRules (cfg : config) (ipv6 : bool) : list (list string) :=
  omap (adaptiveRule cfg ipv6) (Entries (Adaptive cfg)).

Definition parentJumpRule (parentChain destinationIP : string) (ports : list Z) : list string :=
  ["-p"; "tcp"] +++
  (if String.eqb parentChain "DOCKER-USER" && negb (is_empty destinationIP)
   then ["-d"; destinationIP] else []) +++
  ["-m"; "multiport"; "--dports"; joinPorts ports; "-j"; customChainName].

Definition desiredRules (cfg : config) (ipv6 : bool) : list (list string) :=
  adaptiveRules cfg ipv6 +++
  guardRules (Target cfg) (ConnLimit cfg) (RatePerSec cfg) (RateBurst cfg) ipv6.

(** ** Commands *)
Section Commands.
Context {W : Type} `{Executor W}.

Definition chainExists (table chain : string) : guardop W bool :=
  r ← attempt (Output table ["-w"; "-S"; chain]); mret (is_ok r).

Definition ensureChain (table chain : string) : guardop W unit :=
  there ← chainExists table chain;
  if there : bool then mret tt
  else wrap_err ("create chain " ++ chain ++ ": ") (Run table ["-w"; "-N"; chain]).

Definition flushChain (table chain : string) : guardop W unit :=
  wrap_err ("flush chain " ++ chain ++ ": ") (Run table ["-w"; "-F"; chain]).

Definition ensureJumpRule (table parentChain : string) (rule : list string) : guardop W unit :=
  checked ← attempt (Run table (["-w"; "-C"; parentChain] +++ rule));
  if is_ok checked then mret tt
  else Run table (["-w"; "-I"; parentChain; "1"] +++ rule).

(** The loop of [deleteJumpRule]; [None] when the fuel runs out. *)
Fixpoint deleteJumpRule (fuel : nat) (table parentChain : string) (rule : list string) (w : W)
  : option (result unit * W) :=
  match fuel with
  | O => None
  | S fuel' =>
    let check := Run table (["-w"; "-C"; parentChain] +++ rule) in
    match check w with
    | (Err _, w) => Some (Ok tt, w)
    | (Ok _, w) =>
      match Run table (["-w"; "-D"; parentChain] +++ rule) w with
      | (Ok _, w) => deleteJumpRule fuel' table parentChain rule w
      | (Err e, w) =>
        match check w with
        | (Err _, w) => Some (Ok tt, w)
        | (Ok _, w) => Some (Err ("delete stale jump rule from " ++ parentChain ++ ": " ++ e), w)
        end
      end
    end
  end.

(** The rules [-S] lists for the chain: the lines that start with [-A chain ]. *)
Definition listed_rules (chain output : string) : list string :=
  omap (fun line =>
    let line := trim_space line in
    let prefix := "-A " ++ chain ++ " " in
    if has_prefix prefix line then Some (trim_prefix prefix line) else None)
  (split_on (ascii_of_nat 10) output).

Definition chainRulesMatch (table chain : string) (desired : list (list string)) : guardop W bool :=
  r ← attempt (Output table ["-w"; "-S"; chain]);
  mret match r with
  | Err _ => false
  | Ok output => bool_decide (listed_rules chain output = join " " <$> desired)
  end.

Definition resolveParentChain (interfaces : result (list net_interface)) (cfg : config)
  (table : string) (ipv6 : bool) : guardop W (string * string) :=
  let resolved := resolveDestinationIP interfaces (DestinationIP cfg) ipv6 in
  if String.eqb (ChainMode cfg) "docker-user" then
    ip ← lift resolved;
    there ← chainExists table "DOCKER-USER";
    if there : bool then mret ("DOCKER-USER", ip)
  else lift (Err "DOCKER-USER chain not found in current namespace")
  else if String.eqb (ChainMode cfg) "input" then mret ("INPUT", "")
  else
    there ← chainExists table "DOCKER-USER";
    mret match there : bool, resolved with
    | true, Ok ip => if is_empty ip then ("INPUT", "") else ("DOCKER-USER", ip)
    | _, _ => ("INPUT", "")
    end.

Fixpoint appendRules (table : string) (rules : list (list string)) : guardop W unit :=
  match rules with
  | [] => mret tt
  | rule :: rules' =>
    _ ← wrap_err ("append guard rule (" ++ table ++ "): ")
    (Run table (["-w"; "-A"; customChainName] +++ rule));
    appendRules table rules'
  end.

(** The rewriting of the chain when its rules are not the desired ones. *)
Definition refreshRules (table : string) (desired : list (list string)) : guardop W unit :=
  same ← chainRulesMatch table customChainName desired;
  if same : bool then mret tt
  else _ ← flushChain table customChainName; appendRules table desired.

Definition bootstrapFamily (interfaces : result (list net_interface)) (cfg : config)
  (table : string) (ipv6 : bool) : guardop W unit :=
  '(parentChain, destinationIP) ← resolveParentChain interfaces cfg table ipv6;
  if is_empty parentChain then lift (Err errFamilyNotConfigured)
  else
    _ ← ensureChain table customChainName;
    _ ← refreshRules table (desiredRules cfg ipv6);
    wrap_err ("insert jump rule into " ++ parentChain ++ " via " ++ table ++ ": ")
    (ensureJumpRule table parentChain (parentJumpRule parentChain destinationIP (Ports cfg))).

Definition bootstrap (interfaces : result (list net_interface)) (cfg : config) : guardop W unit :=
  v4 ← attempt (bootstrapFamily interfaces cfg iptablesIPv4 false);
  v6 ← attempt (bootstrapFamily interfaces cfg iptablesIPv6 true);
  let errs :=
  (match v4 with Err e => [e] | Ok _ => [] end) +++
  (match v6 with Err e => if is_not_configured e then [] else [e] | Ok _ => [] end) in
  match errs with
  | [] => mret tt
  | _ => lift (Err (join "; " errs))
  end.

Definition run (interfaces : result (list net_interface)) (inp : inputs) (args : list string)
  : guardop W unit :=
  let command := match args with [] => "bootstrap" | arg :: _ => trim_space arg end in
  if negb (String.eqb command "bootstrap") then lift (Err ("unsupported command " ++ quoted command))
  else
    cfg ← lift (loadConfig inp);
    if negb (Enabled cfg) then mret tt else bootstrap interfaces cfg.
End Commands.

(** ** Ports: proofs *)
Lemma digit_not_space c : is_digit c = true -> negb (is_space c) = true.
Proof. by destruct c as [[] [] [] [] [] [] [] []]. Qed.
Lemma digit_not_comma c : is_digit c = true -> negb (Ascii.eqb c ",") = true.
Proof. by destruct c as [[] [] [] [] [] [] [] []]. Qed.

Definition valid_port (p : Z) : Prop := 0 < p <= 65535.

(** What [parsePorts] promises: ports in range, in strictly increasing order, at least one. *)
Definition port_list (ports : list Z) : Prop :=
  ports <> [] /\ Forall valid_port ports /\ NoDup ports /\ sorted_on id ports.

(** The state of the loop: [seen] is the set of the ports found. *)
Definition ports_state (st : gset Z * list Z) : Prop :=
  st.1 = list_to_set st.2 /\ Forall valid_port st.2 /\ NoDup st.2.

Lemma ports_state_nil : ports_state (∅, []).
Proof. split_and!; [done | constructor | constructor]. Qed.

Definition names_port (part : string) (port : Z) : Prop := atoi (trim_space part) = Some port.

Lemma parsePort_ok st part st' :
  ports_state st -> parsePort st part = Ok st' ->
  ports_state st' /\ (forall p, p ∈ st'.2 <-> p ∈ st.2 \/ (is_blank part = false /\ names_port part p)).
Proof.
  intros (Hseen & Hv & Hnd). unfold parsePort, names_port, is_blank.
  destruct (is_empty (trim_space part)) eqn:He; [intros [= <-]; split; [done|]; naive_solver|].
  destruct (atoi (trim_space part)) as [port|] eqn:Ha; [|discriminate].
  destruct ((port <=? 0) || (65535 <? port)) eqn:Hr; [discriminate|].
  apply orb_false_iff in Hr as [H1%Z.leb_gt H2%Z.ltb_ge].
  case_decide as Hin; intros [= <-]; simpl.
  - split; [done|]. intros p. rewrite Hseen, elem_of_list_to_set in Hin. naive_solver.
  - rewrite Hseen, elem_of_list_to_set in Hin. split.
    + split_and!; simpl.
      * rewrite list_to_set_app_L, Hseen. set_solver.
      * apply Forall_app. split; [done|]. repeat constructor; lia.
      * apply NoDup_app. split_and!; [done| |apply NoDup_singleton].
        intros x Hx Hx'%list_elem_of_singleton. by subst.
    + intros p. rewrite elem_of_app, list_elem_of_singleton. naive_solver.
Qed.

Lemma parsePortParts_ok parts st st' :
  ports_state st -> parsePortParts st parts = Ok st' ->
  ports_state st' /\ (forall p, p ∈ st'.2 <-> p ∈ st.2 \/
    exists part, part ∈ parts /\ is_blank part = false /\ names_port part p).
Proof.
  revert st. induction parts as [|part parts IH]; intros st Hst; cbn [parsePortParts].
  - intros [= <-]. split; [done|]. intros p. split; [by left|]. intros [?|(x & Hx & _)]; [done|].
    by apply not_elem_of_nil in Hx.
  - intros (st1 & H1 & H2)%result_bind_ok. apply parsePort_ok in H1 as [Hs1 He1]; [|done].
    apply IH in H2 as [Hs2 He2]; [|done]. split; [done|]. intros p. rewrite He2, He1.
    setoid_rewrite elem_of_cons. naive_solver.
Qed.

Lemma parsePorts_spec raw ports :
  parsePorts raw = Ok ports ->
  port_list ports /\
  (forall p, p ∈ ports <-> exists part, part ∈ split_on "," raw /\ is_blank part = false /\ names_port part p).
Proof.
  unfold parsePorts. intros (st & Hst & H)%result_bind_ok.
  apply parsePortParts_ok in Hst as [(Hseen & Hv & Hnd) He]; [|apply ports_state_nil].
  assert (Hsort : ports = sort_on id st.2 /\ ports <> []) by (by destruct (sort_on id st.2); simplify_eq).
  destruct Hsort as [-> Hne]. split.
  - split_and!; [done | by rewrite Forall_sort_on | by rewrite sort_on_perm | apply sort_on_sorted].
  - intros p. rewrite elem_of_sort_on, He. split; [|by right].
    intros [Hp|Hp]; [by apply not_elem_of_nil in Hp | done].
Qed.

Lemma parsePortParts_itoa ports st :
  ports_state st -> Forall valid_port ports -> NoDup (st.2 +++ ports) ->
  exists seen, parsePortParts st (itoa <$> ports) = Ok (seen, st.2 +++ ports).
Proof.
  revert st. induction ports as [|p ports IH]; intros st Hst Hv Hnd.
  - exists st.1. rewrite app_nil_r. by destruct st.
  - apply Forall_cons in Hv as [Hp Hv]. unfold valid_port in Hp. rewrite fmap_cons. cbn [parsePortParts].
    assert (Hone : parsePort st (itoa p) = Ok ({[p]} ∪ st.1, st.2 +++ [p])).
    { unfold parsePort. rewrite trim_space_no_space.
      2: { eapply all_chars_impl; [apply digit_not_space | apply itoa_is_digits; lia]. }
      rewrite (proj2 (is_empty_false _)) by (apply itoa_nonempty; lia).
      rewrite atoi_itoa by lia.
      rewrite (proj2 (Z.leb_gt _ _)), (proj2 (Z.ltb_ge _ _)) by lia. cbn [orb].
      rewrite decide_False; [done|]. destruct Hst as [-> _]. rewrite elem_of_list_to_set.
      apply NoDup_app in Hnd as (_ & Hd & _). intros Hin. by apply (Hd p Hin); left. }
    destruct (parsePort_ok st (itoa p) _ Hst Hone) as [Hst' _]. rewrite Hone. cbn [mbind result_bind].
    destruct (IH ({[p]} ∪ st.1, st.2 +++ [p])) as [seen E]; [done|done| |].
    { cbn [snd]. by rewrite <- (assoc_L app). }
    exists seen. rewrite E. cbn [snd]. by rewrite <- (assoc_L app).
Qed.

(** [parsePorts] on a list of ports as [joinPorts] prints it: a list that is what
    [parsePorts] returns (in range, increasing, no port twice) is read back unchanged, so the
    text in the jump rule denotes exactly the configured ports. *)
Theorem parsePorts_joinPorts (ports : list Z) :
  port_list ports -> parsePorts (joinPorts ports) = Ok ports.
Proof.
  intros (Hne & Hv & Hnd & Hs). unfold parsePorts, joinPorts. change "," with (String "," "").
  rewrite split_on_joined.
  - destruct (parsePortParts_itoa ports (∅, []) ports_state_nil) as [seen E]; [done|done|].
    rewrite E. cbn [mbind result_bind snd app]. rewrite sort_on_id by done. by destruct ports.
  - by destruct ports.
  - apply Forall_fmap. eapply Forall_impl; [exact Hv|]. intros p Hp. unfold compose.
    eapply all_chars_impl; [apply digit_not_comma | apply itoa_is_digits; unfold valid_port in Hp; lia].
Qed.

Lemma parsePorts_joinPorts_witness : parsePorts (joinPorts [80; 443; 8443]) = Ok [80; 443; 8443].
Proof.
  apply (parsePorts_joinPorts [80; 443; 8443]). split_and!; [done| | |].
  - repeat constructor; lia.
  - apply (bool_decide_unpack _). reflexivity.
  - repeat constructor.
Defined.

(** ** Configuration: proofs *)
Fixpoint last_char (d : ascii) (s : string) : ascii :=
  match s with EmptyString => d | String c s' => last_char c s' end.

Lemma last_char_app d a c b : last_char d (a ++ String c b) = last_char c b.
Proof. revert d. induction a as [|x a IH]; intros d; [done|]. apply (IH x). Qed.

Lemma string_app_inj_r (a b c : string) : a ++ c = b ++ c -> a = b.
Proof.
  revert b. induction a as [|x a IH]; intros [|y b] E; [done| | |].
  - apply (f_equal String.length) in E. rewrite !string_length_app in E. simpl in E. lia.
  - apply (f_equal String.length) in E. rewrite !string_length_app in E. simpl in E. lia.
  - injection E as -> E. f_equal. by apply IH.
Qed.

Definition known_action (a : string) : bool := String.eqb a "throttle" || String.eqb a "drop".

(** The text the code uses as a map key separates the pairs that reach it. *)
Lemma entry_key_inj ip1 ip2 a1 a2 :
  known_action a1 = true -> known_action a2 = true ->
  entry_key ip1 a1 = entry_key ip2 a2 -> (ip1, a1) = (ip2, a2).
Proof.
  intros H1 H2 E.
  assert (Hb : forall i a, last_char "x" (entry_key i a) = last_char "|" a)
    by (intros i a; apply (last_char_app "x" i "|" a)).
  assert (Hl := f_equal (last_char "x") E). rewrite !Hb in Hl. unfold entry_key in E.
  apply orb_true_iff in H1 as [->%String.eqb_eq | ->%String.eqb_eq];
    apply orb_true_iff in H2 as [->%String.eqb_eq | ->%String.eqb_eq];
    try discriminate; f_equal; by apply string_app_inj_r in E.
Qed.

(** The entries of the adaptive file that become rules at time [t]. *)
Definition accepted (t : Z) (e : adaptiveEntry) : bool :=
  bool_decide (is_Some (ParseIP (trim_space (IP e)))) &&
  known_action (normalize_id (Action e)) &&
  negb (negb (is_blank (ExpiresAt e)) && expired t (trim_space (ExpiresAt e))).

Definition normal_pair (e : adaptiveEntry) : string * string :=
  (normalize_id (Action e), trim_space (IP e)).

Definition pair_key (p : string * string) : string := entry_key p.2 p.1.

Definition valid_entry (e : adaptiveEntry) : Prop :=
  is_Some (ParseIP (IP e)) /\ known_action (Action e) = true.

Definition filter_state (st : gset string * list adaptiveEntry) : Prop :=
  st.1 = list_to_set (pair_key <$> (entry_order <$> st.2)) /\
  Forall valid_entry st.2 /\ NoDup (entry_order <$> st.2).

Lemma pair_key_inj p q :
  known_action p.1 = true -> known_action q.1 = true -> pair_key p = pair_key q -> p = q.
Proof.
  destruct p as [a1 i1], q as [a2 i2]. intros H1 H2 E%entry_key_inj; [|done|done]. by simplify_eq/=.
Qed.

Lemma filterEntry_spec t st e :
  filter_state st -> filter_state (filterEntry t st e) /\
  (forall p, p ∈ entry_order <$> (filterEntry t st e).2 <->
     p ∈ entry_order <$> st.2 \/ (accepted t e = true /\ p = normal_pair e)).
Proof.
  intros Hst. pose proof Hst as (Hseen & Hv & Hnd).
  assert (Hkeep : accepted t e = false -> filter_state st /\
    (forall p, p ∈ entry_order <$> st.2 <->
       p ∈ entry_order <$> st.2 \/ (accepted t e = true /\ p = normal_pair e))).
  { intros ->. split; [done|]. naive_solver. }
  unfold filterEntry. destruct (ParseIP (trim_space (IP e))) as [a|] eqn:Hip.
  2: { apply Hkeep. unfold accepted. rewrite Hip. done. }
  destruct (negb (String.eqb (normalize_id (Action e)) "throttle") &&
            negb (String.eqb (normalize_id (Action e)) "drop")) eqn:Hact.
  { apply Hkeep. unfold accepted, known_action. rewrite <- negb_orb in Hact.
    apply negb_true_iff in Hact. rewrite Hact. by rewrite andb_false_r. }
  destruct (negb (is_empty (trim_space (ExpiresAt e))) && expired t (trim_space (ExpiresAt e))) eqn:Hexp.
  { apply Hkeep. unfold accepted, is_blank. rewrite Hexp. by rewrite andb_false_r. }
  rewrite <- negb_orb in Hact. apply negb_false_iff in Hact. fold (known_action (normalize_id (Action e))) in Hact.
  assert (Hacc : accepted t e = true).
  { unfold accepted, is_blank. rewrite Hip, Hact, Hexp. done. }
  assert (Hpk : forall p, p ∈ entry_order <$> st.2 -> known_action p.1 = true).
  { intros p (x & -> & Hx)%list_elem_of_fmap. rewrite Forall_forall in Hv. by apply Hv in Hx as [_ ?]. }
  assert (Hin : entry_key (trim_space (IP e)) (normalize_id (Action e)) ∈ st.1 <->
                normal_pair e ∈ entry_order <$> st.2).
  { rewrite Hseen, elem_of_list_to_set, list_elem_of_fmap. split.
    - intros (p & Hp & Hin). replace (normal_pair e) with p; [done|].
      symmetry. apply pair_key_inj; [done | by apply Hpk | done].
    - intros Hin. by exists (normal_pair e). }
  case_decide as Hd.
  - split; [done|]. intros p. rewrite Hin in Hd. split; [by left|]. intros [?|[_ ->]]; done.
  - cbn [snd fst]. rewrite fmap_app. split.
    + split_and!; cbn [fst snd].
      * rewrite fmap_app, fmap_app, list_to_set_app_L, Hseen. simpl. set_solver.
      * apply Forall_app. split; [done|]. constructor; [|constructor]. split; [exact (mk_is_Some _ _ Hip) | done].
      * rewrite fmap_app. apply NoDup_app. split_and!; [done| |apply NoDup_singleton].
        intros p Hp Hp'%list_elem_of_singleton. subst p. by apply Hd, Hin.
    + intros p. change (entry_order <$> [AdaptiveEntry _ _ _]) with [normal_pair e].
      rewrite elem_of_app, list_elem_of_singleton. naive_solver.
Qed.

Lemma filter_state_nil : filter_state (∅, []).
Proof. split_and!; [done | constructor | constructor]. Qed.

Lemma filterEntry_fold t entries st :
  filter_state st -> filter_state (foldl (filterEntry t) st entries) /\
  (forall p, p ∈ entry_order <$> (foldl (filterEntry t) st entries).2 <->
     p ∈ entry_order <$> st.2 \/ exists e, e ∈ entries /\ accepted t e = true /\ p = normal_pair e).
Proof.
  revert st. induction entries as [|e entries IH]; intros st Hst; cbn [foldl].
  - split; [done|]. intros p. split; [by left|]. intros [?|(e & He & _)]; [done|].
    by apply not_elem_of_nil in He.
  - destruct (filterEntry_spec t st e Hst) as [Hst1 H1]. destruct (IH _ Hst1) as [Hst2 H2].
    split; [done|]. intros p. rewrite H2, H1. setoid_rewrite elem_of_cons. naive_solver.
Qed.

(** The adaptive entries the guard keeps are exactly the acceptable ones of the file (an address
    that parses, a known action, not expired), one per address and action, sorted by action and
    then address. *)
Theorem filterEntries_correct (t : Z) (entries : list adaptiveEntry) :
  let kept := filterEntries t entries in
  sorted_on entry_order kept /\ NoDup (entry_order <$> kept) /\ Forall valid_entry kept /\
  (forall p, p ∈ entry_order <$> kept <->
     exists e, e ∈ entries /\ accepted t e = true /\ p = normal_pair e).
Proof.
  destruct (filterEntry_fold t entries _ filter_state_nil) as [(_ & Hv & Hnd) H]. cbn zeta.
  unfold filterEntries. split_and!.
  - apply sort_on_sorted.
  - by rewrite NoDup_fmap_sort_on.
  - by rewrite Forall_sort_on.
  - intros p. rewrite (sort_on_perm entry_order), H. cbn [snd]. split; [|by right].
    intros [Hp|?]; [by apply not_elem_of_nil in Hp | done].
Qed.

Definition allowed_target (t : string) : Prop := t = "DROP" \/ t = "REJECT".

(** What every configuration [loadConfig] returns satisfies. *)
Record config_wf (cfg : config) : Prop := {
  wf_ConnLimit : 0 < ConnLimit cfg;
  wf_RatePerSec : 0 < RatePerSec cfg;
  wf_RateBurst : 0 < RateBurst cfg;
  wf_ChainMode : ChainMode cfg = "auto" \/ ChainMode cfg = "docker-user" \/ ChainMode cfg = "input";
  wf_Target : allowed_target (Target cfg);
  wf_Ports : Ports cfg <> [] /\ sorted_on id (Ports cfg);
  wf_Throttle : 0 < ThrottleRatePerSecond (Adaptive cfg) /\ 0 < ThrottleBurst (Adaptive cfg) /\
                allowed_target (ThrottleTarget (Adaptive cfg));
  wf_Entries : Forall valid_entry (Entries (Adaptive cfg)) /\
               NoDup (entry_order <$> Entries (Adaptive cfg)) /\
               sorted_on entry_order (Entries (Adaptive cfg))
}.

(** What holds from the start and through both files. *)
Record partial_wf (cfg : config) : Prop := {
  pwf_limits : 0 < ConnLimit cfg /\ 0 < RatePerSec cfg /\ 0 < RateBurst cfg;
  pwf_Ports : sorted_on id (Ports cfg);
  pwf_Throttle : 0 < ThrottleRatePerSecond (Adaptive cfg) /\ 0 < ThrottleBurst (Adaptive cfg);
  pwf_Entries : Forall valid_entry (Entries (Adaptive cfg)) /\
                NoDup (entry_order <$> Entries (Adaptive cfg)) /\
                sorted_on entry_order (Entries (Adaptive cfg))
}.

Lemma positive_or_pos n old : 0 < old -> 0 < positive_or n old.
Proof. intros H. unfold positive_or. by destruct (Z.ltb_spec 0 n). Qed.

Lemma default_partial_wf : partial_wf default_config.
Proof. split; simpl; split_and?; try lia; constructor. Qed.

Lemma file_partial_wf inp cfg cfg' :
  partial_wf cfg -> applyFileConfig inp cfg = Ok cfg' -> partial_wf cfg'.
Proof.
  intros [(H1 & H2 & H3) HP HT HE]. unfold applyFileConfig.
  destruct (ReadFile _ _) as [|e|text]; intros H; simplify_eq; [by split|].
  destruct (decode_config _ _) as [item|e]; simplify_eq. split; simpl; try done.
  - split_and!; by apply positive_or_pos.
  - destruct (file_Ports item) as [|z l]; [done | apply (sort_on_sorted id (z :: l))].
Qed.

Lemma adaptive_partial_wf inp cfg cfg' :
  partial_wf cfg -> applyAdaptiveFileConfig inp cfg = Ok cfg' -> partial_wf cfg'.
Proof.
  intros [HL HP [H1 H2] HE]. unfold applyAdaptiveFileConfig.
  destruct (ReadFile _ _) as [|e|text]; intros H; simplify_eq; [by split|].
  destruct (decode_adaptive _ _) as [item|e]; simplify_eq. split; simpl; try done.
  - split; by apply positive_or_pos.
  - destruct (filterEntry_fold (now inp) (file_Entries item) _ filter_state_nil) as [(_ & Hv & Hnd) _].
    unfold filterEntries. rewrite Forall_sort_on, NoDup_fmap_sort_on.
    split_and!; [done|done|apply sort_on_sorted].
Qed.

Lemma env_positive_pos inp name old n : 0 < old -> env_positive inp name old = Ok n -> 0 < n.
Proof.
  unfold env_positive. intros Ho. destruct (is_empty _); [by intros [= <-]|].
  destruct (atoi _) as [m|]; [|discriminate]. destruct (Z.leb_spec m 0); [discriminate|].
  by intros [= <-].
Qed.

Lemma env_ports_ok inp old ports :
  sorted_on id old -> env_ports inp old = Ok ports ->
  ports <> [] /\ sorted_on id ports /\
  (is_blank (Getenv inp "WAF_L4_GUARD_PORTS") = false \/ old = [] -> port_list ports).
Proof.
  intros Ho. unfold env_ports. fold (is_blank (Getenv inp "WAF_L4_GUARD_PORTS")).
  assert (Hp : forall raw, parsePorts raw = Ok ports -> port_list ports) by (intros raw H; by apply parsePorts_spec in H as [? _]).
  destruct (is_blank _); cbn [negb].
  - destruct old as [|p old]; [|intros [= <-]; split; [done|split; [done|intros [?|?]; discriminate]]].
    intros H%Hp. destruct H as (? & ? & ? & ?). by split_and!.
  - intros H%Hp. destruct H as (? & ? & ? & ?). by split_and!.
Qed.

Lemma fix_adaptive_id a :
  0 < ThrottleRatePerSecond a -> 0 < ThrottleBurst a ->
  Entries (fix_adaptive a) = Entries a /\
  ThrottleRatePerSecond (fix_adaptive a) = ThrottleRatePerSecond a /\
  ThrottleBurst (fix_adaptive a) = ThrottleBurst a /\ allowed_target (ThrottleTarget (fix_adaptive a)).
Proof.
  intros H1 H2. unfold fix_adaptive. cbn [Entries ThrottleRatePerSecond ThrottleBurst ThrottleTarget].
  rewrite !(proj2 (Z.leb_gt _ _)) by done. split_and!; [done..|].
  destruct (String.eqb_spec (ThrottleTarget a) "DROP"); [by left|].
  destruct (String.eqb_spec (ThrottleTarget a) "REJECT"); [by right | by right].
Qed.

Lemma one_of_two a b c : negb (String.eqb a b) && negb (String.eqb a c) = false -> a = b \/ a = c.
Proof. destruct (String.eqb_spec a b); [by left|]. destruct (String.eqb_spec a c); [by right|done]. Qed.

Lemma one_of_three a b c d :
  negb (String.eqb a b) && negb (String.eqb a c) && negb (String.eqb a d) = false ->
  a = b \/ a = c \/ a = d.
Proof.
  destruct (String.eqb_spec a b); [by left|]. destruct (String.eqb_spec a c); [by right; left|].
  destruct (String.eqb_spec a d); [by right; right|done].
Qed.

(** The stages of a successful [loadConfig]. *)
Lemma loadConfig_inv inp cfg :
  loadConfig inp = Ok cfg -> exists base,
    partial_wf base /\
    env_positive inp "WAF_L4_GUARD_CONN_LIMIT" (ConnLimit base) = Ok (ConnLimit cfg) /\
    env_positive inp "WAF_L4_GUARD_RATE_PER_SECOND" (RatePerSec base) = Ok (RatePerSec cfg) /\
    env_positive inp "WAF_L4_GUARD_RATE_BURST" (RateBurst base) = Ok (RateBurst cfg) /\
    env_ports inp (Ports base) = Ok (Ports cfg) /\
    (ChainMode cfg = "auto" \/ ChainMode cfg = "docker-user" \/ ChainMode cfg = "input") /\
    allowed_target (Target cfg) /\ Adaptive cfg = fix_adaptive (Adaptive base).
Proof.
  unfold loadConfig. intros (c1 & H1 & (c2 & H2 & H)%result_bind_ok)%result_bind_ok.
  apply (file_partial_wf _ _ _ default_partial_wf) in H1.
  apply (adaptive_partial_wf _ _ _ H1) in H2.
  apply result_bind_ok in H as (limit & Hl & H). apply result_bind_ok in H as (rate & Hr & H).
  apply result_bind_ok in H as (burst & Hb & H). apply result_bind_ok in H as (dest & Hd & H).
  apply result_bind_ok in H as (ports & Hp & H). apply result_bind_ok in H as (? & Hm%reject_if_ok & H).
  apply result_bind_ok in H as (? & Ht%reject_if_ok & [= <-]).
  exists c2. cbn [ConnLimit RatePerSec RateBurst Ports ChainMode Target Adaptive].
  split_and!; try done; [by apply one_of_three | by apply one_of_two].
Qed.

Lemma loadConfig_wf inp cfg : loadConfig inp = Ok cfg -> config_wf cfg.
Proof.
  intros (base & [(Hl & Hr & Hb) HP [HT1 HT2] HE] & El & Er & Eb & Ep & Hm & Ht & Ea)%loadConfig_inv.
  destruct (fix_adaptive_id _ HT1 HT2) as (F1 & F2 & F3 & F4).
  apply env_ports_ok in Ep as (Hne & Hs & _); [|done].
  split; rewrite ?Ea, ?F1, ?F2, ?F3; eauto using env_positive_pos.
Qed.

Lemma env_positive_set inp name old n :
  env_positive inp name old = Ok n -> is_blank (Getenv inp name) = false ->
  atoi (trim_space (Getenv inp name)) = Some n.
Proof.
  unfold env_positive. intros H Hb. unfold is_blank in Hb. rewrite Hb in H.
  destruct (atoi _) as [m|]; [|discriminate]. destruct (m <=? 0); [discriminate|]. by injection H as ->.
Qed.

(** Every configuration the guard accepts is usable (positive limits, a known chain mode and
    target, sorted ports, adaptive entries that are valid, sorted and distinct), and the limits
    and ports of the environment win over both files; ports from the environment are also in
    range and without repetition. *)
Theorem loadConfig_sound (inp : inputs) (cfg : config) :
  loadConfig inp = Ok cfg ->
  config_wf cfg /\
  (is_blank (Getenv inp "WAF_L4_GUARD_CONN_LIMIT") = false ->
     atoi (trim_space (Getenv inp "WAF_L4_GUARD_CONN_LIMIT")) = Some (ConnLimit cfg)) /\
  (is_blank (Getenv inp "WAF_L4_GUARD_RATE_PER_SECOND") = false ->
     atoi (trim_space (Getenv inp "WAF_L4_GUARD_RATE_PER_SECOND")) = Some (RatePerSec cfg)) /\
  (is_blank (Getenv inp "WAF_L4_GUARD_RATE_BURST") = false ->
     atoi (trim_space (Getenv inp "WAF_L4_GUARD_RATE_BURST")) = Some (RateBurst cfg)) /\
  (is_blank (Getenv inp "WAF_L4_GUARD_PORTS") = false ->
     port_list (Ports cfg) /\ parsePorts (trim_space (Getenv inp "WAF_L4_GUARD_PORTS")) = Ok (Ports cfg)).
Proof.
  intros H. pose proof (loadConfig_wf _ _ H) as Hwf.
  apply loadConfig_inv in H as (base & [_ HP _ _] & El & Er & Eb & Ep & _).
  split; [done|]. split_and!; [by eapply env_positive_set..|]. intros Hb.
  pose proof (env_ports_ok _ _ _ HP Ep) as (_ & _ & Hpl). split; [apply Hpl; by left|].
  unfold env_ports in Ep. unfold is_blank in Hb. by rewrite Hb in Ep.
Qed.

(** A container with a port list and a lower limit in its environment and one adaptive entry. *)
Definition sample_inputs : inputs := {|
  Getenv name :=
    if String.eqb name "WAF_L4_GUARD_PORTS" then "443, 80"
    else if String.eqb name "WAF_L4_GUARD_CONN_LIMIT" then "20" else "";
  ReadFile path := if String.eqb path defaultAdaptivePath then Content "adaptive" else NotExist;
  decode_config _ := Err "no such file";
  decode_adaptive _ := Ok (AdaptiveFileConfig
    [AdaptiveEntry " 203.0.113.7" "Throttle" ""; AdaptiveEntry "2001:db8::5" "drop" "";
     AdaptiveEntry "not an address" "drop" ""; AdaptiveEntry "203.0.113.7" "throttle" ""] 3 0 "");
  now := 0
|}.

Definition sample_config : config := {|
  Enabled := true; ChainMode := "auto"; ConnLimit := 20; RatePerSec := 30; RateBurst := 60;
  Ports := [80; 443]; Target := "DROP"; DestinationIP := "";
  Adaptive := AdaptiveConfig
    [AdaptiveEntry "2001:db8::5" "drop" ""; AdaptiveEntry "203.0.113.7" "throttle" ""] 3 10 "REJECT"
|}.

Lemma sample_loads : loadConfig sample_inputs = Ok sample_config.
Proof. vm_compute. reflexivity. Qed.

Lemma loadConfig_sound_witness : config_wf sample_config /\ port_list (Ports sample_config).
Proof.
  destruct (loadConfig_sound sample_inputs sample_config sample_loads) as (Hwf & _ & _ & _ & Hp).
  split; [exact Hwf | apply Hp; reflexivity].
Defined.

(** Ports of the configuration file are only sorted: neither the range nor repetitions are
    checked, as they are for the environment. *)
Example file_ports_unchecked :
  let inp := {| Getenv _ := ""; ReadFile path := if String.eqb path defaultConfigPath then Content "c" else NotExist;
                decode_config _ := Ok (FileConfig None "" 0 0 0 [70000; -1; 80; 80] "" "");
                decode_adaptive _ := Err ""; now := 0 |} in
  Ports <$> loadConfig inp = Ok [-1; 80; 80; 70000].
Proof. vm_compute. reflexivity. Qed.

(** ** What the guard relies on about iptables

    A firewall is a map from a family and a chain name to the rules of the chain.  [ipt_exec] is
    the documented effect of the six commands the guard runs. *)
Inductive command :=
| NewChain (chain : string)
| Flush (chain : string)
| Append (chain : string) (args : list string)
| InsertFirst (chain : string) (args : list string)
| CheckRule (chain : string) (args : list string)
| Delete (chain : string) (args : list string).

Definition encode (cmd : command) : list string :=
  match cmd with
  | NewChain c => ["-w"; "-N"; c]
  | Flush c => ["-w"; "-F"; c]
  | Append c args => ["-w"; "-A"; c] +++ args
  | InsertFirst c args => ["-w"; "-I"; c; "1"] +++ args
  | CheckRule c args => ["-w"; "-C"; c] +++ args
  | Delete c args => ["-w"; "-D"; c] +++ args
  end.

Section Semantics.
Context {R : Type} `{EqDecision R}.
Variable parse : string -> list string -> option R.
Abbreviation firewall := (gmap (string * string) (list R)).

Fixpoint remove_first (r : R) (rules : list R) : option (list R) :=
  match rules with
  | [] => None
  | r' :: rules' => if decide (r = r') then Some rules' else cons r' <$> remove_first r rules'
  end.

Definition ipt_exec (table : string) (cmd : command) (fw : firewall) : option firewall :=
  match cmd with
  | NewChain c => match fw !! (table, c) with None => Some (<[(table, c) := []]> fw) | Some _ => None end
  | Flush c => _ ← fw !! (table, c); Some (<[(table, c) := []]> fw)
  | Append c args => rules ← fw !! (table, c); r ← parse table args; Some (<[(table, c) := rules +++ [r]]> fw)
  | InsertFirst c args => rules ← fw !! (table, c); r ← parse table args; Some (<[(table, c) := r :: rules]> fw)
  | CheckRule c args =>
    match fw !! (table, c), parse table args with
    | Some rules, Some r => if decide (r ∈ rules) then Some fw else None
    | _, _ => None
    end
  | Delete c args =>
    rules ← fw !! (table, c); r ← parse table args;
    rules' ← remove_first r rules; Some (<[(table, c) := rules']> fw)
  end.
End Semantics.

(** The text of [-S]: a line for the chain, then a line per rule. *)
Definition newline : string := String (ascii_of_nat 10) EmptyString.
Definition listing (chain policy : string) (rules : list string) : string :=
  foldr (fun line rest => line ++ newline ++ rest) "" (policy :: ((fun r => "-A " ++ chain ++ " " ++ r) <$> rules)).

Definition no_newline (s : string) : bool := all_chars (fun c => negb (Ascii.eqb c (ascii_of_nat 10))) s.
(** A printed rule is one line, not blank at its end. *)
Definition rule_line (s : string) : Prop := s <> "" /\ trim_right s = s /\ no_newline s = true.

Class Iptables (W : Type) `{Executor W} := {
  fw_rule : Type;
  fw_rule_dec :: EqDecision fw_rule;
  fw_parse : string -> list string -> option fw_rule;
  fw_print : fw_rule -> string;
  fw_view : W -> gmap (string * string) (list fw_rule);
  fw_policy : W -> string -> string -> string;
  run_ok table cmd w w' :
    Run table (encode cmd) w = (Ok tt, w') -> ipt_exec fw_parse table cmd (fw_view w) = Some (fw_view w');
  run_err table cmd w w' e :
    Run table (encode cmd) w = (Err e, w') -> fw_view w' = fw_view w;
  list_ok table chain w w' out :
    Output table ["-w"; "-S"; chain] w = (Ok out, w') -> fw_view w' = fw_view w /\
    exists rules, fw_view w !! (table, chain) = Some rules /\
      out = listing chain (fw_policy w table chain) (fw_print <$> rules);
  list_err table chain w w' e :
    Output table ["-w"; "-S"; chain] w = (Err e, w') -> fw_view w' = fw_view w;
  policy_line w table chain :
    no_newline (fw_policy w table chain) = true /\
    has_prefix ("-A " ++ chain ++ " ") (trim_space (fw_policy w table chain)) = false;
  print_line r : rule_line (fw_print r);
  (* the text printed for a rule, given back as arguments, denotes that rule *)
  print_parse w table chain rules r args :
    fw_view w !! (table, chain) = Some rules -> r ∈ rules ->
    Forall (fun a => word a = true) args -> fw_print r = join " " args -> fw_parse table args = Some r
}.

(** No command fails that the chains would let succeed (no missing binary, no busy lock). *)
Class Reliable (W : Type) `{Iptables W} := {
  run_complete table cmd w w' e :
    Run table (encode cmd) w = (Err e, w') -> ipt_exec fw_parse table cmd (fw_view w) = None;
  list_complete table chain w w' e :
    Output table ["-w"; "-S"; chain] w = (Err e, w') -> fw_view w !! (table, chain) = None
}.

(** *** The laws hold of a simulated firewall *)
Definition is_line (s : string) : bool :=
  negb (is_empty s) && String.eqb (trim_right s) s && no_newline s.
Definition sim_rule : Type := dsig (fun s => is_line s = true).
Definition sim_world : Type := gmap (string * string) (list sim_rule).

Definition sim_parse (_ : string) (args : list string) : option sim_rule :=
  match decide (is_line (join " " args) = true) with left E => Some (dexist _ E) | right _ => None end.
Definition sim_print (r : sim_rule) : string := `r.
Definition sim_policy (_ : sim_world) (_ chain : string) : string :=
  "-N " ++ (if all_chars (fun c => negb (Ascii.eqb c (ascii_of_nat 10))) chain then chain else "?").

Definition decode_command (args : list string) : option command :=
  match args with
  | w :: op :: c :: rest =>
      if negb (String.eqb w "-w") then None
      else if String.eqb op "-N" then Some (NewChain c)
      else if String.eqb op "-F" then Some (Flush c)
      else if String.eqb op "-A" then Some (Append c rest)
      else if String.eqb op "-I" then Some (InsertFirst c (tail rest))
      else if String.eqb op "-C" then Some (CheckRule c rest)
      else if String.eqb op "-D" then Some (Delete c rest)
      else None
  | _ => None
  end.

Lemma decode_encode cmd : decode_command (encode cmd) = Some cmd.
Proof. by destruct cmd. Qed.

#[export] Instance simulated_executor : Executor sim_world := {|
  Run table args := fun w =>
    match decode_command args ≫= (fun cmd => ipt_exec sim_parse table cmd w) with
    | Some w' => (Ok tt, w')
    | None => (Err "exit status 1", w)
    end;
  Output table args := fun w =>
    match w !! (table, default "" (args !! 2%nat)) with
    | Some rules => (Ok (listing (default "" (args !! 2%nat)) (sim_policy w table (default "" (args !! 2%nat))) (sim_print <$> rules)), w)
    | None => (Err "exit status 1", w)
    end
|}.

Lemma no_newline_app a b : no_newline (a ++ b) = no_newline a && no_newline b.
Proof.
  unfold no_newline. induction a as [|c a IH]; [done|].
  change (String c a ++ b) with (String c (a ++ b)). cbn [all_chars]. by rewrite IH, andb_assoc.
Qed.

Lemma is_line_spec s : is_line s = true -> rule_line s.
Proof.
  unfold is_line. intros [[H1 H2]%andb_true_iff H3]%andb_true_iff. split_and!; [|by apply String.eqb_eq|done].
  apply negb_true_iff in H1. by apply is_empty_false.
Qed.

Lemma sim_policy_line w table chain :
  no_newline (sim_policy w table chain) = true /\
  has_prefix ("-A " ++ chain ++ " ") (trim_space (sim_policy w table chain)) = false.
Proof.
  unfold sim_policy. set (c := if all_chars _ _ then _ else _). split.
  - rewrite no_newline_app. cbn. unfold c. destruct (all_chars _ chain) eqn:E; [exact E | done].
  - unfold trim_space. change (trim_left ("-N " ++ c)) with (String "-" (String "N" (String " " c))).
    destruct (trim_right_cons "-" (String "N" (String " " c)) eq_refl) as [t E].
    cbn [trim_right] in *. revert E. destruct (trim_right c); cbn; intros _; done.
Qed.

Lemma sim_print_parse args (r : sim_rule) table :
  sim_print r = join " " args -> sim_parse table args = Some r.
Proof.
  intros E. unfold sim_parse. destruct r as [s Hs]. unfold sim_print in E. cbn in E.
  assert (Hs' : is_line s = true) by exact (bool_decide_unpack _ Hs).
  destruct (decide _) as [Hj|Hj]; [|by rewrite <- E in Hj].
  f_equal. apply dsig_eq. simpl. done.
Qed.

#[export, refine] Instance simulated_iptables : Iptables sim_world := {|
  fw_rule := sim_rule; fw_parse := sim_parse; fw_print := sim_print;
  fw_view w := w; fw_policy := sim_policy
|}.
Proof.
  - intros table cmd w w'. cbn. rewrite decode_encode. cbn.
    destruct (ipt_exec _ _ _ _); by intros [= <-].
  - intros table cmd w w' e. cbn. rewrite decode_encode. cbn.
    destruct (ipt_exec _ _ _ _); by intros [= <-].
  - intros table chain w w' out. cbn. destruct (w !! (table, chain)) as [rules|] eqn:E; [|done].
    intros [= <- <-]. eauto.
  - intros table chain w w' e. cbn. by destruct (w !! (table, chain)); intros [= <-].
  - apply sim_policy_line.
  - intros [s Hs]. apply is_line_spec. exact (bool_decide_unpack _ Hs).
  - intros w table chain rules r args _ _ _. apply sim_print_parse.
Defined.

#[export] Instance simulated_reliable : Reliable sim_world.
Proof.
  constructor.
  - intros table cmd w w' e. cbn. rewrite decode_encode. cbn. by destruct (ipt_exec _ _ _ _).
  - intros table chain w w' e. cbn. by case_match; intros [=].
Defined.

(** ** Bootstrap: proofs *)

(** *** Every argument of a rule is one word *)
Lemma hex_word_word n w : word (hex_word n w) = true.
Proof.
  unfold word. induction n as [|n IH]; [done|]. cbn [hex_word all_chars].
  by rewrite hex_digit_not_space, IH.
Qed.

Lemma word_itoa n : 0 < n -> word (itoa n) = true.
Proof. intros H. eapply all_chars_impl; [apply digit_not_space | apply itoa_is_digits; lia]. Qed.

Lemma word_target t : allowed_target t -> word t = true.
Proof. by intros [-> | ->]. Qed.

Lemma word_hashlimit ip : word (adaptiveHashlimitName ip) = true.
Proof.
  unfold adaptiveHashlimitName. rewrite word_app. apply andb_true_iff. split; [done|].
  destruct (sha1_words ip); [done | apply hex_word_word].
Qed.
Opaque adaptiveHashlimitName itoa.

Lemma desired_words cfg ipv6 :
  config_wf cfg -> Forall (Forall (fun a => word a = true)) (desiredRules cfg ipv6).
Proof.
  intros [Hl Hr Hb _ Ht _ (H1 & H2 & H3) (He & _ & _)]. unfold desiredRules. apply Forall_app. split.
  - unfold adaptiveRules. apply Forall_forall. intros rule (e & He' & Hrule)%list_elem_of_omap.
    rewrite Forall_forall in He. destruct (He _ He') as [Hip _]. apply ParseIP_word in Hip.
    revert Hrule. unfold adaptiveRule. destruct (ParseIP (IP e)) as [a|]; [|done].
    destruct (negb _); [done|]. apply word_target in Ht, H3.
    destruct (String.eqb (Action e) "drop"); [intros [= <-]; by repeat constructor|].
    destruct (String.eqb (Action e) "throttle"); [|done]. intros [= <-].
    repeat constructor; try done; [apply word_hashlimit| |by apply word_itoa].
    rewrite word_app. by rewrite word_itoa.
  - apply word_target in Ht. repeat constructor; try done;
      rewrite ?word_app; rewrite ?word_itoa by done; try done. by destruct ipv6.
Qed.

(** *** Reading a listing back *)
Lemma listing_lines chain policy rules :
  no_newline chain = true -> no_newline policy = true -> Forall rule_line rules ->
  split_on (ascii_of_nat 10) (listing chain policy rules) =
  (policy :: ((fun r => "-A " ++ chain ++ " " ++ r) <$> rules)) +++ [""].
Proof.
  intros Hc Hp Hr. unfold listing.
  assert (Hall : Forall (fun l => no_newline l = true) (policy :: ((fun r => "-A " ++ chain ++ " " ++ r) <$> rules))).
  { constructor; [done|]. apply Forall_fmap. eapply Forall_impl; [exact Hr|]. intros r (_ & _ & Hn).
    unfold compose. rewrite !no_newline_app, Hc, Hn. done. }
  induction Hall as [|l ls Hl Hls IH]; [done|]. cbn [foldr].
  change (l ++ newline ++ ?rest) with (l ++ String (ascii_of_nat 10) rest).
  rewrite split_on_app by exact Hl. by rewrite IH.
Qed.

Lemma listed_rules_listing chain policy rules :
  no_newline chain = true -> no_newline policy = true ->
  has_prefix ("-A " ++ chain ++ " ") (trim_space policy) = false -> Forall rule_line rules ->
  listed_rules chain (listing chain policy rules) = rules.
Proof.
  intros Hc Hp Hpre Hr. unfold listed_rules. rewrite listing_lines by done.
  cbn [omap list_omap app]. rewrite Hpre. rewrite omap_app. cbn [omap list_omap].
  change (trim_space "") with "". replace (has_prefix ("-A " ++ chain ++ " ") "") with false by done.
  rewrite app_nil_r. induction Hr as [|r rs (Hne & Ht & Hn) Hrs IH]; [done|].
  rewrite fmap_cons. cbn [omap list_omap].
  assert (Htrim : trim_space ("-A " ++ chain ++ " " ++ r) = ("-A " ++ chain ++ " ") ++ r).
  { unfold trim_space. change (trim_left ("-A " ++ chain ++ " " ++ r)) with ("-A " ++ chain ++ " " ++ r).
    rewrite <- !string_app_assoc. by apply trim_right_app. }
  rewrite Htrim, has_prefix_app, trim_prefix_app. by rewrite IH.
Qed.

(** *** The commands on a firewall *)
Section Bootstrap.
Context {W : Type} `{Iptables W}.
Implicit Types w : W.

(** The chains other than [except] are as before. *)
Definition frame (except : list (string * string)) w w' : Prop :=
  forall k, k ∉ except -> fw_view w' !! k = fw_view w !! k.

Lemma frame_refl ks w w' : fw_view w' = fw_view w -> frame ks w w'.
Proof. by intros E k _; rewrite E. Qed.
Lemma frame_trans ks w1 w2 w3 : frame ks w1 w2 -> frame ks w2 w3 -> frame ks w1 w3.
Proof. intros H1 H2 k Hk. rewrite H2, H1; done. Qed.
Lemma frame_weaken ks ks' w w' : ks ⊆ ks' -> frame ks w w' -> frame ks' w w'.
Proof. intros Hs Hf k Hk. apply Hf. set_solver. Qed.

Lemma chainExists_spec table chain w r w' :
  chainExists table chain w = (r, w') ->
  fw_view w' = fw_view w /\ exists b, r = Ok b /\ (b = true -> is_Some (fw_view w !! (table, chain))).
Proof.
  unfold chainExists, attempt, mbind, guardop_bind, mret, guardop_ret.
  destruct (Output table ["-w"; "-S"; chain] w) as [[out|e] w1] eqn:E; intros [= <- <-].
  - apply list_ok in E as (Hv & rules & Hr & _). split; [done|]. exists true. split; [done|]. by exists rules.
  - apply list_err in E. split; [done|]. by exists false.
Qed.

Lemma run_cases table cmd w r w' :
  Run table (encode cmd) w = (r, w') ->
  (r = Ok tt /\ ipt_exec fw_parse table cmd (fw_view w) = Some (fw_view w')) \/
  ((exists e, r = Err e) /\ fw_view w' = fw_view w).
Proof.
  destruct r as [[]|e]; intros E.
  - left. split; [done|]. by apply run_ok.
  - right. split; [eauto|]. by eapply run_err.
Qed.

Lemma wrap_err_cases {A} prefix (m : guardop W A) w r w' :
  wrap_err prefix m w = (r, w') ->
  exists r0, m w = (r0, w') /\ match r0 with Ok a => r = Ok a | Err e => r = Err (prefix ++ e) end.
Proof.
  unfold wrap_err. destruct (m w) as [[a|e] w1] eqn:E; intros [= <- <-]; eexists; (split; [done|]); done.
Qed.

Ltac run_op := unfold mbind, guardop_bind, mret, guardop_ret, attempt, lift.

Lemma ensureChain_spec table chain w r w' :
  ensureChain table chain w = (r, w') ->
  frame [(table, chain)] w w' /\ (r = Ok tt -> is_Some (fw_view w' !! (table, chain))).
Proof.
  unfold ensureChain. run_op. destruct (chainExists table chain w) as [r1 w1] eqn:E1.
  apply chainExists_spec in E1 as (Hv & b & -> & Hb). destruct b.
  - intros [= <- <-]. rewrite Hv. split; [by apply frame_refl | auto].
  - intros (r0 & Hrun & Hr)%wrap_err_cases.
    apply (run_cases table (NewChain chain)) in Hrun as [[-> Hx]|[[e ->] Hx]].
    + cbn in Hx. rewrite Hv in Hx. destruct (fw_view w !! (table, chain)); [done|]. injection Hx as Hx.
      split; [|intros _; rewrite <- Hx; by rewrite lookup_insert_eq].
      intros k Hk. rewrite <- Hx, lookup_insert_ne; [done|]. set_solver.
    + split; [apply frame_refl; congruence | by rewrite Hr].
Qed.

Lemma chainRulesMatch_spec table chain desired w r w' :
  no_newline chain = true -> Forall (Forall (fun a => word a = true)) desired ->
  chainRulesMatch table chain desired w = (r, w') ->
  fw_view w' = fw_view w /\ exists b, r = Ok b /\ (b = true -> exists rules, mapM (fw_parse table) desired = Some rules /\ fw_view w !! (table, chain) = Some rules).
Proof.
  intros Hc Hw. unfold chainRulesMatch. run_op.
  destruct (Output table ["-w"; "-S"; chain] w) as [[out|e] w1] eqn:E; intros [= <- <-].
  - apply list_ok in E as (Hv & rules & Hr & ->). split; [done|]. eexists. split; [done|].
    intros Hm%bool_decide_eq_true. exists rules. split; [|done].
    destruct (policy_line w table chain) as [Hp1 Hp2].
    rewrite listed_rules_listing in Hm; [|done..|apply Forall_fmap, Forall_forall; intros x _; apply print_line].
    apply mapM_Some. apply Forall2_same_length_lookup. split.
    { apply (f_equal length) in Hm. by rewrite !length_fmap in Hm. }
    intros i args rule Hi Hj. rewrite Forall_forall in Hw.
    apply (print_parse w table chain rules); [done|by eapply list_elem_of_lookup_2|apply Hw; by eapply list_elem_of_lookup_2|].
    apply (f_equal (fun l => l !! i)) in Hm. rewrite !list_lookup_fmap, Hi, Hj in Hm. by injection Hm.
  - apply list_err in E. split; [done|]. by exists false.
Qed.

Lemma appendRules_spec table rules w r w' :
  appendRules table rules w = (r, w') ->
  frame [(table, customChainName)] w w' /\ (r = Ok tt -> forall old, fw_view w !! (table, customChainName) = Some old ->
    exists parsed, mapM (fw_parse table) rules = Some parsed /\ fw_view w' !! (table, customChainName) = Some (old +++ parsed)).
Proof.
  revert w. induction rules as [|rule rules IH]; intros w; cbn [appendRules]; run_op.
  - intros [= <- <-]. split; [by apply frame_refl|]. intros _ old Ho. exists []. by rewrite app_nil_r.
  - destruct (wrap_err _ _ w) as [r1 w1] eqn:E1. apply wrap_err_cases in E1 as (r0 & Hrun & Hr).
    apply (run_cases table (Append customChainName rule)) in Hrun as [[-> Hx]|[[e ->] Hx]].
    + subst r1. intros [Hf Hk]%IH. cbn in Hx.
      destruct (fw_view w !! (table, customChainName)) as [old|] eqn:Ho; [|done]. cbn in Hx.
      destruct (fw_parse table rule) as [p|] eqn:Hp; [|done]. injection Hx as Hx. split.
      * eapply frame_trans; [|exact Hf]. intros k Hk'. rewrite <- Hx, lookup_insert_ne; [done|set_solver].
      * intros Hok old' [= <-]. destruct (Hk Hok (old +++ [p])) as (ps & Hm & Hv); [by rewrite <- Hx, lookup_insert_eq|].
        exists (p :: ps). cbn [mapM]. rewrite Hp. cbn. rewrite Hm. split; [done|]. by rewrite Hv, <- (assoc_L app).
    + subst r1. intros [= <- <-]. split; [by apply frame_refl | done].
Qed.

Lemma flushChain_spec table chain w r w' :
  flushChain table chain w = (r, w') ->
  frame [(table, chain)] w w' /\ (r = Ok tt -> fw_view w' !! (table, chain) = Some []).
Proof.
  unfold flushChain. intros (r0 & Hrun & Hr)%wrap_err_cases.
  apply (run_cases table (Flush chain)) in Hrun as [[-> Hx]|[[e ->] Hx]].
  - cbn in Hx. destruct (fw_view w !! (table, chain)); [|done]. injection Hx as Hx. subst r.
    rewrite <- Hx. split; [|by rewrite lookup_insert_eq].
    intros k Hk. rewrite <- Hx, lookup_insert_ne; [done|set_solver].
  - subst r. split; [by apply frame_refl|done].
Qed.

Lemma ensureJumpRule_spec table parent rule w r w' :
  ensureJumpRule table parent rule w = (r, w') ->
  (r = Ok tt /\ frame [(table, parent)] w w' /\ exists jump old new,
    fw_parse table rule = Some jump /\ fw_view w !! (table, parent) = Some old /\ fw_view w' !! (table, parent) = Some new /\ ((new = old /\ jump ∈ old) \/ new = jump :: old)) \/
  ((exists e, r = Err e) /\ fw_view w' = fw_view w).
Proof.
  unfold ensureJumpRule. run_op.
  destruct (Run table (["-w"; "-C"; parent] +++ rule) w) as [r1 w1] eqn:E1.
  apply (run_cases table (CheckRule parent rule)) in E1 as [[-> Hx]|[[e ->] Hx]]; cbn [is_ok].
  - intros [= <- <-]. left. cbn in Hx.
    destruct (fw_view w !! (table, parent)) as [old|] eqn:Ho; [|done]. cbn in Hx.
    destruct (fw_parse table rule) as [p|] eqn:Hp; [|done]. cbn in Hx.
    case_decide as Hin; [|done]. injection Hx as Hx. split; [done|]. split; [by apply frame_refl|].
    exists p, old, old. rewrite <- Hx, Ho. split_and!; [done..|]. left. split; [done|exact Hin].
  - intros [[-> Hy]|[[e' ->] Hy]]%(run_cases table (InsertFirst parent rule)).
    + left. cbn in Hy. rewrite Hx in Hy.
      destruct (fw_view w !! (table, parent)) as [old|] eqn:Ho; [|done]. cbn in Hy.
      destruct (fw_parse table rule) as [p|] eqn:Hp; [|done]. injection Hy as Hy. split; [done|]. split.
      * intros k Hk. rewrite <- Hy, lookup_insert_ne; [done|set_solver].
      * exists p, old, (p :: old). rewrite <- Hy, lookup_insert_eq. split_and!; [done..|]. by right.
    + right. split; [eauto|congruence].
Qed.

Lemma resolveParentChain_spec ifs cfg table ipv6 w r w' :
  resolveParentChain ifs cfg table ipv6 w = (r, w') ->
  fw_view w' = fw_view w /\ (forall p d, r = Ok (p, d) -> p = "DOCKER-USER" \/ p = "INPUT").
Proof.
  unfold resolveParentChain. run_op. destruct (String.eqb (ChainMode cfg) "docker-user").
  - destruct (resolveDestinationIP _ _ _); [|by intros [= <- <-]].
    destruct (chainExists table "DOCKER-USER" w) as [r1 w1] eqn:E1.
    apply chainExists_spec in E1 as (Hv & b & -> & _). destruct b; intros [= <- <-].
    + split; [done|]. intros p d [= <- <-]. by left.
    + by split.
  - destruct (String.eqb (ChainMode cfg) "input"); [intros [= <- <-]; split; [done|]; intros p d [= <- <-]; by right|].
    destruct (chainExists table "DOCKER-USER" w) as [r1 w1] eqn:E1.
    apply chainExists_spec in E1 as (Hv & b & -> & _). intros [= <- <-]. split; [done|].
    intros p d. destruct b; [destruct (resolveDestinationIP _ _ _) as [d'|]; [destruct (is_empty d')|]|];
    intros [= <- <-]; auto.
Qed.

Lemma refreshRules_spec table desired w r w' :
  Forall (Forall (fun a => word a = true)) desired ->
  refreshRules table desired w = (r, w') ->
  frame [(table, customChainName)] w w' /\
  (r = Ok tt -> exists rules, mapM (fw_parse table) desired = Some rules /\
    fw_view w' !! (table, customChainName) = Some rules).
Proof.
  intros Hw. unfold refreshRules. run_op.
  destruct (chainRulesMatch _ _ _ w) as [r1 w1] eqn:E1.
  apply chainRulesMatch_spec in E1 as (Hv & b & -> & Hb); [|done|done]. destruct b.
  - intros [= <- <-]. rewrite Hv. split; [by apply frame_refl|auto].
  - destruct (flushChain _ _ w1) as [r2 w2] eqn:E2. apply flushChain_spec in E2 as [Hf Hk].
    apply (frame_trans _ w) in Hf; [|by apply frame_refl].
    destruct r2 as [[]|e]; [|by intros [= <- <-]]. intros [Hf3 Hk3]%appendRules_spec.
    split; [by eapply frame_trans|]. intros Hr.
    destruct (Hk3 Hr [] (Hk eq_refl)) as (parsed & Hm & Hp). exists parsed. by split.
Qed.

(** The guard's chain holds the desired rules, and the parent chain jumps to it. *)
Definition installed (cfg : config) (table : string) (ipv6 : bool) (parent dest : string) w : Prop :=
  (exists rules, mapM (fw_parse table) (desiredRules cfg ipv6) = Some rules /\
    fw_view w !! (table, customChainName) = Some rules) /\
  (exists jump rules, fw_parse table (parentJumpRule parent dest (Ports cfg)) = Some jump /\
    fw_view w !! (table, parent) = Some rules /\ jump ∈ rules).

(** The parent chain got at most the jump, in front. *)
Definition jump_added (cfg : config) (table parent dest : string) w w' : Prop :=
  exists old, fw_view w !! (table, parent) = Some old /\
  (fw_view w' !! (table, parent) = Some old \/
    exists jump, fw_parse table (parentJumpRule parent dest (Ports cfg)) = Some jump /\
    fw_view w' !! (table, parent) = Some (jump :: old)).

Lemma bootstrapFamily_cases ifs cfg table ipv6 w r w' :
  config_wf cfg -> bootstrapFamily ifs cfg table ipv6 w = (r, w') ->
  (r = Ok tt /\ exists parent dest w1,
    resolveParentChain ifs cfg table ipv6 w = (Ok (parent, dest), w1) /\
    (parent = "DOCKER-USER" \/ parent = "INPUT") /\
    installed cfg table ipv6 parent dest w' /\ jump_added cfg table parent dest w w' /\
    frame [(table, customChainName); (table, parent)] w w') \/
  ((exists e, r = Err e) /\ frame [(table, customChainName)] w w').
Proof.
  intros Hwf. unfold bootstrapFamily. run_op.
  destruct (resolveParentChain ifs cfg table ipv6 w) as [r1 w1] eqn:E1.
  pose proof (resolveParentChain_spec _ _ _ _ _ _ _ E1) as [Hv1 Hp].
  assert (H1 : frame [(table, customChainName)] w w1) by by apply frame_refl.
  destruct r1 as [[parent dest]|e]; [|intros [= <- <-]; right; eauto].
  specialize (Hp parent dest eq_refl). replace (is_empty parent) with false by (by destruct Hp as [-> | ->]).
  destruct (ensureChain _ _ w1) as [r2 w2] eqn:E2. apply ensureChain_spec in E2 as [H2 _].
  apply (frame_trans _ _ _ _ H1) in H2.
  destruct r2 as [[]|e]; [|intros [= <- <-]; right; eauto].
  destruct (refreshRules _ _ w2) as [r3 w3] eqn:E3.
  apply refreshRules_spec in E3 as [H3 Hk3]; [|by apply desired_words].
  apply (frame_trans _ _ _ _ H2) in H3.
  destruct r3 as [[]|e]; [|intros [= <- <-]; right; eauto].
  destruct (Hk3 eq_refl) as (rules & Hm & Hr).
  assert (Hne : (table, customChainName) <> (table, parent)) by (by destruct Hp as [-> | ->]).
  intros (r0 & Hj & Hres)%wrap_err_cases.
  apply ensureJumpRule_spec in Hj as [(-> & H4 & jump & old & new & Hpj & Ho & Hn & Hcase)|[[e ->] Hv4]].
  - left. split; [done|]. exists parent, dest, w1. split_and!; [done..| | |].
    + split; [exists rules; split; [done|]; rewrite (H4 (table, customChainName)); [done|set_solver]|].
      exists jump, new. split_and!; [done..|]. destruct Hcase as [[-> ?]| ->]; [done|by left].
    + exists old. rewrite H3 in Ho by set_solver. split; [done|]. rewrite Hn.
      destruct Hcase as [[-> _]| ->]; [by left | right; eauto].
    + eapply frame_trans; [eapply frame_weaken; [|exact H3]|eapply frame_weaken; [|exact H4]]; set_solver.
  - right. split; [eauto|]. intros k Hk. rewrite Hv4. by apply H3.
Qed.

(** C38: Installing one family: on success the guard's chain holds exactly the desired rules in
order, the parent chain contains the jump (added in front only if it was missing) and every
other chain is untouched; on failure nothing but the guard's own chain may have changed. *)
Theorem bootstrapFamily_outcome ifs cfg table ipv6 w r w' :
  config_wf cfg -> bootstrapFamily ifs cfg table ipv6 w = (r, w') ->
  match r with
  | Ok _ => exists parent dest, (parent = "DOCKER-USER" \/ parent = "INPUT") /\
    installed cfg table ipv6 parent dest w' /\ jump_added cfg table parent dest w w' /\
    frame [(table, customChainName); (table, parent)] w w'
  | Err _ => frame [(table, customChainName)] w w'
  end.
Proof.
  intros Hwf [(-> & p & d & w1 & _ & Hx)|[[e ->] Hf]]%bootstrapFamily_cases; eauto.
Qed.

(** *** With commands that do not fail by themselves *)
Context `{!Reliable W}.

Lemma run_total table cmd w v :
  ipt_exec fw_parse table cmd (fw_view w) = Some v ->
  exists w', Run table (encode cmd) w = (Ok tt, w') /\ fw_view w' = v.
Proof.
  intros Hx. destruct (Run table (encode cmd) w) as [[[]|e] w'] eqn:E.
  - apply run_ok in E. exists w'. split; [done|congruence].
  - apply run_complete in E. congruence.
Qed.

Lemma chainExists_total table chain w :
  exists w', chainExists table chain w = (Ok (bool_decide (is_Some (fw_view w !! (table, chain)))), w') /\
  fw_view w' = fw_view w.
Proof.
  unfold chainExists. run_op. destruct (Output table ["-w"; "-S"; chain] w) as [[out|e] w'] eqn:E; exists w'.
  - apply list_ok in E as (Hv & rules & Hr & _). split; [|done]. by rewrite Hr.
  - pose proof (list_complete _ _ _ _ _ E) as Hn. apply list_err in E. by rewrite Hn.
Qed.

Lemma resolveParentChain_total ifs cfg table ipv6 w1 w1' w2 r :
  resolveParentChain ifs cfg table ipv6 w1 = (r, w1') ->
  (is_Some (fw_view w1 !! (table, "DOCKER-USER")) <-> is_Some (fw_view w2 !! (table, "DOCKER-USER"))) ->
  exists w2', resolveParentChain ifs cfg table ipv6 w2 = (r, w2') /\ fw_view w2' = fw_view w2.
Proof.
  intros H1 Hiff. revert H1. unfold resolveParentChain. run_op.
  destruct (chainExists_total table "DOCKER-USER" w1) as (v1 & E1 & _).
  destruct (chainExists_total table "DOCKER-USER" w2) as (v2 & E2 & Hv2).
  rewrite <- (bool_decide_ext _ _ Hiff) in E2.
  destruct (String.eqb (ChainMode cfg) "docker-user").
  - destruct (resolveDestinationIP _ _ _); [|intros [= <- <-]; eauto].
    rewrite E1, E2. destruct (bool_decide _); intros [= <- <-]; eauto.
  - destruct (String.eqb (ChainMode cfg) "input"); [intros [= <- <-]; eauto|].
    rewrite E1, E2. intros [= <- <-]; eauto.
Qed.

Lemma appendRules_total table rules parsed old w :
  fw_view w !! (table, customChainName) = Some old -> mapM (fw_parse table) rules = Some parsed ->
  exists w', appendRules table rules w = (Ok tt, w') /\
  fw_view w' = <[(table, customChainName) := old +++ parsed]> (fw_view w).
Proof.
  revert parsed old w. induction rules as [|rule rules IH]; intros parsed old w Ho; cbn [mapM appendRules].
  - intros [= <-]. exists w. split; [done|]. by rewrite app_nil_r, insert_id.
  - destruct (fw_parse table rule) as [p|] eqn:Hp; [|done]. cbn.
    destruct (mapM (fw_parse table) rules) as [ps|]; [|done]. intros [= <-].
    destruct (run_total table (Append customChainName rule) w (<[(table, customChainName) := old +++ [p]]> (fw_view w)))
    as (w1 & E1 & Hv1); [cbn; by rewrite Ho; cbn; rewrite Hp|].
    destruct (IH ps (old +++ [p]) w1) as (w2 & E2 & Hv2); [by rewrite Hv1, lookup_insert_eq|done|].
    exists w2. run_op. unfold wrap_err. cbn [encode app] in *. rewrite E1. split; [done|]. by rewrite Hv2, Hv1, insert_insert_eq, <- (assoc_L app).
Qed.

Lemma refreshRules_total table desired rules w :
  mapM (fw_parse table) desired = Some rules ->
  fw_view w !! (table, customChainName) = Some rules ->
  exists w', refreshRules table desired w = (Ok tt, w') /\ fw_view w' = fw_view w.
Proof.
  intros Hm Hr. unfold refreshRules. run_op.
  assert (E : exists b w1, chainRulesMatch table customChainName desired w = (Ok b, w1) /\ fw_view w1 = fw_view w).
  { unfold chainRulesMatch. run_op.
    destruct (Output _ _ w) as [[out|e] w1] eqn:E; do 2 eexists; (split; [done|]);
    [by apply list_ok in E as [? _] | by apply list_err in E]. }
  destruct E as (b & w1 & -> & Hv). destruct b; [by exists w1|].
  destruct (run_total table (Flush customChainName) w1 (<[(table, customChainName) := []]> (fw_view w1)))
  as (w2 & E2 & Hv2); [cbn; by rewrite Hv, Hr|].
  destruct (appendRules_total table desired rules [] w2) as (w3 & E3 & Hv3); [by rewrite Hv2, lookup_insert_eq|done|].
  exists w3. unfold flushChain, wrap_err. change ["-w"; "-F"; customChainName] with (encode (Flush customChainName)).
  rewrite E2. split; [done|]. rewrite Hv3, Hv2, insert_insert_eq, Hv. by apply insert_id.
Qed.

Lemma ensureJumpRule_total table parent rule jump rules w :
  fw_parse table rule = Some jump -> fw_view w !! (table, parent) = Some rules -> jump ∈ rules ->
  exists w', ensureJumpRule table parent rule w = (Ok tt, w') /\ fw_view w' = fw_view w.
Proof.
  intros Hp Hr Hin. destruct (run_total table (CheckRule parent rule) w (fw_view w)) as (w' & E & Hv).
  { cbn. rewrite Hr, Hp. by rewrite decide_True. }
  exists w'. unfold ensureJumpRule. run_op.
  change (["-w"; "-C"; parent] +++ rule) with (encode (CheckRule parent rule)). by rewrite E.
Qed.

(** C39: Installing a family again, with the same configuration and interfaces, succeeds and leaves
every chain as it is, whatever text iptables prints for the rules. *)
Theorem bootstrapFamily_idempotent ifs cfg table ipv6 w w' :
  config_wf cfg -> bootstrapFamily ifs cfg table ipv6 w = (Ok tt, w') ->
  exists w'', bootstrapFamily ifs cfg table ipv6 w' = (Ok tt, w'') /\ fw_view w'' = fw_view w'.
Proof.
  intros Hwf [(_ & parent & dest & w1 & Hres & Hp & Hi & (old & Ho & _) & Hf)|[[e ?] _]]%bootstrapFamily_cases;
  [|done|done].
  destruct Hi as [(rules & Hm & Hr) (jump & prules & Hj & Hpr & Hin)].
  destruct (resolveParentChain_total _ _ _ _ _ _ w' _ Hres) as (v1 & E1 & Hv1).
  { destruct Hp as [-> | ->]; [by rewrite Ho, Hpr|]. rewrite (Hf (table, "DOCKER-USER")); [done|set_solver]. }
  unfold bootstrapFamily. run_op. rewrite E1.
  replace (is_empty parent) with false by (by destruct Hp as [-> | ->]).
  destruct (chainExists_total table customChainName v1) as (v2 & E2 & Hv2).
  rewrite Hv1, Hr, bool_decide_true in E2 by eauto. unfold ensureChain. run_op. rewrite E2.
  destruct (refreshRules_total table (desiredRules cfg ipv6) rules v2) as (v3 & E3 & Hv3); [done|congruence|].
  rewrite E3. unfold wrap_err.
  destruct (ensureJumpRule_total table parent (parentJumpRule parent dest (Ports cfg)) jump prules v3)
  as (v4 & E4 & Hv4); [done|congruence|done|]. rewrite E4. exists v4. split; [done|congruence].
Qed.
End Bootstrap.

(** ** The whole command *)
Section Run.
Context {W : Type} `{Iptables W}.

Lemma installed_same cfg table ipv6 parent dest (w w' : W) :
  (forall chain, fw_view w' !! (table, chain) = fw_view w !! (table, chain)) ->
  installed cfg table ipv6 parent dest w -> installed cfg table ipv6 parent dest w'.
Proof. intros Hs. unfold installed. by rewrite !Hs. Qed.

(** An IPv6 run leaves the IPv4 chains alone. *)
Lemma ipv6_keeps_ipv4 ifs cfg (w : W) r w' chain :
  config_wf cfg -> bootstrapFamily ifs cfg iptablesIPv6 true w = (r, w') ->
  fw_view w' !! (iptablesIPv4, chain) = fw_view w !! (iptablesIPv4, chain).
Proof.
  intros Hwf [(_ & p & d & w1 & _ & _ & _ & _ & Hf)|[_ Hf]]%bootstrapFamily_cases; [| |done]; apply Hf.
  - intros [?|[?|?]%elem_of_cons]%elem_of_cons; [discriminate..|by eapply not_elem_of_nil].
  - intros [?|?]%elem_of_cons; [discriminate|by eapply not_elem_of_nil].
Qed.

(** When the guard command reports success the guard is disabled and nothing was touched, or the
IPv4 rules and jump are installed, and so are the IPv6 ones unless that family was not
configured, in which case at most the guard's own IPv6 chain changed. *)
Theorem run_outcome ifs inp args (w w' : W) :
  run ifs inp args w = (Ok tt, w') ->
  exists cfg, loadConfig inp = Ok cfg /\
  ((Enabled cfg = false /\ w' = w) \/
    (exists parent dest, installed cfg iptablesIPv4 false parent dest w') /\
    ((exists parent dest, installed cfg iptablesIPv6 true parent dest w') \/
      exists w1, bootstrapFamily ifs cfg iptablesIPv6 true w1 = (Err errFamilyNotConfigured, w') /\
      frame [(iptablesIPv6, customChainName)] w1 w')).
Proof.
  unfold run. destruct (negb _); [by intros [=]|]. unfold lift, mbind at 1, guardop_bind at 1.
  destruct (loadConfig inp) as [cfg|e] eqn:Hcfg; [|by intros [=]].
  intros Hrun. exists cfg. split; [done|].
  pose proof (loadConfig_wf _ _ Hcfg) as Hwf.
  revert Hrun. destruct (Enabled cfg); cbn [negb]; [|intros [= <-]; by left]. intros Hrun. right.
  revert Hrun. unfold bootstrap, mbind, guardop_bind, attempt.
  destruct (bootstrapFamily ifs cfg iptablesIPv4 false w) as [r4 w4] eqn:E4.
  destruct (bootstrapFamily ifs cfg iptablesIPv6 true w4) as [r6 w6] eqn:E6.
  pose proof (fun c => ipv6_keeps_ipv4 _ _ _ _ _ c Hwf E6) as Hkeep.
  destruct r4 as [[]|e4].
  2: { intros Hrun. exfalso. revert Hrun. cbn. by destruct (match r6 with Ok _ => _ | Err _ => _ end). }
  apply bootstrapFamily_cases in E4 as [(_ & p & d & w1 & _ & _ & Hi & _)|[[e ?] _]]; [|done|done].
  apply (installed_same _ _ _ _ _ _ _ Hkeep) in Hi.
  destruct r6 as [[]|e6]; cbn.
  - intros [= <-]. split; [by exists p, d|]. left.
    apply bootstrapFamily_cases in E6 as [(_ & p6 & d6 & w2 & _ & _ & Hi6 & _)|[[e ?] _]]; [|done|done]. eauto.
  - destruct (is_not_configured e6) eqn:He; [|done]. intros [= <-]. apply String.eqb_eq in He as ->.
    split; [by exists p, d|]. right. exists w4. split; [done|].
    by apply bootstrapFamily_cases in E6 as [(? & _)|[_ Hf]].
Qed.
End Run.

(** *** Instances *)
Definition empty_firewall : sim_world :=
  <[(iptablesIPv4, "INPUT") := []]> (<[(iptablesIPv6, "INPUT") := []]> ∅).

Lemma sample_config_wf : config_wf sample_config.
Proof. exact (loadConfig_wf _ _ sample_loads). Qed.

Lemma bootstrapFamily_outcome_witness :
  exists w', bootstrapFamily (Ok []) sample_config iptablesIPv4 false empty_firewall = (Ok tt, w') /\
    exists parent dest, installed sample_config iptablesIPv4 false parent dest w'.
Proof.
  assert (E : (bootstrapFamily (Ok []) sample_config iptablesIPv4 false empty_firewall).1 = Ok tt)
    by (vm_compute; reflexivity).
  destruct (bootstrapFamily (Ok []) sample_config iptablesIPv4 false empty_firewall) as [r w'] eqn:Eb.
  simpl in E. subst r. exists w'. split; [reflexivity|].
  destruct (bootstrapFamily_outcome (Ok []) sample_config iptablesIPv4 false empty_firewall (Ok tt) w'
              sample_config_wf Eb) as (parent & dest & _ & Hi & _).
  exists parent, dest. exact Hi.
Defined.

Lemma bootstrapFamily_idempotent_witness :
  exists w' w'', bootstrapFamily (Ok []) sample_config iptablesIPv4 false empty_firewall = (Ok tt, w') /\
    bootstrapFamily (Ok []) sample_config iptablesIPv4 false w' = (Ok tt, w'') /\ fw_view w'' = fw_view w'.
Proof.
  assert (E : (bootstrapFamily (Ok []) sample_config iptablesIPv4 false empty_firewall).1 = Ok tt)
    by (vm_compute; reflexivity).
  destruct (bootstrapFamily (Ok []) sample_config iptablesIPv4 false empty_firewall) as [r w'] eqn:Eb.
  simpl in E. subst r.
  destruct (bootstrapFamily_idempotent (Ok []) sample_config iptablesIPv4 false empty_firewall w'
              sample_config_wf Eb) as (w'' & E2 & Hv).
  exists w', w''. split; [reflexivity|]. split; [exact E2 | exact Hv].
Defined.

Lemma run_outcome_witness :
  exists w', run (Ok []) sample_inputs [" bootstrap"] empty_firewall = (Ok tt, w') /\
    exists parent dest, installed sample_config iptablesIPv4 false parent dest w'.
Proof.
  assert (E : (run (Ok []) sample_inputs [" bootstrap"] empty_firewall).1 = Ok tt)
    by (vm_compute; reflexivity).
  destruct (run (Ok []) sample_inputs [" bootstrap"] empty_firewall) as [r w'] eqn:Eb.
  simpl in E. subst r. exists w'. split; [reflexivity|].
  destruct (run_outcome (Ok []) sample_inputs [" bootstrap"] empty_firewall w' Eb)
    as (cfg & Hl & Hcase).
  rewrite sample_loads in Hl. injection Hl as Hl. subst cfg.
  destruct Hcase as [[Hd _]|[Hi _]]; [discriminate Hd | exact Hi].
Defined.

(** ** Removing stale jumps *)
Section DeleteJump.
Context {W : Type} `{Iptables W}.

Definition same_rule (r r' : fw_rule) : bool := bool_decide (r = r').
Definition other_rules (r : fw_rule) (rules : list fw_rule) : list fw_rule :=
  List.filter (fun r' => negb (same_rule r r')) rules.
Definition count_rule (r : fw_rule) (rules : list fw_rule) : nat :=
  length (List.filter (same_rule r) rules).

(** How many copies of the rule the chain holds. *)
Definition copies (table parent : string) (rule : list string) (w : W) : nat :=
  match fw_view w !! (table, parent), fw_parse table rule with
  | Some rules, Some r => count_rule r rules
  | _, _ => 0%nat
  end.

(** The other rules of the chain, in order. *)
Definition others (table parent : string) (rule : list string) (w : W) : option (list fw_rule) :=
  rules ← fw_view w !! (table, parent);
  Some match fw_parse table rule with Some r => other_rules r rules | None => rules end.

Lemma remove_first_spec (r : fw_rule) (rules rules' : list fw_rule) :
  remove_first r rules = Some rules' ->
  count_rule r rules = S (count_rule r rules') /\ other_rules r rules' = other_rules r rules.
Proof.
  unfold count_rule, other_rules, same_rule. revert rules'.
  induction rules as [|r' rules IH]; intros rules'; cbn [remove_first List.filter]; [done|].
  case_decide as Hr.
  - intros [= <-]. by rewrite bool_decide_true.
  - intros (rest & Hrest & ->)%fmap_Some. destruct (IH _ Hrest) as [H1 H2]. cbn [List.filter].
    rewrite bool_decide_false by done. cbn. split; [exact H1 | by rewrite H2].
Qed.

(** The effect of the two commands of the loop on the chain. *)
Lemma check_jump table parent rule w r w' :
  Run table (["-w"; "-C"; parent] +++ rule) w = (r, w') -> fw_view w' = fw_view w.
Proof.
  intros [[_ Hx]|[_ Hx]]%(run_cases table (CheckRule parent rule)); [|done]. cbn in Hx.
  destruct (fw_view w !! _); [|done]. destruct (fw_parse table rule); [|done].
  case_decide; [by injection Hx|done].
Qed.

Lemma delete_jump table parent rule w w' :
  Run table (["-w"; "-D"; parent] +++ rule) w = (Ok tt, w') ->
  frame [(table, parent)] w w' /\ others table parent rule w' = others table parent rule w /\
  copies table parent rule w = S (copies table parent rule w').
Proof.
  intros Hx%(run_ok table (Delete parent rule)). cbn in Hx. unfold others, copies.
  destruct (fw_view w !! (table, parent)) as [rules|] eqn:Hr; [|done]. cbn in Hx.
  destruct (fw_parse table rule) as [r|]; [|done]. cbn in Hx.
  destruct (remove_first r rules) as [rules'|] eqn:E; [|done]. injection Hx as Hx.
  rewrite <- Hx, lookup_insert_eq. apply remove_first_spec in E as [E1 E2]. cbn. split_and!; [|by rewrite E2|done].
  intros k Hk. rewrite <- Hx, lookup_insert_ne; [done|set_solver].
Qed.

End DeleteJump.

Definition crowded_firewall : sim_world :=
  (run (Ok []) sample_inputs [] (run (Ok []) sample_inputs [] empty_firewall).2).2.

