(* ===== verification/Mapping.v ===== *)
(** * From a snapshot of the control plane to the compiler's input
    (control-plane/internal/services: runtime_apply.go, runtime_apply_management_compat.go,
    management_site.go)

    A revision holds a snapshot of every configuration document.  Before rendering, the apply service
    maps the documents to the compiler's records: which upstream a site uses, whether it listens with
    TLS, which of two access policies counts, and the site profile field by field. *)
From Stdlib Require Import ZArith Lia Ascii String.
From stdpp Require Import base tactics gmap strings list.
From S2P Require Import Prelude GoText GoSeq GoFloat ConfigStores Bundle Inputs Render Easy.
From S2P Require SiteProfiles VirtualPatches AntiDDoS ManagementHosts.
Local Set Warnings "-clear-no-such-hyp".
Local Open Scope string_scope.
Local Open Scope Z_scope.
Local Notation "a +++ b" := (@app _ a b) (at level 60, right associativity).

(** ** The snapshot (revisionsnapshots/store.go) *)
Record CertificateMaterialSnapshot := MkMaterial {
  m_CertificateID : string;
  m_CertificateRef : string;
  m_PrivateKeyRef : string
}.

Record Snapshot := MkSnapshot {
  sn_Sites : list Sites.Site;
  sn_Upstreams : list Upstreams.Upstream;
  sn_Certificates : list Certificates.Certificate;
  sn_TLSConfigs : list TLSConfigs.TLSConfig;
  sn_WAFPolicies : list WAFPolicies.WAFPolicy;
  sn_AccessPolicies : list AccessPolicies.AccessPolicy;
  sn_RateLimitPolicies : list RateLimitPolicies.RateLimitPolicy;
  sn_EasySiteProfiles : list SiteProfiles.EasySiteProfile;
  sn_AntiDDoSSettings : AntiDDoS.Settings;
  sn_CertificateMaterials : list CertificateMaterialSnapshot;
  sn_VirtualPatches : list VirtualPatches.VirtualPatch;
  sn_ManagementHosts : list string;
  sn_ManagementHostsConfigured : bool;
  sn_BlockDirectIPAccess : bool
}.

(** A Go map from the keys of a list keeps the last entry of a key ([last_of]); one that is filled only
    where the key is missing keeps the first. *)
Definition first_by {A} (key : A -> string) (k : string) (l : list A) : option A := snd <$> find_key key k l.

(** ** References to certificate files *)
Fixpoint material_part (parts : list string) : string :=
  match parts with
  | a :: ((b :: c :: _) as rest) =>
      if String.eqb a "files" && (String.eqb c "certificate.pem" || String.eqb c "private.key") then b else material_part rest
  | _ => ""
  end.

Definition certificateMaterialIDFromRef (ref : string) : string :=
  let ref := trim_space (replace_char "\" "/" ref) in
  if is_empty ref then "" else material_part (split_on "/" ref).

(** [strings.TrimLeft(s, "/")] *)
Fixpoint trim_slashes (s : string) : string :=
  match s with String c s' => if Ascii.eqb c "/" then trim_slashes s' else s | EmptyString => "" end.

Definition material_path (file ref : string) : string :=
  let ref := trim_space ref in
  if is_empty ref || has_prefix "/" ref then ref
  else let certificateID := certificateMaterialIDFromRef ref in
       if negb (is_empty certificateID) then "/etc/waf/tls/materials/" ++ certificateID ++ file
       else "/var/lib/waf/control-plane/" ++ trim_slashes ref.
Definition runtimeCertificateMaterialPath : string -> string := material_path "/certificate.pem".
Definition runtimeCertificateMaterialKeyPath : string -> string := material_path "/private.key".

(** ** Sites and upstreams *)
Definition isLegacyManagementUIProxy (u : Upstreams.Upstream) : bool :=
  equal_fold (trim_space (Upstreams.Scheme u)) "http" && equal_fold (trim_space (Upstreams.Host u)) "ui" &&
  (Upstreams.Port u =? 80).

Definition legacyManagementUIProxySiteIDs (sites : list Sites.Site) (upstreams : list Upstreams.Upstream)
    (managementConfigured : bool) : list string :=
  if managementConfigured then []
  else
    let proxied site := Sites.Enabled site &&
      match first_by Upstreams.SiteID (Sites.ID site) upstreams with
      | Some u => isLegacyManagementUIProxy u
      | None => false
      end in
    match List.filter proxied sites with [site] => [Sites.ID site] | _ => [] end.

Definition mtls_input (front : SiteProfiles.FrontServiceSettings) : MTLSInput :=
  MkMTLS (SiteProfiles.MTLSEnabled front) (SiteProfiles.MTLSOptional front) (SiteProfiles.MTLSVerifyDepth front)
    (runtimeCertificateMaterialPath (SiteProfiles.MTLSClientCARef front)) (SiteProfiles.MTLSPassHeaders front).

Definition no_mtls : MTLSInput := MkMTLS false false 0 "" false.

Section Maps.
Variables (sites : list Sites.Site) (upstreams : list Upstreams.Upstream) (tls : list TLSConfigs.TLSConfig)
  (easy : list SiteProfiles.EasySiteProfile) (managementHosts : list string) (managementConfigured : bool).

Definition profile_of (siteID : string) : option SiteProfiles.EasySiteProfile := last_of SiteProfiles.SiteID siteID easy.
Definition sorted_sites : list Sites.Site := sort_on Sites.ID sites.
Definition sorted_upstreams : list Upstreams.Upstream := sort_on Upstreams.ID upstreams.

Definition site_input (item : Sites.Site) : SiteInput :=
  let hasTLS := existsb (has_key TLSConfigs.SiteID (Sites.ID item)) tls in
  let profile := profile_of (Sites.ID item) in
  {| s_ID := Sites.ID item;
     s_Name := Sites.ID item;
     s_Enabled := Sites.Enabled item;
     s_PrimaryHost := Sites.PrimaryHost item;
     s_Aliases := [];
     s_ListenHTTP := negb hasTLS;
     s_ListenHTTPS := hasTLS;
     s_DefaultUpstreamID := from_option Upstreams.ID "" (first_by Upstreams.SiteID (Sites.ID item) sorted_upstreams);
     s_UseEasyConfig := bool_decide (is_Some profile);
     s_UseCustomErrorPages := from_option SiteProfiles.UseCustomErrorPages false profile;
     s_MTLS := from_option (fun p => mtls_input (SiteProfiles.FrontService p)) no_mtls profile;
     s_Management := mem (lower_trim (Sites.PrimaryHost item)) (lower_trim <$> managementHosts) ||
       mem (Sites.ID item) (legacyManagementUIProxySiteIDs sorted_sites sorted_upstreams managementConfigured);
     s_ManagementConfigured := managementConfigured |}.

Definition upstream_input (item : Upstreams.Upstream) : UpstreamInput :=
  {| u_ID := Upstreams.ID item; u_SiteID := Upstreams.SiteID item; u_Name := Upstreams.ID item;
     u_Scheme := Upstreams.Scheme item; u_Host := Upstreams.Host item; u_Port := Upstreams.Port item;
     u_BasePath := "/";
     u_PassHostHeader := from_option (fun p => negb (SiteProfiles.DisableHostHeader (SiteProfiles.UpstreamRouting p))) true
       (profile_of (Upstreams.SiteID item)) |}.

Definition mapSiteUpstreamInputs : list SiteInput * list UpstreamInput :=
  (site_input <$> sorted_sites, upstream_input <$> sorted_upstreams).
End Maps.

(** ** Policies *)
Definition mapWAFInputs (items : list WAFPolicies.WAFPolicy) : list WAFPolicyInput :=
  (fun item => MkWAFPolicy (WAFPolicies.ID item) (WAFPolicies.SiteID item) (WAFPolicies.Enabled item)
     (if String.eqb (WAFPolicies.Mode item) WAFPolicies.ModePrevention then WAFModePrevention else WAFModeDetection)
     (WAFPolicies.CRSEnabled item) (WAFPolicies.CustomRuleIncludes item)) <$> sort_on WAFPolicies.ID items.

(** The policy of a site that counts: one of the site's own wins over one kept for an easy profile. *)
Definition supersedes (current item : AccessPolicies.AccessPolicy) : bool :=
  has_prefix "easy-" (AccessPolicies.ID current) && negb (has_prefix "easy-" (AccessPolicies.ID item)).

(** The map [bySite] as a list with one entry per site. *)
Fixpoint keep_policy (item : AccessPolicies.AccessPolicy) (kept : list AccessPolicies.AccessPolicy)
    : list AccessPolicies.AccessPolicy :=
  match kept with
  | [] => [item]
  | current :: rest =>
      if String.eqb (AccessPolicies.SiteID current) (AccessPolicies.SiteID item)
      then (if supersedes current item then item else current) :: rest
      else current :: keep_policy item rest
  end.

Definition policies_by_site (items : list AccessPolicies.AccessPolicy) : list AccessPolicies.AccessPolicy :=
  foldl (fun kept item => keep_policy item kept) [] items.

Definition mode_of (profiles : list SiteProfiles.EasySiteProfile) (siteID : string) : string :=
  from_option (fun p => lower_trim (SiteProfiles.SecurityMode (SiteProfiles.FrontService p))) ""
    (last_of SiteProfiles.SiteID siteID profiles).

Definition access_input (profiles : list SiteProfiles.EasySiteProfile) (item : AccessPolicies.AccessPolicy) : AccessPolicyInput :=
  MkAccessPolicy (AccessPolicies.ID item) (AccessPolicies.SiteID item)
    (if Nat.eqb (length (AccessPolicies.AllowList item)) 0 then "allow" else "deny")
    (AccessPolicies.AllowList item) (AccessPolicies.DenyList item) (AccessPolicies.TrustedProxyCIDRs item)
    (mode_of profiles (AccessPolicies.SiteID item)).

Definition mapAccessInputs (items : list AccessPolicies.AccessPolicy) (profiles : list SiteProfiles.EasySiteProfile)
    : list AccessPolicyInput :=
  access_input profiles <$> sort_on AccessPolicies.ID (policies_by_site items).

Definition mapRateLimitInputs (items : list RateLimitPolicies.RateLimitPolicy) : list RateLimitPolicyInput :=
  (fun item => MkRateLimitPolicy (RateLimitPolicies.ID item) (RateLimitPolicies.SiteID item) (RateLimitPolicies.Enabled item)
     (RateLimitPolicies.RequestsPerSecond (RateLimitPolicies.PolicyLimits item)) 1
     (RateLimitPolicies.Burst (RateLimitPolicies.PolicyLimits item)) 429 "") <$> sort_on RateLimitPolicies.ID items.

(** ** Site profiles *)
Definition mapCustomLimitRules (items : list SiteProfiles.CustomLimitRule) : list CustomRateLimitRuleInput :=
  (fun item => MkCustomLimit (SiteProfiles.cl_Path item) (SiteProfiles.cl_Rate item)) <$> items.
Definition mapAPIPositiveEndpointPolicies (items : list SiteProfiles.APIPositiveEndpointPolicy)
    : list APIPositiveEndpointPolicyInput :=
  (fun item => MkEndpoint (SiteProfiles.ep_Path item) (SiteProfiles.ep_Methods item) (SiteProfiles.ep_TokenIDs item)
     (SiteProfiles.ep_ContentTypes item) (SiteProfiles.ep_Mode item)) <$> items.
Definition mapAntibotChallengeRules (items : list SiteProfiles.AntibotChallengeRule) : list AntibotChallengeRuleInput :=
  (fun item => MkAntibotRule (SiteProfiles.ac_Path item) (SiteProfiles.ac_Challenge item)) <$> items.
Definition mapAntibotExclusionRules (items : list SiteProfiles.AntibotExclusionRule) : list AntibotExclusionRuleInput :=
  (fun item => MkAntibotExempt (SiteProfiles.ae_Path item) (SiteProfiles.ae_Methods item)) <$> items.
Definition mapAuthUsers (items : list SiteProfiles.SecurityAuthUser) : list ServiceAuthUserInput :=
  (fun item => MkServiceUser (SiteProfiles.su_Username item) (SiteProfiles.su_Password item) (SiteProfiles.su_Enabled item)
     (SiteProfiles.su_LastLoginAt item)) <$> items.
Definition mapAuthExclusionRules (items : list SiteProfiles.SecurityAuthExclusionRule) : list AuthExclusionRuleInput :=
  (fun item => MkAuthExempt (SiteProfiles.ax_Path item) (SiteProfiles.ax_Methods item)) <$> items.
Definition mapAuthServiceTokens (items : list SiteProfiles.SecurityAuthServiceToken) : list ServiceAuthTokenInput :=
  (fun item => MkAuthToken (SiteProfiles.st_ServiceName item) (SiteProfiles.st_Token item) (SiteProfiles.st_Enabled item)
     (SiteProfiles.st_LastUsedAt item)) <$> items.
Definition mapModSecurityExclusionRules (items : list SiteProfiles.ModSecurityExclusionRule)
    : list ModSecurityExclusionRuleInput :=
  (fun item => MkModSecExempt (SiteProfiles.mx_Path item) (SiteProfiles.mx_PathPattern item) (SiteProfiles.mx_Methods item)
     (SiteProfiles.mx_MatchMode item) (SiteProfiles.mx_RuleIDs item) (SiteProfiles.mx_Targets item)
     (SiteProfiles.mx_Comment item)) <$> items.
Definition mapGeoTimeWindows (windows : list SiteProfiles.GeoTimeWindow) : list GeoTimeWindowInput :=
  (fun w => MkWindow (SiteProfiles.gw_Countries w) (SiteProfiles.gw_Action w) (SiteProfiles.gw_DaysOfWeek w)
     (SiteProfiles.gw_HoursStart w) (SiteProfiles.gw_HoursEnd w)) <$> windows.
Definition mapProfileVirtualPatches (patches : list SiteProfiles.VirtualPatchSettings) : list VirtualPatchInput :=
  (fun p => MkVirtualPatch (SiteProfiles.vs_ID p) (SiteProfiles.vs_Pattern p) (SiteProfiles.vs_Target p)
     (SiteProfiles.vs_Action p)) <$> patches.
Definition mapVirtualPatches (patches : list VirtualPatches.VirtualPatch) (siteID : string) : list VirtualPatchInput :=
  (fun p => MkVirtualPatch (VirtualPatches.ID p) (VirtualPatches.Pattern p) (VirtualPatches.Target p)
     (VirtualPatches.Action p)) <$> List.filter (has_key VirtualPatches.SiteID siteID) patches.

Definition ws_input (w : SiteProfiles.SecurityWebSocketSettings) : WSInspectionInput :=
  MkWSInspection (SiteProfiles.UseWSInspection w) (SiteProfiles.WSBlockPatterns w) (SiteProfiles.WSMaxMessageBytes w)
    (SiteProfiles.WSRateMsgPerSec w).

Definition upstream_mtls_input (r : SiteProfiles.UpstreamRoutingSettings) : UpstreamMTLSInput :=
  MkUpstreamMTLS (SiteProfiles.UpstreamMTLSEnabled r) (runtimeCertificateMaterialPath (SiteProfiles.UpstreamMTLSCertRef r))
    (runtimeCertificateMaterialKeyPath (SiteProfiles.UpstreamMTLSKeyRef r))
    (runtimeCertificateMaterialPath (SiteProfiles.UpstreamMTLSCARef r)).

Definition easy_input (virtualPatches : list VirtualPatches.VirtualPatch) (item : SiteProfiles.EasySiteProfile)
    : EasyProfileInput :=
  {| e_SiteID := SiteProfiles.SiteID item;
     e_SecurityMode := SiteProfiles.SecurityMode (SiteProfiles.FrontService item);
     e_AllowedMethods := SiteProfiles.AllowedMethods (SiteProfiles.HTTPBehavior item);
     e_MaxClientSize := SiteProfiles.MaxClientSize (SiteProfiles.HTTPBehavior item);
     e_ReferrerPolicy := SiteProfiles.ReferrerPolicy (SiteProfiles.HTTPHeaders item);
     e_ContentSecurityPolicy := SiteProfiles.ContentSecurityPolicy (SiteProfiles.HTTPHeaders item);
     e_PermissionsPolicy := SiteProfiles.PermissionsPolicy (SiteProfiles.HTTPHeaders item);
     e_HSTSEnabled := SiteProfiles.HSTSEnabled (SiteProfiles.HTTPHeaders item);
     e_HSTSMaxAgeSeconds := SiteProfiles.HSTSMaxAgeSeconds (SiteProfiles.HTTPHeaders item);
     e_HSTSIncludeSubdomains := SiteProfiles.HSTSIncludeSubdomains (SiteProfiles.HTTPHeaders item);
     e_HSTSPreload := SiteProfiles.HSTSPreload (SiteProfiles.HTTPHeaders item);
     e_UseCORS := SiteProfiles.UseCORS (SiteProfiles.HTTPHeaders item);
     e_CORSAllowedOrigins := SiteProfiles.CORSAllowedOrigins (SiteProfiles.HTTPHeaders item);
     e_ReverseProxyCustomHost := SiteProfiles.ReverseProxyCustomHost (SiteProfiles.UpstreamRouting item);
     e_ReverseProxySSLSNI := SiteProfiles.ReverseProxySSLSNI (SiteProfiles.UpstreamRouting item);
     e_ReverseProxySSLSNIName := SiteProfiles.ReverseProxySSLSNIName (SiteProfiles.UpstreamRouting item);
     e_ReverseProxyWebsocket := SiteProfiles.ReverseProxyWebsocket (SiteProfiles.UpstreamRouting item);
     e_ReverseProxyKeepalive := SiteProfiles.ReverseProxyKeepalive (SiteProfiles.UpstreamRouting item);
     e_PassHostHeader := negb (SiteProfiles.DisableHostHeader (SiteProfiles.UpstreamRouting item));
     e_SendXForwardedFor := negb (SiteProfiles.DisableXForwardedFor (SiteProfiles.UpstreamRouting item));
     e_SendXForwardedProto := negb (SiteProfiles.DisableXForwardedProto (SiteProfiles.UpstreamRouting item));
     e_SendXRealIP := SiteProfiles.EnableXRealIP (SiteProfiles.UpstreamRouting item);
     e_UseAuthBasic := SiteProfiles.UseAuthBasic (SiteProfiles.SecurityAuthBasic item);
     e_AuthMode := SiteProfiles.AuthMode (SiteProfiles.SecurityAuthBasic item);
     e_AuthOrder := SiteProfiles.AuthOrder (SiteProfiles.SecurityAuthBasic item);
     e_AuthBasicUser := SiteProfiles.AuthBasicUser (SiteProfiles.SecurityAuthBasic item);
     e_AuthBasicPassword := SiteProfiles.AuthBasicPassword (SiteProfiles.SecurityAuthBasic item);
     e_AuthBasicText := "Restricted area";
     e_AuthBasicTemplate := SiteProfiles.AuthBasicTemplate (SiteProfiles.SecurityAuthBasic item);
     e_AuthUsers := mapAuthUsers (SiteProfiles.au_Users (SiteProfiles.SecurityAuthBasic item));
     e_AuthServiceTokens := mapAuthServiceTokens (SiteProfiles.ServiceTokens (SiteProfiles.SecurityAuthBasic item));
     e_AuthExclusionRules := mapAuthExclusionRules (SiteProfiles.au_ExclusionRules (SiteProfiles.SecurityAuthBasic item));
     e_AuthSessionTTLMin := SiteProfiles.au_SessionInactivityMinutes (SiteProfiles.SecurityAuthBasic item);
     e_AntibotChallenge := SiteProfiles.AntibotChallenge (SiteProfiles.SecurityAntibot item);
     e_AntibotChallengeTemplate := SiteProfiles.AntibotChallengeTemplate (SiteProfiles.SecurityAntibot item);
     e_AntibotURI := SiteProfiles.AntibotURI (SiteProfiles.SecurityAntibot item);
     e_AntibotSessionTTLMin := SiteProfiles.ab_SessionInactivityMinutes (SiteProfiles.SecurityAntibot item);
     e_AntibotScannerAutoBan := SiteProfiles.ScannerAutoBanEnabled (SiteProfiles.SecurityAntibot item);
     e_AntibotRecaptchaScore := SiteProfiles.AntibotRecaptchaScore (SiteProfiles.SecurityAntibot item);
     e_AntibotRecaptchaKey := SiteProfiles.AntibotRecaptchaSitekey (SiteProfiles.SecurityAntibot item);
     e_AntibotHcaptchaKey := SiteProfiles.AntibotHcaptchaSitekey (SiteProfiles.SecurityAntibot item);
     e_AntibotTurnstileKey := SiteProfiles.AntibotTurnstileSitekey (SiteProfiles.SecurityAntibot item);
     e_AntibotCookieName := "";
     e_AntibotCookieValue := "";
     e_AntibotExclusionRules := mapAntibotExclusionRules (SiteProfiles.ab_ExclusionRules (SiteProfiles.SecurityAntibot item));
     e_ChallengeEscalationEnabled := SiteProfiles.ChallengeEscalationEnabled (SiteProfiles.SecurityAntibot item);
     e_ChallengeEscalationMode := SiteProfiles.ChallengeEscalationMode (SiteProfiles.SecurityAntibot item);
     e_AntibotChallengeRules := mapAntibotChallengeRules (SiteProfiles.ChallengeRules (SiteProfiles.SecurityAntibot item));
     e_UseLimitConn := SiteProfiles.UseLimitConn (SiteProfiles.SecurityBehaviorAndLimits item);
     e_LimitConnMaxHTTP1 := SiteProfiles.LimitConnMaxHTTP1 (SiteProfiles.SecurityBehaviorAndLimits item);
     e_LimitConnMaxHTTP2 := SiteProfiles.LimitConnMaxHTTP2 (SiteProfiles.SecurityBehaviorAndLimits item);
     e_LimitConnMaxHTTP3 := SiteProfiles.LimitConnMaxHTTP3 (SiteProfiles.SecurityBehaviorAndLimits item);
     e_UseLimitReq := SiteProfiles.UseLimitReq (SiteProfiles.SecurityBehaviorAndLimits item);
     e_LimitReqURL := SiteProfiles.LimitReqURL (SiteProfiles.SecurityBehaviorAndLimits item);
     e_LimitReqRate := SiteProfiles.LimitReqRate (SiteProfiles.SecurityBehaviorAndLimits item);
     e_CustomLimitRules := mapCustomLimitRules (SiteProfiles.CustomLimitRules (SiteProfiles.SecurityBehaviorAndLimits item));
     e_UseBadBehavior := SiteProfiles.UseBadBehavior (SiteProfiles.SecurityBehaviorAndLimits item);
     e_BadBehaviorStatusCodes := SiteProfiles.BadBehaviorStatusCodes (SiteProfiles.SecurityBehaviorAndLimits item);
     e_BadBehaviorBanTimeSeconds := SiteProfiles.BadBehaviorBanTimeSeconds (SiteProfiles.SecurityBehaviorAndLimits item);
     e_BlacklistIP := SiteProfiles.BlacklistIP (SiteProfiles.SecurityBehaviorAndLimits item);
     e_BlacklistUserAgent := SiteProfiles.BlacklistUserAgent (SiteProfiles.SecurityBehaviorAndLimits item);
     e_BlacklistURI := SiteProfiles.BlacklistURI (SiteProfiles.SecurityBehaviorAndLimits item);
     e_BlacklistJA3 := [];
     e_BlacklistJA3URLs := [];
     e_ExceptionsURI := SiteProfiles.ExceptionsURI (SiteProfiles.SecurityBehaviorAndLimits item);
     e_BlacklistCountry := SiteProfiles.BlacklistCountry (SiteProfiles.SecurityCountryPolicy item);
     e_WhitelistCountry := SiteProfiles.WhitelistCountry (SiteProfiles.SecurityCountryPolicy item);
     e_AllowLocalCountryIPs := SiteProfiles.AllowLocalIPs (SiteProfiles.SecurityCountryPolicy item);
     e_ShowGeoBlockPage := SiteProfiles.ShowGeoBlockPage (SiteProfiles.SecurityCountryPolicy item);
     e_GeoTimeWindows := mapGeoTimeWindows (SiteProfiles.GeoTimeWindows (SiteProfiles.SecurityCountryPolicy item));
     e_UseModSecurity := SiteProfiles.UseModSecurity (SiteProfiles.SecurityModSecurity item);
     e_UseModSecurityCRSPlugins := SiteProfiles.UseModSecurityCRSPlugins (SiteProfiles.SecurityModSecurity item);
     e_UseModSecurityCustomConfiguration := SiteProfiles.UseCustomConfiguration (SiteProfiles.SecurityModSecurity item);
     e_ModSecurityCRSVersion := SiteProfiles.ModSecurityCRSVersion (SiteProfiles.SecurityModSecurity item);
     e_ModSecurityCRSPlugins := SiteProfiles.ModSecurityCRSPlugins (SiteProfiles.SecurityModSecurity item);
     e_ModSecurityExclusionRules := mapModSecurityExclusionRules (SiteProfiles.ms_ExclusionRules (SiteProfiles.SecurityModSecurity item));
     e_ModSecurityCustomPath := SiteProfiles.cc_Path (SiteProfiles.CustomConfiguration (SiteProfiles.SecurityModSecurity item));
     e_ModSecurityCustomContent := SiteProfiles.cc_Content (SiteProfiles.CustomConfiguration (SiteProfiles.SecurityModSecurity item));
     e_CookieFlags := SiteProfiles.CookieFlags (SiteProfiles.HTTPHeaders item);
     e_KeepUpstreamHeaders := SiteProfiles.KeepUpstreamHeaders (SiteProfiles.HTTPHeaders item);
     e_UseAPIPositiveSecurity := SiteProfiles.UseAPIPositiveSecurity (SiteProfiles.SecurityAPIPositive item);
     e_OpenAPISchemaRef := SiteProfiles.OpenAPISchemaRef (SiteProfiles.SecurityAPIPositive item);
     e_APIEnforcementMode := SiteProfiles.EnforcementMode (SiteProfiles.SecurityAPIPositive item);
     e_APIDefaultAction := SiteProfiles.DefaultAction (SiteProfiles.SecurityAPIPositive item);
     e_APIEndpointPolicies := mapAPIPositiveEndpointPolicies (SiteProfiles.EndpointPolicies (SiteProfiles.SecurityAPIPositive item));
     e_HttpStrictParsing := SiteProfiles.HttpStrictParsing (SiteProfiles.HTTPBehavior item);
     e_HealthCheckEnabled := SiteProfiles.HealthCheckEnabled (SiteProfiles.UpstreamRouting item);
     e_HealthCheckPath := SiteProfiles.HealthCheckPath (SiteProfiles.UpstreamRouting item);
     e_HealthCheckIntervalSeconds := SiteProfiles.HealthCheckIntervalSeconds (SiteProfiles.UpstreamRouting item);
     e_HealthCheckFailThreshold := SiteProfiles.HealthCheckFailThreshold (SiteProfiles.UpstreamRouting item);
     e_WSInspection := ws_input (SiteProfiles.SecurityWebSocket item);
     e_MTLS := mtls_input (SiteProfiles.FrontService item);
     e_UpstreamMTLS := upstream_mtls_input (SiteProfiles.UpstreamRouting item);
     e_VirtualPatches := mapProfileVirtualPatches (SiteProfiles.VirtualPatches item) +++ mapVirtualPatches virtualPatches (SiteProfiles.SiteID item);
     e_UseCustomErrorPages := SiteProfiles.UseCustomErrorPages item;
     e_DisabledErrorPages := SiteProfiles.DisabledErrorPages item |}.

Definition mapEasyInputs (items : list SiteProfiles.EasySiteProfile) (virtualPatches : list VirtualPatches.VirtualPatch)
    : list EasyProfileInput :=
  easy_input virtualPatches <$> sort_on SiteProfiles.SiteID items.

(** ** TLS and its files *)
Definition tls_input (config : TLSConfigs.TLSConfig) : TLSConfigInput :=
  MkTLSConfig (TLSConfigs.SiteID config ++ "-tls") (TLSConfigs.SiteID config) (TLSConfigs.CertificateID config) true.
Definition cert_input (config : TLSConfigs.TLSConfig) : CertificateInput :=
  MkCertificate (TLSConfigs.CertificateID config) (TLSConfigs.SiteID config)
    ("/etc/waf/tls/materials/" ++ TLSConfigs.CertificateID config ++ "/certificate.pem")
    ("/etc/waf/tls/materials/" ++ TLSConfigs.CertificateID config ++ "/private.key").

Section Materials.
(** [s.snapshots.ReadMaterial] *)
Variable ReadMaterial : string -> result string.
Variable materials : list CertificateMaterialSnapshot.

Definition material_of (certificateID : string) : option CertificateMaterialSnapshot :=
  last_of m_CertificateID certificateID materials.
Definition material_artifact (key content : string) : ArtifactOutput :=
  newArtifact ("tls/materials/" ++ key) ArtifactKindTLSRef content.

(** The files of one TLS configuration; their keys are recorded as seen. *)
Definition config_materials (config : TLSConfigs.TLSConfig) : result (list ArtifactOutput) :=
  let id := TLSConfigs.CertificateID config in
  match material_of id with
  | None => Err ("certificate material " ++ id ++ " not found in revision snapshot")
  | Some material =>
      certificatePEM ← ReadMaterial (m_CertificateRef material);
      privateKeyPEM ← ReadMaterial (m_PrivateKeyRef material);
      Ok [material_artifact (id ++ "/certificate.pem") certificatePEM; material_artifact (id ++ "/private.key") privateKeyPEM]
  end.
Definition config_keys (config : TLSConfigs.TLSConfig) : list string :=
  [TLSConfigs.CertificateID config ++ "/certificate.pem"; TLSConfigs.CertificateID config ++ "/private.key"].

(** The state of [appendMaterial]: the keys seen, and the files. *)
Definition material_state : Type := list string * list ArtifactOutput.

Definition append_file (key ref : string) (st : material_state) : result material_state :=
  if mem key st.1 then Ok st
  else content ← ReadMaterial ref; Ok (key :: st.1, st.2 +++ [material_artifact key content]).

Definition appendMaterial (st : material_state) (wanted : string * bool) : result material_state :=
  let '(certificateID, includePrivateKey) := wanted in
  match material_of certificateID with
  | None => Err ("mTLS material " ++ certificateID ++ " not found in revision snapshot")
  | Some material =>
      st ← append_file (certificateID ++ "/certificate.pem") (m_CertificateRef material) st;
      if negb includePrivateKey then Ok st
      else append_file (certificateID ++ "/private.key") (m_PrivateKeyRef material) st
  end.

(** The files the profiles refer to, in the order they are asked for. *)
Definition wanted_file (ref : string) (includePrivateKey : bool) : list (string * bool) :=
  let id := certificateMaterialIDFromRef ref in if is_empty id then [] else [(id, includePrivateKey)].
Definition client_files (p : SiteProfiles.EasySiteProfile) : list (string * bool) :=
  let front := SiteProfiles.FrontService p in
  if SiteProfiles.MTLSEnabled front then wanted_file (SiteProfiles.MTLSClientCARef front) false else [].
Definition upstream_files (p : SiteProfiles.EasySiteProfile) : list (string * bool) :=
  let r := SiteProfiles.UpstreamRouting p in
  if SiteProfiles.UpstreamMTLSEnabled r
  then wanted_file (SiteProfiles.UpstreamMTLSCertRef r) true +++ wanted_file (SiteProfiles.UpstreamMTLSKeyRef r) true +++
       wanted_file (SiteProfiles.UpstreamMTLSCARef r) false
  else [].

Fixpoint append_all (st : material_state) (wanted : list (string * bool)) : result material_state :=
  match wanted with
  | [] => Ok st
  | w :: rest => st ← appendMaterial st w; append_all st rest
  end.

Definition mapTLSInputs (configs : list TLSConfigs.TLSConfig) (profiles : list SiteProfiles.EasySiteProfile)
    : result (list TLSConfigInput * list CertificateInput * list ArtifactOutput) :=
  let sorted := sort_on TLSConfigs.SiteID configs in
  files ← map_results config_materials sorted;
  st ← append_all (mjoin (config_keys <$> sorted), mjoin files)
         (mjoin (client_files <$> profiles) +++ mjoin (upstream_files <$> profiles));
  Ok (tls_input <$> sorted, cert_input <$> sorted, st.2).
End Materials.

(** ** Defaults and overrides on the compiler's records *)
Definition antiddos_profile (siteID : string) : EasyProfileInput :=
  let z := zero_profile in
  MkEasyProfile siteID "block" default_methods "100m" "" "" [] false 0 false false false [] "" false "" false false
    true true true false false "" "" "" "" "Restricted area" "" [] [] [] 0 "no" "" "/challenge" 0 false
    (e_AntibotRecaptchaScore z) "" "" "" "" "" [] false "" [] true 200 0 0 true "" "120r/s" [] false [] 0 [] [] [] [] [] [] [] []
    false false [] true true false "4" [] [] "modsec/anomaly_score.conf" "" "" []
    false "" "" "" [] false false "" 0 0 (e_WSInspection z) (e_MTLS z) (e_UpstreamMTLS z) [] false [].

(** [out] of a Go map filled from a list and then listed in the order of its keys: the last item of a
    key counts. *)
Definition keyed {A} (key : A -> string) (items : list A) : list A :=
  omap (fun k => last_of key k items) (sort_on id (remove_dups (key <$> items))).

Definition applyAntiDDoSDefaultEasyProfiles (sites : list SiteInput) (items : list EasyProfileInput) : list EasyProfileInput :=
  let missing site := s_Enabled site && negb (mem (s_ID site) (e_SiteID <$> items)) in
  keyed e_SiteID (items +++ (antiddos_profile <$> (s_ID <$> List.filter missing sites))).

Definition easy_flags (easyInputs : list EasyProfileInput) (site : SiteInput) : SiteInput :=
  match last_of e_SiteID (s_ID site) easyInputs with
  | None => site
  | Some easy =>
      MkSite (s_ID site) (s_Name site) (s_Enabled site) (s_PrimaryHost site) (s_Aliases site) (s_ListenHTTP site)
        (s_ListenHTTPS site) (s_DefaultUpstreamID site) true (e_UseCustomErrorPages easy) (s_MTLS site) (s_Management site)
        (s_ManagementConfigured site)
  end.

Definition applyEasySiteInputFlags (sites : list SiteInput) (easyInputs : list EasyProfileInput) : list SiteInput :=
  easy_flags easyInputs <$> sites.

Section Overrides.
Context `{Environment}.

(** The services' own test for a site of the administration (management_site.go). *)
Definition isManagementSiteID (siteID : string) : bool :=
  let normalized := lower_trim siteID in
  if mem normalized ["control-plane-access"; "control-plane"; "ui"; "localhost"] then true
  else let configuredID := lower_trim (Getenv "CONTROL_PLANE_DEV_FAST_START_MANAGEMENT_SITE_ID") in
       negb (is_empty configuredID) && String.eqb normalized configuredID.

Definition global_rate (settings : AntiDDoS.Settings) (siteID : string) : RateLimitPolicyInput :=
  MkRateLimitPolicy ("antiddos-global-" ++ siteID) siteID true (AntiDDoS.L7RequestsPS settings) 1 (AntiDDoS.L7Burst settings)
    (AntiDDoS.L7StatusCode settings) "".

Definition applyAntiDDoSRateOverrides (sites : list SiteInput) (items : list RateLimitPolicyInput)
    (settings : AntiDDoS.Settings) : list RateLimitPolicyInput :=
  if negb (AntiDDoS.EnforceL7Rate settings) then items
  else
    let missing site := s_Enabled site && negb (mem (s_ID site) (r_SiteID <$> items)) &&
      negb (s_Management site || isManagementSiteID (trim_space (s_ID site))) in
    keyed r_SiteID (items +++ (global_rate settings <$> (s_ID <$> List.filter missing sites))).
End Overrides.

Definition limit_url (easyInputs : list EasyProfileInput) (siteID : string) : option string :=
  trim_space ∘ e_LimitReqURL <$>
    last_of e_SiteID siteID (List.filter (fun e => e_UseLimitReq e && negb (is_blank (e_LimitReqURL e))) easyInputs).

Definition with_url (easyInputs : list EasyProfileInput) (item : RateLimitPolicyInput) : RateLimitPolicyInput :=
  match limit_url easyInputs (r_SiteID item) with
  | None => item
  | Some url => MkRateLimitPolicy (r_ID item) (r_SiteID item) (r_Enabled item) (r_Requests item) (r_WindowSeconds item)
                  (r_Burst item) (r_StatusCode item) url
  end.

Definition applyEasyLimitReqURLOverrides (items : list RateLimitPolicyInput) (easyInputs : list EasyProfileInput)
    : list RateLimitPolicyInput := with_url easyInputs <$> items.

Example antiddos_profile_fields :
  let p := antiddos_profile "shop" in
  (e_SiteID p, e_SecurityMode p, e_AllowedMethods p, e_MaxClientSize p) = ("shop", "block", default_methods, "100m") /\
  (e_PassHostHeader p, e_SendXForwardedFor p, e_SendXForwardedProto p, e_SendXRealIP p) = (true, true, true, false) /\
  (e_AuthBasicText p, e_AntibotChallenge p, e_AntibotURI p) = ("Restricted area", "no", "/challenge") /\
  (e_UseLimitConn p, e_LimitConnMaxHTTP1 p, e_UseLimitReq p, e_LimitReqRate p) = (true, 200, true, "120r/s") /\
  (e_UseModSecurity p, e_UseModSecurityCRSPlugins p, e_ModSecurityCRSVersion p, e_ModSecurityCustomPath p) =
    (true, true, "4", "modsec/anomaly_score.conf").
Proof. vm_compute. done. Qed.
