(* ===== verification/Snapshots.v ===== *)
(** * Revision snapshots (control-plane/internal/revisionsnapshots/store.go)

    The configuration a revision was compiled from, frozen under the revision's identifier: one JSON
    document with its checksum, and copies of the certificate files.  encoding/json is the class
    [SnapshotCodec]; the store runs over the disk of Blobs.v. *)
From Stdlib Require Import ZArith Lia Ascii String.
From stdpp Require Import base tactics gmap strings list.
From S2P Require Import Prelude GoHash GoText GoSeq GoCodec Service Files Blobs Mapping.
Local Set Warnings "-clear-no-such-hyp".
Local Open Scope string_scope.
Local Notation "a +++ b" := (@app _ a b) (at level 60, right associativity).

(** ** The text of a snapshot *)
(** encoding/json with two spaces of indentation.  A snapshot whose text is valid UTF-8 and whose
    numbers are finite reads back; the second component read is the obsolete management site. *)
Class SnapshotCodec := {
  marshal_snapshot : Snapshot -> result string;
  unmarshal_snapshot : string -> result (Snapshot * string);
  plain_text : Snapshot -> Prop;
  unmarshal_marshal s text : plain_text s -> marshal_snapshot s = Ok text ->
    unmarshal_snapshot (text ++ String "010" "") = Ok (s, "")
}.

Record MaterialContent := MkContent {
  mc_CertificateID : string;
  mc_CertificatePEM : string;
  mc_PrivateKeyPEM : string
}.

Definition with_materials (materials : list CertificateMaterialSnapshot) (s : Snapshot) : Snapshot :=
  MkSnapshot (sn_Sites s) (sn_Upstreams s) (sn_Certificates s) (sn_TLSConfigs s) (sn_WAFPolicies s) (sn_AccessPolicies s)
    (sn_RateLimitPolicies s) (sn_EasySiteProfiles s) (sn_AntiDDoSSettings s) materials (sn_VirtualPatches s)
    (sn_ManagementHosts s) (sn_ManagementHostsConfigured s) (sn_BlockDirectIPAccess s).

Definition with_hosts (hosts : list string) (s : Snapshot) : Snapshot :=
  MkSnapshot (sn_Sites s) (sn_Upstreams s) (sn_Certificates s) (sn_TLSConfigs s) (sn_WAFPolicies s) (sn_AccessPolicies s)
    (sn_RateLimitPolicies s) (sn_EasySiteProfiles s) (sn_AntiDDoSSettings s) (sn_CertificateMaterials s) (sn_VirtualPatches s)
    hosts (sn_ManagementHostsConfigured s) (sn_BlockDirectIPAccess s).

(** What is read: the snapshot and its obsolete field, which is dropped. *)
Definition normalizeLegacyManagementSnapshot (read : Snapshot * string) : Snapshot :=
  let (snapshot, _) := read in
  if sn_ManagementHostsConfigured snapshot then snapshot else with_hosts [] snapshot.

Section Store.
Context `{SnapshotCodec} `{SqlLike}.
Variables (useDB : bool) (root : fpath).

Definition files : fpath := root +++ ["files"].
Definition snapshot_refs : list string := ["revision-snapshots"; "files"].

Definition writeMaterial (revisionID certificateID name content : string) : dop unit :=
  write_blob useDB files snapshot_refs [revisionID; certificateID] name content.

Definition material_ref (revisionID certificateID name : string) : string :=
  join_ref ["revision-snapshots"; "files"; revisionID; certificateID; name].

(** The loop of [writeMaterials] over the sorted materials. *)
Fixpoint write_all (revisionID : string) (materials : list MaterialContent) : dop (list CertificateMaterialSnapshot) :=
  match materials with
  | [] => mret []
  | item :: rest =>
      let certificateID := normalize_id (mc_CertificateID item) in
      of_result (reject_if (is_empty certificateID) "snapshot material certificate_id is required");;
      of_result (reject_if (is_empty (mc_CertificatePEM item) || is_empty (mc_PrivateKeyPEM item))
        ("snapshot material for certificate " ++ certificateID ++ " is incomplete"));;
      wrapped "write revision snapshot certificate: "
        (writeMaterial revisionID certificateID "certificate.pem" (mc_CertificatePEM item));;
      wrapped "write revision snapshot private key: "
        (writeMaterial revisionID certificateID "private.key" (mc_PrivateKeyPEM item));;
      out ← write_all revisionID rest;
      mret (MkMaterial certificateID (material_ref revisionID certificateID "certificate.pem")
              (material_ref revisionID certificateID "private.key") :: out)
  end.

Definition writeMaterials (revisionID : string) (materials : list MaterialContent) : dop (list CertificateMaterialSnapshot) :=
  write_all revisionID (sort_on (fun item => normalize_id (mc_CertificateID item)) materials).

Definition document_ref (revisionID : string) : string := join_ref ["snapshots"; revisionID ++ ".json"].

Definition write_document (revisionID content : string) : dop unit :=
  if useDB then wrapped "write revision snapshot: " (save Documents (document_ref revisionID) content)
  else
    let fullPath := join_path root (revisionID ++ ".json") in
    write_renamed (path_plus fullPath ".tmp") fullPath content
      "write revision snapshot temp file: " "rename revision snapshot file: ".

Definition Save (revisionID : string) (snapshot : Snapshot) (materials : list MaterialContent) : dop (string * string) :=
  let revisionID := normalize_id revisionID in
  of_result (reject_if (is_empty revisionID) "revision id is required");;
  materialSnapshots ← writeMaterials revisionID materials;
  content ← wrapped "encode revision snapshot: " (of_result (marshal_snapshot (with_materials materialSnapshots snapshot)));
  let content := content ++ String "010" "" in
  write_document revisionID content;;
  mret (document_ref revisionID, sha256_hex content).

Definition loadSnapshotDocument (ref : string) : dop string :=
  let file := trim_prefix "snapshots/" ref in
  if useDB then
    content ← wrapped "read revision snapshot: " (load Documents ref);
    match content with
    | Some content => mret content
    | None => migrated Documents ref (join_path root file)
    end
  else wrapped "read revision snapshot: " (must_read (join_path root file)).

Definition Load (snapshotPath : string) : dop Snapshot :=
  let relative := trim_space snapshotPath in
  of_result (reject_if (is_empty relative) "snapshot path is required");;
  content ← loadSnapshotDocument relative;
  read ← wrapped "decode revision snapshot: " (of_result (unmarshal_snapshot content));
  mret (normalizeLegacyManagementSnapshot read).

Definition loadMaterial (relative : string) : dop string :=
  let file := join_path root (trim_prefix "revision-snapshots/" relative) in
  if useDB then load_or_migrate BlobTable relative file else must_read file.

Definition ReadMaterial (ref : string) : dop string :=
  let relative := trim_space ref in
  of_result (reject_if (is_empty relative) "material ref is required");;
  let basePrefix := default "/" (last root) ++ "/" in
  let relative := if has_prefix basePrefix relative then relative else basePrefix ++ trim_prefix "/" relative in
  wrapped "read revision snapshot material: " (loadMaterial relative).

Definition Delete (snapshotPath : string) : dop unit :=
  let relative := trim_space snapshotPath in
  of_result (reject_if (is_empty relative) "snapshot path is required");;
  let revisionID := trim_suffix ".json" (trim_prefix "snapshots/" relative) in
  of_result (reject_if (is_empty revisionID) "snapshot path is invalid");;
  if useDB then
    wrapped "delete revision snapshot: " (del Documents (document_ref revisionID));;
    wrapped "delete revision snapshot materials: " (DeleteBlobsByPrefix (join_ref (snapshot_refs +++ [normalize_id revisionID])))
  else
    wrapped "delete revision snapshot: " (remove_file (join_path root (trim_prefix "snapshots/" relative)));;
    wrapped "delete revision snapshot materials: " (on_files (remove_all (join_path files (normalize_id revisionID)))).
End Store.

(** ** Facts *)
Definition document_at (useDB : bool) (root : fpath) (w : disk) (id : string) : option string :=
  if useDB then d_rows w Documents !! trim_space (document_ref id) else file_at (d_files w) (root +++ [id ++ ".json"]).

(** Identifiers of revisions and certificates that occur in paths. *)
Definition path_name (id : string) : Prop := component id /\ tight id /\ normalize_id id = id.

(** [m] leaves everything of the revision [id] as it is. *)
Definition keeps_revision (useDB : bool) (root : fpath) (id : string) {A} (m : dop A) : Prop := forall e w,
  document_at useDB root (m e w).1 id = document_at useDB root w id /\
  forall cert name, path_name cert -> name ∈ ["certificate.pem"; "private.key"] ->
    blob_at useDB (files root) snapshot_refs (m e w).1 [id; cert] name = blob_at useDB (files root) snapshot_refs w [id; cert] name.

Section Keeps.
Variables (useDB : bool) (root : fpath) (id : string).
Abbreviation keeps := (keeps_revision useDB root id).

Lemma revision_bind {A B} (m : dop A) (k : A -> dop B) : keeps m -> (forall a, keeps (k a)) -> keeps (m ≫= k).
Proof.
  intros Hm Hk e w. rewrite rop_bind_run. specialize (Hm e w). destruct (m e w) as [w1 [a|msg]]; [|done]. cbn [fst] in Hm.
  destruct (Hk a e w1) as [Hd Hb], Hm as [Hd1 Hb1]. split; [by rewrite Hd|]. intros cert name Hc Hn. by rewrite Hb, Hb1.
Qed.
Lemma revision_ret {A} (a : A) : keeps (mret a : dop A).
Proof. done. Qed.
Lemma revision_result {A} (r : result A) : keeps (of_result r : dop A).
Proof. done. Qed.
Lemma keeps_wrapped {A} s (m : dop A) : keeps m -> keeps (wrapped s m).
Proof. intros Hm e w. specialize (Hm e w). unfold wrapped. by destruct (m e w) as [w1 [a|msg]]. Qed.

(** An operation on files that stays outside, and leaves the tables alone. *)
Lemma keeps_region {A} region (m : dop A) : on_region region m -> ~ region (root +++ [id ++ ".json"]) ->
  (forall cert name, path_name cert -> name ∈ ["certificate.pem"; "private.key"] -> ~ region (files root +++ [id; cert] +++ [name])) ->
  keeps m.
Proof.
  intros Hm Hd Hb e w. destruct (Hm e w) as [Hr Hf]. unfold document_at, blob_at, file_blob. destruct useDB.
  - by rewrite Hr.
  - split; [by apply Hf|]. intros cert name Hc Hn. by apply Hf, Hb.
Qed.
End Keeps.
#[local] Hint Resolve revision_ret revision_result keeps_wrapped : core.

Section Facts.
Context `{SnapshotCodec} `{SqlLike}.
Variables (useDB : bool) (root : fpath).
Hypothesis root_ok : Forall component root.

Lemma files_ok : Forall component (files root).
Proof. apply Forall_app. split; [done|]. apply Forall_singleton. by vm_compute. Qed.
Lemma refs_ok : Forall component snapshot_refs /\ snapshot_refs <> [] /\ tight (join "/" snapshot_refs).
Proof. split_and!; [|done|by vm_compute]. repeat constructor; done. Qed.

Lemma names_ok name : name ∈ ["certificate.pem"; "private.key"] -> component name /\ tight name /\
  forall name' t, name' ∈ ["certificate.pem"; "private.key"] -> name <> temp_of name' t.
Proof.
  assert (Hl : forall s t, String.length (temp_of s t) <> String.length s).
  { intros s t. unfold temp_of. rewrite !string_length_app. cbn. lia. }
  intros Hn. set_unfold in Hn. destruct Hn as [-> | [-> | []]]; (split; [by vm_compute|]; split; [by vm_compute|]);
    intros name' t Hn'; set_unfold in Hn'; destruct Hn' as [-> | [-> | []]]; intros E; (discriminate E || by apply (f_equal String.length), eq_sym, Hl in E).
Qed.

Lemma sub_ok id cert : path_name id -> path_name cert -> Forall component [id; cert].
Proof. intros (? & _) (? & _). by rewrite !Forall_cons. Qed.

(** *** The document of a revision *)
Lemma json_component id : component id -> component (id ++ ".json").
Proof.
  intros [(H1 & H2 & H3) Hs]. split.
  - destruct id as [|c id]; [done|]. repeat split; try discriminate;
      intros E%(f_equal String.length); rewrite !string_length_app in E; cbn in E; lia.
  - unfold no_slash in *. by rewrite all_chars_app, Hs.
Qed.

Lemma document_ref_text id : path_name id -> document_ref id = "snapshots/" ++ id ++ ".json" /\ tight (document_ref id).
Proof.
  intros (Hc & Ht & _). assert (E : document_ref id = "snapshots/" ++ id ++ ".json").
  { unfold document_ref. rewrite join_ref_components; [done | | done]. repeat constructor; try done; by apply json_component. }
  split; [done|]. rewrite E. apply (tight_app "snapshots" ("/" ++ id) ".json"); by vm_compute.
Qed.

Lemma document_ref_inj id id' : path_name id -> path_name id' -> document_ref id = document_ref id' -> id = id'.
Proof.
  intros Hi Hi'. rewrite (proj1 (document_ref_text id Hi)), (proj1 (document_ref_text id' Hi')).
  intros E%(f_equal (trim_prefix "snapshots/"))%(f_equal (trim_suffix ".json")). by rewrite !trim_prefix_app, !trim_suffix_app in E.
Qed.

Lemma document_path id : path_name id -> join_path root (id ++ ".json") = root +++ [id ++ ".json"].
Proof. intros (Hc & _). apply json_component in Hc as [Hp Hs]. by apply join_path_component. Qed.

Lemma path_plus_last (p : fpath) d s : path_plus (p +++ [d]) s = p +++ [d ++ s].
Proof. unfold path_plus. rewrite rev_app_distr. cbn. by rewrite rev_involutive. Qed.

(** *** Saving and deleting one revision keeps the others *)
Lemma keeps_write id id' cert name content : path_name id -> path_name id' -> id <> id' -> path_name cert -> name ∈ ["certificate.pem"; "private.key"] ->
  keeps_revision useDB root id (writeMaterial useDB root id' cert name content).
Proof.
  intros Hid Hid' Hne Hcert Hn e w. unfold writeMaterial. destruct (names_ok name Hn) as (Hc & Ht & _). split.
  - unfold document_at. destruct useDB.
    + unfold write_blob, save, statement. destruct (k_db e (d_calls w)); [done|]. cbn [fst d_rows]. unfold set_rows. by rewrite decide_False.
    + apply (write_file_region (files root) snapshot_refs files_ok refs_ok [id'; cert] name content); [by apply sub_ok | done | |].
      * intros E%(f_equal length). unfold files in E. rewrite !length_app in E. cbn in E. lia.
      * intros t E%(f_equal length). unfold files in E. rewrite !length_app in E. cbn in E. lia.
  - intros c n Hcc Hnn. destruct (names_ok n Hnn) as (Hc' & Ht' & Htemp).
    apply (write_blob_frame useDB (files root) snapshot_refs files_ok refs_ok); try done; try (by apply sub_ok).
    + intros [= E _ _]. by apply Hne.
    + intros t. by apply Htemp.
Qed.

Lemma keeps_write_all id id' materials : path_name id -> path_name id' -> id <> id' ->
  Forall (fun m => path_name (normalize_id (mc_CertificateID m))) materials ->
  keeps_revision useDB root id (write_all useDB root id' materials).
Proof.
  intros Hid Hid' Hne Hm. induction Hm as [|m rest Hm Hrest IH]; [done|]. cbn [write_all].
  do 2 (apply revision_bind; [done | intros _]).
  apply revision_bind; [by apply keeps_wrapped, keeps_write; try set_solver | intros _].
  apply revision_bind; [by apply keeps_wrapped, keeps_write; try set_solver | intros _].
  apply revision_bind; [done|]. intros out. done.
Qed.

Lemma not_temporary s t : s ++ ".json" <> t ++ ".json.tmp".
Proof.
  revert t. induction s as [|c s IH]; intros t E.
  - apply (f_equal String.length) in E. rewrite !string_length_app in E. cbn in E. lia.
  - destruct t as [|d t].
    + destruct s as [|c1 [|c2 [|c3 [|c4 s]]]]; try discriminate E.
      apply (f_equal String.length) in E. rewrite !string_length_app in E. cbn in E. lia.
    + injection E as _ E. by apply IH in E.
Qed.

Lemma keeps_document id id' content : path_name id -> path_name id' -> id <> id' ->
  keeps_revision useDB root id (write_document useDB root id' content).
Proof.
  intros Hid Hid' Hne. unfold write_document. destruct useDB.
  - apply keeps_wrapped. intros e w. unfold save, statement. destruct (k_db e (d_calls w)); [done|]. cbn [fst d_rows]. unfold document_at, blob_at, set_rows.
    cbn [d_rows]. split; [|done]. rewrite decide_True by done. apply lookup_insert_ne. intros E. apply Hne. symmetry.
    destruct (document_ref_text id Hid) as [_ [E1 _]], (document_ref_text id' Hid') as [_ [E2 _]]. rewrite E1, E2 in E. by apply document_ref_inj.
  - rewrite document_path, path_plus_last by done. eapply keeps_region; [apply write_renamed_region; by destruct root | |].
    + intros [E|E]; apply app_inv_head in E; injection E as E.
      * rewrite string_app_assoc in E. by eapply (not_temporary id id').
      * apply Hne. apply (f_equal (trim_suffix ".json")) in E. by rewrite !trim_suffix_app in E.
    + intros cert name _ _ [E|E]; apply (f_equal length) in E; unfold files in E; rewrite !length_app in E; cbn in E; lia.
Qed.
End Facts.

Section Store_facts.
Context `{SnapshotCodec} `{SqlLike}.
Variables (useDB : bool) (root : fpath).
Hypothesis root_ok : Forall component root.

Lemma keeps_save id id' snapshot materials : path_name id -> path_name id' -> id <> id' ->
  Forall (fun m => path_name (normalize_id (mc_CertificateID m))) materials ->
  keeps_revision useDB root id (Save useDB root id' snapshot materials).
Proof.
  intros Hid Hid' Hne Hm. unfold Save. destruct Hid' as (Hc' & Ht' & Hn'). rewrite Hn'.
  apply revision_bind; [done | intros _]. apply revision_bind.
  - apply keeps_write_all; try done. by apply Forall_sort_on.
  - intros mats. apply revision_bind; [by apply keeps_wrapped | intros content].
    apply revision_bind; [by apply keeps_document|]. done.
Qed.

(** No identifier of a revision begins another's: they are equally long up to a million revisions. *)
Definition apart (id id' : string) : Prop := id <> id' /\ has_prefix id' id = false.

Lemma remove_file_region p : p <> [] -> on_region (eq p) (remove_file p).
Proof.
  intros Hp. unfold remove_file. apply on_region_files. intros e f q Hq. destruct (io_fault e "remove" p); [done|].
  assert (Hd : file_at (delete p f) q = file_at f q) by (rewrite file_at_delete by done; by rewrite decide_False).
  destruct (node_at f p) as [[c|]|]; [exact Hd | | exact Hd]. by destruct (existsb _ _).
Qed.

Lemma keeps_delete id id' : path_name id -> path_name id' -> apart id id' -> (useDB = true -> literal_key id') ->
  keeps_revision useDB root id (Delete useDB root (document_ref id')).
Proof.
  intros Hid Hid' [Hne Hap] Hlit. unfold Delete. cbv zeta. destruct (document_ref_text id' Hid') as [Er [Et _]]. rewrite !Et.
  assert (Ep : trim_prefix "snapshots/" (document_ref id') = id' ++ ".json") by (by rewrite Er, trim_prefix_app).
  apply revision_bind; [done | intros _]. rewrite !Ep, trim_suffix_app. apply revision_bind; [done | intros _].
  pose proof (proj2 (proj2 Hid')) as Hn'. rewrite Hn'. destruct useDB.
  - apply revision_bind.
    + apply keeps_wrapped. intros e w. unfold del, statement. destruct (k_db e (d_calls w)); [done|]. cbn [fst d_rows].
      unfold document_at, blob_at, set_rows. cbn [d_rows]. split; [|done]. rewrite decide_True by done. apply lookup_delete_ne.
      rewrite (proj1 (proj2 (document_ref_text id Hid))), Et. intros E. by apply document_ref_inj in E.
    + intros _. apply keeps_wrapped. intros e w. split.
      * unfold DeleteBlobsByPrefix, statement. destruct (k_db e (d_calls w)); [done|]. unfold document_at, set_rows. cbn [fst d_rows]. by rewrite decide_False.
      * intros cert name (Hcc & _) Hn. destruct (names_ok name Hn) as (Hc & Ht & _).
        destruct (reset_frame true (files root) snapshot_refs refs_ok id' id [cert] name e w) as (_ & _ & Hk); try done.
        -- apply Hid'.
        -- apply Hid'.
        -- apply Hid.
        -- by apply Forall_singleton.
        -- by apply Hk; right.
  - apply revision_bind.
    + apply keeps_wrapped. rewrite document_path by done.
      eapply keeps_region; [apply remove_file_region; by destruct root | |].
      * intros E%app_inv_head. injection E as E. apply (f_equal (trim_suffix ".json")) in E. by rewrite !trim_suffix_app in E.
      * intros cert name _ _ E. apply (f_equal length) in E; unfold files in E; rewrite !length_app in E; cbn in E; lia.
    + intros _. apply keeps_wrapped. destruct Hid' as ([Hp Hs] & _). rewrite join_path_component by done.
      eapply keeps_region; [apply on_region_files, remove_all_touches | |].
      * intros [k E]. apply (f_equal length) in E. unfold files in E. rewrite !length_app in E. cbn in E. lia.
      * intros cert name _ _ [k E]. unfold files in E. rewrite <- !app_assoc in E. apply app_inv_head in E. injection E as E _. by apply Hne.
Qed.

(** *** What a save leaves *)
Definition cid (m : MaterialContent) : string := normalize_id (mc_CertificateID m).
Definition entry (id : string) (m : MaterialContent) : CertificateMaterialSnapshot :=
  MkMaterial (cid m) (material_ref id (cid m) "certificate.pem") (material_ref id (cid m) "private.key").
Definition copied (w : disk) (id : string) (m : MaterialContent) : Prop :=
  blob_at useDB (files root) snapshot_refs w [id; cid m] "certificate.pem" = Some (mc_CertificatePEM m) /\
  blob_at useDB (files root) snapshot_refs w [id; cid m] "private.key" = Some (mc_PrivateKeyPEM m).

Lemma material_other id cert name content cert' name' e w : path_name id -> path_name cert -> path_name cert' ->
  name ∈ ["certificate.pem"; "private.key"] -> name' ∈ ["certificate.pem"; "private.key"] -> (cert', name') <> (cert, name) ->
  blob_at useDB (files root) snapshot_refs (writeMaterial useDB root id cert name content e w).1 [id; cert'] name' =
  blob_at useDB (files root) snapshot_refs w [id; cert'] name'.
Proof.
  intros Hid Hc Hc' Hn Hn' Hne. destruct (names_ok name Hn) as (? & ? & _), (names_ok name' Hn') as (? & ? & Ht).
  apply (write_blob_frame useDB (files root) snapshot_refs (files_ok root root_ok) refs_ok); try done; try (by apply sub_ok).
  - intros [= E1 E2]. by subst.
  - intros t. by apply Ht.
Qed.

Lemma material_own id cert name content e w w' u : path_name id -> path_name cert -> name ∈ ["certificate.pem"; "private.key"] ->
  writeMaterial useDB root id cert name content e w = (w', Ok u) -> blob_at useDB (files root) snapshot_refs w' [id; cert] name = Some content.
Proof.
  intros Hid Hc Hn. apply (write_blob_ok useDB (files root) snapshot_refs (files_ok root root_ok) refs_ok); [by apply sub_ok | by apply names_ok].
Qed.

Lemma wrapped_ok {A} s (m : dop A) e w w' a : wrapped s m e w = (w', Ok a) -> m e w = (w', Ok a).
Proof. unfold wrapped. by destruct (m e w) as [? [?|?]]; intros [=]; subst. Qed.

Lemma write_all_other id materials cert name e w : path_name id -> path_name cert -> name ∈ ["certificate.pem"; "private.key"] ->
  Forall (fun m => path_name (cid m)) materials -> cert ∉ cid <$> materials ->
  blob_at useDB (files root) snapshot_refs (write_all useDB root id materials e w).1 [id; cert] name =
  blob_at useDB (files root) snapshot_refs w [id; cert] name.
Proof.
  intros Hid Hc Hn Hm. revert w. induction Hm as [|m rest Hm Hrest IH]; intros w Hni; [done|].
  rewrite fmap_cons in Hni. apply not_elem_of_cons in Hni as [Hne Hni]. cbn [write_all]. rewrite rop_bind_run. unfold of_result at 1.
  destruct (reject_if _ _) as [[]|]; [|done]. rewrite rop_bind_run. unfold of_result at 1. destruct (reject_if _ _) as [[]|]; [|done].
  assert (Hw : forall n content s w0, n ∈ ["certificate.pem"; "private.key"] ->
    blob_at useDB (files root) snapshot_refs (wrapped s (writeMaterial useDB root id (cid m) n content) e w0).1 [id; cert] name =
    blob_at useDB (files root) snapshot_refs w0 [id; cert] name).
  { intros n content s w0 Hnn. rewrite <- (material_other id (cid m) n content cert name e w0) by (done || by intros [= ? _]).
    unfold wrapped. by destruct (writeMaterial _ _ _ _ _ _ e w0) as [? [?|?]]. }
  rewrite rop_bind_run. change (normalize_id (mc_CertificateID m)) with (cid m).
  match goal with |- context [wrapped ?s ?a e w] => pose proof (Hw "certificate.pem" (mc_CertificatePEM m) s w ltac:(set_solver)) as H1; destruct (wrapped s a e w) as [w1 [u1|m1]] end;
    cbn [fst] in H1; [|done]. rewrite <- H1. clear H1. rewrite rop_bind_run.
  match goal with |- context [wrapped ?s ?a e w1] => pose proof (Hw "private.key" (mc_PrivateKeyPEM m) s w1 ltac:(set_solver)) as H2; destruct (wrapped s a e w1) as [w2 [u2|m2]] end;
    cbn [fst] in H2; [|done]. rewrite <- H2. clear H2. rewrite rop_bind_run.
  specialize (IH w2 Hni). destruct (write_all useDB root id rest e w2) as [w3 [out|m3]]; done.
Qed.

Lemma write_all_ok id materials e w w' out : path_name id -> Forall (fun m => path_name (cid m)) materials -> NoDup (cid <$> materials) ->
  write_all useDB root id materials e w = (w', Ok out) -> out = entry id <$> materials /\ Forall (copied w' id) materials.
Proof.
  intros Hid Hm. revert w out. induction Hm as [|m rest Hm Hrest IH]; intros w out Hnd E; [by injection E as _ <-|].
  rewrite fmap_cons in Hnd. apply NoDup_cons in Hnd as [Hni Hnd]. cbn [write_all] in E. change (normalize_id (mc_CertificateID m)) with (cid m) in E.
  apply rop_bind_ok in E as (w1 & ? & E1 & E). injection E1 as <- _. apply rop_bind_ok in E as (w1 & ? & E1 & E). injection E1 as <- _.
  apply rop_bind_ok in E as (w1 & ? & E1%wrapped_ok & E). apply rop_bind_ok in E as (w2 & ? & E2%wrapped_ok & E).
  apply rop_bind_ok in E as (w3 & tail & E3 & E). injection E as <- <-.
  destruct (IH w2 tail Hnd E3) as [-> Hcopied]. split; [done|]. constructor; [|done].
  pose proof (write_all_other id rest (cid m) "certificate.pem" e w2 Hid Hm ltac:(set_solver) Hrest Hni) as O1.
  pose proof (write_all_other id rest (cid m) "private.key" e w2 Hid Hm ltac:(set_solver) Hrest Hni) as O2.
  rewrite E3 in O1, O2. cbn [fst] in O1, O2. split.
  - rewrite O1. pose proof (material_other id (cid m) "private.key" (mc_PrivateKeyPEM m) (cid m) "certificate.pem" e w1 Hid Hm Hm ltac:(set_solver) ltac:(set_solver) ltac:(by intros [=])) as O.
    rewrite E2 in O. cbn [fst] in O. rewrite O. by eapply material_own; [done | done | set_solver | exact E1].
  - rewrite O2. by eapply material_own; [done | done | set_solver | exact E2].
Qed.

Lemma write_document_ok id content e w w' u : path_name id -> write_document useDB root id content e w = (w', Ok u) ->
  document_at useDB root w' id = Some content /\
  forall cert name, blob_at useDB (files root) snapshot_refs w' [id; cert] name = blob_at useDB (files root) snapshot_refs w [id; cert] name.
Proof.
  intros Hid. unfold write_document, document_at, blob_at, file_blob. destruct useDB.
  - intros E%wrapped_ok. unfold save, statement in E. destruct (k_db e (d_calls w)); [discriminate|]. injection E as <- _. cbn [d_rows]. unfold set_rows.
    split; [|done]. rewrite decide_True by done. apply lookup_insert_eq.
  - rewrite document_path, path_plus_last by done. intros E. split.
    + eapply write_renamed_ok; [|exact E]. intros Ep%app_inv_head. injection Ep as Ep. apply (f_equal String.length) in Ep.
      rewrite !string_length_app in Ep. cbn in Ep. lia.
    + intros cert name.
      pose proof (write_renamed_region (root +++ [(id ++ ".json") ++ ".tmp"]) (root +++ [id ++ ".json"]) content
        "write revision snapshot temp file: " "rename revision snapshot file: " ltac:(by destruct root) e w) as [_ Hf].
      rewrite E in Hf. cbn [fst] in Hf. apply Hf. intros [Ep|Ep]; apply (f_equal length) in Ep; unfold files in Ep; rewrite !length_app in Ep; cbn in Ep; lia.
Qed.

Definition frozen (id : string) (snapshot : Snapshot) (materials : list MaterialContent) : Snapshot :=
  with_materials (entry id <$> sort_on cid materials) snapshot.

Lemma Save_ok id snapshot materials e w w' path checksum : path_name id ->
  Forall (fun m => path_name (cid m)) materials -> NoDup (cid <$> materials) ->
  Save useDB root id snapshot materials e w = (w', Ok (path, checksum)) ->
  path = document_ref id /\ Forall (copied w' id) materials /\
  exists text, marshal_snapshot (frozen id snapshot materials) = Ok text /\
    document_at useDB root w' id = Some (text ++ String "010" "") /\ checksum = sha256_hex (text ++ String "010" "").
Proof.
  intros Hid Hm Hnd E. unfold Save in E. destruct Hid as (Hc & Ht & Hn). rewrite Hn in E.
  apply rop_bind_ok in E as (w1 & ? & E1 & E). injection E1 as <- _. apply rop_bind_ok in E as (w1 & mats & E1 & E).
  apply rop_bind_ok in E as (w2 & text & E2%wrapped_ok & E). injection E2 as <- Etext.
  apply rop_bind_ok in E as (w2 & ? & E2 & E). injection E as <- <- <-. split; [done|].
  unfold writeMaterials in E1. apply write_all_ok in E1 as [-> Hcopied]; [|done|by apply Forall_sort_on|by rewrite sort_on_perm].
  apply write_document_ok in E2 as [Hdoc Hblobs]; [|done]. split.
  - apply Forall_sort_on in Hcopied. eapply Forall_impl; [exact Hcopied|]. intros m [H1 H2]. unfold copied. by rewrite !Hblobs.
  - by exists text.
Qed.

(** *** Reading in quiet weather *)
Lemma Load_found id snapshot text w : path_name id -> plain_text snapshot -> marshal_snapshot snapshot = Ok text ->
  document_at useDB root w id = Some (text ++ String "010" "") ->
  (Load useDB root (document_ref id) calm w).2 = Ok (normalizeLegacyManagementSnapshot (snapshot, "")).
Proof.
  intros Hid Hplain Htext Hdoc. destruct (document_ref_text id Hid) as [Er [Et Hne]]. unfold Load. rewrite Et. cbv zeta.
  rewrite rop_bind_run. apply is_empty_false in Hne. unfold of_result at 1. rewrite Hne. cbn [reject_if].
  assert (Hl : loadSnapshotDocument useDB root (document_ref id) calm w = (later w, Ok (text ++ String "010" ""))).
  { unfold loadSnapshotDocument. cbv zeta. unfold document_at in Hdoc. destruct useDB.
    - rewrite rop_bind_run. unfold wrapped, load, statement. cbn [k_db calm]. by rewrite Hdoc.
    - rewrite Er, trim_prefix_app, document_path by done. unfold wrapped, must_read. rewrite rop_bind_run, on_files_run. unfold read_file.
      cbn [k_io calm io_fault io_ok]. unfold file_at in Hdoc. destruct (node_at _ _) as [[c|]|]; try done. cbn. by injection Hdoc as ->. }
  rewrite rop_bind_run, Hl. rewrite rop_bind_run. unfold wrapped, of_result. by rewrite (unmarshal_marshal snapshot text).
Qed.

(** The directory the server gives the store (app.go). *)
Hypothesis root_named : last root = Some "revision-snapshots".

Lemma ReadMaterial_found id cert name content w : path_name id -> path_name cert -> name ∈ ["certificate.pem"; "private.key"] ->
  blob_at useDB (files root) snapshot_refs w [id; cert] name = Some content ->
  (ReadMaterial useDB root (material_ref id cert name) calm w).2 = Ok content.
Proof.
  intros Hid Hcert Hn Hb. pose proof (names_ok name Hn) as (Hc & Ht & _). pose proof (sub_ok id cert Hid Hcert) as Hs.
  destruct (key_parts snapshot_refs refs_ok [id; cert] name Hs Hc Ht) as [Ek Ek'].
  assert (Er : material_ref id cert name = join "/" (snapshot_refs +++ [id; cert] +++ [name])) by exact Ek'.
  change (blob_key snapshot_refs [id; cert] name) with (material_ref id cert name) in Ek. rewrite <- Er in Ek.
  assert (Etail : material_ref id cert name = "revision-snapshots/" ++ join "/" ("files" :: id :: cert :: [name])) by exact Er.
  unfold ReadMaterial. cbv zeta. rewrite Ek, rop_bind_run. unfold of_result at 1.
  assert (Hne : is_empty (material_ref id cert name) = false) by (rewrite Etail; reflexivity). rewrite Hne. cbn [reject_if].
  assert (Hp : has_prefix (default "/" (last root) ++ "/") (material_ref id cert name) = true) by (rewrite root_named, Etail; apply has_prefix_app).
  rewrite Hp. unfold wrapped, loadMaterial. cbv zeta. unfold blob_at, file_blob in Hb. destruct useDB.
  - unfold load_or_migrate. rewrite rop_bind_run. unfold load, statement. cbn [k_db calm]. rewrite Ek.
    change (blob_key snapshot_refs [id; cert] name) with (material_ref id cert name) in Hb. rewrite Ek in Hb. by rewrite Hb.
  - assert (Epath : join_path root (trim_prefix "revision-snapshots/" (material_ref id cert name)) = files root +++ [id; cert] +++ [name]).
    { rewrite Etail, trim_prefix_app. unfold join_path, clean_from. rewrite split_on_join; [|done|].
      - assert (Hf : Forall component ("files" :: id :: cert :: [name])).
        { apply Forall_cons. split; [by vm_compute|]. change (Forall component ([id; cert] +++ [name])). by rewrite Forall_app, Forall_singleton. }
        rewrite clean_components by done. rewrite rev_app_distr, !rev_involutive. unfold files. by rewrite <- app_assoc.
      - apply Forall_cons. split; [by vm_compute|]. change (Forall (fun c => no_slash c = true) ([id; cert] +++ [name])). rewrite Forall_app, Forall_singleton.
        split; [|by destruct Hc]. eapply Forall_impl; [exact Hs|]. by intros c [_ ?]. }
    rewrite Epath. unfold must_read. rewrite rop_bind_run, on_files_run. unfold read_file. cbn [k_io calm io_fault io_ok].
    unfold file_at in Hb. destruct (node_at _ _) as [[c|]|]; try done. cbn. by injection Hb as ->.
Qed.

(** ** Snapshots do not change *)
Inductive command :=
| SSave (id : string) (snapshot : Snapshot) (materials : list MaterialContent)
| SDelete (id : string).

(** What is done to another revision; the identifier deleted does not begin this one, and has no
    character that LIKE interprets. *)
Definition elsewhere (id : string) (c : command) : Prop :=
  match c with
  | SSave id' _ materials => path_name id' /\ id <> id' /\ Forall (fun m => path_name (cid m)) materials
  | SDelete id' => path_name id' /\ apart id id' /\ (useDB = true -> literal_key id')
  end.

Definition exec (c : command) : dop unit :=
  match c with
  | SSave id snapshot materials => Save useDB root id snapshot materials;; mret tt
  | SDelete id => Delete useDB root (document_ref id)
  end.

(** A later disk: any number of operations, each in its own weather, failed ones included. *)
Inductive after (id : string) : disk -> disk -> Prop :=
| after_none w : after id w w
| after_op c e w w' : elsewhere id c -> after id (exec c e w).1 w' -> after id w w'.

Lemma keeps_exec id c : path_name id -> elsewhere id c -> keeps_revision useDB root id (exec c).
Proof.
  intros Hid. destruct c as [id' snapshot materials | id']; cbn [exec elsewhere].
  - intros (Hid' & Hne & Hm). apply revision_bind; [by apply keeps_save | done].
  - intros (Hid' & Hap & Hlit). by apply keeps_delete.
Qed.

Lemma after_keeps id w w' : path_name id -> after id w w' ->
  document_at useDB root w' id = document_at useDB root w id /\
  forall cert name, path_name cert -> name ∈ ["certificate.pem"; "private.key"] ->
    blob_at useDB (files root) snapshot_refs w' [id; cert] name = blob_at useDB (files root) snapshot_refs w [id; cert] name.
Proof.
  intros Hid. induction 1 as [w | c e w w' Hc Hafter [IHd IHb]]; [done|]. destruct (keeps_exec id c Hid Hc e w) as [Hd Hb].
  split; [by rewrite IHd|]. intros cert name Hcert Hn. by rewrite IHb, Hb.
Qed.

End Store_facts.

(** ** Example *)
(** A codec for snapshots that hold nothing but certificate references. *)
#[local] Instance no_variables : Environment := Build_Environment (fun _ => "").
Definition bare (materials : list CertificateMaterialSnapshot) : Snapshot :=
  MkSnapshot [] [] [] [] [] [] [] [] AntiDDoS.DefaultSettings materials [] [] false false.

Definition fields_of (m : CertificateMaterialSnapshot) : list string := [m_CertificateID m; m_CertificateRef m; m_PrivateKeyRef m].
Fixpoint read_fields (parts : list string) : list CertificateMaterialSnapshot :=
  match parts with
  | a :: b :: c :: rest => MkMaterial a b c :: read_fields rest
  | _ => []
  end.

Lemma read_fields_of ms last : read_fields (concat (fields_of <$> ms) +++ [last]) = ms.
Proof. induction ms as [|[a b c] ms IH]; [done|]. cbn. f_equal. exact IH. Qed.

Definition bar_free (s : string) : bool := all_chars (fun c => negb (Ascii.eqb c "|")) s.

#[export, refine] Instance bare_codec : SnapshotCodec | 100 := {|
  marshal_snapshot s := Ok (join "|" ("{" :: concat (fields_of <$> sn_CertificateMaterials s) +++ ["}"]));
  unmarshal_snapshot text := Ok (bare (read_fields (tail (split_on "|" text))), "");
  plain_text s := s = bare (sn_CertificateMaterials s) /\ Forall (fun f => bar_free f = true) (concat (fields_of <$> sn_CertificateMaterials s))
|}.
Proof.
  intros s text [Hs Hf] <-%Ok_inj.
  assert (E : forall parts, join "|" (parts +++ ["}"]) ++ String "010" "" = join "|" (parts +++ [String "}" (String "010" "")])).
  { induction parts as [|p ps IH]; [done|]. destruct ps as [|q ps].
    - change ((p ++ "|" ++ "}") ++ String "010" "" = p ++ "|" ++ String "}" (String "010" "")). by rewrite string_app_assoc.
    - change ((p ++ "|" ++ join "|" ((q :: ps) +++ ["}"])) ++ String "010" "" = p ++ "|" ++ join "|" ((q :: ps) +++ [String "}" (String "010" "")])).
      by rewrite !string_app_assoc, IH. }
  specialize (E ("{" :: concat (fields_of <$> sn_CertificateMaterials s))). cbn [app] in E. cbv beta. rewrite E. clear E.
  change (join "|") with (join (String "|" "")). rewrite split_on_joined; [|by destruct (concat _)|].
  - cbn [tail app]. by rewrite read_fields_of, <- Hs.
  - constructor; [done|]. apply Forall_app. split; [exact Hf | by apply Forall_singleton].
Defined.

Definition snapshots_root : fpath := ["data"; "revision-snapshots"].
Definition shop_files : list MaterialContent := [MkContent "Shop" "CERT" "KEY"].
Definition first_save : disk := (Save true snapshots_root "rev-000001" (bare []) shop_files calm (Disk empty (fun _ => empty) 0)).1.
(** A second revision is saved and deleted. *)
Definition later_disk : disk :=
  (exec true snapshots_root (SDelete "rev-000002") calm
    (exec true snapshots_root (SSave "rev-000002" (bare []) [MkContent "Shop" "NEW" "NEW"]) calm first_save).1).1.

