(* ===== verification/Requests.v ===== *)
(** * Compile requests (control-plane/internal/services: revision_compile.go, revision_catalog.go)

    A request gathers the listings of every configuration store into a snapshot with the certificate
    files it refers to, saves both under the next version, and enters the revision as pending with a
    compile job.  The world is all stores and disks involved; every call has its own environment.
    The service is taken with its optional stores present and the coordinator's lock held. *)
From Stdlib Require Import ZArith Lia Ascii String.
From stdpp Require Import base tactics gmap strings list.
From S2P Require Import Prelude GoTime GoNet GoSeq GoFloat Crud DocStore Service Files Blobs ConfigStores Mapping Snapshots.
From S2P Require Materials SiteProfiles AntiDDoS ManagementHosts VirtualPatches Enterprise Governance Revisions Jobs.
Local Set Warnings "-clear-no-such-hyp".
Local Open Scope string_scope.
Local Open Scope Z_scope.
Local Notation "a +++ b" := (@app _ a b) (at level 60, right associativity).

(** ** The world *)
Record stores := Stores {
  st_Sites : json_state (items_state Sites.Site);
  st_Upstreams : json_state (items_state Upstreams.Upstream);
  st_Certificates : json_state (items_state Certificates.Certificate);
  st_TLSConfigs : json_state (items_state TLSConfigs.TLSConfig);
  st_WAFPolicies : json_state (items_state WAFPolicies.WAFPolicy);
  st_AccessPolicies : json_state (items_state AccessPolicies.AccessPolicy);
  st_RateLimitPolicies : json_state (items_state RateLimitPolicies.RateLimitPolicy);
  st_EasySiteProfiles : json_state (items_state SiteProfiles.EasySiteProfile);
  st_AntiDDoS : json_state AntiDDoS.state;
  st_ManagementHosts : json_state ManagementHosts.Settings;
  st_VirtualPatches : json_state VirtualPatches.state
}.

Record world := World {
  w_stores : stores;
  w_materials : Materials.world;
  w_snapshots : disk;
  w_governance : Governance.world;   (* enterprise settings and revisions *)
  w_jobs : json_state Jobs.state;
  w_audits : list (string * string * bool);
  w_calls : nat
}.

Record request_env := RequestEnv {
  re_store : nat -> env;
  re_materials : nat -> Materials.mat_env;
  re_disk : nat -> disk_env;
  re_governance : nat -> Governance.gov_env
}.

Abbreviation rq := (rop request_env world).

(** A call to the store kept in one field of [stores]. *)
Definition on_store {D A} (get : stores -> json_state D) (put : json_state D -> stores -> stores) (m : sop D A) : rq A := fun e w =>
  let (s, r) := m (re_store e (w_calls w)) (get (w_stores w)) in
  (World (put s (w_stores w)) (w_materials w) (w_snapshots w) (w_governance w) (w_jobs w) (w_audits w) (S (w_calls w)), r).
Definition on_materials {A} (m : Materials.mop A) : rq A := fun e w =>
  let (s, r) := m (re_materials e (w_calls w)) (w_materials w) in
  (World (w_stores w) s (w_snapshots w) (w_governance w) (w_jobs w) (w_audits w) (S (w_calls w)), r).
Definition on_snapshots {A} (m : dop A) : rq A := fun e w =>
  let (s, r) := m (re_disk e (w_calls w)) (w_snapshots w) in
  (World (w_stores w) (w_materials w) s (w_governance w) (w_jobs w) (w_audits w) (S (w_calls w)), r).
Definition on_governance {A} (m : Governance.gop A) : rq A := fun e w =>
  let (s, r) := m (re_governance e (w_calls w)) (w_governance w) in
  (World (w_stores w) (w_materials w) (w_snapshots w) s (w_jobs w) (w_audits w) (S (w_calls w)), r).
Definition on_jobs {A} (m : sop Jobs.state A) : rq A := fun e w =>
  let (s, r) := m (re_store e (w_calls w)) (w_jobs w) in
  (World (w_stores w) (w_materials w) (w_snapshots w) (w_governance w) s (w_audits w) (S (w_calls w)), r).
Definition record (action resource : string) (succeeded : bool) : rq unit := fun e w =>
  (World (w_stores w) (w_materials w) (w_snapshots w) (w_governance w) (w_jobs w) (w_audits w +++ [(action, resource, succeeded)]) (w_calls w), Ok tt).
Definition time_now : rq Z := fun e w => (w, Ok (now (re_store e (w_calls w)))).

Definition put_Sites s x := Stores s (st_Upstreams x) (st_Certificates x) (st_TLSConfigs x) (st_WAFPolicies x) (st_AccessPolicies x)
  (st_RateLimitPolicies x) (st_EasySiteProfiles x) (st_AntiDDoS x) (st_ManagementHosts x) (st_VirtualPatches x).
Definition put_Upstreams s x := Stores (st_Sites x) s (st_Certificates x) (st_TLSConfigs x) (st_WAFPolicies x) (st_AccessPolicies x)
  (st_RateLimitPolicies x) (st_EasySiteProfiles x) (st_AntiDDoS x) (st_ManagementHosts x) (st_VirtualPatches x).
Definition put_Certificates s x := Stores (st_Sites x) (st_Upstreams x) s (st_TLSConfigs x) (st_WAFPolicies x) (st_AccessPolicies x)
  (st_RateLimitPolicies x) (st_EasySiteProfiles x) (st_AntiDDoS x) (st_ManagementHosts x) (st_VirtualPatches x).
Definition put_TLSConfigs s x := Stores (st_Sites x) (st_Upstreams x) (st_Certificates x) s (st_WAFPolicies x) (st_AccessPolicies x)
  (st_RateLimitPolicies x) (st_EasySiteProfiles x) (st_AntiDDoS x) (st_ManagementHosts x) (st_VirtualPatches x).
Definition put_WAFPolicies s x := Stores (st_Sites x) (st_Upstreams x) (st_Certificates x) (st_TLSConfigs x) s (st_AccessPolicies x)
  (st_RateLimitPolicies x) (st_EasySiteProfiles x) (st_AntiDDoS x) (st_ManagementHosts x) (st_VirtualPatches x).
Definition put_AccessPolicies s x := Stores (st_Sites x) (st_Upstreams x) (st_Certificates x) (st_TLSConfigs x) (st_WAFPolicies x) s
  (st_RateLimitPolicies x) (st_EasySiteProfiles x) (st_AntiDDoS x) (st_ManagementHosts x) (st_VirtualPatches x).
Definition put_RateLimitPolicies s x := Stores (st_Sites x) (st_Upstreams x) (st_Certificates x) (st_TLSConfigs x) (st_WAFPolicies x)
  (st_AccessPolicies x) s (st_EasySiteProfiles x) (st_AntiDDoS x) (st_ManagementHosts x) (st_VirtualPatches x).
Definition put_EasySiteProfiles s x := Stores (st_Sites x) (st_Upstreams x) (st_Certificates x) (st_TLSConfigs x) (st_WAFPolicies x)
  (st_AccessPolicies x) (st_RateLimitPolicies x) s (st_AntiDDoS x) (st_ManagementHosts x) (st_VirtualPatches x).
Definition put_AntiDDoS s x := Stores (st_Sites x) (st_Upstreams x) (st_Certificates x) (st_TLSConfigs x) (st_WAFPolicies x)
  (st_AccessPolicies x) (st_RateLimitPolicies x) (st_EasySiteProfiles x) s (st_ManagementHosts x) (st_VirtualPatches x).
Definition put_ManagementHosts s x := Stores (st_Sites x) (st_Upstreams x) (st_Certificates x) (st_TLSConfigs x) (st_WAFPolicies x)
  (st_AccessPolicies x) (st_RateLimitPolicies x) (st_EasySiteProfiles x) (st_AntiDDoS x) s (st_VirtualPatches x).
Definition put_VirtualPatches s x := Stores (st_Sites x) (st_Upstreams x) (st_Certificates x) (st_TLSConfigs x) (st_WAFPolicies x)
  (st_AccessPolicies x) (st_RateLimitPolicies x) (st_EasySiteProfiles x) (st_AntiDDoS x) (st_ManagementHosts x) s.

(** ** Versions and targets *)
Definition nextRevisionVersion (items : list Revisions.Revision) : Z :=
  wrap64 (foldl (fun maxVersion item => if maxVersion <? Revisions.rev_Version item then Revisions.rev_Version item else maxVersion) 0 items + 1).

Fixpoint zeros (n : nat) : string := match n with O => "" | S n => String "0" (zeros n) end.
(** [fmt.Sprintf("%06d", n)]; the sign counts for the width *)
Definition six_digits (n : Z) : string :=
  if n <? 0 then "-" ++ zeros (5 - String.length (itoa (- n))) ++ itoa (- n)
  else zeros (6 - String.length (itoa n)) ++ itoa n.
Definition revision_id (version : Z) : string := "rev-" ++ six_digits version.

Definition normalizeTargetSiteIDs (ids : list string) : list string := sorted_set normalize_id ids.

Section Service.
Context `{Environment} `{Regexps} `{SnapshotCodec} `{SqlLike} `{Enterprise.EvidenceCrypto}.
(** The backends and directories of the two stores of files, and [s.governance != nil] *)
Variables (materialsDB : bool) (materialsRoot : fpath) (snapshotsDB : bool) (snapshotsRoot : fpath) (governed : bool).

(** [collectActiveVirtualPatches]; a site whose patches cannot be read has none. *)
Fixpoint collectActiveVirtualPatches (sites : list Sites.Site) : rq (list VirtualPatches.VirtualPatch) :=
  match sites with
  | [] => mret []
  | site :: rest =>
      patches ← try_ (on_store st_VirtualPatches put_VirtualPatches (VirtualPatches.ListActive (Sites.ID site)));
      out ← collectActiveVirtualPatches rest;
      mret (match patches with Ok patches => patches +++ out | Err _ => out end)
  end.

Definition profile_refs (profile : SiteProfiles.EasySiteProfile) : list string :=
  [SiteProfiles.MTLSClientCARef (SiteProfiles.FrontService profile);
   SiteProfiles.UpstreamMTLSCertRef (SiteProfiles.UpstreamRouting profile);
   SiteProfiles.UpstreamMTLSKeyRef (SiteProfiles.UpstreamRouting profile);
   SiteProfiles.UpstreamMTLSCARef (SiteProfiles.UpstreamRouting profile)].

(** The keys of the map [materialIDs].  Go visits them in any order; the snapshot store sorts them. *)
Definition material_ids (certificates : list Certificates.Certificate) (profiles : list SiteProfiles.EasySiteProfile) : list string :=
  remove_dups ((Certificates.ID <$> certificates) +++
    List.filter (fun id => negb (is_empty id)) (certificateMaterialIDFromRef <$> concat (profile_refs <$> profiles))).

(** Material that cannot be read is left out. *)
Fixpoint read_materials (ids : list string) : rq (list MaterialContent) :=
  match ids with
  | [] => mret []
  | certificateID :: rest =>
      material ← try_ (on_materials (Materials.Read materialsDB materialsRoot certificateID));
      out ← read_materials rest;
      mret (match material with
            | Ok (item, certificatePEM, privateKeyPEM) => MkContent (Materials.CertificateID item) certificatePEM privateKeyPEM :: out
            | Err _ => out
            end)
  end.

Definition buildSnapshot : rq (Snapshot * list MaterialContent) :=
  siteItems ← on_store st_Sites put_Sites Sites.List;
  upstreamItems ← on_store st_Upstreams put_Upstreams Upstreams.List;
  certificateItems ← on_store st_Certificates put_Certificates Certificates.List;
  tlsConfigItems ← on_store st_TLSConfigs put_TLSConfigs TLSConfigs.List;
  wafPolicyItems ← on_store st_WAFPolicies put_WAFPolicies WAFPolicies.List;
  accessPolicyItems ← on_store st_AccessPolicies put_AccessPolicies AccessPolicies.List;
  rateLimitPolicyItems ← on_store st_RateLimitPolicies put_RateLimitPolicies RateLimitPolicies.List;
  easySiteProfileItems ← on_store st_EasySiteProfiles put_EasySiteProfiles SiteProfiles.List;
  antiDDoSSettings ← on_store st_AntiDDoS put_AntiDDoS AntiDDoS.Get;
  hosts ← on_store st_ManagementHosts put_ManagementHosts ManagementHosts.Get;
  materialItems ← read_materials (material_ids certificateItems easySiteProfileItems);
  virtualPatches ← collectActiveVirtualPatches siteItems;
  mret (MkSnapshot siteItems upstreamItems certificateItems tlsConfigItems wafPolicyItems accessPolicyItems rateLimitPolicyItems
          easySiteProfileItems antiDDoSSettings [] virtualPatches (ManagementHosts.Hosts hosts) (ManagementHosts.Migrated hosts)
          (ManagementHosts.BlockDirectIPAccess hosts), materialItems).

Definition Preview : rq Snapshot := '(snapshot, _) ← buildSnapshot; mret snapshot.

Definition new_revision (version : Z) (createdAt path checksum : string) (targets : list string) : Revisions.Revision :=
  Revisions.MkRevision (revision_id version) version createdAt checksum path Revisions.StatusPending "" "" "" 0 [] "" "" "" "" "" "" ""
    (normalizeTargetSiteIDs targets).

Definition createBody (session : option Governance.SessionView) (targetSiteIDs : list string) : rq (Revisions.Revision * Jobs.Job) :=
  existing ← on_governance (Governance.on_revisions Revisions.List);
  let version := nextRevisionVersion existing in
  createdAt ← time_now;
  '(snapshot, materials) ← buildSnapshot;
  '(snapshotPath, checksum) ← on_snapshots (Save snapshotsDB snapshotsRoot (revision_id version) snapshot materials);
  let revision := new_revision version (format_rfc3339_nano createdAt) snapshotPath checksum targetSiteIDs in
  revision ← (if governed then on_governance (Governance.PrepareCompiledRevision session revision) else mret revision);
  on_governance (Governance.on_revisions (Revisions.SavePending revision));;
  job ← on_jobs (Jobs.Create (Jobs.MkJob ("compile-" ++ revision_id version) Jobs.TypeCompile "" (revision_id version) "" "" "" "" ""));
  mret (revision, job).

(** [createUnlocked] with its deferred audit record *)
Definition CreateWithTargets (session : option Governance.SessionView) (targetSiteIDs : list string) : rq (Revisions.Revision * Jobs.Job) :=
  created ← try_ (createBody session targetSiteIDs);
  record "revision.compile_request" (match created with Ok (revision, _) => Revisions.rev_ID revision | Err _ => "" end) (is_ok created);;
  of_result created.

Definition Create (session : option Governance.SessionView) : rq (Revisions.Revision * Jobs.Job) := CreateWithTargets session [].

(** [RevisionCatalogService.Delete] *)
Definition Delete (revisionID : string) : rq unit :=
  let revisionID := normalize_id revisionID in
  of_result (reject_if (is_empty revisionID) "revision id is required");;
  found ← on_governance (Governance.on_revisions (Revisions.Get revisionID));
  match found with
  | None => of_result (Err ("revision " ++ revisionID ++ " not found"))
  | Some revision =>
      of_result (reject_if (String.eqb (Revisions.rev_Status revision) Revisions.StatusActive)
        ("revision " ++ revisionID ++ " is active and cannot be deleted"));;
      on_snapshots (Snapshots.Delete snapshotsDB snapshotsRoot (Revisions.rev_BundlePath revision));;
      on_jobs (Jobs.DeleteByRevision revisionID);;
      on_governance (Governance.on_revisions (Revisions.Delete revisionID))
  end.
End Service.

(** ** Facts *)
Lemma six_digits_digits n : 0 <= n -> all_chars is_digit (six_digits n) = true.
Proof.
  intros Hn. unfold six_digits. rewrite (proj2 (Z.ltb_ge _ _) Hn), all_chars_app, itoa_is_digits by done.
  rewrite andb_true_r. by induction (6 - String.length (itoa n))%nat as [|k IH].
Qed.

Lemma digits_path_name s : all_chars is_digit s = true -> path_name ("rev-" ++ s).
Proof.
  intros Hs. assert (Hall : all_chars (fun c => is_digit c || has_char c "rev-") ("rev-" ++ s) = true).
  { rewrite all_chars_app. apply andb_true_iff. split; [done|]. eapply all_chars_impl; [|exact Hs]. by intros c ->. }
  assert (Htrim : trim_space ("rev-" ++ s) = "rev-" ++ s).
  { apply trim_space_no_space. eapply all_chars_impl; [|exact Hall]. by intros [[] [] [] [] [] [] [] []]. }
  split; [split|split].
  - repeat split; intros E%(f_equal String.length); rewrite string_length_app in E; cbn in E; lia.
  - unfold no_slash. eapply all_chars_impl; [|exact Hall]. by intros [[] [] [] [] [] [] [] []].
  - by split.
  - unfold normalize_id. rewrite Htrim. clear Htrim. revert Hall. generalize ("rev-" ++ s). clear. induction s as [|c s IH]; [done|].
    cbn [all_chars]. intros [Hc Hs]%andb_true_iff. change (to_lower (String c s)) with (String (lower_ascii c) (to_lower s)). rewrite IH by done.
    f_equal. revert Hc. clear. by destruct c as [[] [] [] [] [] [] [] []].
Qed.

Lemma revision_path_name version : 0 <= version -> path_name (revision_id version).
Proof. intros Hv. by apply digits_path_name, six_digits_digits. Qed.

Lemma max_version items acc : 0 <= acc -> Forall (fun r => 0 <= Revisions.rev_Version r < 2 ^ 62) items -> acc < 2 ^ 62 ->
  let m := foldl (fun m item => if m <? Revisions.rev_Version item then Revisions.rev_Version item else m) acc items in
  acc <= m < 2 ^ 62 /\ Forall (fun r => Revisions.rev_Version r <= m) items.
Proof.
  intros Ha Hi. revert acc Ha. induction Hi as [|r items Hr Hi IH]; intros acc Ha Hb; cbn [foldl].
  - split; [lia | constructor].
  - destruct (acc <? Revisions.rev_Version r) eqn:E; destruct (IH (if acc <? Revisions.rev_Version r then Revisions.rev_Version r else acc)) as [H1 H2];
      rewrite E in *; try lia; (split; [lia|]; constructor; [lia | done]).
Qed.

(** The next version is above every stored one, as long as the versions stay in range. *)
Lemma nextRevisionVersion_fresh items : Forall (fun r => 0 <= Revisions.rev_Version r < 2 ^ 62) items ->
  0 < nextRevisionVersion items /\ Forall (fun r => Revisions.rev_Version r < nextRevisionVersion items) items.
Proof.
  intros Hi. unfold nextRevisionVersion. destruct (max_version items 0 ltac:(lia) Hi ltac:(lia)) as [Hm Hle]. cbn zeta in Hm, Hle.
  set (m := foldl _ 0 items) in *. assert (E : wrap64 (m + 1) = m + 1) by (apply wrap64_small; lia). rewrite E.
  split; [lia|]. eapply Forall_impl; [exact Hle|]. cbn beta. lia.
Qed.

(** Calls to one store *)
Lemma on_store_ok {D A} get put (m : sop D A) e w w' a : on_store get put m e w = (w', Ok a) ->
  exists s, m (re_store e (w_calls w)) (get (w_stores w)) = (s, Ok a) /\ w_stores w' = put s (w_stores w) /\
    w_materials w' = w_materials w /\ w_snapshots w' = w_snapshots w /\ w_governance w' = w_governance w /\ w_jobs w' = w_jobs w.
Proof. unfold on_store. destruct (m _ _) as [s [x|msg]]; [|discriminate]. intros [= <- <-]. by exists s. Qed.

Lemma listing_ok {A} `{Crud A} e s s' items : (Crud.List : sop (items_state A) (list A)) e s = (s', Ok items) ->
  exists d, current items_config s = Some d /\ items = sort_items (Items d).
Proof. intros (d & Hd & [= <-])%query_ok. by exists d. Qed.

(** What gathering the configuration leaves alone *)
Definition untouched {A} (m : rq A) : Prop := forall e w,
  w_snapshots (m e w).1 = w_snapshots w /\ w_governance (m e w).1 = w_governance w /\ w_jobs (m e w).1 = w_jobs w.

Lemma untouched_bind {A B} (m : rq A) (k : A -> rq B) : untouched m -> (forall a, untouched (k a)) -> untouched (m ≫= k).
Proof.
  intros Hm Hk e w. rewrite rop_bind_run. specialize (Hm e w). destruct (m e w) as [w1 [a|msg]]; [|done]. cbn [fst] in Hm.
  destruct (Hk a e w1) as (H1 & H2 & H3), Hm as (G1 & G2 & G3). by rewrite H1, H2, H3.
Qed.
Lemma untouched_ret {A} (a : A) : untouched (mret a : rq A).
Proof. done. Qed.
Lemma untouched_try {A} (m : rq A) : untouched m -> untouched (try_ m).
Proof. intros Hm e w. specialize (Hm e w). unfold try_. by destruct (m e w). Qed.
Lemma untouched_store {D A} get put (m : sop D A) : untouched (on_store get put m).
Proof. intros e w. unfold on_store. by destruct (m _ _). Qed.
Lemma untouched_materials {A} (m : Materials.mop A) : untouched (on_materials m).
Proof. intros e w. unfold on_materials. by destruct (m _ _). Qed.
#[local] Existing Instance SiteProfiles.profiles_crud.
#[local] Hint Resolve untouched_bind untouched_ret untouched_try untouched_store untouched_materials : core.

Section Facts.
Context `{Environment} `{Regexps} `{SnapshotCodec} `{SqlLike} `{Enterprise.EvidenceCrypto}.
Variables (materialsDB : bool) (materialsRoot : fpath) (snapshotsDB : bool) (snapshotsRoot : fpath) (governed : bool).

Lemma untouched_read ids : untouched (read_materials materialsDB materialsRoot ids).
Proof. induction ids as [|id ids IH]; cbn [read_materials]; auto 6. Qed.
Lemma untouched_patches sites : untouched (collectActiveVirtualPatches sites).
Proof. induction sites as [|site sites IH]; cbn [collectActiveVirtualPatches]; auto 6. Qed.
Lemma untouched_build : untouched (buildSnapshot materialsDB materialsRoot).
Proof.
  unfold buildSnapshot. do 10 (apply untouched_bind; [apply untouched_store|intros ?]).
  apply untouched_bind; [apply untouched_read|intros ?]. apply untouched_bind; [apply untouched_patches|]. done.
Qed.

(** The materials read carry the names asked for. *)
Lemma Read_name id e w w' item c k : Materials.Read materialsDB materialsRoot id e w = (w', Ok (item, c, k)) ->
  Materials.material_id (normalize_id id) /\ Materials.CertificateID item = normalize_id id.
Proof.
  intros E. unfold Materials.Read in E. apply rop_bind_ok in E as (w1 & [] & Hv & E). injection Hv as <- Hv.
  apply rop_bind_ok in E as (w2 & d & _ & E). destruct (Materials.find_record _ d) as [[i x]|] eqn:Ef; [|discriminate].
  apply rop_bind_ok in E as (w3 & c' & _ & E). apply rop_bind_ok in E as (w4 & k' & _ & E). injection E as _ <- _ _.
  split; [split; [apply normalize_id_idem | done]|]. by apply find_key_Some in Ef as [_ ?].
Qed.

Lemma read_materials_names ids e w w' out : read_materials materialsDB materialsRoot ids e w = (w', Ok out) ->
  Forall (fun m => path_name (cid m)) out /\ (cid <$> out) `sublist_of` (normalize_id <$> ids).
Proof.
  revert w w' out. induction ids as [|id ids IH]; intros w w' out E; cbn [read_materials] in E.
  - injection E as _ <-. split; [constructor | constructor].
  - apply rop_bind_ok in E as (w1 & r & Hr & E). apply rop_bind_ok in E as (w2 & tail & Htail & E). injection E as _ <-.
    apply IH in Htail as [Hf Hs]. destruct r as [[[item c] k]|msg]; [|split; [done | by apply sublist_cons]].
    unfold try_, on_materials in Hr. destruct (Materials.Read _ _ id _ _) as [m1 r1] eqn:Er. injection Hr as _ ->.
    apply Read_name in Er as [Hid Hname].
    assert (Ec : cid (MkContent (Materials.CertificateID item) c k) = normalize_id id).
    { unfold cid. cbn [mc_CertificateID]. by rewrite Hname, normalize_id_idem. }
    split.
    + constructor; [|done]. rewrite Ec. destruct (Materials.material_id_component _ Hid) as [Hc Ht]. split_and!; [done | done | apply normalize_id_idem].
    + rewrite !fmap_cons, Ec. by apply sublist_skip.
Qed.

(** The patches collected are stored ones. *)
Lemma active_ok siteID e s s' out : VirtualPatches.ListActive siteID e s = (s', Ok out) ->
  exists d, current VirtualPatches.patches_config s = Some d /\ forall p, p ∈ out -> p ∈ VirtualPatches.Patches d.
Proof.
  unfold VirtualPatches.ListActive. unfold mbind, sop_bind. destruct (VirtualPatches.List siteID e s) as [s1 [all|msg]] eqn:E; [|discriminate].
  intros [= _ <-]. apply query_ok in E as (d & Hd & [= <-]). exists d. split; [done|]. intros p Hp.
  apply list_elem_of_In, filter_In in Hp as [Hp _]. unfold VirtualPatches.listed, VirtualPatches.sortPatches in Hp.
  apply list_elem_of_In, elem_of_sort_on, list_elem_of_In, filter_In in Hp as [Hp _]. by apply list_elem_of_In.
Qed.

Lemma active_visible siteID e s : visible (VirtualPatches.ListActive siteID e s).1 = visible s.
Proof.
  unfold VirtualPatches.ListActive, mbind, sop_bind. pose proof (query_visible VirtualPatches.patches_config
    (fun _ current => Ok (VirtualPatches.listed siteID (VirtualPatches.Patches current))) e s) as Hv.
  unfold VirtualPatches.List. by destruct (query _ _ e s) as [s1 [all|msg]].
Qed.

Lemma collected_ok sites e w w' out d : collectActiveVirtualPatches sites e w = (w', Ok out) ->
  (forall d', current VirtualPatches.patches_config (st_VirtualPatches (w_stores w)) = Some d' -> d' = d) ->
  forall p, p ∈ out -> p ∈ VirtualPatches.Patches d.
Proof.
  revert w w' out. induction sites as [|site sites IH]; intros w w' out E Hd p Hp; cbn [collectActiveVirtualPatches] in E.
  - injection E as _ <-. by apply not_elem_of_nil in Hp.
  - apply rop_bind_ok in E as (w1 & r & Hr & E). apply rop_bind_ok in E as (w2 & tail & Htail & E). injection E as _ <-.
    unfold try_, on_store in Hr. pose proof (active_visible (Sites.ID site) (re_store e (w_calls w)) (st_VirtualPatches (w_stores w))) as Hv.
    destruct (VirtualPatches.ListActive _ _ _) as [s1 r1] eqn:E1. injection Hr as <- <-. cbn [fst] in Hv.
    assert (Htl : p ∈ tail -> p ∈ VirtualPatches.Patches d).
    { eapply IH; [exact Htail|]. cbn. intros d' Hd'. apply Hd. unfold current in *. by rewrite <- Hv. }
    destruct r1 as [patches|msg]; [|by apply Htl]. apply elem_of_app in Hp as [Hp|Hp]; [|by apply Htl].
    apply active_ok in E1 as (d1 & Hd1 & Hin). rewrite <- (Hd d1 Hd1). by apply Hin.
Qed.

Lemma read_stores ids e w w' : forall out, read_materials materialsDB materialsRoot ids e w = (w', Ok out) -> w_stores w' = w_stores w.
Proof.
  revert w w'. induction ids as [|id ids IH]; intros w w' out E; cbn [read_materials] in E; [by injection E as <- _|].
  apply rop_bind_ok in E as (w1 & r & Hr & E). apply rop_bind_ok in E as (w2 & tail & Htail & E). injection E as <- _.
  apply IH in Htail. rewrite Htail. unfold try_, on_materials in Hr. destruct (Materials.Read _ _ _ _ _) as [m1 r1]. by injection Hr as <- _.
Qed.

Definition hosts_of (s : json_state ManagementHosts.Settings) : result ManagementHosts.Settings :=
  match visible s with
  | None => Ok ManagementHosts.no_settings
  | Some (Garbage msg) => Err msg
  | Some (Decodes out) => ManagementHosts.normal_settings out
  end.

Lemma hosts_ok e s s' out : ManagementHosts.Get e s = (s', Ok out) -> hosts_of s = Ok out.
Proof.
  unfold ManagementHosts.Get, ManagementHosts.loadLocked, hosts_of, mbind, sop_bind.
  destruct (DocStore.Load e s) as [s1 [c|msg]] eqn:E; [|discriminate]. apply Load_spec in E as [_ ->].
  destruct (visible s) as [[d|g]|]; cbn; [|discriminate|]; intros [= _ E]; [done | by rewrite E].
Qed.

(** What a snapshot has captured: the listings of the documents as they are. *)
Definition listed {A} `{Crud A} (s : json_state (items_state A)) (items : list A) : Prop :=
  exists d, current items_config s = Some d /\ items = sort_items (Items d).

Record captured (st : stores) (s : Snapshot) : Prop := {
  captured_sites : listed (st_Sites st) (sn_Sites s);
  captured_upstreams : listed (st_Upstreams st) (sn_Upstreams s);
  captured_certificates : listed (st_Certificates st) (sn_Certificates s);
  captured_tls : listed (st_TLSConfigs st) (sn_TLSConfigs s);
  captured_waf : listed (st_WAFPolicies st) (sn_WAFPolicies s);
  captured_access : listed (st_AccessPolicies st) (sn_AccessPolicies s);
  captured_rate : listed (st_RateLimitPolicies st) (sn_RateLimitPolicies s);
  captured_profiles : exists d, current items_config (st_EasySiteProfiles st) = Some d /\
    sn_EasySiteProfiles s = SiteProfiles.sortProfiles (SiteProfiles.normalizeProfile <$> Items d);
  captured_antiddos : exists d, current AntiDDoS.settings_config (st_AntiDDoS st) = Some d /\ AntiDDoS.getTx 0 d = Ok (sn_AntiDDoSSettings s);
  captured_hosts : exists hosts, hosts_of (st_ManagementHosts st) = Ok hosts /\ sn_ManagementHosts s = ManagementHosts.Hosts hosts /\
    sn_ManagementHostsConfigured s = ManagementHosts.Migrated hosts /\ sn_BlockDirectIPAccess s = ManagementHosts.BlockDirectIPAccess hosts;
  captured_patches : forall d p, current VirtualPatches.patches_config (st_VirtualPatches st) = Some d ->
    p ∈ sn_VirtualPatches s -> p ∈ VirtualPatches.Patches d
}.

(** The names of the certificate files to copy are in lower case already. *)
Definition lower_names (st : stores) : Prop := forall certificates d,
  listed (st_Certificates st) certificates -> current items_config (st_EasySiteProfiles st) = Some d ->
  Forall (fun id => normalize_id id = id) (material_ids certificates (SiteProfiles.sortProfiles (SiteProfiles.normalizeProfile <$> Items d))).

Lemma buildSnapshot_ok e w w' snapshot materials : buildSnapshot materialsDB materialsRoot e w = (w', Ok (snapshot, materials)) ->
  lower_names (w_stores w) ->
  captured (w_stores w) snapshot /\ sn_CertificateMaterials snapshot = [] /\
  Forall (fun m => path_name (cid m)) materials /\ NoDup (cid <$> materials).
Proof.
  intros E Hlow. unfold buildSnapshot in E.
  apply rop_bind_ok in E as (w1 & x1 & (s1 & L1 & S1 & _)%on_store_ok & E). apply listing_ok in L1.
  apply rop_bind_ok in E as (w2 & x2 & (s2 & L2 & S2 & _)%on_store_ok & E). apply listing_ok in L2. rewrite S1 in S2, L2. cbn in L2.
  apply rop_bind_ok in E as (w3 & x3 & (s3 & L3 & S3 & _)%on_store_ok & E). apply listing_ok in L3. rewrite S2 in S3, L3. cbn in L3.
  apply rop_bind_ok in E as (w4 & x4 & (s4 & L4 & S4 & _)%on_store_ok & E). apply listing_ok in L4. rewrite S3 in S4, L4. cbn in L4.
  apply rop_bind_ok in E as (w5 & x5 & (s5 & L5 & S5 & _)%on_store_ok & E). apply listing_ok in L5. rewrite S4 in S5, L5. cbn in L5.
  apply rop_bind_ok in E as (w6 & x6 & (s6 & L6 & S6 & _)%on_store_ok & E). apply listing_ok in L6. rewrite S5 in S6, L6. cbn in L6.
  apply rop_bind_ok in E as (w7 & x7 & (s7 & L7 & S7 & _)%on_store_ok & E). apply listing_ok in L7. rewrite S6 in S7, L7. cbn in L7.
  apply rop_bind_ok in E as (w8 & x8 & (s8 & L8 & S8 & _)%on_store_ok & E). apply query_ok in L8 as (d8 & L8 & [= E8]). rewrite S7 in S8, L8. cbn in L8.
  apply rop_bind_ok in E as (w9 & x9 & (s9 & L9 & S9 & _)%on_store_ok & E). apply query_ok in L9 as (d9 & L9 & E9). rewrite S8 in S9, L9. cbn in L9.
  apply rop_bind_ok in E as (w10 & x10 & (s10 & L10 & S10 & _)%on_store_ok & E). apply hosts_ok in L10. rewrite S9 in S10, L10. cbn in L10.
  apply rop_bind_ok in E as (w11 & x11 & Hm & E). apply rop_bind_ok in E as (w12 & x12 & Hp & E). injection E as _ <- <-.
  pose proof (read_stores _ _ _ _ _ Hm) as S11. rewrite S10 in S11.
  apply read_materials_names in Hm as [Hf Hs]. split_and!; [|done|done|].
  - constructor; cbn; try done; [by exists d8 | by exists d9 | by exists x10 |].
    intros d p Hd. apply (collected_ok _ _ _ _ _ d Hp). rewrite S11. cbn. intros d' Hd'. congruence.
  - eapply sublist_NoDup; [|exact Hs]. specialize (Hlow x3 d8 L3 L8). rewrite E8 in Hlow.
    assert (Eid : forall l, Forall (fun id => normalize_id id = id) l -> normalize_id <$> l = l).
    { induction 1 as [|y l Hy Hl IH]; [done|]. by rewrite fmap_cons, Hy, IH. }
    rewrite Eid by done. apply NoDup_remove_dups.
Qed.
End Facts.

Section Request.
Context `{Environment} `{Regexps} `{SnapshotCodec} `{SqlLike} `{Enterprise.EvidenceCrypto}.
Variables (materialsDB : bool) (materialsRoot : fpath) (snapshotsDB : bool) (snapshotsRoot : fpath) (governed : bool).
Hypothesis root_ok : Forall component snapshotsRoot.

Lemma prepared_ok session r e w w' r' : Governance.PrepareCompiledRevision session r e w = (w', Ok r') ->
  Governance.w_revisions w' = Governance.w_revisions w /\ Revisions.rev_ID r' = Revisions.rev_ID r /\
  Revisions.rev_Version r' = Revisions.rev_Version r /\ Revisions.rev_BundlePath r' = Revisions.rev_BundlePath r /\
  Revisions.rev_Checksum r' = Revisions.rev_Checksum r /\ Revisions.rev_TargetSiteIDs r' = Revisions.rev_TargetSiteIDs r /\
  Revisions.rev_Status r' ∈ [Revisions.StatusPending; Revisions.StatusPendingApproval].
Proof.
  unfold Governance.PrepareCompiledRevision. intros E. apply rop_bind_ok in E as (w1 & st & E1 & E).
  apply rop_bind_ok in E as (w2 & [keyID signature] & E2 & E). injection E as <- <-.
  assert (Hs : forall A (m : Enterprise.EvidenceSettings -> sop Enterprise.state A) e0 v v' a, Governance.on_settings m e0 v = (v', Ok a) ->
    Governance.w_revisions v' = Governance.w_revisions v).
  { intros A m e0 v v' a. unfold Governance.on_settings. destruct (m _ _ _) as [s x]. by intros [= <- _]. }
  apply Hs in E1, E2. split; [congruence|]. unfold Governance.stamp_policy. destruct (Enterprise.pol_Enabled _); split_and!; try done; cbn; set_solver.
Qed.

Lemma pending_saved r e s s' u : Revisions.SavePending r e s = (s', Ok u) -> exists d,
  current Revisions.revisions_config s = Some d /\ (Revisions.rev_ID r ∉ (Revisions.rev_ID <$> Revisions.RevisionList d)) /\
  visible s' = Some (Decodes (Revisions.MkState (Revisions.CurrentActiveRevisionID d)
    (Revisions.sortRevisions (Revisions.RevisionList d +++ [Revisions.defaultRevision r])))).
Proof.
  unfold Revisions.SavePending. cbv zeta. unfold mbind, sop_bind, lift. destruct (Revisions.validateRevision _) as [[]|]; [|discriminate].
  intros (d & d' & Hd & E & Hv)%transact_ok. exists d. split; [done|]. unfold Revisions.savePendingTx in E.
  destruct (Revisions.indexByID _ _) as [[i x]|] eqn:Ei; [discriminate|]. injection E as <-. split; [|exact Hv].
  apply find_key_None in Ei. revert Ei. unfold Revisions.defaultRevision. by repeat case_match.
Qed.

Lemma job_created job e s s' j : Jobs.Create job e s = (s', Ok j) ->
  Jobs.job_ID j = normalize_id (Jobs.job_ID job) /\ Jobs.job_Type j = Jobs.job_Type job /\
  Jobs.job_TargetRevisionID j = normalize_id (Jobs.job_TargetRevisionID job) /\ Jobs.job_Status j = Jobs.StatusPending.
Proof.
  unfold Jobs.Create. cbv zeta. unfold mbind, sop_bind, lift. destruct (Jobs.validateJob _) as [[]|]; [|discriminate].
  intros (d & d' & _ & E & _)%transact_ok. unfold Jobs.createTx in E. cbv zeta in E. destruct (Jobs.find_job _ _); [discriminate|]. by injection E as _ <-.
Qed.

Lemma listed_revisions e w w' existing stored : current Revisions.revisions_config (Governance.w_revisions (w_governance w)) = Some stored ->
  on_governance (Governance.on_revisions Revisions.List) e w = (w', Ok existing) ->
  existing = Revisions.sortRevisions (Revisions.RevisionList stored) /\
  visible (Governance.w_revisions (w_governance w')) = visible (Governance.w_revisions (w_governance w)) /\
  w_stores w' = w_stores w /\ w_snapshots w' = w_snapshots w.
Proof.
  intros Hs. unfold on_governance, Governance.on_revisions. destruct (Revisions.List _ _) as [s r] eqn:E. intros [= <- ->]. cbn.
  pose proof (query_visible Revisions.revisions_config (fun _ current => Ok (Revisions.sortRevisions (Revisions.RevisionList current)))
    (Governance.ge_store (re_governance e (w_calls w)) (Governance.w_calls (w_governance w))) (Governance.w_revisions (w_governance w))) as Hv.
  unfold Revisions.List in E. rewrite E in Hv. cbn [fst] in Hv. apply query_ok in E as (d & Hd & [= <-]). rewrite Hs in Hd. injection Hd as <-. done.
Qed.

Lemma prepared_step session r e w w' r' :
  (if governed then on_governance (Governance.PrepareCompiledRevision session r) else mret r) e w = (w', Ok r') ->
  Revisions.rev_Status r ∈ [Revisions.StatusPending; Revisions.StatusPendingApproval] ->
  w_snapshots w' = w_snapshots w /\ Governance.w_revisions (w_governance w') = Governance.w_revisions (w_governance w) /\
  Revisions.rev_ID r' = Revisions.rev_ID r /\ Revisions.rev_Version r' = Revisions.rev_Version r /\
  Revisions.rev_BundlePath r' = Revisions.rev_BundlePath r /\
  Revisions.rev_Status r' ∈ [Revisions.StatusPending; Revisions.StatusPendingApproval].
Proof.
  destruct governed.
  - unfold on_governance. destruct (Governance.PrepareCompiledRevision _ _ _ _) as [g x] eqn:E. intros [= <- ->] _.
    apply prepared_ok in E as (? & ? & ? & ? & _ & _ & ?). done.
  - by intros [= <- <-].
Qed.

End Request.

(** ** Example *)
Module Samples.
#[local] Instance plain_environment : Environment := Build_Environment (fun _ => "").
#[local] Instance plain_regexps : Regexps := Build_Regexps (fun _ => None).
#[local] Instance blank_evidence : Enterprise.EvidenceCrypto := Enterprise.Build_EvidenceCrypto (fun _ => None) (fun _ _ => "").

(** Empty stores, and one revision already there. *)
Definition old_revision : Revisions.Revision := new_revision 7 "2026-01-01T00:00:00Z" "snapshots/rev-000007.json" "c0ffee" [].
Definition stored : Revisions.state := Revisions.MkState "" [old_revision].
Definition empty_stores : stores := Stores new_file_state new_file_state new_file_state new_file_state new_file_state new_file_state
  new_file_state new_file_state new_file_state new_file_state new_file_state.
Definition start : world := World empty_stores Materials.start (Disk empty (fun _ => empty) 0)
  (Governance.World new_file_state (JSONState (Some (Decodes stored)) None false) [] 0) new_file_state [] 0.
Definition quiet : request_env := RequestEnv (fun _ => healthy 0) (fun _ => Materials.quiet) (fun _ => calm)
  (fun _ => Governance.GovEnv (fun _ => healthy 0) (fun _ => Enterprise.MkEvidence "" "" "")).

Abbreviation requested := (@CreateWithTargets plain_environment plain_regexps bare_codec blank_evidence true Materials.certs_root true snapshots_root false None [" Shop"; "shop"] quiet start).
Lemma sample_requested : (fun o => (Revisions.rev_Version o.1, Revisions.rev_TargetSiteIDs o.1, Jobs.job_ID o.2)) <$> requested.2 = Ok (8, ["shop"], "compile-rev-000008").
Proof. vm_compute. reflexivity. Qed.
End Samples.

