(* ===== verification/Compile.v ===== *)
(** * The bundle of a revision
    (control-plane/internal/services: runtime_apply.go [compileBundle], [upsertAntiDDoSL4Artifact],
    [upsertAdaptiveModelArtifact])

    The apply service maps a snapshot to the compiler's records (Mapping.v), renders every family of
    files (Render.v, EasyRender.v), puts the settings of the layer-4 guard and of the adaptive model
    in place, and assembles the bundle (Bundle.v). *)
From Stdlib Require Import ZArith Lia Ascii String.
From stdpp Require Import base tactics gmap strings list.
From S2P Require Import Prelude GoText GoNet GoSeq GoFloat ConfigStores Files Bundle Inputs Patterns Render Easy EasyRender Mapping.
From S2P Require SiteProfiles AntiDDoS.
Local Set Warnings "-clear-no-such-hyp".
Local Open Scope string_scope.
Local Open Scope Z_scope.
Local Notation "a +++ b" := (@app _ a b) (at level 60, right associativity).

(** ** JSON values, as [json.MarshalIndent(payload, "", "  ")] writes them *)

(** [encoding/json] writes a float with the shortest digits that read back as it; NaN and the
    infinities are an error. *)
Class FloatPrinter := { json_float : float64 -> result string }.

Inductive json_value :=
  | JBool (b : bool) | JInt (n : Z) | JText (s : string) | JFloat (x : float64)
  | JInts (l : list Z) | JTexts (l : option (list string)).

Section Printing.
Context `{FloatPrinter}.

(** A list one level below the object: one element a line; an empty one is [[]]. *)
Definition json_array (items : list string) : string :=
  match items with
  | [] => "[]"
  | _ => "[" ++ newline ++ join ("," ++ newline) ((fun item => "    " ++ item) <$> items) ++ newline ++ "  ]"
  end.

Definition json_text (v : json_value) : result string :=
  match v with
  | JBool b => Ok (if b then "true" else "false")
  | JInt n => Ok (itoa n)
  | JText s => Ok (json_string s)
  | JFloat x => json_float x
  | JInts l => Ok (json_array (itoa <$> l))
  | JTexts None => Ok "null"
  | JTexts (Some l) => Ok (json_array (json_string <$> l))
  end.

(** The members of a Go map are written in the order of their keys. *)
Definition json_object (payload : list (string * json_value)) : result string :=
  members ← map_results (fun '(key, v) => text ← json_text v; Ok (json_member key text)) (sort_on fst payload);
  Ok ("{" ++ newline ++ join ("," ++ newline) members ++ newline ++ "}" ++ newline).
End Printing.

(** ** Settings of the guard and of the adaptive model *)

(** The loop that replaces the artifact of a path, and appends it where there is none. *)
Definition upsert_artifact (artifact : ArtifactOutput) (items : list ArtifactOutput) : list ArtifactOutput :=
  let here item := String.eqb (art_Path item) (art_Path artifact) in
  let out := (fun item => if here item then artifact else item) <$> items in
  if existsb here items then out else out +++ [artifact].

Definition l4_payload (s : AntiDDoS.Settings) : list (string * json_value) := [
  ("enabled", JBool (AntiDDoS.UseL4Guard s)); ("chain_mode", JText (AntiDDoS.ChainMode s));
  ("conn_limit", JInt (AntiDDoS.ConnLimit s)); ("rate_per_second", JInt (AntiDDoS.RatePerSecond s));
  ("rate_burst", JInt (AntiDDoS.RateBurst s)); ("ports", JInts (AntiDDoS.Ports s));
  ("target", JText (AntiDDoS.Target s)); ("destination_ip", JText (AntiDDoS.DestinationIP s))].

Section Settings.
Context `{FloatPrinter}.

Definition upsertAntiDDoSL4Artifact (items : list ArtifactOutput) (settings : AntiDDoS.Settings)
    : result (list ArtifactOutput) :=
  let normalized := AntiDDoS.NormalizeSettings settings in
  AntiDDoS.ValidateSettings normalized;;
  raw ← json_object (l4_payload normalized);
  Ok (upsert_artifact (newArtifact "l4guard/config.json" ArtifactKindNginxConfig raw) items).

Definition aggregateJA3Blacklist (profiles : list SiteProfiles.EasySiteProfile) : list string :=
  let fingerprints p := SiteProfiles.BlacklistJA3 (SiteProfiles.SecurityBehaviorAndLimits p) in
  sorted_set lower_trim (mjoin (fingerprints <$> profiles)).

(** [nil] is [None]: it is written as [null]. *)
Definition adaptiveModelScope (globalEnabled : bool) (profiles : list SiteProfiles.EasySiteProfile)
    : bool * option (list string) :=
  if negb globalEnabled then (false, None)
  else if Nat.eqb (length profiles) 0 then (true, None)
  else
    let names p := let front := SiteProfiles.FrontService p in
      if SiteProfiles.AdaptiveModelEnabled front then [SiteProfiles.SiteID p; SiteProfiles.ServerName front] else [] in
    let out := sorted_set lower_trim (mjoin (names <$> profiles)) in
    if Nat.eqb (length out) 0 then (false, None) else (true, Some out).

Definition model_payload (s : AntiDDoS.Settings) (profiles : list SiteProfiles.EasySiteProfile) : list (string * json_value) :=
  let '(modelEnabled, enabledSites) := adaptiveModelScope (AntiDDoS.ModelEnabled s) profiles in
  let ja3Fingerprints := aggregateJA3Blacklist profiles in [
  ("model_enabled", JBool modelEnabled); ("model_enabled_sites", JTexts enabledSites);
  ("conn_limit", JInt (AntiDDoS.ConnLimit s)); ("rate_per_second", JInt (AntiDDoS.RatePerSecond s));
  ("rate_burst", JInt (AntiDDoS.RateBurst s)); ("enforce_l7_rate_limit", JBool (AntiDDoS.EnforceL7Rate s));
  ("l7_requests_per_second", JInt (AntiDDoS.L7RequestsPS s)); ("l7_burst", JInt (AntiDDoS.L7Burst s));
  ("model_poll_interval_seconds", JInt (AntiDDoS.ModelPollIntervalSeconds s));
  ("model_decay_lambda", JFloat (AntiDDoS.ModelDecayLambda s));
  ("model_throttle_threshold", JFloat (AntiDDoS.ModelThrottleThreshold s));
  ("model_drop_threshold", JFloat (AntiDDoS.ModelDropThreshold s));
  ("model_hold_seconds", JInt (AntiDDoS.ModelHoldSeconds s));
  ("model_throttle_rate_per_second", JInt (AntiDDoS.ModelThrottleRatePerSecond s));
  ("model_throttle_burst", JInt (AntiDDoS.ModelThrottleBurst s));
  ("model_throttle_target", JText (AntiDDoS.ModelThrottleTarget s));
  ("model_weight_429", JFloat (AntiDDoS.ModelWeight429 s)); ("model_weight_403", JFloat (AntiDDoS.ModelWeight403 s));
  ("model_weight_444", JFloat (AntiDDoS.ModelWeight444 s)); ("model_emergency_rps", JInt (AntiDDoS.ModelEmergencyRPS s));
  ("model_emergency_unique_ips", JInt (AntiDDoS.ModelEmergencyUniqueIPs s));
  ("model_emergency_per_ip_rps", JInt (AntiDDoS.ModelEmergencyPerIPRPS s));
  ("model_weight_emergency_botnet", JFloat (AntiDDoS.ModelWeightEmergencyBotnet s));
  ("model_weight_emergency_single", JFloat (AntiDDoS.ModelWeightEmergencySingle s))] +++
  (match ja3Fingerprints with [] => [] | _ => [("ja3_blacklist_fingerprints", JTexts (Some ja3Fingerprints))] end).

Definition upsertAdaptiveModelArtifact (items : list ArtifactOutput) (settings : AntiDDoS.Settings)
    (profiles : list SiteProfiles.EasySiteProfile) : result (list ArtifactOutput) :=
  let normalized := AntiDDoS.NormalizeSettings settings in
  AntiDDoS.ValidateSettings normalized;;
  raw ← json_object (model_payload normalized profiles);
  Ok (upsert_artifact (newArtifact "ddos-model/config.json" ArtifactKindNginxConfig raw) items).
End Settings.

(** ** The bundle *)
Section Compile.
Context `{Environment} `{Regexps} `{Templates} `{EasyTemplates} `{FloatPrinter} `{ManifestCodec}.
(** [s.snapshots.ReadMaterial] *)
Variable ReadMaterial : string -> result string.

(** What the renderers are given: sites, upstreams, TLS, policies, limits, profiles. *)
Record compiler_input := MkCompilerInput {
  ci_Sites : list SiteInput;
  ci_Upstreams : list UpstreamInput;
  ci_TLS : list TLSConfigInput;
  ci_Certificates : list CertificateInput;
  ci_Materials : list ArtifactOutput;
  ci_WAF : list WAFPolicyInput;
  ci_Access : list AccessPolicyInput;
  ci_Rates : list RateLimitPolicyInput;
  ci_Easy : list EasyProfileInput
}.

Definition compile_input (snapshot : Snapshot) : result compiler_input :=
  let '(siteInputs, upstreamInputs) := mapSiteUpstreamInputs (sn_Sites snapshot) (sn_Upstreams snapshot)
    (sn_TLSConfigs snapshot) (sn_EasySiteProfiles snapshot) (sn_ManagementHosts snapshot)
    (sn_ManagementHostsConfigured snapshot) in
  let antiDDoSSettings := AntiDDoS.NormalizeSettings (sn_AntiDDoSSettings snapshot) in
  '(tlsInputs, certInputs, tlsMaterialArtifacts) ← mapTLSInputs ReadMaterial (sn_CertificateMaterials snapshot)
    (sn_TLSConfigs snapshot) (sn_EasySiteProfiles snapshot);
  let easyInputs := applyAntiDDoSDefaultEasyProfiles siteInputs
    (mapEasyInputs (sn_EasySiteProfiles snapshot) (sn_VirtualPatches snapshot)) in
  let siteInputs := applyEasySiteInputFlags siteInputs easyInputs in
  let rateInputs := applyEasyLimitReqURLOverrides
    (applyAntiDDoSRateOverrides siteInputs (mapRateLimitInputs (sn_RateLimitPolicies snapshot)) antiDDoSSettings) easyInputs in
  Ok (MkCompilerInput siteInputs upstreamInputs tlsInputs certInputs tlsMaterialArtifacts
        (mapWAFInputs (sn_WAFPolicies snapshot)) (mapAccessInputs (sn_AccessPolicies snapshot) (sn_EasySiteProfiles snapshot))
        rateInputs easyInputs).

(** The groups of files, in the order they are assembled. *)
Definition render_groups (revisionID : string) (snapshot : Snapshot) (ci : compiler_input)
    : result (list (list ArtifactOutput)) :=
  let antiDDoSSettings := AntiDDoS.NormalizeSettings (sn_AntiDDoSSettings snapshot) in
  siteArtifacts ← RenderSiteUpstreamArtifactsWithOptions (ci_Sites ci) (ci_Upstreams ci)
    (MkOptions (sn_BlockDirectIPAccess snapshot) revisionID);
  tlsArtifacts ← RenderTLSArtifacts (ci_Sites ci) (ci_TLS ci) (ci_Certificates ci);
  wafArtifacts ← RenderWAFArtifacts (ci_Sites ci) (ci_WAF ci);
  accessArtifacts ← RenderAccessRateLimitArtifacts (ci_Sites ci) (ci_Access ci) (ci_Rates ci);
  easyRateLimitArtifacts ← RenderEasyRateLimitArtifacts (ci_Sites ci) (ci_Upstreams ci) (ci_Easy ci);
  easyArtifacts ← RenderEasyArtifacts (ci_Sites ci) (ci_Easy ci);
  easyArtifacts ← upsertAntiDDoSL4Artifact easyArtifacts antiDDoSSettings;
  easyArtifacts ← upsertAdaptiveModelArtifact easyArtifacts antiDDoSSettings (sn_EasySiteProfiles snapshot);
  Ok [siteArtifacts; tlsArtifacts; ci_Materials ci; wafArtifacts; accessArtifacts; easyRateLimitArtifacts; easyArtifacts].

Definition render_snapshot (revisionID : string) (snapshot : Snapshot) : result (list (list ArtifactOutput)) :=
  ci ← compile_input snapshot;
  render_groups revisionID snapshot ci.

Definition compileBundle (revision : RevisionInput) (snapshot : Snapshot) : result RevisionBundle :=
  groups ← render_snapshot (ri_ID revision) snapshot;
  AssembleRevisionBundle revision groups.
End Compile.

(** ** The files have safe paths *)

(** A component of a path: no separator of either kind. *)
Definition path_part (s : string) : bool := all_chars (fun c => negb (Ascii.eqb c "/") && negb (Ascii.eqb c "\")) s.

Lemma path_part_no_slash s : path_part s = true -> no_slash s = true.
Proof. apply all_chars_impl. intros c H. by apply andb_true_iff in H as [? _]. Qed.

Lemma path_part_app a b : path_part (a ++ b) = path_part a && path_part b.
Proof. apply all_chars_app. Qed.

Lemma contains_backslash s : contains "\" s = any_char (fun c => Ascii.eqb c "\") s.
Proof.
  induction s as [|c s IH]; [done|]. cbn [contains any_char]. rewrite IH. f_equal.
  by destruct c as [[] [] [] [] [] [] [] []].
Qed.

Lemma join_backslash l : Forall (fun c => path_part c = true) l -> contains "\" (join "/" l) = false.
Proof.
  intros H. rewrite contains_backslash, any_char_all. apply negb_false_iff.
  assert (Hp : forall s, path_part s = true -> all_chars (fun c => negb (Ascii.eqb c "\")) s = true).
  { intros s. apply all_chars_impl. intros c Hc. by apply andb_true_iff in Hc as [_ ?]. }
  induction H as [|c l Hc Hl IH]; [done|]. destruct l as [|d l]; [by apply Hp|].
  change (join "/" (c :: d :: l)) with (c ++ String "/" (join "/" (d :: l))). rewrite all_chars_app. cbn [all_chars].
  by rewrite (Hp c Hc), IH.
Qed.

(** Walking down a path that never climbs above its start. *)
Lemma clean_walk front mid back : Forall plain front -> front <> [] -> Forall plain back -> back <> [] \/ plain mid ->
  exists r, foldl (clean_step false) [] (front +++ mid :: back) = r /\ Forall plain r /\ r <> [].
Proof.
  intros Hf Hne Hb Hm. eexists. split; [done|].
  assert (Hpush : forall l acc, Forall plain l -> foldl (clean_step false) acc l = rev l +++ acc).
  { intros l acc H. revert acc. induction H as [|c l Hc Hl IH]; intros acc; [done|]. cbn [foldl rev].
    rewrite (clean_step_push _ _ _ Hc), IH. by rewrite <- app_assoc. }
  rewrite foldl_app, (Hpush front []) by done. cbn [foldl]. rewrite app_nil_r, (Hpush back) by done.
  assert (Hs : Forall plain (clean_step false (rev front) mid) /\ (plain mid -> clean_step false (rev front) mid <> [])).
  { apply Forall_rev in Hf. destruct (rev front) as [|d acc] eqn:E.
    - apply (f_equal (@rev _)) in E. by rewrite rev_involutive in E.
    - unfold clean_step. destruct (String.eqb_spec mid ""); [done|]. destruct (String.eqb_spec mid "."); [done|]. cbn [orb].
      destruct (String.eqb_spec mid "..") as [->|Hmid].
      + apply Forall_cons in Hf as [Hd Hacc]. destruct (String.eqb_spec d "..") as [->|]; [by destruct Hd as (_ & _ & [])|].
        split; [done|]. by intros (_ & _ & []).
      + split; [|done]. by constructor. }
  destruct Hs as [Hs Hs']. split.
  - apply Forall_app. by split; [apply Forall_rev|].
  - intros [H1 H2]%app_eq_nil. destruct Hm as [Hm|Hm]; [|by apply Hs'].
    apply (f_equal (@rev _)) in H1. by rewrite rev_involutive in H1.
Qed.

Lemma has_prefix_spec p s : has_prefix p s = true -> exists r, s = p ++ r.
Proof.
  revert s. induction p as [|c p IH]; intros s; [by exists s|]. destruct s as [|d s]; [done|]. cbn.
  destruct (Ascii.eqb_spec c d) as [->|]; [|done]. intros (r & ->)%IH. by exists r.
Qed.

Lemma plain_join_safe c l : plain c -> no_slash c = true ->
  negb (String.eqb (join "/" (c :: l)) ".") && negb (String.eqb (join "/" (c :: l)) "..") &&
  negb (has_prefix "../" (join "/" (c :: l))) = true.
Proof.
  intros (H0 & H1 & H2) Hs.
  assert (E : exists t, join "/" (c :: l) = c ++ t /\ (t = "" \/ exists t', t = String "/" t')).
  { destruct l as [|d l]; [exists ""; rewrite string_app_nil; eauto | eexists; split; [done | eauto]]. }
  destruct E as (t & -> & Ht). rewrite !andb_true_iff, !negb_true_iff.
  assert (Hno : forall d, no_slash (String "." (String "." (String "/" d))) = false) by done.
  destruct c as [|a c]; [done|]. split_and!.
  - apply String.eqb_neq. intros E. injection E as -> E. by destruct c.
  - apply String.eqb_neq. intros E. injection E as -> E. destruct c as [|b c]; [done|]. injection E as -> E. by destruct c.
  - apply not_true_iff_false. intros (r & E)%has_prefix_spec. injection E as -> E. destruct c as [|b c]; [done|].
    injection E as -> E. destruct c as [|d c]; [done|]. injection E as -> E. by rewrite Hno in Hs.
Qed.

Lemma trim_space_ends p m s : trim_left p = p -> p <> "" -> trim_right s = s -> s <> "" ->
  trim_space (p ++ m ++ s) = p ++ m ++ s.
Proof.
  intros Hp Hpn Hs Hsn. unfold trim_space.
  assert (E : trim_left (p ++ m ++ s) = p ++ m ++ s).
  { destruct p as [|c p]; [done|]. change (String c p ++ m ++ s) with (String c (p ++ m ++ s)). cbn [trim_left] in Hp |- *.
    destruct (is_space c); [|done]. exfalso.
    assert (Hl : (String.length (trim_left p) <= String.length p)%nat).
    { clear. induction p as [|d p IH]; [done|]. cbn. destruct (is_space d); cbn; lia. }
    apply (f_equal String.length) in Hp. cbn in Hp. lia. }
  rewrite E, <- string_app_assoc. by apply trim_right_app.
Qed.

(** The paths the renderers use: below a fixed directory, with one free component, and either a fixed
    file below it or an extension behind it. *)
Lemma bundle_path_safe s front mid back : s = join "/" (front +++ mid :: back) -> trim_space s = s ->
  Forall (fun c => path_part c = true) (front +++ mid :: back) -> Forall plain front -> front <> [] -> Forall plain back ->
  back <> [] \/ plain mid -> isSafeBundlePath s = true /\ s <> manifest_path.
Proof.
  intros Es Ht Hp Hf Hne Hb Hm.
  assert (Hsl : Forall (fun c => no_slash c = true) (front +++ mid :: back)).
  { eapply Forall_impl; [exact Hp|]. apply path_part_no_slash. }
  assert (Hsplit : split_on "/" s = front +++ mid :: back).
  { rewrite Es. apply split_on_join; [|done]. by destruct front. }
  assert (Hlen : (2 <= length (split_on "/" s))%nat).
  { rewrite Hsplit, length_app. destruct front; [done|]. cbn. lia. }
  split; [|intros ->; cbn in Hlen; lia].
  destruct (clean_walk front mid back Hf Hne Hb Hm) as (r & Er & Hr & Hrn).
  unfold isSafeBundlePath. rewrite Ht.
  assert (Habs : is_abs s = false).
  { destruct s as [|c s']; [done|]. rewrite is_abs_cons. destruct (Ascii.eqb_spec c "/") as [->|]; [|done]. exfalso.
    destruct front as [|f front]; [done|]. injection Hsplit as <- _. by apply Forall_cons in Hf as [[[] _] _]. }
  assert (He : is_empty s = false) by (destruct s; [cbn in Hlen; lia | done]).
  rewrite He, Habs, Es, join_backslash, <- Es by done. cbn [orb].
  assert (Hclean : clean s = join "/" (rev r)).
  { unfold clean, clean_from. rewrite Habs, Hsplit. cbn [rev]. rewrite Er.
    destruct (rev r) as [|x l] eqn:E; [|done]. apply (f_equal (@rev _)) in E. by rewrite rev_involutive in E. }
  rewrite Hclean.
  assert (Hrs : Forall (fun c => no_slash c = true) r).
  { rewrite <- Er. eapply Forall_impl; [apply (clean_parts (fun a => negb (Ascii.eqb a "/"))); [done | constructor | exact Hsl]|]. by intros c (_ & _ & ?). }
  destruct (rev r) as [|c l] eqn:E; [by apply (f_equal (@rev _)) in E; rewrite rev_involutive in E|].
  apply Forall_rev in Hr, Hrs. rewrite E in Hr, Hrs.
  apply plain_join_safe; [by apply Forall_cons in Hr as [? _] | by apply Forall_cons in Hrs as [? _]].
Qed.

Definition plain_part (c : string) : bool := path_part c && negb (mem c [""; "."; ".."]).

Lemma plain_part_spec c : plain_part c = true -> path_part c = true /\ plain c.
Proof.
  unfold plain_part. intros [Hp Hm%negb_true_iff]%andb_true_iff. split; [done|].
  assert (Hn : c ∉ [""; "."; ".."]) by (intros Hin%mem_spec; by rewrite Hm in Hin).
  repeat split; intros ->; apply Hn; set_solver.
Qed.

Lemma plain_parts l : forallb plain_part l = true -> Forall (fun c => path_part c = true) l /\ Forall plain l.
Proof.
  intros H. rewrite forallb_forall in H. split; apply Forall_forall; intros c Hc%list_elem_of_In; by apply plain_part_spec, H.
Qed.

(** [named] is the assumption that no identifier is ["."] or [".."]: it is needed only where paths must
    stay apart after cleaning. *)
Section Naming.
Variable named : Prop.

Definition good (id : string) : Prop := path_part id = true /\ (named -> plain id).

Definition safe_file (path : string) : Prop :=
  isSafeBundlePath path = true /\ path <> manifest_path /\ (named -> Forall plain (split_on "/" path)).

Definition well_placed (a : ArtifactOutput) : Prop :=
  sound_artifact a /\ (named -> Forall plain (split_on "/" (art_Path a))).

Lemma good_part id : good id -> path_part id = true.
Proof. by intros [? _]. Qed.

Lemma split_join_plain s l : s = join "/" l -> l <> [] -> Forall (fun c => path_part c = true) l -> split_on "/" s = l.
Proof. intros -> Hl Hp. apply split_on_join; [done|]. eapply Forall_impl; [exact Hp|]. apply path_part_no_slash. Qed.

(** The two shapes: a name with an extension in a fixed directory, a fixed file in a named directory. *)
Lemma leaf_safe p front id ext : p ++ id ++ ext = join "/" (front +++ [id ++ ext]) -> front <> [] ->
  forallb plain_part front = true -> trim_left p = p -> p <> "" -> trim_right ext = ext -> (2 < String.length ext)%nat ->
  path_part ext = true -> good id -> safe_file (p ++ id ++ ext).
Proof.
  intros E Hne Hf Hp Hpn He Hl Hep [Hid _]. apply plain_parts in Hf as [Hfp Hf].
  assert (Hleaf : plain (id ++ ext))
    by (repeat split; intros F%(f_equal String.length); rewrite string_length_app in F; cbn in F; lia).
  assert (Hparts : Forall (fun c => path_part c = true) (front +++ [id ++ ext])).
  { apply Forall_app. split; [done|]. constructor; [|done]. by rewrite path_part_app, Hid, Hep. }
  destruct (bundle_path_safe (p ++ id ++ ext) front (id ++ ext) []) as [Hs Hm]; try done.
  - apply trim_space_ends; try done. by intros ->; cbn in Hl; lia.
  - by right.
  - split; [done|]. split; [done|]. intros _. rewrite (split_join_plain _ _ E); [|by destruct front | done].
    apply Forall_app. split; [done|]. by constructor.
Qed.

Lemma nested_safe p front id rest file : p ++ id ++ rest = join "/" (front +++ [id; file]) -> front <> [] ->
  forallb plain_part front = true -> trim_left p = p -> p <> "" -> trim_right rest = rest -> rest <> "" ->
  plain_part file = true -> good id -> safe_file (p ++ id ++ rest).
Proof.
  intros E Hne Hf Hp Hpn He Hl Hfile [Hid Hidp]. apply plain_parts in Hf as [Hfp Hf]. apply plain_part_spec in Hfile as [Hfile Hfile'].
  assert (Hparts : Forall (fun c => path_part c = true) (front +++ [id; file])) by (apply Forall_app; by repeat constructor).
  destruct (bundle_path_safe (p ++ id ++ rest) front id [file]) as [Hs Hm]; try done.
  - by apply trim_space_ends.
  - by constructor.
  - by left.
  - split; [done|]. split; [done|]. intros Hn. rewrite (split_join_plain _ _ E); [|by destruct front | done].
    apply Forall_app. split; [done|]. constructor; [by apply Hidp|]. by constructor.
Qed.

(** *** What the renderers write *)
Lemma newArtifact_sound path kind content : safe_file path -> well_placed (newArtifact path kind content).
Proof. by intros (Hs & Hm & Hp). Qed.

Lemma trim_chars p s : (forall c, is_space c = true -> p c = true) -> all_chars p (trim_space s) = true -> all_chars p s = true.
Proof.
  intros Hp.
  assert (Hr : forall s, all_chars p (trim_right s) = true -> all_chars p s = true).
  { clear s. induction s as [|c s IH]; [done|]. cbn [trim_right all_chars]. destruct (trim_right s) as [|d t] eqn:E.
    - intros H. rewrite IH by done. destruct (is_space c) eqn:Ec; [by rewrite (Hp c Ec)|]. cbn in H.
      by apply andb_true_iff in H as [-> _].
    - cbn [all_chars]. intros [-> H]%andb_true_iff. by apply IH. }
  intros H%Hr. induction s as [|c s IH]; [done|]. cbn [trim_left] in H. destruct (is_space c) eqn:Ec; [|done].
  cbn [all_chars]. by rewrite (Hp c Ec), IH.
Qed.

Lemma trim_chars_back p s : all_chars p s = true -> all_chars p (trim_space s) = true.
Proof.
  intros H. unfold trim_space.
  assert (Hr : forall s, all_chars p s = true -> all_chars p (trim_right s) = true).
  { clear. induction s as [|c s IH]; [done|]. cbn [trim_right all_chars]. intros [Hc Hs]%andb_true_iff. specialize (IH Hs).
    destruct (trim_right s) as [|d t]; [destruct (is_space c); [done|]; cbn; by rewrite Hc|]. cbn [all_chars] in *. by rewrite Hc. }
  apply Hr. induction s as [|c s IH]; [done|]. cbn [trim_left]. destruct (is_space c); [|done].
  apply IH. cbn [all_chars] in H. by apply andb_true_iff in H as [_ ?].
Qed.

Lemma validated_identifier v field : validateNginxIdentifier v field = Ok tt -> path_part v = true.
Proof.
  unfold validateNginxIdentifier. destruct (is_empty _); [done|]. cbn.
  destruct (all_chars identifier_char (trim_space v)) eqn:E; [|done]. intros _. apply trim_chars.
  - by intros [[] [] [] [] [] [] [] []].
  - eapply all_chars_impl; [|exact E]. by intros [[] [] [] [] [] [] [] []].
Qed.

Lemma map_results_Forall {A B} (f : A -> result B) (P : B -> Prop) l ys : map_results f l = Ok ys ->
  (forall x y, x ∈ l -> f x = Ok y -> P y) -> Forall P ys.
Proof.
  revert ys. induction l as [|x l IH]; intros ys; cbn; [by intros [= <-]|]. destruct (f x) as [y|] eqn:E; [|done]. cbn.
  destruct (map_results f l) as [zs|]; [|done]. intros [= <-] H. constructor; [by eapply H; [left|]|].
  apply IH; [done|]. intros z w Hz. apply H. by right.
Qed.

Lemma map_results_checked {A B} (f : A -> result B) l ys x : map_results f l = Ok ys -> x ∈ l -> exists y, f x = Ok y.
Proof. intros E Hx. destruct (map_results_elem f l ys x E Hx) as (y & Hy & _). by exists y. Qed.

Lemma check_site_id byID s y : check_site byID s = Ok y -> path_part (s_ID s) = true /\ s_ID y = s_ID s.
Proof.
  unfold check_site. destruct (validateNginxIdentifier (s_ID s) "site id") as [[]|] eqn:E; [|done]. cbn.
  intros H. split; [by eapply validated_identifier|]. revert H. destruct (s_Enabled s); cbn; [|by intros [= <-]].
  repeat match goal with
         | |- mbind _ ?r = Ok _ -> _ => destruct r as [[]|]; cbn [mbind result_bind]; [|done]
         | |- match ?r with Some _ => _ | None => _ end = Ok _ -> _ => destruct r; [|done]
         end.
  by intros [= <-].
Qed.

Definition named_sites (sites : list SiteInput) : Prop := forall s, s ∈ sites -> named -> plain (s_ID s).

Lemma validated_sites sites upstreams sorted byID : named_sites sites -> normalizeInputs sites upstreams = Ok (sorted, byID) ->
  (forall s, s ∈ sites -> good (s_ID s)) /\ (forall s, s ∈ sorted -> good (s_ID s)).
Proof.
  intros Hnamed. unfold normalizeInputs. destruct (index_upstreams ∅ upstreams) as [m|]; [|done]. cbn.
  destruct (map_results _ _) as [l|] eqn:E; [|done]. cbn. intros [= <- <-]. split.
  - intros s Hs. destruct (map_results_checked _ _ _ s E) as [y Hy]; [by apply elem_of_sort_on|]. apply check_site_id in Hy as [? _].
    split; [done | by apply Hnamed].
  - intros s Hs. assert (H : Forall (fun s => good (s_ID s)) l).
    { eapply map_results_Forall; [exact E|]. intros x y Hx%elem_of_sort_on Hy. apply check_site_id in Hy as [? ->].
      split; [done | by apply Hnamed]. }
    rewrite Forall_forall in H. by apply H.
Qed.

Lemma Forall_groups {A} (P : A -> Prop) (groups : list (list A)) : Forall (Forall P) groups -> Forall P (mjoin groups).
Proof. induction 1; cbn; [constructor|]. by apply Forall_app. Qed.

(** Fixed paths are checked by evaluation. *)
Ltac fixed_path := split; [vm_compute; reflexivity | split; [discriminate | intros _; apply plain_parts; vm_compute; reflexivity]].
Ltac leaf p front := apply (leaf_safe p front);
  [reflexivity | discriminate | reflexivity | reflexivity | discriminate | reflexivity | cbn; lia | reflexivity | done].
Ltac nested p front file := apply (nested_safe p front _ _ file);
  [reflexivity | discriminate | reflexivity | reflexivity | discriminate | reflexivity | discriminate | reflexivity | done].

#[local] Arguments renderSiteErrorArtifacts : simpl never.
#[local] Arguments json_object : simpl never.

Section Sound.
Context `{Environment} `{Regexps} `{Templates} `{EasyTemplates} `{FloatPrinter}.

Lemma error_pages_sound id arts : good id -> renderSiteErrorArtifacts id = Ok arts -> Forall well_placed arts.
Proof.
  intros Hid E. eapply map_results_Forall; [exact E|]. intros code a Hc Ha. unfold error_artifact in Ha.
  assert (Hfile : let file := itoa code ++ ".html" in plain_part file = true /\ trim_right ("/" ++ file) = "/" ++ file).
  { cut (Forall (fun code => let file := itoa code ++ ".html" in plain_part file = true /\ trim_right ("/" ++ file) = "/" ++ file)
      supportedErrorStatusCodes); [rewrite Forall_forall; intros F; by apply F|].
    repeat constructor; vm_compute; reflexivity. }
  destruct Hfile as [Hfile Htr].
  assert (Hs : safe_file ("errors/" ++ id ++ "/" ++ itoa code ++ ".html")).
  { by apply (nested_safe "errors/" ["errors"] id ("/" ++ itoa code ++ ".html") (itoa code ++ ".html")). }
  destruct (GeneratedErrorPage (itoa code)) as [content|]; cbn in Ha.
  - injection Ha as <-. by apply newArtifact_sound.
  - destruct (read_template (errorPagePreviewPath code)) as [content|]; cbn in Ha; [|done]. injection Ha as <-. by apply newArtifact_sound.
Qed.

Lemma site_files_sound sites upstreams options arts :
  named_sites sites -> RenderSiteUpstreamArtifactsWithOptions sites upstreams options = Ok arts ->
  Forall well_placed arts /\ forall s, s ∈ sites -> good (s_ID s).
Proof.
  intros Hn. unfold RenderSiteUpstreamArtifactsWithOptions. destruct (normalizeInputs sites upstreams) as [[sorted byID]|] eqn:En; [|done].
  apply validated_sites in En as [Hsites Hsorted]; [|done]. cbn.
  repeat match goal with
         | |- context [wrap_error _ ?r] => destruct r eqn:?; cbn [wrap_error mbind result_bind]; [|done]
         end.
  destruct (map_results (site_artifacts options byID) _) as [files|] eqn:Ef; [|done]. cbn. intros <-%Ok_inj. split; [|done].
  constructor; [apply newArtifact_sound; fixed_path|]. constructor; [apply newArtifact_sound; fixed_path|].
  apply Forall_app. split; [by eapply (error_pages_sound globalErrorSiteID)|].
  constructor; [apply newArtifact_sound; fixed_path|]. apply Forall_groups.
  eapply map_results_Forall; [exact Ef|]. intros s fs Hs%list_elem_of_In%filter_In Hfs.
  destruct Hs as [Hs%list_elem_of_In _]. apply Hsorted in Hs. unfold site_artifacts in Hfs.
  destruct (render_site _) as [content|]; [|done]. cbn in Hfs.
  destruct (renderSiteErrorArtifacts (s_ID s)) as [pages|] eqn:Ep; [|done]. cbn in Hfs. injection Hfs as <-.
  constructor; [|by eapply error_pages_sound]. apply newArtifact_sound. leaf "nginx/sites/" ["nginx"; "sites"].
Qed.

Lemma tls_files_sound sites configs certificates arts : (forall s, s ∈ sites -> good (s_ID s)) ->
  RenderTLSArtifacts sites configs certificates = Ok arts -> Forall well_placed arts.
Proof.
  intros Hid. unfold RenderTLSArtifacts. destruct (index_by _ t_SiteID _ _) as [byS|]; [|done]. cbn.
  destruct (index_by _ c_ID _ _) as [byC|]; [|done]. cbn. intros E. eapply map_results_Forall; [exact E|].
  intros s a Hs%list_elem_of_In%filter_In Ha. destruct Hs as [Hs%list_elem_of_In%elem_of_sort_on _]. apply Hid in Hs.
  unfold tls_artifact in Ha. destruct (byS !! s_ID s) as [c|]; [|done]. destruct (byC !! t_CertificateID c) as [cert|]; [|done].
  destruct (reject_if _ _) as [[]|]; [|done]. cbn in Ha. injection Ha as <-. apply newArtifact_sound. leaf "tls/" ["tls"].
Qed.

Lemma enabled_part sites s : (forall s, s ∈ sites -> good (s_ID s)) ->
  s ∈ List.filter s_Enabled (sort_on s_ID sites) -> good (s_ID s).
Proof. intros Hid Hs%list_elem_of_In%filter_In. apply Hid. by destruct Hs as [Hs%list_elem_of_In%elem_of_sort_on _]. Qed.

Lemma waf_files_sound sites policies arts : (forall s, s ∈ sites -> good (s_ID s)) ->
  RenderWAFArtifacts sites policies = Ok arts -> Forall well_placed arts.
Proof.
  intros Hid. unfold RenderWAFArtifacts. destruct (index_by _ _ _ _) as [byS|]; [|done]. cbn. intros <-%Ok_inj.
  constructor; [apply newArtifact_sound; fixed_path|]. constructor; [apply newArtifact_sound; fixed_path|].
  apply Forall_groups, Forall_fmap, Forall_forall. intros s Hs%(enabled_part sites s Hid). unfold compose, waf_artifacts.
  constructor; [|constructor; [|constructor]]; apply newArtifact_sound.
  - leaf "modsecurity/sites/" ["modsecurity"; "sites"].
  - leaf "modsecurity/crs-overrides/" ["modsecurity"; "crs-overrides"].
Qed.

Lemma access_files_sound sites policies rates arts : (forall s, s ∈ sites -> good (s_ID s)) ->
  RenderAccessRateLimitArtifacts sites policies rates = Ok arts -> Forall well_placed arts.
Proof.
  intros Hid. unfold RenderAccessRateLimitArtifacts. destruct (index_by access_policy_checks _ _ _) as [a|]; [|done]. cbn.
  destruct (index_by rate_policy_checks _ _ _) as [r|]; [|done]. cbn. intros <-%Ok_inj.
  constructor; [apply newArtifact_sound; fixed_path|]. constructor; [apply newArtifact_sound; fixed_path|].
  apply Forall_groups, Forall_fmap, Forall_forall. intros s Hs%(enabled_part sites s Hid). unfold compose, access_artifacts.
  constructor; [|constructor; [|constructor]]; apply newArtifact_sound.
  - leaf "nginx/access/" ["nginx"; "access"].
  - leaf "nginx/ratelimits/" ["nginx"; "ratelimits"].
Qed.

Lemma location_files_sound sites upstreams profiles arts :
  named_sites sites -> RenderEasyRateLimitArtifacts sites upstreams profiles = Ok arts -> Forall well_placed arts.
Proof.
  intros Hn. unfold RenderEasyRateLimitArtifacts. destruct (normalizeInputs sites upstreams) as [[sorted byID]|] eqn:En; [|done].
  apply validated_sites in En as [_ Hsorted]; [|done]. cbn. destruct (index_by _ _ _ _) as [byS|]; [|done]. cbn.
  destruct (map_results _ _) as [files|] eqn:Ef; [|done]. cbn. intros <-%Ok_inj.
  constructor; [apply newArtifact_sound; fixed_path|]. eapply map_results_Forall; [exact Ef|].
  intros s f Hs%list_elem_of_In%filter_In Hf. destruct Hs as [Hs%list_elem_of_In _]. apply Hsorted in Hs. cbn in Hf.
  destruct (render_easy_locations _) as [content|]; [|done]. cbn in Hf. injection Hf as <-. apply newArtifact_sound.
  leaf "nginx/easy-locations/" ["nginx"; "easy-locations"].
Qed.

Lemma easy_site_files_sound site p arts : good (s_ID site) ->
  renderEasySiteArtifacts site p = Ok arts -> Forall well_placed arts.
Proof.
  intros Hid. unfold renderEasySiteArtifacts. destruct (render_easy_site _) as [content|]; [|done]. cbn.
  destruct (gate_files site p) as [gate|] eqn:Eg; [|done]. cbn.
  destruct (challenge_files site p) as [challenge|] eqn:Ec; [|done]. cbn. intros <-%Ok_inj.
  constructor; [apply newArtifact_sound; leaf "nginx/easy/" ["nginx"; "easy"]|].
  apply Forall_app. split; [|apply Forall_app; split; [|apply Forall_app; split]].
  - revert Eg. unfold gate_files. set (users := if d_AuthBasicEnabled _ then _ else _).
    assert (Hu : Forall well_placed users).
    { unfold users. case_match; [|constructor]. constructor; [|constructor]. apply newArtifact_sound.
      leaf "nginx/auth-basic/" ["nginx"; "auth-basic"]. }
    destruct (negb _); [by intros [= <-]|]. destruct (render_auth_page _ _) as [page|]; [|done]. cbn. intros <-%Ok_inj.
    apply Forall_app. split; [done|]. constructor; [|constructor]. apply newArtifact_sound. nested "errors/" ["errors"] "auth.html".
  - unfold rule_files. case_match; [|constructor]. constructor; [|constructor]. apply newArtifact_sound.
    leaf "modsecurity/easy/" ["modsecurity"; "easy"].
  - unfold window_files. case_match; [constructor|]. constructor; [|constructor]. apply newArtifact_sound.
    leaf "nginx/geo-timewindow/" ["nginx"; "geo-timewindow"].
  - revert Ec. unfold challenge_files. destruct (negb _); [by intros [= <-]|]. destruct (render_challenge_page _ _) as [page|]; [|done].
    cbn. intros [= <-]. constructor; [|constructor]. apply newArtifact_sound. nested "errors/" ["errors"] "antibot.html".
Qed.

Lemma easy_files_sound sites profiles arts : (forall s, s ∈ sites -> good (s_ID s)) ->
  RenderEasyArtifacts sites profiles = Ok arts -> Forall well_placed arts.
Proof.
  intros Hid. unfold RenderEasyArtifacts. destruct (buildEasyProfileBySite profiles) as [byS|]; [|done]. cbn.
  destruct (map_results _ _) as [files|] eqn:Ef; [|done]. cbn. intros <-%Ok_inj. apply Forall_app. split.
  - apply Forall_groups. eapply map_results_Forall; [exact Ef|]. intros s fs Hs%(enabled_part sites s Hid) Hfs.
    exact (easy_site_files_sound s _ fs Hs Hfs).
  - case_match; [|constructor]. constructor; [|constructor]. apply newArtifact_sound. fixed_path.
Qed.

Lemma upsert_sound a items : well_placed a -> Forall well_placed items -> Forall well_placed (upsert_artifact a items).
Proof.
  intros Ha Hi. unfold upsert_artifact.
  assert (Hout : Forall well_placed ((fun item => if String.eqb (art_Path item) (art_Path a) then a else item) <$> items)).
  { apply Forall_fmap. eapply Forall_impl; [exact Hi|]. intros x Hx. unfold compose. by case_match. }
  case_match; [done|]. apply Forall_app. split; [done|]. by constructor.
Qed.

Lemma l4_artifact_sound items settings arts : Forall well_placed items ->
  upsertAntiDDoSL4Artifact items settings = Ok arts -> Forall well_placed arts.
Proof.
  intros Hi. unfold upsertAntiDDoSL4Artifact. destruct (AntiDDoS.ValidateSettings _) as [[]|]; [|done]. cbn.
  match goal with |- context [json_object ?p] => destruct (json_object p) as [raw|] end; [|done]. cbn. intros <-%Ok_inj. apply upsert_sound; [|done]. apply newArtifact_sound. fixed_path.
Qed.

Lemma model_artifact_sound items settings profiles arts : Forall well_placed items ->
  upsertAdaptiveModelArtifact items settings profiles = Ok arts -> Forall well_placed arts.
Proof.
  intros Hi. unfold upsertAdaptiveModelArtifact. destruct (AntiDDoS.ValidateSettings _) as [[]|]; [|done]. cbn.
  match goal with |- context [json_object ?p] => destruct (json_object p) as [raw|] end; [|done]. cbn. intros <-%Ok_inj. apply upsert_sound; [|done]. apply newArtifact_sound. fixed_path.
Qed.

(** *** Certificate files *)
Lemma material_file_sound id name content : good id -> name = "certificate.pem" \/ name = "private.key" ->
  well_placed (material_artifact (id ++ "/" ++ name) content).
Proof.
  intros Hid [-> | ->]; apply newArtifact_sound.
  - nested "tls/materials/" ["tls"; "materials"] "certificate.pem".
  - nested "tls/materials/" ["tls"; "materials"] "private.key".
Qed.

Lemma certificate_id_part ref : path_part (certificateMaterialIDFromRef ref) = true.
Proof.
  unfold certificateMaterialIDFromRef. destruct (is_empty _) eqn:E; [done|]. clear E.
  set (s := trim_space (replace_char "\" "/" ref)).
  assert (Hb : all_chars (fun c => negb (Ascii.eqb c "\")) s = true).
  { apply trim_chars_back. clear. induction ref as [|c ref IH]; [done|]. cbn [replace_char].
    destruct (Ascii.eqb_spec c "\") as [->|Hc]; [exact IH|]. cbn [all_chars]. destruct (Ascii.eqb_spec c "\"); [done | exact IH]. }
  assert (Hp : Forall (fun c => path_part c = true) (split_on "/" s)).
  { pose proof (all_chars_parts _ "/" _ Hb) as Hback. pose proof (split_on_no_slash s) as Hslash.
    rewrite Forall_forall in Hback, Hslash. apply Forall_forall. intros c Hc. specialize (Hback c Hc). specialize (Hslash c Hc).
    unfold path_part. clear -Hback Hslash. induction c as [|a c IH]; [done|]. unfold no_slash in *. cbn [all_chars] in *.
    apply andb_true_iff in Hback as [-> Hback], Hslash as [-> Hslash]. cbn. by apply IH. }
  induction Hp as [|a l Ha Hl IH]; [done|]. cbn [material_part]. destruct Hl as [|b l Hb' Hl]; [done|]. destruct Hl as [|c l Hc Hl]; [done|].
  by case_match.
Qed.

Section Materials.
Variable ReadMaterial : string -> result string.
Variable materials : list CertificateMaterialSnapshot.

Lemma append_file_sound id name ref st st' : good id -> name = "certificate.pem" \/ name = "private.key" ->
  Forall well_placed st.2 -> append_file ReadMaterial (id ++ "/" ++ name) ref st = Ok st' -> Forall well_placed st'.2.
Proof.
  intros Hid Hn Hs. unfold append_file. destruct (mem _ _); [by intros [= <-]|]. destruct (ReadMaterial ref) as [content|]; [|done].
  cbn. intros [= <-]. cbn. apply Forall_app. split; [done|]. constructor; [|constructor]. by apply material_file_sound.
Qed.

Lemma append_all_sound wanted st st' : Forall (fun w => good w.1) wanted -> Forall well_placed st.2 ->
  append_all ReadMaterial materials st wanted = Ok st' -> Forall well_placed st'.2.
Proof.
  intros Hw. revert st. induction Hw as [|[id key] l Hid Hl IH]; intros st Hs; cbn [append_all]; [by intros [= <-]|].
  cbn in Hid. unfold appendMaterial. destruct (material_of materials id) as [m|]; [|done]. cbn.
  destruct (append_file _ (id ++ "/certificate.pem") _ st) as [st1|] eqn:E1; [|done]. cbn.
  apply (append_file_sound id "certificate.pem") in E1; [|done | by left | done].
  destruct (negb key); cbn; [by apply IH|].
  destruct (append_file _ (id ++ "/private.key") _ st1) as [st2|] eqn:E2; [|done]. cbn.
  apply (append_file_sound id "private.key") in E2; [|done | by right | done]. by apply IH.
Qed.

Lemma wanted_file_part ref key : Forall (fun w : string * bool => path_part w.1 = true) (wanted_file ref key).
Proof. unfold wanted_file. case_match; constructor; [apply certificate_id_part | constructor]. Qed.

(** The files the profiles ask for. *)
Definition wanted_files (profiles : list SiteProfiles.EasySiteProfile) : list (string * bool) :=
  mjoin (client_files <$> profiles) +++ mjoin (upstream_files <$> profiles).

Lemma wanted_files_part profiles : Forall (fun w => path_part w.1 = true) (wanted_files profiles).
Proof.
  apply Forall_app. split; apply Forall_groups, Forall_fmap, Forall_forall; intros p _; unfold compose.
  - unfold client_files. case_match; [apply wanted_file_part | constructor].
  - unfold upstream_files. case_match; [|constructor]. rewrite !Forall_app. split_and!; apply wanted_file_part.
Qed.

Lemma material_files_sound configs profiles tls certs files :
  (forall c, c ∈ configs -> good (TLSConfigs.CertificateID c)) -> (forall w, w ∈ wanted_files profiles -> named -> plain w.1) ->
  mapTLSInputs ReadMaterial materials configs profiles = Ok (tls, certs, files) -> Forall well_placed files.
Proof.
  intros Hid Hwanted. unfold mapTLSInputs. destruct (map_results _ _) as [groups|] eqn:Eg; [|done]. cbn.
  destruct (append_all _ _ _ _) as [st|] eqn:Ea; [|done]. cbn. intros [= _ _ <-].
  eapply append_all_sound; [| |exact Ea].
  - pose proof (wanted_files_part profiles) as Hp. rewrite Forall_forall in Hp |- *. intros w Hw. split; [by apply Hp | by apply Hwanted].
  - cbn. apply Forall_groups. eapply map_results_Forall; [exact Eg|]. intros c fs Hc%elem_of_sort_on%Hid Hf.
    unfold config_materials in Hf. destruct (material_of _ _) as [m|]; [|done]. destruct (ReadMaterial (m_CertificateRef m)) as [pem|]; [|done].
    cbn in Hf. destruct (ReadMaterial (m_PrivateKeyRef m)) as [key|]; [|done]. cbn in Hf. injection Hf as <-.
    constructor; [|constructor; [|constructor]]; [apply (material_file_sound _ "certificate.pem") | apply (material_file_sound _ "private.key")];
      tauto.
Qed.
End Materials.

Context `{ManifestCodec}.
Variable ReadMaterial : string -> result string.

Lemma render_groups_sound id snapshot ci groups : named_sites (ci_Sites ci) -> Forall well_placed (ci_Materials ci) ->
  render_groups id snapshot ci = Ok groups -> Forall (Forall well_placed) groups.
Proof.
  intros Hn Hm. unfold render_groups. intros (site & Es & E)%result_bind_ok. apply site_files_sound in Es as [Hsite Hid]; [|done].
  apply result_bind_ok in E as (tls & Et & E). apply result_bind_ok in E as (waf & Ew & E).
  apply result_bind_ok in E as (access & Ea & E). apply result_bind_ok in E as (locations & El & E).
  apply result_bind_ok in E as (easy & Ee & E). apply result_bind_ok in E as (easy1 & E1 & E).
  apply result_bind_ok in E as (easy2 & E2 & E). injection E as <-.
  repeat constructor; [done | by eapply tls_files_sound | done | by eapply waf_files_sound | by eapply access_files_sound
    | by eapply location_files_sound |].
  eapply model_artifact_sound; [|exact E2]. eapply l4_artifact_sound; [|exact E1]. by eapply easy_files_sound.
Qed.
End Sound.
End Naming.

(** *** The compiled bundle *)

(** No identifier of the snapshot is [""], ["."] or [".."]. *)
Definition plain_names (snapshot : Snapshot) : Prop :=
  (forall site, site ∈ sn_Sites snapshot -> plain (Sites.ID site)) /\
  (forall c, c ∈ sn_TLSConfigs snapshot -> plain (TLSConfigs.CertificateID c)) /\
  (forall w, w ∈ wanted_files (sn_EasySiteProfiles snapshot) -> plain w.1).

Definition certificate_names (snapshot : Snapshot) : Prop :=
  forall c, c ∈ sn_TLSConfigs snapshot -> path_part (TLSConfigs.CertificateID c) = true.

Section Bundled.
Context `{Environment} `{Regexps} `{Templates} `{EasyTemplates} `{FloatPrinter} `{ManifestCodec}.
Variable ReadMaterial : string -> result string.

Lemma compile_input_parts snapshot ci : compile_input ReadMaterial snapshot = Ok ci ->
  (forall s, s ∈ ci_Sites ci -> exists site, site ∈ sn_Sites snapshot /\ s_ID s = Sites.ID site) /\
  exists tls certs, mapTLSInputs ReadMaterial (sn_CertificateMaterials snapshot) (sn_TLSConfigs snapshot)
    (sn_EasySiteProfiles snapshot) = Ok (tls, certs, ci_Materials ci).
Proof.
  unfold compile_input. cbn. intros (((tls & certs) & files) & Em & E)%result_bind_ok. injection E as <-. cbn. split; [|eauto].
  intros s (s1 & -> & (site & -> & Hs%elem_of_sort_on)%list_elem_of_fmap)%list_elem_of_fmap.
  exists site. split; [done|]. unfold easy_flags. by case_match.
Qed.

Lemma render_snapshot_sound id snapshot groups : certificate_names snapshot ->
  render_snapshot ReadMaterial id snapshot = Ok groups -> Forall (Forall (well_placed (plain_names snapshot))) groups.
Proof.
  intros Hc. unfold render_snapshot. intros (ci & Eci & Eg)%result_bind_ok.
  destruct (compile_input_parts snapshot ci Eci) as (Hsites & tls & certs & Em). eapply render_groups_sound; [| |exact Eg].
  - intros s Hs (Hn & _). destruct (Hsites s Hs) as (site & Hin & ->). by apply Hn.
  - eapply material_files_sound; [| |exact Em].
    + intros c Hin. split; [by apply Hc|]. intros (_ & Hn & _). by apply Hn.
    + intros w Hin (_ & _ & Hn). by apply Hn.
Qed.

End Bundled.

(** ** The stored access policy of a site *)

(** A site's own policy, or else the first of those kept for its profile. *)
Definition stored_policy (items : list AccessPolicies.AccessPolicy) (siteID : string) : option AccessPolicies.AccessPolicy :=
  let mine := has_key AccessPolicies.SiteID siteID in
  match List.find (fun p => mine p && negb (has_prefix "easy-" (AccessPolicies.ID p))) items with
  | Some p => Some p
  | None => List.find mine items
  end.

Definition listed (networks : list string) (a : ip) : bool := existsb (fun n => network_contains n a) networks.

(** What the documents of the control plane say about an address. *)
Definition stored_verdict (snapshot : Snapshot) (siteID : string) (a : ip) : bool :=
  match stored_policy (sn_AccessPolicies snapshot) siteID with
  | None => true
  | Some p =>
      mem (mode_of (sn_EasySiteProfiles snapshot) siteID) ["transparent"; "monitor"] || listed (AccessPolicies.AllowList p) a ||
      (Nat.eqb (length (AccessPolicies.AllowList p)) 0 && negb (listed (AccessPolicies.DenyList p) a))
  end.

#[local] Arguments has_prefix : simpl never.

Lemma find_snoc {A} (f : A -> bool) l x :
  List.find f (l +++ [x]) = match List.find f l with Some y => Some y | None => if f x then Some x else None end.
Proof. induction l as [|y l IH]; [done|]. cbn. by destruct (f y). Qed.

Lemma stored_snoc items x k : stored_policy (items +++ [x]) k =
  if has_key AccessPolicies.SiteID k x
  then Some (match stored_policy items k with Some current => if supersedes current x then x else current | None => x end)
  else stored_policy items k.
Proof.
  unfold stored_policy. rewrite !find_snoc. unfold supersedes.
  destruct (List.find _ items) as [p|] eqn:Eo; cbn.
  - apply List.find_some in Eo as [_ [_ Hp%negb_true_iff]%andb_true_iff]. rewrite Hp. by destruct (has_key _ k x).
  - destruct (List.find (has_key _ k) items) as [p|] eqn:Ea; cbn.
    + apply List.find_some in Ea as [Hin Hk]. pose proof (List.find_none _ _ Eo p Hin) as Hn. cbn in Hn. rewrite Hk in Hn.
      apply negb_false_iff in Hn. rewrite Hn. cbn. destruct (has_key _ k x); [|done]. by destruct (negb _).
    + destruct (has_key _ k x); [|done]. by destruct (negb _).
Qed.

Lemma keep_lookup item kept k : List.find (has_key AccessPolicies.SiteID k) (keep_policy item kept) =
  if has_key AccessPolicies.SiteID k item
  then Some (match List.find (has_key AccessPolicies.SiteID k) kept with
             | Some current => if supersedes current item then item else current | None => item end)
  else List.find (has_key AccessPolicies.SiteID k) kept.
Proof.
  induction kept as [|c kept IH]; cbn [keep_policy List.find]; [done|].
  destruct (String.eqb_spec (AccessPolicies.SiteID c) (AccessPolicies.SiteID item)) as [E|E]; cbn [List.find].
  - destruct (has_key _ k item) eqn:Ek.
    + apply has_key_true in Ek. assert (Hc : has_key AccessPolicies.SiteID k c = true) by (apply has_key_true; congruence).
      rewrite Hc. destruct (supersedes c item); [|by rewrite Hc]. by rewrite (proj2 (has_key_true _ k item) Ek).
    + apply has_key_false in Ek. assert (Hc : has_key AccessPolicies.SiteID k c = false) by (apply has_key_false; congruence).
      rewrite Hc. destruct (supersedes c item); [|by rewrite Hc]. by rewrite (proj2 (has_key_false _ k item) Ek).
  - rewrite IH. destruct (has_key _ k c) eqn:Hc; [|done]. apply has_key_true in Hc.
    assert (Ek : has_key AccessPolicies.SiteID k item = false) by (apply has_key_false; congruence). by rewrite Ek.
Qed.

Lemma keep_distinct item kept : NoDup (AccessPolicies.SiteID <$> kept) -> NoDup (AccessPolicies.SiteID <$> keep_policy item kept) /\
  forall k, k ∈ AccessPolicies.SiteID <$> keep_policy item kept -> k = AccessPolicies.SiteID item \/ k ∈ AccessPolicies.SiteID <$> kept.
Proof.
  induction kept as [|c kept IH]; cbn [keep_policy]; rewrite ?fmap_cons.
  - intros _. split; [apply NoDup_singleton|]. intros k [->|[]%not_elem_of_nil]%elem_of_cons. by left.
  - intros [Hc Hn]%NoDup_cons. destruct (String.eqb_spec (AccessPolicies.SiteID c) (AccessPolicies.SiteID item)) as [E|E].
    + assert (Es : AccessPolicies.SiteID (if supersedes c item then item else c) = AccessPolicies.SiteID c) by (by case_match).
      rewrite fmap_cons, Es. split; [by apply NoDup_cons|]. auto.
    + destruct (IH Hn) as [IH1 IH2]. rewrite fmap_cons. split.
      * apply NoDup_cons. split; [|done]. intros [?|?]%IH2; congruence.
      * intros k [->|Hk]%elem_of_cons; [right; left|]. destruct (IH2 k Hk) as [?|?]; [by left | by right; right].
Qed.

Lemma policies_by_site_spec items : NoDup (AccessPolicies.SiteID <$> policies_by_site items) /\
  forall k, List.find (has_key AccessPolicies.SiteID k) (policies_by_site items) = stored_policy items k.
Proof.
  induction items as [|x items [IHn IH]] using rev_ind; [split; [constructor | done]|].
  unfold policies_by_site in *. rewrite foldl_app. cbn [foldl]. split; [by apply keep_distinct|].
  intros k. by rewrite keep_lookup, stored_snoc, IH.
Qed.

(** A key that occurs once is found anywhere. *)
Lemma last_of_unique {A} (key : A -> string) l x : NoDup (key <$> l) -> x ∈ l -> last_of key (key x) l = Some x.
Proof.
  unfold last_of. induction l as [|y l IH]; [by intros _ ?%not_elem_of_nil|]. rewrite fmap_cons.
  intros [Hy Hn]%NoDup_cons [<-|Hx]%elem_of_cons; cbn [List.filter].
  - rewrite (proj2 (has_key_true key _ x) eq_refl).
    assert (E : List.filter (has_key key (key x)) l = []).
    { destruct (List.filter _ l) as [|z zs] eqn:Ef; [done|]. exfalso. apply Hy.
      assert (Hz : In z (List.filter (has_key key (key x)) l)) by (rewrite Ef; by left).
      apply filter_In in Hz as [Hz Hk%has_key_true]. rewrite <- Hk. apply list_elem_of_fmap_2. by apply list_elem_of_In. }
    by rewrite E.
  - assert (Hk : has_key key (key x) y = false) by (apply has_key_false; intros E; apply Hy; rewrite E; by apply list_elem_of_fmap_2).
    rewrite Hk. by apply IH.
Qed.

Lemma last_of_absent {A} (key : A -> string) k l : (forall x, x ∈ l -> key x <> k) -> last_of key k l = None.
Proof.
  intros H. unfold last_of. destruct (List.filter _ l) as [|z zs] eqn:E; [done|]. exfalso.
  assert (Hz : In z (List.filter (has_key key k) l)) by (rewrite E; by left). apply filter_In in Hz as [Hz Hk%has_key_true].
  apply list_elem_of_In in Hz. by apply (H z).
Qed.

Lemma mapped_access items profiles k :
  last_of a_SiteID k (mapAccessInputs items profiles) = access_input profiles <$> stored_policy items k.
Proof.
  destruct (policies_by_site_spec items) as [Hn Hf]. rewrite <- Hf. unfold mapAccessInputs.
  set (kept := policies_by_site items) in *.
  assert (Hkeys : a_SiteID <$> (access_input profiles <$> sort_on AccessPolicies.ID kept) =
    AccessPolicies.SiteID <$> sort_on AccessPolicies.ID kept) by (by rewrite <- list_fmap_compose).
  destruct (List.find _ kept) as [p|] eqn:E; cbn.
  - apply List.find_some in E as [Hp Hk%has_key_true]. rewrite <- Hk.
    change (AccessPolicies.SiteID p) with (a_SiteID (access_input profiles p)). apply last_of_unique.
    + rewrite Hkeys. eapply NoDup_Permutation_proper; [apply fmap_Permutation, sort_on_perm | done].
    + apply list_elem_of_fmap_2. by apply elem_of_sort_on, list_elem_of_In.
  - apply last_of_absent. intros x (p & -> & Hp%elem_of_sort_on%list_elem_of_In)%list_elem_of_fmap Hk.
    pose proof (List.find_none _ _ E p Hp) as Hno. by apply has_key_false in Hno.
Qed.

(** An accepted entry prints as one word, and the lists keep what they are given. *)
Lemma valid_entry_chars v : AccessPolicies.validateCIDROrIP v = true ->
  all_chars (fun c => addr_char c || Ascii.eqb c "/") v = true /\ v <> "".
Proof.
  unfold AccessPolicies.validateCIDROrIP. intros [[a Ha]%bool_decide_eq_true|[r Hr]%bool_decide_eq_true]%orb_true_iff.
  - split; [|by intros ->]. eapply all_chars_impl; [|by eapply ParseIP_chars]. by intros c ->.
  - split; [by eapply ParseCIDR_chars | by intros ->].
Qed.

Lemma valid_entry_plain v : AccessPolicies.validateCIDROrIP v = true -> plain_argument v = true /\ trim_space v = v /\ v <> "" /\ v <> "all".
Proof.
  intros Hv. destruct (valid_entry_chars v Hv) as [Hc Hn]. split_and!; [| | done |].
  - unfold plain_argument. apply andb_true_iff. split; [by apply negb_true_iff, is_empty_false|]. apply negb_true_iff. unfold contains_any. rewrite any_char_all. apply negb_false_iff.
    eapply all_chars_impl; [|exact Hc]. by intros [[] [] [] [] [] [] [] []].
  - apply trim_space_no_space. eapply all_chars_impl; [|exact Hc]. by intros [[] [] [] [] [] [] [] []].
  - by intros ->.
Qed.

Lemma valid_list field l : AccessPolicies.validateList field l = Ok tt -> Forall (fun v => AccessPolicies.validateCIDROrIP v = true) l.
Proof.
  unfold AccessPolicies.validateList. destruct (List.find _ l) eqn:E; [done|]. intros _. apply Forall_forall. intros v Hv%list_elem_of_In.
  pose proof (List.find_none _ _ E v Hv) as H. by apply negb_false_iff in H.
Qed.

Lemma kept_entries l v : Forall (fun v => AccessPolicies.validateCIDROrIP v = true) l -> v ∈ sortedUnique l <-> v ∈ l.
Proof.
  intros Hl. rewrite Forall_forall in Hl. unfold sortedUnique. rewrite elem_of_sorted_set. split.
  - intros (Hn & x & Hx & ->). destruct (valid_entry_plain x (Hl x Hx)) as (_ & -> & _). done.
  - intros Hv. destruct (valid_entry_plain v (Hl v Hv)) as (_ & Ht & Hn & _). split; [done|]. by exists v.
Qed.

Lemma existsb_same {A} (f g : A -> bool) l l' : (forall x, x ∈ l <-> x ∈ l') -> (forall x, x ∈ l -> f x = g x) ->
  existsb f l = existsb g l'.
Proof.
  intros Hl Hf. apply eq_true_iff_eq. rewrite !existsb_exists. split; intros (x & Hx%list_elem_of_In & Hv); exists x.
  - split; [by apply list_elem_of_In, Hl|]. by rewrite <- Hf.
  - apply Hl in Hx as Hx'. split; [by apply list_elem_of_In|]. by rewrite Hf.
Qed.

Lemma policy_verdict `{Environment} profiles p siteID a : AccessPolicies.validateAccessPolicy p = Ok tt ->
  plain_policy (access_input profiles p) /\
  policy_admits (access_input profiles p) siteID a =
    mem (lower_trim (mode_of profiles (AccessPolicies.SiteID p))) ["transparent"; "monitor"] || listed (AccessPolicies.AllowList p) a ||
    (Nat.eqb (length (AccessPolicies.AllowList p)) 0 && negb (listed (AccessPolicies.DenyList p) a)).
Proof.
  unfold AccessPolicies.validateAccessPolicy. intros (_ & _ & E)%result_bind_ok. apply result_bind_ok in E as (_ & _ & E).
  apply result_bind_ok in E as ([] & Ha%valid_list & E). apply result_bind_ok in E as ([] & Hd%valid_list & _).
  assert (Hplain : forall l, Forall (fun v => AccessPolicies.validateCIDROrIP v = true) l ->
    Forall (fun v => plain_argument v = true) (sortedUnique l)).
  { intros l Hl. apply Forall_forall. intros v Hv%(kept_entries l v Hl). rewrite Forall_forall in Hl.
    by apply (valid_entry_plain v), Hl. }
  split; [unfold plain_policy; cbn; apply Forall_app; split; by apply Hplain|].
  unfold policy_admits. cbn [a_AllowCIDRs a_DenyCIDRs a_DefaultAction a_SecurityMode access_input].
  assert (Eallow : existsb (fun n => network_contains n a) (sortedUnique (AccessPolicies.AllowList p)) = listed (AccessPolicies.AllowList p) a)
    by (apply existsb_same; [intros v; by apply kept_entries | done]).
  assert (Edeny : existsb (fun n => deny_covers n a) (sortedUnique (AccessPolicies.DenyList p)) = listed (AccessPolicies.DenyList p) a).
  { apply existsb_same; [intros v; by apply kept_entries|]. intros v Hv%(kept_entries _ v Hd). rewrite Forall_forall in Hd.
    destruct (valid_entry_plain v (Hd v Hv)) as (_ & _ & _ & Hall). unfold deny_covers. by apply String.eqb_neq in Hall as ->. }
  rewrite Eallow, Edeny. f_equal. destruct (AccessPolicies.AllowList p) as [|n l]; cbn [length Nat.eqb].
  - change (sortedUnique []) with (@nil string). cbn [length Nat.eqb negb]. rewrite andb_false_r. cbn. by rewrite andb_true_r.
  - cbn. by rewrite andb_false_r.
Qed.

(** What the renderers see of a site, before the flags of the profiles are set. *)
Definition mapped_site `{Environment} (snapshot : Snapshot) : Sites.Site -> SiteInput :=
  site_input (sn_Sites snapshot) (sn_Upstreams snapshot) (sn_TLSConfigs snapshot) (sn_EasySiteProfiles snapshot)
    (sn_ManagementHosts snapshot) (sn_ManagementHostsConfigured snapshot).

Section Enforced.
Context `{Environment} `{Regexps} `{Templates} `{EasyTemplates} `{FloatPrinter} `{ManifestCodec}.
Variable ReadMaterial : string -> result string.

Lemma easy_flags_same easy s : s_ID (easy_flags easy s) = s_ID s /\ s_Enabled (easy_flags easy s) = s_Enabled s /\
  isManagementSite (easy_flags easy s) = isManagementSite s.
Proof. unfold easy_flags. by case_match. Qed.

Lemma compiled_site snapshot ci site : compile_input ReadMaterial snapshot = Ok ci -> site ∈ sn_Sites snapshot ->
  exists s, s ∈ ci_Sites ci /\ s_ID s = Sites.ID site /\ s_Enabled s = Sites.Enabled site /\
    isManagementSite s = isManagementSite (mapped_site snapshot site) /\
    ci_Access ci = mapAccessInputs (sn_AccessPolicies snapshot) (sn_EasySiteProfiles snapshot).
Proof.
  unfold compile_input. cbn. intros (((tls & certs) & files) & _ & E)%result_bind_ok Hs. injection E as <-. cbn.
  eexists (easy_flags _ (mapped_site snapshot site)). split.
  - apply list_elem_of_fmap_2, list_elem_of_fmap_2. by apply elem_of_sort_on.
  - match goal with |- s_ID (easy_flags ?e ?s) = _ /\ _ => destruct (easy_flags_same e s) as (-> & -> & ->) end. done.
Qed.

(** A file of any group is in the bundle, under its path and with its content. *)
Lemma bundled_file revision groups b group a : AssembleRevisionBundle revision groups = Ok b -> group ∈ groups -> a ∈ group ->
  file_of a ∈ rb_Files b.
Proof.
  intros (_ & _ & _ & _ & _ & _ & ->)%assembled_parts Hg Ha. cbn. apply elem_of_app. left.
  apply list_elem_of_fmap_2, elem_of_sort_on. apply list_elem_of_In, in_concat. exists group.
  split; by apply list_elem_of_In.
Qed.

(** The access policy an operator stored is the one nginx enforces.  For every enabled site that
    is not the administration's, a compiled bundle holds the site's access file, and nginx reads from
    it, for every address, the verdict of the stored documents: with an allow list, only the listed
    addresses; without one, all but the denied ones; everybody where the site only monitors.  The
    site's own policy wins over the copy kept for its profile. *)
Theorem stored_access_enforced (revision : RevisionInput) (snapshot : Snapshot) (b : RevisionBundle) (site : Sites.Site) :
  compileBundle ReadMaterial revision snapshot = Ok b ->
  site ∈ sn_Sites snapshot -> Sites.Enabled site = true -> isManagementSite (mapped_site snapshot site) = false ->
  (forall p, p ∈ sn_AccessPolicies snapshot -> AccessPolicies.validateAccessPolicy p = Ok tt) ->
  exists file rules, file ∈ rb_Files b /\ bf_Path file = "nginx/access/" ++ Sites.ID site ++ ".conf" /\
    read_access (bf_Content file) = Some rules /\ forall a, admits rules a = stored_verdict snapshot (Sites.ID site) a.
Proof.
  unfold compileBundle. intros (groups & Eg & Eb)%result_bind_ok Hs He Hm Hp. apply result_bind_ok in Eg as (ci & Eci & Eg).
  destruct (compiled_site snapshot ci site Eci Hs) as (s & Hsin & Hid & Hen & Hman & Hacc).
  unfold render_groups in Eg. apply result_bind_ok in Eg as (sites & _ & Eg). apply result_bind_ok in Eg as (tls & _ & Eg).
  apply result_bind_ok in Eg as (waf & _ & Eg). apply result_bind_ok in Eg as (access & Eacc & Eg).
  apply result_bind_ok in Eg as (locs & _ & Eg). apply result_bind_ok in Eg as (easy & _ & Eg).
  apply result_bind_ok in Eg as (easy1 & _ & Eg). apply result_bind_ok in Eg as (easy2 & _ & Eg). injection Eg as <-.
  rewrite Hacc in Eacc.
  assert (Hpol : forall p, stored_policy (sn_AccessPolicies snapshot) (Sites.ID site) = Some p ->
    AccessPolicies.validateAccessPolicy p = Ok tt /\ AccessPolicies.SiteID p = Sites.ID site).
  { intros p. unfold stored_policy. destruct (List.find _ _) as [q|] eqn:Eq.
    - intros [= ->]. apply List.find_some in Eq as [Hq [Hk%has_key_true _]%andb_true_iff]. split; [by apply Hp, list_elem_of_In | done].
    - intros [Hq Hk%has_key_true]%List.find_some. split; [by apply Hp, list_elem_of_In | done]. }
  destruct (access_file_decides (ci_Sites ci) _ (ci_Rates ci) access s Eacc Hsin) as (file & rules & Hf & Hpath & Hread & Hv).
  - by rewrite Hen.
  - intros q. rewrite mapped_access, Hid. destruct (stored_policy _ _) as [p|] eqn:Ep; [|done]. cbn. intros [= <-].
    destruct (Hpol p eq_refl) as [Hval _]. by apply (policy_verdict (sn_EasySiteProfiles snapshot) p (Sites.ID site) (V4 0 0 0 0)).
  - exists (file_of file), rules. split_and!.
    + eapply bundled_file; [exact Eb | | exact Hf]. do 4 right. left.
    + cbn. by rewrite Hpath, Hid.
    + done.
    + intros a. rewrite Hv. unfold site_admits, stored_verdict. rewrite Hman, Hm, mapped_access, Hid. cbn [orb].
      destruct (stored_policy _ _) as [p|] eqn:Ep; [|done]. cbn [fmap option_fmap option_map].
      destruct (Hpol p eq_refl) as [Hval Hk]. destruct (policy_verdict (sn_EasySiteProfiles snapshot) p (Sites.ID site) a Hval) as [_ ->].
      rewrite Hk. unfold mode_of. by destruct (last_of _ _ _) as [q|]; cbn [from_option]; rewrite ?lower_trim_twice.
Qed.
End Enforced.

(** ** Examples *)
Module Samples.
Definition plain_environment : Environment := Build_Environment (fun _ => "").
Definition plain_regexps : Regexps := Build_Regexps (fun _ => None).
Definition blank_pages : Templates :=
  {| render_main := fun _ => Ok ""; render_base := fun _ => Ok ""; render_site := fun _ => Ok ""; render_geo_block := Ok "";
     GeneratedErrorPage := fun _ => Some ""; read_template := fun _ => Ok ""; NormalizeErrorPageRouteLabels := id |}.
Definition blank_easy_pages : EasyTemplates :=
  {| render_easy_site := fun _ => Ok ""; render_easy_locations := fun _ => Ok ""; render_auth_page := fun _ _ => Ok "";
     challenge_template_exists := fun _ => false; render_challenge_page := fun _ _ => Ok "" |}.
Definition one_float : FloatPrinter := Build_FloatPrinter (fun _ => Ok "1").

Definition shop : Sites.Site := Sites.MkSite "shop" "shop.example" true "" "".
Definition app : Upstreams.Upstream := Upstreams.MkUpstream "app" "shop" "10.0.0.5" 8080 "http" "" "".
Definition policy (id : string) (allow deny : list string) : AccessPolicies.AccessPolicy :=
  AccessPolicies.MkAccessPolicy id "shop" true allow deny [] "" "".
(** The copy kept for the profile comes first and is superseded. *)
Definition snapshot : Snapshot :=
  MkSnapshot [shop] [app] [] [] [] [policy "easy-shop-access" [] ["192.0.2.0/24"]; policy "shop-access" ["10.0.0.0/8"] []] []
    [] (@AntiDDoS.DefaultSettings plain_environment) [] [] [] false false.
Definition revision : RevisionInput := MkRevisionInput "rev-000001" 1 "2026-01-01T00:00:00Z".
Definition no_materials (_ : string) : result string := Err "no such file".
Abbreviation compiled :=
  (@compileBundle plain_environment plain_regexps blank_pages blank_easy_pages one_float text_codec no_materials revision snapshot).
End Samples.

(** One compilation, evaluated once. *)
Lemma sample_paths :
  (fun b => List.filter (fun p => negb (has_prefix "errors/" p)) (bf_Path <$> rb_Files b)) <$> Samples.compiled = Ok
  ["ddos-model/config.json"; "l4guard/config.json"; "modsecurity/crs-overrides/shop.conf"; "modsecurity/crs-setup.conf";
   "modsecurity/easy/shop.conf"; "modsecurity/modsecurity.conf"; "modsecurity/sites/shop.conf"; "nginx/access/shop.conf";
   "nginx/conf.d/base.conf"; "nginx/conf.d/easy-ratelimits.conf"; "nginx/conf.d/ratelimits.conf"; "nginx/conf.d/real_ip.conf";
   "nginx/easy-locations/shop.conf"; "nginx/easy/shop.conf"; "nginx/nginx.conf"; "nginx/ratelimits/shop.conf";
   "nginx/sites/shop.conf"; "manifest.json"].
Proof. vm_compute. reflexivity. Qed.

Lemma sample_compiles : exists b, Samples.compiled = Ok b.
Proof. pose proof sample_paths as H. revert H. generalize Samples.compiled. intros [b|e] H; [by exists b | discriminate H]. Qed.


(** The policy of the site's own list wins; the copy's deny list has no effect. *)
Lemma stored_access_enforced_witness : exists b file rules, Samples.compiled = Ok b /\ file ∈ rb_Files b /\
  bf_Path file = "nginx/access/shop.conf" /\ read_access (bf_Content file) = Some rules /\
  admits rules (V4 10 1 2 3) = true /\ admits rules (V4 198 51 100 7) = false.
Proof.
  destruct sample_compiles as [b E]. exists b.
  destruct (@stored_access_enforced Samples.plain_environment Samples.plain_regexps Samples.blank_pages
    Samples.blank_easy_pages Samples.one_float text_codec Samples.no_materials Samples.revision Samples.snapshot b Samples.shop)
    as (file & rules & Hf & Hp & Hr & Hv);
    [exact E | left | reflexivity | vm_compute; reflexivity | |].
  - intros p Hp. apply list_elem_of_In in Hp. destruct Hp as [<- | [<- | []]]; vm_compute; reflexivity.
  - exists file, rules. split; [exact E|]. split; [exact Hf|]. split; [exact Hp|]. split; [exact Hr|].
    rewrite !Hv. split; vm_compute; reflexivity.
Defined.
