(* ===== verification/Candidates.v ===== *)
(** * Candidates and the active pointer (compiler/internal/compiler: staging.go, activation.go,
      rollback.go and reload_health.go)

    A validated bundle is staged as candidates/<revision id> below the runtime root; activation
    replaces active/current.json atomically; a rollback activates the last known good revision.
    The root is absolute.  encoding/json appears as the interface [PointerCodec]. *)
From Stdlib Require Import ZArith Lia Ascii String.
From stdpp Require Import base tactics gmap strings list.
From S2P Require Import Prelude GoHash Files Bundle.
Local Set Warnings "-clear-no-such-hyp".

Record ActivePointer := MkActivePointer {
  ap_RevisionID : string;
  ap_CandidatePath : string
}.

Class PointerCodec := {
  marshal_pointer : ActivePointer -> string;
  unmarshal_pointer : string -> result ActivePointer;
  unmarshal_marshal_pointer p : unmarshal_pointer (marshal_pointer p) = Ok p
}.

Definition root_path (Root : string) : fpath := clean_from true [] Root.
Definition candidates_dir (Root : string) : fpath := join_path (root_path Root) "candidates".
Definition candidate_path (Root id : string) : fpath := join_path (candidates_dir Root) id.
Definition active_dir (Root : string) : fpath := join_path (root_path Root) "active".
Definition pointer_path (Root : string) : fpath := join_path (active_dir Root) "current.json".
Definition temp_pointer_path (Root id : string) : fpath :=
  join_path (active_dir Root) (".current." ++ (id ++ ".tmp")).

Section Codecs.
Context `{ManifestCodec} `{PointerCodec}.

(** ** Reading the pointer *)
Definition LoadActivePointer (Root : string) : fsop ActivePointer :=
  fs_lift (reject_if (is_blank Root) "activation root is required");;
  content ← fs_wrap "read active pointer: " (read_file (pointer_path Root));
  match content with
  | None => fs_lift (Err "active pointer is missing")
  | Some content =>
    pointer ← fs_wrap "decode active pointer: " (fs_lift (unmarshal_pointer content));
    fs_lift (reject_if (is_blank (ap_RevisionID pointer)) "active pointer revision id is required");;
    fs_lift (reject_if (is_blank (ap_CandidatePath pointer))
      "active pointer candidate path is required");;
    mret pointer
  end.

(** [None] stands for the empty string. *)
Definition activeCandidatePath (Root : string) : fsop (option fpath) := fun e f =>
  match LoadActivePointer Root e f with
  | (f', Err _) => (f', Ok None)
  | (f', Ok pointer) =>
    (f', Ok (Some (if is_abs (ap_CandidatePath pointer)
          then clean_from true [] (ap_CandidatePath pointer)
          else join_path (root_path Root) (ap_CandidatePath pointer))))
  end.

(** ** Staging *)
Definition isPathWithinStagingRoot (path root : fpath) : bool :=
  match rel_path root path with
  | [] => true
  | c :: _ => negb (String.eqb c "..")
  end.

Fixpoint matchFiles (candidateRoot : fpath) (files : list BundleFile) : fsop bool :=
  match files with
  | [] => mret true
  | file :: files' =>
    raw ← read_file (join_path candidateRoot (bf_Path file));
    match raw with
    | None => mret false
    | Some raw =>
      if String.eqb raw (bf_Content file) then matchFiles candidateRoot files' else mret false
    end
  end.

Definition candidateMatchesBundle (candidateRoot : fpath) (bundle : RevisionBundle) : fsop bool :=
  fileCount ← walk_count candidateRoot;
  if negb (fileCount =? length (rb_Files bundle)) then mret false
  else matchFiles candidateRoot (rb_Files bundle).

(** [os.Lstat] on every directory between the root and the target; there are no symbolic links
in the model, so only an error makes it unsafe. *)
Fixpoint lstat_parts (current : fpath) (parts : list string) : fsop bool := fun e f =>
  match parts with
  | [] => (f, Ok true)
  | part :: parts' =>
    match stat (current ++ [part]) e f with
    | (f', Ok (Some _)) => lstat_parts (current ++ [part]) parts' e f'
    | (f', _) => (f', Ok false)
    end
  end.

Definition isStagingDirectorySafe (directory candidateRoot : fpath) : fsop bool :=
  if negb (isPathWithinStagingRoot directory candidateRoot) then mret false
  else lstat_parts candidateRoot (rel_path candidateRoot directory).

Definition stageFile (candidateRoot : fpath) (file : BundleFile) : fsop unit :=
  let targetPath := join_path candidateRoot (bf_Path file) in
  fs_lift (reject_if (negb (isPathWithinStagingRoot targetPath candidateRoot))
    ("staged file path " ++ bf_Path file ++ " escapes candidate root"));;
  fs_wrap ("create staged file directory for " ++ bf_Path file ++ ": ")
  (mkdir_all (dir_path targetPath));;
  safe ← isStagingDirectorySafe (dir_path targetPath) candidateRoot;
  fs_lift (reject_if (negb safe)
    ("staged file directory for " ++ bf_Path file ++ " is outside candidate root"));;
  fs_wrap ("write staged file " ++ bf_Path file ++ ": ") (write_file targetPath (bf_Content file)).

Fixpoint stageFiles (candidateRoot : fpath) (files : list BundleFile) : fsop unit :=
  match files with
  | [] => mret tt
  | file :: files' => stageFile candidateRoot file;; stageFiles candidateRoot files'
  end.

(** The inspection of an existing directory: [true] when it already holds the bundle. *)
Definition inspectCandidate (Root : string) (candidateRoot : fpath) (bundle : RevisionBundle)
  : fsop bool :=
  existing ← fs_wrap "stat candidate directory: " (stat candidateRoot);
  match existing with
  | None => mret false
  | Some _ =>
    matches ← fs_wrap "inspect existing candidate: " (candidateMatchesBundle candidateRoot bundle);
    if (matches : bool) then mret true
    else
      active ← activeCandidatePath Root;
      fs_lift (reject_if (bool_decide (active = Some candidateRoot))
        ("refusing to replace active candidate " ++ ri_ID (rb_Revision bundle) ++
          " with different contents"));;
      mret false
  end.

Definition Stage (Root : string) (bundle : RevisionBundle) : fsop fpath :=
  fs_lift (reject_if (is_blank Root) "staging root is required");;
  fs_lift (ValidateRevisionBundle bundle);;
  fs_lift (reject_if (is_blank (ri_ID (rb_Revision bundle))) "bundle revision id is required");;
  let candidateRoot := candidate_path Root (ri_ID (rb_Revision bundle)) in
  fs_lift (reject_if (negb (isPathWithinStagingRoot candidateRoot (candidates_dir Root)))
    "candidate path escapes staging root");;
  staged ← inspectCandidate Root candidateRoot bundle;
  if (staged : bool) then mret candidateRoot
  else
    fs_wrap "reset inactive candidate directory: " (remove_all candidateRoot);;
    fs_wrap "create candidate directory: " (mkdir_all candidateRoot);;
    stageFiles candidateRoot (sort_on bf_Path (rb_Files bundle));;
    mret candidateRoot.

(** ** Activation *)
(** [replaceFileAtomically], and the removal of the temporary file when it fails. *)
Definition swapPointer (Root revisionID : string) (pointer : ActivePointer) : fsop ActivePointer :=
  fun e f =>
  match rename (temp_pointer_path Root revisionID) (pointer_path Root) e f with
  | (f', Ok _) => (f', Ok pointer)
  | (f', Err msg) =>
    ((remove_quietly (temp_pointer_path Root revisionID) e f').1,
      Err ("activate revision " ++ revisionID ++ ": " ++ msg)%string)
  end.

Definition Activate (Root revisionID : string) : fsop ActivePointer :=
  fs_lift (reject_if (is_blank Root) "activation root is required");;
  fs_lift (reject_if (is_blank revisionID) "revision id is required");;
  let candidatePath := candidate_path Root revisionID in
  candidate ← fs_wrap ("stat candidate " ++ revisionID ++ ": ") (stat candidatePath);
  fs_lift (reject_if (bool_decide (candidate = None)) ("candidate " ++ revisionID ++ " not found"));;
  manifest ← fs_wrap ("stat candidate manifest for " ++ revisionID ++ ": ")
  (stat (join_path candidatePath "manifest.json"));
  fs_lift (reject_if (bool_decide (manifest = None))
    ("candidate " ++ revisionID ++ " is missing manifest.json"));;
  fs_wrap "create active directory: " (mkdir_all (active_dir Root));;
  let pointer := MkActivePointer revisionID (path_string candidatePath) in
  fs_wrap "write temp active pointer: "
  (write_file (temp_pointer_path Root revisionID) (marshal_pointer pointer));;
  swapPointer Root revisionID pointer.

(** ** Rollback *)
Record RollbackResult := MkRollbackResult {
    rr_FailedRevisionID : string;
    rr_RolledBackTo : string;
    rr_Succeeded : bool;
    rr_ActivationPointer : option ActivePointer
  }.

Definition Rollback (Root failedRevisionID : string) (knownGood : ActivePointer)
  : fsop RollbackResult :=
  let failed := trim_space failedRevisionID in
  fs_lift (reject_if (is_empty failed) "failed revision id is required");;
  fs_lift (reject_if (is_blank (ap_RevisionID knownGood)) "known-good revision id is required");;
  fs_lift (reject_if (is_blank (ap_CandidatePath knownGood))
    "known-good candidate path is required");;
  fs_lift (reject_if (String.eqb failed (ap_RevisionID knownGood))
    "known-good revision must differ from failed revision");;
  activated ← fs_wrap "rollback activation failed: " (Activate Root (ap_RevisionID knownGood));
  mret (MkRollbackResult failed (ap_RevisionID knownGood) true (Some activated)).
End Codecs.

(** ** Paths *)
Lemma join_path_prefix p s c :
  plain c -> (exists ws, split_on "/" s = ws ++ [c]) -> exists q, join_path p s = q ++ [c].
Proof.
  intros Hc [ws E]. unfold join_path, clean_from. rewrite E, foldl_app. simpl.
  rewrite clean_step_push by done. simpl. eauto.
Qed.

Lemma split_on_suffix a b :
  all_chars (fun c => negb (Ascii.eqb c "/")) b = true ->
  exists ws w, split_on "/" (a ++ b) = ws ++ [(w ++ b)%string].
Proof.
  intros Hb. induction a as [|c a IH].
  - exists [], ""%string. by apply split_on_no_sep.
  - destruct IH as (ws & w & E). change (String c a ++ b)%string with (String c (a ++ b)).
    simpl. rewrite E. destruct (Ascii.eqb c "/"); [by exists (""%string :: ws), w|].
    destruct ws as [|v ws]; simpl; [by exists [], (String c w) | by exists (String c v :: ws), w].
Qed.

Lemma temp_not_pointer Root id : temp_pointer_path Root id <> pointer_path Root.
Proof.
  unfold temp_pointer_path, pointer_path.
  rewrite (join_path_component _ "current.json") by (done || vm_compute; reflexivity).
  destruct (split_on_suffix (".current." ++ id) ".tmp" eq_refl) as (ws & w & E).
  rewrite string_app_assoc in E.
  assert (Hne : (w ++ ".tmp")%string <> "current.json"%string).
  { do 9 (destruct w as [|? w]; [discriminate|]). intros H. simpl in H. injection H.
    intros H'. intros. destruct w as [|? w]; [discriminate|].
    do 4 (destruct w as [|? w]; [discriminate|]). discriminate. }
  assert (Hp : plain (w ++ ".tmp")) by (destruct w as [|? [|? [|]]]; done).
  destruct (join_path_prefix (active_dir Root) (".current." ++ (id ++ ".tmp")) (w ++ ".tmp") Hp)
    as [q ->]; [eauto|].
  intros [_ [= H]]%app_inj_2; done.
Qed.

Lemma root_components Root : Forall component (root_path Root).
Proof. apply (join_path_components []). constructor. Qed.

Lemma candidate_components Root id : Forall component (candidate_path Root id).
Proof. do 2 apply join_path_components. apply root_components. Qed.

Lemma candidates_dir_eq Root : candidates_dir Root = root_path Root ++ ["candidates"%string].
Proof. by apply join_path_component. Qed.

Lemma pointer_path_eq Root : pointer_path Root = root_path Root ++ ["active"; "current.json"]%string.
Proof.
  unfold pointer_path, active_dir. rewrite !join_path_component by done. by rewrite <- app_assoc.
Qed.

Lemma within_prefix path root :
  Forall component path -> isPathWithinStagingRoot path root = true <-> root `prefix_of` path.
Proof.
  intros Hp%component_plain. unfold isPathWithinStagingRoot. rewrite <- rel_path_inside by done.
  destruct (rel_path root path) as [|c r]; [by split|]. rewrite negb_true_iff, String.eqb_neq.
  split; [by intros Hc ?? [= <- <-] | intros Hc; by eapply Hc].
Qed.

(** The pointer file is not below candidates/. *)
Lemma pointer_not_candidate Root q :
  candidates_dir Root `prefix_of` q -> q <> pointer_path Root.
Proof.
  rewrite candidates_dir_eq, pointer_path_eq. intros [k ->]. rewrite <- app_assoc.
  intros H%app_inv_head. discriminate.
Qed.

(** ** Staging writes below the candidate only *)
Section Staging.
Context `{ManifestCodec} `{PointerCodec}.

Lemma fs_bind_ok {A B} (m : fsop A) (k : A -> fsop B) e f f' b :
  (m ≫= k) e f = (f', Ok b) <-> exists f1 a, m e f = (f1, Ok a) /\ k a e f1 = (f', Ok b).
Proof.
  unfold mbind, fsop_bind. destruct (m e f) as [f1 [a|msg]]; split.
  - eauto.
  - by intros (? & ? & [= <- <-] & ?).
  - discriminate.
  - by intros (? & ? & ? & ?).
Qed.

Lemma fs_wrap_ok {A} s (m : fsop A) e f f' a : fs_wrap s m e f = (f', Ok a) <-> m e f = (f', Ok a).
Proof. unfold fs_wrap. by destruct (m e f) as [f1 [b|msg]]. Qed.

Lemma fs_reject_ok c msg e f f' u :
  fs_lift (reject_if c msg) e f = (f', Ok u) <-> c = false /\ f' = f.
Proof.
  unfold fs_lift. destruct c, u; simpl; split; [discriminate | by intros [? _] | by intros [= <-] |].
  by intros [_ ->].
Qed.

Lemma lstat_parts_read_only parts current : read_only (lstat_parts current parts).
Proof.
  revert current. induction parts as [|part parts IH]; intros current e f; simpl; [done|].
  pose proof (stat_read_only (current ++ [part]) e f) as Hs.
  destruct (stat _ e f) as [f' [[n|]|msg]]; simpl in *; subst; try done. apply IH.
Qed.

Lemma isStagingDirectorySafe_read_only d r : read_only (isStagingDirectorySafe d r).
Proof. unfold isStagingDirectorySafe. destruct (negb _); [apply ret_read_only | apply lstat_parts_read_only]. Qed.

Lemma matchFiles_read_only r files : read_only (matchFiles r files).
Proof.
  induction files as [|file files IH]; simpl; [apply ret_read_only|].
  apply bind_read_only; [apply read_file_read_only|]. intros [raw|]; [|apply ret_read_only].
  destruct (String.eqb _ _); [done | apply ret_read_only].
Qed.

Lemma candidateMatches_read_only r b : read_only (candidateMatchesBundle r b).
Proof.
  apply bind_read_only; [apply walk_count_read_only|]. intros n.
  destruct (negb _); [apply ret_read_only | apply matchFiles_read_only].
Qed.

Lemma LoadActivePointer_read_only Root : read_only (LoadActivePointer Root).
Proof.
  apply bind_read_only; [apply lift_read_only|]. intros _.
  apply bind_read_only; [apply wrap_read_only, read_file_read_only|]. intros [c|]; [|apply lift_read_only].
  repeat (apply bind_read_only; [by repeat first [apply wrap_read_only | apply lift_read_only]|]; intros ?).
  apply ret_read_only.
Qed.

Lemma activeCandidatePath_read_only Root : read_only (activeCandidatePath Root).
Proof.
  intros e f. pose proof (LoadActivePointer_read_only Root e f) as Hl. unfold activeCandidatePath.
  by destruct (LoadActivePointer Root e f) as [f' [p|msg]].
Qed.

Lemma inspectCandidate_read_only Root r b : read_only (inspectCandidate Root r b).
Proof.
  apply bind_read_only; [apply wrap_read_only, stat_read_only|]. intros [n|]; [|apply ret_read_only].
  apply bind_read_only; [apply wrap_read_only, candidateMatches_read_only|]. intros [];
  [apply ret_read_only|].
  apply bind_read_only; [apply activeCandidatePath_read_only|]. intros a.
  apply bind_read_only; [apply lift_read_only|]. intros _. apply ret_read_only.
Qed.

Lemma stageFile_touches r file :
  Forall component r -> touches_only (prefix r) (stageFile r file).
Proof.
  intros Hr. unfold stageFile.
  destruct (isPathWithinStagingRoot (join_path r (bf_Path file)) r) eqn:Hw.
  - apply within_prefix in Hw; [|by apply join_path_components]. unfold touches_only in *.
    repeat (apply touches_bind; [first
    [ apply read_only_touches, lift_read_only
    | apply touches_wrap, mkdir_touches
    | apply read_only_touches, isStagingDirectorySafe_read_only ]|]; intros ?).
    apply touches_wrap. eapply touches_mono; [|apply write_file_touches]. by intros q <-.
  - by intros e f q _.
Qed.

Lemma stageFiles_touches r files :
  Forall component r -> touches_only (prefix r) (stageFiles r files).
Proof.
  intros Hr. induction files as [|file files IH]; simpl; [apply read_only_touches, ret_read_only|].
  apply touches_bind; [by apply stageFile_touches | done].
Qed.

Lemma Stage_touches Root b :
  touches_only (prefix (candidate_path Root (ri_ID (rb_Revision b)))) (Stage Root b).
Proof.
  unfold Stage. repeat (apply touches_bind; [by apply read_only_touches, lift_read_only|]; intros ?).
  apply touches_bind; [apply read_only_touches, inspectCandidate_read_only|]. intros [];
  [apply read_only_touches, ret_read_only|].
  apply touches_bind; [apply touches_wrap, remove_all_touches|]. intros ?.
  apply touches_bind; [apply touches_wrap, mkdir_touches|]. intros ?.
  apply touches_bind; [apply stageFiles_touches, candidate_components|]. intros ?.
  apply read_only_touches, ret_read_only.
Qed.

Lemma stageFile_ok r file e f f' :
  stageFile r file e f = (f', Ok tt) ->
  file_at f' (join_path r (bf_Path file)) = Some (bf_Content file) /\
  forall q, q <> join_path r (bf_Path file) -> file_at f' q = file_at f q.
Proof.
  unfold stageFile. intros (f1 & ? & [_ ->]%fs_reject_ok & E)%fs_bind_ok.
  apply fs_bind_ok in E as (f2 & ? & Hm%fs_wrap_ok & E).
  apply fs_bind_ok in E as (f3 & safe & Hs & E).
  apply fs_bind_ok in E as (f4 & ? & [_ ->]%fs_reject_ok & Hw%fs_wrap_ok).
  pose proof (isStagingDirectorySafe_read_only (dir_path (join_path r (bf_Path file))) r e f2) as Hr.
  rewrite Hs in Hr. simpl in Hr. subst f3.
  assert (Hf2 : forall q, file_at f2 q = file_at f q)
  by (intros q; pose proof (file_at_mkdir (dir_path (join_path r (bf_Path file))) e f q) as Hq;
  by rewrite Hm in Hq).
  destruct (write_file_cases (join_path r (bf_Path file)) (bf_Content file) e f2) as
  [(n & Hw' & -> & Hp)|(msg & f0 & Hw' & _)]; rewrite Hw' in Hw; [|discriminate].
  injection Hw as <-. split.
  - rewrite file_at_insert by done. by rewrite decide_True.
  - intros q Hq. rewrite file_at_insert by done. rewrite decide_False by congruence. apply Hf2.
Qed.

Definition targets (r : fpath) (files : list BundleFile) : list (list string) :=
  (fun file => join_path r (bf_Path file)) <$> files.

Lemma stageFiles_ok r files e f f' :
  NoDup (targets r files) -> stageFiles r files e f = (f', Ok tt) ->
  (forall file, file ∈ files -> file_at f' (join_path r (bf_Path file)) = Some (bf_Content file)) /\
  forall q, q ∉ targets r files -> file_at f' q = file_at f q.
Proof.
  revert f. induction files as [|file files IH]; intros f Hn; simpl.
  - intros [= <-]. split; [|done]. intros file Hf. by apply not_elem_of_nil in Hf.
  - apply NoDup_cons in Hn as [Hx Hn].
    intros (f1 & [] & (H1 & H2)%stageFile_ok & (H3 & H4)%IH)%fs_bind_ok; [|done]. split.
    + intros g [->|Hg]%elem_of_cons; [by rewrite H4 | by apply H3].
    + intros q [Hq Hq']%not_elem_of_cons. by rewrite H4, H2.
Qed.

Lemma matchFiles_ok r files e f f' :
  matchFiles r files e f = (f', Ok true) ->
  forall file, file ∈ files -> file_at f (join_path r (bf_Path file)) = Some (bf_Content file).
Proof.
  revert f'. induction files as [|file files IH]; intros f' Hm g Hg; [by apply not_elem_of_nil in Hg|].
  simpl in Hm. apply fs_bind_ok in Hm as (f1 & raw & Hr & Hm).
  assert (f1 = f) as -> by (pose proof (read_file_read_only (join_path r (bf_Path file)) e f) as Hro;
  by rewrite Hr in Hro).
  destruct raw as [raw|]; [|discriminate].
  destruct (String.eqb raw (bf_Content file)) eqn:Eq; [|discriminate].
  apply String.eqb_eq in Eq. subst raw.
  apply elem_of_cons in Hg as [->|Hg]; [|by eapply IH].
  unfold read_file in Hr. destruct (io_fault _ _ _); [discriminate|]. unfold file_at.
  destruct (node_at f _) as [[c|]|]; congruence.
Qed.

(** A directory with as many files as the bundle, all bundle files among them, holds no others. *)
Lemma same_count_no_others r files f q c :
  r <> [] -> NoDup (targets r files) ->
  (forall file, file ∈ files -> file_at f (join_path r (bf_Path file)) = Some (bf_Content file)) ->
  (forall file, file ∈ files -> r `prefix_of` join_path r (bf_Path file)) ->
  length (files_under r f) = length files ->
  r `prefix_of` q -> file_at f q = Some c -> q ∈ targets r files.
Proof.
  intros Hr Hn Hin Hpre Hlen Hq Hc.
  assert (Hunder : forall p d, file_at f p = Some d -> r `prefix_of` p -> p ∈ (files_under r f).*1).
  { intros p d Hp Hrp. apply list_elem_of_fmap. exists (p, File d). split; [done|].
    apply list_elem_of_filter. split; [done|]. apply elem_of_map_to_list.
    unfold file_at, node_at in Hp. destruct p as [|x p]; [by apply prefix_nil_inv in Hrp|].
    destruct (f !! (x :: p)) as [[]|]; congruence. }
  pose proof (NoDup_length_incl (l := targets r files) (l' := (files_under r f).*1)) as Hincl.
  apply list_elem_of_In, Hincl.
  - by apply NoDup_ListNoDup.
  - unfold targets. rewrite !length_fmap. lia.
  - intros p Hp%list_elem_of_In. apply list_elem_of_In.
    apply list_elem_of_fmap in Hp as (file & -> & Hf). eapply Hunder; [by apply Hin | by apply Hpre].
  - apply list_elem_of_In. by eapply Hunder.
Qed.
End Staging.

(** ** Activation replaces the pointer or leaves it *)

(** When [m] reports an error, the file at [q] is as before. *)
Definition err_keeps {A} (q : fpath) (m : fsop A) : Prop :=
  forall e f f' msg, m e f = (f', Err msg) -> file_at f' q = file_at f q.

Lemma touches_err_keeps {A} q region (m : fsop A) :
  ~ region q -> touches_only region m -> err_keeps q m.
Proof. intros Hq Hm e f f' msg E. specialize (Hm e f q Hq). by rewrite E in Hm. Qed.

Lemma err_keeps_bind {A B} q (m : fsop A) (k : A -> fsop B) :
  touches_only (fun p => p <> q) m -> (forall a, err_keeps q (k a)) -> err_keeps q (m ≫= k).
Proof.
  intros Hm Hk e f f' msg. specialize (Hm e f q). unfold mbind, fsop_bind.
  destruct (m e f) as [f1 [a|msg']]; simpl in *.
  - intros E. rewrite (Hk a e f1 f' msg E). by apply Hm; intros [].
  - intros [= <- <-]. by apply Hm; intros [].
Qed.

Lemma rename_cases src dst e f :
  (exists n, f !! src = Some n /\ rename src dst e f = (<[dst := n]> (delete src f), Ok tt)) \/
  exists msg, rename src dst e f = (f, Err msg).
Proof.
  unfold rename. destruct (io_fault _ _ _); [by right; eauto|].
  destruct (f !! src) as [n|]; [|by right; eauto].
  destruct (node_at f dst) as [[]|]; [left|right|left]; eauto.
Qed.

Lemma remove_quietly_touches p : p <> [] -> touches_only (eq p) (remove_quietly p).
Proof.
  intros Hp e f q Hq. unfold remove_quietly. destruct (io_fault _ _ _); [done|]. simpl.
  rewrite file_at_delete by done. by rewrite decide_False.
Qed.

Lemma pointer_path_nonempty Root : pointer_path Root <> [].
Proof. rewrite pointer_path_eq. by destruct (root_path Root). Qed.

Lemma temp_path_nonempty Root id : temp_pointer_path Root id <> [].
Proof.
  unfold temp_pointer_path.
  destruct (split_on_suffix (".current." ++ id) ".tmp" eq_refl) as (ws & w & E).
  rewrite string_app_assoc in E.
  destruct (join_path_prefix (active_dir Root) (".current." ++ (id ++ ".tmp")) (w ++ ".tmp"))
    as [q ->]; [by destruct w as [|? [|? [|]]] | eauto | by destruct q].
Qed.

Section Activation.
Context `{ManifestCodec} `{PointerCodec}.

Definition pointer_of (Root id : string) : ActivePointer :=
  MkActivePointer id (path_string (candidate_path Root id)).

Lemma swapPointer_touches Root id p :
  touches_only (fun q => q = pointer_path Root \/ q = temp_pointer_path Root id)
  (swapPointer Root id p).
Proof.
  intros e f q Hq. unfold swapPointer.
  pose proof (pointer_path_nonempty Root). pose proof (temp_path_nonempty Root id).
  destruct (rename_cases (temp_pointer_path Root id) (pointer_path Root) e f)
  as [(n & _ & ->)|[msg ->]]; simpl.
  - rewrite file_at_insert by done. rewrite decide_False by naive_solver.
    rewrite file_at_delete by done. rewrite decide_False by naive_solver. done.
  - apply remove_quietly_touches; [done | naive_solver].
Qed.

Lemma swapPointer_err Root id p : err_keeps (pointer_path Root) (swapPointer Root id p).
Proof.
  intros e f f' msg. unfold swapPointer.
  destruct (rename_cases (temp_pointer_path Root id) (pointer_path Root) e f)
  as [(n & _ & ->)|[m ->]]; [discriminate|]. intros [= <- _].
  apply remove_quietly_touches; [apply temp_path_nonempty | apply temp_not_pointer].
Qed.

Lemma swapPointer_ok Root id p e f f' p' content :
  file_at f (temp_pointer_path Root id) = Some content ->
  swapPointer Root id p e f = (f', Ok p') ->
  p' = p /\ file_at f' (pointer_path Root) = Some content.
Proof.
  intros Hc. unfold swapPointer.
  destruct (rename_cases (temp_pointer_path Root id) (pointer_path Root) e f)
  as [(n & Hn & ->)|[m ->]]; [|discriminate]. intros [= <- <-]. split; [done|].
  rewrite file_at_insert by apply pointer_path_nonempty. rewrite decide_True by done.
  unfold file_at, node_at in Hc. pose proof (temp_path_nonempty Root id).
  destruct (temp_pointer_path Root id); [done|]. rewrite Hn in Hc. by destruct n.
Qed.

Lemma Activate_touches Root id :
  touches_only (fun q => q = pointer_path Root \/ q = temp_pointer_path Root id) (Activate Root id).
Proof.
  unfold Activate.
  repeat (apply touches_bind; [first
  [ apply read_only_touches; by repeat first [apply wrap_read_only | apply lift_read_only | apply stat_read_only]
  | apply touches_wrap, mkdir_touches
  | apply touches_wrap; eapply touches_mono; [|apply write_file_touches]; by intros q <-; right ]|];
  intros ?).
  apply swapPointer_touches.
Qed.

Lemma Activate_err Root id : err_keeps (pointer_path Root) (Activate Root id).
Proof.
  unfold Activate.
  repeat (apply err_keeps_bind; [first
  [ apply read_only_touches; by repeat first [apply wrap_read_only | apply lift_read_only | apply stat_read_only]
  | apply touches_wrap, mkdir_touches
  | apply touches_wrap; eapply touches_mono; [|apply write_file_touches]; intros q <-; apply temp_not_pointer ]|];
  intros ?).
  apply swapPointer_err.
Qed.

Lemma Activate_ok Root id e f f' p :
  Activate Root id e f = (f', Ok p) ->
  p = pointer_of Root id /\ is_blank id = false /\
  file_at f' (pointer_path Root) = Some (marshal_pointer p) /\
  is_Some (node_at f (join_path (candidate_path Root id) "manifest.json")).
Proof.
  unfold Activate. intros (? & ? & [_ ->]%fs_reject_ok & E)%fs_bind_ok.
  apply fs_bind_ok in E as (? & ? & [Hid ->]%fs_reject_ok & E).
  apply fs_bind_ok in E as (f1 & c & Hs%fs_wrap_ok & E).
  assert (f1 = f) as -> by (pose proof (stat_read_only (candidate_path Root id) e f) as Hr; by rewrite Hs in Hr).
  apply fs_bind_ok in E as (? & ? & [_ ->]%fs_reject_ok & E).
  apply fs_bind_ok in E as (f1 & man & Hm%fs_wrap_ok & E).
  unfold stat in Hm. destruct (io_fault _ _ _); [discriminate|]. injection Hm as <- Hm.
  apply fs_bind_ok in E as (? & ? & [Hman ->]%fs_reject_ok & E). rewrite <- Hm in Hman.
  apply fs_bind_ok in E as (f2 & ? & Hmk%fs_wrap_ok & E).
  apply fs_bind_ok in E as (f3 & ? & Hw%fs_wrap_ok & E).
  destruct (write_file_cases (temp_pointer_path Root id) (marshal_pointer (pointer_of Root id)) e f2)
  as [(n & Hw' & -> & Hne)|(msg & f0 & Hw' & _)]; unfold pointer_of in Hw'; rewrite Hw' in Hw;
  [|discriminate]. injection Hw as <- <-.
  apply (swapPointer_ok _ _ _ _ _ _ _ (marshal_pointer (pointer_of Root id))) in E as [-> Hp].
  - split_and!; [done|done|done|]. apply bool_decide_eq_false in Hman. by apply not_eq_None_Some.
  - rewrite file_at_insert by done. by rewrite decide_True.
Qed.

(** Reading back a pointer that activation wrote. *)
Lemma LoadActivePointer_pointer_of Root id e f :
  is_blank Root = false -> is_blank id = false -> io_fault e "read" (pointer_path Root) = None ->
  file_at f (pointer_path Root) = Some (marshal_pointer (pointer_of Root id)) ->
  LoadActivePointer Root e f = (f, Ok (pointer_of Root id)).
Proof.
  intros HR Hid Hf Hp. unfold LoadActivePointer, mbind, fsop_bind, fs_lift. rewrite HR. simpl.
  unfold fs_wrap, read_file. rewrite Hf. unfold file_at in Hp.
  destruct (node_at f (pointer_path Root)) as [[c|]|]; [|discriminate..]. injection Hp as ->.
  rewrite unmarshal_marshal_pointer. simpl. rewrite Hid. simpl.
  by rewrite path_string_not_blank.
Qed.

Lemma activeCandidatePath_pointer_of Root id e f :
  is_blank Root = false -> is_blank id = false -> io_fault e "read" (pointer_path Root) = None ->
  file_at f (pointer_path Root) = Some (marshal_pointer (pointer_of Root id)) ->
  activeCandidatePath Root e f = (f, Ok (Some (candidate_path Root id))).
Proof.
  intros HR Hid Hf Hp. unfold activeCandidatePath.
  rewrite (LoadActivePointer_pointer_of Root id) by done. simpl.
  by rewrite clean_path_string by apply candidate_components.
Qed.
End Activation.

(** Staging and rollback, seen from the pointer. *)
Section Pointer.
Context `{ManifestCodec} `{PointerCodec}.

Lemma Stage_pointer Root b e f :
  file_at (Stage Root b e f).1 (pointer_path Root) = file_at f (pointer_path Root).
Proof.
  destruct (isPathWithinStagingRoot (candidate_path Root (ri_ID (rb_Revision b)))
  (candidates_dir Root)) eqn:Hw.
  - apply within_prefix in Hw; [|apply candidate_components]. apply Stage_touches. intros Hp.
    eapply pointer_not_candidate; [etransitivity; [exact Hw | exact Hp] | done].
  - unfold Stage, mbind, fsop_bind, fs_lift, reject_if. destruct (is_blank Root); [done|].
    destruct (ValidateRevisionBundle b); [|done]. destruct (is_blank _); [done|]. cbv zeta.
    by rewrite Hw.
Qed.

Lemma Rollback_err Root id k : err_keeps (pointer_path Root) (Rollback Root id k).
Proof.
  unfold Rollback. repeat (apply err_keeps_bind; [apply read_only_touches, lift_read_only|]; intros ?).
  intros e f f' msg. unfold mbind, fsop_bind, fs_wrap.
  destruct (Activate Root (ap_RevisionID k) e f) as [f1 [p|m]] eqn:E; [discriminate|].
  intros [= <- _]. by eapply Activate_err.
Qed.

Lemma Rollback_ok Root id k e f f' r :
  Rollback Root id k e f = (f', Ok r) ->
  r = MkRollbackResult (trim_space id) (ap_RevisionID k) true (Some (pointer_of Root (ap_RevisionID k))) /\
  trim_space id <> ap_RevisionID k /\
  file_at f' (pointer_path Root) = Some (marshal_pointer (pointer_of Root (ap_RevisionID k))).
Proof.
  unfold Rollback. intros (? & ? & [_ ->]%fs_reject_ok & E)%fs_bind_ok.
  apply fs_bind_ok in E as (? & ? & [_ ->]%fs_reject_ok & E).
  apply fs_bind_ok in E as (? & ? & [_ ->]%fs_reject_ok & E).
  apply fs_bind_ok in E as (? & ? & [Hne ->]%fs_reject_ok & E).
  apply fs_bind_ok in E as (f1 & p & Ha%fs_wrap_ok & E). injection E as <- <-.
  apply Activate_ok in Ha as (-> & _ & Hp & _). apply String.eqb_neq in Hne. done.
Qed.
End Pointer.

(** ** Properties *)
Section Properties.
Context `{ManifestCodec} `{PointerCodec}.


(** When Stage succeeds, the candidate directory holds exactly the bundle: every file of the
bundle is there with its content and there is no other file, both when the directory was
written and when an existing one was accepted. *)
Theorem Stage_materialises (Root : string) (b : RevisionBundle) (e : io_env) (f f' : fs)
  (dir : fpath) :
  NoDup (targets (candidate_path Root (ri_ID (rb_Revision b))) (rb_Files b)) ->
  Stage Root b e f = (f', Ok dir) ->
  dir = candidate_path Root (ri_ID (rb_Revision b)) /\
  forall q c, dir `prefix_of` q ->
  file_at f' q = Some c <->
  exists file, file ∈ rb_Files b /\ q = join_path dir (bf_Path file) /\ c = bf_Content file.
Proof.
  set (r := candidate_path Root _). intros Hn. unfold Stage.
  intros (? & ? & [_ ->]%fs_reject_ok & E)%fs_bind_ok.
  apply fs_bind_ok in E as (? & [] & Hv & E). unfold fs_lift in Hv. injection Hv as <- Hv.
  apply fs_bind_ok in E as (? & ? & [_ ->]%fs_reject_ok & E). cbv zeta in E. fold r in E.
  apply fs_bind_ok in E as (? & ? & [Hw ->]%fs_reject_ok & E).
  apply negb_false_iff, within_prefix in Hw; [|apply candidate_components].
  assert (Hr : r <> []).
  { intros Er. rewrite Er, candidates_dir_eq in Hw. apply prefix_nil_inv in Hw.
    by destruct (root_path Root). }
  pose proof (ValidateRevisionBundle_ok b Hv) as (m & _ & _ & _ & Hi & _).
  apply indexFiles_ok in Hi as (_ & Hsafe & _). rewrite Forall_forall in Hsafe.
  assert (Hpre : forall file, file ∈ rb_Files b -> r `prefix_of` join_path r (bf_Path file)).
  { intros file Hf. destruct (safe_path_inside r _ (Hsafe _ Hf)) as (tl & -> & _). by apply prefix_app_r. }
  apply fs_bind_ok in E as (f1 & staged & Hin & E).
  assert (f1 = f) as -> by (pose proof (inspectCandidate_read_only Root r b e f) as Hro;
  by rewrite Hin in Hro).
  (* both branches give: bundle files present, no other file below *)
  assert (Hdone : (forall file, file ∈ rb_Files b ->
  file_at f' (join_path r (bf_Path file)) = Some (bf_Content file)) /\
  (forall q c, r `prefix_of` q -> file_at f' q = Some c -> q ∈ targets r (rb_Files b)) /\ dir = r).
  { destruct staged.
    - injection E as <- <-. unfold inspectCandidate in Hin.
      apply fs_bind_ok in Hin as (f1 & ex & Hs%fs_wrap_ok & Hin).
      assert (f1 = f) as -> by (pose proof (stat_read_only r e f) as Hro; by rewrite Hs in Hro).
      destruct ex as [n|]; [|discriminate].
      apply fs_bind_ok in Hin as (f1 & mt & Hm%fs_wrap_ok & Hin). destruct mt.
      + unfold candidateMatchesBundle in Hm. apply fs_bind_ok in Hm as (f2 & cnt & Hc & Hm).
        unfold walk_count in Hc. destruct (io_fault _ _ _); [discriminate|]. injection Hc as <- Hcnt.
        destruct (negb _) eqn:Hcn; [discriminate|]. apply negb_false_iff, Nat.eqb_eq in Hcn.
        assert (Hfiles := matchFiles_ok _ _ _ _ _ Hm). split; [done|]. split; [|done].
        intros q c Hq Hqc. eapply same_count_no_others; [..|exact Hqc]; try done. congruence.
      + apply fs_bind_ok in Hin as (f2 & a & _ & Hin).
        apply fs_bind_ok in Hin as (f3 & ? & _ & Hin). discriminate.
    - apply fs_bind_ok in E as (f2 & ? & Hrm%fs_wrap_ok & E).
      apply fs_bind_ok in E as (f3 & ? & Hmk%fs_wrap_ok & E).
      apply fs_bind_ok in E as (f4 & [] & Hst & E). injection E as <- <-.
      assert (Hp : targets r (sort_on bf_Path (rb_Files b)) ≡ₚ targets r (rb_Files b))
      by (unfold targets; by rewrite sort_on_perm).
      apply stageFiles_ok in Hst as [H1 H2]; [|by rewrite Hp]. split; [|split; [|done]].
      + intros file Hf. apply H1. by apply elem_of_sort_on.
      + intros q c Hq Hqc. destruct (decide (q ∈ targets r (rb_Files b))) as [|Hno]; [done|].
        rewrite H2 in Hqc by (by rewrite Hp). exfalso.
        pose proof (file_at_mkdir r e f2 q) as Hmkq. rewrite Hmk in Hmkq. simpl in Hmkq.
        unfold remove_all in Hrm. destruct (io_fault e "remove" r); [discriminate|].
        assert (f2 = remove_under r (fun _ => false) f) as -> by congruence.
        rewrite Hmkq, file_at_removed in Hqc by done. discriminate. }
  destruct Hdone as (H1 & H2 & ->). split; [done|]. intros q c Hq. split.
  - intros Hc. apply H2 in Hc as Ht; [|done]. apply list_elem_of_fmap in Ht as (file & -> & Hf).
    exists file. split_and!; [done|done|]. rewrite H1 in Hc by done. congruence.
  - intros (file & Hf & -> & ->). by apply H1.
Qed.

(** C20: Activation is atomic.  Whatever file operation fails, an error leaves the active pointer as
it was; on success the pointer names the revision, whose candidate with its manifest was on
disk; either way no file but the pointer and its temporary neighbour is touched, and what is
then loaded is that pointer. *)
Theorem Activate_atomic (Root id : string) (e : io_env) (f : fs) :
  let f' := (Activate Root id e f).1 in
  (forall q, q <> pointer_path Root -> q <> temp_pointer_path Root id ->
    file_at f' q = file_at f q) /\
  match (Activate Root id e f).2 with
  | Err _ => file_at f' (pointer_path Root) = file_at f (pointer_path Root)
  | Ok p =>
    p = pointer_of Root id /\
    is_Some (node_at f (join_path (candidate_path Root id) "manifest.json")) /\
    forall e', io_fault e' "read" (pointer_path Root) = None ->
    LoadActivePointer Root e' f' = (f', Ok p)
  end.
Proof.
  intros f'. split.
  - intros q H1 H2. apply Activate_touches. naive_solver.
  - unfold f'. destruct (Activate Root id e f) as [f1 [p|msg]] eqn:E; simpl.
    + assert (HR : is_blank Root = false).
      { unfold Activate in E. by apply fs_bind_ok in E as (? & ? & [HR _]%fs_reject_ok & _). }
      apply Activate_ok in E as (-> & Hid & Hp & Hm). split_and!; [done|done|].
      intros e' He'. by apply LoadActivePointer_pointer_of.
    + by eapply Activate_err.
Qed.
End Properties.

(** ** Examples *)
#[export] Instance ActivePointer_eq_dec : EqDecision ActivePointer.
Proof. solve_decision. Defined.
#[export] Instance ActivePointer_countable : Countable ActivePointer.
Proof.
  apply (inj_countable' (fun p => (ap_RevisionID p, ap_CandidatePath p))
    (fun '(i, c) => MkActivePointer i c)). by intros [].
Defined.
#[export, refine] Instance text_pointer_codec : PointerCodec | 100 := {|
  marshal_pointer p := positive_text (encode p);
  unmarshal_pointer s :=
    match decode (text_positive s) with Some p => Ok p | None => Err "invalid pointer" end
|}.
Proof. intros p. by rewrite text_positive_text, decode_encode. Defined.

Definition sample_root : string := "/srv/waf".
Definition staged_fs : fs := (Stage sample_root sample_bundle io_ok ∅).1.
Definition live_fs : fs := (Activate sample_root "rev-1" io_ok staged_fs).1.

(** The same revision compiled to other contents. *)
Definition other_bundle : RevisionBundle := Eval vm_compute in
  match AssembleRevisionBundle sample_revision
    [[MkArtifact "nginx/nginx.conf" "nginx_config" "worker_processes 1;" (sha256_hex "worker_processes 1;")]] with
  | Ok b => b
  | Err _ => sample_bundle
  end.

Lemma staged_ok :
  Stage sample_root sample_bundle io_ok ∅ = (staged_fs, Ok ["srv"; "waf"; "candidates"; "rev-1"]%string).
Proof.
  assert (E : (Stage sample_root sample_bundle io_ok ∅).2 =
    Ok ["srv"; "waf"; "candidates"; "rev-1"]%string) by (vm_compute; reflexivity).
  rewrite <- E. apply surjective_pairing.
Qed.


Lemma Stage_materialises_witness :
  file_at staged_fs ["srv"; "waf"; "candidates"; "rev-1"; "nginx"; "nginx.conf"]%string =
    Some "events {}"%string.
Proof.
  destruct (Stage_materialises sample_root sample_bundle io_ok ∅ staged_fs
    ["srv"; "waf"; "candidates"; "rev-1"]%string) as [_ Hf]; [|exact staged_ok|].
  - apply (bool_decide_unpack _). vm_compute. exact I.
  - apply Hf; [by exists ["nginx"; "nginx.conf"]%string|].
    exists (MkBundleFile "nginx/nginx.conf" "events {}").
    split; [right; left | split; vm_compute; reflexivity].
Defined.

Lemma Activate_atomic_witness :
  LoadActivePointer sample_root io_ok live_fs =
    (live_fs, Ok (MkActivePointer "rev-1" "/srv/waf/candidates/rev-1")).
Proof.
  assert (E : (Activate sample_root "rev-1" io_ok staged_fs).2 = Ok (pointer_of sample_root "rev-1"))
    by (vm_compute; reflexivity).
  destruct (Activate_atomic sample_root "rev-1" io_ok staged_fs) as [_ Ha].
  rewrite E in Ha. destruct Ha as (_ & _ & Hl). exact (Hl io_ok eq_refl).
Defined.
