(* ===== verification/Apply.v ===== *)
(** * Applying a revision (control-plane/internal/services: runtime_apply.go,
      management_safeguard.go; compiler reload_health.go)

    [Apply] drives the whole chain: governance check, job bookkeeping, compile, validate, syntax
    check, management safeguard, stage, activate, reload and health check, and on failure the
    rollback to the last known good candidate.  The world is the runtime's file system, the two
    stores and a log of the commands, probes, events and audit records; every call to the outside
    has its own environment (clock, store faults, file faults, command results), numbered by the
    calls made so far, so a theorem about all environments covers every pattern of failures.
    The renderers behind [compileBundle] (instantiated in Live.v), the snapshot store and the nginx
    syntax check are arguments; the lock of the distributed coordinator is assumed held. *)
From Stdlib Require Import ZArith Lia Ascii String.
From stdpp Require Import base tactics gmap strings list pretty.
From S2P Require Import Prelude GoTime GoHash DocStore Service Files Bundle Candidates.
From S2P Require Revisions Jobs Governance ConfigStores GoSeq AntiDDoS Mapping.
Local Open Scope Z_scope.

(** ** The world *)
Inductive action :=
| Ran (name : string) (args : list string) (workdir : string) (failure : option string)
| CheckedHealth (pointer : ActivePointer) (failure : option string)
| Emitted (event_type revisionID jobID : string)
| Audited (audit_action revisionID : string) (succeeded : bool).

Record world := World {
  w_fs : fs;
  w_revisions : json_state Revisions.state;
  w_jobs : json_state Jobs.state;
  w_log : list action;
  w_calls : nat
}.

Record apply_env := ApplyEnv {
  ae_store : nat -> env;                 (* clock and faults of a store operation *)
  ae_io : nat -> io_env;                 (* faults of a file operation *)
  ae_command : nat -> option string;     (* CommandExecutor.Run *)
  ae_health : nat -> option string       (* HealthChecker.Check *)
}.

Abbreviation svc := (rop apply_env world).

Definition on_revisions {A} (m : sop Revisions.state A) : svc A := fun e w =>
  let (s', r) := m (ae_store e (w_calls w)) (w_revisions w) in
  (World (w_fs w) s' (w_jobs w) (w_log w) (S (w_calls w)), r).
Definition on_jobs {A} (m : sop Jobs.state A) : svc A := fun e w =>
  let (s', r) := m (ae_store e (w_calls w)) (w_jobs w) in
  (World (w_fs w) (w_revisions w) s' (w_log w) (S (w_calls w)), r).
Definition on_fs {A} (m : fsop A) : svc A := fun e w =>
  let (f', r) := m (ae_io e (w_calls w)) (w_fs w) in
  (World f' (w_revisions w) (w_jobs w) (w_log w) (S (w_calls w)), r).

Definition log (a : action) : svc unit := fun e w =>
  (World (w_fs w) (w_revisions w) (w_jobs w) (w_log w ++ [a]) (w_calls w), Ok tt).
Definition run_command (name : string) (args : list string) (workdir : string)
  : svc (option string) := fun e w =>
  let failure := ae_command e (w_calls w) in
  (World (w_fs w) (w_revisions w) (w_jobs w) (w_log w ++ [Ran name args workdir failure])
     (S (w_calls w)), Ok failure).
Definition check_health (pointer : ActivePointer) : svc (option string) := fun e w =>
  let failure := ae_health e (w_calls w) in
  (World (w_fs w) (w_revisions w) (w_jobs w) (w_log w ++ [CheckedHealth pointer failure])
     (S (w_calls w)), Ok failure).
Definition time_now : svc Z := fun e w => (w, Ok (now (ae_store e (w_calls w)))).

(** [emitEvent]; a failing event store is ignored. *)
Definition emitEvent (event_type revisionID jobID : string) : svc unit :=
  log (Emitted event_type revisionID jobID).

Definition TypeApplyStarted := "apply_started"%string.
Definition TypeApplySucceeded := "apply_succeeded"%string.
Definition TypeApplyFailed := "apply_failed"%string.
Definition TypeReloadFailed := "reload_failed"%string.
Definition TypeHealthCheckFailed := "health_check_failed"%string.
Definition TypeRollbackPerformed := "rollback_performed"%string.

(** ** Reload and health check (reload_health.go) *)
Record ReloadHealthResult := MkReload {
  rh_RevisionID : string;
  rh_ReloadSucceeded : bool;
  rh_HealthCheckSucceeded : bool;
  rh_ReloadError : option string;
  rh_HealthCheckError : option string
}.

Definition reload_args (nginxRoot : string) : list string :=
  ["-p"; nginxRoot; "-c"; "nginx.conf"; "-s"; "reload"]%string.

(** [filepath.Join(active.CandidatePath, "nginx")] *)
Definition nginx_root (active : ActivePointer) : string :=
  path_string (join_path (root_path (ap_CandidatePath active)) "nginx").

Definition ReloadRun (active : ActivePointer) : svc ReloadHealthResult :=
  if is_blank (ap_RevisionID active)
  then mret (MkReload "" false false (Some "active revision id is required"%string) None)
  else if is_blank (ap_CandidatePath active)
  then mret (MkReload "" false false (Some "active candidate path is required"%string) None)
  else
    failure ← run_command "nginx" (reload_args (nginx_root active)) (nginx_root active);
    match failure with
    | Some msg =>
        mret (MkReload (ap_RevisionID active) false false
                (Some ("runtime reload failed: " ++ msg)%string) None)
    | None =>
        failure ← check_health active;
        match failure with
        | Some msg =>
            mret (MkReload (ap_RevisionID active) true false None
                    (Some ("post-reload health-check failed: " ++ msg)%string))
        | None => mret (MkReload (ap_RevisionID active) true true None None)
        end
    end.

(** ** The management safeguard (management_safeguard.go) *)
(** The text from the first occurrence of [sub] on ([strings.Index] and a slice). *)
Fixpoint from_first (sub s : string) : option string :=
  if has_prefix sub s then Some s
  else match s with EmptyString => None | String _ s' => from_first sub s' end.
(** The text before the first occurrence, or all of it. *)
Fixpoint before_first (sub s : string) : string :=
  if has_prefix sub s then ""%string
  else match s with EmptyString => ""%string | String c s' => String c (before_first sub s') end.

Definition api_location : string := "location ^~ /api/ {".

Definition hasManagementModSecurityBypass (content : string) : bool :=
  if contains "ctl:ruleEngine=Off" content then true
  else match from_first api_location content with
       | None => false
       | Some apiBlock =>
           let rest := drop_chars (String.length api_location) apiBlock in
           let apiBlock := (api_location ++ before_first "location " rest)%string in
           contains "modsecurity off;" apiBlock && contains "proxy_pass http://" apiBlock
       end.

Definition managementSiteIDForHost (snapshot : Mapping.Snapshot) (host : string) : string :=
  let canonical := normalize_id host in
  match find_where (fun site => ConfigStores.Sites.Enabled site &&
                                String.eqb (normalize_id (ConfigStores.Sites.PrimaryHost site)) canonical)
          (Mapping.sn_Sites snapshot) with
  | Some (_, site) => ConfigStores.Sites.ID site
  | None => ""
  end.

(** The loop over the artifacts of one host: [None] is [goto nextHost]. *)
Fixpoint scanArtifacts (easyPath sitePath : string) (modSecurityEnabled : bool)
    (files : list BundleFile) : option bool :=
  match files with
  | [] => Some modSecurityEnabled
  | f :: files' =>
      if String.eqb (bf_Path f) easyPath || String.eqb (bf_Path f) sitePath then
        let enabled := modSecurityEnabled ||
          (contains "modsecurity on;" (bf_Content f) &&
           contains "modsecurity_rules_file " (bf_Content f)) in
        if hasManagementModSecurityBypass (bf_Content f) then None
        else scanArtifacts easyPath sitePath enabled files'
      else scanArtifacts easyPath sitePath modSecurityEnabled files'
  end.

Fixpoint checkManagementHosts (bundle : RevisionBundle) (snapshot : Mapping.Snapshot) (hosts : list string)
  : result unit :=
  match hosts with
  | [] => Ok tt
  | host :: hosts' =>
      let siteID := managementSiteIDForHost snapshot host in
      reject_if (is_empty siteID)
        ("management safeguard preflight: host " ++ host ++ " has no enabled site");;
      match scanArtifacts ("nginx/easy/" ++ siteID ++ ".conf") ("nginx/sites/" ++ siteID ++ ".conf")
              false (rb_Files bundle) with
      | Some true =>
          Err ("management safeguard preflight: artifact for host " ++ host ++ " is missing bypass")%string
      | _ => checkManagementHosts bundle snapshot hosts'
      end
  end.

Definition validateManagementSafeguard (bundle : RevisionBundle) (snapshot : Mapping.Snapshot)
  : result unit :=
  if Mapping.sn_ManagementHostsConfigured snapshot
  then checkManagementHosts bundle snapshot (Mapping.sn_ManagementHosts snapshot)
  else Ok tt.

(** ** Apply *)
Definition coalesceJobTime (item : Jobs.Job) : string :=
  if negb (is_blank (Jobs.job_FinishedAt item)) then Jobs.job_FinishedAt item
  else if negb (is_blank (Jobs.job_StartedAt item)) then Jobs.job_StartedAt item
  else Jobs.job_CreatedAt item.

Definition zero_job : Jobs.Job := Jobs.MkJob "" "" "" "" "" "" "" "" "".

Section Apply.
Context `{ManifestCodec} `{PointerCodec}.
Variable Root : string.
(** [s.governance != nil] *)
Variable governed : bool.
Variable loadSnapshot : string -> nat -> result Mapping.Snapshot.
Variable renderArtifacts : Revisions.Revision -> Mapping.Snapshot -> result (list (list ArtifactOutput)).
Variable syntaxValidate : RevisionBundle -> nat -> result unit.

Definition compileBundle (revision : Revisions.Revision) (snapshot : Mapping.Snapshot)
  : result RevisionBundle :=
  artifacts ← renderArtifacts revision snapshot;
  AssembleRevisionBundle
  (MkRevisionInput (Revisions.rev_ID revision) (Revisions.rev_Version revision)
    (Revisions.rev_CreatedAt revision)) artifacts.

(** A call to a collaborator that reads the world outside. *)
Definition ask {A} (f : nat -> result A) : svc A := fun e w =>
  (World (w_fs w) (w_revisions w) (w_jobs w) (w_log w) (S (w_calls w)), f (w_calls w)).

(** [fmt.Errorf("%v; rollback failed: %w", ...)] with the health error before the reload error *)
Definition rollback_message (result0 : ReloadHealthResult) (rollbackErr : string) : string :=
  match rh_HealthCheckError result0, rh_ReloadError result0 with
  | Some m, _ => (m ++ "; rollback failed: " ++ rollbackErr)%string
  | None, Some m => (m ++ "; rollback failed: " ++ rollbackErr)%string
  | None, None => ("rollback failed: " ++ rollbackErr)%string
  end.

Definition failure_message (result0 : ReloadHealthResult) (prefix0 default0 : string) : string :=
  match rh_HealthCheckError result0, rh_ReloadError result0 with
  | Some m, _ => (prefix0 ++ m)%string
  | None, Some m => (prefix0 ++ m)%string
  | None, None => default0
  end.

(** The branch [if knownGood != nil]. *)
Definition restoreKnownGood (revisionID jobID : string) (result0 : ReloadHealthResult)
  (knownGood : ActivePointer) : svc unit :=
  rollbackResult ← try_ (on_fs (Rollback Root revisionID knownGood));
  match rollbackResult with
  | Err rollbackErr => of_result (Err (rollback_message result0 rollbackErr))
  | Ok rollbackResult =>
    if rr_Succeeded rollbackResult then
      match rr_ActivationPointer rollbackResult with
      | None => of_result (Err "rollback did not return an activation pointer")
      | Some restored =>
        restoreResult ← ReloadRun restored;
        if negb (rh_ReloadSucceeded restoreResult) || negb (rh_HealthCheckSucceeded restoreResult)
        then of_result (Err (failure_message restoreResult "rollback runtime reload failed: "
            "rollback runtime reload failed"))
    else
      emitEvent TypeRollbackPerformed revisionID jobID;;
      log (Audited "revision.rollback_trigger" revisionID true)
  end
  else mret tt
  end.

(** Everything after a failed reload or health check. *)
Definition handleFailedReload (revisionID jobID : string) (result0 : ReloadHealthResult)
  (knownGood : result ActivePointer) : svc unit :=
  (if rh_ReloadError result0 is Some _ then emitEvent TypeReloadFailed revisionID jobID else mret tt);;
  (if rh_HealthCheckError result0 is Some _ then emitEvent TypeHealthCheckFailed revisionID jobID
    else mret tt);;
  (match knownGood with
    | Ok knownGood => restoreKnownGood revisionID jobID result0 knownGood
    | Err _ => mret tt
    end);;
  of_result (Err (failure_message result0 "" "apply failed")).

(** The part of [runApply] from the activation on. *)
Definition activateAndReload (revisionID jobID : string) (knownGood : result ActivePointer)
  : svc unit :=
  active ← on_fs (Activate Root revisionID);
  result0 ← ReloadRun active;
  if rh_ReloadSucceeded result0 && rh_HealthCheckSucceeded result0 then mret tt
  else handleFailedReload revisionID jobID result0 knownGood.

Definition runApply (revision : Revisions.Revision) (jobID : string) : svc unit :=
  snapshot ← ask (loadSnapshot (Revisions.rev_BundlePath revision));
  bundle ← of_result (compileBundle revision snapshot);
  of_result (ValidateRevisionBundle bundle);;
  ask (syntaxValidate bundle);;
  of_result (validateManagementSafeguard bundle snapshot);;
  knownGood ← try_ (on_fs (LoadActivePointer Root));
  on_fs (Stage Root bundle);;
  activateAndReload (Revisions.rev_ID revision) jobID knownGood.

(** [RecordApplyResult] and the pair [(job, error)] that is returned. *)
Definition recordResult (revisionID : string) (job : Jobs.Job) : svc (Jobs.Job * option string) :=
  r ← try_ (on_revisions (Revisions.RecordApplyResult revisionID (Jobs.job_ID job)
      (Jobs.job_Status job) (Jobs.job_Result job) (coalesceJobTime job)));
  mret (job, match r with Ok _ => None | Err msg => Some msg end).

Definition failApply (revisionID jobID err : string) : svc (Jobs.Job * option string) :=
  emitEvent TypeApplyFailed revisionID jobID;;
  try_ (on_revisions (Revisions.MarkFailed revisionID));;
  failedJob ← on_jobs (Jobs.MarkFailed jobID err);
  recordResult revisionID failedJob.

Definition applyBody (revisionID : string) : svc (Jobs.Job * option string) :=
  let revisionID := normalize_id revisionID in
  of_result (reject_if (is_empty revisionID) "revision id is required");;
  found ← on_revisions (Revisions.Get revisionID);
  match found with
  | None => of_result (Err ("revision " ++ revisionID ++ " not found")%string)
  | Some revision =>
    (if governed then of_result (Governance.EnsureRevisionCanApply revision) else mret tt);;
    t ← time_now;
    job ← on_jobs (Jobs.Create (Jobs.MkJob ("apply-" ++ revisionID ++ "-" ++ pretty t)
        Jobs.TypeApply "" revisionID "" "" "" "" ""));
    on_jobs (Jobs.MarkRunning (Jobs.job_ID job));;
    emitEvent TypeApplyStarted revisionID (Jobs.job_ID job);;
    applied ← try_ (runApply revision (Jobs.job_ID job));
    match applied with
    | Err msg => failApply revisionID (Jobs.job_ID job) msg
    | Ok _ =>
      marked ← try_ (on_revisions (Revisions.MarkActive revisionID));
      match marked with
      | Err msg => failApply revisionID (Jobs.job_ID job) msg
      | Ok _ =>
        emitEvent TypeApplySucceeded revisionID (Jobs.job_ID job);;
        succeededJob ← on_jobs (Jobs.MarkSucceeded (Jobs.job_ID job) "revision applied");
        recordResult revisionID succeededJob
      end
    end
  end.

(** [applyUnlocked] with its deferred audit record: the job and the error returned. *)
Definition applyUnlocked (revisionID : string) (e : apply_env) (w : world)
  : world * (Jobs.Job * option string) :=
  let (w1, r) := applyBody revisionID e w in
  let out := match r with Ok out => out | Err msg => (zero_job, Some msg) end in
  ((log (Audited "revision.apply_trigger" revisionID
        (match out.2 with None => true | Some _ => false end)) e w1).1, out).

(** [Apply], with the local mutex and the coordinator lock held. *)
Definition Apply (revisionID : string) := applyUnlocked revisionID.

(** The third component is [skipped]. *)
Definition ApplyIfNoActiveRevision (revisionID : string) (e : apply_env) (w : world)
  : world * (Jobs.Job * bool * option string) :=
  match on_revisions Revisions.CurrentActive e w with
  | (w1, Err msg) => (w1, (zero_job, false, Some msg))
  | (w1, Ok (Some active)) =>
    if negb (String.eqb (trim_space (Revisions.rev_ID active)) (trim_space revisionID))
    then (w1, (zero_job, true, None))
    else let (w2, r) := applyUnlocked revisionID e w1 in (w2, (r.1, false, r.2))
  | (w1, Ok None) => let (w2, r) := applyUnlocked revisionID e w1 in (w2, (r.1, false, r.2))
  end.
End Apply.

(** ** What each step does to the pointer and the log *)
(** The commands and probes of a reload that worked. *)
Definition reloaded (p : ActivePointer) : list action :=
  [Ran "nginx" (reload_args (nginx_root p)) (nginx_root p) None; CheckedHealth p None].

Lemma ReloadRun_cases p e w :
  is_blank (ap_RevisionID p) = false -> is_blank (ap_CandidatePath p) = false ->
  exists w' r, ReloadRun p e w = (w', Ok r) /\ w_fs w' = w_fs w /\
    w_revisions w' = w_revisions w /\ w_jobs w' = w_jobs w /\
    ((rh_ReloadSucceeded r && rh_HealthCheckSucceeded r = true /\ w_log w' = w_log w ++ reloaded p) \/
     (rh_ReloadSucceeded r && rh_HealthCheckSucceeded r = false /\
      (rh_ReloadError r <> None \/ rh_HealthCheckError r <> None))).
Proof.
  intros Hi Hp. unfold ReloadRun. rewrite Hi, Hp. rewrite rop_bind_run. unfold run_command.
  destruct (ae_command e (w_calls w)) as [m|].
  - do 2 eexists. split; [done|]. split_and!; try done. right. by split; [|left].
  - rewrite rop_bind_run. unfold check_health. simpl.
    destruct (ae_health e _) as [m|]; do 2 eexists; (split; [done|]); split_and!; try done.
    + right. by split; [|right].
    + left. by rewrite <- app_assoc.
Qed.

Section Outcome.
Context `{ManifestCodec} `{PointerCodec}.
Variable Root : string.

Definition pointer_file (w : world) : option string := file_at (w_fs w) (pointer_path Root).

(** [m] leaves the pointer file, the stores and the log alone, on success and on failure. *)
Definition quiet {A} (m : svc A) : Prop := forall e w,
  let w' := (m e w).1 in
  pointer_file w' = pointer_file w /\ w_log w' = w_log w /\
  w_revisions w' = w_revisions w /\ w_jobs w' = w_jobs w.

Lemma quiet_of_result {A} (r : result A) : quiet (of_result r).
Proof. by intros e w. Qed.
Lemma quiet_ask {A} (f : nat -> result A) : quiet (ask f).
Proof. by intros e w. Qed.
Lemma quiet_fs {A} (m : fsop A) :
  (forall e f, file_at (m e f).1 (pointer_path Root) = file_at f (pointer_path Root)) ->
  quiet (on_fs m).
Proof.
  intros Hm e w. unfold on_fs, pointer_file. specialize (Hm (ae_io e (w_calls w)) (w_fs w)).
  by destruct (m _ _) as [f' r].
Qed.
Lemma quiet_try {A} (m : svc A) : quiet m -> quiet (try_ m).
Proof. intros Hm e w. specialize (Hm e w). unfold try_. by destruct (m e w). Qed.

(** Running a quiet step first changes nothing in what the rest starts from. *)
Lemma quiet_bind_inv {A B} (m : svc A) (k : A -> svc B) e w w' r :
  quiet m -> (m ≫= k) e w = (w', r) ->
  (exists msg, r = Err msg /\ pointer_file w' = pointer_file w /\ w_log w' = w_log w) \/
  exists w1 a, m e w = (w1, Ok a) /\ k a e w1 = (w', r) /\
  pointer_file w1 = pointer_file w /\ w_log w1 = w_log w.
Proof.
  intros Hq. specialize (Hq e w) as (Hp & Hl & _ & _). rewrite rop_bind_run.
  destruct (m e w) as [w1 [a|msg]]; simpl in *.
  - intros E. right. by exists w1, a.
  - intros [= <- <-]. left. by exists msg.
Qed.

Lemma log_run a e w : log a e w =
  (World (w_fs w) (w_revisions w) (w_jobs w) (w_log w ++ [a]) (w_calls w), Ok tt).
Proof. done. Qed.

(** The outcomes of a failed apply, given what the pointer file held before. *)
Inductive failed_apply (revisionID k : string) (w : world) (w' : world) (msg : string) : Prop :=
| Nothing_activated :
  pointer_file w' = pointer_file w -> w_log w' = w_log w -> failed_apply revisionID k w w' msg
| Rollback_failed pre m :
  pointer_file w' = Some (marshal_pointer (pointer_of Root revisionID)) ->
  msg = (pre ++ "rollback failed: " ++ m)%string -> failed_apply revisionID k w w' msg
| Restored_unhealthy m :
  pointer_file w' = pointer_file w ->
  msg = ("rollback runtime reload failed: " ++ m)%string -> failed_apply revisionID k w w' msg
| Restored_and_reloaded pre jobID :
  pointer_file w' = pointer_file w ->
  w_log w' = pre ++ reloaded (pointer_of Root k) ++
  [Emitted TypeRollbackPerformed revisionID jobID; Audited "revision.rollback_trigger" revisionID true] ->
  failed_apply revisionID k w w' msg.

Lemma rollback_message_shape r m :
  exists pre, rollback_message r m = (pre ++ "rollback failed: " ++ m)%string.
Proof.
  unfold rollback_message. destruct (rh_HealthCheckError r) as [h|]; [|destruct (rh_ReloadError r) as [h|]].
  - exists (h ++ "; ")%string. by rewrite string_app_assoc.
  - exists (h ++ "; ")%string. by rewrite string_app_assoc.
  - by exists ""%string.
Qed.

Lemma pointer_of_reloads id e w :
  is_blank id = false ->
  exists w' r, ReloadRun (pointer_of Root id) e w = (w', Ok r) /\ w_fs w' = w_fs w /\
  w_revisions w' = w_revisions w /\ w_jobs w' = w_jobs w /\
  ((rh_ReloadSucceeded r && rh_HealthCheckSucceeded r = true /\
      w_log w' = w_log w ++ reloaded (pointer_of Root id)) \/
    (rh_ReloadSucceeded r && rh_HealthCheckSucceeded r = false /\
      (rh_ReloadError r <> None \/ rh_HealthCheckError r <> None))).
Proof. intros Hid. by apply ReloadRun_cases; [|apply path_string_not_blank]. Qed.

Lemma restoreKnownGood_outcome revisionID jobID result0 k e w w' r :
  is_blank k = false ->
  pointer_file w = Some (marshal_pointer (pointer_of Root revisionID)) ->
  restoreKnownGood Root revisionID jobID result0 (pointer_of Root k) e w = (w', r) ->
  match r with
  | Err msg =>
    (pointer_file w' = Some (marshal_pointer (pointer_of Root revisionID)) /\
      exists pre m, msg = (pre ++ "rollback failed: " ++ m)%string) \/
    (pointer_file w' = Some (marshal_pointer (pointer_of Root k)) /\
      exists m, msg = ("rollback runtime reload failed: " ++ m)%string)
  | Ok _ =>
    pointer_file w' = Some (marshal_pointer (pointer_of Root k)) /\
    exists pre, w_log w' = pre ++ reloaded (pointer_of Root k) ++
    [Emitted TypeRollbackPerformed revisionID jobID;
      Audited "revision.rollback_trigger" revisionID true]
  end.
Proof.
  intros Hk Hp. unfold restoreKnownGood. rewrite rop_bind_run. unfold try_, on_fs.
  destruct (Rollback Root revisionID (pointer_of Root k) (ae_io e (w_calls w)) (w_fs w))
  as [f1 [rr|m]] eqn:E.
  - apply Rollback_ok in E as (-> & _ & Hf). cbn [rr_Succeeded rr_ActivationPointer].
    change (ap_RevisionID (pointer_of Root k)) with k in *.
    set (w1 := World f1 _ _ _ _). rewrite rop_bind_run.
    destruct (pointer_of_reloads k e w1 Hk) as (w2 & r2 & -> & Hfs & _ & _ & Hr).
    assert (Hp2 : pointer_file w2 = Some (marshal_pointer (pointer_of Root k)))
    by (unfold pointer_file; by rewrite Hfs).
    destruct Hr as [[Hok Hl]|[Hbad Herr]].
    + apply andb_true_iff in Hok as [-> ->]. simpl. intros [= <- <-]. split; [exact Hp2|].
      exists (w_log w1). simpl. rewrite Hl. simpl. by rewrite <- !app_assoc.
    + rewrite <- negb_andb, Hbad. simpl. intros [= <- <-]. right. split; [done|].
      unfold failure_message. destruct (rh_HealthCheckError r2) as [h|]; [by exists h|].
      destruct (rh_ReloadError r2) as [h|]; [by exists h | by destruct Herr].
  - intros [= <- <-]. left. split.
    + unfold pointer_file. simpl. by rewrite (Rollback_err Root revisionID (pointer_of Root k) _ _ _ _ E).
    + destruct (rollback_message_shape result0 m) as [pre ->]. by exists pre, m.
Qed.

Lemma handleFailedReload_outcome revisionID jobID result0 k e w0 w w' r :
  is_blank k = false ->
  pointer_file w0 = Some (marshal_pointer (pointer_of Root k)) ->
  pointer_file w = Some (marshal_pointer (pointer_of Root revisionID)) ->
  handleFailedReload Root revisionID jobID result0 (Ok (pointer_of Root k)) e w = (w', r) ->
  exists msg, r = Err msg /\ failed_apply revisionID k w0 w' msg.
Proof.
  intros Hk Hp0 Hp. unfold handleFailedReload. rewrite rop_bind_run.
  assert (Hemit : forall (c : option string) t w1, exists l,
  (match c with Some _ => emitEvent t revisionID jobID | None => mret tt end) e w1 =
  (World (w_fs w1) (w_revisions w1) (w_jobs w1) (w_log w1 ++ l) (w_calls w1), Ok tt)).
  { intros [m|] t w1; [by eexists|]. exists []. rewrite app_nil_r. by destruct w1. }
  destruct (Hemit (rh_ReloadError result0) TypeReloadFailed w) as [l1 ->]. rewrite rop_bind_run.
  match goal with |- context [World ?a ?b ?c ?d ?n] => set (w1 := World a b c d n) end.
  destruct (Hemit (rh_HealthCheckError result0) TypeHealthCheckFailed w1) as [l2 ->].
  match goal with |- context [World ?a ?b ?c ?d ?n] => set (w2 := World a b c d n) end.
  rewrite rop_bind_run.
  assert (Hp2 : pointer_file w2 = Some (marshal_pointer (pointer_of Root revisionID))) by done.
  destruct (restoreKnownGood Root revisionID jobID result0 (pointer_of Root k) e w2) as [w3 r3] eqn:E.
  pose proof (restoreKnownGood_outcome _ _ _ _ _ _ _ _ Hk Hp2 E) as Ho.
  destruct r3 as [[]|msg]; intros [= <- <-]; eexists; (split; [done|]).
  - destruct Ho as [Hpw [pre Hl]]. eapply Restored_and_reloaded; [by rewrite Hp0 | exact Hl].
  - destruct Ho as [[Hpw (pre & m & ->)]|[Hpw (m & ->)]];
    [by eapply Rollback_failed | eapply Restored_unhealthy; [by rewrite Hp0 | done]].
Qed.

Lemma activateAndReload_outcome revisionID jobID k e w w' r :
  is_blank k = false ->
  pointer_file w = Some (marshal_pointer (pointer_of Root k)) ->
  activateAndReload Root revisionID jobID (Ok (pointer_of Root k)) e w = (w', r) ->
  match r with
  | Ok _ => pointer_file w' = Some (marshal_pointer (pointer_of Root revisionID)) /\
    w_log w' = w_log w ++ reloaded (pointer_of Root revisionID)
  | Err msg => failed_apply revisionID k w w' msg
  end.
Proof.
  intros Hk Hp. unfold activateAndReload. rewrite rop_bind_run. unfold on_fs at 1.
  destruct (Activate Root revisionID (ae_io e (w_calls w)) (w_fs w)) as [f1 [p|m]] eqn:E.
  - apply Activate_ok in E as (-> & Hid & Hf & _). rewrite rop_bind_run.
    match goal with |- context [World ?a ?b ?c ?d ?n] => set (w1 := World a b c d n) end.
    destruct (pointer_of_reloads revisionID e w1 Hid) as (w2 & r2 & -> & Hfs & _ & _ & Hr).
    assert (Hp2 : pointer_file w2 = Some (marshal_pointer (pointer_of Root revisionID)))
    by (unfold pointer_file; by rewrite Hfs).
    destruct Hr as [[-> Hl]|[-> _]].
    + intros [= <- <-]. by split; [|rewrite Hl].
    + intros E. destruct (handleFailedReload_outcome _ _ _ _ _ w _ _ _ Hk Hp Hp2 E) as (msg & -> & Ho).
      exact Ho.
  - intros [= <- <-]. apply Nothing_activated; [|done]. unfold pointer_file. simpl.
    by rewrite (Activate_err Root revisionID _ _ _ _ E).
Qed.
End Outcome.

Lemma failed_apply_from `{PointerCodec} Root id k w w0 w' msg :
  pointer_file Root w = pointer_file Root w0 -> w_log w = w_log w0 ->
  failed_apply Root id k w w' msg -> failed_apply Root id k w0 w' msg.
Proof.
  intros Hp Hl [Hp' Hl'|pre m Hp' Hm|m Hp' Hm|pre job Hp' Hl'].
  - apply Nothing_activated; congruence.
  - by eapply Rollback_failed.
  - eapply Restored_unhealthy; [congruence | done].
  - eapply Restored_and_reloaded; [congruence | done].
Qed.

(** ** Properties *)
Section Properties.
Context `{ManifestCodec} `{PointerCodec}.
Variable Root : string.
Variable governed : bool.
Variable loadSnapshot : string -> nat -> result Mapping.Snapshot.
Variable renderArtifacts : Revisions.Revision -> Mapping.Snapshot -> result (list (list ArtifactOutput)).
Variable syntaxValidate : RevisionBundle -> nat -> result unit.


(** C36: Governance holds the line: applying a revision that waits for approval is refused with an
error before anything happens: no job is created, no file, store document or pointer
changes, no command runs; the only trace is the failed audit record. *)
Theorem apply_needs_approval (id : string) (e : apply_env) (w : world) (d : Revisions.state)
  (i : nat) (rev : Revisions.Revision) :
  current Revisions.revisions_config (w_revisions w) = Some d ->
  Revisions.indexByID (Revisions.RevisionList d) (normalize_id id) = Some (i, rev) ->
  Revisions.rev_ApprovalStatus rev = Revisions.ApprovalPending ->
  let '(w', (job, err)) := Apply Root true loadSnapshot renderArtifacts syntaxValidate id e w in
  job = zero_job /\ err <> None /\ w_fs w' = w_fs w /\ w_jobs w' = w_jobs w /\
  visible (w_revisions w') = visible (w_revisions w) /\
  w_log w' = w_log w ++ [Audited "revision.apply_trigger" id false].
Proof.
  intros Hd Hi Ha. unfold Apply, applyUnlocked, applyBody.
  destruct (is_empty (normalize_id id)) eqn:Hid; [done|].
  rewrite rop_bind_run. unfold of_result at 1, reject_if at 1. rewrite rop_bind_run. unfold on_revisions.
  destruct (Revisions.Get (normalize_id id) (ae_store e (w_calls w)) (w_revisions w))
  as [s1 [found|msg]] eqn:E.
  - assert (Hv : visible s1 = visible (w_revisions w))
    by (pose proof (query_visible Revisions.revisions_config (fun _ current =>
    Ok (snd <$> Revisions.indexByID (Revisions.RevisionList current) (normalize_id id)))
    (ae_store e (w_calls w)) (w_revisions w)) as Hq; unfold Revisions.Get in E; by rewrite E in Hq).
    apply query_ok in E as (d0 & Hd0 & E). rewrite Hd in Hd0. injection Hd0 as <-.
    rewrite Hi in E. injection E as <-. simpl. rewrite rop_bind_run.
    unfold Governance.EnsureRevisionCanApply, of_result. rewrite Ha. simpl. done.
  - assert (Hv : visible s1 = visible (w_revisions w))
    by (pose proof (query_visible Revisions.revisions_config (fun _ current =>
    Ok (snd <$> Revisions.indexByID (Revisions.RevisionList current) (normalize_id id)))
    (ae_store e (w_calls w)) (w_revisions w)) as Hq; unfold Revisions.Get in E; by rewrite E in Hq).
    simpl. done.
Qed.
End Properties.

(** ** The stores during an apply *)
#[local] Existing Instance Revisions.wf_inv.
#[local] Existing Instance Jobs.wf_inv.

Definition keeps_stores {A} (m : svc A) : Prop := forall e w,
  w_revisions (m e w).1 = w_revisions w /\ w_jobs (m e w).1 = w_jobs w.

Lemma keeps_bind {A B} (m : svc A) (k : A -> svc B) :
  keeps_stores m -> (forall a, keeps_stores (k a)) -> keeps_stores (m ≫= k).
Proof.
  intros Hm Hk e w. rewrite rop_bind_run. specialize (Hm e w) as [H1 H2].
  destruct (m e w) as [w1 [a|msg]]; simpl in *; [|done].
  destruct (Hk a e w1) as [H3 H4]. split; congruence.
Qed.
Lemma keeps_result {A} (r : result A) : keeps_stores (of_result r).
Proof. done. Qed.
Lemma keeps_ret {A} (a : A) : keeps_stores (mret a : svc A).
Proof. done. Qed.
Lemma keeps_ask {A} (f : nat -> result A) : keeps_stores (ask f).
Proof. done. Qed.
Lemma keeps_log a : keeps_stores (log a).
Proof. done. Qed.
Lemma keeps_fs {A} (m : fsop A) : keeps_stores (on_fs m).
Proof. intros e w. unfold on_fs. by destruct (m _ _). Qed.
Lemma keeps_try {A} (m : svc A) : keeps_stores m -> keeps_stores (try_ m).
Proof. intros Hm e w. specialize (Hm e w). unfold try_. by destruct (m e w). Qed.
Lemma keeps_command n a d : keeps_stores (run_command n a d).
Proof. done. Qed.
Lemma keeps_health p : keeps_stores (check_health p).
Proof. done. Qed.
Create HintDb stores.
#[export] Hint Resolve keeps_bind keeps_result keeps_ret keeps_ask keeps_log keeps_fs keeps_try
  keeps_command keeps_health : stores.

Lemma keeps_reload p : keeps_stores (ReloadRun p).
Proof.
  unfold ReloadRun. destruct (is_blank _); [auto with stores|]. destruct (is_blank _); [auto with stores|].
  apply keeps_bind; [auto with stores|]. intros [m|]; [auto with stores|].
  apply keeps_bind; [auto with stores|]. intros [m|]; auto with stores.
Qed.
#[export] Hint Resolve keeps_reload : stores.

Lemma keeps_restore `{ManifestCodec} `{PointerCodec} Root id job r k :
  keeps_stores (restoreKnownGood Root id job r k).
Proof.
  apply keeps_bind; [auto with stores|]. intros [rr|m]; [|auto with stores].
  destruct (rr_Succeeded rr); [|auto with stores]. destruct (rr_ActivationPointer rr); [|auto with stores].
  apply keeps_bind; [auto with stores|]. intros x. destruct (_ || _); auto with stores.
  apply keeps_bind; intros; apply keeps_log.
Qed.

Lemma keeps_failed `{ManifestCodec} `{PointerCodec} Root id job r k :
  keeps_stores (handleFailedReload Root id job r k).
Proof.
  unfold handleFailedReload, emitEvent.
  apply keeps_bind; [destruct (rh_ReloadError r); auto with stores|]. intros _.
  apply keeps_bind; [destruct (rh_HealthCheckError r); auto with stores|]. intros _.
  apply keeps_bind; [destruct k; [apply keeps_restore | auto with stores]|]. auto with stores.
Qed.

Lemma keeps_runApply `{ManifestCodec} `{PointerCodec} Root ls ra sv rev job :
  keeps_stores (runApply Root ls ra sv rev job).
Proof.
  unfold runApply, activateAndReload. repeat (apply keeps_bind; [auto with stores|]; intros ?).
  destruct (_ && _); [auto with stores | apply keeps_failed].
Qed.

Section Verdict.
Context `{ManifestCodec} `{PointerCodec}.
Variable Root : string.
Variable governed : bool.
Variable loadSnapshot : string -> nat -> result Mapping.Snapshot.
Variable renderArtifacts : Revisions.Revision -> Mapping.Snapshot -> result (list (list ArtifactOutput)).
Variable syntaxValidate : RevisionBundle -> nat -> result unit.

Lemma runApply_ok rev job e w w' u :
  runApply Root loadSnapshot renderArtifacts syntaxValidate rev job e w = (w', Ok u) ->
  pointer_file Root w' = Some (marshal_pointer (pointer_of Root (Revisions.rev_ID rev))).
Proof.
  unfold runApply. do 7 (intros (? & ? & _ & E)%rop_bind_ok; revert E).
  unfold activateAndReload. intros (w1 & p & Ha & E)%rop_bind_ok. unfold on_fs in Ha.
  destruct (Activate Root _ _ _) as [f1 [q|m]] eqn:Ea; [|discriminate]. injection Ha as <- <-.
  apply Activate_ok in Ea as (-> & Hid & Hf & _).
  apply rop_bind_ok in E as (w2 & r & Hr & E).
  match type of Hr with ReloadRun _ _ ?w1 = _ =>
  destruct (pointer_of_reloads Root (Revisions.rev_ID rev) e w1 Hid)
  as (w3 & r3 & Hr3 & Hfs & _ & _ & Hc) end.
  rewrite Hr3 in Hr. injection Hr as <- <-.
  destruct Hc as [[Hok _]|[Hbad _]].
  - rewrite Hok in E. injection E as <- _. unfold pointer_file. by rewrite Hfs.
  - rewrite Hbad in E. unfold handleFailedReload in E.
    do 3 (apply rop_bind_ok in E as (? & ? & _ & E)). discriminate.
Qed.

Lemma on_revisions_ok {A} (m : sop Revisions.state A) e w w' a :
  on_revisions m e w = (w', Ok a) ->
  m (ae_store e (w_calls w)) (w_revisions w) = (w_revisions w', Ok a) /\
  w_fs w' = w_fs w /\ w_jobs w' = w_jobs w.
Proof. unfold on_revisions. destruct (m _ _) as [s r] eqn:E. by intros [= <- ->]. Qed.

Lemma on_jobs_ok {A} (m : sop Jobs.state A) e w w' a :
  on_jobs m e w = (w', Ok a) ->
  m (ae_store e (w_calls w)) (w_jobs w) = (w_jobs w', Ok a) /\
  w_fs w' = w_fs w /\ w_revisions w' = w_revisions w.
Proof. unfold on_jobs. destruct (m _ _) as [s r] eqn:E. by intros [= <- ->]. Qed.

Lemma try_revisions_fs {A} (m : sop Revisions.state A) e w w' r :
  try_ (on_revisions m) e w = (w', Ok r) -> w_fs w' = w_fs w /\ w_jobs w' = w_jobs w /\
  m (ae_store e (w_calls w)) (w_revisions w) = (w_revisions w', r).
Proof. unfold try_, on_revisions. destruct (m _ _) as [s r']. by intros [= <- <-]. Qed.

(** What [MarkActive] and then [RecordApplyResult] leave in the revision store. *)
Lemma activated_and_recorded id job e1 e2 s s1 s2 u1 u2 status0 result0 t :
  holds Revisions.wf s ->
  Revisions.MarkActive id e1 s = (s1, Ok u1) ->
  Revisions.RecordApplyResult id job status0 result0 t e2 s1 = (s2, Ok u2) ->
  exists d rev, visible s2 = Some (Decodes d) /\ Revisions.CurrentActiveRevisionID d = id /\
  rev ∈ Revisions.RevisionList d /\ Revisions.rev_ID rev = id /\
  Revisions.rev_Status rev = Revisions.StatusActive /\
  Revisions.rev_LastApplyJobID rev = trim_space job /\
  Revisions.rev_LastApplyStatus rev = trim_space status0.
Proof.
  intros Hs (d & d1 & Hd & H1 & Hv1)%transact_ok (d1' & d2 & Hd1 & H2 & Hv2)%transact_ok.
  pose proof (holds_current _ Revisions.wf s d Hs Hd) as [Hn _ _].
  unfold Revisions.markActiveTx in H1.
  destruct (Revisions.indexByID (Revisions.RevisionList d) id) as [[i x]|] eqn:Hf; [|discriminate].
  apply find_key_Some in Hf as [Hi Hid].
  rewrite (Revisions.activated_list id _ i x) in H1 by done. injection H1 as Ed1 _. subst d1.
  unfold current in Hd1. rewrite Hv1 in Hd1. injection Hd1 as Ed1. subst d1'.
  unfold Revisions.recordApplyResultTx in H2. cbn [doc_sort Revisions.revisions_config] in H2.
  destruct (Revisions.indexByID _ id) as [[j y]|] eqn:Hf2; [|discriminate].
  apply find_key_Some in Hf2 as [Hj Hjd]. injection H2 as Ed2 _. subst d2.
  eexists _, (Revisions.setApplyResult job status0 result0 t y). split; [exact Hv2|].
  split; [done|]. split.
  - cbn [Revisions.RevisionList]. unfold Revisions.sortRevisions at 1. rewrite elem_of_sort_on.
    eapply list_elem_of_lookup_2. by rewrite list_lookup_insert_eq by (by eapply lookup_lt_Some).
  - split; [exact Hjd|]. split; [|done].
    assert (Hy : y ∈ Revisions.activated id <$> Revisions.RevisionList d).
    { apply list_elem_of_lookup_2 in Hj. cbn [Revisions.RevisionList] in Hj.
      unfold Revisions.sortRevisions in Hj. by rewrite !elem_of_sort_on in Hj. }
    apply list_elem_of_fmap in Hy as (z & -> & _). simpl in *. revert Hjd.
    unfold Revisions.activated. destruct (String.eqb (Revisions.rev_ID z) id) eqn:Ez; [done|].
    intros Hz. exfalso. apply String.eqb_neq in Ez. apply Ez. rewrite <- Hz.
    unfold Revisions.deactivate. by destruct (String.eqb _ _).
Qed.

Lemma holds_jobs_create j e s s' a :
  holds Jobs.wf s -> Jobs.Create j e s = (s', Ok a) -> holds Jobs.wf s'.
Proof.
  intros Hs E. pose proof (Jobs.job_exec_wf (Jobs.CCreate j) e s Hs) as Hw. revert Hw.
  simpl. unfold fmap, sop_fmap. by rewrite E.
Qed.
Lemma holds_jobs_running id e s s' a :
  holds Jobs.wf s -> Jobs.MarkRunning id e s = (s', Ok a) -> holds Jobs.wf s'.
Proof.
  intros Hs E. pose proof (Jobs.job_exec_wf (Jobs.CMarkRunning id) e s Hs) as Hw. revert Hw.
  simpl. unfold fmap, sop_fmap. by rewrite E.
Qed.

Lemma finish_job id st res e w w' j :
  holds Jobs.wf (w_jobs w) ->
  on_jobs (Jobs.update id (Jobs.setFinished st res)) e w = (w', Ok j) ->
  Jobs.job_Status j = st /\ Jobs.job_Result j = trim_space res /\
  exists d, visible (w_jobs w') = Some (Decodes d) /\ j ∈ Jobs.JobList d.
Proof.
  intros Hw (E & _ & _)%on_jobs_ok. apply Jobs.update_ok in E as (x & d & -> & _ & Hv & Hin);
  [|apply Jobs.setFinished_keeps | done]. split_and!; [done|done|eauto].
Qed.

Lemma recordResult_ok id job e w w' j err :
  recordResult id job e w = (w', Ok (j, err)) ->
  j = job /\ w_jobs w' = w_jobs w /\ w_fs w' = w_fs w /\
  (err = None -> exists u, Revisions.RecordApplyResult id (Jobs.job_ID job) (Jobs.job_Status job)
    (Jobs.job_Result job) (coalesceJobTime job) (ae_store e (w_calls w)) (w_revisions w) =
    (w_revisions w', Ok u)).
Proof.
  unfold recordResult. intros (w1 & r & (Hf & Hj & Hr)%try_revisions_fs & E)%rop_bind_ok.
  injection E as <- <- <-. split_and!; [done|done|done|]. destruct r; [eauto | done].
Qed.

Lemma failApply_ok id jobID err e w w' j :
  holds Jobs.wf (w_jobs w) ->
  failApply id jobID err e w = (w', Ok (j, None)) ->
  Jobs.job_Status j = Jobs.StatusFailed /\ Jobs.job_Result j = trim_space err /\
  exists d, visible (w_jobs w') = Some (Decodes d) /\ j ∈ Jobs.JobList d.
Proof.
  intros Hw. unfold failApply. intros (w1 & ? & E1 & E)%rop_bind_ok. injection E1 as <- _.
  apply rop_bind_ok in E as (w2 & ? & (_ & Hj2 & _)%try_revisions_fs & E).
  apply rop_bind_ok in E as (w3 & fj & Hfj & E).
  apply recordResult_ok in E as (-> & Hj & _ & _).
  apply finish_job in Hfj as (? & ? & d & Hv & Hin); [|by rewrite Hj2].
  split_and!; [done|done|]. exists d. by rewrite Hj.
Qed.

(** C37: The verdict of Apply is what happened.  When Apply returns a job and no error, the job is
stored as returned and either it succeeded, and then the active pointer names the revision,
which the revision store lists as the one active revision with this job as its last apply; or
it failed, with the reason as its result. *)
Theorem apply_verdict (id : string) (e : apply_env) (w w' : world) (job : Jobs.Job) :
  holds Jobs.wf (w_jobs w) -> holds Revisions.wf (w_revisions w) ->
  Apply Root governed loadSnapshot renderArtifacts syntaxValidate id e w = (w', (job, None)) ->
  (exists d, visible (w_jobs w') = Some (Decodes d) /\ job ∈ Jobs.JobList d) /\
  ((Jobs.job_Status job = Jobs.StatusSucceeded /\
      pointer_file Root w' = Some (marshal_pointer (pointer_of Root (normalize_id id))) /\
      exists d rev, visible (w_revisions w') = Some (Decodes d) /\
      Revisions.CurrentActiveRevisionID d = normalize_id id /\ rev ∈ Revisions.RevisionList d /\
      Revisions.rev_ID rev = normalize_id id /\ Revisions.rev_Status rev = Revisions.StatusActive /\
      Revisions.rev_LastApplyJobID rev = trim_space (Jobs.job_ID job) /\
      Revisions.rev_LastApplyStatus rev = Jobs.StatusSucceeded) \/
    (Jobs.job_Status job = Jobs.StatusFailed /\ exists reason, Jobs.job_Result job = trim_space reason)).
Proof.
  intros Hwj Hwr. unfold Apply, applyUnlocked.
  destruct (applyBody Root governed loadSnapshot renderArtifacts syntaxValidate id e w)
  as [w1 [[j err]|msg]] eqn:E; [|by intros [=]]. rewrite log_run. simpl. intros [= <- -> ->].
  unfold applyBody in E. apply rop_bind_ok in E as (w2 & ? & E2 & E). injection E2 as <- _.
  apply rop_bind_ok in E as (w3 & found & Hget & E).
  apply on_revisions_ok in Hget as (Hget & Hf3 & Hj3).
  assert (Hv3 : visible (w_revisions w3) = visible (w_revisions w)).
  { pose proof (query_visible Revisions.revisions_config (fun _ current =>
    Ok (snd <$> Revisions.indexByID (Revisions.RevisionList current) (normalize_id id)))
    (ae_store e (w_calls w)) (w_revisions w)) as Hq. unfold Revisions.Get in Hget.
    by rewrite Hget in Hq. }
  apply query_ok in Hget as (d0 & _ & Hfound). destruct found as [rev|]; [|discriminate].
  assert (Hrid : Revisions.rev_ID rev = normalize_id id).
  { destruct (Revisions.indexByID _ _) as [[i y]|] eqn:Hx; [|discriminate]. injection Hfound as ->.
    by apply find_key_Some in Hx as [_ ?]. }
  apply rop_bind_ok in E as (w4 & ? & Hg & E).
  assert (w4 = w3) as -> by (destruct governed; by injection Hg).
  apply rop_bind_ok in E as (w4 & t & Ht & E). injection Ht as <- _.
  apply rop_bind_ok in E as (w4 & j0 & Hc & E). apply on_jobs_ok in Hc as (Hc & Hf4 & Hr4).
  apply rop_bind_ok in E as (w5 & j1 & Hmr & E). apply on_jobs_ok in Hmr as (Hmr & Hf5 & Hr5).
  apply rop_bind_ok in E as (w6 & ? & E6 & E). injection E6 as E6 _.
  assert (Hw5 : holds Jobs.wf (w_jobs w6)).
  { rewrite <- E6. simpl. eapply holds_jobs_running; [|exact Hmr].
    eapply holds_jobs_create; [|exact Hc]. by rewrite Hj3. }
  assert (Hr6 : visible (w_revisions w6) = visible (w_revisions w))
  by (rewrite <- E6; simpl; congruence). clear E6.
  apply rop_bind_ok in E as (w7 & applied & Hap & E). unfold try_ in Hap.
  destruct (runApply Root loadSnapshot renderArtifacts syntaxValidate rev (Jobs.job_ID j0) e w6)
  as [w7' ra] eqn:Era. injection Hap as -> ->.
  pose proof (keeps_runApply Root loadSnapshot renderArtifacts syntaxValidate rev (Jobs.job_ID j0) e w6)
  as [Hr7 Hj7]. rewrite Era in Hr7, Hj7. simpl in Hr7, Hj7.
  destruct applied as [u|msg].
  - apply runApply_ok in Era. rewrite Hrid in Era.
    apply rop_bind_ok in E as (w8 & marked & Hm & E).
    apply try_revisions_fs in Hm as (Hf8 & Hj8 & Hm).
    destruct marked as [u8|msg].
    + apply rop_bind_ok in E as (w9 & ? & E9 & E). injection E9 as E9 _.
      apply rop_bind_ok in E as (w10 & sj & Hsj & E).
      pose proof (on_jobs_ok _ _ _ _ _ Hsj) as (_ & Hf10 & Hr10).
      apply recordResult_ok in E as (-> & Hj & Hf & Hrec).
      destruct (Hrec eq_refl) as [u10 Hrr].
      apply finish_job in Hsj as (Hst & _ & d & Hvj & Hin);
      [|rewrite <- E9; simpl; by rewrite Hj8, Hj7].
      rewrite Hr10, <- E9 in Hrr. simpl in Hrr.
      split; [exists d; by rewrite Hj|]. left. split; [done|]. split.
      { unfold pointer_file in *. by rewrite Hf, Hf10, <- E9; simpl; rewrite Hf8. }
      assert (Hws : holds Revisions.wf (w_revisions w7))
      by (intros dd Hdd; apply Hwr; rewrite <- Hdd, Hr7; by symmetry).
      destruct (activated_and_recorded _ _ _ _ _ _ _ _ _ _ _ _ Hws Hm Hrr)
      as (dr & rv & H1 & H2 & H3 & H4 & H5 & H6 & H7).
      exists dr, rv. split_and!; try done. by rewrite H7, Hst.
    + apply failApply_ok in E as (H1 & H2 & H3); [|by rewrite Hj8, Hj7]. eauto.
  - apply failApply_ok in E as (H1 & H2 & H3); [|by rewrite Hj7]. eauto.
Qed.
End Verdict.

(** ** Examples *)
Definition demo_revision (id : string) (version : Z) : Revisions.Revision :=
  Revisions.MkRevision id version "2026-01-01T00:00:00Z" "sum" "snapshots/x.json" "" "" "" "" 0 [] "" "" ""
    "" "" "" "" [].

Definition demo_store : json_state Revisions.state :=
  run_history Revisions.exec
    [(healthy 1, Revisions.CSavePending (demo_revision "rev-1" 1));
     (healthy 2, Revisions.CSavePending (demo_revision "rev-2" 2));
     (healthy 3, Revisions.CSavePending
        (Revisions.set_rev_ApprovalStatus Revisions.ApprovalPending (demo_revision "rev-3" 3)))]
    new_file_state.

Definition demo_world : world := World ∅ demo_store new_file_state [] 0.
(** Everything works, but the health check numbered [bad] fails. *)
Definition demo_env (bad : nat) : apply_env :=
  ApplyEnv (fun n => healthy (Z.of_nat n)) (fun _ => io_ok) (fun _ => None)
    (fun n => if (n =? bad)%nat then Some "503"%string else None).

Definition demo_snapshot : Mapping.Snapshot :=
  Mapping.MkSnapshot [] [] [] [] [] [] [] [] (@AntiDDoS.DefaultSettings (GoSeq.Build_Environment (fun _ => ""%string))) [] [] []
    false false.
Definition demo_apply (id : string) (e : apply_env) (w : world) :=
  Apply sample_root true (fun _ _ => Ok demo_snapshot) (fun _ _ => Ok sample_artifacts)
    (fun _ _ => Ok tt) id e w.
Definition demo_run (id : string) (e : apply_env) (w : world) :=
  runApply sample_root (fun _ _ => Ok demo_snapshot) (fun _ _ => Ok sample_artifacts)
    (fun _ _ => Ok tt) (demo_revision id 2) "job-2" e w.

Definition demo_live : world := (demo_apply "REV-1 " (demo_env 1000) demo_world).1.
(** The number of the health check that follows the activation of the second revision. *)
Definition second_check : nat := w_calls demo_live + 6.


Lemma apply_needs_approval_witness :
  let '(w', (job, err)) := demo_apply "rev-3" (demo_env 1000) demo_world in
  job = zero_job /\ err <> None /\ w_fs w' = w_fs demo_world /\ w_jobs w' = w_jobs demo_world /\
  visible (w_revisions w') = visible (w_revisions demo_world) /\
  w_log w' = w_log demo_world ++ [Audited "revision.apply_trigger" "rev-3" false].
Proof.
  destruct (current Revisions.revisions_config (w_revisions demo_world)) as [d|] eqn:Hd;
    [|vm_compute in Hd; discriminate].
  destruct (Revisions.indexByID (Revisions.RevisionList d) (normalize_id "rev-3")) as [[i rev]|] eqn:Hi;
    [|vm_compute in Hd; injection Hd as <-; vm_compute in Hi; discriminate].
  apply (apply_needs_approval sample_root _ _ _ "rev-3" (demo_env 1000) demo_world d i rev Hd Hi).
  vm_compute in Hd. injection Hd as <-. vm_compute in Hi. injection Hi as <- <-. reflexivity.
Defined.

Lemma apply_verdict_witness :
  exists job, (demo_apply "REV-1 " (demo_env 1000) demo_world).2 = (job, None) /\
    Jobs.job_Status job = Jobs.StatusSucceeded /\
    exists d, visible (w_jobs demo_live) = Some (Decodes d) /\ job ∈ Jobs.JobList d.
Proof.
  assert (Hs : exists job, (demo_apply "REV-1 " (demo_env 1000) demo_world).2 = (job, None) /\
    Jobs.job_Status job = Jobs.StatusSucceeded) by (eexists; vm_compute; split; reflexivity).
  destruct Hs as (job & E & Hst). exists job. split; [exact E|]. split; [exact Hst|].
  apply (apply_verdict sample_root true (fun _ _ => Ok demo_snapshot) (fun _ _ => Ok sample_artifacts)
    (fun _ _ => Ok tt) "REV-1 " (demo_env 1000) demo_world demo_live job).
  - by apply holds_new_file.
  - apply history_preserves; [apply Revisions.exec_wf | apply holds_new_file].
  - unfold demo_live. rewrite <- E. apply surjective_pairing.
Defined.

(** Re-applying the live revision and failing before anything was activated (here: the syntax
    check rejects it) clears the active revision of the store, although the pointer and the
    runtime still serve it. *)
Lemma failed_reapply_clears_active :
  let w' := (Apply sample_root true (fun _ _ => Ok demo_snapshot) (fun _ _ => Ok sample_artifacts)
               (fun _ _ => Err "nginx -t failed") "rev-1" (demo_env 1000) demo_live).1 in
  pointer_file sample_root w' = Some (marshal_pointer (pointer_of sample_root "rev-1")) /\
  (Revisions.CurrentActive (healthy 9) (w_revisions demo_live)).2 <> Ok None /\
  (Revisions.CurrentActive (healthy 9) (w_revisions w')).2 = Ok None.
Proof. split; [vm_compute; reflexivity | split; [vm_compute; discriminate | vm_compute; reflexivity]]. Qed.
