(* ===== verification/Live.v ===== *)
(** * From the stored documents to the live runtime

    The apply service of Apply.v with the compiler of Compile.v behind it: what a successful apply
    leaves on disk, and what nginx decides from it. *)
From Stdlib Require Import ZArith Lia Ascii String.
From stdpp Require Import base tactics gmap strings list.
From S2P Require Import Prelude GoNet GoSeq ConfigStores DocStore Service Files Bundle Candidates Apply Inputs Render EasyRender Mapping Compile.
From S2P Require Revisions Jobs Governance AntiDDoS.
Local Set Warnings "-clear-no-such-hyp".
Local Open Scope string_scope.
Local Open Scope Z_scope.
Local Notation "a +++ b" := (@app _ a b) (at level 60, right associativity).

(** ** Paths below a candidate *)
Lemma join_path_parts r p : Forall component r -> Forall plain (split_on "/" p) -> join_path r p = r +++ split_on "/" p.
Proof.
  intros Hr Hp. unfold join_path, clean_from. rewrite clean_components.
  - by rewrite rev_app_distr, !rev_involutive.
  - pose proof (split_on_no_slash p) as Hs. rewrite Forall_forall in Hp, Hs |- *. intros c Hc. split; [by apply Hp | by apply Hs].
Qed.

Lemma join_split s : join "/" (split_on "/" s) = s.
Proof.
  induction s as [|c s IH]; [done|]. cbn [split_on]. destruct (Ascii.eqb_spec c "/") as [->|Hc].
  - destruct (split_on "/" s) as [|w ws] eqn:E; [by destruct s as [|d s]; cbn in E; repeat case_match|].
    change (join "/" ("" :: w :: ws)) with (String "/" (join "/" (w :: ws))). by rewrite IH.
  - destruct (split_on "/" s) as [|w ws] eqn:E; [by destruct s as [|d s]; cbn in E; repeat case_match|].
    destruct ws; cbn [join] in *; by rewrite <- IH.
Qed.

Section Live.
Context `{Environment} `{Regexps} `{Templates} `{EasyTemplates} `{FloatPrinter} `{ManifestCodec} `{PointerCodec}.
Variable Root : string.
Variable ReadMaterial : string -> result string.

Lemma candidate_targets_distinct revision snapshot b : certificate_names snapshot -> plain_names snapshot ->
  compileBundle ReadMaterial revision snapshot = Ok b ->
  NoDup (targets (candidate_path Root (ri_ID (rb_Revision b))) (rb_Files b)) /\ rb_Revision b = revision /\
  forall file, file ∈ rb_Files b -> Forall plain (split_on "/" (bf_Path file)).
Proof.
  intros Hc Hn. unfold compileBundle. intros (groups & Eg & E)%result_bind_ok. apply render_snapshot_sound in Eg; [|done].
  apply assembled_parts in E as (_ & _ & _ & _ & Hd & _ & ->). cbn [rb_Files rb_Revision].
  set (flat := sort_on art_Path (concat groups)) in *.
  assert (Hflat : forall a, a ∈ flat -> well_placed (plain_names snapshot) a).
  { intros a Ha%elem_of_sort_on%list_elem_of_In%in_concat. destruct Ha as (g & Hg & Ha). rewrite Forall_forall in Eg.
    apply list_elem_of_In in Hg, Ha. specialize (Eg g Hg). rewrite Forall_forall in Eg. by apply Eg. }
  set (files := (file_of <$> flat) +++ [_]).
  assert (Hplain : forall file, file ∈ files -> Forall plain (split_on "/" (bf_Path file))).
  { intros file [(a & -> & Ha)%list_elem_of_fmap | ->%list_elem_of_singleton]%elem_of_app.
    - by apply (Hflat a Ha).
    - apply plain_parts. vm_compute. reflexivity. }
  split; [|done].
  assert (Hpaths : NoDup (bf_Path <$> files)).
  { unfold files. rewrite fmap_app, <- list_fmap_compose. apply NoDup_app. split_and!; [done | | apply NoDup_singleton].
    intros p (a & -> & Ha)%list_elem_of_fmap Hp%list_elem_of_singleton. by destruct (Hflat a Ha) as [(_ & Hm & _) _]. }
  replace (targets _ files) with ((fun p => join_path (candidate_path Root (ri_ID revision)) p) <$> (bf_Path <$> files))
    by (unfold targets; by rewrite <- list_fmap_compose).
  apply NoDup_fmap_2_strong; [|done]. intros x y (fx & -> & Hx)%list_elem_of_fmap (fy & -> & Hy)%list_elem_of_fmap E.
  rewrite !join_path_parts in E by (by (apply candidate_components) || by apply Hplain). apply app_inv_head in E.
  by rewrite <- (join_split (bf_Path fx)), E, join_split.
Qed.

Lemma safe_identifier_component id : isSafeBundleIdentifier id = true -> component id.
Proof.
  unfold isSafeBundleIdentifier. destruct (is_empty (trim_space id) || _ || _) eqn:E; [done|]. intros Hid. split.
  - repeat split; intros ->; by vm_compute in E.
  - apply trim_chars; [by intros [[] [] [] [] [] [] [] []]|]. eapply all_chars_impl; [|exact Hid]. by intros [[] [] [] [] [] [] [] []].
Qed.

Lemma candidate_below id : isSafeBundleIdentifier id = true -> candidates_dir Root `prefix_of` candidate_path Root id.
Proof. intros [Hp Hs]%safe_identifier_component. unfold candidate_path. rewrite join_path_component by done. by eexists. Qed.

(** The temporary pointer lies beside the pointer, not in a candidate. *)
Lemma temp_not_candidate id q : isSafeBundleIdentifier id = true -> candidates_dir Root `prefix_of` q ->
  q <> temp_pointer_path Root id.
Proof.
  intros [_ Hs]%safe_identifier_component. rewrite candidates_dir_eq. unfold temp_pointer_path. rewrite join_path_component.
  - unfold active_dir. rewrite join_path_component by done. intros [k ->] E. rewrite <- !app_assoc in E. by apply app_inv_head in E.
  - repeat split; intros E%(f_equal String.length); rewrite !string_length_app in E; cbn in E; lia.
  - rewrite !all_chars_app. unfold no_slash in Hs. by rewrite Hs.
Qed.

(** The service, with the renderers of the compiler. *)
Definition render_revision (revision : Revisions.Revision) (snapshot : Snapshot) : result (list (list ArtifactOutput)) :=
  render_snapshot ReadMaterial (Revisions.rev_ID revision) snapshot.

Definition revision_input (revision : Revisions.Revision) : RevisionInput :=
  MkRevisionInput (Revisions.rev_ID revision) (Revisions.rev_Version revision) (Revisions.rev_CreatedAt revision).

Variable loadSnapshot : string -> nat -> result Snapshot.
Variable syntaxValidate : RevisionBundle -> nat -> result unit.

(** What is on disk when [runApply] reports success: the bundle compiled from the revision's snapshot,
    below the candidate the pointer names. *)
Lemma runApply_live revision jobID e w w' u :
  runApply Root loadSnapshot render_revision syntaxValidate revision jobID e w = (w', Ok u) ->
  exists n snapshot b, loadSnapshot (Revisions.rev_BundlePath revision) n = Ok snapshot /\
    compileBundle ReadMaterial (revision_input revision) snapshot = Ok b /\
    (certificate_names snapshot -> plain_names snapshot -> forall file, file ∈ rb_Files b ->
       file_at (w_fs w') (join_path (candidate_path Root (Revisions.rev_ID revision)) (bf_Path file)) = Some (bf_Content file)).
Proof.
  unfold runApply. intros (w1 & snapshot & Hl & E)%rop_bind_ok. unfold ask in Hl. injection Hl as <- Hl.
  apply rop_bind_ok in E as (w2 & b & Hb & E). injection Hb as <- Hb.
  apply rop_bind_ok in E as (w3 & [] & Hv & E). injection Hv as <- Hv.
  apply rop_bind_ok in E as (w4 & ? & _ & E). apply rop_bind_ok in E as (w5 & ? & _ & E).
  apply rop_bind_ok in E as (w6 & known & _ & E). apply rop_bind_ok in E as (w7 & dir & Hst & E).
  exists (w_calls w), snapshot, b. split; [done|]. split; [exact Hb|]. intros Hc Hn file Hfile.
  destruct (candidate_targets_distinct (revision_input revision) snapshot b Hc Hn Hb) as (Hd & Hrev & Hplain).
  unfold on_fs in Hst. destruct (Stage Root b _ _) as [f [d|m]] eqn:Es; [|discriminate]. injection Hst as <- <-.
  apply Stage_materialises in Es as [-> Hfiles]; [|done]. rewrite Hrev in Hfiles. cbn [ri_ID revision_input] in Hfiles.
  set (r := candidate_path Root (Revisions.rev_ID revision)) in *.
  assert (Hq : r `prefix_of` join_path r (bf_Path file)).
  { rewrite join_path_parts; [by apply prefix_app_r | apply candidate_components | by apply Hplain]. }
  assert (Hstaged : file_at f (join_path r (bf_Path file)) = Some (bf_Content file)) by (apply Hfiles; [done | by exists file]).
  pose proof (ValidateRevisionBundle_ok b Hv) as Hvalid.
  unfold activateAndReload in E. apply rop_bind_ok in E as (w8 & p & Ha & E). unfold on_fs in Ha.
  destruct (Activate Root _ _ _) as [f1 [q|m]] eqn:Ea; [|discriminate]. injection Ha as <- <-.
  destruct Hvalid as (_ & _ & _ & _ & _ & _ & Hid & _). rewrite Hrev in Hid. cbn [ri_ID revision_input] in Hid.
  assert (Hbelow : candidates_dir Root `prefix_of` join_path r (bf_Path file)) by (etransitivity; [by apply candidate_below | done]).
  assert (Hkept : file_at f1 (join_path r (bf_Path file)) = Some (bf_Content file)).
  { rewrite <- Hstaged.
    match type of Ea with Activate _ ?id ?io ?f0 = _ => pose proof (Activate_touches Root id io f0 (join_path r (bf_Path file))) as Ht end.
    rewrite Ea in Ht. apply Ht. intros [Hp|Hp]; [by eapply pointer_not_candidate | by eapply temp_not_candidate]. }
  apply Activate_ok in Ea as (-> & Hblank & _).
  apply rop_bind_ok in E as (w9 & r9 & Hr & E).
  match type of Hr with ReloadRun _ _ ?w8 = _ =>
    destruct (pointer_of_reloads Root (Revisions.rev_ID revision) e w8 Hblank) as (w3 & r3 & Hr3 & Hfs & _ & _ & Hcase) end.
  rewrite Hr3 in Hr. injection Hr as <- <-. destruct Hcase as [[Hok _]|[Hbad _]].
  - rewrite Hok in E. injection E as <- _. by rewrite Hfs.
  - rewrite Hbad in E. unfold handleFailedReload in E. do 3 (apply rop_bind_ok in E as (? & ? & _ & E)). discriminate.
Qed.

Variable governed : bool.

(** A job returned as succeeded ran the revision to the end, and nothing touched the files since. *)
Lemma Apply_succeeded id e w w' job : holds Jobs.wf (w_jobs w) ->
  Apply Root governed loadSnapshot render_revision syntaxValidate id e w = (w', (job, None)) ->
  Jobs.job_Status job = Jobs.StatusSucceeded ->
  exists rev jobID w6 w7 u, Revisions.rev_ID rev = normalize_id id /\
    (exists d, current Revisions.revisions_config (w_revisions w) = Some d /\ rev ∈ Revisions.RevisionList d) /\
    runApply Root loadSnapshot render_revision syntaxValidate rev jobID e w6 = (w7, Ok u) /\ w_fs w' = w_fs w7.
Proof.
  intros Hwj. unfold Apply, applyUnlocked.
  destruct (applyBody Root governed loadSnapshot render_revision syntaxValidate id e w) as [w1 [[j err]|msg]] eqn:E; [|by intros [=]].
  rewrite log_run. simpl. intros [= <- -> ->] Hok.
  unfold applyBody in E. apply rop_bind_ok in E as (w2 & ? & E2 & E). injection E2 as <- _.
  apply rop_bind_ok in E as (w3 & found & Hget & E). apply on_revisions_ok in Hget as (Hget & _ & Hj3).
  apply query_ok in Hget as (d0 & Hd0 & Hfound). destruct found as [rev|]; [|discriminate].
  assert (Hrev : rev ∈ Revisions.RevisionList d0 /\ Revisions.rev_ID rev = normalize_id id).
  { destruct (Revisions.indexByID _ _) as [[i y]|] eqn:Hx; [|discriminate]. injection Hfound as ->.
    apply find_key_Some in Hx as [Hi ?]. split; [by eapply list_elem_of_lookup_2 | done]. }
  destruct Hrev as [Hin Hrid].
  apply rop_bind_ok in E as (w4 & ? & Hg & E). assert (w4 = w3) as -> by (destruct governed; by injection Hg).
  apply rop_bind_ok in E as (w4 & t & Ht & E). injection Ht as <- _.
  apply rop_bind_ok in E as (w4 & j0 & Hc & E). apply on_jobs_ok in Hc as (Hc & _ & _).
  apply rop_bind_ok in E as (w5 & j1 & Hmr & E). apply on_jobs_ok in Hmr as (Hmr & _ & _).
  apply rop_bind_ok in E as (w6 & ? & E6 & E). injection E6 as E6 _.
  assert (Hw5 : holds Jobs.wf (w_jobs w6)).
  { rewrite <- E6. simpl. eapply holds_jobs_running; [|exact Hmr]. eapply holds_jobs_create; [|exact Hc]. by rewrite Hj3. }
  apply rop_bind_ok in E as (w7 & applied & Hap & E). unfold try_ in Hap.
  destruct (runApply Root loadSnapshot render_revision syntaxValidate rev (Jobs.job_ID j0) e w6) as [w7' ra] eqn:Era.
  injection Hap as -> ->.
  pose proof (keeps_runApply Root loadSnapshot render_revision syntaxValidate rev (Jobs.job_ID j0) e w6) as [_ Hj7].
  rewrite Era in Hj7. simpl in Hj7.
  destruct applied as [u|msg].
  - exists rev, (Jobs.job_ID j0), w6, w7, u. split; [done|]. split; [by exists d0|]. split; [done|].
    apply rop_bind_ok in E as (w8 & marked & Hm & E). apply try_revisions_fs in Hm as (Hf8 & Hj8 & _).
    destruct marked as [u8|msg].
    + apply rop_bind_ok in E as (w9 & ? & E9 & E). injection E9 as E9 _.
      apply rop_bind_ok in E as (w10 & sj & Hsj & E). apply on_jobs_ok in Hsj as (_ & Hf10 & _).
      apply recordResult_ok in E as (_ & _ & Hf & _). by rewrite Hf, Hf10, <- E9.
    + apply failApply_ok in E as (Hst & _); [|by rewrite Hj8, Hj7]. by rewrite Hst in Hok.
  - apply failApply_ok in E as (Hst & _); [|by rewrite Hj7]. by rewrite Hst in Hok.
Qed.

End Live.

(** ** Example: the sample snapshot of Compile.v is applied *)
Abbreviation sample_apply := (@Apply text_codec text_pointer_codec sample_root true (fun _ _ => Ok Compile.Samples.snapshot)
  (@render_revision Compile.Samples.plain_environment Compile.Samples.plain_regexps Compile.Samples.blank_pages
     Compile.Samples.blank_easy_pages Compile.Samples.one_float Compile.Samples.no_materials)
  (fun _ _ => Ok tt) "REV-1 " (demo_env 1000) demo_world).

Lemma sample_applied : (fun o => (Jobs.job_Status o.1, o.2)) (sample_apply.2) = (Jobs.StatusSucceeded, None).
Proof. vm_compute. reflexivity. Qed.

